(* ===== verification/_CoqProject ===== *)
-Q . S2P
Prelude.v
IpmiDefs.v
LibUtil.v
IpmbCodec.v
World.v
PowerStatus.v
IpmbSeq.v
IpmbSeqSpec.v
IpmbApi.v
IpmiQueue.v
IpmbTasks.v
IpmbTaskSpec.v
HandlerLib.v
AppHandler.v
IpmiCore.v
Ipmi61.v
StorageHandler.v
OemHandler.v
Oem1sBoard.v
Oem1sFlash.v
Oem1sSensor.v
Oem1sBridge.v
XhciDefs.v
XhciMem.v
XhciRing.v
XhciRingSpec.v
XhciEventSpec.v
XhciCmd.v
XhciInit.v
XhciSpec.v
XhciSim.v
ZephyrSvc.v
GpioFsDefs.v
GpioFs.v
GpioFsInv.v
GpioFsRun.v
GpioFsSpec.v
GpioFsEvent.v
GpioFsCalls.v
GpioFsProps.v
GpioFsSim.v
SpdmCerts.v
SpdmDefs.v
SpdmSecret.v
SpdmApp.v
SpdmSpec.v
SpdmResponder.v
SpdmRspSpec.v
SpdmServe.v
SpdmRace.v
SpdmRequester.v
SpdmReqSpec.v
SpdmReqFlow.v
SpdmReqRecv.v
SpdmConfig.v
SpdmSim.v
