(* ===== verification/Prelude.v ===== *)
(** * Verified parts of linkedsemi_zephyr_project

    The repository is a collection of Zephyr programs.  This library verifies
    four groups of them, on one prelude: the IPMI firmware under
    src/samples/ipmi_openbic/src, a controller (BIC) that talks to a host over
    a KCS interface and to other controllers (BMC, ME, sibling slots) over
    IPMB, that is, I2C messages with checksums, with its smaller variant under
    src/samples/ipmi_61/src; the USB host driver under
    src/samples/dwc3_host/src, which drives an xHCI controller through rings
    of transfer request blocks (TRBs) in shared memory; the GPIO chips as
    device files under src/samples/gpio_fs/src; and the responder and requester
    of SPDM, the protocol that authenticates devices, under src/samples/spdm.

    ** How the IPMI firmware works

    [main.c] polls the KCS device; a request for one of the commands the
    firmware answers itself is put in the queue of [ipmi/ipmi.c]
    ([notify_ipmi_client]).  The IPMI thread takes it out and runs
    [ipmi_cmd_handle]: a switch on the network function calls a handler
    ([app_handler.c], [chassis_handler.c]), a second switch on the source
    interface sends the response back, to KCS or over IPMB.
    [ipmb/ipmb.c] has for every IPMB index a transmit queue and thread, a
    receive thread, and a circular list of the requests that wait for a
    response, each under one of 64 sequence numbers; a timer thread removes
    old ones.  The receive thread validates and decodes a frame; a response
    is matched against the list and returned to where its request came from
    (a waiting thread, KCS, the ME, or another controller, wrapped in an OEM
    message); a request goes to the IPMI queue, or from the ME on to the BMC.

    ** How the xHCI driver works

    [xhci.c] keeps a command ring, an event ring and a ring per endpoint.
    The thread puts TRBs on a ring ([xhci_enqueue_trb]), each with the cycle
    bit that tells the controller that it is owned by it; the last TRB of a
    ring is a link back to its start that toggles the bit.  The thread rings a
    doorbell register and waits ([xhci_event_wait] in xhci_port.c) for
    the interrupt handler [xhci_isr], which takes the events off the event ring,
    keeps the last answer in the driver state and releases the thread.
    Commands enable slots, give devices addresses and configure endpoints
    through contexts in memory; [main.c] sets up the PHY and offers the
    operations as shell commands.

    ** How the GPIO files work

    [gpio_fs_init] registers a device file per GPIO chip.  An ioctl call on it
    describes the chip or a line, or requests lines: a line handle (up to 64
    lines whose values are read and set together) or an edge event of one line.
    A handle or event is a file of its own; the call allocates an entry of a table,
    registers a file system for it and opens it, and the descriptor goes back
    to the user.  Every chip has a mask of requested lines.  The interrupt
    puts a record into the ring buffer of the event and raises a poll
    signal; read takes records out.  One mutex protects tables and masks.

    ** How the SPDM programs work

    Both give libspdm callbacks that send and receive messages of MCTP over USB,
    lend it two buffers, and answer its questions about the device
    ([spdm_secret.c]: key pair, events, signatures).  The USB thread calls
    [rx_message], which keeps the latest message and gives a semaphore.  The
    responder takes it and lets libspdm dispatch the request; the requester
    runs a fixed sequence of calls of libspdm, in which the
    callback that receives waits on the semaphore.

    ** Files, in the order in which they depend on each other

    - [Prelude]: machine integers as [Z] with their wrap-around ([u8], [u16],
      [u32]), C arrays as lists whose accesses out of range are undefined
      ([arr_get], [arr_set], [memcpy]), the result type [res] ([Ret], [UB],
      [OutOfFuel]), the state monad [ST] with weakest preconditions [wp]
      (total correctness: [UB] and [OutOfFuel] satisfy none), bit lemmas.
    - [IpmiDefs]: ipmb.h and ipmi.h, i.e. the message record, its
      well-formedness [wf_msg], interfaces, functions, commands, codes.
    - [LibUtil]: lib/libutil.c.
    - [IpmbCodec]: [channel_index_mapping], the checksums, [validate_checksum],
      [ipmb_encode] and [ipmb_decode] of ipmb.c.  [frame] is the reference
      description of what is on the wire.
    - [World]: the shared state.  [channel] is what ipmb.c keeps per index in
      arrays, [w_heap] the malloc'ed list nodes by address, [w_held] the locks
      taken, [w_ext] the opaque state of everything outside.  [Kernel] is the
      interface to Zephyr, the C library and the I2C driver: functions on the
      opaque state, assumed only to return values of their C type and fresh
      blocks.  [sim] is a concrete kernel for the witnesses.
    - [PowerStatus]: lib/power_status.c.
    - [IpmbSeq]: the list and sequence-number functions of ipmb.c
      ([insert_req_ipmi_msg], [find_req_ipmi_msg], [clear_req_ipmi_msg],
      [IPMB_SeqTimeout_handler], [get_free_seq]) on the heap, the invariant
      [chan_ok] (a circular list of distinct live nodes, its length the
      counter, at most [MAX_SEQ_QUENE]), and their specification on the
      abstract queue of outstanding requests.
    - [IpmbSeqSpec]: all channels together ([world_ok]), steps of the threads
      in any order ([seq_step]), the refinement theorems, and the two ways
      the code leaves its specification.
    - [IpmbApi]: [ipmb_send_request], [ipmb_send_response], [ipmb_read].
    - [IpmiQueue]: [notify_ipmi_client] and the routing predicates of ipmi.c
      and pal/ipmi/plat_ipmi.c; [queue_laws] is the bounded queue.
    - [IpmbTasks], [IpmbTaskSpec]: one iteration of the transmit and receive
      threads, [create_ipmb_threads], [ipmb_init]; what they achieve.
    - [HandlerLib]: how handlers edit messages; the class [Handler], the
      contract of a handler towards the dispatcher (no undefined behaviour, a
      well-formed reply with the routing fields of the request, the IPMB
      untouched) and its proof automation.
    - [AppHandler]: app_handler.c and chassis_handler.c against a table.
    - [IpmiCore]: [ipmi_cmd_handle], [IPMI_handler] and the loop of main.c.
    - [Ipmi61]: what samples/ipmi_61 builds and has different: one command,
      another manufacturer number, a loop that goes on after a failed read.
    - [StorageHandler], [OemHandler]: storage_handler.c, sensor_handler.c and
      oem_handler.c, whose FRU, SDR, sensor and fan modules are outside the
      repository and hence classes.
    - [Oem1sBoard], [Oem1sFlash], [Oem1sSensor], [Oem1sBridge]:
      oem_1s_handler.c - GPIO, board and fan commands; firmware, registers,
      POST codes, PECI and JTAG; sensors; bridging, versions, APML and PLDM,
      and the switch [IPMI_OEM_1S_handler] over all of them.  What they call
      outside the repository are the classes [BoardSvc], [FlashSvc],
      [SensorSvc] and [BridgeSvc] with records of laws; [sim_board],
      [sim_flash], [sim_sensor] and [sim_bridge] instantiate them.  Build
      options are fields of the classes.  The build of this sample leaves the
      storage, sensor and OEM handlers and ipmb.c out ([MAX_IPMB_IDX] is 0
      there); they are modelled as the code they are.
    - [XhciDefs]: xhci_def.h: TRBs, rings, contexts, register offsets, the
      driver state [xhci_hcd].
    - [XhciMem]: memory as a finite map of words, and the class [Xhc], the
      controller and what Zephyr provides: register accesses, heap, cache, and
      [xhc_step], one step of the controller.
    - [XhciRing]: rings, doorbells, interrupt handler, waiting, ports,
      [xhci_command_submit].  [XhciRingSpec]: what the controller finds on a
      ring ([fetch_one], [ahead]) and that a ring is a queue.
      [XhciEventSpec]: events and commands.
    - [XhciCmd], [XhciInit]: the commands, contexts and transfers; the start
      of the controller and main.c.  [XhciSpec]: what they achieve.
    - [XhciSim]: a small controller on which the witnesses run the driver.
    - [ZephyrSvc]: ring buffers and poll signals of Zephyr with their laws, C
      strings.
    - [GpioFsDefs], [GpioFs]: the data and all operations of gpio_fs.c; class
      [GpioSvc] is the driver, the device file system and the file
      descriptors.  Pointers into a table are indices of it, the mutex is
      its depth, and [open] calls back the open operation of the file system it
      finds.
    - [GpioFsInv], [GpioFsRun]: the invariant [fs_ok] (a line of the
      mask has exactly one owner) and the rules for the statements of the code.
      [GpioFsSpec]: requests against reference functions.  [GpioFsEvent]:
      events as bounded queues of records.  [GpioFsCalls], [GpioFsProps]: all
      calls in any sequence, the theorems; [GpioFsSim] has a small driver.
    - [SpdmDefs]: constants of libspdm, and its calls as the free monad [lib],
      a tree of callbacks, which ends because the type is inductive; class
      [SpdmSvc].  [SpdmCerts], [SpdmSecret]: certs_generated.h and spdm_secret.c.
      [SpdmApp]: what the two main.c have in common (static variables, buffers,
      waiting) and os_stub.c.  [SpdmSpec]: the contract of libspdm [lib_ok],
      the invariant [app_ok], and that every call keeps it.
    - [SpdmResponder], [SpdmRspSpec], [SpdmServe], [SpdmRace]: main.c of the
      responder, that it is defined, the reference [answer_all] it refines, and
      what two requests at a time do.
    - [SpdmRequester], [SpdmReqSpec], [SpdmReqFlow], [SpdmReqRecv]: main.c of the
      requester, that it is defined, the flow [script] it follows, and
      its waiting.
    - [SpdmConfig]: the certificate parser, the settings of both programs, the
      key pair and events.  [SpdmSim]: a small libspdm for the witnesses.

    ** What the theorems show

    - Lists: from the state [ipmb_init] establishes, every interleaving of the
      locked operations in which no insertion is refused memory keeps the lists
      circular, disjoint, bounded and the locks released, and every operation
      is defined and terminates; each operation refines its abstract queue
      operation, the timeout sweep the relation [sweeps] between queues and
      clock readings; outstanding requests have distinct numbers marked used.
    - Wire: encoding then decoding gives the message back; a corrupted byte is
      detected and the frame changes nothing.
    - Routing: requests reach the IPMI queue with their origin, responses
      return to the source of exactly the request they answer, unsolicited
      ones are ignored, the transmit queue drains on a broken bus.  What a
      theorem says is sent is stated on the external states before and after:
      the lock taken, one message put into the queue of the index, the lock
      released ([sent], [answer_sent], [request_passed], [answer_passed]).
    - Commands: every accepted KCS request is answered by exactly the
      response its command specifies, also through queue and threads; commands
      never leave their buffers.
    - OEM 1S: every command that stays on the controller answers every message
      by a well-formed one and leaves the lists and locks alone
      ([local_command] names the exceptions, and [local_request] adds that
      the commands on registers name device registers, where [is_registers]
      holds, and write fewer than four bytes); MSG_OUT sends on exactly the
      request its bytes name; GPIO, firmware update, register, POST code and
      JTAG commands reach the module they are for with the fields of the
      request; the query of many sensors is the sequence of single queries;
      the bus of the BIOS flash returns to the host.
    - Defects: where the code does not do what it means to, a theorem says
      what it does (short KCS reads, failed allocation, evicted numbers, lost
      events reported as sent, index wrap of [ipmb_encode], unchecked indices,
      addresses and counts of OEM 1S requests, a shift by 32).
    - ipmi_61: its command is answered through queue and thread; a turn of its
      loop is undefined in exactly two cases, and a failed read can turn an
      old message into the second of them.
    - xHCI rings: under any interleaving of driver and controller a ring is
      a FIFO queue, over any number of laps, and the driver can add a TRB as
      long as there is room ([ring_fifo]).
    - xHCI events: the interrupt handler takes exactly the pending
      events and leaves none; it ends if every port that it resets reports the
      end of the reset, in particular without port status events; a command
      or transfer returns exactly the event that answers it, and the words of
      the TRBs of a transfer are those of its request ([setup_words],
      [data_words], [status_words], [normal_words]).  The contexts of endpoints are disjoint and inside their block.
    - xHCI defects: an answer that comes before the thread has announced that
      it waits is lost and the thread waits for ever; a port that never reports
      the end of its reset keeps the interrupt handler for ever
      ([port_reset_hangs]); the reset command is invisible to the controller; a device without slot leaves the table.
    - GPIO files: after the start, any sequence of calls and interrupts that
      run one at a time and use only lines and events in use ([enabled]) keeps
      the ownership of lines, leaves the mutex free and is defined; paths may be
      opened at any time; a request for lines does what its reference function
      says on every branch; an event is a queue, in which an interrupt that finds
      it full fails the assertion of the code, or with assertions disabled
      loses its record; the values of a handle go to and come from exactly
      its lines.
    - GPIO defects: a request tests whether lines are free before it takes the
      mutex, so two threads can own one line ([create_race], where the tests of
      both come before the commits); a poll can miss a record; the second
      close of a file opened twice is undefined.
    - SPDM: whatever messages arrive when, both programs are defined and their
      buffers are free between calls of libspdm; while clients wait for their
      answers the responder is a function of the requests; the requester makes
      the documented calls in order and stops at the first failure; a receive
      returns the first message of the waiting time; the certificate parser
      inverts the encoding; both sides offer the same algorithms.
    - SPDM defects: a second request redirects the answer to the first or is
      lost; a response that comes early makes the next receive fail.

    ** Conventions, bounds and fuel

    Threads are sequences of atomic steps: each list operation runs under its
    mutex, so it is one step.  Endless thread loops are modelled by one
    iteration.  List walks carry fuel, the number of live nodes plus one,
    which the invariant shows to be enough; the sweep has fuel quadratic in
    the length of the list because it may start again at the head
    ([sweep_bound]); [get_free_seq] has fuel for all 64 numbers.  The [wp]
    theorems include that the fuel suffices.  Logging, thread creation and
    priorities have no state here.  CHECK_NULL_ARG guards of pointers to
    objects that always exist have no counterpart.

    The xHCI controller steps, and its interrupt runs, while a thread spins,
    after it rang a doorbell, and before it reads the event ([env_turn]);
    memory does not change while the interrupt handler runs.  Every loop that
    waits for the hardware has the fuel [fuel] of its section; the theorems
    assume one step more than the controller needs, and those about waiting
    for ever hold for every fuel.  A 64-bit register is accessed as two of 32 bits,
    low word first.  Addresses are integers below 2^32, as on the target.

    In the SPDM programs the list [future] says which messages arrive at each
    moment: one moment passes between two callbacks, before a received message
    is marked as read, and every millisecond of a wait or sleep; when the
    list is at its end nothing arrives any more.  The callbacks are otherwise atomic.

    ** Not modelled

    The registration of I2C target devices, the power-up sequence of one board
    in main.c of the IPMI firmware, [power] of libutil.c (floating point); the
    shell and its number parsing; the test program in main.c of the GPIO files; and the other samples of the repository,
    which are separate programs. *)

From stdpp Require Export base numbers list option gmap.
From Stdlib Require Export ZArith Lia.
#[global] Open Scope Z_scope.

(** * Machine integers *)

Definition u8 (z : Z) : Z := z mod 2 ^ 8.
Definition u16 (z : Z) : Z := z mod 2 ^ 16.
Definition u32 (z : Z) : Z := z mod 2 ^ 32.

Definition is_u8 (z : Z) : Prop := 0 <= z < 2 ^ 8.
Definition is_u16 (z : Z) : Prop := 0 <= z < 2 ^ 16.
Definition is_u32 (z : Z) : Prop := 0 <= z < 2 ^ 32.

(** C's [bool] stored in an integer object. *)
Definition b2z (b : bool) : Z := if b then 1 else 0.
Definition z2b (z : Z) : bool := negb (z =? 0).

Create HintDb word.

Lemma u8_range z : is_u8 (u8 z).
Proof. apply Z.mod_pos_bound. reflexivity. Qed.
Lemma u16_range z : is_u16 (u16 z).
Proof. apply Z.mod_pos_bound. reflexivity. Qed.
Lemma u32_range z : is_u32 (u32 z).
Proof. apply Z.mod_pos_bound. reflexivity. Qed.
#[export] Hint Resolve u8_range u16_range u32_range : word.

Lemma u8_small z : is_u8 z -> u8 z = z.
Proof. apply Z.mod_small. Qed.
Lemma u16_small z : is_u16 z -> u16 z = z.
Proof. apply Z.mod_small. Qed.
Lemma u32_small z : is_u32 z -> u32 z = z.
Proof. apply Z.mod_small. Qed.

Lemma u8_idemp z : u8 (u8 z) = u8 z.
Proof. apply u8_small, u8_range. Qed.

Lemma is_u8_u16 z : is_u8 z -> is_u16 z.
Proof. unfold is_u8, is_u16. lia. Qed.
#[export] Hint Resolve is_u8_u16 : word.

Lemma land_mask_small z w m :
  0 <= w -> m = Z.ones w -> 0 <= z < 2 ^ w -> Z.land z m = z.
Proof. intros Hw -> Hz. rewrite Z.land_ones by lia. by apply Z.mod_small. Qed.

(** [word_lia] closes arithmetic goals about the widths above. *)
Ltac word_lia :=
  unfold u8, u16, u32, is_u8, is_u16, is_u32 in *;
  change (2 ^ 8) with 256 in *; change (2 ^ 16) with 65536 in *;
  change (2 ^ 32) with 4294967296 in *;
  try (Z.div_mod_to_equations; lia).

(** Boolean tests of the code to the propositions they decide. *)
Ltac zify_bool :=
  repeat match goal with
  | H : negb _ = true |- _ => apply negb_true_iff in H
  | H : negb _ = false |- _ => apply negb_false_iff in H
  | H : (_ || _)%bool = true |- _ => apply orb_true_iff in H
  | H : (_ || _)%bool = false |- _ => apply orb_false_iff in H; destruct H
  | H : (_ && _)%bool = true |- _ => apply andb_true_iff in H; destruct H
  | H : (_ && _)%bool = false |- _ => apply andb_false_iff in H
  | H : (_ =? _) = true |- _ => apply Z.eqb_eq in H
  | H : (_ =? _) = false |- _ => apply Z.eqb_neq in H
  | H : (_ <? _) = true |- _ => apply Z.ltb_lt in H
  | H : (_ <? _) = false |- _ => apply Z.ltb_ge in H
  | H : (_ <=? _) = true |- _ => apply Z.leb_le in H
  | H : (_ <=? _) = false |- _ => apply Z.leb_gt in H
  | H : (_ >? _) = true |- _ => rewrite Z.gtb_ltb in H
  | H : (_ >? _) = false |- _ => rewrite Z.gtb_ltb in H
  | H : (_ >=? _) = true |- _ => rewrite Z.geb_leb in H
  | H : (_ >=? _) = false |- _ => rewrite Z.geb_leb in H
  end.

(** * Results of C code *)

(** [UB]: the execution performs an access outside an object, dereferences
    NULL or a freed block, applies an operator outside its domain, or fails an
    enabled assertion.
    [OutOfFuel]: the loop bound given to a model was too small. *)
Inductive res (A : Type) : Type :=
| Ret (a : A)
| UB
| OutOfFuel.
Arguments Ret {A} _.
Arguments UB {A}.
Arguments OutOfFuel {A}.

Definition rbind {A B} (r : res A) (k : A -> res B) : res B :=
  match r with Ret a => k a | UB => UB | OutOfFuel => OutOfFuel end.

(** The postcondition [P] holds of the value; [UB] and [OutOfFuel] satisfy
    no postcondition. *)
Definition rwp {A} (r : res A) (P : A -> Prop) : Prop :=
  match r with Ret a => P a | _ => False end.

(** * The state monad *)

Definition ST (S A : Type) : Type := S -> res (A * S).

Definition ret {S A} (a : A) : ST S A := fun s => Ret (a, s).
Definition bind {S A B} (c : ST S A) (k : A -> ST S B) : ST S B :=
  fun s => rbind (c s) (fun '(a, s') => k a s').
Definition undefined {S A} : ST S A := fun _ => UB.
Definition gets {S A} (f : S -> A) : ST S A := fun s => Ret (f s, s).
Definition modify {S} (f : S -> S) : ST S unit := fun s => Ret (tt, f s).
Definition lift {S A} (r : res A) : ST S A := fun s => rbind r (fun a => Ret (a, s)).
Definition skip {S} : ST S unit := ret tt.

Declare Scope c_scope.
Delimit Scope c_scope with c.
Notation "'let!' x ':=' c 'in' k" := (bind c (fun x => k))
  (at level 10, x pattern, c at level 200, k at level 200,
   format "'[v' 'let!'  x  ':='  c  'in' '//' k ']'") : c_scope.
Notation "'do!' c 'in' k" := (bind c (fun _ => k))
  (at level 10, c at level 200, k at level 200,
   format "'[v' 'do!'  c  'in' '//' k ']'") : c_scope.
Notation "'rlet!' x ':=' c 'in' k" := (rbind c (fun x => k))
  (at level 10, x pattern, c at level 200, k at level 200,
   format "'[v' 'rlet!'  x  ':='  c  'in' '//' k ']'") : c_scope.
#[global] Open Scope c_scope.

(** * Weakest preconditions *)

Definition wp {S A} (c : ST S A) (Q : A -> S -> Prop) (s : S) : Prop :=
  rwp (c s) (fun '(a, s') => Q a s').

Lemma rwp_Ret {A} (a : A) (P : A -> Prop) : P a -> rwp (Ret a) P.
Proof. done. Qed.

Lemma rwp_bind {A B} (r : res A) (k : A -> res B) P :
  rwp r (fun a => rwp (k a) P) -> rwp (rbind r k) P.
Proof. by destruct r. Qed.

Lemma rwp_mono {A} (r : res A) (P Q : A -> Prop) :
  rwp r P -> (forall a, P a -> Q a) -> rwp r Q.
Proof. destruct r; simpl; auto. Qed.

Lemma rwp_inv {A} (r : res A) P : rwp r P -> exists a, r = Ret a /\ P a.
Proof. destruct r; simpl; try done. eauto. Qed.

Section WP.
Context {S : Type}.

Lemma wp_ret {A} (a : A) Q (s : S) : Q a s -> wp (ret a) Q s.
Proof. done. Qed.

Lemma wp_bind {A B} (c : ST S A) (k : A -> ST S B) Q s :
  wp c (fun a s' => wp (k a) Q s') s -> wp (bind c k) Q s.
Proof. unfold wp, bind. intros H. by destruct (c s) as [[a s']| |]. Qed.

Lemma wp_gets {A} (f : S -> A) Q s : Q (f s) s -> wp (gets f) Q s.
Proof. done. Qed.

Lemma wp_modify (f : S -> S) Q s : Q tt (f s) -> wp (modify f) Q s.
Proof. done. Qed.

Lemma wp_skip Q (s : S) : Q tt s -> wp skip Q s.
Proof. done. Qed.

Lemma wp_lift {A} (r : res A) Q (s : S) : rwp r (fun a => Q a s) -> wp (lift r) Q s.
Proof. unfold wp, lift. by destruct r. Qed.

Lemma wp_mono {A} (c : ST S A) (P Q : A -> S -> Prop) s :
  wp c P s -> (forall a s', P a s' -> Q a s') -> wp c Q s.
Proof. unfold wp. intros H HPQ. eapply rwp_mono; [exact H|]. intros [a s']. apply HPQ. Qed.

Lemma wp_and {A} (c : ST S A) (P Q : A -> S -> Prop) s :
  wp c P s -> wp c Q s -> wp c (fun a s' => P a s' /\ Q a s') s.
Proof. unfold wp. destruct (c s) as [[a s']| |]; [|done..]. by split. Qed.

Lemma wp_inv {A} (c : ST S A) Q s :
  wp c Q s -> exists a s', c s = Ret (a, s') /\ Q a s'.
Proof. intros ([a s'] & ? & ?)%rwp_inv. eauto. Qed.

Lemma wp_of_eq {A} (c : ST S A) (Q : A -> S -> Prop) s a s' :
  c s = Ret (a, s') -> Q a s' -> wp c Q s.
Proof. unfold wp. by intros ->. Qed.
End WP.

(** [wp_step] performs one step of symbolic execution; a component extends it
    with the rules of its own primitives by redefining [wp_hook]. *)
Ltac wp_hook := fail.
Ltac wp_step :=
  lazymatch goal with
  | |- wp (bind _ _) _ _ => apply wp_bind
  | |- wp (ret _) _ _ => apply wp_ret
  | |- wp skip _ _ => apply wp_skip
  | |- wp (gets _) _ _ => apply wp_gets
  | |- wp (modify _) _ _ => apply wp_modify
  | |- wp (if ?b then _ else _) _ _ => destruct b eqn:?
  | |- rwp (rbind _ _) _ => apply rwp_bind
  | |- rwp (Ret _) _ => apply rwp_Ret
  | |- rwp (if ?b then _ else _) _ => destruct b eqn:?
  | |- _ => wp_hook
  end.
Ltac wp_run := repeat (wp_step; cbn beta in * ).

(** * Running a sequence of statements *)

Lemma bind_run {S A B} (c : ST S A) (k : A -> ST S B) s a s' :
  c s = Ret (a, s') -> bind c k s = k a s'.
Proof. unfold bind. by intros ->. Qed.

(** Runs the first statement, whose result [tac] finds. *)
Tactic Notation "run_by" tactic3(tac) := erewrite bind_run by (tac); cbn beta.

(** * Arrays *)

(** A C array of integers is the list of its elements; an access outside it
    is undefined behaviour. *)
Definition arr_get {A} (l : list A) (i : Z) : res A :=
  if (0 <=? i) then match l !! Z.to_nat i with Some x => Ret x | None => UB end else UB.

Definition arr_set {A} (l : list A) (i : Z) (x : A) : res (list A) :=
  if (0 <=? i) && (i <? Z.of_nat (length l)) then Ret (<[Z.to_nat i := x]> l) else UB.

(** The [n] elements from [off], the source operand of a [memcpy]. *)
Definition arr_slice {A} (l : list A) (off n : Z) : res (list A) :=
  if (0 <=? off) && (0 <=? n) && (off + n <=? Z.of_nat (length l))
  then Ret (take (Z.to_nat n) (drop (Z.to_nat off) l)) else UB.

(** [src] written over [dst] from [off], the destination of a [memcpy]. *)
Definition arr_blit {A} (dst : list A) (off : Z) (src : list A) : res (list A) :=
  if (0 <=? off) && (off + Z.of_nat (length src) <=? Z.of_nat (length dst))
  then Ret (take (Z.to_nat off) dst ++ src ++ drop (Z.to_nat off + length src) dst)
  else UB.

Definition memcpy {A} (dst : list A) (doff : Z) (src : list A) (soff n : Z) : res (list A) :=
  rlet! s := arr_slice src soff n in arr_blit dst doff s.

Definition bytes (l : list Z) : Prop := Forall is_u8 l.

Lemma arr_get_ok {A} (l : list A) i :
  0 <= i < Z.of_nat (length l) -> exists x, arr_get l i = Ret x /\ l !! Z.to_nat i = Some x.
Proof.
  intros [H0 H1]. unfold arr_get. rewrite (proj2 (Z.leb_le 0 i)) by done.
  destruct (lookup_lt_is_Some_2 l (Z.to_nat i)) as [x Hx]; [lia|].
  exists x. by rewrite Hx.
Qed.

Lemma arr_get_Ret {A} (l : list A) i x :
  0 <= i -> l !! Z.to_nat i = Some x -> arr_get l i = Ret x.
Proof. intros H0 Hx. unfold arr_get. rewrite (proj2 (Z.leb_le 0 i)) by done. by rewrite Hx. Qed.

Lemma arr_get_UB {A} (l : list A) i :
  i < 0 \/ Z.of_nat (length l) <= i -> arr_get l i = UB.
Proof.
  intros H. unfold arr_get. destruct (Z.leb_spec 0 i); [|done].
  rewrite lookup_ge_None_2; [done|]. lia.
Qed.

Lemma arr_set_ok {A} (l : list A) i x :
  0 <= i < Z.of_nat (length l) -> arr_set l i x = Ret (<[Z.to_nat i := x]> l).
Proof.
  intros [H0 H1]. unfold arr_set.
  by rewrite (proj2 (Z.leb_le 0 i)), (proj2 (Z.ltb_lt i _)).
Qed.

Lemma arr_slice_ok {A} (l : list A) off n :
  0 <= off -> 0 <= n -> off + n <= Z.of_nat (length l) ->
  arr_slice l off n = Ret (take (Z.to_nat n) (drop (Z.to_nat off) l)).
Proof.
  intros H0 H1 H2. unfold arr_slice.
  by rewrite (proj2 (Z.leb_le 0 off)), (proj2 (Z.leb_le 0 n)), (proj2 (Z.leb_le _ _)).
Qed.

Lemma arr_blit_ok {A} (dst src : list A) off :
  0 <= off -> off + Z.of_nat (length src) <= Z.of_nat (length dst) ->
  arr_blit dst off src =
    Ret (take (Z.to_nat off) dst ++ src ++ drop (Z.to_nat off + length src) dst).
Proof.
  intros H0 H1. unfold arr_blit.
  by rewrite (proj2 (Z.leb_le 0 off)), (proj2 (Z.leb_le _ _)).
Qed.

Lemma length_blit {A} (dst src : list A) off :
  0 <= off -> off + Z.of_nat (length src) <= Z.of_nat (length dst) ->
  length (take (Z.to_nat off) dst ++ src ++ drop (Z.to_nat off + length src) dst) = length dst.
Proof. intros. rewrite !length_app, length_take, length_drop. lia. Qed.

Lemma length_slice {A} (l : list A) off n :
  0 <= off -> 0 <= n -> off + n <= Z.of_nat (length l) ->
  Z.of_nat (length (take (Z.to_nat n) (drop (Z.to_nat off) l))) = n.
Proof. intros. rewrite length_take, length_drop. lia. Qed.

Lemma bytes_app l1 l2 : bytes l1 -> bytes l2 -> bytes (l1 ++ l2).
Proof. apply Forall_app_2. Qed.
Lemma bytes_take n l : bytes l -> bytes (take n l).
Proof. apply Forall_take. Qed.
Lemma bytes_drop n l : bytes l -> bytes (drop n l).
Proof. apply Forall_drop. Qed.
Lemma bytes_insert i x l : bytes l -> is_u8 x -> bytes (<[i := x]> l).
Proof. intros. by apply Forall_insert. Qed.
Lemma bytes_lookup l i x : bytes l -> l !! i = Some x -> is_u8 x.
Proof. intros Hl Hx. eapply Forall_lookup_1 in Hl; eauto. Qed.
Lemma bytes_cons x l : is_u8 x -> bytes l -> bytes (x :: l).
Proof. by constructor. Qed.
Lemma bytes_nil : bytes [].
Proof. constructor. Qed.
Lemma bytes_map_u8 l : bytes (u8 <$> l).
Proof. apply Forall_fmap, Forall_true. intros x. apply u8_range. Qed.
Lemma bytes_replicate n x : is_u8 x -> bytes (replicate n x).
Proof. apply Forall_replicate. Qed.
#[export] Hint Resolve bytes_app bytes_take bytes_drop bytes_insert bytes_cons bytes_nil
  bytes_map_u8 bytes_replicate : word.

Lemma rwp_arr_get {A} (l : list A) i P :
  0 <= i < Z.of_nat (length l) -> (forall x, l !! Z.to_nat i = Some x -> P x) ->
  rwp (arr_get l i) P.
Proof. intros Hi HP. destruct (arr_get_ok l i Hi) as (x & -> & Hx). by apply HP. Qed.

Lemma rwp_arr_set {A} (l : list A) i x P :
  0 <= i < Z.of_nat (length l) -> P (<[Z.to_nat i := x]> l) -> rwp (arr_set l i x) P.
Proof. intros Hi HP. by rewrite arr_set_ok. Qed.

(** * Loops *)

(** [for (i = i0; i < i0 + n; i++) body(i)] over a state. *)
Fixpoint rfor {S} (n : nat) (i : Z) (body : Z -> S -> res S) (s : S) : res S :=
  match n with
  | O => Ret s
  | S n' => rlet! s' := body i s in rfor n' (i + 1) body s'
  end.

(** [for (i = lo; i < hi; i++)] *)
Definition for_range {S} (lo hi : Z) (body : Z -> S -> res S) (s : S) : res S :=
  rfor (Z.to_nat (hi - lo)) lo body s.

Lemma rfor_ext {S} n i body body' (s : S) :
  (forall j s, body j s = body' j s) -> rfor n i body s = rfor n i body' s.
Proof.
  intros Hb. revert i s. induction n as [|n IH]; intros i s; [done|]. cbn [rfor]. rewrite Hb.
  destruct (body' i s); [apply IH|done..].
Qed.

Lemma rwp_rfor {S} (I : Z -> S -> Prop) n i body (s : S) :
  I i s ->
  (forall j s, i <= j < i + Z.of_nat n -> I j s -> rwp (body j s) (I (j + 1))) ->
  rwp (rfor n i body s) (I (i + Z.of_nat n)).
Proof.
  revert i s. induction n as [|n IH]; intros i s HI Hbody; simpl.
  { by rewrite Z.add_0_r. }
  apply rwp_bind. eapply rwp_mono; [apply Hbody; [lia|done]|].
  intros s' HI'. replace (i + Z.of_nat (Datatypes.S n)) with (i + 1 + Z.of_nat n) by lia.
  apply IH; [done|]. intros j s'' Hj. apply Hbody. lia.
Qed.

Lemma rwp_for_range {S} (I : Z -> S -> Prop) lo hi body (s : S) P :
  lo <= hi ->
  I lo s ->
  (forall j s, lo <= j < hi -> I j s -> rwp (body j s) (I (j + 1))) ->
  (forall s, I hi s -> P s) ->
  rwp (for_range lo hi body s) P.
Proof.
  intros Hle HI Hbody HP. unfold for_range.
  eapply rwp_mono; [apply (rwp_rfor I); [done|intros; apply Hbody; [lia|done]]|].
  intros s'. replace (lo + Z.of_nat (Z.to_nat (hi - lo))) with hi by lia. apply HP.
Qed.

Lemma for_range_empty {S} lo hi body (s : S) : hi <= lo -> for_range lo hi body s = Ret s.
Proof. intros. unfold for_range. by replace (Z.to_nat (hi - lo)) with O by lia. Qed.

(** [for (i = i0; i < i0 + n; i++)] over a stateful body. *)
Fixpoint st_for {S A} (n : nat) (i : Z) (body : Z -> A -> ST S A) (a : A) : ST S A :=
  match n with
  | O => ret a
  | Datatypes.S n' => let! a' := body i a in st_for n' (i + 1) body a'
  end.

(** An invariant that every iteration keeps holds at the end. *)
Lemma wp_st_for {S A} (I : Z -> A -> S -> Prop) n i body (a : A) (s : S) Q :
  I i a s ->
  (forall j a s, i <= j < i + Z.of_nat n -> I j a s -> wp (body j a) (I (j + 1)) s) ->
  (forall a s, I (i + Z.of_nat n) a s -> Q a s) ->
  wp (st_for n i body a) Q s.
Proof.
  revert i a s. induction n as [|n IH]; intros i a s HI Hbody HQ; cbn [st_for].
  { apply wp_ret, HQ. by rewrite Z.add_0_r. }
  apply wp_bind. eapply wp_mono; [apply Hbody; [lia|done]|]. intros a' s' HI'.
  apply IH; [done|intros; apply Hbody; [lia|done]|].
  intros a'' s''. replace (i + 1 + Z.of_nat n) with (i + Z.of_nat (Datatypes.S n)) by lia. apply HQ.
Qed.

(** A loop over the elements of a list, each of whose rounds is the step [f]
    in the states in [P]. *)
Lemma st_for_fold {S X} (P : S -> Prop) (f : S -> X -> S) (body : Z -> unit -> ST S unit) (l : list X) (s : S) :
  P s ->
  (forall k x s, l !! k = Some x -> P s -> body (Z.of_nat k) tt s = Ret (tt, f s x) /\ P (f s x)) ->
  st_for (length l) 0 body tt s = Ret (tt, fold_left f l s) /\ P (fold_left f l s).
Proof.
  intros Hs Hbody. change 0 with (Z.of_nat 0).
  assert (Hb : forall k x s, l !! k = Some x -> P s ->
    body (Z.of_nat (0 + k)) tt s = Ret (tt, f s x) /\ P (f s x)) by done.
  clear Hbody. revert s Hs Hb. generalize 0%nat as i. induction l as [|x l IH]; intros i s Hs Hb; [done|].
  cbn [length st_for fold_left]. destruct (Hb 0%nat x s eq_refl Hs) as [E HP].
  rewrite Nat.add_0_r in E. unfold bind at 1. rewrite E. cbn [rbind].
  replace (Z.of_nat i + 1) with (Z.of_nat (Datatypes.S i)) by lia.
  apply IH; [done|]. intros k y s' Hk. rewrite Nat.add_succ_comm. by apply (Hb (Datatypes.S k)).
Qed.

(** * Elements of a list with a property *)

Definition count {A} (P : A -> Prop) `{!forall x, Decision (P x)} (l : list A) : nat :=
  length (filter P l).

Lemma count_insert {A} (P : A -> Prop) `{!forall x, Decision (P x)} l i x y :
  l !! i = Some x ->
  (count P (<[i := y]> l) + (if decide (P x) then 1 else 0) =
   count P l + (if decide (P y) then 1 else 0))%nat.
Proof.
  intros Hi. pose proof (lookup_lt_Some _ _ _ Hi). rewrite <- (take_drop_middle l i x Hi) at 2.
  rewrite insert_take_drop by done. unfold count.
  rewrite !filter_app, !filter_cons, !length_app. repeat destruct (decide (P _)); cbn [length]; lia.
Qed.

Lemma count_zero {A} (P : A -> Prop) `{!forall x, Decision (P x)} l i x :
  count P l = O -> l !! i = Some x -> ~ P x.
Proof.
  intros Hc Hi HP. assert (x ∈ filter P l) as Hx.
  { apply list_elem_of_filter. split; [done|]. by eapply list_elem_of_lookup_2. }
  unfold count in Hc. destruct (filter P l); [by apply elem_of_nil in Hx|done].
Qed.

Lemma alter_as_insert {A} (f : A -> A) (l : list A) (i : nat) x : l !! i = Some x -> alter f i l = <[i := f x]> l.
Proof. intros Hi. rewrite list_insert_alter. apply list_alter_ext; [|done]. intros y ?. by simplify_eq. Qed.

(** The index of the first element with a property. *)
Definition first_index {A} (P : A -> Prop) `{!forall x, Decision (P x)} (l : list A) : option Z :=
  (fun p => Z.of_nat (fst p)) <$> list_find P l.

Lemma first_index_Some {A} (P : A -> Prop) `{!forall x, Decision (P x)} l z :
  first_index P l = Some z ->
  exists i x, z = Z.of_nat i /\ l !! i = Some x /\ P x /\ (forall j y, (j < i)%nat -> l !! j = Some y -> ~ P y).
Proof.
  unfold first_index. intros ([i x] & E & ->)%fmap_Some. apply list_find_Some in E as (Hi & HP & Hj).
  exists i, x. split_and!; [done..|]. intros j y Hlt Hy. by eapply Hj.
Qed.

Lemma first_index_None {A} (P : A -> Prop) `{!forall x, Decision (P x)} l :
  first_index P l = None <-> Forall (fun x => ~ P x) l.
Proof. unfold first_index. by rewrite fmap_None, list_find_None. Qed.

Lemma first_index_unique {A} (P : A -> Prop) `{!forall x, Decision (P x)} l i x :
  l !! i = Some x -> P x -> (forall j y, l !! j = Some y -> P y -> j = i) ->
  first_index P l = Some (Z.of_nat i).
Proof.
  intros Hi HP Hu. unfold first_index. rewrite (proj2 (list_find_Some P l i x)); [done|].
  split_and!; [done..|]. intros j y Hy Hlt HPy. specialize (Hu j y Hy HPy). lia.
Qed.

(** * Bits *)

(** Two 32-bit (or [w]-bit) integers with the same bits are equal. *)
Lemma bits_eq w a b :
  0 <= w -> 0 <= a < 2 ^ w -> 0 <= b < 2 ^ w ->
  (forall i, 0 <= i < w -> Z.testbit a i = Z.testbit b i) -> a = b.
Proof.
  intros Hw Ha Hb Hbits. apply Z.bits_inj'. intros i Hi.
  destruct (Z.lt_ge_cases i w) as [|Hge]; [by apply Hbits|].
  rewrite <- (Z.mod_small a (2 ^ w)), <- (Z.mod_small b (2 ^ w)) by done.
  by rewrite !Z.mod_pow2_bits_high by lia.
Qed.

(** A non-negative integer without bits from [w] up is below [2 ^ w]. *)
Lemma bits_range w z :
  0 <= w -> 0 <= z -> (forall i, w <= i -> Z.testbit z i = false) -> 0 <= z < 2 ^ w.
Proof.
  intros Hw Hz Hbits. replace z with (z mod 2 ^ w).
  - apply Z.mod_pos_bound, Z.pow_pos_nonneg; lia.
  - apply Z.bits_inj'. intros i Hi. destruct (Z.lt_ge_cases i w).
    + by rewrite Z.mod_pow2_bits_low by lia.
    + by rewrite Z.mod_pow2_bits_high, Hbits by lia.
Qed.

Lemma range_bits w z i : 0 <= w <= i -> 0 <= z < 2 ^ w -> Z.testbit z i = false.
Proof. intros Hw Hz. rewrite <- (Z.mod_small z (2 ^ w)) by done. by apply Z.mod_pow2_bits_high. Qed.

Lemma lor_range w a b :
  0 <= w -> 0 <= a < 2 ^ w -> 0 <= b < 2 ^ w -> 0 <= Z.lor a b < 2 ^ w.
Proof.
  intros Hw Ha Hb. apply bits_range; [done|apply Z.lor_nonneg; lia|].
  intros i Hi. by rewrite Z.lor_spec, (range_bits w a), (range_bits w b).
Qed.

Lemma land_range w a b : 0 <= w -> 0 <= b < 2 ^ w -> 0 <= Z.land a b < 2 ^ w.
Proof.
  intros Hw Hb. apply bits_range; [done|apply Z.land_nonneg; lia|].
  intros i Hi. by rewrite Z.land_spec, (range_bits w b), andb_false_r.
Qed.

Lemma shiftr_range w a n : 0 <= w -> 0 <= n -> 0 <= a < 2 ^ w -> 0 <= Z.shiftr a n < 2 ^ w.
Proof.
  intros Hw Hn Ha. apply bits_range; [done|apply Z.shiftr_nonneg; lia|].
  intros i Hi. by rewrite Z.shiftr_spec, (range_bits w a) by lia.
Qed.

(** A shifted value and a value below the shift are added by [lor]. *)
Lemma lor_shiftl_add a b w :
  0 <= w -> 0 <= b < 2 ^ w -> Z.lor (Z.shiftl a w) b = a * 2 ^ w + b.
Proof.
  intros Hw Hb. rewrite <- Z.shiftl_mul_pow2 by done. symmetry. apply Z.add_nocarry_lor.
  apply Z.bits_inj'. intros i Hi. rewrite Z.land_spec, Z.bits_0.
  destruct (Z.lt_ge_cases i w).
  - by rewrite Z.shiftl_spec_low.
  - by rewrite (range_bits w b), andb_false_r by lia.
Qed.

(** Constant indices to [nat] literals, so that list updates compute. *)
Ltac norm_to_nat :=
  repeat match goal with
  | |- context [Z.to_nat (Zpos ?p)] =>
      let v := eval vm_compute in (Z.to_nat (Zpos p)) in change (Z.to_nat (Zpos p)) with v
  | |- context [Z.to_nat 0] => change (Z.to_nat 0) with O
  end.
(** One store at a constant index of an array given by its first elements. *)
Ltac arr_set_lit :=
  rewrite arr_set_ok by (simpl; lia); norm_to_nat; cbn [rbind insert list_insert].

(** * Integers as bytes, lowest byte first *)

(** The value of a byte string. *)
Fixpoint le_value (l : list Z) : Z :=
  match l with [] => 0 | b :: l' => b + 256 * le_value l' end.

Lemma le_value_range l : bytes l -> 0 <= le_value l < 256 ^ Z.of_nat (length l).
Proof.
  induction 1 as [|b l Hb Hl IH]; cbn [le_value length]; [lia|].
  rewrite Nat2Z.inj_succ, Z.pow_succ_r by lia. unfold is_u8 in Hb. lia.
Qed.

(** The [n] low bytes of an integer, lowest first. *)
Fixpoint le_split (n : nat) (v : Z) : list Z :=
  match n with O => [] | S n' => u8 v :: le_split n' (v / 256) end.

Lemma length_le_split n v : length (le_split n v) = n.
Proof. revert v. induction n as [|n IH]; intros v; [done|]. cbn. by rewrite IH. Qed.

Lemma bytes_le_split n v : bytes (le_split n v).
Proof. revert v. induction n as [|n IH]; intros v; constructor; [apply u8_range|apply IH]. Qed.

Lemma le_value_split n v : 0 <= v < 256 ^ Z.of_nat n -> le_value (le_split n v) = v.
Proof.
  revert v. induction n as [|n IH]; intros v Hv; cbn [le_split le_value]; [cbn in Hv; lia|].
  rewrite Nat2Z.inj_succ, Z.pow_succ_r in Hv by lia.
  rewrite IH by (Z.div_mod_to_equations; nia). unfold u8. change (2 ^ 8) with 256.
  pose proof (Z.div_mod v 256). lia.
Qed.

Lemma le_value_snoc l b : le_value (l ++ [b]) = le_value l + 256 ^ Z.of_nat (length l) * b.
Proof.
  induction l as [|x l IH]; cbn [le_value app length]; [cbn; lia|].
  rewrite IH, Nat2Z.inj_succ, Z.pow_succ_r by lia. lia.
Qed.

Lemma le_value_app l1 l2 :
  le_value (l1 ++ l2) = le_value l1 + 256 ^ Z.of_nat (length l1) * le_value l2.
Proof.
  induction l1 as [|x l IH]; cbn [le_value app length]; [cbn; lia|].
  rewrite IH, Nat2Z.inj_succ, Z.pow_succ_r by lia. lia.
Qed.
