(* ===== verification/IpmiDefs.v ===== *)
(** Data of the IPMI stack: [ipmb/ipmb.h] and [ipmi/include/ipmi.h].  The
    enumerations are [Z] constants, because the code stores and compares
    them in [uint8_t] objects; [ipmb_error], which is only ever returned, is
    an inductive type.  [ipmi_msg] is the message structure with its 527-byte
    data array, [wf_msg] its well-formedness (array length, field widths). *)

From S2P Require Import Prelude.

(** * Limits (ipmb.h) *)

Definition SEQ_NUM : Z := 64.
Definition MAX_SEQ_QUENE : Z := 15.
Definition MEM_ALLOCATE_RETRY_TIME : Z := 2.
Definition IPMI_DATA_MAX_LENGTH : Z := 520.
Definition IPMB_REQ_HEADER_LENGTH : Z := 6.
Definition IPMB_RESP_HEADER_LENGTH : Z := 7.
Definition IPMB_TX_RETRY_TIME : Z := 5.
Definition IPMB_TXQUEUE_LEN : Z := 1.
Definition IPMB_RXQUEUE_LEN : Z := 2.
Definition IPMI_HEADER_CHECKSUM_POSITION : Z := 2.
Definition IPMB_NETFN_MASK : Z := 0xFC.
Definition IPMB_DEST_LUN_MASK : Z := 0x03.
Definition IPMB_SEQ_MASK : Z := 0xFC.
Definition IPMB_SRC_LUN_MASK : Z := 0x03.
Definition IPMB_RETRY_DELAY_MS : Z := 500.
Definition IPMB_SEQ_TIMEOUT_MS : Z := 3000.
Definition I2C_RETRY_TIME : Z := 5.
Definition RESERVED_IDX : Z := 0xFF.
Definition ENABLE : Z := 1.
Definition DISABLE : Z := 0.
Definition IPMI_MSG_MAX_LENGTH : Z := IPMI_DATA_MAX_LENGTH + IPMB_RESP_HEADER_LENGTH.

(** [enum Channel_Target] and [enum Interface]. *)

Definition SELF : Z := 0x00.
Definition ME_IPMB : Z := 0x01.
Definition BMC_IPMB : Z := 0x02.
Definition SERVER_IPMB : Z := 0x04.
Definition EXP1_IPMB : Z := 0x05.
Definition SLOT1_BIC : Z := 0x07.
Definition SLOT3_BIC : Z := 0x08.
Definition BB_IPMB : Z := 0x10.
Definition EXP2_IPMB : Z := 0x15.
Definition CL_BIC_IPMB : Z := 0x16.
Definition HD_BIC_IPMB : Z := 0x17.
Definition GL_BIC_IPMB : Z := 0x18.
Definition EXP3_IPMB : Z := 0x25.
Definition EXP4_IPMB : Z := 0x30.
Definition PEER_BMC_IPMB : Z := 0x1A.
Definition BMC_USB : Z := 0x20.
Definition PLDM : Z := 0x40.
Definition MCTP : Z := 0x41.
Definition MPRO_PLDM : Z := 0x42.
Definition SATMC_PLDM : Z := 0x43.
Definition HOST_KCS_1 : Z := 0x50.
Definition HOST_KCS_2 : Z := 0x51.
Definition HOST_KCS_3 : Z := 0x52.
Definition HOST_KCS_4 : Z := 0x53.
Definition HOST_SSIF_1 : Z := 0x60.
Definition RESERVED : Z := 0x61.
Definition I2C_IF : Z := 0x00.
Definition I3C_IF : Z := 0x01.
Definition RESERVED_IF : Z := 0x02.

(** [ipmb_error]. *)

Inductive ipmb_error : Set :=
| IPMB_ERROR_SUCCESS
| IPMB_ERROR_UNKNOWN
| IPMB_ERROR_FAILURE
| IPMB_ERROR_TIMEOUT
| IPMB_ERROR_INVALID_REQ
| IPMB_ERROR_HDR_CHECKSUM
| IPMB_ERROR_MSG_CHECKSUM
| IPMB_ERROR_QUEUE_CREATION
| IPMB_ERROR_GET_MESSAGE_QUEUE
| IPMB_ERROR_MUTEX_LOCK.

#[export] Instance ipmb_error_eq_dec : EqDecision ipmb_error.
Proof. solve_decision. Defined.

(** [status != IPMB_ERROR_SUCCESS] *)
Definition ipmb_failed (e : ipmb_error) : bool :=
  match e with IPMB_ERROR_SUCCESS => false | _ => true end.

(** * Completion codes, network functions and commands (ipmi.h) *)

Definition IPMI_BUF_LEN : Z := 10.
Definition IANA_ID : Z := 0x00A123.
Definition SENSOR_EVENT_MESSAGES_ENABLE : Z := Z.shiftl 1 7.
Definition SENSOR_SCANNING_ENABLE : Z := Z.shiftl 1 6.
Definition SENSOR_READING_STATE_UNAVAILABLE : Z := Z.shiftl 1 5.
Definition CC_SUCCESS : Z := 0x00.
Definition CC_NODE_BUSY : Z := 0xC0.
Definition CC_INVALID_CMD : Z := 0xC1.
Definition CC_INVALID_LUN : Z := 0xC2.
Definition CC_TIMEOUT : Z := 0xC3.
Definition CC_OUT_OF_SPACE : Z := 0xC4.
Definition CC_INVALID_RESERVATION : Z := 0xC5.
Definition CC_DATA_TRUNCATED : Z := 0xC6.
Definition CC_INVALID_LENGTH : Z := 0xC7.
Definition CC_LENGTH_EXCEEDED : Z := 0xC8.
Definition CC_PARAM_OUT_OF_RANGE : Z := 0xC9.
Definition CC_SENSOR_NOT_PRESENT : Z := 0xCB.
Definition CC_INVALID_DATA_FIELD : Z := 0xCC.
Definition CC_CAN_NOT_RESPOND : Z := 0xCE.
Definition CC_NOT_SUPP_IN_CURR_STATE : Z := 0xD5.
Definition CC_UNSPECIFIED_ERROR : Z := 0xFF.
Definition CC_INVALID_PARAM : Z := 0x80.
Definition CC_FRU_DEV_BUSY : Z := 0x81.
Definition CC_BRIDGE_MSG_ERR : Z := 0x82.
Definition CC_I2C_BUS_ERROR : Z := 0x83.
Definition CC_INVALID_IANA : Z := 0x84.
Definition NETFN_CHASSIS_REQ : Z := 0x00.
Definition NETFN_CHASSIS_RES : Z := 0x01.
Definition NETFN_BRIDGE_REQ : Z := 0x02.
Definition NETFN_BRIDGE_RES : Z := 0x03.
Definition NETFN_SENSOR_REQ : Z := 0x04.
Definition NETFN_SENSOR_RES : Z := 0x05.
Definition NETFN_APP_REQ : Z := 0x06.
Definition NETFN_APP_RES : Z := 0x07.
Definition NETFN_FIRMWARE_REQ : Z := 0x08.
Definition NETFN_FIRMWARE_RES : Z := 0x09.
Definition NETFN_STORAGE_REQ : Z := 0x0A.
Definition NETFN_STORAGE_RES : Z := 0x0B.
Definition NETFN_TRANSPORT_REQ : Z := 0x0C.
Definition NETFN_TRANSPORT_RES : Z := 0x0D.
Definition NETFN_DCMI_REQ : Z := 0x2C.
Definition NETFN_DCMI_RES : Z := 0x2D.
Definition NETFN_NM_REQ : Z := 0x2E.
Definition NETFN_NM_RES : Z := 0x2F.
Definition NETFN_OEM_REQ : Z := 0x30.
Definition NETFN_OEM_RES : Z := 0x31.
Definition NETFN_OEM_STORAGE_REQ : Z := 0x32.
Definition NETFN_OEM_STORAGE_RES : Z := 0x33.
Definition NETFN_OEM_Q_REQ : Z := 0x36.
Definition NETFN_OEM_Q_RES : Z := 0x37.
Definition NETFN_OEM_1S_REQ : Z := 0x38.
Definition NETFN_OEM_1S_RES : Z := 0x39.
Definition NETFN_OEM_ZION_REQ : Z := 0x3A.
Definition NETFN_OEM_ZION_RES : Z := 0x3B.
Definition NETFN_OEM_USB_DBG_REQ : Z := 0x3C.
Definition NETFN_OEM_USB_DBG_RES : Z := 0x3D.
Definition NETFN_OEM_ALI_RES : Z := 0x3E.
Definition NETFN_OEM_ALI_REQ : Z := 0x3F.
Definition CMD_APP_GET_DEVICE_ID : Z := 0x01.
Definition CMD_APP_COLD_RESET : Z := 0x02.
Definition CMD_APP_WARM_RESET : Z := 0x03.
Definition CMD_APP_GET_SELFTEST_RESULTS : Z := 0x04.
Definition CMD_APP_SET_ACPI_POWER : Z := 0x06.
Definition CMD_APP_GET_DEVICE_GUID : Z := 0x08.
Definition CMD_APP_SET_WATCHDOG_TIMER : Z := 0x24.
Definition CMD_APP_GET_WATCHDOG_TIMER : Z := 0x25.
Definition CMD_APP_SET_BMC_GLOBAL_ENABLES : Z := 0x2E.
Definition CMD_APP_GET_BMC_GLOBAL_ENABLES : Z := 0x2F.
Definition CMD_APP_CLEAR_MESSAGE_FLAGS : Z := 0x30.
Definition CMD_APP_GET_SYSTEM_GUID : Z := 0x37.
Definition CMD_APP_GET_CAHNNEL_INFO : Z := 0x42.
Definition CMD_APP_MASTER_WRITE_READ : Z := 0x52.
Definition CMD_APP_SET_SYS_INFO_PARAMS : Z := 0x58.
Definition CMD_CHASSIS_GET_CHASSIS_STATUS : Z := 0x01.
Definition CMD_CHASSIS_GET_SYSTEM_BOOT_OPTIONS : Z := 0x09.
Definition CMD_SENSOR_PLATFORM_EVENT : Z := 0x02.
Definition CMD_SENSOR_GET_SENSOR_READING : Z := 0x2D.
Definition CMD_STORAGE_GET_FRUID_INFO : Z := 0x10.
Definition CMD_STORAGE_READ_FRUID_DATA : Z := 0x11.
Definition CMD_STORAGE_WRITE_FRUID_DATA : Z := 0x12.
Definition CMD_STORAGE_RSV_SDR : Z := 0x22.
Definition CMD_STORAGE_GET_SDR : Z := 0x23.
Definition CMD_STORAGE_GET_SEL_INFO : Z := 0x40.
Definition CMD_STORAGE_RSV_SEL : Z := 0x42.
Definition CMD_STORAGE_GET_SEL : Z := 0x43.
Definition CMD_STORAGE_ADD_SEL : Z := 0x44.
Definition CMD_DCMI_GET_PICMG_PROPERTIES : Z := 0x00.
Definition CMD_DCMI_SEND_BOOT_PROGRESS_CODE : Z := 0x02.
Definition CMD_DCMI_GET_BOOT_PROGRESS_CODE : Z := 0x03.
Definition CMD_OEM_NM_FORCE_ME_RECOVERY : Z := 0xDF.
Definition CMD_OEM_GET_BOARD_ID : Z := 0x37.
Definition CMD_OEM_GET_HTTP_BOOT_DATA : Z := 0x57.
Definition CMD_OEM_GET_HTTP_BOOT_ATTR : Z := 0x58.
Definition CMD_OEM_POST_START : Z := 0x73.
Definition CMD_OEM_POST_END : Z := 0x74.
Definition CMD_OEM_CABLE_DETECTION : Z := 0xCB.
Definition CMD_OEM_NM_SENSOR_READ : Z := 0xE2.
Definition CMD_OEM_SET_SYSTEM_GUID : Z := 0xEF.
Definition CMD_OEM_GET_MB_INDEX : Z := 0xF0.
Definition CMD_OEM_SET_FAN_DUTY_MANUAL : Z := 0xF1.
Definition CMD_OEM_GET_SET_FAN_CTRL_MODE : Z := 0xF2.
Definition CMD_OEM_GET_CHASSIS_POSITION : Z := 0x7E.
Definition CMD_OEM_Q_SET_DIMM_INFO : Z := 0x12.
Definition CMD_OEM_Q_GET_DIMM_INFO : Z := 0x13.
Definition CMD_OEM_1S_MSG_IN : Z := 0x01.
Definition CMD_OEM_1S_MSG_OUT : Z := 0x02.
Definition CMD_OEM_1S_GET_GPIO : Z := 0x03.
Definition CMD_OEM_1S_SET_GPIO : Z := 0x04.
Definition CMD_OEM_1S_GET_GPIO_CONFIG : Z := 0x05.
Definition CMD_OEM_1S_SET_GPIO_CONFIG : Z := 0x06.
Definition CMD_OEM_1S_SEND_INTERRUPT_TO_BMC : Z := 0x07.
Definition CMD_OEM_1S_SEND_POST_CODE_TO_BMC : Z := 0x08.
Definition CMD_OEM_1S_FW_UPDATE : Z := 0x09.
Definition CMD_OEM_1S_GET_BIC_FW_INFO : Z := 0x0A.
Definition CMD_OEM_1S_GET_FW_VERSION : Z := 0x0B.
Definition CMD_OEM_1S_SEND_HOST_POWER_STATE_TO_BMC : Z := 0x0C.
Definition CMD_OEM_1S_INFORM_BMC_TO_CONTROL_POWER : Z := 0x0D.
Definition CMD_OEM_1S_GET_POST_CODE : Z := 0x12.
Definition CMD_OEM_1S_SET_VR_MONITOR_STATUS : Z := 0x14.
Definition CMD_OEM_1S_GET_VR_MONITOR_STATUS : Z := 0x15.
Definition CMD_OEM_1S_RESET_BMC : Z := 0x16.
Definition CMD_OEM_1S_READ_FW_IMAGE : Z := 0x18.
Definition CMD_OEM_1S_SET_WDT_FEED : Z := 0x1E.
Definition CMD_OEM_1S_SET_JTAG_TAP_STA : Z := 0x21.
Definition CMD_OEM_1S_JTAG_DATA_SHIFT : Z := 0x22.
Definition CMD_OEM_1S_ACCURACY_SENSOR_READING : Z := 0x23.
Definition CMD_OEM_1S_CLEAR_CMOS : Z := 0x25.
Definition CMD_OEM_1S_ASD_INIT : Z := 0x28.
Definition CMD_OEM_1S_PECI_ACCESS : Z := 0x29.
Definition CMD_OEM_1S_GET_4BYTE_POST_CODE : Z := 0x2A.
Definition CMD_OEM_1S_APML_READ : Z := 0x2C.
Definition CMD_OEM_1S_APML_WRITE : Z := 0x2D.
Definition CMD_OEM_1S_SEND_APML_REQUEST : Z := 0x2E.
Definition CMD_OEM_1S_GET_APML_RESPONSE : Z := 0x2F.
Definition CMD_OEM_1S_SENSOR_POLL_EN : Z := 0x30.
Definition CMD_OEM_1S_GET_BIC_STATUS : Z := 0x31.
Definition CMD_OEM_1S_RESET_BIC : Z := 0x32.
Definition CMD_OEM_1S_SEND_4BYTE_POST_CODE_TO_BMC : Z := 0x33.
Definition CMD_OEM_1S_GET_SET_M2 : Z := 0x34.
Definition CMD_OEM_1S_SAFE_WRITE_READ_M2_DATA : Z := 0x36.
Definition CMD_OEM_1S_SET_SSD_LED : Z := 0x39.
Definition CMD_OEM_1S_GET_SSD_STATUS : Z := 0x3A.
Definition CMD_OEM_1S_GET_SET_GPIO : Z := 0x41.
Definition CMD_OEM_1S_GET_SET_BIC_VGPIO : Z := 0x42.
Definition CMD_OEM_1S_GET_FW_SHA256 : Z := 0x43.
Definition CMD_OEM_1S_CONTROL_SENSOR_POLLING : Z := 0x45.
Definition CMD_OEM_1S_SET_FAN_DUTY_AUTO : Z := 0x50.
Definition CMD_OEM_1S_GET_FAN_DUTY : Z := 0x51.
Definition CMD_OEM_1S_GET_FAN_RPM : Z := 0x52.
Definition CMD_OEM_1S_COPY_FLASH_IMAGE : Z := 0x53.
Definition CMD_GET_COPY_FLASH_STATUS : Z := 0x54.
Definition CMD_OEM_1S_I2C_DEV_SCAN : Z := 0x60.
Definition CMD_OEM_1S_12V_CYCLE_SLOT : Z := 0x64.
Definition CMD_OEM_1S_INFORM_PEER_SLED_CYCLE : Z := 0x66.
Definition CMD_OEM_1S_READ_BIC_REGISTER : Z := 0x68.
Definition CMD_OEM_1S_WRITE_BIC_REGISTER : Z := 0x69.
Definition CMD_OEM_1S_BMC_IPMB_ACCESS : Z := 0x6A.
Definition CMD_OEM_1S_GET_HSC_STATUS : Z := 0x6C.
Definition CMD_OEM_1S_PEX_FLASH_READ : Z := 0x72.
Definition CMD_OEM_1S_GET_FPGA_USER_CODE : Z := 0x73.
Definition CMD_OEM_1S_BRIDGE_I2C_MSG_BY_COMPNT : Z := 0x74.
Definition CMD_OEM_1S_GET_PCIE_CARD_STATUS : Z := 0x76.
Definition CMD_OEM_1S_GET_PCIE_CARD_SENSOR_READING : Z := 0x77.
Definition CMD_OEM_1S_SET_DEVICE_ACTIVE : Z := 0x78.
Definition CMD_OEM_1S_GET_PCIE_RETIMER_TYPE : Z := 0x79.
Definition CMD_OEM_1S_MULTI_ACCURACY_SENSOR_READING : Z := 0x88.
Definition CMD_OEM_1S_GET_BOARD_ID : Z := 0xA0.
Definition CMD_OEM_1S_GET_CARD_TYPE : Z := 0xA1.
Definition CMD_OEM_1S_GET_BIOS_VERSION : Z := 0xA2.
Definition CMD_OEM_1S_NOTIFY_PMIC_ERROR : Z := 0xB0.
Definition CMD_OEM_1S_WRITE_READ_DIMM : Z := 0xB1.
Definition CMD_OEM_1S_GET_SDR : Z := 0xC0.
Definition CMD_OEM_1S_SEND_APML_ALERT_TO_BMC : Z := 0xD0.
Definition CMD_OEM_1S_GET_DIMM_I3C_MUX_SELECTION : Z := 0xB2.
Definition CMD_OEM_1S_PRE_POWER_OFF_CONTROL : Z := 0xD1.
Definition CMD_OEM_1S_SET_ADD_DEBUG_SEL_MODE : Z := 0xD2.
Definition CMD_OEM_1S_DEBUG_GET_HW_SIGNAL : Z := 0xD3.
Definition CMD_OEM_1S_SEND_MCTP_PLDM_COMMAND : Z := 0xD4.
Definition CMD_OEM_1S_CLEAR_CMET : Z := 0xD5.
Definition INDEX_SLOT1 : Z := 0x01.
Definition INDEX_SLOT3 : Z := 0x03.

(** * Messages *)

(** [struct ipmi_msg]; every field is a [uint8_t] but [data_len]
    ([uint16_t]), [timestamp] ([uint32_t]) and the array [data]. *)
Record ipmi_msg : Type := mk_ipmi_msg {
  m_dest_addr : Z;
  m_netfn : Z;
  m_dest_LUN : Z;
  m_hdr_chksum : Z;
  m_src_addr : Z;
  m_seq_source : Z;
  m_seq_target : Z;
  m_seq : Z;
  m_pldm_inst_id : Z;
  m_InF_source : Z;
  m_InF_target : Z;
  m_src_LUN : Z;
  m_cmd : Z;
  m_completion_code : Z;
  m_data_len : Z;
  m_data : list Z;
  m_timestamp : Z;
  m_msg_chksum : Z;
}.

Definition with_dest_addr (v : Z) (m : ipmi_msg) : ipmi_msg :=
  mk_ipmi_msg v (m_netfn m) (m_dest_LUN m) (m_hdr_chksum m) (m_src_addr m) (m_seq_source m)
    (m_seq_target m) (m_seq m) (m_pldm_inst_id m) (m_InF_source m) (m_InF_target m)
    (m_src_LUN m) (m_cmd m) (m_completion_code m) (m_data_len m) (m_data m) (m_timestamp m)
    (m_msg_chksum m).
Definition with_netfn (v : Z) (m : ipmi_msg) : ipmi_msg :=
  mk_ipmi_msg (m_dest_addr m) v (m_dest_LUN m) (m_hdr_chksum m) (m_src_addr m)
    (m_seq_source m) (m_seq_target m) (m_seq m) (m_pldm_inst_id m) (m_InF_source m)
    (m_InF_target m) (m_src_LUN m) (m_cmd m) (m_completion_code m) (m_data_len m) (m_data m)
    (m_timestamp m) (m_msg_chksum m).
Definition with_dest_LUN (v : Z) (m : ipmi_msg) : ipmi_msg :=
  mk_ipmi_msg (m_dest_addr m) (m_netfn m) v (m_hdr_chksum m) (m_src_addr m) (m_seq_source m)
    (m_seq_target m) (m_seq m) (m_pldm_inst_id m) (m_InF_source m) (m_InF_target m)
    (m_src_LUN m) (m_cmd m) (m_completion_code m) (m_data_len m) (m_data m) (m_timestamp m)
    (m_msg_chksum m).
Definition with_hdr_chksum (v : Z) (m : ipmi_msg) : ipmi_msg :=
  mk_ipmi_msg (m_dest_addr m) (m_netfn m) (m_dest_LUN m) v (m_src_addr m) (m_seq_source m)
    (m_seq_target m) (m_seq m) (m_pldm_inst_id m) (m_InF_source m) (m_InF_target m)
    (m_src_LUN m) (m_cmd m) (m_completion_code m) (m_data_len m) (m_data m) (m_timestamp m)
    (m_msg_chksum m).
Definition with_src_addr (v : Z) (m : ipmi_msg) : ipmi_msg :=
  mk_ipmi_msg (m_dest_addr m) (m_netfn m) (m_dest_LUN m) (m_hdr_chksum m) v (m_seq_source m)
    (m_seq_target m) (m_seq m) (m_pldm_inst_id m) (m_InF_source m) (m_InF_target m)
    (m_src_LUN m) (m_cmd m) (m_completion_code m) (m_data_len m) (m_data m) (m_timestamp m)
    (m_msg_chksum m).
Definition with_seq_source (v : Z) (m : ipmi_msg) : ipmi_msg :=
  mk_ipmi_msg (m_dest_addr m) (m_netfn m) (m_dest_LUN m) (m_hdr_chksum m) (m_src_addr m) v
    (m_seq_target m) (m_seq m) (m_pldm_inst_id m) (m_InF_source m) (m_InF_target m)
    (m_src_LUN m) (m_cmd m) (m_completion_code m) (m_data_len m) (m_data m) (m_timestamp m)
    (m_msg_chksum m).
Definition with_seq_target (v : Z) (m : ipmi_msg) : ipmi_msg :=
  mk_ipmi_msg (m_dest_addr m) (m_netfn m) (m_dest_LUN m) (m_hdr_chksum m) (m_src_addr m)
    (m_seq_source m) v (m_seq m) (m_pldm_inst_id m) (m_InF_source m) (m_InF_target m)
    (m_src_LUN m) (m_cmd m) (m_completion_code m) (m_data_len m) (m_data m) (m_timestamp m)
    (m_msg_chksum m).
Definition with_seq (v : Z) (m : ipmi_msg) : ipmi_msg :=
  mk_ipmi_msg (m_dest_addr m) (m_netfn m) (m_dest_LUN m) (m_hdr_chksum m) (m_src_addr m)
    (m_seq_source m) (m_seq_target m) v (m_pldm_inst_id m) (m_InF_source m) (m_InF_target m)
    (m_src_LUN m) (m_cmd m) (m_completion_code m) (m_data_len m) (m_data m) (m_timestamp m)
    (m_msg_chksum m).
Definition with_pldm_inst_id (v : Z) (m : ipmi_msg) : ipmi_msg :=
  mk_ipmi_msg (m_dest_addr m) (m_netfn m) (m_dest_LUN m) (m_hdr_chksum m) (m_src_addr m)
    (m_seq_source m) (m_seq_target m) (m_seq m) v (m_InF_source m) (m_InF_target m)
    (m_src_LUN m) (m_cmd m) (m_completion_code m) (m_data_len m) (m_data m) (m_timestamp m)
    (m_msg_chksum m).
Definition with_InF_source (v : Z) (m : ipmi_msg) : ipmi_msg :=
  mk_ipmi_msg (m_dest_addr m) (m_netfn m) (m_dest_LUN m) (m_hdr_chksum m) (m_src_addr m)
    (m_seq_source m) (m_seq_target m) (m_seq m) (m_pldm_inst_id m) v (m_InF_target m)
    (m_src_LUN m) (m_cmd m) (m_completion_code m) (m_data_len m) (m_data m) (m_timestamp m)
    (m_msg_chksum m).
Definition with_InF_target (v : Z) (m : ipmi_msg) : ipmi_msg :=
  mk_ipmi_msg (m_dest_addr m) (m_netfn m) (m_dest_LUN m) (m_hdr_chksum m) (m_src_addr m)
    (m_seq_source m) (m_seq_target m) (m_seq m) (m_pldm_inst_id m) (m_InF_source m) v
    (m_src_LUN m) (m_cmd m) (m_completion_code m) (m_data_len m) (m_data m) (m_timestamp m)
    (m_msg_chksum m).
Definition with_src_LUN (v : Z) (m : ipmi_msg) : ipmi_msg :=
  mk_ipmi_msg (m_dest_addr m) (m_netfn m) (m_dest_LUN m) (m_hdr_chksum m) (m_src_addr m)
    (m_seq_source m) (m_seq_target m) (m_seq m) (m_pldm_inst_id m) (m_InF_source m)
    (m_InF_target m) v (m_cmd m) (m_completion_code m) (m_data_len m) (m_data m)
    (m_timestamp m) (m_msg_chksum m).
Definition with_cmd (v : Z) (m : ipmi_msg) : ipmi_msg :=
  mk_ipmi_msg (m_dest_addr m) (m_netfn m) (m_dest_LUN m) (m_hdr_chksum m) (m_src_addr m)
    (m_seq_source m) (m_seq_target m) (m_seq m) (m_pldm_inst_id m) (m_InF_source m)
    (m_InF_target m) (m_src_LUN m) v (m_completion_code m) (m_data_len m) (m_data m)
    (m_timestamp m) (m_msg_chksum m).
Definition with_completion_code (v : Z) (m : ipmi_msg) : ipmi_msg :=
  mk_ipmi_msg (m_dest_addr m) (m_netfn m) (m_dest_LUN m) (m_hdr_chksum m) (m_src_addr m)
    (m_seq_source m) (m_seq_target m) (m_seq m) (m_pldm_inst_id m) (m_InF_source m)
    (m_InF_target m) (m_src_LUN m) (m_cmd m) v (m_data_len m) (m_data m) (m_timestamp m)
    (m_msg_chksum m).
Definition with_data_len (v : Z) (m : ipmi_msg) : ipmi_msg :=
  mk_ipmi_msg (m_dest_addr m) (m_netfn m) (m_dest_LUN m) (m_hdr_chksum m) (m_src_addr m)
    (m_seq_source m) (m_seq_target m) (m_seq m) (m_pldm_inst_id m) (m_InF_source m)
    (m_InF_target m) (m_src_LUN m) (m_cmd m) (m_completion_code m) v (m_data m)
    (m_timestamp m) (m_msg_chksum m).
Definition with_data (v : list Z) (m : ipmi_msg) : ipmi_msg :=
  mk_ipmi_msg (m_dest_addr m) (m_netfn m) (m_dest_LUN m) (m_hdr_chksum m) (m_src_addr m)
    (m_seq_source m) (m_seq_target m) (m_seq m) (m_pldm_inst_id m) (m_InF_source m)
    (m_InF_target m) (m_src_LUN m) (m_cmd m) (m_completion_code m) (m_data_len m) v
    (m_timestamp m) (m_msg_chksum m).
Definition with_timestamp (v : Z) (m : ipmi_msg) : ipmi_msg :=
  mk_ipmi_msg (m_dest_addr m) (m_netfn m) (m_dest_LUN m) (m_hdr_chksum m) (m_src_addr m)
    (m_seq_source m) (m_seq_target m) (m_seq m) (m_pldm_inst_id m) (m_InF_source m)
    (m_InF_target m) (m_src_LUN m) (m_cmd m) (m_completion_code m) (m_data_len m) (m_data m)
    v (m_msg_chksum m).
Definition with_msg_chksum (v : Z) (m : ipmi_msg) : ipmi_msg :=
  mk_ipmi_msg (m_dest_addr m) (m_netfn m) (m_dest_LUN m) (m_hdr_chksum m) (m_src_addr m)
    (m_seq_source m) (m_seq_target m) (m_seq m) (m_pldm_inst_id m) (m_InF_source m)
    (m_InF_target m) (m_src_LUN m) (m_cmd m) (m_completion_code m) (m_data_len m) (m_data m)
    (m_timestamp m) v.

(** [memset(&m, 0, sizeof(ipmi_msg))] *)
Definition zero_msg : ipmi_msg :=
  mk_ipmi_msg 0 0 0 0 0 0 0 0 0 0 0 0 0 0 0 (replicate (Z.to_nat IPMI_MSG_MAX_LENGTH) 0) 0 0.

(** [IS_RESPONSE(msg)] *)
Definition IS_RESPONSE (m : ipmi_msg) : bool := z2b (Z.land (m_netfn m) 0x01).

(** [struct ipmi_msg_cfg]; [c_next] is an address, 0 being NULL. *)
Record ipmi_msg_cfg : Type := mk_ipmi_msg_cfg {
  c_buffer : ipmi_msg;
  c_retries : Z;
  c_next : Z;
}.

Definition with_buffer (v : ipmi_msg) (c : ipmi_msg_cfg) : ipmi_msg_cfg :=
  mk_ipmi_msg_cfg v (c_retries c) (c_next c).
Definition with_retries (v : Z) (c : ipmi_msg_cfg) : ipmi_msg_cfg :=
  mk_ipmi_msg_cfg (c_buffer c) v (c_next c).
Definition with_next (v : Z) (c : ipmi_msg_cfg) : ipmi_msg_cfg :=
  mk_ipmi_msg_cfg (c_buffer c) (c_retries c) v.

(** [struct IPMB_config] (the thread names are left out). *)
Record IPMB_config : Type := mk_IPMB_config {
  cfg_index : Z;
  cfg_interface : Z;
  cfg_channel : Z;
  cfg_bus : Z;
  cfg_channel_target_address : Z;
  cfg_enable_status : bool;
  cfg_self_address : Z;
}.

(** * Well-formed messages *)

Record wf_msg (m : ipmi_msg) : Prop := {
  wf_length : Z.of_nat (length (m_data m)) = IPMI_MSG_MAX_LENGTH;
  wf_bytes : bytes (m_data m);
  wf_dest_addr : is_u8 (m_dest_addr m);
  wf_netfn : is_u8 (m_netfn m);
  wf_dest_LUN : is_u8 (m_dest_LUN m);
  wf_hdr_chksum : is_u8 (m_hdr_chksum m);
  wf_src_addr : is_u8 (m_src_addr m);
  wf_seq_source : is_u8 (m_seq_source m);
  wf_seq_target : is_u8 (m_seq_target m);
  wf_seq : is_u8 (m_seq m);
  wf_pldm_inst_id : is_u8 (m_pldm_inst_id m);
  wf_InF_source : is_u8 (m_InF_source m);
  wf_InF_target : is_u8 (m_InF_target m);
  wf_src_LUN : is_u8 (m_src_LUN m);
  wf_cmd : is_u8 (m_cmd m);
  wf_completion_code : is_u8 (m_completion_code m);
  wf_data_len : is_u16 (m_data_len m);
  wf_timestamp : is_u32 (m_timestamp m);
  wf_msg_chksum : is_u8 (m_msg_chksum m);
}.

(** The data a message carries: its first [data_len] bytes. *)
Definition payload (m : ipmi_msg) : list Z := take (Z.to_nat (m_data_len m)) (m_data m).

Lemma wf_zero_msg : wf_msg zero_msg.
Proof. split; try (by vm_compute). by apply bytes_replicate. Qed.

Lemma wf_payload_bytes m : wf_msg m -> bytes (payload m).
Proof. intros H. apply bytes_take, wf_bytes, H. Qed.

#[export] Hint Resolve wf_zero_msg wf_payload_bytes wf_length wf_bytes : word.
#[export] Hint Resolve wf_dest_addr wf_netfn wf_dest_LUN wf_hdr_chksum wf_src_addr wf_seq_source
  wf_seq_target wf_seq wf_pldm_inst_id wf_InF_source wf_InF_target wf_src_LUN wf_cmd
  wf_completion_code wf_data_len wf_timestamp wf_msg_chksum : word.

(** Writing fields of a well-formed message with values of the right width. *)
Ltac wf_field := intros [] **; split; simpl; auto.

Lemma wf_with_dest_addr v m : wf_msg m -> is_u8 v -> wf_msg (with_dest_addr v m).
Proof. wf_field. Qed.
Lemma wf_with_netfn v m : wf_msg m -> is_u8 v -> wf_msg (with_netfn v m).
Proof. wf_field. Qed.
Lemma wf_with_dest_LUN v m : wf_msg m -> is_u8 v -> wf_msg (with_dest_LUN v m).
Proof. wf_field. Qed.
Lemma wf_with_hdr_chksum v m : wf_msg m -> is_u8 v -> wf_msg (with_hdr_chksum v m).
Proof. wf_field. Qed.
Lemma wf_with_src_addr v m : wf_msg m -> is_u8 v -> wf_msg (with_src_addr v m).
Proof. wf_field. Qed.
Lemma wf_with_seq_source v m : wf_msg m -> is_u8 v -> wf_msg (with_seq_source v m).
Proof. wf_field. Qed.
Lemma wf_with_seq_target v m : wf_msg m -> is_u8 v -> wf_msg (with_seq_target v m).
Proof. wf_field. Qed.
Lemma wf_with_seq v m : wf_msg m -> is_u8 v -> wf_msg (with_seq v m).
Proof. wf_field. Qed.
Lemma wf_with_pldm_inst_id v m : wf_msg m -> is_u8 v -> wf_msg (with_pldm_inst_id v m).
Proof. wf_field. Qed.
Lemma wf_with_InF_source v m : wf_msg m -> is_u8 v -> wf_msg (with_InF_source v m).
Proof. wf_field. Qed.
Lemma wf_with_InF_target v m : wf_msg m -> is_u8 v -> wf_msg (with_InF_target v m).
Proof. wf_field. Qed.
Lemma wf_with_src_LUN v m : wf_msg m -> is_u8 v -> wf_msg (with_src_LUN v m).
Proof. wf_field. Qed.
Lemma wf_with_cmd v m : wf_msg m -> is_u8 v -> wf_msg (with_cmd v m).
Proof. wf_field. Qed.
Lemma wf_with_completion_code v m : wf_msg m -> is_u8 v -> wf_msg (with_completion_code v m).
Proof. wf_field. Qed.
Lemma wf_with_data_len v m : wf_msg m -> is_u16 v -> wf_msg (with_data_len v m).
Proof. wf_field. Qed.
Lemma wf_with_data v m : wf_msg m -> Z.of_nat (length v) = IPMI_MSG_MAX_LENGTH -> bytes v -> wf_msg (with_data v m).
Proof. wf_field. Qed.
Lemma wf_with_timestamp v m : wf_msg m -> is_u32 v -> wf_msg (with_timestamp v m).
Proof. wf_field. Qed.
Lemma wf_with_msg_chksum v m : wf_msg m -> is_u8 v -> wf_msg (with_msg_chksum v m).
Proof. wf_field. Qed.
#[export] Hint Resolve wf_with_dest_addr
  wf_with_netfn
  wf_with_dest_LUN
  wf_with_hdr_chksum
  wf_with_src_addr
  wf_with_seq_source
  wf_with_seq_target
  wf_with_seq
  wf_with_pldm_inst_id
  wf_with_InF_source
  wf_with_InF_target
  wf_with_src_LUN
  wf_with_cmd
  wf_with_completion_code
  wf_with_data_len
  wf_with_data
  wf_with_timestamp
  wf_with_msg_chksum : word.

(** Well-formedness of a message built by field updates. *)
Ltac wf_step :=
  lazymatch goal with
  | |- wf_msg (with_dest_addr _ _) => apply wf_with_dest_addr
  | |- wf_msg (with_netfn _ _) => apply wf_with_netfn
  | |- wf_msg (with_dest_LUN _ _) => apply wf_with_dest_LUN
  | |- wf_msg (with_hdr_chksum _ _) => apply wf_with_hdr_chksum
  | |- wf_msg (with_src_addr _ _) => apply wf_with_src_addr
  | |- wf_msg (with_seq_source _ _) => apply wf_with_seq_source
  | |- wf_msg (with_seq_target _ _) => apply wf_with_seq_target
  | |- wf_msg (with_seq _ _) => apply wf_with_seq
  | |- wf_msg (with_pldm_inst_id _ _) => apply wf_with_pldm_inst_id
  | |- wf_msg (with_InF_source _ _) => apply wf_with_InF_source
  | |- wf_msg (with_InF_target _ _) => apply wf_with_InF_target
  | |- wf_msg (with_src_LUN _ _) => apply wf_with_src_LUN
  | |- wf_msg (with_cmd _ _) => apply wf_with_cmd
  | |- wf_msg (with_completion_code _ _) => apply wf_with_completion_code
  | |- wf_msg (with_data_len _ _) => apply wf_with_data_len
  | |- wf_msg (with_data _ _) => apply wf_with_data
  | |- wf_msg (with_timestamp _ _) => apply wf_with_timestamp
  | |- wf_msg (with_msg_chksum _ _) => apply wf_with_msg_chksum
  end.
Ltac wf_auto := repeat first [assumption | wf_step]; try done; auto with word.
