(* ===== verification/LibUtil.v ===== *)
(** [lib/libutil.c] and the bit macros of [lib/libutil.h]: byte-array and
    endianness helpers, decimal printing, bit fields.  Each loop of the code
    is [for_range] (or a fuel-indexed loop whose bound is the loop's own), so
    the models run; the theorems give each helper's functional behaviour. *)

From S2P Require Import Prelude IpmiDefs.

(** * Definitions *)

(** The macros work on [1ULL], a 64-bit constant. *)
Definition SETBIT (x y : Z) : Z := Z.lor x (Z.shiftl 1 y).
Definition GETBIT (x y : Z) : bool := Z.land x (Z.shiftl 1 y) >? y.
Definition CLEARBIT (x y : Z) : Z := Z.land x (Z.ldiff (Z.ones 64) (Z.shiftl 1 y)).

Definition SMALL_ENDIAN : Z := 0.
Definition BIG_ENDIAN : Z := 1.

(** The fields the function does not assign keep the indeterminate value
    [garbage] of the local variable; [data = None] is a NULL argument. *)
Definition construct_ipmi_message (garbage : ipmi_msg)
    (seq_source netFn command source_inft target_inft data_len : Z)
    (data : option (list Z)) : res ipmi_msg :=
  let m := with_seq_source seq_source (with_netfn netFn (with_cmd command
             (with_InF_source source_inft (with_InF_target target_inft
                (with_data_len data_len garbage))))) in
  match data with
  | Some d =>
      if negb (data_len =? 0) then
        rlet! buf := memcpy (m_data m) 0 d 0 data_len in Ret (with_data buf m)
      else Ret m
  | None => Ret m
  end.

Definition reverse_array (arr : list Z) (size : Z) : res (list Z) :=
  for_range 0 (size / 2) (fun i arr =>
    rlet! temp := arr_get arr i in
    rlet! other := arr_get arr (size - 1 - i) in
    rlet! arr := arr_set arr i other in
    arr_set arr (size - 1 - i) temp) arr.

Definition ascii_to_val (ascii_byte : Z) : Z :=
  if (ascii_byte >=? 0x30) && (ascii_byte <? 0x3A) then ascii_byte - 0x30
  else if (ascii_byte >=? 0x41) && (ascii_byte <? 0x47) then ascii_byte - 0x41 + 10
  else -1.

Definition swap_bits (mask_hi mask_lo n data : Z) : Z :=
  Z.lor (Z.shiftr (Z.land data mask_hi) n) (u32 (Z.shiftl (Z.land data mask_lo) n)).

Definition uint32_t_byte_reverse (data : Z) : Z :=
  let re_data := swap_bits 0xaaaaaaaa 0x55555555 1 data in
  let re_data := swap_bits 0xcccccccc 0x33333333 2 re_data in
  let re_data := swap_bits 0xf0f0f0f0 0x0f0f0f0f 4 re_data in
  let re_data := swap_bits 0xff00ff00 0x00ff00ff 8 re_data in
  Z.lor (Z.shiftr re_data 16) (Z.land (u32 (Z.shiftl re_data 16)) 0xffffffff).

Definition convert_uint32_t_to_uint8_t_pointer (data_32 : Z) (data_8 : list Z)
    (len endian : Z) : res (list Z) :=
  if negb (len =? 4) then Ret data_8
  else for_range 0 len (fun i data_8 =>
    if endian =? SMALL_ENDIAN
    then arr_set data_8 i (Z.land (Z.shiftr data_32 (8 * i)) 0xFF)
    else arr_set data_8 i (Z.land (Z.shiftr data_32 (24 - 8 * i)) 0xFF)) data_8.

(** [data_8[3] << 24] is an [int] shift that may reach the sign bit; as the
    compiler of the project (GCC) does, it is taken modulo 2^32, and the sum is
    converted back to [uint32_t]. *)
Definition convert_uint8_t_pointer_to_uint32_t (data_32 : Z) (data_8 : list Z)
    (len endian : Z) : res Z :=
  if negb (len =? 4) then Ret data_32
  else
    rlet! b0 := arr_get data_8 0 in
    rlet! b1 := arr_get data_8 1 in
    rlet! b2 := arr_get data_8 2 in
    rlet! b3 := arr_get data_8 3 in
    if endian =? SMALL_ENDIAN
    then Ret (u32 (Z.shiftl b3 24 + Z.shiftl b2 16 + Z.shiftl b1 8 + b0))
    else Ret (u32 (Z.shiftl b0 24 + Z.shiftl b1 16 + Z.shiftl b2 8 + b3)).

(** The loop state is (val, result, idx); [divisor] runs through 100, 10, 1. *)
Fixpoint dec_ascii_loop (fuel : nat) (divisor val : Z) (result : list Z) (idx len : Z)
    : res (list Z * Z) :=
  match fuel with
  | O => OutOfFuel
  | S fuel' =>
      if (divisor >? 0) && (idx <? len) then
        if (val / divisor =? 0) && (idx =? 0)
        then dec_ascii_loop fuel' (divisor / 10) val result idx len
        else
          let digit := val / divisor in
          rlet! result := arr_set result idx (u8 (0x30 + digit)) in
          dec_ascii_loop fuel' (divisor / 10) (u8 (val - digit * divisor)) result
            (u8 (idx + 1)) len
      else Ret (result, idx)
  end.

Definition uint8_t_to_dec_ascii_pointer (val : Z) (result : list Z) (len : Z)
    : res (list Z * Z) :=
  dec_ascii_loop 4 100 val result 0 len.

Fixpoint find_byte_loop (n : nat) (buf : list Z) (byte_data index : Z) : res Z :=
  match n with
  | O => Ret (-1)
  | S n' =>
      rlet! b := arr_get buf index in
      if b =? byte_data then Ret index else find_byte_loop n' buf byte_data (index + 1)
  end.

Definition find_byte_data_in_buf (buf : list Z) (byte_data start_index end_index : Z) : res Z :=
  find_byte_loop (Z.to_nat (end_index - start_index)) buf byte_data start_index.

Definition clear_bits (value start_bit end_bit : Z) : Z :=
  if (start_bit <? 0) || (end_bit >? 31) then value
  else match for_range start_bit (end_bit + 1) (fun i v => Ret (u32 (CLEARBIT v i))) value with
       | Ret v => v
       | _ => value
       end.

(** * Arrays and bytes *)

Section ReverseArray.
Context (arr0 : list Z) (size : Z).
Hypothesis Hsize : 0 <= size <= Z.of_nat (length arr0).

(** After [i] exchanges the outer [i] positions on both sides are mirrored. *)
Let I (i : Z) (arr : list Z) : Prop :=
  length arr = length arr0 /\
  forall k, arr !! k =
    if decide (Z.of_nat k < size /\ (Z.of_nat k < i \/ size - i <= Z.of_nat k))
    then arr0 !! Z.to_nat (size - 1 - Z.of_nat k) else arr0 !! k.

Lemma reverse_array_step i arr :
  0 <= i < size / 2 -> I i arr ->
  rwp (rlet! temp := arr_get arr i in
       rlet! other := arr_get arr (size - 1 - i) in
       rlet! arr := arr_set arr i other in
       arr_set arr (size - 1 - i) temp) (I (i + 1)).
Proof.
  intros Hi [Hlen Harr]. assert (Hi2 : 2 * i + 1 < size) by (Z.div_mod_to_equations; lia).
  apply rwp_bind, rwp_arr_get; [lia|]. intros x Hx.
  apply rwp_bind, rwp_arr_get; [lia|]. intros y Hy.
  apply rwp_bind, rwp_arr_set; [lia|].
  apply rwp_arr_set; [rewrite length_insert; lia|].
  split; [by rewrite !length_insert|]. intros k.
  rewrite Harr in Hx, Hy.
  rewrite decide_False in Hx by lia. rewrite decide_False in Hy by lia.
  destruct (decide (k = Z.to_nat (size - 1 - i))) as [->|Hk1].
  { rewrite list_lookup_insert_eq by (rewrite length_insert; lia).
    rewrite decide_True by lia. rewrite <- Hx. f_equal. lia. }
  rewrite list_lookup_insert_ne by done.
  destruct (decide (k = Z.to_nat i)) as [->|Hk2].
  { rewrite list_lookup_insert_eq by lia.
    rewrite decide_True by lia. rewrite <- Hy. f_equal. lia. }
  rewrite list_lookup_insert_ne by done. rewrite Harr.
  repeat case_decide; auto; lia.
Qed.

Lemma reverse_array_run :
  rwp (reverse_array arr0 size)
    (fun arr => arr = reverse (take (Z.to_nat size) arr0) ++ drop (Z.to_nat size) arr0).
Proof.
  unfold reverse_array. apply (rwp_for_range I).
  - apply Z.div_pos; lia.
  - split; [done|]. intros k. by rewrite decide_False by lia.
  - intros. by apply reverse_array_step.
  - intros arr [Hlen Harr]. apply list_eq. intros k. rewrite Harr.
    assert (Hl : length (reverse (take (Z.to_nat size) arr0)) = Z.to_nat size)
      by (rewrite length_reverse, length_take; lia).
    destruct (decide (k < Z.to_nat size)%nat) as [Hk|Hk].
    + rewrite lookup_app_l by lia.
      rewrite reverse_lookup by (rewrite length_take; lia).
      rewrite length_take, lookup_take_lt by lia.
      assert (Hmid : size - size / 2 <= size / 2 + 1) by (Z.div_mod_to_equations; lia).
      case_decide; f_equal; Z.div_mod_to_equations; lia.
    + rewrite lookup_app_r, Hl, lookup_drop by lia.
      rewrite decide_False by lia. f_equal. lia.
Qed.
End ReverseArray.

(** [reverse_array] reverses exactly the first [size] elements of the
    array, in place, and touches nothing beyond them. *)
Theorem reverse_array_spec arr size :
  0 <= size <= Z.of_nat (length arr) ->
  reverse_array arr size =
    Ret (reverse (take (Z.to_nat size) arr) ++ drop (Z.to_nat size) arr).
Proof. intros H. destruct (rwp_inv _ _ (reverse_array_run arr size H)) as (a & -> & ->). done. Qed.

Lemma reverse_array_spec_witness :
  reverse_array [1; 2; 3; 4; 5; 6] 5 = Ret [5; 4; 3; 2; 1; 6].
Proof. apply (reverse_array_spec [1; 2; 3; 4; 5; 6] 5). simpl; lia. Defined.

(** * Bit reversal *)

(** One butterfly stage moves bit [i] to [i + n] or [i - n], by the mask. *)
Lemma swap_bits_spec hi lo n data i :
  0 <= n -> 0 <= i < 32 ->
  Z.testbit (swap_bits hi lo n data) i =
    (Z.testbit data (i + n) && Z.testbit hi (i + n)) ||
    (Z.testbit data (i - n) && Z.testbit lo (i - n)).
Proof.
  intros Hn Hi. unfold swap_bits, u32.
  rewrite Z.lor_spec, Z.shiftr_spec, Z.mod_pow2_bits_low, Z.shiftl_spec, !Z.land_spec by lia.
  done.
Qed.

Lemma swap_bits_range hi lo n data :
  0 <= n -> 0 <= data -> is_u32 hi -> is_u32 (swap_bits hi lo n data).
Proof.
  intros Hn Hd Hhi. unfold swap_bits, is_u32. apply lor_range; [lia| |apply u32_range].
  apply shiftr_range; [lia..|]. by apply land_range.
Qed.

(** Case analysis on a bit index below 32; evaluation of constant indices. *)
Ltac enum_bits i :=
  let rec go k := lazymatch k with
    | 32 => exfalso; lia
    | _ => let k' := eval vm_compute in (k + 1) in
           destruct (Z.eq_dec i k) as [->|?]; [|go k']
    end in go 0.
Ltac norm_index :=
  repeat match goal with
  | |- context [Z.testbit ?a ?e] =>
      lazymatch e with Z0 => fail | Zpos _ => fail | Zneg _ => fail | _ => idtac end;
      let v := eval vm_compute in e in change (Z.testbit a e) with (Z.testbit a v)
  end.
Ltac norm_mask :=
  repeat match goal with
  | |- context [Z.testbit (Zpos ?p) ?k] =>
      let v := eval vm_compute in (Z.testbit (Zpos p) k) in
      change (Z.testbit (Zpos p) k) with v
  end; rewrite ?andb_true_r, ?andb_false_r, ?orb_false_r, ?orb_false_l.
Ltac butterfly := rewrite ?swap_bits_spec by lia; norm_index; norm_mask.

(** Despite its name, [uint32_t_byte_reverse] reverses the 32 bits of its
    argument: bit [i] of the result is bit [31 - i] of the argument. *)
Theorem byte_reverse_is_bit_reverse data i :
  is_u32 data -> 0 <= i < 32 ->
  Z.testbit (uint32_t_byte_reverse data) i = Z.testbit data (31 - i).
Proof.
  intros Hd Hi. unfold uint32_t_byte_reverse.
  set (d1 := swap_bits _ _ 1 data). set (d2 := swap_bits _ _ 2 d1).
  set (d3 := swap_bits _ _ 4 d2). set (d4 := swap_bits _ _ 8 d3).
  assert (H1 : is_u32 d1) by (apply swap_bits_range; [lia|apply Hd|done]).
  assert (H2 : is_u32 d2) by (apply swap_bits_range; [lia|apply H1|done]).
  assert (H3 : is_u32 d3) by (apply swap_bits_range; [lia|apply H2|done]).
  assert (H4 : is_u32 d4) by (apply swap_bits_range; [lia|apply H3|done]).
  rewrite Z.lor_spec, Z.shiftr_spec, Z.land_spec by lia. unfold u32.
  rewrite Z.mod_pow2_bits_low, Z.shiftl_spec by lia.
  enum_bits i; norm_index; norm_mask; rewrite ?(range_bits 32 d4) by (apply H4 || lia);
    rewrite ?(Z.testbit_neg_r d4) by lia; rewrite ?orb_false_r, ?orb_false_l;
    unfold d4; butterfly; unfold d3; butterfly; unfold d2; butterfly; unfold d1; butterfly;
    reflexivity.
Qed.

Lemma byte_reverse_is_bit_reverse_witness :
  Z.testbit (uint32_t_byte_reverse 0x00000006) 30 = true.
Proof. rewrite byte_reverse_is_bit_reverse; [reflexivity|done|lia]. Defined.

(** * Endianness *)

Lemma bytes4_range (data_8 : list Z) i b :
  bytes data_8 -> data_8 !! i = Some b -> 0 <= b < 256.
Proof. apply bytes_lookup. Qed.

Lemma u8_land z : Z.land z 0xFF = u8 z.
Proof. exact (Z.land_ones z 8 ltac:(lia)). Qed.

Lemma fill4 (f : Z -> Z) b0 b1 b2 b3 rest :
  for_range 0 4 (fun i l => arr_set l i (f i)) (b0 :: b1 :: b2 :: b3 :: rest) =
    Ret (f 0 :: f 1 :: f 2 :: f 3 :: rest).
Proof.
  unfold for_range. change (Z.to_nat (4 - 0)) with 4%nat. cbn [rfor].
  do 4 (rewrite arr_set_ok by (simpl; lia); cbn [rbind rfor Z.to_nat insert list_insert]).
  reflexivity.
Qed.

Lemma convert_to_bytes_run d b0 b1 b2 b3 rest endian :
  convert_uint32_t_to_uint8_t_pointer d (b0 :: b1 :: b2 :: b3 :: rest) 4 endian =
    Ret ((if endian =? SMALL_ENDIAN
          then [u8 d; u8 (d / 2 ^ 8); u8 (d / 2 ^ 16); u8 (d / 2 ^ 24)]
          else [u8 (d / 2 ^ 24); u8 (d / 2 ^ 16); u8 (d / 2 ^ 8); u8 d]) ++ rest).
Proof.
  unfold convert_uint32_t_to_uint8_t_pointer. destruct (endian =? SMALL_ENDIAN); simpl negb;
    cbv iota.
  - rewrite (fill4 (fun i => Z.land (Z.shiftr d (8 * i)) 255)).
    by rewrite !u8_land, !Z.shiftr_div_pow2, Z.div_1_r by lia.
  - rewrite (fill4 (fun i => Z.land (Z.shiftr d (24 - 8 * i)) 255)).
    by rewrite !u8_land, !Z.shiftr_div_pow2, Z.div_1_r by lia.
Qed.

Lemma four_bytes_value d : is_u32 d ->
  u8 d + 256 * (u8 (d / 2 ^ 8) + 256 * (u8 (d / 2 ^ 16) + 256 * u8 (d / 2 ^ 24))) = d.
Proof.
  unfold u8, is_u32. change (2 ^ 8) with 256. change (2 ^ 16) with (256 * 256).
  change (2 ^ 24) with (256 * 256 * 256). intros.
  rewrite <- !Z.div_div by lia. Z.div_mod_to_equations. lia.
Qed.

(** Storing a 32-bit integer in a buffer and reading it back gives the
    same integer, with either byte order and whatever follows the four bytes. *)
Theorem convert_roundtrip d buf endian buf' old :
  is_u32 d -> (4 <= length buf)%nat ->
  convert_uint32_t_to_uint8_t_pointer d buf 4 endian = Ret buf' ->
  convert_uint8_t_pointer_to_uint32_t old buf' 4 endian = Ret d.
Proof.
  intros Hd Hlen. destruct buf as [|b0 [|b1 [|b2 [|b3 rest]]]]; simpl in Hlen; try lia.
  rewrite convert_to_bytes_run. intros [= <-].
  unfold convert_uint8_t_pointer_to_uint32_t.
  assert (Hsum : forall a b c e, a = u8 d -> b = u8 (d / 2 ^ 8) -> c = u8 (d / 2 ^ 16) ->
            e = u8 (d / 2 ^ 24) ->
            u32 (Z.shiftl e 24 + Z.shiftl c 16 + Z.shiftl b 8 + a) = d).
  { intros a b c e -> -> -> ->. rewrite !Z.shiftl_mul_pow2 by lia.
    rewrite <- (u32_small d Hd) at 5. f_equal. pose proof (four_bytes_value d Hd).
    change (2 ^ 24) with (256 * 256 * 256) in *. change (2 ^ 16) with (256 * 256) in *.
    change (2 ^ 8) with 256 in *. lia. }
  destruct (endian =? SMALL_ENDIAN) eqn:E; simpl; f_equal; by apply Hsum.
Qed.

Lemma convert_roundtrip_witness :
  convert_uint8_t_pointer_to_uint32_t 0 [0xDE; 0xAD; 0xBE; 0xEF; 7] 4 BIG_ENDIAN =
    Ret 0xDEADBEEF.
Proof.
  apply (convert_roundtrip 0xDEADBEEF [0; 0; 0; 0; 7] BIG_ENDIAN); [done|simpl; lia|].
  vm_compute. reflexivity.
Defined.

(** * Decimal printing *)

(** The decimal digits of a byte, most significant first, no leading zero. *)
Definition dec_digits (val : Z) : list Z :=
  if val >=? 100 then [val / 100; val / 10 mod 10; val mod 10]
  else if val >=? 10 then [val / 10; val mod 10]
  else if val >=? 1 then [val] else [].

Definition dec_value (l : list Z) : Z := foldl (fun acc c => 10 * acc + (c - 0x30)) 0 l.

Lemma dec_ascii_skip fuel divisor val result len :
  0 < divisor -> 0 < len -> 0 <= val < divisor ->
  dec_ascii_loop (S fuel) divisor val result 0 len =
    dec_ascii_loop fuel (divisor / 10) val result 0 len.
Proof.
  intros Hd Hl Hv. cbn [dec_ascii_loop].
  rewrite Z.gtb_ltb, (proj2 (Z.ltb_lt _ _) Hd), (proj2 (Z.ltb_lt _ _) Hl).
  by rewrite Z.div_small by done.
Qed.

Lemma dec_ascii_emit fuel divisor val result idx len :
  0 < divisor -> 0 <= idx < len -> idx < Z.of_nat (length result) -> idx < 255 ->
  is_u8 val -> val / divisor < 10 -> divisor <= val \/ idx <> 0 ->
  dec_ascii_loop (S fuel) divisor val result idx len =
    dec_ascii_loop fuel (divisor / 10) (val mod divisor)
      (<[Z.to_nat idx := 0x30 + val / divisor]> result) (idx + 1) len.
Proof.
  unfold is_u8. change (2 ^ 8) with 256. intros Hd Hi Hr Hi2 Hv Hq Hc. cbn [dec_ascii_loop].
  assert (0 <= val / divisor) by (apply Z.div_pos; lia).
  assert (Hmod : val - val / divisor * divisor = val mod divisor) by (rewrite Z.mod_eq by lia; lia).
  pose proof (Z.mod_le val divisor). pose proof (Z.mod_pos_bound val divisor).
  rewrite Z.gtb_ltb, (proj2 (Z.ltb_lt _ _) Hd), (proj2 (Z.ltb_lt _ _) (proj2 Hi)).
  assert (Hb : ((val / divisor =? 0) && (idx =? 0))%bool = false).
  { apply andb_false_iff. rewrite !Z.eqb_neq. destruct Hc; [left|by right].
    assert (1 <= val / divisor) by (apply Z.div_le_lower_bound; lia). lia. }
  cbv iota beta delta [andb] in Hb |- *. rewrite Hb. rewrite arr_set_ok by lia. cbn [rbind].
  rewrite Hmod, !u8_small by (unfold is_u8; change (2 ^ 8) with 256; lia). done.
Qed.

Ltac dec_div := Z.div_mod_to_equations; lia.

(** Printing fills the buffer with the digits, without leading zeros. *)
Lemma dec_ascii_run val r0 r1 r2 rest len :
  is_u8 val -> 3 <= len ->
  uint8_t_to_dec_ascii_pointer val (r0 :: r1 :: r2 :: rest) len =
    Ret (((fun d => 0x30 + d) <$> dec_digits val) ++
           drop (length (dec_digits val)) (r0 :: r1 :: r2 :: rest),
         Z.of_nat (length (dec_digits val))).
Proof.
  intros Hv Hlen. pose proof Hv as Hv'. unfold is_u8 in Hv. change (2 ^ 8) with 256 in Hv.
  unfold uint8_t_to_dec_ascii_pointer, dec_digits.
  assert (D1 : 100 / 10 = 10) by done. assert (D2 : 10 / 10 = 1) by done.
  assert (D3 : 1 / 10 = 0) by done.
  assert (Hstop : forall v r i, dec_ascii_loop 1 0 v r i len = Ret (r, i)) by done.
  destruct (Z.geb_spec val 100) as [H100|H100]; [|destruct (Z.geb_spec val 10) as [H10|H10];
    [|destruct (Z.geb_spec val 1) as [H1|H1]]].
  - rewrite dec_ascii_emit by (simpl; try done; try dec_div; lia). rewrite D1.
    rewrite dec_ascii_emit by (simpl; unfold is_u8; try dec_div; lia). rewrite D2.
    rewrite dec_ascii_emit by (simpl; unfold is_u8; try dec_div; lia). rewrite D3, Hstop.
    rewrite Z.div_1_r. replace (val mod 100 / 10) with (val / 10 mod 10) by dec_div.
    by replace ((val mod 100) mod 10) with (val mod 10) by dec_div.
  - rewrite dec_ascii_skip by lia. rewrite D1.
    rewrite dec_ascii_emit by (simpl; try done; try dec_div; lia). rewrite D2.
    rewrite dec_ascii_emit by (simpl; unfold is_u8; try dec_div; lia). rewrite D3, Hstop.
    by rewrite Z.div_1_r.
  - rewrite dec_ascii_skip by lia. rewrite D1. rewrite dec_ascii_skip by lia. rewrite D2.
    rewrite dec_ascii_emit by (simpl; try done; try dec_div; lia). rewrite D3, Hstop.
    rewrite Z.div_1_r. done.
  - rewrite dec_ascii_skip by lia. rewrite D1. rewrite dec_ascii_skip by lia. rewrite D2.
    rewrite dec_ascii_skip by lia. by rewrite D3, Hstop.
Qed.

(** A byte is printed as decimal ASCII digits whose value is the byte,
    with its number of digits, and the rest of the buffer is untouched. *)
Theorem dec_ascii_value val buf len :
  is_u8 val -> 3 <= len -> (3 <= length buf)%nat ->
  exists ds, uint8_t_to_dec_ascii_pointer val buf len =
      Ret (ds ++ drop (length ds) buf, Z.of_nat (length ds)) /\
    Forall (fun c => 0x30 <= c <= 0x39) ds /\ dec_value ds = val /\
    hd 0x31 ds <> 0x30.
Proof.
  intros Hv Hlen Hbuf. destruct buf as [|r0 [|r1 [|r2 rest]]]; simpl in Hbuf; try lia.
  exists ((fun d => 0x30 + d) <$> dec_digits val).
  rewrite dec_ascii_run, length_fmap by done. split; [done|].
  unfold is_u8 in Hv. change (2 ^ 8) with 256 in Hv. unfold dec_digits, dec_value.
  repeat (case_match; zify_bool); cbn [fmap list_fmap foldl hd];
    (split; [repeat constructor; dec_div|split; dec_div]).
Qed.

Lemma dec_ascii_value_witness :
  exists ds, uint8_t_to_dec_ascii_pointer 207 [0; 0; 0; 0] 3 =
      Ret (ds ++ drop (length ds) [0; 0; 0; 0], Z.of_nat (length ds)) /\
    Forall (fun c => 0x30 <= c <= 0x39) ds /\ dec_value ds = 207 /\ hd 0x31 ds <> 0x30.
Proof. apply (dec_ascii_value 207 [0; 0; 0; 0] 3); [done|lia|simpl; lia]. Defined.

(** * Searching and bit fields *)

Lemma find_byte_loop_run n buf b i :
  0 <= i -> i + Z.of_nat n <= Z.of_nat (length buf) ->
  exists r, find_byte_loop n buf b i = Ret r /\
    ((r = -1 /\ forall j, i <= j < i + Z.of_nat n -> buf !! Z.to_nat j <> Some b) \/
     (i <= r < i + Z.of_nat n /\ buf !! Z.to_nat r = Some b /\
      forall j, i <= j < r -> buf !! Z.to_nat j <> Some b)).
Proof.
  revert i. induction n as [|n IH]; intros i H0 Hn; simpl.
  { exists (-1). split; [done|]. left. split; [done|]. lia. }
  destruct (arr_get_ok buf i) as (x & -> & Hx); [lia|]. cbn [rbind].
  destruct (Z.eqb_spec x b) as [->|Hne].
  { exists i. split; [done|]. right. split; [lia|]. split; [done|lia]. }
  destruct (IH (i + 1)) as (r & -> & Hr); [lia..|]. exists r. split; [done|].
  assert (Hi : buf !! Z.to_nat i <> Some b) by congruence.
  destruct Hr as [[-> Hr]|(Hr1 & Hr2 & Hr3)]; [left|right]; (split; [lia|]).
  - intros j Hj. destruct (decide (j = i)) as [->|]; [done|]. apply Hr. lia.
  - split; [done|]. intros j Hj. destruct (decide (j = i)) as [->|]; [done|]. apply Hr3. lia.
Qed.

(** [find_byte_data_in_buf] returns the first index in
    [start_index, end_index) holding the byte, and -1 exactly when there is
    none; it never reads outside the range. *)
Theorem find_byte_spec buf b lo hi :
  0 <= lo -> lo <= hi <= Z.of_nat (length buf) ->
  exists r, find_byte_data_in_buf buf b lo hi = Ret r /\
    ((r = -1 /\ forall j, lo <= j < hi -> buf !! Z.to_nat j <> Some b) \/
     (lo <= r < hi /\ buf !! Z.to_nat r = Some b /\
      forall j, lo <= j < r -> buf !! Z.to_nat j <> Some b)).
Proof.
  intros H0 H1. unfold find_byte_data_in_buf.
  destruct (find_byte_loop_run (Z.to_nat (hi - lo)) buf b lo) as (r & Hr & Hs); [lia..|].
  replace (lo + Z.of_nat (Z.to_nat (hi - lo))) with hi in Hs by lia. eauto.
Qed.

Lemma find_byte_spec_witness :
  exists r, find_byte_data_in_buf [9; 4; 9; 4] 4 0 3 = Ret r /\
    ((r = -1 /\ forall j, 0 <= j < 3 -> [9; 4; 9; 4] !! Z.to_nat j <> Some 4) \/
     (0 <= r < 3 /\ [9; 4; 9; 4] !! Z.to_nat r = Some 4 /\
      forall j, 0 <= j < r -> [9; 4; 9; 4] !! Z.to_nat j <> Some 4)).
Proof. apply (find_byte_spec [9; 4; 9; 4] 4 0 3); simpl; lia. Defined.

Lemma CLEARBIT_spec v i j :
  0 <= i -> 0 <= j < 64 -> Z.testbit (CLEARBIT v i) j = Z.testbit v j && negb (j =? i).
Proof.
  intros Hi Hj. unfold CLEARBIT.
  rewrite Z.land_spec, Z.ldiff_spec, Z.ones_spec_low, Z.shiftl_1_l, Z.pow2_bits_eqb by lia.
  by rewrite Z.eqb_sym.
Qed.

(** [clear_bits] clears exactly the bits of the range that
    lie in the word and leaves a word. *)
Theorem clear_bits_spec v lo hi j :
  is_u32 v -> 0 <= lo -> hi <= 31 -> 0 <= j < 32 ->
  Z.testbit (clear_bits v lo hi) j =
    Z.testbit v j && negb ((lo <=? j) && (j <=? hi)).
Proof.
  intros Hv Hlo Hhi Hj. unfold clear_bits.
  rewrite (proj2 (Z.ltb_ge lo 0)), Z.gtb_ltb, (proj2 (Z.ltb_ge 31 hi)) by lia. cbn [orb].
  destruct (Z.le_gt_cases lo (hi + 1)) as [Hle|Hgt].
  - assert (Hloop : rwp (for_range lo (hi + 1) (fun i v => Ret (u32 (CLEARBIT v i))) v)
      (fun w => forall k, 0 <= k < 32 ->
         Z.testbit w k = Z.testbit v k && negb ((lo <=? k) && (k <? hi + 1)))).
    { apply (rwp_for_range (fun i w => forall k, 0 <= k < 32 ->
         Z.testbit w k = Z.testbit v k && negb ((lo <=? k) && (k <? i)))); [done| | |auto].
      - intros k Hk. destruct (Z.leb_spec lo k), (Z.ltb_spec k lo); simpl;
          rewrite ?andb_true_r; done || lia.
      - intros i w Hi Hw k Hk. unfold u32. rewrite Z.mod_pow2_bits_low, CLEARBIT_spec, Hw by lia.
        destruct (Z.testbit v k); [|done]. simpl.
        destruct (Z.leb_spec lo k), (Z.ltb_spec k i), (Z.ltb_spec k (i + 1)),
          (Z.eqb_spec k i); simpl; done || lia. }
    apply rwp_inv in Hloop as (w & -> & Hw). rewrite Hw by done.
    by replace (j <? hi + 1) with (j <=? hi) by (destruct (Z.leb_spec j hi), (Z.ltb_spec j (hi+1)); lia || done).
  - rewrite for_range_empty by lia.
    destruct (Z.leb_spec lo j), (Z.leb_spec j hi); simpl; rewrite ?andb_true_r; done || lia.
Qed.

Lemma clear_bits_spec_witness : Z.testbit (clear_bits 0xFF 2 4) 3 = false.
Proof. rewrite (clear_bits_spec 0xFF 2 4 3); [reflexivity|done|lia..]. Defined.
