(* ===== verification/IpmbCodec.v ===== *)
(** The IPMB frame format of [ipmb/ipmb.c]: the channel-to-index table, the
    two checksums, [ipmb_encode] and [ipmb_decode].  [frame] is the abstract
    layout of a message on the wire; the theorems show that encoding
    produces it, that validation accepts it and rejects any single corrupted
    byte, that decoding recovers the message, and what the 8-bit index does
    to a message that is too long. *)

From S2P Require Import Prelude IpmiDefs.

(** * Channel table *)

(** [for (channel = 0; channel < RESERVED; channel++)] with its [break]. *)
Fixpoint map_channel_loop (n : nat) (channel : Z) (cfg : IPMB_config) (index_num : Z)
    (map : list Z) : res (list Z) :=
  match n with
  | O => Ret map
  | S n' =>
      if cfg_channel cfg =? channel then arr_set map channel index_num
      else map_channel_loop n' (channel + 1) cfg index_num map
  end.

(** The outer loop runs to the [RESERVED_IDX] entry; without one it leaves
    the table. *)
Fixpoint map_config_loop (fuel : nat) (table : list IPMB_config) (index_num : Z)
    (map : list Z) : res (list Z) :=
  match fuel with
  | O => OutOfFuel
  | S fuel' =>
      rlet! cfg := arr_get table index_num in
      if cfg_index cfg =? RESERVED_IDX then Ret map
      else
        rlet! map := map_channel_loop (Z.to_nat RESERVED) 0 cfg index_num map in
        map_config_loop fuel' table (u8 (index_num + 1)) map
  end.

Definition channel_index_mapping (table : list IPMB_config) : res (list Z) :=
  map_config_loop (S (length table)) table 0 (replicate (Z.to_nat RESERVED) RESERVED).

(** * Checksums *)

Definition calculate_checksum (buffer : list Z) (range : Z) : res Z :=
  rlet! b0 := arr_get buffer 0 in
  let checksum := u8 (0 - Z.shiftl b0 1) in
  for_range 1 range (fun i checksum =>
    rlet! b := arr_get buffer i in Ret (u8 (checksum - b))) checksum.

Definition validate_checksum (buffer : list Z) (buffer_len : Z) : res ipmb_error :=
  rlet! header_checksum := arr_get buffer 2 in
  rlet! msg_checksum := arr_get buffer (buffer_len - 1) in
  rlet! calc_header_checksum := calculate_checksum buffer IPMI_HEADER_CHECKSUM_POSITION in
  rlet! calc_msg_checksum := calculate_checksum buffer (u8 (buffer_len - 1)) in
  if header_checksum =? calc_header_checksum then
    if msg_checksum =? calc_msg_checksum then Ret IPMB_ERROR_SUCCESS
    else Ret IPMB_ERROR_HDR_CHECKSUM
  else Ret IPMB_ERROR_MSG_CHECKSUM.

(** * Encoding and decoding *)

Definition ipmb_encode (buffer : list Z) (msg : ipmi_msg) : res (list Z * ipmb_error) :=
  rlet! buffer := arr_set buffer 0 (m_dest_addr msg) in
  rlet! buffer := arr_set buffer 1
    (Z.lor (Z.land (Z.shiftl (m_netfn msg) 2) IPMB_NETFN_MASK)
           (Z.land (m_dest_LUN msg) IPMB_DEST_LUN_MASK)) in
  rlet! c := calculate_checksum buffer IPMI_HEADER_CHECKSUM_POSITION in
  rlet! buffer := arr_set buffer 2 c in
  rlet! buffer := arr_set buffer 3 (m_src_addr msg) in
  rlet! buffer := arr_set buffer 4
    (Z.lor (Z.land (Z.shiftl (m_seq msg) 2) IPMB_SEQ_MASK)
           (Z.land (m_src_LUN msg) IPMB_SRC_LUN_MASK)) in
  rlet! buffer := arr_set buffer 5 (m_cmd msg) in
  rlet! (buffer, i) :=
    (if IS_RESPONSE msg then
       rlet! buffer := arr_set buffer 6 (m_completion_code msg) in Ret (buffer, 7)
     else Ret (buffer, 6)) in
  rlet! buffer := memcpy buffer i (m_data msg) 0 (m_data_len msg) in
  let i := u8 (i + m_data_len msg) in
  rlet! c := calculate_checksum buffer i in
  rlet! buffer := arr_set buffer i c in
  Ret (buffer, IPMB_ERROR_SUCCESS).

Definition ipmb_decode (msg : ipmi_msg) (buffer : list Z) (len : Z)
    : res (ipmi_msg * ipmb_error) :=
  rlet! b0 := arr_get buffer 0 in
  rlet! b1 := arr_get buffer 1 in
  rlet! b2 := arr_get buffer 2 in
  rlet! b3 := arr_get buffer 3 in
  rlet! b4 := arr_get buffer 4 in
  rlet! b5 := arr_get buffer 5 in
  let msg := with_dest_addr b0 msg in
  let msg := with_netfn (Z.shiftr b1 2) msg in
  let msg := with_dest_LUN (Z.land b1 IPMB_DEST_LUN_MASK) msg in
  let msg := with_hdr_chksum b2 msg in
  let msg := with_src_addr b3 msg in
  let msg := with_seq (Z.shiftr b4 2) msg in
  let msg := with_src_LUN (Z.land b4 IPMB_SRC_LUN_MASK) msg in
  let msg := with_cmd b5 msg in
  rlet! (msg, i) :=
    (if IS_RESPONSE msg then
       rlet! b6 := arr_get buffer 6 in Ret (with_completion_code b6 msg, 7)
     else Ret (msg, 6)) in
  let msg := with_data_len (if len >? i + 1 then len - i - 1 else 0) msg in
  rlet! data := memcpy (m_data msg) 0 buffer i (m_data_len msg) in
  let msg := with_data data msg in
  rlet! c := arr_get buffer (len - 1) in
  Ret (with_msg_chksum c msg, IPMB_ERROR_SUCCESS).

(** * The frame *)

(** The sum the checksums complement: the 7-bit address counts twice. *)
Definition sumz (l : list Z) : Z := foldr Z.add 0 l.
Definition frame_sum (l : list Z) : Z :=
  match l with [] => 0 | a :: r => 2 * a + sumz r end.

Definition header_len (msg : ipmi_msg) : Z := if IS_RESPONSE msg then 7 else 6.

Definition frame_header (msg : ipmi_msg) : list Z :=
  let addr := m_dest_addr msg in
  let fn := m_netfn msg mod 64 * 4 + m_dest_LUN msg mod 4 in
  [addr; fn; u8 (- (2 * addr + fn)); m_src_addr msg;
   m_seq msg mod 64 * 4 + m_src_LUN msg mod 4; m_cmd msg]
  ++ (if IS_RESPONSE msg then [m_completion_code msg] else []).

Definition frame_body (msg : ipmi_msg) : list Z := frame_header msg ++ payload msg.
Definition frame (msg : ipmi_msg) : list Z :=
  frame_body msg ++ [u8 (- frame_sum (frame_body msg))].

(** The fields that travel on the wire agree. *)
Record same_wire (m m' : ipmi_msg) : Prop := {
  sw_dest : m_dest_addr m' = m_dest_addr m;
  sw_netfn : m_netfn m' = m_netfn m;
  sw_dlun : m_dest_LUN m' = m_dest_LUN m;
  sw_src : m_src_addr m' = m_src_addr m;
  sw_seq : m_seq m' = m_seq m;
  sw_slun : m_src_LUN m' = m_src_LUN m;
  sw_cmd : m_cmd m' = m_cmd m;
  sw_cc : IS_RESPONSE m = true -> m_completion_code m' = m_completion_code m;
  sw_len : m_data_len m' = m_data_len m;
  sw_data : payload m' = payload m;
}.

(** The fields fit the bits the wire format gives them. *)
Record wire_fields (m : ipmi_msg) : Prop := {
  wr_netfn : m_netfn m < 64;
  wr_dlun : m_dest_LUN m < 4;
  wr_slun : m_src_LUN m < 4;
  wr_seq : m_seq m < SEQ_NUM;
}.

(** * Checksum lemmas *)

Lemma sumz_app l1 l2 : sumz (l1 ++ l2) = sumz l1 + sumz l2.
Proof. induction l1 as [|x l1 IH]; simpl; [done|]. rewrite IH. lia. Qed.

Lemma frame_sum_snoc l x : l <> [] -> frame_sum (l ++ [x]) = frame_sum l + x.
Proof. destruct l as [|a l]; [done|]. simpl. intros _. rewrite sumz_app. simpl. lia. Qed.

Lemma frame_sum_app l1 l2 : l1 <> [] -> frame_sum (l1 ++ l2) = frame_sum l1 + sumz l2.
Proof. destruct l1 as [|a l]; [done|]. simpl. intros _. rewrite sumz_app. lia. Qed.

Lemma u8_sub_l a b : u8 (u8 a - b) = u8 (a - b).
Proof. unfold u8. apply Zminus_mod_idemp_l. Qed.

Lemma calculate_checksum_run buffer range :
  1 <= range <= Z.of_nat (length buffer) ->
  calculate_checksum buffer range = Ret (u8 (- frame_sum (take (Z.to_nat range) buffer))).
Proof.
  intros Hr. destruct buffer as [|b0 buffer]; [simpl in Hr; lia|].
  assert (Hc : rwp (calculate_checksum (b0 :: buffer) range)
    (fun c => c = u8 (- frame_sum (take (Z.to_nat range) (b0 :: buffer))))).
  { unfold calculate_checksum. rewrite (arr_get_Ret _ 0 b0) by done. cbn [rbind].
    apply (rwp_for_range (fun i c => c = u8 (- frame_sum (take (Z.to_nat i) (b0 :: buffer)))));
      [lia| | |done].
    - change (Z.to_nat 1) with 1%nat. simpl. rewrite Z.shiftl_mul_pow2 by lia.
      f_equal. lia.
    - intros i c Hi ->. apply rwp_bind, rwp_arr_get; [lia|]. intros x Hx. simpl.
      rewrite u8_sub_l. f_equal. replace (Z.to_nat (i + 1)) with (S (Z.to_nat i)) by lia.
      rewrite (take_S_r _ _ x) by done. rewrite frame_sum_snoc; [lia|].
      destruct (Z.to_nat i) eqn:E; [lia|done]. }
  apply rwp_inv in Hc as (c & -> & ->). done.
Qed.

(** With no byte to sum, the address still enters the checksum. *)
Lemma calculate_checksum_0 b0 buffer :
  calculate_checksum (b0 :: buffer) 0 = Ret (u8 (- (2 * b0))).
Proof.
  unfold calculate_checksum. rewrite (arr_get_Ret _ 0 b0) by done. cbn [rbind].
  rewrite for_range_empty by lia. rewrite Z.shiftl_mul_pow2 by lia. do 2 f_equal. lia.
Qed.

Lemma checksum_zero c s : is_u8 c -> (c =? u8 (- s)) = ((s + c) mod 256 =? 0).
Proof. intros Hc. destruct (Z.eqb_spec c (u8 (- s))), (Z.eqb_spec ((s + c) mod 256) 0); word_lia; done. Qed.

Lemma take_nonnil {A} (l : list A) n : (0 < n)%nat -> (0 < length l)%nat -> take n l <> [].
Proof. destruct l, n; simpl; done || lia. Qed.

Lemma take_snoc_last {A} (l : list A) n x :
  l !! n = Some x -> take (S n) l = take n l ++ [x].
Proof. apply take_S_r. Qed.

(** What validation decides: both running sums are zero modulo 256. *)
Lemma validate_checksum_run buffer len :
  bytes buffer -> 4 <= len <= 255 -> len <= Z.of_nat (length buffer) ->
  validate_checksum buffer len =
    Ret (if frame_sum (take 3 buffer) mod 256 =? 0 then
           if frame_sum (take (Z.to_nat len) buffer) mod 256 =? 0
           then IPMB_ERROR_SUCCESS else IPMB_ERROR_HDR_CHECKSUM
         else IPMB_ERROR_MSG_CHECKSUM).
Proof.
  intros Hb Hlen Hl. unfold validate_checksum.
  destruct (arr_get_ok buffer 2) as (h & -> & Hh); [lia|].
  destruct (arr_get_ok buffer (len - 1)) as (c & -> & Hc); [lia|]. cbn [rbind].
  rewrite (calculate_checksum_run _ IPMI_HEADER_CHECKSUM_POSITION) by
    (unfold IPMI_HEADER_CHECKSUM_POSITION; lia).
  rewrite (u8_small (len - 1)) by (unfold is_u8; change (2 ^ 8) with 256; lia).
  rewrite calculate_checksum_run by lia. cbn [rbind].
  change (Z.to_nat IPMI_HEADER_CHECKSUM_POSITION) with 2%nat in *.
  rewrite !checksum_zero by (eapply bytes_lookup; eauto).
  change (Z.to_nat 2) with 2%nat in Hh.
  replace (Z.to_nat len) with (S (Z.to_nat (len - 1))) by lia.
  rewrite (take_snoc_last _ _ _ Hc), (take_snoc_last _ 2 _ Hh).
  rewrite !frame_sum_snoc by (apply take_nonnil; lia).
  by repeat case_match.
Qed.

(** * Encoding *)

Lemma header_length msg : Z.of_nat (length (frame_header msg)) = header_len msg.
Proof. unfold frame_header, header_len. by destruct (IS_RESPONSE msg). Qed.

Lemma field6 v l : 0 <= v -> 0 <= l ->
  Z.lor (Z.land (Z.shiftl v 2) 0xFC) (Z.land l 3) = v mod 64 * 4 + l mod 4.
Proof.
  intros Hv Hl. change 3 with (Z.ones 2). rewrite (Z.land_ones l 2) by lia.
  change 0xFC with (Z.shiftl (Z.ones 6) 2). rewrite <- Z.shiftl_land, Z.land_ones by lia.
  by rewrite lor_shiftl_add by (try apply Z.mod_pos_bound; lia).
Qed.

Lemma memcpy_payload pre rest msg :
  wf_msg msg -> m_data_len msg <= IPMI_MSG_MAX_LENGTH ->
  m_data_len msg <= Z.of_nat (length rest) ->
  memcpy (pre ++ rest) (Z.of_nat (length pre)) (m_data msg) 0 (m_data_len msg) =
    Ret (pre ++ payload msg ++ drop (Z.to_nat (m_data_len msg)) rest).
Proof.
  intros Hwf Hmax Hrest. pose proof (wf_length _ Hwf) as Hl.
  destruct (wf_data_len _ Hwf) as [H0 _]. unfold memcpy.
  rewrite arr_slice_ok by lia. cbn [rbind]. rewrite drop_0. fold (payload msg).
  assert (Hp : length (payload msg) = Z.to_nat (m_data_len msg))
    by (unfold payload; rewrite length_take; lia).
  rewrite arr_blit_ok by (rewrite ?length_app; lia).
  rewrite Nat2Z.id, take_app_length, drop_app_ge by lia. rewrite Hp.
  do 4 f_equal. lia.
Qed.

Lemma length_payload msg :
  wf_msg msg -> m_data_len msg <= IPMI_MSG_MAX_LENGTH ->
  Z.of_nat (length (payload msg)) = m_data_len msg.
Proof.
  intros Hwf Hmax. pose proof (wf_length _ Hwf). destruct (wf_data_len _ Hwf).
  unfold payload. rewrite length_take. lia.
Qed.

(** The end of [ipmb_encode], after [i] bytes of header. *)
Definition encode_tail (buffer : list Z) (i : Z) (msg : ipmi_msg) : res (list Z * ipmb_error) :=
  rlet! buffer := memcpy buffer i (m_data msg) 0 (m_data_len msg) in
  let i := u8 (i + m_data_len msg) in
  rlet! c := calculate_checksum buffer i in
  rlet! buffer := arr_set buffer i c in
  Ret (buffer, IPMB_ERROR_SUCCESS).

Lemma arr_set_app {A} (pre post : list A) x y :
  arr_set (pre ++ x :: post) (Z.of_nat (length pre)) y = Ret (pre ++ y :: post).
Proof.
  rewrite arr_set_ok by (rewrite length_app; simpl; lia).
  by rewrite Nat2Z.id, insert_app_r_alt, Nat.sub_diag by lia.
Qed.

Lemma encode_tail_run pre rest msg :
  wf_msg msg -> (0 < length pre)%nat ->
  Z.of_nat (length pre) + m_data_len msg <= 255 -> m_data_len msg < Z.of_nat (length rest) ->
  encode_tail (pre ++ rest) (Z.of_nat (length pre)) msg =
    Ret ((pre ++ payload msg) ++ u8 (- frame_sum (pre ++ payload msg)) ::
           drop (S (Z.to_nat (m_data_len msg))) rest, IPMB_ERROR_SUCCESS).
Proof.
  intros Hwf Hpre Hle Hrest. destruct (wf_data_len _ Hwf) as [H0 _].
  assert (Hmax : m_data_len msg <= IPMI_MSG_MAX_LENGTH) by
    (unfold IPMI_MSG_MAX_LENGTH, IPMI_DATA_MAX_LENGTH, IPMB_RESP_HEADER_LENGTH; lia).
  unfold encode_tail. rewrite memcpy_payload by (done || lia). cbn [rbind].
  pose proof (length_payload msg Hwf Hmax) as Hp.
  rewrite u8_small by (unfold is_u8; change (2 ^ 8) with 256; lia).
  rewrite calculate_checksum_run by (rewrite !length_app, length_drop; lia). cbn [rbind].
  destruct (lookup_lt_is_Some_2 rest (Z.to_nat (m_data_len msg))) as [x Hx]; [lia|].
  rewrite (drop_S _ _ _ Hx), (app_assoc pre).
  replace (Z.of_nat (length pre) + m_data_len msg) with
    (Z.of_nat (length (pre ++ payload msg))) by (rewrite length_app; lia).
  by rewrite arr_set_app, Nat2Z.id, take_app_length.
Qed.

(** The header writes, on a buffer with room for seven bytes. *)
Lemma encode_header_run b0 b1 b2 b3 b4 b5 b6 rest msg :
  wf_msg msg ->
  ipmb_encode (b0 :: b1 :: b2 :: b3 :: b4 :: b5 :: b6 :: rest) msg =
    encode_tail (frame_header msg ++ (if IS_RESPONSE msg then rest else b6 :: rest))
      (header_len msg) msg.
Proof.
  intros Hwf. unfold ipmb_encode. fold (encode_tail).
  pose proof (wf_netfn _ Hwf) as [Hn _]. pose proof (wf_dest_LUN _ Hwf) as [Hd _].
  pose proof (wf_seq _ Hwf) as [Hs _]. pose proof (wf_src_LUN _ Hwf) as [Hl _].
  unfold IPMB_NETFN_MASK, IPMB_DEST_LUN_MASK, IPMB_SEQ_MASK, IPMB_SRC_LUN_MASK.
  rewrite !field6 by done. do 2 arr_set_lit.
  rewrite calculate_checksum_run by (unfold IPMI_HEADER_CHECKSUM_POSITION; simpl; lia).
  cbn [rbind]. do 4 arr_set_lit. unfold header_len, frame_header, IPMI_HEADER_CHECKSUM_POSITION.
  change (Z.to_nat 2) with 2%nat. cbn [take frame_sum sumz foldr].
  rewrite Z.add_0_r.
  destruct (IS_RESPONSE msg); [arr_set_lit|]; cbn [rbind]; reflexivity.
Qed.

Lemma short_max msg :
  header_len msg + m_data_len msg <= 255 -> m_data_len msg <= IPMI_MSG_MAX_LENGTH.
Proof.
  unfold header_len, IPMI_MSG_MAX_LENGTH, IPMI_DATA_MAX_LENGTH, IPMB_RESP_HEADER_LENGTH.
  case_match; lia.
Qed.

Lemma ipmb_encode_run buffer msg :
  wf_msg msg -> header_len msg + m_data_len msg <= 255 ->
  (256 <= length buffer)%nat ->
  ipmb_encode buffer msg =
    Ret (frame msg ++ drop (length (frame msg)) buffer, IPMB_ERROR_SUCCESS).
Proof.
  intros Hwf Hle Hbuf. destruct (wf_data_len _ Hwf) as [H0 _].
  pose proof (short_max msg Hle) as Hmax.
  destruct buffer as [|b0 [|b1 [|b2 [|b3 [|b4 [|b5 [|b6 rest]]]]]]]; simpl in Hbuf; try lia.
  rewrite encode_header_run by done. pose proof (header_length msg) as Hh.
  pose proof (length_payload msg Hwf Hmax) as Hp.
  rewrite <- Hh. rewrite encode_tail_run; [| done | | lia |];
    [|unfold header_len in Hh; case_match; lia|unfold header_len in *; case_match; simpl; lia].
  fold (frame_body msg). unfold frame. rewrite <- app_assoc. do 3 f_equal. simpl.
  unfold frame_body. rewrite !length_app. simpl length. unfold header_len in Hh.
  destruct (IS_RESPONSE msg) in Hh |- *; f_equal; simpl; rewrite Nat.add_1_r; simpl;
    f_equal; lia.
Qed.

(** * Properties of frames *)

Lemma length_frame msg :
  wf_msg msg -> m_data_len msg <= IPMI_MSG_MAX_LENGTH ->
  Z.of_nat (length (frame msg)) = header_len msg + m_data_len msg + 1.
Proof.
  intros Hwf Hmax. unfold frame, frame_body. rewrite !length_app. cbn [length].
  pose proof (header_length msg). pose proof (length_payload msg Hwf Hmax). lia.
Qed.

Lemma frame_body_nonnil msg : frame_body msg <> [].
Proof. by unfold frame_body, frame_header. Qed.

Lemma frame_sums msg :
  frame_sum (take 3 (frame msg)) mod 256 = 0 /\ frame_sum (frame msg) mod 256 = 0.
Proof.
  split.
  - simpl. word_lia.
  - unfold frame. rewrite frame_sum_snoc by apply frame_body_nonnil. word_lia.
Qed.

Lemma wf_frame_bytes msg : wf_msg msg -> bytes (frame msg).
Proof.
  intros Hwf. unfold frame, frame_body, frame_header.
  assert (F : forall a b, is_u8 (a mod 64 * 4 + b mod 4)) by (intros; word_lia).
  repeat apply bytes_app; try case_match; auto 10 using wf_payload_bytes with word;
    repeat constructor; try apply u8_range; try apply F;
    try apply Hwf; done.
Qed.

(** * Decoding *)

Definition decode_frame (m0 msg : ipmi_msg) : ipmi_msg :=
  let m := with_dest_addr (m_dest_addr msg) (with_netfn (m_netfn msg)
    (with_dest_LUN (m_dest_LUN msg)
    (with_hdr_chksum (u8 (- (2 * m_dest_addr msg +
        (m_netfn msg mod 64 * 4 + m_dest_LUN msg mod 4))))
    (with_src_addr (m_src_addr msg) (with_seq (m_seq msg)
    (with_src_LUN (m_src_LUN msg) (with_cmd (m_cmd msg) m0))))))) in
  let m := if IS_RESPONSE msg then with_completion_code (m_completion_code msg) m else m in
  with_msg_chksum (u8 (- frame_sum (frame_body msg)))
    (with_data (payload msg ++ drop (length (payload msg)) (m_data m0))
      (with_data_len (m_data_len msg) m)).

Lemma unfield6 v l :
  Z.shiftr (v mod 64 * 4 + l mod 4) 2 = v mod 64 /\ Z.land (v mod 64 * 4 + l mod 4) 3 = l mod 4.
Proof.
  split.
  - rewrite Z.shiftr_div_pow2 by lia. change (2 ^ 2) with 4. Z.div_mod_to_equations. lia.
  - change 3 with (Z.ones 2). rewrite Z.land_ones by lia. change (2 ^ 2) with 4.
    Z.div_mod_to_equations. lia.
Qed.

Lemma memcpy_prefix (dst pre src post : list Z) :
  (length src <= length dst)%nat ->
  memcpy dst 0 (pre ++ src ++ post) (Z.of_nat (length pre)) (Z.of_nat (length src)) =
    Ret (src ++ drop (length src) dst).
Proof.
  intros H. unfold memcpy. rewrite arr_slice_ok by (rewrite ?length_app; lia). cbn [rbind].
  rewrite !Nat2Z.id, drop_app_length, take_app_length.
  rewrite arr_blit_ok by lia. done.
Qed.

(** The bytes of a frame at their positions. *)
Lemma frame_split msg rest :
  frame msg ++ rest = frame_header msg ++ payload msg ++ u8 (- frame_sum (frame_body msg)) :: rest.
Proof. unfold frame, frame_body. by rewrite <- !app_assoc. Qed.

Lemma header_bytes msg t :
  arr_get (frame_header msg ++ t) 0 = Ret (m_dest_addr msg) /\
  arr_get (frame_header msg ++ t) 1 = Ret (m_netfn msg mod 64 * 4 + m_dest_LUN msg mod 4) /\
  arr_get (frame_header msg ++ t) 2 =
    Ret (u8 (- (2 * m_dest_addr msg + (m_netfn msg mod 64 * 4 + m_dest_LUN msg mod 4)))) /\
  arr_get (frame_header msg ++ t) 3 = Ret (m_src_addr msg) /\
  arr_get (frame_header msg ++ t) 4 = Ret (m_seq msg mod 64 * 4 + m_src_LUN msg mod 4) /\
  arr_get (frame_header msg ++ t) 5 = Ret (m_cmd msg) /\
  (IS_RESPONSE msg = true -> arr_get (frame_header msg ++ t) 6 = Ret (m_completion_code msg)).
Proof. repeat (split; [reflexivity|]). unfold frame_header. by intros ->. Qed.

Lemma frame_last_byte msg rest :
  wf_msg msg -> m_data_len msg <= IPMI_MSG_MAX_LENGTH ->
  arr_get (frame msg ++ rest) (Z.of_nat (length (frame msg)) - 1) = Ret (u8 (- frame_sum (frame_body msg))).
Proof.
  intros Hwf Hmax. pose proof (length_frame msg Hwf Hmax) as Hf. destruct (wf_data_len _ Hwf) as [H0 _].
  apply arr_get_Ret; [unfold header_len in Hf; case_match; lia|].
  replace (Z.to_nat (Z.of_nat (length (frame msg)) - 1)) with (length (frame_body msg))
    by (unfold frame; rewrite length_app; cbn [length]; lia).
  unfold frame. rewrite <- app_assoc, lookup_app_r, Nat.sub_diag by done. done.
Qed.

(** The number of data bytes behind a header of [x] bytes. *)
Lemma decoded_length x n : 0 <= x -> 0 <= n -> (if x + n + 1 >? x + 1 then x + n + 1 - x - 1 else 0) = n.
Proof. intros Hx Hn. destruct (Z.gtb_spec (x + n + 1) (x + 1)); lia. Qed.

Lemma ipmb_decode_run m0 msg rest :
  wf_msg m0 -> wf_msg msg -> wire_fields msg -> m_data_len msg <= IPMI_MSG_MAX_LENGTH ->
  ipmb_decode m0 (frame msg ++ rest) (Z.of_nat (length (frame msg))) =
    Ret (decode_frame m0 msg, IPMB_ERROR_SUCCESS).
Proof.
  intros Hwf0 Hwf Hwire Hmax.
  assert (Hn : m_netfn msg mod 64 = m_netfn msg)
    by (apply Z.mod_small; split; [apply Hwf|apply Hwire]).
  assert (Hs : m_seq msg mod 64 = m_seq msg)
    by (apply Z.mod_small; split; [apply Hwf|apply Hwire]).
  assert (Hd : m_dest_LUN msg mod 4 = m_dest_LUN msg)
    by (apply Z.mod_small; split; [apply Hwf|apply Hwire]).
  assert (Hl : m_src_LUN msg mod 4 = m_src_LUN msg)
    by (apply Z.mod_small; split; [apply Hwf|apply Hwire]).
  pose proof (length_payload msg Hwf Hmax) as Hp. pose proof (length_frame msg Hwf Hmax) as Hf.
  pose proof (wf_length _ Hwf0) as H527. destruct (wf_data_len _ Hwf) as [H0 _].
  unfold ipmb_decode. rewrite frame_last_byte by done.
  unfold IPMB_DEST_LUN_MASK, IPMB_SRC_LUN_MASK, decode_frame. rewrite frame_split.
  set (t := payload msg ++ u8 (- frame_sum (frame_body msg)) :: rest).
  destruct (header_bytes msg t) as (-> & -> & -> & -> & -> & -> & G6). cbn [rbind].
  destruct (unfield6 (m_netfn msg) (m_dest_LUN msg)) as [-> ->].
  destruct (unfield6 (m_seq msg) (m_src_LUN msg)) as [-> ->].
  rewrite Hf. pose proof (header_length msg) as Hh. unfold header_len in *.
  assert (Hcpy : memcpy (m_data m0) 0 (frame_header msg ++ t)
      (Z.of_nat (length (frame_header msg))) (m_data_len msg) =
      Ret (payload msg ++ drop (length (payload msg)) (m_data m0))).
  { unfold t. rewrite <- Hp. apply memcpy_prefix. unfold IPMI_MSG_MAX_LENGTH in *. lia. }
  unfold IS_RESPONSE at 1. cbn [m_netfn with_cmd with_src_LUN with_seq with_src_addr
    with_hdr_chksum with_dest_LUN with_netfn].
  rewrite Hn, Hs, Hd, Hl. change (z2b (Z.land (m_netfn msg) 1)) with (IS_RESPONSE msg).
  rewrite Hh in Hcpy.
  destruct (IS_RESPONSE msg); [rewrite G6 by done|]; cbn [rbind]; rewrite decoded_length by lia;
    match goal with |- context [memcpy (m_data ?m)] => change (m_data m) with (m_data m0) end;
    cbn [m_data_len with_data_len]; rewrite Hcpy; reflexivity.
Qed.

Lemma decode_frame_same m0 msg :
  wf_msg msg -> m_data_len msg <= IPMI_MSG_MAX_LENGTH -> same_wire msg (decode_frame m0 msg).
Proof.
  intros Hwf Hmax. pose proof (length_payload msg Hwf Hmax) as Hp.
  unfold decode_frame. split; try (by destruct (IS_RESPONSE msg)).
  unfold payload at 1. cbn [m_data_len m_data with_data with_data_len with_msg_chksum].
  apply take_app_length'. lia.
Qed.

(** * Theorems *)

(** Encoding a message that fits a 255-byte index writes exactly its
    frame at the start of the buffer, reports success, and leaves the rest
    of the buffer unchanged. *)
Theorem ipmb_encode_frame buffer msg :
  wf_msg msg -> header_len msg + m_data_len msg <= 255 -> (256 <= length buffer)%nat ->
  ipmb_encode buffer msg =
    Ret (frame msg ++ drop (length (frame msg)) buffer, IPMB_ERROR_SUCCESS).
Proof. apply ipmb_encode_run. Qed.

(** C36: what [ipmb_encode] writes, [ipmb_decode] reads back: every field on
    the wire and the payload are those of the encoded message, whatever the
    buffer and the destination message held before. *)
Theorem ipmb_codec_roundtrip buffer m0 msg buffer' e :
  wf_msg m0 -> wf_msg msg -> wire_fields msg ->
  header_len msg + m_data_len msg <= 254 -> (256 <= length buffer)%nat ->
  ipmb_encode buffer msg = Ret (buffer', e) ->
  exists m', ipmb_decode m0 buffer' (header_len msg + m_data_len msg + 1) =
      Ret (m', IPMB_ERROR_SUCCESS) /\ same_wire msg m'.
Proof.
  intros Hwf0 Hwf Hwire Hle Hbuf Henc.
  assert (Hmax : m_data_len msg <= IPMI_MSG_MAX_LENGTH) by (apply short_max; lia).
  rewrite ipmb_encode_run in Henc by (done || lia). injection Henc as <- <-.
  exists (decode_frame m0 msg). split; [|by apply decode_frame_same].
  rewrite <- length_frame by done. by apply ipmb_decode_run.
Qed.

Definition sample_req : ipmi_msg :=
  with_dest_addr 0x20 (with_netfn 0x06 (with_src_addr 0x40 (with_seq 0x15
    (with_cmd 0x01 (with_data_len 3 (with_data
      ([0x11; 0x22; 0xF3] ++ replicate 524 0) zero_msg)))))).

Lemma wf_sample_req : wf_msg sample_req.
Proof.
  destruct wf_zero_msg. split; try done.
  apply bytes_app; [repeat constructor; done|by apply bytes_replicate].
Qed.

Lemma wire_sample_req : wire_fields sample_req.
Proof. by split. Qed.

Lemma ipmb_encode_frame_witness :
  ipmb_encode (replicate 534 0xAA) sample_req =
    Ret ([0x20; 0x18; 0xA8; 0x40; 0x54; 0x01; 0x11; 0x22; 0xF3; 0x45] ++ replicate 524 0xAA,
         IPMB_ERROR_SUCCESS).
Proof.
  rewrite ipmb_encode_frame; [vm_compute; reflexivity|apply wf_sample_req|vm_compute; done|].
  rewrite length_replicate. lia.
Defined.

Lemma ipmb_codec_roundtrip_witness :
  exists m', ipmb_decode zero_msg
      (frame sample_req ++ drop (length (frame sample_req)) (replicate 534 0)) 10 =
    Ret (m', IPMB_ERROR_SUCCESS) /\ same_wire sample_req m'.
Proof.
  apply (ipmb_codec_roundtrip (replicate 534 0) zero_msg sample_req _ IPMB_ERROR_SUCCESS).
  - apply wf_zero_msg.
  - apply wf_sample_req.
  - apply wire_sample_req.
  - vm_compute. done.
  - rewrite length_replicate. lia.
  - apply ipmb_encode_run; [apply wf_sample_req|vm_compute; done|rewrite length_replicate; lia].
Defined.

(** Validation of a buffer that starts with a frame. *)
Lemma validate_frame msg rest :
  wf_msg msg -> header_len msg + m_data_len msg <= 254 -> bytes rest ->
  validate_checksum (frame msg ++ rest) (Z.of_nat (length (frame msg))) =
    Ret IPMB_ERROR_SUCCESS.
Proof.
  intros Hwf Hle Hr. pose proof (wf_data_len _ Hwf) as [H0 _].
  assert (Hf : Z.of_nat (length (frame msg)) = header_len msg + m_data_len msg + 1)
    by (apply length_frame; [done|apply short_max; lia]).
  assert (H6 : 6 <= header_len msg) by (unfold header_len; case_match; lia).
  rewrite validate_checksum_run; [|auto using wf_frame_bytes with word|lia|
    rewrite length_app; lia].
  destruct (frame_sums msg) as [E1 E2].
  rewrite Nat2Z.id, take_app_length, take_app_le by lia. by rewrite E1, E2.
Qed.

(** A frame produced by [ipmb_encode] passes [validate_checksum] on the
    receiving side, whatever follows it in the buffer. *)
Theorem encoded_frame_validates buffer msg buffer' e :
  wf_msg msg -> header_len msg + m_data_len msg <= 254 ->
  (256 <= length buffer)%nat -> bytes buffer ->
  ipmb_encode buffer msg = Ret (buffer', e) ->
  validate_checksum buffer' (header_len msg + m_data_len msg + 1) = Ret IPMB_ERROR_SUCCESS.
Proof.
  intros Hwf Hle Hbuf Hb. rewrite ipmb_encode_run by (done || lia). intros [= <- _].
  rewrite <- length_frame by (done || apply short_max; lia).
  apply validate_frame; auto with word.
Qed.

Lemma encoded_frame_validates_witness :
  validate_checksum (frame sample_req ++ drop 10 (replicate 534 7)) 10 = Ret IPMB_ERROR_SUCCESS.
Proof.
  apply (encoded_frame_validates (replicate 534 7) sample_req _ IPMB_ERROR_SUCCESS).
  - apply wf_sample_req.
  - vm_compute. done.
  - rewrite length_replicate. lia.
  - by apply bytes_replicate.
  - apply ipmb_encode_run; [apply wf_sample_req|vm_compute; done|rewrite length_replicate; lia].
Defined.

Lemma sumz_insert l k x y : l !! k = Some x -> sumz (<[k:=y]> l) = sumz l + y - x.
Proof.
  revert k. induction l as [|a l IH]; intros [|k] Hk; simplify_eq/=; [lia|].
  rewrite (IH k Hk). lia.
Qed.

Lemma frame_sum_insert l k x y :
  l !! k = Some x ->
  frame_sum (<[k:=y]> l) = frame_sum l + (if decide (k = O) then 2 else 1) * (y - x).
Proof.
  destruct l as [|a l]; [done|]. destruct k as [|k]; intros Hk; simplify_eq/=; [lia|].
  rewrite (sumz_insert _ _ _ _ Hk). lia.
Qed.

Lemma corrupted_rejected msg k x y rest :
  wf_msg msg -> header_len msg + m_data_len msg <= 254 -> bytes rest ->
  frame msg !! k = Some x -> is_u8 y -> y <> x -> (k = O -> (y - x) mod 128 <> 0) ->
  exists e, validate_checksum (<[k:=y]> (frame msg) ++ rest) (Z.of_nat (length (frame msg))) =
      Ret e /\ ipmb_failed e = true.
Proof.
  intros Hwf Hle Hr Hk Hy Hne H0k. pose proof (wf_data_len _ Hwf) as [H0 _].
  assert (Hf : Z.of_nat (length (frame msg)) = header_len msg + m_data_len msg + 1)
    by (apply length_frame; [done|apply short_max; lia]).
  assert (H6 : 6 <= header_len msg <= 7) by (unfold header_len; case_match; lia).
  rewrite validate_checksum_run; [| |lia|rewrite length_app, length_insert; lia].
  2: { apply bytes_app; [apply bytes_insert|]; auto using wf_frame_bytes. }
  rewrite Nat2Z.id.
  rewrite (take_app_length' (<[k:=y]> (frame msg)) rest (length (frame msg))) by (rewrite length_insert; reflexivity).
  assert (Hbad : frame_sum (<[k:=y]> (frame msg)) mod 256 <> 0).
  { rewrite (frame_sum_insert _ _ _ _ Hk). destruct (frame_sums msg) as [_ E].
    pose proof (bytes_lookup _ _ _ (wf_frame_bytes _ Hwf) Hk) as Hx.
    case_decide as E0; [specialize (H0k E0)|clear H0k]; word_lia. }
  apply Z.eqb_neq in Hbad. rewrite Hbad. case_match; eexists; split; reflexivity.
Qed.

(** A single byte error anywhere in a frame is detected, except that the
    address byte is summed twice, so there an error of exactly 128 is not. *)
Theorem corrupted_byte_rejected msg k x y rest :
  wf_msg msg -> header_len msg + m_data_len msg <= 254 -> bytes rest ->
  frame msg !! k = Some x -> is_u8 y -> y <> x -> (k = O -> (y - x) mod 128 <> 0) ->
  exists e, validate_checksum (<[k:=y]> (frame msg) ++ rest) (Z.of_nat (length (frame msg))) =
      Ret e /\ ipmb_failed e = true.
Proof. intros. by eapply corrupted_rejected. Qed.

Lemma corrupted_byte_rejected_witness :
  exists e, validate_checksum (<[7%nat := 0x23]> (frame sample_req) ++ [0; 0]) 10 = Ret e /\
    ipmb_failed e = true.
Proof.
  apply (corrupted_byte_rejected sample_req 7 0x22 0x23 [0; 0]); try done.
  - apply wf_sample_req.
  - repeat constructor; done.
Defined.

(** [validate_checksum] accepts exactly the buffers whose header and whole
    frame both sum to zero; the two error codes are exchanged: a bad header
    gives [IPMB_ERROR_MSG_CHECKSUM], a bad body [IPMB_ERROR_HDR_CHECKSUM]. *)
Theorem validate_checksum_cases buffer len :
  bytes buffer -> 4 <= len <= 255 -> len <= Z.of_nat (length buffer) ->
  exists e, validate_checksum buffer len = Ret e /\
    (e = IPMB_ERROR_SUCCESS <->
       frame_sum (take 3 buffer) mod 256 = 0 /\
       frame_sum (take (Z.to_nat len) buffer) mod 256 = 0) /\
    (e = IPMB_ERROR_MSG_CHECKSUM <-> frame_sum (take 3 buffer) mod 256 <> 0).
Proof.
  intros Hb Hlen Hl. eexists. split; [by apply validate_checksum_run|].
  destruct (Z.eqb_spec (frame_sum (take 3 buffer) mod 256) 0),
    (Z.eqb_spec (frame_sum (take (Z.to_nat len) buffer) mod 256) 0);
    split; split; intros; try done; intuition.
Qed.

Lemma validate_checksum_cases_witness :
  exists e, validate_checksum [0x20; 0x18; 0xA9; 0x40; 0x54; 0x01; 0x6A] 7 = Ret e /\
    (e = IPMB_ERROR_SUCCESS <->
       frame_sum (take 3 [0x20; 0x18; 0xA9; 0x40; 0x54; 0x01; 0x6A]) mod 256 = 0 /\
       frame_sum (take (Z.to_nat 7) [0x20; 0x18; 0xA9; 0x40; 0x54; 0x01; 0x6A]) mod 256 = 0) /\
    (e = IPMB_ERROR_MSG_CHECKSUM <->
       frame_sum (take 3 [0x20; 0x18; 0xA9; 0x40; 0x54; 0x01; 0x6A]) mod 256 <> 0).
Proof.
  apply (validate_checksum_cases [0x20; 0x18; 0xA9; 0x40; 0x54; 0x01; 0x6A] 7);
    [repeat constructor; done|lia|simpl; lia].
Defined.

(** The index that places the checksum is a [uint8_t].  When header and
    data exceed 255 bytes it wraps: the checksum overwrites a byte of the
    message and no checksum follows the data; with more data than the
    structure holds the copy itself is undefined. *)
Theorem ipmb_encode_long buffer msg :
  wf_msg msg -> 256 <= header_len msg + m_data_len msg ->
  Z.of_nat (length buffer) = IPMI_MSG_MAX_LENGTH + IPMB_RESP_HEADER_LENGTH ->
  (m_data_len msg <= IPMI_DATA_MAX_LENGTH ->
    exists c, ipmb_encode buffer msg =
      Ret (<[Z.to_nat (u8 (header_len msg + m_data_len msg)) := c]>
             (frame_body msg ++ drop (length (frame_body msg)) buffer), IPMB_ERROR_SUCCESS)) /\
  (IPMI_MSG_MAX_LENGTH < m_data_len msg -> ipmb_encode buffer msg = UB).
Proof.
  intros Hwf Hlong Hbuf. pose proof (header_length msg) as Hh.
  pose proof (wf_length _ Hwf) as Hl. pose proof (wf_data_len _ Hwf) as [H0 _].
  unfold IPMI_MSG_MAX_LENGTH, IPMI_DATA_MAX_LENGTH, IPMB_RESP_HEADER_LENGTH in *.
  destruct buffer as [|b0 [|b1 [|b2 [|b3 [|b4 [|b5 [|b6 rest]]]]]]]; simpl in Hbuf; try lia.
  rewrite encode_header_run, <- Hh by done. unfold encode_tail.
  set (rest' := if IS_RESPONSE msg then rest else b6 :: rest).
  assert (Hr : Z.of_nat (length rest') = 534 - header_len msg)
    by (unfold rest', header_len; case_match; simpl; lia).
  assert (Hd : drop (length (frame_body msg)) (b0::b1::b2::b3::b4::b5::b6::rest) =
    drop (length (payload msg)) rest').
  { unfold frame_body. rewrite length_app. unfold rest', frame_header.
    destruct (IS_RESPONSE msg); reflexivity. }
  split.
  - intros Hmax. rewrite memcpy_payload; [|done|unfold IPMI_MSG_MAX_LENGTH,
      IPMI_DATA_MAX_LENGTH, IPMB_RESP_HEADER_LENGTH; lia|unfold header_len in *; case_match; lia].
    assert (Hp : Z.of_nat (length (payload msg)) = m_data_len msg)
      by (apply length_payload; [done|unfold IPMI_MSG_MAX_LENGTH,
      IPMI_DATA_MAX_LENGTH, IPMB_RESP_HEADER_LENGTH; lia]).
    cbn [rbind]. rewrite Hd, app_assoc. fold (frame_body msg).
    replace (Z.to_nat (m_data_len msg)) with (length (payload msg)) by lia.
    set (i := u8 (Z.of_nat (length (frame_header msg)) + m_data_len msg)).
    assert (Hi : 0 <= i < 256) by apply u8_range.
    assert (Hlen : 7 <= Z.of_nat (length (frame_body msg ++ drop (length (payload msg)) rest')) /\
      i < Z.of_nat (length (frame_body msg ++ drop (length (payload msg)) rest'))).
    { rewrite length_app. unfold frame_body. rewrite length_app.
      unfold header_len in *. case_match; lia. }
    assert (Hc : exists c, calculate_checksum
      (frame_body msg ++ drop (length (payload msg)) rest') i = Ret c).
    { destruct (decide (i = 0)) as [->|].
      - unfold frame_body, frame_header. simpl. rewrite calculate_checksum_0. eauto.
      - rewrite calculate_checksum_run by lia. eauto. }
    destruct Hc as [c ->]. exists c. cbn [rbind]. rewrite arr_set_ok by lia. done.
  - intros Hmax. unfold memcpy, arr_slice. rewrite (proj2 (Z.leb_gt (0 + m_data_len msg) _)) by lia.
    by rewrite andb_false_r.
Qed.

Definition long_req : ipmi_msg := with_data_len 250 sample_req.

Lemma ipmb_encode_long_witness :
  (m_data_len long_req <= IPMI_DATA_MAX_LENGTH ->
    exists c, ipmb_encode (replicate 534 0) long_req =
      Ret (<[Z.to_nat (u8 (header_len long_req + m_data_len long_req)) := c]>
             (frame_body long_req ++ drop (length (frame_body long_req)) (replicate 534 0)),
           IPMB_ERROR_SUCCESS)) /\
  (IPMI_MSG_MAX_LENGTH < m_data_len long_req -> ipmb_encode (replicate 534 0) long_req = UB).
Proof.
  apply (ipmb_encode_long (replicate 534 0) long_req).
  - destruct wf_sample_req. split; done.
  - vm_compute. done.
  - by rewrite length_replicate.
Defined.

(** * The channel table *)

Lemma map_channel_loop_run n channel cfg idx map :
  0 <= channel -> channel + Z.of_nat n = RESERVED -> length map = Z.to_nat RESERVED ->
  channel <= cfg_channel cfg ->
  map_channel_loop n channel cfg idx map =
    Ret (if cfg_channel cfg <? RESERVED then <[Z.to_nat (cfg_channel cfg) := idx]> map else map).
Proof.
  revert channel. induction n as [|n IH]; intros channel H0 Hn Hm Hc; cbn [map_channel_loop].
  { rewrite (proj2 (Z.ltb_ge _ _)) by lia. done. }
  destruct (Z.eqb_spec (cfg_channel cfg) channel) as [E|E].
  - rewrite (proj2 (Z.ltb_lt _ _)), E by lia. rewrite arr_set_ok by lia. done.
  - rewrite IH by lia. done.
Qed.

(** After the entries before [i] the table holds, for every channel, the last
    of them with that channel. *)
Definition mapped (cfgs : list IPMB_config) (i : nat) (map : list Z) : Prop :=
  length map = Z.to_nat RESERVED /\
  forall c, (c < Z.to_nat RESERVED)%nat ->
    (exists j cfg, (j < i)%nat /\ cfgs !! j = Some cfg /\ cfg_channel cfg = Z.of_nat c /\
       map !! c = Some (Z.of_nat j) /\
       forall k cfg', (j < k < i)%nat -> cfgs !! k = Some cfg' -> cfg_channel cfg' <> Z.of_nat c) \/
    (map !! c = Some RESERVED /\
       forall k cfg', (k < i)%nat -> cfgs !! k = Some cfg' -> cfg_channel cfg' <> Z.of_nat c).

Lemma mapped_step cfgs i map cfg :
  mapped cfgs i map -> cfgs !! i = Some cfg -> is_u8 (cfg_channel cfg) ->
  mapped cfgs (S i) (if cfg_channel cfg <? RESERVED
    then <[Z.to_nat (cfg_channel cfg) := Z.of_nat i]> map else map).
Proof.
  intros [Hl Hm] Hi [Hc0 _]. split; [case_match; by rewrite ?length_insert|].
  intros c Hc. destruct (decide (cfg_channel cfg = Z.of_nat c)) as [E|E].
  - left. exists i, cfg. rewrite (proj2 (Z.ltb_lt _ _)), E, Nat2Z.id by lia.
    rewrite list_lookup_insert_eq by lia. repeat split; try done; lia.
  - assert (Hk : (if cfg_channel cfg <? RESERVED then <[Z.to_nat (cfg_channel cfg) := Z.of_nat i]> map
        else map) !! c = map !! c).
    { case_match; [|done]. apply list_lookup_insert_ne. lia. }
    rewrite Hk. destruct (Hm c Hc) as [(j & cj & H1 & H2 & H3 & H4 & H5)|[H1 H2]].
    + left. exists j, cj. repeat split; try done; [lia|]. intros k cfg' Hk' Hl'.
      destruct (decide (k = i)) as [->|]; [congruence|]. eapply H5; [|done]. lia.
    + right. split; [done|]. intros k cfg' Hk' Hl'.
      destruct (decide (k = i)) as [->|]; [congruence|]. eapply H2; [|done]. lia.
Qed.

Lemma map_config_loop_run cfgs sentinel rest n i map fuel :
  (i + n = length cfgs)%nat -> (length cfgs < 256)%nat -> (n < fuel)%nat ->
  Forall (fun cfg => is_u8 (cfg_channel cfg) /\ cfg_index cfg <> RESERVED_IDX) cfgs ->
  cfg_index sentinel = RESERVED_IDX -> mapped cfgs i map ->
  exists map', map_config_loop fuel (cfgs ++ sentinel :: rest) (Z.of_nat i) map = Ret map' /\
    mapped cfgs (length cfgs) map'.
Proof.
  intros Hn Hlen Hfuel Hall Hs. revert i map n Hn Hfuel.
  induction fuel as [|fuel IH]; intros i map n Hn Hfuel Hm; [lia|]. cbn [map_config_loop].
  destruct n as [|n].
  - assert (i = length cfgs) as -> by lia. rewrite (arr_get_Ret _ _ sentinel); [|lia|].
    + cbn [rbind]. rewrite Hs. eauto.
    + by rewrite Nat2Z.id, list_lookup_middle.
  - destruct (lookup_lt_is_Some_2 cfgs i) as [cfg Hcfg]; [lia|].
    rewrite (arr_get_Ret _ _ cfg); [|lia|rewrite Nat2Z.id; by apply lookup_app_l_Some].
    destruct (Forall_lookup_1 _ _ _ _ Hall Hcfg) as [Hc Hidx]. cbn [rbind].
    rewrite (proj2 (Z.eqb_neq _ _) Hidx). destruct Hm as [Hl Hm].
    rewrite map_channel_loop_run by (done || apply Hc). cbn [rbind].
    rewrite u8_small by (unfold is_u8; change (2 ^ 8) with 256; lia).
    replace (Z.of_nat i + 1) with (Z.of_nat (S i)) by lia.
    eapply IH with (n := n); [lia|lia|]. by apply mapped_step.
Qed.

Lemma channel_index_mapping_run cfgs sentinel rest :
  (length cfgs < 256)%nat ->
  Forall (fun cfg => is_u8 (cfg_channel cfg) /\ cfg_index cfg <> RESERVED_IDX) cfgs ->
  cfg_index sentinel = RESERVED_IDX ->
  exists map, channel_index_mapping (cfgs ++ sentinel :: rest) = Ret map /\
    mapped cfgs (length cfgs) map.
Proof.
  intros Hlen Hall Hs. unfold channel_index_mapping.
  apply (map_config_loop_run cfgs sentinel rest (length cfgs) 0); try done.
  { rewrite length_app. simpl. lia. }
  split; [apply length_replicate|]. intros c Hc. right.
  rewrite lookup_replicate_2 by done. split; [done|lia].
Qed.

(** [channel_index_mapping] terminates at the [RESERVED_IDX] entry and
    maps every channel below [RESERVED] to the last configuration with that
    channel, and a channel without configuration to [RESERVED]; it never
    writes outside the table. *)
Theorem channel_index_mapping_spec cfgs sentinel rest :
  (length cfgs < 256)%nat ->
  Forall (fun cfg => is_u8 (cfg_channel cfg) /\ cfg_index cfg <> RESERVED_IDX) cfgs ->
  cfg_index sentinel = RESERVED_IDX ->
  exists map, channel_index_mapping (cfgs ++ sentinel :: rest) = Ret map /\
    mapped cfgs (length cfgs) map.
Proof. apply channel_index_mapping_run. Qed.

Definition sample_cfg (index channel : Z) : IPMB_config :=
  mk_IPMB_config index 0x01 channel 1 0x20 true 0x40.

Lemma channel_index_mapping_spec_witness :
  exists map, channel_index_mapping
      ([sample_cfg 0 BMC_IPMB; sample_cfg 1 ME_IPMB] ++ [sample_cfg RESERVED_IDX 0]) = Ret map /\
    mapped [sample_cfg 0 BMC_IPMB; sample_cfg 1 ME_IPMB] 2 map.
Proof.
  apply (channel_index_mapping_spec [sample_cfg 0 BMC_IPMB; sample_cfg 1 ME_IPMB]
           (sample_cfg RESERVED_IDX 0) []); [simpl; lia|repeat constructor; done|done].
Defined.
