(* ===== verification/World.v ===== *)
(** The state the threads of the IPMI firmware share, and what they ask of
    code outside the repository.  [world] collects the globals of
    [ipmb/ipmb.c], [lib/power_status.c] and [ipmi/app_handler.c]; the arrays
    indexed by [MAX_IPMB_IDX] are one [channel] record per index, the nodes
    allocated for the request lists a heap of [ipmi_msg_cfg] by address
    (NULL is 0).  [Kernel] lists the services of Zephyr, the C library and the I2C
    driver as functions on an opaque external state [E]; the only assumption about
    them is that [malloc] never returns a live block. *)

From S2P Require Import Prelude IpmiDefs.

(** The locks of ipmb.c and ipmi.c. *)
Inductive mutex : Set :=
| mutex_id (index : Z)
| mutex_send_req (index : Z)
| mutex_send_res
| mutex_read
| mutex_purge_msgq.

#[export] Instance mutex_eq_dec : EqDecision mutex.
Proof. solve_decision. Defined.

(** * Globals *)

(** Per index: list head, request count, last sequence number, sequence table, the
    transmit switch, and whether the queues and the request mutex are initialised. *)
Record channel : Type := mk_channel {
  ch_P_start : Z;
  ch_seq_current_count : Z;
  ch_current_seq : Z;
  ch_seq_table : list bool;
  ch_tx_disable : bool;
  ch_msgq_init : bool;
  ch_mutex_init : bool;
}.

Definition ch_set_P_start (v : Z) (x : channel) : channel :=
  mk_channel v (ch_seq_current_count x) (ch_current_seq x) (ch_seq_table x) (ch_tx_disable x)
    (ch_msgq_init x) (ch_mutex_init x).
Definition ch_set_seq_current_count (v : Z) (x : channel) : channel :=
  mk_channel (ch_P_start x) v (ch_current_seq x) (ch_seq_table x) (ch_tx_disable x) (ch_msgq_init
    x) (ch_mutex_init x).
Definition ch_set_current_seq (v : Z) (x : channel) : channel :=
  mk_channel (ch_P_start x) (ch_seq_current_count x) v (ch_seq_table x) (ch_tx_disable x)
    (ch_msgq_init x) (ch_mutex_init x).
Definition ch_set_seq_table (v : list bool) (x : channel) : channel :=
  mk_channel (ch_P_start x) (ch_seq_current_count x) (ch_current_seq x) v (ch_tx_disable x)
    (ch_msgq_init x) (ch_mutex_init x).
Definition ch_set_tx_disable (v : bool) (x : channel) : channel :=
  mk_channel (ch_P_start x) (ch_seq_current_count x) (ch_current_seq x) (ch_seq_table x) v
    (ch_msgq_init x) (ch_mutex_init x).
Definition ch_set_msgq_init (v : bool) (x : channel) : channel :=
  mk_channel (ch_P_start x) (ch_seq_current_count x) (ch_current_seq x) (ch_seq_table x)
    (ch_tx_disable x) v (ch_mutex_init x).
Definition ch_set_mutex_init (v : bool) (x : channel) : channel :=
  mk_channel (ch_P_start x) (ch_seq_current_count x) (ch_current_seq x) (ch_seq_table x)
    (ch_tx_disable x) (ch_msgq_init x) v.
(** The flags of power_status.c. *)
Record power : Type := mk_power {
  pw_is_DC_on : bool;
  pw_is_DC_on_delayed : bool;
  pw_is_DC_off_delayed : bool;
  pw_is_CPU_power_good : bool;
  pw_is_post_complete : bool;
  pw_vr_monitor_status : bool;
  pw_is_P3V3_E1S_power_good : bool;
  pw_is_P12V_E1S_power_good : bool;
}.

Definition pw_set_is_DC_on (v : bool) (x : power) : power :=
  mk_power v (pw_is_DC_on_delayed x) (pw_is_DC_off_delayed x) (pw_is_CPU_power_good x)
    (pw_is_post_complete x) (pw_vr_monitor_status x) (pw_is_P3V3_E1S_power_good x)
    (pw_is_P12V_E1S_power_good x).
Definition pw_set_is_DC_on_delayed (v : bool) (x : power) : power :=
  mk_power (pw_is_DC_on x) v (pw_is_DC_off_delayed x) (pw_is_CPU_power_good x)
    (pw_is_post_complete x) (pw_vr_monitor_status x) (pw_is_P3V3_E1S_power_good x)
    (pw_is_P12V_E1S_power_good x).
Definition pw_set_is_DC_off_delayed (v : bool) (x : power) : power :=
  mk_power (pw_is_DC_on x) (pw_is_DC_on_delayed x) v (pw_is_CPU_power_good x) (pw_is_post_complete
    x) (pw_vr_monitor_status x) (pw_is_P3V3_E1S_power_good x) (pw_is_P12V_E1S_power_good x).
Definition pw_set_is_CPU_power_good (v : bool) (x : power) : power :=
  mk_power (pw_is_DC_on x) (pw_is_DC_on_delayed x) (pw_is_DC_off_delayed x) v (pw_is_post_complete
    x) (pw_vr_monitor_status x) (pw_is_P3V3_E1S_power_good x) (pw_is_P12V_E1S_power_good x).
Definition pw_set_is_post_complete (v : bool) (x : power) : power :=
  mk_power (pw_is_DC_on x) (pw_is_DC_on_delayed x) (pw_is_DC_off_delayed x) (pw_is_CPU_power_good
    x) v (pw_vr_monitor_status x) (pw_is_P3V3_E1S_power_good x) (pw_is_P12V_E1S_power_good x).
Definition pw_set_vr_monitor_status (v : bool) (x : power) : power :=
  mk_power (pw_is_DC_on x) (pw_is_DC_on_delayed x) (pw_is_DC_off_delayed x) (pw_is_CPU_power_good
    x) (pw_is_post_complete x) v (pw_is_P3V3_E1S_power_good x) (pw_is_P12V_E1S_power_good x).
Definition pw_set_is_P3V3_E1S_power_good (v : bool) (x : power) : power :=
  mk_power (pw_is_DC_on x) (pw_is_DC_on_delayed x) (pw_is_DC_off_delayed x) (pw_is_CPU_power_good
    x) (pw_is_post_complete x) (pw_vr_monitor_status x) v (pw_is_P12V_E1S_power_good x).
Definition pw_set_is_P12V_E1S_power_good (v : bool) (x : power) : power :=
  mk_power (pw_is_DC_on x) (pw_is_DC_on_delayed x) (pw_is_DC_off_delayed x) (pw_is_CPU_power_good
    x) (pw_is_post_complete x) (pw_vr_monitor_status x) (pw_is_P3V3_E1S_power_good x) v.
(** [w_held] records the locks taken and not yet released; [w_mutex_init] whether
    [mutex_send_res] and [mutex_read] are initialised. *)
Record world (E : Type) : Type := mk_world {
  w_heap : gmap Z ipmi_msg_cfg;
  w_ch : list channel;
  w_table : list IPMB_config;
  w_map : list Z;
  w_tick_fix : Z;
  w_freq : Z;
  w_mutex_init : bool;
  w_held : list mutex;
  w_power : power;
  w_bmc_enables : Z;
  w_ext : E;
}.
Arguments mk_world {E} _ _ _ _ _ _ _ _ _ _ _.
Arguments w_heap {E} _.
Arguments w_ch {E} _.
Arguments w_table {E} _.
Arguments w_map {E} _.
Arguments w_tick_fix {E} _.
Arguments w_freq {E} _.
Arguments w_mutex_init {E} _.
Arguments w_held {E} _.
Arguments w_power {E} _.
Arguments w_bmc_enables {E} _.
Arguments w_ext {E} _.

Definition w_set_heap {E} (v : gmap Z ipmi_msg_cfg) (x : world E) : world E :=
  mk_world v (w_ch x) (w_table x) (w_map x) (w_tick_fix x) (w_freq x) (w_mutex_init x) (w_held x)
    (w_power x) (w_bmc_enables x) (w_ext x).
Definition w_set_ch {E} (v : list channel) (x : world E) : world E :=
  mk_world (w_heap x) v (w_table x) (w_map x) (w_tick_fix x) (w_freq x) (w_mutex_init x) (w_held
    x) (w_power x) (w_bmc_enables x) (w_ext x).
Definition w_set_table {E} (v : list IPMB_config) (x : world E) : world E :=
  mk_world (w_heap x) (w_ch x) v (w_map x) (w_tick_fix x) (w_freq x) (w_mutex_init x) (w_held x)
    (w_power x) (w_bmc_enables x) (w_ext x).
Definition w_set_map {E} (v : list Z) (x : world E) : world E :=
  mk_world (w_heap x) (w_ch x) (w_table x) v (w_tick_fix x) (w_freq x) (w_mutex_init x) (w_held x)
    (w_power x) (w_bmc_enables x) (w_ext x).
Definition w_set_tick_fix {E} (v : Z) (x : world E) : world E :=
  mk_world (w_heap x) (w_ch x) (w_table x) (w_map x) v (w_freq x) (w_mutex_init x) (w_held x)
    (w_power x) (w_bmc_enables x) (w_ext x).
Definition w_set_freq {E} (v : Z) (x : world E) : world E :=
  mk_world (w_heap x) (w_ch x) (w_table x) (w_map x) (w_tick_fix x) v (w_mutex_init x) (w_held x)
    (w_power x) (w_bmc_enables x) (w_ext x).
Definition w_set_mutex_init {E} (v : bool) (x : world E) : world E :=
  mk_world (w_heap x) (w_ch x) (w_table x) (w_map x) (w_tick_fix x) (w_freq x) v (w_held x)
    (w_power x) (w_bmc_enables x) (w_ext x).
Definition w_set_held {E} (v : list mutex) (x : world E) : world E :=
  mk_world (w_heap x) (w_ch x) (w_table x) (w_map x) (w_tick_fix x) (w_freq x) (w_mutex_init x) v
    (w_power x) (w_bmc_enables x) (w_ext x).
Definition w_set_power {E} (v : power) (x : world E) : world E :=
  mk_world (w_heap x) (w_ch x) (w_table x) (w_map x) (w_tick_fix x) (w_freq x) (w_mutex_init x)
    (w_held x) v (w_bmc_enables x) (w_ext x).
Definition w_set_bmc_enables {E} (v : Z) (x : world E) : world E :=
  mk_world (w_heap x) (w_ch x) (w_table x) (w_map x) (w_tick_fix x) (w_freq x) (w_mutex_init x)
    (w_held x) (w_power x) v (w_ext x).
Definition w_set_ext {E} (v : E) (x : world E) : world E :=
  mk_world (w_heap x) (w_ch x) (w_table x) (w_map x) (w_tick_fix x) (w_freq x) (w_mutex_init x)
    (w_held x) (w_power x) (w_bmc_enables x) v.
(** Projections of updated worlds. *)
Ltac wcbn :=
  cbn [w_heap w_ch w_table w_map w_tick_fix w_freq w_mutex_init w_held w_power w_bmc_enables w_ext
    w_set_heap w_set_ch w_set_table w_set_map w_set_tick_fix w_set_freq w_set_mutex_init w_set_held w_set_power w_set_bmc_enables w_set_ext].
Ltac ccbn :=
  cbn [ch_P_start ch_seq_current_count ch_current_seq ch_seq_table ch_tx_disable ch_msgq_init ch_mutex_init
    ch_set_P_start ch_set_seq_current_count ch_set_current_seq ch_set_seq_table ch_set_tx_disable ch_set_msgq_init ch_set_mutex_init].

(** * External services *)

(** [k_mutex_lock m ms] and [k_msgq_put] return 0 on success; [k_msgq_get_rx]
    returns the message, or [None] with the error when it timed out;
    [malloc live] allocates a request node, [malloc_buf] reports whether some
    other allocation succeeded, [uninit_msg] is what an uninitialised
    structure holds; the length [ipmb_slave_read] reports is a [uint8_t]. *)
Class Kernel (E : Type) : Type := {
  k_mutex_lock : mutex -> Z -> E -> Z * E;
  k_mutex_unlock : mutex -> E -> E;
  malloc : gset Z -> E -> Z * E;
  malloc_buf : Z -> E -> bool * E;
  uninit_msg : E -> ipmi_msg;
  uninit_bytes : Z -> E -> list Z;
  osKernelGetSysTimerCount : E -> Z * E;
  k_msleep : Z -> E -> E;
  k_msgq_put_tx : Z -> ipmi_msg_cfg -> Z -> E -> Z * E;
  k_msgq_get_tx : Z -> E -> ipmi_msg_cfg * E;
  k_msgq_put_rx : Z -> ipmi_msg -> Z -> E -> Z * E;
  k_msgq_get_rx : Z -> Z -> E -> option ipmi_msg * E;
  k_msgq_purge_rx : Z -> E -> E;
  k_msgq_put_ipmi : ipmi_msg_cfg -> E -> Z * E;
  k_msgq_num_free_ipmi : E -> Z * E;
  k_msgq_purge_ipmi : E -> E;
  i2c_master_write : Z -> Z -> list Z -> E -> Z * E;
  ipmb_slave_read : Z -> E -> option (list Z) * E;
  pldm_send_ipmi_response : Z -> ipmi_msg -> E -> E;
  pldm_send_ipmi_request : ipmi_msg -> E -> ipmi_msg * E;
  malloc_fresh : forall live e a e', malloc live e = (a, e') ->
    a = 0 \/ (0 < a /\ a ∉ live);
  uninit_msg_wf : forall e, wf_msg (uninit_msg e);
  uninit_bytes_length : forall n e, 0 <= n -> Z.of_nat (length (uninit_bytes n e)) = n;
  uninit_bytes_bytes : forall n e, bytes (uninit_bytes n e);
  slave_read_u8 : forall bus e d e', ipmb_slave_read bus e = (Some d, e') ->
    Z.of_nat (length d) <= 255;
  timer_is_u32 : forall e t e', osKernelGetSysTimerCount e = (t, e') -> is_u32 t;
}.

Section World.
Context {E : Type} `{Kernel E}.

(** Runs an external function on the external state. *)
Definition ext {A} (f : E -> A * E) : ST (world E) A :=
  fun w => let '(a, e) := f (w_ext w) in Ret (a, w_set_ext e w).
Definition ext_ (f : E -> E) : ST (world E) unit :=
  modify (fun w => w_set_ext (f (w_ext w)) w).

(** Locking records the mutex; unlocking removes one record of it. *)
Fixpoint remove_one (m : mutex) (l : list mutex) : list mutex :=
  match l with
  | [] => []
  | x :: l' => if decide (x = m) then l' else x :: remove_one m l'
  end.

Definition lock (m : mutex) (ms : Z) : ST (world E) Z :=
  let! ret_ := ext (k_mutex_lock m ms) in
  if ret_ =? 0 then do! modify (fun w => w_set_held (m :: w_held w) w) in ret ret_
  else ret ret_.
Definition unlock (m : mutex) : ST (world E) unit :=
  do! ext_ (k_mutex_unlock m) in
  modify (fun w => w_set_held (remove_one m (w_held w)) w).

(** Pointers to nodes. *)
Definition deref (p : Z) : ST (world E) ipmi_msg_cfg :=
  let! h := gets w_heap in
  match h !! p with Some c => ret c | None => undefined end.
Definition store (p : Z) (c : ipmi_msg_cfg) : ST (world E) unit :=
  do! deref p in modify (fun w => w_set_heap (<[p := c]> (w_heap w)) w).
Definition next (p : Z) : ST (world E) Z := let! c := deref p in ret (c_next c).
Definition set_next (p q : Z) : ST (world E) unit :=
  let! c := deref p in store p (with_next q c).

(** [SAFE_FREE] of a node: nothing for NULL, undefined for a block that is
    not live. *)
Definition SAFE_FREE (p : Z) : ST (world E) unit :=
  if p =? 0 then skip
  else do! deref p in modify (fun w => w_set_heap (delete p (w_heap w)) w).

(** [malloc(sizeof(ipmi_msg_cfg))] *)
Definition malloc_node : ST (world E) Z :=
  let! w := gets id in
  let! a := ext (malloc (dom (w_heap w))) in
  if a =? 0 then ret 0
  else
    do! modify (fun w => w_set_heap
          (<[a := mk_ipmi_msg_cfg (uninit_msg (w_ext w)) 0 0]> (w_heap w)) w) in
    ret a.

(** The globals of one IPMB index; an index outside the arrays is undefined. *)
Definition get_ch (index : Z) : ST (world E) channel :=
  let! l := gets w_ch in lift (arr_get l index).
Definition set_ch (index : Z) (c : channel) : ST (world E) unit :=
  let! l := gets w_ch in
  let! l := lift (arr_set l index c) in
  modify (w_set_ch l).
Definition get_cfg (index : Z) : ST (world E) IPMB_config :=
  let! l := gets w_table in lift (arr_get l index).
Definition inf_index (inf : Z) : ST (world E) Z :=
  let! l := gets w_map in lift (arr_get l inf).
End World.

(** * Rules *)

Section WorldRules.
Context {E : Type} `{Kernel E}.
Implicit Types (w : world E).

Lemma wp_ext {A} (f : E -> A * E) Q w :
  (forall a e, f (w_ext w) = (a, e) -> Q a (w_set_ext e w)) -> wp (ext f) Q w.
Proof. intros HQ. unfold wp, ext. destruct (f (w_ext w)) as [a e] eqn:F. by apply HQ. Qed.

Lemma wp_ext_ (f : E -> E) Q w : Q tt (w_set_ext (f (w_ext w)) w) -> wp (ext_ f) Q w.
Proof. done. Qed.

Lemma wp_deref p c Q w : w_heap w !! p = Some c -> Q c w -> wp (deref p) Q w.
Proof. intros Hc HQ. apply wp_bind, wp_gets. by rewrite Hc. Qed.

Lemma wp_next p c Q w : w_heap w !! p = Some c -> Q (c_next c) w -> wp (next p) Q w.
Proof. intros Hc HQ. by apply wp_bind, (wp_deref _ c). Qed.

Lemma wp_store p c c0 Q w :
  w_heap w !! p = Some c0 -> Q tt (w_set_heap (<[p := c]> (w_heap w)) w) -> wp (store p c) Q w.
Proof. intros Hc HQ. by apply wp_bind, (wp_deref _ c0). Qed.

Lemma wp_set_next p q c Q w :
  w_heap w !! p = Some c -> Q tt (w_set_heap (<[p := with_next q c]> (w_heap w)) w) ->
  wp (set_next p q) Q w.
Proof. intros Hc HQ. apply wp_bind, (wp_deref _ c); [done|]. by apply (wp_store _ _ c). Qed.

Lemma wp_SAFE_FREE p c Q w :
  p <> 0 -> w_heap w !! p = Some c -> Q tt (w_set_heap (delete p (w_heap w)) w) ->
  wp (SAFE_FREE p) Q w.
Proof.
  intros Hp Hc HQ. unfold SAFE_FREE. rewrite (proj2 (Z.eqb_neq p 0) Hp).
  by apply wp_bind, (wp_deref _ c).
Qed.

Lemma wp_malloc_node_ext Q w :
  (forall e, malloc (dom (w_heap w)) (w_ext w) = (0, e) -> Q 0 (w_set_ext e w)) ->
  (forall a m e, 0 < a -> w_heap w !! a = None -> malloc (dom (w_heap w)) (w_ext w) = (a, e) ->
     Q a (w_set_heap (<[a := mk_ipmi_msg_cfg m 0 0]> (w_heap w)) (w_set_ext e w))) ->
  wp malloc_node Q w.
Proof.
  intros H0 Ha. apply wp_bind, wp_gets, wp_bind, wp_ext. intros a e Hm.
  destruct (malloc_fresh _ _ _ _ Hm) as [->|[Hpos Hfr]]; [by apply H0|].
  rewrite (proj2 (Z.eqb_neq a 0)) by lia. apply wp_bind, wp_modify, wp_ret.
  apply (Ha a _ e); [done|by apply not_elem_of_dom|done].
Qed.

Lemma wp_malloc_node Q w :
  (forall e, (malloc (dom (w_heap w)) (w_ext w)).1 = 0 -> Q 0 (w_set_ext e w)) ->
  (forall a m e, 0 < a -> w_heap w !! a = None -> (malloc (dom (w_heap w)) (w_ext w)).1 = a ->
     Q a (w_set_heap (<[a := mk_ipmi_msg_cfg m 0 0]> (w_heap w)) (w_set_ext e w))) ->
  wp malloc_node Q w.
Proof.
  intros H0 Ha. apply wp_malloc_node_ext; [intros e Hm|intros a m e Hp Hf Hm].
  - apply H0. by rewrite Hm.
  - apply Ha; [done|done|]. by rewrite Hm.
Qed.

(** The external world refuses the lock. *)
Definition lock_fails (m : mutex) (ms : Z) (w : world E) : Prop :=
  (k_mutex_lock m ms (w_ext w)).1 <> 0.

(** The external state after the attempt, and the state when it fails. *)
Definition locked (m : mutex) (ms : Z) (e : E) : E := (k_mutex_lock m ms e).2.
Definition refused (m : mutex) (ms : Z) (w : world E) : world E := w_set_ext (locked m ms (w_ext w)) w.

Lemma wp_lock_at m ms Q w :
  (forall r, r <> 0 -> lock_fails m ms w -> Q r (w_set_ext (locked m ms (w_ext w)) w)) ->
  (~ lock_fails m ms w ->
     Q 0 (w_set_held (m :: w_held w) (w_set_ext (locked m ms (w_ext w)) w))) ->
  wp (lock m ms) Q w.
Proof.
  unfold lock_fails, locked. intros Hf Hs. apply wp_bind, wp_ext. intros r e Hr.
  rewrite Hr in Hf, Hs. destruct (Z.eqb_spec r 0) as [->|]; [|by apply wp_ret, Hf].
  apply wp_bind, wp_modify, wp_ret, Hs. auto.
Qed.

Lemma wp_lock m ms Q w :
  (forall r e, r <> 0 -> lock_fails m ms w -> Q r (w_set_ext e w)) ->
  (forall e, ~ lock_fails m ms w -> Q 0 (w_set_held (m :: w_held w) (w_set_ext e w))) ->
  wp (lock m ms) Q w.
Proof. intros Hf Hs. apply wp_lock_at; [intros r Hr Hl; by apply Hf|intros Hl; by apply Hs]. Qed.

Lemma wp_unlock m Q w l :
  w_held w = m :: l ->
  (forall e, Q tt (w_set_held l (w_set_ext e w))) -> wp (unlock m) Q w.
Proof.
  intros Hh HQ. apply wp_bind, wp_ext_, wp_modify. cbn [w_held w_set_ext].
  rewrite Hh. cbn [remove_one]. by rewrite decide_True.
Qed.

(** The same with the external effect of unlocking. *)
Lemma wp_unlock_ext m Q w l :
  w_held w = m :: l ->
  Q tt (w_set_held l (w_set_ext (k_mutex_unlock m (w_ext w)) w)) -> wp (unlock m) Q w.
Proof.
  intros Hh HQ. apply wp_bind, wp_ext_, wp_modify. cbn [w_held w_set_ext].
  rewrite Hh. cbn [remove_one]. by rewrite decide_True.
Qed.

Lemma wp_get_ch index c Q w :
  0 <= index -> w_ch w !! Z.to_nat index = Some c -> Q c w -> wp (get_ch index) Q w.
Proof.
  intros H0 Hc HQ. apply wp_bind, wp_gets, wp_lift. by rewrite (arr_get_Ret _ _ c).
Qed.

Lemma wp_set_ch index c c0 Q w :
  0 <= index -> w_ch w !! Z.to_nat index = Some c0 ->
  Q tt (w_set_ch (<[Z.to_nat index := c]> (w_ch w)) w) -> wp (set_ch index c) Q w.
Proof.
  intros H0 Hc HQ. apply wp_bind, wp_gets, wp_bind, wp_lift.
  rewrite arr_set_ok; [by apply wp_modify|]. apply lookup_lt_Some in Hc. lia.
Qed.

Lemma wp_get_cfg index c Q w :
  0 <= index -> w_table w !! Z.to_nat index = Some c -> Q c w -> wp (get_cfg index) Q w.
Proof.
  intros H0 Hc HQ. apply wp_bind, wp_gets, wp_lift. by rewrite (arr_get_Ret _ _ c).
Qed.
End WorldRules.

(** * A concrete kernel *)

(** A kernel whose locks, allocations and transmissions succeed or fail
    according to a script, with one-element queues; the witnesses run on it. *)
Record sim : Type := mk_sim {
  s_locks_fail : bool;
  s_malloc_fails : bool;
  s_i2c_status : Z;
  s_clock : Z;
  s_txq : list (Z * ipmi_msg_cfg);
  s_rxq : list (Z * ipmi_msg);
  s_ipmiq : list ipmi_msg_cfg;
  s_wire : list (list Z);
  s_slave : list (list Z);
}.

Definition sim0 : sim := mk_sim false false 0 0 [] [] [] [] [].

Definition sim_malloc (live : gset Z) (s : sim) : Z * sim :=
  (if s_malloc_fails s then 0 else Z.succ (foldr Z.max 0 (elements live)), s).

Lemma sim_malloc_fresh live s a s' :
  sim_malloc live s = (a, s') -> a = 0 \/ (0 < a /\ a ∉ live).
Proof.
  unfold sim_malloc. destruct (s_malloc_fails s); intros [= <- <-]; [by left|right].
  assert (Hmax : forall l, 0 <= foldr Z.max 0 l /\ forall x, x ∈ l -> x <= foldr Z.max 0 l).
  { induction l as [|y l [IH0 IH]]; simpl; [split; [lia|by intros ? ?%elem_of_nil]|].
    split; [lia|]. intros x [->|Hx]%elem_of_cons; [lia|]. specialize (IH x Hx). lia. }
  destruct (Hmax (elements live)) as [H0 Hle]. split; [lia|].
  intros Ha%elem_of_elements%Hle. lia.
Qed.

Definition sim_lock (m : mutex) (ms : Z) (s : sim) : Z * sim :=
  (if s_locks_fail s then -11 else 0, s).
Definition sim_clock (s : sim) : Z * sim := (u32 (s_clock s), s).
Definition sim_put_tx (i : Z) (c : ipmi_msg_cfg) (ms : Z) (s : sim) : Z * sim :=
  (0, mk_sim (s_locks_fail s) (s_malloc_fails s) (s_i2c_status s) (s_clock s)
        (s_txq s ++ [(i, c)]) (s_rxq s) (s_ipmiq s) (s_wire s) (s_slave s)).
Definition sim_get_tx (i : Z) (s : sim) : ipmi_msg_cfg * sim :=
  match s_txq s with
  | (_, c) :: q => (c, mk_sim (s_locks_fail s) (s_malloc_fails s) (s_i2c_status s) (s_clock s)
        q (s_rxq s) (s_ipmiq s) (s_wire s) (s_slave s))
  | [] => (mk_ipmi_msg_cfg zero_msg 0 0, s)
  end.
Definition sim_put_rx (i : Z) (m : ipmi_msg) (ms : Z) (s : sim) : Z * sim :=
  (0, mk_sim (s_locks_fail s) (s_malloc_fails s) (s_i2c_status s) (s_clock s)
        (s_txq s) (s_rxq s ++ [(i, m)]) (s_ipmiq s) (s_wire s) (s_slave s)).
Definition sim_get_rx (i ms : Z) (s : sim) : option ipmi_msg * sim :=
  match s_rxq s with
  | (_, m) :: q => (Some m, mk_sim (s_locks_fail s) (s_malloc_fails s) (s_i2c_status s)
        (s_clock s) (s_txq s) q (s_ipmiq s) (s_wire s) (s_slave s))
  | [] => (None, s)
  end.
(** A queue of [IPMI_BUF_LEN] requests. *)
Definition sim_put_ipmi (c : ipmi_msg_cfg) (s : sim) : Z * sim :=
  if Z.of_nat (length (s_ipmiq s)) <? IPMI_BUF_LEN then
    (0, mk_sim (s_locks_fail s) (s_malloc_fails s) (s_i2c_status s) (s_clock s)
        (s_txq s) (s_rxq s) (s_ipmiq s ++ [c]) (s_wire s) (s_slave s))
  else (-35, s).
Definition sim_free_ipmi (s : sim) : Z * sim :=
  (IPMI_BUF_LEN - Z.of_nat (length (s_ipmiq s)), s).
Definition sim_purge_ipmi (s : sim) : sim :=
  mk_sim (s_locks_fail s) (s_malloc_fails s) (s_i2c_status s) (s_clock s)
    (s_txq s) (s_rxq s) [] (s_wire s) (s_slave s).
Definition sim_write (bus addr : Z) (d : list Z) (s : sim) : Z * sim :=
  (s_i2c_status s, mk_sim (s_locks_fail s) (s_malloc_fails s) (s_i2c_status s) (s_clock s)
    (s_txq s) (s_rxq s) (s_ipmiq s) (s_wire s ++ [addr :: d]) (s_slave s)).
Definition sim_read (bus : Z) (s : sim) : option (list Z) * sim :=
  match s_slave s with
  | d :: q => (Some (take 255 d), mk_sim (s_locks_fail s) (s_malloc_fails s) (s_i2c_status s) (s_clock s)
      (s_txq s) (s_rxq s) (s_ipmiq s) (s_wire s) q)
  | [] => (None, s)
  end.

Definition sim_mem (s : sim) : bool := negb (s_malloc_fails s).

(** The kernel on [sim] with its own locks, allocators and free count. *)
Program Definition sim_with (lockf : mutex -> Z -> sim -> Z * sim)
    (mallocf : gset Z -> sim -> Z * sim)
    (fresh : forall live s a s', mallocf live s = (a, s') -> a = 0 \/ (0 < a /\ a ∉ live))
    (freef : sim -> Z * sim) (memf : sim -> bool) : Kernel sim := {|
  k_mutex_lock := lockf;
  k_mutex_unlock := fun _ s => s;
  malloc := mallocf;
  malloc_buf := fun _ s => (memf s, s);
  uninit_msg := fun _ => zero_msg;
  uninit_bytes := fun n _ => replicate (Z.to_nat n) 0;
  osKernelGetSysTimerCount := sim_clock;
  k_msleep := fun _ s => s;
  k_msgq_put_tx := sim_put_tx;
  k_msgq_get_tx := sim_get_tx;
  k_msgq_put_rx := sim_put_rx;
  k_msgq_get_rx := sim_get_rx;
  k_msgq_purge_rx := fun _ s => s;
  k_msgq_put_ipmi := sim_put_ipmi;
  k_msgq_num_free_ipmi := freef;
  k_msgq_purge_ipmi := sim_purge_ipmi;
  i2c_master_write := sim_write;
  ipmb_slave_read := sim_read;
  pldm_send_ipmi_response := fun _ _ s => s;
  pldm_send_ipmi_request := fun m s => (m, s);
  malloc_fresh := fresh;
|}.
Next Obligation. intros. apply wf_zero_msg. Qed.
Next Obligation. intros. simpl. rewrite length_replicate. lia. Qed.
Next Obligation. intros. by apply bytes_replicate. Qed.
Next Obligation.
  intros lf mf Hf ff bf bus e d e'. unfold sim_read. destruct (s_slave e); intros [= <- _].
  rewrite length_take. lia.
Qed.
Next Obligation. intros lf mf Hf ff bf e t e' [= <- _]. apply u32_range. Qed.

#[export] Instance sim_kernel : Kernel sim :=
  sim_with sim_lock sim_malloc sim_malloc_fresh sim_free_ipmi sim_mem.

(** Locks that are always obtained, allocators that always and never succeed. *)
Definition sim_free_lock (m : mutex) (ms : Z) (s : sim) : Z * sim := (0, s).
Definition sim_rich (live : gset Z) (s : sim) : Z * sim :=
  (Z.succ (foldr Z.max 0 (elements live)), s).
Definition sim_poor (live : gset Z) (s : sim) : Z * sim := (0, s).

Lemma sim_rich_fresh live s a s' : sim_rich live s = (a, s') -> a = 0 \/ (0 < a /\ a ∉ live).
Proof.
  intros [= <- _]. by apply (sim_malloc_fresh live sim0 _ sim0).
Qed.
Lemma sim_poor_fresh live s a s' : sim_poor live s = (a, s') -> a = 0 \/ (0 < a /\ a ∉ live).
Proof. intros [= <- _]. by left. Qed.

Definition rich_kernel : Kernel sim := sim_with sim_lock sim_rich sim_rich_fresh sim_free_ipmi sim_mem.
Definition poor_kernel : Kernel sim :=
  sim_with sim_free_lock sim_poor sim_poor_fresh sim_free_ipmi sim_mem.
