(* ===== verification/PowerStatus.v ===== *)
(** [lib/power_status.c]: the power flags of the host.  The functions that
    should read a GPIO have their bodies commented out in the source, so they
    change nothing; the theorem at the end is the consequence. *)

From S2P Require Import Prelude IpmiDefs World.

Definition initial_power : power := mk_power false false false false false true false false.

Definition set_DC_status (gpio_num : Z) (p : power) : power := p.
Definition get_DC_status (p : power) : bool := pw_is_DC_on p.
Definition set_DC_on_delayed_status (p : power) : power :=
  pw_set_is_DC_on_delayed (pw_is_DC_on p) p.
Definition set_DC_on_delayed_status_with_value (status : bool) (p : power) : power :=
  pw_set_is_DC_on_delayed status p.
Definition get_DC_on_delayed_status (p : power) : bool := pw_is_DC_on_delayed p.
Definition set_DC_off_delayed_status (p : power) : power :=
  pw_set_is_DC_off_delayed (negb (pw_is_DC_on p)) p.
Definition get_DC_off_delayed_status (p : power) : bool := pw_is_DC_off_delayed p.
Definition set_post_status (gpio_num : Z) (p : power) : power := p.
Definition set_post_complete (status : bool) (p : power) : power :=
  pw_set_is_post_complete status p.
Definition get_post_status (p : power) : bool := pw_is_post_complete p.
Definition set_CPU_power_status (gpio_num : Z) (p : power) : power := p.
Definition CPU_power_good (p : power) : bool := pw_is_CPU_power_good p.
Definition set_post_thread (p : power) : power := p.
Definition set_vr_monitor_status (value : bool) (p : power) : power :=
  pw_set_vr_monitor_status value p.
Definition get_vr_monitor_status (p : power) : bool := pw_vr_monitor_status p.
Definition set_P3V3_E1S_power_status (gpio_num : Z) (p : power) : power := p.
Definition P3V3_E1S_power_good (p : power) : bool := pw_is_P3V3_E1S_power_good p.
Definition set_P12V_E1S_power_status (gpio_num : Z) (p : power) : power := p.
Definition P12V_E1S_power_good (p : power) : bool := pw_is_P12V_E1S_power_good p.

(** Every function of the file that can change a flag. *)
Inductive power_op : Set :=
| Op_set_DC_status (gpio : Z)
| Op_set_DC_on_delayed_status
| Op_set_DC_on_delayed_status_with_value (b : bool)
| Op_set_DC_off_delayed_status
| Op_set_post_status (gpio : Z)
| Op_set_post_complete (b : bool)
| Op_set_CPU_power_status (gpio : Z)
| Op_set_post_thread
| Op_set_vr_monitor_status (b : bool)
| Op_set_P3V3_E1S_power_status (gpio : Z)
| Op_set_P12V_E1S_power_status (gpio : Z).

Definition run_op (p : power) (o : power_op) : power :=
  match o with
  | Op_set_DC_status g => set_DC_status g p
  | Op_set_DC_on_delayed_status => set_DC_on_delayed_status p
  | Op_set_DC_on_delayed_status_with_value b => set_DC_on_delayed_status_with_value b p
  | Op_set_DC_off_delayed_status => set_DC_off_delayed_status p
  | Op_set_post_status g => set_post_status g p
  | Op_set_post_complete b => set_post_complete b p
  | Op_set_CPU_power_status g => set_CPU_power_status g p
  | Op_set_post_thread => set_post_thread p
  | Op_set_vr_monitor_status b => set_vr_monitor_status b p
  | Op_set_P3V3_E1S_power_status g => set_P3V3_E1S_power_status g p
  | Op_set_P12V_E1S_power_status g => set_P12V_E1S_power_status g p
  end.

(** What every call sequence from the initial flags keeps. *)
Definition never_on (p : power) : Prop :=
  get_DC_status p = false /\ CPU_power_good p = false /\
  P3V3_E1S_power_good p = false /\ P12V_E1S_power_good p = false.

Lemma run_op_never_on p o : never_on p -> never_on (run_op p o).
Proof. by destruct o. Qed.

(** No sequence of calls makes the module report DC power, CPU power or
    an E1.S rail as on; the delayed-off status can only become true when it
    is sampled, and the delayed-on status only by its explicit setter. *)
Theorem power_never_reported_on ops :
  let p := foldl run_op initial_power ops in
  never_on p /\
  (get_DC_on_delayed_status p = true -> Op_set_DC_on_delayed_status_with_value true ∈ ops) /\
  (get_DC_off_delayed_status p = true -> Op_set_DC_off_delayed_status ∈ ops).
Proof.
  cbn zeta. induction ops as [|o ops (IH1 & IH2 & IH3)] using rev_ind.
  { split; [done|]. by split. }
  rewrite foldl_app. cbn [foldl]. set (p := foldl run_op initial_power ops) in *.
  split; [by apply run_op_never_on|]. rewrite !elem_of_app, !list_elem_of_singleton.
  destruct IH1 as (Hdc & _). unfold get_DC_status in Hdc.
  destruct o as [| |[]| | | | | | | |]; cbn; rewrite ?Hdc; (split; intros; auto; try done).
Qed.
