(* ===== verification/IpmbSeq.v ===== *)
(** Request bookkeeping of [ipmb/ipmb.c]: sequence numbers and the circular
    list of outstanding requests ([insert_req_ipmi_msg], [find_req_ipmi_msg],
    [clear_req_ipmi_msg] and the sweep of [IPMB_SeqTimeout_handler]), on a
    heap of nodes.  The abstract specification is a queue of requests; each
    operation is shown to implement its queue operation, to keep the list
    circular and to release the lock it takes. *)

From S2P Require Import Prelude IpmiDefs World.

(** * Operations *)

Section Ops.
Context {E : Type} `{Kernel E}.

Definition unregister_seq (index seq_num : Z) : ST (world E) unit :=
  let! c := get_ch index in
  let! t := lift (arr_set (ch_seq_table c) seq_num false) in
  set_ch index (ch_set_seq_table t c).

Definition register_seq (index seq_num : Z) : ST (world E) unit :=
  let! c := get_ch index in
  let! t := lift (arr_set (ch_seq_table c) seq_num true) in
  set_ch index (ch_set_seq_table t c).

(** [seq_current_count[index] += d], an [unsigned int]. *)
Definition add_count (index d : Z) : ST (world E) unit :=
  let! c := get_ch index in
  set_ch index (ch_set_seq_current_count (u32 (ch_seq_current_count c + d)) c).

(** The [do ... while (1)] of [get_free_seq]; [count] is the [uint8_t] that
    ends it after [SEQ_NUM] attempts. *)
Fixpoint get_free_seq_loop (fuel : nat) (index count : Z) : ST (world E) unit :=
  match fuel with
  | O => fun _ => OutOfFuel
  | S fuel' =>
      let! c := get_ch index in
      let seq := Z.land (u8 (ch_current_seq c + 1)) 0x3f in
      do! set_ch index (ch_set_current_seq seq c) in
      let! used := lift (arr_get (ch_seq_table c) seq) in
      if negb used then skip
      else
        let count := u8 (count + 1) in
        if count =? SEQ_NUM then skip else get_free_seq_loop fuel' index count
  end.

Definition get_free_seq (index : Z) : ST (world E) Z :=
  do! get_free_seq_loop (Z.to_nat SEQ_NUM) index 0 in
  let! c := get_ch index in
  ret (ch_current_seq c).

(** A list walk visits each node at most once, so the size of the heap bounds
    it; a longer walk does not terminate. *)
Definition walk_fuel (w : world E) : nat := S (size (w_heap w)).

(** [while (pnode && pnode->next != ptr_start) pnode = pnode->next;] *)
Fixpoint walk_to_end (fuel : nat) (ptr_start pnode : Z) : ST (world E) Z :=
  match fuel with
  | O => fun _ => OutOfFuel
  | S fuel' =>
      if pnode =? 0 then ret pnode
      else
        let! n := next pnode in
        if n =? ptr_start then ret pnode else walk_to_end fuel' ptr_start n
  end.

(** The eviction of the oldest request; [false]: the early return. *)
Definition evict_first (pnode index : Z) : ST (world E) bool :=
  let! temp := next pnode in
  if temp =? 0 then ret false
  else
    let! n := next temp in
    do! set_next pnode n in
    do! SAFE_FREE temp in
    do! add_count index (-1) in
    ret true.

Definition insert_req_ipmi_msg (pnode : Z) (msg : ipmi_msg) (index : Z)
    : ST (world E) ipmi_msg :=
  if pnode =? 0 then ret msg
  else
    let ptr_start := pnode in
    let! ret_ := lock (mutex_id index) 1000 in
    if negb (ret_ =? 0) then ret msg
    else
      let! ch := get_ch index in
      let! room := (if ch_seq_current_count ch =? MAX_SEQ_QUENE
                    then evict_first pnode index else ret true) in
      if negb room then do! unlock (mutex_id index) in ret msg
      else
        let! w := gets id in
        let! pnode := walk_to_end (walk_fuel w) ptr_start pnode in
        if pnode =? 0 then do! unlock (mutex_id index) in ret msg
        else
          let! node := malloc_node in
          do! set_next pnode node in
          if node =? 0 then do! unlock (mutex_id index) in ret msg
          else
            let! t := ext osKernelGetSysTimerCount in
            let msg := with_timestamp t msg in
            let! c := deref node in
            do! store node (with_buffer msg c) in
            do! register_seq index (m_seq_target msg) in
            do! set_next node ptr_start in
            do! add_count index 1 in
            do! unlock (mutex_id index) in
            ret msg.

(** The conditions under which a recorded request answers [msg]. *)
Definition req_matches (msg req : ipmi_msg) : bool :=
  (m_netfn req =? Z.ldiff (m_netfn msg) 1) && (m_cmd req =? m_cmd msg) &&
  (m_seq_target req =? m_seq_target msg).

Fixpoint find_loop (fuel : nat) (ptr_start pnode : Z) (msg : ipmi_msg) : ST (world E) Z :=
  match fuel with
  | O => fun _ => OutOfFuel
  | S fuel' =>
      if pnode =? 0 then ret pnode
      else
        let! n := next pnode in
        if n =? ptr_start then ret pnode
        else
          let! c := deref n in
          if req_matches msg (c_buffer c) then ret pnode
          else find_loop fuel' ptr_start n msg
  end.

Definition find_req_ipmi_msg (pnode : Z) (msg : ipmi_msg) (index : Z)
    : ST (world E) (bool * ipmi_msg) :=
  if pnode =? 0 then ret (false, msg)
  else
    let ptr_start := pnode in
    let! ret_ := lock (mutex_id index) 1000 in
    if negb (ret_ =? 0) then ret (false, msg)
    else
      let! w := gets id in
      let! pnode := find_loop (walk_fuel w) ptr_start pnode msg in
      if pnode =? 0 then do! unlock (mutex_id index) in ret (false, msg)
      else
        let! temp := next pnode in
        if temp =? ptr_start then do! unlock (mutex_id index) in ret (false, msg)
        else if temp =? 0 then do! unlock (mutex_id index) in ret (false, msg)
        else
          let! c := deref temp in
          let msg := with_seq_source (m_seq_source (c_buffer c)) msg in
          do! unregister_seq index (m_seq_target (c_buffer c)) in
          let msg := with_pldm_inst_id (m_pldm_inst_id (c_buffer c)) msg in
          let msg := with_InF_source (m_InF_source (c_buffer c)) msg in
          let msg := with_InF_target (m_InF_target (c_buffer c)) msg in
          do! set_next pnode (c_next c) in
          do! SAFE_FREE temp in
          do! add_count index (-1) in
          do! unlock (mutex_id index) in
          ret (true, msg).

Definition clear_matches (msg req : ipmi_msg) : bool :=
  (m_netfn req =? m_netfn msg) && (m_cmd req =? m_cmd msg) && (m_seq req =? m_seq msg).

Fixpoint clear_loop (fuel : nat) (pnode : Z) (msg : ipmi_msg) (index : Z)
    : ST (world E) unit :=
  match fuel with
  | O => fun _ => OutOfFuel
  | S fuel' =>
      let! n := next pnode in
      let! ch := get_ch index in
      if n =? ch_P_start ch then skip
      else
        let! c := deref n in
        if clear_matches msg (c_buffer c) then
          do! set_next pnode (c_next c) in
          do! unregister_seq index (m_seq_target (c_buffer c)) in
          do! SAFE_FREE n in
          add_count index (-1)
        else clear_loop fuel' n msg index
  end.

Definition clear_req_ipmi_msg (pnode : Z) (msg : ipmi_msg) (index : Z) : ST (world E) unit :=
  if pnode =? 0 then skip
  else
    let! ret_ := lock (mutex_id index) 1000 in
    if negb (ret_ =? 0) then skip
    else
      let! w := gets id in
      do! clear_loop (walk_fuel w) pnode msg index in
      unlock (mutex_id index).

(** The age test of the sweep, in [uint32_t] arithmetic. *)
Definition seq_expired (current_time tick_fix sys_tick_freq timestamp : Z) : bool :=
  (u32 (current_time + tick_fix - timestamp) >? u32 (IPMB_SEQ_TIMEOUT_MS / 1000 * sys_tick_freq))
  || z2b (Z.land (u32 (current_time + tick_fix - timestamp)) 0x80000000).

Fixpoint sweep_loop (fuel : nat) (index pnode : Z) : ST (world E) unit :=
  match fuel with
  | O => fun _ => OutOfFuel
  | S fuel' =>
      let! n := next pnode in
      let! ch := get_ch index in
      if n =? ch_P_start ch then skip
      else
        let! current_time := ext osKernelGetSysTimerCount in
        let! w := gets id in
        let! c := deref n in
        do! (if seq_expired current_time (w_tick_fix w) (w_freq w) (m_timestamp (c_buffer c))
             then
               do! set_next pnode (c_next c) in
               do! unregister_seq index (m_seq_target (c_buffer c)) in
               do! SAFE_FREE n in
               add_count index (-1)
             else skip) in
        let! pnode := next pnode in
        sweep_loop fuel' index pnode
  end.

(** One index of the sweep.  After the last node is removed the walk starts
    again at the head, so its length is bounded by the square of the list. *)
Definition sweep_index (index : Z) : ST (world E) unit :=
  let! cfg := get_cfg index in
  if negb (cfg_enable_status cfg) then skip
  else
    let! ret_ := lock (mutex_id index) 1000 in
    if negb (ret_ =? 0) then skip
    else
      let! ch := get_ch index in
      let! w := gets id in
      do! sweep_loop (walk_fuel w * walk_fuel w) index (ch_P_start ch) in
      unlock (mutex_id index).

Fixpoint sweep_from (n : nat) (index : Z) : ST (world E) unit :=
  match n with
  | O => skip
  | S n' => do! sweep_index index in sweep_from n' (index + 1)
  end.

(** One round of the [while (1)] of the handler; [MAX_IPMB_IDX] is the number
    of channels. *)
Definition IPMB_SeqTimeout_handler : ST (world E) unit :=
  do! ext_ (k_msleep IPMB_SEQ_TIMEOUT_MS) in
  let! l := gets w_ch in
  sweep_from (length l) 0.
End Ops.

(** * Linked lists in the heap *)

Abbreviation node := (prod Z ipmi_msg).

(** From node [p] the list [l] follows, and the last node points to [q]. *)
Fixpoint chain (h : gmap Z ipmi_msg_cfg) (p : Z) (l : list node) (q : Z) : Prop :=
  match l with
  | [] => exists c, h !! p = Some c /\ c_next c = q
  | (a, m) :: l' =>
      (exists c, h !! p = Some c /\ c_next c = a) /\
      (exists c, h !! a = Some c /\ c_buffer c = m) /\ chain h a l' q
  end.

(** The circular list headed by [s]; the head carries no request. *)
Definition ring (h : gmap Z ipmi_msg_cfg) (s : Z) (l : list node) : Prop :=
  chain h s l s /\ NoDup (s :: l.*1) /\ 0 ∉ s :: l.*1.

Definition last_addr (p : Z) (l : list node) : Z := default p (last l.*1).

Lemma last_addr_cons p a m l : last_addr p ((a, m) :: l) = last_addr a l.
Proof.
  unfold last_addr. cbn [fmap list_fmap fst]. rewrite last_cons. by destruct (last l.*1).
Qed.

Lemma last_addr_snoc p l a m : last_addr p (l ++ [(a, m)]) = a.
Proof. unfold last_addr. rewrite fmap_app. cbn [fmap list_fmap fst]. by rewrite last_snoc. Qed.

Lemma last_addr_elem p l : last_addr p l ∈ p :: l.*1.
Proof.
  unfold last_addr. destruct (last l.*1) eqn:E; simpl; [|by left].
  right. by apply last_Some_elem_of.
Qed.

Lemma chain_app h p l1 a m l2 q :
  chain h p (l1 ++ (a, m) :: l2) q <->
    chain h p l1 a /\ (exists c, h !! a = Some c /\ c_buffer c = m) /\ chain h a l2 q.
Proof.
  revert p. induction l1 as [|[b n] l1 IH]; intros p; simpl; [done|]. rewrite IH. tauto.
Qed.

Lemma chain_frame h h' p l q :
  (forall x, x ∈ p :: l.*1 -> h' !! x = h !! x) -> chain h p l q -> chain h' p l q.
Proof.
  revert p. induction l as [|[a m] l IH]; intros p Hf; cbn [chain fmap list_fmap fst] in *.
  { intros (c & ? & ?). exists c. rewrite Hf; [done|by left]. }
  intros ((c & Hc & ?) & (c' & Hc' & ?) & Hl). split; [|split].
  - exists c. rewrite Hf; [done|by left].
  - exists c'. rewrite Hf; [done|]. right. by left.
  - apply IH; [|done]. intros x Hx. apply Hf. by right.
Qed.

Lemma chain_last h p l q :
  chain h p l q -> exists c, h !! last_addr p l = Some c /\ c_next c = q.
Proof.
  revert p. induction l as [|[a m] l IH]; intros p; cbn [chain]; [done|].
  intros (_ & _ & Hl). rewrite last_addr_cons. by apply IH.
Qed.

Lemma chain_lookup h p l q a m :
  chain h p l q -> (a, m) ∈ l -> exists c, h !! a = Some c /\ c_buffer c = m.
Proof.
  revert p. induction l as [|[b n] l IH]; intros p; cbn [chain]; [by intros _ ?%elem_of_nil|].
  intros (_ & Hb & Hl) [E|?]%elem_of_cons; [by simplify_eq|by eapply IH].
Qed.

Lemma chain_dom h p l q x : chain h p l q -> x ∈ p :: l.*1 -> is_Some (h !! x).
Proof.
  intros Hl [->|Hx]%elem_of_cons.
  - destruct l as [|[a m] l]; [destruct Hl as (c & ? & _)|destruct Hl as ((c & ? & _) & _)]; eauto.
  - apply list_elem_of_fmap in Hx as ([a m] & -> & Hin).
    destruct (chain_lookup _ _ _ _ _ _ Hl Hin) as (c & ? & _). eauto.
Qed.

(** Redirecting the last node. *)
Lemma chain_retarget h p l q q' c :
  chain h p l q -> NoDup (p :: l.*1) -> h !! last_addr p l = Some c ->
  chain (<[last_addr p l := with_next q' c]> h) p l q'.
Proof.
  revert p. induction l as [|[a m] l IH]; intros p.
  { intros _ _ Hc. exists (with_next q' c). unfold last_addr. simpl. by rewrite lookup_insert_eq. }
  rewrite last_addr_cons. cbn [chain fmap list_fmap fst].
  intros ((c0 & Hc0 & Hn0) & (c1 & Hc1 & Hm1) & Hl) Hnd Hc.
  apply NoDup_cons in Hnd as [Hp Hnd]. split; [|split].
  - exists c0. rewrite lookup_insert_ne; [done|]. intros E. apply Hp.
    rewrite <- E. apply last_addr_elem.
  - destruct (decide (last_addr a l = a)) as [E|E].
    + rewrite E in *. exists (with_next q' c). rewrite lookup_insert_eq. by simplify_eq/=.
    + exists c1. by rewrite lookup_insert_ne.
  - by apply IH.
Qed.

(** Unlinking the node after [last_addr p l1]. *)
Lemma chain_remove h p l1 a m l2 q c n :
  chain h p (l1 ++ (a, m) :: l2) q -> NoDup (p :: (l1 ++ (a, m) :: l2).*1) ->
  h !! last_addr p l1 = Some c -> h !! a = Some n ->
  chain (delete a (<[last_addr p l1 := with_next (c_next n) c]> h)) p (l1 ++ l2) q.
Proof.
  intros Hch Hnd Hc Hn. rewrite fmap_app in Hnd. cbn [fmap list_fmap fst] in Hnd.
  apply chain_app in Hch as (H1 & _ & H2).
  assert (Ha : (a ∉ p :: l1.*1) /\ (a ∉ l2.*1) /\ NoDup (p :: l1.*1) /\
    forall x, x ∈ (p :: l1.*1) -> x ∈ (l2.*1) -> False).
  { rewrite app_comm_cons in Hnd. apply NoDup_app in Hnd as (Hn1 & Hdis & Hn2).
    apply NoDup_cons in Hn2 as [Hn2 _]. split; [|split; [done|split; [done|]]].
    - intros Hin. apply (Hdis a Hin). by left.
    - intros x Hx Hx2. apply (Hdis x Hx). by right. }
  destruct Ha as (Ha1 & Ha2 & Hnd1 & Hdis).
  assert (Hlast : last_addr p l1 ∈ p :: l1.*1) by apply last_addr_elem.
  apply (chain_frame (<[last_addr p l1 := with_next (c_next n) c]> h)).
  { intros x Hx. rewrite lookup_delete_ne; [done|]. intros ->.
    rewrite fmap_app in Hx. rewrite app_comm_cons in Hx.
    apply elem_of_app in Hx as [|]; [by apply Ha1|by apply Ha2]. }
  destruct l2 as [|[b k] l2].
  - rewrite app_nil_r. destruct H2 as (n' & Hn' & <-). simplify_eq.
    by eapply chain_retarget.
  - apply chain_app. destruct H2 as ((n' & Hn' & Hb) & (cb & Hcb & Hk) & H2).
    assert (n' = n) as -> by congruence. subst b. cbn [fmap list_fmap fst] in *.
    split; [|split].
    + by eapply chain_retarget.
    + exists cb. rewrite lookup_insert_ne; [done|]. intros E. apply (Hdis (c_next n)); [|by left].
      by rewrite <- E.
    + apply (chain_frame h); [|done]. intros x Hx. rewrite lookup_insert_ne; [done|].
      intros <-. by apply (Hdis (last_addr p l1)).
Qed.

Lemma chain_size h s l q : chain h s l q -> NoDup (s :: l.*1) -> (length l < size h)%nat.
Proof.
  intros Hch Hnd. pose proof (length_fmap fst l) as Hlen.
  assert (Hsub : list_to_set (C := gset Z) (s :: l.*1) ⊆ dom h).
  { intros x Hx%elem_of_list_to_set. apply elem_of_dom. by eapply chain_dom. }
  apply subseteq_size in Hsub. rewrite size_list_to_set in Hsub by done.
  rewrite size_dom in Hsub. cbn [length] in Hsub. lia.
Qed.

Lemma ring_size h s l : ring h s l -> (length l < size h)%nat.
Proof. intros (Hch & Hnd & _). by eapply chain_size. Qed.

(** * The channel invariant *)

(** The parts of a channel no list operation writes. *)
Definition ch_rest (ch : channel) : Z * bool * bool :=
  (ch_current_seq ch, ch_msgq_init ch, ch_mutex_init ch).

Definition addrs (ch : channel) (l : list node) : list Z := ch_P_start ch :: l.*1.

(** Index [i] is initialised and its list holds the requests [l]. *)
Record chan_ok (h : gmap Z ipmi_msg_cfg) (ch : channel) (l : list node) : Prop := {
  co_ring : ring h (ch_P_start ch) l;
  co_count : ch_seq_current_count ch = Z.of_nat (length l);
  co_bound : Z.of_nat (length l) <= MAX_SEQ_QUENE;
  co_table : length (ch_seq_table ch) = Z.to_nat SEQ_NUM;
  co_seqs : Forall (fun m => 0 <= m_seq_target m < SEQ_NUM) l.*2;
  co_null : h !! 0 = None;
}.

(** The globals no list operation writes. *)
Record same_globals {E} (w w' : world E) : Prop := {
  sg_table : w_table w' = w_table w;
  sg_map : w_map w' = w_map w;
  sg_tick : w_tick_fix w' = w_tick_fix w;
  sg_freq : w_freq w' = w_freq w;
  sg_power : w_power w' = w_power w;
  sg_bmc : w_bmc_enables w' = w_bmc_enables w;
  sg_init : w_mutex_init w' = w_mutex_init w;
}.

#[export] Instance same_globals_preorder E : PreOrder (@same_globals E).
Proof.
  split; [done|]. intros w1 w2 w3 [] []. split; congruence.
Qed.

(** An operation on index [i] took channel and list [(ch, l)] to [(ch', l')]:
    it changed no other channel and no node outside the two lists, and took
    new nodes from the free store. *)
Record upd {E} (i : Z) (ch : channel) (l : list node) (w : world E)
    (ch' : channel) (l' : list node) (w' : world E) : Prop := {
  up_ch : w_ch w' = <[Z.to_nat i := ch']> (w_ch w);
  up_head : ch_P_start ch' = ch_P_start ch;
  up_tx : ch_tx_disable ch' = ch_tx_disable ch;
  up_cur : ch_rest ch' = ch_rest ch;
  up_frame : forall x, x ∉ addrs ch l -> x ∉ addrs ch' l' -> w_heap w' !! x = w_heap w !! x;
  up_new : forall x, x ∈ addrs ch' l' -> x ∈ addrs ch l \/ w_heap w !! x = None;
  up_globals : same_globals w w';
}.

Lemma upd_lookup {E} i ch l (w w' : world E) ch' l' ch0 :
  0 <= i -> w_ch w !! Z.to_nat i = Some ch0 -> upd i ch l w ch' l' w' ->
  w_ch w' !! Z.to_nat i = Some ch'.
Proof.
  intros Hi Hch Hu. rewrite (up_ch _ _ _ _ _ _ _ Hu).
  apply list_lookup_insert_eq. by eapply lookup_lt_Some.
Qed.

Lemma upd_trans {E} i ch l ch' l' ch'' l'' (w w' w'' : world E) :
  upd i ch l w ch' l' w' -> upd i ch' l' w' ch'' l'' w'' ->
  (forall x, x ∈ addrs ch' l' -> x ∈ addrs ch l) -> upd i ch l w ch'' l'' w''.
Proof.
  intros [A1 A2 A3 A4 A5 A6 A7] [B1 B2 B3 B4 B5 B6 B7] Hsub.
  split; try congruence.
  - rewrite B1, A1. apply list_insert_insert_eq.
  - intros x Hx Hx''. assert (Hx' : x ∉ addrs ch' l') by eauto.
    rewrite B5 by done. by apply A5.
  - intros x Hx. destruct (B6 x Hx) as [Hin|Hnone]; [eauto|].
    destruct (decide (x ∈ addrs ch l)) as [|Hn]; [by left|right].
    assert (Hx' : x ∉ addrs ch' l') by eauto. by rewrite <- (A5 x).
  - by etrans.
Qed.

(** * List walks *)

Section Walks.
Context {E : Type} `{Kernel E}.
Implicit Types w : world E.

(** The requests before, at and after the first one that satisfies [f]. *)
Fixpoint split_first (f : ipmi_msg -> bool) (l : list node)
    : option (list node * node * list node) :=
  match l with
  | [] => None
  | (a, m) :: l' =>
      if f m then Some ([], (a, m), l')
      else match split_first f l' with
           | Some (l1, n, l2) => Some ((a, m) :: l1, n, l2)
           | None => None
           end
  end.

Lemma split_first_Some f l l1 a m l2 :
  split_first f l = Some (l1, (a, m), l2) ->
  l = l1 ++ (a, m) :: l2 /\ f m = true /\ Forall (fun n => f n.2 = false) l1.
Proof.
  revert l1. induction l as [|[b k] l IH]; intros l1; simpl; [done|].
  destruct (f k) eqn:Hk; [by intros [= <- <- <- <-]|].
  destruct (split_first f l) as [[[l1' [a' m']] l2']|] eqn:Hs; [|done].
  intros [= <- -> -> ->]. destruct (IH l1' eq_refl) as (-> & ? & ?).
  split; [done|]. split; [done|]. by constructor.
Qed.

Lemma split_first_None f l :
  split_first f l = None -> Forall (fun n => f n.2 = false) l.
Proof.
  induction l as [|[b k] l IH]; simpl; [constructor|].
  destruct (f k) eqn:Hk; [done|]. destruct (split_first f l) as [[[? ?] ?]|]; [done|].
  intros _. constructor; auto.
Qed.

(** A walk from [p] along [l] that ends at [s]. *)
Definition tail_ok (s p : Z) (l : list node) : Prop :=
  p <> 0 /\ Forall (fun n => n.1 <> 0 /\ n.1 <> s) l.

Lemma ring_tail_ok h s l : ring h s l -> tail_ok s s l.
Proof.
  intros (_ & [Hs _]%NoDup_cons & [H0 H0l]%not_elem_of_cons). split; [done|].
  apply Forall_forall. intros [a m] Ha. assert (a ∈ l.*1) by (apply list_elem_of_fmap; by exists (a, m)).
  split; intros Heq; simpl in Heq; subst; done.
Qed.

Lemma wp_walk_to_end s l fuel p w Q :
  chain (w_heap w) p l s -> tail_ok s p l -> (length l < fuel)%nat ->
  Q (last_addr p l) w -> wp (walk_to_end fuel s p) Q w.
Proof.
  revert fuel p. induction l as [|[a m] l IH]; intros [|fuel] p Hc [Hp Ht] Hf HQ;
    cbn [length] in Hf; try lia; cbn [walk_to_end];
    rewrite (proj2 (Z.eqb_neq p 0) Hp); apply wp_bind.
  - destruct Hc as (c & Hc & <-). apply (wp_next _ c); [done|]. by rewrite Z.eqb_refl.
  - destruct Hc as ((c & Hc & Hn) & _ & Hl). apply (wp_next _ c); [done|]. rewrite Hn.
    apply Forall_cons in Ht as [[Ha Has] Ht]. simpl in Ha, Has.
    rewrite (proj2 (Z.eqb_neq a s) Has). rewrite last_addr_cons in HQ.
    apply IH; [done|by split|lia|done].
Qed.

Lemma wp_find_loop s l fuel p msg w Q :
  chain (w_heap w) p l s -> tail_ok s p l -> (length l < fuel)%nat ->
  Q (match split_first (req_matches msg) l with
     | Some (l1, _, _) => last_addr p l1 | None => last_addr p l end) w ->
  wp (find_loop fuel s p msg) Q w.
Proof.
  revert fuel p. induction l as [|[a m] l IH]; intros [|fuel] p Hc [Hp Ht] Hf HQ;
    cbn [length] in Hf; try lia; cbn [find_loop split_first] in *;
    rewrite (proj2 (Z.eqb_neq p 0) Hp); apply wp_bind.
  - destruct Hc as (c & Hc & <-). apply (wp_next _ c); [done|]. by rewrite Z.eqb_refl.
  - destruct Hc as ((c & Hc & Hn) & (c' & Hc' & Hm) & Hl). apply (wp_next _ c); [done|].
    rewrite Hn. apply Forall_cons in Ht as [[Ha Has] Ht]. simpl in Ha, Has.
    rewrite (proj2 (Z.eqb_neq a s) Has). apply wp_bind, (wp_deref _ c'); [done|]. rewrite Hm.
    destruct (req_matches msg m); [done|]. rewrite last_addr_cons in HQ.
    apply IH; [done|by split|lia|].
    destruct (split_first (req_matches msg) l) as [[[l1 n] l2]|]; [|done].
    by rewrite last_addr_cons in HQ.
Qed.

(** * Elementary updates *)

Lemma wp_add_count i d ch w Q :
  0 <= i -> w_ch w !! Z.to_nat i = Some ch ->
  Q tt (w_set_ch (<[Z.to_nat i := ch_set_seq_current_count
          (u32 (ch_seq_current_count ch + d)) ch]> (w_ch w)) w) ->
  wp (add_count i d) Q w.
Proof. intros Hi Hc HQ. by apply wp_bind, (wp_get_ch _ ch), (wp_set_ch _ _ ch). Qed.

Lemma wp_seq_entry (b : bool) (op : Z -> Z -> ST (world E) unit) i s ch w Q :
  op = (fun index seq_num =>
    let! c := get_ch index in
    let! t := lift (arr_set (ch_seq_table c) seq_num b) in
    set_ch index (ch_set_seq_table t c)) ->
  0 <= i -> w_ch w !! Z.to_nat i = Some ch -> 0 <= s < Z.of_nat (length (ch_seq_table ch)) ->
  Q tt (w_set_ch (<[Z.to_nat i := ch_set_seq_table
          (<[Z.to_nat s := b]> (ch_seq_table ch)) ch]> (w_ch w)) w) ->
  wp (op i s) Q w.
Proof.
  intros -> Hi Hc Hs HQ. apply wp_bind, (wp_get_ch _ ch); [done..|].
  apply wp_bind, wp_lift, rwp_arr_set; [done|]. by apply (wp_set_ch _ _ ch).
Qed.
Definition wp_unregister_seq := wp_seq_entry false unregister_seq.
Definition wp_register_seq := wp_seq_entry true register_seq.

(** Locks and the external state are no part of [upd]. *)
Lemma upd_env {E'} (w0 w w' w1 : world E') i ch l ch' l' :
  w_heap w0 = w_heap w -> w_ch w0 = w_ch w -> same_globals w w0 ->
  w_heap w1 = w_heap w' -> w_ch w1 = w_ch w' -> same_globals w' w1 ->
  upd i ch l w0 ch' l' w' -> upd i ch l w ch' l' w1.
Proof.
  intros H1 H2 H3 H4 H5 H6 [U1 U2 U3 U4 U5 U6 U7]. split; try done.
  - by rewrite H5, U1, H2.
  - intros x ? ?. rewrite H4, U5 by done. by rewrite H1.
  - intros x Hx. rewrite <- H1. by apply U6.
  - etrans; [exact H3|]. by etrans.
Qed.

Lemma in_channel w i ch : w_ch w !! i = Some ch -> (i < length (w_ch w))%nat.
Proof. apply lookup_lt_Some. Qed.

(** The channel invariant after a node has been unlinked and freed. *)
Lemma unlink_ok h ch l1 a m l2 c n ch' :
  chan_ok h ch (l1 ++ (a, m) :: l2) -> h !! last_addr (ch_P_start ch) l1 = Some c ->
  h !! a = Some n -> ch_P_start ch' = ch_P_start ch ->
  ch_seq_current_count ch' = u32 (ch_seq_current_count ch + -1) ->
  length (ch_seq_table ch') = Z.to_nat SEQ_NUM ->
  chan_ok (delete a (<[last_addr (ch_P_start ch) l1 := with_next (c_next n) c]> h)) ch'
    (l1 ++ l2).
Proof.
  intros [(Hch & Hnd & H0) Hcnt Hb Ht Hs Hnull] Hc Hn Hst Hcnt' Ht'.
  rewrite length_app in Hcnt, Hb. cbn [length] in Hcnt, Hb.
  split; rewrite ?Hst, ?length_app; try done.
  - split; [by eapply chain_remove|]. rewrite fmap_app in *. cbn [fmap list_fmap fst] in *. split.
    + rewrite app_comm_cons in Hnd |- *. eapply sublist_NoDup; [exact Hnd|].
      apply sublist_app; [done|]. by apply sublist_cons.
    + intros Hin. apply H0. apply elem_of_cons in Hin as [->|Hin]; [by left|right].
      apply elem_of_app in Hin as [|]; apply elem_of_app; [by left|right; by right].
  - rewrite Hcnt', Hcnt. rewrite u32_small; [lia|]. unfold is_u32. unfold MAX_SEQ_QUENE in Hb. lia.
  - lia.
  - rewrite fmap_app in *. cbn [fmap list_fmap fst snd] in *.
    apply Forall_app in Hs as [? [_ ?]%Forall_cons]. by apply Forall_app.
  - rewrite lookup_delete_ne by congruence. by rewrite lookup_insert_ne by congruence.
Qed.

Lemma unlink_addrs ch ch' l1 a m l2 x :
  ch_P_start ch' = ch_P_start ch ->
  x ∈ addrs ch' (l1 ++ l2) -> x ∈ addrs ch (l1 ++ (a, m) :: l2).
Proof.
  unfold addrs. intros ->. rewrite !fmap_app. cbn [fmap list_fmap fst].
  rewrite !elem_of_cons, !elem_of_app, elem_of_cons. tauto.
Qed.

Lemma last_addr_in_addrs ch l1 l2 : last_addr (ch_P_start ch) l1 ∈ addrs ch (l1 ++ l2).
Proof.
  unfold addrs. rewrite fmap_app, app_comm_cons. apply elem_of_app. left. apply last_addr_elem.
Qed.

Lemma unlink_upd i w w' ch l1 a m l2 c n ch' :
  chan_ok (w_heap w) ch (l1 ++ (a, m) :: l2) ->
  w_ch w' = <[Z.to_nat i := ch']> (w_ch w) ->
  w_heap w' = delete a (<[last_addr (ch_P_start ch) l1 := with_next (c_next n) c]> (w_heap w)) ->
  ch_P_start ch' = ch_P_start ch -> ch_tx_disable ch' = ch_tx_disable ch ->
  ch_rest ch' = ch_rest ch -> same_globals w w' ->
  upd i ch (l1 ++ (a, m) :: l2) w ch' (l1 ++ l2) w'.
Proof.
  intros Hok Hch Hh Hst Htx Hcur Hg. split; try done.
  - intros x Hx _. rewrite Hh. rewrite lookup_delete_ne.
    + rewrite lookup_insert_ne; [done|]. intros <-. apply Hx, last_addr_in_addrs.
    + intros <-. apply Hx. unfold addrs. rewrite fmap_app. right. apply elem_of_app. right. by left.
  - intros x Hx. left. by eapply unlink_addrs.
Qed.

(** A list node and its predecessor. *)
Lemma chan_nodes h ch l1 a m l2 :
  chan_ok h ch (l1 ++ (a, m) :: l2) ->
  exists c n, h !! last_addr (ch_P_start ch) l1 = Some c /\ c_next c = a /\
    h !! a = Some n /\ c_buffer n = m /\ a <> 0 /\ a <> ch_P_start ch /\
    a <> last_addr (ch_P_start ch) l1 /\ 0 <= m_seq_target m < SEQ_NUM.
Proof.
  intros [(Hch & Hnd & H0) _ _ _ Hs _]. apply chain_app in Hch as (H1 & (n & Hn & Hm) & _).
  destruct (chain_last _ _ _ _ H1) as (c & Hc & Hnx). exists c, n.
  rewrite fmap_app in Hs. rewrite fmap_app in Hnd, H0. cbn [fmap list_fmap fst snd] in *.
  assert (Ha : a ∉ ch_P_start ch :: l1.*1).
  { rewrite app_comm_cons in Hnd. apply NoDup_app in Hnd as (_ & Hd & _).
    intros Hin. apply (Hd a Hin). by left. }
  repeat split; try done.
  - intros ->. apply H0. right. apply elem_of_app. right. by left.
  - intros ->. apply Ha. by left.
  - intros Heq. apply Ha. rewrite Heq. apply last_addr_elem.
  - apply Forall_app in Hs as [_ [? _]%Forall_cons]. lia.
  - apply Forall_app in Hs as [_ [? _]%Forall_cons]. lia.
Qed.

Lemma last_addr_nonzero h ch l1 l2 :
  chan_ok h ch (l1 ++ l2) -> last_addr (ch_P_start ch) l1 <> 0.
Proof.
  intros [(_ & _ & H0) _ _ _ _ _] E0. apply H0. rewrite <- E0.
  apply (last_addr_in_addrs ch l1 l2).
Qed.

Lemma chan_seq_lt h ch l s :
  chan_ok h ch l -> 0 <= s < SEQ_NUM -> 0 <= s < Z.of_nat (length (ch_seq_table ch)).
Proof. intros Hok Hs. rewrite (co_table _ _ _ Hok). unfold SEQ_NUM in *. lia. Qed.

Lemma chan_tail_ok h ch l : chan_ok h ch l -> tail_ok (ch_P_start ch) (ch_P_start ch) l.
Proof. intros Hok. eapply ring_tail_ok, co_ring, Hok. Qed.

Lemma chan_fuel w ch l : chan_ok (w_heap w) ch l -> (length l < walk_fuel w)%nat.
Proof. intros Hok. pose proof (ring_size _ _ _ (co_ring _ _ _ Hok)). unfold walk_fuel. lia. Qed.
End Walks.

(** * The abstract queue *)

(** The outstanding requests of an index, oldest first. *)
Fixpoint remove_first (f : ipmi_msg -> bool) (q : list ipmi_msg)
    : option (ipmi_msg * list ipmi_msg) :=
  match q with
  | [] => None
  | m :: q' =>
      if f m then Some (m, q')
      else match remove_first f q' with
           | Some (x, r) => Some (x, m :: r)
           | None => None
           end
  end.

(** Recording a request; the oldest one makes room. *)
Definition enqueue (m : ipmi_msg) (q : list ipmi_msg) : list ipmi_msg :=
  (if Z.of_nat (length q) =? MAX_SEQ_QUENE then tail q else q) ++ [m].

(** What a response takes from the request it answers. *)
Definition answer (msg req : ipmi_msg) : ipmi_msg :=
  with_InF_target (m_InF_target req) (with_InF_source (m_InF_source req)
    (with_pldm_inst_id (m_pldm_inst_id req) (with_seq_source (m_seq_source req) msg))).

(** Index [i] of the world holds the list [l]. *)
Definition holds {E} (w : world E) (i : Z) (ch : channel) (l : list node) : Prop :=
  0 <= i /\ w_ch w !! Z.to_nat i = Some ch /\ chan_ok (w_heap w) ch l.

(** Nothing of the program state changed. *)
Definition quiet {E} (w w' : world E) : Prop := exists e, w' = w_set_ext e w.

Lemma remove_first_split f l :
  remove_first f (l.*2) =
    match split_first f l with
    | Some (l1, (a, m), l2) => Some (m, (l1 ++ l2).*2)
    | None => None
    end.
Proof.
  induction l as [|[a m] l IH]; [done|]. cbn [fmap list_fmap snd remove_first split_first].
  destruct (f m); [done|]. change (list_fmap _ _ snd l) with (l.*2). rewrite IH.
  by destruct (split_first f l) as [[[l1 [b k]] l2]|].
Qed.

Section Refinement.
Context {E : Type} `{Kernel E}.
Implicit Types w : world E.

Lemma quiet_ext e w : quiet w (w_set_ext e w).
Proof. by exists e. Qed.

(** The state after unlinking, freeing and uncounting the node after [l1]. *)
Lemma unlink_done i w w' ch l1 a m l2 c n ch' :
  holds w i ch (l1 ++ (a, m) :: l2) ->
  w_heap w !! last_addr (ch_P_start ch) l1 = Some c -> w_heap w !! a = Some n ->
  w_ch w' = <[Z.to_nat i := ch']> (w_ch w) ->
  w_heap w' = delete a (<[last_addr (ch_P_start ch) l1 := with_next (c_next n) c]> (w_heap w)) ->
  ch_P_start ch' = ch_P_start ch -> ch_tx_disable ch' = ch_tx_disable ch ->
  ch_rest ch' = ch_rest ch ->
  ch_seq_current_count ch' = u32 (ch_seq_current_count ch + -1) ->
  length (ch_seq_table ch') = length (ch_seq_table ch) -> same_globals w w' ->
  holds w' i ch' (l1 ++ l2) /\ upd i ch (l1 ++ (a, m) :: l2) w ch' (l1 ++ l2) w'.
Proof.
  intros (Hi & Hch & Hok) Hc Hn Hw Hh Hst Htx Hcur Hcnt Ht Hg.
  split; [|by eapply unlink_upd].
  split; [done|]. rewrite Hw, Hh. split; [by apply list_lookup_insert_eq, (in_channel w _ ch)|].
  apply (unlink_ok _ ch l1 a m l2); try done. rewrite Ht. apply Hok.
Qed.

(** [find_req_ipmi_msg] on a well-formed list: without the lock or without a
    match nothing changes; otherwise the first match is taken out. *)
Definition find_post (i : Z) (ch : channel) (l : list node) (msg : ipmi_msg) (w : world E)
    (r : bool * ipmi_msg) (w' : world E) : Prop :=
  w_held w' = w_held w /\
  ((r = (false, msg) /\ quiet w w' /\
      (lock_fails (mutex_id i) 1000 w \/ remove_first (req_matches msg) l.*2 = None)) \/
   exists req q' ch' l', remove_first (req_matches msg) l.*2 = Some (req, q') /\
     r = (true, answer msg req) /\ l'.*2 = q' /\ holds w' i ch' l' /\ upd i ch l w ch' l' w' /\
     ch_seq_table ch' = <[Z.to_nat (m_seq_target req) := false]> (ch_seq_table ch)).

(** The external state when the list lock has been taken, and after an operation
    under that lock that makes no other external call. *)
Definition list_locked (i : Z) w : E := locked (mutex_id i) 1000 (w_ext w).
Definition list_lock_ext (i : Z) (e : E) : E :=
  k_mutex_unlock (mutex_id i) (locked (mutex_id i) 1000 e).

Lemma find_req_run_ext i ch l msg w :
  holds w i ch l ->
  wp (find_req_ipmi_msg (ch_P_start ch) msg i) (fun r w' => find_post i ch l msg w r w' /\
    (r.1 = true -> ~ lock_fails (mutex_id i) 1000 w /\
       w_ext w' = list_lock_ext i (w_ext w)) /\
    (lock_fails (mutex_id i) 1000 w -> w' = refused (mutex_id i) 1000 w)) w.
Proof.
  intros (Hi & Hch & Hok). pose proof (chan_tail_ok _ _ _ Hok) as Htl.
  destruct Htl as [Hp Hall]. unfold find_req_ipmi_msg.
  rewrite (proj2 (Z.eqb_neq _ 0) Hp). apply wp_bind, wp_lock_at.
  { intros r Hr Hf. rewrite (proj2 (Z.eqb_neq r 0) Hr). apply wp_ret. split; [|done].
    split; [done|]. left. split; [done|]. split; [by eexists|by left]. }
  intros Hfree. cbn [Z.eqb negb]. apply wp_bind, wp_gets, wp_bind.
  eapply wp_find_loop; [apply Hok|by split|by apply (chan_fuel w ch)|].
  pose proof (remove_first_split (req_matches msg) l) as Hrf.
  destruct (split_first (req_matches msg) l) as [[[l1 [a m]] l2]|] eqn:Hsp.
  - destruct (split_first_Some _ _ _ _ _ _ Hsp) as (-> & Hm & _).
    destruct (chan_nodes _ _ _ _ _ _ Hok) as (c & n & Hc & Hcn & Hn & Hnm & Ha0 & Has & Hal & Hsq).
    assert (Hl0 : last_addr (ch_P_start ch) l1 <> 0) by (by eapply last_addr_nonzero).
    rewrite (proj2 (Z.eqb_neq _ 0) Hl0). apply wp_bind, (wp_next _ c); [done|]. rewrite Hcn.
    rewrite (proj2 (Z.eqb_neq _ _) Has), (proj2 (Z.eqb_neq _ _) Ha0).
    apply wp_bind, (wp_deref _ n); [done|]. rewrite Hnm.
    apply wp_bind, (wp_unregister_seq _ _ ch); [done|done|done|by eapply chan_seq_lt|].
    apply wp_bind, (wp_set_next _ _ c); [done|].
    apply wp_bind, (wp_SAFE_FREE _ n); [done|wcbn; by rewrite lookup_insert_ne|].
    apply wp_bind. eapply wp_add_count; [done|by apply list_lookup_insert_eq, (in_channel w _ ch)|].
    apply wp_bind. eapply wp_unlock_ext; [reflexivity|]. apply wp_ret. split; [|done].
    split; [done|]. right. set (ch' := ch_set_seq_current_count _ _).
    exists m, ((l1 ++ l2).*2), ch', (l1 ++ l2). split; [exact Hrf|].
    split; [done|]. split; [done|]. set (w' := w_set_held _ _).
    destruct (unlink_done i w w' ch l1 a m l2 c n ch') as [H1 H2]; try done.
    + unfold w'. wcbn. by rewrite list_insert_insert_eq.
    + unfold ch'. ccbn. by rewrite length_insert.
  - rewrite (proj2 (Z.eqb_neq _ 0)); [|by eapply (last_addr_nonzero _ _ _ []); rewrite app_nil_r].
    destruct (chain_last _ _ _ _ (proj1 (co_ring _ _ _ Hok))) as (c & Hc & Hcn).
    apply wp_bind, (wp_next _ c); [done|]. rewrite Hcn, Z.eqb_refl.
    apply wp_bind. eapply wp_unlock_ext; [reflexivity|]. apply wp_ret. split; [|done].
    split; [done|]. left. split; [done|]. split; [by eexists|by right].
Qed.

Lemma find_req_run i ch l msg w :
  holds w i ch l ->
  wp (find_req_ipmi_msg (ch_P_start ch) msg i) (find_post i ch l msg w) w.
Proof. intros Hh. eapply wp_mono; [by apply find_req_run_ext|]. by intros r w' []. Qed.

(** One turn of a loop that unlinks: the code after a match in
    [clear_req_ipmi_msg] and the sweep. *)
Definition unlink_code (p n index : Z) (c : ipmi_msg_cfg) : ST (world E) unit :=
  do! set_next p (c_next c) in
  do! unregister_seq index (m_seq_target (c_buffer c)) in
  do! SAFE_FREE n in
  add_count index (-1).

Lemma wp_unlink_code i w ch l1 a m l2 c n Q :
  holds w i ch (l1 ++ (a, m) :: l2) ->
  w_heap w !! last_addr (ch_P_start ch) l1 = Some c -> w_heap w !! a = Some n -> c_buffer n = m ->
  (forall ch' w', holds w' i ch' (l1 ++ l2) -> upd i ch (l1 ++ (a, m) :: l2) w ch' (l1 ++ l2) w' ->
     ch_seq_table ch' = <[Z.to_nat (m_seq_target m) := false]> (ch_seq_table ch) ->
     w_held w' = w_held w -> w_ext w' = w_ext w -> Q tt w') ->
  wp (unlink_code (last_addr (ch_P_start ch) l1) a i n) Q w.
Proof.
  intros Hh Hc Hn Hnm HQ. pose proof Hh as (Hi & Hch & Hok).
  destruct (chan_nodes _ _ _ _ _ _ Hok) as (c0 & n0 & Hc0 & _ & Hn0 & _ & Ha0 & Has & Hal & Hsq).
  unfold unlink_code. rewrite Hnm. apply wp_bind, (wp_set_next _ _ c); [done|].
  apply wp_bind, (wp_unregister_seq _ _ ch); [done|done|done|by eapply chan_seq_lt|].
  apply wp_bind, (wp_SAFE_FREE _ n); [done|wcbn; by rewrite lookup_insert_ne|].
  eapply wp_add_count; [done|by apply list_lookup_insert_eq, (in_channel w _ ch)|].
  set (ch' := ch_set_seq_current_count _ _).
  edestruct (unlink_done i w (w_set_ch (<[Z.to_nat i:=ch']> (w_ch w))
    (w_set_heap (delete a (<[last_addr (ch_P_start ch) l1 := with_next (c_next n) c]>
       (w_heap w))) w)) ch l1 a m l2 c n ch') as [H1 H2]; try done.
  { unfold ch'. ccbn. by rewrite length_insert. }
  wcbn. rewrite list_insert_insert_eq. by apply (HQ ch').
Qed.

(** [clear_req_ipmi_msg]: the first matching request is dropped. *)
Definition clear_post (i : Z) (ch : channel) (l : list node) (msg : ipmi_msg) (w w' : world E)
    : Prop :=
  w_held w' = w_held w /\
  ((quiet w w' /\
      (lock_fails (mutex_id i) 1000 w \/ remove_first (clear_matches msg) l.*2 = None)) \/
   exists req q' ch' l', remove_first (clear_matches msg) l.*2 = Some (req, q') /\
     l'.*2 = q' /\ holds w' i ch' l' /\ upd i ch l w ch' l' w' /\
     ch_seq_table ch' = <[Z.to_nat (m_seq_target req) := false]> (ch_seq_table ch)).

Lemma clear_loop_run i ch l1 l2 fuel msg w :
  holds w i ch (l1 ++ l2) -> (length l2 < fuel)%nat ->
  wp (clear_loop fuel (last_addr (ch_P_start ch) l1) msg i)
    (fun _ w' => w_held w' = w_held w /\ w_ext w' = w_ext w /\
      match split_first (clear_matches msg) l2 with
      | None => w' = w
      | Some (k1, (a, req), k2) => exists ch',
          holds w' i ch' ((l1 ++ k1) ++ k2) /\ upd i ch (l1 ++ l2) w ch' ((l1 ++ k1) ++ k2) w' /\
          ch_seq_table ch' = <[Z.to_nat (m_seq_target req) := false]> (ch_seq_table ch)
      end) w.
Proof.
  revert l1 fuel. induction l2 as [|[a m] l2 IH]; intros l1 [|fuel] Hh Hf;
    cbn [length] in Hf; try lia; cbn [clear_loop split_first];
    pose proof Hh as (Hi & Hch & Hok).
  - rewrite app_nil_r in Hok. destruct (chain_last _ _ _ _ (proj1 (co_ring _ _ _ Hok)))
      as (c & Hc & Hcn).
    apply wp_bind, (wp_next _ c); [done|]. apply wp_bind, (wp_get_ch _ ch); [done..|].
    by rewrite Hcn, Z.eqb_refl.
  - destruct (chan_nodes _ _ _ _ _ _ Hok) as (c & n & Hc & Hcn & Hn & Hnm & Ha0 & Has & Hal & Hsq).
    apply wp_bind, (wp_next _ c); [done|]. apply wp_bind, (wp_get_ch _ ch); [done..|].
    rewrite Hcn, (proj2 (Z.eqb_neq _ _) Has). apply wp_bind, (wp_deref _ n); [done|].
    rewrite Hnm at 1. destruct (clear_matches msg m) eqn:Hm.
    + apply (wp_unlink_code i w ch l1 a m l2 c n); try done.
      intros ch' w' H1 H2 H3 H4 H5. split; [done|]. split; [done|].
      rewrite app_nil_r. by exists ch'.
    + replace a with (last_addr (ch_P_start ch) (l1 ++ [(a, m)])) at 1
        by apply last_addr_snoc.
      eapply wp_mono; [apply IH; [by rewrite <- app_assoc|lia]|].
      intros _ w' (? & ? & Hpost). split; [done|]. split; [done|]. cbn beta iota.
      destruct (split_first (clear_matches msg) l2) as [[[k1 [b k]] k2]|]; [|done].
      by rewrite <- !app_assoc in *.
Qed.

Lemma clear_req_run i ch l msg w :
  holds w i ch l ->
  wp (clear_req_ipmi_msg (ch_P_start ch) msg i) (fun _ w' => clear_post i ch l msg w w') w.
Proof.
  intros Hh. pose proof Hh as (Hi & Hch & Hok). destruct (chan_tail_ok _ _ _ Hok) as [Hp _].
  unfold clear_req_ipmi_msg. rewrite (proj2 (Z.eqb_neq _ 0) Hp). apply wp_bind, wp_lock.
  { intros r e Hr Hf. rewrite (proj2 (Z.eqb_neq r 0) Hr). apply wp_skip. split; [done|]. left.
    split; [by exists e|by left]. }
  intros e _. cbn [Z.eqb negb]. apply wp_bind, wp_gets, wp_bind.
  set (w1 := w_set_held _ _).
  eapply wp_mono; [apply (clear_loop_run i ch [] l); [done|by apply (chan_fuel w ch)]|].
  intros _ w' (Hheld & Hext & Hpost). eapply wp_unlock; [by rewrite Hheld|]. intros e'.
  split; [done|]. pose proof (remove_first_split (clear_matches msg) l) as Hrf.
  destruct (split_first (clear_matches msg) l) as [[[k1 [a req]] k2]|].
  - right. destruct Hpost as (ch' & Hh' & Hu & Ht).
    exists req, ((k1 ++ k2).*2), ch', (k1 ++ k2). split; [done|]. split; [done|].
    split; [exact Hh'|]. split; [|done]. by apply (upd_env w1 w w').
  - left. subst w'. split; [by exists e'|by right].
Qed.

(** Removing the oldest request. *)
Lemma evict_run i ch a m l w :
  holds w i ch ((a, m) :: l) ->
  wp (evict_first (ch_P_start ch) i)
    (fun b w' => b = true /\ w_held w' = w_held w /\ w_ext w' = w_ext w /\
       exists ch', holds w' i ch' l /\ upd i ch ((a, m) :: l) w ch' l w' /\
         ch_seq_table ch' = ch_seq_table ch) w.
Proof.
  intros Hh. pose proof Hh as (Hi & Hch & Hok).
  destruct (chan_nodes _ _ [] _ _ _ Hok) as (c & n & Hc & Hcn & Hn & _ & Ha0 & Has & Hal & _).
  change (last_addr (ch_P_start ch) []) with (ch_P_start ch) in Hc.
  unfold evict_first. apply wp_bind, (wp_next _ c); [done|].
  rewrite Hcn, (proj2 (Z.eqb_neq _ _) Ha0).
  apply wp_bind, (wp_next _ n); [done|]. apply wp_bind, (wp_set_next _ _ c); [done|].
  apply wp_bind, (wp_SAFE_FREE _ n); [done|wcbn; by rewrite lookup_insert_ne|].
  apply wp_bind. eapply wp_add_count; [done|done|]. apply wp_ret.
  set (ch' := ch_set_seq_current_count _ _). set (w' := w_set_ch _ _).
  destruct (unlink_done i w w' ch [] a m l c n ch') as [H1 H2]; try done.
  split; [done|]. split; [done|]. split; [done|]. by exists ch'.
Qed.

(** The part of [insert_req_ipmi_msg] after the room has been made. *)
Definition insert_code (ptr_start pnode : Z) (msg : ipmi_msg) (index : Z)
    : ST (world E) ipmi_msg :=
  let! node := malloc_node in
  do! set_next pnode node in
  if node =? 0 then do! unlock (mutex_id index) in ret msg
  else
    let! t := ext osKernelGetSysTimerCount in
    let msg := with_timestamp t msg in
    let! c := deref node in
    do! store node (with_buffer msg c) in
    do! register_seq index (m_seq_target msg) in
    do! set_next node ptr_start in
    do! add_count index 1 in
    do! unlock (mutex_id index) in
    ret msg.

(** The list with a new node [a] at its end. *)
Lemma append_ok h ch l c a m ch' :
  chan_ok h ch l -> Z.of_nat (length l) < MAX_SEQ_QUENE ->
  h !! last_addr (ch_P_start ch) l = Some c -> h !! a = None -> a <> 0 ->
  0 <= m_seq_target m < SEQ_NUM -> ch_P_start ch' = ch_P_start ch ->
  ch_seq_current_count ch' = u32 (ch_seq_current_count ch + 1) ->
  length (ch_seq_table ch') = length (ch_seq_table ch) ->
  forall r, chan_ok (<[a := mk_ipmi_msg_cfg m r (ch_P_start ch)]>
              (<[last_addr (ch_P_start ch) l := with_next a c]> h)) ch' (l ++ [(a, m)]).
Proof.
  intros [(Hch & Hnd & H0) Hcnt Hb Ht Hs Hnull] Hlt Hc Ha Ha0 Hsq Hst Hcnt' Ht' r.
  assert (Hfresh : a ∉ ch_P_start ch :: l.*1).
  { intros Hin. destruct (chain_dom _ _ _ _ _ Hch Hin) as [x Hx]. congruence. }
  split; rewrite ?Hst, ?length_app, ?fmap_app; cbn [length fmap list_fmap fst snd].
  - split; [|split].
    + apply chain_app. split; [|split].
      * eapply chain_frame; [|by eapply chain_retarget].
        intros x Hx. rewrite lookup_insert_ne; [done|]. by intros ->.
      * eexists. by rewrite lookup_insert_eq.
      * eexists. by rewrite lookup_insert_eq.
    + rewrite fmap_app. cbn [fmap list_fmap fst]. rewrite app_comm_cons. apply NoDup_app.
      split; [done|]. split; [|by apply NoDup_singleton].
      intros x Hx ->%list_elem_of_singleton. done.
    + rewrite fmap_app. cbn [fmap list_fmap fst]. rewrite app_comm_cons. intros Hin.
      apply elem_of_app in Hin as [|Heq%list_elem_of_singleton]; [done|congruence].
  - rewrite Hcnt', Hcnt. rewrite u32_small; [lia|]. unfold is_u32, MAX_SEQ_QUENE in *. lia.
  - lia.
  - by rewrite Ht'.
  - apply Forall_app. split; [done|]. by constructor.
  - rewrite lookup_insert_ne by done. by rewrite lookup_insert_ne by congruence.
Qed.

(** The list lost its end: the last node points to NULL. *)
Definition broken w (i : Z) (ch : channel) (l : list node) : Prop :=
  0 <= i /\ w_ch w !! Z.to_nat i = Some ch /\ chain (w_heap w) (ch_P_start ch) l 0 /\
  tail_ok (ch_P_start ch) (ch_P_start ch) l /\ NoDup (addrs ch l) /\ w_heap w !! 0 = None.

Definition inserted (i : Z) (ch : channel) (l : list node) (msg : ipmi_msg) w
    (r : ipmi_msg) w' : Prop :=
  exists t a ch', (exists live, (malloc live (w_ext w)).1 <> 0) /\ is_u32 t /\
    r = with_timestamp t msg /\ holds w' i ch' (l ++ [(a, r)]) /\
    upd i ch l w ch' (l ++ [(a, r)]) w' /\
    ch_seq_table ch' = <[Z.to_nat (m_seq_target msg) := true]> (ch_seq_table ch).

Lemma addrs_snoc ch ch' l a m x :
  ch_P_start ch' = ch_P_start ch -> x ∈ addrs ch' (l ++ [(a, m)]) <-> x ∈ addrs ch l \/ x = a.
Proof.
  intros Hst. unfold addrs. rewrite Hst, fmap_app. cbn [fmap list_fmap fst].
  rewrite !elem_of_cons, elem_of_app, list_elem_of_singleton. tauto.
Qed.

Lemma insert_code_run i ch l msg w held :
  holds w i ch l -> Z.of_nat (length l) < MAX_SEQ_QUENE -> 0 <= m_seq_target msg < SEQ_NUM ->
  w_held w = mutex_id i :: held ->
  wp (insert_code (ch_P_start ch) (last_addr (ch_P_start ch) l) msg i)
    (fun r w' => w_held w' = held /\
       (inserted i ch l msg w r w' \/
        (r = msg /\ (exists live, (malloc live (w_ext w)).1 = 0) /\ broken w' i ch l))) w.
Proof.
  intros Hh Hlt Hsq Hheld. pose proof Hh as (Hi & Hch & Hok).
  destruct (chain_last _ _ _ _ (proj1 (co_ring _ _ _ Hok))) as (c & Hc & Hcn).
  unfold insert_code. apply wp_bind, wp_malloc_node.
  - intros e Hm. apply wp_bind, (wp_set_next _ _ c); [done|]. cbn [Z.eqb].
    apply wp_bind. eapply wp_unlock; [wcbn; exact Hheld|]. intros e'. apply wp_ret.
    split; [done|]. right. split; [done|]. split; [by eexists|]. split; [done|]. split; [done|].
    split; [|split; [by eapply chan_tail_ok|split; [apply Hok|]]].
    + wcbn. eapply chain_retarget; [| |done]; apply Hok.
    + wcbn. rewrite lookup_insert_ne; [apply Hok|]. pose proof (co_null _ _ _ Hok). congruence.
  - intros a m0 e Ha0 Ha Hmal. assert (Hal : a <> last_addr (ch_P_start ch) l) by congruence.
    apply wp_bind, (wp_set_next _ _ c); [wcbn; by rewrite lookup_insert_ne|].
    rewrite (proj2 (Z.eqb_neq a 0)) by lia. apply wp_bind, wp_ext. intros t e' Ht.
    apply timer_is_u32 in Ht.
    apply wp_bind, (wp_deref _ (mk_ipmi_msg_cfg m0 0 0));
      [wcbn; by rewrite lookup_insert_ne, lookup_insert_eq|].
    apply wp_bind, (wp_store _ _ (mk_ipmi_msg_cfg m0 0 0));
      [wcbn; by rewrite lookup_insert_ne, lookup_insert_eq|].
    apply wp_bind, (wp_register_seq _ _ ch); [done|done|done|by eapply chan_seq_lt|].
    apply wp_bind. eapply wp_set_next; [wcbn; by rewrite lookup_insert_eq|].
    apply wp_bind. eapply wp_add_count; [done|by apply list_lookup_insert_eq, (in_channel w _ ch)|].
    apply wp_bind. eapply wp_unlock; [wcbn; exact Hheld|]. intros e''. apply wp_ret.
    split; [done|]. left. set (ch' := ch_set_seq_current_count _ _).
    exists t, a, ch'. split; [exists (dom (w_heap w)); lia|].
    split; [done|]. split; [done|]. set (w' := w_set_held _ _).
    set (h' := <[a := mk_ipmi_msg_cfg (with_timestamp t msg) 0 (ch_P_start ch)]>
              (<[last_addr (ch_P_start ch) l := with_next a c]> (w_heap w))).
    assert (Hheap : w_heap w' = h').
    { unfold w', h'. wcbn. rewrite insert_insert_eq, (insert_insert_ne (w_heap w)) by done.
      by rewrite insert_insert_eq. }
    assert (Hchs : w_ch w' = <[Z.to_nat i := ch']> (w_ch w)).
    { unfold w'. wcbn. by rewrite list_insert_insert_eq. }
    split; [|split; [|done]].
    + split; [done|]. rewrite Hheap, Hchs.
      split; [by apply list_lookup_insert_eq, (in_channel w _ ch)|].
      apply append_ok; try done; [lia|]. unfold ch'. ccbn. by rewrite length_insert.
    + split; try done.
      * intros x Hx Hx'. rewrite Hheap. unfold h'. rewrite !lookup_insert_ne; [done| |].
        -- intros <-. apply Hx, last_addr_elem.
        -- intros <-. apply Hx', (addrs_snoc ch); [done|by right].
      * intros x [Hx| ->]%(addrs_snoc ch); [by left|by right|done].
Qed.

(** Making room in a full list. *)
Definition make_room (q : list ipmi_msg) : list ipmi_msg :=
  if Z.of_nat (length q) =? MAX_SEQ_QUENE then tail q else q.

Lemma enqueue_room m q : enqueue m q = make_room q ++ [m].
Proof. done. Qed.

(** [insert_req_ipmi_msg]: without the lock nothing happens; without memory
    the list is left broken; otherwise the request is recorded. *)
Definition insert_post (i : Z) (ch : channel) (l : list node) (msg : ipmi_msg) w
    (r : ipmi_msg) w' : Prop :=
  w_held w' = w_held w /\
  ((lock_fails (mutex_id i) 1000 w /\ r = msg /\ quiet w w') \/
   (exists t ch' l', (exists live, (malloc live (list_locked i w)).1 <> 0) /\ is_u32 t /\
      r = with_timestamp t msg /\ holds w' i ch' l' /\ l'.*2 = enqueue r l.*2 /\ upd i ch l w ch' l' w' /\
      ch_seq_table ch' = <[Z.to_nat (m_seq_target msg) := true]> (ch_seq_table ch)) \/
   (r = msg /\ (exists live, (malloc live (list_locked i w)).1 = 0) /\
      exists ch' l', broken w' i ch' l' /\ ch_P_start ch' = ch_P_start ch /\
        l'.*2 = make_room l.*2)).

Lemma room_run i ch l w w1 :
  holds w1 i ch l ->
  w1 = w_set_held (mutex_id i :: w_held w) (w_set_ext (list_locked i w) w) ->
  wp (if Z.of_nat (length l) =? MAX_SEQ_QUENE then evict_first (ch_P_start ch) i else ret true)
    (fun b w2 => b = true /\ w_held w2 = mutex_id i :: w_held w /\ w_ext w2 = list_locked i w /\
       exists ch2 l2, holds w2 i ch2 l2 /\ upd i ch l w ch2 l2 w2 /\
         ch_seq_table ch2 = ch_seq_table ch /\ l2.*2 = make_room l.*2 /\
         ch_P_start ch2 = ch_P_start ch /\ Z.of_nat (length l2) < MAX_SEQ_QUENE /\
         (forall x, x ∈ addrs ch2 l2 -> x ∈ addrs ch l)) w1.
Proof.
  intros Hh ->. pose proof Hh as (Hi & Hch & Hok). set (w1 := w_set_held _ _) in *.
  unfold make_room. rewrite length_fmap. destruct (Z.eqb_spec (Z.of_nat (length l)) MAX_SEQ_QUENE)
      as [Hfull|Hroom].
  - destruct l as [|[a m] l]; [done|]. eapply wp_mono; [by apply evict_run|].
    intros b w2 (-> & Hheld & Hext & ch2 & Hh2 & Hu2 & Ht2). split; [done|].
    split; [by rewrite Hheld|]. split; [by rewrite Hext|].
    pose proof (up_head _ _ _ _ _ _ _ Hu2) as Hst. exists ch2, l. cbn [length] in Hfull. repeat (split; [done|]).
    split; [by apply (upd_env w1 w w2)|]. repeat (split; [done|]). split; [lia|].
    intros x Hx. by apply (unlink_addrs ch ch2 [] a m l).
  - apply wp_ret. split; [done|]. split; [done|]. split; [done|]. exists ch, l.
    repeat (split; [done|]).
    split; [|repeat (split; [done|]); split; [|done]; pose proof (co_bound _ _ _ Hok); lia].
    split; try done. { wcbn. by rewrite list_insert_id. } { by left. }
Qed.

Lemma insert_req_run i ch l msg w :
  holds w i ch l -> 0 <= m_seq_target msg < SEQ_NUM ->
  wp (insert_req_ipmi_msg (ch_P_start ch) msg i) (insert_post i ch l msg w) w.
Proof.
  intros Hh Hsq. pose proof Hh as (Hi & Hch & Hok). destruct (chan_tail_ok _ _ _ Hok) as [Hp _].
  unfold insert_req_ipmi_msg. rewrite (proj2 (Z.eqb_neq _ 0) Hp). apply wp_bind, wp_lock_at.
  { intros r Hr Hf. rewrite (proj2 (Z.eqb_neq r 0) Hr). apply wp_ret. split; [done|]. left.
    split; [done|]. split; [done|]. by eexists. }
  intros _. cbn [Z.eqb negb]. set (w1 := w_set_held _ _).
  apply wp_bind, (wp_get_ch _ ch); [done|done|]. apply wp_bind.
  rewrite (co_count _ _ _ Hok).
  eapply wp_mono; [by apply (room_run i ch l w w1)|].
  intros b w2 (-> & Hheld & Hext & ch2 & l2 & Hh2 & Hu & Ht & Hq & Hst & Hlt & Hsub).
  pose proof Hh2 as (_ & Hch2 & Hok2). cbn [negb]. apply wp_bind, wp_gets, wp_bind.
  rewrite <- Hst. eapply wp_walk_to_end; [apply Hok2|by eapply chan_tail_ok|
    by apply (chan_fuel w2 ch2)|].
  assert (Hl0 : last_addr (ch_P_start ch2) l2 <> 0)
    by (eapply (last_addr_nonzero _ _ _ []); by rewrite app_nil_r).
  rewrite (proj2 (Z.eqb_neq _ 0) Hl0).
  eapply wp_mono; [by apply (insert_code_run i ch2 l2 msg w2 (w_held w))|].
  unfold insert_post. rewrite <- Hext.
  intros r w3 [Hheld3 [Hins|(-> & Hm & Hbr)]]; (split; [done|]); right; [left|right].
  - destruct Hins as (t & a & ch3 & Hmal & Htu & -> & Hh3 & Hu3 & Ht3).
    exists t, ch3, (l2 ++ [(a, with_timestamp t msg)]). repeat (split; [done|]).
    split; [by rewrite enqueue_room, fmap_app, Hq|]. split; [by eapply upd_trans|].
    by rewrite Ht3, Ht.
  - split; [done|]. split; [done|]. by exists ch2, l2.
Qed.

(** * Sequence numbers *)

Lemma seq_succ c : 0 <= c -> Z.land (u8 (c + 1)) 0x3f = (c + 1) mod 64.
Proof.
  intros Hc. change 0x3f with (Z.ones 6). rewrite Z.land_ones by lia. unfold u8.
  change (2 ^ 8) with 256. change (2 ^ 6) with 64. Z.div_mod_to_equations. lia.
Qed.

(** All numbers from [c + 1] to [c + k], cyclically, are in use. *)
Definition used_after (c k : Z) (t : list bool) : Prop :=
  forall j, 0 < j <= k -> t !! Z.to_nat ((c + j) mod 64) = Some true.

Definition free_seq_post (i : Z) (ch : channel) w (s : Z) w' : Prop :=
  0 <= s < SEQ_NUM /\ w' = w_set_ch (<[Z.to_nat i := ch_set_current_seq s ch]> (w_ch w)) w /\
  (exists k, 0 < k <= SEQ_NUM /\ s = (ch_current_seq ch + k) mod 64 /\
     used_after (ch_current_seq ch) (k - 1) (ch_seq_table ch)) /\
  (ch_seq_table ch !! Z.to_nat s = Some false \/
   forall j, 0 <= j < SEQ_NUM -> ch_seq_table ch !! Z.to_nat j = Some true).

Lemma used_all c t : used_after c 64 t -> forall j, 0 <= j < 64 -> t !! Z.to_nat j = Some true.
Proof.
  intros Hu j Hj. destruct (Z.eq_dec ((j - c) mod 64) 0) as [Ez|Enz].
  - specialize (Hu 64 ltac:(lia)). replace ((c + 64) mod 64) with j in Hu; [done|].
    Z.div_mod_to_equations. lia.
  - pose proof (Z.mod_pos_bound (j - c) 64). specialize (Hu ((j - c) mod 64) ltac:(lia)).
    replace ((c + (j - c) mod 64) mod 64) with j in Hu; [done|]. Z.div_mod_to_equations. lia.
Qed.

Lemma get_free_seq_loop_run i ch fuel k w0 w :
  0 <= i -> w_ch w0 !! Z.to_nat i = Some ch -> is_u8 (ch_current_seq ch) ->
  length (ch_seq_table ch) = Z.to_nat SEQ_NUM -> k + Z.of_nat fuel = SEQ_NUM -> 0 <= k ->
  used_after (ch_current_seq ch) k (ch_seq_table ch) -> (0 < fuel)%nat ->
  (exists c, 0 <= c /\ c mod 64 = (ch_current_seq ch + k) mod 64 /\
     w = w_set_ch (<[Z.to_nat i := ch_set_current_seq c ch]> (w_ch w0)) w0) ->
  wp (get_free_seq_loop fuel i k)
     (fun _ w' => exists s, free_seq_post i ch w0 s w') w.
Proof.
  intros Hi Hch [Hc0 Hc1] Ht. revert k w. induction fuel as [|fuel IH]; intros k w Hk Hk0 Hu Hf
    (c & Hc & Hcm & ->); [lia|]. cbn [get_free_seq_loop].
  assert (Hin : forall x, (<[Z.to_nat i := x]> (w_ch w0)) !! Z.to_nat i = Some x)
    by (intros; by apply list_lookup_insert_eq, (in_channel w0 _ ch)).
  apply wp_bind. eapply wp_get_ch; [done|apply Hin|]. ccbn.
  apply wp_bind. eapply wp_set_ch; [done|apply Hin|]. wcbn.
  rewrite list_insert_insert_eq, seq_succ by done. ccbn.
  assert (Hs : (c + 1) mod 64 = (ch_current_seq ch + (k + 1)) mod 64)
    by (Z.div_mod_to_equations; lia).
  pose proof (Z.mod_pos_bound (c + 1) 64 ltac:(lia)) as Hsb. unfold SEQ_NUM in *.
  assert (Hnext : forall b, ch_seq_table ch !! Z.to_nat ((c + 1) mod 64) = Some b -> b = true ->
    used_after (ch_current_seq ch) (k + 1) (ch_seq_table ch)).
  { intros b Hb -> j Hj. destruct (Z.eq_dec j (k + 1)) as [->|]; [by rewrite <- Hs|].
    apply Hu. lia. }
  assert (Hpost : forall w', w' = w_set_ch (<[Z.to_nat i := ch_set_current_seq ((c + 1) mod 64) ch]>
      (w_ch w0)) w0 ->
    (ch_seq_table ch !! Z.to_nat ((c + 1) mod 64) = Some false \/
      forall j, 0 <= j < 64 -> ch_seq_table ch !! Z.to_nat j = Some true) ->
    exists s, free_seq_post i ch w0 s w').
  { intros w' -> Hor. exists ((c + 1) mod 64). split; [unfold SEQ_NUM; lia|]. split; [done|].
    split; [|done]. exists (k + 1). split; [unfold SEQ_NUM; lia|]. split; [done|].
    by replace (k + 1 - 1) with k by lia. }
  apply wp_bind, wp_lift, rwp_arr_get; [rewrite Ht; lia|]. intros b Hb.
  destruct b; cbn [negb].
  - rewrite u8_small by (unfold is_u8; lia). specialize (Hnext true Hb eq_refl).
    destruct (Z.eqb_spec (k + 1) 64) as [E64|E64].
    + apply wp_skip, Hpost; [done|]. right. rewrite E64 in Hnext. by apply (used_all (ch_current_seq ch)).
    + apply IH; [lia|lia|done|lia|]. exists ((c + 1) mod 64). split; [lia|]. split; [|done].
      rewrite Z.mod_mod by lia. done.
  - apply wp_skip, Hpost; [done|by left].
Qed.

Lemma get_free_seq_run i ch w :
  0 <= i -> w_ch w !! Z.to_nat i = Some ch -> is_u8 (ch_current_seq ch) ->
  length (ch_seq_table ch) = Z.to_nat SEQ_NUM ->
  wp (get_free_seq i) (free_seq_post i ch w) w.
Proof.
  intros Hi Hch Hc Ht. apply wp_bind. eapply wp_mono.
  - eapply (get_free_seq_loop_run i ch _ 0 w); try done.
    + intros j Hj. lia.
    + unfold SEQ_NUM. lia.
    + exists (ch_current_seq ch). split; [apply Hc|]. rewrite Z.add_0_r. split; [done|].
      replace (ch_set_current_seq (ch_current_seq ch) ch) with ch by (by destruct ch).
      rewrite list_insert_id by done. by destruct w.
  - intros _ w' (s & Hs). pose proof Hs as (_ & -> & _). apply wp_bind.
    eapply wp_get_ch; [done|by apply list_lookup_insert_eq, (in_channel w _ ch)|].
    by apply wp_ret.
Qed.

(** * The timeout sweep *)

Definition release (t : list bool) (ms : list ipmi_msg) : list bool :=
  foldl (fun t m => <[Z.to_nat (m_seq_target m) := false]> t) t ms.

(** A request of time [timestamp] is over the age limit at the clock value
    [t]: its age, which wraps around at 2^32, is above 3000 ms of the system
    clock or has its sign bit set. *)
Definition aged (t tick_fix freq timestamp : Z) : Prop :=
  let age := (t + tick_fix - timestamp) mod 2 ^ 32 in (3 * freq) mod 2 ^ 32 < age \/ 2 ^ 31 <= age.

Lemma sign_bit x : is_u32 x -> z2b (Z.land x 0x80000000) = (2 ^ 31 <=? x).
Proof.
  intros Hx. unfold z2b. replace (Z.land x 0x80000000) with (if 2 ^ 31 <=? x then 0x80000000 else 0).
  { by destruct (2 ^ 31 <=? x). }
  change 0x80000000 with (2 ^ 31). assert (Z.testbit x 31 = (2 ^ 31 <=? x)) as Hb.
  { rewrite Z.testbit_odd, Z.shiftr_div_pow2 by lia. unfold is_u32 in Hx.
    destruct (Z.leb_spec (2 ^ 31) x).
    - by replace (x / 2 ^ 31) with 1 by (Z.div_mod_to_equations; lia).
    - by rewrite Z.div_small by lia. }
  apply Z.bits_inj. intros j. rewrite Z.land_spec. destruct (Z_lt_ge_dec j 0).
  { by rewrite !Z.testbit_neg_r by done. }
  rewrite Z.pow2_bits_eqb by lia. rewrite <- Hb. destruct (Z.eqb_spec 31 j) as [<-|Hj].
  - rewrite andb_true_r. destruct (Z.testbit x 31); [apply Z.pow2_bits_true; lia|apply Z.bits_0].
  - rewrite andb_false_r. destruct (Z.testbit x 31); [apply Z.pow2_bits_false; lia|apply Z.bits_0].
Qed.

Lemma seq_expired_aged t tick_fix freq timestamp :
  seq_expired t tick_fix freq timestamp = true <-> aged t tick_fix freq timestamp.
Proof.
  unfold seq_expired, aged. rewrite sign_bit by apply u32_range.
  rewrite orb_true_iff, Z.gtb_ltb, Z.ltb_lt, Z.leb_le. done.
Qed.

(** One sweep of a list of requests, those before and those behind the
    position, from the external state [e]: [kept] stay and [gone] are removed.
    The clock is read for every request that is looked at.  The request behind
    a removed one is not looked at; after the removal of the last one the
    sweep starts again at the first. *)
Inductive sweeps (tick_fix freq : Z) :
    list ipmi_msg -> list ipmi_msg -> E -> list ipmi_msg -> list ipmi_msg -> E -> Prop :=
| sweeps_end l e : sweeps tick_fix freq l [] e l [] e
| sweeps_keep l1 m l2 e t e1 kept gone e2 :
    osKernelGetSysTimerCount e = (t, e1) ->
    ~ aged t tick_fix freq (m_timestamp m) ->
    sweeps tick_fix freq (l1 ++ [m]) l2 e1 kept gone e2 ->
    sweeps tick_fix freq l1 (m :: l2) e kept gone e2
| sweeps_drop l1 m b l2 e t e1 kept gone e2 :
    osKernelGetSysTimerCount e = (t, e1) ->
    aged t tick_fix freq (m_timestamp m) ->
    sweeps tick_fix freq (l1 ++ [b]) l2 e1 kept gone e2 ->
    sweeps tick_fix freq l1 (m :: b :: l2) e kept (m :: gone) e2
| sweeps_drop_last l1 m e t e1 kept gone e2 :
    osKernelGetSysTimerCount e = (t, e1) ->
    aged t tick_fix freq (m_timestamp m) ->
    sweeps tick_fix freq [] l1 e1 kept gone e2 ->
    sweeps tick_fix freq l1 [m] e kept (m :: gone) e2.

Definition swept (i : Z) (ch : channel) (l1 l2 : list node) (e : E) w w' : Prop :=
  exists ch' l' gone, holds w' i ch' l' /\ upd i ch (l1 ++ l2) w ch' l' w' /\
    l' `sublist_of` l1 ++ l2 /\ (l1 ++ l2).*2 ≡ₚ gone ++ l'.*2 /\
    sweeps (w_tick_fix w) (w_freq w) l1.*2 l2.*2 e l'.*2 gone (w_ext w') /\
    ch_seq_table ch' = release (ch_seq_table ch) gone /\
    (forall x, x ∈ addrs ch' l' -> x ∈ addrs ch (l1 ++ l2)).

Lemma swept_refl i ch l w : holds w i ch l -> swept i ch l [] (w_ext w) w w.
Proof.
  intros Hh. exists ch, l, []. rewrite app_nil_r. split; [exact Hh|].
  split; [|repeat (split; [done|]); split; [constructor|done]]. destruct Hh as (Hi & Hch & _).
  split; try done; [|by left]. by rewrite list_insert_id.
Qed.

(** The request [m] is removed and the sweep goes on with [k1] and [k2]. *)
Lemma swept_step i ch l1 a m l2 k1 k2 e e1 w ch' w' w'' :
  k1 ++ k2 = l1 ++ l2 -> upd i ch (l1 ++ (a, m) :: l2) w ch' (l1 ++ l2) w' ->
  (forall kept gone e2, sweeps (w_tick_fix w) (w_freq w) k1.*2 k2.*2 e1 kept gone e2 ->
     sweeps (w_tick_fix w) (w_freq w) l1.*2 (m :: l2.*2) e kept (m :: gone) e2) ->
  ch_seq_table ch' = <[Z.to_nat (m_seq_target m) := false]> (ch_seq_table ch) ->
  swept i ch' k1 k2 e1 w' w'' -> swept i ch l1 ((a, m) :: l2) e w w''.
Proof.
  intros Hk Hu Hstep Ht (ch2 & l' & gone & Hh & Hu2 & Hsub & Hp & Hsw & Ht2 & Hin).
  rewrite Hk in Hu2, Hsub, Hp, Hin.
  assert (Hin1 : forall x, x ∈ addrs ch' (l1 ++ l2) -> x ∈ addrs ch (l1 ++ (a, m) :: l2)).
  { intros x. apply unlink_addrs, Hu. }
  exists ch2, l', (m :: gone). split; [done|]. split; [by eapply upd_trans|].
  split; [|split; [|split; [|split]]].
  - etrans; [exact Hsub|]. apply sublist_app; [done|]. by apply sublist_cons.
  - rewrite fmap_app in *. cbn [fmap list_fmap snd app] in *. rewrite <- Hp.
    symmetry. apply Permutation_middle.
  - apply Hstep. destruct (up_globals _ _ _ _ _ _ _ Hu) as [_ _ <- <- _ _ _]. done.
  - by rewrite Ht2, Ht.
  - auto.
Qed.

Lemma swept_env e0 i ch l1 l2 e w w' : swept i ch l1 l2 e (w_set_ext e0 w) w' -> swept i ch l1 l2 e w w'.
Proof.
  intros (ch' & l' & gone & Hh & Hu & Hrest). exists ch', l', gone. split; [done|].
  split; [|done]. by apply (upd_env (w_set_ext e0 w) w w' w').
Qed.

(** The node the walk looks at next. *)
Lemma wp_next_after i ch l1 l2 w Q :
  holds w i ch (l1 ++ l2) ->
  Q (match l2 with (a, _) :: _ => a | [] => ch_P_start ch end) w ->
  wp (next (last_addr (ch_P_start ch) l1)) Q w.
Proof.
  intros (_ & _ & Hok) HQ. destruct l2 as [|[a m] l2].
  - rewrite app_nil_r in Hok. destruct (chain_last _ _ _ _ (proj1 (co_ring _ _ _ Hok)))
      as (c & Hc & Hcn).
    apply (wp_next _ c); [done|]. by rewrite Hcn.
  - destruct (chan_nodes _ _ _ _ _ _ Hok) as (c & n & Hc & Hcn & _).
    apply (wp_next _ c); [done|]. by rewrite Hcn.
Qed.

Lemma cons_snoc_app {A} (l1 : list A) x l2 : l1 ++ x :: l2 = (l1 ++ [x]) ++ l2.
Proof. by rewrite <- app_assoc. Qed.

(** The work left: [n] nodes in the list, [k] of them after the pointer. *)
Definition sweep_bound (n k : nat) : nat := n * n + k + 1.

Lemma sweep_loop_run i n : forall ch l1 l2 fuel w,
  length (l1 ++ l2) = n -> holds w i ch (l1 ++ l2) ->
  (sweep_bound (length (l1 ++ l2)) (length l2) <= fuel)%nat ->
  wp (sweep_loop fuel i (last_addr (ch_P_start ch) l1))
    (fun _ w' => w_held w' = w_held w /\ swept i ch l1 l2 (w_ext w) w w') w.
Proof.
  induction n as [n IHn] using lt_wf_ind. intros ch l1 l2. revert l1.
  induction l2 as [|[a m] l2 IH]; intros l1 [|fuel] w Hlen Hh Hf;
    unfold sweep_bound in Hf; try lia; cbn [sweep_loop]; pose proof Hh as (Hi & Hch & Hok).
  { rewrite app_nil_r in *. destruct (chain_last _ _ _ _ (proj1 (co_ring _ _ _ Hok)))
      as (c & Hc & Hcn).
    apply wp_bind, (wp_next _ c); [done|]. apply wp_bind, (wp_get_ch _ ch); [done..|].
    rewrite Hcn, Z.eqb_refl. apply wp_skip. split; [done|]. by apply swept_refl. }
  destruct (chan_nodes _ _ _ _ _ _ Hok) as (c & nd & Hc & Hcn & Hn & Hnm & Ha0 & Has & Hal & Hsq).
  rewrite length_app in *. cbn [length] in *.
  apply wp_bind, (wp_next _ c); [done|]. apply wp_bind, (wp_get_ch _ ch); [done..|].
  rewrite Hcn, (proj2 (Z.eqb_neq _ _) Has).
  apply wp_bind, wp_ext. intros t e Ht. apply wp_bind, wp_gets.
  apply wp_bind, (wp_deref _ nd); [done|]. rewrite Hnm at 1. unfold id. wcbn.
  set (w1 := w_set_ext e w). change (holds w1 i ch (l1 ++ (a, m) :: l2)) in Hh.
  pose proof (seq_expired_aged t (w_tick_fix w) (w_freq w) (m_timestamp m)) as Hage.
  destruct (seq_expired t (w_tick_fix w) (w_freq w) (m_timestamp m)).
  - apply wp_bind, (wp_unlink_code i w1 ch l1 a m l2 c nd); try done.
    intros ch' w2 Hh2 Hu2 Ht2 Hheld2 Hext2. apply wp_bind.
    rewrite <- (up_head _ _ _ _ _ _ _ Hu2). apply (wp_next_after i ch' l1 l2); [done|].
    destruct l2 as [|[b k] l2].
    + rewrite app_nil_r in Hh2. change (ch_P_start ch') with (last_addr (ch_P_start ch') []).
      eapply wp_mono; [apply (IHn (length l1) ltac:(cbn [length] in *; lia) ch' [] l1); [done|done|]|].
      { cbn [app length] in *. unfold sweep_bound. nia. }
      intros _ w' [Hw' Hs]. split; [by rewrite Hw', Hheld2|]. apply (swept_env e).
      eapply (swept_step i ch l1 a m [] [] l1); [by rewrite app_nil_r|exact Hu2| |exact Ht2|exact Hs].
      intros kept gone e2 Hsw. rewrite Hext2 in Hsw. eapply sweeps_drop_last; [done|by apply Hage|done].
    + rewrite (cons_snoc_app l1 (b, k) l2) in Hh2.
      replace (sweep_loop fuel i b) with
        (sweep_loop fuel i (last_addr (ch_P_start ch') (l1 ++ [(b, k)])))
        by (by rewrite last_addr_snoc).
      eapply wp_mono; [eapply IHn; [|reflexivity|done|]|];
        rewrite ?length_app; cbn [length] in *; [lia|unfold sweep_bound; nia|].
      intros _ w' [Hw' Hs]. split; [by rewrite Hw', Hheld2|]. apply (swept_env e).
      eapply (swept_step i ch l1 a m ((b, k) :: l2) (l1 ++ [(b, k)]) l2);
        [by rewrite <- app_assoc|exact Hu2| |exact Ht2|exact Hs].
      intros kept gone e2 Hsw. rewrite Hext2, fmap_app in Hsw. eapply sweeps_drop; [done|by apply Hage|done].
  - apply wp_bind, wp_skip, wp_bind, (wp_next_after i ch l1 ((a, m) :: l2)); [done|].
    replace (sweep_loop fuel i a) with
      (sweep_loop fuel i (last_addr (ch_P_start ch) (l1 ++ [(a, m)])))
      by (by rewrite last_addr_snoc).
    rewrite (cons_snoc_app l1 (a, m) l2) in Hh.
    eapply wp_mono; [apply IH; [|exact Hh|]|].
    + rewrite !length_app. cbn [length]. lia.
    + rewrite !length_app. cbn [length]. unfold sweep_bound. lia.
    + intros _ w' [Hw' Hs]. split; [done|]. apply (swept_env e) in Hs.
      destruct Hs as (ch' & l' & gone & Hs). rewrite <- cons_snoc_app in Hs.
      exists ch', l', gone. destruct Hs as (H1 & H2 & H3 & H4 & Hsw & H5).
      repeat (split; [done|]). split; [|done]. rewrite fmap_app in Hsw. eapply sweeps_keep; [done|by rewrite <- Hage|done].
Qed.

(** One index of the sweep: disabled or locked it does nothing. *)
Lemma sweep_index_run i ch l cfg w :
  holds w i ch l -> w_table w !! Z.to_nat i = Some cfg ->
  wp (sweep_index i) (fun _ w' => w_held w' = w_held w /\
     ((cfg_enable_status cfg = false /\ w' = w) \/
      (cfg_enable_status cfg = true /\ lock_fails (mutex_id i) 1000 w /\ w' = refused (mutex_id i) 1000 w) \/
      (cfg_enable_status cfg = true /\ ~ lock_fails (mutex_id i) 1000 w /\
       exists w1, swept i ch [] l (list_locked i w) w w1 /\
         w' = w_set_held (w_held w) (w_set_ext (k_mutex_unlock (mutex_id i) (w_ext w1)) w1)))) w.
Proof.
  intros Hh Hcfg. pose proof Hh as (Hi & Hch & Hok).
  apply wp_bind, (wp_get_cfg _ cfg); [done..|].
  destruct (cfg_enable_status cfg); cbn [negb].
  2: { apply wp_skip. split; [done|]. by left. }
  apply wp_bind, wp_lock_at.
  { intros r Hr Hf. rewrite (proj2 (Z.eqb_neq r 0) Hr). apply wp_skip. split; [done|]. right. left.
    by split; [|split]. }
  intros Hfree. cbn [Z.eqb negb]. set (w1 := w_set_held _ _).
  apply wp_bind, (wp_get_ch _ ch); [done..|]. apply wp_bind, wp_gets, wp_bind.
  eapply wp_mono; [apply (sweep_loop_run i _ ch [] l _ w1 eq_refl Hh)|].
  - cbn [app]. pose proof (chan_fuel w ch l Hok). unfold sweep_bound.
    change (walk_fuel (id w1)) with (walk_fuel w). nia.
  - intros _ w' [Hheld Hs]. eapply wp_unlock_ext; [by rewrite Hheld|]. split; [done|].
    right. right. split; [done|]. split; [done|]. exists w'. split; [|done].
    destruct Hs as (ch' & l' & gone & Hh' & Hu & Hrest).
    exists ch', l', gone. split; [exact Hh'|]. split; [|done]. by apply (upd_env w1 w w').
Qed.
End Refinement.
