(* ===== verification/IpmbSeqSpec.v ===== *)
(** What the request lists of [ipmb/ipmb.c] guarantee to the threads that
    share them: the invariant of all channels together, its preservation by
    every interleaving of the locked operations, the refinement of each
    operation to the abstract queue, and the two ways the code leaves the
    specification (eviction keeps the sequence number, a failed allocation
    breaks the list). *)

From S2P Require Import Prelude IpmiDefs World IpmbSeq.

(** * All channels *)

(** Every channel is either not initialised or holds its list, and no node
    belongs to two lists. *)
Record world_ok {E} (w : world E) (Ls : list (list (Z * ipmi_msg))) : Prop := {
  wo_length : length Ls = length (w_ch w);
  wo_chan : forall i ch l, w_ch w !! i = Some ch -> Ls !! i = Some l ->
    (ch_P_start ch = 0 /\ l = []) \/ chan_ok (w_heap w) ch l;
  wo_disjoint : forall i j ci cj li lj x, i <> j ->
    w_ch w !! i = Some ci -> Ls !! i = Some li -> w_ch w !! j = Some cj -> Ls !! j = Some lj ->
    x ∈ addrs ci li -> x ∈ addrs cj lj -> x = 0;
}.

Lemma chan_ok_frame h h' ch l :
  (forall x, x ∈ addrs ch l -> h' !! x = h !! x) -> h' !! 0 = None -> chan_ok h ch l ->
  chan_ok h' ch l.
Proof.
  intros Hf Hn [(Hch & Hnd & H0) ? ? ? ? ?]. split; try done. split; [|done].
  by apply (chain_frame h).
Qed.

Lemma chan_ok_live h ch l x : chan_ok h ch l -> x ∈ addrs ch l -> is_Some (h !! x) /\ x <> 0.
Proof.
  intros [(Hch & Hnd & H0) _ _ _ _ _] Hx. split; [by eapply chain_dom|]. by intros ->.
Qed.

Section WorldOk.
Context {E : Type} `{Kernel E}.
Implicit Types w : world E.

Lemma world_ok_holds w Ls i ch l :
  world_ok w Ls -> 0 <= i -> w_ch w !! Z.to_nat i = Some ch -> Ls !! Z.to_nat i = Some l ->
  ch_P_start ch <> 0 -> holds w i ch l.
Proof.
  intros Hw Hi Hch Hl Hp. split; [done|]. split; [done|].
  destruct (wo_chan _ _ Hw _ _ _ Hch Hl) as [[? _]|]; done.
Qed.

(** A quiet step keeps the invariant. *)
Lemma world_ok_quiet w w' Ls : world_ok w Ls -> quiet w w' -> world_ok w' Ls.
Proof. intros [H1 H2 H3] [e ->]. by split. Qed.

(** An update of one channel keeps the invariant of all. *)
Lemma world_ok_upd w w' Ls i ch l ch' l' :
  world_ok w Ls -> Ls !! Z.to_nat i = Some l -> holds w i ch l -> holds w' i ch' l' ->
  upd i ch l w ch' l' w' -> world_ok w' (<[Z.to_nat i := l']> Ls).
Proof.
  intros Hw Hl (Hi & Hch & Hok) (_ & Hch' & Hok') Hu.
  pose proof (up_ch _ _ _ _ _ _ _ Hu) as Hchs.
  assert (Hlen : (Z.to_nat i < length (w_ch w))%nat) by (by eapply lookup_lt_Some).
  assert (Hother : forall j cj lj x, j <> Z.to_nat i -> w_ch w !! j = Some cj -> Ls !! j = Some lj ->
    x ∈ addrs cj lj -> x ∈ addrs ch' l' -> x = 0).
  { intros j cj lj x Hj Hcj Hlj Hx Hx'. destruct (up_new _ _ _ _ _ _ _ Hu x Hx') as [Hin|Hnone].
    - by apply (wo_disjoint _ _ Hw j (Z.to_nat i) cj ch lj l x).
    - destruct (wo_chan _ _ Hw _ _ _ Hcj Hlj) as [[Hp ->]|Hcok].
      + unfold addrs in Hx. rewrite Hp in Hx. by apply list_elem_of_singleton in Hx.
      + destruct (chan_ok_live _ _ _ _ Hcok Hx) as [[y Hy] _]. congruence. }
  split.
  - rewrite length_insert, Hchs, length_insert. apply Hw.
  - intros j cj lj Hcj Hlj. rewrite Hchs in Hcj. destruct (decide (j = Z.to_nat i)) as [->|Hj].
    + rewrite list_lookup_insert_eq in Hcj by done.
      rewrite list_lookup_insert_eq in Hlj by (by rewrite (wo_length _ _ Hw)).
      simplify_eq. by right.
    + rewrite list_lookup_insert_ne in Hcj by done.
      rewrite list_lookup_insert_ne in Hlj by done.
      destruct (wo_chan _ _ Hw _ _ _ Hcj Hlj) as [?|Hcok]; [by left|right].
      apply (chan_ok_frame (w_heap w)); [|apply Hok'|done]. intros x Hx.
      destruct (chan_ok_live _ _ _ _ Hcok Hx) as [_ Hx0].
      apply (up_frame _ _ _ _ _ _ _ Hu).
      * intros Hin. apply Hx0. by apply (wo_disjoint _ _ Hw j (Z.to_nat i) cj ch lj l x).
      * intros Hin. apply Hx0. by apply (Hother j cj lj).
  - intros j k cj ck lj lk x Hjk Hcj Hlj Hck Hlk Hxj Hxk. rewrite Hchs in Hcj, Hck.
    destruct (decide (j = Z.to_nat i)) as [->|Hj]; [|destruct (decide (k = Z.to_nat i)) as [->|Hk]].
    + rewrite list_lookup_insert_eq in Hcj by done.
      rewrite list_lookup_insert_eq in Hlj by (by rewrite (wo_length _ _ Hw)).
      rewrite list_lookup_insert_ne in Hck by done.
      rewrite list_lookup_insert_ne in Hlk by done. simplify_eq.
      by apply (Hother k ck lk).
    + rewrite list_lookup_insert_eq in Hck by done.
      rewrite list_lookup_insert_eq in Hlk by (by rewrite (wo_length _ _ Hw)).
      rewrite list_lookup_insert_ne in Hcj by done.
      rewrite list_lookup_insert_ne in Hlj by done. simplify_eq.
      by apply (Hother j cj lj).
    + rewrite list_lookup_insert_ne in Hcj, Hck by done.
      rewrite list_lookup_insert_ne in Hlj, Hlk by done.
      by apply (wo_disjoint _ _ Hw j k cj ck lj lk x).
Qed.

(** Setting the sequence counter touches no list. *)
Lemma world_ok_cur w Ls i ch s :
  world_ok w Ls -> w_ch w !! i = Some ch ->
  world_ok (w_set_ch (<[i := ch_set_current_seq s ch]> (w_ch w)) w) Ls.
Proof.
  intros Hw Hch. assert (Hlook : forall j cj, <[i := ch_set_current_seq s ch]> (w_ch w) !! j = Some cj ->
    exists c0, w_ch w !! j = Some c0 /\ ch_P_start cj = ch_P_start c0 /\
      forall l, chan_ok (w_heap w) c0 l -> chan_ok (w_heap w) cj l).
  { intros j cj Hj. destruct (decide (j = i)) as [->|Hji].
    - rewrite list_lookup_insert_eq in Hj by (by eapply lookup_lt_Some). injection Hj as <-.
      exists ch. split; [done|]. split; [done|]. intros l []. by split.
    - rewrite list_lookup_insert_ne in Hj by done. by exists cj. }
  split; wcbn.
  - rewrite length_insert. apply Hw.
  - intros j cj l (c0 & Hc0 & Hp & Hok)%Hlook Hl. rewrite Hp.
    destruct (wo_chan _ _ Hw _ _ _ Hc0 Hl); [by left|right; auto].
  - intros j k cj ck lj lk x Hjk (c0 & Hc0 & Hp0 & _)%Hlook Hlj (c1 & Hc1 & Hp1 & _)%Hlook Hlk.
    unfold addrs. rewrite Hp0, Hp1. by apply (wo_disjoint _ _ Hw j k).
Qed.

(** * Interleavings *)

(** [malloc] has memory at the moment [insert_req_ipmi_msg] calls it, that is,
    after it has taken the list lock. *)
Definition allocates (i : Z) w : Prop := forall live, (malloc live (list_locked i w)).1 <> 0.

(** One locked operation of some thread, or a step of the outside world.  An
    insertion whose allocation fails is not one of these steps: it breaks the
    list ([malloc_failure_breaks_list] below). *)
Inductive seq_step : world E -> world E -> Prop :=
| step_insert w i ch msg r w' :
    0 <= i -> w_ch w !! Z.to_nat i = Some ch -> ch_P_start ch <> 0 ->
    0 <= m_seq_target msg < SEQ_NUM -> allocates i w ->
    insert_req_ipmi_msg (ch_P_start ch) msg i w = Ret (r, w') -> seq_step w w'
| step_find w i ch msg r w' :
    0 <= i -> w_ch w !! Z.to_nat i = Some ch -> ch_P_start ch <> 0 ->
    find_req_ipmi_msg (ch_P_start ch) msg i w = Ret (r, w') -> seq_step w w'
| step_clear w i ch msg r w' :
    0 <= i -> w_ch w !! Z.to_nat i = Some ch -> ch_P_start ch <> 0 ->
    clear_req_ipmi_msg (ch_P_start ch) msg i w = Ret (r, w') -> seq_step w w'
| step_sweep w i ch cfg r w' :
    0 <= i -> w_ch w !! Z.to_nat i = Some ch -> ch_P_start ch <> 0 ->
    w_table w !! Z.to_nat i = Some cfg ->
    sweep_index i w = Ret (r, w') -> seq_step w w'
| step_get_free w i ch s w' :
    0 <= i -> w_ch w !! Z.to_nat i = Some ch -> ch_P_start ch <> 0 -> is_u8 (ch_current_seq ch) ->
    get_free_seq i w = Ret (s, w') -> seq_step w w'
| step_outside w w' : quiet w w' -> seq_step w w'.

Lemma wp_Ret_inv {A} (c : ST (world E) A) Q w a w' :
  wp c Q w -> c w = Ret (a, w') -> Q a w'.
Proof. unfold wp. intros Hw Hc. by rewrite Hc in Hw. Qed.

Lemma seq_step_ok w w' Ls :
  world_ok w Ls -> seq_step w w' ->
  (exists Ls', world_ok w' Ls') /\ w_held w' = w_held w.
Proof.
  intros Hw Hs.
  assert (Hl : forall i ch, 0 <= i -> w_ch w !! Z.to_nat i = Some ch -> ch_P_start ch <> 0 ->
    exists l, Ls !! Z.to_nat i = Some l /\ holds w i ch l).
  { intros i ch Hi Hch Hp. destruct (lookup_lt_is_Some_2 Ls (Z.to_nat i)) as [l Hl].
    { rewrite (wo_length _ _ Hw). by eapply lookup_lt_Some. }
    exists l. split; [done|]. by eapply world_ok_holds. }
  destruct Hs as [w i ch msg r w' Hi Hch Hp Hseq Hmem Hop|w i ch msg r w' Hi Hch Hp Hop
    |w i ch msg r w' Hi Hch Hp Hop|w i ch cfg r w' Hi Hch Hp Hcfg Hop
    |w i ch s w' Hi Hch Hp Hcur Hop|w w' Hq];
    try (destruct (Hl _ _ Hi Hch Hp) as (l & HLs & Hh)).
  - destruct (wp_Ret_inv _ _ _ _ _ (insert_req_run i ch l msg w Hh Hseq) Hop)
      as [Hheld [(_ & _ & Hq)|[(t & ch' & l' & _ & _ & _ & Hh' & _ & Hu & _)|(_ & (lv & Hm) & _)]]].
    + split; [|done]. exists Ls. by eapply world_ok_quiet.
    + split; [|done]. eexists. by eapply world_ok_upd.
    + by destruct (Hmem lv).
  - destruct (wp_Ret_inv _ _ _ _ _ (find_req_run i ch l msg w Hh) Hop)
      as [Hheld [(_ & Hq & _)|(req & q' & ch' & l' & _ & _ & _ & Hh' & Hu & _)]];
      (split; [|done]).
    + exists Ls. by eapply world_ok_quiet.
    + eexists. by eapply world_ok_upd.
  - destruct (wp_Ret_inv _ _ _ _ _ (clear_req_run i ch l msg w Hh) Hop)
      as [Hheld [(Hq & _)|(req & q' & ch' & l' & _ & _ & Hh' & Hu & _)]]; (split; [|done]).
    + exists Ls. by eapply world_ok_quiet.
    + eexists. by eapply world_ok_upd.
  - destruct (wp_Ret_inv _ _ _ _ _ (sweep_index_run i ch l cfg w Hh Hcfg) Hop)
      as [Hheld [(_ & ->)|[(_ & _ & Hq)|(_ & _ & w1 & (ch' & l' & gone & Hh' & Hu & _) & ->)]]];
      (split; [|done]).
    + by exists Ls.
    + exists Ls. rewrite Hq. eapply world_ok_quiet; [done|by eexists].
    + eexists. eapply (world_ok_upd w _ Ls i ch l ch' l'); try done. by apply (upd_env w w w1).
  - assert (Ht : length (ch_seq_table ch) = Z.to_nat SEQ_NUM) by apply Hh.
    destruct (wp_Ret_inv _ _ _ _ _ (get_free_seq_run i ch w Hi Hch Hcur Ht) Hop) as (_ & -> & _).
    split; [|done]. exists Ls. by apply world_ok_cur.
  - split; [|by destruct Hq as [e ->]]. exists Ls. by eapply world_ok_quiet.
Qed.

Lemma seq_steps_ok w w' Ls :
  world_ok w Ls -> rtc seq_step w w' ->
  (exists Ls', world_ok w' Ls') /\ w_held w' = w_held w.
Proof.
  intros Hw Hs. revert Ls Hw. induction Hs as [w|w w1 w' H1 Hs IH]; intros Ls Hw; [by eauto|].
  destruct (seq_step_ok _ _ _ Hw H1) as [[Ls1 Hw1] Hh1].
  destruct (IH _ Hw1) as [HLs ->]. done.
Qed.
End WorldOk.

(** * A world for the witnesses *)

(** Request number 5 for command 1 came from the BMC channel. *)
Definition req5 : ipmi_msg :=
  with_netfn NETFN_APP_REQ (with_cmd 0x01 (with_seq_target 5 (with_seq 5
    (with_seq_source 9 (with_InF_source BMC_IPMB zero_msg))))).
Definition resp5 : ipmi_msg :=
  with_netfn (NETFN_APP_REQ + 1) (with_cmd 0x01 (with_seq_target 5 zero_msg)).

Definition power0 : power := mk_power false false false false false true false false.

Definition chan1 : channel :=
  mk_channel 1 1 5 (<[5%nat := true]> (replicate 64 false)) false true true.
Definition heap1 : gmap Z ipmi_msg_cfg :=
  {[ 1 := mk_ipmi_msg_cfg zero_msg 0 2; 2 := mk_ipmi_msg_cfg req5 0 1 ]}.
Definition world1 (s : sim) : world sim :=
  mk_world heap1 [chan1] [mk_IPMB_config 0 I2C_IF BMC_IPMB 1 0x20 true 0x40]
    (replicate 97 0) 1 1000 true [] power0 0 s.
Definition list1 : list (Z * ipmi_msg) := [(2, req5)].

Lemma chan_ok1 : chan_ok heap1 chan1 list1.
Proof.
  split; try done.
  - split; [|split].
    + repeat split; eexists; (split; [reflexivity|]); reflexivity.
    + by apply (bool_decide_unpack _); vm_compute.
    + by apply (bool_decide_unpack _); vm_compute.
  - repeat constructor; done.
Qed.

Lemma world_ok1 s : world_ok (world1 s) [list1].
Proof.
  split.
  - done.
  - intros [|i] ch l; [|done]. cbn. intros [= <-] [= <-]. right. apply chan_ok1.
  - intros [|i] [|j] ci cj li lj x Hij; done.
Qed.

Lemma holds1 s : holds (world1 s) 0 chan1 list1.
Proof. split; [done|]. split; [done|]. apply chan_ok1. Qed.

(** * The operations against the abstract queue *)

Section Theorems.
Context {E : Type} `{Kernel E}.
Implicit Types w : world E.

(** What an operation on index [i] leaves: the other channels as they were,
    list [l'] on index [i], and the locks it found. *)
Definition leaves w (Ls : list (list (Z * ipmi_msg))) (i : Z) w' (ch' : channel)
    (l' : list (Z * ipmi_msg)) : Prop :=
  w_ch w' !! Z.to_nat i = Some ch' /\ world_ok w' (<[Z.to_nat i := l']> Ls) /\
  same_globals w w'.

Lemma leaves_intro w Ls i ch l w' ch' l' :
  world_ok w Ls -> Ls !! Z.to_nat i = Some l -> holds w i ch l -> holds w' i ch' l' ->
  upd i ch l w ch' l' w' -> leaves w Ls i w' ch' l'.
Proof.
  intros Hw Hl Hh Hh' Hu. split; [apply Hh'|]. split; [by eapply world_ok_upd|]. apply Hu.
Qed.

(** C20: [find_req_ipmi_msg] on a consistent world: if no recorded request
    answers to the response, it returns false and changes nothing; otherwise
    it returns true, gives the response the sequence number and interfaces
    of the oldest matching request, removes exactly that request, frees its
    sequence number, keeps all other channels, and releases the lock. *)
Theorem find_req_refines w Ls i ch l msg :
  world_ok w Ls -> 0 <= i -> w_ch w !! Z.to_nat i = Some ch -> Ls !! Z.to_nat i = Some l ->
  ch_P_start ch <> 0 -> ~ lock_fails (mutex_id i) 1000 w ->
  wp (find_req_ipmi_msg (ch_P_start ch) msg i) (fun r w' => w_held w' = w_held w /\
    match remove_first (req_matches msg) l.*2 with
    | None => r = (false, msg) /\ quiet w w'
    | Some (req, q') => r = (true, answer msg req) /\ exists ch' l',
        leaves w Ls i w' ch' l' /\ l'.*2 = q' /\
        ch_seq_table ch' = <[Z.to_nat (m_seq_target req) := false]> (ch_seq_table ch)
    end) w.
Proof.
  intros Hw Hi Hch Hl Hp Hlock. assert (Hh : holds w i ch l) by (by eapply world_ok_holds).
  eapply wp_mono; [by apply find_req_run|].
  intros r w' [Hheld [(-> & Hq & [?| ->])|(req & q' & ch' & l' & -> & -> & Hq & Hh' & Hu & Ht)]];
    [done|done|].
  split; [done|]. split; [done|]. exists ch', l'. split; [by eapply leaves_intro|done].
Qed.

(** C23: [insert_req_ipmi_msg] on a consistent world appends the stamped
    request to the queue of its index, dropping the oldest one when fifteen
    are outstanding, marks its sequence number used, keeps all other
    channels and releases the lock; the only other outcomes are a lock that
    was not obtained (no change) and a failure of the allocation it makes. *)
Theorem insert_req_refines w Ls i ch l msg :
  world_ok w Ls -> 0 <= i -> w_ch w !! Z.to_nat i = Some ch -> Ls !! Z.to_nat i = Some l ->
  ch_P_start ch <> 0 -> 0 <= m_seq_target msg < SEQ_NUM ->
  wp (insert_req_ipmi_msg (ch_P_start ch) msg i) (fun r w' => w_held w' = w_held w /\
    ((lock_fails (mutex_id i) 1000 w /\ r = msg /\ quiet w w') \/
     (r = msg /\ exists live, (malloc live (list_locked i w)).1 = 0) \/
     (exists t ch' l', is_u32 t /\ r = with_timestamp t msg /\ leaves w Ls i w' ch' l' /\
        l'.*2 = enqueue r l.*2 /\
        ch_seq_table ch' = <[Z.to_nat (m_seq_target msg) := true]> (ch_seq_table ch)))) w.
Proof.
  intros Hw Hi Hch Hl Hp Hs. assert (Hh : holds w i ch l) by (by eapply world_ok_holds).
  eapply wp_mono; [by apply insert_req_run|].
  intros r w' [Hheld [?|[(t & ch' & l' & _ & Ht & -> & Hh' & Hq & Hu & Htab)|(-> & Hm & _)]]];
    (split; [done|]); [by left| |right; left; by split].
  right. right. exists t, ch', l'. split; [done|]. split; [done|].
  split; [by eapply leaves_intro|done].
Qed.

(** [clear_req_ipmi_msg] drops the oldest request with the same network
    function, command and sequence number and frees its number, or changes
    nothing. *)
Theorem clear_req_refines w Ls i ch l msg :
  world_ok w Ls -> 0 <= i -> w_ch w !! Z.to_nat i = Some ch -> Ls !! Z.to_nat i = Some l ->
  ch_P_start ch <> 0 -> ~ lock_fails (mutex_id i) 1000 w ->
  wp (clear_req_ipmi_msg (ch_P_start ch) msg i) (fun _ w' => w_held w' = w_held w /\
    match remove_first (clear_matches msg) l.*2 with
    | None => quiet w w'
    | Some (req, q') => exists ch' l', leaves w Ls i w' ch' l' /\ l'.*2 = q' /\
        ch_seq_table ch' = <[Z.to_nat (m_seq_target req) := false]> (ch_seq_table ch)
    end) w.
Proof.
  intros Hw Hi Hch Hl Hp Hlock. assert (Hh : holds w i ch l) by (by eapply world_ok_holds).
  eapply wp_mono; [by apply clear_req_run|].
  intros r w' [Hheld [(Hq & [?| ->])|(req & q' & ch' & l' & -> & Hq & Hh' & Hu & Ht)]];
    [done|done|].
  split; [done|]. exists ch', l'. split; [by eapply leaves_intro|done].
Qed.

(** C38: the timeout sweep of an enabled index terminates, although it starts
    again at the head after removing the last node.  With the list lock it
    leaves exactly the requests that [sweeps], the sweep of the abstract
    queue, leaves with the clock readings it makes: those that stay keep
    their order, the others were [aged] at their reading, and
    exactly their numbers are freed.  When the lock is refused nothing else
    happens, and a disabled index is not touched. *)
Theorem sweep_refines w Ls i ch l cfg :
  world_ok w Ls -> 0 <= i -> w_ch w !! Z.to_nat i = Some ch -> Ls !! Z.to_nat i = Some l ->
  ch_P_start ch <> 0 -> w_table w !! Z.to_nat i = Some cfg ->
  wp (sweep_index i) (fun _ w' => w_held w' = w_held w /\
    if cfg_enable_status cfg then
      (lock_fails (mutex_id i) 1000 w /\ w' = refused (mutex_id i) 1000 w) \/
      (~ lock_fails (mutex_id i) 1000 w /\ exists ch' l' gone e,
         leaves w Ls i w' ch' l' /\ l' `sublist_of` l /\ l.*2 ≡ₚ gone ++ l'.*2 /\
         sweeps (w_tick_fix w) (w_freq w) [] l.*2 (list_locked i w) l'.*2 gone e /\
         ch_seq_table ch' = release (ch_seq_table ch) gone /\
         w_ext w' = k_mutex_unlock (mutex_id i) e)
    else w' = w) w.
Proof.
  intros Hw Hi Hch Hl Hp Hcfg. assert (Hh : holds w i ch l) by (by eapply world_ok_holds).
  eapply wp_mono; [by apply sweep_index_run|].
  intros _ w' [Hheld [[-> ->]|[(-> & Hf & Hq)|(-> & Hf & w1 & Hs & ->)]]]; (split; [done|]);
    [done|by left|right].
  split; [done|]. destruct Hs as (ch' & l' & gone & Hh' & Hu & Hs & Hperm & Hsw & Ht & _).
  exists ch', l', gone, (w_ext w1). split; [|done].
  apply (leaves_intro w Ls i ch l); try done. by apply (upd_env w w w1).
Qed.

(** [get_free_seq] always terminates; it returns the first number after
    the current one, cyclically, that is not in use, and makes it the
    current one; only when all 64 are in use is the result not free. *)
Theorem get_free_seq_spec w i ch :
  0 <= i -> w_ch w !! Z.to_nat i = Some ch -> is_u8 (ch_current_seq ch) ->
  length (ch_seq_table ch) = Z.to_nat SEQ_NUM ->
  wp (get_free_seq i) (fun s w' => 0 <= s < SEQ_NUM /\
    w' = w_set_ch (<[Z.to_nat i := ch_set_current_seq s ch]> (w_ch w)) w /\
    (exists k, 0 < k <= SEQ_NUM /\ s = (ch_current_seq ch + k) mod 64 /\
       used_after (ch_current_seq ch) (k - 1) (ch_seq_table ch)) /\
    (ch_seq_table ch !! Z.to_nat s = Some false \/
     forall j, 0 <= j < SEQ_NUM -> ch_seq_table ch !! Z.to_nat j = Some true)) w.
Proof. intros Hi Hch Hc Ht. by apply get_free_seq_run. Qed.

(** C1: whatever interleaving of the locked operations and of the outside
    world has run in which no insertion was refused its memory, the lists
    stay circular, disjoint and within fifteen requests, no lock stays taken,
    and every further operation on an initialised index is defined and
    terminates, also an insertion that is refused its memory. *)
Theorem reachable_safe w w' Ls :
  world_ok w Ls -> rtc seq_step w w' ->
  w_held w' = w_held w /\ exists Ls', world_ok w' Ls' /\
  forall i ch msg cfg, 0 <= i -> w_ch w' !! Z.to_nat i = Some ch -> ch_P_start ch <> 0 ->
    w_table w' !! Z.to_nat i = Some cfg ->
    (exists r, find_req_ipmi_msg (ch_P_start ch) msg i w' = Ret r) /\
    (exists r, clear_req_ipmi_msg (ch_P_start ch) msg i w' = Ret r) /\
    (exists r, sweep_index i w' = Ret r) /\
    (0 <= m_seq_target msg < SEQ_NUM ->
       exists r, insert_req_ipmi_msg (ch_P_start ch) msg i w' = Ret r).
Proof.
  intros Hw Hs. destruct (seq_steps_ok _ _ _ Hw Hs) as [[Ls' Hw'] Hheld].
  split; [done|]. exists Ls'. split; [done|]. intros i ch msg cfg Hi Hch Hp Hcfg.
  destruct (lookup_lt_is_Some_2 Ls' (Z.to_nat i)) as [l Hl].
  { rewrite (wo_length _ _ Hw'). by eapply lookup_lt_Some. }
  assert (Hh : holds w' i ch l) by (by eapply world_ok_holds).
  split; [|split; [|split]].
  - destruct (wp_inv _ _ _ (find_req_run i ch l msg w' Hh)) as (? & ? & -> & _). eauto.
  - destruct (wp_inv _ _ _ (clear_req_run i ch l msg w' Hh)) as (? & ? & -> & _). eauto.
  - destruct (wp_inv _ _ _ (sweep_index_run i ch l cfg w' Hh Hcfg)) as (? & ? & -> & _). eauto.
  - intros Hsq. destruct (wp_inv _ _ _ (insert_req_run i ch l msg w' Hh Hsq)) as (? & ? & -> & _).
    eauto.
Qed.
End Theorems.

Lemma find_req_refines_witness :
  wp (find_req_ipmi_msg 1 resp5 0)
    (fun r w' => r = (true, answer resp5 req5) /\ m_seq_source r.2 = 9 /\
       world_ok w' [[]]) (world1 sim0).
Proof.
  eapply wp_mono;
    [apply (find_req_refines (world1 sim0) [list1] 0 chan1 list1 resp5); try done|].
  - apply world_ok1.
  - unfold lock_fails. vm_compute. by intros [].
  - intros r w' [_ [-> (ch' & l' & (_ & Hw & _) & Hl & _)]]. split; [done|]. split; [done|].
    destruct l'; [done|]. discriminate Hl.
Defined.

Lemma insert_req_refines_witness :
  wp (insert_req_ipmi_msg 1 (with_seq_target 6 req5) 0)
    (fun r w' => w_held w' = [] /\ r = with_timestamp 7 (with_seq_target 6 req5))
    (world1 (mk_sim false false 0 7 [] [] [] [] [])).
Proof.
  set (w := world1 _).
  assert (Hwp := insert_req_refines w [list1] 0 chan1 list1 (with_seq_target 6 req5)
    (world_ok1 _) ltac:(lia) eq_refl eq_refl ltac:(done) ltac:(done)).
  apply wp_inv in Hwp as (r & w' & Hrun & Hheld & _).
  apply (wp_of_eq _ _ _ _ _ Hrun). split; [exact Hheld|].
  assert (Hr : exists w'', insert_req_ipmi_msg 1 (with_seq_target 6 req5) 0 w =
    Ret (with_timestamp 7 (with_seq_target 6 req5), w'')) by (eexists; vm_compute; reflexivity).
  destruct Hr as [w'' Hr]. change (ch_P_start chan1) with 1 in Hrun. rewrite Hr in Hrun.
  by injection Hrun as <- _.
Defined.

Lemma clear_req_refines_witness :
  wp (clear_req_ipmi_msg 1 req5 0) (fun _ w' => world_ok w' [[]]) (world1 sim0).
Proof.
  eapply wp_mono;
    [apply (clear_req_refines (world1 sim0) [list1] 0 chan1 list1 req5); try done|].
  - apply world_ok1.
  - unfold lock_fails. vm_compute. by intros [].
  - intros r w' [_ (ch' & l' & (_ & Hw & _) & Hl & _)]. destruct l'; [done|]. discriminate Hl.
Defined.

(** The request of [world1] is much older than the limit. *)
Lemma sweep_refines_witness :
  wp (sweep_index 0) (fun _ w' => w_held w' = [] /\ world_ok w' [[]])
    (world1 (mk_sim false false 0 100000 [] [] [] [] [])).
Proof.
  set (s := mk_sim _ _ _ _ _ _ _ _ _).
  eapply wp_mono; [eapply (sweep_refines (world1 s) [list1] 0 chan1 list1); try done|].
  - apply world_ok1.
  - intros _ w' [Hh Hs]. split; [exact Hh|].
    destruct Hs as [[Hf _]|(_ & ch' & l' & gone & e & (_ & Hw & _) & _ & _ & Hsw & _)];
      [by vm_compute in Hf|].
    assert (Hl : l'.*2 = []).
    { inversion Hsw as [|? ? ? ? ? ? ? ? ? Hc Hex|? ? ? ? ? ? ? ? ? ? Hc Hex|? ? ? ? ? ? ? ? Hc Hex Hr];
        subst; [vm_compute in Hc; injection Hc as <- <-; by destruct Hex; left|].
      by inversion Hr. }
    by destruct l'.
Defined.

Lemma get_free_seq_spec_witness :
  wp (get_free_seq 0) (fun s w' => 0 <= s < 64) (world1 sim0).
Proof.
  eapply wp_mono; [apply (get_free_seq_spec (world1 sim0) 0 chan1); done|].
  by intros s w' [? _].
Defined.

Lemma rich_malloc live e : (@malloc sim rich_kernel live e).1 <> 0.
Proof.
  simpl. assert (H0 : forall l, 0 <= foldr Z.max 0 l) by
    (induction l; simpl; lia).
  specialize (H0 (elements live)). lia.
Qed.

Lemma reachable_safe_witness :
  exists r w' r', @insert_req_ipmi_msg sim rich_kernel 1 (with_seq_target 6 req5) 0 (world1 sim0) =
      Ret (r, w') /\ @find_req_ipmi_msg sim rich_kernel 1 resp5 0 w' = Ret r'.
Proof.
  assert (Hrun : exists r w', @insert_req_ipmi_msg sim rich_kernel 1 (with_seq_target 6 req5) 0
    (world1 sim0) = Ret (r, w')) by (eexists _, _; vm_compute; reflexivity).
  destruct Hrun as (r & w' & Hrun). exists r, w'.
  destruct (@reachable_safe sim rich_kernel (world1 sim0) w' [list1]
    (world_ok1 sim0)) as (_ & Ls' & _ & Hsafe).
  - apply rtc_once. apply (@step_insert sim rich_kernel (world1 sim0) 0 chan1 (with_seq_target 6 req5) r);
      try done. intros live. apply rich_malloc.
  - assert (Hch : exists ch cfg, w_ch w' !! 0%nat = Some ch /\ ch_P_start ch = 1 /\
      w_table w' !! 0%nat = Some cfg).
    { vm_compute in Hrun. injection Hrun as _ <-. eexists _, _. by vm_compute. }
    destruct Hch as (ch & cfg & Hch & Hp & Hcfg).
    destruct (Hsafe 0 ch resp5 cfg ltac:(lia) Hch ltac:(by rewrite Hp) Hcfg) as [[r' Hr'] _].
    rewrite Hp in Hr'. by exists r'.
Defined.

(** * Sequence numbers in use *)

(** The requests have different numbers and each of them is marked used. *)
Definition tracked (t : list bool) (q : list ipmi_msg) : Prop :=
  NoDup (m_seq_target <$> q) /\
  Forall (fun m => 0 <= m_seq_target m < SEQ_NUM /\
            t !! Z.to_nat (m_seq_target m) = Some true) q.

Lemma remove_first_perm f q m q' : remove_first f q = Some (m, q') -> q ≡ₚ m :: q' /\ f m = true.
Proof.
  revert q'. induction q as [|x q IH]; intros q'; simpl; [done|].
  destruct (f x) eqn:Hx; [by intros [= -> ->]|].
  destruct (remove_first f q) as [[y r]|] eqn:Hr; [|done]. intros [= -> <-].
  destruct (IH r eq_refl) as [Hp Hm]. split; [|done]. rewrite Hp. constructor.
Qed.

Lemma tracked_perm t q q' : q ≡ₚ q' -> tracked t q -> tracked t q'.
Proof. intros Hp [Hn Hf]. split; by rewrite <- Hp. Qed.

Lemma tracked_drop t m q :
  tracked t (m :: q) -> tracked (<[Z.to_nat (m_seq_target m) := false]> t) q.
Proof.
  intros [Hn Hf]. cbn [fmap list_fmap] in Hn. apply NoDup_cons in Hn as [Hm Hn].
  apply Forall_cons in Hf as [[Hr _] Hf]. split; [done|]. apply Forall_forall. intros x Hx.
  rewrite Forall_forall in Hf. destruct (Hf x Hx) as [Hrx Htx]. split; [done|].
  rewrite list_lookup_insert_ne; [done|]. intros Heq. apply Hm.
  apply list_elem_of_fmap. exists x. split; [|done]. lia.
Qed.

Lemma tracked_release t gone q : tracked t (gone ++ q) -> tracked (release t gone) q.
Proof.
  revert t. induction gone as [|m gone IH]; intros t; [done|]. intros Ht.
  cbn [release foldl]. by apply IH, tracked_drop.
Qed.

Lemma tracked_add t m q :
  tracked t q -> 0 <= m_seq_target m < SEQ_NUM -> t !! Z.to_nat (m_seq_target m) = Some false ->
  tracked (<[Z.to_nat (m_seq_target m) := true]> t) (q ++ [m]).
Proof.
  intros [Hn Hf] Hr Hm. rewrite Forall_forall in Hf. split.
  - rewrite fmap_app. apply NoDup_app. split; [done|]. split; [|by apply NoDup_singleton].
    intros s Hs Heq%list_elem_of_singleton. apply list_elem_of_fmap in Hs as (x & -> & Hx).
    destruct (Hf x Hx) as [_ Hx2]. rewrite Heq in Hx2. congruence.
  - apply Forall_app. split.
    + apply Forall_forall. intros x Hx. destruct (Hf x Hx) as [Hrx Htx]. split; [done|].
      rewrite list_lookup_insert_ne; [done|]. intros Heq. congruence.
    + constructor; [|constructor]. split; [done|].
      apply list_lookup_insert_eq. by eapply lookup_lt_Some.
Qed.

Lemma tracked_tail t q : tracked t q -> tracked t (tail q).
Proof.
  intros [Hn Hf]. destruct q as [|m q]; [done|]. cbn [tail]. cbn [fmap list_fmap] in Hn.
  apply NoDup_cons in Hn as [_ ?]. apply Forall_cons in Hf as [_ ?]. done.
Qed.

(** The outstanding requests of index [i] are tracked. *)
Definition still_tracked {E} (i : Z) (w : world E) : Prop :=
  exists ch l, w_ch w !! Z.to_nat i = Some ch /\ chan_ok (w_heap w) ch l /\
    tracked (ch_seq_table ch) l.*2.

Section SeqTracking.
Context {E : Type} `{Kernel E}.
Implicit Types w : world E.

(** The sequence table tracks the outstanding requests: as long as a
    request is inserted under a number that is free, every outstanding
    request keeps a number of its own that is marked used, through
    insertion, matching, clearing and the sweep; a number handed out by
    [get_free_seq] therefore never belongs to an outstanding request. *)
Theorem seq_numbers_unique w i ch l :
  holds w i ch l -> tracked (ch_seq_table ch) l.*2 ->
  (forall msg, wp (find_req_ipmi_msg (ch_P_start ch) msg i) (fun _ => still_tracked i) w) /\
  (forall msg, wp (clear_req_ipmi_msg (ch_P_start ch) msg i) (fun _ => still_tracked i) w) /\
  (forall cfg, w_table w !! Z.to_nat i = Some cfg ->
     wp (sweep_index i) (fun _ => still_tracked i) w) /\
  (forall msg, allocates i w -> 0 <= m_seq_target msg < SEQ_NUM ->
     ch_seq_table ch !! Z.to_nat (m_seq_target msg) = Some false ->
     wp (insert_req_ipmi_msg (ch_P_start ch) msg i) (fun _ => still_tracked i) w).
Proof.
  intros Hh Ht. pose proof Hh as (Hi & Hch & Hok).
  assert (Hq : forall w', quiet w w' -> still_tracked i w').
  { intros w' [e ->]. by exists ch, l. }
  assert (Hdrop : forall f m q' t', remove_first f l.*2 = Some (m, q') ->
    t' = <[Z.to_nat (m_seq_target m) := false]> (ch_seq_table ch) -> tracked t' q').
  { intros f m q' t' Hr ->. apply remove_first_perm in Hr as [Hp _].
    apply tracked_drop. by eapply tracked_perm. }
  split; [|split; [|split]].
  - intros msg. eapply wp_mono; [by apply find_req_run|].
    intros r w' [_ [(_ & Hqu & _)|(m & q' & ch' & l' & Hr & _ & <- & (_ & Hc' & Hok') & _ & Ht')]];
      [by apply Hq|]. exists ch', l'. eauto.
  - intros msg. eapply wp_mono; [by apply clear_req_run|].
    intros r w' [_ [(Hqu & _)|(m & q' & ch' & l' & Hr & <- & (_ & Hc' & Hok') & _ & Ht')]];
      [by apply Hq|]. exists ch', l'. eauto.
  - intros cfg Hcfg. eapply wp_mono; [by apply (sweep_index_run i ch l cfg)|].
    intros r w' [_ [(_ & ->)|[(_ & _ & Hqu)|(_ & _ & w1 & Hs & ->)]]];
      [by exists ch, l|apply Hq; rewrite Hqu; by eexists|].
    destruct Hs as (ch' & l' & gone & (_ & Hc' & Hok') & _ & _ & Hp & _ & Ht' & _). exists ch', l'. split; [done|]. split; [done|]. rewrite Ht'.
    apply tracked_release. by eapply tracked_perm.
  - intros msg Hm Hr Hfree. eapply wp_mono; [by apply insert_req_run|].
    intros r w' [_ [(_ & _ & Hqu)|[(t & ch' & l' & _ & _ & -> & (_ & Hc' & Hok') & Hl' & _ & Ht')
      |(_ & (lv & Hme) & _)]]]; [by apply Hq| |by destruct (Hm lv)].
    exists ch', l'. split; [done|]. split; [done|]. rewrite Ht', Hl'. unfold enqueue.
    change (m_seq_target msg) with (m_seq_target (with_timestamp t msg)).
    apply tracked_add; [|done|done]. case_match; [by apply tracked_tail|done].
Qed.

(** The eviction of the oldest request does not free its number: after
    a sixteenth request has been recorded the evicted request is gone but
    its number is still marked used, so no operation on the list will ever
    free it again. *)
Theorem eviction_leaks_seq w i ch a m l msg :
  holds w i ch ((a, m) :: l) -> length l = 14%nat -> tracked (ch_seq_table ch) (m :: l.*2) ->
  allocates i w -> ~ lock_fails (mutex_id i) 1000 w ->
  0 <= m_seq_target msg < SEQ_NUM -> m_seq_target msg <> m_seq_target m ->
  wp (insert_req_ipmi_msg (ch_P_start ch) msg i) (fun r w' => exists ch' l',
    holds w' i ch' l' /\ l'.*2 = l.*2 ++ [r] /\
    ch_seq_table ch' !! Z.to_nat (m_seq_target m) = Some true /\
    Forall (fun x => m_seq_target x <> m_seq_target m) l'.*2) w.
Proof.
  intros Hh Hlen [Hn Hf] Hm Hlock Hr Hne.
  cbn [fmap list_fmap] in Hn. apply NoDup_cons in Hn as [Hnm _].
  apply Forall_cons in Hf as [[Hrm Htm] _].
  eapply wp_mono; [by apply insert_req_run|].
  intros r w' [_ [(? & _)|[(t & ch' & l' & _ & _ & -> & Hh' & Hl' & _ & Ht')|(_ & (lv & Hme) & _)]]];
    [done| |by destruct (Hm lv)].
  unfold enqueue in Hl'. cbn [fmap list_fmap snd length] in Hl'.
  rewrite (length_fmap snd l), Hlen in Hl'. change (Z.of_nat 15 =? MAX_SEQ_QUENE) with true in Hl'.
  cbn [tail] in Hl'. exists ch', l'. split; [done|]. split; [done|]. split.
  - rewrite Ht', list_lookup_insert_ne; [done|]. lia.
  - rewrite Hl'. apply Forall_app. split; [|by constructor]. apply Forall_forall. intros x Hx Heq.
    apply Hnm. apply list_elem_of_fmap. exists x. by split.
Qed.

(** * A failed allocation *)

Lemma bind_Ret {A B} (c : ST (world E) A) (k : A -> ST (world E) B) w a w' :
  c w = Ret (a, w') -> bind c k w = k a w'.
Proof. unfold bind. by intros ->. Qed.

Lemma wp_run_eq {A} (c : ST (world E) A) w a w' :
  wp c (fun r w'' => r = a /\ w'' = w') w -> c w = Ret (a, w').
Proof. intros (r & w'' & Hr & -> & ->)%wp_inv. done. Qed.

Lemma find_loop_broken s l fuel p msg w :
  chain (w_heap w) p l 0 -> tail_ok s p l -> s <> 0 -> w_heap w !! 0 = None ->
  (length l < fuel)%nat -> split_first (req_matches msg) l = None ->
  find_loop fuel s p msg w = UB.
Proof.
  intros Hc Ht Hs Hn. revert fuel p Hc Ht.
  induction l as [|[a m] l IH]; intros [|fuel] p Hc [Hp Ht] Hf Hsp; cbn [length] in Hf; try lia;
    cbn [find_loop]; rewrite (proj2 (Z.eqb_neq p 0) Hp).
  - destruct Hc as (c & Hc & Hcn).
    assert (Hrun : next p w = Ret (0, w)) by (by apply wp_run_eq, (wp_next _ c)).
    rewrite (bind_Ret _ _ _ _ _ Hrun), (proj2 (Z.eqb_neq 0 s)) by done.
    unfold deref, bind at 1. unfold bind, gets. cbn [rbind]. by rewrite Hn.
  - destruct Hc as ((c & Hc & Hcn) & (c' & Hc' & Hm) & Hl). cbn [split_first] in Hsp.
    destruct (req_matches msg m) eqn:Hmm; [done|].
    destruct (split_first (req_matches msg) l) as [[[? ?] ?]|] eqn:Hsl; [done|].
    apply Forall_cons in Ht as [[Ha Has] Ht]. simpl in Ha, Has.
    assert (Hrun : next p w = Ret (a, w)) by (by apply wp_run_eq, (wp_next _ c)).
    rewrite (bind_Ret _ _ _ _ _ Hrun), (proj2 (Z.eqb_neq a s)) by done.
    assert (Hrun2 : deref a w = Ret (c', w)) by (by apply wp_run_eq, (wp_deref _ c')).
    rewrite (bind_Ret _ _ _ _ _ Hrun2), Hm, Hmm. apply IH; done || by split || lia.
Qed.

Lemma lock_free_run m ms w :
  ~ lock_fails m ms w -> exists e, lock m ms w = Ret (0, w_set_held (m :: w_held w) (w_set_ext e w)).
Proof.
  intros Hl. assert (Hwp : wp (lock m ms) (fun r w' => exists e, r = 0 /\
    w' = w_set_held (m :: w_held w) (w_set_ext e w)) w).
  { apply wp_lock; [by intros r e _ ?|]. intros e _. by exists e. }
  apply wp_inv in Hwp as (r & w' & Hr & e & -> & ->). eauto.
Qed.

Lemma split_first_all f (l : list (Z * ipmi_msg)) :
  Forall (fun q => f q = false) l.*2 -> split_first f l = None.
Proof.
  induction l as [|[a m] l IH]; [done|]. cbn [fmap list_fmap snd split_first].
  intros [-> Hl]%Forall_cons. by rewrite (IH Hl).
Qed.

(** A failed allocation in [insert_req_ipmi_msg] is not harmless: the
    NULL is stored in the list before it is tested, and the next response
    that matches none of the recorded requests dereferences it. *)
Theorem malloc_failure_breaks_list w i ch l msg resp :
  holds w i ch l -> 0 <= m_seq_target msg < SEQ_NUM ->
  (forall live, (malloc live (list_locked i w)).1 = 0) -> (forall m ms e, (k_mutex_lock m ms e).1 = 0) ->
  Forall (fun q => req_matches resp q = false) (make_room l.*2) ->
  exists r w1, insert_req_ipmi_msg (ch_P_start ch) msg i w = Ret (r, w1) /\
    find_req_ipmi_msg (ch_P_start ch) resp i w1 = UB.
Proof.
  intros Hh Hsq Hmalloc Hlock Hno.
  assert (Hfree : forall m ms w0, ~ lock_fails m ms w0).
  { intros m ms w0 Hf. by apply Hf. }
  destruct (wp_inv _ _ _ (insert_req_run i ch l msg w Hh Hsq)) as (r & w1 & Hrun & Hheld & Hpost).
  exists r, w1. split; [done|].
  destruct Hpost as [(Hf & _)|[(t & ch' & l' & (lv & Hne) & _)|(_ & _ & ch' & l' & Hbr & Hst & Hl')]].
  { by destruct (Hfree _ _ _ Hf). }
  { by destruct (Hne (Hmalloc lv)). }
  destruct Hbr as (Hi & _ & Hc & Ht & Hnd & Hn). unfold addrs in Hnd. rewrite Hst in Hc, Ht, Hnd.
  destruct (lock_free_run (mutex_id i) 1000 w1 (Hfree _ _ _)) as [e Hlk].
  unfold find_req_ipmi_msg. rewrite (proj2 (Z.eqb_neq _ 0) (proj1 Ht)).
  rewrite (bind_Ret _ _ _ _ _ Hlk). cbn [Z.eqb negb]. unfold bind at 1, gets at 1. cbn [rbind].
  set (w2 := w_set_held _ _). unfold bind at 1.
  rewrite (find_loop_broken (ch_P_start ch) l' _ _ resp w2); try done; [apply Ht| |].
  - pose proof (chain_size _ _ _ _ Hc Hnd). unfold walk_fuel. change (w_heap (id w2)) with (w_heap w1).
    lia.
  - rewrite <- Hl' in Hno. by apply split_first_all.
Qed.
End SeqTracking.

Lemma tracked1 : tracked (ch_seq_table chan1) list1.*2.
Proof. split; [by apply (bool_decide_unpack _); vm_compute|]. repeat constructor; done. Qed.

Lemma seq_numbers_unique_witness :
  wp (find_req_ipmi_msg 1 resp5 0) (fun _ => still_tracked 0) (world1 sim0).
Proof. apply (seq_numbers_unique (world1 sim0) 0 chan1 list1 (holds1 _) tracked1). Defined.

(** Fifteen outstanding requests, numbers 0 to 14, at addresses 2 to 16. *)
Definition req_n (n : nat) : ipmi_msg := with_seq_target (Z.of_nat n) req5.
Definition list15 : list (Z * ipmi_msg) :=
  (fun n => (Z.of_nat n + 2, req_n n)) <$> seq 0 15.
Definition chan15 : channel :=
  mk_channel 1 15 14 (replicate 15 true ++ replicate 49 false) false true true.
Definition heap15 : gmap Z ipmi_msg_cfg :=
  list_to_map ((1, mk_ipmi_msg_cfg zero_msg 0 2) ::
    ((fun n => (Z.of_nat n + 2, mk_ipmi_msg_cfg (req_n n) 0
        (if (n =? 14)%nat then 1 else Z.of_nat n + 3))) <$> seq 0 15)).
Definition world15 : world sim :=
  mk_world heap15 [chan15] [mk_IPMB_config 0 I2C_IF BMC_IPMB 1 0x20 true 0x40]
    (replicate 97 0) 1 1000 true [] power0 0 sim0.

Lemma chan_ok15 : chan_ok heap15 chan15 list15.
Proof.
  split; try done.
  - split; [|split].
    + cbn. repeat split; eexists; (split; [vm_compute; reflexivity|]); reflexivity.
    + by apply (bool_decide_unpack _); vm_compute.
    + by apply (bool_decide_unpack _); vm_compute.
  - by apply (bool_decide_unpack _); vm_compute.
Qed.

Lemma rich_locks w m ms : w_ext w = sim0 -> ~ @lock_fails sim rich_kernel m ms w.
Proof. unfold lock_fails. intros ->. simpl. by intros []. Qed.

Lemma eviction_leaks_seq_witness :
  wp (@insert_req_ipmi_msg sim rich_kernel 1 (req_n 20) 0) (fun r w' => exists ch' l',
    holds w' 0 ch' l' /\ ch_seq_table ch' !! 0%nat = Some true /\
    Forall (fun x => m_seq_target x <> 0) l'.*2) world15.
Proof.
  eapply wp_mono.
  - apply (@eviction_leaks_seq sim rich_kernel world15 0 chan15 2 (req_n 0) (tail list15) (req_n 20)).
    + split; [done|]. split; [done|]. apply chan_ok15.
    + done.
    + split; [by apply (bool_decide_unpack _); vm_compute|repeat constructor; done].
    + intros live. apply rich_malloc.
    + by apply rich_locks.
    + done.
    + done.
  - intros r w' (ch' & l' & Hh & _ & Ht & Hl). by exists ch', l'.
Defined.

Lemma malloc_failure_breaks_list_witness :
  exists r w1, @insert_req_ipmi_msg sim poor_kernel 1 (with_seq_target 6 req5) 0 (world1 sim0) =
      Ret (r, w1) /\
    @find_req_ipmi_msg sim poor_kernel 1 (with_cmd 0x33 resp5) 0 w1 = UB.
Proof.
  apply (@malloc_failure_breaks_list sim poor_kernel (world1 sim0) 0 chan1 list1
    (with_seq_target 6 req5) (with_cmd 0x33 resp5)); try done.
  - split; [done|]. split; [done|]. apply chan_ok1.
  - repeat constructor.
Defined.
