(* ===== verification/IpmbApi.v ===== *)
(** The calls of [ipmb/ipmb.c] other threads make: [ipmb_send_request],
    [ipmb_send_response], [ipmb_read], the transmit switch, and the
    encoding of a bridged response.  Each is specified by the message it puts
    in the transmit queue, its result on every error path and the locks it
    leaves. *)

From S2P Require Import Prelude IpmiDefs World IpmbSeq IpmbSeqSpec.

Section Api.
Context {E : Type} `{Kernel E}.

(** [memcpy(&cfg.buffer.data, &msg->data, msg->data_len)] *)
Definition copy_data (dst src : ipmi_msg) : ST (world E) ipmi_msg :=
  let! d := lift (memcpy (m_data dst) 0 (m_data src) 0 (m_data_len src)) in
  ret (with_data d dst).

Definition ipmb_send_request (req : ipmi_msg) (index : Z)
    : ST (world E) (ipmb_error * ipmi_msg) :=
  let! ch := get_ch index in
  if negb (ch_msgq_init ch) then ret (IPMB_ERROR_UNKNOWN, req)
  else if negb (ch_mutex_init ch) then ret (IPMB_ERROR_UNKNOWN, req)
  else
    let! ret_ := lock (mutex_send_req index) 1000 in
    if negb (ret_ =? 0) then ret (IPMB_ERROR_MUTEX_LOCK, req)
    else
      let! buffer := gets (fun w => uninit_msg (w_ext w)) in
      let! buffer := copy_data buffer req in
      let buffer := with_netfn (m_netfn req) buffer in
      let buffer := with_cmd (m_cmd req) buffer in
      let buffer := with_data_len (m_data_len req) buffer in
      let buffer := with_InF_source (m_InF_source req) buffer in
      let buffer := with_InF_target (m_InF_target req) buffer in
      let buffer := with_completion_code (m_completion_code req) buffer in
      let! cfg := get_cfg index in
      let buffer := with_dest_addr (cfg_channel_target_address cfg) buffer in
      let buffer := with_dest_LUN 0 buffer in
      let buffer := with_src_addr (u8 (Z.shiftl (cfg_self_address cfg) 1)) buffer in
      let! seq := get_free_seq index in
      let buffer := with_seq seq buffer in
      let req := with_seq seq req in
      let buffer := with_seq_source (m_seq_source req) buffer in
      let buffer := with_src_LUN 0 buffer in
      let buffer := with_pldm_inst_id (m_pldm_inst_id req) buffer in
      let req_cfg := mk_ipmi_msg_cfg buffer 0 0 in
      let! r := ext (k_msgq_put_tx index req_cfg 1000) in
      if negb (r =? 0) then
        do! unlock (mutex_send_req index) in ret (IPMB_ERROR_FAILURE, req)
      else do! unlock (mutex_send_req index) in ret (IPMB_ERROR_SUCCESS, req).

Definition ipmb_send_response (resp : ipmi_msg) (index : Z) : ST (world E) ipmb_error :=
  let! ch := get_ch index in
  if negb (ch_msgq_init ch) then ret IPMB_ERROR_UNKNOWN
  else
    let! w := gets id in
    if negb (w_mutex_init w) then ret IPMB_ERROR_UNKNOWN
    else
      let! ret_ := lock mutex_send_res 1000 in
      if negb (ret_ =? 0) then ret IPMB_ERROR_MUTEX_LOCK
      else
        let! buffer := gets (fun w => uninit_msg (w_ext w)) in
        let! buffer := copy_data buffer resp in
        let buffer := with_netfn (m_netfn resp) buffer in
        let buffer := with_cmd (m_cmd resp) buffer in
        let buffer := with_data_len (m_data_len resp) buffer in
        let buffer := with_InF_source (m_InF_source resp) buffer in
        let buffer := with_InF_target (m_InF_target resp) buffer in
        let buffer := with_completion_code (m_completion_code resp) buffer in
        let! cfg := get_cfg index in
        let buffer := with_dest_addr (cfg_channel_target_address cfg) buffer in
        let buffer := with_netfn (u8 (m_netfn resp + 1)) buffer in
        let buffer := with_dest_LUN (m_src_LUN resp) buffer in
        let buffer := with_src_addr (u8 (Z.shiftl (cfg_self_address cfg) 1)) buffer in
        let buffer := with_seq (m_seq resp) buffer in
        let buffer := with_seq_source (m_seq buffer) buffer in
        let buffer := with_InF_source (m_InF_source resp) buffer in
        let buffer := with_src_LUN (m_dest_LUN resp) buffer in
        let buffer := with_cmd (m_cmd resp) buffer in
        let resp_cfg := mk_ipmi_msg_cfg buffer 0 0 in
        let! r := ext (k_msgq_put_tx index resp_cfg 1000) in
        if negb (r =? 0) then do! unlock mutex_send_res in ret IPMB_ERROR_FAILURE
        else do! unlock mutex_send_res in ret IPMB_ERROR_SUCCESS.

Definition ipmb_read (msg : ipmi_msg) (index : Z) : ST (world E) (ipmb_error * ipmi_msg) :=
  let! ch := get_ch index in
  if negb (ch_msgq_init ch) then ret (IPMB_ERROR_UNKNOWN, msg)
  else
    let! w := gets id in
    if negb (w_mutex_init w) then ret (IPMB_ERROR_UNKNOWN, msg)
    else
      let! ret_ := lock mutex_read (IPMB_SEQ_TIMEOUT_MS + 10) in
      if negb (ret_ =? 0) then ret (IPMB_ERROR_MUTEX_LOCK, msg)
      else
        do! ext_ (k_msgq_purge_rx index) in
        let! (status, msg) := ipmb_send_request msg index in
        if ipmb_failed status then
          do! unlock mutex_read in ret (IPMB_ERROR_FAILURE, msg)
        else
          let! got := ext (k_msgq_get_rx index IPMB_SEQ_TIMEOUT_MS) in
          match got with
          | None =>
              let! ch := get_ch index in
              do! clear_req_ipmi_msg (ch_P_start ch) msg index in
              do! unlock mutex_read in
              ret (IPMB_ERROR_GET_MESSAGE_QUEUE, msg)
          | Some msg => do! unlock mutex_read in ret (IPMB_ERROR_SUCCESS, msg)
          end.

(** [MAX_IPMB_IDX] is the number of channels. *)
Definition ipmb_tx_suspend (index : Z) : ST (world E) unit :=
  let! l := gets w_ch in
  if index >=? Z.of_nat (length l) then skip
  else let! c := get_ch index in set_ch index (ch_set_tx_disable true c).

Definition ipmb_tx_resume (index : Z) : ST (world E) unit :=
  let! l := gets w_ch in
  if index >=? Z.of_nat (length l) then skip
  else let! c := get_ch index in set_ch index (ch_set_tx_disable false c).
End Api.

(** The default [pal_encode_response_bridge_cmd]; [shift_netfn] is the build
    option [ENABLE_OEM_BRIDGE_NETFN_SHIFT]. *)
Definition pal_encode_response_bridge_cmd (shift_netfn : bool) (bridge_msg rx : ipmi_msg)
    (ipmb_cfg : IPMB_config) (tables : list IPMB_config) : res ipmi_msg :=
  rlet! d := arr_set (m_data bridge_msg) 0 (Z.land IANA_ID 0xFF) in
  rlet! d := arr_set d 1 (Z.land (Z.shiftr IANA_ID 8) 0xFF) in
  rlet! d := arr_set d 2 (Z.land (Z.shiftr IANA_ID 16) 0xFF) in
  rlet! cfg := arr_get tables (cfg_index ipmb_cfg) in
  rlet! d := arr_set d 3 (cfg_channel cfg) in
  rlet! d := arr_set d 4 (if shift_netfn then u8 (Z.shiftl (m_netfn rx) 2) else m_netfn rx) in
  rlet! d := arr_set d 5 (m_cmd rx) in
  rlet! d := arr_set d 6 (m_completion_code rx) in
  let m := with_data_len (u16 (m_data_len rx + 7)) bridge_msg in
  rlet! d := memcpy d 7 (m_data rx) 0 (m_data_len rx) in
  let m := with_data d m in
  let m := with_netfn NETFN_OEM_1S_REQ m in
  let m := with_cmd CMD_OEM_1S_MSG_OUT m in
  let m := with_completion_code CC_SUCCESS m in
  Ret (with_seq (m_seq_source rx) m).

(** * The queued messages *)

(** The queued request carries the caller's data and routing fields, the
    addresses of the index and the new sequence number. *)
Record request_queued (cfg : IPMB_config) (req : ipmi_msg) (s : Z) (c : ipmi_msg_cfg) : Prop := {
  rq_wf : wf_msg (c_buffer c);
  rq_payload : payload (c_buffer c) = payload req;
  rq_len : m_data_len (c_buffer c) = m_data_len req;
  rq_netfn : m_netfn (c_buffer c) = m_netfn req;
  rq_cmd : m_cmd (c_buffer c) = m_cmd req;
  rq_cc : m_completion_code (c_buffer c) = m_completion_code req;
  rq_source : m_InF_source (c_buffer c) = m_InF_source req;
  rq_target : m_InF_target (c_buffer c) = m_InF_target req;
  rq_seq_source : m_seq_source (c_buffer c) = m_seq_source req;
  rq_pldm : m_pldm_inst_id (c_buffer c) = m_pldm_inst_id req;
  rq_seq : m_seq (c_buffer c) = s;
  rq_dest : m_dest_addr (c_buffer c) = cfg_channel_target_address cfg;
  rq_src : m_src_addr (c_buffer c) = u8 (2 * cfg_self_address cfg);
  rq_luns : m_dest_LUN (c_buffer c) = 0 /\ m_src_LUN (c_buffer c) = 0;
  rq_retries : c_retries c = 0;
}.

(** The queued response answers the request: network function plus one, the
    LUNs exchanged, the same sequence number. *)
Record response_queued (cfg : IPMB_config) (resp : ipmi_msg) (c : ipmi_msg_cfg) : Prop := {
  rs_wf : wf_msg (c_buffer c);
  rs_payload : payload (c_buffer c) = payload resp;
  rs_len : m_data_len (c_buffer c) = m_data_len resp;
  rs_netfn : m_netfn (c_buffer c) = u8 (m_netfn resp + 1);
  rs_cmd : m_cmd (c_buffer c) = m_cmd resp;
  rs_cc : m_completion_code (c_buffer c) = m_completion_code resp;
  rs_source : m_InF_source (c_buffer c) = m_InF_source resp;
  rs_target : m_InF_target (c_buffer c) = m_InF_target resp;
  rs_seq : m_seq (c_buffer c) = m_seq resp;
  rs_seq_source : m_seq_source (c_buffer c) = m_seq resp;
  rs_dest : m_dest_addr (c_buffer c) = cfg_channel_target_address cfg;
  rs_src : m_src_addr (c_buffer c) = u8 (2 * cfg_self_address cfg);
  rs_dlun : m_dest_LUN (c_buffer c) = m_src_LUN resp;
  rs_slun : m_src_LUN (c_buffer c) = m_dest_LUN resp;
  rs_retries : c_retries c = 0;
}.

Definition wf_cfg (cfg : IPMB_config) : Prop :=
  is_u8 (cfg_channel_target_address cfg) /\ is_u8 (cfg_self_address cfg) /\
  is_u8 (cfg_channel cfg) /\ is_u8 (cfg_index cfg).

(** Index [i] has been set up by [create_ipmb_threads] and [ipmb_init]. *)
Record ready {E} (w : world E) (i : Z) (ch : channel) (cfg : IPMB_config) : Prop := {
  rd_i : 0 <= i;
  rd_ch : w_ch w !! Z.to_nat i = Some ch;
  rd_cfg : w_table w !! Z.to_nat i = Some cfg;
  rd_wf : wf_cfg cfg;
  rd_msgq : ch_msgq_init ch = true;
  rd_mutex : ch_mutex_init ch = true;
  rd_mutexes : w_mutex_init w = true;
  rd_cur : is_u8 (ch_current_seq ch);
  rd_table : length (ch_seq_table ch) = Z.to_nat SEQ_NUM;
}.

(** * Proofs *)

Section ApiProofs.
Context {E : Type} `{Kernel E}.
Implicit Types w : world E.

Lemma wp_copy_data dst src Q w :
  wf_msg dst -> wf_msg src -> m_data_len src <= IPMI_MSG_MAX_LENGTH ->
  (forall d, wf_msg (with_data d dst) -> take (Z.to_nat (m_data_len src)) d = payload src ->
     Q (with_data d dst) w) ->
  wp (copy_data dst src) Q w.
Proof.
  intros Hd Hs Hlen HQ. pose proof (wf_length _ Hd) as Hld. pose proof (wf_length _ Hs) as Hls.
  destruct (wf_data_len _ Hs) as [H0 _].
  apply wp_bind, wp_lift. unfold memcpy. rewrite arr_slice_ok by lia. cbn [rbind].
  rewrite drop_0. fold (payload src).
  assert (Hp : length (payload src) = Z.to_nat (m_data_len src))
    by (unfold payload; rewrite length_take; lia).
  rewrite arr_blit_ok by lia. change (Z.to_nat 0) with O. rewrite take_0. cbn [app Nat.add]. apply wp_ret, HQ.
  - apply wf_with_data; [done| |].
    + rewrite length_app, length_drop. lia.
    + apply bytes_app; [by apply wf_payload_bytes|apply bytes_drop, Hd].
  - apply take_app_length'. lia.
Qed.

(** What both senders do outside, from the external state [e] to [e']: they
    take the lock [m], put [c] into the transmit queue of index [i] and
    release the lock; [status] is the answer of the queue. *)
Definition sent (m : mutex) (i : Z) (c : ipmi_msg_cfg) (e : E) (status : ipmb_error) (e' : E) : Prop :=
  exists r e1, k_msgq_put_tx i c 1000 (locked m 1000 e) = (r, e1) /\
    status = (if r =? 0 then IPMB_ERROR_SUCCESS else IPMB_ERROR_FAILURE) /\
    e' = k_mutex_unlock m e1.

Definition send_request_post (i : Z) (ch : channel) (cfg : IPMB_config) (req : ipmi_msg) w
    (r : ipmb_error * ipmi_msg) w' : Prop :=
  w_held w' = w_held w /\ w_heap w' = w_heap w /\ same_globals w w' /\
  ((lock_fails (mutex_send_req i) 1000 w /\ r = (IPMB_ERROR_MUTEX_LOCK, req) /\
      w' = w_set_ext (locked (mutex_send_req i) 1000 (w_ext w)) w) \/
   ~ lock_fails (mutex_send_req i) 1000 w /\ exists s c, 0 <= s < SEQ_NUM /\
     (ch_seq_table ch !! Z.to_nat s = Some false \/
      forall j, 0 <= j < SEQ_NUM -> ch_seq_table ch !! Z.to_nat j = Some true) /\
     w_ch w' = <[Z.to_nat i := ch_set_current_seq s ch]> (w_ch w) /\
     r.2 = with_seq s req /\ request_queued cfg req s c /\
     sent (mutex_send_req i) i c (w_ext w) r.1 (w_ext w')).

Lemma send_request_run i ch cfg req w :
  ready w i ch cfg -> wf_msg req -> m_data_len req <= IPMI_MSG_MAX_LENGTH ->
  wp (ipmb_send_request req i) (send_request_post i ch cfg req w) w.
Proof.
  intros [Hi Hch Hcfg (Hc1 & Hc2 & _) Hm1 Hm2 Hm3 Hcur Ht] Hwf Hlen.
  apply wp_bind, (wp_get_ch _ ch); [done..|]. rewrite Hm1, Hm2. cbn [negb].
  apply wp_bind, wp_lock_at.
  { intros r Hr Hf. rewrite (proj2 (Z.eqb_neq r 0) Hr). apply wp_ret.
    split; [done|]. split; [done|]. split; [done|]. left. done. }
  intros Hfree. cbn [Z.eqb negb]. apply wp_bind, wp_gets, wp_bind.
  apply wp_copy_data; [apply uninit_msg_wf|done|done|]. intros d Hd Hpd.
  apply wp_bind, (wp_get_cfg _ cfg); [done..|]. apply wp_bind.
  eapply wp_mono; [by apply (get_free_seq_run i ch)|].
  intros s w1 (Hs & -> & _ & Hfrees). apply wp_bind, wp_ext. intros r e2 Hput.
  assert (Hs8 : is_u8 s) by (unfold is_u8, SEQ_NUM in *; lia).
  set (w2 := w_set_ext e2 _) in *.
  assert (Hpost : forall st, st = (if r =? 0 then IPMB_ERROR_SUCCESS else IPMB_ERROR_FAILURE) ->
    send_request_post i ch cfg req w (st, with_seq s req)
      (w_set_held (w_held w) (w_set_ext (k_mutex_unlock (mutex_send_req i) (w_ext w2)) w2))).
  { intros st ->. split; [done|]. split; [done|]. split; [done|]. right. split; [done|].
    eexists s, _. split; [done|]. split; [done|]. split; [done|]. split; [done|].
    split; [|eexists _, _; split; [exact Hput|done]].
    split; try done. cbn. wf_auto. }
  destruct (Z.eqb_spec r 0); cbn [negb]; apply wp_bind; (eapply wp_unlock_ext; [reflexivity|]);
    apply wp_ret; by apply Hpost.
Qed.

Definition send_response_post (i : Z) (cfg : IPMB_config) (resp : ipmi_msg) w
    (r : ipmb_error) w' : Prop :=
  quiet w w' /\
  ((lock_fails mutex_send_res 1000 w /\ r = IPMB_ERROR_MUTEX_LOCK /\
      w_ext w' = locked mutex_send_res 1000 (w_ext w)) \/
   ~ lock_fails mutex_send_res 1000 w /\ exists c, response_queued cfg resp c /\
     sent mutex_send_res i c (w_ext w) r (w_ext w')).

Lemma send_response_run i ch cfg resp w :
  ready w i ch cfg -> wf_msg resp -> m_data_len resp <= IPMI_MSG_MAX_LENGTH ->
  wp (ipmb_send_response resp i) (send_response_post i cfg resp w) w.
Proof.
  intros [Hi Hch Hcfg (Hc1 & Hc2 & _) Hm1 Hm2 Hm3 Hcur Ht] Hwf Hlen.
  apply wp_bind, (wp_get_ch _ ch); [done..|]. rewrite Hm1. cbn [negb].
  apply wp_bind, wp_gets. unfold id. rewrite Hm3. cbn [negb]. apply wp_bind, wp_lock_at.
  { intros r Hr Hf. rewrite (proj2 (Z.eqb_neq r 0) Hr). apply wp_ret.
    split; [by eexists|]. by left. }
  intros Hfree. cbn [Z.eqb negb]. apply wp_bind, wp_gets, wp_bind.
  apply wp_copy_data; [apply uninit_msg_wf|done|done|]. intros d Hd Hpd.
  apply wp_bind, (wp_get_cfg _ cfg); [done..|]. apply wp_bind, wp_ext. intros r e2 Hput.
  set (w2 := w_set_ext e2 _) in *.
  assert (Hpost : forall st, st = (if r =? 0 then IPMB_ERROR_SUCCESS else IPMB_ERROR_FAILURE) ->
    send_response_post i cfg resp w st
      (w_set_held (w_held w) (w_set_ext (k_mutex_unlock mutex_send_res (w_ext w2)) w2))).
  { intros st ->. split; [by eexists|]. right. split; [done|]. eexists.
    split; [|eexists _, _; split; [exact Hput|done]].
    split; try done. cbn. wf_auto. }
  destruct (Z.eqb_spec r 0); cbn [negb]; apply wp_bind; (eapply wp_unlock_ext; [reflexivity|]);
    apply wp_ret; by apply Hpost.
Qed.

(** [ipmb_read]: the outcome and what is left of the request. *)
Definition read_post (i : Z) (ch : channel) (cfg : IPMB_config) (l : list (Z * ipmi_msg))
    (msg : ipmi_msg) w (r : ipmb_error * ipmi_msg) w' : Prop :=
  w_held w' = w_held w /\
  let e0 := k_msgq_purge_rx i (locked mutex_read (IPMB_SEQ_TIMEOUT_MS + 10) (w_ext w)) in
  match r.1 with
  | IPMB_ERROR_MUTEX_LOCK =>
      lock_fails mutex_read (IPMB_SEQ_TIMEOUT_MS + 10) w /\ r.2 = msg /\ quiet w w'
  | IPMB_ERROR_FAILURE => exists s, r.2 = msg \/ r.2 = with_seq s msg
  | IPMB_ERROR_SUCCESS => exists (e1 e2 : E) s c,
      request_queued cfg msg s c /\
      sent (mutex_send_req i) i c e0 IPMB_ERROR_SUCCESS e1 /\
      k_msgq_get_rx i IPMB_SEQ_TIMEOUT_MS e1 = (Some r.2, e2) /\
      w_ext w' = k_mutex_unlock mutex_read e2
  | IPMB_ERROR_GET_MESSAGE_QUEUE => exists (e1 : E) s c w1,
      request_queued cfg msg s c /\
      sent (mutex_send_req i) i c e0 IPMB_ERROR_SUCCESS e1 /\
      k_msgq_get_rx i IPMB_SEQ_TIMEOUT_MS e1 = (None, w_ext w1) /\ r.2 = with_seq s msg /\
      clear_post i (ch_set_current_seq s ch) l (with_seq s msg) w1 w'
  | _ => False
  end.

Lemma chan_ok_cur h ch l s : chan_ok h ch l -> chan_ok h (ch_set_current_seq s ch) l.
Proof. intros []. by split. Qed.

Lemma ipmb_read_run i ch cfg l msg w :
  ready w i ch cfg -> holds w i ch l -> wf_msg msg -> m_data_len msg <= IPMI_MSG_MAX_LENGTH ->
  wp (ipmb_read msg i) (read_post i ch cfg l msg w) w.
Proof.
  intros Hrd Hh Hwf Hlen. pose proof Hrd as [Hi Hch Hcfg Hwc Hm1 Hm2 Hm3 Hcur Ht].
  apply wp_bind, (wp_get_ch _ ch); [done..|]. rewrite Hm1. cbn [negb].
  apply wp_bind, wp_gets. unfold id. rewrite Hm3. cbn [negb]. apply wp_bind, wp_lock_at.
  { intros r Hr Hf. rewrite (proj2 (Z.eqb_neq r 0) Hr). apply wp_ret.
    split; [done|]. split; [done|]. split; [done|]. by eexists. }
  intros _. cbn [Z.eqb negb]. apply wp_bind, wp_ext_, wp_bind. set (w1 := w_set_ext _ _).
  eapply wp_mono; [apply (send_request_run i ch cfg msg w1); [by split|done|done]|].
  intros [st m] w2 (Hheld & Hheap & Hg & Hpost). change (w_held w1) with (mutex_read :: w_held w) in Hheld.
  destruct Hpost as [(_ & [= -> ->] & _)|(_ & s & c & Hs & Hfree & Hchs & Hm & Hc & Hsent)].
  { cbn [ipmb_failed]. apply wp_bind. eapply wp_unlock; [exact Hheld|]. intros e2. apply wp_ret.
    split; [done|]. exists 0. by left. }
  cbn [fst snd] in *. subst m. destruct st; cbn [ipmb_failed];
    try (destruct Hsent as (r & ? & _ & Hst & _); by destruct (r =? 0));
    try (apply wp_bind; eapply wp_unlock; [exact Hheld|]; intros e2; apply wp_ret;
         split; [done|]; exists s; by right).
  apply wp_bind, wp_ext. intros [m|] e2 Hget.
  { apply wp_bind. eapply wp_unlock_ext; [exact Hheld|]. apply wp_ret.
    split; [done|]. by exists (w_ext w2), e2, s, c. }
  apply wp_bind. set (w3 := w_set_ext e2 w2).
  assert (Hch3 : w_ch w3 !! Z.to_nat i = Some (ch_set_current_seq s ch)).
  { change (w_ch w3) with (w_ch w2). rewrite Hchs. by apply list_lookup_insert_eq, (in_channel w _ ch). }
  apply (wp_get_ch _ (ch_set_current_seq s ch)); [done..|]. apply wp_bind.
  eapply wp_mono; [apply (clear_req_run i (ch_set_current_seq s ch) l (with_seq s msg) w3)|].
  { split; [done|]. split; [done|]. change (w_heap w3) with (w_heap w2). rewrite Hheap.
    by apply chan_ok_cur, Hh. }
  intros u w4 Hclear. apply wp_bind. pose proof Hclear as [Hheld4 _].
  eapply wp_unlock; [rewrite Hheld4; exact Hheld|]. intros e5. apply wp_ret.
  split; [done|]. exists (w_ext w2), s, c, (w_set_held (w_held w) w3). split; [done|].
  split; [done|]. split; [exact Hget|]. split; [done|]. destruct Hclear as (_ & Hcl). split; [done|].
  destruct Hcl as [[Hqq Hor]|(req & q' & ch' & l' & Hr & Hq & Hh' & Hu & Htab)].
  - left. destruct Hqq as [e6 ->]. split; [by exists e5|done].
  - right. exists req, q', ch', l'. split; [done|]. split; [done|]. split; [exact Hh'|].
    split; [|done]. by apply (upd_env w3 _ w4).
Qed.
End ApiProofs.

(** * Theorems *)

Section ApiTheorems.
Context {E : Type} `{Kernel E}.
Implicit Types w : world E.

(** [ipmb_send_request] on an initialised index takes a sequence number
    that is free (unless all are used), queues exactly the caller's request
    under it, tells the caller the number, reports whether the queue
    accepted it, and keeps the request lists and the locks; a lock that is
    not obtained changes nothing. *)
Theorem send_request_spec w Ls i ch cfg req :
  world_ok w Ls -> ready w i ch cfg -> wf_msg req -> m_data_len req <= IPMI_MSG_MAX_LENGTH ->
  wp (ipmb_send_request req i) (fun r w' => w_held w' = w_held w /\ world_ok w' Ls /\
    ((lock_fails (mutex_send_req i) 1000 w /\ r = (IPMB_ERROR_MUTEX_LOCK, req)) \/
     ~ lock_fails (mutex_send_req i) 1000 w /\ exists s c, 0 <= s < SEQ_NUM /\
       (ch_seq_table ch !! Z.to_nat s = Some false \/
        forall j, 0 <= j < SEQ_NUM -> ch_seq_table ch !! Z.to_nat j = Some true) /\
       w_ch w' = <[Z.to_nat i := ch_set_current_seq s ch]> (w_ch w) /\
       r.2 = with_seq s req /\ request_queued cfg req s c /\
       sent (mutex_send_req i) i c (w_ext w) r.1 (w_ext w'))) w.
Proof.
  intros Hw Hrd Hwf Hlen. eapply wp_mono; [by apply send_request_run|].
  intros r w' (Hheld & Hheap & Hg & Hpost). split; [done|].
  destruct Hpost as [(Hl & -> & ->)|(Hl & s & c & Hs & Hfree & Hchs & Hr & Hc & Hsent)].
  - split; [by eapply world_ok_quiet; [|eexists]|by left].
  - split; [|right; split; [done|]; by exists s, c].
    assert (Hw2 := world_ok_cur w Ls (Z.to_nat i) ch s Hw (rd_ch _ _ _ _ Hrd)).
    destruct Hw2 as [H1 H2 H3]. split; rewrite ?Hheap, ?Hchs; [exact H1|exact H2|exact H3].
Qed.

(** [ipmb_send_response] queues the answer to its argument: network
    function plus one, LUNs exchanged, the same sequence number and data;
    it changes nothing but the external queue. *)
Theorem send_response_spec w i ch cfg resp :
  ready w i ch cfg -> wf_msg resp -> m_data_len resp <= IPMI_MSG_MAX_LENGTH ->
  wp (ipmb_send_response resp i) (fun r w' => quiet w w' /\
    ((lock_fails mutex_send_res 1000 w /\ r = IPMB_ERROR_MUTEX_LOCK /\
        w_ext w' = locked mutex_send_res 1000 (w_ext w)) \/
     ~ lock_fails mutex_send_res 1000 w /\ exists c, response_queued cfg resp c /\
       sent mutex_send_res i c (w_ext w) r (w_ext w'))) w.
Proof. intros Hrd Hwf Hlen. by apply (send_response_run i ch). Qed.

(** [ipmb_read] reports success only with a message it took from the
    receive queue after its own request was queued; when none arrives in
    time the recorded request with that sequence number is cleared, and on
    every path the locks are as before. *)
Theorem ipmb_read_spec w i ch cfg l msg :
  ready w i ch cfg -> holds w i ch l -> wf_msg msg -> m_data_len msg <= IPMI_MSG_MAX_LENGTH ->
  wp (ipmb_read msg i) (fun r w' => w_held w' = w_held w /\
    match r.1 with
    | IPMB_ERROR_SUCCESS => exists (e1 e2 : E) s c,
        request_queued cfg msg s c /\
        sent (mutex_send_req i) i c
          (k_msgq_purge_rx i (locked mutex_read (IPMB_SEQ_TIMEOUT_MS + 10) (w_ext w)))
          IPMB_ERROR_SUCCESS e1 /\
        k_msgq_get_rx i IPMB_SEQ_TIMEOUT_MS e1 = (Some r.2, e2) /\
        w_ext w' = k_mutex_unlock mutex_read e2
    | IPMB_ERROR_GET_MESSAGE_QUEUE => exists (e1 e2 : E) s c,
        request_queued cfg msg s c /\
        sent (mutex_send_req i) i c
          (k_msgq_purge_rx i (locked mutex_read (IPMB_SEQ_TIMEOUT_MS + 10) (w_ext w)))
          IPMB_ERROR_SUCCESS e1 /\
        k_msgq_get_rx i IPMB_SEQ_TIMEOUT_MS e1 = (None, e2) /\ r.2 = with_seq s msg /\
        (remove_first (clear_matches (with_seq s msg)) l.*2 <> None ->
           (k_mutex_lock (mutex_id i) 1000 e2).1 <> 0 \/
           exists req q' ch' l',
             remove_first (clear_matches (with_seq s msg)) l.*2 = Some (req, q') /\
             holds w' i ch' l' /\ l'.*2 = q')
    | IPMB_ERROR_MUTEX_LOCK => r.2 = msg /\ quiet w w'
    | IPMB_ERROR_FAILURE => exists s, r.2 = msg \/ r.2 = with_seq s msg
    | _ => False
    end) w.
Proof.
  intros Hrd Hh Hwf Hlen. eapply wp_mono; [by apply (ipmb_read_run i ch cfg l)|].
  intros [st m] w' [Hheld Hpost]. split; [done|]. cbn [fst snd] in *.
  destruct st; try done.
  2: { by destruct Hpost as (Hlk & ? & ?). }
  destruct Hpost as (e1 & s & c & w1 & Hc & Hsent & Hget & Hm & Hheld2 & Hcl).
  exists e1, (w_ext w1), s, c. repeat (split; [done|]).
  intros Hne. destruct Hcl as [(_ & [Hf|Hnone])|(req & q' & ch' & l' & Hr & Hq & Hh' & _)];
    [by left|done|right; by exists req, q', ch', l'].
Qed.
End ApiTheorems.

Lemma ready1 s : ready (world1 s) 0 chan1 (mk_IPMB_config 0 I2C_IF BMC_IPMB 1 0x20 true 0x40).
Proof. by split. Qed.

Lemma send_request_spec_witness :
  wp (ipmb_send_request zero_msg 0) (fun r w' => w_held w' = [] /\ world_ok w' [list1])
    (world1 sim0).
Proof.
  eapply wp_mono; [eapply (send_request_spec (world1 sim0) [list1] 0 chan1)|].
  - apply world_ok1.
  - apply ready1.
  - apply wf_zero_msg.
  - done.
  - by intros r w' (Hh & Hw & _).
Defined.

Lemma send_response_spec_witness :
  wp (ipmb_send_response req5 0) (fun r w' => quiet (world1 sim0) w') (world1 sim0).
Proof.
  eapply wp_mono; [eapply (send_response_spec (world1 sim0) 0 chan1)|].
  - apply ready1.
  - unfold req5. wf_auto.
  - done.
  - by intros r w' [Hq _].
Defined.

Lemma ipmb_read_spec_witness :
  wp (ipmb_read (with_seq 5 req5) 0) (fun r w' => w_held w' = []) (world1 sim0).
Proof.
  eapply wp_mono; [eapply (ipmb_read_spec (world1 sim0) 0 chan1 _ list1)|].
  - apply ready1.
  - apply holds1.
  - unfold req5. wf_auto.
  - done.
  - by intros r w' [Hh _].
Defined.
