(* ===== verification/IpmiQueue.v ===== *)
(** The request queue between the transports and the IPMI handler thread
    ([notify_ipmi_client] of [ipmi/ipmi.c]) and the routing predicates of
    [ipmi.c] and [pal/ipmi/plat_ipmi.c]. *)

From S2P Require Import Prelude IpmiDefs World.

(** * Routing predicates *)

(** [iana_buf] is the message data; three bytes, least significant first. *)
Definition get_iana (iana_buf : list Z) : res Z :=
  rlet! b2 := arr_get iana_buf 2 in
  rlet! b1 := arr_get iana_buf 1 in
  rlet! b0 := arr_get iana_buf 0 in
  let recieved_iana := b2 in
  let recieved_iana := Z.lor (u32 (Z.shiftl recieved_iana 8)) b1 in
  let recieved_iana := Z.lor (u32 (Z.shiftl recieved_iana 8)) b0 in
  Ret (if recieved_iana =? IANA_ID then IANA_ID else 0).

Definition pal_set_dimm_presence_status (buf : list Z) : bool := true.

(** The weak default of ipmi.c. *)
Definition weak_request_msg_to_BIC_from_HOST (netfn cmd : Z) : bool :=
  (netfn =? NETFN_OEM_1S_REQ) &&
  ((cmd =? CMD_OEM_1S_FW_UPDATE) || (cmd =? CMD_OEM_1S_RESET_BMC) ||
   (cmd =? CMD_OEM_1S_GET_BIC_STATUS) || (cmd =? CMD_OEM_1S_RESET_BIC) ||
   (cmd =? CMD_OEM_1S_GET_BIC_FW_INFO) || (cmd =? CMD_OEM_1S_GET_DIMM_I3C_MUX_SELECTION)).

(** The platform's function, which replaces it. *)
Definition pal_request_msg_to_BIC_from_HOST (netfn cmd : Z) : bool :=
  if netfn =? NETFN_CHASSIS_REQ then true
  else if netfn =? NETFN_APP_REQ then
    (cmd =? CMD_APP_GET_DEVICE_ID) || (cmd =? CMD_APP_SET_BMC_GLOBAL_ENABLES) ||
    (cmd =? CMD_APP_GET_BMC_GLOBAL_ENABLES)
  else false.

Definition pal_immediate_respond_from_HOST (netfn cmd : Z) : bool :=
  ((netfn =? NETFN_STORAGE_REQ) && (cmd =? CMD_STORAGE_ADD_SEL)) ||
  ((netfn =? NETFN_SENSOR_REQ) && (cmd =? CMD_SENSOR_PLATFORM_EVENT)).

Definition pal_record_bios_fw_version (buf : list Z) (size : Z) : Z := -2.

Definition pal_request_msg_to_BIC_from_ME (netfn cmd : Z) : bool :=
  (netfn =? NETFN_OEM_REQ) && (cmd =? CMD_OEM_NM_SENSOR_READ).

Definition pal_is_not_return_cmd (netfn cmd : Z) : bool :=
  (netfn =? NETFN_OEM_1S_REQ) && ((cmd =? CMD_OEM_1S_MSG_OUT) || (cmd =? CMD_OEM_1S_MSG_IN)).

(** * The queue *)

Section Notify.
Context {E : Type} `{Kernel E}.

(** [while (ret != 0 && retry > 0)]; [retry] only counts down from 3, so it
    is a natural number and the measure of the loop. *)
Fixpoint notify_loop (retry : nat) (msg_cfg : ipmi_msg_cfg) (ret_ : Z)
    : ST (world E) (Z * nat) :=
  if negb (ret_ =? 0) then
    match retry with
    | O => ret (ret_, O)
    | S retry' =>
        let! ret_lock := lock mutex_purge_msgq 1000 in
        if ret_lock <? 0 then notify_loop retry' msg_cfg ret_
        else
          let! free_size := ext k_msgq_num_free_ipmi in
          do! (if free_size =? 0 then ext_ k_msgq_purge_ipmi else skip) in
          do! unlock mutex_purge_msgq in
          let! ret_ := ext (k_msgq_put_ipmi msg_cfg) in
          notify_loop retry' msg_cfg ret_
    end
  else ret (ret_, retry).

Definition notify_ipmi_client (msg_cfg : ipmi_msg_cfg) : ST (world E) ipmb_error :=
  let! retry :=
    (if negb (IS_RESPONSE (c_buffer msg_cfg)) then
       let! ret_ := ext (k_msgq_put_ipmi msg_cfg) in
       let! (_, retry) := notify_loop 3 msg_cfg ret_ in
       ret retry
     else ret 3%nat) in
  ret (match retry with O => IPMB_ERROR_MUTEX_LOCK | S _ => IPMB_ERROR_SUCCESS end).
End Notify.

(** * What the loop does *)

Section NotifyProofs.
Context {E : Type} `{Kernel E}.
Implicit Types w : world E.

(** The last attempt to queue returned [r]. *)
Definition last_put (c : ipmi_msg_cfg) (r : Z) : Prop :=
  exists e e' : E, k_msgq_put_ipmi c e = (r, e').

Lemma quiet_trans w1 w2 w3 :
  (exists e, w2 = w_set_ext e w1) -> (exists e, w3 = w_set_ext e w2) ->
  exists e, w3 = w_set_ext e w1.
Proof. intros [e1 ->] [e2 ->]. by exists e2. Qed.

Lemma notify_loop_run retry c r w :
  last_put c r ->
  (forall m ms e s e', k_mutex_lock m ms e = (s, e') -> s <= 0) ->
  wp (notify_loop retry c r) (fun x w' => (exists e, w' = w_set_ext e w) /\ last_put c x.1 /\
    (x.1 = 0 \/ x.2 = O)) w.
Proof.
  intros Hput Hneg. revert r w Hput. induction retry as [|retry IH]; intros r w Hput;
    cbn [notify_loop]; (destruct (Z.eqb_spec r 0) as [->|Hr]; cbn [negb];
    [apply wp_ret; split; [exists (w_ext w); by destruct w|by auto]|]).
  { apply wp_ret. split; [exists (w_ext w); by destruct w|by auto]. }
  unfold lock. apply wp_bind, wp_bind, wp_ext. intros s e Hs.
  pose proof (Hneg _ _ _ _ _ Hs) as Hs0.
  destruct (Z.eqb_spec s 0) as [->|Hne].
  - apply wp_bind, wp_modify, wp_ret. cbn [Z.ltb Z.compare].
    apply wp_bind, wp_ext. intros free e1 _. apply wp_bind.
    eapply (wp_mono _ (fun _ w' => exists e', w' = w_set_held (mutex_purge_msgq :: w_held w)
      (w_set_ext e' w))).
    { case_match; [apply wp_ext_|apply wp_skip]; eexists; reflexivity. }
    intros _ w1 [e' ->]. apply wp_bind. eapply wp_unlock; [reflexivity|]. intros e2.
    apply wp_bind, wp_ext. intros r' e3 Hput'.
    eapply wp_mono; [apply IH; by eexists _, _|].
    intros [x n] w' ((e4 & ->) & Hl & Hor). split; [by exists e4|done].
  - apply wp_ret. rewrite (proj2 (Z.ltb_lt s 0)) by lia.
    eapply wp_mono; [by apply IH|].
    intros [x n] w' ((e4 & ->) & Hl & Hor). split; [by exists e4|done].
Qed.
End NotifyProofs.

Section NotifyTheorems.
Context {E : Type} `{Kernel E}.
Implicit Types w : world E.

Lemma notify_run c w :
  (forall m ms (e : E) s e', k_mutex_lock m ms e = (s, e') -> s <= 0) ->
  wp (notify_ipmi_client c) (fun st w' => (exists e, w' = w_set_ext e w) /\
    (IS_RESPONSE (c_buffer c) = true -> st = IPMB_ERROR_SUCCESS /\ w' = w) /\
    (IS_RESPONSE (c_buffer c) = false ->
       (st = IPMB_ERROR_SUCCESS /\ last_put c 0) \/ st = IPMB_ERROR_MUTEX_LOCK)) w.
Proof.
  intros Hneg. unfold notify_ipmi_client. apply wp_bind.
  destruct (IS_RESPONSE (c_buffer c)); cbn [negb].
  { apply wp_ret, wp_ret. split; [exists (w_ext w); by destruct w|by auto]. }
  apply wp_bind, wp_ext. intros r e Hput. apply wp_bind.
  eapply wp_mono; [apply notify_loop_run; [by eexists _, _|done]|].
  intros [x n] w' ((e1 & ->) & Hl & Hor). apply wp_ret, wp_ret. cbn [fst snd] in *.
  split; [by exists e1|]. split; [done|]. intros _. destruct n as [|n]; [by right|left].
  split; [done|]. by destruct Hor as [->|].
Qed.

(** [notify_ipmi_client] terminates after at most four attempts, changes
    no program state and releases the purge lock; a response is never
    queued, and success for a request means that its last attempt to queue
    it was accepted. *)
Theorem notify_spec c w :
  (forall m ms (e : E) s e', k_mutex_lock m ms e = (s, e') -> s <= 0) ->
  wp (notify_ipmi_client c) (fun st w' => (exists e, w' = w_set_ext e w) /\
    (IS_RESPONSE (c_buffer c) = true -> st = IPMB_ERROR_SUCCESS /\ w' = w) /\
    (IS_RESPONSE (c_buffer c) = false ->
       (st = IPMB_ERROR_SUCCESS /\ last_put c 0) \/ st = IPMB_ERROR_MUTEX_LOCK)) w.
Proof. apply notify_run. Qed.
End NotifyTheorems.

(** The documented behaviour of the message queue of [IPMI_BUF_LEN] entries:
    [q] is its content. *)
Record queue_laws {E} `{Kernel E} (q : E -> list ipmi_msg_cfg) : Prop := {
  ql_put : forall c e r e', k_msgq_put_ipmi c e = (r, e') ->
    if Z.of_nat (length (q e)) <? IPMI_BUF_LEN then r = 0 /\ q e' = q e ++ [c]
    else r <> 0 /\ q e' = q e;
  ql_free : forall e n e', k_msgq_num_free_ipmi e = (n, e') ->
    n = IPMI_BUF_LEN - Z.of_nat (length (q e)) /\ q e' = q e;
  ql_purge : forall e, q (k_msgq_purge_ipmi e) = [];
  ql_lock : forall m ms e s e', k_mutex_lock m ms e = (s, e') -> s = 0 /\ q e' = q e;
  ql_unlock : forall m e, q (k_mutex_unlock m e) = q e;
  ql_bound : forall e, Z.of_nat (length (q e)) <= IPMI_BUF_LEN;
}.

Section Delivery.
Context {E : Type} `{Kernel E} (q : E -> list ipmi_msg_cfg) (Hq : queue_laws q).
Implicit Types w : world E.

Lemma notify_delivers_run c w :
  IS_RESPONSE (c_buffer c) = false ->
  wp (notify_ipmi_client c) (fun st w' => st = IPMB_ERROR_SUCCESS /\
    q (w_ext w') = if Z.of_nat (length (q (w_ext w))) <? IPMI_BUF_LEN
                   then q (w_ext w) ++ [c] else [c]) w.
Proof.
  intros Hreq. unfold notify_ipmi_client. rewrite Hreq. cbn [negb]. apply wp_bind, wp_bind, wp_ext.
  intros r e Hput. pose proof (ql_put _ Hq _ _ _ _ Hput) as Hp. apply wp_bind.
  destruct (Z.of_nat (length (q (w_ext w))) <? IPMI_BUF_LEN) eqn:Hroom.
  { destruct Hp as [-> Hp]. cbn [notify_loop Z.eqb negb]. apply wp_ret, wp_ret, wp_ret. done. }
  destruct Hp as [Hr Hp]. cbn [notify_loop]. rewrite (proj2 (Z.eqb_neq r 0) Hr). cbn [negb].
  unfold lock. apply wp_bind, wp_bind, wp_ext. intros s e1 Hl.
  destruct (ql_lock _ Hq _ _ _ _ _ Hl) as [-> Hq1]. cbn [Z.eqb].
  apply wp_bind, wp_modify, wp_ret. cbn [Z.ltb Z.compare].
  apply wp_bind, wp_ext. intros n e2 Hfree. apply (ql_free _ Hq) in Hfree as [-> Hq2]. wcbn.
  cbn [w_ext w_set_ext w_set_held] in *. assert (Hfull : IPMI_BUF_LEN - Z.of_nat (length (q e1)) = 0).
  { rewrite Hq1, Hp. pose proof (ql_bound _ Hq (w_ext w)). apply Z.ltb_ge in Hroom. lia. }
  rewrite Hfull. cbn [Z.eqb]. apply wp_bind, wp_ext_, wp_bind.
  eapply wp_unlock_ext; [reflexivity|]. apply wp_bind, wp_ext. intros r2 e4 Hput2.
  cbn [w_ext w_set_ext w_set_held] in *. apply (ql_put _ Hq) in Hput2.
  rewrite (ql_unlock _ Hq), (ql_purge _ Hq) in Hput2. destruct Hput2 as [-> Hq4].
  cbn [Z.eqb negb]. by apply wp_ret, wp_ret, wp_ret.
Qed.

(** On a queue with room the request is appended; on a full queue all
    pending requests are dropped and it becomes the only one; in both cases
    the result is success. *)
Theorem notify_delivers c w :
  IS_RESPONSE (c_buffer c) = false ->
  wp (notify_ipmi_client c) (fun st w' => st = IPMB_ERROR_SUCCESS /\
    q (w_ext w') = if Z.of_nat (length (q (w_ext w))) <? IPMI_BUF_LEN
                   then q (w_ext w) ++ [c] else [c]) w.
Proof. apply notify_delivers_run. Qed.
End Delivery.

Definition qreq (n : Z) : ipmi_msg_cfg := mk_ipmi_msg_cfg (with_netfn NETFN_APP_REQ
  (with_cmd n zero_msg)) 0 0.

Definition qworld (s : sim) : world sim :=
  mk_world ∅ [] [] [] 0 0 true [] (mk_power false false false false false true false false) 0 s.

Lemma notify_spec_witness :
  wp (notify_ipmi_client (qreq 1)) (fun st w' => (st = IPMB_ERROR_SUCCESS /\ last_put (qreq 1) 0) \/
    st = IPMB_ERROR_MUTEX_LOCK) (qworld sim0).
Proof.
  eapply wp_mono; [apply (notify_spec (qreq 1) (qworld sim0))|].
  - intros m ms e s e' [= <- _]. case_match; lia.
  - intros st w' (_ & _ & Hreq). by apply Hreq.
Defined.

(** At most [IPMI_BUF_LEN] entries are visible. *)
Definition sim_queue (s : sim) : list ipmi_msg_cfg := take (Z.to_nat IPMI_BUF_LEN) (s_ipmiq s).
Definition queue_kernel : Kernel sim :=
  sim_with sim_free_lock sim_malloc sim_malloc_fresh
    (fun s => (IPMI_BUF_LEN - Z.of_nat (length (sim_queue s)), s)) sim_mem.

Lemma sim_queue_laws : @queue_laws sim queue_kernel sim_queue.
Proof.
  assert (Hlen : forall s, Z.of_nat (length (sim_queue s)) =
      Z.min IPMI_BUF_LEN (Z.of_nat (length (s_ipmiq s)))).
  { intros s. unfold sim_queue, IPMI_BUF_LEN. rewrite length_take. lia. }
  split; simpl.
  - intros c e r e' Hput. rewrite Hlen. unfold sim_put_ipmi in Hput.
    destruct (Z.ltb_spec (Z.of_nat (length (s_ipmiq e))) IPMI_BUF_LEN) as [Hlt|Hge];
      injection Hput as <- <-.
    + rewrite (proj2 (Z.ltb_lt _ _)) by lia. split; [done|]. unfold sim_queue, IPMI_BUF_LEN in *.
      cbn [s_ipmiq]. rewrite !take_ge; rewrite ?length_app; simpl; try done; lia.
    + rewrite (proj2 (Z.ltb_ge _ _)) by lia. done.
  - intros e n e' [= <- <-]. done.
  - done.
  - intros m ms e s e' [= <- <-]. done.
  - done.
  - intros e. rewrite Hlen. lia.
Qed.

Lemma notify_delivers_witness :
  wp (@notify_ipmi_client sim queue_kernel (qreq 1))
    (fun st w' => st = IPMB_ERROR_SUCCESS /\ sim_queue (w_ext w') = [qreq 1])
    (qworld (mk_sim false false 0 0 [] [] (qreq <$> [2;3;4;5;6;7;8;9;10;11]) [] [])).
Proof.
  apply (@notify_delivers sim queue_kernel sim_queue sim_queue_laws (qreq 1)). done.
Defined.

(** The purge lock is refused until the clock has run down. *)
Definition flaky_lock (m : mutex) (ms : Z) (s : sim) : Z * sim :=
  if 0 <? s_clock s then
    (-11, mk_sim (s_locks_fail s) (s_malloc_fails s) (s_i2c_status s) (s_clock s - 1)
      (s_txq s) (s_rxq s) (s_ipmiq s) (s_wire s) (s_slave s))
  else (0, s).
Definition flaky_kernel : Kernel sim :=
  sim_with flaky_lock sim_malloc sim_malloc_fresh sim_free_ipmi sim_mem.

(** The result is computed from the number of retries left, so a request
    that is accepted at the third retry is reported as a failure to take the
    mutex although it is in the queue. *)
Theorem notify_reports_lost_but_queued :
  exists w', @notify_ipmi_client sim flaky_kernel (qreq 1)
      (qworld (mk_sim false false 0 2 [] [] (qreq <$> [2;3;4;5;6;7;8;9;10;11]) [] [])) =
    Ret (IPMB_ERROR_MUTEX_LOCK, w') /\ s_ipmiq (w_ext w') = [qreq 1].
Proof. eexists. split; [vm_compute; reflexivity|reflexivity]. Qed.
