(* ===== verification/IpmbTasks.v ===== *)
(** The threads of [ipmb/ipmb.c]: one iteration of [IPMB_TXTask] and of
    [IPMB_RXTask], the set-up of an index ([create_ipmb_threads]) and
    [ipmb_init].  The theorems connect them: what the transmit task puts on
    the wire is accepted and decoded by the receive task, a response is
    routed back to the source of its request, corrupted frames change
    nothing, and a message is transmitted a bounded number of times. *)

From S2P Require Import Prelude IpmiDefs IpmbCodec World IpmbSeq IpmbSeqSpec IpmbApi IpmiQueue.

(** * Build options and services *)

(** The options are preprocessor symbols; the services are those of the KCS
    driver and of the PLDM module. *)
Class Platform (E : Type) : Type := {
  CONFIG_IPMI_KCS_ASPEED : bool;
  ENABLE_MPRO : bool;
  ENABLE_OEM_BRIDGE_NETFN_SHIFT : bool;
  kcs_write : Z -> list Z -> Z -> E -> E;
  pldm_send_ipmb_rsp : ipmi_msg -> E -> E;
}.

Definition K_NO_WAIT : Z := 0.
Definition KCS_BUFF_SIZE : Z := 256.
Definition IPMB_POLLING_TIME_MS : Z := 1.
Definition IPMB_BUFFER_SIZE : Z := IPMI_MSG_MAX_LENGTH + IPMB_RESP_HEADER_LENGTH.

Definition pal_load_ipmb_config : bool := true.
Definition pal_is_interface_use_ipmb (interface_index : Z) : bool := true.

Section Tasks.
Context {E : Type} `{Kernel E} `{Platform E}.

(** [do { p = malloc(...) ... } while (retry < MEM_ALLOCATE_RETRY_TIME)] *)
Fixpoint malloc_retry (n : nat) (size : Z) : ST (world E) bool :=
  match n with
  | O => ret false
  | S n' =>
      let! ok := ext (malloc_buf size) in
      if ok then ret true else do! ext_ (k_msleep 10) in malloc_retry n' size
  end.

(** The KCS response buffer: network function, command, completion code and
    data. *)
Definition kcs_respond (m : ipmi_msg) : ST (world E) unit :=
  let! kcs_buff := gets (fun w => uninit_bytes KCS_BUFF_SIZE (w_ext w)) in
  let! b := lift (arr_set kcs_buff 0 (u8 (Z.shiftl (m_netfn m) 2))) in
  let! b := lift (arr_set b 1 (m_cmd m)) in
  let! b := lift (arr_set b 2 (m_completion_code m)) in
  let! b := (if m_data_len m >? 0
             then lift (memcpy b 3 (m_data m) 0 (m_data_len m)) else ret b) in
  ext_ (kcs_write (m_InF_source m - HOST_KCS_1) b (m_data_len m + 3)).

(** [pldm_send_ipmi_response] or [ipmb_send_response], by the source. *)
Definition respond_to_source (source : Z) (m : ipmi_msg) : ST (world E) unit :=
  if (source =? PLDM) || (source =? MCTP) then ext_ (pldm_send_ipmi_response source m)
  else
    let! idx := inf_index source in
    let! _ := ipmb_send_response m idx in
    skip.

(** ** Transmit *)

(** The I2C transmission of [size] bytes of the buffer, without the address
    byte; [None] when no I2C message could be allocated. *)
Definition i2c_send (cfg : IPMB_config) (buffer : list Z) (size : Z)
    : ST (world E) (option Z) :=
  let! ok := malloc_retry (Z.to_nat MEM_ALLOCATE_RETRY_TIME) 0 in
  if negb ok then ret None
  else
    let! data := lift (arr_slice buffer 1 size) in
    let! r := ext (i2c_master_write (cfg_bus cfg) (cfg_channel_target_address cfg) data) in
    ret (Some (u8 r)).

Definition requeue (cfg : IPMB_config) (c : ipmi_msg_cfg) : ST (world E) unit :=
  do! ext (k_msgq_put_tx (cfg_index cfg) c K_NO_WAIT) in
  ext_ (k_msleep IPMB_RETRY_DELAY_MS).

Definition tx_response (cfg : IPMB_config) (buffer : list Z) (c : ipmi_msg_cfg)
    : ST (world E) unit :=
  if c_retries c >? IPMB_TX_RETRY_TIME then skip
  else
    let c := with_buffer (with_dest_addr (cfg_channel_target_address cfg) (c_buffer c)) c in
    let! (buffer, _) := lift (ipmb_encode buffer (c_buffer c)) in
    let resp_tx_size := u8 (m_data_len (c_buffer c) + IPMB_RESP_HEADER_LENGTH) in
    if cfg_interface cfg =? I2C_IF then
      let! r := i2c_send cfg buffer resp_tx_size in
      match r with
      | None => skip
      | Some r =>
          if negb (r =? 0) then requeue cfg (with_retries (u8 (c_retries c + 1)) c) else skip
      end
    else skip.

(** Two allocation attempts with a pause between them. *)
Definition malloc_twice (size : Z) : ST (world E) bool :=
  let! ok := ext (malloc_buf size) in
  if ok then ret true else do! ext_ (k_msleep 10) in ext (malloc_buf size).

(** After the last failed transmission of a request: tell its source.  The
    result is [false] for the [continue] that skips the end of the loop body. *)
Definition tx_request_failed (c : ipmi_msg_cfg) : ST (world E) bool :=
  let m := c_buffer c in
  let source := m_InF_source m in
  if source =? RESERVED then ret true
  else if source =? SELF then ret true
  else if source =? MPRO_PLDM then ret true
  else if Z.land source 0xF0 =? HOST_KCS_1 then
    if CONFIG_IPMI_KCS_ASPEED then
      let! ok := malloc_twice KCS_BUFF_SIZE in
      if negb ok then ret false
      else do! kcs_respond (with_completion_code CC_CAN_NOT_RESPOND m) in ret true
    else ret true
  else
    let m := with_data_len 0 m in
    let m := with_netfn NETFN_OEM_1S_REQ m in
    let m := with_cmd CMD_OEM_1S_MSG_OUT m in
    let m := with_completion_code CC_NODE_BUSY m in
    do! respond_to_source source m in ret true.

(** The request is recorded before it is transmitted; [insert_req_ipmi_msg]
    stamps the caller's message, which the rest of the iteration uses. *)
Definition tx_request (cfg : IPMB_config) (buffer : list Z) (c : ipmi_msg_cfg)
    : ST (world E) bool :=
  let! (buffer, _) := lift (ipmb_encode buffer (c_buffer c)) in
  let req_tx_size := u8 (m_data_len (c_buffer c) + IPMB_REQ_HEADER_LENGTH) in
  if cfg_interface cfg =? I2C_IF then
    let! ok := malloc_retry (Z.to_nat MEM_ALLOCATE_RETRY_TIME) 0 in
    if negb ok then ret true
    else
      let! data := lift (arr_slice buffer 1 req_tx_size) in
      let m := with_seq_target (m_seq (c_buffer c)) (c_buffer c) in
      let! ch := get_ch (cfg_index cfg) in
      let! m := insert_req_ipmi_msg (ch_P_start ch) m (cfg_index cfg) in
      let! r := ext (i2c_master_write (cfg_bus cfg) (cfg_channel_target_address cfg) data) in
      if negb (u8 r =? 0) then
        let! ch := get_ch (cfg_index cfg) in
        let! (_, m) := find_req_ipmi_msg (ch_P_start ch) m (cfg_index cfg) in
        let c := mk_ipmi_msg_cfg m (u8 (c_retries c + 1)) (c_next c) in
        if c_retries c >? IPMB_TX_RETRY_TIME then tx_request_failed c
        else do! requeue cfg c in ret true
      else ret true
  else ret true.

Definition IPMB_TXTask (cfg : IPMB_config) : ST (world E) unit :=
  let! ok := ext (malloc_buf 0) in
  if negb ok then ext_ (k_msleep 10)
  else
    let! c := ext (k_msgq_get_tx (cfg_index cfg)) in
    let! ch := get_ch (cfg_index cfg) in
    let! cleanup := (if ch_tx_disable ch then ret true
      else
        let! buffer := gets (fun w => uninit_bytes IPMB_BUFFER_SIZE (w_ext w)) in
        if IS_RESPONSE (c_buffer c) then do! tx_response cfg buffer c in ret true
        else tx_request cfg buffer c) in
    if cleanup then ext_ (k_msleep IPMB_POLLING_TIME_MS) else skip.

(** ** Receive *)

(** A response that answers a request of the BIC itself. *)
Definition rx_self (m : ipmi_msg) : ST (world E) unit :=
  let! idx := inf_index (m_InF_target m) in
  do! ext (k_msgq_put_rx idx m K_NO_WAIT) in skip.

Definition rx_kcs (m : ipmi_msg) : ST (world E) unit :=
  if CONFIG_IPMI_KCS_ASPEED then
    if pal_immediate_respond_from_HOST (Z.ldiff (m_netfn m) 1) (m_cmd m) then skip
    else
      let! ok := malloc_retry (Z.to_nat MEM_ALLOCATE_RETRY_TIME) KCS_BUFF_SIZE in
      if negb ok then skip else kcs_respond m
  else skip.

(** The response to a request of the management engine. *)
Definition rx_me (m : ipmi_msg) : ST (world E) unit :=
  let! ok := ext (malloc_buf 0) in
  if negb ok then skip
  else
    let b := with_netfn (u8 (m_netfn m - 1)) zero_msg in
    let b := with_cmd (m_cmd m) b in
    let b := with_completion_code (m_completion_code m) b in
    let b := with_seq (m_seq_source m) b in
    let b := with_data_len (m_data_len m) b in
    let! b := copy_data b m in
    let! idx := inf_index (m_InF_source m) in
    do! ipmb_send_response b idx in skip.

(** The response to a request that was bridged for another controller. *)
Definition rx_bridge (cfg : IPMB_config) (m : ipmi_msg) : ST (world E) unit :=
  let! ok := ext (malloc_buf 0) in
  if negb ok then skip
  else
    let! tables := gets w_table in
    let! b := lift (pal_encode_response_bridge_cmd ENABLE_OEM_BRIDGE_NETFN_SHIFT zero_msg m
                      cfg tables) in
    if (m_InF_source m =? PLDM) || (m_InF_source m =? MCTP) then
      ext_ (pldm_send_ipmi_response (m_InF_source m) (with_pldm_inst_id (m_pldm_inst_id m) b))
    else
      let! idx := inf_index (m_InF_source m) in
      do! ipmb_send_response b idx in skip.

Definition rx_response (cfg : IPMB_config) (m : ipmi_msg) : ST (world E) unit :=
  let m := with_seq_target (m_seq m) m in
  let! ch := get_ch (cfg_index cfg) in
  let! (found, m) := find_req_ipmi_msg (ch_P_start ch) m (cfg_index cfg) in
  if negb found then skip
  else if m_InF_source m =? SELF then rx_self m
  else if Z.land (m_InF_source m) 0xF0 =? HOST_KCS_1 then rx_kcs m
  else if m_InF_source m =? MPRO_PLDM then
    if ENABLE_MPRO then ext_ (pldm_send_ipmb_rsp m) else skip
  else if m_InF_source m =? ME_IPMB then rx_me m
  else rx_bridge cfg m.

(** A request of the management engine that is passed on to the BMC. *)
Definition rx_me_request (m : ipmi_msg) : ST (world E) unit :=
  let! ok := ext (malloc_buf 0) in
  if negb ok then skip
  else
    let b := with_data_len (m_data_len m) zero_msg in
    let b := with_seq_source (m_seq m) b in
    let b := with_InF_target BMC_IPMB b in
    let b := with_InF_source ME_IPMB b in
    let b := with_netfn (m_netfn m) b in
    let b := with_cmd (m_cmd m) b in
    let! b := (if negb (m_data_len b =? 0) then copy_data b m else ret b) in
    let! bmc := inf_index BMC_IPMB in
    if negb (pal_is_interface_use_ipmb bmc) then
      let b := with_InF_target PLDM b in
      let! b := ext (pldm_send_ipmi_request b) in
      let b := with_netfn (m_netfn m) b in
      let b := with_seq (m_seq m) b in
      let! me := inf_index ME_IPMB in
      do! ipmb_send_response b me in skip
    else
      let! (status, b) := ipmb_send_request b bmc in
      if ipmb_failed status then
        let b := with_completion_code CC_TIMEOUT b in
        let! idx := inf_index (m_InF_source b) in
        do! ipmb_send_response b idx in skip
      else skip.

Definition rx_request (cfg : IPMB_config) (m : ipmi_msg) : ST (world E) unit :=
  let! tcfg := get_cfg (cfg_index cfg) in
  if (cfg_channel tcfg =? ME_IPMB) &&
     negb (pal_request_msg_to_BIC_from_ME (m_netfn m) (m_cmd m))
  then rx_me_request m
  else
    let m := with_seq_source (m_seq m) m in
    let m := with_InF_source (cfg_channel tcfg) m in
    do! notify_ipmi_client (mk_ipmi_msg_cfg m 0 0) in skip.

(** One frame of [rx_len] bytes in the receive buffer. *)
Definition rx_frame (cfg : IPMB_config) (buffer : list Z) (rx_len : Z) : ST (world E) unit :=
  let! v := lift (validate_checksum buffer rx_len) in
  if ipmb_failed v then skip
  else
    let! m0 := gets (fun w => uninit_msg (w_ext w)) in
    let! (m, _) := lift (ipmb_decode m0 buffer rx_len) in
    if IS_RESPONSE m then rx_response cfg m else rx_request cfg m.

(** The received bytes, with the address byte shifted to 7 bits. *)
Definition rx_load (buffer msg : list Z) (rx_len : Z) : res (list Z) :=
  rlet! buffer := memcpy buffer 0 msg 0 rx_len in
  rlet! b0 := arr_get buffer 0 in
  arr_set buffer 0 (Z.shiftr b0 1).

Definition IPMB_RXTask (cfg : IPMB_config) : ST (world E) unit :=
  let! ok := ext (malloc_buf 0) in
  if negb ok then ext_ (k_msleep 10)
  else
    let! ok := ext (malloc_buf IPMB_BUFFER_SIZE) in
    if negb ok then ext_ (k_msleep 10)
    else
      let! buffer := gets (fun w => uninit_bytes IPMB_BUFFER_SIZE (w_ext w)) in
      do! (if cfg_interface cfg =? I2C_IF then
             let! r := ext (ipmb_slave_read (cfg_bus cfg)) in
             match r with
             | None => skip
             | Some msg =>
                 let rx_len := Z.of_nat (length msg) in
                 let! buffer := lift (rx_load buffer msg rx_len) in
                 if rx_len >? 0 then rx_frame cfg buffer rx_len else skip
             end
           else skip) in
      ext_ (k_msleep IPMB_POLLING_TIME_MS).

(** ** Set-up *)

(** [k_mutex_init] of Zephyr always succeeds; [osThreadNew] and the names of
    the threads have no state here.  The list head is a fresh node that
    points to itself. *)
Definition create_ipmb_threads (index : Z) : ST (world E) unit :=
  let! c := get_ch index in
  do! set_ch index (ch_set_seq_table (replicate (Z.to_nat SEQ_NUM) false) c) in
  let! p := malloc_node in
  let! c := get_ch index in
  do! set_ch index (ch_set_P_start p c) in
  if p =? 0 then skip
  else
    do! set_next p p in
    let! c := get_ch index in
    set_ch index (ch_set_msgq_init true c).

Fixpoint create_all (n : nat) (index : Z) : ST (world E) unit :=
  match n with
  | O => skip
  | S n' =>
      let! cfg := get_cfg index in
      do! (if cfg_enable_status cfg then create_ipmb_threads index else skip) in
      create_all n' (index + 1)
  end.

(** [table] is what [pal_load_ipmb_config] has filled in; [freq] the system
    timer frequency. *)
Definition ipmb_init (table : list IPMB_config) (freq : Z) : ST (world E) unit :=
  let! ok := ext (malloc_buf 0) in
  if negb ok then skip
  else
    do! modify (w_set_table table) in
    if negb pal_load_ipmb_config then skip
    else
      let! map := lift (channel_index_mapping table) in
      do! modify (w_set_map map) in
      do! modify (fun w => w_set_ch (ch_set_current_seq 0 <$> w_ch w) w) in
      do! modify (w_set_freq freq) in
      do! modify (w_set_tick_fix (freq / 1000)) in
      do! modify (fun w => w_set_ch (ch_set_mutex_init true <$> w_ch w) w) in
      do! modify (w_set_mutex_init true) in
      let! l := gets w_ch in
      create_all (length l) 0.
End Tasks.

(** * The wire *)

Definition tx_size (msg : ipmi_msg) : Z :=
  u8 (m_data_len msg + (if IS_RESPONSE msg then IPMB_RESP_HEADER_LENGTH
                        else IPMB_REQ_HEADER_LENGTH)).

(** What the I2C controller puts on the bus: the address byte and the data. *)
Definition on_wire (addr : Z) (data : list Z) : list Z := 2 * addr :: data.

Lemma frame_cons msg : exists t, frame msg = m_dest_addr msg :: t.
Proof. by eexists. Qed.

Lemma tx_data_run buffer msg :
  wf_msg msg -> header_len msg + m_data_len msg <= 254 -> (256 <= length buffer)%nat ->
  exists t, frame msg = m_dest_addr msg :: t /\
    arr_slice (frame msg ++ drop (length (frame msg)) buffer) 1 (tx_size msg) = Ret t /\
    tx_size msg = Z.of_nat (length t).
Proof.
  intros Hwf Hle Hbuf. destruct (frame_cons msg) as [t Ht]. exists t. split; [done|].
  destruct (wf_data_len _ Hwf) as [H0 _].
  assert (Hlen : Z.of_nat (length (frame msg)) = header_len msg + m_data_len msg + 1)
    by (apply length_frame; [done|apply short_max; lia]).
  assert (Hsz : tx_size msg = Z.of_nat (length t)).
  { rewrite Ht in Hlen. cbn [length] in Hlen. unfold tx_size, header_len in *.
    unfold IPMB_RESP_HEADER_LENGTH, IPMB_REQ_HEADER_LENGTH.
    rewrite u8_small; case_match; unfold is_u8; lia. }
  split; [|done]. rewrite Hsz, Ht. rewrite arr_slice_ok; [|lia|lia|].
  - change (Z.to_nat 1) with 1%nat. rewrite Nat2Z.id. simpl drop. f_equal.
    apply take_app_length.
  - cbn [app length]. rewrite length_app. lia.
Qed.

Lemma rx_load_run buffer addr t :
  is_u8 (2 * addr) -> (length t < length buffer)%nat ->
  rx_load buffer (on_wire addr t) (Z.of_nat (length (on_wire addr t))) =
    Ret ((addr :: t) ++ drop (S (length t)) buffer).
Proof.
  intros Ha Hlen. unfold rx_load, on_wire. cbn [length].
  replace (2 * addr :: t) with ([] ++ (2 * addr :: t) ++ []) by (by rewrite app_nil_r).
  change 0 with (Z.of_nat (length (@nil Z))) at 2.
  change (S (length t)) with (length (2 * addr :: t)) at 1.
  rewrite memcpy_prefix by (cbn [length]; lia). cbn [rbind app length].
  rewrite (arr_get_Ret _ 0 (2 * addr)) by done. cbn [rbind].
  rewrite arr_set_ok by (cbn [length]; lia). norm_to_nat. cbn [insert list_insert].
  rewrite Z.shiftr_div_pow2 by lia. change (2 ^ 1) with 2.
  replace (2 * addr) with (addr * 2) by lia. by rewrite Z.div_mul by lia.
Qed.

(** C29: what the transmit task sends, the receive task of the addressed
    controller accepts and decodes to a message with the same fields and the
    same data. *)
Theorem wire_roundtrip txbuf rxbuf m0 msg b e data :
  wf_msg m0 -> wf_msg msg -> wire_fields msg -> m_dest_addr msg < 128 ->
  header_len msg + m_data_len msg <= 254 ->
  Z.of_nat (length txbuf) = IPMB_BUFFER_SIZE -> Z.of_nat (length rxbuf) = IPMB_BUFFER_SIZE ->
  bytes rxbuf ->
  ipmb_encode txbuf msg = Ret (b, e) -> arr_slice b 1 (tx_size msg) = Ret data ->
  let packet := on_wire (m_dest_addr msg) data in
  let len := Z.of_nat (length packet) in
  exists rb m', rx_load rxbuf packet len = Ret rb /\
    validate_checksum rb len = Ret IPMB_ERROR_SUCCESS /\
    ipmb_decode m0 rb len = Ret (m', IPMB_ERROR_SUCCESS) /\ same_wire msg m'.
Proof.
  intros Hwf0 Hwf Hwire Haddr Hle Htx Hrx Hb Henc Hslice packet len.
  unfold IPMB_BUFFER_SIZE, IPMI_MSG_MAX_LENGTH, IPMI_DATA_MAX_LENGTH, IPMB_RESP_HEADER_LENGTH in *.
  rewrite ipmb_encode_run in Henc by (done || lia).
  assert (Eb : b = frame msg ++ drop (length (frame msg)) txbuf) by congruence. subst b.
  clear Henc.
  destruct (tx_data_run txbuf msg Hwf Hle ltac:(lia)) as (t & Ht & Hs & Hsz).
  rewrite Hs in Hslice. assert (data = t) as -> by congruence.
  assert (Hmax : m_data_len msg <= IPMI_MSG_MAX_LENGTH) by (apply short_max; lia).
  pose proof (length_frame msg Hwf Hmax) as Hfl.
  assert (Hlen : len = Z.of_nat (length (frame msg))) by (by rewrite Ht).
  destruct (wf_dest_addr _ Hwf) as [Ha0 _].
  assert (Ht255 : Z.of_nat (length t) <= 255).
  { rewrite <- Hsz. pose proof (u8_range (m_data_len msg + (if IS_RESPONSE msg
      then IPMB_RESP_HEADER_LENGTH else IPMB_REQ_HEADER_LENGTH))) as Hu. unfold is_u8 in Hu.
    unfold tx_size. lia. }
  exists (frame msg ++ drop (S (length t)) rxbuf), (decode_frame m0 msg).
  split; [|split; [|split]].
  - unfold packet, len. rewrite Ht. apply rx_load_run; [unfold is_u8; lia|lia].
  - rewrite Hlen. apply validate_frame; auto with word.
  - rewrite Hlen. by apply ipmb_decode_run.
  - by apply decode_frame_same.
Qed.

(** C37: a frame with a corrupted byte (other than an address error of 128)
    is dropped by the receive task: the whole program state stays as it was. *)
Theorem corrupted_frame_dropped {E} `{Kernel E} `{Platform E} cfg msg k x y rest (w : world E) :
  wf_msg msg -> header_len msg + m_data_len msg <= 254 -> bytes rest ->
  frame msg !! k = Some x -> is_u8 y -> y <> x -> (k = O -> (y - x) mod 128 <> 0) ->
  rx_frame cfg (<[k:=y]> (frame msg) ++ rest) (Z.of_nat (length (frame msg))) w = Ret (tt, w).
Proof.
  intros Hwf Hle Hr Hk Hy Hne H0k.
  destruct (corrupted_rejected msg k x y rest) as (e & He & Hf); try done.
  unfold rx_frame, bind, lift. rewrite He. cbn [rbind]. by rewrite Hf.
Qed.

(** * A concrete platform *)

(** KCS writes are appended to the wire of [sim], after the number 256 that
    no I2C address has. *)
#[export] Instance sim_platform : Platform sim := {|
  CONFIG_IPMI_KCS_ASPEED := true;
  ENABLE_MPRO := false;
  ENABLE_OEM_BRIDGE_NETFN_SHIFT := false;
  kcs_write := fun i d n s => (sim_write i 256 (take (Z.to_nat n) d) s).2;
  pldm_send_ipmb_rsp := fun _ s => s;
|}.

Lemma wire_roundtrip_witness :
  let packet := on_wire 0x20 [0x18; 0xA8; 0x40; 0x54; 0x01; 0x11; 0x22; 0xF3; 0x45] in
  exists rb m', rx_load (replicate 534 0) packet 10 = Ret rb /\
    validate_checksum rb 10 = Ret IPMB_ERROR_SUCCESS /\
    ipmb_decode zero_msg rb 10 = Ret (m', IPMB_ERROR_SUCCESS) /\ same_wire sample_req m'.
Proof.
  apply (wire_roundtrip (replicate 534 0) (replicate 534 0) zero_msg sample_req
    (frame sample_req ++ drop (length (frame sample_req)) (replicate 534 0)) IPMB_ERROR_SUCCESS).
  - apply wf_zero_msg.
  - apply wf_sample_req.
  - apply wire_sample_req.
  - done.
  - vm_compute. done.
  - by rewrite length_replicate.
  - by rewrite length_replicate.
  - by apply bytes_replicate.
  - apply ipmb_encode_run; [apply wf_sample_req|vm_compute; done|rewrite length_replicate; lia].
  - vm_compute. reflexivity.
Defined.

(** The first data byte of the sample frame is corrupted. *)
Lemma corrupted_frame_dropped_witness :
  rx_frame (mk_IPMB_config 0 I2C_IF BMC_IPMB 1 0x20 true 0x40)
    (<[6%nat := 0x12]> (frame sample_req) ++ [7; 7]) 10 (world1 sim0) = Ret (tt, world1 sim0).
Proof.
  apply (corrupted_frame_dropped (mk_IPMB_config 0 I2C_IF BMC_IPMB 1 0x20 true 0x40)
    sample_req 6%nat 0x11 0x12 [7; 7]); try done.
  - apply wf_sample_req.
  - repeat constructor; done.
Defined.
