(* ===== verification/IpmbTaskSpec.v ===== *)
(** What the threads of [ipmb/ipmb.c] achieve: a response is routed back to
    the source of the request it answers, a received request reaches the IPMI
    queue with its origin recorded, the transmit queue drains whatever the
    bus does, and [ipmb_init] establishes the invariant the operations keep. *)

From S2P Require Import Prelude IpmiDefs IpmbCodec World IpmbSeq IpmbSeqSpec IpmbApi.
From S2P Require Import IpmiQueue IpmbTasks.

(** * Routing of responses *)

(** The response to a bridged request: IANA number, channel, network
    function, command and completion code of the answer, then its data. *)
Record bridged (shift : bool) (channel : Z) (m b : ipmi_msg) : Prop := {
  br_wf : wf_msg b;
  br_payload : payload b = [0x23; 0xA1; 0x00; channel;
    (if shift then u8 (4 * m_netfn m) else m_netfn m); m_cmd m; m_completion_code m] ++ payload m;
  br_len : m_data_len b = m_data_len m + 7;
  br_netfn : m_netfn b = NETFN_OEM_1S_REQ;
  br_cmd : m_cmd b = CMD_OEM_1S_MSG_OUT;
  br_cc : m_completion_code b = CC_SUCCESS;
  br_seq : m_seq b = m_seq_source m;
}.

Lemma encode_bridge_run shift b0 m cfg tables tcfg :
  wf_msg b0 -> wf_msg m -> m_data_len m + 7 <= IPMI_MSG_MAX_LENGTH ->
  0 <= cfg_index cfg -> tables !! Z.to_nat (cfg_index cfg) = Some tcfg -> wf_cfg tcfg ->
  exists b, pal_encode_response_bridge_cmd shift b0 m cfg tables = Ret b /\
    bridged shift (cfg_channel tcfg) m b.
Proof.
  intros Hb Hm Hlen Hi Ht (_ & _ & Hch & _).
  pose proof (wf_length _ Hb) as Hbl. pose proof (wf_length _ Hm) as Hml.
  destruct (wf_data_len _ Hm) as [H0 _].
  unfold IPMI_MSG_MAX_LENGTH, IPMI_DATA_MAX_LENGTH, IPMB_RESP_HEADER_LENGTH in *.
  unfold pal_encode_response_bridge_cmd. rewrite (arr_get_Ret _ _ tcfg) by done.
  pose proof (wf_bytes _ Hb) as Hbb.
  destruct (m_data b0) as [|x0 [|x1 [|x2 [|x3 [|x4 [|x5 [|x6 t]]]]]]];
    cbn [length] in Hbl; try lia.
  do 7 arr_set_lit. unfold memcpy. rewrite arr_slice_ok by lia. cbn [rbind]. rewrite drop_0.
  fold (payload m). assert (Hp : length (payload m) = Z.to_nat (m_data_len m))
    by (unfold payload; rewrite length_take; lia).
  rewrite arr_blit_ok by (cbn [length]; lia). change (Z.to_nat 7) with 7%nat.
  cbn [rbind take drop Nat.add]. rewrite take_0. cbn [app].
  eexists. split; [reflexivity|].
  assert (Hu : u16 (m_data_len m + 7) = m_data_len m + 7)
    by (apply u16_small; unfold is_u16; lia).
  split; try done.
  - assert (Hhead : is_u8 (if shift then u8 (Z.shiftl (m_netfn m) 2) else m_netfn m))
      by (destruct shift; auto with word; apply Hm).
    repeat apply Forall_inv_tail in Hbb. destruct Hm. wf_auto.
    + cbn [length]. rewrite length_app, length_drop.
      unfold IPMI_MSG_MAX_LENGTH, IPMI_DATA_MAX_LENGTH, IPMB_RESP_HEADER_LENGTH. lia.
    + repeat (apply bytes_cons; [done|]). unfold payload. auto with word.
  - unfold payload at 1. cbn [m_data m_data_len with_seq with_completion_code with_cmd
      with_netfn with_data with_data_len]. rewrite Hu.
    replace (Z.to_nat (m_data_len m + 7)) with (7 + Z.to_nat (m_data_len m))%nat by lia.
    cbn [app take Nat.add]. rewrite Z.shiftl_mul_pow2 by lia. rewrite (Z.mul_comm (m_netfn m)).
    rewrite take_app_length' by lia. reflexivity.
Qed.

(** Sources whose responses are bridged. *)
Definition bridged_source (s : Z) : Prop :=
  s <> SELF /\ Z.land s 0xF0 <> HOST_KCS_1 /\ s <> MPRO_PLDM /\ s <> ME_IPMB /\
  s <> PLDM /\ s <> MCTP.

Section Route.
Context {E : Type} `{Kernel E} `{Platform E}.
Implicit Types w : world E.

Lemma quiet_refl w : quiet w w.
Proof. exists (w_ext w). by destruct w. Qed.

Lemma quiet_step w1 w2 w3 : quiet w1 w2 -> quiet w2 w3 -> quiet w1 w3.
Proof. intros [e1 ->] [e2 ->]. by exists e2. Qed.

Lemma ready_quiet w w' i ch cfg : ready w i ch cfg -> quiet w w' -> ready w' i ch cfg.
Proof. intros [] [e ->]. by split. Qed.

(** All that [rx_bridge] does outside, from [e] to [e']: it asks for a buffer and,
    when it gets one, takes the lock of the responses; when it gets that too, it
    puts the answer to [m] into the transmit queue of index [k]. *)
Definition answer_sent (channel k : Z) (cfgk : IPMB_config) (m : ipmi_msg) (e e' : E) : Prop :=
  let '(ok, e1) := malloc_buf 0 e in
  if ok then
    if (k_mutex_lock mutex_send_res 1000 e1).1 =? 0 then
      exists b c st, bridged ENABLE_OEM_BRIDGE_NETFN_SHIFT channel m b /\
        response_queued cfgk b c /\ sent mutex_send_res k c e1 st e'
    else e' = locked mutex_send_res 1000 e1
  else e' = e1.

Lemma rx_bridge_run cfg tcfg m k chk cfgk w :
  wf_msg m -> m_data_len m + 7 <= IPMI_MSG_MAX_LENGTH -> bridged_source (m_InF_source m) ->
  0 <= cfg_index cfg -> w_table w !! Z.to_nat (cfg_index cfg) = Some tcfg -> wf_cfg tcfg ->
  w_map w !! Z.to_nat (m_InF_source m) = Some k -> ready w k chk cfgk ->
  wp (rx_bridge cfg m) (fun _ w' => quiet w w' /\
    answer_sent (cfg_channel tcfg) k cfgk m (w_ext w) (w_ext w')) w.
Proof.
  intros Hm Hlen (_ & _ & _ & _ & Hp & Hc) Hi Ht Htc Hmap Hrd.
  apply wp_bind, wp_ext. intros ok e Hok. unfold answer_sent. rewrite Hok. destruct ok; cbn [negb].
  2: { apply wp_skip. split; [by exists e|done]. }
  apply wp_bind, wp_gets, wp_bind, wp_lift. wcbn.
  destruct (encode_bridge_run ENABLE_OEM_BRIDGE_NETFN_SHIFT zero_msg m cfg (w_table w) tcfg)
    as (b & -> & Hb); try done; [apply wf_zero_msg|]. cbn [rwp].
  rewrite (proj2 (Z.eqb_neq _ _) Hp), (proj2 (Z.eqb_neq _ _) Hc). cbn [orb].
  unfold inf_index. apply wp_bind, wp_bind, wp_gets, wp_lift. wcbn.
  rewrite (arr_get_Ret _ _ k) by (done || apply Hm). cbn [rwp]. apply wp_bind.
  eapply wp_mono; [apply (send_response_run k chk cfgk)|].
  - eapply ready_quiet; [exact Hrd|by exists e].
  - apply Hb.
  - rewrite (br_len _ _ _ _ Hb). done.
  - intros st w' [Hq Hpost]. apply wp_skip. split; [by eapply quiet_step; [exists e|]|].
    destruct Hpost as [(Hf & _ & ->)|(Hf & c & Hc' & Hs)].
    + by rewrite (proj2 (Z.eqb_neq _ 0)).
    + destruct (Z.eqb_spec (k_mutex_lock mutex_send_res 1000 e).1 0); [|by destruct Hf].
      by exists b, c, st.
Qed.

(** An operation on one index leaves every index ready. *)
Lemma ready_upd i ch l ch' l' w w' k chk cfgk :
  ready w k chk cfgk -> holds w i ch l -> holds w' i ch' l' -> upd i ch l w ch' l' w' ->
  exists chk', ready w' k chk' cfgk.
Proof.
  intros [Hk Hck Hcfg Hwf H1 H2 H3 H4 H5] (Hi & Hch & _) (_ & Hch' & Hok') Hu.
  destruct (up_globals _ _ _ _ _ _ _ Hu) as [Gt _ _ _ _ _ Gi].
  destruct (decide (k = i)) as [->|Hne].
  - simplify_eq. exists ch'. pose proof (up_cur _ _ _ _ _ _ _ Hu) as Hr.
    unfold ch_rest in Hr. injection Hr as Hr0 Hr1 Hr2.
    split; try congruence. apply Hok'.
  - exists chk. split; try congruence. rewrite (up_ch _ _ _ _ _ _ _ Hu).
    rewrite list_lookup_insert_ne; [done|]. lia.
Qed.

Lemma wf_answer m req : wf_msg m -> wf_msg req -> wf_msg (answer m req).
Proof. intros Hm []. unfold answer. wf_auto. Qed.
End Route.

Section RouteTheorems.
Context {E : Type} `{Kernel E} `{Platform E}.
Implicit Types w : world E.


(** A response that answers no outstanding request is ignored: apart
    from taking and releasing the list lock during the search, the handler
    does nothing, and the program state is unchanged. *)
Theorem unsolicited_response_ignored w ch l cfg m :
  let i := cfg_index cfg in
  let m' := with_seq_target (m_seq m) m in
  holds w i ch l -> remove_first (req_matches m') l.*2 = None ->
  rx_response cfg m w = bind (find_req_ipmi_msg (ch_P_start ch) m' i) (fun _ => skip) w /\
  wp (rx_response cfg m) (fun _ w' => quiet w w') w.
Proof.
  intros i m' Hh Hrem. destruct (wp_inv _ _ _ (find_req_run i ch l m' w Hh))
    as ([found m1] & w1 & Hrun & Hheld & [([= -> ->] & Hq & _)|(? & ? & ? & ? & ? & _)]);
    [|congruence].
  assert (Hrx : rx_response cfg m w = Ret (tt, w1)).
  { unfold rx_response. fold m' i. rewrite (bind_Ret _ _ w ch w).
    - by rewrite (bind_Ret _ _ w (false, m') w1).
    - destruct Hh as (Hi & Hch & _). unfold get_ch, bind, gets, lift. cbn [rbind].
      by rewrite (arr_get_Ret _ _ ch). }
  split; [|by apply (wp_of_eq _ _ _ tt w1)].
  by rewrite Hrx, (bind_Ret _ _ w (false, m') w1).
Qed.
End RouteTheorems.

Definition cfg1 : IPMB_config := mk_IPMB_config 0 I2C_IF BMC_IPMB 1 0x20 true 0x40.


Lemma unsolicited_response_ignored_witness :
  wp (rx_response cfg1 (with_seq 6 resp5))
    (fun _ w' => quiet (world1 sim0) w') (world1 sim0).
Proof.
  apply (unsolicited_response_ignored (world1 sim0) chan1 list1
    cfg1 (with_seq 6 resp5) (holds1 sim0)).
  done.
Defined.

(** * Delivery of requests *)

Section RequestTheorems.
Context {E : Type} `{Kernel E} `{Platform E} (q : E -> list ipmi_msg_cfg) (Hq : queue_laws q).
Implicit Types w : world E.

End RequestTheorems.


(** * The transmit queue drains *)

(** The documented behaviour of the transmit queue of index [i], whose content
    is [q]: first in, first out; the other services leave it alone. *)
Record tx_laws {E} `{Kernel E} (i : Z) (q : E -> list ipmi_msg_cfg) : Prop := {
  tl_get : forall e c t, q e = c :: t -> exists e', k_msgq_get_tx i e = (c, e') /\ q e' = t;
  tl_put : forall c ms e r e', k_msgq_put_tx i c ms e = (r, e') ->
    q e' = if r =? 0 then q e ++ [c] else q e;
  tl_malloc : forall n e b e', malloc_buf n e = (b, e') -> q e' = q e;
  tl_write : forall bus addr d e r e', i2c_master_write bus addr d e = (r, e') -> q e' = q e;
  tl_sleep : forall ms e, q (k_msleep ms e) = q e;
}.

(** A response that fits a frame. *)
Definition sendable (c : ipmi_msg_cfg) : Prop :=
  wf_msg (c_buffer c) /\ IS_RESPONSE (c_buffer c) = true /\ is_u8 (c_retries c) /\
  header_len (c_buffer c) + m_data_len (c_buffer c) <= 254.

(** The transmissions a queued response still has, counting its removal. *)
Definition tx_weight (c : ipmi_msg_cfg) : nat :=
  S (Z.to_nat (IPMB_TX_RETRY_TIME + 1 - c_retries c)).
Definition queue_weight (q : list ipmi_msg_cfg) : nat := list_sum (tx_weight <$> q).

Section Drain.
Context {E : Type} `{Kernel E} `{Platform E} (cfg : IPMB_config) (q : E -> list ipmi_msg_cfg)
  (Hcfg : wf_cfg cfg) (Hq : tx_laws (cfg_index cfg) q).
Implicit Types w : world E.

(** The state and the queue are as before. *)
Definition still w w' : Prop := quiet w w' /\ q (w_ext w') = q (w_ext w).

Lemma still_trans w1 w2 w3 : still w1 w2 -> still w2 w3 -> still w1 w3.
Proof. intros [H1 H2] [H3 H4]. split; [by eapply quiet_step|congruence]. Qed.

Lemma malloc_retry_run n size w : wp (malloc_retry n size) (fun _ w' => still w w') w.
Proof.
  revert w. induction n as [|n IH]; intros w; [apply wp_ret; split; [apply quiet_refl|done]|].
  apply wp_bind, wp_ext. intros b e Hb. apply (tl_malloc _ _ Hq) in Hb.
  assert (Hs : still w (w_set_ext e w)) by (split; [by exists e|done]).
  destruct b; [by apply wp_ret|]. apply wp_bind, wp_ext_.
  eapply wp_mono; [apply IH|]. intros b w' Hw'. eapply still_trans; [|exact Hw'].
  split; [eexists; reflexivity|]. wcbn. by rewrite (tl_sleep _ _ Hq).
Qed.

Lemma i2c_send_run buffer size w :
  0 <= size -> 1 + size <= Z.of_nat (length buffer) ->
  wp (i2c_send cfg buffer size) (fun _ w' => still w w') w.
Proof.
  intros Hnn Hsz. apply wp_bind. eapply wp_mono; [apply malloc_retry_run|].
  intros ok w1 Hs1. destruct ok; cbn [negb]; [|by apply wp_ret].
  apply wp_bind, wp_lift. rewrite arr_slice_ok by lia. cbn [rwp].
  apply wp_bind, wp_ext. intros r e Hr. apply (tl_write _ _ Hq) in Hr. apply wp_ret.
  eapply still_trans; [exact Hs1|]. split; [by exists e|done].
Qed.

(** The next attempt of [c]. *)
Definition retried (c : ipmi_msg_cfg) : ipmi_msg_cfg :=
  with_retries (c_retries c + 1)
    (with_buffer (with_dest_addr (cfg_channel_target_address cfg) (c_buffer c)) c).

Lemma tx_response_run buffer c w :
  sendable c -> Z.of_nat (length buffer) = IPMB_BUFFER_SIZE ->
  wp (tx_response cfg buffer c) (fun _ w' => quiet w w' /\
    (q (w_ext w') = q (w_ext w) \/
     (c_retries c <= IPMB_TX_RETRY_TIME /\ q (w_ext w') = q (w_ext w) ++ [retried c]))) w.
Proof.
  intros (Hwf & Hr & Hu & Hle) Hbuf. unfold tx_response.
  unfold IPMB_BUFFER_SIZE, IPMI_MSG_MAX_LENGTH, IPMI_DATA_MAX_LENGTH, IPMB_RESP_HEADER_LENGTH in Hbuf.
  destruct (Z.gtb_spec (c_retries c) IPMB_TX_RETRY_TIME) as [|Hret];
    [apply wp_skip; split; [apply quiet_refl|by left]|].
  assert (Hstill : forall w w', still w w' -> quiet w w' /\
    (q (w_ext w') = q (w_ext w) \/
     (c_retries c <= IPMB_TX_RETRY_TIME /\ q (w_ext w') = q (w_ext w) ++ [retried c])))
    by (intros ? ? []; auto).
  cbn [c_buffer with_buffer]. set (m := with_dest_addr _ (c_buffer c)).
  assert (Hm : wf_msg m) by (apply wf_with_dest_addr; [done|apply Hcfg]).
  apply wp_bind, wp_lift. rewrite ipmb_encode_run; [|done|change (header_len (c_buffer c) +
    m_data_len (c_buffer c) <= 255); lia|lia]. cbn [rwp].
  change (m_data_len m) with (m_data_len (c_buffer c)).
  destruct (cfg_interface cfg =? I2C_IF); [|apply wp_skip; apply Hstill; split; [apply quiet_refl|done]].
  apply wp_bind. eapply wp_mono; [apply i2c_send_run; [apply u8_range|]|].
  { rewrite length_app, length_drop.
    pose proof (u8_range (m_data_len (c_buffer c) + IPMB_RESP_HEADER_LENGTH)) as Hu8.
    unfold is_u8 in Hu8. lia. }
  intros [r|] w1 [Hq1 Hqq]; [|apply wp_skip; by apply Hstill].
  destruct (negb (r =? 0)); [|apply wp_skip; by apply Hstill].
  apply wp_bind, wp_ext. intros r2 e2 Hput. apply wp_ext_. wcbn.
  split; [eapply quiet_step; [exact Hq1|]; by eexists|]. rewrite (tl_sleep _ _ Hq).
  apply (tl_put _ _ Hq) in Hput. rewrite Hput, Hqq.
  change (c_retries (with_buffer m c)) with (c_retries c).
  rewrite (u8_small (c_retries c + 1)) by (unfold is_u8, IPMB_TX_RETRY_TIME in *; lia).
  destruct (r2 =? 0); [by right|by left].
Qed.

Lemma tx_task_run c t ch w :
  0 <= cfg_index cfg -> w_ch w !! Z.to_nat (cfg_index cfg) = Some ch ->
  (forall n e, (malloc_buf n e).1 = true) -> q (w_ext w) = c :: t -> sendable c ->
  wp (IPMB_TXTask cfg) (fun _ w' => quiet w w' /\
    (q (w_ext w') = t \/
     (c_retries c <= IPMB_TX_RETRY_TIME /\ q (w_ext w') = t ++ [retried c]))) w.
Proof.
  intros Hi Hch Hmem Hqc Hc. unfold IPMB_TXTask. apply wp_bind, wp_ext. intros b e1 Hb.
  assert (b = true) as -> by (specialize (Hmem 0 (w_ext w)); by rewrite Hb in Hmem).
  apply (tl_malloc _ _ Hq) in Hb. cbn [negb]. apply wp_bind, wp_ext. wcbn. intros c' e2 Hget.
  rewrite Hqc in Hb. destruct (tl_get _ _ Hq _ _ _ Hb) as (e3 & Hget' & Hqt).
  rewrite Hget in Hget'. injection Hget' as -> ->.
  apply wp_bind, (wp_get_ch _ ch); [done..|]. apply wp_bind.
  eapply (wp_mono _ (fun r w' => r = true /\ quiet w w' /\ (q (w_ext w') = t \/
     (c_retries c <= IPMB_TX_RETRY_TIME /\ q (w_ext w') = t ++ [retried c])))).
  - destruct (ch_tx_disable ch).
    { apply wp_ret. split; [done|]. split; [by exists e3|by left]. }
    apply wp_bind, wp_gets. rewrite (proj1 (proj2 Hc)). apply wp_bind.
    eapply wp_mono; [apply tx_response_run; [done|by apply uninit_bytes_length]|].
    intros _ w' [Hq' Hor]. apply wp_ret. split; [done|]. split.
    + eapply quiet_step; [|exact Hq']. by exists e3.
    + wcbn. cbn [w_ext w_set_ext] in Hor. by rewrite Hqt in Hor.
  - intros r w' (-> & Hq' & Hor). apply wp_ext_. wcbn. rewrite (tl_sleep _ _ Hq).
    split; [|done]. eapply quiet_step; [exact Hq'|]. by eexists.
Qed.

(** [n] iterations of the task. *)
Fixpoint tx_iterations (n : nat) : ST (world E) unit :=
  match n with O => skip | S n' => do! IPMB_TXTask cfg in tx_iterations n' end.

Lemma retried_sendable c : sendable c -> c_retries c <= IPMB_TX_RETRY_TIME -> sendable (retried c).
Proof.
  intros (Hwf & Hr & Hu & Hle) Hret. split; [|split; [done|split; [|done]]].
  - apply wf_with_dest_addr; [done|apply Hcfg].
  - cbn. unfold is_u8, IPMB_TX_RETRY_TIME in *. lia.
Qed.

Lemma retried_weight c : c_retries c <= IPMB_TX_RETRY_TIME ->
  (tx_weight (retried c) < tx_weight c)%nat.
Proof. unfold tx_weight, retried. cbn [c_retries with_retries]. unfold IPMB_TX_RETRY_TIME. lia. Qed.

Lemma tx_drains_run n ch w :
  0 <= cfg_index cfg -> w_ch w !! Z.to_nat (cfg_index cfg) = Some ch ->
  (forall k e, (malloc_buf k e).1 = true) -> Forall sendable (q (w_ext w)) ->
  (queue_weight (q (w_ext w)) <= n)%nat ->
  exists k w', (k <= n)%nat /\ tx_iterations k w = Ret (tt, w') /\ q (w_ext w') = [] /\ quiet w w'.
Proof.
  intros Hi Hch Hmem. revert w Hch. induction n as [|n IH]; intros w Hch Hs Hn;
    destruct (q (w_ext w)) as [|c t] eqn:Hqc; try (exists O, w; repeat split; [lia|done|apply quiet_refl]).
  { unfold queue_weight in Hn. cbn in Hn. unfold tx_weight in Hn. lia. }
  inversion Hs as [|? ? Hc Ht]; subst.
  destruct (wp_inv _ _ _ (tx_task_run c t ch w Hi Hch Hmem Hqc Hc)) as ([] & w1 & Hrun & Hq1 & Hor).
  assert (Hch1 : w_ch w1 !! Z.to_nat (cfg_index cfg) = Some ch) by (by destruct Hq1 as [e ->]).
  destruct (IH w1 Hch1) as (k & w' & Hk & Hit & Hnil & Hq').
  - destruct Hor as [->|[Hr ->]]; [done|]. apply Forall_app. split; [done|].
    constructor; [by apply retried_sendable|done].
  - assert (Hw : (0 < tx_weight c)%nat) by apply Nat.lt_0_succ.
    change (tx_weight c + queue_weight t <= S n)%nat in Hn. destruct Hor as [->|[Hr ->]]; [lia|].
    unfold queue_weight in *. rewrite fmap_app, list_sum_app.
    change (list_sum (tx_weight <$> [retried c])) with (tx_weight (retried c) + 0)%nat.
    pose proof (retried_weight c Hr). lia.
  - exists (S k), w'. split; [lia|]. split; [|split; [done|by eapply quiet_step]].
    cbn [tx_iterations]. by rewrite (bind_Ret _ _ w tt w1).
Qed.
End Drain.

Section DrainTheorems.
Context {E : Type} `{Kernel E} `{Platform E} (cfg : IPMB_config) (q : E -> list ipmi_msg_cfg)
  (Hq : tx_laws (cfg_index cfg) q).
Implicit Types w : world E.

End DrainTheorems.

(** Two responses on a bus that never acknowledges. *)
Definition mem_kernel : Kernel sim :=
  sim_with sim_lock sim_malloc sim_malloc_fresh sim_free_ipmi (fun _ => true).

Lemma sim_tx_laws i : @tx_laws sim mem_kernel i (fun s => (s_txq s).*2).
Proof.
  split; simpl.
  - intros e c t Hq. unfold sim_get_tx. destruct (s_txq e) as [|[j c'] r]; [done|].
    cbn in Hq. injection Hq as -> <-. by eexists.
  - intros c ms e r e' [= <- <-]. cbn. by rewrite fmap_app.
  - by intros n e b e' [= _ <-].
  - by intros bus addr d e r e' [= _ <-].
  - done.
Qed.

Definition resp_cfg : ipmi_msg_cfg := mk_ipmi_msg_cfg resp5 0 0.

Definition deaf_sim : sim :=
  mk_sim false false 1 0 [(0, resp_cfg); (0, resp_cfg)] [] [] [] [].


(** * Set-up *)

(** The state before [ipmb_init]: static storage is zero. *)
Definition boot_channel : channel := mk_channel 0 0 0 (replicate 64 false) false false false.

Record booted {E} (n : nat) (w : world E) : Prop := {
  bt_ch : w_ch w = replicate n boot_channel;
  bt_heap : w_heap w = ∅;
}.

(** The set-up in progress: the mutexes are initialised, and the channels
    that have a list head have an empty list of their own. *)
Record booting {E} (n : nat) (w : world E) : Prop := {
  bo_length : length (w_ch w) = n;
  bo_null : w_heap w !! 0 = None;
  bo_init : w_mutex_init w = true;
  bo_ch : forall j ch, w_ch w !! j = Some ch ->
    ch_current_seq ch = 0 /\ ch_mutex_init ch = true /\ ch_seq_current_count ch = 0 /\
    length (ch_seq_table ch) = Z.to_nat SEQ_NUM /\
    (ch_P_start ch = 0 \/ (ch_msgq_init ch = true /\ ring (w_heap w) (ch_P_start ch) []));
  bo_heads : forall j k cj ck, j <> k -> w_ch w !! j = Some cj -> w_ch w !! k = Some ck ->
    ch_P_start cj = ch_P_start ck -> ch_P_start cj = 0;
}.

Section Boot.
Context {E : Type} `{Kernel E}.
Implicit Types w : world E.

Lemma booting_world_ok n w : booting n w -> world_ok w (replicate n []).
Proof.
  intros [Hl Hn Hi Hch Hh]. split.
  - by rewrite length_replicate.
  - intros i ch l Hc [-> _]%lookup_replicate. destruct (Hch _ _ Hc) as (_ & _ & H1 & H2 & [H0|[_ Hr]]);
      [by left|right]. by split.
  - intros i j ci cj li lj x Hij Hci [-> _]%lookup_replicate Hcj [-> _]%lookup_replicate.
    unfold addrs. intros ->%list_elem_of_singleton Heq%list_elem_of_singleton. by apply (Hh i j ci cj).
Qed.

Lemma booting_ready n w i ch cfg :
  booting n w -> w_ch w !! i = Some ch -> w_table w !! i = Some cfg -> wf_cfg cfg ->
  ch_P_start ch <> 0 -> ready w (Z.of_nat i) ch cfg /\ holds w (Z.of_nat i) ch [].
Proof.
  intros [Hl Hn Hi Hch _] Hc Ht Hwf Hp.
  destruct (Hch _ _ Hc) as (H1 & H2 & H3 & H4 & [H0|[Hm Hr]]); [done|].
  split; [split|split; [|split; [|by split]]]; rewrite ?Nat2Z.id; try done; try lia.
  by rewrite H1.
Qed.

(** A channel gets a list head of its own, with an empty list. *)
Lemma booting_created n k w c1 p m w' :
  booting n w -> (k < n)%nat -> 0 < p -> w_heap w !! p = None ->
  ch_P_start c1 = p -> ch_msgq_init c1 = true -> ch_current_seq c1 = 0 -> ch_mutex_init c1 = true ->
  ch_seq_current_count c1 = 0 -> length (ch_seq_table c1) = Z.to_nat SEQ_NUM ->
  w_ch w' = <[k := c1]> (w_ch w) -> w_heap w' = <[p := mk_ipmi_msg_cfg m 0 p]> (w_heap w) ->
  w_mutex_init w' = w_mutex_init w -> booting n w'.
Proof.
  intros [Hl Hn Hi Hch Hh] Hk Hp Hfresh Hc1 Hq1 Hs1 Hm1 Hcnt1 Ht1 Ec Eh Em.
  assert (Hlt : (k < length (w_ch w))%nat) by lia.
  assert (Hnew : forall j ch, w_ch w !! j = Some ch -> ch_P_start ch <> p \/ ch_P_start ch = 0).
  { intros j ch Hj. destruct (Hch _ _ Hj) as (_ & _ & _ & _ & [?|[_ ((x & Hx & _) & _)]]);
      [by right|left; congruence]. }
  split; rewrite ?Ec, ?Eh, ?Em.
  - by rewrite length_insert.
  - by rewrite lookup_insert_ne by lia.
  - done.
  - intros j ch Hj. destruct (decide (j = k)) as [->|Hjk].
    + rewrite list_lookup_insert_eq in Hj by done. injection Hj as <-.
      repeat (split; [done|]). right. split; [done|]. rewrite Hc1. split; [|split].
      * eexists. by rewrite lookup_insert_eq.
      * apply NoDup_singleton.
      * intros Heq%list_elem_of_singleton. cbn in Heq. lia.
    + rewrite list_lookup_insert_ne in Hj by done.
      destruct (Hch _ _ Hj) as (G1 & G2 & G3 & G4 & [?|[Gm ((x & Hx & Gx) & Hnd & H0)]]);
        repeat (split; [done|]); [by left|right].
      split; [done|]. split; [|done]. exists x. rewrite lookup_insert_ne; [done|]. congruence.
  - intros i j ci cj Hij Hci Hcj Heq.
    destruct (decide (i = k)) as [->|Hik], (decide (j = k)) as [->|Hjk]; [done| | |].
    + rewrite list_lookup_insert_eq in Hci by done. rewrite list_lookup_insert_ne in Hcj by done.
      injection Hci as <-. rewrite Hc1 in *. destruct (Hnew _ _ Hcj); congruence.
    + rewrite list_lookup_insert_ne in Hci by done. rewrite list_lookup_insert_eq in Hcj by done.
      injection Hcj as <-. rewrite Hc1 in *. destruct (Hnew _ _ Hci); congruence.
    + rewrite list_lookup_insert_ne in Hci by done. rewrite list_lookup_insert_ne in Hcj by done.
      by apply (Hh i j ci cj).
Qed.

(** Without memory a channel stays without a list head. *)
Lemma booting_null n k w c c1 w' :
  booting n w -> w_ch w !! k = Some c -> ch_P_start c1 = 0 ->
  ch_current_seq c1 = 0 -> ch_mutex_init c1 = true -> ch_seq_current_count c1 = 0 ->
  length (ch_seq_table c1) = Z.to_nat SEQ_NUM -> w_ch w' = <[k := c1]> (w_ch w) ->
  w_heap w' = w_heap w -> w_mutex_init w' = w_mutex_init w -> booting n w'.
Proof.
  intros [Hl Hn Hi Hch Hh] Hk Hp Hs1 Hm1 Hcnt1 Ht1 Ec Eh Em.
  assert (Hlt : (k < length (w_ch w))%nat) by (by eapply lookup_lt_Some).
  split; rewrite ?Ec, ?Eh, ?Em; [by rewrite length_insert|done|done| |].
  - intros j ch Hj. destruct (decide (j = k)) as [->|Hjk].
    + rewrite list_lookup_insert_eq in Hj by done. injection Hj as <-.
      repeat (split; [done|]). by left.
    + rewrite list_lookup_insert_ne in Hj by done. by apply Hch in Hj.
  - intros i j ci cj Hij Hci Hcj Heq.
    destruct (decide (i = k)) as [->|Hik], (decide (j = k)) as [->|Hjk]; [done| | |].
    + rewrite list_lookup_insert_eq in Hci by done. by injection Hci as <-.
    + rewrite list_lookup_insert_eq in Hcj by done. injection Hcj as <-. congruence.
    + rewrite list_lookup_insert_ne in Hci by done. rewrite list_lookup_insert_ne in Hcj by done.
      by apply (Hh i j ci cj).
Qed.

(** The list heads of the indices with the configurations [cfgs], when the
    blocks [live] are allocated: one call of [malloc] per enabled index, in
    order; NULL for the others. *)
Fixpoint list_heads (cfgs : list IPMB_config) (live : gset Z) (e : E) : list Z :=
  match cfgs with
  | [] => []
  | cfg :: cfgs =>
      if cfg_enable_status cfg then
        let '(a, e) := malloc live e in
        a :: list_heads cfgs (if a =? 0 then live else {[a]} ∪ live) e
      else 0 :: list_heads cfgs live e
  end.

Lemma create_run n k w :
  booting n w -> (k < n)%nat ->
  wp (create_ipmb_threads (Z.of_nat k)) (fun _ w' => booting n w' /\ w_held w' = w_held w /\
    same_globals w w' /\ exists ch, w_ch w' = <[k := ch]> (w_ch w) /\
    malloc (dom (w_heap w)) (w_ext w) = (ch_P_start ch, w_ext w') /\
    dom (w_heap w') = if ch_P_start ch =? 0 then dom (w_heap w) else {[ch_P_start ch]} ∪ dom (w_heap w)) w.
Proof.
  intros Hb Hk. pose proof Hb as [Hl Hn Hi Hch Hh].
  destruct (lookup_lt_is_Some_2 (w_ch w) k) as [c Hc]; [lia|].
  destruct (Hch _ _ Hc) as (H1 & H2 & H3 & H4 & _).
  assert (Hlt : (k < length (w_ch w))%nat) by lia.
  unfold create_ipmb_threads.
  apply wp_bind, (wp_get_ch _ c); [lia|by rewrite Nat2Z.id|].
  apply wp_bind, (wp_set_ch _ _ c); [lia|by rewrite Nat2Z.id|]. rewrite Nat2Z.id.
  set (c1 := ch_set_seq_table _ c).
  assert (Hk1 : forall x, <[k := x]> (w_ch w) !! Z.to_nat (Z.of_nat k) = Some x)
    by (intros; rewrite Nat2Z.id; by apply list_lookup_insert_eq).
  apply wp_bind, wp_malloc_node_ext; wcbn.
  { intros e Hm. apply wp_bind, (wp_get_ch _ c1); [lia|by wcbn|].
    apply wp_bind, (wp_set_ch _ _ c1); [lia|by wcbn|]. apply wp_skip. wcbn.
    rewrite Nat2Z.id, list_insert_insert_eq.
    split; [|split; [done|split; [done|]]].
    - by eapply (booting_null n k w c (ch_set_P_start 0 c1)).
    - eexists. split; [reflexivity|]. by split. }
  intros p m e Hp Hfresh Hm. wcbn.
  apply wp_bind, (wp_get_ch _ c1); [lia|by wcbn|]. apply wp_bind, (wp_set_ch _ _ c1); [lia|by wcbn|].
  rewrite (proj2 (Z.eqb_neq p 0)) by lia. rewrite Nat2Z.id. wcbn. rewrite list_insert_insert_eq.
  apply wp_bind, (wp_set_next _ _ (mk_ipmi_msg_cfg m 0 0)); [by wcbn; rewrite lookup_insert_eq|].
  wcbn. rewrite insert_insert_eq.
  apply wp_bind, (wp_get_ch _ (ch_set_P_start p c1)); [lia|by wcbn|].
  apply (wp_set_ch _ _ (ch_set_P_start p c1)); [lia|by wcbn|].
  rewrite Nat2Z.id. wcbn. rewrite list_insert_insert_eq. set (c2 := ch_set_msgq_init true _).
  split; [|split; [done|split; [done|exists c2; split; [done|split; [done|]]]]].
  - by eapply (booting_created n k w c2 p m).
  - cbn. rewrite (proj2 (Z.eqb_neq p 0)) by lia. apply dom_insert_L.
Qed.

Lemma create_all_run table c k w :
  w_table w = table -> booting (length table) w -> (k + c = length table)%nat ->
  (forall j ch, (k <= j)%nat -> w_ch w !! j = Some ch -> ch_P_start ch = 0) ->
  wp (create_all c (Z.of_nat k)) (fun _ w' => booting (length table) w' /\ w_held w' = w_held w /\
    w_table w' = table /\ (forall j, (j < k)%nat -> w_ch w' !! j = w_ch w !! j) /\
    drop k (ch_P_start <$> w_ch w') = list_heads (drop k table) (dom (w_heap w)) (w_ext w)) w.
Proof.
  revert k w. induction c as [|c IH]; intros k w Ht Hb Hk Hz; cbn [create_all].
  { apply wp_skip. repeat (split; [done|]). rewrite !drop_ge by (rewrite ?length_fmap, ?(bo_length _ _ Hb); lia).
    done. }
  destruct (lookup_lt_is_Some_2 table k) as [cfg Hcfg]; [lia|].
  apply wp_bind, (wp_get_cfg _ cfg); [lia|by rewrite Nat2Z.id, Ht|]. apply wp_bind.
  rewrite (drop_S table cfg k Hcfg). cbn [list_heads].
  eapply (wp_mono _ (fun _ w' => booting (length table) w' /\ w_held w' = w_held w /\ w_table w' = table /\
    exists ch, w_ch w' = <[k := ch]> (w_ch w) /\
    (if cfg_enable_status cfg then
       let '(a, e) := malloc (dom (w_heap w)) (w_ext w) in
       a :: list_heads (drop (S k) table) (if a =? 0 then dom (w_heap w) else {[a]} ∪ dom (w_heap w)) e
     else 0 :: list_heads (drop (S k) table) (dom (w_heap w)) (w_ext w)) =
    ch_P_start ch :: list_heads (drop (S k) table) (dom (w_heap w')) (w_ext w'))).
  - destruct (cfg_enable_status cfg).
    + eapply wp_mono; [apply (create_run (length table) k); [done|lia]|].
      intros _ w' (Hb' & Hheld & Hg & ch & Hch & Hm & Hd). split; [done|]. split; [done|].
      split; [by rewrite (sg_table _ _ Hg)|]. exists ch. split; [done|]. by rewrite Hm, Hd.
    + apply wp_skip. repeat (split; [done|]).
      destruct (lookup_lt_is_Some_2 (w_ch w) k) as [ch Hch]; [rewrite (bo_length _ _ Hb); lia|].
      exists ch. split; [by rewrite list_insert_id|]. by rewrite (Hz k ch).
  - intros _ w1 (Hb1 & Hheld1 & Ht1 & ch & Hch & ->).
    replace (Z.of_nat k + 1) with (Z.of_nat (S k)) by lia.
    eapply wp_mono; [apply IH; [done|done|lia|]|].
    { intros j cj Hj. rewrite Hch, list_lookup_insert_ne by lia. apply Hz. lia. }
    intros _ w2 (Hb2 & Hheld2 & Ht2 & Hlow2 & Hd2). split; [done|]. split; [congruence|].
    split; [done|]. split.
    + intros j Hj. rewrite Hlow2, Hch, list_lookup_insert_ne by lia. done.
    + rewrite <- Hd2. apply drop_S. rewrite list_lookup_fmap, Hlow2, Hch by lia.
      rewrite list_lookup_insert_eq; [done|]. rewrite (bo_length _ _ Hb). lia.
Qed.
End Boot.

Section BootTheorem.
Context {E : Type} `{Kernel E} `{Platform E}.
Implicit Types w : world E.

(** C5: from zeroed static storage [ipmb_init] establishes the invariant of
    the request lists, with every list empty.  It asks [malloc] once for every
    enabled index, in their order ([list_heads]), and makes every index that
    gets its list head ready for the operations; an index without memory, like
    a disabled one, has no list, and the invariant holds as well. *)
Theorem ipmb_init_establishes w n cfgs sentinel rest freq :
  let table := cfgs ++ sentinel :: rest in
  booted n w -> (malloc_buf 0 (w_ext w)).1 = true ->
  length table = n -> (length cfgs < 256)%nat -> Forall wf_cfg cfgs ->
  Forall (fun cfg => cfg_index cfg <> RESERVED_IDX) cfgs -> cfg_index sentinel = RESERVED_IDX ->
  wp (ipmb_init table freq) (fun _ w' =>
    world_ok w' (replicate n []) /\ w_held w' = w_held w /\ w_table w' = table /\
    ch_P_start <$> w_ch w' = list_heads table ∅ (malloc_buf 0 (w_ext w)).2 /\
    forall i cfg, cfgs !! i = Some cfg -> cfg_enable_status cfg = true ->
      exists ch, w_ch w' !! i = Some ch /\ (ch_P_start ch <> 0 ->
        ready w' (Z.of_nat i) ch cfg /\ holds w' (Z.of_nat i) ch [])) w.
Proof.
  intros table [Hch Hheap] Hmem Hlen H256 Hwf Hidx Hs. unfold ipmb_init.
  apply wp_bind, wp_ext. intros b e Hb.
  assert (b = true) as -> by (by rewrite Hb in Hmem).
  cbn [negb]. apply wp_bind, wp_modify. cbn [pal_load_ipmb_config negb].
  destruct (channel_index_mapping_run cfgs sentinel rest) as (map & Hmap & _); [done| |done|].
  { rewrite Forall_forall in *. intros c Hc. split; [|auto]. by destruct (Hwf c Hc) as (_ & _ & ? & _). }
  apply wp_bind, wp_lift. fold table in Hmap. rewrite Hmap. cbn [rwp].
  do 6 apply wp_bind, wp_modify. apply wp_bind, wp_gets. wcbn.
  rewrite !length_fmap. set (w1 := w_set_mutex_init true _).
  assert (Hb1 : booting n w1).
  { assert (Hl : forall j ch, w_ch w1 !! j = Some ch ->
      ch = ch_set_mutex_init true (ch_set_current_seq 0 boot_channel)).
    { intros j ch. unfold w1. wcbn. rewrite Hch, !fmap_replicate.
      by intros [-> _]%lookup_replicate. }
    split.
    - unfold w1. wcbn. by rewrite !length_fmap, Hch, length_replicate.
    - unfold w1. wcbn. by rewrite Hheap.
    - done.
    - intros j ch ->%Hl. repeat (split; [done|]). by left.
    - intros j k cj ck _ ->%Hl _ _. done. }
  subst n. eapply wp_mono; [apply (create_all_run table _ 0 w1); [done|done|..]|].
  { by rewrite Hch, length_replicate. }
  { intros j ch _. unfold w1. wcbn. rewrite Hch, !fmap_replicate. by intros [-> _]%lookup_replicate. }
  intros _ w' (Hb' & Hheld & Ht & _ & Hheads). rewrite !drop_0 in Hheads.
  split; [by apply booting_world_ok|]. split; [done|]. split; [done|]. split.
  { rewrite Hheads. unfold w1. wcbn. by rewrite Hheap, dom_empty_L, Hb. }
  intros i cfg Hi Hon.
  assert (Hti : table !! i = Some cfg) by (by apply lookup_app_l_Some).
  destruct (lookup_lt_is_Some_2 (w_ch w') i) as [ch Hc].
  { rewrite (bo_length _ _ Hb'). by eapply lookup_lt_Some. }
  exists ch. split; [done|]. intros Hp0.
  apply (booting_ready (length table)); try done; [by rewrite Ht|]. rewrite Forall_forall in Hwf.
  apply Hwf. by eapply list_elem_of_lookup_2.
Qed.
End BootTheorem.

(** All allocations succeed. *)
Definition boot_kernel : Kernel sim :=
  sim_with sim_lock sim_rich sim_rich_fresh sim_free_ipmi (fun _ => true).

Definition boot_world : world sim :=
  mk_world ∅ (replicate 2 boot_channel) [] [] 0 0 false [] power0 0 sim0.

Lemma ipmb_init_establishes_witness :
  wp (@ipmb_init sim boot_kernel [cfg1; sample_cfg RESERVED_IDX 0] 32768)
    (fun _ w' => world_ok w' [[]; []] /\ exists ch, ready w' 0 ch cfg1) boot_world.
Proof.
  eapply wp_mono; [apply (@ipmb_init_establishes sim boot_kernel boot_world 2 [cfg1]
    (sample_cfg RESERVED_IDX 0) [] 32768)|].
  - by split.
  - done.
  - done.
  - cbn. lia.
  - by repeat constructor.
  - by repeat constructor.
  - done.
  - intros _ w' (Hw & _ & _ & Hheads & Hr). split; [exact Hw|].
    destruct (Hr 0%nat cfg1) as (ch & Hc & Hrd); [done|done|]. exists ch. apply Hrd.
    assert (Hp : (ch_P_start <$> w_ch w') !! 0%nat = Some (ch_P_start ch)) by (by rewrite list_lookup_fmap, Hc).
    rewrite Hheads in Hp. revert Hp. generalize (ch_P_start ch). intros h Hp. vm_compute in Hp. by injection Hp as <-.
Defined.
