(* ===== verification/HandlerLib.v ===== *)
(** What the command handlers of [ipmi/*_handler.c] share: reading and writing
    the data of the message they answer, and the contract [Handler] they owe
    the dispatcher [ipmi_cmd_handle]. *)

From S2P Require Import Prelude IpmiDefs World.

(** * Message data *)

(** [msg->data[i]] and [msg->data[i] = v] *)
Definition get_data (m : ipmi_msg) (i : Z) : res Z := arr_get (m_data m) i.
Definition set_data (i v : Z) (m : ipmi_msg) : res ipmi_msg :=
  rlet! d := arr_set (m_data m) i v in Ret (with_data d m).

(** Assignments to [data[i]], [data[i + 1]], ... *)
Fixpoint set_bytes (i : Z) (vs : list Z) (m : ipmi_msg) : res ipmi_msg :=
  match vs with
  | [] => Ret m
  | v :: vs' => rlet! m := set_data i v m in set_bytes (i + 1) vs' m
  end.

(** [memcpy(&msg->data[i], src, n)] with the [n] bytes [vs]. *)
Definition blit_data (i : Z) (vs : list Z) (m : ipmi_msg) : res ipmi_msg :=
  rlet! d := arr_blit (m_data m) i vs in Ret (with_data d m).

Definition with_cc (cc : Z) (m : ipmi_msg) : ipmi_msg := with_completion_code cc m.

(** The data with [vs] at index [i]. *)
Definition overwrite (i : nat) (vs d : list Z) : list Z := take i d ++ vs ++ drop (i + length vs) d.

Lemma overwrite_nil i d : overwrite i [] d = d.
Proof. unfold overwrite. cbn [length app]. rewrite Nat.add_0_r. apply take_drop. Qed.

Lemma length_overwrite i vs d :
  (i + length vs <= length d)%nat -> length (overwrite i vs d) = length d.
Proof. intros. unfold overwrite. rewrite !length_app, length_take, length_drop. lia. Qed.

Lemma bytes_overwrite i vs d : bytes vs -> bytes d -> bytes (overwrite i vs d).
Proof. intros. unfold overwrite. auto with word. Qed.

Lemma overwrite_cons i v vs d :
  (i + S (length vs) <= length d)%nat ->
  overwrite (S i) vs (<[i := v]> d) = overwrite i (v :: vs) d.
Proof.
  intros Hi. unfold overwrite. cbn [length]. rewrite insert_take_drop by lia.
  rewrite take_app, drop_app, !length_take.
  replace (S i - i `min` length d)%nat with 1%nat by lia.
  replace (S i + length vs - i `min` length d)%nat with (S (length vs)) by lia.
  rewrite (take_ge (take i d)) by (rewrite length_take; lia).
  rewrite (drop_ge (take i d)) by (rewrite length_take; lia).
  cbn [take drop app]. rewrite take_0, <- app_assoc, drop_drop. cbn [app].
  do 3 f_equal. f_equal. lia.
Qed.

(** Two neighbouring writes are one. *)
Lemma overwrite_app vs es d :
  (length vs + length es <= length d)%nat ->
  overwrite (length vs) es (overwrite 0 vs d) = overwrite 0 (vs ++ es) d.
Proof.
  intros Hl. unfold overwrite. rewrite !take_0. cbn [app Nat.add].
  rewrite take_app_length, length_app, <- app_assoc. do 2 f_equal.
  rewrite drop_app_ge by lia. rewrite drop_drop. f_equal. lia.
Qed.

Lemma set_bytes_run vs : forall i m,
  0 <= i -> i + Z.of_nat (length vs) <= Z.of_nat (length (m_data m)) ->
  set_bytes i vs m = Ret (with_data (overwrite (Z.to_nat i) vs (m_data m)) m).
Proof.
  induction vs as [|v vs IH]; intros i m Hi Hlen; cbn [set_bytes].
  { rewrite overwrite_nil. by destruct m. }
  cbn [length] in Hlen. unfold set_data. rewrite arr_set_ok by lia. cbn [rbind].
  rewrite IH; cbn [m_data with_data]; [|lia|rewrite length_insert; lia].
  replace (Z.to_nat (i + 1)) with (S (Z.to_nat i)) by lia.
  rewrite overwrite_cons by lia. by destruct m.
Qed.

Lemma blit_data_run i vs m :
  0 <= i -> i + Z.of_nat (length vs) <= Z.of_nat (length (m_data m)) ->
  blit_data i vs m = Ret (with_data (overwrite (Z.to_nat i) vs (m_data m)) m).
Proof. intros. unfold blit_data. by rewrite arr_blit_ok. Qed.

Lemma get_data_run m i : wf_msg m -> 0 <= i < IPMI_MSG_MAX_LENGTH ->
  exists x, get_data m i = Ret x /\ m_data m !! Z.to_nat i = Some x /\ is_u8 x.
Proof.
  intros Hm Hi. destruct (arr_get_ok (m_data m) i) as (x & Hx & Hl); [by rewrite wf_length|].
  exists x. split; [done|]. split; [done|]. eapply bytes_lookup; [apply wf_bytes, Hm|done].
Qed.

(** The same on data given by their first elements. *)
Lemma get_data_at m i x : 0 <= i -> m_data m !! Z.to_nat i = Some x -> get_data m i = Ret x.
Proof. apply arr_get_Ret. Qed.
Lemma set_data_at m i v :
  0 <= i < Z.of_nat (length (m_data m)) ->
  set_data i v m = Ret (with_data (<[Z.to_nat i := v]> (m_data m)) m).
Proof. intros Hi. unfold set_data. by rewrite arr_set_ok. Qed.

(** * Replies *)

(** A reply differs from the request in its data, length and completion code. *)
Definition reply (m : ipmi_msg) (d : list Z) (n cc : Z) : ipmi_msg :=
  with_completion_code cc (with_data_len n (with_data d m)).

Lemma wf_reply m d n cc :
  wf_msg m -> Z.of_nat (length d) = IPMI_MSG_MAX_LENGTH -> bytes d -> is_u16 n -> is_u8 cc ->
  wf_msg (reply m d n cc).
Proof. intros. unfold reply. wf_auto. Qed.

Record answers (m m' : ipmi_msg) : Prop := {
  an_wf : wf_msg m';
  an_len : m_data_len m' <= IPMI_MSG_MAX_LENGTH;
  an_shape : exists d n cc, m' = reply m d n cc;
}.

Lemma answers_intro m d n cc :
  wf_msg m -> Z.of_nat (length d) = IPMI_MSG_MAX_LENGTH -> bytes d ->
  0 <= n <= IPMI_MSG_MAX_LENGTH -> is_u8 cc -> answers m (reply m d n cc).
Proof.
  intros Hm Hl Hb Hn Hcc. split; [|apply Hn|by exists d, n, cc].
  apply wf_reply; try done.
  unfold is_u16, IPMI_MSG_MAX_LENGTH, IPMI_DATA_MAX_LENGTH, IPMB_RESP_HEADER_LENGTH in *. lia.
Qed.

Lemma answers_trans m1 m2 m3 : answers m1 m2 -> answers m2 m3 -> answers m1 m3.
Proof.
  intros [_ _ (d & n & cc & ->)] [Hw Hl (d' & n' & cc' & ->)].
  split; [done|done|by exists d', n', cc'].
Qed.

(** The two common endings: an error keeps data and length, an unsupported
    command has no data. *)
Lemma answers_error m cc :
  wf_msg m -> m_data_len m <= IPMI_MSG_MAX_LENGTH -> is_u8 cc -> answers m (with_cc cc m).
Proof.
  intros Hm Hl Hcc. replace (with_cc cc m) with (reply m (m_data m) (m_data_len m) cc)
    by (by destruct m). apply answers_intro; try done; try apply Hm. destruct (wf_data_len _ Hm). lia.
Qed.

Lemma answers_empty m cc : wf_msg m -> is_u8 cc -> answers m (with_cc cc (with_data_len 0 m)).
Proof.
  intros Hm Hcc. replace (with_cc cc (with_data_len 0 m)) with (reply m (m_data m) 0 cc)
    by (by destruct m). by apply answers_intro; try done; try apply Hm.
Qed.

(** A reply with the data [vs]. *)
Definition reply_with (vs : list Z) (cc : Z) (m : ipmi_msg) : ipmi_msg :=
  reply m (overwrite 0 vs (m_data m)) (Z.of_nat (length vs)) cc.

Lemma answers_with m vs cc :
  wf_msg m -> Z.of_nat (length vs) <= IPMI_MSG_MAX_LENGTH -> bytes vs -> is_u8 cc ->
  answers m (reply_with vs cc m).
Proof.
  intros Hm Hl Hb Hcc. pose proof (wf_length _ Hm) as H527. apply answers_intro; try done; [|apply
    bytes_overwrite; [done|apply Hm]|lia].
  rewrite length_overwrite; lia.
Qed.

Lemma payload_reply_with vs cc m : payload (reply_with vs cc m) = vs.
Proof.
  unfold payload, reply_with, reply, overwrite. cbn. rewrite Nat2Z.id, take_0. cbn [app]. apply take_app_length.
Qed.

(** Literal bytes are checked by evaluation. *)
Lemma bytes_check l : forallb (fun z => (0 <=? z) && (z <? 2 ^ 8)) l = true -> bytes l.
Proof.
  intros Hl. apply Forall_forall. intros x Hx%list_elem_of_In. rewrite forallb_forall in Hl.
  apply Hl, andb_true_iff in Hx. unfold is_u8. lia.
Qed.

(** The data behind the payload is what the buffer held before. *)
Lemma data_payload m : m_data m = payload m ++ drop (Z.to_nat (m_data_len m)) (m_data m).
Proof. symmetry. apply take_drop. Qed.

Lemma payload_lookup m i x : payload m !! i = Some x -> m_data m !! i = Some x.
Proof. intros Hx. rewrite data_payload. by apply lookup_app_l_Some. Qed.

Lemma payload_overwrite m vs rest n cc :
  m_data m = rest -> n = Z.of_nat (length vs) ->
  payload (with_cc cc (with_data_len n (with_data (vs ++ rest) m))) = vs.
Proof. intros _ ->. unfold payload. cbn. by rewrite Nat2Z.id, take_app_length. Qed.

(** * The contract *)

(** What no handler that runs without the IPMB changes. *)
Record ipmb_frame {E} (w w' : world E) : Prop := {
  if_heap : w_heap w' = w_heap w;
  if_ch : w_ch w' = w_ch w;
  if_table : w_table w' = w_table w;
  if_map : w_map w' = w_map w;
  if_init : w_mutex_init w' = w_mutex_init w;
  if_held : w_held w' = w_held w;
  if_power : w_power w' = w_power w;
}.

#[export] Instance ipmb_frame_preorder E : PreOrder (@ipmb_frame E).
Proof. split; [done|]. intros w1 w2 w3 [] []. split; congruence. Qed.

(** Every well-formed message is answered: no undefined behaviour, a
    well-formed reply, and the state of the IPMB untouched. *)
Class Handler {E} (h : ipmi_msg -> ST (world E) ipmi_msg) : Prop :=
  handler_answers : forall m w, wf_msg m -> m_data_len m <= IPMI_MSG_MAX_LENGTH ->
    is_u8 (w_bmc_enables w) ->
    wp (h m) (fun m' w' => answers m m' /\ ipmb_frame w w' /\ is_u8 (w_bmc_enables w')) w.

Create HintDb handler.
#[export] Hint Resolve answers_error answers_empty answers_with : handler.

(** A handler that chooses between handlers. *)
Lemma handler_if {E} (b : ipmi_msg -> bool) (h1 h2 : ipmi_msg -> ST (world E) ipmi_msg) :
  Handler h1 -> Handler h2 -> Handler (fun m => if b m then h1 m else h2 m).
Proof. intros H1 H2 m w Hm Hl He. destruct (b m); [by apply H1|by apply H2]. Qed.

(** A handler that answers without data. *)
Lemma handler_empty {E} cc :
  is_u8 cc -> Handler (E := E) (fun m => ret (with_cc cc (with_data_len 0 m))).
Proof. intros Hcc m w Hm Hl He. apply wp_ret. split; [by apply answers_empty|done]. Qed.

(** * Rules for the message operations *)

Lemma answers_refl m : wf_msg m -> m_data_len m <= IPMI_MSG_MAX_LENGTH -> answers m m.
Proof.
  intros Hm Hl. split; [done..|]. exists (m_data m), (m_data_len m), (m_completion_code m).
  by destruct m.
Qed.

Lemma answers_cc m m' cc : answers m m' -> is_u8 cc -> answers m (with_cc cc m').
Proof.
  intros [Hw Hl (d & n & c & ->)] Hcc. split; [by apply wf_with_completion_code|done|].
  by exists d, n, cc.
Qed.

Lemma answers_len m m' n :
  answers m m' -> 0 <= n <= IPMI_MSG_MAX_LENGTH -> answers m (with_data_len n m').
Proof.
  intros [Hw Hl (d & n' & c & ->)] Hn. split; [|cbn; lia|by exists d, n, c].
  apply wf_with_data_len; [done|].
  unfold is_u16, IPMI_MSG_MAX_LENGTH, IPMI_DATA_MAX_LENGTH, IPMB_RESP_HEADER_LENGTH in *. lia.
Qed.

Lemma answers_data m m' d :
  answers m m' -> Z.of_nat (length d) = IPMI_MSG_MAX_LENGTH -> bytes d -> answers m (with_data d m').
Proof.
  intros [Hw Hl (d' & n & c & ->)] Hd Hb. split; [by apply wf_with_data|done|by exists d, n, c].
Qed.
#[export] Hint Resolve answers_refl answers_cc answers_len answers_data : handler.

Section Rules.
Context {E : Type}.
Implicit Types w : world E.

Lemma wp_get_data m i (Q : Z -> world E -> Prop) w :
  wf_msg m -> 0 <= i < IPMI_MSG_MAX_LENGTH ->
  (forall x, m_data m !! Z.to_nat i = Some x -> is_u8 x -> Q x w) -> wp (lift (get_data m i)) Q w.
Proof. intros Hm Hi HQ. destruct (get_data_run m i Hm Hi) as (x & Hx & ? & ?). apply wp_lift. rewrite Hx. by apply HQ. Qed.

(** A byte whose value is known. *)
Lemma wp_get_data_at m i x (Q : Z -> world E -> Prop) w :
  0 <= i -> m_data m !! Z.to_nat i = Some x -> Q x w -> wp (lift (get_data m i)) Q w.
Proof. intros Hi Hx HQ. apply wp_lift. unfold get_data. by rewrite (arr_get_Ret _ _ x). Qed.

(** The source operand of a [memcpy]. *)
Lemma wp_slice l off n (Q : list Z -> world E -> Prop) w :
  bytes l -> 0 <= off -> 0 <= n -> off + n <= Z.of_nat (length l) ->
  (forall vs, vs = take (Z.to_nat n) (drop (Z.to_nat off) l) -> Z.of_nat (length vs) = n ->
     bytes vs -> Q vs w) -> wp (lift (arr_slice l off n)) Q w.
Proof.
  intros Hl H0 Hn Hlen HQ. apply wp_lift. rewrite arr_slice_ok by done. apply HQ; [done| |].
  - by apply length_slice.
  - by apply bytes_take, bytes_drop.
Qed.

(** The write of [vs] at [i] of the reply [m] to [m0]. *)
Lemma wp_write_data (c : res ipmi_msg) m0 m i vs (Q : ipmi_msg -> world E -> Prop) w :
  answers m0 m -> 0 <= i -> i + Z.of_nat (length vs) <= IPMI_MSG_MAX_LENGTH -> bytes vs ->
  (i + Z.of_nat (length vs) <= Z.of_nat (length (m_data m)) ->
   c = Ret (with_data (overwrite (Z.to_nat i) vs (m_data m)) m)) ->
  (answers m0 (with_data (overwrite (Z.to_nat i) vs (m_data m)) m) ->
   Q (with_data (overwrite (Z.to_nat i) vs (m_data m)) m) w) -> wp (lift c) Q w.
Proof.
  intros Ha Hi Hl Hb Hc HQ. pose proof (wf_length _ (an_wf _ _ Ha)) as H527.
  apply wp_lift. rewrite Hc by lia. apply HQ. apply answers_data; [done| |].
  - rewrite length_overwrite; lia.
  - apply bytes_overwrite; [done|apply wf_bytes, Ha].
Qed.

Lemma wp_set_bytes m0 m i vs (Q : ipmi_msg -> world E -> Prop) w :
  answers m0 m -> 0 <= i -> i + Z.of_nat (length vs) <= IPMI_MSG_MAX_LENGTH -> bytes vs ->
  (answers m0 (with_data (overwrite (Z.to_nat i) vs (m_data m)) m) ->
   Q (with_data (overwrite (Z.to_nat i) vs (m_data m)) m) w) -> wp (lift (set_bytes i vs m)) Q w.
Proof. intros. eapply wp_write_data; try done. intros. by apply set_bytes_run. Qed.

Lemma wp_blit_data m0 m i vs (Q : ipmi_msg -> world E -> Prop) w :
  answers m0 m -> 0 <= i -> i + Z.of_nat (length vs) <= IPMI_MSG_MAX_LENGTH -> bytes vs ->
  (answers m0 (with_data (overwrite (Z.to_nat i) vs (m_data m)) m) ->
   Q (with_data (overwrite (Z.to_nat i) vs (m_data m)) m) w) -> wp (lift (blit_data i vs m)) Q w.
Proof. intros. eapply wp_write_data; try done. intros. by apply blit_data_run. Qed.

Lemma set_data_bytes i v m : set_data i v m = set_bytes i [v] m.
Proof. cbn. by destruct (set_data i v m). Qed.

Lemma wp_set_data m0 m i v (Q : ipmi_msg -> world E -> Prop) w :
  answers m0 m -> 0 <= i < IPMI_MSG_MAX_LENGTH -> is_u8 v ->
  (answers m0 (with_data (overwrite (Z.to_nat i) [v] (m_data m)) m) ->
   Q (with_data (overwrite (Z.to_nat i) [v] (m_data m)) m) w) -> wp (lift (set_data i v m)) Q w.
Proof.
  intros Ha Hi Hv HQ. rewrite set_data_bytes. eapply wp_set_bytes; try done; [lia|cbn; lia|].
  apply bytes_cons; [done|apply bytes_nil].
Qed.
End Rules.

(** * Integers in the data, lowest byte first *)

Definition le16 (b0 b1 : Z) : Z := u16 (Z.lor (Z.shiftl b1 8) b0).
Definition le32 (b0 b1 b2 b3 : Z) : Z :=
  u32 (Z.lor (Z.lor (Z.lor (Z.shiftl b3 24) (Z.shiftl b2 16)) (Z.shiftl b1 8)) b0).

(** A byte is or-ed into a word whose byte at that place is 0. *)
Lemma lor_byte h low b k :
  0 <= k -> 0 <= low < 2 ^ k -> is_u8 b ->
  Z.lor (h * 2 ^ (k + 8) + low) (Z.shiftl b k) = h * 2 ^ (k + 8) + b * 2 ^ k + low.
Proof.
  intros Hk Hlow Hb. rewrite Z.pow_add_r by lia.
  replace (h * (2 ^ k * 2 ^ 8) + low) with (Z.lor (Z.shiftl (h * 2 ^ 8) k) low)
    by (rewrite lor_shiftl_add by lia; lia).
  rewrite <- Z.lor_assoc, (Z.lor_comm low), Z.lor_assoc, <- Z.shiftl_lor.
  rewrite lor_shiftl_add by lia. rewrite <- (Z.shiftl_mul_pow2 h 8) by lia.
  rewrite lor_shiftl_add by (unfold is_u8 in Hb; lia). lia.
Qed.

Lemma clear_low a k : 0 <= k -> Z.land a (Z.lnot (2 ^ k - 1)) = a / 2 ^ k * 2 ^ k.
Proof.
  intros Hk. rewrite <- Z.ldiff_land. replace (2 ^ k - 1) with (Z.ones k) by (rewrite Z.ones_equiv; lia).
  rewrite Z.ldiff_ones_r by done. rewrite Z.shiftl_mul_pow2, Z.shiftr_div_pow2 by done. done.
Qed.

Lemma le16_value b0 b1 : is_u8 b0 -> is_u8 b1 -> le16 b0 b1 = le_value [b0; b1].
Proof.
  intros H0 H1. unfold le16. rewrite lor_shiftl_add by (unfold is_u8 in *; lia).
  rewrite u16_small by (unfold is_u8, is_u16 in *; lia). cbn. lia.
Qed.

Lemma le32_value b0 b1 b2 b3 :
  is_u8 b0 -> is_u8 b1 -> is_u8 b2 -> is_u8 b3 -> le32 b0 b1 b2 b3 = le_value [b0; b1; b2; b3].
Proof.
  intros H0 H1 H2 H3. unfold le32, is_u8 in *. rewrite <- !Z.lor_assoc.
  rewrite (lor_shiftl_add b1 b0 8) by lia.
  rewrite (lor_shiftl_add b2 (b1 * 2 ^ 8 + b0) 16) by lia.
  rewrite lor_shiftl_add by lia. rewrite u32_small by (unfold is_u32; lia). cbn. lia.
Qed.

(** Bytes of a 16-bit value. *)
Lemma low_byte v : 0 <= v -> is_u8 (Z.land v 0xFF).
Proof. intros. change 0xFF with (Z.ones 8). rewrite Z.land_ones by lia. apply u8_range. Qed.
#[export] Hint Resolve low_byte : word.

(** Side conditions: bytes by [word] facts, indices and lengths by
    arithmetic, replies by the rules above. *)
Ltac arith_side :=
  unfold is_u8, is_u16, IPMI_MSG_MAX_LENGTH, IPMI_DATA_MAX_LENGTH, IPMB_RESP_HEADER_LENGTH in *;
  cbn [length] in *; lia.
Ltac byte_side :=
  first [eassumption | apply u8_range | done | apply low_byte; first [done | arith_side]
        | apply low_byte, Z.shiftr_nonneg; first [done | arith_side]].
Ltac bytes_side := repeat (apply bytes_cons; [byte_side|]); first [apply bytes_nil | eassumption].
Ltac answers_side :=
  repeat first [apply answers_cc; [|byte_side] | apply answers_len; [|first [done | arith_side]]];
  eassumption.
Ltac handler_side :=
  lazymatch goal with
  | |- answers _ _ => answers_side
  | |- is_u8 _ => byte_side
  | |- bytes _ => bytes_side
  | |- wf_msg _ => first [assumption | eapply an_wf; answers_side]
  | |- _ => first [done | arith_side]
  end.

(** One step of a handler: the operation in front with its side conditions. *)
Ltac handler_step :=
  lazymatch goal with
  | |- wp (bind _ _) _ _ => apply wp_bind
  | |- wp (if ?b then _ else _) _ _ => destruct b eqn:?
  | |- wp (let '(_, _) := ?a in _) _ _ => destruct a
  | |- wp (lift (get_data _ _)) _ _ =>
      apply wp_get_data; [try handler_side..|intros ? ? ?]
  | |- wp (lift (set_data _ _ _)) _ _ =>
      eapply wp_set_data; [answers_side|try handler_side..|intros ?]
  | |- wp (lift (set_bytes _ _ _)) _ _ =>
      eapply wp_set_bytes; [answers_side|try handler_side..|intros ?]
  | |- wp (lift (blit_data _ _ _)) _ _ =>
      eapply wp_blit_data; [answers_side|try handler_side..|intros ?]
  | |- wp (ext _) _ _ => apply wp_ext; intros ? ? ?
  | |- wp (ext_ _) _ _ => apply wp_ext_
  | |- wp (gets _) _ _ => apply wp_gets
  | |- wp skip _ _ => apply wp_skip
  | |- wp (ret _) _ _ => apply wp_ret
  end.

(** Discharges the contract of a handler whose steps the rules above cover. *)
Ltac contract := repeat (handler_step; cbn beta iota); try (split; [handler_side|done]).
Ltac handler_start :=
  let Hm := fresh "Hm" in let Hl := fresh "Hl" in let He := fresh "He" in
  let Ha := fresh "Ha" in
  intros m w Hm Hl He; pose proof (answers_refl m Hm Hl) as Ha.

(** * Messages for the witnesses *)

(** A message with the payload [vs]. *)
Definition data_msg (vs : list Z) : ipmi_msg :=
  with_data_len (Z.of_nat (length vs)) (with_data (vs ++ replicate (527 - length vs) 0) zero_msg).

Lemma wf_data_msg vs : bytes vs -> (length vs <= 527)%nat -> wf_msg (data_msg vs).
Proof.
  intros Hb Hl. unfold data_msg. apply wf_with_data_len; [|unfold is_u16; lia].
  apply wf_with_data; [apply wf_zero_msg| |].
  - rewrite length_app, length_replicate. change IPMI_MSG_MAX_LENGTH with 527. lia.
  - apply bytes_app; [done|by apply bytes_replicate].
Qed.

Lemma payload_data_msg vs : payload (data_msg vs) = vs.
Proof. unfold payload, data_msg. cbn. by rewrite Nat2Z.id, take_app_length. Qed.

(** No channels, no power, nothing queued. *)
Definition sim_world (s : sim) : world sim :=
  mk_world ∅ [] [] [] 0 0 true [] (mk_power false false false false false true false false) 0 s.

(** Updates of the external state of the witnesses. *)
Definition sim_status (n : Z) (s : sim) : sim :=
  mk_sim (s_locks_fail s) (s_malloc_fails s) n (s_clock s) (s_txq s) (s_rxq s)
    (s_ipmiq s) (s_wire s) (s_slave s).
Definition sim_clock_set (n : Z) (s : sim) : sim :=
  mk_sim (s_locks_fail s) (s_malloc_fails s) (s_i2c_status s) n (s_txq s) (s_rxq s)
    (s_ipmiq s) (s_wire s) (s_slave s).
Definition sim_log (l : list Z) (s : sim) : sim :=
  mk_sim (s_locks_fail s) (s_malloc_fails s) (s_i2c_status s) (s_clock s) (s_txq s) (s_rxq s)
    (s_ipmiq s) (s_wire s ++ [l]) (s_slave s).
