(* ===== verification/AppHandler.v ===== *)
(** The command handlers that are built into the firmware:
    [ipmi/app_handler.c] and [ipmi/chassis_handler.c].  Each is one definition
    with its guards; the last part specifies all commands by one table. *)

From S2P Require Import Prelude IpmiDefs World PowerStatus HandlerLib.

(** * plat_version.h *)

Definition BOARD_ID : Z := 0x01.
Definition MP : Z := 4.
Definition GET_FW_VERSION1 (board_id stage : Z) : Z := Z.lor (Z.land board_id 0x0F) (Z.shiftl stage 4).
Definition DEVICE_ID : Z := 0x00.
Definition DEVICE_REVISION : Z := 0x80.
Definition FIRMWARE_REVISION_1 : Z := GET_FW_VERSION1 BOARD_ID MP.
Definition FIRMWARE_REVISION_2 : Z := 0x08.
Definition IPMI_VERSION : Z := 0x02.
Definition ADDITIONAL_DEVICE_SUPPORT : Z := 0xBF.
Definition PRODUCT_ID : Z := 0x0000.
Definition AUXILIARY_FW_REVISION : Z := 0x00000000.

Section App.
Context {E : Type}.

Definition APP_GET_DEVICE_ID (msg : ipmi_msg) : ST (world E) ipmi_msg :=
  if negb (m_data_len msg =? 0) then ret (with_cc CC_INVALID_LENGTH msg)
  else
    let! msg := lift (set_bytes 0 [
      DEVICE_ID;
      DEVICE_REVISION;
      FIRMWARE_REVISION_1;
      FIRMWARE_REVISION_2;
      IPMI_VERSION;
      ADDITIONAL_DEVICE_SUPPORT;
      Z.land IANA_ID 0xFF;
      Z.land (Z.shiftr IANA_ID 8) 0xFF;
      Z.land (Z.shiftr IANA_ID 16) 0xFF;
      Z.land PRODUCT_ID 0xFF;
      Z.land (Z.shiftr PRODUCT_ID 8) 0xFF;
      Z.land (Z.shiftr AUXILIARY_FW_REVISION 24) 0xFF;
      Z.land (Z.shiftr AUXILIARY_FW_REVISION 16) 0xFF;
      Z.land (Z.shiftr AUXILIARY_FW_REVISION 8) 0xFF;
      Z.land AUXILIARY_FW_REVISION 0xFF] msg) in
    ret (with_cc CC_SUCCESS (with_data_len 15 msg)).

Definition APP_COLD_RESET (msg : ipmi_msg) : ST (world E) ipmi_msg :=
  if negb (m_data_len msg =? 0) then ret (with_cc CC_INVALID_LENGTH msg)
  else ret (with_cc CC_SUCCESS msg).

Definition APP_WARM_RESET (msg : ipmi_msg) : ST (world E) ipmi_msg :=
  if negb (m_data_len msg =? 0) then ret (with_cc CC_INVALID_LENGTH msg)
  else ret (with_cc CC_SUCCESS msg).

Definition APP_SET_BMC_GLOBAL_ENABLES (msg : ipmi_msg) : ST (world E) ipmi_msg :=
  let! b := lift (get_data msg 0) in
  do! modify (w_set_bmc_enables b) in
  ret (with_cc CC_SUCCESS (with_data_len 0 msg)).

Definition APP_GET_BMC_GLOBAL_ENABLES (msg : ipmi_msg) : ST (world E) ipmi_msg :=
  let! b := gets w_bmc_enables in
  let! msg := lift (set_data 0 b msg) in
  ret (with_cc CC_SUCCESS (with_data_len 1 msg)).

Definition APP_SET_ACPI_POWER (msg : ipmi_msg) : ST (world E) ipmi_msg :=
  ret (with_cc CC_INVALID_CMD (with_data_len 0 msg)).
Definition APP_GET_DEVICE_GUID (msg : ipmi_msg) : ST (world E) ipmi_msg :=
  ret (with_cc CC_INVALID_CMD (with_data_len 0 msg)).
Definition APP_CLEAR_MESSAGE_FLAGS (msg : ipmi_msg) : ST (world E) ipmi_msg :=
  ret (with_cc CC_INVALID_CMD (with_data_len 0 msg)).
Definition APP_GET_CAHNNEL_INFO (msg : ipmi_msg) : ST (world E) ipmi_msg :=
  ret (with_cc CC_INVALID_CMD (with_data_len 0 msg)).

Definition IPMI_APP_handler (msg : ipmi_msg) : ST (world E) ipmi_msg :=
  let cmd := m_cmd msg in
  if cmd =? CMD_APP_GET_DEVICE_ID then APP_GET_DEVICE_ID msg
  else if cmd =? CMD_APP_COLD_RESET then APP_COLD_RESET msg
  else if cmd =? CMD_APP_WARM_RESET then APP_WARM_RESET msg
  else if cmd =? CMD_APP_SET_BMC_GLOBAL_ENABLES then APP_SET_BMC_GLOBAL_ENABLES msg
  else if cmd =? CMD_APP_GET_BMC_GLOBAL_ENABLES then APP_GET_BMC_GLOBAL_ENABLES msg
  else if cmd =? CMD_APP_SET_ACPI_POWER then APP_SET_ACPI_POWER msg
  else if cmd =? CMD_APP_GET_DEVICE_GUID then APP_GET_DEVICE_GUID msg
  else if cmd =? CMD_APP_CLEAR_MESSAGE_FLAGS then APP_CLEAR_MESSAGE_FLAGS msg
  else if cmd =? CMD_APP_GET_CAHNNEL_INFO then APP_GET_CAHNNEL_INFO msg
  else ret (with_cc CC_INVALID_CMD (with_data_len 0 msg)).

(** [CHASSIS_STATUS]: four bytes of bit fields, the first with the power
    state.  [get_DC_status] is used for both flags. *)
Record CURRENT_POWER_STATE : Type := mk_CURRENT_POWER_STATE {
  pwOn : bool;
  pwOverload : bool;
  interlock : bool;
  pwFault : bool;
  pwControlFault : bool;
  pwRestorePolicy : Z;
}.

Definition pack_power_state (s : CURRENT_POWER_STATE) : Z :=
  b2z (pwOn s) + 2 * b2z (pwOverload s) + 4 * b2z (interlock s) + 8 * b2z (pwFault s) +
  16 * b2z (pwControlFault s) + 32 * (pwRestorePolicy s mod 4).

Definition CHASSIS_GET_CHASSIS_STATUS (msg : ipmi_msg) : ST (world E) ipmi_msg :=
  if negb (m_data_len msg =? 0) then ret (with_cc CC_INVALID_LENGTH msg)
  else
    let! p := gets w_power in
    let currPwState :=
      mk_CURRENT_POWER_STATE (get_DC_status p) false false (get_DC_status p) false 0x2 in
    let! msg := lift (blit_data 0 [pack_power_state currPwState; 0; 0; 0] msg) in
    ret (with_cc CC_SUCCESS (with_data_len 4 msg)).

Definition IPMI_CHASSIS_handler (msg : ipmi_msg) : ST (world E) ipmi_msg :=
  if m_cmd msg =? CMD_CHASSIS_GET_CHASSIS_STATUS then CHASSIS_GET_CHASSIS_STATUS msg
  else ret (with_cc CC_INVALID_CMD (with_data_len 0 msg)).
End App.

(** * Specification *)

(** Completion code, data and new global enables of a command.  The data of
    SET_BMC_GLOBAL_ENABLES is taken from the buffer whatever its length. *)
Definition device_id_data : list Z :=
  [0x00; 0x80; 0x41; 0x08; 0x02; 0xBF; 0x23; 0xA1; 0x00; 0; 0; 0; 0; 0; 0].

Definition app_spec (enables : Z) (msg : ipmi_msg) : Z * list Z * Z :=
  if m_cmd msg =? CMD_APP_GET_DEVICE_ID then
    if m_data_len msg =? 0 then (CC_SUCCESS, device_id_data, enables)
    else (CC_INVALID_LENGTH, [], enables)
  else if (m_cmd msg =? CMD_APP_COLD_RESET) || (m_cmd msg =? CMD_APP_WARM_RESET) then
    (if m_data_len msg =? 0 then CC_SUCCESS else CC_INVALID_LENGTH, [], enables)
  else if m_cmd msg =? CMD_APP_SET_BMC_GLOBAL_ENABLES then
    (CC_SUCCESS, [], default 0 (m_data msg !! 0%nat))
  else if m_cmd msg =? CMD_APP_GET_BMC_GLOBAL_ENABLES then (CC_SUCCESS, [enables], enables)
  else (CC_INVALID_CMD, [], enables).

Definition chassis_spec (dc_on : bool) (msg : ipmi_msg) : Z * list Z :=
  if m_cmd msg =? CMD_CHASSIS_GET_CHASSIS_STATUS then
    if m_data_len msg =? 0 then (CC_SUCCESS, [if dc_on then 0x49 else 0x40; 0; 0; 0])
    else (CC_INVALID_LENGTH, [])
  else (CC_INVALID_CMD, []).

(** The reply [m'] of a command carries completion code and data of its
    specification; the data of an error is not sent. *)
Record replies (m m' : ipmi_msg) (cc : Z) (vs : list Z) : Prop := {
  rp_answers : answers m m';
  rp_cc : m_completion_code m' = cc;
  rp_data : cc = CC_SUCCESS -> payload m' = vs;
}.

Lemma replies_error m cc :
  wf_msg m -> m_data_len m <= IPMI_MSG_MAX_LENGTH -> is_u8 cc -> cc <> CC_SUCCESS ->
  replies m (with_cc cc m) cc [].
Proof. intros. split; [by apply answers_error|done|done]. Qed.

Lemma replies_empty m cc : wf_msg m -> is_u8 cc -> replies m (with_cc cc (with_data_len 0 m)) cc [].
Proof. intros. split; [by apply answers_empty|done|done]. Qed.

Lemma replies_with m vs cc :
  wf_msg m -> Z.of_nat (length vs) <= IPMI_MSG_MAX_LENGTH -> bytes vs -> is_u8 cc ->
  replies m (reply_with vs cc m) cc vs.
Proof. intros. split; [by apply answers_with|done|by rewrite payload_reply_with]. Qed.
#[export] Hint Resolve replies_error replies_empty replies_with : handler.

Section Spec.
Context {E : Type}.
Implicit Types w : world E.

(** The empty request of a reset is its own reply. *)
Lemma wp_reset m w (Q : ipmi_msg -> world E -> Prop) :
  wf_msg m -> m_data_len m <= IPMI_MSG_MAX_LENGTH ->
  (forall m', replies m m' (if m_data_len m =? 0 then CC_SUCCESS else CC_INVALID_LENGTH) [] ->
     Q m' w) ->
  wp (if negb (m_data_len m =? 0) then ret (with_cc CC_INVALID_LENGTH m)
      else ret (with_cc CC_SUCCESS m)) Q w.
Proof.
  intros Hm Hl HQ. destruct (Z.eqb_spec (m_data_len m) 0) as [H0|H0]; cbn [negb]; apply wp_ret, HQ.
  - split; [by apply answers_error|done|]. intros _. unfold payload. cbn. by rewrite H0.
  - by apply replies_error.
Qed.

Lemma app_run m w :
  wf_msg m -> m_data_len m <= IPMI_MSG_MAX_LENGTH -> is_u8 (w_bmc_enables w) ->
  wp (IPMI_APP_handler m) (fun m' w' =>
    let '(cc, vs, en) := app_spec (w_bmc_enables w) m in
    replies m m' cc vs /\ w' = w_set_bmc_enables en w) w.
Proof.
  intros Hm Hl He. assert (H527 : Z.of_nat (length (m_data m)) = 527) by apply (wf_length _ Hm).
  assert (Hw : w = w_set_bmc_enables (w_bmc_enables w) w) by (by destruct w).
  unfold IPMI_APP_handler, app_spec.
  destruct (m_cmd m =? CMD_APP_GET_DEVICE_ID).
  { unfold APP_GET_DEVICE_ID. destruct (Z.eqb_spec (m_data_len m) 0); cbn [negb].
    - apply wp_bind, wp_lift. rewrite set_bytes_run by (cbn [length]; lia). apply wp_ret.
      split; [|done]. by apply (replies_with m device_id_data); [|by vm_compute|repeat constructor|].
    - apply wp_ret. split; [by apply replies_error|done]. }
  destruct (m_cmd m =? CMD_APP_COLD_RESET); cbn [orb]; [by apply wp_reset|].
  destruct (m_cmd m =? CMD_APP_WARM_RESET); [by apply wp_reset|].
  destruct (m_cmd m =? CMD_APP_SET_BMC_GLOBAL_ENABLES).
  { destruct (get_data_run m 0 Hm) as (b & Hb & Hlk & _); [done|].
    apply wp_bind, wp_lift. rewrite Hb. apply wp_bind, wp_modify, wp_ret.
    change (Z.to_nat 0) with O in Hlk. rewrite Hlk. split; [by apply replies_empty|done]. }
  destruct (m_cmd m =? CMD_APP_GET_BMC_GLOBAL_ENABLES).
  { apply wp_bind, wp_gets, wp_bind, wp_lift. unfold set_data. rewrite arr_set_ok by lia.
    apply wp_ret. split; [|done].
    assert (Hv : replies m (reply_with [w_bmc_enables w] CC_SUCCESS m) CC_SUCCESS [w_bmc_enables w])
      by (by apply replies_with; [|by vm_compute|apply bytes_cons; [|apply bytes_nil]|]).
    revert Hv. unfold reply_with, reply, overwrite. destruct (m_data m) eqn:Hd; [cbn in *; lia|done]. }
  repeat (destruct (_ =? _); [apply wp_ret; split; [by apply replies_empty|done]|]).
  apply wp_ret. split; [by apply replies_empty|done].
Qed.
End Spec.

Section SpecTheorems.
Context {E : Type}.
Implicit Types w : world E.

Lemma chassis_run m w :
  wf_msg m -> m_data_len m <= IPMI_MSG_MAX_LENGTH ->
  wp (IPMI_CHASSIS_handler m) (fun m' w' =>
    let '(cc, vs) := chassis_spec (get_DC_status (w_power w)) m in
    replies m m' cc vs /\ w' = w) w.
Proof.
  intros Hm Hl. assert (H527 : Z.of_nat (length (m_data m)) = 527) by apply (wf_length _ Hm).
  unfold IPMI_CHASSIS_handler, chassis_spec.
  destruct (m_cmd m =? CMD_CHASSIS_GET_CHASSIS_STATUS);
    [|apply wp_ret; split; [by apply replies_empty|done]].
  unfold CHASSIS_GET_CHASSIS_STATUS. destruct (Z.eqb_spec (m_data_len m) 0); cbn [negb];
    [|apply wp_ret; split; [by apply replies_error|done]].
  apply wp_bind, wp_gets, wp_bind, wp_lift. rewrite blit_data_run by (cbn [length]; lia).
  apply wp_ret. split; [|done].
  destruct (get_DC_status (w_power w));
    (apply (replies_with m [_; 0; 0; 0]); [done|by vm_compute|by repeat constructor|done]).
Qed.

Lemma app_spec_enables en m : wf_msg m -> is_u8 en -> is_u8 (app_spec en m).2.
Proof.
  intros Hm He. unfold app_spec. repeat case_match; try done. cbn.
  destruct (m_data m !! 0%nat) as [b|] eqn:Hb; [|done].
  eapply bytes_lookup; [apply wf_bytes, Hm|done].
Qed.

#[export] Instance APP_Handler : Handler (E := E) IPMI_APP_handler.
Proof.
  intros m w Hm Hl He. eapply wp_mono; [by apply app_run|]. intros m' w'.
  pose proof (app_spec_enables (w_bmc_enables w) m Hm He) as Hen.
  destruct (app_spec (w_bmc_enables w) m) as [[cc vs] en]. intros [[Ha _ _] ->]. done.
Qed.

#[export] Instance CHASSIS_Handler : Handler (E := E) IPMI_CHASSIS_handler.
Proof.
  intros m w Hm Hl He. eapply wp_mono; [by apply chassis_run|]. intros m' w'.
  destruct (chassis_spec (get_DC_status (w_power w)) m) as [cc vs]. intros [[Ha _ _] ->]. done.
Qed.
End SpecTheorems.
