(* ===== verification/IpmiCore.v ===== *)
(** The IPMI thread and the main loop: [ipmi_cmd_handle] and [IPMI_handler] of
    [ipmi/ipmi.c], and one turn of the polling loop of [main.c].  The theorems
    follow a command from the KCS interface to its response. *)

From S2P Require Import Prelude IpmiDefs World PowerStatus IpmbSeq IpmbSeqSpec IpmbApi IpmiQueue.
From S2P Require Import IpmbTasks HandlerLib AppHandler.

(** * Services *)

(** The KCS device: [ipmi_read] returns its result and the buffer it wrote,
    [ipmi_write] its result; the queues of ipmi.c; the optional transports. *)
Class IpmiPort (E : Type) : Type := {
  ipmi_read : list Z -> E -> (Z * list Z) * E;
  ipmi_write : list Z -> E -> Z * E;
  k_msgq_get_ipmi : E -> ipmi_msg_cfg * E;
  k_msgq_put_self : ipmi_msg_cfg -> E -> Z * E;
  k_msgq_purge_self : E -> E;
  CONFIG_USB : bool;
  usb_write_by_ipmi : ipmi_msg -> E -> E;
  ENABLE_SSIF : bool;
  ssif_set_data : Z -> ipmi_msg_cfg -> E -> bool * E;
  CONFIG_ASSERT : bool;
  ipmi_read_buffer : forall b e rc b' e', ipmi_read b e = (rc, b', e') ->
    bytes b -> length b' = length b /\ bytes b' /\ rc <= Z.of_nat (length b);
}.

Definition KCS_POLLING_INTERVAL : Z := 100.

Section Core.
Context {E : Type} `{Kernel E} `{IpmiPort E}.

(** * ipmi.c *)

(** The first switch of [ipmi_cmd_handle], by network function. *)
Definition dispatch (msg : ipmi_msg) : ST (world E) ipmi_msg :=
  if m_netfn msg =? NETFN_CHASSIS_REQ then IPMI_CHASSIS_handler msg
  else if m_netfn msg =? NETFN_APP_REQ then IPMI_APP_handler msg
  else if m_netfn msg =? NETFN_FIRMWARE_REQ then ret msg
  else ret (with_data_len 0 msg).

(** The response of a successful OEM command starts with the IANA number. *)
Definition prepend_iana (iana : Z) (msg : ipmi_msg) : res ipmi_msg :=
  rlet! copy_data := arr_slice (m_data msg) 0 (m_data_len msg) in
  rlet! msg := blit_data 3 copy_data msg in
  let msg := with_data_len (u16 (m_data_len msg + 3)) msg in
  rlet! msg := set_data 0 (Z.land iana 0xFF) msg in
  rlet! msg := set_data 1 (Z.land (Z.shiftr iana 8) 0xFF) msg in
  set_data 2 (Z.land (Z.shiftr iana 16) 0xFF) msg.

(** The response in the static [kcs_buff]; [ipmi_write] reads
    [data_len + 3] bytes of it. *)
Definition kcs_response (kcs_buff : list Z) (msg : ipmi_msg) : ST (world E) (list Z) :=
  let! b := lift (arr_set kcs_buff 0 (u8 (Z.shiftl (m_netfn msg + 1) 2))) in
  let! b := lift (arr_set b 1 (m_cmd msg)) in
  let! b := lift (arr_set b 2 (m_completion_code msg)) in
  let! b := (if negb (m_data_len msg =? 0) then
               if m_data_len msg <=? KCS_BUFF_SIZE - 3
               then lift (memcpy b 3 (m_data msg) 0 (m_data_len msg))
               else lift (memcpy b 3 (m_data msg) 0 (KCS_BUFF_SIZE - 3))
             else ret b) in
  let! out := lift (arr_slice b 0 (m_data_len msg + 3)) in
  let! _ := ext (ipmi_write out) in
  ret b.

(** The second switch, by source interface.  The number of IPMB indices is
    the build option [MAX_IPMB_IDX]. *)
Definition respond (kcs_buff : list Z) (c : ipmi_msg_cfg) : ST (world E) (list Z) :=
  let msg := c_buffer c in
  let source := m_InF_source msg in
  if CONFIG_USB && (source =? BMC_USB) then do! ext_ (usb_write_by_ipmi msg) in ret kcs_buff
  else if source =? HOST_KCS_1 then kcs_response kcs_buff msg
  else if ENABLE_SSIF && (source =? HOST_SSIF_1) then
    let msg := with_netfn (u8 (Z.shiftl (m_netfn msg + 1) 2)) msg in
    do! ext (ssif_set_data (source - HOST_SSIF_1) (with_buffer msg c)) in ret kcs_buff
  else if source =? SELF then
    if CONFIG_ASSERT then undefined
    else
      let! r := ext (k_msgq_put_self c) in
      do! (if negb (r =? 0) then ext_ k_msgq_purge_self else skip) in ret kcs_buff
  else
    let! l := gets w_ch in
    if Z.of_nat (length l) =? 0 then ret kcs_buff
    else
      let! idx := inf_index source in
      do! ipmb_send_response msg idx in ret kcs_buff.

Definition ipmi_cmd_handle (kcs_buff : list Z) (parameters : ipmi_msg_cfg)
    : ST (world E) (list Z) :=
  let iana := 0 in
  let msg := with_cc CC_INVALID_CMD (c_buffer parameters) in
  let! msg := dispatch msg in
  if pal_is_not_return_cmd (m_netfn msg) (m_cmd msg) then ret kcs_buff
  else
    let! msg := (if negb (m_completion_code msg =? CC_SUCCESS) then ret (with_data_len 0 msg)
                 else if m_netfn msg =? NETFN_OEM_1S_REQ then lift (prepend_iana iana msg)
                 else ret msg) in
    respond kcs_buff (with_buffer msg parameters).

(** One turn of [IPMI_handler], for a command that finishes in time. *)
Definition IPMI_handler (kcs_buff : list Z) : ST (world E) (list Z) :=
  let! msg_cfg := ext k_msgq_get_ipmi in
  ipmi_cmd_handle kcs_buff msg_cfg.

(** * main.c *)

Record main_state : Type := mk_main_state {
  ibuf : list Z;
  cnt : Z;
  proc_kcs_ok : bool;
  current_msg : ipmi_msg_cfg;
}.

Definition get_kcs_ok (s : main_state) : bool := proc_kcs_ok s.
Definition reset_kcs_ok (s : main_state) : main_state :=
  mk_main_state (ibuf s) (cnt s) false (current_msg s).

Definition main_step (s : main_state) : ST (world E) main_state :=
  do! ext_ (k_msleep KCS_POLLING_INTERVAL) in
  let cnt := (cnt s + 1) mod 2 ^ 64 in
  let cnt := if cnt mod 100 =? 0 then 0 else cnt in
  let! (rc, buf) := ext (ipmi_read (ibuf s)) in
  if rc <? 0 then ret (mk_main_state buf cnt (proc_kcs_ok s) (current_msg s))
  else
    let! b0 := lift (arr_get buf 0) in
    let! buf := lift (arr_set buf 0 (Z.shiftr b0 2)) in
    let! netfn := lift (arr_get buf 0) in
    let! cmd := lift (arr_get buf 1) in
    if pal_request_msg_to_BIC_from_HOST netfn cmd then
      let m := c_buffer (current_msg s) in
      let m := with_InF_source HOST_KCS_1 m in
      let m := with_netfn netfn m in
      let m := with_cmd cmd m in
      let m := with_data_len (u16 (rc - 2)) m in
      let! m := (if negb (m_data_len m =? 0) then
                   let! d := lift (memcpy (m_data m) 0 buf 2 (m_data_len m)) in
                   ret (with_data d m)
                 else ret m) in
      let c := with_buffer m (current_msg s) in
      do! notify_ipmi_client c in
      ret (mk_main_state buf cnt true c)
    else ret (mk_main_state buf cnt true (current_msg s)).
End Core.

(** * Specification of the commands *)

(** Completion code, data and global enables after a command. *)
Definition command_spec (dc_on : bool) (enables : Z) (msg : ipmi_msg) : Z * list Z * Z :=
  if m_netfn msg =? NETFN_CHASSIS_REQ then (chassis_spec dc_on msg, enables)
  else if m_netfn msg =? NETFN_APP_REQ then app_spec enables msg
  else (CC_INVALID_CMD, [], enables).

Lemma command_netfn dc en m : (command_spec dc en m).1.1 = CC_SUCCESS ->
  m_netfn m = NETFN_CHASSIS_REQ \/ m_netfn m = NETFN_APP_REQ.
Proof.
  unfold command_spec. destruct (Z.eqb_spec (m_netfn m) NETFN_CHASSIS_REQ); [by left|].
  destruct (Z.eqb_spec (m_netfn m) NETFN_APP_REQ); [by right|done].
Qed.

(** The KCS response: function plus one, command, completion code, data. *)
Definition kcs_frame (netfn cmd cc : Z) (vs : list Z) : list Z :=
  [u8 (4 * (netfn + 1)); cmd; cc] ++ vs.

Section CoreProofs.
Context {E : Type} `{Kernel E} `{IpmiPort E}.
Implicit Types w : world E.

#[export] Instance dispatch_Handler : Handler (E := E) dispatch.
Proof.
  unfold dispatch. do 2 (apply handler_if; [apply _|]). apply handler_if.
  - intros m w Hm Hl He. apply wp_ret. split; [|done]. split; [done..|].
    exists (m_data m), (m_data_len m), (m_completion_code m). by destruct m.
  - intros m w Hm Hl He. apply wp_ret. split; [|done].
    replace (with_data_len 0 m) with (reply m (m_data m) 0 (m_completion_code m)) by (by destruct m).
    apply answers_intro; try done; apply Hm.
Qed.

Lemma payload_length m : wf_msg m -> m_data_len m <= IPMI_MSG_MAX_LENGTH ->
  m_data_len m = Z.of_nat (length (payload m)).
Proof.
  intros Hm Hl. destruct (wf_data_len _ Hm) as [Hnn _]. unfold payload. rewrite length_take.
  pose proof (wf_length _ Hm). lia.
Qed.

Lemma dispatch_run m w :
  wf_msg m -> m_data_len m <= IPMI_MSG_MAX_LENGTH -> is_u8 (w_bmc_enables w) ->
  m_completion_code m = CC_INVALID_CMD ->
  wp (dispatch m) (fun m' w' =>
    let '(cc, vs, en) := command_spec (get_DC_status (w_power w)) (w_bmc_enables w) m in
    replies m m' cc vs /\ w' = w_set_bmc_enables en w) w.
Proof.
  intros Hm Hl He Hcc.
  assert (Hw : w = w_set_bmc_enables (w_bmc_enables w) w) by (by destruct w).
  unfold dispatch, command_spec. destruct (m_netfn m =? NETFN_CHASSIS_REQ).
  { eapply wp_mono; [by apply chassis_run|]. intros m' w'.
    destruct (chassis_spec (get_DC_status (w_power w)) m) as [cc vs]. intros [Hr ->]. done. }
  destruct (m_netfn m =? NETFN_APP_REQ); [by apply app_run|].
  destruct (m_netfn m =? NETFN_FIRMWARE_REQ); apply wp_ret; (split; [|done]).
  - replace m with (with_cc CC_INVALID_CMD m) at 2 by (by rewrite <- Hcc; destruct m).
    by apply replies_error.
  - replace (with_data_len 0 m) with (with_cc CC_INVALID_CMD (with_data_len 0 m))
      by (by rewrite <- Hcc; destruct m). by apply replies_empty.
Qed.

(** The response of the KCS interface is written when it fits the buffer;
    otherwise [ipmi_write] is given more bytes than there are. *)
Lemma kcs_response_run kb m w (Q : list Z -> world E -> Prop) :
  wf_msg m -> Z.of_nat (length kb) = KCS_BUFF_SIZE -> m_data_len m <= KCS_BUFF_SIZE - 3 ->
  (forall kb' r e, length kb' = length kb ->
     ipmi_write (kcs_frame (m_netfn m) (m_cmd m) (m_completion_code m) (payload m)) (w_ext w) = (r, e) ->
     Q kb' (w_set_ext e w)) ->
  wp (kcs_response kb m) Q w.
Proof.
  intros Hm Hkb Hl HQ. destruct (wf_data_len _ Hm) as [Hnn _].
  assert (H527 : Z.of_nat (length (m_data m)) = 527) by apply (wf_length _ Hm).
  unfold KCS_BUFF_SIZE in *. destruct kb as [|x0 [|x1 [|x2 t]]]; cbn [length] in Hkb; try lia.
  assert (Hp : Z.of_nat (length (payload m)) = m_data_len m)
    by (symmetry; apply payload_length; [done|unfold IPMI_MSG_MAX_LENGTH,
          IPMI_DATA_MAX_LENGTH, IPMB_RESP_HEADER_LENGTH; lia]).
  unfold kcs_response, KCS_BUFF_SIZE. do 3 (apply wp_bind, wp_lift; arr_set_lit; cbn [rwp]).
  assert (Hend : forall t', length t' = length t -> take (Z.to_nat (m_data_len m)) t' = payload m ->
    wp (let! out := lift (arr_slice (u8 (Z.shiftl (m_netfn m + 1) 2) :: m_cmd m ::
          m_completion_code m :: t') 0 (m_data_len m + 3)) in
        let! _ := ext (ipmi_write out) in
        ret (u8 (Z.shiftl (m_netfn m + 1) 2) :: m_cmd m :: m_completion_code m :: t')) Q w).
  { intros t' Ht' Hpt. apply wp_bind, wp_lift. rewrite arr_slice_ok by (cbn [length]; lia).
    replace (Z.to_nat (m_data_len m + 3)) with (S (S (S (Z.to_nat (m_data_len m))))) by lia.
    change (Z.to_nat 0) with O. cbn [drop take rwp]. rewrite Hpt.
    apply wp_bind, wp_ext. intros r e Hr. apply wp_ret, (HQ _ r).
    - cbn [length]. by rewrite Ht'.
    - rewrite <- Hr. unfold kcs_frame. rewrite Z.shiftl_mul_pow2 by lia.
      by rewrite (Z.mul_comm (m_netfn m + 1)). }
  apply wp_bind. destruct (Z.eqb_spec (m_data_len m) 0) as [H0'|Hne]; cbn [negb].
  - apply wp_ret, Hend; [done|]. unfold payload. by rewrite H0'.
  - rewrite (proj2 (Z.leb_le _ _)) by lia. apply wp_lift. unfold memcpy.
    rewrite arr_slice_ok by lia. cbn [rbind]. rewrite drop_0. fold (payload m).
    rewrite arr_blit_ok by (cbn [length]; lia). change (Z.to_nat 3) with 3%nat.
    cbn [rwp take drop Nat.add app]. rewrite take_0. apply Hend.
    + cbn [app]. rewrite length_app, length_drop. lia.
    + cbn [app]. apply take_app_length'. lia.
Qed.

(** The message that is given to [respond]. *)
Lemma handle_run kb c w (Q : list Z -> world E -> Prop) :
  wf_msg (c_buffer c) -> m_data_len (c_buffer c) <= IPMI_MSG_MAX_LENGTH ->
  is_u8 (w_bmc_enables w) ->
  pal_is_not_return_cmd (m_netfn (c_buffer c)) (m_cmd (c_buffer c)) = false ->
  (let '(cc, vs, en) :=
     command_spec (get_DC_status (w_power w)) (w_bmc_enables w) (c_buffer c) in
   forall m', answers (c_buffer c) m' -> m_completion_code m' = cc ->
     payload m' = (if cc =? CC_SUCCESS then vs else []) ->
     m_data_len m' = Z.of_nat (length (payload m')) ->
     wp (respond kb (with_buffer m' c)) Q (w_set_bmc_enables en w)) ->
  wp (ipmi_cmd_handle kb c) Q w.
Proof.
  intros Hm Hl He Hret HQ. set (m0 := with_cc CC_INVALID_CMD (c_buffer c)).
  assert (Hm0 : wf_msg m0) by (by apply wf_with_completion_code).
  assert (Ha0 : answers (c_buffer c) m0) by (by apply answers_error).
  unfold ipmi_cmd_handle. apply wp_bind. eapply wp_mono; [by apply (dispatch_run m0)|].
  change (command_spec (get_DC_status (w_power w)) (w_bmc_enables w) m0) with
    (command_spec (get_DC_status (w_power w)) (w_bmc_enables w) (c_buffer c)).
  pose proof (command_netfn (get_DC_status (w_power w)) (w_bmc_enables w) (c_buffer c)) as Hnet.
  destruct (command_spec _ _ (c_buffer c)) as [[cc vs] en].
  intros m' w' [[Ha Hcc Hdata] ->]. pose proof (answers_trans _ _ _ Ha0 Ha) as Hac.
  assert (Hn : m_netfn m' = m_netfn (c_buffer c) /\ m_cmd m' = m_cmd (c_buffer c))
    by (destruct (an_shape _ _ Hac) as (d & n & cc' & ->); done).
  destruct Hn as [-> ->]. rewrite Hret. apply wp_bind. rewrite Hcc.
  destruct (Z.eqb_spec cc CC_SUCCESS) as [Hs|Hs]; cbn [negb].
  - specialize (Hnet Hs). destruct (Z.eqb_spec (m_netfn (c_buffer c)) NETFN_OEM_1S_REQ) as [Ho|];
      [by destruct Hnet as [Hx|Hx]; rewrite Hx in Ho|].
    apply wp_ret, HQ; [done|done|by apply Hdata|]. apply payload_length; apply Ha.
  - apply wp_ret, HQ; [|done|done|done]. split; [|done|].
    + apply wf_with_data_len; [apply Ha|done].
    + destruct (an_shape _ _ Hac) as (d & n & cc' & ->). by exists d, 0, cc'.
Qed.
End CoreProofs.

Lemma command_spec_length dc en m : (length (command_spec dc en m).1.2 <= 15)%nat.
Proof.
  unfold command_spec, chassis_spec, app_spec. repeat case_match; simpl; lia.
Qed.

(** The documented behaviour of the queue of requests [q] towards the KCS
    thread and the IPMI thread. *)
Record port_laws {E} `{Kernel E} `{IpmiPort E} (q : E -> list ipmi_msg_cfg) : Prop := {
  pl_queue : queue_laws q;
  pl_sleep : forall ms e, q (k_msleep ms e) = q e;
  pl_read : forall b e r e', ipmi_read b e = (r, e') -> q e' = q e;
  pl_get : forall e c t, q e = c :: t -> exists e', k_msgq_get_ipmi e = (c, e') /\ q e' = t;
}.

(** The message [main] builds from the [rc] bytes [b] it has read. *)
Record kcs_message (b : list Z) (rc : Z) (c : ipmi_msg_cfg) : Prop := {
  km_wf : wf_msg (c_buffer c);
  km_netfn : exists b0, b !! 0%nat = Some b0 /\ m_netfn (c_buffer c) = Z.shiftr b0 2;
  km_cmd : b !! 1%nat = Some (m_cmd (c_buffer c));
  km_source : m_InF_source (c_buffer c) = HOST_KCS_1;
  km_len : m_data_len (c_buffer c) = rc - 2;
  km_data : payload (c_buffer c) = take (Z.to_nat (rc - 2)) (drop 2 b);
}.

Section MainProofs.
Context {E : Type} `{Kernel E} `{IpmiPort E}.
Implicit Types w : world E.

(** The command is one of those the firmware answers itself. *)
Definition accepted (b : list Z) : Prop :=
  exists b0 b1, b !! 0%nat = Some b0 /\ b !! 1%nat = Some b1 /\
    pal_request_msg_to_BIC_from_HOST (Z.shiftr b0 2) b1 = true.

Lemma pal_request_netfn netfn cmd : pal_request_msg_to_BIC_from_HOST netfn cmd = true ->
  netfn = NETFN_CHASSIS_REQ \/ netfn = NETFN_APP_REQ.
Proof.
  unfold pal_request_msg_to_BIC_from_HOST.
  destruct (Z.eqb_spec netfn NETFN_CHASSIS_REQ); [by left|].
  destruct (Z.eqb_spec netfn NETFN_APP_REQ); [by right|done].
Qed.

Lemma kcs_netfn (x y : Z) t : arr_get (x :: y :: t) 0 = Ret x.
Proof. done. Qed.
Lemma kcs_cmd (x y : Z) t : arr_get (x :: y :: t) 1 = Ret y.
Proof. done. Qed.

(** The state of the device after the pause and the read of a turn. *)
Definition turn_read (s : main_state) w : (Z * list Z) * E :=
  ipmi_read (ibuf s) (k_msleep KCS_POLLING_INTERVAL (w_ext w)).

(** The data of the message: the bytes behind the first two, if any. *)
Lemma kcs_data_run b1 t rc buf0 b0 (c : ipmi_msg_cfg) m1 w :
  wf_msg m1 -> m_data_len m1 = rc - 2 -> 2 <= rc -> (Z.to_nat (rc - 2) <= length t)%nat -> (length t <= 520)%nat ->
  bytes t -> m_netfn m1 = Z.shiftr b0 2 -> m_cmd m1 = b1 -> m_InF_source m1 = HOST_KCS_1 ->
  wp (if negb (m_data_len m1 =? 0) then
        let! d := lift (memcpy (m_data m1) 0 (buf0 :: b1 :: t) 2 (m_data_len m1)) in
        ret (with_data d m1)
      else ret m1)
    (fun m2 w2 => w2 = w /\ kcs_message (b0 :: b1 :: t) rc (with_buffer m2 c)) w.
Proof.
  intros Hm Hl Hrc Hlt H520 Hb Hn Hc Hs. rewrite Hl.
  assert (H527 : Z.of_nat (length (m_data m1)) = 527) by apply (wf_length _ Hm).
  assert (Hkm : forall d, wf_msg (with_data d m1) -> take (Z.to_nat (rc - 2)) d = take (Z.to_nat (rc - 2)) t ->
    kcs_message (b0 :: b1 :: t) rc (with_buffer (with_data d m1) c)).
  { intros d Hd Hpay. split; cbn; try done; [by exists b0|by rewrite Hc|].
    unfold payload. cbn. by rewrite Hl. }
  destruct (Z.eqb_spec (rc - 2) 0) as [Hz|Hne]; cbn [negb].
  - apply wp_ret. split; [done|]. replace m1 with (with_data (m_data m1) m1) by (by destruct m1).
    apply Hkm; [by destruct m1|]. by rewrite Hz.
  - apply wp_bind, wp_lift. unfold memcpy. rewrite arr_slice_ok by (cbn [length]; lia).
    cbn [rbind]. change (Z.to_nat 2) with 2%nat. cbn [drop]. rewrite drop_0.
    assert (Hlen : length (take (Z.to_nat (rc - 2)) t) = Z.to_nat (rc - 2)) by (rewrite length_take; lia).
    rewrite arr_blit_ok by lia. change (Z.to_nat 0) with O. rewrite take_0. cbn [app Nat.add rwp].
    apply wp_ret. split; [done|]. apply Hkm.
    + apply wf_with_data; [done|rewrite length_app, length_drop; unfold IPMI_MSG_MAX_LENGTH,
        IPMI_DATA_MAX_LENGTH, IPMB_RESP_HEADER_LENGTH; lia|].
      apply bytes_app; [by apply bytes_take|]. apply bytes_drop, wf_bytes, Hm.
    + apply take_app_length'. lia.
Qed.

Lemma main_step_run (q : E -> list ipmi_msg_cfg) s w rc b e :
  port_laws q -> turn_read s w = ((rc, b), e) -> wf_msg (c_buffer (current_msg s)) ->
  bytes (ibuf s) -> Z.of_nat (length (ibuf s)) = KCS_BUFF_SIZE -> 2 <= rc -> accepted b ->
  wp (main_step s) (fun s' w' => proc_kcs_ok s' = true /\ kcs_message b rc (current_msg s') /\
    (exists e', w' = w_set_ext e' w) /\
    q (w_ext w') = if Z.of_nat (length (q (w_ext w))) <? IPMI_BUF_LEN
                   then q (w_ext w) ++ [current_msg s'] else [current_msg s']) w.
Proof.
  intros Hq Hread Hm Hib Hlen Hrc (b0 & b1 & Hb0 & Hb1 & Hacc).
  destruct (ipmi_read_buffer _ _ _ _ _ Hread Hib) as (Hlb & Hbb & Hrc').
  unfold KCS_BUFF_SIZE in Hlen.
  pose proof (pl_read _ Hq _ _ _ _ Hread) as Hq1. rewrite (pl_sleep _ Hq) in Hq1.
  destruct b as [|x0 [|x1 t]]; try done. cbn in Hb0, Hb1. injection Hb0 as ->. injection Hb1 as ->.
  cbn [length] in Hlb. unfold main_step. apply wp_bind, wp_ext_, wp_bind. unfold ext at 1.
  unfold turn_read in Hread. eapply wp_of_eq; [wcbn; rewrite Hread; reflexivity|].
  cbv beta iota. rewrite (proj2 (Z.ltb_ge rc 0)) by lia.
  rewrite kcs_netfn. apply wp_bind, wp_lift. cbn [rwp]. apply wp_bind, wp_lift. arr_set_lit.
  cbn [rwp]. apply wp_bind, wp_lift. rewrite kcs_netfn. cbn [rwp].
  apply wp_bind, wp_lift. rewrite kcs_cmd. cbn [rwp]. rewrite Hacc.
  apply Forall_cons in Hbb as [Hb0 [Hb18 Hbt]%Forall_cons].
  assert (Hn8 : is_u8 (Z.shiftr b0 2)) by (apply shiftr_range; try lia; done).
  assert (Hu : u16 (rc - 2) = rc - 2) by (apply u16_small; unfold is_u16; lia).
  set (m1 := with_data_len (u16 (rc - 2)) _). assert (Hm1 : wf_msg m1) by (unfold m1; wf_auto).
  apply wp_bind. eapply wp_mono; [apply (kcs_data_run b1 t rc _ b0 (current_msg s) m1); (done || lia)|].
  intros m2 w2 [-> Hkm]. apply wp_bind.
  assert (Hreq : IS_RESPONSE (c_buffer (with_buffer m2 (current_msg s))) = false).
  { destruct (km_netfn _ _ _ Hkm) as (b0' & Hb0' & Hn). injection Hb0' as <-.
    unfold IS_RESPONSE. rewrite Hn.
    by destruct (pal_request_netfn _ _ Hacc) as [-> | ->]. }
  eapply wp_mono; [apply wp_and; [apply notify_run|by apply (notify_delivers_run q (pl_queue _ Hq))]|].
  - intros m ms e1 r e2 Hl. by destruct (ql_lock _ (pl_queue _ Hq) _ _ _ _ _ Hl) as [-> _].
  - intros st w' [([e' ->] & _) [_ Hout]]. apply wp_ret. split; [done|]. split; [done|].
    split; [by exists e'|]. wcbn. cbn [w_ext w_set_ext] in Hout. by rewrite Hq1 in Hout.
Qed.
End MainProofs.

(** * Theorems *)

Section CoreTheorems.
Context {E : Type} `{Kernel E} `{IpmiPort E}.
Implicit Types w : world E.

(** What is sent back for a request. *)
Definition answer_of w (m : ipmi_msg) : list Z :=
  let '(cc, vs, _) := command_spec (get_DC_status (w_power w)) (w_bmc_enables w) m in
  kcs_frame (m_netfn m) (m_cmd m) cc (if cc =? CC_SUCCESS then vs else []).

Definition enables_after w (m : ipmi_msg) : Z :=
  (command_spec (get_DC_status (w_power w)) (w_bmc_enables w) m).2.

Lemma kcs_answer_run kb c w :
  wf_msg (c_buffer c) -> m_data_len (c_buffer c) <= IPMI_MSG_MAX_LENGTH ->
  is_u8 (w_bmc_enables w) -> m_InF_source (c_buffer c) = HOST_KCS_1 ->
  pal_is_not_return_cmd (m_netfn (c_buffer c)) (m_cmd (c_buffer c)) = false ->
  Z.of_nat (length kb) = KCS_BUFF_SIZE ->
  wp (ipmi_cmd_handle kb c) (fun kb' w' => length kb' = length kb /\ exists r e,
    ipmi_write (answer_of w (c_buffer c)) (w_ext w) = (r, e) /\
    w' = w_set_ext e (w_set_bmc_enables (enables_after w (c_buffer c)) w)) w.
Proof.
  intros Hm Hl He Hsrc Hret Hkb. apply handle_run; try done. unfold answer_of, enables_after.
  pose proof (command_spec_length (get_DC_status (w_power w)) (w_bmc_enables w) (c_buffer c)) as H15.
  destruct (command_spec _ _ (c_buffer c)) as [[cc vs] en]. cbn [fst snd] in *.
  intros m' Ha Hcc Hpay Hlen.
  assert (Hroute : m_InF_source m' = HOST_KCS_1 /\ m_netfn m' = m_netfn (c_buffer c) /\
    m_cmd m' = m_cmd (c_buffer c)) by (by destruct (an_shape _ _ Ha) as (d & n & cc' & ->)).
  destruct Hroute as (Hs & Hn & Hc). unfold respond. cbn [c_buffer with_buffer]. rewrite Hs.
  change (HOST_KCS_1 =? BMC_USB) with false. rewrite andb_false_r. change (HOST_KCS_1 =? HOST_KCS_1)
    with true. apply kcs_response_run; [apply Ha|done| |].
  - rewrite Hlen, Hpay. unfold KCS_BUFF_SIZE. destruct (cc =? CC_SUCCESS); cbn [length]; lia.
  - intros kb' r e Hkb' Hw. rewrite Hn, Hc, Hcc, Hpay in Hw. split; [done|]. by exists r, e.
Qed.

(** Every request from the KCS interface that has a response is answered
    by exactly one write of the response its command specifies, with function
    plus one and the same command; nothing else of the program state changes
    but the global enables, and nothing is undefined. *)
Theorem kcs_command_answered kb c w :
  wf_msg (c_buffer c) -> m_data_len (c_buffer c) <= IPMI_MSG_MAX_LENGTH ->
  is_u8 (w_bmc_enables w) -> m_InF_source (c_buffer c) = HOST_KCS_1 ->
  pal_is_not_return_cmd (m_netfn (c_buffer c)) (m_cmd (c_buffer c)) = false ->
  Z.of_nat (length kb) = KCS_BUFF_SIZE ->
  wp (ipmi_cmd_handle kb c) (fun kb' w' => length kb' = length kb /\ exists r e,
    ipmi_write (answer_of w (c_buffer c)) (w_ext w) = (r, e) /\
    w' = w_set_ext e (w_set_bmc_enables (enables_after w (c_buffer c)) w)) w.
Proof. apply kcs_answer_run. Qed.

(** C35: a request received from an IPMB channel is answered through the index
    of that channel: what happens outside is that the lock of the responses is
    taken, exactly one message is put into the transmit queue of that index,
    and the lock is released, unless the lock is refused; the message carries
    the completion code and the data of the command, function plus one and the
    number of the request. *)
Theorem ipmb_command_answered kb c w k chk cfgk :
  wf_msg (c_buffer c) -> m_data_len (c_buffer c) <= IPMI_MSG_MAX_LENGTH ->
  is_u8 (w_bmc_enables w) ->
  m_InF_source (c_buffer c) ∉ [BMC_USB; HOST_KCS_1; HOST_SSIF_1; SELF] ->
  pal_is_not_return_cmd (m_netfn (c_buffer c)) (m_cmd (c_buffer c)) = false ->
  w_map w !! Z.to_nat (m_InF_source (c_buffer c)) = Some k -> ready w k chk cfgk ->
  wp (ipmi_cmd_handle kb c) (fun kb' w' => kb' = kb /\
    quiet (w_set_bmc_enables (enables_after w (c_buffer c)) w) w' /\
    let '(cc, vs, _) :=
      command_spec (get_DC_status (w_power w)) (w_bmc_enables w) (c_buffer c) in
    ((lock_fails mutex_send_res 1000 w /\ w_ext w' = locked mutex_send_res 1000 (w_ext w)) \/
     ~ lock_fails mutex_send_res 1000 w /\
     exists m' r st, answers (c_buffer c) m' /\ m_completion_code m' = cc /\
       payload m' = (if cc =? CC_SUCCESS then vs else []) /\
       response_queued cfgk m' r /\ sent mutex_send_res k r (w_ext w) st (w_ext w'))) w.
Proof.
  intros Hm Hl He Hsrc Hret Hmap Hrd. apply handle_run; try done. unfold enables_after.
  destruct (command_spec _ _ (c_buffer c)) as [[cc vs] en].
  intros m' Ha Hcc Hpay Hlen.
  assert (Hs : m_InF_source m' = m_InF_source (c_buffer c))
    by (by destruct (an_shape _ _ Ha) as (d & n & cc' & ->)).
  rewrite !not_elem_of_cons in Hsrc. destruct Hsrc as (H1 & H2 & H3 & H4 & _).
  unfold respond. cbn [c_buffer with_buffer]. rewrite Hs.
  rewrite (proj2 (Z.eqb_neq _ _) H1), (proj2 (Z.eqb_neq _ _) H2), (proj2 (Z.eqb_neq _ _) H3),
    (proj2 (Z.eqb_neq _ _) H4), !andb_false_r.
  apply wp_bind, wp_gets. wcbn. pose proof (rd_ch _ _ _ _ Hrd) as Hch.
  rewrite (proj2 (Z.eqb_neq _ _)) by (apply lookup_lt_Some in Hch; lia).
  unfold inf_index. apply wp_bind, wp_bind, wp_gets, wp_lift. wcbn.
  rewrite (arr_get_Ret _ _ k) by (done || apply Hm). cbn [rwp]. apply wp_bind.
  eapply wp_mono; [apply (send_response_run k chk cfgk); [|apply Ha|apply Ha]|].
  - destruct Hrd. by split.
  - intros st w' [Hq Hpost]. apply wp_ret. split; [done|]. split; [done|].
    destruct Hpost as [(Hf & _ & He2)|(Hf & r & Hr & Hsent)]; [by left|right]. split; [done|].
    by exists m', r, st.
Qed.

(** C9: from the KCS interface and back: with an empty queue, a turn of the
    main loop that reads an accepted request and the next turn of the IPMI
    thread end with the write of the response to that request. *)
Theorem kcs_roundtrip (q : E -> list ipmi_msg_cfg) s w rc b e kb :
  port_laws q -> turn_read s w = ((rc, b), e) -> wf_msg (c_buffer (current_msg s)) ->
  bytes (ibuf s) -> Z.of_nat (length (ibuf s)) = KCS_BUFF_SIZE -> 2 <= rc -> accepted b ->
  q (w_ext w) = [] -> is_u8 (w_bmc_enables w) -> Z.of_nat (length kb) = KCS_BUFF_SIZE ->
  wp (bind (main_step s) (fun s' => bind (IPMI_handler kb) (fun _ => ret s'))) (fun s' w' =>
    kcs_message b rc (current_msg s') /\ exists e1 r e2, q e1 = [] /\
      ipmi_write (answer_of w (c_buffer (current_msg s'))) e1 = (r, e2) /\
      w' = w_set_ext e2 (w_set_bmc_enables (enables_after w (c_buffer (current_msg s'))) w)) w.
Proof.
  intros Hq Hread Hm Hib Hlen Hrc Hacc Hempty He Hkb. apply wp_bind.
  destruct (ipmi_read_buffer _ _ _ _ _ Hread Hib) as (_ & _ & Hrc').
  eapply wp_mono; [by apply (main_step_run q s w rc b e)|].
  intros s' w1 (_ & Hkm & [e1 ->] & Hq1). rewrite Hempty in Hq1. cbn in Hq1.
  destruct (pl_get _ Hq _ _ _ Hq1) as (e2 & Hget & Hq2).
  apply wp_bind, wp_bind. eapply wp_of_eq; [unfold ext; wcbn; rewrite Hget; reflexivity|].
  eapply wp_mono; [apply kcs_answer_run; try done|].
  - apply Hkm.
  - rewrite (km_len _ _ _ Hkm). unfold KCS_BUFF_SIZE, IPMI_MSG_MAX_LENGTH, IPMI_DATA_MAX_LENGTH,
      IPMB_RESP_HEADER_LENGTH in *. lia.
  - apply Hkm.
  - destruct Hacc as (b0 & b1 & Hb0 & Hb1 & Hacc).
    destruct (km_netfn _ _ _ Hkm) as (b0' & Hb0' & ->). rewrite Hb0 in Hb0'. injection Hb0' as <-.
    by destruct (pal_request_netfn _ _ Hacc) as [-> | ->].
  - intros kb' w' (_ & r & e3 & Hw & ->). apply wp_ret. split; [done|]. by exists e2, r, e3.
Qed.

(** A read of fewer than two bytes is not rejected: when the buffer still
    holds an accepted command the length wraps around and the copy of the
    data leaves both buffers. *)
Theorem kcs_short_read_undefined s w rc b e :
  turn_read s w = ((rc, b), e) -> bytes (ibuf s) -> Z.of_nat (length (ibuf s)) = KCS_BUFF_SIZE ->
  0 <= rc < 2 -> accepted b -> main_step s w = UB.
Proof.
  intros Hread Hib Hlen Hrc (b0 & b1 & Hb0 & Hb1 & Hacc).
  destruct (ipmi_read_buffer _ _ _ _ _ Hread Hib) as (Hlb & _ & _). unfold KCS_BUFF_SIZE in Hlen.
  destruct b as [|x0 [|x1 t]]; try done. cbn in Hb0, Hb1. injection Hb0 as ->. injection Hb1 as ->.
  cbn [length] in Hlb. unfold main_step, bind at 1, ext_, modify. cbn [rbind].
  unfold bind at 1, ext at 1. unfold turn_read in Hread. wcbn. rewrite Hread. cbn [rbind].
  rewrite (proj2 (Z.ltb_ge rc 0)) by lia. unfold bind, lift. rewrite kcs_netfn. cbn [rbind].
  arr_set_lit. rewrite kcs_netfn, kcs_cmd. cbn [rbind]. rewrite Hacc.
  assert (Hu : u16 (rc - 2) = 65534 + rc).
  { unfold u16. replace (rc - 2) with ((65534 + rc) + (-1) * 2 ^ 16) by lia.
    rewrite Z.mod_add by lia. apply Z.mod_small. lia. }
  cbn [m_data_len with_data_len]. rewrite Hu. rewrite (proj2 (Z.eqb_neq _ 0)) by lia. cbn [negb].
  unfold memcpy, arr_slice. cbn [length]. rewrite (proj2 (Z.leb_gt (2 + (65534 + rc)) _)) by lia.
  by rewrite andb_false_r.
Qed.
End CoreTheorems.

(** * A concrete port *)

(** Reads take the bytes of the next scripted message; writes go to the wire
    with address 0. *)
Definition sim_ipmi_read (b : list Z) (s : sim) : (Z * list Z) * sim :=
  match sim_read 0 s with
  | (Some d, s') =>
      let d := take (length b) (u8 <$> d) in
      ((Z.of_nat (length d), overwrite 0 d b), s')
  | (None, s') => ((-61, b), s')
  end.

Definition sim_get_ipmi (s : sim) : ipmi_msg_cfg * sim :=
  match sim_queue s with
  | c :: t => (c, mk_sim (s_locks_fail s) (s_malloc_fails s) (s_i2c_status s) (s_clock s)
      (s_txq s) (s_rxq s) t (s_wire s) (s_slave s))
  | [] => (mk_ipmi_msg_cfg zero_msg 0 0, s)
  end.

#[export] Program Instance sim_port : IpmiPort sim := {|
  ipmi_read := sim_ipmi_read;
  ipmi_write := sim_write 0 0;
  k_msgq_get_ipmi := sim_get_ipmi;
  k_msgq_put_self := fun _ s => (0, s);
  k_msgq_purge_self := fun s => s;
  CONFIG_USB := false;
  usb_write_by_ipmi := fun _ s => s;
  ENABLE_SSIF := false;
  ssif_set_data := fun _ _ s => (true, s);
  CONFIG_ASSERT := false;
|}.
Next Obligation.
  intros b e rc b' e'. unfold sim_ipmi_read.
  destruct (sim_read 0 e) as [[d|] s'] eqn:Hd; intros [= <- <- <-] Hb.
  - assert (Hl : (length (take (length b) (u8 <$> d)) <= length b)%nat)
      by (rewrite length_take; lia).
    split; [by apply length_overwrite|]. split; [|lia].
    apply bytes_overwrite; [apply bytes_take, bytes_map_u8|done].
  - split; [done|]. split; [done|]. lia.
Qed.

Lemma sim_port_laws : @port_laws sim queue_kernel sim_port sim_queue.
Proof.
  split; [apply sim_queue_laws|done| |].
  - intros b e r e'. simpl. unfold sim_ipmi_read, sim_read.
    destruct (s_slave e); intros [= _ <-]; done.
  - intros e c t Hq. simpl. unfold sim_get_ipmi. rewrite Hq. eexists. split; [done|].
    unfold sim_queue at 1. cbn [s_ipmiq]. apply take_ge.
    assert (Hlen : (length (sim_queue e) <= 10)%nat) by (unfold sim_queue; rewrite length_take;
      unfold IPMI_BUF_LEN; lia).
    rewrite Hq in Hlen. cbn in Hlen. unfold IPMI_BUF_LEN. lia.
Qed.

(** GET_DEVICE_ID from the KCS interface. *)
Definition device_id_cfg : ipmi_msg_cfg := mk_ipmi_msg_cfg
  (with_InF_source HOST_KCS_1 (with_netfn NETFN_APP_REQ (with_cmd CMD_APP_GET_DEVICE_ID zero_msg)))
  0 0.

Lemma wf_device_id : wf_msg (c_buffer device_id_cfg).
Proof. pose proof wf_zero_msg as []. unfold device_id_cfg. cbn. wf_auto. Qed.

Lemma kcs_command_answered_witness :
  wp (ipmi_cmd_handle (replicate 256 0) device_id_cfg) (fun _ w' => s_wire (w_ext w') =
    [[0; 0x1C; 0x01; 0x00; 0x00; 0x80; 0x41; 0x08; 0x02; 0xBF; 0x23; 0xA1; 0x00; 0; 0; 0; 0; 0; 0]])
    (world1 sim0).
Proof.
  eapply wp_mono; [apply (kcs_command_answered (replicate 256 0) device_id_cfg (world1 sim0))|].
  - apply wf_device_id.
  - done.
  - done.
  - done.
  - done.
  - done.
  - intros kb' w' (_ & r & e & [= _ <-] & ->). reflexivity.
Defined.

(** The same command from the BMC channel. *)
Definition bmc_cfg : ipmi_msg_cfg :=
  with_buffer (with_InF_source BMC_IPMB (c_buffer device_id_cfg)) device_id_cfg.

Lemma ipmb_command_answered_witness :
  wp (ipmi_cmd_handle (replicate 256 0) bmc_cfg)
    (fun kb' w' => kb' = replicate 256 0 /\ quiet (w_set_bmc_enables 0 (world1 sim0)) w' /\
       length (s_txq (w_ext w')) = 1%nat)
    (world1 sim0).
Proof.
  eapply wp_mono; [eapply (ipmb_command_answered (replicate 256 0) bmc_cfg (world1 sim0) 0 chan1)|].
  - unfold bmc_cfg. apply wf_with_InF_source; [apply wf_device_id|done].
  - done.
  - done.
  - by apply (bool_decide_unpack _).
  - done.
  - done.
  - apply ready1.
  - intros kb' w' (-> & Hq & Hs). split; [done|]. split; [done|]. cbv zeta in Hs.
    destruct (command_spec _ _ _) as [[cc vs] en]. destruct Hs as [[Hf _]|(_ & m' & c & st & _ & _ & _ & _ & Hs)].
    + by vm_compute in Hf.
    + by destruct Hs as (r & e1 & [= <- <-] & _ & ->).
Defined.

Definition kcs_sim (d : list Z) : sim := mk_sim false false 0 0 [] [] [] [] [d].
Definition main0 (b : list Z) : main_state :=
  mk_main_state b 0 false (mk_ipmi_msg_cfg zero_msg 0 0).

(** Function 6 in bits 2 to 7, command 1. *)
Lemma kcs_roundtrip_witness :
  wp (bind (@main_step sim queue_kernel sim_port (main0 (replicate 256 0)))
    (fun s' => bind (@IPMI_handler sim queue_kernel sim_port (replicate 256 0)) (fun _ => ret s')))
    (fun s' w' => m_cmd (c_buffer (current_msg s')) = 1) (world1 (kcs_sim [0x18; 0x01])).
Proof.
  eapply wp_mono; [eapply (@kcs_roundtrip sim queue_kernel sim_port sim_queue
    (main0 (replicate 256 0)) (world1 (kcs_sim [0x18; 0x01])) 2
    ([0x18; 0x01] ++ replicate 254 0) sim0 (replicate 256 0))|].
  - apply sim_port_laws.
  - reflexivity.
  - apply wf_zero_msg.
  - by apply bytes_replicate.
  - done.
  - done.
  - by exists 0x18, 0x01.
  - done.
  - done.
  - done.
  - intros s' w' (Hkm & _). pose proof (km_cmd _ _ _ Hkm) as Hc. by injection Hc.
Defined.

(** An empty read after GET_DEVICE_ID. *)
Lemma kcs_short_read_undefined_witness :
  @main_step sim queue_kernel sim_port (main0 ([0x18; 0x01] ++ replicate 254 0))
    (world1 (kcs_sim [])) = UB.
Proof.
  apply (@kcs_short_read_undefined sim queue_kernel sim_port
    (main0 ([0x18; 0x01] ++ replicate 254 0)) (world1 (kcs_sim [])) 0
    ([0x18; 0x01] ++ replicate 254 0) sim0).
  - reflexivity.
  - do 2 (apply bytes_cons; [done|]). by apply bytes_replicate.
  - done.
  - done.
  - by exists 0x18, 0x01.
Defined.
