(* ===== verification/Ipmi61.v ===== *)
(** The program [samples/ipmi_61]: an older board variant of [ipmi_openbic].
    [ipmb.c], the sensor, storage and OEM handlers and most headers are the
    same text; the files below differ and are modelled here: fewer commands,
    another manufacturer number and a polling loop that goes on after a failed
    read.  What [ipmi.c] shares with the other program ([respond],
    [kcs_response], [prepend_iana], [notify_ipmi_client]) is used from there. *)

From S2P Require Import Prelude IpmiDefs World PowerStatus IpmbSeq IpmbSeqSpec IpmbApi IpmiQueue.
From S2P Require Import IpmbTasks HandlerLib AppHandler IpmiCore.

(** * ipmi.h, plat_ipmi.c *)

Definition IANA_ID : Z := 0x00A015.

Definition pal_request_msg_to_BIC_from_HOST (netfn cmd : Z) : bool :=
  if netfn =? NETFN_APP_REQ then
    if cmd =? CMD_APP_GET_DEVICE_ID then true else false
  else false.

Section Program.
Context {E : Type} `{Kernel E} `{IpmiPort E}.

(** * app_handler.c *)

Definition APP_GET_DEVICE_ID (msg : ipmi_msg) : ST (world E) ipmi_msg :=
  if negb (m_data_len msg =? 0) then ret (with_cc CC_INVALID_LENGTH msg)
  else
    let! msg := lift (set_bytes 0 [
      DEVICE_ID;
      DEVICE_REVISION;
      FIRMWARE_REVISION_1;
      FIRMWARE_REVISION_2;
      IPMI_VERSION;
      ADDITIONAL_DEVICE_SUPPORT;
      Z.land IANA_ID 0xFF;
      Z.land (Z.shiftr IANA_ID 8) 0xFF;
      Z.land (Z.shiftr IANA_ID 16) 0xFF;
      Z.land PRODUCT_ID 0xFF;
      Z.land (Z.shiftr PRODUCT_ID 8) 0xFF;
      Z.land (Z.shiftr AUXILIARY_FW_REVISION 24) 0xFF;
      Z.land (Z.shiftr AUXILIARY_FW_REVISION 16) 0xFF;
      Z.land (Z.shiftr AUXILIARY_FW_REVISION 8) 0xFF;
      Z.land AUXILIARY_FW_REVISION 0xFF] msg) in
    ret (with_cc CC_SUCCESS (with_data_len 15 msg)).

Definition IPMI_APP_handler (msg : ipmi_msg) : ST (world E) ipmi_msg :=
  if m_cmd msg =? CMD_APP_GET_DEVICE_ID then APP_GET_DEVICE_ID msg
  else ret (with_cc CC_INVALID_CMD (with_data_len 0 msg)).

(** * ipmi.c *)

Definition dispatch (msg : ipmi_msg) : ST (world E) ipmi_msg :=
  if m_netfn msg =? NETFN_APP_REQ then IPMI_APP_handler msg
  else if m_netfn msg =? NETFN_FIRMWARE_REQ then ret msg
  else ret (with_data_len 0 msg).

Definition ipmi_cmd_handle (kcs_buff : list Z) (parameters : ipmi_msg_cfg)
    : ST (world E) (list Z) :=
  let iana := 0 in
  let msg := with_cc CC_INVALID_CMD (c_buffer parameters) in
  let! msg := dispatch msg in
  if pal_is_not_return_cmd (m_netfn msg) (m_cmd msg) then ret kcs_buff
  else
    let! msg := (if negb (m_completion_code msg =? CC_SUCCESS) then ret (with_data_len 0 msg)
                 else if m_netfn msg =? NETFN_OEM_1S_REQ then lift (prepend_iana iana msg)
                 else ret msg) in
    respond kcs_buff (with_buffer msg parameters).

Definition IPMI_handler (kcs_buff : list Z) : ST (world E) (list Z) :=
  let! msg_cfg := ext k_msgq_get_ipmi in
  ipmi_cmd_handle kcs_buff msg_cfg.

(** * main.c *)

(** [memcmp(ibuf, zero, KCS_BUFF_SIZE) == 0] *)
Definition all_zero (b : list Z) : bool := forallb (fun x => x =? 0) b.

(** [for(; j >= 0; j--)] with an unsigned [j]: below 0 it continues at
    [0xFFFFFFFF], outside of the buffer. *)
Fixpoint last_nonzero (j : nat) (b : list Z) : res Z :=
  rlet! x := arr_get b (Z.of_nat j) in
  if negb (x =? 0) then Ret (Z.of_nat j)
  else
    match j with
    | O => UB
    | S j' => last_nonzero j' b
    end.

(** The bytes printed by [n] turns of [for (i ...) printf(.., ibuf[i])]. *)
Fixpoint dump (n : nat) (i : Z) (b : list Z) : res (list Z) :=
  match n with
  | O => Ret []
  | S n' =>
      rlet! x := arr_get b i in
      rlet! xs := dump n' (i + 1) b in
      Ret (x :: xs)
  end.

(** The dump runs to [i <= j] with [j] one behind the last byte. *)
Definition print_ibuf (b : list Z) : res (list Z) :=
  rlet! j := last_nonzero (Z.to_nat (KCS_BUFF_SIZE - 1)) b in
  let j := u32 (j + 1) in
  dump (Z.to_nat (j + 1)) 0 b.

Definition next_cnt (c : Z) : Z :=
  let c := (c + 1) mod 2 ^ 64 in
  if c mod 100 =? 0 then 0 else c.

Definition main_step (s : main_state) : ST (world E) main_state :=
  do! ext_ (k_msleep KCS_POLLING_INTERVAL) in
  let cnt := next_cnt (cnt s) in
  let! (rc, buf) := ext (ipmi_read (ibuf s)) in
  if all_zero buf then ret (mk_main_state buf cnt (proc_kcs_ok s) (current_msg s))
  else
    let! _ := lift (print_ibuf buf) in
    let! b0 := lift (arr_get buf 0) in
    let! buf := lift (arr_set buf 0 (Z.shiftr b0 2)) in
    let! netfn := lift (arr_get buf 0) in
    let! cmd := lift (arr_get buf 1) in
    if pal_request_msg_to_BIC_from_HOST netfn cmd then
      let m := c_buffer (current_msg s) in
      let m := with_InF_source HOST_KCS_1 m in
      let m := with_netfn netfn m in
      let m := with_cmd cmd m in
      let m := with_data_len (u16 (rc - 2)) m in
      let! m := (if negb (m_data_len m =? 0) then
                   let! d := lift (memcpy (m_data m) 0 buf 2 (m_data_len m)) in
                   ret (with_data d m)
                 else ret m) in
      let c := with_buffer m (current_msg s) in
      do! notify_ipmi_client c in
      ret (mk_main_state buf cnt true c)
    else ret (mk_main_state buf cnt true (current_msg s)).
End Program.

(** * Specification *)

Definition device_id_data : list Z :=
  [0x00; 0x80; 0x41; 0x08; 0x02; 0xBF; 0x15; 0xA0; 0x00; 0; 0; 0; 0; 0; 0].

(** Completion code and data of a command. *)
Definition command_spec (msg : ipmi_msg) : Z * list Z :=
  if (m_netfn msg =? NETFN_APP_REQ) && (m_cmd msg =? CMD_APP_GET_DEVICE_ID) then
    if m_data_len msg =? 0 then (CC_SUCCESS, device_id_data) else (CC_INVALID_LENGTH, [])
  else (CC_INVALID_CMD, []).

(** The only command that is taken from the host. *)
Definition accepted (b : list Z) : Prop :=
  exists b0 b1, b !! 0%nat = Some b0 /\ b !! 1%nat = Some b1 /\
    pal_request_msg_to_BIC_from_HOST (Z.shiftr b0 2) b1 = true.

(** The bytes written for a message. *)
Definition answer_of (m : ipmi_msg) : list Z :=
  let '(cc, vs) := command_spec m in kcs_frame (m_netfn m) (m_cmd m) cc vs.

Lemma pal_request_spec netfn cmd : pal_request_msg_to_BIC_from_HOST netfn cmd = true <->
  netfn = NETFN_APP_REQ /\ cmd = CMD_APP_GET_DEVICE_ID.
Proof.
  unfold pal_request_msg_to_BIC_from_HOST.
  destruct (Z.eqb_spec netfn NETFN_APP_REQ), (Z.eqb_spec cmd CMD_APP_GET_DEVICE_ID);
    split; (done || by intros []).
Qed.

(** * The dump of the buffer *)

Lemma last_nonzero_run j b :
  (j < length b)%nat -> (exists k x, (k <= j)%nat /\ b !! k = Some x /\ x <> 0) ->
  exists k x, last_nonzero j b = Ret (Z.of_nat k) /\ (k <= j)%nat /\ b !! k = Some x /\ x <> 0 /\
    forall i, (k < i <= j)%nat -> b !! i = Some 0.
Proof.
  induction j as [|j IH]; intros Hj (k & x & Hk & Hx & Hne).
  - assert (k = 0)%nat as -> by lia. exists 0%nat, x. cbn [last_nonzero].
    rewrite (arr_get_Ret _ _ x) by done. cbn [rbind]. rewrite (proj2 (Z.eqb_neq x 0)) by done.
    repeat split; try done. lia.
  - destruct (lookup_lt_is_Some_2 b (S j)) as [y Hy]; [lia|]. cbn [last_nonzero].
    rewrite (arr_get_Ret _ _ y) by (lia || by rewrite Nat2Z.id). cbn [rbind].
    destruct (Z.eqb_spec y 0) as [->|Hy0]; cbn [negb].
    + destruct IH as (k' & x' & -> & Hk' & Hx' & Hne' & Hz); [lia| |].
      { exists k, x. split; [|done]. destruct (decide (k = S j)) as [->|]; [congruence|lia]. }
      exists k', x'. repeat split; try done; [lia|]. intros i Hi.
      destruct (decide (i = S j)) as [->|]; [done|apply Hz; lia].
    + exists (S j), y. repeat split; try done. lia.
Qed.

Lemma all_zero_false b : all_zero b = false -> exists k x, b !! k = Some x /\ x <> 0.
Proof.
  unfold all_zero. induction b as [|x b IH]; cbn [forallb]; [done|].
  destruct (Z.eqb_spec x 0) as [->|Hx]; cbn [andb]; [|by exists 0%nat, x].
  intros (k & y & Hk & Hy)%IH. by exists (S k), y.
Qed.

Lemma dump_run n : forall i b, 0 <= i -> i + Z.of_nat n <= Z.of_nat (length b) ->
  dump n i b = Ret (take n (drop (Z.to_nat i) b)).
Proof.
  induction n as [|n IH]; intros i b Hi Hn; cbn [dump]; [by rewrite take_0|].
  destruct (lookup_lt_is_Some_2 b (Z.to_nat i)) as [x Hx]; [lia|].
  rewrite (arr_get_Ret _ _ x) by done. cbn [rbind]. rewrite IH by lia. cbn [rbind].
  rewrite (drop_S b x _ Hx). cbn [take]. by replace (Z.to_nat (i + 1)) with (S (Z.to_nat i)) by lia.
Qed.

Lemma dump_UB n : forall i b, 0 <= i -> Z.of_nat (length b) < i + Z.of_nat n -> i <= Z.of_nat (length b) ->
  dump n i b = UB.
Proof.
  induction n as [|n IH]; intros i b Hi Hn Hle; [lia|]. cbn [dump].
  destruct (decide (i = Z.of_nat (length b))) as [->|Hne]; [by rewrite arr_get_UB by lia|].
  destruct (arr_get_ok b i) as (x & -> & _); [lia|]. cbn [rbind]. by rewrite IH by lia.
Qed.

(** The dump shows one byte more than the message; there is none behind a
    full buffer. *)
Lemma print_ibuf_run b :
  Z.of_nat (length b) = KCS_BUFF_SIZE -> all_zero b = false ->
  (b !! 255%nat = Some 0 -> exists n, (n <= 256)%nat /\ print_ibuf b = Ret (take n b)) /\
  (b !! 255%nat <> Some 0 -> print_ibuf b = UB).
Proof.
  unfold KCS_BUFF_SIZE. intros Hlen (k0 & x0 & Hk0 & Hx0)%all_zero_false.
  pose proof (lookup_lt_Some _ _ _ Hk0) as Hlt.
  destruct (last_nonzero_run 255 b) as (k & x & Hrun & Hk & Hx & Hne & Hz);
    [lia|exists k0, x0; split; [lia|done]|].
  unfold print_ibuf, KCS_BUFF_SIZE. change (Z.to_nat (256 - 1)) with 255%nat. rewrite Hrun. cbn [rbind].
  rewrite u32_small by (unfold is_u32; lia). split; intros H255.
  - assert (k <> 255%nat) by (intros ->; congruence).
    exists (k + 2)%nat. split; [lia|]. rewrite dump_run by lia. rewrite drop_0. do 2 f_equal. lia.
  - assert (k = 255%nat) as ->.
    { destruct (decide (k = 255%nat)); [done|]. destruct H255. apply Hz. lia. }
    apply dump_UB; lia.
Qed.

(** * The handler thread *)

Section Proofs.
Context {E : Type} `{Kernel E} `{IpmiPort E}.
Implicit Types w : world E.

Lemma app_61_run m w :
  wf_msg m -> m_data_len m <= IPMI_MSG_MAX_LENGTH -> m_netfn m = NETFN_APP_REQ ->
  wp (IPMI_APP_handler m) (fun m' w' =>
    replies m m' (command_spec m).1 (command_spec m).2 /\ w' = w) w.
Proof.
  intros Hm Hl Hn. assert (H527 : Z.of_nat (length (m_data m)) = 527) by apply (wf_length _ Hm).
  unfold IPMI_APP_handler, command_spec. rewrite Hn, Z.eqb_refl. cbn [andb].
  destruct (m_cmd m =? CMD_APP_GET_DEVICE_ID);
    [|apply wp_ret; split; [by apply replies_empty|done]].
  unfold APP_GET_DEVICE_ID. destruct (m_data_len m =? 0); cbn [negb];
    [|apply wp_ret; split; [by apply replies_error|done]].
  apply wp_bind, wp_lift. rewrite set_bytes_run by (cbn [length]; lia). apply wp_ret.
  split; [|done]. by apply (replies_with m device_id_data); [|by vm_compute|repeat constructor|].
Qed.

Lemma dispatch_61_run m w :
  wf_msg m -> m_data_len m <= IPMI_MSG_MAX_LENGTH -> m_completion_code m = CC_INVALID_CMD ->
  wp (dispatch m) (fun m' w' =>
    replies m m' (command_spec m).1 (command_spec m).2 /\ w' = w) w.
Proof.
  intros Hm Hl Hcc. unfold dispatch. destruct (Z.eqb_spec (m_netfn m) NETFN_APP_REQ) as [Hn|Hn];
    [by apply app_61_run|].
  assert (Hs : command_spec m = (CC_INVALID_CMD, []))
    by (unfold command_spec; by rewrite (proj2 (Z.eqb_neq _ _) Hn)).
  rewrite Hs. destruct (m_netfn m =? NETFN_FIRMWARE_REQ); apply wp_ret; (split; [|done]).
  - replace m with (with_cc CC_INVALID_CMD m) at 2 by (by rewrite <- Hcc; destruct m).
    by apply replies_error.
  - replace (with_data_len 0 m) with (with_cc CC_INVALID_CMD (with_data_len 0 m))
      by (by rewrite <- Hcc; destruct m). by apply replies_empty.
Qed.

Lemma command_spec_data m : ((command_spec m).1 = CC_SUCCESS -> m_netfn m = NETFN_APP_REQ) /\
  ((command_spec m).1 <> CC_SUCCESS -> (command_spec m).2 = []) /\
  (length (command_spec m).2 <= 15)%nat.
Proof.
  unfold command_spec. destruct (Z.eqb_spec (m_netfn m) NETFN_APP_REQ); cbn [andb];
    repeat case_match; cbn; repeat split; (done || lia).
Qed.

(** A message from the KCS interface is answered by one write. *)
Lemma kcs_answer_61_run kb c w :
  wf_msg (c_buffer c) -> m_data_len (c_buffer c) <= IPMI_MSG_MAX_LENGTH ->
  m_InF_source (c_buffer c) = HOST_KCS_1 ->
  pal_is_not_return_cmd (m_netfn (c_buffer c)) (m_cmd (c_buffer c)) = false ->
  Z.of_nat (length kb) = KCS_BUFF_SIZE ->
  wp (ipmi_cmd_handle kb c) (fun kb' w' => length kb' = length kb /\ exists r e,
    ipmi_write (answer_of (c_buffer c)) (w_ext w) = (r, e) /\ w' = w_set_ext e w) w.
Proof.
  intros Hm Hl Hsrc Hret Hkb. set (m0 := with_cc CC_INVALID_CMD (c_buffer c)).
  assert (Hm0 : wf_msg m0) by (by apply wf_with_completion_code).
  assert (Ha0 : answers (c_buffer c) m0) by (by apply answers_error).
  unfold ipmi_cmd_handle. apply wp_bind. eapply wp_mono; [by apply (dispatch_61_run m0)|].
  unfold answer_of. change (command_spec m0) with (command_spec (c_buffer c)).
  pose proof (command_spec_data (c_buffer c)) as (Hnet & Hnil & H15).
  destruct (command_spec (c_buffer c)) as [cc vs]. cbn [fst snd] in *.
  intros m' w' [[Ha Hcc Hdata] ->]. pose proof (answers_trans _ _ _ Ha0 Ha) as Hac.
  pose proof (an_wf _ _ Ha) as Hm'.
  destruct (an_shape _ _ Hac) as (d & n & cc' & Hshape).
  assert (Hf : m_netfn m' = m_netfn (c_buffer c) /\ m_cmd m' = m_cmd (c_buffer c) /\
    m_InF_source m' = m_InF_source (c_buffer c)) by (by rewrite Hshape).
  destruct Hf as (Hn & Hc & Hs). rewrite Hn, Hc, Hret. apply wp_bind. rewrite Hcc.
  assert (Hwrite : forall m2, wf_msg m2 -> m_netfn m2 = m_netfn m' -> m_cmd m2 = m_cmd m' ->
    m_InF_source m2 = m_InF_source m' -> m_completion_code m2 = cc -> m_data_len m2 <= 15 ->
    payload m2 = vs ->
    wp (respond kb (with_buffer m2 c)) (fun kb' w' => length kb' = length kb /\ exists r e,
      ipmi_write (kcs_frame (m_netfn (c_buffer c)) (m_cmd (c_buffer c)) cc vs) (w_ext w) = (r, e) /\
      w' = w_set_ext e w) w).
  { intros m2 Hm2 Hn2 Hc2 Hs2 Hcc2 Hl2 Hp2. unfold respond. cbn [c_buffer with_buffer].
    rewrite Hs2, Hs, Hsrc. change (HOST_KCS_1 =? BMC_USB) with false. rewrite andb_false_r.
    change (HOST_KCS_1 =? HOST_KCS_1) with true.
    apply kcs_response_run; [done|done|unfold KCS_BUFF_SIZE; lia|].
    intros kb' r e Hkb' Hw. rewrite Hn2, Hc2, Hn, Hc, Hcc2, Hp2 in Hw. split; [done|]. by exists r, e. }
  destruct (Z.eqb_spec cc CC_SUCCESS) as [Hsu|Hsu]; cbn [negb].
  - rewrite (proj2 (Z.eqb_neq _ NETFN_OEM_1S_REQ)) by (by rewrite (Hnet Hsu)).
    apply wp_ret, Hwrite; try done; [|by apply Hdata].
    rewrite (payload_length m') by (done || apply Ha). rewrite (Hdata Hsu). lia.
  - apply wp_ret, Hwrite; try done; [by apply wf_with_data_len|]. by rewrite Hnil.
Qed.

(** * A turn of the polling loop *)

(** What is done with a message of at least one non-zero byte. *)
Definition take_request (s : main_state) (rc : Z) (buf : list Z) (netfn cmd : Z)
    : ST (world E) main_state :=
  let m := with_data_len (u16 (rc - 2)) (with_cmd cmd (with_netfn netfn
    (with_InF_source HOST_KCS_1 (c_buffer (current_msg s))))) in
  let! m := (if negb (m_data_len m =? 0) then
               let! d := lift (memcpy (m_data m) 0 buf 2 (m_data_len m)) in
               ret (with_data d m)
             else ret m) in
  let c := with_buffer m (current_msg s) in
  do! notify_ipmi_client c in
  ret (mk_main_state buf (next_cnt (cnt s)) true c).

Lemma main_step_eq s w rc x y t e :
  turn_read s w = ((rc, x :: y :: t), e) ->
  main_step s w =
    if all_zero (x :: y :: t)
    then Ret (mk_main_state (x :: y :: t) (next_cnt (cnt s)) (proc_kcs_ok s) (current_msg s),
              w_set_ext e w)
    else rbind (print_ibuf (x :: y :: t)) (fun _ =>
      if pal_request_msg_to_BIC_from_HOST (Z.shiftr x 2) y
      then take_request s rc (Z.shiftr x 2 :: y :: t) (Z.shiftr x 2) y (w_set_ext e w)
      else Ret (mk_main_state (Z.shiftr x 2 :: y :: t) (next_cnt (cnt s)) true (current_msg s),
                w_set_ext e w)).
Proof.
  intros Hread. unfold turn_read in Hread. unfold main_step, bind at 1, ext_, modify. cbn [rbind].
  unfold bind at 1, ext at 1. wcbn. rewrite Hread. cbn [rbind].
  destruct (all_zero (x :: y :: t)); [done|].
  unfold bind at 1, lift at 1. destruct (print_ibuf (x :: y :: t)); cbn [rbind]; try done.
  unfold bind at 1, lift at 1. rewrite kcs_netfn. cbn [rbind].
  unfold bind at 1, lift at 1. arr_set_lit.
  unfold bind at 1, lift at 1. rewrite kcs_netfn. cbn [rbind].
  unfold bind at 1, lift at 1. rewrite kcs_cmd. cbn [rbind].
  by destruct (pal_request_msg_to_BIC_from_HOST (Z.shiftr x 2) y).
Qed.

(** The length of a message of less than two bytes wraps around. *)
Lemma take_request_short s rc buf netfn cmd w :
  -4096 <= rc < 2 -> Z.of_nat (length buf) <= KCS_BUFF_SIZE ->
  take_request s rc buf netfn cmd w = UB.
Proof.
  unfold KCS_BUFF_SIZE. intros Hrc Hb. unfold take_request.
  assert (Hu : u16 (rc - 2) = 65534 + rc).
  { unfold u16. replace (rc - 2) with ((65534 + rc) + (-1) * 2 ^ 16) by lia.
    rewrite Z.mod_add by lia. apply Z.mod_small. lia. }
  cbn [m_data_len with_data_len]. rewrite Hu, (proj2 (Z.eqb_neq _ 0)) by lia. cbn [negb].
  unfold bind, lift, memcpy, arr_slice. rewrite (proj2 (Z.leb_gt (2 + (65534 + rc)) _)) by lia.
  by rewrite andb_false_r.
Qed.

Lemma take_request_run (q : E -> list ipmi_msg_cfg) s rc x y t e w :
  port_laws q -> wf_msg (c_buffer (current_msg s)) -> bytes (x :: y :: t) ->
  Z.of_nat (length (x :: y :: t)) = KCS_BUFF_SIZE -> 2 <= rc <= KCS_BUFF_SIZE ->
  pal_request_msg_to_BIC_from_HOST (Z.shiftr x 2) y = true -> q e = q (w_ext w) ->
  wp (take_request s rc (Z.shiftr x 2 :: y :: t) (Z.shiftr x 2) y) (fun s' w' =>
    kcs_message (x :: y :: t) rc (current_msg s') /\ (exists e', w' = w_set_ext e' w) /\
    q (w_ext w') = if Z.of_nat (length (q (w_ext w))) <? IPMI_BUF_LEN
                   then q (w_ext w) ++ [current_msg s'] else [current_msg s']) (w_set_ext e w).
Proof.
  intros Hq Hm Hb Hlen Hrc Hacc He. unfold KCS_BUFF_SIZE in *. cbn [length] in Hlen.
  apply Forall_cons in Hb as [Hx [Hy Ht]%Forall_cons].
  assert (Hn8 : is_u8 (Z.shiftr x 2)) by (apply shiftr_range; try lia; done).
  assert (Hu : u16 (rc - 2) = rc - 2) by (apply u16_small; unfold is_u16; lia).
  unfold take_request. set (m1 := with_data_len (u16 (rc - 2)) _).
  assert (Hm1 : wf_msg m1) by (unfold m1; wf_auto).
  apply wp_bind. eapply wp_mono; [apply (kcs_data_run y t rc _ x (current_msg s) m1); (done || lia)|].
  intros m2 w2 [-> Hkm]. apply wp_bind.
  assert (Hreq : IS_RESPONSE (c_buffer (with_buffer m2 (current_msg s))) = false).
  { destruct (km_netfn _ _ _ Hkm) as (x' & Hx' & Hn). injection Hx' as <-.
    unfold IS_RESPONSE. rewrite Hn. by apply pal_request_spec in Hacc as [-> _]. }
  eapply wp_mono; [apply wp_and; [apply notify_run|by apply (notify_delivers_run q (pl_queue _ Hq))]|].
  - intros m ms e1 r e2 Hl. by destruct (ql_lock _ (pl_queue _ Hq) _ _ _ _ _ Hl) as [-> _].
  - intros st w' [([e' ->] & _) [_ Hout]]. apply wp_ret. split; [done|]. split; [by exists e'|].
    wcbn. cbn [w_ext w_set_ext] in Hout. by rewrite He in Hout.
Qed.
End Proofs.

(** * Theorems *)

Section Theorems.
Context {E : Type} `{Kernel E} `{IpmiPort E}.
Implicit Types w : world E.

(** The frame that answers a request of [rc] bytes. *)
Definition device_id_answer (rc : Z) : list Z :=
  if rc =? 2 then kcs_frame NETFN_APP_REQ CMD_APP_GET_DEVICE_ID CC_SUCCESS device_id_data
  else kcs_frame NETFN_APP_REQ CMD_APP_GET_DEVICE_ID CC_INVALID_LENGTH [].

(** What the three theorems assume of the state and the read of a turn. *)
Record turn_ready (q : E -> list ipmi_msg_cfg) (s : main_state) w (rc : Z) (b : list Z) (e : E) : Prop := {
  tr_laws : port_laws q;
  tr_read : turn_read s w = ((rc, b), e);
  tr_bytes : bytes (ibuf s);
  tr_length : Z.of_nat (length (ibuf s)) = KCS_BUFF_SIZE;
  tr_errno : -4096 <= rc;
  tr_msg : wf_msg (c_buffer (current_msg s));
}.

Lemma turn_ready_buffer q s w rc b e : turn_ready q s w rc b e ->
  q e = q (w_ext w) /\ bytes b /\ Z.of_nat (length b) = KCS_BUFF_SIZE /\ rc <= KCS_BUFF_SIZE /\
  exists x y t, b = x :: y :: t.
Proof.
  intros [Hq Hread Hb Hl Hrc Hm].
  destruct (ipmi_read_buffer _ _ _ _ _ Hread Hb) as (Hlb & Hbb & Hrc').
  pose proof (pl_read _ Hq _ _ _ _ Hread) as Hq1. rewrite (pl_sleep _ Hq) in Hq1.
  split; [done|]. split; [done|]. unfold KCS_BUFF_SIZE in *. split; [lia|]. split; [lia|].
  destruct b as [|x [|y t]]; cbn [length] in Hlb; [lia..|]. by exists x, y, t.
Qed.

Lemma accepted_cons x y t : accepted (x :: y :: t) <->
  pal_request_msg_to_BIC_from_HOST (Z.shiftr x 2) y = true.
Proof.
  split; [|by exists x, y]. intros (x' & y' & [= <-] & [= <-] & Hacc). done.
Qed.

Lemma accepted_nonzero b : accepted b -> all_zero b = false.
Proof.
  intros (x & y & Hx & Hy & [_ ->]%pal_request_spec). destruct b as [|x' [|y' t]]; try done.
  injection Hy as ->. unfold all_zero. cbn [forallb]. apply andb_false_r.
Qed.

(** A turn that takes the request. *)
Lemma main_step_61_run (q : E -> list ipmi_msg_cfg) s w rc b e :
  turn_ready q s w rc b e -> accepted b -> 2 <= rc -> b !! 255%nat = Some 0 ->
  wp (main_step s) (fun s' w' => kcs_message b rc (current_msg s') /\
    (exists e', w' = w_set_ext e' w) /\
    q (w_ext w') = if Z.of_nat (length (q (w_ext w))) <? IPMI_BUF_LEN
                   then q (w_ext w) ++ [current_msg s'] else [current_msg s']) w.
Proof.
  intros Htr Hacc Hrc Hlast.
  destruct (turn_ready_buffer _ _ _ _ _ _ Htr) as (He & Hb & Hlb & Hrc' & x & y & t & ->).
  pose proof (accepted_nonzero _ Hacc) as Hnz. apply accepted_cons in Hacc.
  unfold wp. rewrite (main_step_eq s w rc x y t e (tr_read _ _ _ _ _ _ Htr)), Hnz.
  destruct (proj1 (print_ibuf_run _ Hlb Hnz) Hlast) as (n & _ & ->). cbn [rbind]. rewrite Hacc.
  by apply (take_request_run q s rc x y t e w (tr_laws _ _ _ _ _ _ Htr) (tr_msg _ _ _ _ _ _ Htr)).
Qed.

(** C15: GET_DEVICE_ID from the host and back: with an empty queue, a turn of
    the main loop that reads the command and the next turn of the IPMI thread
    end with one write: the device id with the number of this manufacturer, or
    a length error when the request has data. *)
Theorem device_id_answered (q : E -> list ipmi_msg_cfg) s w rc b e kb :
  turn_ready q s w rc b e -> accepted b -> 2 <= rc -> b !! 255%nat = Some 0 ->
  q (w_ext w) = [] -> Z.of_nat (length kb) = KCS_BUFF_SIZE ->
  wp (bind (main_step s) (fun s' => bind (IPMI_handler kb) (fun _ => ret s'))) (fun s' w' =>
    exists e1 r e2, q e1 = [] /\ ipmi_write (device_id_answer rc) e1 = (r, e2) /\
      w' = w_set_ext e2 w) w.
Proof.
  intros Htr Hacc Hrc Hlast Hempty Hkb. apply wp_bind.
  eapply wp_mono; [by eapply main_step_61_run|].
  destruct (turn_ready_buffer _ _ _ _ _ _ Htr) as (_ & _ & _ & Hrc' & _).
  intros s' w1 (Hkm & [e1 ->] & Hq1). rewrite Hempty in Hq1. cbn in Hq1.
  destruct (pl_get _ (tr_laws _ _ _ _ _ _ Htr) _ _ _ Hq1) as (e2 & Hget & Hq2).
  destruct Hacc as (x & y & Hx & Hy & [Hn Hc]%pal_request_spec).
  assert (Hmn : m_netfn (c_buffer (current_msg s')) = NETFN_APP_REQ).
  { destruct (km_netfn _ _ _ Hkm) as (x' & Hx' & ->). congruence. }
  assert (Hmc : m_cmd (c_buffer (current_msg s')) = CMD_APP_GET_DEVICE_ID).
  { pose proof (km_cmd _ _ _ Hkm). congruence. }
  assert (Hans : answer_of (c_buffer (current_msg s')) = device_id_answer rc).
  { unfold answer_of, command_spec, device_id_answer. rewrite Hmn, Hmc, (km_len _ _ _ Hkm).
    rewrite !Z.eqb_refl. cbn [andb].
    by destruct (Z.eqb_spec (rc - 2) 0), (Z.eqb_spec rc 2); try lia. }
  apply wp_bind, wp_bind. eapply wp_of_eq; [unfold ext; wcbn; rewrite Hget; reflexivity|].
  eapply wp_mono; [apply kcs_answer_61_run; [apply Hkm| |apply Hkm|by rewrite Hmn, Hmc|done]|].
  - rewrite (km_len _ _ _ Hkm). unfold KCS_BUFF_SIZE, IPMI_MSG_MAX_LENGTH, IPMI_DATA_MAX_LENGTH,
      IPMB_RESP_HEADER_LENGTH in *. lia.
  - intros kb' w' (_ & r & e3 & Hw & ->). apply wp_ret. rewrite Hans in Hw. by exists e2, r, e3.
Qed.

(** C21: a turn of the main loop is undefined in exactly two cases: the last
    byte of the buffer is not zero, so that the dump reads the byte behind it,
    or the buffer holds GET_DEVICE_ID although the read failed or returned
    fewer than two bytes, so that the length of the copy wraps around. *)
Theorem turn_undefined_iff (q : E -> list ipmi_msg_cfg) s w rc b e :
  turn_ready q s w rc b e ->
  main_step s w = UB <-> b !! 255%nat <> Some 0 \/ (accepted b /\ rc < 2).
Proof.
  intros Htr. destruct (turn_ready_buffer _ _ _ _ _ _ Htr) as (He & Hb & Hlb & Hrc' & x & y & t & ->).
  pose proof (main_step_eq s w rc x y t e (tr_read _ _ _ _ _ _ Htr)) as Heq. rewrite Heq.
  destruct (all_zero (x :: y :: t)) eqn:Hz.
  { split; [done|]. intros [Hlast|[Hacc _]].
    - destruct Hlast. unfold all_zero in Hz. rewrite forallb_forall in Hz.
      destruct (lookup_lt_is_Some_2 (x :: y :: t) 255) as [v Hv]; [unfold KCS_BUFF_SIZE in Hlb; lia|].
      rewrite Hv. f_equal. apply Z.eqb_eq, Hz, list_elem_of_In. by eapply list_elem_of_lookup_2.
    - by rewrite (accepted_nonzero _ Hacc) in Hz. }
  destruct (decide ((x :: y :: t) !! 255%nat = Some 0)) as [Hlast|Hlast].
  2: { rewrite (proj2 (print_ibuf_run _ Hlb Hz) Hlast). naive_solver. }
  destruct (proj1 (print_ibuf_run _ Hlb Hz) Hlast) as (n & _ & ->). cbn [rbind].
  rewrite accepted_cons. destruct (pal_request_msg_to_BIC_from_HOST (Z.shiftr x 2) y) eqn:Hacc.
  2: { split; [done|]. intros [Hne|[Hx _]]; [by destruct Hne|done]. }
  destruct (Z.lt_ge_cases rc 2) as [Hlt|Hge].
  - split; [by auto|]. intros _. destruct Htr. apply take_request_short; [lia|]. cbn [length] in *. lia.
  - assert (Hw : wp (take_request s rc (Z.shiftr x 2 :: y :: t) (Z.shiftr x 2) y)
        (fun _ _ => True) (w_set_ext e w)).
    { eapply wp_mono; [apply (take_request_run q); try done; apply Htr|done]. }
    unfold wp in Hw. destruct (take_request _ _ _ _ _ _); [|done..].
    split; [done|]. intros [Hne|[_ Hlt]]; [by destruct Hne|lia].
Qed.

(** C27: a failed read is only logged and the buffer, whose function was shifted
    in place, is handled again.  After a message with first byte 0x60 to 0x63
    and second byte 1, which is not for this program, the next read that fails
    makes it GET_DEVICE_ID of a wrapped length: the copy leaves both buffers. *)
Theorem stale_request_undefined (q : E -> list ipmi_msg_cfg) s w rc b e x s' :
  turn_ready q s w rc b e -> b !! 0%nat = Some x -> 0x60 <= x < 0x64 ->
  b !! 1%nat = Some 1 -> b !! 255%nat = Some 0 ->
  s' = mk_main_state (<[0%nat := Z.shiftr x 2]> b) (next_cnt (cnt s)) true (current_msg s) ->
  main_step s w = Ret (s', w_set_ext e w) /\
  (forall rc' e', turn_ready q s' (w_set_ext e w) rc' (ibuf s') e' -> rc' < 0 ->
     bind (main_step s) main_step w = UB).
Proof.
  intros Htr Hx Hrange Hy Hlast ->.
  destruct (turn_ready_buffer _ _ _ _ _ _ Htr) as (_ & _ & Hlb & _ & x0 & y & t & ->).
  injection Hx as ->. injection Hy as ->.
  assert (Hs : Z.shiftr x 2 = 0x18).
  { rewrite Z.shiftr_div_pow2 by lia. change (2 ^ 2) with 4. symmetry.
    apply (Z.div_unique x 4 0x18 (x - 0x60)); lia. }
  assert (Hstep : main_step s w = Ret (mk_main_state (Z.shiftr x 2 :: 1 :: t) (next_cnt (cnt s)) true
    (current_msg s), w_set_ext e w)).
  { rewrite (main_step_eq s w rc x 1 t e (tr_read _ _ _ _ _ _ Htr)).
    assert (Hnz : all_zero (x :: 1 :: t) = false) by (unfold all_zero; cbn [forallb]; apply andb_false_r).
    rewrite Hnz. destruct (proj1 (print_ibuf_run _ Hlb Hnz) Hlast) as (n & _ & ->). cbn [rbind].
    by rewrite Hs. }
  split; [done|]. intros rc' e' Htr' Hrc'. unfold bind. rewrite Hstep. cbn [rbind].
  destruct (turn_ready_buffer _ _ _ _ _ _ Htr') as (_ & _ & Hlb' & _).
  pose proof (tr_read _ _ _ _ _ _ Htr') as Hread'. cbn [ibuf insert list_insert] in Hread', Hlb'.
  rewrite (main_step_eq _ _ rc' _ 1 t e' Hread').
  assert (Hnz : all_zero (Z.shiftr x 2 :: 1 :: t) = false)
    by (unfold all_zero; cbn [forallb]; apply andb_false_r).
  rewrite Hnz. destruct (proj1 (print_ibuf_run _ Hlb' Hnz) Hlast) as (n & _ & ->). cbn [rbind].
  rewrite Hs. change (pal_request_msg_to_BIC_from_HOST (Z.shiftr 24 2) 1) with true. cbv iota.
  destruct Htr'. apply take_request_short; [lia|]. cbn [length] in *. lia.
Qed.
End Theorems.

(** * Concrete runs *)

Notation main_step_sim := (@main_step sim queue_kernel sim_port).
Notation turn_ready_sim := (@turn_ready sim queue_kernel sim_port sim_queue).

Definition zero_tail : list Z := replicate 254 0.

(** A turn of the simulated port on an empty message structure. *)
Lemma sim_turn_ready b s rc b' e :
  sim_ipmi_read b s = ((rc, b'), e) -> forallb (fun z => (0 <=? z) && (z <? 2 ^ 8)) b = true ->
  Z.of_nat (length b) = KCS_BUFF_SIZE -> -4096 <= rc ->
  turn_ready_sim (main0 b) (world1 s) rc b' e.
Proof.
  intros Hread Hb Hlen Hrc. split; try done; [apply sim_port_laws|by apply bytes_check|].
  apply wf_zero_msg.
Qed.

Lemma device_id_answered_witness :
  wp (bind (main_step_sim (main0 (replicate 256 0)))
    (fun s' => bind (@IPMI_handler sim queue_kernel sim_port (replicate 256 0)) (fun _ => ret s')))
    (fun _ w' => last (s_wire (w_ext w')) =
      Some [0; 0x1C; 0x01; 0x00; 0x00; 0x80; 0x41; 0x08; 0x02; 0xBF; 0x15; 0xA0; 0x00; 0; 0; 0; 0; 0; 0])
    (world1 (kcs_sim [0x18; 0x01])).
Proof.
  eapply wp_mono; [eapply (@device_id_answered sim queue_kernel sim_port sim_queue
    (main0 (replicate 256 0)) (world1 (kcs_sim [0x18; 0x01])) 2
    ([0x18; 0x01] ++ zero_tail) sim0 (replicate 256 0))|].
  - apply sim_turn_ready; [reflexivity|reflexivity|reflexivity|lia].
  - by exists 0x18, 0x01.
  - lia.
  - reflexivity.
  - reflexivity.
  - reflexivity.
  - intros s' w' (e1 & r & e2 & _ & Hw & ->). injection Hw as _ <-. cbn [w_ext w_set_ext s_wire].
    by rewrite last_snoc.
Defined.

(** GET_DEVICE_ID is still in the buffer when a read fails. *)
Lemma turn_undefined_iff_witness :
  main_step_sim (main0 ([0x18; 0x01] ++ zero_tail)) (world1 sim0) = UB.
Proof.
  apply (@turn_undefined_iff sim queue_kernel sim_port sim_queue
    (main0 ([0x18; 0x01] ++ zero_tail)) (world1 sim0) (-61) ([0x18; 0x01] ++ zero_tail) sim0).
  - apply sim_turn_ready; [reflexivity|reflexivity|reflexivity|lia].
  - right. split; [by exists 0x18, 0x01|lia].
Defined.

(** One message with first byte 0x60, and no other. *)
Lemma stale_request_undefined_witness :
  bind (main_step_sim (main0 (replicate 256 0))) main_step_sim (world1 (kcs_sim [0x60; 0x01])) = UB.
Proof.
  eapply (@stale_request_undefined sim queue_kernel sim_port sim_queue
    (main0 (replicate 256 0)) (world1 (kcs_sim [0x60; 0x01])) 2 ([0x60; 0x01] ++ zero_tail) sim0 0x60).
  - apply sim_turn_ready; [reflexivity|reflexivity|reflexivity|lia].
  - reflexivity.
  - lia.
  - reflexivity.
  - reflexivity.
  - reflexivity.
  - split; try done; [apply sim_port_laws|by apply bytes_check|apply wf_zero_msg].
  - lia.
Defined.
