(* ===== verification/StorageHandler.v ===== *)
(** The FRU, SDR and SEL commands of [ipmi/storage_handler.c].  The FRU and
    SDR modules are not in the repository: their constants, their functions
    and the memory of the SDR table are the class [Storage]. *)

From S2P Require Import Prelude IpmiDefs World IpmbSeq IpmbSeqSpec IpmbApi IpmbTasks HandlerLib.

(** [EEPROM_ENTRY]; [config.dev_id] is the only field of [config] used. *)
Record EEPROM_ENTRY : Type := mk_EEPROM_ENTRY {
  fru_dev_id : Z;
  fru_offset : Z;
  fru_data_len : Z;
  fru_data : list Z;
}.

(** [entry_len] is the conversion to the type of [EEPROM_ENTRY.data_len],
    [sdr_bytes id] the memory from [&full_sdr_table[id]]. *)
Class Storage (E : Type) : Type := {
  MAX_FRU_ID : Z;
  FRU_READ_SUCCESS : Z;
  FRU_WRITE_SUCCESS : Z;
  FRU_INVALID_ID : Z;
  FRU_OUT_OF_RANGE : Z;
  FRU_FAIL_TO_ACCESS : Z;
  RSV_TABLE_INDEX_0 : Z;
  RSV_TABLE_INDEX_1 : Z;
  IPMI_SDR_HEADER_LEN : Z;
  entry_len : Z -> Z;
  entry_data : E -> list Z;
  find_FRU_size : Z -> E -> Z * E;
  get_FRU_access : Z -> E -> Z * E;
  FRU_read : EEPROM_ENTRY -> E -> (Z * EEPROM_ENTRY) * E;
  FRU_write : EEPROM_ENTRY -> E -> Z * E;
  SDR_get_RSV_ID : Z -> E -> Z * E;
  SDR_RSV_ID_check : Z -> Z -> E -> bool * E;
  SDR_check_record_ID : Z -> E -> bool * E;
  SDR_get_record_ID : Z -> E -> Z * E;
  sdr_record_len : Z -> E -> Z;
  sdr_bytes : Z -> E -> list Z;
}.

(** The documented behaviour of those modules: values have their type; the
    entry holds at least 32 bytes, [FRU_read] fills it and keeps its length;
    a record that [SDR_check_record_ID] accepts lies in the table. *)
Record storage_laws {E} `{Storage E} : Prop := {
  sl_len : forall n, 0 <= n -> 0 <= entry_len n <= n;
  sl_data : forall e, (32 <= length (entry_data e))%nat;
  sl_size : forall i e v e', find_FRU_size i e = (v, e') -> is_u16 v;
  sl_access : forall i e v e', get_FRU_access i e = (v, e') -> is_u8 v;
  sl_read : forall f e r f' e', FRU_read f e = (r, f', e') ->
    fru_data_len f' = fru_data_len f /\ length (fru_data f') = length (fru_data f) /\
    bytes (fru_data f');
  sl_rsv : forall i e v e', SDR_get_RSV_ID i e = (v, e') -> is_u16 v;
  sl_next : forall i e v e', SDR_get_record_ID i e = (v, e') ->
    is_u16 v /\ sdr_record_len i e' = sdr_record_len i e;
  sl_sdr : forall i e, bytes (sdr_bytes i e) /\
    IPMI_SDR_HEADER_LEN + sdr_record_len i e <= Z.of_nat (length (sdr_bytes i e));
}.
Arguments storage_laws E {_}.

Definition get_add_sel_target_interface : Z := BMC_IPMB.

Section Handlers.
Context {E : Type} `{Kernel E} `{Storage E}.

Definition STORAGE_GET_FRUID_INFO (msg : ipmi_msg) : ST (world E) ipmi_msg :=
  if negb (m_data_len msg =? 1) then ret (with_cc CC_INVALID_LENGTH msg)
  else
    let! fruid := lift (get_data msg 0) in
    if fruid >=? MAX_FRU_ID then ret (with_cc CC_INVALID_DATA_FIELD msg)
    else
      let! fru_size := ext (find_FRU_size fruid) in
      if fru_size =? 0xFFFF then ret (with_cc CC_UNSPECIFIED_ERROR msg)
      else
        let! msg := lift (set_data 0 (Z.land fru_size 0xFF) msg) in
        let! msg := lift (set_data 1 (Z.land (Z.shiftr fru_size 8) 0xFF) msg) in
        let! access := ext (get_FRU_access fruid) in
        let! msg := lift (set_data 2 access msg) in
        ret (with_cc CC_SUCCESS (with_data_len 3 msg)).

(** The completion code of a FRU access. *)
Definition fru_cc (success status : Z) : Z :=
  if status =? success then CC_SUCCESS
  else if status =? FRU_INVALID_ID then CC_INVALID_PARAM
  else if status =? FRU_OUT_OF_RANGE then CC_PARAM_OUT_OF_RANGE
  else if status =? FRU_FAIL_TO_ACCESS then CC_FRU_DEV_BUSY
  else CC_UNSPECIFIED_ERROR.

Definition STORAGE_READ_FRUID_DATA (msg : ipmi_msg) : ST (world E) ipmi_msg :=
  if negb (m_data_len msg =? 4) then ret (with_cc CC_INVALID_LENGTH msg)
  else
    let! d0 := lift (get_data msg 0) in
    let! d1 := lift (get_data msg 1) in
    let! d2 := lift (get_data msg 2) in
    let! d3 := lift (get_data msg 3) in
    let! data := gets (fun w => entry_data (w_ext w)) in
    let fru_entry := mk_EEPROM_ENTRY d0 (Z.lor (Z.shiftl d2 8) d1) (entry_len d3) data in
    if fru_data_len fru_entry >? 32 then ret (with_cc CC_LENGTH_EXCEEDED msg)
    else
      let! (status, fru_entry) := ext (FRU_read fru_entry) in
      let msg := with_data_len (u16 (fru_data_len fru_entry + 1)) msg in
      let! msg := lift (set_data 0 (u8 (fru_data_len fru_entry)) msg) in
      let! src := lift (arr_slice (fru_data fru_entry) 0 (fru_data_len fru_entry)) in
      let! msg := lift (blit_data 1 src msg) in
      ret (with_cc (fru_cc FRU_READ_SUCCESS status) msg).

Definition STORAGE_WRITE_FRUID_DATA (msg : ipmi_msg) : ST (world E) ipmi_msg :=
  if m_data_len msg <? 4 then ret (with_cc CC_INVALID_LENGTH msg)
  else
    let! d0 := lift (get_data msg 0) in
    let! d1 := lift (get_data msg 1) in
    let! d2 := lift (get_data msg 2) in
    let! data := gets (fun w => entry_data (w_ext w)) in
    let len := entry_len (m_data_len msg - 3) in
    if len >? 32 then ret (with_cc CC_LENGTH_EXCEEDED msg)
    else
      let! data := lift (memcpy data 0 (m_data msg) 3 len) in
      let fru_entry := mk_EEPROM_ENTRY d0 (Z.lor (Z.shiftl d2 8) d1) len data in
      let! msg := lift (set_data 0 (u8 (m_data_len msg - 3)) msg) in
      let msg := with_data_len 1 msg in
      let! status := ext (FRU_write fru_entry) in
      ret (with_cc (fru_cc FRU_WRITE_SUCCESS status) msg).

Definition rsv_table_index (msg : ipmi_msg) : Z :=
  if m_InF_source msg =? SLOT3_BIC then RSV_TABLE_INDEX_1 else RSV_TABLE_INDEX_0.

Definition STORAGE_RSV_SDR (msg : ipmi_msg) : ST (world E) ipmi_msg :=
  if negb (m_data_len msg =? 0) then ret (with_cc CC_INVALID_LENGTH msg)
  else
    let! RSV_ID := ext (SDR_get_RSV_ID (rsv_table_index msg)) in
    let! msg := lift (set_bytes 0 [Z.land RSV_ID 0xFF; Z.land (Z.shiftr RSV_ID 8) 0xFF] msg) in
    ret (with_cc CC_SUCCESS (with_data_len 2 msg)).

(** The weak [pal_set_SDR] does nothing. *)
Definition STORAGE_GET_SDR (msg : ipmi_msg) : ST (world E) ipmi_msg :=
  let! d1 := lift (get_data msg 1) in
  let! d0 := lift (get_data msg 0) in
  let! d3 := lift (get_data msg 3) in
  let! d2 := lift (get_data msg 2) in
  let! offset := lift (get_data msg 4) in
  let! req_len := lift (get_data msg 5) in
  let rsv_ID := Z.lor (Z.shiftl d1 8) d0 in
  let record_ID := Z.lor (Z.shiftl d3 8) d2 in
  if negb (m_data_len msg =? 6) then ret (with_cc CC_INVALID_LENGTH msg)
  else
    let! ok := ext (SDR_RSV_ID_check rsv_ID (rsv_table_index msg)) in
    if negb ok then ret (with_cc CC_INVALID_RESERVATION msg)
    else
      let! ok := ext (SDR_check_record_ID record_ID) in
      if negb ok then ret (with_cc CC_INVALID_DATA_FIELD msg)
      else if req_len + 2 >? IPMI_DATA_MAX_LENGTH then ret (with_cc CC_LENGTH_EXCEEDED msg)
      else
        let! record_len := gets (fun w => sdr_record_len record_ID (w_ext w)) in
        if offset + req_len >? IPMI_SDR_HEADER_LEN + record_len
        then ret (with_cc CC_PARAM_OUT_OF_RANGE msg)
        else
          let! next_record_ID := ext (SDR_get_record_ID record_ID) in
          let! msg := lift (set_bytes 0 [Z.land next_record_ID 0xFF;
            Z.land (Z.shiftr next_record_ID 8) 0xFF] msg) in
          let! table := gets (fun w => sdr_bytes record_ID (w_ext w)) in
          let! src := lift (arr_slice table offset req_len) in
          let! msg := lift (blit_data 2 src msg) in
          ret (with_cc CC_SUCCESS (with_data_len (u16 (req_len + 2)) msg)).

(** [MAX_IPMB_IDX] is the number of channels. *)
Definition STORAGE_ADD_SEL (msg : ipmi_msg) : ST (world E) ipmi_msg :=
  let! l := gets w_ch in
  if Z.of_nat (length l) =? 0 then ret (with_cc CC_UNSPECIFIED_ERROR msg)
  else if negb (m_data_len msg =? 16) then ret (with_cc CC_INVALID_LENGTH msg)
  else
    let! ok := ext (malloc_buf 0) in
    if negb ok then ret (with_cc CC_UNSPECIFIED_ERROR msg)
    else
      let b := with_InF_source SELF zero_msg in
      let b := with_InF_target get_add_sel_target_interface b in
      let b := with_netfn NETFN_STORAGE_REQ b in
      let b := with_cmd CMD_STORAGE_ADD_SEL b in
      let b := with_data_len (m_data_len msg) b in
      let! b := copy_data b msg in
      let! idx := inf_index get_add_sel_target_interface in
      if pal_is_interface_use_ipmb idx then
        let! target := inf_index (m_InF_target b) in
        let! (status, _) := ipmb_read b target in
        let msg := with_data_len 0 msg in
        match status with
        | IPMB_ERROR_FAILURE | IPMB_ERROR_GET_MESSAGE_QUEUE =>
            ret (with_cc CC_UNSPECIFIED_ERROR msg)
        | _ => ret (with_cc CC_SUCCESS msg)
        end
      else
        let b := with_InF_target PLDM b in
        let! _ := ext (pldm_send_ipmi_request b) in
        let msg := with_data_len 0 msg in
        ret (with_cc CC_SUCCESS msg).

Definition IPMI_Storage_handler (msg : ipmi_msg) : ST (world E) ipmi_msg :=
  let cmd := m_cmd msg in
  if cmd =? CMD_STORAGE_GET_FRUID_INFO then STORAGE_GET_FRUID_INFO msg
  else if cmd =? CMD_STORAGE_READ_FRUID_DATA then STORAGE_READ_FRUID_DATA msg
  else if cmd =? CMD_STORAGE_WRITE_FRUID_DATA then STORAGE_WRITE_FRUID_DATA msg
  else if cmd =? CMD_STORAGE_RSV_SDR then STORAGE_RSV_SDR msg
  else if cmd =? CMD_STORAGE_GET_SDR then STORAGE_GET_SDR msg
  else if cmd =? CMD_STORAGE_ADD_SEL then STORAGE_ADD_SEL msg
  else ret (with_cc CC_INVALID_CMD (with_data_len 0 msg)).
End Handlers.

(** * Contracts *)

Section Contracts.
Context {E : Type} `{Kernel E} `{Storage E} (Hs : storage_laws E).
Implicit Types w : world E.

Lemma fru_cc_u8 s st : is_u8 (fru_cc (E := E) s st).
Proof. unfold fru_cc. repeat case_match; done. Qed.

Lemma len_nonneg m : wf_msg m -> 0 <= m_data_len m.
Proof. intros Hm. by destruct (wf_data_len _ Hm). Qed.

#[export] Instance FRUID_INFO_Handler : Handler (E := E) STORAGE_GET_FRUID_INFO.
Proof.
  intros m w Hm Hl He. pose proof (answers_refl m Hm Hl) as Ha. unfold STORAGE_GET_FRUID_INFO.
  repeat handler_step; try (split; [handler_side|done]).
  - apply low_byte. by eapply (sl_size Hs).
  - apply low_byte, Z.shiftr_nonneg. by eapply (sl_size Hs).
  - by eapply (sl_access Hs).
Qed.

Lemma data_len_cases b m n : negb (m_data_len m =? n) = b -> b = false -> m_data_len m = n.
Proof. intros <- Hb. apply negb_false_iff, Z.eqb_eq in Hb. done. Qed.

(** Reading FRU data: the reply has the length that was asked for and the
    data the FRU module filled in, under the code of its status. *)
Lemma read_fruid_run m w :
  wf_msg m -> m_data_len m <= IPMI_MSG_MAX_LENGTH ->
  wp (STORAGE_READ_FRUID_DATA m) (fun m' w' => quiet w w' /\ answers m m' /\
    ((m_data_len m <> 4 /\ m' = with_cc CC_INVALID_LENGTH m) \/
     exists dev lo hi len, m_data_len m = 4 /\ payload m = [dev; lo; hi; len] /\
       ((32 < entry_len len /\ m' = with_cc CC_LENGTH_EXCEEDED m) \/
        exists st f e, entry_len len <= 32 /\
          FRU_read (mk_EEPROM_ENTRY dev (Z.lor (Z.shiftl hi 8) lo) (entry_len len)
            (entry_data (w_ext w))) (w_ext w) = (st, f, e) /\ w' = w_set_ext e w /\
          m_completion_code m' = fru_cc (E := E) FRU_READ_SUCCESS st /\
          payload m' = entry_len len :: take (Z.to_nat (entry_len len)) (fru_data f)))) w.
Proof.
  intros Hm Hl. pose proof (answers_refl m Hm Hl) as Ha. unfold STORAGE_READ_FRUID_DATA.
  assert (Hq : quiet w w) by (exists (w_ext w); by destruct w).
  handler_step; [handler_step; split; [done|split; [handler_side|left]]|].
  { split; [|done]. apply negb_true_iff, Z.eqb_neq in Heqb. done. }
  apply negb_false_iff, Z.eqb_eq in Heqb.
  handler_step. handler_step. rename x into d0, H1 into L0, H2 into B0.
  handler_step. handler_step. rename x into d1, H1 into L1, H2 into B1.
  handler_step. handler_step. rename x into d2, H1 into L2, H2 into B2.
  handler_step. handler_step. rename x into d3, H1 into L3, H2 into B3.
  handler_step. handler_step.
  assert (Hpay : payload m = [d0; d1; d2; d3]).
  { unfold payload. rewrite Heqb. destruct (m_data m) as [|? [|? [|? [|? ?]]]]; try done.
    change (Z.to_nat 0) with O in L0. change (Z.to_nat 1) with 1%nat in L1.
    change (Z.to_nat 2) with 2%nat in L2. change (Z.to_nat 3) with 3%nat in L3.
    by simplify_eq/=. }
  destruct (sl_len Hs d3) as [Hn0 Hn1]; [apply B3|]. cbn [fru_data_len].
  destruct (Z.gtb_spec (entry_len d3) 32) as [Hgt|Hle].
  { handler_step. split; [done|]. split; [handler_side|]. right. exists d0, d1, d2, d3.
    split; [done|]. split; [done|]. left. split; [lia|done]. }
  handler_step. apply wp_ext. intros [st f] e Hrd. cbv beta iota.
  destruct (sl_read Hs _ _ _ _ _ Hrd) as (Hfl & Hfd & Hfb). cbn [fru_data_len fru_data] in Hfl, Hfd.
  pose proof (sl_data Hs (w_ext w)) as H32. rewrite Hfl.
  assert (Hsrc : length (take (Z.to_nat (entry_len d3)) (fru_data f)) = Z.to_nat (entry_len d3))
    by (rewrite length_take; lia).
  assert (Hu8 : u8 (entry_len d3) = entry_len d3) by (apply u8_small; unfold is_u8; lia).
  assert (Hu16 : u16 (entry_len d3 + 1) = entry_len d3 + 1) by (apply u16_small; unfold is_u16; lia).
  rewrite Hu8, Hu16.
  assert (Ha1 : answers m (with_data_len (entry_len d3 + 1) m)) by handler_side.
  do 2 handler_step. { unfold is_u8. lia. }
  handler_step. apply wp_lift. rewrite arr_slice_ok by lia. rewrite drop_0. cbn [rwp].
  do 2 handler_step. { by apply bytes_take. }
  handler_step. split; [by exists e|].
  split; [apply answers_cc; [done|apply fru_cc_u8]|]. right. exists d0, d1, d2, d3.
  split; [done|]. split; [done|]. right. exists st, f, e. split; [done|]. split; [done|].
  split; [done|]. split; [done|]. unfold payload. cbn [m_data m_data_len with_cc
    with_completion_code with_data with_data_len].
  pose proof (wf_length _ Hm) as H527. destruct (m_data m) as [|x t]; [by cbn in H527|].
  change (Z.to_nat 0) with O. change (Z.to_nat 1) with 1%nat. unfold overwrite.
  replace (Z.to_nat (entry_len d3 + 1)) with (S (Z.to_nat (entry_len d3))) by lia.
  cbn [length take drop app Nat.add]. f_equal. rewrite take_0. cbn [app].
  by apply take_app_length'.
Qed.

#[export] Instance READ_FRUID_Handler : Handler (E := E) STORAGE_READ_FRUID_DATA.
Proof.
  intros m w Hm Hl He. eapply wp_mono; [by apply read_fruid_run|].
  intros m' w' ([e ->] & Ha & _). done.
Qed.

#[export] Instance WRITE_FRUID_Handler : Handler (E := E) STORAGE_WRITE_FRUID_DATA.
Proof.
  intros m w Hm Hl He. pose proof (answers_refl m Hm Hl) as Ha. unfold STORAGE_WRITE_FRUID_DATA.
  handler_step; [handler_step; split; [handler_side|done]|]. apply Z.ltb_ge in Heqb.
  do 8 handler_step. destruct (sl_len Hs (m_data_len m - 3)) as [Hn0 Hn1]; [lia|].
  destruct (Z.gtb_spec (entry_len (m_data_len m - 3)) 32) as [|Hle];
    [handler_step; split; [handler_side|done]|].
  pose proof (sl_data Hs (w_ext w)) as H32. pose proof (wf_length _ Hm) as H527.
  handler_step. apply wp_lift. unfold memcpy. rewrite arr_slice_ok by lia. cbn [rbind].
  rewrite arr_blit_ok by (rewrite ?length_take, ?length_drop; lia). cbn [rwp].
  repeat handler_step. split; [|done]. apply answers_cc; [|apply fru_cc_u8].
  by apply answers_len.
Qed.

#[export] Instance RSV_SDR_Handler : Handler (E := E) STORAGE_RSV_SDR.
Proof.
  intros m w Hm Hl He. pose proof (answers_refl m Hm Hl) as Ha. unfold STORAGE_RSV_SDR.
  repeat handler_step; try (split; [handler_side|done]).
  apply bytes_cons; [|apply bytes_cons; [|apply bytes_nil]].
  - apply low_byte. by eapply (sl_rsv Hs).
  - apply low_byte, Z.shiftr_nonneg. by eapply (sl_rsv Hs).
Qed.

(** The record number and reservation of a GET_SDR request. *)
Definition sdr_request (m : ipmi_msg) (rsv rec offset len : Z) : Prop :=
  exists r0 r1 i0 i1, payload m = [r0; r1; i0; i1; offset; len] /\
    rsv = Z.lor (Z.shiftl r1 8) r0 /\ rec = Z.lor (Z.shiftl i1 8) i0.

(** What GET_SDR answers: on success the requested part of a record behind the
    number of the next one. *)
Definition sdr_answered (m m' : ipmi_msg) : Prop :=
  m_completion_code m' = CC_SUCCESS ->
  exists rsv rec offset len next e1 e2, sdr_request m rsv rec offset len /\
    (exists e0, (SDR_RSV_ID_check rsv (rsv_table_index (E := E) m) e0).1 = true) /\
    offset + len <= IPMI_SDR_HEADER_LEN + sdr_record_len rec e1 /\
    SDR_get_record_ID rec e1 = (next, e2) /\
    payload m' = Z.land next 0xFF :: Z.land (Z.shiftr next 8) 0xFF ::
      take (Z.to_nat len) (drop (Z.to_nat offset) (sdr_bytes rec e2)).

Lemma sdr_refused m cc w w' :
  answers m m -> is_u8 cc -> cc <> CC_SUCCESS -> quiet w w' ->
  wp (ret (with_cc cc m)) (fun m' w' => quiet w w' /\ answers m m' /\ sdr_answered m m') w'.
Proof. intros Ha Hcc Hne Hq. apply wp_ret. split; [done|]. split; [by apply answers_cc|]. by intros E'. Qed.

(** The six bytes of the request, and the reply in the buffer. *)
Lemma sdr_request_intro m r0 r1 i0 i1 offset len :
  m_data_len m = 6 -> m_data m !! 0%nat = Some r0 -> m_data m !! 1%nat = Some r1 -> m_data m !! 2%nat = Some i0 ->
  m_data m !! 3%nat = Some i1 -> m_data m !! 4%nat = Some offset -> m_data m !! 5%nat = Some len ->
  sdr_request m (Z.lor (Z.shiftl r1 8) r0) (Z.lor (Z.shiftl i1 8) i0) offset len.
Proof.
  intros Hl L0 L1 L2 L3 L4 L5. exists r0, r1, i0, i1. split; [|done]. unfold payload. rewrite Hl.
  destruct (m_data m) as [|? [|? [|? [|? [|? [|? ?]]]]]]; try done. by simplify_eq/=.
Qed.

Lemma sdr_reply_payload m n0 n1 len src :
  0 <= len -> length src = Z.to_nat len -> (2 <= length (m_data m))%nat ->
  payload (with_cc CC_SUCCESS (with_data_len (len + 2)
    (with_data (overwrite 2 src (overwrite 0 [n0; n1] (m_data m))) m))) = n0 :: n1 :: src.
Proof.
  intros Hl Hsrc H2. unfold payload. cbn [m_data m_data_len with_cc with_completion_code with_data with_data_len].
  destruct (m_data m) as [|x [|y t]]; [cbn in H2; lia..|]. unfold overwrite.
  replace (Z.to_nat (len + 2)) with (S (S (Z.to_nat len))) by lia.
  cbn [length take drop app Nat.add]. do 2 f_equal. rewrite take_0. cbn [app]. by apply take_app_length'.
Qed.

Lemma get_sdr_run m w :
  wf_msg m -> m_data_len m <= IPMI_MSG_MAX_LENGTH ->
  wp (STORAGE_GET_SDR m) (fun m' w' => quiet w w' /\ answers m m' /\ sdr_answered m m') w.
Proof.
  intros Hm Hl. pose proof (answers_refl m Hm Hl) as Ha. unfold STORAGE_GET_SDR.
  do 2 handler_step. rename x into r1, H1 into L1, H2 into B1.
  do 2 handler_step. rename x into r0, H1 into L0, H2 into B0.
  do 2 handler_step. rename x into i1, H1 into L3, H2 into B3.
  do 2 handler_step. rename x into i0, H1 into L2, H2 into B2.
  do 2 handler_step. rename x into offset, H1 into L4, H2 into B4.
  do 2 handler_step. rename x into len, H1 into L5, H2 into B5.
  handler_step; [apply sdr_refused; [done..|exists (w_ext w); by destruct w]|].
  apply negb_false_iff, Z.eqb_eq in Heqb.
  do 2 handler_step. rename H1 into Hrsv. handler_step; [apply sdr_refused; [done..|by eexists]|].
  do 2 handler_step. handler_step; [apply sdr_refused; [done..|by eexists]|].
  handler_step; [apply sdr_refused; [done..|by eexists]|]. do 2 handler_step.
  handler_step; [apply sdr_refused; [done..|by eexists]|]. apply negb_false_iff in Heqb0. subst.
  do 2 handler_step. rename H2 into Hnext. destruct (sl_next Hs _ _ _ _ Hnext) as [Hn16 Hsame].
  cbn [w_ext w_set_ext] in *. set (rec := Z.lor (Z.shiftl i1 8) i0) in *.
  destruct (sl_sdr Hs rec e1) as [Hbs Hlen]. rewrite Hsame in Hlen.
  rewrite Z.gtb_ltb in Heqb3. apply Z.ltb_ge in Heqb3.
  destruct B4 as [B40 B41], B5 as [B50 B51]. change (2 ^ 8) with 256 in *.
  do 2 handler_step.
  do 2 handler_step. cbn [w_ext w_set_ext].
  handler_step. apply wp_lift. rewrite arr_slice_ok by lia. cbn [rwp].
  set (src := take _ _). assert (Hsrc : length src = Z.to_nat len)
    by (unfold src; rewrite length_take, length_drop; lia).
  do 2 handler_step. { apply bytes_take, bytes_drop, Hbs. }
  assert (Hu : u16 (len + 2) = len + 2) by (apply u16_small; unfold is_u16; lia).
  handler_step. rewrite Hu. split; [by exists e1|]. split; [handler_side|].
  intros _. exists (Z.lor (Z.shiftl r1 8) r0), rec, offset, len, a, e0, e1.
  split; [by apply sdr_request_intro|]. split; [exists (w_ext w); by rewrite Hrsv|].
  split; [done|]. split; [done|]. pose proof (wf_length _ Hm).
  apply (sdr_reply_payload m); [done..|lia].
Qed.

#[export] Instance GET_SDR_Handler : Handler (E := E) STORAGE_GET_SDR.
Proof.
  intros m w Hm Hl He. eapply wp_mono; [by apply get_sdr_run|].
  intros m' w' ([e ->] & Ha & _). done.
Qed.
End Contracts.

(** * Theorems *)

Section StorageTheorems.
Context {E : Type} `{Kernel E} `{Storage E}.
Implicit Types w : world E.

(** READ_FRU_DATA: a request of the wrong length or for more than 32
    bytes is refused unchanged; any other is passed to the FRU module with
    the little-endian offset, and the reply has the count and the data it
    read under the code of its status. *)
Theorem read_fruid_spec m w :
  storage_laws E -> wf_msg m -> m_data_len m <= IPMI_MSG_MAX_LENGTH ->
  wp (STORAGE_READ_FRUID_DATA m) (fun m' w' => quiet w w' /\ answers m m' /\
    ((m_data_len m <> 4 /\ m' = with_cc CC_INVALID_LENGTH m) \/
     exists dev lo hi len, m_data_len m = 4 /\ payload m = [dev; lo; hi; len] /\
       ((32 < entry_len len /\ m' = with_cc CC_LENGTH_EXCEEDED m) \/
        exists st f e, entry_len len <= 32 /\
          FRU_read (mk_EEPROM_ENTRY dev (Z.lor (Z.shiftl hi 8) lo) (entry_len len)
            (entry_data (w_ext w))) (w_ext w) = (st, f, e) /\ w' = w_set_ext e w /\
          m_completion_code m' = fru_cc (E := E) FRU_READ_SUCCESS st /\
          payload m' = entry_len len :: take (Z.to_nat (entry_len len)) (fru_data f)))) w.
Proof. intros Hs. by apply read_fruid_run. Qed.

(** GET_SDR is successful only for a valid reservation and a range inside
    the record; the reply has the next record number and exactly that
    range of the table. *)
Theorem get_sdr_spec m w :
  storage_laws E -> wf_msg m -> m_data_len m <= IPMI_MSG_MAX_LENGTH ->
  wp (STORAGE_GET_SDR m) (fun m' w' => quiet w w' /\ answers m m' /\
    (m_completion_code m' = CC_SUCCESS ->
     exists rsv rec offset len next e1 e2, sdr_request m rsv rec offset len /\
       (exists e0, (SDR_RSV_ID_check rsv (rsv_table_index (E := E) m) e0).1 = true) /\
       offset + len <= IPMI_SDR_HEADER_LEN + sdr_record_len rec e1 /\
       SDR_get_record_ID rec e1 = (next, e2) /\
       payload m' = Z.land next 0xFF :: Z.land (Z.shiftr next 8) 0xFF ::
         take (Z.to_nat len) (drop (Z.to_nat offset) (sdr_bytes rec e2)))) w.
Proof. intros Hs. by apply get_sdr_run. Qed.

(** ADD_SEL reports success although the event was not sent when the lock
    of [ipmb_read] is not obtained: only two of its errors are checked. *)
Theorem add_sel_lost_reported_success m w k chk cfgk e :
  wf_msg m -> m_data_len m = 16 -> w_map w !! Z.to_nat BMC_IPMB = Some k ->
  ready w k chk cfgk -> malloc_buf 0 (w_ext w) = (true, e) ->
  lock_fails mutex_read (IPMB_SEQ_TIMEOUT_MS + 10) (w_set_ext e w) ->
  wp (STORAGE_ADD_SEL m) (fun m' w' => quiet w w' /\ m_completion_code m' = CC_SUCCESS) w.
Proof.
  intros Hm Hlen Hmap [Hk Hch Hcfg _ Hq _ Hi _ _] Hmem Hlock. unfold STORAGE_ADD_SEL.
  apply wp_bind, wp_gets. rewrite (proj2 (Z.eqb_neq _ _)) by (apply lookup_lt_Some in Hch; lia).
  rewrite Hlen. cbn [Z.eqb negb]. apply wp_bind. eapply wp_of_eq; [unfold ext; rewrite Hmem; done|].
  cbn [negb]. apply wp_bind. apply wp_copy_data; [|done|rewrite Hlen; done|].
  { pose proof wf_zero_msg as []. wf_auto. }
  intros d Hd _.
  assert (Hidx : forall Q, Q k (w_set_ext e w) -> wp (inf_index BMC_IPMB) Q (w_set_ext e w)).
  { intros Q HQ. unfold inf_index. apply wp_bind, wp_gets, wp_lift. wcbn.
    by rewrite (arr_get_Ret _ _ k). }
  apply wp_bind, Hidx. cbn [pal_is_interface_use_ipmb]. apply wp_bind.
  change (m_InF_target _) with BMC_IPMB. apply Hidx, wp_bind. unfold ipmb_read.
  apply wp_bind, (wp_get_ch _ chk); [done..|]. rewrite Hq. cbn [negb].
  apply wp_bind, wp_gets. unfold id. wcbn. rewrite Hi. cbn [negb].
  apply wp_bind, wp_lock; [|intros e1 Hn; by destruct Hn].
  intros r e1 Hr _. rewrite (proj2 (Z.eqb_neq _ _) Hr). apply wp_ret, wp_ret.
  split; [by exists e1|done].
Qed.
End StorageTheorems.

(** * Concrete modules *)

#[export] Instance sim_storage : Storage sim := {|
  MAX_FRU_ID := 1;
  FRU_READ_SUCCESS := 0;
  FRU_WRITE_SUCCESS := 0;
  FRU_INVALID_ID := 1;
  FRU_OUT_OF_RANGE := 2;
  FRU_FAIL_TO_ACCESS := 3;
  RSV_TABLE_INDEX_0 := 0;
  RSV_TABLE_INDEX_1 := 1;
  IPMI_SDR_HEADER_LEN := 5;
  entry_len := fun n => n;
  entry_data := fun _ => replicate 32 0;
  find_FRU_size := fun _ s => (256, s);
  get_FRU_access := fun _ s => (0, s);
  FRU_read := fun f s => ((0, mk_EEPROM_ENTRY (fru_dev_id f) (fru_offset f) (fru_data_len f)
    (replicate (length (fru_data f)) 0x5A)), s);
  FRU_write := fun _ s => (0, s);
  SDR_get_RSV_ID := fun _ s => (1, s);
  SDR_RSV_ID_check := fun r _ s => (r =? 1, s);
  SDR_check_record_ID := fun r s => (r =? 0, s);
  SDR_get_record_ID := fun _ s => (0xFFFF, s);
  sdr_record_len := fun _ _ => 3;
  sdr_bytes := fun _ _ => [1; 2; 3; 4; 5; 6; 7; 8];
|}.

Lemma sim_storage_laws : storage_laws sim.
Proof.
  split; simpl.
  - lia.
  - intros _. lia.
  - by intros i e v e' [= <- _].
  - by intros i e v e' [= <- _].
  - intros f e r f' e' [= _ <- _]. split; [done|]. split; [cbn; by rewrite length_replicate|].
    cbn. by apply bytes_replicate.
  - by intros i e v e' [= <- _].
  - by intros i e v e' [= <- _].
  - intros _ _. split; [by repeat constructor|done].
Qed.

Definition storage_msg (d : list Z) : ipmi_msg :=
  with_netfn NETFN_STORAGE_REQ (with_data_len (Z.of_nat (length d)) (with_data
    (d ++ replicate (527 - length d) 0) zero_msg)).

Lemma wf_storage_msg d : (length d <= 6)%nat -> bytes d -> wf_msg (storage_msg d).
Proof.
  intros Hl Hb. pose proof wf_zero_msg as []. unfold storage_msg. wf_auto.
  - rewrite length_app, length_replicate. unfold IPMI_MSG_MAX_LENGTH, IPMI_DATA_MAX_LENGTH,
      IPMB_RESP_HEADER_LENGTH. lia.
  - unfold is_u16. lia.
Qed.

(** Three bytes from offset 0x0102 of FRU 0. *)
Lemma read_fruid_spec_witness :
  wp (STORAGE_READ_FRUID_DATA (storage_msg [0; 2; 1; 3]))
    (fun m' _ => payload m' = [3; 0x5A; 0x5A; 0x5A]) (world1 sim0).
Proof.
  eapply wp_mono; [apply (read_fruid_spec (storage_msg [0; 2; 1; 3]) (world1 sim0))|].
  - apply sim_storage_laws.
  - apply wf_storage_msg; [simpl; lia|by repeat constructor].
  - done.
  - intros m' w' (_ & _ & [[H4 _]|(dev & lo & hi & len & _ & Hp & [[Hgt _]|
      (st & f & e & _ & Hrd & _ & _ & Hout)])]); [done| |].
    + injection Hp as <- <- <- <-. done.
    + injection Hp as <- <- <- <-. injection Hrd as _ <- _. exact Hout.
Defined.

(** Bytes 2 to 5 of record 0, with reservation 1. *)
Lemma get_sdr_spec_witness :
  wp (STORAGE_GET_SDR (storage_msg [1; 0; 0; 0; 2; 4]))
    (fun m' _ => m_completion_code m' = CC_SUCCESS -> payload m' = [0xFF; 0xFF; 3; 4; 5; 6])
    (world1 sim0).
Proof.
  eapply wp_mono; [apply (get_sdr_spec (storage_msg [1; 0; 0; 0; 2; 4]) (world1 sim0))|].
  - apply sim_storage_laws.
  - apply wf_storage_msg; [simpl; lia|by repeat constructor].
  - done.
  - intros m' w' (_ & _ & Hout) Hcc. destruct (Hout Hcc) as (rsv & rec & offset & len & next & e1 & e2 &
      (r0 & r1 & i0 & i1 & Hp & -> & ->) & _ & _ & Hn & Hpay).
    injection Hp as <- <- <- <- <- <-. injection Hn as <- _. exact Hpay.
Defined.

Definition sel_msg : ipmi_msg := with_data_len 16 zero_msg.

Lemma add_sel_lost_reported_success_witness :
  wp (STORAGE_ADD_SEL sel_msg) (fun m' _ => m_completion_code m' = CC_SUCCESS)
    (world1 (mk_sim true false 0 0 [] [] [] [] [])).
Proof.
  eapply wp_mono.
  - apply (add_sel_lost_reported_success sel_msg (world1 (mk_sim true false 0 0 [] [] [] [] []))
      0 chan1 (mk_IPMB_config 0 I2C_IF BMC_IPMB 1 0x20 true 0x40)
      (mk_sim true false 0 0 [] [] [] [] [])); try done.
    pose proof wf_zero_msg as []. unfold sel_msg. wf_auto.
  - by intros m' w' [_ Hcc].
Defined.
