(* ===== verification/OemHandler.v ===== *)
(** The sensor commands of [ipmi/sensor_handler.c] and the OEM commands of
    [ipmi/oem_handler.c].  The sensor, GUID and fan modules are not in the
    repository; their constants and functions are the class [OemSvc]. *)

From S2P Require Import Prelude IpmiDefs World IpmbSeq HandlerLib.

(** [sval_integer] and [sval_fraction] are the members of the [sensor_val]
    that overlays a reading. *)
Class OemSvc (E : Type) : Type := {
  SENSOR_READ_SUCCESS : Z;
  SENSOR_READ_ACUR_SUCCESS : Z;
  SENSOR_READ_4BYTE_ACUR_SUCCESS : Z;
  SENSOR_NOT_ACCESSIBLE : Z;
  SENSOR_INIT_STATUS : Z;
  SENSOR_POLLING_DISABLE : Z;
  SENSOR_FAIL_TO_ACCESS : Z;
  SENSOR_NOT_FOUND : Z;
  enable_sensor_poll_thread : E -> bool;
  GET_FROM_CACHE : Z;
  get_sensor_reading : Z -> Z -> E -> (Z * Z) * E;
  calculate_MBR : Z -> Z -> E -> Z * E;
  sval_integer : Z -> Z;
  sval_fraction : Z -> Z;
  CONFIG_ESPI : bool;
  ENABLE_FAN : bool;
  GUID_WRITE_SUCCESS : Z;
  GUID_INVALID_ID : Z;
  GUID_OUT_OF_RANGE : Z;
  GUID_FAIL_TO_ACCESS : Z;
  set_system_guid : Z -> list Z -> E -> (Z * Z * list Z) * E;
  FAN_AUTO_MODE : Z;
  FAN_MANUAL_MODE : Z;
  FAN_SET_MANUAL_MODE : Z;
  FAN_SET_AUTO_MODE : Z;
  FAN_GET_MODE : Z;
  MAX_FAN_DUTY_VALUE : Z;
  MAX_FAN_PWM_INDEX_COUNT : Z;
  INDEX_ALL_PWM : Z;
  pal_get_fan_ctrl_mode : Z -> E -> (Z * Z) * E;
  pal_set_fan_ctrl_mode : Z -> E -> E;
  pal_set_fan_duty : Z -> Z -> Z -> E -> Z * E;
  guid_msg : forall n d e r n' d' e', set_system_guid n d e = (r, n', d', e') ->
    is_u16 n -> bytes d -> is_u16 n' /\ length d' = length d /\ bytes d';
  fan_mode_u8 : forall m e r m' e', pal_get_fan_ctrl_mode m e = (r, m', e') ->
    is_u8 m -> is_u8 m';
  fan_auto_u8 : is_u8 FAN_AUTO_MODE;
}.

Definition SENSOR_THRESHOLD_STATUS : Z := 0xC0.

Section Handlers.
Context {E : Type} `{OemSvc E}.

(** * sensor_handler.c *)

Definition SENSOR_GET_SENSOR_READING (msg : ipmi_msg) : ST (world E) ipmi_msg :=
  if negb (m_data_len msg =? 1) then ret (with_cc CC_INVALID_LENGTH msg)
  else
    let! enabled := gets (fun w => enable_sensor_poll_thread (w_ext w)) in
    let sensor_report_status :=
      if enabled then Z.lor SENSOR_EVENT_MESSAGES_ENABLE SENSOR_SCANNING_ENABLE
      else SENSOR_EVENT_MESSAGES_ENABLE in
    let! num := lift (get_data msg 0) in
    let! (status, reading) :=
      (if enabled then ext (get_sensor_reading num GET_FROM_CACHE) else ret (SENSOR_POLLING_DISABLE, 0)) in
    if (status =? SENSOR_READ_SUCCESS) || (status =? SENSOR_READ_ACUR_SUCCESS) ||
       (status =? SENSOR_READ_4BYTE_ACUR_SUCCESS)
    then
      let! mbr := ext (calculate_MBR num (sval_integer reading * 1000 + sval_fraction reading)) in
      let! msg := lift (set_bytes 0 [u8 (Z.quot mbr 1000); sensor_report_status;
        SENSOR_THRESHOLD_STATUS] msg) in
      ret (with_cc CC_SUCCESS (with_data_len 3 msg))
    else if (status =? SENSOR_NOT_ACCESSIBLE) || (status =? SENSOR_INIT_STATUS) then
      let! msg := lift (set_bytes 0 [0;
        Z.lor sensor_report_status SENSOR_READING_STATE_UNAVAILABLE; SENSOR_THRESHOLD_STATUS] msg) in
      ret (with_cc CC_SUCCESS (with_data_len 3 msg))
    else if status =? SENSOR_POLLING_DISABLE then ret (with_cc CC_SENSOR_NOT_PRESENT msg)
    else if status =? SENSOR_FAIL_TO_ACCESS then ret (with_cc CC_NODE_BUSY msg)
    else if status =? SENSOR_NOT_FOUND then ret (with_cc CC_INVALID_DATA_FIELD msg)
    else ret (with_cc CC_UNSPECIFIED_ERROR msg).

Definition IPMI_SENSOR_handler (msg : ipmi_msg) : ST (world E) ipmi_msg :=
  if m_cmd msg =? CMD_SENSOR_GET_SENSOR_READING then SENSOR_GET_SENSOR_READING msg
  else ret (with_cc CC_INVALID_CMD (with_data_len 0 msg)).

(** * oem_handler.c *)

(** The weak default; it leaves the reading alone. *)
Definition get_hsc_pwr_reading (reading : Z) : Z * Z := (SENSOR_NOT_FOUND, reading).

Definition OEM_NM_SENSOR_READ (uninit : Z) (msg : ipmi_msg) : ST (world E) ipmi_msg :=
  if m_data_len msg <? 3 then ret (with_cc CC_INVALID_LENGTH msg)
  else
    let! d0 := lift (get_data msg 0) in
    if negb (d0 =? 0x00) then ret (with_cc CC_INVALID_DATA_FIELD msg)
    else
      let '(status, reading) := get_hsc_pwr_reading uninit in
      if (status =? SENSOR_READ_SUCCESS) || (status =? SENSOR_READ_ACUR_SUCCESS) ||
         (status =? SENSOR_READ_4BYTE_ACUR_SUCCESS)
      then
        let! msg := lift (set_bytes 1 [u8 (Z.land (sval_integer reading) 0xFF);
          u8 (Z.land (Z.shiftr (sval_integer reading) 8) 0xFF)] msg) in
        ret (with_cc CC_SUCCESS (with_data_len 3 msg))
      else if status =? SENSOR_FAIL_TO_ACCESS then ret (with_cc CC_NODE_BUSY msg)
      else if status =? SENSOR_NOT_ACCESSIBLE then ret (with_cc CC_NOT_SUPP_IN_CURR_STATE msg)
      else if status =? SENSOR_NOT_FOUND then ret (with_cc CC_INVALID_DATA_FIELD msg)
      else ret (with_cc CC_UNSPECIFIED_ERROR msg).

Definition guid_cc (status : Z) : Z :=
  if status =? GUID_WRITE_SUCCESS then CC_SUCCESS
  else if status =? GUID_INVALID_ID then CC_INVALID_PARAM
  else if status =? GUID_OUT_OF_RANGE then CC_PARAM_OUT_OF_RANGE
  else if status =? GUID_FAIL_TO_ACCESS then CC_UNSPECIFIED_ERROR
  else CC_UNSPECIFIED_ERROR.

Definition OEM_SET_SYSTEM_GUID (msg : ipmi_msg) : ST (world E) ipmi_msg :=
  if negb (m_data_len msg =? 16) then ret (with_cc CC_INVALID_LENGTH msg)
  else
    let! (status, len, data) := ext (set_system_guid (m_data_len msg) (m_data msg)) in
    let msg := with_data data (with_data_len len msg) in
    let msg := with_cc (guid_cc status) msg in
    ret (with_data_len 0 msg).

(** [for (i = 0; i < MAX_FAN_PWM_INDEX_COUNT; i++)], left at the first error. *)
Fixpoint set_all_duty (n : nat) (i duty slot_index : Z) (msg : ipmi_msg) : ST (world E) ipmi_msg :=
  match n with
  | O => ret msg
  | S n' =>
      let! r := ext (pal_set_fan_duty i duty slot_index) in
      if r <? 0 then ret (with_cc CC_UNSPECIFIED_ERROR msg)
      else set_all_duty n' (i + 1) duty slot_index msg
  end.

Definition set_fan_duty (pwm_id duty slot_index : Z) (msg : ipmi_msg) : ST (world E) ipmi_msg :=
  if (duty >? MAX_FAN_DUTY_VALUE) ||
     ((pwm_id >=? MAX_FAN_PWM_INDEX_COUNT) && negb (pwm_id =? INDEX_ALL_PWM))
  then ret (with_cc CC_PARAM_OUT_OF_RANGE msg)
  else
    let! (r, current_fan_mode) := ext (pal_get_fan_ctrl_mode FAN_AUTO_MODE) in
    if r <? 0 then ret (with_cc CC_UNSPECIFIED_ERROR msg)
    else if negb (current_fan_mode =? FAN_MANUAL_MODE) then ret msg
    else if pwm_id =? INDEX_ALL_PWM then
      set_all_duty (Z.to_nat MAX_FAN_PWM_INDEX_COUNT) 0 duty slot_index msg
    else
      let! r := ext (pal_set_fan_duty pwm_id duty slot_index) in
      if r <? 0 then ret (with_cc CC_UNSPECIFIED_ERROR msg) else ret msg.

Definition OEM_SET_FAN_DUTY_MANUAL (msg : ipmi_msg) : ST (world E) ipmi_msg :=
  if negb (m_data_len msg =? 2) then ret (with_cc CC_INVALID_LENGTH msg)
  else
    let! pwm_id := lift (get_data msg 0) in
    let! duty := lift (get_data msg 1) in
    let msg := with_cc CC_SUCCESS (with_data_len 0 msg) in
    if m_InF_source msg =? SLOT1_BIC then set_fan_duty pwm_id duty INDEX_SLOT1 msg
    else if m_InF_source msg =? SLOT3_BIC then set_fan_duty pwm_id duty INDEX_SLOT3 msg
    else ret (with_cc CC_PARAM_OUT_OF_RANGE msg).

Definition OEM_GET_SET_FAN_CTRL_MODE (msg : ipmi_msg) : ST (world E) ipmi_msg :=
  if negb (m_data_len msg =? 1) then ret (with_cc CC_INVALID_LENGTH msg)
  else
    let! ctrl_cmd := lift (get_data msg 0) in
    let msg := with_cc CC_SUCCESS (with_data_len 0 msg) in
    if ctrl_cmd =? FAN_SET_MANUAL_MODE then
      do! ext_ (pal_set_fan_ctrl_mode FAN_MANUAL_MODE) in ret msg
    else if ctrl_cmd =? FAN_SET_AUTO_MODE then
      do! ext_ (pal_set_fan_ctrl_mode FAN_AUTO_MODE) in ret msg
    else if ctrl_cmd =? FAN_GET_MODE then
      let! (r, ctrl_mode_get) := ext (pal_get_fan_ctrl_mode 0) in
      if r <? 0 then ret (with_cc CC_UNSPECIFIED_ERROR msg)
      else
        let msg := with_data_len 1 msg in
        lift (set_data 0 ctrl_mode_get msg)
    else ret (with_cc CC_PARAM_OUT_OF_RANGE msg).

Definition OEM_GET_MB_INDEX (msg : ipmi_msg) : ST (world E) ipmi_msg :=
  if negb (m_data_len msg =? 0) then ret (with_cc CC_INVALID_LENGTH msg)
  else if m_InF_source msg =? SLOT1_BIC then
    let! msg := lift (set_data 0 INDEX_SLOT1 msg) in
    ret (with_cc CC_SUCCESS (with_data_len 1 msg))
  else if m_InF_source msg =? SLOT3_BIC then
    let! msg := lift (set_data 0 INDEX_SLOT3 msg) in
    ret (with_cc CC_SUCCESS (with_data_len 1 msg))
  else ret (with_cc CC_UNSPECIFIED_ERROR (with_data_len 0 msg)).

Definition OEM_CABLE_DETECTION (msg : ipmi_msg) : ST (world E) ipmi_msg :=
  ret (with_cc CC_NOT_SUPP_IN_CURR_STATE (with_data_len 0 msg)).
Definition OEM_GET_CHASSIS_POSITION (msg : ipmi_msg) : ST (world E) ipmi_msg :=
  ret (with_cc CC_NOT_SUPP_IN_CURR_STATE (with_data_len 0 msg)).
Definition OEM_GET_HTTP_BOOT_DATA (msg : ipmi_msg) : ST (world E) ipmi_msg :=
  ret (with_cc CC_NOT_SUPP_IN_CURR_STATE (with_data_len 0 msg)).
Definition OEM_GET_HTTP_BOOT_ATTR (msg : ipmi_msg) : ST (world E) ipmi_msg :=
  ret (with_cc CC_NOT_SUPP_IN_CURR_STATE (with_data_len 0 msg)).

Definition IPMI_OEM_handler (uninit : Z) (msg : ipmi_msg) : ST (world E) ipmi_msg :=
  let cmd := m_cmd msg in
  if cmd =? CMD_OEM_CABLE_DETECTION then OEM_CABLE_DETECTION msg
  else if CONFIG_ESPI && (cmd =? CMD_OEM_NM_SENSOR_READ) then OEM_NM_SENSOR_READ uninit msg
  else if cmd =? CMD_OEM_SET_SYSTEM_GUID then OEM_SET_SYSTEM_GUID msg
  else if ENABLE_FAN && (cmd =? CMD_OEM_SET_FAN_DUTY_MANUAL) then OEM_SET_FAN_DUTY_MANUAL msg
  else if ENABLE_FAN && (cmd =? CMD_OEM_GET_SET_FAN_CTRL_MODE) then OEM_GET_SET_FAN_CTRL_MODE msg
  else if cmd =? CMD_OEM_GET_MB_INDEX then OEM_GET_MB_INDEX msg
  else if cmd =? CMD_OEM_GET_CHASSIS_POSITION then OEM_GET_CHASSIS_POSITION msg
  else if cmd =? CMD_OEM_GET_HTTP_BOOT_DATA then OEM_GET_HTTP_BOOT_DATA msg
  else if cmd =? CMD_OEM_GET_HTTP_BOOT_ATTR then OEM_GET_HTTP_BOOT_ATTR msg
  else ret (with_cc CC_INVALID_CMD (with_data_len 0 msg)).
End Handlers.

(** * Contracts *)

Section Contracts.
Context {E : Type} `{OemSvc E}.
Implicit Types w : world E.

#[export] Instance SENSOR_READING_Handler : Handler SENSOR_GET_SENSOR_READING.
Proof.
  intros m w Hm Hl He. pose proof (answers_refl m Hm Hl) as Ha. unfold SENSOR_GET_SENSOR_READING.
  handler_step; [contract|]. handler_step. handler_step. handler_step. handler_step. handler_step.
  eapply (wp_mono _ (fun _ w' => ipmb_frame w w' /\ is_u8 (w_bmc_enables w'))).
  { destruct (enable_sensor_poll_thread (w_ext w)); contract; done. }
  intros [status reading] w' [Hf He']. cbv beta iota.
  assert (Hst : is_u8 (if enable_sensor_poll_thread (w_ext w)
    then Z.lor SENSOR_EVENT_MESSAGES_ENABLE SENSOR_SCANNING_ENABLE
    else SENSOR_EVENT_MESSAGES_ENABLE)) by (by case_match).
  repeat handler_step; try (split; [handler_side|split; [|done]; by etrans]).
  apply bytes_cons; [done|]. apply bytes_cons; [|by apply bytes_cons; [|apply bytes_nil]].
  by apply (lor_range 8).
Qed.

#[export] Instance SENSOR_Handler : Handler (E := E) IPMI_SENSOR_handler.
Proof. apply handler_if; [apply _|by apply handler_empty]. Qed.

#[export] Instance NM_SENSOR_Handler uninit : Handler (OEM_NM_SENSOR_READ uninit).
Proof.
  intros m w Hm Hl He. pose proof (answers_refl m Hm Hl) as Ha. unfold OEM_NM_SENSOR_READ.
  contract.
Qed.

Lemma guid_cc_u8 st : is_u8 (guid_cc st).
Proof. unfold guid_cc. repeat case_match; done. Qed.

#[export] Instance SYSTEM_GUID_Handler : Handler OEM_SET_SYSTEM_GUID.
Proof.
  intros m w Hm Hl He. pose proof (answers_refl m Hm Hl) as Ha. unfold OEM_SET_SYSTEM_GUID.
  handler_step; [contract|]. handler_step. apply wp_ext. intros [[st n] d] e Hg. handler_step.
  destruct (guid_msg _ _ _ _ _ _ _ Hg (wf_data_len _ Hm) (wf_bytes _ Hm)) as (_ & Hld & Hbd).
  split; [|done]. replace (with_data_len 0 _) with (reply m d 0 (guid_cc st)) by (by destruct m).
  apply answers_intro; try done; [rewrite Hld; apply (wf_length _ Hm)|apply guid_cc_u8].
Qed.

(** What the fan commands leave: their reply, and the program state as it was. *)
Lemma set_all_duty_run n m0 m i duty slot w :
  answers m0 m -> is_u8 (w_bmc_enables w) ->
  wp (set_all_duty n i duty slot m) (fun m' w' => answers m0 m' /\ ipmb_frame w w' /\
    is_u8 (w_bmc_enables w')) w.
Proof.
  intros Ha He. revert i w He. induction n as [|n IH]; intros i w He; cbn [set_all_duty]; [by apply wp_ret|].
  do 2 handler_step. handler_step; [contract|].
  eapply wp_mono; [by apply IH|]. intros m' w' (? & Hf & ?). split; [done|]. split; [|done]. by etrans; [|exact Hf].
Qed.

Lemma set_fan_duty_run m0 m pwm duty slot w :
  answers m0 m -> is_u8 (w_bmc_enables w) ->
  wp (set_fan_duty pwm duty slot m) (fun m' w' => answers m0 m' /\ ipmb_frame w w' /\
    is_u8 (w_bmc_enables w')) w.
Proof.
  intros Ha He. unfold set_fan_duty. handler_step; [contract|]. handler_step.
  apply wp_ext. intros [r mode] e Hr. cbv beta iota. handler_step; [contract|].
  handler_step; [contract|]. handler_step; [|contract].
  eapply wp_mono; [by apply (set_all_duty_run _ m0)|]. intros m' w' (? & Hf & ?).
  split; [done|]. split; [|done]. by etrans; [|exact Hf].
Qed.

#[export] Instance FAN_DUTY_Handler : Handler OEM_SET_FAN_DUTY_MANUAL.
Proof.
  intros m w Hm Hl He. pose proof (answers_refl m Hm Hl) as Ha. unfold OEM_SET_FAN_DUTY_MANUAL.
  handler_step; [contract|]. do 4 handler_step.
  handler_step; [apply set_fan_duty_run; [handler_side|done]|].
  handler_step; [apply set_fan_duty_run; [handler_side|done]|]. contract.
Qed.

#[export] Instance FAN_MODE_Handler : Handler OEM_GET_SET_FAN_CTRL_MODE.
Proof.
  intros m w Hm Hl He. pose proof (answers_refl m Hm Hl) as Ha. unfold OEM_GET_SET_FAN_CTRL_MODE.
  handler_step; [contract|]. do 2 handler_step.
  handler_step; [apply wp_bind, wp_ext_; contract|].
  handler_step; [apply wp_bind, wp_ext_; contract|].
  handler_step; [|contract]. handler_step. apply wp_ext. intros [r mode] e Hr. cbv beta iota.
  handler_step; [contract|].
  eapply (wp_set_data m); [answers_side|done|by eapply fan_mode_u8|done].
Qed.

#[export] Instance MB_INDEX_Handler : Handler (E := E) OEM_GET_MB_INDEX.
Proof.
  intros m w Hm Hl He. pose proof (answers_refl m Hm Hl) as Ha. unfold OEM_GET_MB_INDEX. contract.
Qed.

#[export] Instance OEM_Handler uninit : Handler (IPMI_OEM_handler uninit).
Proof. unfold IPMI_OEM_handler. repeat (apply handler_if; [first [apply _|by apply handler_empty]|]). by apply handler_empty. Qed.
End Contracts.

(** * Theorems *)

Section OemTheorems.
Context {E : Type} `{OemSvc E}.
Implicit Types w : world E.

(** The external state after setting the duty of [n] fans from [i] on. *)
Fixpoint duties_set (n : nat) (i duty slot : Z) (e : E) : E :=
  match n with O => e | S n' => duties_set n' (i + 1) duty slot (pal_set_fan_duty i duty slot e).2 end.

Lemma set_all_run n i duty slot m w :
  (forall j e, 0 <= (pal_set_fan_duty j duty slot e).1) ->
  set_all_duty n i duty slot m w = Ret (m, w_set_ext (duties_set n i duty slot (w_ext w)) w).
Proof.
  intros Hok. revert i w. induction n as [|n IH]; intros i w; cbn [set_all_duty duties_set];
    [by destruct w|].
  unfold bind, ext. specialize (Hok i (w_ext w)) as Hr.
  destruct (pal_set_fan_duty i duty slot (w_ext w)) as [r e]. cbn [rbind fst snd] in *.
  rewrite (proj2 (Z.ltb_ge r 0)) by lia. by rewrite IH.
Qed.

(** SET_FAN_DUTY_MANUAL for all fans of a slot: in manual mode every fan
    is set once, in order; in automatic mode none is set, yet the command
    reports success. *)
Theorem fan_duty_all_fans m w duty slot r mode e :
  wf_msg m -> m_data_len m = 2 -> payload m = [INDEX_ALL_PWM; duty] ->
  (m_InF_source m = SLOT1_BIC /\ slot = INDEX_SLOT1 \/
   m_InF_source m = SLOT3_BIC /\ slot = INDEX_SLOT3) ->
  duty <= MAX_FAN_DUTY_VALUE ->
  pal_get_fan_ctrl_mode FAN_AUTO_MODE (w_ext w) = (r, mode, e) -> 0 <= r ->
  (forall j e, 0 <= (pal_set_fan_duty j duty slot e).1) ->
  OEM_SET_FAN_DUTY_MANUAL m w = Ret (with_cc CC_SUCCESS (with_data_len 0 m),
    w_set_ext (if mode =? FAN_MANUAL_MODE
               then duties_set (Z.to_nat MAX_FAN_PWM_INDEX_COUNT) 0 duty slot e else e) w).
Proof.
  intros Hm Hlen Hpay Hsrc Hduty Hmode Hr Hok. unfold payload in Hpay. rewrite Hlen in Hpay.
  assert (Hd : m_data m !! 0%nat = Some INDEX_ALL_PWM /\ m_data m !! 1%nat = Some duty).
  { destruct (m_data m) as [|a [|b t]]; try done. by injection Hpay as -> ->. }
  destruct Hd as [Hd0 Hd1]. unfold OEM_SET_FAN_DUTY_MANUAL. rewrite Hlen. cbn [Z.eqb Pos.eqb negb].
  assert (Hg0 : get_data m 0 = Ret INDEX_ALL_PWM) by (by apply arr_get_Ret).
  assert (Hg1 : get_data m 1 = Ret duty) by (by apply arr_get_Ret).
  assert (Hset : forall msg, set_fan_duty INDEX_ALL_PWM duty slot msg w = Ret (msg,
    w_set_ext (if mode =? FAN_MANUAL_MODE
               then duties_set (Z.to_nat MAX_FAN_PWM_INDEX_COUNT) 0 duty slot e else e) w)).
  { intros msg. unfold set_fan_duty. rewrite Z.gtb_ltb, (proj2 (Z.ltb_ge _ _)) by done.
    rewrite Z.eqb_refl. cbn [negb]. rewrite andb_false_r. cbn [orb]. unfold bind, ext.
    rewrite Hmode. cbn [rbind]. rewrite (proj2 (Z.ltb_ge r 0)) by done.
    destruct (mode =? FAN_MANUAL_MODE); cbn [negb]; [|done]. by rewrite set_all_run. }
  unfold bind at 1, lift. rewrite Hg0. cbn [rbind]. unfold bind at 1. rewrite Hg1. cbn [rbind].
  change (m_InF_source (with_cc CC_SUCCESS (with_data_len 0 m))) with (m_InF_source m).
  destruct Hsrc as [[Hs ->]|[Hs ->]]; rewrite Hs; apply Hset.
Qed.

(** GET_SENSOR_READING while polling is disabled does not touch the
    sensors and says so; otherwise it reports the cached reading under the
    status bits of the sensor module. *)
Theorem sensor_reading_spec m w :
  SENSOR_POLLING_DISABLE ∉ [SENSOR_READ_SUCCESS; SENSOR_READ_ACUR_SUCCESS;
    SENSOR_READ_4BYTE_ACUR_SUCCESS; SENSOR_NOT_ACCESSIBLE; SENSOR_INIT_STATUS] ->
  wf_msg m -> m_data_len m = 1 ->
  wp (SENSOR_GET_SENSOR_READING m) (fun m' w' =>
    if enable_sensor_poll_thread (w_ext w) then
      exists num st rd e, payload m = [num] /\
        get_sensor_reading num GET_FROM_CACHE (w_ext w) = (st, rd, e) /\
        (st = SENSOR_READ_SUCCESS -> exists mbr e',
           calculate_MBR num (sval_integer rd * 1000 + sval_fraction rd) e = (mbr, e') /\
           payload m' = [u8 (Z.quot mbr 1000); 0xC0; 0xC0] /\
           m_completion_code m' = CC_SUCCESS /\ w' = w_set_ext e' w)
    else m' = with_cc CC_SENSOR_NOT_PRESENT m /\ w' = w) w.
Proof.
  intros Hdis Hm Hlen. assert (Hl : m_data_len m <= IPMI_MSG_MAX_LENGTH) by (rewrite Hlen; done).
  pose proof (answers_refl m Hm Hl) as Ha.
  unfold SENSOR_GET_SENSOR_READING. rewrite Hlen. cbn [Z.eqb Pos.eqb negb].
  handler_step. handler_step. do 2 handler_step. rename x into num. handler_step.
  destruct (enable_sensor_poll_thread (w_ext w)).
  - apply wp_ext. intros [st rd] e Hrd. cbv beta iota.
    assert (Hpay : payload m = [num]).
    { unfold payload. rewrite Hlen. change (Z.to_nat 0) with O in H0.
      destruct (m_data m); [done|]. by injection H0 as ->. }
    destruct (Z.eqb_spec st SENSOR_READ_SUCCESS) as [->|Hne]; cbn [orb].
    + do 2 handler_step. rename H2 into Hmbr. do 2 handler_step. handler_step.
      exists num, SENSOR_READ_SUCCESS, rd, e. split; [done|]. split; [done|]. intros _.
      exists a, e0. split; [done|]. split; [|done]. unfold payload. cbn [m_data m_data_len with_cc
        with_completion_code with_data_len with_data].
      unfold overwrite. change (Z.to_nat 0) with O. rewrite take_0. done.
    + repeat handler_step; exists num, st, rd, e; (split; [done|]); (split; [done|]); by intros ->.
  - apply wp_ret. cbv beta iota.
    rewrite !not_elem_of_cons in Hdis. destruct Hdis as (H2 & H3 & H4 & H5 & H6 & _).
    rewrite (proj2 (Z.eqb_neq _ _) H2), (proj2 (Z.eqb_neq _ _) H3), (proj2 (Z.eqb_neq _ _) H4),
      (proj2 (Z.eqb_neq _ _) H5), (proj2 (Z.eqb_neq _ _) H6), Z.eqb_refl. cbn [orb].
    by apply wp_ret.
Qed.
End OemTheorems.

(** * Concrete modules *)

(** Two fans; the mode is the scripted I2C status, the duties go to the wire. *)
#[export] Program Instance sim_oem : OemSvc sim := {|
  SENSOR_READ_SUCCESS := 0;
  SENSOR_READ_ACUR_SUCCESS := 1;
  SENSOR_READ_4BYTE_ACUR_SUCCESS := 2;
  SENSOR_NOT_ACCESSIBLE := 3;
  SENSOR_INIT_STATUS := 4;
  SENSOR_POLLING_DISABLE := 5;
  SENSOR_FAIL_TO_ACCESS := 6;
  SENSOR_NOT_FOUND := 7;
  enable_sensor_poll_thread := fun s => s_clock s =? 0;
  GET_FROM_CACHE := 0;
  get_sensor_reading := fun _ _ s => ((0, 42), s);
  calculate_MBR := fun _ v s => (v, s);
  sval_integer := fun r => r;
  sval_fraction := fun _ => 0;
  CONFIG_ESPI := true;
  ENABLE_FAN := true;
  GUID_WRITE_SUCCESS := 0;
  GUID_INVALID_ID := 1;
  GUID_OUT_OF_RANGE := 2;
  GUID_FAIL_TO_ACCESS := 3;
  set_system_guid := fun n d s => ((0, n, d), s);
  FAN_AUTO_MODE := 1;
  FAN_MANUAL_MODE := 0;
  FAN_SET_MANUAL_MODE := 0;
  FAN_SET_AUTO_MODE := 1;
  FAN_GET_MODE := 2;
  MAX_FAN_DUTY_VALUE := 100;
  MAX_FAN_PWM_INDEX_COUNT := 2;
  INDEX_ALL_PWM := 0xFF;
  pal_get_fan_ctrl_mode := fun _ s => ((0, u8 (s_i2c_status s)), s);
  pal_set_fan_ctrl_mode := fun _ s => s;
  pal_set_fan_duty := fun i d slot s =>
    (0, mk_sim (s_locks_fail s) (s_malloc_fails s) (s_i2c_status s) (s_clock s) (s_txq s)
       (s_rxq s) (s_ipmiq s) (s_wire s ++ [[i; d; slot]]) (s_slave s));
|}.
Next Obligation. intros n d e r n' d' e' [= _ <- <- _]. done. Qed.
Next Obligation. intros m e r m' e' [= _ <- _] _. apply u8_range. Qed.
Next Obligation. done. Qed.

Definition fan_msg : ipmi_msg :=
  with_InF_source SLOT1_BIC (with_data_len 2 (with_data (0xFF :: 30 :: replicate 525 0) zero_msg)).

Lemma wf_fan_msg : wf_msg fan_msg.
Proof.
  pose proof wf_zero_msg as []. unfold fan_msg. wf_auto.
  do 2 (apply bytes_cons; [done|]). by apply bytes_replicate.
Qed.

Lemma fan_duty_all_fans_witness :
  exists w', OEM_SET_FAN_DUTY_MANUAL fan_msg (sim_world sim0) =
    Ret (with_cc CC_SUCCESS (with_data_len 0 fan_msg), w') /\
    s_wire (w_ext w') = [[0; 30; 1]; [1; 30; 1]].
Proof.
  eexists. split.
  - apply (fan_duty_all_fans fan_msg (sim_world sim0) 30 INDEX_SLOT1 0 0 sim0); try done.
    + apply wf_fan_msg.
    + by left.
  - reflexivity.
Defined.

Lemma sensor_reading_spec_witness :
  wp (SENSOR_GET_SENSOR_READING (with_data_len 1 zero_msg))
    (fun m' w' => exists num, payload (with_data_len 1 zero_msg) = [num] /\
       payload m' = [42; 0xC0; 0xC0]) (sim_world sim0).
Proof.
  eapply wp_mono; [apply (sensor_reading_spec (with_data_len 1 zero_msg) (sim_world sim0))|].
  - by apply (bool_decide_unpack _).
  - apply wf_with_data_len; [apply wf_zero_msg|done].
  - done.
  - intros m' w' (num & st & rd & e & Hp & [= <- <- <-] & Hout).
    destruct (Hout eq_refl) as (mbr & e' & [= <- _] & Hpay & _). exists num. split; [exact Hp|].
    exact Hpay.
Defined.
