(* ===== verification/Oem1sBoard.v ===== *)
(** The board commands of [ipmi/oem_1s_handler.c]: GPIO, virtual GPIO, resets,
    versions, VR monitoring, fans, and the commands a platform has to
    override.  The GPIO, fan and platform modules are not in the repository;
    they are the class [BoardSvc]. *)

From stdpp Require Import strings.
From S2P Require Import Prelude IpmiDefs World PowerStatus HandlerLib AppHandler OemHandler.

(** * oem_1s_handler.h *)

Definition BIC_PLAT_NAME : Z := 1.
Definition BIC_PLAT_BOARD_ID : Z := 2.
Definition BIC_PROJ_NAME : Z := 3.
Definition BIC_PROJ_STAGE : Z := 4.

Definition SUCCESS : Z := 0.
Definition NOT_SUPPORT : Z := -1.
Definition INVALID_ERROR_TYPE : Z := -2.
Definition INVALID_DIMM_ID : Z := -3.

Definition GLOBAL_GPIO_IDX_KEY : Z := 0xFF.
Definition GET_GPIO_STATUS : Z := 0.
Definition SET_GPIO_OUTPUT_STATUS : Z := 1.
Definition GET_GPIO_DIRECTION_STATUS : Z := 2.
Definition SET_GPIO_DIRECTION_STATUS : Z := 3.

Definition GET_VGPIO_DIRECTION_AND_STATUS : Z := 0.
Definition SET_VGPIO_STATUS : Z := 1.

(** The bytes of a C string, without the terminator. *)
Definition c_string (s : String.string) : list Z :=
  (fun c => Z.of_N (Ascii.N_of_ascii c)) <$> String.list_ascii_of_string s.

Definition PLATFORM_NAME : list Z := c_string "Yosemite V3.5"%string.
Definition PROJECT_NAME : list Z := c_string "Crater Lake"%string.
Definition PROJECT_STAGE : Z := MP.

(** * External modules *)

(** [vw_gpio_get n tail] is given the data from [data[2]] on; [i2c_scan]
    returns the data and the byte it stores in its length argument. *)
Class BoardSvc (E : Type) : Type := {
  gpio_ind_to_num_table : list Z;
  gpio_ind_to_num_table_cnt : Z;
  TOTAL_GPIO_NUM : Z;
  GPIO_INPUT : Z;
  GPIO_OUTPUT : Z;
  gpio_is_init : Z -> E -> bool;
  gpio_get : Z -> E -> Z * E;
  gpio_set : Z -> Z -> E -> E;
  gpio_get_direction : Z -> E -> Z * E;
  gpio_conf : Z -> Z -> E -> E;
  vw_gpio_get : Z -> list Z -> E -> (bool * list Z) * E;
  vw_gpio_set : Z -> Z -> E -> bool * E;
  pal_submit_bmc_cold_reset : E -> Z * E;
  submit_bic_warm_reset : E -> E;
  set_wdt_continue_feed : Z -> E -> E;
  i2c_scan : Z -> list Z -> E -> (list Z * Z) * E;
  SUCCESS_12V_CYCLE_SLOT : Z;
  NOT_SUPPORT_12V_CYCLE_SLOT : Z;
  SLOT_OFF_FAILED : Z;
  SLOT_ON_FAILED : Z;
  pal_submit_12v_cycle_slot : ipmi_msg -> E -> (Z * ipmi_msg) * E;
  pal_get_fan_duty : Z -> Z -> Z -> E -> (Z * Z) * E;
  pal_get_fan_rpm : Z -> Z -> E -> (Z * Z) * E;
  pal_clear_cmos : E -> Z * E;
  pal_set_pmic_error_flag : Z -> Z -> E -> Z * E;
  pal_get_set_add_debug_sel_mode_status : Z -> Z -> E -> (Z * Z) * E;
  gpio_table_len : gpio_ind_to_num_table_cnt = Z.of_nat (length gpio_ind_to_num_table);
  gpio_table_cnt : is_u8 gpio_ind_to_num_table_cnt;
  gpio_table_u8 : bytes gpio_ind_to_num_table;
  vw_gpio_get_mem : forall n t e r t' e', vw_gpio_get n t e = (r, t', e') ->
    bytes t -> length t' = length t /\ bytes t';
  i2c_scan_mem : forall b d e d' n e', i2c_scan b d e = (d', n, e') ->
    bytes d -> length d' = length d /\ bytes d' /\ is_u8 n;
  slot_msg : forall m e r m' e', pal_submit_12v_cycle_slot m e = (r, m', e') ->
    wf_msg m -> m_data_len m <= IPMI_MSG_MAX_LENGTH -> answers m m';
  fan_duty_u8 : forall i s d e r d' e', pal_get_fan_duty i d s e = (r, d', e') ->
    is_u8 d -> is_u8 d';
  fan_rpm_u16 : forall i d e r d' e', pal_get_fan_rpm i d e = (r, d', e') ->
    is_u16 d -> is_u16 d';
  debug_sel_u8 : forall o s e r s' e',
    pal_get_set_add_debug_sel_mode_status o s e = (r, s', e') -> is_u8 s -> is_u8 s';
}.

Section Handlers.
Context {E : Type} `{OemSvc E} `{BoardSvc E}.

(** * GPIO *)

(** One pin of the loop of [OEM_1S_GET_GPIO]; the pins of byte [i / 8] are
    collected in [eight_bit_value]. *)
Definition get_gpio_pin (i : Z) (st : Z * ipmi_msg) : ST (world E) (Z * ipmi_msg) :=
  let '(eight_bit_value, msg) := st in
  let! gpio_value :=
    (if i >=? gpio_ind_to_num_table_cnt then ret 0
     else
       let! num := lift (arr_get gpio_ind_to_num_table i) in
       let! v := ext (gpio_get num) in ret (u8 v)) in
  let eight_bit_value := if i mod 8 =? 0 then 0 else eight_bit_value in
  let eight_bit_value := u8 (Z.lor eight_bit_value (Z.shiftl gpio_value (i mod 8))) in
  let! msg := lift (set_data (i / 8) eight_bit_value msg) in
  ret (eight_bit_value, msg).

Definition OEM_1S_GET_GPIO (msg : ipmi_msg) : ST (world E) ipmi_msg :=
  if negb (m_data_len msg =? 0) then ret (with_cc CC_INVALID_LENGTH msg)
  else
    let gpio_cnt := u8 (gpio_ind_to_num_table_cnt + (8 - gpio_ind_to_num_table_cnt mod 8)) in
    let data_len := gpio_cnt / 8 in
    let msg := with_data_len data_len msg in
    let! (_, msg) := st_for (Z.to_nat gpio_cnt) 0 get_gpio_pin (0, msg) in
    ret (with_cc CC_SUCCESS msg).

Definition OEM_1S_GET_GPIO_CONFIG (msg : ipmi_msg) : ST (world E) ipmi_msg :=
  ret (with_cc CC_INVALID_CMD (with_data_len 0 msg)).
Definition OEM_1S_SET_GPIO_CONFIG (msg : ipmi_msg) : ST (world E) ipmi_msg :=
  ret (with_cc CC_INVALID_CMD (with_data_len 0 msg)).

(** The key that asks for global pin numbers is the last byte of a request
    with one byte more than its option needs; it is cut off. *)
Definition gpio_key (option_ : Z) (msg : ipmi_msg) : ST (world E) (bool * ipmi_msg) :=
  if (option_ =? GET_GPIO_STATUS) || (option_ =? GET_GPIO_DIRECTION_STATUS) then
    if m_data_len msg =? 3 then
      let! key := lift (get_data msg 2) in
      ret (negb (key =? GLOBAL_GPIO_IDX_KEY), with_data_len (m_data_len msg - 1) msg)
    else ret (true, msg)
  else if (option_ =? SET_GPIO_OUTPUT_STATUS) || (option_ =? SET_GPIO_DIRECTION_STATUS) then
    if m_data_len msg =? 4 then
      let! key := lift (get_data msg 3) in
      ret (negb (key =? GLOBAL_GPIO_IDX_KEY), with_data_len (m_data_len msg - 1) msg)
    else ret (true, msg)
  else ret (true, msg).

(** Returns 1 when the request names no pin, otherwise 0 and the request with
    the global pin number and without the key. *)
Definition gpio_idx_exchange (msg : ipmi_msg) : ST (world E) (Z * ipmi_msg) :=
  if m_data_len msg <? 2 then ret (1, msg)
  else
    let! option_ := lift (get_data msg 0) in
    let! (need_change, msg) := gpio_key option_ msg in
    if need_change then
      let! index := lift (get_data msg 1) in
      let! num := lift (arr_get gpio_ind_to_num_table index) in
      let! msg := lift (set_data 1 num msg) in
      ret (0, msg)
    else ret (0, msg).

Definition OEM_1S_RECORD_DAM_PIN_STATUS (gpio_num status : Z) : ST (world E) unit := skip.

(** The tail of [OEM_1S_GET_SET_GPIO]. *)
Definition gpio_done (completion_code : Z) (msg : ipmi_msg) : ST (world E) ipmi_msg :=
  let msg := if negb (completion_code =? CC_SUCCESS) then with_data_len 0 msg
             else with_data_len 2 msg in
  ret (with_cc completion_code msg).

(** The switch on the option, for an initialised pin. *)
Definition gpio_option (gpio_num : Z) (msg : ipmi_msg) : ST (world E) ipmi_msg :=
  let! option_ := lift (get_data msg 0) in
  if option_ =? GET_GPIO_STATUS then
    if m_data_len msg =? 2 then
      let! msg := lift (set_data 0 gpio_num msg) in
      let! v := ext (gpio_get gpio_num) in
      let! msg := lift (set_data 1 (u8 v) msg) in
      gpio_done CC_SUCCESS msg
    else gpio_done CC_INVALID_LENGTH msg
  else if option_ =? SET_GPIO_OUTPUT_STATUS then
    if m_data_len msg =? 3 then
      let! msg := lift (set_data 0 gpio_num msg) in
      let! status := lift (get_data msg 2) in
      do! ext_ (gpio_set gpio_num status) in
      do! OEM_1S_RECORD_DAM_PIN_STATUS gpio_num status in
      let! v := ext (gpio_get gpio_num) in
      let! msg := lift (set_data 1 (u8 v) msg) in
      gpio_done CC_SUCCESS msg
    else gpio_done CC_INVALID_LENGTH msg
  else if option_ =? GET_GPIO_DIRECTION_STATUS then
    if m_data_len msg =? 2 then
      let! msg := lift (set_data 0 gpio_num msg) in
      let! v := ext (gpio_get_direction gpio_num) in
      let! msg := lift (set_data 1 (u8 v) msg) in
      gpio_done CC_SUCCESS msg
    else gpio_done CC_INVALID_LENGTH msg
  else if option_ =? SET_GPIO_DIRECTION_STATUS then
    if m_data_len msg =? 3 then
      let! dir := lift (get_data msg 2) in
      do! ext_ (gpio_conf gpio_num (if z2b dir then GPIO_OUTPUT else GPIO_INPUT)) in
      let! msg := lift (set_data 0 gpio_num msg) in
      let! msg := lift (set_data 1 dir msg) in
      gpio_done CC_SUCCESS msg
    else gpio_done CC_INVALID_LENGTH msg
  else ret msg.

Definition OEM_1S_GET_SET_GPIO (msg : ipmi_msg) : ST (world E) ipmi_msg :=
  let! (r, msg) := gpio_idx_exchange msg in
  if negb (r =? 0) then ret (with_cc CC_PARAM_OUT_OF_RANGE (with_data_len 0 msg))
  else
    let! gpio_num := lift (get_data msg 1) in
    if gpio_num >=? TOTAL_GPIO_NUM then ret (with_cc CC_INVALID_LENGTH (with_data_len 0 msg))
    else
      let! is_init := gets (fun w => gpio_is_init gpio_num (w_ext w)) in
      if negb is_init then ret (with_cc CC_INVALID_DATA_FIELD (with_data_len 0 msg))
      else gpio_option gpio_num msg.

Definition OEM_1S_GET_SET_BIC_VGPIO (msg : ipmi_msg) : ST (world E) ipmi_msg :=
  let! option_ := lift (get_data msg 0) in
  if option_ =? GET_VGPIO_DIRECTION_AND_STATUS then
    if negb (m_data_len msg =? 2) then ret (with_cc CC_INVALID_LENGTH (with_data_len 0 msg))
    else
      let! num := lift (get_data msg 1) in
      let! (ok, tail) := ext (vw_gpio_get num (drop 2 (m_data msg))) in
      let msg := with_data (take 2 (m_data msg) ++ tail) msg in
      if ok then ret (with_cc CC_SUCCESS (with_data_len 4 msg))
      else ret (with_cc CC_UNSPECIFIED_ERROR (with_data_len 0 msg))
  else if option_ =? SET_VGPIO_STATUS then
    if negb (m_data_len msg =? 3) then ret (with_cc CC_INVALID_LENGTH (with_data_len 0 msg))
    else
      let! num := lift (get_data msg 1) in
      let! v := lift (get_data msg 2) in
      let! ok := ext (vw_gpio_set num v) in
      if ok then ret (with_cc CC_SUCCESS (with_data_len 1 msg))
      else ret (with_cc CC_UNSPECIFIED_ERROR (with_data_len 0 msg))
  else ret (with_cc CC_PARAM_OUT_OF_RANGE (with_data_len 0 msg)).

(** * Versions, resets, switches *)

(** [msg->data_len = strlen(s); memcpy(&msg->data[0], s, msg->data_len)] *)
Definition info_bytes (vs : list Z) (msg : ipmi_msg) : ST (world E) ipmi_msg :=
  let! msg := lift (blit_data 0 vs (with_data_len (Z.of_nat (length vs)) msg)) in
  ret (with_cc CC_SUCCESS msg).

Definition OEM_1S_GET_BIC_FW_INFO (msg : ipmi_msg) : ST (world E) ipmi_msg :=
  if negb (m_data_len msg =? 1) then ret (with_cc CC_INVALID_LENGTH msg)
  else
    let msg := with_data_len 0 msg in
    let! component := lift (get_data msg 0) in
    if component =? BIC_PLAT_NAME then info_bytes PLATFORM_NAME msg
    else if component =? BIC_PLAT_BOARD_ID then info_bytes [BOARD_ID] msg
    else if component =? BIC_PROJ_NAME then info_bytes PROJECT_NAME msg
    else if component =? BIC_PROJ_STAGE then info_bytes [PROJECT_STAGE] msg
    else ret (with_cc CC_INVALID_DATA_FIELD msg).

Definition OEM_1S_INFORM_BMC_TO_CONTROL_POWER (msg : ipmi_msg) : ST (world E) ipmi_msg :=
  if negb (m_data_len msg =? 1) then ret (with_cc CC_INVALID_LENGTH msg)
  else ret (with_cc CC_INVALID_CMD (with_data_len 0 msg)).

Definition OEM_1S_RESET_BMC (msg : ipmi_msg) : ST (world E) ipmi_msg :=
  if negb (m_data_len msg =? 0) then ret (with_cc CC_INVALID_LENGTH msg)
  else
    let! r := ext pal_submit_bmc_cold_reset in
    if r =? -1 then ret (with_cc CC_INVALID_CMD (with_data_len 0 msg))
    else ret (with_cc CC_SUCCESS (with_data_len 0 msg)).

Definition OEM_1S_SET_WDT_FEED (msg : ipmi_msg) : ST (world E) ipmi_msg :=
  if negb (m_data_len msg =? 1) then ret (with_cc CC_INVALID_LENGTH msg)
  else
    let! d0 := lift (get_data msg 0) in
    if negb (d0 =? 0) && negb (d0 =? 1) then ret (with_cc CC_INVALID_DATA_FIELD msg)
    else
      do! ext_ (set_wdt_continue_feed d0) in
      ret (with_cc CC_SUCCESS (with_data_len 0 msg)).

(** The scan stores its result count through a [uint8_t] pointer, in the low
    byte of the 16-bit length. *)
Definition OEM_1S_I2C_DEV_SCAN (msg : ipmi_msg) : ST (world E) ipmi_msg :=
  if negb (m_data_len msg =? 1) then ret (with_cc CC_INVALID_LENGTH msg)
  else
    let! bus := lift (get_data msg 0) in
    let! (d, n) := ext (i2c_scan bus (m_data msg)) in
    let msg := with_data_len (m_data_len msg / 256 * 256 + n) (with_data d msg) in
    ret (with_cc CC_SUCCESS msg).

Definition OEM_1S_GET_BIC_STATUS (msg : ipmi_msg) : ST (world E) ipmi_msg :=
  if negb (m_data_len msg =? 0) then ret (with_cc CC_INVALID_LENGTH msg)
  else
    let! msg := lift (set_bytes 0 [FIRMWARE_REVISION_1; FIRMWARE_REVISION_2] msg) in
    ret (with_cc CC_SUCCESS (with_data_len 2 msg)).

Definition OEM_1S_SET_VR_MONITOR_STATUS (msg : ipmi_msg) : ST (world E) ipmi_msg :=
  if negb (m_data_len msg =? 1) then ret (with_cc CC_INVALID_LENGTH msg)
  else
    let! d0 := lift (get_data msg 0) in
    if d0 =? 0 then
      do! modify (fun w => w_set_power (set_vr_monitor_status false (w_power w)) w) in
      ret (with_cc CC_SUCCESS (with_data_len 0 msg))
    else if d0 =? 1 then
      do! modify (fun w => w_set_power (set_vr_monitor_status true (w_power w)) w) in
      ret (with_cc CC_SUCCESS (with_data_len 0 msg))
    else ret (with_cc CC_INVALID_DATA_FIELD msg).

Definition OEM_1S_GET_VR_MONITOR_STATUS (msg : ipmi_msg) : ST (world E) ipmi_msg :=
  if negb (m_data_len msg =? 0) then ret (with_cc CC_INVALID_LENGTH msg)
  else
    let! v := gets (fun w => get_vr_monitor_status (w_power w)) in
    let! msg := lift (set_data 0 (b2z v) msg) in
    ret (with_cc CC_SUCCESS (with_data_len 1 msg)).

Definition OEM_1S_RESET_BIC (msg : ipmi_msg) : ST (world E) ipmi_msg :=
  if negb (m_data_len msg =? 0) then ret (with_cc CC_INVALID_LENGTH msg)
  else
    do! ext_ submit_bic_warm_reset in
    ret (with_cc CC_SUCCESS (with_data_len 0 msg)).

Definition OEM_1S_12V_CYCLE_SLOT (msg : ipmi_msg) : ST (world E) ipmi_msg :=
  if negb (m_data_len msg =? 0) then ret (with_cc CC_INVALID_LENGTH msg)
  else
    let! (r, msg) := ext (pal_submit_12v_cycle_slot msg) in
    if r =? SUCCESS_12V_CYCLE_SLOT then ret (with_cc CC_SUCCESS msg)
    else if r =? NOT_SUPPORT_12V_CYCLE_SLOT then ret (with_cc CC_INVALID_CMD msg)
    else if (r =? SLOT_OFF_FAILED) || (r =? SLOT_ON_FAILED)
    then ret (with_cc CC_UNSPECIFIED_ERROR msg)
    else ret (with_cc CC_UNSPECIFIED_ERROR msg).

Definition OEM_1S_CLEAR_CMOS (msg : ipmi_msg) : ST (world E) ipmi_msg :=
  if negb (m_data_len msg =? 0) then ret (with_cc CC_INVALID_LENGTH msg)
  else
    let! r := ext pal_clear_cmos in
    if r <? 0 then ret (with_cc CC_UNSPECIFIED_ERROR msg)
    else ret (with_cc CC_SUCCESS (with_data_len 0 msg)).

Definition pmic_cc (r : Z) : Z :=
  if r =? NOT_SUPPORT then CC_INVALID_CMD
  else if (r =? INVALID_ERROR_TYPE) || (r =? INVALID_DIMM_ID) then CC_INVALID_DATA_FIELD
  else if r =? SUCCESS then CC_SUCCESS
  else CC_UNSPECIFIED_ERROR.

Definition OEM_1S_NOTIFY_PMIC_ERROR (msg : ipmi_msg) : ST (world E) ipmi_msg :=
  if negb (m_data_len msg =? 2) then ret (with_cc CC_INVALID_LENGTH msg)
  else
    let! d0 := lift (get_data msg 0) in
    let! d1 := lift (get_data msg 1) in
    let! r := ext (pal_set_pmic_error_flag d0 d1) in
    ret (with_cc (pmic_cc r) (with_data_len 0 msg)).

Definition OEM_1S_SET_ADD_DEBUG_SEL_MODE (msg : ipmi_msg) : ST (world E) ipmi_msg :=
  if m_data_len msg <? 1 then ret (with_cc CC_INVALID_LENGTH msg)
  else
    let! options := lift (get_data msg 0) in
    let! status := (if m_data_len msg =? 2 then lift (get_data msg 1) else ret 0) in
    let! (r, status) := ext (pal_get_set_add_debug_sel_mode_status options status) in
    if r <? 0 then ret (with_cc CC_UNSPECIFIED_ERROR msg)
    else
      let! msg := lift (set_data 0 status msg) in
      ret (with_cc CC_SUCCESS (with_data_len 1 msg)).

(** * Fans *)

Definition set_duty_auto (pwm_id duty slot_index : Z) (msg : ipmi_msg) : ST (world E) ipmi_msg :=
  if pwm_id >=? MAX_FAN_PWM_INDEX_COUNT then ret (with_cc CC_PARAM_OUT_OF_RANGE msg)
  else
    let! (r, current_fan_mode) := ext (pal_get_fan_ctrl_mode FAN_AUTO_MODE) in
    if r <? 0 then ret (with_cc CC_UNSPECIFIED_ERROR msg)
    else if negb (current_fan_mode =? FAN_AUTO_MODE) then ret msg
    else
      let duty := if duty >? MAX_FAN_DUTY_VALUE then MAX_FAN_DUTY_VALUE else duty in
      let! r := ext (pal_set_fan_duty pwm_id duty slot_index) in
      if r <? 0 then ret (with_cc CC_UNSPECIFIED_ERROR msg) else ret msg.

Definition OEM_1S_SET_FAN_DUTY_AUTO (msg : ipmi_msg) : ST (world E) ipmi_msg :=
  if negb (m_data_len msg =? 2) then ret (with_cc CC_INVALID_LENGTH msg)
  else
    let! pwm_id := lift (get_data msg 0) in
    let! duty := lift (get_data msg 1) in
    let msg := with_cc CC_SUCCESS (with_data_len 0 msg) in
    if m_InF_source msg =? SLOT1_BIC then set_duty_auto pwm_id duty INDEX_SLOT1 msg
    else if m_InF_source msg =? SLOT3_BIC then set_duty_auto pwm_id duty INDEX_SLOT3 msg
    else ret (with_cc CC_PARAM_OUT_OF_RANGE msg).

Definition get_duty (pwm_id slot_index : Z) (msg : ipmi_msg) : ST (world E) ipmi_msg :=
  if pwm_id >=? MAX_FAN_PWM_INDEX_COUNT then ret (with_cc CC_PARAM_OUT_OF_RANGE msg)
  else
    let! (r, duty) := ext (pal_get_fan_duty pwm_id 0 slot_index) in
    if r <? 0 then ret (with_cc CC_UNSPECIFIED_ERROR msg)
    else
      let! msg := lift (set_data 0 duty msg) in
      ret (with_cc CC_SUCCESS (with_data_len 1 msg)).

Definition OEM_1S_GET_FAN_DUTY (msg : ipmi_msg) : ST (world E) ipmi_msg :=
  if negb (m_data_len msg =? 1) then ret (with_cc CC_INVALID_LENGTH msg)
  else
    let! pwm_id := lift (get_data msg 0) in
    let msg := with_data_len 0 msg in
    if m_InF_source msg =? SLOT1_BIC then get_duty pwm_id INDEX_SLOT1 msg
    else if m_InF_source msg =? SLOT3_BIC then get_duty pwm_id INDEX_SLOT3 msg
    else ret (with_cc CC_PARAM_OUT_OF_RANGE msg).

Definition OEM_1S_GET_FAN_RPM (msg : ipmi_msg) : ST (world E) ipmi_msg :=
  if negb (m_data_len msg =? 1) then ret (with_cc CC_INVALID_LENGTH msg)
  else
    let! fan_id := lift (get_data msg 0) in
    let! (r, data) := ext (pal_get_fan_rpm fan_id 0) in
    if r <? 0 then ret (with_cc CC_UNSPECIFIED_ERROR (with_data_len 0 msg))
    else
      let! msg := lift (set_bytes 0 [Z.land (Z.shiftr data 8) 0xFF; Z.land data 0xFF] msg) in
      ret (with_cc CC_SUCCESS (with_data_len 2 msg)).

(** * Commands without a default implementation *)

Definition OEM_1S_GET_SET_M2 (msg : ipmi_msg) : ST (world E) ipmi_msg :=
  ret (with_cc CC_INVALID_CMD (with_data_len 0 msg)).
Definition OEM_1S_SET_SSD_LED (msg : ipmi_msg) : ST (world E) ipmi_msg :=
  ret (with_cc CC_INVALID_CMD (with_data_len 0 msg)).
Definition OEM_1S_GET_SSD_STATUS (msg : ipmi_msg) : ST (world E) ipmi_msg :=
  ret (with_cc CC_INVALID_CMD (with_data_len 0 msg)).
Definition OEM_1S_COPY_FLASH_IMAGE (msg : ipmi_msg) : ST (world E) ipmi_msg :=
  ret (with_cc CC_NOT_SUPP_IN_CURR_STATE (with_data_len 0 msg)).
Definition GET_COPY_FLASH_STATUS (msg : ipmi_msg) : ST (world E) ipmi_msg :=
  ret (with_cc CC_NOT_SUPP_IN_CURR_STATE (with_data_len 0 msg)).
Definition OEM_1S_INFORM_PEER_SLED_CYCLE (msg : ipmi_msg) : ST (world E) ipmi_msg :=
  ret (with_cc CC_NOT_SUPP_IN_CURR_STATE (with_data_len 0 msg)).
Definition OEM_1S_PEX_FLASH_READ (msg : ipmi_msg) : ST (world E) ipmi_msg := ret msg.
Definition OEM_1S_GET_FPGA_USER_CODE (msg : ipmi_msg) : ST (world E) ipmi_msg := ret msg.
Definition OEM_1S_GET_BOARD_ID (msg : ipmi_msg) : ST (world E) ipmi_msg :=
  if negb (m_data_len msg =? 0) then ret (with_cc CC_INVALID_LENGTH (with_data_len 0 msg))
  else ret (with_cc CC_INVALID_CMD (with_data_len 0 msg)).
Definition OEM_1S_GET_CARD_TYPE (msg : ipmi_msg) : ST (world E) ipmi_msg :=
  ret (with_cc CC_INVALID_CMD (with_data_len 0 msg)).
Definition OEM_1S_BRIDGE_I2C_MSG_BY_COMPNT (msg : ipmi_msg) : ST (world E) ipmi_msg := ret msg.
Definition OEM_1S_GET_PCIE_RETIMER_TYPE (msg : ipmi_msg) : ST (world E) ipmi_msg :=
  ret (with_cc CC_INVALID_CMD (with_data_len 0 msg)).
Definition OEM_1S_GET_HSC_STATUS (msg : ipmi_msg) : ST (world E) ipmi_msg :=
  ret (with_cc CC_NOT_SUPP_IN_CURR_STATE (with_data_len 0 msg)).
Definition OEM_1S_GET_BIOS_VERSION (msg : ipmi_msg) : ST (world E) ipmi_msg :=
  ret (with_cc CC_INVALID_CMD (with_data_len 0 msg)).
Definition OEM_1S_GET_PCIE_CARD_STATUS (msg : ipmi_msg) : ST (world E) ipmi_msg :=
  ret (with_cc CC_INVALID_CMD (with_data_len 0 msg)).
Definition OEM_1S_GET_PCIE_CARD_SENSOR_READING (msg : ipmi_msg) : ST (world E) ipmi_msg :=
  ret (with_cc CC_INVALID_CMD (with_data_len 0 msg)).
Definition OEM_1S_WRITE_READ_DIMM (msg : ipmi_msg) : ST (world E) ipmi_msg :=
  ret (with_cc CC_INVALID_CMD (with_data_len 0 msg)).
Definition OEM_1S_GET_DIMM_I3C_MUX_SELECTION (msg : ipmi_msg) : ST (world E) ipmi_msg :=
  ret (with_cc CC_INVALID_CMD (with_data_len 0 msg)).
Definition OEM_1S_SAFE_WRITE_READ_M2_DATA (msg : ipmi_msg) : ST (world E) ipmi_msg :=
  ret (with_cc CC_INVALID_CMD (with_data_len 0 msg)).
Definition OEM_1S_PRE_POWER_OFF_CONTROL (msg : ipmi_msg) : ST (world E) ipmi_msg :=
  ret (with_cc CC_INVALID_CMD (with_data_len 0 msg)).
Definition OEM_1S_SET_DEVICE_ACTIVE (msg : ipmi_msg) : ST (world E) ipmi_msg :=
  ret (with_cc CC_INVALID_CMD (with_data_len 0 msg)).
Definition OEM_1S_DEBUG_GET_HW_SIGNAL (msg : ipmi_msg) : ST (world E) ipmi_msg :=
  ret (with_cc CC_INVALID_CMD (with_data_len 0 msg)).
Definition OEM_1S_CLEAR_CMET (msg : ipmi_msg) : ST (world E) ipmi_msg :=
  ret (with_cc CC_INVALID_CMD (with_data_len 0 msg)).
End Handlers.

(** * Contracts *)

Section Contracts.
Context {E : Type} `{OemSvc E} `{BoardSvc E}.
Implicit Types w : world E.

#[export] Instance BIC_FW_INFO_Handler : Handler (E := E) OEM_1S_GET_BIC_FW_INFO.
Proof.
  handler_start. unfold OEM_1S_GET_BIC_FW_INFO, info_bytes. contract; by apply bytes_check.
Qed.

#[export] Instance INFORM_POWER_Handler : Handler (E := E) OEM_1S_INFORM_BMC_TO_CONTROL_POWER.
Proof. handler_start. unfold OEM_1S_INFORM_BMC_TO_CONTROL_POWER. contract. Qed.

#[export] Instance RESET_BMC_Handler : Handler OEM_1S_RESET_BMC.
Proof. handler_start. unfold OEM_1S_RESET_BMC. contract. Qed.

#[export] Instance WDT_FEED_Handler : Handler OEM_1S_SET_WDT_FEED.
Proof. handler_start. unfold OEM_1S_SET_WDT_FEED. contract. Qed.

#[export] Instance BIC_STATUS_Handler : Handler (E := E) OEM_1S_GET_BIC_STATUS.
Proof. handler_start. unfold OEM_1S_GET_BIC_STATUS. contract. Qed.

#[export] Instance GET_VR_Handler : Handler (E := E) OEM_1S_GET_VR_MONITOR_STATUS.
Proof.
  handler_start. unfold OEM_1S_GET_VR_MONITOR_STATUS. contract.
  by destruct (get_vr_monitor_status _).
Qed.

#[export] Instance RESET_BIC_Handler : Handler OEM_1S_RESET_BIC.
Proof. handler_start. unfold OEM_1S_RESET_BIC. contract. Qed.

#[export] Instance CLEAR_CMOS_Handler : Handler OEM_1S_CLEAR_CMOS.
Proof. handler_start. unfold OEM_1S_CLEAR_CMOS. contract. Qed.

Lemma pmic_cc_u8 r : is_u8 (pmic_cc r).
Proof. unfold pmic_cc. repeat case_match; done. Qed.

#[export] Instance PMIC_Handler : Handler OEM_1S_NOTIFY_PMIC_ERROR.
Proof.
  handler_start. unfold OEM_1S_NOTIFY_PMIC_ERROR. contract.
  split; [|done]. apply answers_cc; [|apply pmic_cc_u8]. handler_side.
Qed.

#[export] Instance DEBUG_SEL_Handler : Handler OEM_1S_SET_ADD_DEBUG_SEL_MODE.
Proof.
  handler_start. unfold OEM_1S_SET_ADD_DEBUG_SEL_MODE. contract; by eapply debug_sel_u8.
Qed.

#[export] Instance I2C_SCAN_Handler : Handler OEM_1S_I2C_DEV_SCAN.
Proof.
  handler_start. unfold OEM_1S_I2C_DEV_SCAN. handler_step; [contract|]. do 2 handler_step.
  apply wp_bind, wp_ext. intros [d n] e Hs.
  destruct (i2c_scan_mem _ _ _ _ _ _ Hs (wf_bytes _ Hm)) as (Hd & Hb & Hn).
  contract. zify_bool. cbn. rewrite Heqb. split; [|done]. apply answers_cc; [|done].
  apply answers_len; [|unfold is_u8 in Hn; change (1 / 256 * 256) with 0; arith_side].
  apply answers_data; [done| |done]. rewrite Hd. apply (wf_length _ Hm).
Qed.

#[export] Instance CYCLE_SLOT_Handler : Handler OEM_1S_12V_CYCLE_SLOT.
Proof.
  handler_start. unfold OEM_1S_12V_CYCLE_SLOT. handler_step; [contract|].
  apply wp_bind, wp_ext. intros [r m'] e Hs. assert (answers m m') by by eapply slot_msg. contract.
Qed.

#[export] Instance FAN_AUTO_Handler : Handler OEM_1S_SET_FAN_DUTY_AUTO.
Proof. handler_start. unfold OEM_1S_SET_FAN_DUTY_AUTO, set_duty_auto. contract. Qed.

#[export] Instance GET_DUTY_Handler : Handler OEM_1S_GET_FAN_DUTY.
Proof.
  handler_start. unfold OEM_1S_GET_FAN_DUTY, get_duty. contract; by eapply fan_duty_u8.
Qed.

#[export] Instance FAN_RPM_Handler : Handler OEM_1S_GET_FAN_RPM.
Proof.
  handler_start. unfold OEM_1S_GET_FAN_RPM. handler_step; [contract|]. do 2 handler_step.
  apply wp_bind, wp_ext. intros [r d] e Hr. apply fan_rpm_u16 in Hr as [Hd _]; [|done]. contract.
Qed.

#[export] Instance VGPIO_Handler : Handler OEM_1S_GET_SET_BIC_VGPIO.
Proof.
  handler_start. unfold OEM_1S_GET_SET_BIC_VGPIO. do 2 handler_step. handler_step; [|contract].
  handler_step; [contract|]. do 2 handler_step.
  apply wp_bind, wp_ext. intros [ok t] e Hv.
  destruct (vw_gpio_get_mem _ _ _ _ _ _ Hv) as [Ht Hb]; [apply bytes_drop, Hm|].
  assert (answers m (with_data (take 2 (m_data m) ++ t) m)); [|contract].
  pose proof (wf_length _ Hm) as H527. apply answers_data; [done| |].
  - rewrite length_app, length_take, Ht, length_drop. lia.
  - apply bytes_app; [apply bytes_take, Hm|done].
Qed.

#[export] Instance BOARD_ID_Handler : Handler (E := E) OEM_1S_GET_BOARD_ID.
Proof. handler_start. unfold OEM_1S_GET_BOARD_ID. contract. Qed.

(** The commands that leave the message alone. *)
Lemma handler_none : Handler (E := E) (fun m => ret m).
Proof. handler_start. contract. Qed.

(** * GET_GPIO *)

(** The values of the loop of GET_GPIO: any pin is read inside the table and
    any byte is written inside the data. *)
Lemma get_gpio_pin_run m0 w0 i st w (Q : Z * ipmi_msg -> world E -> Prop) :
  answers m0 st.2 -> 0 <= i < 256 ->
  (forall v e b, (if i >=? gpio_ind_to_num_table_cnt then v = 0 /\ e = w_ext w
     else exists p r, gpio_ind_to_num_table !! Z.to_nat i = Some p /\
       gpio_get p (w_ext w) = (r, e) /\ v = u8 r) ->
   b = u8 (Z.lor (if i mod 8 =? 0 then 0 else st.1) (Z.shiftl v (i mod 8))) ->
   let d := overwrite (Z.to_nat (i / 8)) [b] (m_data st.2) in
   answers m0 (with_data d st.2) -> Q (b, with_data d st.2) (w_set_ext e w)) ->
  wp (get_gpio_pin i st) Q w.
Proof.
  destruct st as [v0 msg]. cbn [fst snd]. intros Ha Hi HQ. unfold get_gpio_pin.
  pose proof gpio_table_len as Hlen. apply wp_bind.
  assert (Hset : forall v e, (if i >=? gpio_ind_to_num_table_cnt then v = 0 /\ e = w_ext w
     else exists p r, gpio_ind_to_num_table !! Z.to_nat i = Some p /\
       gpio_get p (w_ext w) = (r, e) /\ v = u8 r) ->
    wp (let! m := lift (set_data (i / 8) (u8 (Z.lor (if i mod 8 =? 0 then 0 else v0)
          (Z.shiftl v (i mod 8)))) msg) in
        ret (u8 (Z.lor (if i mod 8 =? 0 then 0 else v0) (Z.shiftl v (i mod 8))), m))
      Q (w_set_ext e w)).
  { intros v e Hv. apply wp_bind. eapply (wp_set_data m0); [done| |apply u8_range|].
    - change IPMI_MSG_MAX_LENGTH with 527. Z.div_mod_to_equations. lia.
    - intros Ha'. apply wp_ret. by eapply HQ. }
  destruct (Z.geb_spec i gpio_ind_to_num_table_cnt) as [Hge|Hlt].
  - apply wp_ret. replace w with (w_set_ext (w_ext w) w) at 1 by (by destruct w). by apply Hset.
  - apply wp_bind, wp_lift. destruct (arr_get_ok gpio_ind_to_num_table i) as (p & Hp & Hlk); [lia|].
    rewrite Hp. apply wp_bind, wp_ext. intros r e Hr. apply wp_ret. apply Hset. eauto.
Qed.

#[export] Instance GET_GPIO_Handler : Handler OEM_1S_GET_GPIO.
Proof.
  handler_start. unfold OEM_1S_GET_GPIO. handler_step; [contract|].
  set (n := u8 _). assert (Hn : is_u8 n) by apply u8_range. unfold is_u8 in Hn.
  apply wp_bind. eapply (wp_st_for (fun _ st w' => answers m st.2 /\ ipmb_frame w w' /\
    is_u8 (w_bmc_enables w'))).
  - split; [|done]. apply answers_len; [done|]. change IPMI_MSG_MAX_LENGTH with 527.
    Z.div_mod_to_equations. lia.
  - intros i st w' Hi (Ha' & Hf & He'). eapply (get_gpio_pin_run m w'); [done|lia|].
    intros v e b _ _ d Hd. split; [done|]. split; [|done]. etrans; [done|]. done.
  - intros [v m'] w' (Ha' & Hf & He'). apply wp_ret. split; [by apply answers_cc|done].
Qed.
End Contracts.

(** * What the GPIO commands do *)

Section Gpio.
Context {E : Type} `{BoardSvc E}.
Implicit Types w : world E.

(** The new value of the pin's byte in the reply, and the state after it. *)
Definition gpio_effect (option_ pin v : Z) (e : E) : Z * E :=
  if option_ =? GET_GPIO_STATUS then let '(r, e') := gpio_get pin e in (u8 r, e')
  else if option_ =? SET_GPIO_OUTPUT_STATUS then
    let '(r, e') := gpio_get pin (gpio_set pin v e) in (u8 r, e')
  else if option_ =? GET_GPIO_DIRECTION_STATUS then
    let '(r, e') := gpio_get_direction pin e in (u8 r, e')
  else (v, gpio_conf pin (if z2b v then GPIO_OUTPUT else GPIO_INPUT) e).

(** A request: the option, the pin, an argument for the two set options, and
    possibly a key. *)
Inductive gpio_request : Z -> list Z -> Prop :=
| gpio_request_get : gpio_request GET_GPIO_STATUS []
| gpio_request_set v : gpio_request SET_GPIO_OUTPUT_STATUS [v]
| gpio_request_get_dir : gpio_request GET_GPIO_DIRECTION_STATUS []
| gpio_request_set_dir v : gpio_request SET_GPIO_DIRECTION_STATUS [v].

(** The pin an index means: itself after the global key, the entry of the
    platform's table otherwise. *)
Definition gpio_pin (idx : Z) (key : list Z) : option Z :=
  if decide (key = [GLOBAL_GPIO_IDX_KEY]) then Some idx else gpio_ind_to_num_table !! Z.to_nat idx.

Lemma gpio_key_run m w option_ idx args key rest :
  gpio_request option_ args -> (length key <= 1)%nat ->
  m_data m = option_ :: idx :: args ++ key ++ rest ->
  m_data_len m = Z.of_nat (2 + length args + length key) ->
  gpio_key option_ m w = Ret (bool_decide (key <> [GLOBAL_GPIO_IDX_KEY]),
    with_data_len (Z.of_nat (2 + length args)) m, w).
Proof.
  intros Hreq Hkey Hd Hl. destruct m. cbn in Hd, Hl. subst.
  destruct key as [|k [|]]; [by destruct Hreq| |cbn in Hkey; lia].
  assert (Hk : bool_decide ([k] <> [GLOBAL_GPIO_IDX_KEY]) = negb (k =? GLOBAL_GPIO_IDX_KEY)).
  { destruct (Z.eqb_spec k GLOBAL_GPIO_IDX_KEY) as [->|]; [done|].
    apply bool_decide_eq_true_2. congruence. }
  rewrite Hk. by destruct Hreq.
Qed.

Lemma gpio_idx_exchange_run m w option_ idx args key rest :
  gpio_request option_ args -> (length key <= 1)%nat -> 0 <= idx ->
  m_data m = option_ :: idx :: args ++ key ++ rest ->
  m_data_len m = Z.of_nat (2 + length args + length key) ->
  gpio_idx_exchange m w =
    match gpio_pin idx key with
    | Some pin => Ret (0, with_data_len (Z.of_nat (2 + length args))
        (with_data (option_ :: pin :: args ++ key ++ rest) m), w)
    | None => UB
    end.
Proof.
  intros Hreq Hkey Hidx Hd Hl. unfold gpio_idx_exchange.
  rewrite (proj2 (Z.ltb_ge _ _)) by (rewrite Hl; lia).
  unfold bind at 1, lift at 1. rewrite (get_data_at m 0 option_) by (rewrite ?Hd; done).
  cbn [rbind]. unfold bind at 1.
  rewrite (gpio_key_run m w option_ idx args key rest) by done. cbn [rbind].
  unfold gpio_pin. case_bool_decide as Hk.
  - rewrite decide_False by done. unfold bind at 1, lift at 1.
    rewrite (get_data_at _ 1 idx) by (cbn [m_data with_data_len]; rewrite ?Hd; done). cbn [rbind].
    unfold bind at 1, lift at 1, arr_get. rewrite (proj2 (Z.leb_le 0 idx)) by done.
    destruct (gpio_ind_to_num_table !! Z.to_nat idx) as [pin|]; [|done]. cbn [rbind].
    unfold bind, lift. rewrite set_data_at by (cbn [m_data with_data_len]; rewrite Hd; cbn; lia).
    cbn [rbind m_data with_data_len]. rewrite Hd. by destruct m.
  - rewrite Hk, decide_True by done. unfold ret. do 3 f_equal.
    destruct m. cbn in Hd. by subst.
Qed.

(** The two bytes of a reply are written over the option and the pin. *)
Lemma wp_gpio_reply m w o p t pin v Q :
  wf_msg m -> m_data m = o :: p :: t -> is_u8 pin -> is_u8 v ->
  (forall m', answers m m' -> payload m' = [pin; v] -> m_completion_code m' = CC_SUCCESS -> Q m' w) ->
  wp (let! msg := lift (set_data 1 v (with_data (pin :: p :: t) m)) in gpio_done CC_SUCCESS msg) Q w.
Proof.
  intros Hm Hd Hpin Hv HQ. apply wp_bind, wp_lift.
  rewrite set_data_at by (cbn; lia). apply wp_ret.
  pose proof (wf_length _ Hm) as H527. pose proof (wf_bytes _ Hm) as Hb. rewrite Hd in H527, Hb.
  replace (with_cc CC_SUCCESS _) with (reply m (pin :: v :: t) 2 CC_SUCCESS) by (by destruct m).
  apply HQ; [|done..]. apply answers_intro; [done|done| |done|done].
  do 2 apply Forall_cons in Hb as [_ Hb]. by do 2 (apply bytes_cons; [done|]).
Qed.

(** An initialised pin: the effect of the option, its result, two bytes. *)
Lemma gpio_option_run m w option_ pin args rest (Q : ipmi_msg -> world E -> Prop) :
  wf_msg m -> gpio_request option_ args -> is_u8 pin ->
  m_data m = option_ :: pin :: args ++ rest -> m_data_len m = Z.of_nat (2 + length args) ->
  (forall m', let '(v, e) := gpio_effect option_ pin (default 0 (head args)) (w_ext w) in
    answers m m' -> payload m' = [pin; v] -> m_completion_code m' = CC_SUCCESS ->
    Q m' (w_set_ext e w)) ->
  wp (gpio_option pin m) Q w.
Proof.
  intros Hm Hreq Hpin Hd Hlen HQ.
  assert (Hargs : bytes args).
  { pose proof (wf_bytes _ Hm) as Hb. rewrite Hd in Hb. do 2 apply Forall_cons in Hb as [_ Hb].
    by apply Forall_app in Hb as [? _]. }
  assert (Hset : set_data 0 pin m = Ret (with_data (pin :: pin :: args ++ rest) m)).
  { rewrite set_data_at by (rewrite Hd; cbn; lia). by rewrite Hd. }
  unfold gpio_option, OEM_1S_RECORD_DAM_PIN_STATUS.
  apply wp_bind, (wp_get_data_at _ 0 option_); [done|by rewrite Hd|].
  unfold gpio_effect in HQ.
  destruct Hreq as [|v| |v]; cbn [length Nat.add] in Hlen; rewrite Hlen;
    cbn [Z.eqb Pos.eqb GET_GPIO_STATUS SET_GPIO_OUTPUT_STATUS GET_GPIO_DIRECTION_STATUS
      SET_GPIO_DIRECTION_STATUS Z.of_nat Pos.of_succ_nat Pos.succ default from_option head id] in *.
  - apply wp_bind, wp_lift. rewrite Hset. apply wp_bind, wp_ext. intros r e Hr. rewrite Hr in HQ.
    eapply wp_gpio_reply; [exact Hm|exact Hd|exact Hpin|apply u8_range|]. intros m' ???. by apply HQ.
  - apply wp_bind, wp_lift. rewrite Hset. apply wp_bind, (wp_get_data_at _ 2 v); [done..|].
    apply wp_bind, wp_ext_, wp_bind, wp_skip, wp_bind, wp_ext. intros r e Hr. cbn in Hr. rewrite Hr in HQ.
    eapply wp_gpio_reply; [exact Hm|exact Hd|exact Hpin|apply u8_range|]. intros m' ???. by apply HQ.
  - apply wp_bind, wp_lift. rewrite Hset. apply wp_bind, wp_ext. intros r e Hr. rewrite Hr in HQ.
    eapply wp_gpio_reply; [exact Hm|exact Hd|exact Hpin|apply u8_range|]. intros m' ???. by apply HQ.
  - apply wp_bind, (wp_get_data_at _ 2 v); [done|by rewrite Hd|].
    apply wp_bind, wp_ext_, wp_bind, wp_lift. rewrite Hset.
    apply Forall_cons in Hargs as [Hv _].
    eapply wp_gpio_reply; [exact Hm|exact Hd|exact Hpin|exact Hv|]. intros m' ???. by apply HQ.
Qed.

(** GET_SET_GPIO acts on the pin its index means - itself after the
    global key, the platform's table otherwise - exactly as the option says,
    and answers with the pin and the value; a pin that does not exist or is
    not initialised is refused and nothing is touched. *)
Theorem gpio_command_spec m w option_ idx args key pin :
  wf_msg m -> gpio_request option_ args -> (length key <= 1)%nat ->
  payload m = option_ :: idx :: args ++ key ->
  m_data_len m = Z.of_nat (2 + length args + length key) ->
  gpio_pin idx key = Some pin ->
  wp (OEM_1S_GET_SET_GPIO m) (fun m' w' =>
    answers m m' /\
    if pin >=? TOTAL_GPIO_NUM then
      w' = w /\ payload m' = [] /\ m_completion_code m' = CC_INVALID_LENGTH
    else if gpio_is_init pin (w_ext w) then
      let '(v, e) := gpio_effect option_ pin (default 0 (head args)) (w_ext w) in
      w' = w_set_ext e w /\ payload m' = [pin; v] /\ m_completion_code m' = CC_SUCCESS
    else w' = w /\ payload m' = [] /\ m_completion_code m' = CC_INVALID_DATA_FIELD) w.
Proof.
  intros Hm Hreq Hkey Hpay Hlen Hp. pose proof (wf_bytes _ Hm) as Hb.
  pose proof (data_payload m) as Hd. rewrite Hpay in Hd.
  set (rest := drop _ _) in Hd. rewrite <- !app_comm_cons, <- app_assoc in Hd.
  assert (Hbd := Hb). rewrite Hd in Hbd. apply Forall_cons in Hbd as [Ho [Hi Hbt]%Forall_cons].
  pose proof (wf_length _ Hm) as H527. rewrite Hd in H527.
  assert (Hpin : is_u8 pin).
  { unfold gpio_pin in Hp. case_decide; [by simplify_eq|]. eapply bytes_lookup; [apply gpio_table_u8|done]. }
  set (m1 := with_data_len (Z.of_nat (2 + length args))
    (with_data (option_ :: pin :: args ++ key ++ rest) m)).
  assert (Hargs : (length args <= 1)%nat) by (destruct Hreq; cbn; lia).
  assert (Ha1 : answers m m1).
  { replace m1 with (reply m (m_data m1) (m_data_len m1) (m_completion_code m)) by (by destruct m).
    apply answers_intro; [done|done| | |apply Hm].
    - by repeat apply bytes_cons.
    - cbn. change IPMI_MSG_MAX_LENGTH with 527. lia. }
  unfold OEM_1S_GET_SET_GPIO. apply wp_bind. eapply wp_of_eq.
  { rewrite (gpio_idx_exchange_run m w option_ idx args key rest), Hp; [done..|apply Hi|done|done]. }
  cbn [Z.eqb negb]. fold m1. apply wp_bind, (wp_get_data_at _ 1 pin); [done..|].
  destruct (pin >=? TOTAL_GPIO_NUM).
  { apply wp_ret. split; [|done]. apply answers_cc; [|done]. by apply answers_len. }
  apply wp_bind, wp_gets. destruct (gpio_is_init pin (w_ext w)); cbn [negb].
  - eapply (gpio_option_run m1 w option_ pin args (key ++ rest)); [apply Ha1|done..|].
    intros m'. destruct (gpio_effect _ _ _ _) as [v e]. intros Ha Hpl Hcc.
    split; [|done]. by eapply answers_trans.
  - apply wp_ret. split; [|done]. apply answers_cc; [|done]. by apply answers_len.
Qed.

(** Without the global key the index is not compared with the size of
    the platform's table: a larger one is read outside it. *)
Theorem gpio_index_unchecked m w option_ idx args :
  wf_msg m -> gpio_request option_ args -> payload m = option_ :: idx :: args ->
  m_data_len m = Z.of_nat (2 + length args) -> gpio_ind_to_num_table_cnt <= idx ->
  OEM_1S_GET_SET_GPIO m w = UB.
Proof.
  intros Hm Hreq Hpay Hlen Hidx. pose proof gpio_table_len as Htl.
  pose proof (data_payload m) as Hd. rewrite Hpay in Hd.
  unfold OEM_1S_GET_SET_GPIO, bind at 1.
  rewrite (gpio_idx_exchange_run m w option_ idx args [] (drop (Z.to_nat (m_data_len m)) (m_data m)));
    [|done|cbn; lia|lia|exact Hd|cbn [length]; lia].
  unfold gpio_pin. rewrite decide_False by done. by rewrite lookup_ge_None_2 by lia.
Qed.
End Gpio.

(** * All pins at once *)

Section Snapshot.
Context {E : Type} `{BoardSvc E}.
Implicit Types w : world E.
Variable level : Z -> bool.

(** The bit of pin [i]: the level of the pin it names, 0 behind the table. *)
Definition pin_bit (i : Z) : bool :=
  match gpio_ind_to_num_table !! Z.to_nat i with Some p => level p | None => false end.

(** Byte [v] holds the pins [8 k .. 8 k + n - 1] and nothing above. *)
Definition holds_pins (k n v : Z) : Prop :=
  forall b, 0 <= b -> Z.testbit v b = (b <? n) && pin_bit (8 * k + b).

Lemma holds_pins_add k n v v0 x :
  0 <= n < 8 -> (n <> 0 -> holds_pins k n v0) -> x = b2z (pin_bit (8 * k + n)) ->
  v = u8 (Z.lor (if n =? 0 then 0 else v0) (Z.shiftl x n)) -> holds_pins k (n + 1) v.
Proof.
  intros Hn Hv0 -> -> b Hb. unfold u8. destruct (Z.lt_ge_cases b 8) as [Hb8|Hb8].
  - rewrite Z.mod_pow2_bits_low, Z.lor_spec, Z.shiftl_spec by lia.
    assert (Hold : Z.testbit (if n =? 0 then 0 else v0) b = (b <? n) && pin_bit (8 * k + b)).
    { destruct (Z.eqb_spec n 0) as [->|Hn0]; [|by apply Hv0].
      rewrite Z.bits_0. by rewrite (proj2 (Z.ltb_ge b 0)) by lia. }
    rewrite Hold. destruct (Z.lt_trichotomy b n) as [Hlt|[->|Hgt]].
    + rewrite Z.testbit_neg_r by lia. rewrite orb_false_r.
      by rewrite !(proj2 (Z.ltb_lt _ _)) by lia.
    + rewrite Z.sub_diag, Z.ltb_irrefl, (proj2 (Z.ltb_lt n (n + 1))) by lia.
      by destruct (pin_bit _).
    + rewrite !(proj2 (Z.ltb_ge _ _)) by lia. cbn [andb orb].
      destruct (pin_bit (8 * k + n)); cbn [b2z]; [|apply Z.bits_0].
      by apply (Z.bits_above_log2 1); cbn; lia.
  - rewrite Z.mod_pow2_bits_high by lia. by rewrite (proj2 (Z.ltb_ge b (n + 1))) by lia.
Qed.

(** After [i] pins the full bytes before [i / 8] are right, and the byte of
    pin [i] holds the pins before it. *)
Definition pins_done (i : Z) (v : Z) (d : list Z) : Prop :=
  (forall k, 0 <= k < i / 8 -> exists b, d !! Z.to_nat k = Some b /\ holds_pins k 8 b) /\
  (i mod 8 <> 0 -> holds_pins (i / 8) (i mod 8) v /\ d !! Z.to_nat (i / 8) = Some v).

Lemma pins_done_step i v d v' x :
  0 <= i < 256 -> (32 <= length d)%nat -> pins_done i v d -> x = b2z (pin_bit i) ->
  v' = u8 (Z.lor (if i mod 8 =? 0 then 0 else v) (Z.shiftl x (i mod 8))) ->
  pins_done (i + 1) v' (overwrite (Z.to_nat (i / 8)) [v'] d).
Proof.
  intros Hi Hlen [Hfull Hpart] Hx Hv'.
  pose proof (Z.mod_pos_bound i 8 eq_refl) as Hmod. pose proof (Z.div_mod i 8) as Hdm.
  assert (Hk : (Z.to_nat (i / 8) < length d)%nat) by (Z.div_mod_to_equations; lia).
  assert (Hnew : holds_pins (i / 8) (i mod 8 + 1) v').
  { eapply holds_pins_add; [lia| | |exact Hv']; [by intros ?; apply Hpart|].
    by rewrite <- Hdm by lia. }
  assert (Hover : overwrite (Z.to_nat (i / 8)) [v'] d = <[Z.to_nat (i / 8) := v']> d).
  { unfold overwrite. rewrite insert_take_drop by lia. cbn [length app]. by rewrite Nat.add_1_r. }
  rewrite Hover. assert (Hat : (<[Z.to_nat (i / 8) := v']> d) !! Z.to_nat (i / 8) = Some v')
    by (by apply list_lookup_insert_eq).
  assert (Hbefore : forall k, 0 <= k < i / 8 ->
    exists b, (<[Z.to_nat (i / 8) := v']> d) !! Z.to_nat k = Some b /\ holds_pins k 8 b).
  { intros k Hk8. rewrite list_lookup_insert_ne by lia. by apply Hfull. }
  unfold pins_done. destruct (Z.eq_dec (i mod 8) 7) as [H7|H7].
  - replace ((i + 1) / 8) with (i / 8 + 1) by (clear -Hi H7; Z.div_mod_to_equations; lia). split.
    + intros k Hk8. destruct (Z.eq_dec k (i / 8)) as [->|]; [|apply Hbefore; lia].
      exists v'. split; [done|]. by rewrite H7 in Hnew.
    + intros Hne. exfalso. apply Hne. Z.div_mod_to_equations. lia.
  - replace ((i + 1) / 8) with (i / 8) by (clear -Hi H7; Z.div_mod_to_equations; lia).
    replace ((i + 1) mod 8) with (i mod 8 + 1) by (clear -Hi H7; Z.div_mod_to_equations; lia). done.
Qed.

(** GET_GPIO answers with one bit per pin of the platform's table, in
    its order, eight pins to a byte, lowest bit first; the bits behind the
    table are 0.  With 248 pins or more the 8-bit count wraps and the answer
    is empty. *)
Theorem gpio_snapshot m w :
  wf_msg m -> m_data_len m = 0 -> is_u8 (w_bmc_enables w) ->
  (forall p, gpio_get p (w_ext w) = (b2z (level p), w_ext w)) ->
  wp (OEM_1S_GET_GPIO m) (fun m' w' =>
    w' = w /\ m_completion_code m' = CC_SUCCESS /\ answers m m' /\
    m_data_len m' = (if gpio_ind_to_num_table_cnt <? 248
                     then gpio_ind_to_num_table_cnt / 8 + 1 else 0) /\
    forall k, 0 <= k < m_data_len m' ->
      exists b, payload m' !! Z.to_nat k = Some b /\ holds_pins k 8 b) w.
Proof.
  intros Hm Hlen He Hlvl. pose proof gpio_table_cnt as Hcnt. unfold is_u8 in Hcnt.
  pose proof gpio_table_len as Htl.
  assert (Hl : m_data_len m <= IPMI_MSG_MAX_LENGTH) by (rewrite Hlen; done).
  pose proof (answers_refl m Hm Hl) as Ha.
  unfold OEM_1S_GET_GPIO. rewrite Hlen. cbn [Z.eqb negb].
  set (n := u8 _). assert (Hn : n = if gpio_ind_to_num_table_cnt <? 248
    then 8 * (gpio_ind_to_num_table_cnt / 8 + 1) else 0).
  { unfold n, u8. change (2 ^ 8) with 256. destruct (Z.ltb_spec gpio_ind_to_num_table_cnt 248);
      Z.div_mod_to_equations; lia. }
  assert (Hn8 : 0 <= n < 256) by apply u8_range. clearbody n.
  assert (Hdiv : n mod 8 = 0 /\ n / 8 = (if gpio_ind_to_num_table_cnt <? 248
    then gpio_ind_to_num_table_cnt / 8 + 1 else 0)).
  { rewrite Hn. destruct (gpio_ind_to_num_table_cnt <? 248); Z.div_mod_to_equations; lia. }
  apply wp_bind. eapply (wp_st_for (fun i st w' => w' = w /\ answers m st.2 /\
    m_data_len st.2 = n / 8 /\ pins_done i st.1 (m_data st.2))).
  - split; [done|]. split; [|split; [done|]].
    + apply answers_len; [done|]. change IPMI_MSG_MAX_LENGTH with 527. Z.div_mod_to_equations. lia.
    + split; [intros k Hk; change (0 / 8) with 0 in Hk; lia|by intros []].
  - intros i [v m1] w1 Hi (-> & Ha1 & Hl1 & Hp1). cbn [fst snd] in *.
    eapply (get_gpio_pin_run m w); [done|lia|]. cbn [fst snd]. intros x e b Hx Hb Had.
    assert (Hxe : x = b2z (pin_bit i) /\ e = w_ext w).
    { unfold pin_bit. destruct (Z.geb_spec i gpio_ind_to_num_table_cnt).
      - rewrite lookup_ge_None_2 by lia. by destruct Hx as [-> ->].
      - destruct Hx as (p & r & -> & Hr & ->). rewrite Hlvl in Hr. injection Hr as <- <-.
        by destruct (level p). }
    destruct Hxe as [Hx' ->]. split; [by destruct w|]. split; [done|]. split; [done|].
    eapply pins_done_step; [lia| |done|exact Hx'|exact Hb].
    pose proof (wf_length _ (an_wf _ _ Ha1)) as H527. change IPMI_MSG_MAX_LENGTH with 527 in H527. lia.
  - intros [v m1] w1 (-> & Ha1 & Hl1 & [Hp1 _]). apply wp_ret. cbn [fst snd] in *.
    replace (0 + Z.of_nat (Z.to_nat n)) with n in Hp1 by lia. destruct Hdiv as [_ Hdiv].
    split; [done|]. split; [done|]. split; [by apply answers_cc|]. split; [cbn; congruence|].
    cbn [m_data_len with_cc with_completion_code]. rewrite Hl1. intros k Hk.
    destruct (Hp1 k Hk) as (b & Hb & Hpins). exists b. split; [|done].
    unfold payload. cbn. rewrite Hl1. by rewrite lookup_take_lt by lia.
Qed.
End Snapshot.

(** * A concrete board *)

(** Sixteen pins whose levels are the bits of the clock; the platform names
    three of them; pin 9 is not initialised. *)
#[export] Program Instance sim_board : BoardSvc sim := {|
  gpio_ind_to_num_table := [5; 9; 2];
  gpio_ind_to_num_table_cnt := 3;
  TOTAL_GPIO_NUM := 16;
  GPIO_INPUT := 0;
  GPIO_OUTPUT := 1;
  gpio_is_init := fun p _ => negb (p =? 9);
  gpio_get := fun p s => (b2z (Z.testbit (s_clock s) p), s);
  gpio_set := fun p v s =>
    sim_clock_set (if z2b v then Z.setbit (s_clock s) p else Z.clearbit (s_clock s) p) s;
  gpio_get_direction := fun _ s => (0, s);
  gpio_conf := fun _ _ s => s;
  vw_gpio_get := fun _ t s => ((true, t), s);
  vw_gpio_set := fun _ _ s => (true, s);
  pal_submit_bmc_cold_reset := fun s => (0, s);
  submit_bic_warm_reset := fun s => s;
  set_wdt_continue_feed := fun _ s => s;
  i2c_scan := fun _ d s => ((d, 0), s);
  SUCCESS_12V_CYCLE_SLOT := 0;
  NOT_SUPPORT_12V_CYCLE_SLOT := 1;
  SLOT_OFF_FAILED := 2;
  SLOT_ON_FAILED := 3;
  pal_submit_12v_cycle_slot := fun m s => ((0, m), s);
  pal_get_fan_duty := fun _ d _ s => ((0, d), s);
  pal_get_fan_rpm := fun _ d s => ((0, d), s);
  pal_clear_cmos := fun s => (0, s);
  pal_set_pmic_error_flag := fun _ _ s => (0, s);
  pal_get_set_add_debug_sel_mode_status := fun _ x s => ((0, x), s);
|}.
Next Obligation. done. Qed.
Next Obligation. done. Qed.
Next Obligation. by apply bytes_check. Qed.
Next Obligation. by intros n t e r t' e' [= _ <- _]. Qed.
Next Obligation. by intros b d e d' n e' [= <- <- _]. Qed.
Next Obligation. intros m e r m' e' [= _ <- _]. apply answers_refl. Qed.
Next Obligation. by intros i s d e r d' e' [= _ <- _]. Qed.
Next Obligation. by intros i d e r d' e' [= _ <- _]. Qed.
Next Obligation. by intros o s e r s' e' [= _ <- _]. Qed.

(** Pin 2, the third of the table, is set; then it reads 1. *)
Lemma gpio_command_spec_witness :
  wp (OEM_1S_GET_SET_GPIO (data_msg [SET_GPIO_OUTPUT_STATUS; 2; 1])) (fun m' w' =>
    payload m' = [2; 1] /\ s_clock (w_ext w') = 4) (sim_world sim0).
Proof.
  eapply wp_mono; [apply (gpio_command_spec _ (sim_world sim0) SET_GPIO_OUTPUT_STATUS 2 [1] [] 2)|].
  - by apply wf_data_msg; [apply bytes_check|cbn; lia].
  - constructor.
  - cbn. lia.
  - reflexivity.
  - reflexivity.
  - reflexivity.
  - by intros m' w' [_ (-> & Hp & _)].
Defined.

Lemma gpio_index_unchecked_witness :
  OEM_1S_GET_SET_GPIO (data_msg [GET_GPIO_STATUS; 3]) (sim_world sim0) = UB.
Proof.
  apply (gpio_index_unchecked (data_msg [GET_GPIO_STATUS; 3]) (sim_world sim0) GET_GPIO_STATUS 3 []).
  - by apply wf_data_msg; [apply bytes_check|cbn; lia].
  - constructor.
  - reflexivity.
  - reflexivity.
  - by vm_compute.
Defined.

(** Pins 0, 3, 5 are high: of 5, 9, 2 only the first is. *)
Lemma gpio_snapshot_witness :
  wp (OEM_1S_GET_GPIO (data_msg [])) (fun m' w' => m_data_len m' = 1 /\
    exists b, payload m' !! 0%nat = Some b /\ Z.testbit b 0 = true /\ Z.testbit b 1 = false)
    (sim_world (sim_clock_set 0x29 sim0)).
Proof.
  eapply wp_mono; [apply (gpio_snapshot (fun p => Z.testbit 0x29 p) (data_msg [])
    (sim_world (sim_clock_set 0x29 sim0)))|].
  - by apply wf_data_msg; [apply bytes_check|cbn; lia].
  - reflexivity.
  - done.
  - done.
  - intros m' w' (_ & _ & _ & Hl & Hbits). change (m_data_len m' = 1) in Hl. split; [done|].
    destruct (Hbits 0) as (b & Hb & Hp); [lia|]. exists b. split; [done|].
    by rewrite !Hp by lia.
Defined.
