(* ===== verification/Oem1sFlash.v ===== *)
(** The commands of [ipmi/oem_1s_handler.c] that move memory: firmware update
    and read back, digests, BIC registers, POST codes, PECI and JTAG.  The
    flash, snoop, PECI and JTAG modules are the class [FlashSvc].  Arrays of
    length zero are those of GNU C. *)

From S2P Require Import Prelude IpmiDefs LibUtil World HandlerLib AppHandler.

(** * Targets *)

Definition IS_SECTOR_END_MASK : Z := 0x80.
Definition BIOS_UPDATE : Z := 0.
Definition CPLD_UPDATE : Z := 1.
Definition BIC_UPDATE : Z := 2.
Definition CXL_UPDATE : Z := 3.
Definition PRoT_FLASH_UPDATE : Z := 4.

Definition BIOS_UPDATE_MAX_OFFSET : Z := 0x4000000.
Definition BIC_UPDATE_MAX_OFFSET : Z := 0x50000.
Definition FOUR_BYTE_POST_CODE_PAGE_SIZE : Z := 60.
Definition SBMR_POST_CODE_PAGE_SIZE : Z := 26.

(** Which module keeps the four-byte POST codes: a build option. *)
Inductive post_code_build : Set := PCC_ASPEED | MPRO | SBMR | NO_POST_CODE.

(** [read_fw_image], [get_fw_sha256] and the copy functions are given the data
    they write into and return it.  [mem_read] and the register functions are
    the accesses to an address; [is_registers a n] says that the [n] bytes at
    [a] are device registers, the addresses where an access is defined and
    leaves the memory of the program alone.  [BIT_MASK] is the macro of Zephyr,
    whose shift is undefined for some arguments. *)
Class FlashSvc (E : Type) : Type := {
  GPIO_LOW : Z;
  GPIO_HIGH : Z;
  pal_get_bios_flash_position : E -> Z * E;
  pal_get_prot_flash_position : E -> Z * E;
  pal_switch_bios_spi_mux : Z -> E -> bool * E;
  DEVSPI_FMC_CS0 : Z;
  FWUPDATE_SUCCESS : Z;
  FWUPDATE_OUT_OF_HEAP : Z;
  FWUPDATE_OVER_LENGTH : Z;
  FWUPDATE_REPEATED_UPDATED : Z;
  FWUPDATE_UPDATE_FAIL : Z;
  FWUPDATE_ERROR_OFFSET : Z;
  FWUPDATE_NOT_SUPPORT : Z;
  fw_update : Z -> Z -> list Z -> Z -> Z -> E -> Z * E;
  cpld_altera_max10_fw_update : Z -> Z -> list Z -> E -> Z * E;
  fw_update_cxl : Z -> Z -> list Z -> Z -> E -> Z * E;
  read_fw_image : Z -> Z -> list Z -> Z -> E -> (Z * list Z) * E;
  SHA256_DIGEST_SIZE : Z;
  get_fw_sha256 : list Z -> Z -> Z -> Z -> E -> (Z * list Z) * E;
  is_registers : Z -> Z -> bool;
  mem_read : Z -> Z -> E -> list Z * E;
  reg32_read : Z -> E -> Z * E;
  reg32_write : Z -> Z -> E -> E;
  BIT_MASK : Z -> res Z;
  SNOOP_MAX_LEN : Z;
  ENABLE_PLDM : bool;
  COPY_SPECIFIC_POSTCODE : Z;
  snoop_read_num : E -> Z;
  copy_snoop_read_buffer : Z -> Z -> list Z -> Z -> E -> list Z * E;
  post_codes : post_code_build;
  copy_pcc_read_buffer : Z -> Z -> list Z -> Z -> E -> (Z * list Z) * E;
  copy_mpro_read_buffer : Z -> Z -> list Z -> Z -> E -> (Z * list Z) * E;
  copy_sbmr_read_buffer : Z -> Z -> list Z -> Z -> E -> (Z * list Z) * E;
  PECI_GET_DIB_CMD : Z;
  PECI_GET_TEMP0_CMD : Z;
  peci_ping : Z -> E -> Z * E;
  peci_write : Z -> Z -> Z -> list Z -> Z -> list Z -> E -> (Z * list Z) * E;
  jtag_set_tap : Z -> Z -> E -> E;
  jtag_shift_data : Z -> list Z -> Z -> list Z -> Z -> E -> list Z * E;
  enable_PRDY_interrupt : E -> E;
  disable_PRDY_interrupt : E -> E;
}.

(** The documented behaviour of these functions: they stay inside the buffers
    they are given, values have their type, the snoop buffer is a byte array
    that fits a message.  [BIT_MASK(n)] is [(1UL << (n)) - 1UL]: the [n] low
    bits of a 32-bit long, undefined from a shift by 32 on. *)
Definition keeps_buffer (d d' : list Z) : Prop := bytes d -> length d' = length d /\ bytes d'.

Record flash_laws {E} `{FlashSvc E} : Prop := {
  fl_read : forall o n d p e r d' e', read_fw_image o n d p e = (r, d', e') -> keeps_buffer d d';
  fl_sha : forall d o n p e r d' e', get_fw_sha256 d o n p e = (r, d', e') -> keeps_buffer d d';
  fl_sha_size : 0 <= SHA256_DIGEST_SIZE <= IPMI_MSG_MAX_LENGTH;
  fl_mem : forall a n e d e', mem_read a n e = (d, e') -> 0 <= n ->
    Z.of_nat (length d) = n /\ bytes d;
  fl_reg : forall a e v e', reg32_read a e = (v, e') -> is_u32 v;
  fl_mask : forall n, 0 <= n -> BIT_MASK n = if n <? 32 then Ret (2 ^ n - 1) else UB;
  fl_snoop_len : 1 <= SNOOP_MAX_LEN <= IPMI_MSG_MAX_LENGTH;
  fl_snoop_num : forall e, 0 <= snoop_read_num e;
  fl_snoop : forall o n d f e d' e', copy_snoop_read_buffer o n d f e = (d', e') ->
    keeps_buffer d d';
  fl_pcc : forall o n d k e r d' e', copy_pcc_read_buffer o n d k e = (r, d', e') -> keeps_buffer d d';
  fl_mpro : forall o n d k e r d' e', copy_mpro_read_buffer o n d k e = (r, d', e') -> keeps_buffer d d';
  fl_sbmr : forall o n d k e r d' e', copy_sbmr_read_buffer o n d k e = (r, d', e') -> keeps_buffer d d';
  fl_peci : forall c a n r k wb e x r' e', peci_write c a n r k wb e = (x, r', e') -> keeps_buffer r r';
  fl_jtag : forall n s k r l e r' e', jtag_shift_data n s k r l e = (r', e') -> keeps_buffer r r';
}.
Arguments flash_laws E {_}.

Section Handlers.
Context {E : Type} `{Kernel E} `{FlashSvc E}.

(** * Firmware update *)

Definition is_target (target t : Z) : bool :=
  (target =? t) || (target =? Z.lor t IS_SECTOR_END_MASK).

Definition fw_update_cc (status : Z) : Z :=
  if status =? FWUPDATE_SUCCESS then CC_SUCCESS
  else if status =? FWUPDATE_OUT_OF_HEAP then CC_LENGTH_EXCEEDED
  else if status =? FWUPDATE_OVER_LENGTH then CC_OUT_OF_SPACE
  else if status =? FWUPDATE_REPEATED_UPDATED then CC_INVALID_DATA_FIELD
  else if status =? FWUPDATE_UPDATE_FAIL then CC_TIMEOUT
  else if status =? FWUPDATE_ERROR_OFFSET then CC_PARAM_OUT_OF_RANGE
  else if status =? FWUPDATE_NOT_SUPPORT then CC_INVALID_PARAM
  else CC_UNSPECIFIED_ERROR.

(** The code after the branches: the status as completion code, no data. *)
Definition fw_update_done (status : Z) (msg : ipmi_msg) : ST (world E) ipmi_msg :=
  ret (with_cc (fw_update_cc (u8 status)) (with_data_len 0 msg)).

(** The BIOS branch: the SPI bus belongs to the BIC only between the two
    switches. *)
Definition fw_update_bios (offset length_ target : Z) (buf : list Z) (msg : ipmi_msg)
    : ST (world E) ipmi_msg :=
  if offset >? BIOS_UPDATE_MAX_OFFSET then ret (with_cc CC_PARAM_OUT_OF_RANGE msg)
  else
    let! pos := ext pal_get_bios_flash_position in
    if pos =? -1 then ret (with_cc CC_INVALID_PARAM msg)
    else
      let! ok := ext (pal_switch_bios_spi_mux GPIO_HIGH) in
      if negb ok then ret (with_cc CC_UNSPECIFIED_ERROR msg)
      else
        let! status := ext (fw_update offset length_ buf (Z.land target IS_SECTOR_END_MASK) pos) in
        let! ok := ext (pal_switch_bios_spi_mux GPIO_LOW) in
        if negb ok then ret (with_cc CC_UNSPECIFIED_ERROR msg)
        else fw_update_done status msg.

Definition OEM_1S_FW_UPDATE (msg : ipmi_msg) : ST (world E) ipmi_msg :=
  if m_data_len msg <? 8 then ret (with_cc CC_INVALID_LENGTH msg)
  else
    let! target := lift (get_data msg 0) in
    let! d4 := lift (get_data msg 4) in
    let! d3 := lift (get_data msg 3) in
    let! d2 := lift (get_data msg 2) in
    let! d1 := lift (get_data msg 1) in
    let! d6 := lift (get_data msg 6) in
    let! d5 := lift (get_data msg 5) in
    let offset := le32 d1 d2 d3 d4 in
    let length_ := le16 d5 d6 in
    if (length_ =? 0) || negb (length_ =? m_data_len msg - 7) then ret (with_cc CC_INVALID_LENGTH msg)
    else
      let! buf := lift (arr_slice (m_data msg) 7 length_) in
      let sector_end := Z.land target IS_SECTOR_END_MASK in
      if is_target target BIOS_UPDATE then fw_update_bios offset length_ target buf msg
      else if is_target target BIC_UPDATE then
        if offset >? BIC_UPDATE_MAX_OFFSET then ret (with_cc CC_PARAM_OUT_OF_RANGE msg)
        else
          let! status := ext (fw_update offset length_ buf sector_end DEVSPI_FMC_CS0) in
          fw_update_done status msg
      else if is_target target CPLD_UPDATE then
        let! status := ext (cpld_altera_max10_fw_update offset length_ buf) in
        fw_update_done status msg
      else if is_target target CXL_UPDATE then
        let! status := ext (fw_update_cxl offset length_ buf sector_end) in
        fw_update_done status msg
      else if is_target target PRoT_FLASH_UPDATE then
        if offset >? BIOS_UPDATE_MAX_OFFSET then ret (with_cc CC_PARAM_OUT_OF_RANGE msg)
        else
          let! pos := ext pal_get_prot_flash_position in
          if pos =? -1 then ret (with_cc CC_INVALID_PARAM msg)
          else
            let! status := ext (fw_update offset length_ buf sector_end pos) in
            fw_update_done status msg
      else ret (with_cc CC_INVALID_DATA_FIELD msg).

(** * Reading firmware back *)

(** [if (read_fw_image(...)) error else the image]. *)
Definition read_image (offset length_ pos : Z) (msg : ipmi_msg) : ST (world E) ipmi_msg :=
  let! (r, d) := ext (read_fw_image offset length_ (m_data msg) pos) in
  let msg := with_data d msg in
  if negb (r =? 0) then ret (with_cc CC_UNSPECIFIED_ERROR msg)
  else ret (with_cc CC_SUCCESS (with_data_len length_ msg)).

Definition OEM_1S_READ_FW_IMAGE (msg : ipmi_msg) : ST (world E) ipmi_msg :=
  if negb (m_data_len msg =? 6) then ret (with_cc CC_INVALID_LENGTH msg)
  else
    let! target := lift (get_data msg 0) in
    let! d4 := lift (get_data msg 4) in
    let! d3 := lift (get_data msg 3) in
    let! d2 := lift (get_data msg 2) in
    let! d1 := lift (get_data msg 1) in
    let offset := le32 d1 d2 d3 d4 in
    let! length_ := lift (get_data msg 5) in
    if target =? BIOS_UPDATE then
      let! ok := ext (pal_switch_bios_spi_mux GPIO_HIGH) in
      if negb ok then ret (with_cc CC_UNSPECIFIED_ERROR msg)
      else
        let! pos := ext pal_get_bios_flash_position in
        let! msg := (if pos =? -1 then ret (with_cc CC_INVALID_PARAM msg)
                     else read_image offset length_ pos msg) in
        let! ok := ext (pal_switch_bios_spi_mux GPIO_LOW) in
        if negb ok then ret (with_cc CC_UNSPECIFIED_ERROR msg) else ret msg
    else if target =? PRoT_FLASH_UPDATE then
      let! pos := ext pal_get_prot_flash_position in
      if pos =? -1 then ret (with_cc CC_INVALID_PARAM msg) else read_image offset length_ pos msg
    else ret (with_cc CC_INVALID_DATA_FIELD msg).

(** The digest is written over the request; its status is the completion code. *)
Definition sha256_done (status : Z) (d : list Z) (msg : ipmi_msg) : ST (world E) ipmi_msg :=
  ret (with_data_len SHA256_DIGEST_SIZE (with_cc (u8 status) (with_data d msg))).

Definition OEM_1S_GET_FW_SHA256 (msg : ipmi_msg) : ST (world E) ipmi_msg :=
  let! target := lift (get_data msg 0) in
  let! d1 := lift (get_data msg 1) in
  let! d2 := lift (get_data msg 2) in
  let! d3 := lift (get_data msg 3) in
  let! d4 := lift (get_data msg 4) in
  let! d5 := lift (get_data msg 5) in
  let! d6 := lift (get_data msg 6) in
  let! d7 := lift (get_data msg 7) in
  let! d8 := lift (get_data msg 8) in
  let offset := le32 d1 d2 d3 d4 in
  let length_ := le32 d5 d6 d7 d8 in
  if negb (m_data_len msg =? 9) then ret (with_cc CC_INVALID_LENGTH msg)
  else if target =? BIOS_UPDATE then
    let! pos := ext pal_get_bios_flash_position in
    if pos =? -1 then ret (with_cc CC_INVALID_PARAM msg)
    else
      let! ok := ext (pal_switch_bios_spi_mux GPIO_HIGH) in
      if negb ok then ret (with_cc CC_UNSPECIFIED_ERROR msg)
      else
        let! (status, d) := ext (get_fw_sha256 (m_data msg) offset length_ pos) in
        let! ok := ext (pal_switch_bios_spi_mux GPIO_LOW) in
        if negb ok then ret (with_cc CC_UNSPECIFIED_ERROR (with_data d msg))
        else sha256_done status d msg
  else if target =? PRoT_FLASH_UPDATE then
    let! pos := ext pal_get_prot_flash_position in
    if pos =? -1 then ret (with_cc CC_INVALID_PARAM msg)
    else
      let! (status, d) := ext (get_fw_sha256 (m_data msg) offset length_ pos) in
      sha256_done status d msg
  else ret (with_cc CC_UNSPECIFIED_ERROR msg).

(** * Registers *)

Definition OEM_1S_READ_BIC_REGISTER (msg : ipmi_msg) : ST (world E) ipmi_msg :=
  if negb (m_data_len msg =? 5) then ret (with_cc CC_INVALID_LENGTH msg)
  else
    let! d0 := lift (get_data msg 0) in
    let! d1 := lift (get_data msg 1) in
    let! d2 := lift (get_data msg 2) in
    let! d3 := lift (get_data msg 3) in
    let! read_len := lift (get_data msg 4) in
    let addr := le32 d0 d1 d2 d3 in
    if is_registers addr read_len then
      let! vs := ext (mem_read addr read_len) in
      let! msg := lift (blit_data 0 vs msg) in
      ret (with_cc CC_SUCCESS (with_data_len read_len msg))
    else undefined.

(** [for (i = 0; i < write_len; i++) reg_data |= msg->data[i + 5] << (i * 8)] *)
Definition or_bytes (msg : ipmi_msg) (write_len reg_data : Z) : res Z :=
  for_range 0 write_len (fun i reg_data =>
    rlet! b := get_data msg (i + 5) in
    Ret (u32 (Z.lor reg_data (Z.shiftl b (i * 8))))) reg_data.

Definition OEM_1S_WRITE_BIC_REGISTER (msg : ipmi_msg) : ST (world E) ipmi_msg :=
  let! d4 := lift (get_data msg 4) in
  if (d4 <? 1) || (d4 >? 4) || negb (m_data_len msg =? 5 + d4)
  then ret (with_cc CC_INVALID_LENGTH msg)
  else
    let! d0 := lift (get_data msg 0) in
    let! d1 := lift (get_data msg 1) in
    let! d2 := lift (get_data msg 2) in
    let! d3 := lift (get_data msg 3) in
    let addr := le32 d0 d1 d2 d3 in
    if negb (addr mod 4 =? 0) then ret (with_cc CC_INVALID_DATA_FIELD msg)
    else if negb (is_registers addr 4) then undefined
    else
      let write_len := d4 in
      let! reg_data := ext (reg32_read addr) in
      let! mask := lift (BIT_MASK (write_len * 8)) in
      let reg_data := u32 (Z.land reg_data (Z.lnot mask)) in
      let! reg_data := lift (or_bytes msg write_len reg_data) in
      do! ext_ (reg32_write addr reg_data) in
      ret (with_cc CC_SUCCESS (with_data_len 0 msg)).

(** * POST codes *)

Definition POST_CODE_BUF_SIZE : Z := if ENABLE_PLDM then 240 else SNOOP_MAX_LEN.

(** The first codes of the snoop buffer to copy and how many. *)
Definition post_code_window (num : Z) : Z * Z :=
  if num >? POST_CODE_BUF_SIZE then
    (u8 (if num >? SNOOP_MAX_LEN
         then Z.rem num SNOOP_MAX_LEN + SNOOP_MAX_LEN - POST_CODE_BUF_SIZE
         else Z.rem num SNOOP_MAX_LEN + num - POST_CODE_BUF_SIZE), POST_CODE_BUF_SIZE)
  else (0, num).

Definition reverse_codes (num : Z) (d : list Z) : res (list Z) :=
  for_range 0 (Z.quot num 2) (fun i d =>
    rlet! tmp := arr_get d i in
    rlet! other := arr_get d (num - i - 1) in
    rlet! d := arr_set d i other in
    arr_set d (num - i - 1) tmp) d.

Definition OEM_1S_GET_POST_CODE (msg : ipmi_msg) : ST (world E) ipmi_msg :=
  let! num := gets (fun w => snoop_read_num (w_ext w)) in
  if negb (m_data_len msg =? 0) then ret (with_cc CC_INVALID_LENGTH msg)
  else
    let! (postcode_num, msg) :=
      (if negb (num =? 0) then
         let '(offset, postcode_num) := post_code_window num in
         let! d := ext (copy_snoop_read_buffer offset postcode_num (m_data msg) COPY_SPECIFIC_POSTCODE) in
         ret (postcode_num, with_data d msg)
       else ret (num, msg)) in
    let! d := lift (reverse_codes postcode_num (m_data msg)) in
    let msg := with_data d msg in
    ret (with_cc CC_SUCCESS (with_data_len (u16 postcode_num) msg)).

Definition post_code_page
    (copy : Z -> Z -> list Z -> Z -> E -> (Z * list Z) * E) (page_size : Z) (msg : ipmi_msg)
    : ST (world E) ipmi_msg :=
  if negb (m_data_len msg =? 1) then ret (with_cc CC_INVALID_LENGTH msg)
  else
    let! page := lift (get_data msg 0) in
    if page >? 17 then ret (with_cc CC_INVALID_DATA_FIELD msg)
    else
      let start_idx := u16 (page * page_size) in
      let! (read_len, d) := ext (copy start_idx page_size (m_data msg) IPMI_MSG_MAX_LENGTH) in
      ret (with_cc CC_SUCCESS (with_data_len (Z.land (u16 read_len) 0xFF) (with_data d msg))).

Definition OEM_1S_GET_4BYTE_POST_CODE (msg : ipmi_msg) : ST (world E) ipmi_msg :=
  match post_codes with
  | PCC_ASPEED => post_code_page copy_pcc_read_buffer FOUR_BYTE_POST_CODE_PAGE_SIZE msg
  | MPRO => post_code_page copy_mpro_read_buffer FOUR_BYTE_POST_CODE_PAGE_SIZE msg
  | SBMR => post_code_page copy_sbmr_read_buffer SBMR_POST_CODE_PAGE_SIZE msg
  | NO_POST_CODE => ret (with_cc CC_INVALID_CMD (with_data_len 0 msg))
  end.

(** * PECI *)

(** The two buffers live only during the call. *)
Definition peci_transfer (addr writeLen readLen cmd : Z) (msg : ipmi_msg) : ST (world E) ipmi_msg :=
  let size := if (cmd =? PECI_GET_DIB_CMD) || (cmd =? PECI_GET_TEMP0_CMD) then readLen + 1
              else readLen in
  let! have_read := ext (malloc_buf size) in
  let! readBuf := gets (fun w => uninit_bytes size (w_ext w)) in
  let! have_write := ext (malloc_buf writeLen) in
  if negb have_read || negb have_write then ret (with_cc CC_OUT_OF_SPACE msg)
  else
    let! writeBuf := lift (arr_slice (m_data msg) 4 writeLen) in
    let! (r, readBuf) := ext (peci_write cmd addr readLen readBuf writeLen writeBuf) in
    if negb (r =? 0) then ret (with_cc CC_UNSPECIFIED_ERROR msg)
    else
      let! vs := lift (arr_slice readBuf 0 readLen) in
      let! msg := lift (blit_data 0 vs msg) in
      ret (with_cc CC_SUCCESS (with_data_len readLen msg)).

Definition OEM_1S_PECI_ACCESS (msg : ipmi_msg) : ST (world E) ipmi_msg :=
  if m_data_len msg <? 3 then ret (with_cc CC_INVALID_LENGTH msg)
  else
    let! addr := lift (get_data msg 0) in
    let! writeLen := lift (get_data msg 1) in
    let! readLen := lift (get_data msg 2) in
    let! cmd := lift (get_data msg 3) in
    if negb (m_data_len msg - 3 =? writeLen) && negb (m_data_len msg - 3 =? writeLen - 1)
    then ret (with_cc CC_INVALID_LENGTH msg)
    else if m_data_len msg =? 3 then
      if (writeLen =? 0) && (readLen =? 0) then
        let! r := ext (peci_ping addr) in
        let! msg := lift (set_data 0 (u8 r) msg) in
        ret (with_cc CC_SUCCESS (with_data_len 1 msg))
      else ret (with_cc CC_INVALID_LENGTH msg)
    else peci_transfer addr writeLen readLen cmd msg.

(** * JTAG *)

Definition OEM_1S_SET_JTAG_TAP_STA (msg : ipmi_msg) : ST (world E) ipmi_msg :=
  if negb (m_data_len msg =? 2) then ret (with_cc CC_INVALID_LENGTH msg)
  else
    let! tapbitlen := lift (get_data msg 0) in
    let! tapdata := lift (get_data msg 1) in
    do! ext_ (jtag_set_tap tapdata tapbitlen) in
    ret (with_cc CC_SUCCESS (with_data_len 0 msg)).

(** The bytes of a bit count. *)
Definition bits_to_bytes (n : Z) : Z := u16 (Z.shiftr (n + 7) 3).

Definition OEM_1S_JTAG_DATA_SHIFT (msg : ipmi_msg) : ST (world E) ipmi_msg :=
  let! d1 := lift (get_data msg 1) in
  let! d0 := lift (get_data msg 0) in
  let writebitlen := le16 d0 d1 in
  let databyte := bits_to_bytes writebitlen in
  let! r1 := lift (get_data msg (3 + databyte)) in
  let! r0 := lift (get_data msg (2 + databyte)) in
  let readbitlen := le16 r0 r1 in
  let readbyte := bits_to_bytes readbitlen in
  let! lastidx := lift (get_data msg (4 + databyte)) in
  if negb (m_data_len msg =? 5 + databyte) then ret (with_cc CC_INVALID_LENGTH msg)
  else
    let receivedata := replicate (Z.to_nat readbyte) 0 in
    let! shiftdata := lift (arr_slice (m_data msg) 2 databyte) in
    let! receivedata := ext (jtag_shift_data writebitlen shiftdata readbitlen receivedata lastidx) in
    let! msg := lift (blit_data 0 receivedata msg) in
    ret (with_cc CC_SUCCESS (with_data_len readbyte msg)).

Definition OEM_1S_ASD_INIT (msg : ipmi_msg) : ST (world E) ipmi_msg :=
  if negb (m_data_len msg =? 1) then ret (with_cc CC_INVALID_LENGTH msg)
  else
    let! d0 := lift (get_data msg 0) in
    if d0 =? 0x01 then
      do! ext_ enable_PRDY_interrupt in ret (with_cc CC_SUCCESS (with_data_len 0 msg))
    else if d0 =? 0xff then
      do! ext_ disable_PRDY_interrupt in ret (with_cc CC_SUCCESS (with_data_len 0 msg))
    else
      do! ext_ disable_PRDY_interrupt in ret (with_cc CC_INVALID_DATA_FIELD msg).
End Handlers.

(** * Contracts *)

Section Contracts.
Context {E : Type} `{Kernel E} `{FlashSvc E}.
Context (FL : flash_laws E).
Implicit Types w : world E.

Lemma fw_update_cc_u8 s : is_u8 (fw_update_cc s).
Proof. unfold fw_update_cc. repeat case_match; done. Qed.

Lemma fw_update_done_run m0 m s w0 w :
  answers m0 m -> ipmb_frame w0 w -> is_u8 (w_bmc_enables w) ->
  wp (fw_update_done s m) (fun m' w' => answers m0 m' /\ ipmb_frame w0 w' /\
    is_u8 (w_bmc_enables w')) w.
Proof.
  intros Ha Hf He. apply wp_ret. split; [|done]. apply answers_cc; [|apply fw_update_cc_u8].
  by apply answers_len.
Qed.

(** A function that only writes into the data it is given. *)
Lemma keeps_data m0 m d : answers m0 m -> keeps_buffer (m_data m) d -> answers m0 (with_data d m).
Proof.
  intros Ha Hd. pose proof (an_wf _ _ Ha) as Hm. destruct (Hd (wf_bytes _ Hm)) as [Hl Hb].
  apply answers_data; [done| |done]. rewrite Hl. apply (wf_length _ Hm).
Qed.

Ltac flash := contract; try (apply fw_update_done_run; [answers_side|done|done]).

#[export] Instance FW_UPDATE_Handler : Handler OEM_1S_FW_UPDATE.
Proof.
  handler_start. unfold OEM_1S_FW_UPDATE, fw_update_bios. handler_step; [contract|].
  do 14 handler_step. handler_step; [contract|]. apply orb_false_iff in Heqb0 as [_ Heqb0].
  apply negb_false_iff, Z.eqb_eq in Heqb0.
  pose proof (wf_length _ Hm) as H527. zify_bool.
  apply wp_bind, wp_slice; [apply Hm|lia|lia|lia|]. intros vs _ _ _.
  flash.
Qed.

Lemma read_image_run m0 m off n pos w (Q : ipmi_msg -> world E -> Prop) :
  answers m0 m -> is_u8 n ->
  (forall m' e, answers m0 m' -> Q m' (w_set_ext e w)) -> wp (read_image off n pos m) Q w.
Proof.
  intros Ha Hn HQ. unfold read_image. apply wp_bind, wp_ext. intros [r d] e Hr.
  assert (Hd : answers m0 (with_data d m)) by (by eapply keeps_data, fl_read).
  contract; apply HQ; [answers_side|]. apply answers_cc; [|done]. apply answers_len; [done|].
  unfold is_u8 in Hn. arith_side.
Qed.

#[export] Instance READ_FW_Handler : Handler OEM_1S_READ_FW_IMAGE.
Proof.
  handler_start. unfold OEM_1S_READ_FW_IMAGE. contract.
  all: apply (read_image_run m); [done..|]; intros m' e' Ha'; contract.
Qed.

Lemma sha256_done_run m0 m d s w0 w :
  answers m0 (with_data d m) -> ipmb_frame w0 w -> is_u8 (w_bmc_enables w) ->
  wp (sha256_done s d m) (fun m' w' => answers m0 m' /\ ipmb_frame w0 w' /\
    is_u8 (w_bmc_enables w')) w.
Proof.
  intros Ha Hf He. apply wp_ret. split; [|done]. apply answers_len; [|apply (fl_sha_size FL)].
  apply answers_cc; [done|apply u8_range].
Qed.

#[export] Instance SHA256_Handler : Handler OEM_1S_GET_FW_SHA256.
Proof.
  handler_start. unfold OEM_1S_GET_FW_SHA256. do 18 handler_step. handler_step; [contract|].
  assert (Hsha : forall o n p w1 r d e', get_fw_sha256 (m_data m) o n p (w_ext w1) = (r, d, e') ->
    answers m (with_data d m)) by (intros; by eapply keeps_data, fl_sha).
  contract.
  all: try (apply sha256_done_run; [by eapply Hsha|done|done]).
  split; [|done]. apply answers_cc; [|done]. by eapply Hsha.
Qed.

(** The requests whose accesses are defined: to registers, and a write of
    less than four bytes. *)
Definition register_address (m : ipmi_msg) : Z :=
  le32 (m_data m !!! 0%nat) (m_data m !!! 1%nat) (m_data m !!! 2%nat) (m_data m !!! 3%nat).
Definition read_defined (m : ipmi_msg) : bool :=
  negb (m_data_len m =? 5) || is_registers (register_address m) (m_data m !!! 4%nat).
Definition write_defined (m : ipmi_msg) : bool :=
  let n := m_data m !!! 4%nat in
  (n <? 1) || (n >? 4) || negb (m_data_len m =? 5 + n) || negb (register_address m mod 4 =? 0) ||
  is_registers (register_address m) 4 && (n <? 4).

Lemma get_data_total m j i : wf_msg m -> j = Z.of_nat i -> (i <? 527)%nat = true ->
  get_data m j = Ret (m_data m !!! i) /\ is_u8 (m_data m !!! i).
Proof.
  intros Hm -> Hi%Nat.ltb_lt. pose proof (wf_length _ Hm) as H527. change IPMI_MSG_MAX_LENGTH with 527 in H527.
  assert (Hl : m_data m !! i = Some (m_data m !!! i)) by (apply list_lookup_lookup_total_lt; lia).
  split; [apply get_data_at; [lia|by rewrite Nat2Z.id]|].
  by apply (bytes_lookup (m_data m) i); [apply Hm|].
Qed.

Lemma READ_REGISTER_run m w :
  wf_msg m -> m_data_len m <= IPMI_MSG_MAX_LENGTH -> is_u8 (w_bmc_enables w) -> read_defined m = true ->
  wp (OEM_1S_READ_BIC_REGISTER m) (fun m' w' => answers m m' /\ ipmb_frame w w' /\ is_u8 (w_bmc_enables w')) w.
Proof.
  intros Hm Hl He Hok. pose proof (answers_refl m Hm Hl) as Ha. pose proof (wf_length _ Hm) as H527.
  unfold OEM_1S_READ_BIC_REGISTER, read_defined in *.
  destruct (m_data_len m =? 5); cbn [negb orb] in *; [|contract].
  destruct (get_data_total m 0 0 Hm eq_refl eq_refl) as [-> _], (get_data_total m 1 1 Hm eq_refl eq_refl) as [-> _],
    (get_data_total m 2 2 Hm eq_refl eq_refl) as [-> _], (get_data_total m 3 3 Hm eq_refl eq_refl) as [-> _],
    (get_data_total m 4 4 Hm eq_refl eq_refl) as [-> Hu].
  do 5 (apply wp_bind, wp_lift; cbn [rwp]). fold (register_address m). rewrite Hok.
  set (x := m_data m !!! 4%nat) in *. apply wp_bind, wp_ext. intros vs e Hv.
  destruct (fl_mem FL _ _ _ _ _ Hv) as [Hvl Hvb]; [by unfold is_u8 in *; lia|].
  unfold is_u8 in *. contract.
Qed.

Lemma or_bytes_run m n v :
  wf_msg m -> 0 <= n <= 4 -> exists v', or_bytes m n v = Ret v'.
Proof.
  intros Hm Hn. destruct (rwp_inv (or_bytes m n v) (fun _ => True)) as (v' & Hv' & _); [|by exists v'].
  apply (rwp_for_range (fun _ _ => True)); [lia|done| |done].
  intros j s Hj _. destruct (get_data_run m (j + 5) Hm) as (b & Hb & _);
    [change IPMI_MSG_MAX_LENGTH with 527; lia|]. by rewrite Hb.
Qed.

Lemma WRITE_REGISTER_run m w :
  wf_msg m -> m_data_len m <= IPMI_MSG_MAX_LENGTH -> is_u8 (w_bmc_enables w) -> write_defined m = true ->
  wp (OEM_1S_WRITE_BIC_REGISTER m) (fun m' w' => answers m m' /\ ipmb_frame w w' /\ is_u8 (w_bmc_enables w')) w.
Proof.
  intros Hm Hl He Hok. pose proof (answers_refl m Hm Hl) as Ha.
  unfold OEM_1S_WRITE_BIC_REGISTER, write_defined in *.
  destruct (get_data_total m 0 0 Hm eq_refl eq_refl) as [-> _], (get_data_total m 1 1 Hm eq_refl eq_refl) as [-> _],
    (get_data_total m 2 2 Hm eq_refl eq_refl) as [-> _], (get_data_total m 3 3 Hm eq_refl eq_refl) as [-> _],
    (get_data_total m 4 4 Hm eq_refl eq_refl) as [-> Hu].
  set (x := m_data m !!! 4%nat) in *. apply wp_bind, wp_lift. cbn [rwp].
  destruct (_ || negb (m_data_len m =? _)) eqn:Hlen; cbn [orb] in Hok; [contract|].
  do 4 (apply wp_bind, wp_lift; cbn [rwp]). fold (register_address m).
  destruct (register_address m mod 4 =? 0); cbn [negb orb] in *; [|contract].
  apply andb_true_iff in Hok as [-> Hx%Z.ltb_lt]. cbn [negb]. apply wp_bind, wp_ext. intros reg e Hr.
  apply wp_bind, wp_lift. unfold is_u8 in Hu. rewrite (fl_mask FL) by lia. replace (x * 8 <? 32) with true
    by (symmetry; apply Z.ltb_lt; lia). cbn [rwp].
  destruct (or_bytes_run m x (u32 (Z.land reg (Z.lnot (2 ^ (x * 8) - 1))))) as [v Hv];
    [done|lia|]. apply wp_bind, wp_lift. rewrite Hv. contract.
Qed.

(** * POST codes *)

Lemma reverse_codes_run n d :
  0 <= n <= Z.of_nat (length d) ->
  reverse_codes n d = Ret (reverse (take (Z.to_nat n) d) ++ drop (Z.to_nat n) d).
Proof.
  intros Hn. destruct (rwp_inv _ _ (reverse_array_run d n Hn)) as (a & Ha & <-).
  rewrite <- Ha. unfold reverse_codes, reverse_array. rewrite Z.quot_div_nonneg by lia.
  unfold for_range. apply rfor_ext. intros i l. by replace (n - i - 1) with (n - 1 - i) by lia.
Qed.

Lemma post_code_window_le num : 0 <= num -> 0 <= (post_code_window num).2 <= IPMI_MSG_MAX_LENGTH.
Proof.
  intros Hn. pose proof (fl_snoop_len FL) as Hs. unfold post_code_window, POST_CODE_BUF_SIZE.
  change IPMI_MSG_MAX_LENGTH with 527 in *.
  destruct ENABLE_PLDM; case_match; cbn; zify_bool; lia.
Qed.

#[export] Instance POST_CODE_Handler : Handler OEM_1S_GET_POST_CODE.
Proof.
  handler_start. unfold OEM_1S_GET_POST_CODE. apply wp_bind, wp_gets. handler_step; [contract|].
  pose proof (fl_snoop_num FL (w_ext w)) as Hnum.
  pose proof (post_code_window_le _ Hnum) as Hwin.
  assert (Hrest : forall n m1 w1, answers m m1 -> 0 <= n <= IPMI_MSG_MAX_LENGTH -> ipmb_frame w w1 ->
    is_u8 (w_bmc_enables w1) ->
    wp (let! d := lift (reverse_codes n (m_data m1)) in
        ret (with_cc CC_SUCCESS (with_data_len (u16 n) (with_data d m1))))
      (fun m' w' => answers m m' /\ ipmb_frame w w' /\ is_u8 (w_bmc_enables w')) w1).
  { intros n m1 w1 Ha1 Hn Hf1 He1. pose proof (an_wf _ _ Ha1) as Hm1.
    pose proof (wf_length _ Hm1) as H527. apply wp_bind, wp_lift.
    rewrite reverse_codes_run by lia. apply wp_ret. split; [|done].
    apply answers_cc; [|done]. apply answers_len.
    - apply answers_data; [done| |].
      + rewrite length_app, length_reverse, length_take, length_drop. lia.
      + apply bytes_app; [apply Forall_reverse, bytes_take|apply bytes_drop]; apply Hm1.
    - rewrite u16_small; [done|]. unfold is_u16. change IPMI_MSG_MAX_LENGTH with 527 in *. lia. }
  apply wp_bind. handler_step.
  - destruct (post_code_window _) as [off n]. apply wp_bind, wp_ext. intros d e Hd. apply wp_ret.
    apply Hrest; [|done..]. by eapply keeps_data, fl_snoop.
  - apply wp_ret. zify_bool. rewrite Heqb0. by apply Hrest.
Qed.

Lemma post_code_page_Handler (copy : Z -> Z -> list Z -> Z -> E -> (Z * list Z) * E) size :
  (forall o n d k e r d' e', copy o n d k e = (r, d', e') -> keeps_buffer d d') ->
  Handler (E := E) (post_code_page copy size).
Proof.
  intros Hk. handler_start. unfold post_code_page. handler_step; [contract|]. do 2 handler_step.
  handler_step; [contract|]. apply wp_bind, wp_ext. intros [r d] e Hd. apply wp_ret.
  split; [|done]. apply answers_cc; [|done]. apply answers_len; [by eapply keeps_data, Hk|].
  pose proof (low_byte (u16 r)) as Hb. unfold is_u8 in Hb. change IPMI_MSG_MAX_LENGTH with 527.
  destruct (u16_range r). lia.
Qed.

#[export] Instance POST_CODE4_Handler : Handler OEM_1S_GET_4BYTE_POST_CODE.
Proof.
  unfold OEM_1S_GET_4BYTE_POST_CODE. destruct post_codes.
  - apply post_code_page_Handler, (fl_pcc FL).
  - apply post_code_page_Handler, (fl_mpro FL).
  - apply post_code_page_Handler, (fl_sbmr FL).
  - by apply handler_empty.
Qed.

(** * PECI and JTAG *)

#[export] Instance PECI_Handler : Handler OEM_1S_PECI_ACCESS.
Proof.
  handler_start. unfold OEM_1S_PECI_ACCESS. handler_step; [contract|]. do 8 handler_step.
  handler_step; [contract|]. handler_step; [contract|]. unfold peci_transfer.
  set (size := if (x2 =? PECI_GET_DIB_CMD) || (x2 =? PECI_GET_TEMP0_CMD) then x1 + 1 else x1).
  assert (Hsize : x1 <= size) by (unfold size; case_match; lia).
  apply wp_bind, wp_ext. intros okr e1 _. apply wp_bind, wp_gets, wp_bind, wp_ext. intros okw e2 _.
  handler_step; [contract|]. unfold is_u8 in *. pose proof (wf_length _ Hm) as H527.
  change IPMI_MSG_MAX_LENGTH with 527 in *. apply wp_bind, wp_slice; [apply Hm|lia|lia|lia|].
  intros wb _ _ _. apply wp_bind, wp_ext. intros [r rb] e3 Hp.
  destruct (fl_peci FL _ _ _ _ _ _ _ _ _ _ Hp) as [Hrl Hrb]; [apply uninit_bytes_bytes|].
  handler_step; [contract|].
  pose proof (uninit_bytes_length size (w_ext (w_set_ext e1 w))) as Hul.
  apply wp_bind, wp_slice; [done|lia|lia|lia|]. intros vs _ Hvl Hvb. contract.
Qed.

#[export] Instance JTAG_TAP_Handler : Handler OEM_1S_SET_JTAG_TAP_STA.
Proof. handler_start. unfold OEM_1S_SET_JTAG_TAP_STA. contract. Qed.

#[export] Instance ASD_Handler : Handler OEM_1S_ASD_INIT.
Proof. handler_start. unfold OEM_1S_ASD_INIT. contract. Qed.
End Contracts.

(** * What the flash commands do *)

Section Flash.
Context {E : Type} `{FlashSvc E}.
Implicit Types w : world E.

(** The update functions of the targets that need no bus switch. *)
Definition direct_update (target : Z) : option (Z -> Z -> list Z -> Z -> E -> Z * E) :=
  if target =? BIC_UPDATE then Some (fun o n b s => fw_update o n b s DEVSPI_FMC_CS0)
  else if target =? CPLD_UPDATE then Some (fun o n b _ => cpld_altera_max10_fw_update o n b)
  else if target =? CXL_UPDATE then Some fw_update_cxl
  else None.

(** The request as the protocol describes it. *)
Definition update_payload (target : Z) (last : bool) (offset : Z) (image : list Z) : list Z :=
  (if last then Z.lor target IS_SECTOR_END_MASK else target) ::
  le_split 4 offset ++ le_split 2 (Z.of_nat (length image)) ++ image.

Lemma update_fields m target last offset image :
  wf_msg m -> m_data_len m <= IPMI_MSG_MAX_LENGTH ->
  payload m = update_payload target last offset image -> is_u32 offset ->
  m_data_len m = Z.of_nat (length image) + 7 /\ is_u16 (Z.of_nat (length image)) /\
  arr_slice (m_data m) 7 (Z.of_nat (length image)) = Ret image.
Proof.
  intros Hm Hl Hp Ho. pose proof (wf_length _ Hm) as H527. change IPMI_MSG_MAX_LENGTH with 527 in *.
  destruct (wf_data_len _ Hm) as [H0 _].
  assert (Hlen : m_data_len m = Z.of_nat (length image) + 7).
  { transitivity (Z.of_nat (length (payload m))).
    - unfold payload. rewrite length_take. lia.
    - rewrite Hp. unfold update_payload. cbn [length]. rewrite !length_app, !length_le_split. lia. }
  split; [done|]. split; [unfold is_u16; lia|].
  rewrite arr_slice_ok by lia. rewrite data_payload, Hp. unfold update_payload.
  rewrite Nat2Z.id. change (Z.to_nat 7) with 7%nat. cbn [le_split app]. rewrite !skipn_cons, drop_0.
  by rewrite take_app_length.
Qed.

(** A firmware update of the BIC, the CPLD or the CXL device passes
    exactly the offset, length, image and sector-end flag of the request to
    the module of its target, once, and answers with the completion code of
    its status. *)
Theorem fw_update_direct m w target last offset image upd :
  wf_msg m -> m_data_len m <= IPMI_MSG_MAX_LENGTH ->
  direct_update target = Some upd -> is_u32 offset -> image <> [] ->
  (target = BIC_UPDATE -> offset <= BIC_UPDATE_MAX_OFFSET) ->
  payload m = update_payload target last offset image ->
  OEM_1S_FW_UPDATE m w =
    let '(status, e) := upd offset (Z.of_nat (length image)) image (if last then 0x80 else 0) (w_ext w) in
    Ret (with_cc (fw_update_cc (u8 status)) (with_data_len 0 m), w_set_ext e w).
Proof.
  intros Hm Hl Hupd Ho Hne Hmax Hp.
  destruct (update_fields m target last offset image Hm Hl Hp Ho) as (Hlen & H16 & Hslice).
  assert (Hin : (1 <= length image)%nat) by (destruct image; [done|cbn; lia]).
  assert (Hget : forall i x, update_payload target last offset image !! Z.to_nat i = Some x ->
    0 <= i -> get_data m i = Ret x).
  { intros i x Hx Hi. apply get_data_at; [done|]. apply payload_lookup. by rewrite Hp. }
  assert (Hoff : le32 (u8 offset) (u8 (offset / 256)) (u8 (offset / 256 / 256))
    (u8 (offset / 256 / 256 / 256)) = offset).
  { rewrite le32_value by apply u8_range. by apply (le_value_split 4). }
  assert (Hlen16 : le16 (u8 (Z.of_nat (length image))) (u8 (Z.of_nat (length image) / 256)) =
    Z.of_nat (length image)).
  { rewrite le16_value by apply u8_range. by apply (le_value_split 2). }
  unfold OEM_1S_FW_UPDATE. rewrite (proj2 (Z.ltb_ge _ _)) by lia.
  unfold bind, lift. rewrite (Hget 0 _ eq_refl), (Hget 4 _ eq_refl), (Hget 3 _ eq_refl),
    (Hget 2 _ eq_refl), (Hget 1 _ eq_refl), (Hget 6 _ eq_refl), (Hget 5 _ eq_refl) by lia.
  cbn [rbind]. rewrite Hoff, Hlen16.
  rewrite (proj2 (Z.eqb_neq (Z.of_nat (length image)) 0)) by lia.
  rewrite (proj2 (Z.eqb_eq (Z.of_nat (length image)) (m_data_len m - 7))) by lia.
  cbn [orb negb]. rewrite Hslice. cbn [rbind].
  assert (Hend : target <= 3 -> 0 <= target ->
    Z.land (if last then Z.lor target IS_SECTOR_END_MASK else target) IS_SECTOR_END_MASK =
    if last then 0x80 else 0).
  { intros ??. assert (target = 0 \/ target = 1 \/ target = 2 \/ target = 3) as [->|[->|[->| ->]]] by lia;
      by destruct last. }
  unfold direct_update in Hupd.
  destruct (Z.eqb_spec target BIC_UPDATE) as [->|]; [|destruct (Z.eqb_spec target CPLD_UPDATE) as [->|];
    [|destruct (Z.eqb_spec target CXL_UPDATE) as [->|]; [|done]]]; injection Hupd as <-;
    rewrite Hend by done.
  - specialize (Hmax eq_refl). replace (offset >? BIC_UPDATE_MAX_OFFSET) with false
      by (symmetry; rewrite Z.gtb_ltb; apply Z.ltb_ge; lia).
    replace (is_target _ BIOS_UPDATE) with false by (by destruct last).
    replace (is_target _ BIC_UPDATE) with true by (by destruct last).
    unfold ext. by destruct (fw_update _ _ _ _ _ _) as [st e].
  - replace (is_target _ BIOS_UPDATE) with false by (by destruct last).
    replace (is_target _ BIC_UPDATE) with false by (by destruct last).
    replace (is_target _ CPLD_UPDATE) with true by (by destruct last).
    unfold ext. by destruct (cpld_altera_max10_fw_update _ _ _ _) as [st e].
  - replace (is_target _ BIOS_UPDATE) with false by (by destruct last).
    replace (is_target _ BIC_UPDATE) with false by (by destruct last).
    replace (is_target _ CPLD_UPDATE) with false by (by destruct last).
    replace (is_target _ CXL_UPDATE) with true by (by destruct last).
    unfold ext. by destruct (fw_update_cxl _ _ _ _ _) as [st e].
Qed.
End Flash.

(** * The BIOS flash bus *)

(** Who drives the SPI bus of the BIOS flash: only a successful switch changes
    it. *)
Record mux_laws {E} `{FlashSvc E} (owner : E -> Z) : Prop := {
  mx_switch : forall v e ok e', pal_switch_bios_spi_mux v e = (ok, e') ->
    owner e' = if ok then v else owner e;
  mx_bios : forall e p e', pal_get_bios_flash_position e = (p, e') -> owner e' = owner e;
  mx_prot : forall e p e', pal_get_prot_flash_position e = (p, e') -> owner e' = owner e;
  mx_update : forall o n b s p e r e', fw_update o n b s p e = (r, e') -> owner e' = owner e;
  mx_cpld : forall o n b e r e', cpld_altera_max10_fw_update o n b e = (r, e') -> owner e' = owner e;
  mx_cxl : forall o n b s e r e', fw_update_cxl o n b s e = (r, e') -> owner e' = owner e;
  mx_read : forall o n d p e r e', read_fw_image o n d p e = (r, e') -> owner e' = owner e;
  mx_sha : forall d o n p e r e', get_fw_sha256 d o n p e = (r, e') -> owner e' = owner e;
}.

Section Bus.
Context {E : Type} `{FlashSvc E}.
Variable owner : E -> Z.
Context (ML : mux_laws owner).
Implicit Types w : world E.

(** The host has the bus back, or the command has reported an error. *)
Definition bus_returned (m : ipmi_msg) w : Prop :=
  owner (w_ext w) = GPIO_LOW \/ m_completion_code m = CC_UNSPECIFIED_ERROR.

Ltac owner_facts :=
  repeat match goal with
  | X : pal_switch_bios_spi_mux _ _ = _ |- _ => apply (mx_switch _ ML) in X
  | X : pal_get_bios_flash_position _ = _ |- _ => apply (mx_bios _ ML) in X
  | X : pal_get_prot_flash_position _ = _ |- _ => apply (mx_prot _ ML) in X
  | X : fw_update _ _ _ _ _ _ = _ |- _ => apply (mx_update _ ML) in X
  | X : cpld_altera_max10_fw_update _ _ _ _ = _ |- _ => apply (mx_cpld _ ML) in X
  | X : fw_update_cxl _ _ _ _ _ = _ |- _ => apply (mx_cxl _ ML) in X
  | X : read_fw_image _ _ _ _ _ = _ |- _ => apply (mx_read _ ML) in X
  | X : get_fw_sha256 _ _ _ _ _ = _ |- _ => apply (mx_sha _ ML) in X
  | X : negb _ = true |- _ => apply negb_true_iff in X; subst
  | X : negb _ = false |- _ => apply negb_false_iff in X; subst
  end; cbn [w_ext w_set_ext] in *.
Ltac bus := repeat (handler_step; cbn beta iota);
  owner_facts; first [by right | left; cbn [w_ext w_set_ext]; congruence].

(** Whatever the request and whatever the flash modules answer, a
    firmware update, a read back and a digest leave the bus of the BIOS flash
    with the host, unless they report an error. *)
Theorem bios_bus_returned m w :
  wf_msg m -> m_data_len m <= IPMI_MSG_MAX_LENGTH -> owner (w_ext w) = GPIO_LOW ->
  wp (OEM_1S_FW_UPDATE m) bus_returned w /\ wp (OEM_1S_READ_FW_IMAGE m) bus_returned w /\
  wp (OEM_1S_GET_FW_SHA256 m) bus_returned w.
Proof.
  intros Hm Hl Hown. pose proof (answers_refl m Hm Hl) as Ha.
  split; [|split].
  - unfold OEM_1S_FW_UPDATE, fw_update_bios, fw_update_done. handler_step; [bus|].
    do 14 handler_step. handler_step; [bus|]. apply orb_false_iff in Heqb0 as [_ Heqb0].
    apply negb_false_iff, Z.eqb_eq in Heqb0. pose proof (wf_length _ Hm) as H527. zify_bool.
    apply wp_bind, wp_slice; [apply Hm|lia|lia|lia|]. intros vs _ _ _. bus.
  - unfold OEM_1S_READ_FW_IMAGE, read_image. bus.
  - unfold OEM_1S_GET_FW_SHA256, sha256_done. bus.
Qed.
End Bus.

(** * POST codes, registers, JTAG *)

Section Memory.
Context {E : Type} `{FlashSvc E}.
Context (FL : flash_laws E).
Implicit Types w : world E.

(** GET_POST_CODE answers with the codes the snoop module copies, the
    newest first: all of them, or as many as its buffer holds. *)
Theorem post_code_newest_first m w :
  wf_msg m -> m_data_len m = 0 ->
  wp (OEM_1S_GET_POST_CODE m) (fun m' w' =>
    let '(off, n) := post_code_window (snoop_read_num (w_ext w)) in
    m_completion_code m' = CC_SUCCESS /\ m_data_len m' = n /\
    n = Z.min (snoop_read_num (w_ext w)) POST_CODE_BUF_SIZE /\
    if snoop_read_num (w_ext w) =? 0 then w' = w
    else exists codes e, copy_snoop_read_buffer off n (m_data m) COPY_SPECIFIC_POSTCODE (w_ext w) = (codes, e) /\
      w' = w_set_ext e w /\ payload m' = reverse (take (Z.to_nat n) codes)) w.
Proof.
  intros Hm Hlen. pose proof (wf_length _ Hm) as H527. unfold OEM_1S_GET_POST_CODE.
  apply wp_bind, wp_gets. rewrite Hlen. cbn [Z.eqb negb]. set (num := snoop_read_num _).
  pose proof (fl_snoop_num FL (w_ext w) : 0 <= num) as Hnum.
  pose proof (post_code_window_le FL _ Hnum) as Hwin.
  assert (Hmin : (post_code_window num).2 = Z.min num POST_CODE_BUF_SIZE).
  { unfold post_code_window. case_match; cbn; zify_bool; lia. }
  assert (Hdone : forall d, Z.of_nat (length d) = IPMI_MSG_MAX_LENGTH ->
    forall n w1, n = (post_code_window num).2 ->
    wp (let! d' := lift (reverse_codes n d) in
        ret (with_cc CC_SUCCESS (with_data_len (u16 n) (with_data d' (with_data d m)))))
      (fun m' w' => w' = w1 /\ m_completion_code m' = CC_SUCCESS /\ m_data_len m' = n /\
         payload m' = reverse (take (Z.to_nat n) d)) w1).
  { intros d Hd n w1 ->. apply wp_bind, wp_lift. rewrite reverse_codes_run by lia. apply wp_ret.
    rewrite u16_small by (unfold is_u16; change IPMI_MSG_MAX_LENGTH with 527 in *; lia).
    split; [done|]. split; [done|]. split; [done|]. unfold payload. cbn.
    rewrite take_app_length'; [done|]. rewrite length_reverse, length_take. lia. }
  apply wp_bind. destruct (Z.eqb_spec num 0) as [H0|H0]; cbn [negb].
  - apply wp_ret. replace m with (with_data (m_data m) m) at 1 2 by (by destruct m).
    cbn [m_data with_data]. eapply wp_mono; [apply (Hdone (m_data m)); [done|]|].
    + rewrite H0. unfold post_code_window. case_match; [|done]. zify_bool.
      pose proof (fl_snoop_len FL). unfold POST_CODE_BUF_SIZE in *. destruct ENABLE_PLDM; lia.
    + intros m' w' (-> & Hcc & Hl & Hp). rewrite H0 in *.
      destruct (post_code_window 0) as [off n] eqn:Hw. cbn in Hmin, Hwin.
      assert (n = 0) as -> by (pose proof (fl_snoop_len FL);
        unfold POST_CODE_BUF_SIZE in *; destruct ENABLE_PLDM; lia).
      split; [done|]. split; [done|]. split; [lia|done].
  - destruct (post_code_window num) as [off n] eqn:Hw. cbn [snd] in *.
    apply wp_bind, wp_ext. intros d e Hd. apply wp_ret.
    destruct (fl_snoop FL _ _ _ _ _ _ _ Hd (wf_bytes _ Hm)) as [Hdl _].
    eapply wp_mono; [apply (Hdone d); [rewrite Hdl; done|done]|].
    intros m' w' (-> & Hcc & Hl & Hp). split; [done|]. split; [done|]. split; [done|].
    exists d, e. done.
Qed.
End Memory.

Section Registers.
Context {E : Type} `{FlashSvc E}.
Context (FL : flash_laws E).
Implicit Types w : world E.

(** Or-ing bytes into a word with that many zero bytes adds their value. *)
Lemma or_bytes_value m bs h :
  bytes bs -> (length bs <= 4)%nat -> 0 <= h -> h * 256 ^ Z.of_nat (length bs) + le_value bs < 2 ^ 32 ->
  (forall i x, bs !! i = Some x -> m_data m !! (5 + i)%nat = Some x) ->
  or_bytes m (Z.of_nat (length bs)) (h * 256 ^ Z.of_nat (length bs)) =
    Ret (h * 256 ^ Z.of_nat (length bs) + le_value bs).
Proof.
  intros Hb H4 Hh H32 Hd. set (n := Z.of_nat (length bs)) in *.
  destruct (rwp_inv (or_bytes m n (h * 256 ^ n)) (fun v => v = h * 256 ^ n + le_value bs))
    as (v & -> & ->); [|done].
  apply (rwp_for_range (fun i v => v = h * 256 ^ n + le_value (take (Z.to_nat i) bs))); [lia|change (Z.to_nat 0) with O; rewrite take_0; cbn [le_value]; lia| |].
  - intros i v Hi ->. assert (Hil : (Z.to_nat i < length bs)%nat) by lia.
    destruct (lookup_lt_is_Some_2 bs (Z.to_nat i) Hil) as [b Hbi].
    rewrite (get_data_at m (i + 5) b); [|lia|replace (Z.to_nat (i + 5)) with (5 + Z.to_nat i)%nat by lia; by apply Hd].
    cbn [rbind rwp]. pose proof (bytes_lookup _ _ _ Hb Hbi) as Hb8.
    assert (Hlt : length (take (Z.to_nat i) bs) = Z.to_nat i) by (rewrite length_take; lia).
    pose proof (le_value_range (take (Z.to_nat i) bs) (bytes_take _ _ Hb)) as Hr.
    rewrite Hlt, Z2Nat.id in Hr by lia.
    replace (Z.to_nat (i + 1)) with (S (Z.to_nat i)) by lia.
    rewrite (take_S_r _ _ b) by done. rewrite le_value_snoc, Hlt, Z2Nat.id by lia.
    assert (Hp : forall j, 0 <= j -> 256 ^ j = 2 ^ (j * 8))
      by (intros; change 256 with (2 ^ 8); rewrite <- Z.pow_mul_r by lia; f_equal; lia).
    assert (Hsplit : h * 256 ^ n = h * 256 ^ (n - i - 1) * 2 ^ (i * 8 + 8)).
    { replace (2 ^ (i * 8 + 8)) with (256 ^ (i + 1)) by (rewrite Hp by lia; f_equal; lia).
      rewrite <- Z.mul_assoc, <- Z.pow_add_r by lia. do 2 f_equal. lia. }
    rewrite Hp in Hr by lia. rewrite Hsplit at 1. rewrite lor_byte by (done || lia).
    rewrite <- Hsplit, (Hp i) by lia.
    assert (Hall : le_value (take (Z.to_nat i) bs) + 2 ^ (i * 8) * b <= le_value bs).
    { rewrite <- (take_drop (S (Z.to_nat i)) bs) at 2. rewrite (take_S_r _ _ b) by done.
      rewrite le_value_app, le_value_snoc, Hlt, Z2Nat.id, (Hp i) by lia.
      pose proof (le_value_range _ (bytes_drop (S (Z.to_nat i)) _ Hb)). nia. }
    assert (0 <= h * 256 ^ n) by (apply Z.mul_nonneg_nonneg; [lia|apply Z.pow_nonneg; lia]).
    rewrite u32_small; [lia|]. unfold is_u32, is_u8 in *.
    assert (0 <= 2 ^ (i * 8) * b) by (apply Z.mul_nonneg_nonneg; [apply Z.pow_nonneg; lia|lia]). lia.
  - intros v ->. unfold n. by rewrite Nat2Z.id, firstn_all.
Qed.

(** C40: WRITE_BIC_REGISTER of one to three bytes replaces exactly the low
    bytes of an aligned register and keeps the others; an address that is not
    a multiple of four is refused and nothing is accessed.  The four bytes that
    the length check admits shift by 32, and an aligned address is not checked
    otherwise: both are undefined. *)
Theorem write_register_spec m w addr bs :
  wf_msg m -> m_data_len m <= IPMI_MSG_MAX_LENGTH -> is_u32 addr -> (1 <= length bs <= 4)%nat ->
  payload m = le_split 4 addr ++ [Z.of_nat (length bs)] ++ bs ->
  OEM_1S_WRITE_BIC_REGISTER m w =
    if addr mod 4 =? 0 then
      if negb (is_registers addr 4 && (length bs <? 4)%nat) then UB else
      let '(old, e) := reg32_read addr (w_ext w) in
      let k := 256 ^ Z.of_nat (length bs) in
      Ret (with_cc CC_SUCCESS (with_data_len 0 m),
           w_set_ext (reg32_write addr (old / k * k + le_value bs) e) w)
    else Ret (with_cc CC_INVALID_DATA_FIELD m, w).
Proof.
  intros Hm Hl Ha Hbs Hp. pose proof (wf_length _ Hm) as H527.
  destruct (wf_data_len _ Hm) as [H0 _]. pose proof (wf_payload_bytes _ Hm) as Hpb. rewrite Hp in Hpb.
  apply Forall_app in Hpb as [_ Hpb]. apply Forall_app in Hpb as [_ Hpb].
  assert (Hlen : m_data_len m = 5 + Z.of_nat (length bs)).
  { transitivity (Z.of_nat (length (payload m))).
    - unfold payload. rewrite length_take. lia.
    - rewrite Hp, !length_app, length_le_split. cbn [length]. lia. }
  assert (Hget : forall i x, (le_split 4 addr ++ [Z.of_nat (length bs)] ++ bs) !! Z.to_nat i = Some x ->
    0 <= i -> get_data m i = Ret x).
  { intros i x Hx Hi. apply get_data_at; [done|]. apply payload_lookup. by rewrite Hp. }
  assert (Hoff : le32 (u8 addr) (u8 (addr / 256)) (u8 (addr / 256 / 256))
    (u8 (addr / 256 / 256 / 256)) = addr).
  { rewrite le32_value by apply u8_range. by apply (le_value_split 4). }
  unfold OEM_1S_WRITE_BIC_REGISTER, bind, lift. rewrite (Hget 4 _ eq_refl) by lia. cbn [rbind].
  replace (_ || _) with false by (symmetry; rewrite !orb_false_iff, negb_false_iff, Z.eqb_eq,
    Z.ltb_ge, Z.gtb_ltb, Z.ltb_ge; lia).
  rewrite (Hget 0 _ eq_refl), (Hget 1 _ eq_refl), (Hget 2 _ eq_refl), (Hget 3 _ eq_refl) by lia.
  cbn [rbind]. rewrite Hoff. destruct (addr mod 4 =? 0); cbn [negb]; [|done].
  destruct (is_registers addr 4); cbn [negb andb]; [|done].
  unfold ext. destruct (reg32_read addr (w_ext w)) as [old e] eqn:Hr. cbn [rbind].
  rewrite (fl_mask FL) by lia. destruct (Nat.ltb_spec (length bs) 4) as [H4|H4]; cbn [negb].
  2: { replace (_ <? 32) with false by (symmetry; apply Z.ltb_ge; lia). done. }
  replace (_ <? 32) with true by (symmetry; apply Z.ltb_lt; lia). cbn [rbind].
  apply (fl_reg FL) in Hr. unfold is_u32 in Hr. set (n := Z.of_nat (length bs)).
  assert (Hk : 256 ^ n = 2 ^ (n * 8)).
  { change 256 with (2 ^ 8). rewrite <- Z.pow_mul_r by lia. f_equal. lia. }
  assert (Hpos : 0 < 256 ^ n) by (apply Z.pow_pos_nonneg; lia).
  fold n. rewrite clear_low, <- Hk by lia.
  pose proof (le_value_range bs Hpb) as Hv. fold n in Hv.
  assert (Hdiv : old = 256 ^ n * (old / 256 ^ n) + old mod 256 ^ n) by (apply Z.div_mod; lia).
  assert (Hmod : 0 <= old mod 256 ^ n < 256 ^ n) by (apply Z.mod_pos_bound; lia).
  assert (Hq : 0 <= old / 256 ^ n) by (apply Z.div_pos; lia).
  assert (H32 : 2 ^ 32 = 256 ^ n * 256 ^ (4 - n)).
  { rewrite <- Z.pow_add_r by lia. replace (n + (4 - n)) with 4 by lia. done. }
  assert (Hqb : old / 256 ^ n < 256 ^ (4 - n)) by (apply Z.div_lt_upper_bound; lia).
  rewrite u32_small by (unfold is_u32; nia). unfold n. rewrite or_bytes_value; fold n.
  - done.
  - done.
  - lia.
  - done.
  - nia.
  - intros i x Hx. apply payload_lookup. rewrite Hp. exact Hx.
Qed.
End Registers.

Section Jtag.
Context {E : Type} `{FlashSvc E}.
Context (FL : flash_laws E).
Implicit Types w : world E.

Lemma bits_to_bytes_div n : is_u16 n -> bits_to_bytes n = (n + 7) / 8.
Proof.
  intros Hn. unfold bits_to_bytes, is_u16 in *. rewrite Z.shiftr_div_pow2 by lia.
  apply u16_small. unfold is_u16. change (2 ^ 3) with 8. Z.div_mod_to_equations. lia.
Qed.

Lemma le16_split n : is_u16 n -> le16 (u8 n) (u8 (n / 256)) = n.
Proof. intros Hn. rewrite le16_value by apply u8_range. by apply (le_value_split 2). Qed.

(** A JTAG request: the bits to write and their count, the number of bits to
    read, the last index. *)
Definition jtag_payload (writebits : Z) (wdata : list Z) (readbits last : Z) : list Z :=
  le_split 2 writebits ++ wdata ++ le_split 2 readbits ++ [last].

(** JTAG_DATA_SHIFT passes the bits of the request to the driver and
    answers with the bits it returns if they fit the message; a request for
    more bits than that makes the copy of the answer leave the message. *)
Theorem jtag_shift_spec m w writebits wdata readbits last :
  wf_msg m -> m_data_len m <= IPMI_MSG_MAX_LENGTH -> is_u16 writebits -> is_u16 readbits ->
  Z.of_nat (length wdata) = (writebits + 7) / 8 ->
  payload m = jtag_payload writebits wdata readbits last ->
  OEM_1S_JTAG_DATA_SHIFT m w =
    let n := (readbits + 7) / 8 in
    let '(rd, e) := jtag_shift_data writebits wdata readbits (replicate (Z.to_nat n) 0) last (w_ext w) in
    if n <=? IPMI_MSG_MAX_LENGTH
    then Ret (with_cc CC_SUCCESS (with_data_len n (with_data (overwrite 0 rd (m_data m)) m)), w_set_ext e w)
    else UB.
Proof.
  intros Hm Hl Hw Hr Hwl Hp. pose proof (wf_length _ Hm) as H527.
  destruct (wf_data_len _ Hm) as [H0 _]. set (db := (writebits + 7) / 8) in *.
  assert (Hlen : m_data_len m = 5 + db).
  { transitivity (Z.of_nat (length (payload m))).
    - unfold payload. rewrite length_take. lia.
    - rewrite Hp. unfold jtag_payload. rewrite !length_app, !length_le_split. cbn [length]. lia. }
  assert (Hget : forall i x, jtag_payload writebits wdata readbits last !! Z.to_nat i = Some x ->
    0 <= i -> get_data m i = Ret x).
  { intros i x Hx Hi. apply get_data_at; [done|]. apply payload_lookup. by rewrite Hp. }
  assert (Htail : forall k x, (le_split 2 readbits ++ [last]) !! k = Some x ->
    get_data m (2 + db + Z.of_nat k) = Ret x).
  { intros k x Hx. apply Hget; [|lia]. unfold jtag_payload.
    replace (Z.to_nat (2 + db + Z.of_nat k)) with (2 + (length wdata + k))%nat by lia.
    change (2 + (length wdata + k))%nat with (length (le_split 2 writebits) + (length wdata + k))%nat.
    rewrite lookup_app_r by lia. rewrite lookup_app_r by lia. rewrite <- Hx. f_equal. lia. }
  assert (Hslice : arr_slice (m_data m) 2 db = Ret wdata).
  { rewrite arr_slice_ok by lia. rewrite data_payload, Hp. unfold jtag_payload.
    change (Z.to_nat 2) with 2%nat. cbn [le_split app]. rewrite !skipn_cons, drop_0.
    rewrite <- app_assoc. rewrite take_app_length' by lia. done. }
  unfold OEM_1S_JTAG_DATA_SHIFT, bind, lift. rewrite (Hget 1 _ eq_refl), (Hget 0 _ eq_refl) by lia.
  cbn [rbind]. rewrite le16_split, bits_to_bytes_div by done. fold db.
  replace (3 + db) with (2 + db + Z.of_nat 1) by lia. rewrite (Htail 1%nat _ eq_refl). cbn [rbind].
  replace (2 + db) with (2 + db + Z.of_nat 0) at 1 by lia. rewrite (Htail 0%nat _ eq_refl). cbn [rbind].
  replace (4 + db) with (2 + db + Z.of_nat 2) by lia. rewrite (Htail 2%nat _ eq_refl). cbn [rbind].
  rewrite le16_split, bits_to_bytes_div by done. rewrite Hlen, Z.eqb_refl. cbn [negb].
  rewrite Hslice. cbn [rbind]. unfold ext. set (n := (readbits + 7) / 8).
  assert (Hn : 0 <= n) by (apply Z.div_pos; unfold is_u16 in Hr; lia).
  destruct (jtag_shift_data _ _ _ _ _ _) as [rd e] eqn:Hj. cbn [rbind].
  destruct (fl_jtag FL _ _ _ _ _ _ _ _ Hj) as [Hrl _]; [by apply bytes_replicate|].
  rewrite length_replicate in Hrl. destruct (Z.leb_spec n IPMI_MSG_MAX_LENGTH) as [Hle|Hgt].
  - rewrite blit_data_run by lia. done.
  - unfold blit_data, arr_blit. rewrite (proj2 (Z.leb_gt (0 + Z.of_nat (length rd)) _)) by lia. by rewrite andb_false_r.
Qed.

(** The counts are used before the length of the request is checked: a
    count of more than 4176 bits makes JTAG_DATA_SHIFT read behind the
    message, whatever the length of the request. *)
Theorem jtag_count_unchecked m w writebits :
  wf_msg m -> is_u16 writebits -> 4176 < writebits ->
  m_data m !! 0%nat = Some (u8 writebits) -> m_data m !! 1%nat = Some (u8 (writebits / 256)) ->
  OEM_1S_JTAG_DATA_SHIFT m w = UB.
Proof.
  intros Hm Hw Hbig Hd0 Hd1. pose proof (wf_length _ Hm) as H527.
  change IPMI_MSG_MAX_LENGTH with 527 in H527.
  unfold OEM_1S_JTAG_DATA_SHIFT, bind, lift.
  rewrite (get_data_at m 1 (u8 (writebits / 256))), (get_data_at m 0 (u8 writebits)) by done.
  cbn [rbind]. rewrite le16_split, bits_to_bytes_div by done.
  assert (Hdb : 523 <= (writebits + 7) / 8) by (Z.div_mod_to_equations; lia).
  destruct (get_data m (3 + (writebits + 7) / 8)) as [r1| |] eqn:H1; cbn [rbind]; [|done|].
  - assert (Hr1 : (writebits + 7) / 8 = 523).
    { destruct (Z.eq_dec ((writebits + 7) / 8) 523); [done|].
      unfold get_data in H1. by rewrite arr_get_UB in H1 by lia. }
    destruct (get_data m (2 + (writebits + 7) / 8)) as [r0| |] eqn:H2; cbn [rbind]; [|done|].
    + unfold get_data. by rewrite (arr_get_UB _ (4 + _)) by lia.
    + unfold get_data, arr_get in H2. by repeat case_match.
  - unfold get_data, arr_get in H1. by repeat case_match.
Qed.
End Jtag.

(** * Concrete modules *)

(** The status is the owner of the bus, the clock the one register and the
    number of POST codes; the updates are logged on the wire. *)
#[export] Instance sim_flash : FlashSvc sim := {|
  GPIO_LOW := 0;
  GPIO_HIGH := 1;
  pal_get_bios_flash_position := fun s => (2, s);
  pal_get_prot_flash_position := fun s => (3, s);
  pal_switch_bios_spi_mux := fun v s => (true, sim_status v s);
  DEVSPI_FMC_CS0 := 0;
  FWUPDATE_SUCCESS := 0;
  FWUPDATE_OUT_OF_HEAP := 1;
  FWUPDATE_OVER_LENGTH := 2;
  FWUPDATE_REPEATED_UPDATED := 3;
  FWUPDATE_UPDATE_FAIL := 4;
  FWUPDATE_ERROR_OFFSET := 5;
  FWUPDATE_NOT_SUPPORT := 6;
  fw_update := fun o n b x p s => (0, sim_log ([o; n; x; p] ++ b) s);
  cpld_altera_max10_fw_update := fun o n b s => (0, sim_log ([o; n] ++ b) s);
  fw_update_cxl := fun o n b x s => (0, sim_log ([o; n; x] ++ b) s);
  read_fw_image := fun _ _ d _ s => ((0, d), s);
  SHA256_DIGEST_SIZE := 32;
  get_fw_sha256 := fun d _ _ _ s => ((0, d), s);
  is_registers := fun a _ => (0x1000 <=? a) && (a <? 0x2000);
  mem_read := fun _ n s => (replicate (Z.to_nat n) 0, s);
  reg32_read := fun _ s => (u32 (s_clock s), s);
  reg32_write := fun _ v s => sim_clock_set v s;
  BIT_MASK := fun n => if n <? 32 then Ret (2 ^ n - 1) else UB;
  SNOOP_MAX_LEN := 256;
  ENABLE_PLDM := false;
  COPY_SPECIFIC_POSTCODE := 1;
  snoop_read_num := fun s => Z.abs (s_clock s);
  copy_snoop_read_buffer := fun _ _ d _ s => (imap (fun i _ => u8 (Z.of_nat i)) d, s);
  post_codes := PCC_ASPEED;
  copy_pcc_read_buffer := fun _ _ d _ s => ((0, d), s);
  copy_mpro_read_buffer := fun _ _ d _ s => ((0, d), s);
  copy_sbmr_read_buffer := fun _ _ d _ s => ((0, d), s);
  PECI_GET_DIB_CMD := 0xF7;
  PECI_GET_TEMP0_CMD := 0x01;
  peci_ping := fun _ s => (0, s);
  peci_write := fun _ _ _ r _ _ s => ((0, r), s);
  jtag_set_tap := fun _ _ s => s;
  jtag_shift_data := fun _ _ _ r _ s => ((fun _ => 0xA5) <$> r, s);
  enable_PRDY_interrupt := fun s => s;
  disable_PRDY_interrupt := fun s => s;
|}.

Lemma keeps_refl d : keeps_buffer d d.
Proof. by intros Hb. Qed.

Lemma sim_flash_laws : flash_laws sim.
Proof.
  split.
  - intros o n d p e r d' e' [= _ <- _]. apply keeps_refl.
  - intros d o n p e r d' e' [= _ <- _]. apply keeps_refl.
  - done.
  - intros a n e d e' [= <- _] Hn. split; [rewrite length_replicate; lia|by apply bytes_replicate].
  - intros a e v e' [= <- _]. apply u32_range.
  - done.
  - done.
  - intros e. apply Z.abs_nonneg.
  - intros o n d f e d' e' [= <- _] _. split; [apply length_imap|].
    apply Forall_lookup_2. intros i x Hx. rewrite list_lookup_imap in Hx.
    destruct (d !! i); [|done]. injection Hx as <-. apply u8_range.
  - intros o n d k e r d' e' [= _ <- _]. apply keeps_refl.
  - intros o n d k e r d' e' [= _ <- _]. apply keeps_refl.
  - intros o n d k e r d' e' [= _ <- _]. apply keeps_refl.
  - intros c a n r k wb e x r' e' [= _ <- _]. apply keeps_refl.
  - intros n s k r l e r' e' [= <- _] _. split; [apply length_fmap|].
    apply Forall_fmap, Forall_true. by intros.
Qed.

Lemma sim_mux_laws : mux_laws s_i2c_status.
Proof. by split; intros; simplify_eq/=. Qed.

Definition update_msg : ipmi_msg := data_msg (update_payload BIC_UPDATE true 0x1000 [1; 2; 3]).

Lemma fw_update_direct_witness :
  exists w', OEM_1S_FW_UPDATE update_msg (sim_world sim0) =
    Ret (with_cc CC_SUCCESS (with_data_len 0 update_msg), w') /\
    s_wire (w_ext w') = [[0x1000; 3; 0x80; 0; 1; 2; 3]].
Proof.
  eexists. split.
  - etrans; [apply (fw_update_direct update_msg (sim_world sim0) BIC_UPDATE true 0x1000 [1; 2; 3]
      (fun o n b s => fw_update o n b s DEVSPI_FMC_CS0)); try done|reflexivity].
    by apply wf_data_msg; [apply bytes_check|cbn; lia].
  - reflexivity.
Defined.

Lemma bios_bus_returned_witness :
  wp (OEM_1S_FW_UPDATE update_msg) (bus_returned s_i2c_status) (sim_world sim0).
Proof.
  refine (proj1 (bios_bus_returned s_i2c_status sim_mux_laws update_msg (sim_world sim0) _ _ _)); [|done|done].
  by apply wf_data_msg; [apply bytes_check|cbn; lia].
Defined.

Lemma post_code_newest_first_witness :
  wp (OEM_1S_GET_POST_CODE (data_msg [])) (fun m' w' => payload m' = [2; 1; 0])
    (sim_world (sim_clock_set 3 sim0)).
Proof.
  eapply wp_mono; [apply (post_code_newest_first sim_flash_laws (data_msg [])
    (sim_world (sim_clock_set 3 sim0))); [|done]|].
  - by apply wf_data_msg; [apply bytes_check|cbn; lia].
  - intros m' w'. cbn [post_code_window]. intros (_ & _ & _ & codes & e & [= <- _] & _ & ->). reflexivity.
Defined.

Lemma write_register_spec_witness :
  exists w', OEM_1S_WRITE_BIC_REGISTER (data_msg (le_split 4 0x1000 ++ [2] ++ [0x34; 0x12]))
    (sim_world (sim_clock_set 0xAABBCCDD sim0)) =
    Ret (with_cc CC_SUCCESS (with_data_len 0 (data_msg (le_split 4 0x1000 ++ [2] ++ [0x34; 0x12]))), w') /\
    s_clock (w_ext w') = 0xAABB1234.
Proof.
  eexists. split.
  - etrans; [apply (write_register_spec sim_flash_laws _ (sim_world (sim_clock_set 0xAABBCCDD sim0))
      0x1000 [0x34; 0x12]); try done|reflexivity].
    + by apply wf_data_msg; [apply bytes_check|cbn; lia].
    + cbn. lia.
  - reflexivity.
Defined.

(** Sixteen bits are written and nine read. *)
Lemma jtag_shift_spec_witness :
  exists m', OEM_1S_JTAG_DATA_SHIFT (data_msg (jtag_payload 16 [0x12; 0x34] 9 1)) (sim_world sim0) =
    Ret (m', sim_world sim0) /\ payload m' = [0xA5; 0xA5].
Proof.
  eexists. split.
  - etrans; [apply (jtag_shift_spec sim_flash_laws _ (sim_world sim0) 16 [0x12; 0x34] 9 1); try done|reflexivity].
    by apply wf_data_msg; [apply bytes_check|cbn; lia].
  - reflexivity.
Defined.

Lemma jtag_count_unchecked_witness :
  OEM_1S_JTAG_DATA_SHIFT (data_msg (le_split 2 5000)) (sim_world sim0) = UB.
Proof.
  apply (jtag_count_unchecked (data_msg (le_split 2 5000)) (sim_world sim0) 5000); try done.
  by apply wf_data_msg; [apply bytes_check|cbn; lia].
Defined.
