(* ===== verification/Oem1sSensor.v ===== *)
(** The sensor commands of [ipmi/oem_1s_handler.c]: polling switches, readings
    with a fraction, many readings at once, and the SDR.  The sensor module
    is the class [OemSvc] of the sensor commands, completed by [SensorSvc]. *)

From S2P Require Import Prelude IpmiDefs World IpmbSeq IpmbSeqSpec IpmbApi HandlerLib AppHandler.
From S2P Require Import StorageHandler OemHandler.

Definition _4BYTE_ACCURACY_SENSOR_READING_RES_LEN : Z := 5.
Definition MAX_MULTI_ACCURACY_SENSOR_READING_QUERY_NUM : Z := 32.
Definition MAX_CONTROL_SENSOR_POLLING_COUNT : Z := 10.

(** [sensor_config_index_map] and the [is_enable_polling] fields of
    [sensor_config]. *)
Class SensorSvc (E : Type) : Type := {
  GET_FROM_SENSOR : Z;
  SENSOR_NOT_PRESENT : Z;
  SENSOR_FAIL : Z;
  DISABLE_SENSOR_POLLING : Z;
  ENABLE_SENSOR_POLLING : Z;
  sensor_config_index_map : list Z;
  enable_sensor_poll : E -> E;
  disable_sensor_poll : E -> E;
  get_enable_polling : Z -> E -> Z;
  set_enable_polling : Z -> Z -> E -> E;
}.

(** The map has an entry for every sensor number; the constants are bytes; a
    stored polling flag is read back. *)
Record sensor_laws {E} `{OemSvc E} `{SensorSvc E} : Prop := {
  se_cache : is_u8 (GET_FROM_CACHE (E := E));
  se_map : (256 <= length sensor_config_index_map)%nat;
  se_fail : is_u8 SENSOR_FAIL;
  se_disable : is_u8 DISABLE_SENSOR_POLLING;
  se_enable : is_u8 ENABLE_SENSOR_POLLING;
  se_flag : forall i e, is_u8 (get_enable_polling i e);
  se_get_set : forall i v e, i ∈ sensor_config_index_map ->
    v = DISABLE_SENSOR_POLLING \/ v = ENABLE_SENSOR_POLLING ->
    get_enable_polling i (set_enable_polling i v e) = v;
}.
Arguments sensor_laws E {_ _}.

Section Handlers.
Context {E : Type} `{OemSvc E} `{SensorSvc E}.

Definition OEM_1S_SENSOR_POLL_EN (msg : ipmi_msg) : ST (world E) ipmi_msg :=
  if negb (m_data_len msg =? 1) then ret (with_cc CC_INVALID_LENGTH msg)
  else
    let! d0 := lift (get_data msg 0) in
    if d0 =? 1 then
      do! ext_ enable_sensor_poll in ret (with_cc CC_SUCCESS (with_data_len 0 msg))
    else if d0 =? 0 then
      do! ext_ disable_sensor_poll in ret (with_cc CC_SUCCESS (with_data_len 0 msg))
    else ret (with_cc CC_INVALID_DATA_FIELD msg).

(** * Accurate readings *)

(** [(uint16_t)((d + 0.0005) * 1000)] for an integer [d]: the double is
    truncated; a value outside the type is undefined. *)
Definition to_fraction (d : Z) : res Z :=
  let v := Z.quot (d * 10000 + 5) 10 in
  if (0 <=? v) && (v <? 2 ^ 16) then Ret v else UB.

(** [res->decimal] and [res->fraction] of an [int] reading; [decimal] is
    unsigned. *)
Definition accurate_value (reading : Z) : res (Z * Z) :=
  let decimal := u16 reading in
  rlet! fraction := to_fraction (if reading <? 0 then decimal - reading else reading - decimal) in
  Ret (decimal, fraction).

(** The switch on the status. *)
Definition accurate_reply (status reading sensor_report_status : Z) (msg : ipmi_msg)
    : ST (world E) ipmi_msg :=
  if (status =? SENSOR_READ_SUCCESS) || (status =? SENSOR_READ_ACUR_SUCCESS) then
    let! (decimal, fraction) := lift (accurate_value reading) in
    let! msg := lift (set_bytes 0 (le_split 2 decimal ++ le_split 2 fraction) msg) in
    let! msg := lift (set_data 3 sensor_report_status msg) in
    ret (with_cc CC_SUCCESS (with_data_len 4 msg))
  else if status =? SENSOR_READ_4BYTE_ACUR_SUCCESS then
    let! msg := lift (blit_data 0 (le_split 4 reading) msg) in
    let! msg := lift (set_data 4 sensor_report_status msg) in
    ret (with_cc CC_SUCCESS (with_data_len 5 msg))
  else if (status =? SENSOR_NOT_ACCESSIBLE) || (status =? SENSOR_INIT_STATUS) ||
          (status =? SENSOR_NOT_PRESENT) then
    let! msg := lift (set_bytes 0 (le_split 2 0 ++ le_split 2 0) msg) in
    let! msg := lift (set_data 4 (Z.lor sensor_report_status SENSOR_READING_STATE_UNAVAILABLE) msg) in
    ret (with_cc CC_SUCCESS (with_data_len 5 msg))
  else if status =? SENSOR_POLLING_DISABLE then ret (with_cc CC_SENSOR_NOT_PRESENT msg)
  else if status =? SENSOR_FAIL_TO_ACCESS then ret (with_cc CC_NODE_BUSY msg)
  else if status =? SENSOR_NOT_FOUND then ret (with_cc CC_INVALID_DATA_FIELD msg)
  else ret (with_cc CC_UNSPECIFIED_ERROR msg).

Definition report_status (enabled : bool) : Z :=
  if enabled then Z.lor SENSOR_EVENT_MESSAGES_ENABLE SENSOR_SCANNING_ENABLE
  else SENSOR_EVENT_MESSAGES_ENABLE.

(** An unknown read option is answered like an unknown status. *)
Definition OEM_1S_ACCURACY_SENSOR_READING (msg : ipmi_msg) : ST (world E) ipmi_msg :=
  if negb (m_data_len msg =? 2) then ret (with_cc CC_INVALID_LENGTH msg)
  else
    let! enabled := gets (fun w => enable_sensor_poll_thread (w_ext w)) in
    let! sensor_num := lift (get_data msg 0) in
    let! read_option := lift (get_data msg 1) in
    if read_option =? GET_FROM_CACHE then
      if enabled then
        let! (status, reading) := ext (get_sensor_reading sensor_num GET_FROM_CACHE) in
        accurate_reply status reading (report_status enabled) msg
      else accurate_reply SENSOR_POLLING_DISABLE 0 (report_status enabled) msg
    else if read_option =? GET_FROM_SENSOR then
      let! (status, reading) := ext (get_sensor_reading sensor_num GET_FROM_SENSOR) in
      accurate_reply status reading (report_status enabled) msg
    else ret (with_cc CC_UNSPECIFIED_ERROR msg).

(** The entry of one queried sensor: its number and five bytes. *)
Definition multi_reading (sensor : Z) : ST (world E) (list Z) :=
  let! temp_msg := lift (set_bytes 0 [sensor; GET_FROM_CACHE] zero_msg) in
  let temp_msg := with_data_len 2 temp_msg in
  let! temp_msg := OEM_1S_ACCURACY_SENSOR_READING temp_msg in
  let resp := replicate 5 0xFF in
  let! resp :=
    (if (m_completion_code temp_msg =? CC_SUCCESS) &&
        (m_data_len temp_msg =? _4BYTE_ACCURACY_SENSOR_READING_RES_LEN)
     then lift (memcpy resp 0 (m_data temp_msg) 0 (m_data_len temp_msg))
     else ret resp) in
  ret (sensor :: resp).

(** The loop over the queried sensors. *)
Definition multi_step (query_sensor : list Z) (i : Z) (st : Z * ipmi_msg)
    : ST (world E) (Z * ipmi_msg) :=
  let '(ofs, msg) := st in
  let! sensor := lift (arr_get query_sensor i) in
  let! entry := multi_reading sensor in
  let! msg := lift (set_bytes ofs (take 1 entry) msg) in
  let! msg := lift (blit_data (ofs + 1) (drop 1 entry) msg) in
  ret (u16 (ofs + 1 + _4BYTE_ACCURACY_SENSOR_READING_RES_LEN), msg).

Definition OEM_1S_MULTI_ACCURACY_SENSOR_READING (msg : ipmi_msg) : ST (world E) ipmi_msg :=
  if m_data_len msg =? 0 then ret (with_cc CC_INVALID_LENGTH msg)
  else
    let query_sensor_number := u8 (m_data_len msg) in
    if query_sensor_number >? MAX_MULTI_ACCURACY_SENSOR_READING_QUERY_NUM
    then ret (with_cc CC_PARAM_OUT_OF_RANGE msg)
    else
      let! query_sensor := lift (arr_slice (m_data msg) 0 query_sensor_number) in
      let! (ofs, msg) := st_for (Z.to_nat query_sensor_number) 0 (multi_step query_sensor) (0, msg) in
      ret (with_cc CC_SUCCESS (with_data_len ofs msg)).

(** * Polling *)

(** One sensor of the list: its number and its new state. *)
Definition control_step (operation : Z) (sensor_number : list Z) (index : Z) (msg : ipmi_msg)
    : ST (world E) ipmi_msg :=
  let return_data_index := 2 * index in
  let! number := lift (arr_get sensor_number index) in
  let! control_sensor_index := lift (arr_get sensor_config_index_map number) in
  let! msg := lift (set_data return_data_index number msg) in
  if negb (control_sensor_index =? SENSOR_FAIL) then
    do! ext_ (set_enable_polling control_sensor_index
          (if operation =? DISABLE_SENSOR_POLLING then DISABLE_SENSOR_POLLING
           else ENABLE_SENSOR_POLLING)) in
    let! v := gets (fun w => get_enable_polling control_sensor_index (w_ext w)) in
    lift (set_data (return_data_index + 1) v msg)
  else lift (set_data (return_data_index + 1) SENSOR_FAIL msg).

Definition OEM_1S_CONTROL_SENSOR_POLLING (msg : ipmi_msg) : ST (world E) ipmi_msg :=
  let! total_sensor_count := lift (get_data msg 0) in
  let! operation := lift (get_data msg 1) in
  if total_sensor_count >? MAX_CONTROL_SENSOR_POLLING_COUNT
  then ret (with_cc CC_PARAM_OUT_OF_RANGE msg)
  else if negb (operation =? DISABLE_SENSOR_POLLING) && negb (operation =? ENABLE_SENSOR_POLLING)
  then ret (with_cc CC_INVALID_DATA_FIELD msg)
  else if negb (m_data_len msg - 2 =? total_sensor_count) then ret (with_cc CC_LENGTH_EXCEEDED msg)
  else
    let! sensor_number := lift (arr_slice (m_data msg) 2 total_sensor_count) in
    let! msg := st_for (Z.to_nat total_sensor_count) 0 (control_step operation sensor_number) msg in
    ret (with_cc CC_SUCCESS (with_data_len (2 * total_sensor_count) msg)).
End Handlers.

(** * SDR *)

(** The command is [STORAGE_GET_SDR] under another number; its checks and its
    reply are repeated in the source. *)
Definition OEM_1S_GET_SDR {E} `{Storage E} (msg : ipmi_msg) : ST (world E) ipmi_msg :=
  let! d1 := lift (get_data msg 1) in
  let! d0 := lift (get_data msg 0) in
  let! d3 := lift (get_data msg 3) in
  let! d2 := lift (get_data msg 2) in
  let! offset := lift (get_data msg 4) in
  let! req_len := lift (get_data msg 5) in
  let rsv_ID := Z.lor (Z.shiftl d1 8) d0 in
  let record_ID := Z.lor (Z.shiftl d3 8) d2 in
  if negb (m_data_len msg =? 6) then ret (with_cc CC_INVALID_LENGTH msg)
  else
    let! ok := ext (SDR_RSV_ID_check rsv_ID
      (if m_InF_source msg =? SLOT3_BIC then RSV_TABLE_INDEX_1 else RSV_TABLE_INDEX_0)) in
    if negb ok then ret (with_cc CC_INVALID_RESERVATION msg)
    else
      let! ok := ext (SDR_check_record_ID record_ID) in
      if negb ok then ret (with_cc CC_INVALID_DATA_FIELD msg)
      else if req_len + 2 >? IPMI_DATA_MAX_LENGTH then ret (with_cc CC_LENGTH_EXCEEDED msg)
      else
        let! record_len := gets (fun w => sdr_record_len record_ID (w_ext w)) in
        if offset + req_len >? IPMI_SDR_HEADER_LEN + record_len
        then ret (with_cc CC_PARAM_OUT_OF_RANGE msg)
        else
          let! next_record_ID := ext (SDR_get_record_ID record_ID) in
          let! msg := lift (set_bytes 0 [Z.land next_record_ID 0xFF;
            Z.land (Z.shiftr next_record_ID 8) 0xFF] msg) in
          let! table := gets (fun w => sdr_bytes record_ID (w_ext w)) in
          let! src := lift (arr_slice table offset req_len) in
          let! msg := lift (blit_data 2 src msg) in
          ret (with_cc CC_SUCCESS (with_data_len (u16 (req_len + 2)) msg)).

(** * Contracts *)

Section Contracts.
Context {E : Type} `{OemSvc E} `{SensorSvc E}.
Context (SL : sensor_laws E).
Implicit Types w : world E.

#[export] Instance POLL_EN_Handler : Handler OEM_1S_SENSOR_POLL_EN.
Proof. handler_start. unfold OEM_1S_SENSOR_POLL_EN. contract. Qed.

Lemma report_status_u8 b : is_u8 (report_status b).
Proof. by destruct b. Qed.

(** The fraction that is computed: 0 for a reading that fits 16 bits, nothing
    for any other. *)
Lemma accurate_value_spec r :
  accurate_value r = if (0 <=? r) && (r <? 2 ^ 16) then Ret (r, 0) else UB.
Proof.
  unfold accurate_value, to_fraction. change (2 ^ 16) with 65536.
  assert (Hd : exists k, (if r <? 0 then u16 r - r else r - u16 r) = 65536 * k /\ 0 <= k /\
    (k = 0 <-> 0 <= r < 65536)).
  { unfold u16. change (2 ^ 16) with 65536. destruct (Z.ltb_spec r 0).
    - exists (- (r / 65536)). Z.div_mod_to_equations. lia.
    - exists (r / 65536). Z.div_mod_to_equations. lia. }
  destruct Hd as (k & -> & Hk & Hk0). rewrite Z.quot_div_nonneg by lia.
  destruct (Z.eq_dec k 0) as [->|Hne].
  - destruct Hk0 as [Hk0 _]. specialize (Hk0 eq_refl).
    rewrite (proj2 (Z.leb_le 0 r)), (proj2 (Z.ltb_lt r 65536)) by lia. cbn.
    by rewrite u16_small.
  - assert (Hbig : 65536 <= (65536 * k * 10000 + 5) / 10) by (Z.div_mod_to_equations; lia).
    rewrite (proj2 (Z.ltb_ge ((65536 * k * 10000 + 5) / 10) _)) by lia. rewrite andb_false_r. cbn.
    destruct (Z.leb_spec 0 r), (Z.ltb_spec r 65536); cbn; try done. exfalso. tauto.
Qed.

(** The readings the sensors give fit the answer. *)
Definition readings_fit : Prop :=
  forall n o (e : E) st r e', get_sensor_reading n o e = (st, r, e') ->
    st = SENSOR_READ_SUCCESS \/ st = SENSOR_READ_ACUR_SUCCESS -> 0 <= r < 2 ^ 16.

(** A reply leaves the program state alone; only an answer in 16 bits can be
    undefined. *)
Lemma accurate_reply_run m0 m st r rs w :
  answers m0 m -> is_u8 rs ->
  (st = SENSOR_READ_SUCCESS \/ st = SENSOR_READ_ACUR_SUCCESS -> 0 <= r < 2 ^ 16) ->
  wp (accurate_reply st r rs m) (fun m' w' => answers m0 m' /\ w' = w) w.
Proof.
  intros Ha Hrs Hr. unfold accurate_reply. handler_step.
  - apply wp_bind, wp_lift. rewrite accurate_value_spec.
    assert (Hrr : 0 <= r < 2 ^ 16)
      by (apply Hr; apply orb_true_iff in Heqb as [?%Z.eqb_eq|?%Z.eqb_eq]; auto).
    rewrite (proj2 (Z.leb_le 0 r)), (proj2 (Z.ltb_lt r _)) by lia. cbn [andb rwp].
    contract; repeat apply bytes_cons; try apply u8_range; apply bytes_nil.
  - contract; try apply bytes_le_split; try (by apply (lor_range 8));
      repeat apply bytes_cons; try apply u8_range; apply bytes_nil.
Qed.

Lemma accurate_reply_undefined st r rs m w :
  st = SENSOR_READ_SUCCESS \/ st = SENSOR_READ_ACUR_SUCCESS -> ~ 0 <= r < 2 ^ 16 ->
  accurate_reply st r rs m w = UB.
Proof.
  intros Hst Hr. unfold accurate_reply.
  replace ((st =? SENSOR_READ_SUCCESS) || (st =? SENSOR_READ_ACUR_SUCCESS)) with true
    by (symmetry; apply orb_true_iff; rewrite !Z.eqb_eq; done).
  unfold bind, lift. rewrite accurate_value_spec.
  destruct (Z.leb_spec 0 r), (Z.ltb_spec r (2 ^ 16)); try done. lia.
Qed.

Lemma accurate_reply_cases m st r rs w :
  wf_msg m -> m_data_len m <= IPMI_MSG_MAX_LENGTH -> is_u8 rs ->
  accurate_reply st r rs m w = UB \/
  exists m', accurate_reply st r rs m w = Ret (m', w) /\ answers m m'.
Proof.
  intros Hm Hl Hrs.
  destruct (decide ((st = SENSOR_READ_SUCCESS \/ st = SENSOR_READ_ACUR_SUCCESS) /\
    ~ 0 <= r < 2 ^ 16)) as [[Hst Hr]|Hok].
  - left. by apply accurate_reply_undefined.
  - right. destruct (wp_inv (accurate_reply st r rs m) (fun m' w' => answers m m' /\ w' = w) w)
      as (m' & w' & Heq & Ha & ->); [|by exists m'].
    apply accurate_reply_run; [by apply answers_refl|done|]. intros Hst.
    destruct (decide (0 <= r < 2 ^ 16)); tauto.
Qed.

Lemma ACCURACY_Handler : readings_fit -> Handler OEM_1S_ACCURACY_SENSOR_READING.
Proof.
  intros Hfit. handler_start. unfold OEM_1S_ACCURACY_SENSOR_READING. handler_step; [contract|].
  do 6 handler_step. handler_step; [handler_step|handler_step]; [| | |contract].
  - apply wp_bind, wp_ext. intros [st r] e Hr.
    eapply wp_mono; [apply (accurate_reply_run m); [done|apply report_status_u8|by eapply Hfit]|].
    by intros m' w' [? ->].
  - eapply wp_mono; [by apply (accurate_reply_run m); [done|apply report_status_u8|]|].
    by intros m' w' [? ->].
  - apply wp_bind, wp_ext. intros [st r] e Hr.
    eapply wp_mono; [apply (accurate_reply_run m); [done|apply report_status_u8|by eapply Hfit]|].
    by intros m' w' [? ->].
Qed.

(** The command is the one of the storage functions. *)
Lemma GET_SDR_same {E'} `{Storage E'} : OEM_1S_GET_SDR = STORAGE_GET_SDR (E := E').
Proof. reflexivity. Qed.

(** * One sensor, and many *)

(** The answer to a query of the cache. *)
Lemma accuracy_cached s w :
  OEM_1S_ACCURACY_SENSOR_READING (data_msg [s; GET_FROM_CACHE]) w =
    (if enable_sensor_poll_thread (w_ext w) then
       let '(st, r, e) := get_sensor_reading s GET_FROM_CACHE (w_ext w) in
       accurate_reply st r (report_status true) (data_msg [s; GET_FROM_CACHE]) (w_set_ext e w)
     else accurate_reply SENSOR_POLLING_DISABLE 0 (report_status false)
       (data_msg [s; GET_FROM_CACHE]) w).
Proof.
  unfold OEM_1S_ACCURACY_SENSOR_READING.
  change (negb (m_data_len (data_msg [s; GET_FROM_CACHE]) =? 2)) with false. cbv iota.
  unfold bind at 1, gets at 1. cbn [rbind].
  unfold bind at 1. rewrite (get_data_at _ 0 s) by done.
  unfold lift at 1. cbn [rbind]. unfold bind at 1. rewrite (get_data_at _ 1 GET_FROM_CACHE) by done.
  unfold lift at 1. cbn [rbind negb]. cbv beta. rewrite Z.eqb_refl.
  destruct (enable_sensor_poll_thread (w_ext w)); [|done].
  unfold bind, ext.
  destruct (get_sensor_reading s GET_FROM_CACHE (w_ext w)) as [[st r] e]. reflexivity.
Qed.

Lemma accuracy_cached_cases s w :
  is_u8 s ->
  OEM_1S_ACCURACY_SENSOR_READING (data_msg [s; GET_FROM_CACHE]) w = UB \/
  exists m' w', OEM_1S_ACCURACY_SENSOR_READING (data_msg [s; GET_FROM_CACHE]) w = Ret (m', w') /\
    answers (data_msg [s; GET_FROM_CACHE]) m'.
Proof.
  intros Hs. rewrite accuracy_cached.
  assert (Hm : wf_msg (data_msg [s; GET_FROM_CACHE])).
  { apply wf_data_msg; [|cbn; lia]. repeat apply bytes_cons; [done|apply SL|apply bytes_nil]. }
  destruct (enable_sensor_poll_thread (w_ext w)).
  - destruct (get_sensor_reading _ _ _) as [[st r] e].
    destruct (accurate_reply_cases (data_msg [s; GET_FROM_CACHE]) st r (report_status true)
      (w_set_ext e w)) as [?|(m' & ? & ?)]; [done|done|apply report_status_u8|by left|right; by eauto].
  - destruct (accurate_reply_cases (data_msg [s; GET_FROM_CACHE]) SENSOR_POLLING_DISABLE 0
      (report_status false) w) as [?|(m' & ? & ?)]; [done|done|apply report_status_u8|by left|right; by eauto].
Qed.

(** The five bytes of a sensor: its single answer if that has five bytes. *)
Definition reading_bytes (m : ipmi_msg) : list Z :=
  if (m_completion_code m =? CC_SUCCESS) && (m_data_len m =? 5) then payload m else replicate 5 0xFF.

(** The entry of a sensor, from the command for one sensor. *)
Definition reading_entry (s : Z) : ST (world E) (list Z) :=
  let! m := OEM_1S_ACCURACY_SENSOR_READING (data_msg [s; GET_FROM_CACHE]) in
  ret (s :: reading_bytes m).

(** The entries of all sensors, one after the other. *)
Fixpoint reading_entries (sensors : list Z) : ST (world E) (list Z) :=
  match sensors with
  | [] => ret []
  | s :: sensors' =>
      let! entry := reading_entry s in
      let! entries := reading_entries sensors' in
      ret (entry ++ entries)
  end.

Lemma multi_reading_run s w :
  is_u8 s ->
  (multi_reading s w = UB /\ reading_entry s w = UB) \/
  exists l w', multi_reading s w = Ret (s :: l, w') /\ reading_entry s w = Ret (s :: l, w') /\
    length l = 5%nat.
Proof.
  intros Hs. unfold multi_reading, reading_entry.
  assert (Hmsg : set_bytes 0 [s; GET_FROM_CACHE] zero_msg =
    Ret (with_data (m_data (data_msg [s; GET_FROM_CACHE])) zero_msg)) by reflexivity.
  rewrite Hmsg. unfold bind, lift. cbn [rbind].
  change (with_data_len 2 (with_data _ zero_msg)) with (data_msg [s; GET_FROM_CACHE]).
  destruct (accuracy_cached_cases s w Hs) as [->|(m' & w' & -> & Ha)]; [by left|right].
  cbn [rbind]. unfold reading_bytes.
  change _4BYTE_ACCURACY_SENSOR_READING_RES_LEN with 5.
  destruct (m_completion_code m' =? CC_SUCCESS); cbn [andb]; [|by exists (replicate 5 0xFF), w'].
  destruct (Z.eqb_spec (m_data_len m') 5) as [H5|]; [|by exists (replicate 5 0xFF), w'].
  pose proof (wf_length _ (an_wf _ _ Ha)) as H527. change IPMI_MSG_MAX_LENGTH with 527 in H527.
  rewrite H5. unfold memcpy. rewrite arr_slice_ok by lia. cbn [rbind].
  rewrite arr_blit_ok by (rewrite ?length_take, ?length_drop, ?length_replicate; lia).
  cbn [rbind]. exists (payload m'), w'.
  assert (Hp : length (payload m') = 5%nat) by (unfold payload; rewrite H5, length_take; lia).
  split; [|done]. unfold payload in *. rewrite H5 in *.
  change (Z.to_nat 0) with O. change (Z.to_nat 5) with 5%nat in *. rewrite (drop_0 (m_data m')), Hp.
  cbn [replicate take drop app Nat.add]. by rewrite app_nil_r.
Qed.

(** The loop appends the entries of the remaining sensors to those made. *)
Lemma multi_loop_run q m : forall nums pre es w,
  q = pre ++ nums -> bytes nums -> length es = (6 * length pre)%nat ->
  (6 * length q <= length (m_data m))%nat -> (length q <= 32)%nat ->
  st_for (length nums) (Z.of_nat (length pre)) (multi_step q)
    (Z.of_nat (length es), with_data (overwrite 0 es (m_data m)) m) w =
  bind (reading_entries nums) (fun es' => ret (Z.of_nat (length (es ++ es')),
    with_data (overwrite 0 (es ++ es') (m_data m)) m)) w.
Proof.
  induction nums as [|s nums IH]; intros pre es w Hq Hb Hes Hlen H32; cbn [length st_for reading_entries].
  { unfold bind, ret. cbn [rbind]. by rewrite app_nil_r. }
  apply Forall_cons in Hb as [Hs Hb].
  assert (Hql : length q = (length pre + S (length nums))%nat) by (by rewrite Hq, length_app).
  unfold bind at 1 2 3. unfold multi_step at 1, bind at 1.
  unfold lift at 1. rewrite (arr_get_Ret q _ s) by
    (first [lia | rewrite Nat2Z.id, Hq; by apply list_lookup_middle]). cbn [rbind].
  unfold bind at 1.
  destruct (multi_reading_run s w Hs) as [[-> ->]|(l & w1 & -> & -> & Hl)]; [done|]. cbn [rbind].
  assert (Hfit : (length es + 6 <= length (m_data m))%nat) by lia.
  change (take 1 (s :: l)) with [s]. change (drop 1 (s :: l)) with l.
  unfold bind at 1, lift at 1. rewrite set_bytes_run; cbn [m_data with_data length].
  2: lia. 2: rewrite length_overwrite by lia; lia.
  cbn [rbind]. unfold bind at 1, lift at 1. rewrite blit_data_run; cbn [m_data with_data length].
  2: lia. 2: rewrite !length_overwrite by (cbn; rewrite ?length_overwrite by lia; lia); lia.
  cbn [rbind]. unfold ret at 1. cbn [rbind].
  assert (Hov : overwrite (Z.to_nat (Z.of_nat (length es) + 1)) l
      (overwrite (Z.to_nat (Z.of_nat (length es))) [s] (overwrite 0 es (m_data m))) =
    overwrite 0 (es ++ s :: l) (m_data m)).
  { rewrite Nat2Z.id, (overwrite_app es [s]) by (cbn; lia).
    replace (Z.to_nat (Z.of_nat (length es) + 1)) with (length (es ++ [s]))
      by (rewrite length_app; cbn; lia).
    rewrite (overwrite_app (es ++ [s]) l) by (rewrite length_app; cbn; lia).
    by rewrite <- app_assoc. }
  replace (u16 _) with (Z.of_nat (length (es ++ s :: l))).
  2: { change _4BYTE_ACCURACY_SENSOR_READING_RES_LEN with 5. rewrite length_app. cbn [length].
       rewrite u16_small; unfold is_u16; lia. }
  replace (Z.of_nat (length pre) + 1) with (Z.of_nat (length (pre ++ [s])))
    by (rewrite length_app; cbn; lia).
  change (with_data _ (with_data _ (with_data _ m))) with
    (with_data (overwrite (Z.to_nat (Z.of_nat (length es) + 1)) l
      (overwrite (Z.to_nat (Z.of_nat (length es))) [s] (overwrite 0 es (m_data m)))) m).
  rewrite Hov, (IH (pre ++ [s]) (es ++ s :: l)).
  - unfold bind. destruct (reading_entries nums w1) as [[es' w2]| |]; [|done..]. cbn [rbind].
    unfold ret. cbn [rbind]. by rewrite <- app_assoc.
  - by rewrite <- app_assoc.
  - done.
  - rewrite !length_app. cbn [length]. lia.
  - lia.
  - lia.
Qed.
End Contracts.

Section SensorTheorems.
Context {E : Type} `{OemSvc E} `{SensorSvc E}.
Implicit Types w : world E.

Lemma multi_run m w :
  sensor_laws E -> wf_msg m -> 0 < m_data_len m ->
  u8 (m_data_len m) <= MAX_MULTI_ACCURACY_SENSOR_READING_QUERY_NUM ->
  OEM_1S_MULTI_ACCURACY_SENSOR_READING m w =
    (let! entries := reading_entries (take (Z.to_nat (u8 (m_data_len m))) (m_data m)) in
     ret (reply_with entries CC_SUCCESS m)) w.
Proof.
  intros SL Hm Hpos Hl. change MAX_MULTI_ACCURACY_SENSOR_READING_QUERY_NUM with 32 in Hl.
  pose proof (wf_length _ Hm) as H527. change IPMI_MSG_MAX_LENGTH with 527 in H527.
  unfold OEM_1S_MULTI_ACCURACY_SENSOR_READING. rewrite (proj2 (Z.eqb_neq _ _)) by lia.
  pose proof (u8_range (m_data_len m)) as Hn. set (n := u8 (m_data_len m)) in *. clearbody n.
  change MAX_MULTI_ACCURACY_SENSOR_READING_QUERY_NUM with 32. unfold is_u8 in Hn.
  rewrite Z.gtb_ltb, (proj2 (Z.ltb_ge 32 _)) by lia.
  unfold bind at 1, lift at 1. rewrite arr_slice_ok by lia. cbn [rbind].
  change (Z.to_nat 0) with O. rewrite drop_0. set (q := take (Z.to_nat n) (m_data m)).
  assert (Hp : length q = Z.to_nat n) by (unfold q; rewrite length_take; lia).
  pose proof (multi_loop_run SL q m q [] [] w) as Hloop.
  rewrite overwrite_nil in Hloop. cbn [length app] in Hloop. change (Z.of_nat 0) with 0 in Hloop.
  rewrite Hp in Hloop. unfold bind at 1. replace (with_data (m_data m) m) with m in Hloop by (by destruct m).
  rewrite Hloop by (first [done | lia | apply bytes_take, Hm]).
  unfold bind. destruct (reading_entries q w) as [[es w']| |]; reflexivity.
Qed.

(** A reading entry of sensors that fit is defined. *)
Lemma reading_entries_run nums w :
  sensor_laws E -> readings_fit (E := E) -> bytes nums -> is_u8 (w_bmc_enables w) ->
  wp (reading_entries nums) (fun es w' => length es = (6 * length nums)%nat /\ bytes es /\
    ipmb_frame w w' /\ is_u8 (w_bmc_enables w')) w.
Proof.
  intros SL Hfit Hb. revert w. induction Hb as [|s nums Hs Hb IH]; intros w He; cbn [reading_entries].
  { apply wp_ret. split; [done|]. split; [apply bytes_nil|done]. }
  apply wp_bind. unfold reading_entry. apply wp_bind.
  assert (Hm : wf_msg (data_msg [s; GET_FROM_CACHE])).
  { apply wf_data_msg; [|cbn; lia]. repeat apply bytes_cons; [done|apply SL|apply bytes_nil]. }
  eapply wp_mono; [by apply (ACCURACY_Handler Hfit)|]. intros m' w1 (Ha & Hf1 & He1).
  apply wp_ret, wp_bind. eapply wp_mono; [by apply IH|]. intros es w2 (Hles & Hbes & Hf2 & He2).
  apply wp_ret. pose proof (wf_length _ (an_wf _ _ Ha)) as H527. change IPMI_MSG_MAX_LENGTH with 527 in H527.
  assert (Hr : length (reading_bytes m') = 5%nat /\ bytes (reading_bytes m')).
  { unfold reading_bytes. destruct (_ && _) eqn:Hc; [|split; [done|by apply bytes_replicate]].
    apply andb_true_iff in Hc as [_ H5%Z.eqb_eq]. unfold payload. rewrite H5.
    split; [rewrite length_take; lia|apply bytes_take, Ha]. }
  destruct Hr as [Hr5 Hrb]. cbn [length]. rewrite length_app, Hles. cbn [length]. rewrite Hr5.
  split; [lia|]. split; [apply bytes_cons; [done|by apply bytes_app]|]. split; [by etrans|done].
Qed.

Lemma MULTI_Handler :
  sensor_laws E -> readings_fit (E := E) -> Handler OEM_1S_MULTI_ACCURACY_SENSOR_READING.
Proof.
  intros SL Hfit m w Hm Hl He. pose proof (answers_refl m Hm Hl) as Ha.
  destruct (Z.eq_dec (m_data_len m) 0) as [Hz|Hz].
  { unfold OEM_1S_MULTI_ACCURACY_SENSOR_READING. rewrite Hz. cbn [Z.eqb]. contract. }
  destruct (Z_le_gt_dec (u8 (m_data_len m)) 32) as [H32|H32].
  - pose proof (wf_data_len _ Hm) as [Hlen _]. unfold wp. rewrite multi_run by first [done|lia].
    set (q := take _ _). assert (Hq : (length q <= 32)%nat) by (unfold q; rewrite length_take; lia).
    apply (wp_bind (reading_entries q)). eapply wp_mono; [apply (reading_entries_run q w SL Hfit); [|done]|].
    + apply bytes_take, Hm.
    + intros es w' (Hles & Hbes & Hf & He'). apply wp_ret. split; [|done]. apply answers_with; try done.
      change IPMI_MSG_MAX_LENGTH with 527. lia.
  - unfold OEM_1S_MULTI_ACCURACY_SENSOR_READING. rewrite (proj2 (Z.eqb_neq _ _)) by done.
    change MAX_MULTI_ACCURACY_SENSOR_READING_QUERY_NUM with 32.
    rewrite Z.gtb_ltb, (proj2 (Z.ltb_lt 32 _)) by lia. contract.
Qed.

(** C34: the query of many sensors answers with the concatenation of what the
    command for one sensor answers for each, in order: the sensor number and
    the five bytes of its answer, or five times 0xFF when that failed or has
    another length.  It is undefined exactly when one of them is. *)
Theorem multi_reading_equiv m w :
  sensor_laws E -> wf_msg m -> 0 < m_data_len m <= MAX_MULTI_ACCURACY_SENSOR_READING_QUERY_NUM ->
  OEM_1S_MULTI_ACCURACY_SENSOR_READING m w =
    (let! entries := reading_entries (payload m) in
     ret (reply_with entries CC_SUCCESS m)) w.
Proof.
  intros SL Hm Hl. change MAX_MULTI_ACCURACY_SENSOR_READING_QUERY_NUM with 32 in Hl.
  assert (Hu : u8 (m_data_len m) = m_data_len m) by (apply u8_small; unfold is_u8; lia).
  rewrite multi_run by first [done | lia | rewrite Hu; apply Hl]. unfold payload. by rewrite Hu.
Qed.

(** A reading that is not a 16-bit number - a negative one, for
    instance - makes the conversion of the fraction undefined: it lies 65536
    or more away from its low half, too far for the type. *)
Theorem accuracy_out_of_range_undefined m w num st r e :
  enable_sensor_poll_thread (w_ext w) = true -> payload m = [num; GET_FROM_CACHE] ->
  get_sensor_reading num GET_FROM_CACHE (w_ext w) = (st, r, e) ->
  (st = SENSOR_READ_SUCCESS \/ st = SENSOR_READ_ACUR_SUCCESS) -> r < 0 \/ 2 ^ 16 <= r ->
  m_data_len m = 2 -> OEM_1S_ACCURACY_SENSOR_READING m w = UB.
Proof.
  intros Hen Hp Hr Hst Hrange Hl. pose proof (data_payload m) as Hd. rewrite Hp in Hd.
  set (rest := drop _ _) in Hd. clearbody rest. unfold OEM_1S_ACCURACY_SENSOR_READING. rewrite Hl. cbn [Z.eqb Pos.eqb negb].
  unfold bind at 1, gets at 1. cbn [rbind].
  unfold bind at 1. rewrite (get_data_at _ 0 num) by (first [done|by rewrite Hd]).
  unfold lift at 1. cbn [rbind].
  unfold bind at 1. rewrite (get_data_at _ 1 GET_FROM_CACHE) by (first [done|by rewrite Hd]).
  unfold lift at 1. cbn [rbind]. rewrite Z.eqb_refl, Hen. unfold bind, ext. rewrite Hr. cbn [rbind].
  apply accurate_reply_undefined; [done|lia].
Qed.
End SensorTheorems.

(** * Polling *)

Section Polling.
Context {E : Type} `{OemSvc E} `{SensorSvc E}.
Context (SL : sensor_laws E).
Implicit Types w : world E.

(** The entry of the sensor map; every sensor number has one. *)
Definition config_index (num : Z) : Z :=
  default SENSOR_FAIL (sensor_config_index_map !! Z.to_nat num).

(** What is answered for a sensor, and what becomes of its flag. *)
Definition polling_entry (operation num : Z) : list Z :=
  [num; if config_index num =? SENSOR_FAIL then SENSOR_FAIL else operation].
Definition polling_set (operation : Z) (e : E) (num : Z) : E :=
  if config_index num =? SENSOR_FAIL then e else set_enable_polling (config_index num) operation e.

Lemma config_index_get num :
  is_u8 num -> arr_get sensor_config_index_map num = Ret (config_index num) /\
    config_index num ∈ sensor_config_index_map.
Proof.
  intros Hn. pose proof (se_map SL) as Hmap. unfold is_u8 in Hn. change (2 ^ 8) with 256 in Hn.
  unfold config_index. destruct (lookup_lt_is_Some_2 sensor_config_index_map (Z.to_nat num)) as [x Hx]; [lia|].
  rewrite Hx. split; [apply arr_get_Ret; [lia|done]|]. by eapply list_elem_of_lookup_2.
Qed.

Lemma length_polling operation nums : length (flat_map (polling_entry operation) nums) = (2 * length nums)%nat.
Proof. induction nums as [|x nums IH]; cbn [flat_map]; [done|]. rewrite length_app, IH. cbn. lia. Qed.

Lemma control_step_run operation nums i num m w :
  operation = DISABLE_SENSOR_POLLING \/ operation = ENABLE_SENSOR_POLLING ->
  0 <= i -> nums !! Z.to_nat i = Some num -> is_u8 num ->
  2 * i + 2 <= Z.of_nat (length (m_data m)) ->
  control_step operation nums i m w =
    Ret (with_data (overwrite (Z.to_nat (2 * i)) (polling_entry operation num) (m_data m)) m,
         w_set_ext (polling_set operation (w_ext w) num) w).
Proof.
  intros Hop Hi Hnum Hb Hlen. destruct (config_index_get num Hb) as [Hget Hin].
  unfold control_step. unfold bind at 1, lift at 1.
  rewrite (arr_get_Ret nums i num) by done. cbn [rbind].
  unfold bind at 1, lift at 1. rewrite Hget. cbn [rbind].
  unfold bind at 1, lift at 1. rewrite set_data_at by lia. cbn [rbind].
  assert (Hset : forall v, set_data (2 * i + 1) v (with_data (<[Z.to_nat (2 * i) := num]> (m_data m)) m) =
    Ret (with_data (overwrite (Z.to_nat (2 * i)) [num; v] (m_data m)) m)).
  { intros v. rewrite set_data_at by (cbn; rewrite length_insert; lia). cbn [m_data with_data].
    f_equal. change (with_data ?x (with_data _ m)) with (with_data x m). f_equal.
    rewrite <- overwrite_cons by (cbn; lia). unfold overwrite.
    rewrite insert_take_drop by (rewrite length_insert; lia).
    replace (Z.to_nat (2 * i + 1)) with (S (Z.to_nat (2 * i))) by lia. cbn [length app].
    by rewrite Nat.add_1_r. }
  unfold polling_entry, polling_set. destruct (Z.eqb_spec (config_index num) SENSOR_FAIL); cbn [negb].
  - unfold lift. rewrite Hset. cbn [rbind]. by destruct w.
  - unfold bind at 1, ext_. cbn [rbind]. unfold bind, gets. cbn [rbind].
    replace (if operation =? DISABLE_SENSOR_POLLING then _ else _) with operation.
    + unfold modify. cbn [rbind w_ext w_set_ext]. rewrite (se_get_set SL) by done. unfold lift. rewrite Hset. done.
    + destruct (Z.eqb_spec operation DISABLE_SENSOR_POLLING); [done|]. by destruct Hop.
Qed.

Lemma control_loop_run operation q m : forall nums pre w,
  operation = DISABLE_SENSOR_POLLING \/ operation = ENABLE_SENSOR_POLLING ->
  q = pre ++ nums -> bytes nums -> (2 * length q <= length (m_data m))%nat ->
  st_for (length nums) (Z.of_nat (length pre)) (control_step operation q)
    (with_data (overwrite 0 (flat_map (polling_entry operation) pre) (m_data m)) m) w =
  Ret (with_data (overwrite 0 (flat_map (polling_entry operation) q) (m_data m)) m,
       w_set_ext (fold_left (polling_set operation) nums (w_ext w)) w).
Proof.
  induction nums as [|num nums IH]; intros pre w Hop Hq Hb Hlen; cbn [length st_for fold_left].
  { rewrite app_nil_r in Hq. subst q. unfold ret. by destruct w. }
  apply Forall_cons in Hb as [Hn Hb]. set (es := flat_map (polling_entry operation) pre).
  assert (Hes : length es = (2 * length pre)%nat) by apply length_polling.
  assert (Hql : length q = (length pre + S (length nums))%nat) by (by rewrite Hq, length_app).
  unfold bind at 1. rewrite (control_step_run _ q _ num).
  2: done. 2: lia. 2: rewrite Nat2Z.id, Hq; by apply list_lookup_middle. 2: done.
  2: cbn [m_data with_data]; rewrite length_overwrite; lia.
  cbn [rbind m_data with_data]. replace (Z.to_nat (2 * Z.of_nat (length pre))) with (length es) by lia.
  rewrite overwrite_app by (cbn; lia).
  change (with_data ?x (with_data _ m)) with (with_data x m).
  replace (es ++ polling_entry operation num) with (flat_map (polling_entry operation) (pre ++ [num]))
    by (by rewrite flat_map_app; cbn [flat_map]; rewrite app_nil_r).
  replace (Z.of_nat (length pre) + 1) with (Z.of_nat (length (pre ++ [num])))
    by (rewrite length_app; cbn; lia).
  rewrite (IH (pre ++ [num])); [done|done|by rewrite <- app_assoc|done|lia].
Qed.

Lemma CONTROL_Handler : Handler OEM_1S_CONTROL_SENSOR_POLLING.
Proof.
  handler_start. unfold OEM_1S_CONTROL_SENSOR_POLLING.
  do 4 handler_step. handler_step; [contract|]. handler_step; [contract|]. handler_step; [contract|].
  rewrite Z.gtb_ltb in Heqb. apply Z.ltb_ge in Heqb. change MAX_CONTROL_SENSOR_POLLING_COUNT with 10 in Heqb.
  pose proof (wf_length _ Hm) as H527. change IPMI_MSG_MAX_LENGTH with 527 in *.
  assert (Hx : 0 <= x <= 10) by (unfold is_u8 in *; lia).
  apply wp_bind, wp_slice; [apply Hm|lia..|]. intros nums _ Hn Hnb.
  apply wp_bind. eapply (wp_st_for (fun i m' w' => answers m m' /\ ipmb_frame w w' /\
    is_u8 (w_bmc_enables w'))); [done| |].
  - intros i m' w' Hi (Ha' & Hf' & He').
    destruct (lookup_lt_is_Some_2 nums (Z.to_nat i)) as [num Hnum]; [lia|].
    assert (Hnu : is_u8 num) by (by eapply bytes_lookup).
    unfold control_step. apply wp_bind, wp_lift. rewrite (arr_get_Ret nums i num) by (first [done|lia]). cbn [rwp].
    apply wp_bind, wp_lift. rewrite (proj1 (config_index_get num Hnu)). cbn [rwp].
    do 2 handler_step. handler_step.
    + do 4 handler_step.
      eapply (wp_set_data m); [answers_side|change IPMI_MSG_MAX_LENGTH with 527; lia|by apply se_flag|]. intros ?.
      split; [done|]. split; [|done]. etrans; [exact Hf'|done].
    + eapply (wp_set_data m); [answers_side|change IPMI_MSG_MAX_LENGTH with 527; lia|by apply se_fail|done].
  - intros m' w' (Ha' & Hf' & He'). apply wp_ret. split; [|done].
    apply answers_cc; [|done]. apply answers_len; [done|]. change IPMI_MSG_MAX_LENGTH with 527. lia.
Qed.

(** CONTROL_SENSOR_POLLING for at most ten sensors: the flag of each
    listed sensor that the platform has is set in order, the others are left
    alone, and each is answered with its number and its new state. *)
Theorem control_polling_spec m w operation nums :
  wf_msg m ->
  operation = DISABLE_SENSOR_POLLING \/ operation = ENABLE_SENSOR_POLLING ->
  (length nums <= 10)%nat -> payload m = Z.of_nat (length nums) :: operation :: nums ->
  m_data_len m = 2 + Z.of_nat (length nums) ->
  OEM_1S_CONTROL_SENSOR_POLLING m w =
    Ret (reply_with (flat_map (polling_entry operation) nums) CC_SUCCESS m,
         w_set_ext (fold_left (polling_set operation) nums (w_ext w)) w).
Proof.
  intros Hm Hop H10 Hp Hl. pose proof (data_payload m) as Hd.
  pose proof (wf_length _ Hm) as H527. change IPMI_MSG_MAX_LENGTH with 527 in H527.
  assert (Hb : bytes nums).
  { assert (Hpb : bytes (payload m)) by (apply bytes_take, Hm). rewrite Hp in Hpb.
    by apply Forall_cons in Hpb as [_ [_ ?]%Forall_cons]. }
  rewrite Hp in Hd. set (rest := drop _ _) in Hd. clearbody rest. cbn [app] in Hd.
  unfold OEM_1S_CONTROL_SENSOR_POLLING. set (n := Z.of_nat (length nums)) in *.
  unfold bind at 1. rewrite (get_data_at _ 0 n) by (first [done | by rewrite Hd]).
  unfold lift at 1. cbn [rbind]. unfold bind at 1.
  rewrite (get_data_at _ 1 operation) by (first [done | by rewrite Hd]).
  unfold lift at 1. cbn [rbind]. change MAX_CONTROL_SENSOR_POLLING_COUNT with 10.
  rewrite Z.gtb_ltb, (proj2 (Z.ltb_ge 10 n)) by lia.
  replace (negb _ && negb _) with false
    by (symmetry; destruct Hop as [->| ->]; rewrite Z.eqb_refl; [done|apply andb_false_r]).
  rewrite (proj2 (Z.eqb_eq (m_data_len m - 2) n)) by lia. cbn [negb].
  unfold bind at 1, lift at 1. rewrite arr_slice_ok by lia. cbn [rbind].
  assert (Hs : take (Z.to_nat n) (drop (Z.to_nat 2) (m_data m)) = nums).
  { rewrite Hd. change (drop (Z.to_nat 2) _) with (nums ++ rest). unfold n. by rewrite Nat2Z.id, take_app_length. }
  rewrite Hs. replace (Z.to_nat n) with (length nums) by lia.
  pose proof (control_loop_run operation nums m nums [] w Hop eq_refl Hb ltac:(lia)) as Hrun.
  rewrite overwrite_nil in Hrun. cbn [length flat_map] in Hrun. change (Z.of_nat 0) with 0 in Hrun.
  replace (with_data (m_data m) m) with m in Hrun by (by destruct m).
  unfold bind. rewrite Hrun. cbn [rbind]. unfold ret, reply_with, reply. do 2 f_equal.
  rewrite length_polling. replace (2 * n) with (Z.of_nat (2 * length nums)) by lia. reflexivity.
Qed.
End Polling.

(** * Concrete sensors *)

(** Sensors 0 to 3 have a configuration; their flags are bits of the clock. *)
#[export] Instance sim_sensor : SensorSvc sim := {|
  GET_FROM_SENSOR := 1;
  SENSOR_NOT_PRESENT := 8;
  SENSOR_FAIL := 0xFF;
  DISABLE_SENSOR_POLLING := 0;
  ENABLE_SENSOR_POLLING := 1;
  sensor_config_index_map := [0; 1; 2; 3] ++ replicate 252 0xFF;
  enable_sensor_poll := sim_clock_set 0;
  disable_sensor_poll := sim_clock_set 1;
  get_enable_polling := fun i s => b2z (Z.testbit (s_clock s) i);
  set_enable_polling := fun i v s =>
    sim_clock_set (if z2b v then Z.setbit (s_clock s) i else Z.clearbit (s_clock s) i) s;
|}.

Lemma sim_sensor_laws : sensor_laws sim.
Proof.
  split; try done.
  - intros i e. cbn. by destruct (Z.testbit _ _).
  - intros i v e Hi Hv. assert (H0 : 0 <= i).
    { assert (Hall : bytes (sensor_config_index_map (E := sim))) by (by apply bytes_check).
      by apply (proj1 (Forall_forall _ _) Hall). }
    cbn. destruct Hv as [->| ->]; cbn [z2b]; change (z2b 0) with false; change (z2b 1) with true; cbn.
    + by rewrite Z.clearbit_eq.
    + by rewrite Z.setbit_eq.
Qed.

(** Two sensors answered with the 42 of every sensor: the answer has four
    bytes, so the query of many says nothing. *)
Lemma multi_reading_equiv_witness :
  exists m', OEM_1S_MULTI_ACCURACY_SENSOR_READING (data_msg [1; 2]) (sim_world sim0) =
    Ret (m', sim_world sim0) /\
    payload m' = 1 :: replicate 5 0xFF ++ 2 :: replicate 5 0xFF.
Proof.
  eexists. split.
  - rewrite (multi_reading_equiv (data_msg [1; 2]) (sim_world sim0)); [|apply sim_sensor_laws|by apply
      wf_data_msg; [apply bytes_check|cbn; lia]|done].
    vm_compute. reflexivity.
  - reflexivity.
Defined.

(** The sensors of [sim_oem] with a reading below zero. *)
Definition sim_cold : OemSvc sim :=
  {| SENSOR_READ_SUCCESS := 0;
     SENSOR_READ_ACUR_SUCCESS := 1;
     SENSOR_READ_4BYTE_ACUR_SUCCESS := 2;
     SENSOR_NOT_ACCESSIBLE := 3;
     SENSOR_INIT_STATUS := 4;
     SENSOR_POLLING_DISABLE := 5;
     SENSOR_FAIL_TO_ACCESS := 6;
     SENSOR_NOT_FOUND := 7;
     enable_sensor_poll_thread := fun _ => true;
     GET_FROM_CACHE := 0;
     get_sensor_reading := fun _ _ s => ((0, -5), s);
     calculate_MBR := calculate_MBR;
     sval_integer := sval_integer;
     sval_fraction := sval_fraction;
     CONFIG_ESPI := CONFIG_ESPI;
     ENABLE_FAN := ENABLE_FAN;
     GUID_WRITE_SUCCESS := GUID_WRITE_SUCCESS;
     GUID_INVALID_ID := GUID_INVALID_ID;
     GUID_OUT_OF_RANGE := GUID_OUT_OF_RANGE;
     GUID_FAIL_TO_ACCESS := GUID_FAIL_TO_ACCESS;
     set_system_guid := set_system_guid;
     FAN_AUTO_MODE := FAN_AUTO_MODE;
     FAN_MANUAL_MODE := FAN_MANUAL_MODE;
     FAN_SET_MANUAL_MODE := FAN_SET_MANUAL_MODE;
     FAN_SET_AUTO_MODE := FAN_SET_AUTO_MODE;
     FAN_GET_MODE := FAN_GET_MODE;
     MAX_FAN_DUTY_VALUE := MAX_FAN_DUTY_VALUE;
     MAX_FAN_PWM_INDEX_COUNT := MAX_FAN_PWM_INDEX_COUNT;
     INDEX_ALL_PWM := INDEX_ALL_PWM;
     pal_get_fan_ctrl_mode := pal_get_fan_ctrl_mode;
     pal_set_fan_ctrl_mode := pal_set_fan_ctrl_mode;
     pal_set_fan_duty := pal_set_fan_duty;
     guid_msg := guid_msg;
     fan_mode_u8 := fan_mode_u8;
     fan_auto_u8 := fan_auto_u8 |}.

Lemma accuracy_out_of_range_undefined_witness :
  @OEM_1S_ACCURACY_SENSOR_READING sim sim_cold sim_sensor (data_msg [7; 0]) (sim_world sim0) = UB.
Proof.
  by apply (@accuracy_out_of_range_undefined sim sim_cold sim_sensor (data_msg [7; 0]) (sim_world sim0)
    7 0 (-5) sim0); [done..|left|left|].
Defined.

(** Sensors 3 and 9 are switched on; the platform has no sensor 9. *)
Lemma control_polling_spec_witness :
  exists w', OEM_1S_CONTROL_SENSOR_POLLING (data_msg [2; 1; 3; 9]) (sim_world sim0) =
    Ret (reply_with [3; 1; 9; 0xFF] CC_SUCCESS (data_msg [2; 1; 3; 9]), w') /\
    s_clock (w_ext w') = 8.
Proof.
  eexists. split.
  - apply (control_polling_spec sim_sensor_laws (data_msg [2; 1; 3; 9]) (sim_world sim0) 1 [3; 9]).
    + by apply wf_data_msg; [apply bytes_check|cbn; lia].
    + by right.
    + cbn. lia.
    + reflexivity.
    + reflexivity.
  - reflexivity.
Defined.
