(* ===== verification/Oem1sBridge.v ===== *)
(** The commands of [ipmi/oem_1s_handler.c] that pass messages on - to another
    IPMB, to a voltage regulator, to the APML mailbox, to a PLDM endpoint - and
    [IPMI_OEM_1S_handler], which chooses between all OEM 1S commands. *)

From S2P Require Import Prelude IpmiDefs LibUtil World IpmbSeq IpmbSeqSpec IpmbApi IpmbTasks IpmbTaskSpec.
From S2P Require Import HandlerLib AppHandler StorageHandler OemHandler Oem1sBoard Oem1sFlash Oem1sSensor.

Definition COMPNT_CPLD : Z := 1.
Definition COMPNT_BIC : Z := 2.
Definition COMPNT_ME : Z := 3.
Definition COMPNT_BIOS : Z := 4.
Definition COMPNT_PVCCIN : Z := 5.
Definition COMPNT_PVCCFA_EHV_FIVRA : Z := 6.
Definition COMPNT_PVCCD_HV : Z := 7.
Definition COMPNT_PVCCINFAON : Z := 8.
Definition COMPNT_PVCCFA_EHV : Z := 9.

Definition BIC_FW_YEAR_MSB : Z := 0x20.
Definition BIC_FW_YEAR_LSB : Z := 0x24.
Definition BIC_FW_WEEK : Z := 0x25.
Definition BIC_FW_VER : Z := 0x01.
Definition BIC_FW_platform_0 : Z := 0x63.
Definition BIC_FW_platform_1 : Z := 0x6c.
Definition BIC_FW_platform_2 : Z := 0x00.

(** The fields of [apml_msg] that are used; [cb_fn] is always
    [apml_request_callback]. *)
Record apml_msg : Type := mk_apml_msg {
  apml_msg_type : Z;
  apml_bus : Z;
  apml_target_addr : Z;
  apml_WrData : list Z;
  apml_RdData : list Z;
  apml_ui32_arg : Z;
}.

(** [i2c_master_read bus addr tx rx_len retry] sends [tx] and returns a status
    and the bytes received; [sizeof_cpuid_WrData] and the like are the sizes of
    the APML structures, [WrData_len] that of [apml_msg.WrData], [pldm_buf_len]
    that of [pldm_msg.buf].  [mctp_pldm_read eid type cmd data] is the exchange
    with the endpoint found by [get_mctp_info_by_eid]. *)
Class BridgeSvc (E : Type) : Type := {
  ENABLE_ISL69260 : bool;
  PVCCIN_ADDR : Z;
  PVCCD_HV_ADDR : Z;
  PVCCFA_EHV_ADDR : Z;
  I2C_BUS5 : Z;
  PMBUS_IC_DEVICE_ID : Z;
  i2c_master_read : Z -> Z -> list Z -> Z -> Z -> E -> (Z * list Z) * E;
  sizeof_ipmi_msg : Z;
  apml_get_bus : E -> Z * E;
  SB_RMI_ADDR : Z;
  SB_TSI_ADDR : Z;
  apml_read_byte : Z -> Z -> Z -> E -> (Z * Z) * E;
  apml_write_byte : Z -> Z -> Z -> Z -> E -> Z * E;
  APML_MSG_TYPE_MAILBOX : Z;
  APML_MSG_TYPE_CPUID : Z;
  APML_MSG_TYPE_MCA : Z;
  SBRMI_CMD_CODE_LEN_TWO_BYTE : Z;
  get_sbrmi_command_code_len : E -> Z * E;
  sizeof_mailbox_WrData : Z;
  sizeof_cpuid_WrData : Z;
  sizeof_cpuid_WrData_TwoPOne : Z;
  sizeof_mca_WrData : Z;
  sizeof_mca_WrData_TwoPOne : Z;
  sizeof_mailbox_RdData : Z;
  sizeof_cpuid_RdData : Z;
  sizeof_mca_RdData : Z;
  WrData_len : Z;
  RdData_len : Z;
  apml_read : apml_msg -> E -> Z * E;
  get_apml_response_by_index : Z -> E -> (Z * apml_msg) * E;
  PLDM_MAX_DATA_SIZE : Z;
  pldm_buf_len : Z;
  get_mctp_info_by_eid : Z -> E -> bool * E;
  mctp_pldm_read : Z -> Z -> Z -> list Z -> list Z -> E -> (Z * list Z) * E;
  CONFIG_CRYPTO_ASPEED : bool;
  CONFIG_SNOOP_ASPEED : bool;
  CONFIG_PECI : bool;
  ENABLE_APML : bool;
  CONFIG_JTAG : bool;
  ENABLE_ASD : bool;
  CONFIG_I3C_ASPEED : bool;
}.

Section Handlers.
Context {E : Type} `{Kernel E} `{BridgeSvc E}.

(** * Bridging between IPMBs *)

Definition pal_extend_msg_out_interface_handler (msg : ipmi_msg) : Z := -1.

(** The target of a message to the peer BMC is the slot the request is not
    from; the network function of a storage request is shifted. *)
Definition peer_target (target_IF : Z) (msg : ipmi_msg) : ST (world E) (Z * ipmi_msg) :=
  if target_IF =? PEER_BMC_IPMB then
    let! (target_IF, msg) :=
      (if m_InF_source msg =? SLOT1_BIC then
         let! msg := lift (set_data 0 SLOT3_BIC msg) in ret (SLOT3_BIC, msg)
       else if m_InF_source msg =? SLOT3_BIC then
         let! msg := lift (set_data 0 SLOT1_BIC msg) in ret (SLOT1_BIC, msg)
       else ret (target_IF, with_cc CC_INVALID_DATA_FIELD msg)) in
    let! d1 := lift (get_data msg 1) in
    if d1 =? NETFN_STORAGE_REQ then
      let! msg := lift (set_data 1 (u8 (Z.shiftl d1 2)) msg) in ret (target_IF, msg)
    else ret (target_IF, msg)
  else ret (target_IF, msg).

(** The interface has no index, or its index is not in use. *)
Definition interface_disabled (target_IF : Z) : ST (world E) bool :=
  let! k := inf_index target_IF in
  if k =? RESERVED then ret true
  else
    let! cfg := get_cfg k in
    ret ((cfg_interface cfg =? RESERVED_IF) || negb (cfg_enable_status cfg)).

(** The message that is sent on: all but the first three bytes. *)
Definition msg_out_request (msg : ipmi_msg) : ST (world E) ipmi_msg :=
  let! d0 := lift (get_data msg 0) in
  let! d1 := lift (get_data msg 1) in
  let! d2 := lift (get_data msg 2) in
  let bridge_msg := with_data_len (u16 (m_data_len msg - 3)) zero_msg in
  let bridge_msg := with_seq_source (m_seq_source msg) bridge_msg in
  let bridge_msg := with_InF_target d0 bridge_msg in
  let bridge_msg := with_InF_source (m_InF_source msg) bridge_msg in
  let bridge_msg := with_netfn (Z.shiftr d1 2) bridge_msg in
  let bridge_msg := with_cmd d2 bridge_msg in
  let bridge_msg := with_pldm_inst_id (m_pldm_inst_id msg) bridge_msg in
  if negb (m_data_len bridge_msg =? 0) then
    let! d := lift (memcpy (m_data bridge_msg) 0 (m_data msg) 3 (m_data_len bridge_msg)) in
    ret (with_data d bridge_msg)
  else ret bridge_msg.

Definition msg_out_send (target_IF : Z) (msg : ipmi_msg) : ST (world E) ipmi_msg :=
  let! ok := ext (malloc_buf sizeof_ipmi_msg) in
  if negb ok then ret (with_cc CC_OUT_OF_SPACE msg)
  else
    let! bridge_msg := msg_out_request msg in
    let! k := inf_index target_IF in
    let! (status, _) := ipmb_send_request bridge_msg k in
    if ipmb_failed status then ret (with_cc CC_BRIDGE_MSG_ERR msg) else ret msg.

Definition OEM_1S_MSG_OUT (msg : ipmi_msg) : ST (world E) ipmi_msg :=
  let msg :=
    if negb (m_completion_code msg =? CC_INVALID_IANA) then with_cc CC_SUCCESS msg else msg in
  let msg := if m_data_len msg <=? 2 then with_cc CC_INVALID_LENGTH msg else msg in
  let! target_IF := lift (get_data msg 0) in
  let! (target_IF, msg) := peer_target target_IF msg in
  let! disabled := interface_disabled target_IF in
  if disabled && (pal_extend_msg_out_interface_handler msg =? 0) then ret msg
  else
    let msg := if disabled then with_cc CC_NOT_SUPP_IN_CURR_STATE msg else msg in
    let! msg := (if m_completion_code msg =? CC_SUCCESS then msg_out_send target_IF msg else ret msg) in
    if negb (m_completion_code msg =? CC_SUCCESS) then
      let msg := with_data_len 0 msg in
      do! respond_to_source (m_InF_source msg) msg in ret msg
    else ret msg.

Definition OEM_1S_BMC_IPMB_ACCESS (msg : ipmi_msg) : ST (world E) ipmi_msg :=
  if m_data_len msg <? 2 then ret (with_cc CC_INVALID_LENGTH msg)
  else
    let! disabled := interface_disabled BMC_IPMB in
    if disabled then ret (with_cc CC_NOT_SUPP_IN_CURR_STATE msg)
    else
      let! d0 := lift (get_data msg 0) in
      let! d1 := lift (get_data msg 1) in
      let msgtobmc := with_InF_target BMC_IPMB (with_InF_source SELF zero_msg) in
      let msgtobmc := with_cmd d1 (with_netfn d0 msgtobmc) in
      let msgtobmc := with_data_len (u16 (m_data_len msg - 2)) msgtobmc in
      let! d := lift (memcpy (m_data msgtobmc) 0 (m_data msg) 2 (m_data_len msgtobmc)) in
      let msgtobmc := with_data d msgtobmc in
      let! k := inf_index (m_InF_target msgtobmc) in
      let! (status, msgtobmc) := ipmb_read msgtobmc k in
      if ipmb_failed status then ret (with_cc CC_UNSPECIFIED_ERROR msg)
      else
        let msg := with_data_len (u16 (1 + m_data_len msgtobmc)) msg in
        let! msg := lift (set_data 0 (m_completion_code msgtobmc) msg) in
        let! d := lift (memcpy (m_data msg) 1 (m_data msgtobmc) 0 (m_data_len msgtobmc)) in
        ret (with_cc CC_SUCCESS (with_data d msg)).

(** * Versions *)

Definition me_version (msg : ipmi_msg) : ST (world E) ipmi_msg :=
  let! k := inf_index ME_IPMB in
  let! disabled := (if k =? RESERVED then ret true
                    else let! cfg := get_cfg k in ret (negb (cfg_enable_status cfg))) in
  if disabled then ret (with_cc CC_UNSPECIFIED_ERROR msg)
  else
    let! ok := ext (malloc_buf sizeof_ipmi_msg) in
    if negb ok then ret (with_cc CC_OUT_OF_SPACE msg)
    else
      let! bridge_msg := gets (fun w => uninit_msg (w_ext w)) in
      let bridge_msg := with_seq_source 0xff (with_data_len 0 bridge_msg) in
      let bridge_msg := with_InF_target ME_IPMB (with_InF_source SELF bridge_msg) in
      let bridge_msg := with_cmd CMD_APP_GET_DEVICE_ID (with_netfn NETFN_APP_REQ bridge_msg) in
      let! (status, bridge_msg) := ipmb_read bridge_msg k in
      if ipmb_failed status then ret (with_cc CC_BRIDGE_MSG_ERR msg)
      else
        let! b2 := lift (get_data bridge_msg 2) in
        let! b3 := lift (get_data bridge_msg 3) in
        let! b12 := lift (get_data bridge_msg 12) in
        let! b13 := lift (get_data bridge_msg 13) in
        let! msg := lift (set_bytes 0 [Z.land b2 0x7F; Z.shiftr b3 4; Z.land b3 0x0F; b12;
          Z.shiftr b13 4] msg) in
        ret (with_cc CC_SUCCESS (with_data_len 5 msg)).

Definition vr_addr (component : Z) : Z :=
  if (component =? COMPNT_PVCCIN) || (component =? COMPNT_PVCCFA_EHV_FIVRA) then PVCCIN_ADDR
  else if component =? COMPNT_PVCCD_HV then PVCCD_HV_ADDR
  else PVCCFA_EHV_ADDR.

(** The bytes of a block at the indices [idx], and the answer with them. *)
Fixpoint pick (rx idx : list Z) : res (list Z) :=
  match idx with
  | [] => Ret []
  | i :: idx' => rlet! v := arr_get rx i in rlet! vs := pick rx idx' in Ret (v :: vs)
  end.
Definition vr_answer (rx idx : list Z) (msg : ipmi_msg) : ST (world E) ipmi_msg :=
  let! vs := lift (pick rx idx) in
  let! msg := lift (set_bytes 0 vs msg) in
  ret (with_cc CC_SUCCESS (with_data_len (Z.of_nat (length idx)) msg)).

(** Does the block start with [id]? *)
Definition starts_with (id rx : list Z) : bool := bool_decide (take (length id) rx = id).

(** The regulator is recognised by its device number; each make keeps its
    version behind other commands. *)
Definition vr_version (component : Z) (msg : ipmi_msg) : ST (world E) ipmi_msg :=
  let read tx rx_len := ext (i2c_master_read I2C_BUS5 (vr_addr component) tx rx_len 3) in
  let write tx := ext (i2c_master_write I2C_BUS5 (vr_addr component) tx) in
  let fail := ret (with_cc CC_UNSPECIFIED_ERROR msg) in
  let! (r, id) := read [PMBUS_IC_DEVICE_ID] 7 in
  if negb (r =? 0) then fail
  else if starts_with [0x04; 0x00; 0x81; 0xD2; 0x49] id then
    let! r := write [0xC7; 0x94; 0x00] in
    if negb (r =? 0) then fail
    else
      let! (r, rx) := read [0xC5] 4 in
      if negb (r =? 0) then fail else vr_answer rx [3; 2; 1; 0] msg
  else if starts_with [0x06; 0x54; 0x49; 0x53; 0x68; 0x90; 0x00] id then
    let! (r, rx) := read [0xF4] 2 in
    if negb (r =? 0) then fail else vr_answer rx [1; 0] msg
  else
    let! i0 := lift (arr_get id 0) in
    let! i2 := lift (arr_get id 2) in
    if (i0 =? 0x02) && (i2 =? 0x8A) then
      let! r := write [0xFD; 0x04; 0x00; 0x00; 0x00; 0x00] in
      if negb (r =? 0) then fail
      else
        let! r := write [0xFE; 0x2D] in
        if negb (r =? 0) then fail
        else
          let! (r, rx) := read [0xFD] 5 in
          if negb (r =? 0) then fail else vr_answer rx [4; 3; 2; 1] msg
    else fail.

Definition OEM_1S_GET_FW_VERSION (msg : ipmi_msg) : ST (world E) ipmi_msg :=
  if negb (m_data_len msg =? 1) then ret (with_cc CC_INVALID_LENGTH msg)
  else
    let! component := lift (get_data msg 0) in
    if component =? COMPNT_CPLD then ret (with_cc CC_UNSPECIFIED_ERROR msg)
    else if component =? COMPNT_BIC then
      let! msg := lift (set_bytes 0 [BIC_FW_YEAR_MSB; BIC_FW_YEAR_LSB; BIC_FW_WEEK; BIC_FW_VER;
        BIC_FW_platform_0; BIC_FW_platform_1; BIC_FW_platform_2] msg) in
      ret (with_cc CC_SUCCESS (with_data_len 7 msg))
    else if component =? COMPNT_ME then me_version msg
    else if ENABLE_ISL69260 && (COMPNT_PVCCIN <=? component) && (component <=? COMPNT_PVCCFA_EHV)
    then vr_version component msg
    else ret (with_cc CC_UNSPECIFIED_ERROR msg).

(** * APML *)

(** The device a request names: 0 is RMI, 1 is TSI. *)
Definition apml_device (d0 : Z) : option Z :=
  if d0 =? 0x00 then Some SB_RMI_ADDR else if d0 =? 0x01 then Some SB_TSI_ADDR else None.

Definition OEM_1S_APML_READ (msg : ipmi_msg) : ST (world E) ipmi_msg :=
  if negb (m_data_len msg =? 2) then ret (with_cc CC_INVALID_LENGTH msg)
  else
    let! bus := ext apml_get_bus in
    let! d0 := lift (get_data msg 0) in
    match apml_device d0 with
    | Some addr =>
        let! d1 := lift (get_data msg 1) in
        let! (r, read_data) := ext (apml_read_byte bus addr d1) in
        if negb (r =? 0) then ret (with_cc CC_UNSPECIFIED_ERROR msg)
        else
          let! msg := lift (set_data 0 read_data msg) in
          ret (with_cc CC_SUCCESS (with_data_len 1 msg))
    | None => ret (with_cc CC_UNSPECIFIED_ERROR msg)
    end.

Definition OEM_1S_APML_WRITE (msg : ipmi_msg) : ST (world E) ipmi_msg :=
  if negb (m_data_len msg =? 3) then ret (with_cc CC_INVALID_LENGTH msg)
  else
    let! bus := ext apml_get_bus in
    let! d0 := lift (get_data msg 0) in
    let! cc :=
      (match apml_device d0 with
       | Some addr =>
           let! d1 := lift (get_data msg 1) in
           let! d2 := lift (get_data msg 2) in
           let! r := ext (apml_write_byte bus addr d1 d2) in
           ret (if negb (r =? 0) then CC_UNSPECIFIED_ERROR else CC_SUCCESS)
       | None => ret CC_UNSPECIFIED_ERROR
       end) in
    ret (with_data_len 0 (with_cc cc msg)).

(** The number of bytes a request of this type has. *)
Definition apml_wr_len (msg_type : Z) : ST (world E) (option Z) :=
  if msg_type =? APML_MSG_TYPE_MAILBOX then ret (Some sizeof_mailbox_WrData)
  else if msg_type =? APML_MSG_TYPE_CPUID then
    let! l := ext get_sbrmi_command_code_len in
    ret (Some (u8 (if l =? SBRMI_CMD_CODE_LEN_TWO_BYTE then sizeof_cpuid_WrData_TwoPOne
                   else sizeof_cpuid_WrData)))
  else if msg_type =? APML_MSG_TYPE_MCA then
    let! l := ext get_sbrmi_command_code_len in
    ret (Some (u8 (if l =? SBRMI_CMD_CODE_LEN_TWO_BYTE then sizeof_mca_WrData_TwoPOne
                   else sizeof_mca_WrData)))
  else ret None.

(** The static [index] is passed and returned. *)
Definition OEM_1S_SEND_APML_REQUEST (index : Z) (msg : ipmi_msg) : ST (world E) (Z * ipmi_msg) :=
  if m_data_len msg <? 1 then ret (index, with_cc CC_INVALID_LENGTH msg)
  else
    let! bus := ext apml_get_bus in
    let! d0 := lift (get_data msg 0) in
    let! wr_len := apml_wr_len d0 in
    match wr_len with
    | None => ret (index, with_cc CC_UNSPECIFIED_ERROR msg)
    | Some wr_len =>
        if negb (m_data_len msg =? 1 + wr_len) then ret (index, with_cc CC_INVALID_LENGTH msg)
        else
          let! wr := lift (memcpy (replicate (Z.to_nat WrData_len) 0) 0 (m_data msg) 1 wr_len) in
          let apml_data := mk_apml_msg d0 bus SB_RMI_ADDR wr (replicate (Z.to_nat RdData_len) 0) index in
          let! r := ext (apml_read apml_data) in
          if negb (r =? 0) then ret (index, with_cc CC_UNSPECIFIED_ERROR msg)
          else
            let! msg := lift (set_data 0 index msg) in
            ret (u8 (index + 1), with_cc CC_SUCCESS (with_data_len 1 msg))
    end.

Definition OEM_1S_GET_APML_RESPONSE (msg : ipmi_msg) : ST (world E) ipmi_msg :=
  if negb (m_data_len msg =? 1) then ret (with_cc CC_INVALID_LENGTH msg)
  else
    let! d0 := lift (get_data msg 0) in
    let! (r, apml_data) := ext (get_apml_response_by_index d0) in
    if negb (r =? 0) then ret (with_cc CC_UNSPECIFIED_ERROR msg)
    else
      let answer n :=
        let! d := lift (memcpy (m_data msg) 0 (apml_RdData apml_data) 0 n) in
        ret (with_cc CC_SUCCESS (with_data_len n (with_data d msg))) in
      if apml_msg_type apml_data =? APML_MSG_TYPE_MAILBOX then answer sizeof_mailbox_RdData
      else if apml_msg_type apml_data =? APML_MSG_TYPE_CPUID then answer sizeof_cpuid_RdData
      else if apml_msg_type apml_data =? APML_MSG_TYPE_MCA then answer sizeof_mca_RdData
      else ret (with_cc CC_UNSPECIFIED_ERROR msg).

(** * PLDM *)

Definition OEM_1S_SEND_MCTP_PLDM_COMMAND (msg : ipmi_msg) : ST (world E) ipmi_msg :=
  if m_data_len msg <? 3 then ret (with_cc CC_INVALID_LENGTH msg)
  else
    let resp_buf := replicate (Z.to_nat PLDM_MAX_DATA_SIZE) 0 in
    let! pldm_type := lift (get_data msg 1) in
    let! cmd := lift (get_data msg 2) in
    let len := u16 (m_data_len msg - 3) in
    let! buf := lift (memcpy (replicate (Z.to_nat pldm_buf_len) 0) 0 (m_data msg) 3 len) in
    let! eid := lift (get_data msg 0) in
    let! found := ext (get_mctp_info_by_eid eid) in
    if negb found then ret (with_cc CC_UNSPECIFIED_ERROR msg)
    else
      let! (resp_len, resp_buf) :=
        ext (mctp_pldm_read eid pldm_type cmd (take (Z.to_nat len) buf) resp_buf) in
      if resp_len =? 0 then ret (with_cc CC_CAN_NOT_RESPOND msg)
      else
        let! d := lift (memcpy (m_data msg) 0 resp_buf 0 resp_len) in
        ret (with_cc CC_SUCCESS (with_data_len resp_len (with_data d msg))).
End Handlers.

(** * Dispatch *)

Section Dispatch.
Context {E : Type} `{Kernel E} `{Storage E} `{OemSvc E} `{SensorSvc E} `{BoardSvc E}.
Context `{FlashSvc E} `{BridgeSvc E}.

(** The commands that do not use the static [index]; the build options guard
    their cases.  The second half of the switch, from the APML commands on: *)
Definition oem_1s_command_rest (msg : ipmi_msg) : ST (world E) ipmi_msg :=
  let cmd := m_cmd msg in
  if ENABLE_APML && (cmd =? CMD_OEM_1S_APML_READ) then OEM_1S_APML_READ msg
  else if ENABLE_APML && (cmd =? CMD_OEM_1S_APML_WRITE) then OEM_1S_APML_WRITE msg
  else if ENABLE_APML && (cmd =? CMD_OEM_1S_GET_APML_RESPONSE) then OEM_1S_GET_APML_RESPONSE msg
  else if CONFIG_JTAG && (cmd =? CMD_OEM_1S_SET_JTAG_TAP_STA) then OEM_1S_SET_JTAG_TAP_STA msg
  else if CONFIG_JTAG && (cmd =? CMD_OEM_1S_JTAG_DATA_SHIFT) then OEM_1S_JTAG_DATA_SHIFT msg
  else if CONFIG_JTAG && ENABLE_ASD && (cmd =? CMD_OEM_1S_ASD_INIT) then OEM_1S_ASD_INIT msg
  else if ENABLE_FAN && (cmd =? CMD_OEM_1S_SET_FAN_DUTY_AUTO) then OEM_1S_SET_FAN_DUTY_AUTO msg
  else if ENABLE_FAN && (cmd =? CMD_OEM_1S_GET_FAN_DUTY) then OEM_1S_GET_FAN_DUTY msg
  else if ENABLE_FAN && (cmd =? CMD_OEM_1S_GET_FAN_RPM) then OEM_1S_GET_FAN_RPM msg
  else if cmd =? CMD_OEM_1S_COPY_FLASH_IMAGE then OEM_1S_COPY_FLASH_IMAGE msg
  else if cmd =? CMD_GET_COPY_FLASH_STATUS then GET_COPY_FLASH_STATUS msg
  else if cmd =? CMD_OEM_1S_INFORM_PEER_SLED_CYCLE then OEM_1S_INFORM_PEER_SLED_CYCLE msg
  else if cmd =? CMD_OEM_1S_PEX_FLASH_READ then OEM_1S_PEX_FLASH_READ msg
  else if cmd =? CMD_OEM_1S_GET_FPGA_USER_CODE then OEM_1S_GET_FPGA_USER_CODE msg
  else if cmd =? CMD_OEM_1S_GET_BOARD_ID then OEM_1S_GET_BOARD_ID msg
  else if cmd =? CMD_OEM_1S_GET_CARD_TYPE then OEM_1S_GET_CARD_TYPE msg
  else if cmd =? CMD_OEM_1S_MULTI_ACCURACY_SENSOR_READING
  then OEM_1S_MULTI_ACCURACY_SENSOR_READING msg
  else if cmd =? CMD_OEM_1S_BRIDGE_I2C_MSG_BY_COMPNT then OEM_1S_BRIDGE_I2C_MSG_BY_COMPNT msg
  else if cmd =? CMD_OEM_1S_NOTIFY_PMIC_ERROR then OEM_1S_NOTIFY_PMIC_ERROR msg
  else if cmd =? CMD_OEM_1S_GET_SDR then OEM_1S_GET_SDR msg
  else if cmd =? CMD_OEM_1S_BMC_IPMB_ACCESS then OEM_1S_BMC_IPMB_ACCESS msg
  else if cmd =? CMD_OEM_1S_GET_HSC_STATUS then OEM_1S_GET_HSC_STATUS msg
  else if cmd =? CMD_OEM_1S_GET_BIOS_VERSION then OEM_1S_GET_BIOS_VERSION msg
  else if cmd =? CMD_OEM_1S_GET_PCIE_CARD_STATUS then OEM_1S_GET_PCIE_CARD_STATUS msg
  else if cmd =? CMD_OEM_1S_GET_PCIE_CARD_SENSOR_READING
  then OEM_1S_GET_PCIE_CARD_SENSOR_READING msg
  else if CONFIG_I3C_ASPEED && (cmd =? CMD_OEM_1S_WRITE_READ_DIMM) then OEM_1S_WRITE_READ_DIMM msg
  else if cmd =? CMD_OEM_1S_GET_DIMM_I3C_MUX_SELECTION then OEM_1S_GET_DIMM_I3C_MUX_SELECTION msg
  else if cmd =? CMD_OEM_1S_SAFE_WRITE_READ_M2_DATA then OEM_1S_SAFE_WRITE_READ_M2_DATA msg
  else if cmd =? CMD_OEM_1S_PRE_POWER_OFF_CONTROL then OEM_1S_PRE_POWER_OFF_CONTROL msg
  else if cmd =? CMD_OEM_1S_SET_DEVICE_ACTIVE then OEM_1S_SET_DEVICE_ACTIVE msg
  else if cmd =? CMD_OEM_1S_SET_ADD_DEBUG_SEL_MODE then OEM_1S_SET_ADD_DEBUG_SEL_MODE msg
  else if cmd =? CMD_OEM_1S_GET_PCIE_RETIMER_TYPE then OEM_1S_GET_PCIE_RETIMER_TYPE msg
  else if cmd =? CMD_OEM_1S_DEBUG_GET_HW_SIGNAL then OEM_1S_DEBUG_GET_HW_SIGNAL msg
  else if cmd =? CMD_OEM_1S_SEND_MCTP_PLDM_COMMAND then OEM_1S_SEND_MCTP_PLDM_COMMAND msg
  else if cmd =? CMD_OEM_1S_CLEAR_CMET then OEM_1S_CLEAR_CMET msg
  else ret (with_cc CC_INVALID_CMD (with_data_len 0 msg)).

(** The first half. *)
Definition oem_1s_command (msg : ipmi_msg) : ST (world E) ipmi_msg :=
  let cmd := m_cmd msg in
  if cmd =? CMD_OEM_1S_MSG_IN then ret msg
  else if cmd =? CMD_OEM_1S_MSG_OUT then OEM_1S_MSG_OUT msg
  else if cmd =? CMD_OEM_1S_GET_GPIO then OEM_1S_GET_GPIO msg
  else if cmd =? CMD_OEM_1S_SET_GPIO then ret msg
  else if cmd =? CMD_OEM_1S_GET_GPIO_CONFIG then OEM_1S_GET_GPIO_CONFIG msg
  else if cmd =? CMD_OEM_1S_SET_GPIO_CONFIG then OEM_1S_SET_GPIO_CONFIG msg
  else if cmd =? CMD_OEM_1S_FW_UPDATE then OEM_1S_FW_UPDATE msg
  else if cmd =? CMD_OEM_1S_GET_BIC_FW_INFO then OEM_1S_GET_BIC_FW_INFO msg
  else if cmd =? CMD_OEM_1S_GET_FW_VERSION then OEM_1S_GET_FW_VERSION msg
  else if cmd =? CMD_OEM_1S_INFORM_BMC_TO_CONTROL_POWER
  then OEM_1S_INFORM_BMC_TO_CONTROL_POWER msg
  else if cmd =? CMD_OEM_1S_RESET_BMC then OEM_1S_RESET_BMC msg
  else if cmd =? CMD_OEM_1S_READ_FW_IMAGE then OEM_1S_READ_FW_IMAGE msg
  else if cmd =? CMD_OEM_1S_SET_WDT_FEED then OEM_1S_SET_WDT_FEED msg
  else if cmd =? CMD_OEM_1S_SENSOR_POLL_EN then OEM_1S_SENSOR_POLL_EN msg
  else if cmd =? CMD_OEM_1S_ACCURACY_SENSOR_READING then OEM_1S_ACCURACY_SENSOR_READING msg
  else if cmd =? CMD_OEM_1S_GET_SET_GPIO then OEM_1S_GET_SET_GPIO msg
  else if cmd =? CMD_OEM_1S_GET_SET_BIC_VGPIO then OEM_1S_GET_SET_BIC_VGPIO msg
  else if cmd =? CMD_OEM_1S_CONTROL_SENSOR_POLLING then OEM_1S_CONTROL_SENSOR_POLLING msg
  else if CONFIG_CRYPTO_ASPEED && (cmd =? CMD_OEM_1S_GET_FW_SHA256) then OEM_1S_GET_FW_SHA256 msg
  else if cmd =? CMD_OEM_1S_I2C_DEV_SCAN then OEM_1S_I2C_DEV_SCAN msg
  else if cmd =? CMD_OEM_1S_GET_BIC_STATUS then OEM_1S_GET_BIC_STATUS msg
  else if cmd =? CMD_OEM_1S_SET_VR_MONITOR_STATUS then OEM_1S_SET_VR_MONITOR_STATUS msg
  else if cmd =? CMD_OEM_1S_GET_VR_MONITOR_STATUS then OEM_1S_GET_VR_MONITOR_STATUS msg
  else if cmd =? CMD_OEM_1S_RESET_BIC then OEM_1S_RESET_BIC msg
  else if cmd =? CMD_OEM_1S_GET_SET_M2 then OEM_1S_GET_SET_M2 msg
  else if cmd =? CMD_OEM_1S_SET_SSD_LED then OEM_1S_SET_SSD_LED msg
  else if cmd =? CMD_OEM_1S_GET_SSD_STATUS then OEM_1S_GET_SSD_STATUS msg
  else if cmd =? CMD_OEM_1S_12V_CYCLE_SLOT then OEM_1S_12V_CYCLE_SLOT msg
  else if cmd =? CMD_OEM_1S_READ_BIC_REGISTER then OEM_1S_READ_BIC_REGISTER msg
  else if cmd =? CMD_OEM_1S_WRITE_BIC_REGISTER then OEM_1S_WRITE_BIC_REGISTER msg
  else if cmd =? CMD_OEM_1S_CLEAR_CMOS then OEM_1S_CLEAR_CMOS msg
  else if CONFIG_SNOOP_ASPEED && (cmd =? CMD_OEM_1S_GET_POST_CODE) then OEM_1S_GET_POST_CODE msg
  else if cmd =? CMD_OEM_1S_GET_4BYTE_POST_CODE then OEM_1S_GET_4BYTE_POST_CODE msg
  else if CONFIG_PECI && (cmd =? CMD_OEM_1S_PECI_ACCESS) then OEM_1S_PECI_ACCESS msg
  else oem_1s_command_rest msg.

Definition IPMI_OEM_1S_handler (index : Z) (msg : ipmi_msg) : ST (world E) (Z * ipmi_msg) :=
  if ENABLE_APML && (m_cmd msg =? CMD_OEM_1S_SEND_APML_REQUEST) then
    OEM_1S_SEND_APML_REQUEST index msg
  else let! msg := oem_1s_command msg in ret (index, msg).
End Dispatch.

(** * Contracts *)

(** What the modules behind the class give: values have their type, answers
    fit the structures they are read from. *)
Record bridge_laws {E} `{BridgeSvc E} : Prop := {
  bl_apml_byte : forall b a o e r v e', apml_read_byte b a o e = (r, v, e') -> is_u8 v;
  bl_wr : Forall (fun n => 0 <= n <= WrData_len /\ n < 256) [sizeof_mailbox_WrData; sizeof_cpuid_WrData;
    sizeof_cpuid_WrData_TwoPOne; sizeof_mca_WrData; sizeof_mca_WrData_TwoPOne];
  bl_rd : Forall (fun n => 0 <= n <= RdData_len /\ n < 256) [sizeof_mailbox_RdData; sizeof_cpuid_RdData;
    sizeof_mca_RdData];
  bl_response : forall i e r a e', get_apml_response_by_index i e = (r, a, e') -> r = 0 ->
    Z.of_nat (length (apml_RdData a)) = RdData_len /\ bytes (apml_RdData a);
  bl_pldm_buf : IPMI_MSG_MAX_LENGTH - 3 <= pldm_buf_len;
  bl_pldm : forall i t c d b e n b' e', mctp_pldm_read i t c d b e = (n, b', e') ->
    keeps_buffer b b' /\ 0 <= n <= Z.of_nat (length b);
  bl_pldm_max : 0 <= PLDM_MAX_DATA_SIZE <= IPMI_MSG_MAX_LENGTH;
}.
Arguments bridge_laws E {_}.

(** [memcpy(&msg->data[i], src, n)] *)
Lemma wp_memcpy_data {E} m0 m i src n (Q : list Z -> world E -> Prop) w :
  answers m0 m -> bytes src -> 0 <= i -> 0 <= n <= Z.of_nat (length src) -> i + n <= IPMI_MSG_MAX_LENGTH ->
  (let d := overwrite (Z.to_nat i) (take (Z.to_nat n) src) (m_data m) in
   answers m0 (with_data d m) -> Q d w) ->
  wp (lift (memcpy (m_data m) i src 0 n)) Q w.
Proof.
  intros Ha Hs Hi Hn Hin HQ. pose proof (wf_length _ (an_wf _ _ Ha)) as H527. apply wp_lift.
  unfold memcpy. rewrite arr_slice_ok by lia. cbn [rbind]. change (Z.to_nat 0) with O. rewrite drop_0.
  assert (Ht : length (take (Z.to_nat n) src) = Z.to_nat n) by (rewrite length_take; lia).
  rewrite arr_blit_ok by lia. apply HQ. apply answers_data; [done| |].
  - rewrite length_overwrite; lia.
  - apply bytes_overwrite; [by apply bytes_take|apply wf_bytes, Ha].
Qed.

Section BridgeContracts.
Context {E : Type} `{Kernel E} `{BridgeSvc E}.
Context (BL : bridge_laws E).
Implicit Types w : world E.

#[export] Instance APML_READ_Handler : Handler OEM_1S_APML_READ.
Proof.
  handler_start. unfold OEM_1S_APML_READ. handler_step; [contract|]. do 4 handler_step.
  destruct (apml_device x); [|contract]. do 2 handler_step. handler_step. apply wp_ext.
  intros [r v] e' Hr. cbv beta iota. pose proof (bl_apml_byte BL _ _ _ _ _ _ _ Hr) as Hv.
  contract.
Qed.

#[export] Instance APML_WRITE_Handler : Handler OEM_1S_APML_WRITE.
Proof.
  handler_start. unfold OEM_1S_APML_WRITE. handler_step; [contract|]. do 4 handler_step.
  handler_step. destruct (apml_device x); [|contract].
  do 6 handler_step. handler_step. split; [|done].
  apply answers_len; [|done]. apply answers_cc; [done|]. by case_match.
Qed.

Lemma apml_wr_len_run t w :
  wp (apml_wr_len t) (fun n w' => quiet w w' /\
    match n with Some n => 0 <= n <= WrData_len | None => True end) w.
Proof.
  pose proof (bl_wr BL) as Hw. rewrite !Forall_cons in Hw. destruct Hw as (Hw1 & Hw2 & Hw3 & Hw4 & Hw5 & _).
  assert (Hu : forall n, 0 <= n <= WrData_len /\ n < 256 -> 0 <= u8 n <= WrData_len).
  { intros n Hn. rewrite u8_small by (unfold is_u8; lia). lia. }
  unfold apml_wr_len. handler_step; [apply wp_ret; split; [exists (w_ext w); by destruct w|lia]|].
  handler_step; [|handler_step; [|apply wp_ret; split; [exists (w_ext w); by destruct w|done]]];
    do 2 handler_step; apply wp_ret; (split; [by eexists|]); apply Hu; by case_match.
Qed.

(** The number that is answered is the one the next request increments. *)
Lemma SEND_APML_run index m w :
  is_u8 index -> wf_msg m -> m_data_len m <= IPMI_MSG_MAX_LENGTH -> is_u8 (w_bmc_enables w) ->
  wp (OEM_1S_SEND_APML_REQUEST index m) (fun r w' => is_u8 r.1 /\ answers m r.2 /\
    ipmb_frame w w' /\ is_u8 (w_bmc_enables w')) w.
Proof.
  intros Hidx Hm Hl He. pose proof (answers_refl m Hm Hl) as Ha.
  assert (Herr : forall cc w', is_u8 cc -> quiet w w' -> wp (ret (index, with_cc cc m))
    (fun r w' => is_u8 r.1 /\ answers m r.2 /\ ipmb_frame w w' /\ is_u8 (w_bmc_enables w')) w').
  { intros cc w' Hcc [e ->]. apply wp_ret. split; [done|]. split; [by apply answers_cc|done]. }
  unfold OEM_1S_SEND_APML_REQUEST. handler_step; [apply Herr; [done|exists (w_ext w); by destruct w]|].
  do 4 handler_step. handler_step. eapply wp_mono; [apply apml_wr_len_run|].
  intros [n|] w1 [Hq Hn]; [|apply Herr; [done|eapply quiet_step; [by eexists|done]]].
  destruct Hq as [e1 ->]. cbn [w_set_ext]. handler_step; [apply Herr; [done|by eexists]|].
  apply negb_false_iff, Z.eqb_eq in Heqb0. pose proof (wf_length _ Hm) as H527.
  apply wp_bind, wp_lift. unfold memcpy. rewrite arr_slice_ok by lia. cbn [rbind].
  rewrite arr_blit_ok by (rewrite ?length_take, ?length_drop, ?length_replicate; lia). cbn [rwp].
  do 2 handler_step. handler_step; [apply Herr; [done|by eexists]|]. do 2 handler_step. handler_step.
  split; [apply u8_range|]. split; [cbn [snd]; answers_side|done].
Qed.

#[export] Instance APML_RESPONSE_Handler : Handler OEM_1S_GET_APML_RESPONSE.
Proof.
  handler_start. unfold OEM_1S_GET_APML_RESPONSE. handler_step; [contract|]. do 2 handler_step.
  handler_step. apply wp_ext. intros [r a] e Hr. cbv beta iota. handler_step; [contract|].
  apply negb_false_iff, Z.eqb_eq in Heqb0. subst r.
  destruct (bl_response BL _ _ _ _ _ Hr eq_refl) as [Hrl Hrb].
  pose proof (bl_rd BL) as Hw. rewrite !Forall_cons in Hw. destruct Hw as (Hw1 & Hw2 & Hw3 & _).
  pose proof (wf_length _ Hm) as H527. change IPMI_MSG_MAX_LENGTH with 527 in *.
  assert (Hans : forall n, 0 <= n <= RdData_len /\ n < 256 ->
    wp (let! d := lift (memcpy (m_data m) 0 (apml_RdData a) 0 n) in
        ret (with_cc CC_SUCCESS (with_data_len n (with_data d m))))
      (fun m' w' => answers m m' /\ ipmb_frame w w' /\ is_u8 (w_bmc_enables w')) (w_set_ext e w)).
  { intros n Hn. apply wp_bind, (wp_memcpy_data m); [done|done|lia|lia|change IPMI_MSG_MAX_LENGTH with 527; lia|].
    intros d Hd. apply wp_ret. split; [|done]. apply answers_cc; [|done].
    apply answers_len; [done|]. change IPMI_MSG_MAX_LENGTH with 527. lia. }
  do 3 (handler_step; [by apply Hans|]). contract.
Qed.

#[export] Instance PLDM_Handler : Handler OEM_1S_SEND_MCTP_PLDM_COMMAND.
Proof.
  handler_start. unfold OEM_1S_SEND_MCTP_PLDM_COMMAND. handler_step; [contract|].
  do 4 handler_step. pose proof (wf_length _ Hm) as H527. change IPMI_MSG_MAX_LENGTH with 527 in *.
  pose proof (bl_pldm_buf BL) as Hbuf. pose proof (bl_pldm_max BL) as Hmax.
  change IPMI_MSG_MAX_LENGTH with 527 in *.
  rewrite (u16_small (m_data_len m - 3)) by (unfold is_u16; lia).
  apply wp_bind, wp_lift. unfold memcpy at 1. rewrite arr_slice_ok by lia. cbn [rbind].
  rewrite arr_blit_ok by (rewrite ?length_take, ?length_drop, ?length_replicate; lia). cbn [rwp].
  do 4 handler_step. handler_step; [contract|]. handler_step. apply wp_ext. intros [n b] e2 Hr.
  cbv beta iota. destruct (bl_pldm BL _ _ _ _ _ _ _ _ _ Hr) as [Hkb Hn].
  destruct Hkb as [Hbl Hbb]; [by apply bytes_replicate|]. rewrite length_replicate in *.
  handler_step; [contract|].
  apply wp_bind, (wp_memcpy_data m); [done|done|lia|lia|change IPMI_MSG_MAX_LENGTH with 527; lia|].
  intros d Hd. apply wp_ret. split; [|done]. apply answers_cc; [|done].
  apply answers_len; [done|]. change IPMI_MSG_MAX_LENGTH with 527. lia.
Qed.
End BridgeContracts.

(** * The commands that stay on this controller *)

(** [ipmb_frame] without the power flags, which SET_VR_MONITOR_STATUS sets. *)
Record queues_frame {E} (w w' : world E) : Prop := {
  qf_heap : w_heap w' = w_heap w;
  qf_ch : w_ch w' = w_ch w;
  qf_table : w_table w' = w_table w;
  qf_map : w_map w' = w_map w;
  qf_init : w_mutex_init w' = w_mutex_init w;
  qf_held : w_held w' = w_held w;
}.

Lemma ipmb_queues {E} (w w' : world E) : ipmb_frame w w' -> queues_frame w w'.
Proof. by intros []. Qed.

(** The commands that use the IPMB, and those that read outside their buffers
    for some requests. *)
Definition local_command (cmd : Z) : Prop :=
  cmd ∉ [CMD_OEM_1S_MSG_OUT; CMD_OEM_1S_GET_FW_VERSION; CMD_OEM_1S_BMC_IPMB_ACCESS;
    CMD_OEM_1S_GET_SET_GPIO; CMD_OEM_1S_JTAG_DATA_SHIFT].

(** A local command whose access to an address, if it makes one, is defined. *)
Definition local_request {E} `{FlashSvc E} (m : ipmi_msg) : Prop :=
  local_command (m_cmd m) /\
  (m_cmd m = CMD_OEM_1S_READ_BIC_REGISTER -> read_defined m = true) /\
  (m_cmd m = CMD_OEM_1S_WRITE_BIC_REGISTER -> write_defined m = true).

Section LocalCommands.
Context {E : Type} `{Kernel E} `{Storage E} `{OemSvc E} `{SensorSvc E} `{BoardSvc E}.
Context `{FlashSvc E} `{BridgeSvc E}.
Context (SDL : storage_laws E) (SL : sensor_laws E) (FL : flash_laws E) (BL : bridge_laws E).
Context (Hfit : readings_fit (E := E)).
Implicit Types w : world E.

(** The contract for the messages with [P]. *)
Definition answers_when (P : ipmi_msg -> Prop) (h : ipmi_msg -> ST (world E) ipmi_msg) : Prop :=
  forall m w, P m -> wf_msg m -> m_data_len m <= IPMI_MSG_MAX_LENGTH -> is_u8 (w_bmc_enables w) ->
    wp (h m) (fun m' w' => answers m m' /\ queues_frame w w' /\ is_u8 (w_bmc_enables w')) w.

Lemma answers_when_if P (b : ipmi_msg -> bool) h1 h2 :
  answers_when (fun m => P m /\ b m = true) h1 -> answers_when P h2 ->
  answers_when P (fun m => if b m then h1 m else h2 m).
Proof. intros H1' H2' m w HP. destruct (b m) eqn:Hb; [by apply H1'|by apply H2']. Qed.

Lemma answers_when_handler P h : Handler h -> answers_when P h.
Proof.
  intros Hh m w _ Hm Hl He. eapply wp_mono; [by apply Hh|]. intros m' w' (? & Hf & ?).
  split; [done|]. split; [by apply ipmb_queues|done].
Qed.

(** No local command has this number. *)
Lemma answers_when_not cmd g h :
  ~ local_command cmd -> answers_when (fun m => local_request m /\ g && (m_cmd m =? cmd) = true) h.
Proof. intros Hn m w [[HP _] [_ Heq%Z.eqb_eq]%andb_true_iff]. by rewrite Heq in HP. Qed.
Lemma answers_when_not' cmd h :
  ~ local_command cmd -> answers_when (fun m => local_request m /\ (m_cmd m =? cmd) = true) h.
Proof. intros Hn m w [[HP _] Heq%Z.eqb_eq]. by rewrite Heq in HP. Qed.

(** The two register commands. *)
Lemma READ_REGISTER_answers :
  answers_when (fun m => local_request m /\ (m_cmd m =? CMD_OEM_1S_READ_BIC_REGISTER) = true)
    OEM_1S_READ_BIC_REGISTER.
Proof.
  intros m w [(_ & Hr & _) Hc%Z.eqb_eq] Hm Hl He.
  eapply wp_mono; [apply (READ_REGISTER_run FL m w); auto|].
  intros m' w' (? & Hf%ipmb_queues & ?). by split.
Qed.
Lemma WRITE_REGISTER_answers :
  answers_when (fun m => local_request m /\ (m_cmd m =? CMD_OEM_1S_WRITE_BIC_REGISTER) = true)
    OEM_1S_WRITE_BIC_REGISTER.
Proof.
  intros m w [(_ & _ & Hr) Hc%Z.eqb_eq] Hm Hl He.
  eapply wp_mono; [apply (WRITE_REGISTER_run FL m w); auto|].
  intros m' w' (? & Hf%ipmb_queues & ?). by split.
Qed.

Lemma SET_VR_answers P : answers_when P OEM_1S_SET_VR_MONITOR_STATUS.
Proof.
  intros m w _ Hm Hl He. pose proof (answers_refl m Hm Hl) as Ha. unfold OEM_1S_SET_VR_MONITOR_STATUS.
  handler_step; [contract|]. do 2 handler_step.
  repeat (handler_step; try apply wp_bind, wp_modify); (split; [handler_side|done]).
Qed.

(** One case of the switch. *)
Ltac command_case :=
  apply answers_when_if;
    [first [ apply answers_when_handler; first [apply _ | by apply handler_empty | apply handler_none]
           | apply SET_VR_answers | apply READ_REGISTER_answers | apply WRITE_REGISTER_answers
           | apply answers_when_not'; intros Hn; by apply Hn, (bool_decide_unpack _)
           | apply answers_when_not; intros Hn; by apply Hn, (bool_decide_unpack _) ]|].

Lemma oem_1s_command_rest_run : answers_when local_request oem_1s_command_rest.
Proof.
  pose proof (APML_READ_Handler BL). pose proof (APML_RESPONSE_Handler BL). pose proof (PLDM_Handler BL).
  pose proof (MULTI_Handler SL Hfit). pose proof (GET_SDR_Handler SDL) as Hsdr.
  change (Handler OEM_1S_GET_SDR) in Hsdr.
  unfold oem_1s_command_rest. repeat command_case.
  apply answers_when_handler. by apply handler_empty.
Qed.

Lemma oem_1s_command_run : answers_when local_request oem_1s_command.
Proof.
  pose proof (READ_FW_Handler FL). pose proof (SHA256_Handler FL).
  pose proof (POST_CODE_Handler FL). pose proof (POST_CODE4_Handler FL). pose proof (PECI_Handler FL).
  pose proof (ACCURACY_Handler Hfit). pose proof (CONTROL_Handler SL).
  unfold oem_1s_command. repeat command_case. apply oem_1s_command_rest_run.
Qed.
End LocalCommands.

Section Bridging.
Context {E : Type} `{Kernel E} `{BridgeSvc E}.
Implicit Types w : world E.

(** Where a message for [target] goes and its network function byte. *)
Definition out_target (source target nl : Z) : option (Z * Z) :=
  if target =? PEER_BMC_IPMB then
    let nl := if nl =? NETFN_STORAGE_REQ then u8 (Z.shiftl nl 2) else nl in
    if source =? SLOT1_BIC then Some (SLOT3_BIC, nl)
    else if source =? SLOT3_BIC then Some (SLOT1_BIC, nl) else None
  else Some (target, nl).

(** The request that is sent on for a MSG_OUT with these bytes. *)
Definition out_request (target nl cmd : Z) (data : list Z) (m : ipmi_msg) : ipmi_msg :=
  with_pldm_inst_id (m_pldm_inst_id m) (with_cmd cmd (with_netfn (Z.shiftr nl 2)
    (with_InF_source (m_InF_source m) (with_InF_target target
      (with_seq_source (m_seq_source m) (data_msg data)))))).

(** Index [k] is set up and in use. *)
Definition in_use (w : world E) (inf k : Z) (ch : channel) (cfg : IPMB_config) : Prop :=
  0 <= inf /\ w_map w !! Z.to_nat inf = Some k /\ k <> RESERVED /\ ready w k ch cfg /\
  cfg_interface cfg <> RESERVED_IF /\ cfg_enable_status cfg = true.

Lemma wp_inf_index inf k (Q : Z -> world E -> Prop) w :
  0 <= inf -> w_map w !! Z.to_nat inf = Some k -> Q k w -> wp (inf_index inf) Q w.
Proof. intros H0' Hk HQ. apply wp_bind, wp_gets, wp_lift. by rewrite (arr_get_Ret _ _ k). Qed.

Lemma interface_enabled inf k ch cfg (Q : bool -> world E -> Prop) w :
  in_use w inf k ch cfg -> Q false w -> wp (interface_disabled inf) Q w.
Proof.
  intros (Hi & Hk & Hr & [H0k _ Hcfg _ _ _ _ _ _] & Hif & Hen) HQ. unfold interface_disabled.
  apply wp_bind, (wp_inf_index _ k); [done..|]. rewrite (proj2 (Z.eqb_neq _ _) Hr).
  apply wp_bind, (wp_get_cfg _ cfg); [done..|]. apply wp_ret.
  by rewrite (proj2 (Z.eqb_neq _ _) Hif), Hen.
Qed.

(** Sending a request leaves every index ready. *)
Lemma ready_sent i ch cfg req w r w' k chk cfgk :
  send_request_post i ch cfg req w r w' -> w_ch w !! Z.to_nat i = Some ch -> 0 <= i ->
  ready w k chk cfgk -> exists chk', ready w' k chk' cfgk.
Proof.
  intros (_ & _ & Hg & Hpost) Hch Hi Hrd. destruct Hpost as [(_ & _ & ->)|(_ & s & c & Hs & _ & Hchs & _)].
  { exists chk. eapply ready_quiet; [exact Hrd|by eexists]. }
  destruct Hrd as [Hk Hck Hcfg Hwf H1 H2 H3 H4 H5]. destruct Hg as [Gt _ _ _ _ _ Gi].
  destruct (decide (k = i)) as [->|Hne].
  - simplify_eq. exists (ch_set_current_seq s ch). split; try congruence; try done.
    + rewrite Hchs. by apply list_lookup_insert_eq, (in_channel w _ ch).
    + cbn. unfold is_u8, SEQ_NUM in *. lia.
  - exists chk. split; try congruence; try done. rewrite Hchs. rewrite list_lookup_insert_ne; [done|lia].
Qed.

Lemma msg_out_request_run m w target nl cmd data :
  m_data m = target :: nl :: cmd :: data ++ drop (3 + length data) (m_data m) ->
  m_data_len m = 3 + Z.of_nat (length data) -> (length data <= 524)%nat ->
  msg_out_request m w = Ret (out_request target nl cmd data m, w).
Proof.
  intros Hd Hlen H524. set (rest := drop _ _) in Hd. clearbody rest.
  assert (H527 : Z.of_nat (length (m_data m)) = 3 + Z.of_nat (length data) + Z.of_nat (length rest)).
  { rewrite Hd. cbn [length]. rewrite length_app. lia. }
  unfold msg_out_request.
  unfold bind at 1. rewrite (get_data_at _ 0 target) by (first [done | by rewrite Hd]).
  unfold lift at 1. cbn [rbind]. unfold bind at 1.
  rewrite (get_data_at _ 1 nl) by (first [done | by rewrite Hd]). unfold lift at 1. cbn [rbind].
  unfold bind at 1. rewrite (get_data_at _ 2 cmd) by (first [done | by rewrite Hd]).
  unfold lift at 1. cbn [rbind].
  rewrite Hlen. replace (3 + Z.of_nat (length data) - 3) with (Z.of_nat (length data)) by lia.
  rewrite u16_small by (unfold is_u16; lia).
  cbn [m_data_len with_pldm_inst_id with_cmd with_netfn with_InF_source with_InF_target
    with_seq_source with_data_len].
  destruct (Z.eqb_spec (Z.of_nat (length data)) 0) as [Hz|Hz]; cbn [negb].
  - destruct data; [|done]. reflexivity.
  - unfold bind, lift, memcpy. rewrite arr_slice_ok by lia. cbn [rbind].
    assert (Hs : take (Z.to_nat (Z.of_nat (length data))) (drop (Z.to_nat 3) (m_data m)) = data).
    { rewrite Hd. change (drop (Z.to_nat 3) _) with (data ++ rest). by rewrite Nat2Z.id, take_app_length. }
    rewrite Hs, arr_blit_ok by (change (length (m_data _)) with 527%nat; lia). cbn [rbind].
    change (m_data (with_pldm_inst_id _ _)) with (replicate 527 0).
    change (Z.to_nat 0) with O. cbn [take app Nat.add]. rewrite take_0, drop_replicate. reflexivity.
Qed.

Lemma peer_target_run m w target nl cmd tail t' nl' :
  m_data m = target :: nl :: cmd :: tail -> out_target (m_InF_source m) target nl = Some (t', nl') ->
  peer_target target m w = Ret ((t', with_data (t' :: nl' :: cmd :: tail) m), w).
Proof.
  intros Hd Ho. unfold peer_target, out_target in *. destruct (target =? PEER_BMC_IPMB).
  2: { injection Ho as <- <-. rewrite <- Hd. by destruct m. }
  assert (Hrun : forall s, (let! d1 := lift (get_data (with_data (s :: nl :: cmd :: tail) m) 1) in
      if d1 =? NETFN_STORAGE_REQ then
        let! msg := lift (set_data 1 (u8 (Z.shiftl d1 2)) (with_data (s :: nl :: cmd :: tail) m)) in
        ret (s, msg)
      else ret (s, with_data (s :: nl :: cmd :: tail) m)) w =
    Ret ((s, with_data (s :: (if nl =? NETFN_STORAGE_REQ then u8 (Z.shiftl nl 2) else nl) :: cmd :: tail) m), w)).
  { intros s. unfold bind at 1. rewrite (get_data_at _ 1 nl) by done. unfold lift at 1. cbn [rbind].
    destruct (nl =? NETFN_STORAGE_REQ); [|done]. unfold bind, lift.
    by rewrite set_data_at by (cbn [m_data with_data length]; lia). }
  assert (Hset : forall s, set_data 0 s m = Ret (with_data (s :: nl :: cmd :: tail) m)).
  { intros s. rewrite set_data_at by (rewrite Hd; cbn [length]; lia). by rewrite Hd. }
  destruct (m_InF_source m =? SLOT1_BIC); [|destruct (m_InF_source m =? SLOT3_BIC); [|done]];
    injection Ho as <- <-; unfold bind at 1 2; unfold lift at 1; rewrite Hset; apply Hrun.
Qed.
End Bridging.

Section BridgeTheorems.
Context {E : Type} `{Kernel E} `{BridgeSvc E}.
Implicit Types w : world E.

Lemma wf_out_request target nl cmd data m :
  wf_msg m -> is_u8 target -> is_u8 nl -> is_u8 cmd -> bytes data -> (length data <= 524)%nat ->
  wf_msg (out_request target nl cmd data m).
Proof.
  intros Hm Ht Hn Hc Hb Hl. unfold out_request.
  assert (is_u8 (Z.shiftr nl 2)).
  { unfold is_u8 in *. change (2 ^ 8) with 256 in *. rewrite Z.shiftr_div_pow2 by lia.
    change (2 ^ 2) with 4. Z.div_mod_to_equations. lia. }
  assert (Hd : wf_msg (data_msg data)) by (apply wf_data_msg; [done|lia]).
  wf_auto.
Qed.

(** What [ipmb_send_request] does outside with the request [req] for index [k],
    from [e] to [e']: it takes the lock of the index and, when it gets it, puts
    the request into the transmit queue. *)
Definition send_tried (k : Z) (cfg : IPMB_config) (req : ipmi_msg) (e : E) (st : ipmb_error) (e' : E) : Prop :=
  if (k_mutex_lock (mutex_send_req k) 1000 e).1 =? 0 then
    exists s c, request_queued cfg req s c /\ sent (mutex_send_req k) k c e st e'
  else st = IPMB_ERROR_MUTEX_LOCK /\ e' = locked (mutex_send_req k) 1000 e.

(** What passing [req] on does outside, and the code that says how far it got:
    a buffer is asked for first. *)
Definition request_passed (k : Z) (cfg : IPMB_config) (req : ipmi_msg) (e : E) (cc : Z) (e' : E) : Prop :=
  let '(ok, e1) := malloc_buf sizeof_ipmi_msg e in
  if ok then exists st, send_tried k cfg req e1 st e' /\
    cc = (if ipmb_failed st then CC_BRIDGE_MSG_ERR else CC_SUCCESS)
  else cc = CC_OUT_OF_SPACE /\ e' = e1.

(** What answering with [m] through index [k] does outside. *)
Definition answer_passed (k : Z) (cfg : IPMB_config) (m : ipmi_msg) (e e' : E) : Prop :=
  if (k_mutex_lock mutex_send_res 1000 e).1 =? 0 then
    exists c st, response_queued cfg m c /\ sent mutex_send_res k c e st e'
  else e' = locked mutex_send_res 1000 e.

(** The outcome of sending a valid message on. *)
Lemma msg_out_send_run m w t nl cmd data k ch cfg ks chs cfgs :
  wf_msg m -> m_data m = t :: nl :: cmd :: data ++ drop (3 + length data) (m_data m) ->
  m_data_len m = 3 + Z.of_nat (length data) -> (length data <= 524)%nat ->
  in_use w t k ch cfg -> ready w ks chs cfgs -> m_completion_code m = CC_SUCCESS ->
  wp (msg_out_send t m) (fun m' w' => w_map w' = w_map w /\
    (exists chs', ready w' ks chs' cfgs) /\
    exists cc, m' = with_cc cc m /\
      request_passed k cfg (out_request t nl cmd data m) (w_ext w) cc (w_ext w')) w.
Proof.
  intros Hm Hd Hlen H524 (Ht & Hmap & Hr & Hrd & _) Hrds Hcc. unfold msg_out_send.
  assert (Hb : bytes (m_data m)) by apply Hm. rewrite Hd in Hb.
  apply Forall_cons in Hb as [Hbt [Hbn [Hbc [Hbd _]%Forall_app]%Forall_cons]%Forall_cons].
  apply wp_bind, wp_ext. intros ok e Hok. set (w1 := w_set_ext e w). unfold request_passed. rewrite Hok.
  destruct ok; cbn [negb].
  2: { apply wp_ret. split; [done|]. split; [exists chs; by apply (ready_quiet w); [|exists e]|].
    by exists CC_OUT_OF_SPACE. }
  apply wp_bind. eapply wp_of_eq; [by apply msg_out_request_run|].
  apply wp_bind, (wp_inf_index _ k); [done..|]. apply wp_bind.
  assert (Hrd1 : ready w1 k ch cfg) by (apply (ready_quiet w); [done|by exists e]).
  eapply wp_mono; [apply (send_request_run k ch cfg _ w1); [done|by apply wf_out_request|]|].
  { change IPMI_MSG_MAX_LENGTH with 527. cbn. lia. }
  intros [st m2] w2 Hpost.
  assert (Hmap2 : w_map w2 = w_map w) by apply (sg_map _ _ (proj1 (proj2 (proj2 Hpost)))).
  assert (Hrds2 : exists chs', ready w2 ks chs' cfgs).
  { eapply (ready_sent k ch cfg _ w1); [exact Hpost|apply Hrd1|apply Hrd1|].
    apply (ready_quiet w); [done|by exists e]. }
  assert (Htried : send_tried k cfg (out_request t nl cmd data m) e st (w_ext w2)).
  { unfold send_tried. destruct Hpost as (_ & _ & _ & [(Hf & [= -> ->] & ->)|(Hf & s & c & _ & _ & _ & _ & Hc & Hs)]);
      unfold lock_fails in Hf; change (w_ext w1) with e in *.
    - by rewrite (proj2 (Z.eqb_neq _ 0) Hf).
    - cbn [fst] in Hs. destruct (Z.eqb_spec (k_mutex_lock (mutex_send_req k) 1000 e).1 0); [by exists s, c|done]. }
  assert (Hpass : forall m', m' = with_cc (if ipmb_failed st then CC_BRIDGE_MSG_ERR else CC_SUCCESS) m ->
    exists cc, m' = with_cc cc m /\ exists st', send_tried k cfg (out_request t nl cmd data m) e st' (w_ext w2) /\
      cc = (if ipmb_failed st' then CC_BRIDGE_MSG_ERR else CC_SUCCESS)).
  { intros m' ->. eexists. split; [done|]. by exists st. }
  destruct (ipmb_failed st); apply wp_ret; (split; [done|]); (split; [done|]); apply Hpass; [done|].
  rewrite <- Hcc. by destruct m.
Qed.

(** The end of every failed message: an empty answer to the sender. *)
Lemma respond_run m w ks chs cfgs (Q : unit -> world E -> Prop) :
  wf_msg m -> m_data_len m <= IPMI_MSG_MAX_LENGTH ->
  m_InF_source m <> PLDM -> m_InF_source m <> MCTP ->
  w_map w !! Z.to_nat (m_InF_source m) = Some ks -> ready w ks chs cfgs ->
  (forall w', answer_passed ks cfgs m (w_ext w) (w_ext w') -> Q tt w') ->
  wp (respond_to_source (m_InF_source m) m) Q w.
Proof.
  intros Hm Hl Hp Hc Hmap Hrd HQ. unfold respond_to_source.
  rewrite (proj2 (Z.eqb_neq _ _) Hp), (proj2 (Z.eqb_neq _ _) Hc). cbn [orb].
  apply wp_bind, (wp_inf_index _ ks); [apply Hm|done|]. apply wp_bind.
  eapply wp_mono; [by apply (send_response_run ks chs cfgs)|].
  intros st w' [_ Hpost]; apply wp_skip, HQ. unfold answer_passed.
  destruct Hpost as [(Hf & _ & ->)|(Hf & c & Hc' & Hs)]; [by rewrite (proj2 (Z.eqb_neq _ 0) Hf)|].
  destruct (Z.eqb_spec (k_mutex_lock mutex_send_res 1000 (w_ext w)).1 0); [by exists c, st|done].
Qed.

(** C19: MSG_OUT for an interface in use asks for a buffer, then takes the
    lock of that interface and puts into its transmit queue the request the
    bytes name - network function, command and all bytes behind the third,
    under the identity of the sender.  The completion code is CC_OUT_OF_SPACE
    exactly when there is no buffer, CC_BRIDGE_MSG_ERR exactly when the lock or
    the queue refuses, and CC_SUCCESS otherwise.  On success nothing else is
    done and the message is left as it came; on failure the answer
    is empty and is put into the queue of the sender's interface, unless the
    lock of the responses is refused.  A message to the peer BMC goes to the
    other slot. *)
Theorem msg_out_spec m w target nl cmd data t' nl' k ch cfg ks chs cfgs :
  wf_msg m -> payload m = target :: nl :: cmd :: data ->
  m_data_len m = 3 + Z.of_nat (length data) -> (length data <= 524)%nat ->
  m_completion_code m <> CC_INVALID_IANA ->
  out_target (m_InF_source m) target nl = Some (t', nl') -> in_use w t' k ch cfg ->
  m_InF_source m <> PLDM -> m_InF_source m <> MCTP ->
  w_map w !! Z.to_nat (m_InF_source m) = Some ks -> ready w ks chs cfgs ->
  wp (OEM_1S_MSG_OUT m) (fun m' w' => exists (e : E),
    request_passed k cfg (out_request t' nl' cmd data m) (w_ext w) (m_completion_code m') e /\
    if m_completion_code m' =? CC_SUCCESS then payload m' = t' :: nl' :: cmd :: data /\ w_ext w' = e
    else payload m' = [] /\ answer_passed ks cfgs m' e (w_ext w')) w.
Proof.
  intros Hm Hp Hlen H524 Hcc Hout Huse Hpl Hmc Hmap Hrd.
  pose proof (data_payload m) as Hd. rewrite Hp in Hd. set (rest := drop _ _) in Hd.
  assert (Hrl : (length rest = 524 - length data)%nat).
  { pose proof (wf_length _ Hm) as H527. change IPMI_MSG_MAX_LENGTH with 527 in H527.
    rewrite Hd in H527. cbn [length app] in H527. rewrite length_app in H527. lia. }
  clearbody rest. cbn [app] in Hd. unfold OEM_1S_MSG_OUT.
  rewrite (proj2 (Z.eqb_neq _ _) Hcc). cbn [negb]. set (m0 := with_cc CC_SUCCESS m).
  replace (m_data_len m0 <=? 2) with false by (symmetry; apply Z.leb_gt; cbn; lia).
  apply wp_bind, (wp_get_data_at _ 0 target); [done|by cbn; rewrite Hd|].
  apply wp_bind. eapply wp_of_eq; [by apply (peer_target_run m0 w target nl cmd (data ++ rest) t' nl')|].
  cbv beta iota. set (m1 := with_data _ m0).
  apply wp_bind, (interface_enabled _ k ch cfg); [done|]. cbn [andb].
  change (m_completion_code m1 =? CC_SUCCESS) with true. cbv iota. apply wp_bind.
  assert (Hb : bytes (m_data m)) by apply Hm. rewrite Hd in Hb.
  apply Forall_cons in Hb as [Hbt [Hbn Hbr]%Forall_cons].
  assert (Hm1 : wf_msg m1).
  { apply wf_with_data; [by apply wf_with_completion_code| |].
    - cbn [length]. rewrite length_app, Hrl. change IPMI_MSG_MAX_LENGTH with 527. lia.
    - unfold out_target in Hout. repeat case_match; simplify_eq;
        repeat (apply bytes_cons; [first [done | apply u8_range]|]); done. }
  eapply wp_mono; [apply (msg_out_send_run m1 w t' nl' cmd data k ch cfg ks chs cfgs)|].
  { done. } { unfold m1. cbn [m_data with_data]. do 3 f_equal. cbn [Nat.add drop]. by rewrite drop_app_length. }
  { done. } { done. } { done. } { done. } { done. }
  intros m2 w2 (Hmap2 & [chs' Hrd2] & cc & -> & Hpass).
  change (m_completion_code (with_cc cc m1)) with cc.
  destruct (Z.eqb_spec cc CC_SUCCESS) as [->|Hne]; cbn [negb].
  { apply wp_ret. exists (w_ext w2). split; [exact Hpass|]. split; [|done].
    unfold payload. cbn [m_data m_data_len with_cc with_completion_code m1 m0 with_data].
    rewrite Hlen. replace (Z.to_nat (3 + _)) with (3 + length data)%nat by lia.
    cbn [Nat.add]. rewrite !firstn_cons. by rewrite take_app_length. }
  assert (Hcc8 : is_u8 cc).
  { unfold request_passed in Hpass. destruct malloc_buf as [[] ?]; [|by destruct Hpass as [-> _]].
    destruct Hpass as (st & _ & ->). by destruct (ipmb_failed st). }
  apply wp_bind. eapply (respond_run (with_data_len 0 (with_cc cc m1)) w2 ks chs' cfgs).
  - apply wf_with_data_len; [|done]. by apply wf_with_completion_code.
  - done.
  - done.
  - done.
  - by rewrite Hmap2.
  - done.
  - intros w' Hans. apply wp_ret. exists (w_ext w2). split; [exact Hpass|].
    change (m_completion_code (with_data_len 0 (with_cc cc m1))) with cc.
    rewrite (proj2 (Z.eqb_neq _ _) Hne). by split.
Qed.

(** The interface number of a MSG_OUT is not compared with the size of
    the index map, not even when the message is too short to be sent. *)
Theorem msg_out_target_unchecked m w target rest :
  m_data m = target :: rest -> target <> PEER_BMC_IPMB ->
  Z.of_nat (length (w_map w)) <= target -> OEM_1S_MSG_OUT m w = UB.
Proof.
  intros Hd Ht Hl. unfold OEM_1S_MSG_OUT.
  set (m0 := if negb (m_completion_code m =? CC_INVALID_IANA) then with_cc CC_SUCCESS m else m).
  set (m1 := if m_data_len m0 <=? 2 then with_cc CC_INVALID_LENGTH m0 else m0).
  assert (Hd1 : m_data m1 = target :: rest).
  { unfold m1, m0. by repeat case_match. }
  clearbody m1. unfold bind at 1. rewrite (get_data_at _ 0 target) by (first [done | by rewrite Hd1]).
  unfold lift at 1. cbn [rbind]. unfold bind at 1, peer_target.
  rewrite (proj2 (Z.eqb_neq _ _) Ht). unfold ret at 1. cbn [rbind].
  unfold bind at 1, interface_disabled. unfold bind at 1, inf_index. unfold bind at 1, gets. cbn [rbind].
  unfold lift. rewrite arr_get_UB by lia. done.
Qed.
End BridgeTheorems.

Section AccessTheorems.
Context {E : Type} `{Kernel E} `{BridgeSvc E}.
Implicit Types w : world E.

(** The request of BMC_IPMB_ACCESS. *)
Definition access_request (netfn cmd : Z) (data : list Z) : ipmi_msg :=
  with_cmd cmd (with_netfn netfn (with_InF_target BMC_IPMB (with_InF_source SELF (data_msg data)))).

(** What the receive queue hands out leaves room for its completion code. *)
Definition responses_fit : Prop := forall i t (e : E) r e',
  k_msgq_get_rx i t e = (Some r, e') -> wf_msg r /\ m_data_len r < IPMI_MSG_MAX_LENGTH.

(** The message as [ipmb_read] is given it. *)
Lemma access_request_run m netfn cmd data :
  m_data m = netfn :: cmd :: data ++ drop (2 + length data) (m_data m) -> (length data <= 525)%nat ->
  (rlet! d := memcpy (m_data zero_msg) 0 (m_data m) 2 (Z.of_nat (length data)) in
   Ret (with_data d (with_data_len (Z.of_nat (length data)) (with_cmd cmd (with_netfn netfn
     (with_InF_target BMC_IPMB (with_InF_source SELF zero_msg))))))) =
  Ret (access_request netfn cmd data).
Proof.
  intros Hd Hl. set (rest := drop _ _) in Hd. clearbody rest.
  assert (H527 : Z.of_nat (length (m_data m)) = 2 + Z.of_nat (length data) + Z.of_nat (length rest)).
  { rewrite Hd. cbn [length]. rewrite length_app. lia. }
  unfold memcpy. rewrite arr_slice_ok by lia. cbn [rbind].
  assert (Hs : take (Z.to_nat (Z.of_nat (length data))) (drop (Z.to_nat 2) (m_data m)) = data).
  { rewrite Hd. change (drop (Z.to_nat 2) _) with (data ++ rest). by rewrite Nat2Z.id, take_app_length. }
  rewrite Hs, arr_blit_ok by (change (length (m_data zero_msg)) with 527%nat; lia). cbn [rbind].
  change (m_data zero_msg) with (replicate 527 0).
  change (Z.to_nat 0) with O. cbn [take app Nat.add]. rewrite take_0, drop_replicate. reflexivity.
Qed.

Lemma wf_access_request netfn cmd data :
  is_u8 netfn -> is_u8 cmd -> bytes data -> (length data <= 525)%nat ->
  wf_msg (access_request netfn cmd data).
Proof.
  intros Hn Hc Hb Hl. assert (Hd : wf_msg (data_msg data)) by (apply wf_data_msg; [done|lia]).
  unfold access_request. wf_auto.
Qed.

(** The response as the answer. *)
Lemma access_answer_run m r w :
  wf_msg m -> m_data_len m <= IPMI_MSG_MAX_LENGTH -> wf_msg r -> m_data_len r < IPMI_MSG_MAX_LENGTH ->
  wp (let msg := with_data_len (u16 (1 + m_data_len r)) m in
      let! msg := lift (set_data 0 (m_completion_code r) msg) in
      let! d := lift (memcpy (m_data msg) 1 (m_data r) 0 (m_data_len r)) in
      ret (with_cc CC_SUCCESS (with_data d msg)))
    (fun m' w' => w' = w /\ m_completion_code m' = CC_SUCCESS /\
      payload m' = m_completion_code r :: payload r) w.
Proof.
  intros Hm Hml Hr Hl. pose proof (wf_length _ Hr) as Hr527. pose proof (wf_data_len _ Hr) as [Hr0 _].
  pose proof (wf_length _ Hm) as H527. change IPMI_MSG_MAX_LENGTH with 527 in *.
  rewrite u16_small by (unfold is_u16; lia). cbv zeta. set (m1 := with_data_len _ m).
  apply wp_bind, wp_lift. rewrite set_data_at by (cbn; lia). cbn [rwp m_data with_data].
  set (m2 := with_data _ m1).
  assert (Ha2 : answers m m2).
  { apply answers_data; [apply answers_len; [by apply answers_refl|change IPMI_MSG_MAX_LENGTH with 527; lia]| |].
    - rewrite length_insert. change IPMI_MSG_MAX_LENGTH with 527. exact H527.
    - apply Forall_insert; [apply Hm|apply Hr]. }
  apply wp_bind, (wp_memcpy_data m m2); [done|apply Hr|lia|lia|change IPMI_MSG_MAX_LENGTH with 527; lia|].
  intros d _. apply wp_ret. split; [done|]. split; [done|]. unfold payload at 1.
  cbn [m_data m_data_len with_cc with_completion_code with_data m2 m1 with_data_len].
  assert (Hp : length (payload r) = Z.to_nat (m_data_len r)) by (unfold payload; rewrite length_take; lia).
  unfold d. fold (payload r). change (Z.to_nat 1) with 1%nat. change (Z.to_nat 0) with O.
  assert (Ht : take 1 (m_data m2) = [m_completion_code r]).
  { unfold m2, m1. cbn [m_data with_data with_data_len]. destruct (m_data m); [cbn in H527; lia|done]. }
  unfold overwrite. rewrite Ht.
  replace (Z.to_nat (1 + m_data_len r)) with (S (length (payload r))) by lia.
  cbn [app]. rewrite firstn_cons. by rewrite take_app_length.
Qed.

(** BMC_IPMB_ACCESS answers with the completion code and the data of the
    message it took from the receive queue, which it emptied under the lock of
    the readers, after its request was queued for the BMC; on any failure the
    request is returned under an error code.  The locks are as before. *)
Theorem bmc_access_spec m w netfn cmd data k ch cfg l :
  responses_fit -> wf_msg m -> payload m = netfn :: cmd :: data ->
  m_data_len m = 2 + Z.of_nat (length data) -> (length data <= 525)%nat ->
  in_use w BMC_IPMB k ch cfg -> holds w k ch l ->
  wp (OEM_1S_BMC_IPMB_ACCESS m) (fun m' w' => w_held w' = w_held w /\
    (m' = with_cc CC_UNSPECIFIED_ERROR m \/
     exists s c (e1 e2 : E) r, request_queued cfg (access_request netfn cmd data) s c /\
       sent (mutex_send_req k) k c
         (k_msgq_purge_rx k (locked mutex_read (IPMB_SEQ_TIMEOUT_MS + 10) (w_ext w))) IPMB_ERROR_SUCCESS e1 /\
       k_msgq_get_rx k IPMB_SEQ_TIMEOUT_MS e1 = (Some r, e2) /\ w_ext w' = k_mutex_unlock mutex_read e2 /\
       m_completion_code m' = CC_SUCCESS /\ payload m' = m_completion_code r :: payload r)) w.
Proof.
  intros Hfit Hm Hp Hlen H525 Huse Hh. pose proof (wf_length _ Hm) as H527.
  change IPMI_MSG_MAX_LENGTH with 527 in H527.
  assert (Hd : m_data m = netfn :: cmd :: data ++ drop (2 + length data) (m_data m)).
  { pose proof (data_payload m) as Hd. rewrite Hp, Hlen in Hd.
    by replace (Z.to_nat (2 + Z.of_nat (length data))) with (2 + length data)%nat in Hd by lia. }
  assert (Hb : bytes (m_data m)) by apply Hm. rewrite Hd in Hb.
  apply Forall_cons in Hb as [Hbn [Hbc [Hbd _]%Forall_app]%Forall_cons].
  unfold OEM_1S_BMC_IPMB_ACCESS. rewrite (proj2 (Z.ltb_ge _ _)) by lia.
  apply wp_bind, (interface_enabled _ k ch cfg); [done|].
  apply wp_bind, (wp_get_data_at _ 0 netfn); [done|by rewrite Hd|].
  apply wp_bind, (wp_get_data_at _ 1 cmd); [done|by rewrite Hd|].
  rewrite Hlen. replace (2 + Z.of_nat (length data) - 2) with (Z.of_nat (length data)) by lia.
  rewrite u16_small by (unfold is_u16; lia).
  pose proof (access_request_run m netfn cmd data Hd H525) as Hreq.
  apply wp_bind, wp_lift.
  change (m_data (with_data_len _ _)) with (m_data zero_msg).
  change (m_data_len (with_data_len ?n _)) with n.
  destruct (memcpy _ _ _ _ _) as [d| |]; cbn [rbind] in Hreq; [|done..]. cbn [rwp].
  injection Hreq as ->.
  change (with_data (data ++ _) _) with (access_request netfn cmd data).
  destruct Huse as (H0b & Hmap & Hr & Hrd & _).
  apply wp_bind, (wp_inf_index _ k); [done..|]. apply wp_bind.
  eapply wp_mono; [apply (ipmb_read_run k ch cfg l); [done|done|by apply wf_access_request|]|].
  { change IPMI_MSG_MAX_LENGTH with 527. cbn. lia. }
  intros [st r] w2 [Hheld Hpost]. cbn [fst snd] in Hpost.
  destruct st; cbn [ipmb_failed]; try (apply wp_ret; split; [done|]; by left).
  destruct Hpost as (e1 & e2 & s & c & Hq & Hs & Hget & Hext).
  destruct (Hfit _ _ _ _ _ Hget) as [Hwr Hlr].
  eapply wp_mono; [apply (access_answer_run m r w2); [done|change IPMI_MSG_MAX_LENGTH with 527; lia|done|done]|].
  intros m' w' (-> & Hcc & Hpay). split; [done|]. right. by exists s, c, e1, e2, r.
Qed.
End AccessTheorems.

(** * All local commands *)

Section DispatchTheorems.
Context {E : Type} `{Kernel E} `{Storage E} `{OemSvc E} `{SensorSvc E} `{BoardSvc E}.
Context `{FlashSvc E} `{BridgeSvc E}.
Implicit Types w : world E.

End DispatchTheorems.

(** * Concrete modules *)

(** An APML mailbox that echoes, a PLDM endpoint that answers 0. *)
#[export] Instance sim_bridge : BridgeSvc sim := {|
  ENABLE_ISL69260 := true;
  PVCCIN_ADDR := 0x60;
  PVCCD_HV_ADDR := 0x62;
  PVCCFA_EHV_ADDR := 0x76;
  I2C_BUS5 := 4;
  PMBUS_IC_DEVICE_ID := 0xAD;
  i2c_master_read := fun _ _ _ n _ s => ((0, replicate (Z.to_nat n) 0), s);
  sizeof_ipmi_msg := 564;
  apml_get_bus := fun s => (9, s);
  SB_RMI_ADDR := 0x3C;
  SB_TSI_ADDR := 0x4C;
  apml_read_byte := fun _ _ o s => ((0, u8 o), s);
  apml_write_byte := fun _ _ _ _ s => (0, s);
  APML_MSG_TYPE_MAILBOX := 0;
  APML_MSG_TYPE_CPUID := 1;
  APML_MSG_TYPE_MCA := 2;
  SBRMI_CMD_CODE_LEN_TWO_BYTE := 2;
  get_sbrmi_command_code_len := fun s => (1, s);
  sizeof_mailbox_WrData := 5;
  sizeof_cpuid_WrData := 8;
  sizeof_cpuid_WrData_TwoPOne := 9;
  sizeof_mca_WrData := 7;
  sizeof_mca_WrData_TwoPOne := 8;
  sizeof_mailbox_RdData := 5;
  sizeof_cpuid_RdData := 8;
  sizeof_mca_RdData := 8;
  WrData_len := 9;
  RdData_len := 8;
  apml_read := fun _ s => (0, s);
  get_apml_response_by_index := fun i s =>
    ((0, mk_apml_msg 0 9 0x3C (replicate 9 0) (replicate 8 0) i), s);
  PLDM_MAX_DATA_SIZE := 512;
  pldm_buf_len := 524;
  get_mctp_info_by_eid := fun _ s => (true, s);
  mctp_pldm_read := fun _ _ _ _ b s => ((Z.min 1 (Z.of_nat (length b)), b), s);
  CONFIG_CRYPTO_ASPEED := true;
  CONFIG_SNOOP_ASPEED := true;
  CONFIG_PECI := true;
  ENABLE_APML := true;
  CONFIG_JTAG := true;
  ENABLE_ASD := true;
  CONFIG_I3C_ASPEED := true;
|}.

Lemma sim_bridge_laws : bridge_laws sim.
Proof.
  split; cbn.
  - intros b a o e r v e' [= _ <- _]. apply u8_range.
  - repeat constructor; lia.
  - repeat constructor; lia.
  - intros i e r a e' [= _ <- _] _. split; [done|]. by apply bytes_check.
  - done.
  - intros i t c d b e n b' e' [= <- <- _]. split; [done|]. lia.
  - done.
Qed.

Lemma sim_readings_fit : readings_fit (E := sim).
Proof. by intros n o e st r e' [= <- <- _] _. Qed.


(** A GET_DEVICE_ID for the BMC is queued. *)
Lemma msg_out_spec_witness :
  wp (OEM_1S_MSG_OUT (data_msg [BMC_IPMB; 0x18; 0x01; 0xAA])) (fun m' w' =>
    m_completion_code m' = CC_SUCCESS /\ length (s_txq (w_ext w')) = 1%nat) (world1 sim0).
Proof.
  eapply wp_mono; [apply (msg_out_spec (data_msg [BMC_IPMB; 0x18; 0x01; 0xAA]) (world1 sim0)
    BMC_IPMB 0x18 0x01 [0xAA] BMC_IPMB 0x18 0 chan1 (mk_IPMB_config 0 I2C_IF BMC_IPMB 1 0x20 true 0x40)
    0 chan1 (mk_IPMB_config 0 I2C_IF BMC_IPMB 1 0x20 true 0x40))|].
  - by apply wf_data_msg; [apply bytes_check|cbn; lia].
  - reflexivity.
  - reflexivity.
  - cbn. lia.
  - done.
  - reflexivity.
  - split; [done|]. split; [reflexivity|]. split; [done|]. split; [apply ready1|done].
  - done.
  - done.
  - reflexivity.
  - apply ready1.
  - intros m' w' (e & (st & (s & c & _ & r & e1 & [= <- <-] & -> & ->) & Hcc) & Hrest).
    cbn in Hcc. rewrite Hcc in *. split; [done|]. by destruct Hrest as [_ ->].
Defined.

Lemma msg_out_target_unchecked_witness :
  OEM_1S_MSG_OUT (data_msg [200]) (world1 sim0) = UB.
Proof.
  apply (msg_out_target_unchecked (data_msg [200]) (world1 sim0) 200 (replicate 526 0)).
  - reflexivity.
  - done.
  - by vm_compute.
Defined.

(** The kernel with a receive queue that always holds a response of two bytes. *)
Definition rx_kernel : Kernel sim :=
  {| k_mutex_lock := k_mutex_lock;
     k_mutex_unlock := k_mutex_unlock;
     malloc := malloc;
     malloc_buf := malloc_buf;
     uninit_msg := uninit_msg;
     uninit_bytes := uninit_bytes;
     osKernelGetSysTimerCount := osKernelGetSysTimerCount;
     k_msleep := k_msleep;
     k_msgq_put_tx := k_msgq_put_tx;
     k_msgq_get_tx := k_msgq_get_tx;
     k_msgq_put_rx := k_msgq_put_rx;
     k_msgq_get_rx := fun _ _ s => (Some (data_msg [0x20; 0x01]), s);
     k_msgq_purge_rx := k_msgq_purge_rx;
     k_msgq_put_ipmi := k_msgq_put_ipmi;
     k_msgq_num_free_ipmi := k_msgq_num_free_ipmi;
     k_msgq_purge_ipmi := k_msgq_purge_ipmi;
     i2c_master_write := i2c_master_write;
     ipmb_slave_read := ipmb_slave_read;
     pldm_send_ipmi_response := pldm_send_ipmi_response;
     pldm_send_ipmi_request := pldm_send_ipmi_request;
     malloc_fresh := malloc_fresh;
     uninit_msg_wf := uninit_msg_wf;
     uninit_bytes_length := uninit_bytes_length;
     uninit_bytes_bytes := uninit_bytes_bytes;
     slave_read_u8 := slave_read_u8;
     timer_is_u32 := timer_is_u32 |}.

Lemma rx_responses_fit : @responses_fit sim rx_kernel.
Proof.
  intros i t e r e' [= <- _]. split; [|done]. by apply wf_data_msg; [apply bytes_check|cbn; lia].
Qed.

Lemma bmc_access_spec_witness :
  wp (@OEM_1S_BMC_IPMB_ACCESS sim rx_kernel (data_msg [0x06; 0x01])) (fun m' w' => w_held w' = [])
    (world1 sim0).
Proof.
  eapply wp_mono; [apply (@bmc_access_spec sim rx_kernel (data_msg [0x06; 0x01]) (world1 sim0)
    0x06 0x01 [] 0 chan1 (mk_IPMB_config 0 I2C_IF BMC_IPMB 1 0x20 true 0x40) list1)|].
  - apply rx_responses_fit.
  - by apply wf_data_msg; [apply bytes_check|cbn; lia].
  - reflexivity.
  - reflexivity.
  - cbn. lia.
  - split; [done|]. split; [reflexivity|]. split; [done|]. split; [apply ready1|done].
  - apply holds1.
  - by intros m' w' [? _].
Defined.
