(* ===== verification/XhciDefs.v ===== *)
(** Data of the xHCI host driver of samples/dwc3_host: xhci_def.h and the
    macros of xhci.c.  Structures the controller shares (TRBs, contexts,
    registers) are given by the byte offsets of their fields in memory words;
    structures only the driver sees are records.  Enumerations that are
    combined with bit operations are [Z] constants; [ring_type_t] and the
    endpoint state, which are only compared, are inductive types. *)

From S2P Require Import Prelude.

Definition u64 (z : Z) : Z := z mod 2 ^ 64.
Definition is_u64 (z : Z) : Prop := 0 <= z < 2 ^ 64.

(** * Sizes and bit masks (xhci_def.h) *)

Definition XHCI_RING_TRB_MAX_NUM : Z := 32.
Definition XHCI_ALIGN : Z := 64.
Definition XHCI_SLOT_MAX : Z := 16.
Definition TRB_TYPE_BITMASK : Z := 0xfc00.
Definition TRB_TYPE (p : Z) : Z := Z.shiftl p 10.
Definition TRB_IDT : Z := Z.shiftl 1 6.
Definition TRB_ISP : Z := Z.shiftl 1 2.
Definition TRB_DIR_IN : Z := Z.shiftl 1 16.
Definition TRB_IOC : Z := Z.shiftl 1 5.
Definition TRB_BSR : Z := Z.shiftl 1 9.
Definition TRB_CYCLE : Z := Z.shiftl 1 0.
Definition LINK_TOGGLE : Z := Z.shiftl 1 1.
Definition STS_HALT : Z := Z.shiftl 1 0.
Definition STS_CNR : Z := Z.shiftl 1 11.
Definition CMD_RUN : Z := Z.shiftl 1 0.
Definition CMD_RESET : Z := Z.shiftl 1 1.
Definition CMD_EIE : Z := Z.shiftl 1 2.
Definition ERST_EHB : Z := Z.shiftl 1 3.
Definition TRB_TRT (p : Z) : Z := Z.shiftl p 16.
Definition TRB_DATA_IN : Z := 3.
Definition TRB_DATA_OUT : Z := 2.
Definition ERST_PTR_MASK : Z := 0xf.

(** [0xff << 24] is a negative [int]: on the 64-bit parameter of an event it
    is extended by its sign, so the mask keeps the bits 24 to 63. *)
Definition GET_PORT_ID (p : Z) : Z := Z.shiftr (Z.land p (u64 (- 2 ^ 24))) 24.
Definition SLOT_FLAG : Z := Z.shiftl 1 0.
Definition EP0_FLAG : Z := Z.shiftl 1 1.
Definition COMP_CODE_MASK : Z := 0xff000000.
Definition GET_COMP_CODE (p : Z) : Z := Z.shiftr (Z.land p COMP_CODE_MASK) 24.
Definition TRB_TO_SLOT_ID (p : Z) : Z := Z.shiftr (Z.land p 0xff000000) 24.
Definition SLOT_ID_FOR_TRB (p : Z) : Z := Z.shiftl (Z.land p 0xff) 24.
Definition HCC_64BYTE_CONTEXT (p : Z) : bool := Z.testbit p 2.
Definition CTX_SIZE (hcc : Z) : Z := if HCC_64BYTE_CONTEXT hcc then 64 else 32.
Definition XHCI_OP_PORTSC_PRC : Z := Z.shiftl 1 21.
Definition XHCI_OP_PORTSC_RESET : Z := Z.shiftl 1 4.
Definition XHCI_OP_PORTSC_CSC : Z := Z.shiftl 1 17.
Definition XHCI_OP_PORTSC_SPEED (psc : Z) : Z := Z.land (Z.shiftr psc 10) 0xf.
Definition XHCI_OP_PORTSC_LINK_STATE (psc : Z) : Z := Z.land (Z.shiftr psc 5) 0xf.
Definition EP_ID_FOR_TRB (p : Z) : Z := Z.shiftl (Z.land (p + 1) 0x1f) 16.
Definition XHCI_USBSTS_EINT : Z := Z.shiftl 1 3.
Definition XHCI_IMAIN_IP : Z := Z.shiftl 1 0.
Definition HCSPARAMS2_SCRATPAD_NUM (p : Z) : Z :=
  Z.lor (Z.land (Z.shiftr p 16) 0x3e0) (Z.land (Z.shiftr p 27) 0x1f).

(** * Macros of xhci.c *)

Definition XHCI_PORT_RO : Z :=
  Z.lor (Z.lor (Z.lor (Z.shiftl 1 0) (Z.shiftl 1 3)) (Z.shiftl 0xf 10)) (Z.shiftl 1 30).
Definition XHCI_PORT_RWS : Z :=
  Z.lor (Z.lor (Z.lor (Z.shiftl 0xf 5) (Z.shiftl 1 9)) (Z.shiftl 3 14)) (Z.shiftl 7 25).
Definition EP_CTX_MAX_PACKET (n : Z) : Z := Z.shiftl n 16.
Definition EP_CTX_TYPE (n : Z) : Z := Z.shiftl n 3.
Definition EP_CTX_ERR_CNT (n : Z) : Z := Z.shiftl (Z.land n 3) 1.
Definition SLOT_CTX_ENTRIES (n : Z) : Z := Z.shiftl n 27.
Definition SLOT_CTX_ROOT_STR (n : Z) : Z := Z.shiftl n 0.
Definition SLOT_CTX_SPEED (n : Z) : Z := Z.shiftl n 20.
Definition SLOT_CTX_ROOTHUB_PORT_NUM (n : Z) : Z := Z.shiftl n 16.
Definition EP_DIR_IN (ep : Z) : bool := negb (Z.land ep 0x80 =? 0).

(** [enum XHCI_PLS], the link states the driver tells apart. *)
Definition PLS_U0_STATE : Z := 0.
Definition PLS_U1_STATE : Z := 1.
Definition PLS_U2_STATE : Z := 2.
Definition PLS_U3_STATE : Z := 3.
Definition PLS_DISABLE_STATE : Z := 4.
Definition PLS_RXDETECT_STATE : Z := 5.
Definition PLS_INACTIVE_STATE : Z := 6.
Definition PLS_POLLING_STATE : Z := 7.

(** The number of names in [speed_map]; the name itself is only logged. *)
Definition speed_map_len : Z := 6.

(** * Enumerations *)

(** [enum XHCI_TRB_TYPE] *)
Definition TRB_NORMAL : Z := 1.
Definition TRB_SETUP : Z := 2.
Definition TRB_DATA : Z := 3.
Definition TRB_STATUS : Z := 4.
Definition TRB_ISOC : Z := 5.
Definition TRB_LINK : Z := 6.
Definition TRB_EVENT_DATA : Z := 7.
Definition TRB_TR_NOOP : Z := 8.
Definition TRB_ENABLE_SLOT : Z := 9.
Definition TRB_DISABLE_SLOT : Z := 10.
Definition TRB_ADDR_DEV : Z := 11.
Definition TRB_CONFIG_EP : Z := 12.
Definition TRB_EVAL_CONTEXT : Z := 13.
Definition TRB_RESET_EP : Z := 14.
Definition TRB_STOP_RING : Z := 15.
Definition TRB_SET_DEQ : Z := 16.
Definition TRB_RESET_DEV : Z := 17.
Definition TRB_FORCE_EVENT : Z := 18.
Definition TRB_NEG_BANDWIDTH : Z := 19.
Definition TRB_SET_LT : Z := 20.
Definition TRB_GET_BW : Z := 21.
Definition TRB_FORCE_HEADER : Z := 22.
Definition TRB_CMD_NOOP : Z := 23.
Definition TRB_TRANSFER : Z := 32.
Definition TRB_COMPLETION : Z := 33.
Definition TRB_PORT_STATUS : Z := 34.
Definition TRB_BANDWIDTH_EVENT : Z := 35.
Definition TRB_DOORBELL : Z := 36.
Definition TRB_HC_EVENT : Z := 37.
Definition TRB_DEV_NOTE : Z := 38.
Definition TRB_MFINDEX_WRAP : Z := 39.
Definition TRB_TYPE_MAX : Z := 40.

(** [enum XHCI_COMP_CODE] *)
Definition COMP_INVALID : Z := 0.
Definition COMP_SUCCESS : Z := 1.
Definition COMP_DATA_BUFFER_ERROR : Z := 2.
Definition COMP_BABBLE_DETECTED_ERROR : Z := 3.
Definition COMP_USB_TRANSACTION_ERROR : Z := 4.
Definition COMP_TRB_ERROR : Z := 5.
Definition COMP_STALL_ERROR : Z := 6.
Definition COMP_RESOURCE_ERROR : Z := 7.
Definition COMP_BANDWIDTH_ERROR : Z := 8.
Definition COMP_NO_SLOTS_AVAILABLE_ERROR : Z := 9.
Definition COMP_INVALID_STREAM_TYPE_ERROR : Z := 10.
Definition COMP_SLOT_NOT_ENABLED_ERROR : Z := 11.
Definition COMP_ENDPOINT_NOT_ENABLED_ERROR : Z := 12.
Definition COMP_SHORT_PACKET : Z := 13.
Definition COMP_RING_UNDERRUN : Z := 14.
Definition COMP_RING_OVERRUN : Z := 15.
Definition COMP_VF_EVENT_RING_FULL_ERROR : Z := 16.
Definition COMP_PARAMETER_ERROR : Z := 17.
Definition COMP_BANDWIDTH_OVERRUN_ERROR : Z := 18.
Definition COMP_CONTEXT_STATE_ERROR : Z := 19.
Definition COMP_NO_PING_RESPONSE_ERROR : Z := 20.
Definition COMP_EVENT_RING_FULL_ERROR : Z := 21.
Definition COMP_INCOMPATIBLE_DEVICE_ERROR : Z := 22.
Definition COMP_MISSED_SERVICE_ERROR : Z := 23.
Definition COMP_COMMAND_RING_STOPPED : Z := 24.
Definition COMP_COMMAND_ABORTED : Z := 25.
Definition COMP_STOPPED : Z := 26.
Definition COMP_STOPPED_LENGTH_INVALID : Z := 27.
Definition COMP_STOPPED_SHORT_PACKET : Z := 28.
Definition COMP_MAX_EXIT_LATENCY_TOO_LARGE_ERROR : Z := 29.
Definition COMP_ISOCH_BUFFER_OVERRUN : Z := 31.
Definition COMP_EVENT_LOST_ERROR : Z := 32.
Definition COMP_UNDEFINED_ERROR : Z := 33.
Definition COMP_INVALID_STREAM_ID_ERROR : Z := 34.
Definition COMP_SECONDARY_BANDWIDTH_ERROR : Z := 35.
Definition COMP_SPLIT_TRANSACTION_ERROR : Z := 36.

(** [enum xhci_usb_speed] *)
Definition USB_SPEED_UNKNOWN : Z := 0.
Definition USB_SPEED_FULL : Z := 1.
Definition USB_SPEED_LOW : Z := 2.
Definition USB_SPEED_HIGH : Z := 3.

(** [xhci_ep_type_t] *)
Definition EP_ISO_OUT : Z := 1.
Definition EP_BULK_OUT : Z := 2.
Definition EP_INT_OUT : Z := 3.
Definition EP_CONTROL_BIDIR : Z := 4.
Definition EP_ISO_IN : Z := 5.
Definition EP_BULK_IN : Z := 6.
Definition EP_INT_IN : Z := 7.
Definition XHCI_CTX_TYPE_DEVICE : Z := 1.
Definition XHCI_CTX_TYPE_INPUT : Z := 2.

Inductive ring_type_t : Set := EVENT_RING | COMMAND_RING | CTRL_RING | BULK_RING | INTR_RING.
#[export] Instance ring_type_t_eq_dec : EqDecision ring_type_t.
Proof. solve_decision. Defined.

Inductive xhci_addr_dev_type_t : Set := DEFAULT_TYPE | ADDRESSED_TYPE.
#[export] Instance xhci_addr_dev_type_t_eq_dec : EqDecision xhci_addr_dev_type_t.
Proof. solve_decision. Defined.

Inductive xhci_ep_state_t : Set :=
  DISABLE_STATE | RUNING_STATE | HALTED_STATE | STOPPED_STATE | ERROR_STATE.
#[export] Instance xhci_ep_state_t_eq_dec : EqDecision xhci_ep_state_t.
Proof. solve_decision. Defined.

(** * Offsets of the fields of shared structures *)

Definition CAP_caplength : Z := 0.
Definition CAP_hcsparams1 : Z := 4.
Definition CAP_hcsparams2 : Z := 8.
Definition CAP_hcsparams3 : Z := 12.
Definition CAP_hccparams1 : Z := 16.
Definition CAP_dboff : Z := 20.
Definition CAP_rtsoff : Z := 24.
Definition OP_command : Z := 0.
Definition OP_status : Z := 4.
Definition OP_page_size : Z := 8.
Definition OP_cmd_ring : Z := 0x18.
Definition OP_dcbaa_ptr : Z := 0x30.
Definition OP_config_reg : Z := 0x38.
Definition OP_port : Z := 0x400.
(** [op_reg->port[i].portsc]; the structure of a port has 16 bytes. *)
Definition OP_portsc (i : Z) : Z := OP_port + 16 * i.
Definition IR_iman : Z := 0x20.
Definition IR_imod : Z := 0x24.
Definition IR_erstsz : Z := 0x28.
Definition IR_erstba : Z := 0x30.
Definition IR_erdp : Z := 0x38.
Definition sizeof_trb : Z := 16.
Definition sizeof_erst_entry : Z := 16.
Definition ERST_seg_addr : Z := 0.
Definition ERST_seg_size : Z := 8.
Definition SLOT_dev_info : Z := 0.
Definition SLOT_dev_info2 : Z := 4.
Definition SLOT_tt_info : Z := 8.
Definition SLOT_dev_state : Z := 12.
Definition sizeof_slot_ctx : Z := 32.
Definition EPC_ep_info0 : Z := 0.
Definition EPC_ep_info1 : Z := 4.
Definition EPC_deq : Z := 8.
Definition EPC_tx_info : Z := 16.
Definition sizeof_ep_ctx : Z := 32.
Definition ICC_drop_flags : Z := 0.
Definition ICC_add_flags : Z := 4.

(** * Structures of the driver *)

(** The name of the first field is the one of the source. *)
Record xhci_trb : Type := mk_trb {
  t_paramater : Z;
  t_status : Z;
  t_control : Z;
}.
#[export] Instance xhci_trb_eq_dec : EqDecision xhci_trb.
Proof. solve_decision. Defined.

Record xhci_ring : Type := mk_ring {
  r_trb : Z;
  r_num_trb : Z;
  r_type : ring_type_t;
  r_write_index : Z;
  r_read_index : Z;
  r_cycle_bit : Z;
}.
#[export] Instance xhci_ring_eq_dec : EqDecision xhci_ring.
Proof. solve_decision. Defined.
Definition r_set_write_index (v : Z) (x : xhci_ring) : xhci_ring :=
  mk_ring (r_trb x) (r_num_trb x) (r_type x) v (r_read_index x) (r_cycle_bit x).
Definition r_set_read_index (v : Z) (x : xhci_ring) : xhci_ring :=
  mk_ring (r_trb x) (r_num_trb x) (r_type x) (r_write_index x) v (r_cycle_bit x).
Definition r_set_cycle_bit (v : Z) (x : xhci_ring) : xhci_ring :=
  mk_ring (r_trb x) (r_num_trb x) (r_type x) (r_write_index x) (r_read_index x) v.

Record xhci_ep : Type := mk_ep {
  e_ep_ring : xhci_ring;
  e_state : xhci_ep_state_t;
}.
#[export] Instance xhci_ep_eq_dec : EqDecision xhci_ep.
Proof. solve_decision. Defined.
Definition e_set_ep_ring (v : xhci_ring) (x : xhci_ep) : xhci_ep :=
  mk_ep v (e_state x).
Definition e_set_state (v : xhci_ep_state_t) (x : xhci_ep) : xhci_ep :=
  mk_ep (e_ep_ring x) v.

Record xhci_ctx : Type := mk_ctx {
  c_type : Z;
  c_size : Z;
  c_ctx : Z;
}.
#[export] Instance xhci_ctx_eq_dec : EqDecision xhci_ctx.
Proof. solve_decision. Defined.

(** The back pointer [hcd] is never used. *)
Record xhci_device : Type := mk_device {
  d_slot : Z;
  d_device_ctx : xhci_ctx;
  d_input_ctx : xhci_ctx;
  d_ep : list xhci_ep;
  d_speed : Z;
}.
#[export] Instance xhci_device_eq_dec : EqDecision xhci_device.
Proof. solve_decision. Defined.
Definition d_set_slot (v : Z) (x : xhci_device) : xhci_device :=
  mk_device v (d_device_ctx x) (d_input_ctx x) (d_ep x) (d_speed x).
Definition d_set_device_ctx (v : xhci_ctx) (x : xhci_device) : xhci_device :=
  mk_device (d_slot x) v (d_input_ctx x) (d_ep x) (d_speed x).
Definition d_set_input_ctx (v : xhci_ctx) (x : xhci_device) : xhci_device :=
  mk_device (d_slot x) (d_device_ctx x) v (d_ep x) (d_speed x).
Definition d_set_ep (v : list xhci_ep) (x : xhci_device) : xhci_device :=
  mk_device (d_slot x) (d_device_ctx x) (d_input_ctx x) v (d_speed x).
Definition d_set_speed (v : Z) (x : xhci_device) : xhci_device :=
  mk_device (d_slot x) (d_device_ctx x) (d_input_ctx x) (d_ep x) v.

(** Pointers are addresses; [erst.entry] is flattened. *)
Record xhci_hcd : Type := mk_hcd {
  h_base_addr : Z;
  h_cap_reg : Z;
  h_op_reg : Z;
  h_runtime_reg : Z;
  h_db_reg : Z;
  h_erst_entry : Z;
  h_event_ring : xhci_ring;
  h_cmd_ring : xhci_ring;
  h_device : list xhci_device;
  h_dev_ctx_tab : Z;
  h_scratchpad_tab : Z;
  h_scratchpad_buf : Z;
  h_command_trb : Z;
  h_event_trb : Z;
  h_evt_trb : xhci_trb;
  h_version : Z;
  h_page_size : Z;
  h_max_slots : Z;
  h_max_port : Z;
}.
#[export] Instance xhci_hcd_eq_dec : EqDecision xhci_hcd.
Proof. solve_decision. Defined.
Definition h_set_base_addr (v : Z) (x : xhci_hcd) : xhci_hcd :=
  mk_hcd v (h_cap_reg x) (h_op_reg x) (h_runtime_reg x) (h_db_reg x) (h_erst_entry x)
    (h_event_ring x) (h_cmd_ring x) (h_device x) (h_dev_ctx_tab x) (h_scratchpad_tab x)
    (h_scratchpad_buf x) (h_command_trb x) (h_event_trb x) (h_evt_trb x) (h_version x)
    (h_page_size x) (h_max_slots x) (h_max_port x).
Definition h_set_cap_reg (v : Z) (x : xhci_hcd) : xhci_hcd :=
  mk_hcd (h_base_addr x) v (h_op_reg x) (h_runtime_reg x) (h_db_reg x) (h_erst_entry x)
    (h_event_ring x) (h_cmd_ring x) (h_device x) (h_dev_ctx_tab x) (h_scratchpad_tab x)
    (h_scratchpad_buf x) (h_command_trb x) (h_event_trb x) (h_evt_trb x) (h_version x)
    (h_page_size x) (h_max_slots x) (h_max_port x).
Definition h_set_op_reg (v : Z) (x : xhci_hcd) : xhci_hcd :=
  mk_hcd (h_base_addr x) (h_cap_reg x) v (h_runtime_reg x) (h_db_reg x) (h_erst_entry x)
    (h_event_ring x) (h_cmd_ring x) (h_device x) (h_dev_ctx_tab x) (h_scratchpad_tab x)
    (h_scratchpad_buf x) (h_command_trb x) (h_event_trb x) (h_evt_trb x) (h_version x)
    (h_page_size x) (h_max_slots x) (h_max_port x).
Definition h_set_runtime_reg (v : Z) (x : xhci_hcd) : xhci_hcd :=
  mk_hcd (h_base_addr x) (h_cap_reg x) (h_op_reg x) v (h_db_reg x) (h_erst_entry x)
    (h_event_ring x) (h_cmd_ring x) (h_device x) (h_dev_ctx_tab x) (h_scratchpad_tab x)
    (h_scratchpad_buf x) (h_command_trb x) (h_event_trb x) (h_evt_trb x) (h_version x)
    (h_page_size x) (h_max_slots x) (h_max_port x).
Definition h_set_db_reg (v : Z) (x : xhci_hcd) : xhci_hcd :=
  mk_hcd (h_base_addr x) (h_cap_reg x) (h_op_reg x) (h_runtime_reg x) v (h_erst_entry x)
    (h_event_ring x) (h_cmd_ring x) (h_device x) (h_dev_ctx_tab x) (h_scratchpad_tab x)
    (h_scratchpad_buf x) (h_command_trb x) (h_event_trb x) (h_evt_trb x) (h_version x)
    (h_page_size x) (h_max_slots x) (h_max_port x).
Definition h_set_erst_entry (v : Z) (x : xhci_hcd) : xhci_hcd :=
  mk_hcd (h_base_addr x) (h_cap_reg x) (h_op_reg x) (h_runtime_reg x) (h_db_reg x) v
    (h_event_ring x) (h_cmd_ring x) (h_device x) (h_dev_ctx_tab x) (h_scratchpad_tab x)
    (h_scratchpad_buf x) (h_command_trb x) (h_event_trb x) (h_evt_trb x) (h_version x)
    (h_page_size x) (h_max_slots x) (h_max_port x).
Definition h_set_event_ring (v : xhci_ring) (x : xhci_hcd) : xhci_hcd :=
  mk_hcd (h_base_addr x) (h_cap_reg x) (h_op_reg x) (h_runtime_reg x) (h_db_reg x)
    (h_erst_entry x) v (h_cmd_ring x) (h_device x) (h_dev_ctx_tab x) (h_scratchpad_tab x)
    (h_scratchpad_buf x) (h_command_trb x) (h_event_trb x) (h_evt_trb x) (h_version x)
    (h_page_size x) (h_max_slots x) (h_max_port x).
Definition h_set_cmd_ring (v : xhci_ring) (x : xhci_hcd) : xhci_hcd :=
  mk_hcd (h_base_addr x) (h_cap_reg x) (h_op_reg x) (h_runtime_reg x) (h_db_reg x)
    (h_erst_entry x) (h_event_ring x) v (h_device x) (h_dev_ctx_tab x) (h_scratchpad_tab x)
    (h_scratchpad_buf x) (h_command_trb x) (h_event_trb x) (h_evt_trb x) (h_version x)
    (h_page_size x) (h_max_slots x) (h_max_port x).
Definition h_set_device (v : list xhci_device) (x : xhci_hcd) : xhci_hcd :=
  mk_hcd (h_base_addr x) (h_cap_reg x) (h_op_reg x) (h_runtime_reg x) (h_db_reg x)
    (h_erst_entry x) (h_event_ring x) (h_cmd_ring x) v (h_dev_ctx_tab x)
    (h_scratchpad_tab x) (h_scratchpad_buf x) (h_command_trb x) (h_event_trb x)
    (h_evt_trb x) (h_version x) (h_page_size x) (h_max_slots x) (h_max_port x).
Definition h_set_dev_ctx_tab (v : Z) (x : xhci_hcd) : xhci_hcd :=
  mk_hcd (h_base_addr x) (h_cap_reg x) (h_op_reg x) (h_runtime_reg x) (h_db_reg x)
    (h_erst_entry x) (h_event_ring x) (h_cmd_ring x) (h_device x) v (h_scratchpad_tab x)
    (h_scratchpad_buf x) (h_command_trb x) (h_event_trb x) (h_evt_trb x) (h_version x)
    (h_page_size x) (h_max_slots x) (h_max_port x).
Definition h_set_scratchpad_tab (v : Z) (x : xhci_hcd) : xhci_hcd :=
  mk_hcd (h_base_addr x) (h_cap_reg x) (h_op_reg x) (h_runtime_reg x) (h_db_reg x)
    (h_erst_entry x) (h_event_ring x) (h_cmd_ring x) (h_device x) (h_dev_ctx_tab x) v
    (h_scratchpad_buf x) (h_command_trb x) (h_event_trb x) (h_evt_trb x) (h_version x)
    (h_page_size x) (h_max_slots x) (h_max_port x).
Definition h_set_scratchpad_buf (v : Z) (x : xhci_hcd) : xhci_hcd :=
  mk_hcd (h_base_addr x) (h_cap_reg x) (h_op_reg x) (h_runtime_reg x) (h_db_reg x)
    (h_erst_entry x) (h_event_ring x) (h_cmd_ring x) (h_device x) (h_dev_ctx_tab x)
    (h_scratchpad_tab x) v (h_command_trb x) (h_event_trb x) (h_evt_trb x) (h_version x)
    (h_page_size x) (h_max_slots x) (h_max_port x).
Definition h_set_command_trb (v : Z) (x : xhci_hcd) : xhci_hcd :=
  mk_hcd (h_base_addr x) (h_cap_reg x) (h_op_reg x) (h_runtime_reg x) (h_db_reg x)
    (h_erst_entry x) (h_event_ring x) (h_cmd_ring x) (h_device x) (h_dev_ctx_tab x)
    (h_scratchpad_tab x) (h_scratchpad_buf x) v (h_event_trb x) (h_evt_trb x) (h_version x)
    (h_page_size x) (h_max_slots x) (h_max_port x).
Definition h_set_event_trb (v : Z) (x : xhci_hcd) : xhci_hcd :=
  mk_hcd (h_base_addr x) (h_cap_reg x) (h_op_reg x) (h_runtime_reg x) (h_db_reg x)
    (h_erst_entry x) (h_event_ring x) (h_cmd_ring x) (h_device x) (h_dev_ctx_tab x)
    (h_scratchpad_tab x) (h_scratchpad_buf x) (h_command_trb x) v (h_evt_trb x)
    (h_version x) (h_page_size x) (h_max_slots x) (h_max_port x).
Definition h_set_evt_trb (v : xhci_trb) (x : xhci_hcd) : xhci_hcd :=
  mk_hcd (h_base_addr x) (h_cap_reg x) (h_op_reg x) (h_runtime_reg x) (h_db_reg x)
    (h_erst_entry x) (h_event_ring x) (h_cmd_ring x) (h_device x) (h_dev_ctx_tab x)
    (h_scratchpad_tab x) (h_scratchpad_buf x) (h_command_trb x) (h_event_trb x) v
    (h_version x) (h_page_size x) (h_max_slots x) (h_max_port x).
Definition h_set_version (v : Z) (x : xhci_hcd) : xhci_hcd :=
  mk_hcd (h_base_addr x) (h_cap_reg x) (h_op_reg x) (h_runtime_reg x) (h_db_reg x)
    (h_erst_entry x) (h_event_ring x) (h_cmd_ring x) (h_device x) (h_dev_ctx_tab x)
    (h_scratchpad_tab x) (h_scratchpad_buf x) (h_command_trb x) (h_event_trb x)
    (h_evt_trb x) v (h_page_size x) (h_max_slots x) (h_max_port x).
Definition h_set_page_size (v : Z) (x : xhci_hcd) : xhci_hcd :=
  mk_hcd (h_base_addr x) (h_cap_reg x) (h_op_reg x) (h_runtime_reg x) (h_db_reg x)
    (h_erst_entry x) (h_event_ring x) (h_cmd_ring x) (h_device x) (h_dev_ctx_tab x)
    (h_scratchpad_tab x) (h_scratchpad_buf x) (h_command_trb x) (h_event_trb x)
    (h_evt_trb x) (h_version x) v (h_max_slots x) (h_max_port x).
Definition h_set_max_slots (v : Z) (x : xhci_hcd) : xhci_hcd :=
  mk_hcd (h_base_addr x) (h_cap_reg x) (h_op_reg x) (h_runtime_reg x) (h_db_reg x)
    (h_erst_entry x) (h_event_ring x) (h_cmd_ring x) (h_device x) (h_dev_ctx_tab x)
    (h_scratchpad_tab x) (h_scratchpad_buf x) (h_command_trb x) (h_event_trb x)
    (h_evt_trb x) (h_version x) (h_page_size x) v (h_max_port x).
Definition h_set_max_port (v : Z) (x : xhci_hcd) : xhci_hcd :=
  mk_hcd (h_base_addr x) (h_cap_reg x) (h_op_reg x) (h_runtime_reg x) (h_db_reg x)
    (h_erst_entry x) (h_event_ring x) (h_cmd_ring x) (h_device x) (h_dev_ctx_tab x)
    (h_scratchpad_tab x) (h_scratchpad_buf x) (h_command_trb x) (h_event_trb x)
    (h_evt_trb x) (h_version x) (h_page_size x) (h_max_slots x) v.

Record xhci_ep_config : Type := mk_ep_config {
  ec_ep_type : Z;
  ec_ep_addr : Z;
  ec_ep_interval : Z;
  ec_ep_mps : Z;
}.
#[export] Instance xhci_ep_config_eq_dec : EqDecision xhci_ep_config.
Proof. solve_decision. Defined.

Record usb_setup_packet : Type := mk_setup {
  s_bmRequestType : Z;
  s_bRequest : Z;
  s_wValue : Z;
  s_wIndex : Z;
  s_wLength : Z;
}.
#[export] Instance usb_setup_packet_eq_dec : EqDecision usb_setup_packet.
Proof. solve_decision. Defined.

(** The objects of static storage duration start as zeros. *)
Definition zero_ring : xhci_ring := mk_ring 0 0 EVENT_RING 0 0 0.
Definition zero_ep : xhci_ep := mk_ep zero_ring DISABLE_STATE.
Definition zero_ctx : xhci_ctx := mk_ctx 0 0 0.
Definition zero_device : xhci_device := mk_device 0 zero_ctx zero_ctx (replicate 31 zero_ep) 0.
Definition zero_hcd : xhci_hcd :=
  mk_hcd 0 0 0 0 0 0 zero_ring zero_ring (replicate (Z.to_nat XHCI_SLOT_MAX) zero_device)
    0 0 0 0 0 (mk_trb 0 0 0) 0 0 0 0.
