(* ===== verification/XhciMem.v ===== *)
(** The machine under the xHCI driver.  Memory is a finite map from the
    addresses of 32-bit words to their values: a word that was never allocated
    is absent, and an access to it is undefined.  [Xhc] is the interface to the controller and to
    Zephyr: volatile accesses to registers, the heap, the cache, and
    [xhc_step], one step of the controller, which may write to memory and raise
    its interrupt; [erst_table] is the address of a static table.  Nothing is assumed of it here. *)

From S2P Require Import Prelude XhciDefs.

(** * Words in memory *)

Notation mem := (gmap Z Z).

Definition mload (m : mem) (a : Z) : res Z :=
  match m !! a with Some v => Ret v | None => UB end.
Definition mstore (m : mem) (a v : Z) : res mem :=
  match m !! a with Some _ => Ret (<[a := u32 v]> m) | None => UB end.

(** A 64-bit object is its low word followed by its high word. *)
Definition mload64 (m : mem) (a : Z) : res Z :=
  rlet! lo := mload m a in
  rlet! hi := mload m (a + 4) in
  Ret (lo + 2 ^ 32 * hi).
Definition mstore64 (m : mem) (a v : Z) : res mem :=
  rlet! m := mstore m a v in
  mstore m (a + 4) (Z.shiftr v 32).

Definition mload_trb (m : mem) (p : Z) : res xhci_trb :=
  rlet! par := mload64 m p in
  rlet! st := mload m (p + 8) in
  rlet! ct := mload m (p + 12) in
  Ret (mk_trb par st ct).
Definition mstore_trb (m : mem) (p : Z) (t : xhci_trb) : res mem :=
  rlet! m := mstore64 m p (t_paramater t) in
  rlet! m := mstore m (p + 8) (t_status t) in
  mstore m (p + 12) (t_control t).

(** [memset(a, 0, 4 * n)] *)
Fixpoint mzero (m : mem) (a : Z) (n : nat) : res mem :=
  match n with
  | O => Ret m
  | S n' => rlet! m := mstore m a 0 in mzero m (a + 4) n'
  end.

(** The [n] words from [a] are allocated. *)
Definition mapped (m : mem) (a n : Z) : Prop :=
  forall i, 0 <= i < n -> is_Some (m !! (a + 4 * i)).

(** [m'] differs from [m] only in the [n] words from [a]. *)
Definition only_words (a n : Z) (m m' : mem) : Prop :=
  forall b, (forall i, 0 <= i < n -> b <> a + 4 * i) -> m' !! b = m !! b.

Definition wf_trb (t : xhci_trb) : Prop :=
  is_u64 (t_paramater t) /\ is_u32 (t_status t) /\ is_u32 (t_control t).

(** * Lemmas about memory *)

(** Lookups through stores at addresses [lia] can compare. *)
Ltac mem_lookup := repeat (rewrite lookup_insert_eq || rewrite lookup_insert_ne by lia).

Lemma mstore_ok m a v : is_Some (m !! a) -> mstore m a v = Ret (<[a := u32 v]> m).
Proof. unfold mstore. by intros [w ->]. Qed.

Lemma mload_ok m a v : m !! a = Some v -> mload m a = Ret v.
Proof. unfold mload. by intros ->. Qed.

Lemma mapped_sub m a n b k :
  mapped m a n -> (exists j, 0 <= j /\ b = a + 4 * j /\ j + k <= n) -> mapped m b k.
Proof.
  intros Hm (j & Hj & -> & Hk) i Hi. replace (a + 4 * j + 4 * i) with (a + 4 * (j + i)) by lia.
  apply Hm. lia.
Qed.

Lemma mapped_insert m a n b v : mapped m a n -> mapped (<[b := v]> m) a n.
Proof. intros Hm i Hi. apply lookup_insert_is_Some'. right. by apply Hm. Qed.

(** The words of a TRB, as [mstore_trb] leaves them. *)
Definition put_trb (m : mem) (p : Z) (t : xhci_trb) : mem :=
  <[p + 12 := u32 (t_control t)]> (<[p + 8 := u32 (t_status t)]>
    (<[p + 4 := u32 (Z.shiftr (t_paramater t) 32)]> (<[p := u32 (t_paramater t)]> m))).

Lemma mapped_put_trb m p t a n : mapped m a n -> mapped (put_trb m p t) a n.
Proof. intros. by repeat apply mapped_insert. Qed.
#[export] Hint Resolve mapped_insert mapped_put_trb : word.

Lemma mapped_word m a n b : mapped m a n -> (exists i, 0 <= i < n /\ b = a + 4 * i) -> is_Some (m !! b).
Proof. intros Hm (i & Hi & ->). by apply Hm. Qed.

Lemma mstore_trb_ok m p t : mapped m p 4 -> mstore_trb m p t = Ret (put_trb m p t).
Proof.
  intros Hm. unfold mstore_trb, mstore64.
  repeat (rewrite mstore_ok by (repeat (apply lookup_insert_is_Some'; right);
    eapply mapped_word; [exact Hm|]; first
      [exists 0; lia | exists 1; lia | exists 2; lia | exists 3; lia]); cbn [rbind]).
  done.
Qed.

Lemma u64_split v : is_u64 v -> u32 v + 2 ^ 32 * u32 (Z.shiftr v 32) = v.
Proof.
  unfold is_u64, u32. intros Hv. rewrite Z.shiftr_div_pow2 by lia.
  rewrite (Z.mod_small (v / 2 ^ 32)); Z.div_mod_to_equations; lia.
Qed.

Lemma mload_put_trb m p t : wf_trb t -> mload_trb (put_trb m p t) p = Ret t.
Proof.
  intros (Hp & Hs & Hc). unfold mload_trb, mload64, put_trb.
  rewrite (mload_ok _ p (u32 (t_paramater t))) by (by mem_lookup). cbn [rbind].
  rewrite (mload_ok _ (p + 4) (u32 (Z.shiftr (t_paramater t) 32))) by (by mem_lookup). cbn [rbind].
  rewrite (mload_ok _ (p + 8) (u32 (t_status t))) by (by mem_lookup). cbn [rbind].
  rewrite (mload_ok _ (p + 12) (u32 (t_control t))) by (by mem_lookup). cbn [rbind].
  rewrite u64_split, !u32_small by done. by destruct t.
Qed.

(** Without a parameter and a control word, whatever the status. *)
Lemma mload_put_trb_u32 m p v :
  mload_trb (put_trb m p (mk_trb 0 v 0)) p = Ret (mk_trb 0 (u32 v) 0).
Proof.
  rewrite <- (mload_put_trb m p (mk_trb 0 (u32 v) 0)).
  - unfold put_trb. cbn. unfold u32. by rewrite Zmod_mod.
  - split; [done|]. split; [apply u32_range|done].
Qed.

(** Reading a TRB depends only on its four words. *)
Lemma mload_trb_ext m m' p :
  (forall i, 0 <= i < 4 -> m' !! (p + 4 * i) = m !! (p + 4 * i)) ->
  mload_trb m' p = mload_trb m p.
Proof.
  intros He. unfold mload_trb, mload64, mload.
  pose proof (He 0 ltac:(lia)) as E0. replace (p + 4 * 0) with p in E0 by lia.
  pose proof (He 1 ltac:(lia)) as E1. pose proof (He 2 ltac:(lia)) as E2.
  pose proof (He 3 ltac:(lia)) as E3. 
  change (4 * 1) with 4 in E1. change (4 * 2) with 8 in E2. change (4 * 3) with 12 in E3.
  by rewrite E0, E1, E2, E3.
Qed.

Lemma mload_trb_word m p t : mload_trb m p = Ret t -> m !! (p + 12) = Some (t_control t).
Proof.
  unfold mload_trb, mload64, mload.
  destruct (m !! p), (m !! (p + 4)), (m !! (p + 8)), (m !! (p + 12)); cbn; intros; by simplify_eq.
Qed.

Lemma mload_trb_ok m p : mapped m p 4 -> exists t, mload_trb m p = Ret t.
Proof.
  intros Hm. unfold mload_trb, mload64, mload.
  destruct (mapped_word m p 4 p Hm) as [? ->]; [exists 0; lia|]. cbn [rbind].
  destruct (mapped_word m p 4 (p + 4) Hm) as [? ->]; [exists 1; lia|]. cbn [rbind].
  destruct (mapped_word m p 4 (p + 8) Hm) as [? ->]; [exists 2; lia|]. cbn [rbind].
  destruct (mapped_word m p 4 (p + 12) Hm) as [? ->]; [exists 3; lia|]. cbn [rbind]. eauto.
Qed.

Lemma put_trb_frame m p t : only_words p 4 m (put_trb m p t).
Proof.
  intros b Hb. unfold put_trb. pose proof (Hb 0 ltac:(lia)). pose proof (Hb 1 ltac:(lia)).
  pose proof (Hb 2 ltac:(lia)). pose proof (Hb 3 ltac:(lia)).
  by mem_lookup.
Qed.

Lemma mload_put_trb_ne m p t q :
  p + 16 <= q \/ q + 16 <= p -> mload_trb (put_trb m p t) q = mload_trb m q.
Proof. intros Hd. apply mload_trb_ext. intros i Hi. apply put_trb_frame. intros j Hj. lia. Qed.

Lemma mzero_ok m a n :
  mapped m a (Z.of_nat n) -> exists m', mzero m a n = Ret m' /\
    only_words a (Z.of_nat n) m m' /\
    (forall i, 0 <= i < Z.of_nat n -> m' !! (a + 4 * i) = Some 0).
Proof.
  revert m a. induction n as [|n IH]; intros m a Hm; cbn [mzero].
  { exists m. split; [done|]. split; [done|lia]. }
  rewrite mstore_ok by (eapply mapped_word; [exact Hm|exists 0; lia]). cbn [rbind].
  destruct (IH (<[a:=u32 0]> m) (a + 4)) as (m' & E & Hf & Hz).
  { apply mapped_insert. eapply mapped_sub; [exact Hm|exists 1; lia]. }
  exists m'. split; [done|]. split.
  - intros b Hb. rewrite Hf by (intros i Hi; specialize (Hb (i + 1)); lia).
    specialize (Hb 0 ltac:(lia)). by mem_lookup.
  - intros i Hi. destruct (Z.eq_dec i 0) as [->|].
    + rewrite Hf, Z.add_0_r by (intros; lia). by mem_lookup.
    + specialize (Hz (i - 1) ltac:(lia)). by replace (a + 4 + 4 * (i - 1)) with (a + 4 * i) in Hz by lia.
Qed.

(** * The machine *)

Class Xhc (H : Type) : Type := {
  mmio_read : Z -> H -> Z * H;
  mmio_write : Z -> Z -> H -> H;
  k_aligned_alloc : Z -> Z -> H -> Z * H;
  k_initial : Z -> H -> Z;
  k_free : Z -> H -> H;
  sys_cache_data_flush_range : Z -> Z -> H -> H;
  sys_cache_data_invd_range : Z -> Z -> H -> H;
  xhc_step : H -> mem -> H * mem * bool;
  erst_table : Z;
}.

(** [x_sync] and [x_wait] are the two flags of xhci_port.c. *)
Record xworld (H : Type) : Type := mk_xworld {
  x_mem : mem;
  x_hcd : xhci_hcd;
  x_hw : H;
  x_sync : Z;
  x_wait : Z;
}.
Arguments mk_xworld {H} _ _ _ _ _.
Arguments x_mem {H} _.
Arguments x_hcd {H} _.
Arguments x_hw {H} _.
Arguments x_sync {H} _.
Arguments x_wait {H} _.

Definition x_set_mem {H} (v : mem) (x : xworld H) : xworld H :=
  mk_xworld v (x_hcd x) (x_hw x) (x_sync x) (x_wait x).
Definition x_set_hcd {H} (v : xhci_hcd) (x : xworld H) : xworld H :=
  mk_xworld (x_mem x) v (x_hw x) (x_sync x) (x_wait x).
Definition x_set_hw {H} (v : H) (x : xworld H) : xworld H :=
  mk_xworld (x_mem x) (x_hcd x) v (x_sync x) (x_wait x).
Definition x_set_sync {H} (v : Z) (x : xworld H) : xworld H :=
  mk_xworld (x_mem x) (x_hcd x) (x_hw x) v (x_wait x).
Definition x_set_wait {H} (v : Z) (x : xworld H) : xworld H :=
  mk_xworld (x_mem x) (x_hcd x) (x_hw x) (x_sync x) v.

Section Machine.
Context {H : Type} `{!Xhc H}.
Notation XM := (ST (xworld H)).

(** Memory accesses of the driver. *)
Definition mem_read {A} (f : mem -> res A) : XM A :=
  fun s => rbind (f (x_mem s)) (fun a => Ret (a, s)).
Definition mem_write (f : mem -> res mem) : XM unit :=
  fun s => rbind (f (x_mem s)) (fun m => Ret (tt, x_set_mem m s)).
Definition load32 (a : Z) : XM Z := mem_read (fun m => mload m a).
Definition store32 (a v : Z) : XM unit := mem_write (fun m => mstore m a v).
(** A byte of a word, lowest first. *)
Definition load8 (a : Z) : XM Z :=
  let! w := load32 (a - a mod 4) in
  ret (Z.land (Z.shiftr w (8 * (a mod 4))) 0xff).
Definition store8 (a v : Z) : XM unit :=
  let sh := 8 * (a mod 4) in
  let! w := load32 (a - a mod 4) in
  store32 (a - a mod 4) (Z.lor (Z.ldiff w (Z.shiftl 0xff sh)) (Z.shiftl (u8 v) sh)).
Fixpoint load_bytes (a : Z) (n : nat) : XM (list Z) :=
  match n with
  | O => ret []
  | S n' => let! b := load8 a in let! l := load_bytes (a + 1) n' in ret (b :: l)
  end.
Fixpoint store_bytes (a : Z) (l : list Z) : XM unit :=
  match l with
  | [] => skip
  | b :: l' => do! store8 a b in store_bytes (a + 1) l'
  end.
Definition load64 (a : Z) : XM Z := mem_read (fun m => mload64 m a).
Definition store64 (a v : Z) : XM unit := mem_write (fun m => mstore64 m a v).
Definition load_trb (p : Z) : XM xhci_trb := mem_read (fun m => mload_trb m p).
Definition store_trb (p : Z) (t : xhci_trb) : XM unit := mem_write (fun m => mstore_trb m p t).
Definition memset0 (a size : Z) : XM unit := mem_write (fun m => mzero m a (Z.to_nat (size / 4))).

(** Volatile accesses to registers; one of 64 bits is two of 32, low word
    first. *)
Definition readl (a : Z) : XM Z :=
  fun s => let '(v, h) := mmio_read a (x_hw s) in Ret (u32 v, x_set_hw h s).
Definition writel (a v : Z) : XM unit :=
  fun s => Ret (tt, x_set_hw (mmio_write a (u32 v) (x_hw s)) s).
Definition readq (a : Z) : XM Z :=
  let! lo := readl a in
  let! hi := readl (a + 4) in
  ret (lo + 2 ^ 32 * hi).
Definition writeq (a v : Z) : XM unit :=
  do! writel a v in
  writel (a + 4) (Z.shiftr v 32).

(** [while (cond(register));] *)
Fixpoint poll (fuel : nat) (a : Z) (cond : Z -> bool) : XM unit :=
  match fuel with
  | O => fun _ => OutOfFuel
  | S n => let! v := readl a in if cond v then poll n a cond else skip
  end.

Definition get_hcd : XM xhci_hcd := gets x_hcd.
Definition put_hcd (f : xhci_hcd -> xhci_hcd) : XM unit :=
  modify (fun s => x_set_hcd (f (x_hcd s)) s).

(** xhci_port.c: the heap and the cache. *)
Fixpoint add_words (m : mem) (a : Z) (n : nat) (init : Z -> Z) : mem :=
  match n with
  | O => m
  | S n' => add_words (<[a := u32 (init a)]> m) (a + 4) n' init
  end.

Definition xhci_mem_alloc (align size : Z) : XM Z :=
  fun s =>
    let '(p, h) := k_aligned_alloc align size (x_hw s) in
    let m := if p =? 0 then x_mem s
             else add_words (x_mem s) p (Z.to_nat ((size + 3) / 4)) (fun a => k_initial a h) in
    Ret (p, x_set_mem m (x_set_hw h s)).
Definition xhci_mem_free (p : Z) : XM unit :=
  modify (fun s => x_set_hw (k_free p (x_hw s)) s).
Definition xhci_cache_flush (buf size : Z) : XM unit :=
  modify (fun s => x_set_hw (sys_cache_data_flush_range buf size (x_hw s)) s).
Definition xhci_cache_invalid (buf size : Z) : XM unit :=
  modify (fun s => x_set_hw (sys_cache_data_invd_range buf size (x_hw s)) s).

(** xhci_port.c: the two lock functions have empty bodies. *)
Definition xhci_enqueue_lock : XM unit := skip.
Definition xhci_enqueue_unlock : XM unit := skip.

End Machine.

Notation XM H := (ST (xworld H)).
