(* ===== verification/XhciRing.v ===== *)
(** The rings of the xHCI driver: [xhci_ring_init], [xhci_enqueue_trb], the
    doorbells, the interrupt handler [xhci_isr] over the event ring with the
    port and command events, and the hand-over of an event to the waiting
    thread (xhci_port.c).  While a thread waits, the controller takes steps and
    the interrupt handler runs between two of its tests ([env_turn]). *)

From S2P Require Import Prelude XhciDefs XhciMem.

Section Ring.
Context {H : Type} `{!Xhc H}.

(** The bound of every loop that waits for the controller. *)
Variable fuel : nat.

(** * Rings and devices of the driver *)

(** What a [struct xhci_ring *] of the driver points to. *)
Inductive ring_ref : Set :=
| EventRing
| CmdRing
| EpRing (slot ep : Z).

Definition get_device (slot : Z) : XM H xhci_device :=
  fun s => rbind (arr_get (h_device (x_hcd s)) slot) (fun d => Ret (d, s)).
Definition set_device (slot : Z) (d : xhci_device) : XM H unit :=
  fun s => rbind (arr_set (h_device (x_hcd s)) slot d)
    (fun l => Ret (tt, x_set_hcd (h_set_device l (x_hcd s)) s)).

Definition get_ep (slot ep : Z) : XM H xhci_ep :=
  let! d := get_device slot in
  lift (arr_get (d_ep d) ep).
Definition set_ep (slot ep : Z) (e : xhci_ep) : XM H unit :=
  let! d := get_device slot in
  let! l := lift (arr_set (d_ep d) ep e) in
  set_device slot (d_set_ep l d).

Definition get_ring (r : ring_ref) : XM H xhci_ring :=
  match r with
  | EventRing => gets (fun s => h_event_ring (x_hcd s))
  | CmdRing => gets (fun s => h_cmd_ring (x_hcd s))
  | EpRing slot ep => let! e := get_ep slot ep in ret (e_ep_ring e)
  end.
Definition set_ring (r : ring_ref) (ring : xhci_ring) : XM H unit :=
  match r with
  | EventRing => put_hcd (h_set_event_ring ring)
  | CmdRing => put_hcd (h_set_cmd_ring ring)
  | EpRing slot ep =>
      let! e := get_ep slot ep in
      set_ep slot ep (e_set_ep_ring ring e)
  end.

(** [&ring->trb[i]] *)
Definition trb_addr (ring : xhci_ring) (i : Z) : Z := r_trb ring + sizeof_trb * i.

Definition xhci_ring_init (r : ring_ref) (trb num_trb : Z) (type : ring_type_t) : XM H unit :=
  do! memset0 trb (sizeof_trb * num_trb) in
  let ring := mk_ring trb num_trb type 0 0 1 in
  do! set_ring r ring in
  if decide (type = EVENT_RING) then skip
  else
    let last := trb_addr ring (num_trb - 1) in
    do! store32 (last + 12) (Z.lor (TRB_TYPE TRB_LINK) LINK_TOGGLE) in
    store64 last trb.

Definition xhci_enqueue_trb (r : ring_ref) (trb : xhci_trb) : XM H unit :=
  let! ring := get_ring r in
  do! store_trb (trb_addr ring (r_write_index ring)) trb in
  let ring := r_set_write_index (u32 (r_write_index ring + 1)) ring in
  do! set_ring r ring in
  do! xhci_cache_flush (r_trb ring) (r_num_trb ring * sizeof_trb) in
  if negb (bool_decide (r_type ring = EVENT_RING)) &&
     (r_write_index ring =? u32 (r_num_trb ring - 1))
  then
    let link := trb_addr ring (r_write_index ring) in
    let! control := load32 (link + 12) in
    do! store32 (link + 12) (Z.lxor control TRB_CYCLE) in
    set_ring r (r_set_write_index 0 (r_set_cycle_bit (Z.lxor (r_cycle_bit ring) 1) ring))
  else skip.

Definition xhci_ring_cmd_doorbell : XM H unit :=
  let! hcd := get_hcd in
  writel (h_db_reg hcd) 0.
Definition xhci_ring_ep_doorbell (slot ep_num stream_id : Z) : XM H unit :=
  let! hcd := get_hcd in
  writel (h_db_reg hcd + 4 * slot) (Z.lor ep_num (Z.shiftl stream_id 16)).

(** * Events *)

Definition command_complete_handle (evt : xhci_trb) : XM H unit :=
  let! _ := load32 (u32 (t_paramater evt) + 12) in
  skip.

Definition xhci_port_state_to_neutral (state : Z) : Z :=
  Z.lor (Z.land state XHCI_PORT_RO) (Z.land state XHCI_PORT_RWS).

(** [hcd->op_reg->port[i].portsc] *)
Definition portsc_reg (i : Z) : XM H Z :=
  let! hcd := get_hcd in
  ret (h_op_reg hcd + OP_portsc i).

Definition port_status_handle (evt : xhci_trb) : XM H unit :=
  let port_id := u16 (GET_PORT_ID (t_paramater evt) - 1) in
  let! reg := portsc_reg port_id in
  let! port_sc := readl reg in
  let state := XHCI_OP_PORTSC_LINK_STATE port_sc in
  if state =? PLS_U0_STATE then
    do! writel reg (Z.lor (xhci_port_state_to_neutral port_sc) XHCI_OP_PORTSC_PRC) in
    if XHCI_OP_PORTSC_SPEED port_sc <? speed_map_len then skip else undefined
  else if state =? PLS_POLLING_STATE then
    let port_sc := Z.lor (xhci_port_state_to_neutral port_sc) XHCI_OP_PORTSC_RESET in
    let! now := readl reg in
    do! writel reg (Z.lor now port_sc) in
    do! poll fuel reg (fun v => Z.land v XHCI_OP_PORTSC_PRC =? 0) in
    let! _ := readl reg in
    skip
  else if state =? PLS_RXDETECT_STATE then
    writel reg (Z.lor (xhci_port_state_to_neutral port_sc) XHCI_OP_PORTSC_CSC)
  else skip.

(** xhci_port.c *)
Definition xhci_event_complete : XM H unit :=
  modify (fun s => if negb (x_wait s =? 0) then x_set_sync 1 s else s).

Definition handle_event (evt : xhci_trb) : XM H unit :=
  let type := Z.land (t_control evt) TRB_TYPE_BITMASK in
  if type =? TRB_TYPE TRB_COMPLETION then
    do! command_complete_handle evt in
    do! put_hcd (h_set_evt_trb evt) in
    xhci_event_complete
  else if type =? TRB_TYPE TRB_PORT_STATUS then port_status_handle evt
  else if type =? TRB_TYPE TRB_TRANSFER then
    do! put_hcd (h_set_evt_trb evt) in
    xhci_event_complete
  else skip.

(** The step to the next TRB of the event ring. *)
Definition advance (er : xhci_ring) : xhci_ring :=
  let i := u32 (r_read_index er + 1) mod r_num_trb er in
  let er := r_set_read_index i er in
  if i =? 0 then r_set_cycle_bit (Z.lxor (r_cycle_bit er) 1) er else er.

Definition next_event : XM H unit :=
  let! er := get_ring EventRing in
  if r_num_trb er =? 0 then undefined else set_ring EventRing (advance er).

(** [while (1) { ... }] of [xhci_isr]. *)
Fixpoint isr_loop (n : nat) : XM H unit :=
  match n with
  | O => fun _ => OutOfFuel
  | S n' =>
      let! er := get_ring EventRing in
      let! evt := load_trb (trb_addr er (r_read_index er)) in
      if negb (Z.land (t_control evt) TRB_CYCLE =? r_cycle_bit er) then skip
      else
        do! handle_event evt in
        do! next_event in
        isr_loop n'
  end.

Definition xhci_isr : XM H unit :=
  let! hcd := get_hcd in
  let er := h_event_ring hcd in
  let cur_rd_index := r_read_index er in
  let! erdp := readq (h_runtime_reg hcd + IR_erdp) in
  let! status := readl (h_op_reg hcd + OP_status) in
  do! writel (h_op_reg hcd + OP_status) (Z.lor status XHCI_USBSTS_EINT) in
  let! iman := readl (h_runtime_reg hcd + IR_iman) in
  do! writel (h_runtime_reg hcd + IR_iman) (Z.lor iman XHCI_IMAIN_IP) in
  do! xhci_cache_invalid (r_trb er) (r_num_trb er * sizeof_trb) in
  do! isr_loop fuel in
  let! er := get_ring EventRing in
  let erdp :=
    if negb (cur_rd_index =? r_read_index er)
    then Z.lor (Z.land erdp ERST_PTR_MASK) (trb_addr er (r_read_index er)) else erdp in
  writeq (h_runtime_reg hcd + IR_erdp) (Z.lor erdp ERST_EHB).

(** One step of the controller; its interrupt runs the handler. *)
Definition env_turn : XM H unit :=
  let! irq := (fun s =>
    let '(h, m, irq) := xhc_step (x_hw s) (x_mem s) in
    Ret (irq, x_set_mem m (x_set_hw h s))) in
  if irq then xhci_isr else skip.

(** [while (!event_sync);] *)
Fixpoint spin (n : nat) : XM H unit :=
  match n with
  | O => fun _ => OutOfFuel
  | S n' =>
      let! sync := gets x_sync in
      if negb (sync =? 0) then skip
      else do! env_turn in spin n'
  end.

Definition xhci_event_wait : XM H unit :=
  do! modify (x_set_wait 1) in
  do! spin fuel in
  do! modify (x_set_wait 0) in
  modify (x_set_sync 0).

(** * Ports *)

Definition xhci_port_reset (port : Z) : XM H Z :=
  let! reg := portsc_reg port in
  let! v := readl reg in
  do! writel reg (Z.lor (xhci_port_state_to_neutral v) XHCI_OP_PORTSC_RESET) in
  ret 0.

Definition xhci_get_portsc (port : Z) : XM H Z :=
  let! reg := portsc_reg port in
  readl reg.

Definition xhci_get_port_speed (port : Z) : XM H Z :=
  let! v := xhci_get_portsc port in
  ret (XHCI_OP_PORTSC_SPEED v).

(** * Commands *)

(** The interrupt may run at any time; it matters before the thread waits and
    before it reads the event. *)
Definition xhci_command_submit (trb : xhci_trb) : XM H xhci_trb :=
  do! xhci_enqueue_lock in
  do! xhci_enqueue_trb CmdRing trb in
  do! xhci_ring_cmd_doorbell in
  do! env_turn in
  do! xhci_event_wait in
  do! env_turn in
  let! hcd := get_hcd in
  do! xhci_enqueue_unlock in
  ret (h_evt_trb hcd).

End Ring.
