(* ===== verification/XhciRingSpec.v ===== *)
(** What the rings of the xHCI driver achieve.  [fetch_one] is how the
    controller takes the next TRB of a ring (xHCI 4.9.2): a TRB is its own if
    its cycle bit is the consumer's, a link is followed and toggles the bit.
    The producer refines a queue of the TRBs that were not fetched yet,
    for every interleaving with a consumer; the interrupt handler takes exactly
    the events that are pending; a command is answered by the event it waits
    for, unless that comes before the thread waits. *)

From S2P Require Import Prelude XhciDefs XhciMem XhciRing.

(** * The consumer of a ring *)

Definition cycle_of (t : xhci_trb) : Z := Z.land (t_control t) TRB_CYCLE.
Definition is_link (t : xhci_trb) : bool :=
  Z.land (t_control t) TRB_TYPE_BITMASK =? TRB_TYPE TRB_LINK.
Definition toggles (t : xhci_trb) : bool := Z.testbit (t_control t) 1.

(** The TRB at [p] and the consumer's position behind it, through at most [n]
    links; [None] if the consumer has to wait. *)
Fixpoint fetch_one (n : nat) (m : mem) (p ccs : Z) : option (xhci_trb * Z * Z) :=
  match mload_trb m p with
  | Ret t =>
      if negb (cycle_of t =? ccs) then None
      else if is_link t then
        match n with
        | O => None
        | S n' => fetch_one n' m (t_paramater t) (if toggles t then Z.lxor ccs 1 else ccs)
        end
      else Some (t, p + sizeof_trb, ccs)
  | _ => None
  end.

(** * The ring seen by its producer *)

(** Entry [i] of the ring is [t]. *)
Definition entry (m : mem) (r : xhci_ring) (i : Z) (t : xhci_trb) : Prop :=
  mload_trb m (trb_addr r i) = Ret t.

(** The entries before the write index carry the producer's cycle bit, those
    from it on and the link the other one. *)
Record ring_ok (m : mem) (r : xhci_ring) : Prop := {
  ro_type : r_type r <> EVENT_RING;
  ro_num : 3 <= r_num_trb r < 2 ^ 16;
  ro_index : 0 <= r_write_index r < r_num_trb r - 1;
  ro_cycle : r_cycle_bit r = 0 \/ r_cycle_bit r = 1;
  ro_base : is_u64 (r_trb r);
  ro_mapped : mapped m (r_trb r) (4 * r_num_trb r);
  ro_entry i : 0 <= i < r_num_trb r - 1 -> exists t, entry m r i t /\ is_link t = false /\
    cycle_of t = if i <? r_write_index r then r_cycle_bit r else 1 - r_cycle_bit r;
  ro_link : exists t, entry m r (r_num_trb r - 1) t /\ is_link t = true /\ toggles t = true /\
    t_paramater t = r_trb r /\ cycle_of t = 1 - r_cycle_bit r /\ is_u32 (t_control t);
}.

(** The entries [c], [c + 1], ... are the list. *)
Fixpoint entries (m : mem) (r : xhci_ring) (c : Z) (l : list xhci_trb) : Prop :=
  match l with
  | [] => True
  | t :: l' => entry m r c t /\ entries m r (c + 1) l'
  end.

(** A consumer at entry [c] with cycle state [cc] has [q] ahead of it: in the
    lap of the producer, or one lap behind it. *)
Definition ahead (m : mem) (r : xhci_ring) (c cc : Z) (q : list xhci_trb) : Prop :=
  0 <= c /\
  ((cc = r_cycle_bit r /\ c + Z.of_nat (length q) = r_write_index r /\ entries m r c q) \/
   (cc = 1 - r_cycle_bit r /\ r_write_index r <= c <= r_num_trb r - 1 /\
    exists q1 q2, q = q1 ++ q2 /\ entries m r c q1 /\ entries m r 0 q2 /\
      c + Z.of_nat (length q1) = r_num_trb r - 1 /\
      Z.of_nat (length q2) = r_write_index r)).

Lemma entry_det m r i t t' : entry m r i t -> entry m r i t' -> t = t'.
Proof. unfold entry. congruence. Qed.

Lemma entries_app m r c l1 l2 :
  entries m r c (l1 ++ l2) <->
  entries m r c l1 /\ entries m r (c + Z.of_nat (length l1)) l2.
Proof.
  revert c. induction l1 as [|t l1 IH]; intros c; cbn [entries app length].
  { rewrite Z.add_0_r. tauto. }
  rewrite IH. replace (c + 1 + Z.of_nat (length l1)) with (c + Z.of_nat (S (length l1))) by lia.
  tauto.
Qed.

Lemma entries_ext m m' r r' c l :
  (forall i t, c <= i < c + Z.of_nat (length l) -> entry m r i t -> entry m' r' i t) ->
  entries m r c l -> entries m' r' c l.
Proof.
  revert c. induction l as [|t l IH]; intros c He; cbn [entries length] in *; [done|].
  intros [H1 H2]. split; [apply He; [lia|done]|]. apply IH; [|done]. intros i t' Hi. apply He. lia.
Qed.

Lemma entries_lookup m r c l i t :
  entries m r c l -> l !! i = Some t -> entry m r (c + Z.of_nat i) t.
Proof.
  revert c i. induction l as [|x l IH]; intros c i He Hi; [done|]. destruct He as [H1 H2].
  destruct i as [|i]; simpl in Hi.
  - simplify_eq. by rewrite Z.add_0_r.
  - replace (c + Z.of_nat (S i)) with (c + 1 + Z.of_nat i) by lia. by apply IH.
Qed.

(** * Taking a TRB *)

Lemma trb_addr_succ r c : trb_addr r c + sizeof_trb = trb_addr r (c + 1).
Proof. unfold trb_addr. unfold sizeof_trb. lia. Qed.

Lemma trb_addr_0 r : trb_addr r 0 = r_trb r.
Proof. unfold trb_addr. lia. Qed.

(** Before the write index, from it on, and at the link. *)
Lemma fetch_here n m r i t cc :
  ring_ok m r -> entry m r i t -> 0 <= i < r_num_trb r - 1 ->
  cc = (if i <? r_write_index r then r_cycle_bit r else 1 - r_cycle_bit r) ->
  fetch_one n m (trb_addr r i) cc = Some (t, trb_addr r (i + 1), cc).
Proof.
  intros Hr Ht Hi ->. destruct (ro_entry _ _ Hr i Hi) as (t' & Ht' & Hl & Hc).
  rewrite (entry_det _ _ _ _ _ Ht' Ht) in Hl, Hc. unfold entry in Ht.
  destruct n; cbn [fetch_one]; rewrite Ht, Hc, Z.eqb_refl, Hl, trb_addr_succ; done.
Qed.

Lemma fetch_stops n m r :
  ring_ok m r -> fetch_one n m (trb_addr r (r_write_index r)) (r_cycle_bit r) = None.
Proof.
  intros Hr. destruct (ro_entry _ _ Hr _ (ro_index _ _ Hr)) as (t & Ht & _ & Hc).
  rewrite Z.ltb_irrefl in Hc. unfold entry in Ht.
  assert ((cycle_of t =? r_cycle_bit r) = false) as E by (destruct (ro_cycle _ _ Hr); lia).
  destruct n; cbn [fetch_one]; by rewrite Ht, E.
Qed.

Lemma fetch_link n m r :
  ring_ok m r ->
  fetch_one (S n) m (trb_addr r (r_num_trb r - 1)) (1 - r_cycle_bit r) =
    fetch_one n m (trb_addr r 0) (r_cycle_bit r).
Proof.
  intros Hr. destruct (ro_link _ _ Hr) as (t & Ht & Hl & Htg & Hp & Hc & _). unfold entry in Ht.
  cbn [fetch_one]. rewrite Ht, Hc, Z.eqb_refl, Hl, Htg, Hp, trb_addr_0. cbn [negb].
  destruct (ro_cycle _ _ Hr) as [->| ->]; done.
Qed.

(** The consumer takes the head of what is ahead of it, and waits if that is
    nothing. *)
Lemma fetch_ahead n m r c cc q :
  ring_ok m r -> ahead m r c cc q ->
  match q with
  | [] => fetch_one (S n) m (trb_addr r c) cc = None
  | t :: q' => exists c' cc', fetch_one (S n) m (trb_addr r c) cc = Some (t, trb_addr r c', cc') /\
                 ahead m r c' cc' q'
  end.
Proof.
  intros Hr Ha. pose proof (ro_index _ _ Hr) as Hw.
  (* within the lap of the producer *)
  assert (forall k c q, 0 <= c -> c + Z.of_nat (length q) = r_write_index r -> entries m r c q ->
    match q with
    | [] => fetch_one k m (trb_addr r c) (r_cycle_bit r) = None
    | t :: q' => exists c' cc',
        fetch_one k m (trb_addr r c) (r_cycle_bit r) = Some (t, trb_addr r c', cc') /\
        ahead m r c' cc' q'
    end) as Hlap.
  { intros k c0 [|t q'] H0 Hl He; cbn [length] in Hl.
    { replace c0 with (r_write_index r) by lia. by apply fetch_stops. }
    destruct He as [Ht He]. exists (c0 + 1), (r_cycle_bit r). split.
    - apply fetch_here; [done..|lia|]. rewrite (proj2 (Z.ltb_lt _ _)); [done|lia].
    - split; [lia|]. left. split; [done|]. split; [lia|done]. }
  destruct Ha as [H0 [(-> & Hl & He)|(-> & Hc & q1 & q2 & -> & He1 & He2 & Hl1 & Hl2)]];
    [by apply Hlap|].
  destruct q1 as [|t q1]; cbn [length app] in *.
  - replace c with (r_num_trb r - 1) by lia. rewrite fetch_link by done. apply Hlap; [lia..|done].
  - destruct He1 as [Ht He1]. exists (c + 1), (1 - r_cycle_bit r). split.
    + apply fetch_here; [done..|lia|]. rewrite (proj2 (Z.ltb_ge _ _)); [done|lia].
    + split; [lia|]. right. split; [done|]. split; [lia|]. exists q1, q2. repeat split; [done..|lia|done].
Qed.

(** * Adding a TRB *)

(** The producer's ring after [xhci_enqueue_trb], and its memory. *)
Definition enq_ring (r : xhci_ring) : xhci_ring :=
  if r_write_index r + 1 =? r_num_trb r - 1
  then r_set_write_index 0 (r_set_cycle_bit (Z.lxor (r_cycle_bit r) 1) r)
  else r_set_write_index (r_write_index r + 1) r.

Lemma enq_ring_wrap r :
  r_write_index r + 1 = r_num_trb r - 1 ->
  enq_ring r = r_set_write_index 0 (r_set_cycle_bit (Z.lxor (r_cycle_bit r) 1) r).
Proof. intros E. unfold enq_ring. by rewrite (proj2 (Z.eqb_eq _ _) E). Qed.

Lemma enq_ring_step r :
  r_write_index r + 1 <> r_num_trb r - 1 ->
  enq_ring r = r_set_write_index (r_write_index r + 1) r.
Proof. intros E. unfold enq_ring. by rewrite (proj2 (Z.eqb_neq _ _) E). Qed.

Lemma entry_enq m r i t : entry m (enq_ring r) i t <-> entry m r i t.
Proof. unfold entry, trb_addr, enq_ring. by destruct (_ =? _). Qed.

(** A TRB the driver may put on the ring. *)
Definition ready (r : xhci_ring) (t : xhci_trb) : Prop :=
  wf_trb t /\ is_link t = false /\ cycle_of t = r_cycle_bit r.

Lemma lxor_cycle c : c = 0 \/ c = 1 -> Z.lxor c 1 = 1 - c.
Proof. by intros [->| ->]. Qed.

Lemma flip_control ct :
  is_u32 ct ->
  let ct' := u32 (Z.lxor ct TRB_CYCLE) in
  is_u32 ct' /\ Z.land ct' TRB_CYCLE = 1 - Z.land ct TRB_CYCLE /\
  Z.land ct' TRB_TYPE_BITMASK = Z.land ct TRB_TYPE_BITMASK /\ Z.testbit ct' 1 = Z.testbit ct 1.
Proof.
  intros Hct. cbn zeta. split; [apply u32_range|].
  assert (u32 (Z.lxor ct TRB_CYCLE) = Z.lxor ct TRB_CYCLE) as ->.
  { apply u32_small, bits_range; [lia|apply Z.lxor_nonneg; unfold is_u32 in Hct; split; intros;
      [done|lia]|]. intros i Hi. rewrite Z.lxor_spec, (range_bits 32 ct), (range_bits 32 TRB_CYCLE)
      by (done || lia). done. }
  change TRB_CYCLE with (Z.ones 1). split.
  - rewrite !Z.land_ones by lia. change (Z.ones 1) with 1. change (2 ^ 1) with 2.
    rewrite !Zmod_odd, <- !Z.bit0_odd, Z.lxor_spec. by destruct (Z.testbit ct 0).
  - split; [|by rewrite Z.lxor_spec, xorb_false_r].
    apply Z.bits_inj'. intros i Hi. rewrite !Z.land_spec, Z.lxor_spec.
    destruct (Z.eq_dec i 0) as [->|]; [by rewrite !andb_false_r|].
    by rewrite Z.ones_spec_high, xorb_false_r by lia.
Qed.

Lemma mload_trb_control m p t v :
  mload_trb m p = Ret t ->
  mload_trb (<[p + 12 := v]> m) p = Ret (mk_trb (t_paramater t) (t_status t) v).
Proof.
  unfold mload_trb, mload64, mload. mem_lookup.
  destruct (m !! p), (m !! (p + 4)), (m !! (p + 8)), (m !! (p + 12)); cbn; intros; by simplify_eq.
Qed.

(** A store into one entry leaves the others. *)
Lemma entry_put m r w t i t' :
  i <> w -> entry m r i t' -> entry (put_trb m (trb_addr r w) t) r i t'.
Proof.
  unfold entry, trb_addr, sizeof_trb. intros Hi Ht. rewrite mload_put_trb_ne by lia. done.
Qed.

Lemma entry_control m r j v i t' :
  i <> j -> entry m r i t' -> entry (<[trb_addr r j + 12 := v]> m) r i t'.
Proof.
  unfold entry, trb_addr, sizeof_trb. intros Hi Ht. rewrite <- Ht. apply mload_trb_ext.
  intros k Hk. by mem_lookup.
Qed.

Section Enqueue.
Variables (m : mem) (r : xhci_ring) (t : xhci_trb).
Hypotheses (Hr : ring_ok m r) (Ht : ready r t).

Let w := r_write_index r.
Let m1 := put_trb m (trb_addr r w) t.

Lemma enq_entries i :
  0 <= i < r_num_trb r - 1 -> exists t', entry m1 r i t' /\ is_link t' = false /\
    cycle_of t' = if i <? w + 1 then r_cycle_bit r else 1 - r_cycle_bit r.
Proof.
  intros Hi. destruct Ht as (Hwf & Hnl & Hc). destruct (Z.eq_dec i w) as [->|Hne].
  - exists t. split; [by apply mload_put_trb|]. split; [done|].
    by rewrite (proj2 (Z.ltb_lt _ _)) by lia.
  - destruct (ro_entry _ _ Hr i Hi) as (t' & He & Hl & Hc'). exists t'.
    split; [by apply entry_put|]. split; [done|]. rewrite Hc'. subst w.
    by destruct (Z.ltb_spec i (r_write_index r)), (Z.ltb_spec i (r_write_index r + 1)); try lia.
Qed.

(** Without reaching the link. *)
Lemma enq_step :
  w + 1 < r_num_trb r - 1 -> ring_ok m1 (r_set_write_index (w + 1) r).
Proof.
  intros Hw. pose proof (ro_index _ _ Hr). destruct Hr.
  constructor; cbn [r_set_write_index r_type r_num_trb r_write_index r_cycle_bit r_trb]; try done.
  - subst w. lia.
  - by apply mapped_put_trb.
  - apply enq_entries.
  - destruct ro_link0 as (l & He & Hrest). exists l. split; [|done].
    apply (entry_put m r); [subst w; lia|done].
Qed.

(** Reaching the link: it is handed over and the next lap begins. *)
Lemma enq_wrap l :
  w + 1 = r_num_trb r - 1 -> entry m1 r (r_num_trb r - 1) l ->
  ring_ok (<[trb_addr r (r_num_trb r - 1) + 12 := u32 (Z.lxor (t_control l) TRB_CYCLE)]> m1)
    (r_set_write_index 0 (r_set_cycle_bit (Z.lxor (r_cycle_bit r) 1) r)).
Proof.
  intros Hw He. pose proof (ro_num _ _ Hr). pose proof (ro_cycle _ _ Hr) as Hcy.
  destruct (ro_link _ _ Hr) as (l' & He' & Hlk & Htg & Hp & Hc & Hu).
  assert (l' = l) as -> by (eapply entry_det; [|exact He]; apply entry_put; [subst w; lia|done]).
  destruct (flip_control _ Hu) as (F1 & F2 & F3 & F4).
  constructor;
    cbn [r_set_write_index r_set_cycle_bit r_type r_num_trb r_write_index r_cycle_bit r_trb];
    rewrite ?lxor_cycle by done.
  - by apply (ro_type _ _ Hr).
  - done.
  - lia.
  - lia.
  - by apply (ro_base _ _ Hr).
  - apply mapped_insert, mapped_put_trb, (ro_mapped _ _ Hr).
  - intros i Hi. destruct (enq_entries i Hi) as (t' & Ht' & Hl' & Hc'). exists t'.
    split; [apply (entry_control m1 r); [lia|done]|]. split; [done|]. rewrite Hc'.
    rewrite lxor_cycle by done. destruct (Z.ltb_spec i (w + 1)), (Z.ltb_spec i 0); lia.
  - eexists. split; [by apply (mload_trb_control m1)|]. unfold is_link, toggles, cycle_of in *.
    cbn [t_control t_paramater]. rewrite (lxor_cycle (r_cycle_bit r)), F2, F3, F4 by done.
    do 3 (split; [done|]). split; [lia|done].
Qed.

(** What is ahead of a consumer, while the ring is not full. *)
Lemma enq_ahead_step m' c cc q :
  (forall i t', 0 <= i < r_num_trb r - 1 -> entry m1 r i t' -> entry m' (enq_ring r) i t') ->
  ahead m r c cc q -> Z.of_nat (length q) + 1 < r_num_trb r - 1 ->
  ahead m' (enq_ring r) c cc (q ++ [t]).
Proof.
  intros Hm'. pose proof (ro_index _ _ Hr) as Hw. pose proof (ro_cycle _ _ Hr) as Hcy.
  assert (entry m1 r w t) as Hnew by (by apply mload_put_trb, (proj1 Ht)).
  assert (forall c l, 0 <= c -> (c + Z.of_nat (length l) <= w \/
      w < c /\ c + Z.of_nat (length l) <= r_num_trb r - 1) ->
    entries m r c l -> entries m' (enq_ring r) c l) as Hkeep.
  { intros c0 l H0 Hl. apply entries_ext. intros i t' Hi He. apply Hm'; [subst w; lia|].
    apply entry_put; [lia|done]. }
  assert (forall l, Z.of_nat (length l) = w -> entries m r 0 l ->
    entries m' (enq_ring r) 0 (l ++ [t])) as Hsnoc0.
  { intros l Hl He. apply entries_app. split; [apply Hkeep; [lia..|done]|]. split; [|done].
    rewrite Hl. apply Hm'; [subst w; lia|exact Hnew]. }
  intros [H0 Ha] Hlen. split; [done|]. rewrite length_app. cbn [length].
  destruct Ha as [(-> & Hl & He)|(-> & Hc & q1 & q2 & -> & He1 & He2 & Hl1 & Hl2)].
  - assert (entries m' (enq_ring r) c (q ++ [t])) as Hq.
    { apply entries_app. split; [apply Hkeep; [lia..|done]|]. split; [|done]. rewrite Hl.
      apply Hm'; [lia|exact Hnew]. }
    unfold enq_ring in *. destruct (Z.eqb_spec (r_write_index r + 1) (r_num_trb r - 1)).
    + right. cbn [r_set_write_index r_set_cycle_bit r_cycle_bit r_write_index r_num_trb].
      split; [rewrite lxor_cycle by done; lia|]. split; [lia|]. exists (q ++ [t]), [].
      rewrite app_nil_r, length_app. cbn [length].
      split; [done|]. split; [exact Hq|]. split; [done|]. split; [lia|done].
    + left. cbn [r_set_write_index r_cycle_bit r_write_index]. split; [done|]. split; [lia|exact Hq].
  - rewrite length_app in Hlen. right.
    assert (enq_ring r = r_set_write_index (w + 1) r) as E.
    { unfold enq_ring. rewrite (proj2 (Z.eqb_neq _ _)); [done|]. lia. }
    rewrite E in *. cbn [r_set_write_index r_cycle_bit r_write_index r_num_trb].
    split; [done|]. split; [subst w; lia|]. exists q1, (q2 ++ [t]). rewrite app_assoc.
    split; [done|]. split; [apply Hkeep; [lia| |done]; destruct q1; cbn [length] in *; subst w; lia|].
    split; [apply Hsnoc0; [done|done]|]. split; [done|]. rewrite length_app. cbn [length]. subst w. lia.
Qed.
End Enqueue.

(** * The rings of the driver *)

Definition ring_of (h : xhci_hcd) (ref : ring_ref) : res xhci_ring :=
  match ref with
  | EventRing => Ret (h_event_ring h)
  | CmdRing => Ret (h_cmd_ring h)
  | EpRing slot ep =>
      rlet! d := arr_get (h_device h) slot in
      rlet! e := arr_get (d_ep d) ep in
      Ret (e_ep_ring e)
  end.

Definition upd_ring (ref : ring_ref) (r : xhci_ring) (h : xhci_hcd) : xhci_hcd :=
  match ref with
  | EventRing => h_set_event_ring r h
  | CmdRing => h_set_cmd_ring r h
  | EpRing slot ep =>
      match h_device h !! Z.to_nat slot with
      | Some d =>
          match d_ep d !! Z.to_nat ep with
          | Some e =>
              let d := d_set_ep (<[Z.to_nat ep := e_set_ep_ring r e]> (d_ep d)) d in
              h_set_device (<[Z.to_nat slot := d]> (h_device h)) h
          | None => h
          end
      | None => h
      end
  end.

Lemma arr_get_inv {A} (l : list A) i x : arr_get l i = Ret x -> 0 <= i /\ l !! Z.to_nat i = Some x.
Proof.
  unfold arr_get. destruct (Z.leb_spec 0 i); [|done]. destruct (l !! Z.to_nat i) eqn:E; [|done].
  intros. by simplify_eq.
Qed.

Lemma arr_set_lookup {A} (l : list A) i x y :
  0 <= i -> l !! Z.to_nat i = Some x -> arr_set l i y = Ret (<[Z.to_nat i := y]> l).
Proof. intros H0 Hi. apply arr_set_ok. apply lookup_lt_Some in Hi. lia. Qed.

Lemma ep_ring_inv h slot ep r :
  ring_of h (EpRing slot ep) = Ret r ->
  exists d e, 0 <= slot /\ h_device h !! Z.to_nat slot = Some d /\
    0 <= ep /\ d_ep d !! Z.to_nat ep = Some e /\ e_ep_ring e = r.
Proof.
  cbn [ring_of]. destruct (arr_get (h_device h) slot) as [d| |] eqn:Ed; [|done..].
  cbn [rbind]. destruct (arr_get (d_ep d) ep) as [e| |] eqn:Ee; [|done..]. cbn [rbind]. intros Er.
  destruct (arr_get_inv _ _ _ Ed), (arr_get_inv _ _ _ Ee). exists d, e. repeat split; try done.
  by simplify_eq.
Qed.

Lemma ring_of_upd h ref r0 r : ring_of h ref = Ret r0 -> ring_of (upd_ring ref r h) ref = Ret r.
Proof.
  destruct ref as [| |slot ep]; [done..|]. intros (d & e & Hs & Ed & He & Ee & _)%ep_ring_inv.
  cbn [upd_ring ring_of]. rewrite Ed, Ee. cbn [h_device h_set_device].
  erewrite arr_get_Ret by (done || apply list_lookup_insert_eq; by eapply lookup_lt_Some).
  cbn [rbind d_ep d_set_ep].
  by erewrite arr_get_Ret by (done || apply list_lookup_insert_eq; by eapply lookup_lt_Some).
Qed.

Lemma upd_ring_twice h ref r0 r1 r2 :
  ring_of h ref = Ret r0 -> upd_ring ref r2 (upd_ring ref r1 h) = upd_ring ref r2 h.
Proof.
  destruct ref as [| |slot ep]; [done..|]. intros (d & e & Hs & Ed & He & Ee & _)%ep_ring_inv.
  cbn [upd_ring]. rewrite Ed, Ee. cbn [h_device h_set_device].
  rewrite list_lookup_insert_eq by (by eapply lookup_lt_Some). cbn [d_ep d_set_ep].
  rewrite list_lookup_insert_eq by (by eapply lookup_lt_Some).
  unfold h_set_device, d_set_ep, e_set_ep_ring. cbn. by rewrite !list_insert_insert_eq.
Qed.

Lemma ring_of_upd_ne h ref ref' r r0 :
  ref <> ref' -> ring_of h ref = Ret r0 -> ring_of (upd_ring ref r h) ref' = ring_of h ref'.
Proof.
  destruct ref as [| |slot ep], ref' as [| |slot' ep']; intros Hne Hr; try done;
    destruct (ep_ring_inv _ _ _ _ Hr) as (d & e & Hs & Ed & He & Ee & _);
    cbn [upd_ring ring_of]; rewrite Ed, Ee; try done. cbn [h_device h_set_device].
  destruct (Z.le_gt_cases 0 slot'); [|by rewrite !arr_get_UB by (left; lia)].
  destruct (Z.eq_dec slot slot') as [<-|].
  - erewrite arr_get_Ret by (done || apply list_lookup_insert_eq; by eapply lookup_lt_Some).
    rewrite (arr_get_Ret (h_device h) slot d) by done. cbn [rbind d_ep d_set_ep].
    unfold arr_get. destruct (Z.leb_spec 0 ep'); [|done].
    rewrite list_lookup_insert_ne by (intros ?; apply Hne; f_equal; lia). done.
  - unfold arr_get. destruct (Z.leb_spec 0 slot'); [|done].
    by rewrite list_lookup_insert_ne by lia.
Qed.

(** A new ring changes no register base, and nothing but one ring. *)
Lemma upd_ring_regs ref r h :
  h_db_reg (upd_ring ref r h) = h_db_reg h /\ h_op_reg (upd_ring ref r h) = h_op_reg h /\
  h_runtime_reg (upd_ring ref r h) = h_runtime_reg h /\ h_evt_trb (upd_ring ref r h) = h_evt_trb h.
Proof.
  destruct ref as [| |slot ep]; [done..|]. cbn [upd_ring].
  by destruct (h_device h !! Z.to_nat slot) as [d|]; [destruct (d_ep d !! Z.to_nat ep)|].
Qed.

Lemma entry_mapped m r i : ring_ok m r -> 0 <= i < r_num_trb r -> mapped m (trb_addr r i) 4.
Proof.
  intros Hr Hi. eapply mapped_sub; [apply (ro_mapped _ _ Hr)|]. exists (4 * i).
  unfold trb_addr, sizeof_trb. lia.
Qed.

(** The words of one entry are words of the ring. *)
Lemma only_words_entry m m' r i :
  0 <= i < r_num_trb r -> only_words (trb_addr r i) 4 m m' ->
  only_words (r_trb r) (4 * r_num_trb r) m m'.
Proof.
  intros Hi Hm b Hb. apply Hm. intros j Hj. specialize (Hb (4 * i + j) ltac:(lia)).
  unfold trb_addr, sizeof_trb. lia.
Qed.

Lemma mload_trb_mapped m p t k : mload_trb m p = Ret t -> 0 <= k < 4 -> is_Some (m !! (p + 4 * k)).
Proof.
  unfold mload_trb, mload64, mload. intros Ht Hk.
  destruct (m !! p) eqn:E0, (m !! (p + 4)) eqn:E1, (m !! (p + 8)) eqn:E2, (m !! (p + 12)) eqn:E3;
    cbn in Ht; try done.
  destruct (Z.eq_dec k 0) as [->|]; [rewrite Z.mul_0_r, Z.add_0_r, E0; eauto|].
  destruct (Z.eq_dec k 1) as [->|]; [change (4 * 1) with 4; rewrite E1; eauto|].
  destruct (Z.eq_dec k 2) as [->|]; [change (4 * 2) with 8; rewrite E2; eauto|].
  replace k with 3 by lia. change (4 * 3) with 12. rewrite E3. eauto.
Qed.

(** The memory after an enqueue. *)
Definition enq_mem (m : mem) (r : xhci_ring) (t : xhci_trb) : mem :=
  let m1 := put_trb m (trb_addr r (r_write_index r)) t in
  let link := trb_addr r (r_num_trb r - 1) + 12 in
  if r_write_index r + 1 =? r_num_trb r - 1 then
    match m1 !! link with
    | Some control => <[link := u32 (Z.lxor control TRB_CYCLE)]> m1
    | None => m1
    end
  else m1.

(** At the link, [enq_mem] flips the bit of the link TRB [l]. *)
Lemma enq_mem_wrap m r t l :
  ring_ok m r -> r_write_index r + 1 = r_num_trb r - 1 -> entry m r (r_num_trb r - 1) l ->
  enq_mem m r t = <[trb_addr r (r_num_trb r - 1) + 12 := u32 (Z.lxor (t_control l) TRB_CYCLE)]>
    (put_trb m (trb_addr r (r_write_index r)) t).
Proof.
  intros Hr Hw Hl. unfold enq_mem. rewrite (proj2 (Z.eqb_eq _ _) Hw).
  pose proof (entry_put _ _ (r_write_index r) t (r_num_trb r - 1) l ltac:(lia) Hl) as Hl1.
  by rewrite (mload_trb_word _ _ _ Hl1).
Qed.

Lemma enq_mem_step m r t :
  r_write_index r + 1 <> r_num_trb r - 1 ->
  enq_mem m r t = put_trb m (trb_addr r (r_write_index r)) t.
Proof. intros Hw. unfold enq_mem. by rewrite (proj2 (Z.eqb_neq _ _) Hw). Qed.

Lemma enq_mem_frame m r t :
  ring_ok m r -> only_words (r_trb r) (4 * r_num_trb r) m (enq_mem m r t).
Proof.
  intros Hr. pose proof (ro_index _ _ Hr). pose proof (ro_num _ _ Hr).
  assert (only_words (r_trb r) (4 * r_num_trb r) m (put_trb m (trb_addr r (r_write_index r)) t)) as Hf
    by (apply only_words_entry with (r_write_index r); [lia|apply put_trb_frame]).
  destruct (Z.eq_dec (r_write_index r + 1) (r_num_trb r - 1)); [|by rewrite enq_mem_step].
  destruct (ro_link _ _ Hr) as (l & Hl & _). rewrite (enq_mem_wrap _ _ _ l) by done.
  intros b Hb. pose proof (Hb (4 * (r_num_trb r - 1) + 3) ltac:(lia)).
  rewrite lookup_insert_ne by (unfold trb_addr, sizeof_trb; lia). by apply Hf.
Qed.

Lemma enq_mem_entry m r t i t' :
  ring_ok m r -> 0 <= i < r_num_trb r - 1 ->
  entry (put_trb m (trb_addr r (r_write_index r)) t) r i t' -> entry (enq_mem m r t) r i t'.
Proof.
  intros Hr Hi He.
  destruct (Z.eq_dec (r_write_index r + 1) (r_num_trb r - 1)); [|by rewrite enq_mem_step].
  destruct (ro_link _ _ Hr) as (l & Hl & _). rewrite (enq_mem_wrap _ _ _ l) by done.
  by apply entry_control; [lia|].
Qed.

Lemma enq_mem_ok m r t : ring_ok m r -> ready r t -> ring_ok (enq_mem m r t) (enq_ring r).
Proof.
  intros Hr Ht. pose proof (ro_index _ _ Hr).
  destruct (Z.eq_dec (r_write_index r + 1) (r_num_trb r - 1)) as [Hw|Hw].
  - destruct (ro_link _ _ Hr) as (l & Hl & _). rewrite (enq_mem_wrap _ _ _ l), enq_ring_wrap by done.
    apply enq_wrap; [done..|]. apply entry_put; [lia|done].
  - rewrite enq_mem_step, enq_ring_step by done. apply enq_step; [done..|lia].
Qed.

Lemma enq_mem_ahead m r t c cc q :
  ring_ok m r -> ready r t -> ahead m r c cc q -> Z.of_nat (length q) + 1 < r_num_trb r - 1 ->
  ahead (enq_mem m r t) (enq_ring r) c cc (q ++ [t]).
Proof.
  intros Hr Ht Ha Hq. apply (enq_ahead_step m r t Hr Ht); [|done..].
  intros i t' Hi He. by apply entry_enq, enq_mem_entry.
Qed.

Section Run.
Context {H : Type} `{!Xhc H}.

Lemma get_ring_run ref r (s : xworld H) :
  ring_of (x_hcd s) ref = Ret r -> get_ring ref s = Ret (r, s).
Proof.
  destruct ref as [| |slot ep]; cbn [ring_of]; intros Hr; [by simplify_eq..|].
  unfold get_ring, get_ep, get_device, bind, lift, ret.
  destruct (arr_get (h_device (x_hcd s)) slot) as [d| |]; [|done..]. cbn [rbind] in *.
  destruct (arr_get (d_ep d) ep); [|done..]. cbn [rbind] in *. by simplify_eq.
Qed.

Lemma set_ring_run ref r0 r (s : xworld H) :
  ring_of (x_hcd s) ref = Ret r0 ->
  set_ring ref r s = Ret (tt, x_set_hcd (upd_ring ref r (x_hcd s)) s).
Proof.
  destruct ref as [| |slot ep]; [done..|]. intros (d & e & Hs & Ed & He & Ee & _)%ep_ring_inv.
  cbn [set_ring upd_ring]. unfold get_ep, set_ep, get_device, set_device, bind, lift, ret.
  rewrite Ed, Ee, (arr_get_Ret _ _ d) by done. cbn [rbind].
  rewrite (arr_get_Ret _ _ e) by done. cbn [rbind].
  rewrite (arr_get_Ret _ _ d) by done. cbn [rbind].
  rewrite (arr_set_lookup _ _ e) by done. cbn [rbind].
  by rewrite (arr_set_lookup _ _ d) by done.
Qed.

(** The state after an enqueue: the new ring, a flush of the cache, and memory
    changed within the ring only. *)
Lemma enqueue_exec ref r t (s : xworld H) :
  ring_of (x_hcd s) ref = Ret r -> ring_ok (x_mem s) r ->
  xhci_enqueue_trb ref t s = Ret (tt, x_set_hcd (upd_ring ref (enq_ring r) (x_hcd s))
    (x_set_mem (enq_mem (x_mem s) r t)
      (x_set_hw (sys_cache_data_flush_range (r_trb r) (r_num_trb r * sizeof_trb) (x_hw s)) s))).
Proof.
  intros Hring Hr. pose proof (ro_index _ _ Hr) as Hw. pose proof (ro_num _ _ Hr) as Hn.
  pose proof (ro_type _ _ Hr) as Hty.
  assert (mapped (x_mem s) (trb_addr r (r_write_index r)) 4) as Hmap by (by apply entry_mapped; [|lia]).
  unfold xhci_enqueue_trb. run_by (by apply get_ring_run).
  run_by (unfold store_trb, mem_write; rewrite mstore_trb_ok by done; reflexivity).
  run_by (by eapply set_ring_run). unfold xhci_cache_flush at 1.
  run_by reflexivity. cbn [r_set_write_index r_type r_trb r_num_trb r_write_index r_cycle_bit].
  rewrite bool_decide_eq_false_2 by done. cbn [negb andb].
  rewrite (u32_small (r_write_index r + 1)), (u32_small (r_num_trb r - 1)) by word_lia.
  unfold enq_ring, enq_mem.
  destruct (Z.eqb_spec (r_write_index r + 1) (r_num_trb r - 1)) as [Hwrap|Hstep]; [|done].
  destruct (ro_link _ _ Hr) as (l & Hl & _).
  pose proof (entry_put _ _ (r_write_index r) t (r_num_trb r - 1) l ltac:(lia) Hl) as Hl1.
  pose proof (mload_trb_word _ _ _ Hl1) as Hct. rewrite Hct.
  rewrite Hwrap. change (trb_addr _ (r_num_trb r - 1)) with (trb_addr r (r_num_trb r - 1)).
  run_by (unfold load32, mem_read; cbn [x_mem x_set_hw x_set_hcd x_set_mem];
    rewrite (mload_ok _ _ _ Hct); reflexivity).
  run_by (unfold store32, mem_write; cbn [x_mem x_set_hw x_set_hcd x_set_mem];
    rewrite mstore_ok by eauto; reflexivity).
  erewrite set_ring_run by (cbn [x_hcd x_set_hw x_set_hcd x_set_mem]; by eapply ring_of_upd).
  cbn [x_mem x_hcd x_set_hw x_set_hcd x_set_mem]. by erewrite upd_ring_twice.
Qed.

Lemma enqueue_run ref r t (s : xworld H) :
  ring_of (x_hcd s) ref = Ret r -> ring_ok (x_mem s) r -> ready r t ->
  exists m', xhci_enqueue_trb ref t s =
      Ret (tt, x_set_hcd (upd_ring ref (enq_ring r) (x_hcd s)) (x_set_mem m'
        (x_set_hw (sys_cache_data_flush_range (r_trb r) (r_num_trb r * sizeof_trb) (x_hw s)) s))) /\
    ring_ok m' (enq_ring r) /\ only_words (r_trb r) (4 * r_num_trb r) (x_mem s) m' /\
    forall c cc q, ahead (x_mem s) r c cc q -> Z.of_nat (length q) + 1 < r_num_trb r - 1 ->
      ahead m' (enq_ring r) c cc (q ++ [t]).
Proof.
  intros Hring Hr Ht. exists (enq_mem (x_mem s) r t). split; [by apply enqueue_exec|].
  split; [by apply enq_mem_ok|]. split; [by apply enq_mem_frame|]. intros. by apply enq_mem_ahead.
Qed.
End Run.

(** * Every interleaving of producer and consumer *)

(** The words of the ring did not change. *)
Definition same_ring (r : xhci_ring) (m m' : mem) : Prop :=
  forall i, 0 <= i < 4 * r_num_trb r -> m' !! (r_trb r + 4 * i) = m !! (r_trb r + 4 * i).

Lemma entry_same m m' r i t :
  same_ring r m m' -> 0 <= i < r_num_trb r -> entry m r i t -> entry m' r i t.
Proof.
  unfold entry. intros Hs Hi <-. apply mload_trb_ext. intros k Hk.
  replace (trb_addr r i + 4 * k) with (r_trb r + 4 * (4 * i + k)) by (unfold trb_addr, sizeof_trb; lia).
  apply Hs. lia.
Qed.

Lemma ring_ok_same m m' r : same_ring r m m' -> ring_ok m r -> ring_ok m' r.
Proof.
  intros Hs []. constructor; try done.
  - intros i Hi. rewrite Hs by done. by apply ro_mapped0.
  - intros i Hi. destruct (ro_entry0 i Hi) as (t & He & Hrest). exists t.
    split; [eapply entry_same; [done|lia|done]|done].
  - destruct ro_link0 as (t & He & Hrest). exists t.
    split; [eapply entry_same; [done|lia|done]|done].
Qed.

Lemma ahead_same m m' r c cc q : ring_ok m r -> same_ring r m m' -> ahead m r c cc q -> ahead m' r c cc q.
Proof.
  intros Hr Hs [H0 Ha]. pose proof (ro_index _ _ Hr). split; [done|].
  destruct Ha as [(-> & Hl & He)|(-> & Hc & q1 & q2 & -> & He1 & He2 & Hl1 & Hl2)]; [left|right].
  - repeat split; [done..|]. eapply entries_ext; [|done]. intros. eapply entry_same; [done|lia|done].
  - split; [done|]. split; [done|]. exists q1, q2. repeat split; try done.
    + eapply entries_ext; [|done]. intros. eapply entry_same; [done|lia|done].
    + eapply entries_ext; [|done]. intros. eapply entry_same; [done|lia|done].
Qed.

Lemma zero_entry m a n r i :
  (forall k, 0 <= k < Z.of_nat n -> m !! (a + 4 * k) = Some 0) -> r_trb r = a ->
  Z.of_nat n = 4 * r_num_trb r -> 0 <= i < r_num_trb r -> entry m r i (mk_trb 0 0 0).
Proof.
  intros Hz <- Hn Hi. unfold entry, mload_trb, mload64.
  assert (forall k, 0 <= k < 4 -> mload m (trb_addr r i + 4 * k) = Ret 0) as Hl.
  { intros k Hk. apply mload_ok. rewrite <- (Hz (4 * i + k)) by lia. f_equal.
    unfold trb_addr, sizeof_trb. lia. }
  pose proof (Hl 0 ltac:(lia)) as E0. rewrite Z.mul_0_r, Z.add_0_r in E0.
  pose proof (Hl 1 ltac:(lia)) as E1. pose proof (Hl 2 ltac:(lia)) as E2.
  pose proof (Hl 3 ltac:(lia)) as E3.
  change (4 * 1) with 4 in E1. change (4 * 2) with 8 in E2. change (4 * 3) with 12 in E3.
  rewrite E0. cbn [rbind]. rewrite E1. cbn [rbind]. rewrite E2. cbn [rbind]. by rewrite E3.
Qed.

(** The link that [xhci_ring_init] writes. *)
Definition link_trb (base : Z) : xhci_trb :=
  mk_trb base 0 (Z.lor (TRB_TYPE TRB_LINK) LINK_TOGGLE).

Section Fifo.
Context {H : Type} `{!Xhc H}.
Variables (ref : ring_ref) (base num : Z).
Hypothesis Hnum : 3 <= num < 2 ^ 16.
Hypothesis Hbase : is_u32 base.

Section Init.
Variable ty : ring_type_t.
Hypothesis Hty : ty <> EVENT_RING.
Let r := mk_ring base num ty 0 0 1.
Let last := trb_addr r (num - 1).
Variable m1 : mem.
Hypothesis Hz1 : forall i, 0 <= i < 4 * num -> m1 !! (base + 4 * i) = Some 0.

Lemma last_word k : 0 <= k < 4 -> m1 !! (last + 4 * k) = Some 0.
Proof.
  intros Hk. rewrite <- (Hz1 (4 * (num - 1) + k)) by lia. f_equal.
  subst last. unfold trb_addr, sizeof_trb. cbn. lia.
Qed.

(** The two stores of the link. *)
Lemma link_stores : exists m2 m3,
  mstore m1 (last + 12) (t_control (link_trb base)) = Ret m2 /\ mstore64 m2 last base = Ret m3 /\
  only_words last 4 m1 m3 /\ entry m3 r (num - 1) (link_trb base).
Proof.
  pose proof (last_word 0 ltac:(lia)) as L0. rewrite Z.mul_0_r, Z.add_0_r in L0.
  pose proof (last_word 1 ltac:(lia)) as L1. change (4 * 1) with 4 in L1.
  pose proof (last_word 2 ltac:(lia)) as L2. change (4 * 2) with 8 in L2.
  pose proof (last_word 3 ltac:(lia)) as L3. change (4 * 3) with 12 in L3.
  set (m2 := <[last + 12 := u32 (t_control (link_trb base))]> m1).
  exists m2, (<[last + 4 := u32 (Z.shiftr base 32)]> (<[last := u32 base]> m2)).
  split; [by rewrite mstore_ok by eauto|]. split; [|split].
  - unfold mstore64. subst m2. rewrite mstore_ok by (mem_lookup; eauto). cbn [rbind].
    rewrite mstore_ok by (mem_lookup; eauto). done.
  - intros b Hb. pose proof (Hb 0 ltac:(lia)). pose proof (Hb 1 ltac:(lia)).
    pose proof (Hb 3 ltac:(lia)). subst m2. by mem_lookup.
  - unfold entry, mload_trb, mload64. fold last. subst m2.
    rewrite (mload_ok _ last (u32 base)) by (by mem_lookup). cbn [rbind].
    rewrite (mload_ok _ (last + 4) (u32 (Z.shiftr base 32))) by (by mem_lookup). cbn [rbind].
    rewrite (mload_ok _ (last + 8) 0) by (by mem_lookup). cbn [rbind].
    rewrite (mload_ok _ (last + 12) (u32 (t_control (link_trb base)))) by (by mem_lookup).
    cbn [rbind]. rewrite u64_split by (unfold is_u64; unfold is_u32 in Hbase; lia). done.
Qed.

(** Zeros and a link are a ring. *)
Lemma fresh_ring_ok m3 :
  only_words last 4 m1 m3 -> entry m3 r (num - 1) (link_trb base) -> ring_ok m3 r.
Proof.
  intros Hf3 Hlink.
  assert (forall i, 0 <= i < num - 1 -> entry m3 r i (mk_trb 0 0 0)) as Hent.
  { intros i Hi. unfold entry. rewrite (mload_trb_ext m1 m3).
    - eapply (zero_entry m1 base (Z.to_nat (4 * num))); [|done|..]; cbn; [|lia..].
      rewrite Z2Nat.id by lia. apply Hz1.
    - intros k Hk. apply Hf3. intros j Hj. subst last. unfold trb_addr, sizeof_trb. cbn. lia. }
  constructor; cbn [r r_type r_num_trb r_write_index r_cycle_bit r_trb]; try done; try lia.
  - unfold is_u64. unfold is_u32 in Hbase. lia.
  - intros i Hi. destruct (Z.lt_ge_cases i (4 * (num - 1))).
    + rewrite Hf3, Hz1 by (try done; intros j Hj; subst last; unfold trb_addr, sizeof_trb; cbn; lia).
      eauto.
    + replace (base + 4 * i) with (last + 4 * (i - 4 * (num - 1)))
        by (subst last; unfold trb_addr, sizeof_trb; cbn; lia).
      eapply mload_trb_mapped; [exact Hlink|lia].
  - intros i Hi. exists (mk_trb 0 0 0). split; [by apply Hent|]. by destruct (Z.ltb_spec i 0); [lia|].
  - exists (link_trb base). split; [done|]. repeat split; done.
Qed.
End Init.

Lemma ring_init_run ty r0 (s : xworld H) :
  ty <> EVENT_RING -> ring_of (x_hcd s) ref = Ret r0 -> mapped (x_mem s) base (4 * num) ->
  exists m', xhci_ring_init ref base num ty s = Ret (tt,
      x_set_mem m' (x_set_hcd (upd_ring ref (mk_ring base num ty 0 0 1) (x_hcd s)) s)) /\
    ring_ok m' (mk_ring base num ty 0 0 1) /\ ahead m' (mk_ring base num ty 0 0 1) 0 1 [] /\
    only_words base (4 * num) (x_mem s) m'.
Proof.
  intros Hty Hring Hmap.
  assert (Z.of_nat (Z.to_nat (sizeof_trb * num / 4)) = 4 * num) as En
    by (unfold sizeof_trb; Z.div_mod_to_equations; lia).
  destruct (mzero_ok (x_mem s) base (Z.to_nat (sizeof_trb * num / 4))) as (m1 & E1 & Hf1 & Hz1);
    [by rewrite En|]. rewrite En in *.
  destruct (link_stores ty m1 Hz1) as (m2 & m3 & E2 & E3 & Hf3 & Hlink).
  cbn [t_control link_trb] in E2.
  exists m3. split; [|split; [by eapply fresh_ring_ok|split]].
  - unfold xhci_ring_init, memset0, mem_write, store32, store64.
    run_by (rewrite E1; reflexivity). run_by (by eapply set_ring_run).
    destruct (decide _); [done|]. unfold mem_write.
    run_by (cbn [x_mem x_set_mem x_set_hcd]; rewrite E2; reflexivity).
    cbn [x_mem x_set_mem x_set_hcd]. by rewrite E3.
  - split; [lia|]. left. done.
  - intros b Hb. rewrite Hf3, Hf1; [done..|]. intros j Hj.
    pose proof (Hb (4 * (num - 1) + j)). unfold trb_addr, sizeof_trb. cbn. lia.
Qed.

(** From a fresh ring on: the producer adds while there is room for another
    TRB, the consumer fetches, and everybody may write elsewhere. *)
Inductive ring_reach : xworld H -> Z -> Z -> list xhci_trb -> Prop :=
| reach_init ty r0 s s' :
    ty <> EVENT_RING -> ring_of (x_hcd s) ref = Ret r0 -> mapped (x_mem s) base (4 * num) ->
    xhci_ring_init ref base num ty s = Ret (tt, s') ->
    ring_reach s' base 1 []
| reach_enqueue s s' p cc q r t :
    ring_reach s p cc q -> ring_of (x_hcd s) ref = Ret r -> ready r t ->
    Z.of_nat (length q) + 1 < num - 1 ->
    xhci_enqueue_trb ref t s = Ret (tt, s') ->
    ring_reach s' p cc (q ++ [t])
| reach_fetch s p cc q t p' cc' :
    ring_reach s p cc q -> fetch_one 1 (x_mem s) p cc = Some (t, p', cc') ->
    ring_reach s p' cc' (tail q)
| reach_elsewhere s s' p cc q r :
    ring_reach s p cc q -> ring_of (x_hcd s) ref = Ret r -> ring_of (x_hcd s') ref = Ret r ->
    same_ring r (x_mem s) (x_mem s') ->
    ring_reach s' p cc q.

(** The invariant. *)
Definition ring_inv (s : xworld H) (p cc : Z) (q : list xhci_trb) : Prop :=
  exists r c, ring_of (x_hcd s) ref = Ret r /\ ring_ok (x_mem s) r /\ r_num_trb r = num /\
    p = trb_addr r c /\ ahead (x_mem s) r c cc q.

Lemma ring_reach_inv s p cc q : ring_reach s p cc q -> ring_inv s p cc q.
Proof.
  induction 1 as [ty r0 s s' Hty Hr0 Hm Hi|s s' p cc q r t _ (r' & c & Hr & Hok & Hn & -> & Ha) Hr' Ht Hq He
    |s p cc q t p' cc' _ (r & c & Hr & Hok & Hn & -> & Ha) Hf
    |s s' p cc q r _ (r' & c & Hr & Hok & Hn & -> & Ha) Hr' Hs' Hsame].
  - destruct (ring_init_run ty r0 s Hty Hr0 Hm) as (m' & E & Hok & Ha & _).
    rewrite E in Hi. simplify_eq. eexists _, 0. split; [by eapply ring_of_upd|].
    split; [done|]. split; [done|]. by rewrite trb_addr_0.
  - rewrite Hr in Hr'. simplify_eq.
    destruct (enqueue_run ref r t s Hr Hok Ht) as (m' & E & Hok' & _ & Ha').
    rewrite E in He. simplify_eq. exists (enq_ring r), c. split; [by eapply ring_of_upd|].
    split; [done|]. assert (r_num_trb (enq_ring r) = r_num_trb r) as En by (unfold enq_ring; by destruct (_ =? _)).
    rewrite En. split; [done|]. split; [|apply Ha'; [done|lia]].
    unfold trb_addr, enq_ring. by destruct (_ =? _).
  - pose proof (fetch_ahead 0 _ _ _ _ _ Hok Ha) as Hq. destruct q as [|t' q]; [congruence|].
    destruct Hq as (c' & cc'' & Hf' & Ha'). rewrite Hf in Hf'. simplify_eq. by exists r, c'.
  - rewrite Hr in Hr'. simplify_eq. exists r, c. split; [done|]. split; [by eapply ring_ok_same|].
    split; [done|]. split; [done|]. by eapply ahead_same.
Qed.

(** C3: A ring is a queue: after any interleaving of the driver, the controller
    and writes elsewhere, the controller waits if nothing is outstanding and
    otherwise finds the oldest TRB it has not taken, and the driver can
    always add another one while there is room. *)
Theorem ring_fifo s p cc q :
  ring_reach s p cc q ->
  match q with
  | [] => fetch_one 1 (x_mem s) p cc = None
  | t :: _ => exists p' cc', fetch_one 1 (x_mem s) p cc = Some (t, p', cc')
  end /\
  exists r, ring_of (x_hcd s) ref = Ret r /\
    forall t, ready r t -> exists s', xhci_enqueue_trb ref t s = Ret (tt, s').
Proof.
  intros (r & c & Hr & Hok & _ & -> & Ha)%ring_reach_inv. split.
  - pose proof (fetch_ahead 0 _ _ _ _ _ Hok Ha) as Hq. destruct q as [|t q]; [done|].
    destruct Hq as (? & ? & ? & _). eauto.
  - exists r. split; [done|]. intros t Ht.
    destruct (enqueue_run ref r t s Hr Hok Ht) as (m' & -> & _). eauto.
Qed.
End Fifo.
