(* ===== verification/XhciEventSpec.v ===== *)
(** The events of the xHCI driver: [xhci_isr] takes exactly the events that
    are pending, unless a port reset keeps it ([isr_drains]), a command is answered by the completion event it waits for
    ([command_answered]), and a completion that arrives before the thread waits
    is lost ([wakeup_lost]). *)

From S2P Require Import Prelude XhciDefs XhciMem XhciRing XhciRingSpec.

(** * The events ahead of the driver *)

(** The TRBs from the read index on with the expected cycle bit. *)
Fixpoint pending (m : mem) (er : xhci_ring) (evs : list xhci_trb) : Prop :=
  match evs with
  | [] => exists t, entry m er (r_read_index er) t /\ cycle_of t <> r_cycle_bit er
  | e :: evs' => entry m er (r_read_index er) e /\ cycle_of e = r_cycle_bit er /\
      pending m (advance er) evs'
  end.

Definition event_type (e : xhci_trb) : Z := Z.land (t_control e) TRB_TYPE_BITMASK.

(** The events a thread may wait for. *)
Definition is_answer (e : xhci_trb) : bool :=
  (event_type e =? TRB_TYPE TRB_COMPLETION) || (event_type e =? TRB_TYPE TRB_TRANSFER).

(** The command TRB a completion points to can be read. *)
Definition readable (m : mem) (e : xhci_trb) : Prop :=
  event_type e = TRB_TYPE TRB_COMPLETION -> is_Some (m !! (u32 (t_paramater e) + 12)).

(** The last answer in the list. *)
Definition last_answer (evs : list xhci_trb) (old : xhci_trb) : xhci_trb :=
  fold_left (fun t e => if is_answer e then e else t) evs old.

Fixpoint advances (n : nat) (er : xhci_ring) : xhci_ring :=
  match n with O => er | S n' => advances n' (advance er) end.

Lemma advance_index er :
  r_read_index (advance er) = u32 (r_read_index er + 1) mod r_num_trb er.
Proof. unfold advance. by destruct (_ =? _). Qed.

Lemma advance_num er : r_num_trb (advance er) = r_num_trb er.
Proof. unfold advance. by destruct (_ =? _). Qed.

Lemma advance_trb er : r_trb (advance er) = r_trb er.
Proof. unfold advance. by destruct (_ =? _). Qed.

Lemma advances_index n er :
  0 < r_num_trb er < 2 ^ 32 -> 0 <= r_read_index er < r_num_trb er ->
  r_read_index (advances n er) = (r_read_index er + Z.of_nat n) mod r_num_trb er /\
  r_num_trb (advances n er) = r_num_trb er /\ r_trb (advances n er) = r_trb er.
Proof.
  revert er. induction n as [|n IH]; intros er Hn Hi; cbn [advances].
  { rewrite Z.add_0_r, Z.mod_small by done. done. }
  destruct (IH (advance er)) as (E1 & E2 & E3).
  { by rewrite advance_num. }
  { rewrite advance_num, advance_index. apply Z.mod_pos_bound. lia. }
  rewrite E1, E2, E3, advance_num, advance_trb, advance_index. repeat split.
  destruct (Z.eq_dec (r_read_index er + 1) (2 ^ 32)) as [E|].
  - assert (r_num_trb er = 2 ^ 32 - 1 + 1) by lia. lia.
  - rewrite (u32_small (r_read_index er + 1)) by (unfold is_u32; lia).
    rewrite Zplus_mod_idemp_l. f_equal. lia.
Qed.

(** * The interrupt handler *)

Section Isr.
Context {H : Type} `{!Xhc H}.
Variable fuel : nat.

(** What a port status event does to the controller.  A connected port is
    acknowledged, a port that polls is reset, and the handler reads its register
    until the reset is reported; a disconnected port is acknowledged.
    [OutOfFuel]: the reset was not reported in [n] reads. *)
Fixpoint port_wait (n : nat) (reg : Z) (h : H) : res H :=
  match n with
  | O => OutOfFuel
  | S n' => let '(v, h) := mmio_read reg h in
      if Z.testbit (u32 v) 21 then Ret h else port_wait n' reg h
  end.

Definition port_hw (hcd : xhci_hcd) (e : xhci_trb) (h : H) : res H :=
  let reg := h_op_reg hcd + OP_portsc (u16 (GET_PORT_ID (t_paramater e) - 1)) in
  let '(v, h) := mmio_read reg h in
  let sc := u32 v in
  let neutral := Z.lor (Z.land sc XHCI_PORT_RO) (Z.land sc XHCI_PORT_RWS) in
  let state := XHCI_OP_PORTSC_LINK_STATE sc in
  if state =? PLS_U0_STATE then
    if XHCI_OP_PORTSC_SPEED sc <? speed_map_len
    then Ret (mmio_write reg (u32 (Z.lor neutral XHCI_OP_PORTSC_PRC)) h) else UB
  else if state =? PLS_POLLING_STATE then
    let '(now, h) := mmio_read reg h in
    rlet! h := port_wait fuel reg (mmio_write reg (u32 (Z.lor (u32 now) (Z.lor neutral XHCI_OP_PORTSC_RESET))) h) in
    Ret (snd (mmio_read reg h))
  else if state =? PLS_RXDETECT_STATE then Ret (mmio_write reg (u32 (Z.lor neutral XHCI_OP_PORTSC_CSC)) h)
  else Ret h.

(** Events of other types do not touch the controller. *)
Fixpoint events_hw (hcd : xhci_hcd) (evs : list xhci_trb) (h : H) : res H :=
  match evs with
  | [] => Ret h
  | e :: evs =>
      rlet! h := (if event_type e =? TRB_TYPE TRB_PORT_STATUS then port_hw hcd e h else Ret h) in
      events_hw hcd evs h
  end.

Definition other_event (e : xhci_trb) : Prop := event_type e <> TRB_TYPE TRB_PORT_STATUS.

Lemma events_hw_other hcd evs h : Forall other_event evs -> events_hw hcd evs h = Ret h.
Proof.
  induction 1 as [|e evs He _ IH]; [done|]. cbn [events_hw]. by rewrite (proj2 (Z.eqb_neq _ _) He).
Qed.

Lemma events_hw_hcd hcd hcd' evs h : h_op_reg hcd' = h_op_reg hcd -> events_hw hcd' evs h = events_hw hcd evs h.
Proof.
  intros Ho. revert h. induction evs as [|e evs IH]; intros h; [done|]. cbn [events_hw]. unfold port_hw. rewrite Ho.
  destruct (if _ =? _ then _ else _); cbn [rbind]; [apply IH|done..].
Qed.

Lemma land_bit v n : 0 <= n -> (Z.land v (2 ^ n) =? 0) = negb (Z.testbit v n).
Proof.
  intros Hn. destruct (Z.testbit v n) eqn:Hb; cbn [negb].
  - apply Z.eqb_neq. intros E. apply (f_equal (fun x => Z.testbit x n)) in E.
    by rewrite Z.land_spec, Hb, Z.pow2_bits_true, Z.bits_0 in E.
  - apply Z.eqb_eq, Z.bits_inj'. intros k Hk. rewrite Z.land_spec, Z.bits_0, Z.pow2_bits_eqb by done.
    destruct (Z.eqb_spec n k) as [->|]; [by rewrite Hb|by rewrite andb_false_r].
Qed.

Lemma port_wait_run n reg (s : xworld H) :
  poll n reg (fun v => Z.land v XHCI_OP_PORTSC_PRC =? 0) s =
  rlet! h := port_wait n reg (x_hw s) in Ret (tt, x_set_hw h s).
Proof.
  revert s. induction n as [|n IH]; intros s; [done|]. cbn [poll port_wait].
  destruct (mmio_read reg (x_hw s)) as [v h] eqn:E. run_by (unfold readl; rewrite E; reflexivity).
  assert ((Z.land (u32 v) XHCI_OP_PORTSC_PRC =? 0) = negb (Z.testbit (u32 v) 21)) as ->.
  { change XHCI_OP_PORTSC_PRC with (2 ^ 21). by apply land_bit. }
  destruct (Z.testbit (u32 v) 21); cbn [negb]; [done|]. by rewrite IH.
Qed.

Lemma port_run e (s : xworld H) :
  port_status_handle fuel e s = rlet! h := port_hw (x_hcd s) e (x_hw s) in Ret (tt, x_set_hw h s).
Proof.
  unfold port_status_handle, port_hw. run_by reflexivity.
  set (reg := h_op_reg _ + _). destruct (mmio_read reg (x_hw s)) as [v h] eqn:E.
  run_by (unfold readl; rewrite E; reflexivity). unfold xhci_port_state_to_neutral.
  destruct (_ =? PLS_U0_STATE).
  { run_by reflexivity. by destruct (_ <? _). }
  destruct (_ =? PLS_POLLING_STATE); [|by destruct (_ =? PLS_RXDETECT_STATE); [|destruct s]].
  destruct (mmio_read reg h) as [now h1] eqn:E1. run_by (unfold readl; cbn [x_hw x_set_hw]; rewrite E1; reflexivity).
  run_by reflexivity. cbn [x_hw x_set_hw]. unfold bind at 1. rewrite port_wait_run. cbn [x_hw x_set_hw].
  destruct (port_wait _ _ _) as [h2| |]; cbn [rbind]; [|done..].
  destruct (mmio_read reg h2) as [v3 h3] eqn:E3. by run_by (unfold readl; cbn [x_hw x_set_hw]; rewrite E3; reflexivity).
Qed.

(** The state after the events but for the controller. *)
Definition after_events (evs : list xhci_trb) (s : xworld H) : xworld H :=
  mk_xworld (x_mem s)
    (h_set_event_ring (advances (length evs) (h_event_ring (x_hcd s)))
      (h_set_evt_trb (last_answer evs (h_evt_trb (x_hcd s))) (x_hcd s)))
    (x_hw s)
    (if negb (x_wait s =? 0) && existsb is_answer evs then 1 else x_sync s)
    (x_wait s).

Lemma after_events_nil s : after_events [] s = s.
Proof. destruct s as [m [] hw sy w]. unfold after_events. cbn. by rewrite andb_false_r. Qed.

Lemma handle_event_run e (s : xworld H) :
  readable (x_mem s) e ->
  handle_event fuel e s = rlet! h := events_hw (x_hcd s) [e] (x_hw s) in Ret (tt, mk_xworld (x_mem s)
    (h_set_evt_trb (last_answer [e] (h_evt_trb (x_hcd s))) (x_hcd s)) h
    (if negb (x_wait s =? 0) && is_answer e then 1 else x_sync s) (x_wait s)).
Proof.
  intros Hc. cbn [events_hw]. unfold handle_event, last_answer, is_answer. cbn [fold_left].
  fold (event_type e). destruct s as [m h hw sy w]; cbn [x_mem x_hcd x_hw x_sync x_wait] in *.
  destruct (Z.eqb_spec (event_type e) (TRB_TYPE TRB_COMPLETION)) as [E|E]; cbn [orb].
  - replace (event_type e =? TRB_TYPE TRB_PORT_STATUS) with false by (rewrite E; done). cbn [rbind].
    destruct (Hc E) as [v Hv]. unfold command_complete_handle.
    run_by (run_by (unfold load32, mem_read; cbn [x_mem]; rewrite (mload_ok _ _ _ Hv); reflexivity);
      reflexivity). run_by reflexivity.
    unfold xhci_event_complete, modify. cbn. by destruct (negb (w =? 0)).
  - destruct (Z.eqb_spec (event_type e) (TRB_TYPE TRB_PORT_STATUS)) as [E1|E1].
    { rewrite port_run. cbn [x_hcd x_hw]. destruct (port_hw _ _ _) as [h'| |]; cbn [rbind]; [|done..].
      rewrite E1, andb_false_r. by destruct h. }
    cbn [rbind]. destruct (_ =? _).
    + run_by reflexivity. unfold xhci_event_complete, modify. cbn. by destruct (negb (w =? 0)).
    + rewrite andb_false_r. by destruct h.
Qed.

Lemma next_event_run (s : xworld H) :
  r_num_trb (h_event_ring (x_hcd s)) <> 0 ->
  next_event s = Ret (tt, x_set_hcd (h_set_event_ring (advance (h_event_ring (x_hcd s))) (x_hcd s)) s).
Proof.
  intros Hn. unfold next_event, get_ring. run_by reflexivity.
  by rewrite (proj2 (Z.eqb_neq _ _) Hn).
Qed.

(** The loop ends, after exactly the pending events. *)
Lemma isr_loop_run evs n (s : xworld H) :
  0 < r_num_trb (h_event_ring (x_hcd s)) ->
  pending (x_mem s) (h_event_ring (x_hcd s)) evs -> Forall (readable (x_mem s)) evs ->
  (length evs < n)%nat ->
  isr_loop fuel n s = rlet! h := events_hw (x_hcd s) evs (x_hw s) in Ret (tt, x_set_hw h (after_events evs s)).
Proof.
  revert n s. induction evs as [|e evs IH]; intros n s Hn Hp Hr Hf; (destruct n as [|n]; [cbn in Hf; lia|]);
    cbn [isr_loop]; (run_by reflexivity).
  - destruct Hp as (t & Ht & Hc). cbn [h_event_ring events_hw rbind].
    run_by (unfold load_trb, mem_read; rewrite Ht; reflexivity).
    unfold cycle_of in Hc. rewrite (proj2 (Z.eqb_neq _ _) Hc). cbn [negb].
    rewrite after_events_nil. by destruct s.
  - destruct Hp as (Ht & Hc & Hp). inversion_clear Hr as [|?? He Hr'].
    run_by (unfold load_trb, mem_read; rewrite Ht; reflexivity).
    unfold cycle_of in Hc. rewrite Hc, Z.eqb_refl. cbn [negb].
    unfold bind at 1. rewrite handle_event_run by done. cbn [events_hw].
    destruct (if _ =? _ then _ else _) as [h'| |]; cbn [rbind]; [|done..].
    run_by (by apply next_event_run; cbn; lia).
    rewrite IH; cbn [x_hcd x_hw x_set_hcd h_event_ring h_set_event_ring h_set_evt_trb x_mem].
    + rewrite (events_hw_hcd (x_hcd s)) by done. destruct (events_hw _ _ _) as [h2| |]; cbn [rbind]; [|done..].
      unfold after_events, x_set_hw. cbn. do 2 f_equal. f_equal.
      by destruct (negb (x_wait s =? 0)), (is_answer e), (existsb is_answer evs).
    + by rewrite advance_num.
    + done.
    + done.
    + cbn in Hf. lia.
Qed.

(** The dequeue pointer register after the handler: unchanged if no event was
    taken (or exactly all of the ring), else the address of the next event
    with the low bits kept; the busy flag is cleared by writing one. *)
Definition new_erdp (er : xhci_ring) (n : nat) (erdp : Z) : Z :=
  let er' := advances n er in
  Z.lor (if negb (r_read_index er =? r_read_index er')
         then Z.lor (Z.land erdp ERST_PTR_MASK) (trb_addr er' (r_read_index er')) else erdp) ERST_EHB.

(** The accesses before the loop. *)
Definition isr_enter (hcd : xhci_hcd) (h : H) : Z * H :=
  let '(lo, h) := mmio_read (h_runtime_reg hcd + IR_erdp) h in
  let '(hi, h) := mmio_read (h_runtime_reg hcd + IR_erdp + 4) h in
  let '(st, h) := mmio_read (h_op_reg hcd + OP_status) h in
  let h := mmio_write (h_op_reg hcd + OP_status) (u32 (Z.lor (u32 st) XHCI_USBSTS_EINT)) h in
  let '(im, h) := mmio_read (h_runtime_reg hcd + IR_iman) h in
  let h := mmio_write (h_runtime_reg hcd + IR_iman) (u32 (Z.lor (u32 im) XHCI_IMAIN_IP)) h in
  let er := h_event_ring hcd in
  (u32 lo + 2 ^ 32 * u32 hi,
   sys_cache_data_invd_range (r_trb er) (r_num_trb er * sizeof_trb) h).

Definition isr_leave (hcd : xhci_hcd) (n : nat) (erdp : Z) (h : H) : H :=
  let v := new_erdp (h_event_ring hcd) n erdp in
  mmio_write (h_runtime_reg hcd + IR_erdp + 4) (u32 (Z.shiftr v 32))
    (mmio_write (h_runtime_reg hcd + IR_erdp) (u32 v) h).

Lemma isr_run evs (s : xworld H) :
  0 < r_num_trb (h_event_ring (x_hcd s)) ->
  pending (x_mem s) (h_event_ring (x_hcd s)) evs -> Forall (readable (x_mem s)) evs ->
  (length evs < fuel)%nat ->
  xhci_isr fuel s =
    let '(erdp, h) := isr_enter (x_hcd s) (x_hw s) in
    rlet! h := events_hw (x_hcd s) evs h in
    Ret (tt, x_set_hw (isr_leave (x_hcd s) (length evs) erdp h) (after_events evs s)).
Proof.
  intros Hn Hp Hr Hf. unfold xhci_isr, isr_enter. run_by reflexivity. cbn zeta.
  destruct (mmio_read (h_runtime_reg (x_hcd s) + IR_erdp) (x_hw s)) as [lo h0] eqn:E0.
  destruct (mmio_read (h_runtime_reg (x_hcd s) + IR_erdp + 4) h0) as [hi h1] eqn:E1.
  run_by (unfold readq; run_by (unfold readl; rewrite E0; reflexivity);
    run_by (unfold readl; cbn [x_hw x_set_hw]; rewrite E1; reflexivity); reflexivity).
  destruct (mmio_read (h_op_reg (x_hcd s) + OP_status) h1) as [st h2] eqn:E2.
  run_by (unfold readl; cbn [x_hw x_set_hw]; rewrite E2; reflexivity). run_by reflexivity.
  cbn [x_hw x_set_hw]. set (h3 := mmio_write _ _ h2).
  destruct (mmio_read (h_runtime_reg (x_hcd s) + IR_iman) h3) as [im h4] eqn:E4.
  run_by (unfold readl; cbn [x_hw x_set_hw]; rewrite E4; reflexivity). run_by reflexivity.
  cbn [x_hw x_set_hw]. run_by reflexivity. cbn [x_hw x_set_hw].
  unfold bind at 1. rewrite (isr_loop_run evs) by done. cbn [x_hcd x_hw x_set_hw].
  destruct (events_hw _ _ _) as [h'| |]; cbn [rbind]; [|done..]. by run_by reflexivity.
Qed.

(** C13: The handler takes exactly the pending events in order, if it has as much
    fuel as there are and the commands they answer can be read: it leaves nothing
    pending, keeps the last answer, releases a waiting thread exactly if there
    was one, changes no memory, and its last accesses write the address of the next
    event to the dequeue pointer.  It always ends if no event is a port status
    event.  With port status events it ends exactly if every port that has to be
    reset reports the end of its reset: the handler reads the register of the port
    until then, and nothing bounds that loop. *)
Theorem isr_drains evs (s : xworld H) :
  0 < r_num_trb (h_event_ring (x_hcd s)) < 2 ^ 32 ->
  0 <= r_read_index (h_event_ring (x_hcd s)) < r_num_trb (h_event_ring (x_hcd s)) ->
  pending (x_mem s) (h_event_ring (x_hcd s)) evs -> Forall (readable (x_mem s)) evs ->
  (length evs < fuel)%nat ->
  let '(erdp, h) := isr_enter (x_hcd s) (x_hw s) in
  (Forall other_event evs -> events_hw (x_hcd s) evs h = Ret h) /\
  match events_hw (x_hcd s) evs h with
  | Ret h' => exists s', xhci_isr fuel s = Ret (tt, s') /\
      x_mem s' = x_mem s /\ x_wait s' = x_wait s /\
      pending (x_mem s') (h_event_ring (x_hcd s')) [] /\
      r_read_index (h_event_ring (x_hcd s')) =
        (r_read_index (h_event_ring (x_hcd s)) + Z.of_nat (length evs))
          mod r_num_trb (h_event_ring (x_hcd s)) /\
      h_evt_trb (x_hcd s') = last_answer evs (h_evt_trb (x_hcd s)) /\
      x_sync s' = (if negb (x_wait s =? 0) && existsb is_answer evs then 1 else x_sync s) /\
      x_hw s' = isr_leave (x_hcd s) (length evs) erdp h'
  | UB => xhci_isr fuel s = UB
  | OutOfFuel => xhci_isr fuel s = OutOfFuel
  end.
Proof.
  intros Hn Hi Hp Hr Hf. pose proof (isr_run evs s) as Hrun. destruct (isr_enter (x_hcd s) (x_hw s)) as [erdp h].
  split; [apply events_hw_other|]. rewrite Hrun by (done || lia).
  destruct (events_hw _ _ _) as [h'| |]; cbn [rbind]; [|done..]. eexists.
  split; [reflexivity|]. cbn. split; [done|]. split; [done|]. split; [|split; [|done]].
  - clear -Hp. revert Hp. generalize (h_event_ring (x_hcd s)).
    induction evs as [|e evs IH]; intros er; [done|]. intros (_ & _ & Hp). by apply IH.
  - by apply advances_index.
Qed.
End Isr.

(** A controller whose reset is never reported keeps the handler for ever. *)
Theorem port_reset_hangs {H} `{!Xhc H} (P : H -> Prop) n reg h :
  (forall h, P h -> P (snd (mmio_read reg h)) /\ Z.testbit (u32 (fst (mmio_read reg h))) 21 = false) ->
  P h -> port_wait n reg h = OutOfFuel.
Proof.
  intros Hrd. revert h. induction n as [|n IH]; intros h HP; [done|]. cbn [port_wait].
  destruct (Hrd h HP) as [HP' Hb]. destruct (mmio_read reg h) as [v h']. cbn [fst snd] in *. rewrite Hb. by apply IH.
Qed.

(** * Commands *)

Section Command.
Context {H : Type} `{!Xhc H}.
Variable fuel : nat.

(** [P] holds of a controller that has nothing to report in the memory it
    sees, and neither the accesses of the interrupt handler nor its own steps
    change that. *)
Record settles (hcd : xhci_hcd) (P : H -> mem -> Prop) : Prop := {
  st_read a h m : P h m -> P (snd (mmio_read a h)) m;
  st_write a v h m : P h m -> In a [h_op_reg hcd + OP_status; h_runtime_reg hcd + IR_iman;
    h_runtime_reg hcd + IR_erdp; h_runtime_reg hcd + IR_erdp + 4] -> P (mmio_write a v h) m;
  st_cache p n h m : P h m -> P (sys_cache_data_invd_range p n h) m;
  st_step h m : P h m -> exists h' m', xhc_step h m = (h', m', false) /\ P h' m';
}.

(** After [k] steps without an interrupt the controller has written the event
    [e], and only it, to the event ring and interrupts. *)
Inductive answers (er : xhci_ring) (P : H -> mem -> Prop) (e : xhci_trb) : nat -> H -> mem -> Prop :=
| answers_now h m h' m' :
    xhc_step h m = (h', m', true) -> P h' m' -> pending m' er [e] -> other_event e -> readable m' e ->
    answers er P e 0 h m
| answers_later k h m h' m' :
    xhc_step h m = (h', m', false) -> answers er P e k h' m' -> answers er P e (S k) h m.

Lemma settles_enter hcd P h m :
  settles hcd P -> P h m -> P (snd (isr_enter hcd h)) m.
Proof.
  intros [Hrd Hwr Hca _] HP. unfold isr_enter.
  pose proof (Hrd (h_runtime_reg hcd + IR_erdp) h m HP) as H0. destruct (mmio_read _ h) as [lo h0].
  pose proof (Hrd (h_runtime_reg hcd + IR_erdp + 4) h0 m H0) as H1. destruct (mmio_read _ h0) as [hi h1].
  pose proof (Hrd (h_op_reg hcd + OP_status) h1 m H1) as H2. destruct (mmio_read _ h1) as [st h2].
  set (h3 := mmio_write _ _ h2).
  assert (P h3 m) as H3 by (apply Hwr; [done|simpl; tauto]).
  pose proof (Hrd (h_runtime_reg hcd + IR_iman) h3 m H3) as H4. destruct (mmio_read _ h3) as [im h4].
  cbn [snd]. apply Hca, Hwr; [done|simpl; tauto].
Qed.

Lemma settles_leave hcd P n erdp h m :
  settles hcd P -> P h m -> P (isr_leave hcd n erdp h) m.
Proof.
  intros [_ Hwr _ _] HP. unfold isr_leave. cbn zeta.
  apply Hwr; [apply Hwr; [done|]|]; simpl; tauto.
Qed.

(** The interrupt that answers: the event is taken and the controller has
    nothing more to report. *)
Lemma answer_turn P e (s : xworld H) h' m' :
  0 < r_num_trb (h_event_ring (x_hcd s)) -> settles (x_hcd s) P -> (1 < fuel)%nat ->
  xhc_step (x_hw s) (x_mem s) = (h', m', true) -> P h' m' ->
  pending m' (h_event_ring (x_hcd s)) [e] -> other_event e -> readable m' e ->
  exists h'', P h'' m' /\
    env_turn fuel s = Ret (tt, x_set_hw h'' (after_events [e] (x_set_mem m' s))).
Proof.
  intros Hn Hset Hf Hst HP Hp Ho Hr. unfold env_turn.
  run_by (rewrite Hst; reflexivity). cbn iota.
  rewrite (isr_run fuel [e]); cbn [x_hcd x_mem x_set_mem x_set_hw]; [|done|done|by constructor|cbn; lia].
  pose proof (settles_enter _ _ h' m' Hset HP) as HP1.
  cbn [x_hw x_set_hw x_set_mem x_hcd]. destruct (isr_enter (x_hcd s) h') as [erdp h1].
  rewrite events_hw_other by (by constructor). cbn [rbind].
  exists (isr_leave (x_hcd s) 1 erdp h1). split; [by apply settles_leave|reflexivity].
Qed.

Lemma idle_turn (s : xworld H) h' m' :
  xhc_step (x_hw s) (x_mem s) = (h', m', false) ->
  env_turn fuel s = Ret (tt, x_set_mem m' (x_set_hw h' s)).
Proof. intros Hst. unfold env_turn. by run_by (rewrite Hst; reflexivity). Qed.

Lemma after_events_one e (s : xworld H) :
  is_answer e = true -> x_wait s = 1 ->
  after_events [e] s = mk_xworld (x_mem s)
    (h_set_event_ring (advance (h_event_ring (x_hcd s))) (h_set_evt_trb e (x_hcd s))) (x_hw s) 1 1.
Proof.
  intros He Hw. unfold after_events, last_answer. cbn [length advances existsb fold_left].
  by rewrite Hw, He.
Qed.

(** A waiting thread gets the answer. *)
Lemma spin_answered P e k n (s : xworld H) :
  is_answer e = true -> x_wait s = 1 -> x_sync s = 0 ->
  0 < r_num_trb (h_event_ring (x_hcd s)) -> settles (x_hcd s) P -> (1 < fuel)%nat ->
  answers (h_event_ring (x_hcd s)) P e k (x_hw s) (x_mem s) -> (k + 1 < n)%nat ->
  exists h m, P h m /\ spin fuel n s = Ret (tt, mk_xworld m
    (h_set_event_ring (advance (h_event_ring (x_hcd s))) (h_set_evt_trb e (x_hcd s))) h 1 1).
Proof.
  intros He. revert n s. induction k as [|k IH]; intros n s Hw Hsy Hn Hset Hf Ha Hk;
    (destruct n as [|n]; [lia|]); cbn [spin]; (run_by reflexivity); rewrite Hsy; cbn [negb Z.eqb].
  - inversion Ha as [h m h' m' Hst HP Hp Ho Hr|]; subst.
    destruct (answer_turn P e s h' m') as (h'' & HP'' & E); [done..|].
    exists h'', m'. split; [done|]. run_by (exact E). destruct n as [|n]; [lia|]. cbn [spin].
    run_by reflexivity. rewrite after_events_one by done. done.
  - inversion Ha as [|k' h m h' m' Hst Hrest]; subst.
    destruct (IH n (x_set_mem m' (x_set_hw h' s))) as (h'' & m'' & HP'' & E); [done..|lia|].
    exists h'', m''. split; [done|]. run_by (by apply idle_turn). by rewrite E.
Qed.

(** Nobody wakes a thread that waits for a controller with nothing to report. *)
Lemma spin_forever hcd P n (s : xworld H) :
  settles hcd P -> P (x_hw s) (x_mem s) -> x_sync s = 0 -> spin fuel n s = OutOfFuel.
Proof.
  intros Hset. revert s. induction n as [|n IH]; intros s HP Hsy; [done|]. cbn [spin].
  run_by reflexivity. rewrite Hsy. cbn [negb Z.eqb].
  destruct (st_step _ _ Hset (x_hw s) (x_mem s) HP) as (h' & m' & Hst & HP').
  run_by (by apply idle_turn). by apply IH.
Qed.

(** What a submitted command finds: an idle driver, a ring with room, and a
    controller that has taken everything before. *)
Record submittable (s : xworld H) (t : xhci_trb) (c cc : Z) : Prop := {
  su_ring : ring_ok (x_mem s) (h_cmd_ring (x_hcd s));
  su_ready : ready (h_cmd_ring (x_hcd s)) t;
  su_taken : ahead (x_mem s) (h_cmd_ring (x_hcd s)) c cc [];
  su_events : 0 < r_num_trb (h_event_ring (x_hcd s));
  su_wait : x_wait s = 0;
  su_sync : x_sync s = 0;
}.

(** The controller right after the doorbell of a command. *)
Definition rung (s : xworld H) : H :=
  let cr := h_cmd_ring (x_hcd s) in
  mmio_write (h_db_reg (x_hcd s)) 0
    (sys_cache_data_flush_range (r_trb cr) (r_num_trb cr * sizeof_trb) (x_hw s)).

(** The state in which a submitted command waits. *)
Definition submitted (t : xhci_trb) (s : xworld H) : xworld H :=
  let cr := h_cmd_ring (x_hcd s) in
  mk_xworld (enq_mem (x_mem s) cr t) (h_set_cmd_ring (enq_ring cr) (x_hcd s)) (rung s)
    (x_sync s) (x_wait s).

Lemma submit_exec t (s : xworld H) :
  ring_ok (x_mem s) (h_cmd_ring (x_hcd s)) ->
  xhci_command_submit fuel t s =
    (do! env_turn fuel in do! xhci_event_wait fuel in do! env_turn fuel in
     let! hcd := get_hcd in ret (h_evt_trb hcd)) (submitted t s).
Proof.
  intros Hok. unfold xhci_command_submit. run_by reflexivity.
  run_by (apply (enqueue_exec CmdRing _ _ _ eq_refl Hok)). run_by reflexivity. reflexivity.
Qed.

(** The wait after a doorbell: the next event in time is returned. *)
Lemma wait_answered P e k (s : xworld H) :
  x_wait s = 0 -> x_sync s = 0 -> 0 < r_num_trb (h_event_ring (x_hcd s)) ->
  settles (x_hcd s) P -> is_answer e = true -> (k + 1 < fuel)%nat ->
  answers (h_event_ring (x_hcd s)) P e (S k) (x_hw s) (x_mem s) ->
  exists m' h', P h' m' /\
    (do! env_turn fuel in do! xhci_event_wait fuel in do! env_turn fuel in
     let! hcd := get_hcd in ret (h_evt_trb hcd)) s =
    Ret (e, mk_xworld m'
      (h_set_event_ring (advance (h_event_ring (x_hcd s))) (h_set_evt_trb e (x_hcd s))) h' 0 0).
Proof.
  intros Hw Hsy Hn Hset He Hf Ha. inversion Ha as [|k' h m h2 m2 Hst Hrest]; subst.
  run_by (by apply idle_turn).
  destruct (spin_answered P e k fuel (x_set_wait 1 (x_set_mem m2 (x_set_hw h2 s))))
    as (h3 & m3 & HP3 & E3); [done..|lia|done|lia|].
  run_by (unfold xhci_event_wait; run_by reflexivity; run_by (exact E3); run_by reflexivity;
    reflexivity).
  cbn [x_set_mem x_set_hw x_set_wait x_set_sync x_mem x_hcd x_hw x_sync x_wait].
  destruct (st_step _ _ Hset h3 m3 HP3) as (h4 & m4 & Hst4 & HP4).
  run_by (by apply idle_turn). run_by reflexivity. by exists m4, h4.
Qed.

(** The wait after an event that came too early. *)
Lemma wait_lost P e (s : xworld H) :
  x_wait s = 0 -> x_sync s = 0 -> 0 < r_num_trb (h_event_ring (x_hcd s)) ->
  settles (x_hcd s) P -> (1 < fuel)%nat ->
  answers (h_event_ring (x_hcd s)) P e 0 (x_hw s) (x_mem s) ->
  (do! env_turn fuel in do! xhci_event_wait fuel in do! env_turn fuel in
   let! hcd := get_hcd in ret (h_evt_trb hcd)) s = OutOfFuel.
Proof.
  intros Hw Hsy Hn Hset Hf Ha. inversion Ha as [h m h2 m2 Hst HP Hp Ho Hr|]; subst.
  destruct (answer_turn P e s h2 m2) as (h3 & HP3 & E3); [done..|].
  run_by (exact E3). unfold bind at 1, xhci_event_wait. run_by reflexivity. unfold bind at 1.
  erewrite spin_forever; [done|exact Hset|done|]. unfold after_events. cbn. by rewrite Hw.
Qed.

(** The wait for a controller that has nothing to report. *)
Lemma wait_forever P (s : xworld H) :
  x_sync s = 0 -> settles (x_hcd s) P -> P (x_hw s) (x_mem s) ->
  (do! env_turn fuel in do! xhci_event_wait fuel in do! env_turn fuel in
   let! hcd := get_hcd in ret (h_evt_trb hcd)) s = OutOfFuel.
Proof.
  intros Hsy Hset HP. destruct (st_step _ _ Hset (x_hw s) (x_mem s) HP) as (h' & m' & Hst & HP').
  run_by (by apply idle_turn). unfold bind at 1, xhci_event_wait. run_by reflexivity.
  unfold bind at 1. by erewrite spin_forever.
Qed.

Lemma enq_ring_trb r : r_trb (enq_ring r) = r_trb r.
Proof. unfold enq_ring. by destruct (_ =? _). Qed.

Lemma enq_ring_num r : r_num_trb (enq_ring r) = r_num_trb r.
Proof. unfold enq_ring. by destruct (_ =? _). Qed.

Lemma trb_addr_enq r i : trb_addr (enq_ring r) i = trb_addr r i.
Proof. unfold trb_addr. by rewrite enq_ring_trb. Qed.

(** What the controller finds at the place of the next command. *)
Lemma command_found t c cc (s : xworld H) :
  submittable s t c cc ->
  exists c' cc', fetch_one 1 (x_mem (submitted t s)) (trb_addr (h_cmd_ring (x_hcd s)) c) cc =
    Some (t, trb_addr (h_cmd_ring (x_hcd s)) c', cc').
Proof.
  intros [Hok Ht Hto _ _ _]. pose proof (ro_num _ _ Hok).
  pose proof (enq_mem_ahead _ _ t c cc [] Hok Ht Hto ltac:(cbn; lia)) as Ha.
  pose proof (enq_mem_ok _ _ _ Hok Ht) as Hok'.
  destruct (fetch_ahead 0 _ _ _ _ _ Hok' Ha) as (c' & cc' & Hfe & _).
  rewrite !trb_addr_enq in Hfe. eauto.
Qed.

(** C8: A command is answered: if the controller, once it finds the command at
    its place in the ring, reports the event [e] after [S k] of its steps, then
    [xhci_command_submit] returns exactly that event, the flags are reset, and
    the ring has moved on. *)
Theorem command_answered P t e c cc k (s : xworld H) :
  submittable s t c cc -> settles (x_hcd s) P -> is_answer e = true ->
  (forall m' c' cc',
    only_words (r_trb (h_cmd_ring (x_hcd s))) (4 * r_num_trb (h_cmd_ring (x_hcd s))) (x_mem s) m' ->
    fetch_one 1 m' (trb_addr (h_cmd_ring (x_hcd s)) c) cc =
      Some (t, trb_addr (h_cmd_ring (x_hcd s)) c', cc') ->
    answers (h_event_ring (x_hcd s)) P e (S k) (rung s) m') ->
  (k + 1 < fuel)%nat ->
  exists m' h', xhci_command_submit fuel t s = Ret (e, mk_xworld m'
    (h_set_cmd_ring (enq_ring (h_cmd_ring (x_hcd s)))
      (h_set_event_ring (advance (h_event_ring (x_hcd s))) (h_set_evt_trb e (x_hcd s)))) h' 0 0) /\
    P h' m'.
Proof.
  intros Hsub Hset He Hctl Hf. destruct (command_found _ _ _ _ Hsub) as (c' & cc' & Hfe).
  destruct Hsub as [Hok _ _ Hev Hw Hsy]. rewrite submit_exec by done.
  destruct (wait_answered P e k (submitted t s)) as (m' & h' & HP & E);
    [done..|by destruct Hset|done|done|eapply Hctl; [by apply enq_mem_frame|exact Hfe]|].
  exists m', h'. split; [exact E|done].
Qed.

(** C32: The wake-up is lost: if the controller is so fast that the completion
    interrupts before the thread has set [event_wait], then the thread waits
    for ever, however long: [xhci_event_complete] wakes nobody, and no other
    event will come. *)
Theorem wakeup_lost P t e c cc (s : xworld H) :
  submittable s t c cc -> settles (x_hcd s) P ->
  (forall m' c' cc',
    only_words (r_trb (h_cmd_ring (x_hcd s))) (4 * r_num_trb (h_cmd_ring (x_hcd s))) (x_mem s) m' ->
    fetch_one 1 m' (trb_addr (h_cmd_ring (x_hcd s)) c) cc =
      Some (t, trb_addr (h_cmd_ring (x_hcd s)) c', cc') ->
    answers (h_event_ring (x_hcd s)) P e 0 (rung s) m') ->
  (1 < fuel)%nat ->
  xhci_command_submit fuel t s = OutOfFuel.
Proof.
  intros Hsub Hset Hctl Hf. destruct (command_found _ _ _ _ Hsub) as (c' & cc' & Hfe).
  destruct Hsub as [Hok _ _ Hev Hw Hsy]. rewrite submit_exec by done.
  apply (wait_lost P e); [done..|by destruct Hset|done|].
  eapply Hctl; [by apply enq_mem_frame|exact Hfe].
Qed.
End Command.
