(* ===== verification/XhciCmd.v ===== *)
(** The commands, contexts and transfers of xhci.c.  Contexts live in memory
    at the offsets of their C structures; the distance of two contexts depends
    on a capability of the controller. *)

From S2P Require Import Prelude XhciDefs XhciMem XhciRing.

Section Cmd.
Context {H : Type} `{!Xhc H}.
Variable fuel : nat.

(** * Commands without context *)

Definition cmd_cycle : XM H Z := gets (fun s => r_cycle_bit (h_cmd_ring (x_hcd s))).

(** The completion code decides on 0 and -1. *)
Definition cmd_status (trb : xhci_trb) : Z :=
  if GET_COMP_CODE (t_status trb) =? COMP_SUCCESS then 0 else -1.

Definition xhci_cmd_disable_slot (slot : Z) : XM H Z :=
  let! cb := cmd_cycle in
  let control := Z.lor (Z.lor (TRB_TYPE TRB_DISABLE_SLOT) (SLOT_ID_FOR_TRB slot)) cb in
  let! trb := xhci_command_submit fuel (mk_trb 0 0 control) in
  ret (cmd_status trb).

Definition xhci_cmd_enable_slot : XM H Z :=
  let! cb := cmd_cycle in
  let! trb := xhci_command_submit fuel (mk_trb 0 0 (Z.lor (TRB_TYPE TRB_ENABLE_SLOT) cb)) in
  ret (if GET_COMP_CODE (t_status trb) =? COMP_SUCCESS
       then TRB_TO_SLOT_ID (t_control trb) else -1).

Definition xhci_cmd_noop : XM H Z :=
  let! cb := cmd_cycle in
  let! trb := xhci_command_submit fuel (mk_trb 0 0 (Z.lor (TRB_TYPE TRB_CMD_NOOP) cb)) in
  ret (cmd_status trb).

(** The type, the slot and the cycle bit are stored in [status]. *)
Definition xhci_cmd_reset_device (slot : Z) : XM H Z :=
  let! cb := cmd_cycle in
  let status := Z.lor (Z.lor (TRB_TYPE TRB_RESET_DEV) (SLOT_ID_FOR_TRB slot)) cb in
  let! trb := xhci_command_submit fuel (mk_trb 0 status 0) in
  ret 0.

Definition xhci_set_deq_endpoint (slot ep_index : Z) : XM H Z :=
  let! ep_ring := get_ring (EpRing slot ep_index) in
  let! cb := cmd_cycle in
  let parameter := Z.lor (trb_addr ep_ring (r_write_index ep_ring)) (r_cycle_bit ep_ring) in
  let control := Z.lor (Z.lor (Z.lor (TRB_TYPE TRB_SET_DEQ) (SLOT_ID_FOR_TRB slot))
    (EP_ID_FOR_TRB ep_index)) cb in
  let! trb := xhci_command_submit fuel (mk_trb parameter 0 control) in
  ret (cmd_status trb).

Definition xhci_reset_stall_endpoint (slot ep_index : Z) : XM H Z :=
  let! cb := cmd_cycle in
  let control := Z.lor (Z.lor (Z.lor (TRB_TYPE TRB_RESET_EP) (SLOT_ID_FOR_TRB slot))
    (EP_ID_FOR_TRB ep_index)) cb in
  let! trb := xhci_command_submit fuel (mk_trb 0 0 control) in
  ret (cmd_status trb).

(** The bodies of these two are [return 0]. *)
Definition xhci_free_device (slot : Z) : XM H Z := ret 0.
Definition xhci_cmd_drop_endpoint (slot ep : Z) : XM H Z := ret 0.

(** * Contexts *)

(** [CTX_SIZE(hcd->cap_reg->hccparams1)] *)
Definition ctx_size : XM H Z :=
  let! hcd := get_hcd in
  let! hcc := readl (h_cap_reg hcd + CAP_hccparams1) in
  ret (CTX_SIZE hcc).

Definition xhci_get_slot_ctx (ctx : xhci_ctx) : XM H Z :=
  if c_type ctx =? XHCI_CTX_TYPE_DEVICE then ret (c_ctx ctx)
  else let! n := ctx_size in ret (c_ctx ctx + n).

(** The number of contexts before that of an endpoint. *)
Definition ep_ctx_pos (type ep_index : Z) : Z :=
  let ep_index := ep_index + 1 in
  if type =? XHCI_CTX_TYPE_INPUT then ep_index + 1 else ep_index.

Definition xhci_get_ep_ctx (ctx : xhci_ctx) (ep_index : Z) : XM H Z :=
  let! n := ctx_size in
  ret (c_ctx ctx + ep_ctx_pos (c_type ctx) ep_index * n).

Definition xhci_set_dev_speed (slot speed : Z) : XM H unit :=
  let! d := get_device slot in
  set_device slot (d_set_speed speed d).

(** * Devices *)

(** [for (int i = 0; i < 31; i++) ...ep[i].state = DISABLE_STATE;] *)
Definition disable_all (d : xhci_device) : xhci_device :=
  d_set_ep (e_set_state DISABLE_STATE <$> d_ep d) d.

Definition xhci_alloc_device : XM H Z :=
  let! slot := xhci_cmd_enable_slot in
  let! out_ctx := xhci_mem_alloc XHCI_ALIGN 2048 in
  let! in_ctx := xhci_mem_alloc XHCI_ALIGN 2112 in
  let! ep0_trb := xhci_mem_alloc XHCI_ALIGN (XHCI_RING_TRB_MAX_NUM * sizeof_trb) in
  if (out_ctx =? 0) || (in_ctx =? 0) || (ep0_trb =? 0) then
    do! xhci_mem_free out_ctx in
    do! xhci_mem_free in_ctx in
    do! xhci_mem_free ep0_trb in
    ret (-1)
  else
    let! hcd := get_hcd in
    let! hcc := readl (h_cap_reg hcd + CAP_hccparams1) in
    let dsize := if HCC_64BYTE_CONTEXT hcc then 2048 else 1024 in
    let! d := get_device slot in
    do! set_device slot (d_set_device_ctx (mk_ctx XHCI_CTX_TYPE_DEVICE dsize out_ctx) d) in
    do! store64 (h_dev_ctx_tab hcd + 8 * slot) out_ctx in
    let! hcc := readl (h_cap_reg hcd + CAP_hccparams1) in
    let isize := if HCC_64BYTE_CONTEXT hcc then 2112 else 1056 in
    let! d := get_device slot in
    do! set_device slot (d_set_input_ctx (mk_ctx XHCI_CTX_TYPE_INPUT isize in_ctx) d) in
    do! memset0 out_ctx dsize in
    do! memset0 in_ctx isize in
    do! xhci_ring_init (EpRing slot 0) ep0_trb XHCI_RING_TRB_MAX_NUM CTRL_RING in
    let! d := get_device slot in
    do! set_device slot (d_set_slot slot (disable_all d)) in
    ret slot.

(** [max_packet] of [xhci_cmd_address_device], a [uint16_t]. *)
Definition ep0_max_packet (speed : Z) : Z :=
  if speed =? USB_SPEED_LOW then 8
  else if (speed =? USB_SPEED_FULL) || (speed =? USB_SPEED_HIGH) then 64
  else u16 (-1).

Definition xhci_cmd_address_device (slot : Z) (type : xhci_addr_dev_type_t) : XM H Z :=
  let! d := get_device slot in
  let control_ctx := c_ctx (d_input_ctx d) in
  do! store32 (control_ctx + ICC_add_flags) (Z.lor SLOT_FLAG EP0_FLAG) in
  do! store32 (control_ctx + ICC_drop_flags) 0 in
  let! slot_ctx := xhci_get_slot_ctx (d_input_ctx d) in
  do! store32 (slot_ctx + SLOT_dev_info)
    (Z.lor (Z.lor (SLOT_CTX_ENTRIES 1) (SLOT_CTX_ROOT_STR 0)) (SLOT_CTX_SPEED (d_speed d))) in
  do! store32 (slot_ctx + SLOT_dev_info2) (SLOT_CTX_ROOTHUB_PORT_NUM 1) in
  let! ep0_ctx := xhci_get_ep_ctx (d_input_ctx d) 0 in
  let! ring := get_ring (EpRing slot 0) in
  do! (if decide (type = DEFAULT_TYPE) then
         do! store32 (ep0_ctx + EPC_ep_info0) 0 in
         do! store32 (ep0_ctx + EPC_ep_info1)
           (Z.lor (Z.lor (EP_CTX_TYPE EP_CONTROL_BIDIR)
             (EP_CTX_MAX_PACKET (ep0_max_packet (d_speed d)))) (EP_CTX_ERR_CNT 3)) in
         store64 (ep0_ctx + EPC_deq) (Z.lor (r_trb ring) (r_cycle_bit ring))
       else
         store64 (ep0_ctx + EPC_deq)
           (Z.lor (trb_addr ring (r_write_index ring)) (r_cycle_bit ring))) in
  do! xhci_cache_flush control_ctx (c_size (d_input_ctx d)) in
  let! cb := cmd_cycle in
  let control := Z.lor (Z.lor (Z.lor (SLOT_ID_FOR_TRB slot) (TRB_TYPE TRB_ADDR_DEV))
    (if decide (type = DEFAULT_TYPE) then TRB_BSR else 0)) cb in
  let! trb := xhci_command_submit fuel (mk_trb control_ctx 0 control) in
  ret (cmd_status trb).

(** * Endpoints *)

(** The parameter [ep] is a [uint8_t] and is assigned to. *)
Definition xhci_ep_2_index (ep type : Z) : Z :=
  if type =? EP_CONTROL_BIDIR then u8 (Z.land ep 0xf * 2)
  else u8 (Z.land ep 0xf * 2 - (if negb (Z.land ep 0x80 =? 0) then 0 else 1)).

(** One field of the slot context copied from the device to the input context. *)
Definition copy_field (src dst off : Z) : XM H unit :=
  let! v := load32 (src + off) in
  store32 (dst + off) v.

Definition xhci_slot_ctx_copy (slot : Z) : XM H unit :=
  let! d := get_device slot in
  let! dst := xhci_get_slot_ctx (d_input_ctx d) in
  let! src := xhci_get_slot_ctx (d_device_ctx d) in
  do! copy_field src dst SLOT_dev_info in
  do! copy_field src dst SLOT_dev_info2 in
  do! copy_field src dst SLOT_tt_info in
  copy_field src dst SLOT_dev_state.

(** The input context of [xhci_cmd_add_endpoint]. *)
Definition fill_endpoint (slot ep_index ep_trb : Z) (cfg : xhci_ep_config) : XM H Z :=
  let! d := get_device slot in
  let control_ctx := c_ctx (d_input_ctx d) in
  do! store32 (control_ctx + ICC_add_flags) SLOT_FLAG in
  do! store32 (control_ctx + ICC_drop_flags) 0 in
  do! xhci_slot_ctx_copy slot in
  let! slot_ctx := xhci_get_slot_ctx (d_input_ctx d) in
  let! info := load32 (slot_ctx + SLOT_dev_info) in
  do! store32 (slot_ctx + SLOT_dev_info) (Z.ldiff info (SLOT_CTX_ENTRIES 0x1f)) in
  let! info := load32 (slot_ctx + SLOT_dev_info) in
  do! store32 (slot_ctx + SLOT_dev_info) (Z.lor info (SLOT_CTX_ENTRIES (ep_index + 1))) in
  let! flags := load32 (control_ctx + ICC_add_flags) in
  do! store32 (control_ctx + ICC_add_flags) (Z.lor flags (Z.shiftl 1 (ep_index + 1))) in
  let! ep_ctx := xhci_get_ep_ctx (d_input_ctx d) ep_index in
  do! xhci_ring_init (EpRing slot ep_index) ep_trb XHCI_RING_TRB_MAX_NUM CTRL_RING in
  do! store32 (ep_ctx + EPC_ep_info0) (Z.shiftl (ec_ep_interval cfg) 16) in
  do! store32 (ep_ctx + EPC_ep_info1)
    (Z.lor (Z.lor (EP_CTX_MAX_PACKET (ec_ep_mps cfg)) (EP_CTX_TYPE (ec_ep_type cfg)))
      (EP_CTX_ERR_CNT 3)) in
  let! ring := get_ring (EpRing slot ep_index) in
  do! store64 (ep_ctx + EPC_deq) (Z.lor (r_trb ring) (r_cycle_bit ring)) in
  do! store32 (ep_ctx + EPC_tx_info) 0 in
  do! xhci_cache_flush control_ctx (c_size (d_input_ctx d)) in
  ret control_ctx.

Definition xhci_cmd_add_endpoint (slot : Z) (cfg : xhci_ep_config) : XM H Z :=
  let ep_index := xhci_ep_2_index (ec_ep_addr cfg) (ec_ep_type cfg) in
  let! ep_trb := xhci_mem_alloc XHCI_ALIGN (XHCI_RING_TRB_MAX_NUM * sizeof_trb) in
  let! e := get_ep slot ep_index in
  if decide (e_state e = RUNING_STATE) then ret (-2)
  else
    let! control_ctx := fill_endpoint slot ep_index ep_trb cfg in
    let! cb := cmd_cycle in
    let control := Z.lor (Z.lor (SLOT_ID_FOR_TRB slot) (TRB_TYPE TRB_CONFIG_EP)) cb in
    let! trb := xhci_command_submit fuel (mk_trb control_ctx 0 control) in
    if GET_COMP_CODE (t_status trb) =? COMP_SUCCESS then
      let! e := get_ep slot ep_index in
      do! set_ep slot ep_index (e_set_state RUNING_STATE e) in
      ret 0
    else ret (-1).

(** * Transfers *)

(** The four words of [struct xhci_generic_trb] as a TRB. *)
Definition generic_trb (f0 f1 f2 f3 : Z) : xhci_trb :=
  mk_trb (u32 f0 + 2 ^ 32 * u32 f1) (u32 f2) (u32 f3).

(** [req->bmRequestType & 0x80] *)
Definition dir_in (req : usb_setup_packet) : bool :=
  negb (Z.land (s_bmRequestType req) 0x80 =? 0).

Definition setup_trb (req : usb_setup_packet) (data length cycle : Z) : xhci_trb :=
  generic_trb
    (Z.lor (Z.lor (s_bmRequestType req) (Z.shiftl (s_bRequest req) 8)) (Z.shiftl (s_wValue req) 16))
    (Z.lor (s_wIndex req) (Z.shiftl (s_wLength req) 16)) 8
    (Z.lor (Z.lor (Z.lor (TRB_TYPE TRB_SETUP) TRB_IDT) cycle)
      (if negb (data =? 0) && negb (length =? 0)
       then if dir_in req then TRB_TRT TRB_DATA_IN else TRB_TRT TRB_DATA_OUT else 0)).

Definition data_trb (req : usb_setup_packet) (data length cycle : Z) : xhci_trb :=
  generic_trb data 0 length
    (Z.lor (Z.lor (TRB_TYPE TRB_DATA) cycle) (if dir_in req then Z.lor TRB_ISP TRB_DIR_IN else 0)).

Definition status_trb (req : usb_setup_packet) (data length cycle : Z) : xhci_trb :=
  generic_trb 0 0 0
    (Z.lor (Z.lor (Z.lor (TRB_TYPE TRB_STATUS) cycle) TRB_IOC)
      (if (data =? 0) || (length =? 0) || negb (dir_in req) then TRB_DIR_IN else 0)).

(** A stage of the transfer, with the cycle bit the ring has then. *)
Definition enqueue_stage (ref : ring_ref) (mk : Z -> xhci_trb) : XM H unit :=
  let! ep_ring := get_ring ref in
  xhci_enqueue_trb ref (mk (r_cycle_bit ep_ring)).

(** The thread rings the doorbell, waits, and takes the last event. *)
Definition ring_and_wait (slot ep_index : Z) : XM H xhci_trb :=
  do! xhci_ring_ep_doorbell slot (ep_index + 1) 0 in
  do! env_turn fuel in
  do! xhci_event_wait fuel in
  do! xhci_enqueue_unlock in
  do! env_turn fuel in
  let! hcd := get_hcd in
  ret (h_evt_trb hcd).

(** The end of [xhci_xfer_control]: the result, after recovery from a stall. *)
Definition control_finish (slot ep_index : Z) (trb : xhci_trb) : XM H Z :=
  let code := GET_COMP_CODE (t_status trb) in
  if code =? COMP_SHORT_PACKET then ret (Z.land (t_status trb) 0xffffff)
  else if code =? COMP_SUCCESS then ret 0
  else if code =? COMP_STALL_ERROR then
    let! _ := xhci_reset_stall_endpoint slot ep_index in
    let! _ := xhci_set_deq_endpoint slot ep_index in
    ret (-1)
  else ret (-1).

Definition xhci_xfer_control (slot ep : Z) (req : usb_setup_packet) (data length : Z) : XM H Z :=
  let ep_index := xhci_ep_2_index (u8 ep) EP_CONTROL_BIDIR in
  let ref := EpRing slot ep_index in
  do! xhci_enqueue_lock in
  do! enqueue_stage ref (setup_trb req data length) in
  do! (if negb (data =? 0) && negb (length =? 0)
       then enqueue_stage ref (data_trb req data length) else skip) in
  do! enqueue_stage ref (status_trb req data length) in
  let! trb := ring_and_wait slot ep_index in
  control_finish slot ep_index trb.

Definition xhci_xfer_noop (slot ep type : Z) : XM H Z :=
  let ep_index := xhci_ep_2_index ep type in
  let ref := EpRing slot ep_index in
  let! ep_ring := get_ring ref in
  let trb := mk_trb 0 0 (Z.lor (Z.lor (TRB_TYPE TRB_TR_NOOP) (Z.shiftl 1 5)) (r_cycle_bit ep_ring)) in
  do! xhci_enqueue_lock in
  do! xhci_enqueue_trb ref trb in
  let! trb := ring_and_wait slot ep_index in
  ret (cmd_status trb).

Definition bulk_trb (ep data length cycle : Z) : xhci_trb :=
  generic_trb data 0 length
    (Z.lor (Z.lor (Z.lor TRB_IOC (TRB_TYPE TRB_NORMAL)) cycle) (if EP_DIR_IN ep then TRB_ISP else 0)).

Definition xhci_xfer_bulk (slot ep data length : Z) : XM H Z :=
  let ep_index := xhci_ep_2_index (u8 ep) EP_BULK_IN in
  let ref := EpRing slot ep_index in
  do! xhci_enqueue_lock in
  do! enqueue_stage ref (bulk_trb ep data length) in
  let! trb := ring_and_wait slot ep_index in
  let code := GET_COMP_CODE (t_status trb) in
  ret (if code =? COMP_SHORT_PACKET then Z.land (t_status trb) 0xffffff
       else if code =? COMP_SUCCESS then 0 else -1).

Definition xhci_xfer_interrupt (slot ep data length : Z) : XM H Z :=
  xhci_xfer_bulk slot ep data length.

(** * Show *)

(** The words of an endpoint context that are printed. *)
Definition show_ep_ctx (ctx : xhci_ctx) (ep_index : Z) : XM H unit :=
  let! p := xhci_get_ep_ctx ctx ep_index in
  let! _ := load32 (p + EPC_ep_info0) in
  let! _ := load32 (p + EPC_ep_info1) in
  let! _ := load64 (p + EPC_deq) in
  let! _ := load32 (p + EPC_tx_info) in
  skip.

Fixpoint show_loop (n : nat) (i : Z) (ctx : xhci_ctx) : XM H unit :=
  match n with
  | O => skip
  | S n' => do! show_ep_ctx ctx (i + 1) in show_loop n' (i + 1) ctx
  end.

Definition xhci_device_ctx_show (slot : Z) : XM H Z :=
  let! d := get_device slot in
  let! slot_ctx := xhci_get_slot_ctx (d_device_ctx d) in
  let! ep_ctx := xhci_get_ep_ctx (d_device_ctx d) 0 in
  do! xhci_cache_invalid slot_ctx sizeof_slot_ctx in
  do! xhci_cache_invalid ep_ctx sizeof_ep_ctx in
  let! _ := load32 (slot_ctx + SLOT_dev_info) in
  let! _ := load32 (slot_ctx + SLOT_dev_info2) in
  let! _ := load32 (slot_ctx + SLOT_tt_info) in
  let! _ := load32 (slot_ctx + SLOT_dev_state) in
  do! show_ep_ctx (d_device_ctx d) 0 in
  do! show_loop 30 0 (d_device_ctx d) in
  ret 0.

End Cmd.
