(* ===== verification/XhciInit.v ===== *)
(** The start of the xHCI controller ([xhci_init]) and main.c of
    samples/dwc3_host: the PHY and clock set-up and the shell commands, whose
    numbers are taken as already parsed.  Registers are accessed in the order of the source;
    delays and log output have no effect here. *)

From S2P Require Import Prelude XhciDefs XhciMem XhciRing XhciCmd.

Section Init.
Context {H : Type} `{!Xhc H}.
Variable fuel : nat.

(** [register |= bits] and [register &= ~bits]. *)
Definition reg_set (a bits : Z) : XM H unit :=
  let! v := readl a in
  writel a (Z.lor v bits).
Definition reg_clear (a bits : Z) : XM H unit :=
  let! v := readl a in
  writel a (Z.ldiff v bits).

Definition halted (v : Z) : bool := negb (Z.land v STS_HALT =? 0).

Definition xhci_run : XM H Z :=
  let! hcd := get_hcd in
  do! reg_set (h_op_reg hcd + OP_command) CMD_EIE in
  do! writel (h_runtime_reg hcd + IR_iman) (Z.shiftl 1 1) in
  do! writel (h_runtime_reg hcd + IR_imod) 500 in
  do! reg_set (h_op_reg hcd + OP_command) CMD_RUN in
  do! poll fuel (h_op_reg hcd + OP_status) halted in
  ret 0.

Definition xhci_reset : XM H Z :=
  let! hcd := get_hcd in
  let! status := readl (h_op_reg hcd + OP_status) in
  do! (if halted status then skip
       else
         do! reg_clear (h_op_reg hcd + OP_command) CMD_RUN in
         poll fuel (h_op_reg hcd + OP_status) (fun v => negb (halted v))) in
  do! reg_set (h_op_reg hcd + OP_command) CMD_RESET in
  do! poll fuel (h_op_reg hcd + OP_command) (fun v => negb (Z.land v CMD_RESET =? 0)) in
  do! poll fuel (h_op_reg hcd + OP_status) (fun v => negb (Z.land v STS_CNR =? 0)) in
  ret 0.

(** [do { ... } while (next_point);], reading the list of capabilities. *)
Fixpoint cap_loop (n : nat) (addr : Z) : XM H unit :=
  match n with
  | O => fun _ => OutOfFuel
  | S n' =>
      let! cap := readl addr in
      do! (if Z.land cap 0xff =? 2 then
             let! _ := readl (addr + 4) in
             let! _ := readl (addr + 8) in skip
           else skip) in
      let next_point := Z.land (Z.shiftr cap 8) 0xff in
      if next_point =? 0 then skip else cap_loop n' (u32 (addr + Z.shiftl next_point 2))
  end.

Definition xhci_ext_cap_dump : XM H Z :=
  let! hcd := get_hcd in
  let! hcc := readl (h_cap_reg hcd + CAP_hccparams1) in
  do! cap_loop fuel
    (u32 (Z.shiftl (Z.land (Z.shiftr hcc 16) 0xffff) 2 + h_base_addr hcd)) in
  ret 0.

Definition xhci_command_ring_init : XM H Z :=
  let! hcd := get_hcd in
  do! xhci_ring_init CmdRing (h_command_trb hcd) XHCI_RING_TRB_MAX_NUM COMMAND_RING in
  let! hcd := get_hcd in
  do! writeq (h_op_reg hcd + OP_cmd_ring)
    (Z.lor (r_trb (h_cmd_ring hcd)) (r_cycle_bit (h_cmd_ring hcd))) in
  ret 0.

Definition xhci_event_ring_init : XM H Z :=
  let! hcd := get_hcd in
  do! xhci_ring_init EventRing (h_event_trb hcd) XHCI_RING_TRB_MAX_NUM EVENT_RING in
  do! put_hcd (h_set_erst_entry erst_table) in
  let! hcd := get_hcd in
  do! store64 (h_erst_entry hcd + ERST_seg_addr) (r_trb (h_event_ring hcd)) in
  do! store32 (h_erst_entry hcd + ERST_seg_size) (r_num_trb (h_event_ring hcd)) in
  do! xhci_cache_flush (h_erst_entry hcd) sizeof_erst_entry in
  do! writeq (h_runtime_reg hcd + IR_erstba) (h_erst_entry hcd) in
  do! writel (h_runtime_reg hcd + IR_erstsz) 1 in
  do! writeq (h_runtime_reg hcd + IR_erdp) (r_trb (h_event_ring hcd)) in
  ret 0.

(** [HCSPARAMS2_SCRATPAD_NUM(hcd->cap_reg->hcsparams2)], read anew each time. *)
Definition scratchpad_num : XM H Z :=
  let! hcd := get_hcd in
  let! v := readl (h_cap_reg hcd + CAP_hcsparams2) in
  ret (HCSPARAMS2_SCRATPAD_NUM v).

(** The table gets the bytes stored in the buffers, not their addresses. *)
Fixpoint scratchpad_loop (n : nat) (i : Z) : XM H unit :=
  match n with
  | O => fun _ => OutOfFuel
  | S n' =>
      let! num := scratchpad_num in
      if i <? num then
        let! hcd := get_hcd in
        let! byte := load8 (h_scratchpad_buf hcd + i * h_page_size hcd) in
        do! store64 (h_scratchpad_tab hcd + 8 * i) byte in
        scratchpad_loop n' (i + 1)
      else skip
  end.

(** The capability registers give the other addresses. *)
Definition read_caps (base : Z) : XM H unit :=
  do! put_hcd (fun h => h_set_cap_reg base (h_set_base_addr base h)) in
  let! caplength := readl (base + CAP_caplength) in
  do! put_hcd (h_set_op_reg (u32 (Z.land caplength 0xff + base))) in
  let! rtsoff := readl (base + CAP_rtsoff) in
  do! put_hcd (h_set_runtime_reg (u32 (Z.ldiff rtsoff 0x1f + base))) in
  let! dboff := readl (base + CAP_dboff) in
  do! put_hcd (h_set_db_reg (u32 (Z.ldiff dboff 0x3 + base))) in
  let! caplength := readl (base + CAP_caplength) in
  do! put_hcd (h_set_version (Z.land (Z.shiftr caplength 16) 0xfffff)) in
  let! p1 := readl (base + CAP_hcsparams1) in
  do! put_hcd (h_set_max_slots (u8 (Z.land p1 0xff))) in
  let! p1 := readl (base + CAP_hcsparams1) in
  do! put_hcd (h_set_max_port (u8 (Z.shiftr p1 24))) in
  let! hcd := get_hcd in
  let! ps := readl (h_op_reg hcd + OP_page_size) in
  if u32 (ps + 11) <? 31
  then put_hcd (h_set_page_size (u16 (Z.shiftl 1 (u32 (ps + 11))))) else undefined.

Definition alloc_tables : XM H unit :=
  let! hcd := get_hcd in
  let! p := xhci_mem_alloc XHCI_ALIGN (8 * h_max_slots hcd) in
  do! put_hcd (h_set_dev_ctx_tab p) in
  let! num := scratchpad_num in
  let! p := xhci_mem_alloc XHCI_ALIGN (8 * num) in
  do! put_hcd (h_set_scratchpad_tab p) in
  let! num := scratchpad_num in
  let! p := xhci_mem_alloc (h_page_size hcd) (u32 (h_page_size hcd * num)) in
  do! put_hcd (h_set_scratchpad_buf p) in
  let! p := xhci_mem_alloc XHCI_ALIGN (XHCI_RING_TRB_MAX_NUM * sizeof_trb) in
  do! put_hcd (h_set_command_trb p) in
  let! p := xhci_mem_alloc XHCI_ALIGN (XHCI_RING_TRB_MAX_NUM * sizeof_trb) in
  put_hcd (h_set_event_trb p).

Definition free_tables : XM H unit :=
  let! hcd := get_hcd in
  do! xhci_mem_free (h_dev_ctx_tab hcd) in
  do! xhci_mem_free (h_scratchpad_tab hcd) in
  do! xhci_mem_free (h_scratchpad_buf hcd) in
  do! xhci_mem_free (h_command_trb hcd) in
  xhci_mem_free (h_event_trb hcd).

Definition xhci_init (xhci_base_addr : Z) : XM H Z :=
  do! read_caps xhci_base_addr in
  do! alloc_tables in
  let! hcd := get_hcd in
  if (h_dev_ctx_tab hcd =? 0) || (h_scratchpad_tab hcd =? 0) || (h_scratchpad_buf hcd =? 0) ||
     (h_command_trb hcd =? 0) || (h_event_trb hcd =? 0)
  then
    do! free_tables in
    ret (-1)
  else
    let! _ := xhci_reset in
    let! _ := xhci_ext_cap_dump in
    do! writel (h_op_reg hcd + OP_config_reg) (h_max_slots hcd) in
    do! store64 (h_dev_ctx_tab hcd) (h_scratchpad_tab hcd) in
    do! writeq (h_op_reg hcd + OP_dcbaa_ptr) (h_dev_ctx_tab hcd) in
    do! scratchpad_loop fuel 0 in
    let! _ := xhci_command_ring_init in
    let! _ := xhci_event_ring_init in
    let! _ := xhci_run in
    ret 0.

(** * main.c: the PHY *)

Definition PHY_CFG : Z := 0x40058010.
Definition USB_BASE : Z := 0x40050000.
Definition DWC3_GLOBALS_REGS_START : Z := 0xc100.
Definition GCTL : Z := 0x10.
Definition GUSB2PHYCFG : Z := 0x100.
Definition BIT (n : Z) : Z := Z.shiftl 1 n.

Definition dwc3_phy_cfg_read (reg_addr : Z) : XM H Z :=
  do! reg_set PHY_CFG (BIT 25) in
  do! reg_clear PHY_CFG (Z.shiftl 0xff 2) in
  do! reg_set PHY_CFG (Z.shiftl reg_addr 2) in
  do! reg_set PHY_CFG (Z.shiftl 1 0) in
  do! reg_clear PHY_CFG (Z.shiftl 1 0) in
  let! res := readl PHY_CFG in
  ret (Z.land (Z.shiftr res 8) 0xff).

Definition dwc3_phy_cfg_write (reg_addr write_data : Z) : XM H unit :=
  do! reg_set PHY_CFG (BIT 25) in
  do! reg_clear PHY_CFG (Z.shiftl 0xff 2) in
  do! reg_set PHY_CFG (Z.shiftl reg_addr 2) in
  do! reg_clear PHY_CFG (Z.shiftl 0xff 16) in
  do! reg_set PHY_CFG (Z.shiftl write_data 16) in
  do! reg_set PHY_CFG (Z.shiftl 1 1) in
  reg_clear PHY_CFG (Z.shiftl 1 1).

Definition udc_dwc3_isr_handler : XM H unit := xhci_isr fuel.

(** [main] up to its endless sleep. *)
Definition main : XM H unit :=
  do! writel (0x40062000 + 0x10) (BIT 0xd) in
  do! writel (0x40062000 + 0x18) (BIT 0xd) in
  do! writel (0x40062000 + 0x18) (BIT 0xc) in
  do! writel (0x40062000 + 0x10) (BIT 0xc) in
  let dwc3_gbl := USB_BASE + DWC3_GLOBALS_REGS_START in
  do! writel 0x40058014 0x131 in
  do! reg_set 0x40058004 (BIT 8) in
  do! reg_set 0x40058000 (BIT 5) in
  do! writel (dwc3_gbl + GUSB2PHYCFG) 0x40002407 in
  let! gctl := readl (dwc3_gbl + GCTL) in
  do! writel (dwc3_gbl + GCTL) (Z.lor (Z.ldiff gctl (Z.shiftl 3 12)) (Z.shiftl 1 12)) in
  let! value := dwc3_phy_cfg_read 0xb in
  do! dwc3_phy_cfg_write 0xb (u8 (Z.ldiff value (BIT 6))) in
  let! _ := xhci_init USB_BASE in
  skip.

(** * main.c: shell commands *)

Definition alloc_dev : XM H Z :=
  let! slot := xhci_alloc_device fuel in
  let slot_id := u8 slot in
  let! speed := xhci_get_port_speed 0 in
  do! xhci_set_dev_speed slot_id speed in
  let! _ := xhci_cmd_address_device fuel slot_id DEFAULT_TYPE in
  ret 0.

Definition address_dev (slot : Z) : XM H Z :=
  let! _ := xhci_cmd_address_device fuel slot ADDRESSED_TYPE in
  ret 0.

(** A descriptor request into a static buffer: [Some n] is the number of bytes
    the command shows. *)
Definition get_desc (slot buf size wValue wIndex : Z) : XM H (option Z) :=
  let setup := mk_setup 0x80 0x6 wValue wIndex size in
  let! xfer_len := xhci_xfer_control fuel slot 0 setup buf size in
  do! xhci_cache_invalid buf size in
  ret (if 0 <=? xfer_len then Some (size - xfer_len) else None).

Definition get_dev_desc (slot dev_desc : Z) : XM H (option Z) := get_desc slot dev_desc 64 0x100 0.
Definition get_config_desc (slot config_desc : Z) : XM H (option Z) :=
  get_desc slot config_desc 255 0x200 0.

(** [buf[i] = buf[2 + i * 2]] in place, [buf_len] of the bytes being valid. *)
Definition usb_string_desc_inplace (buf : list Z) (buf_len : Z) : res (Z * list Z) :=
  if buf_len <? 2 then Ret (0, buf)
  else
    rlet! type := arr_get buf 1 in
    if negb (type =? 0x03) then Ret (0, buf)
    else
      let str_len := (buf_len - 2) / 2 in
      rlet! buf := for_range 0 str_len (fun i buf =>
        rlet! c := arr_get buf (2 + i * 2) in
        arr_set buf i c) buf in
      rlet! buf := arr_set buf str_len 0 in
      Ret (str_len, buf).

Definition get_string_desc (slot string_desc index : Z) : XM H (option Z) :=
  let! shown := get_desc slot string_desc 255 (u16 (Z.lor 0x300 index)) 0x409 in
  match shown with
  | None => ret None
  | Some n =>
      let! buf := load_bytes string_desc 255 in
      let! r := lift (usb_string_desc_inplace buf (u32 n)) in
      do! store_bytes string_desc r.2 in
      ret (Some r.1)
  end.

(** The transfer of [bulk_in] and [int_in]; -1 or the number of bytes shown. *)
Definition ep_in (slot ep type mps buf size : Z) : XM H (option Z) :=
  let ep_addr := u8 (Z.lor 0x80 ep) in
  let! _ := xhci_cmd_add_endpoint fuel slot (mk_ep_config type ep_addr 3 mps) in
  let! xfer_len := xhci_xfer_bulk fuel slot ep_addr buf size in
  do! xhci_cache_invalid buf size in
  ret (if 0 <=? xfer_len then Some (size - xfer_len) else None).

Definition bulk_in (slot ep in_buf : Z) : XM H (option Z) := ep_in slot ep EP_BULK_IN 512 in_buf 128.
Definition int_in (slot ep int_buf : Z) : XM H (option Z) := ep_in slot ep EP_INT_IN 64 int_buf 64.

(** "xhci bulk out" with its terminator; the transfer leaves that out. *)
Definition bulk_out_text : list Z := [120; 104; 99; 105; 32; 98; 117; 108; 107; 32; 111; 117; 116; 0].

Definition bulk_out (slot ep out_buf : Z) : XM H Z :=
  let ep_addr := u8 ep in
  let! _ := xhci_cmd_add_endpoint fuel slot (mk_ep_config EP_BULK_OUT ep_addr 3 512) in
  do! store_bytes out_buf bulk_out_text in
  let! _ := xhci_xfer_bulk fuel slot ep_addr out_buf (Z.of_nat (length bulk_out_text) - 1) in
  ret 0.

(** Whether the command reports success. *)
Definition set_config (slot : Z) : XM H bool :=
  let! r := xhci_xfer_control fuel slot 0 (mk_setup 0x00 0x9 0x01 0x0 0x0) 0 0 in
  ret (r =? 0).
Definition hub_port_setfeat (slot : Z) : XM H bool :=
  let! r := xhci_xfer_control fuel slot 0 (mk_setup 0x23 0x3 0x08 0x4 0x0) 0 0 in
  ret (r =? 0).

End Init.
