(* ===== verification/XhciSpec.v ===== *)
(** What the commands and transfers of the xHCI driver achieve: a control
    transfer puts exactly its stages on the ring and returns what the
    transfer event says, the reset command is never seen by the controller, a
    device is not allocated without a slot, endpoints get disjoint contexts
    inside the allocated block, and string descriptors are converted in
    place. *)

From S2P Require Import Prelude XhciDefs XhciMem XhciRing XhciRingSpec XhciEventSpec XhciCmd XhciInit.

(** * Endpoint contexts *)

(** The device context index of an endpoint (xHCI 4.5.1): twice its number,
    one more for IN and control endpoints. *)
Definition dci (ep type : Z) : Z :=
  2 * Z.land ep 0xf + (if (type =? EP_CONTROL_BIDIR) || negb (Z.land ep 0x80 =? 0) then 1 else 0).

(** The bytes reserved for a context by [xhci_alloc_device]. *)
Definition ctx_bytes (type hcc : Z) : Z :=
  if type =? XHCI_CTX_TYPE_INPUT
  then (if HCC_64BYTE_CONTEXT hcc then 2112 else 1056)
  else (if HCC_64BYTE_CONTEXT hcc then 2048 else 1024).

Definition ep_ctx_off (type hcc ep_index : Z) : Z := ep_ctx_pos type ep_index * CTX_SIZE hcc.

Lemma ep_number_range ep : 0 <= Z.land ep 0xf < 16.
Proof. apply (land_range 4); [lia|done]. Qed.

(** [xhci_ep_2_index] gives every endpoint its index, 0 to 30, and different
    endpoints different ones; but endpoint 0 that is not a control endpoint
    and OUT gets 255. *)
Theorem ep_index_spec ep type :
  (1 <= dci ep type -> xhci_ep_2_index ep type = dci ep type - 1 /\
     0 <= xhci_ep_2_index ep type <= 30) /\
  (dci ep type = 0 -> xhci_ep_2_index ep type = 255).
Proof.
  pose proof (ep_number_range ep). unfold dci, xhci_ep_2_index.
  destruct (type =? EP_CONTROL_BIDIR), (negb (Z.land ep 128 =? 0)); cbn [orb]; word_lia.
Qed.

(** C39: The context of every endpoint lies in the block allocated for it, behind the
    slot context, and those of different endpoints do not overlap, for both
    context sizes and both kinds of block. *)
Theorem ep_contexts_disjoint type hcc ep ep' t t' :
  In type [XHCI_CTX_TYPE_DEVICE; XHCI_CTX_TYPE_INPUT] -> 1 <= dci ep t -> 1 <= dci ep' t' ->
  let off := ep_ctx_off type hcc (xhci_ep_2_index ep t) in
  let off' := ep_ctx_off type hcc (xhci_ep_2_index ep' t') in
  (if type =? XHCI_CTX_TYPE_INPUT then CTX_SIZE hcc else 0) + sizeof_slot_ctx <= off /\
  off + sizeof_ep_ctx <= ctx_bytes type hcc /\
  (dci ep t <> dci ep' t' -> off + sizeof_ep_ctx <= off' \/ off' + sizeof_ep_ctx <= off).
Proof.
  intros Hty He He'. destruct (ep_index_spec ep t) as [[E R] _]; [done|].
  destruct (ep_index_spec ep' t') as [[E' R'] _]; [done|]. cbn zeta.
  unfold ep_ctx_off, ep_ctx_pos, ctx_bytes, CTX_SIZE, sizeof_ep_ctx, sizeof_slot_ctx.
  destruct Hty as [<-|[<-|[]]]; cbn [Z.eqb Pos.eqb XHCI_CTX_TYPE_DEVICE XHCI_CTX_TYPE_INPUT];
    destruct (HCC_64BYTE_CONTEXT hcc); lia.
Qed.

(** * Stages of a transfer *)

Section Spec.
Context {H : Type} `{!Xhc H}.
Variable fuel : nat.

(** The controller fetches exactly the list, and then waits. *)
Fixpoint fetches (m : mem) (p cc : Z) (l : list xhci_trb) : Prop :=
  match l with
  | [] => fetch_one 1 m p cc = None
  | t :: l' => exists p' cc', fetch_one 1 m p cc = Some (t, p', cc') /\ fetches m p' cc' l'
  end.

Lemma fetches_ahead m r c cc q : ring_ok m r -> ahead m r c cc q -> fetches m (trb_addr r c) cc q.
Proof.
  intros Hok. revert c cc. induction q as [|t q IH]; intros c cc Ha;
    pose proof (fetch_ahead 0 _ _ _ _ _ Hok Ha) as Hf; [done|].
  destruct Hf as (c' & cc' & Hf & Ha'). cbn [fetches]. eauto.
Qed.

(** A TRB builder whose result may go on the ring at every cycle bit. *)
Definition stage_ok (mk : Z -> xhci_trb) : Prop :=
  forall cb, cb = 0 \/ cb = 1 -> wf_trb (mk cb) /\ is_link (mk cb) = false /\ cycle_of (mk cb) = cb.

Lemma wf_generic f0 f1 f2 f3 : wf_trb (generic_trb f0 f1 f2 f3).
Proof.
  unfold wf_trb, generic_trb, is_u64. cbn [t_paramater t_status t_control].
  pose proof (u32_range f0). pose proof (u32_range f1). unfold is_u32 in *. repeat split; word_lia.
Qed.

Lemma setup_stage req data len : stage_ok (setup_trb req data len).
Proof.
  intros cb Hcb. split; [apply wf_generic|]. unfold setup_trb, is_link, cycle_of. cbn [t_control generic_trb].
  destruct Hcb as [->| ->], (negb (data =? 0) && negb (len =? 0)), (dir_in req); done.
Qed.

Lemma data_stage req data len : stage_ok (data_trb req data len).
Proof.
  intros cb Hcb. split; [apply wf_generic|]. unfold data_trb, is_link, cycle_of. cbn [t_control generic_trb].
  destruct Hcb as [->| ->], (dir_in req); done.
Qed.

Lemma status_stage req data len : stage_ok (status_trb req data len).
Proof.
  intros cb Hcb. split; [apply wf_generic|]. unfold status_trb, is_link, cycle_of. cbn [t_control generic_trb].
  destruct Hcb as [->| ->], ((data =? 0) || (len =? 0) || negb (dir_in req)); done.
Qed.

Lemma bulk_stage ep data len : stage_ok (bulk_trb ep data len).
Proof.
  intros cb Hcb. split; [apply wf_generic|]. unfold bulk_trb, is_link, cycle_of. cbn [t_control generic_trb].
  destruct Hcb as [->| ->], (EP_DIR_IN ep); done.
Qed.

(** The TRBs of the stages, each with the cycle bit the ring has when it is
    added, and the ring after them. *)
Fixpoint staged (r : xhci_ring) (mks : list (Z -> xhci_trb)) : list xhci_trb :=
  match mks with [] => [] | mk :: mks' => mk (r_cycle_bit r) :: staged (enq_ring r) mks' end.
Fixpoint enq_rings (r : xhci_ring) (n : nat) : xhci_ring :=
  match n with O => r | S n' => enq_rings (enq_ring r) n' end.

Lemma length_staged r mks : length (staged r mks) = length mks.
Proof. revert r. induction mks as [|mk mks IH]; intros r; [done|]. cbn. by rewrite IH. Qed.

(** The cache is flushed after each stage. *)
Definition flushes (r : xhci_ring) (n : nat) (h : H) : H :=
  Nat.iter n (sys_cache_data_flush_range (r_trb r) (r_num_trb r * sizeof_trb)) h.

(** The stages one after the other. *)
Fixpoint enqueue_stages (ref : ring_ref) (mks : list (Z -> xhci_trb)) : XM H unit :=
  match mks with
  | [] => skip
  | mk :: mks' => do! enqueue_stage ref mk in enqueue_stages ref mks'
  end.

Lemma stages_run ref r mks c cc q (s : xworld H) :
  ring_of (x_hcd s) ref = Ret r -> ring_ok (x_mem s) r -> Forall stage_ok mks ->
  ahead (x_mem s) r c cc q -> Z.of_nat (length q + length mks) < r_num_trb r - 1 ->
  exists m' hcd', enqueue_stages ref mks s = Ret (tt,
      mk_xworld m' hcd' (flushes r (length mks) (x_hw s)) (x_sync s) (x_wait s)) /\
    ring_of hcd' ref = Ret (enq_rings r (length mks)) /\
    ring_ok m' (enq_rings r (length mks)) /\
    only_words (r_trb r) (4 * r_num_trb r) (x_mem s) m' /\
    ahead m' (enq_rings r (length mks)) c cc (q ++ staged r mks) /\
    hcd' = (match mks with [] => x_hcd s | _ => upd_ring ref (enq_rings r (length mks)) (x_hcd s) end).
Proof.
  revert r q s. induction mks as [|mk mks IH]; intros r q s Hr Hok Hst Ha Hlen.
  { exists (x_mem s), (x_hcd s). cbn. rewrite app_nil_r. destruct s. do 4 (split; [done|]). done. }
  inversion_clear Hst as [|?? Hmk Hst']. cbn [length] in *.
  destruct (Hmk (r_cycle_bit r) (ro_cycle _ _ Hok)) as (Hwf & Hnl & Hcy).
  destruct (enqueue_run ref r (mk (r_cycle_bit r)) s Hr Hok) as (m1 & E1 & Hok1 & Hf1 & Ha1); [done|].
  set (s1 := x_set_hcd _ _) in E1.
  destruct (IH (enq_ring r) (q ++ [mk (r_cycle_bit r)]) s1) as (m' & hcd' & E & Hr' & Hok' & Hf & Ha' & Eh).
  - by eapply ring_of_upd.
  - done.
  - done.
  - apply Ha1; [done|lia].
  - rewrite enq_ring_num, length_app. cbn. lia.
  - exists m', hcd'. cbn [enqueue_stages]. split; [|split; [done|split; [done|split; [|split]]]].
    + run_by (unfold enqueue_stage; run_by (by apply get_ring_run); exact E1).
      rewrite E. unfold flushes. rewrite enq_ring_trb, enq_ring_num, Nat.iter_succ_r. done.
    + intros b Hb. rewrite Hf; [by apply Hf1|]. by rewrite enq_ring_trb, enq_ring_num.
    + by rewrite <- app_assoc in Ha'.
    + rewrite Eh. destruct mks; [done|]. cbn [enq_rings length]. by eapply upd_ring_twice.
Qed.

(** * Transfers *)

Lemma settles_regs hcd hcd' (P : H -> mem -> Prop) :
  h_op_reg hcd' = h_op_reg hcd -> h_runtime_reg hcd' = h_runtime_reg hcd ->
  settles hcd P -> settles hcd' P.
Proof. intros E1 E2 [Hr Hw Hc Hs]. constructor; try done. rewrite E1, E2. exact Hw. Qed.

Lemma upd_ep_ring_event slot ep r h : h_event_ring (upd_ring (EpRing slot ep) r h) = h_event_ring h.
Proof.
  cbn [upd_ring]. destruct (h_device h !! Z.to_nat slot) as [d|]; [|done].
  by destruct (d_ep d !! Z.to_nat ep).
Qed.

(** What a transfer finds: an idle driver, an endpoint ring with room for its
    stages, and a controller that has taken everything before. *)
Record transferable (s : xworld H) (ref : ring_ref) (r : xhci_ring) (n : nat) (c cc : Z) : Prop := {
  tr_at : ring_of (x_hcd s) ref = Ret r;
  tr_ring : ring_ok (x_mem s) r;
  tr_taken : ahead (x_mem s) r c cc [];
  tr_room : Z.of_nat n < r_num_trb r - 1;
  tr_events : 0 < r_num_trb (h_event_ring (x_hcd s));
  tr_wait : x_wait s = 0;
  tr_sync : x_sync s = 0;
}.

(** The controller right after the doorbell of an endpoint. *)
Definition rung_ep (s : xworld H) (r : xhci_ring) (n : nat) (slot ep_index : Z) : H :=
  mmio_write (h_db_reg (x_hcd s) + 4 * slot) (u32 (Z.lor (ep_index + 1) (Z.shiftl 0 16)))
    (flushes r n (x_hw s)).

(** The controller, once it finds exactly these stages, reports [e]. *)
Definition reports (s : xworld H) (r : xhci_ring) (c cc slot ep_index : Z)
    (mks : list (Z -> xhci_trb)) (P : H -> mem -> Prop) (e : xhci_trb) (k : nat) : Prop :=
  forall m', only_words (r_trb r) (4 * r_num_trb r) (x_mem s) m' ->
    fetches m' (trb_addr r c) cc (staged r mks) ->
    answers (h_event_ring (x_hcd s)) P e k (rung_ep s r (length mks) slot ep_index) m'.

Lemma enq_rings_trb r n : r_trb (enq_rings r n) = r_trb r.
Proof. revert r. induction n as [|n IH]; intros r; [done|]. cbn. by rewrite IH, enq_ring_trb. Qed.

Lemma transfer_answered slot ep_index r mks P e c cc k (s : xworld H) :
  transferable s (EpRing slot ep_index) r (length mks) c cc -> Forall stage_ok mks ->
  settles (x_hcd s) P -> is_answer e = true ->
  reports s r c cc slot ep_index mks P e (S k) -> (k + 1 < fuel)%nat ->
  exists m' hcd' h', P h' m' /\ ring_of hcd' (EpRing slot ep_index) = Ret (enq_rings r (length mks)) /\
    (do! enqueue_stages (EpRing slot ep_index) mks in ring_and_wait fuel slot ep_index) s =
      Ret (e, mk_xworld m' hcd' h' 0 0).
Proof.
  intros [Hr Hok Hto Hroom Hev Hw Hsy] Hst Hset He Hrep Hf.
  destruct (stages_run _ r mks c cc [] s Hr Hok Hst Hto) as (m1 & hcd1 & E1 & Hr1 & Hok1 & Hfr & Ha & Eh);
    [cbn; lia|].
  assert (h_event_ring hcd1 = h_event_ring (x_hcd s) /\ h_db_reg hcd1 = h_db_reg (x_hcd s) /\
    settles hcd1 P) as (Ee & Ed & Hset1).
  { rewrite Eh. destruct mks; [done|].
    destruct (upd_ring_regs (EpRing slot ep_index) (enq_rings r (length (x :: mks))) (x_hcd s))
      as (E2 & E3 & E4 & _).
    split; [by rewrite upd_ep_ring_event|]. split; [done|]. by eapply settles_regs. }
  destruct (wait_answered fuel P e k (mk_xworld m1 hcd1 (rung_ep s r (length mks) slot ep_index) 0 0))
    as (m' & h' & HP & E); cbn [x_wait x_sync x_hcd x_hw x_mem]; try done.
  { by rewrite Ee. }
  { rewrite Ee. apply Hrep; [done|].
    replace (trb_addr r c) with (trb_addr (enq_rings r (length mks)) c)
      by (unfold trb_addr; by rewrite enq_rings_trb). by apply fetches_ahead. }
  eexists m', _, h'. split; [done|]. split; [|run_by (exact E1)].
  2: { unfold ring_and_wait. run_by reflexivity. rewrite Hsy, Hw.
    cbn [x_set_hw x_mem x_hcd x_hw x_sync x_wait]. rewrite Ed. exact E. }
  exact Hr1.
Qed.

(** What the two transfer functions return for an event. *)
Definition xfer_result (e : xhci_trb) : Z :=
  let code := GET_COMP_CODE (t_status e) in
  if code =? COMP_SHORT_PACKET then Z.land (t_status e) 0xffffff
  else if code =? COMP_SUCCESS then 0 else -1.

(** The stages of a control transfer (USB 8.5.3): setup, data if there is any,
    status. *)
Definition control_stages (req : usb_setup_packet) (data len : Z) : list (Z -> xhci_trb) :=
  setup_trb req data len ::
  (if negb (data =? 0) && negb (len =? 0) then [data_trb req data len] else []) ++
  [status_trb req data len].

Lemma control_stages_ok req data len : Forall stage_ok (control_stages req data len).
Proof.
  unfold control_stages. constructor; [apply setup_stage|].
  destruct (_ && _); [constructor; [apply data_stage|]|]; apply Forall_singleton, status_stage.
Qed.

(** [xhci_xfer_control] is its stages, the wait, and the end. *)
Lemma xfer_control_stages slot ep req data len s :
  let ep_index := xhci_ep_2_index (u8 ep) EP_CONTROL_BIDIR in
  xhci_xfer_control fuel slot ep req data len s =
  (let! trb := (do! enqueue_stages (EpRing slot ep_index) (control_stages req data len) in
                ring_and_wait fuel slot ep_index) in
   control_finish fuel slot ep_index trb) s.
Proof.
  cbn zeta. unfold xhci_xfer_control, control_stages. run_by reflexivity.
  destruct (_ && _); cbn [app enqueue_stages]; unfold bind, skip, ret, rbind;
    repeat (case_match; simplify_eq; try done).
Qed.

Lemma control_finish_result slot ep_index e s :
  GET_COMP_CODE (t_status e) <> COMP_STALL_ERROR ->
  control_finish fuel slot ep_index e s = Ret (xfer_result e, s).
Proof.
  intros Hn. unfold control_finish, xfer_result.
  rewrite (proj2 (Z.eqb_neq _ _) Hn). by repeat case_match.
Qed.

(** * The words on the ring *)

(** The TRBs of the transfers word by word, as xHCI 6.4.1 lays them out for a
    controller: bit 0 of the last word is the owner, bit 5 asks for an interrupt
    on completion, bit 2 on a short packet, bit 6 says that the parameter is
    data, bits 10 to 15 are the type, and bit 16 (16 and 17 of a setup
    stage) is the direction. *)
Definition setup_words (req : usb_setup_packet) (has_data inward : bool) (cb : Z) : xhci_trb :=
  mk_trb (s_bmRequestType req + 2 ^ 8 * s_bRequest req + 2 ^ 16 * s_wValue req + 2 ^ 32 * s_wIndex req +
      2 ^ 48 * s_wLength req) 8
    (cb + 2 ^ 6 + 2 ^ 10 * 2 + 2 ^ 16 * (if has_data then if inward then 3 else 2 else 0)).
Definition data_words (data len : Z) (inward : bool) (cb : Z) : xhci_trb :=
  mk_trb data len (cb + 2 ^ 10 * 3 + if inward then 2 ^ 2 + 2 ^ 16 else 0).
Definition status_words (has_data inward : bool) (cb : Z) : xhci_trb :=
  mk_trb 0 0 (cb + 2 ^ 5 + 2 ^ 10 * 4 + if has_data && inward then 0 else 2 ^ 16).
Definition normal_words (data len : Z) (inward : bool) (cb : Z) : xhci_trb :=
  mk_trb data len (cb + 2 ^ 5 + 2 ^ 10 * 1 + if inward then 2 ^ 2 else 0).

Definition control_words (req : usb_setup_packet) (data len : Z) : list (Z -> xhci_trb) :=
  let has_data := negb (data =? 0) && negb (len =? 0) in
  let inward := 128 <=? s_bmRequestType req in
  setup_words req has_data inward ::
  (if has_data then [data_words data len inward] else []) ++ [status_words has_data inward].

Record wf_setup (req : usb_setup_packet) : Prop := {
  ws_bmRequestType : is_u8 (s_bmRequestType req);
  ws_bRequest : is_u8 (s_bRequest req);
  ws_wValue : is_u16 (s_wValue req);
  ws_wIndex : is_u16 (s_wIndex req);
  ws_wLength : is_u16 (s_wLength req);
}.

(** Builders that agree at both values of the cycle bit. *)
Definition same_stage (mk mk' : Z -> xhci_trb) : Prop := forall cb, cb = 0 \/ cb = 1 -> mk cb = mk' cb.

Lemma enq_ring_cycle r : r_cycle_bit r = 0 \/ r_cycle_bit r = 1 ->
  r_cycle_bit (enq_ring r) = 0 \/ r_cycle_bit (enq_ring r) = 1.
Proof. unfold enq_ring. destruct (_ =? _); [|done]. intros [H'|H']; cbn; rewrite H'; [by right|by left]. Qed.

Lemma staged_same mks mks' r :
  Forall2 same_stage mks mks' -> r_cycle_bit r = 0 \/ r_cycle_bit r = 1 -> staged r mks = staged r mks'.
Proof.
  intros Hs. revert r. induction Hs as [|mk mk' mks mks' Hmk _ IH]; intros r Hr; [done|].
  cbn [staged]. rewrite (Hmk _ Hr). f_equal. by apply IH, enq_ring_cycle.
Qed.

Lemma lor_word a b n : 0 <= n -> 0 <= a < 2 ^ n -> Z.lor a (Z.shiftl b n) = a + 2 ^ n * b.
Proof. intros Hn Ha. rewrite Z.lor_comm, lor_shiftl_add by done. lia. Qed.

Lemma land_128 v : is_u8 v -> (Z.land v 0x80 =? 0) = negb (128 <=? v).
Proof.
  intros Hv. change 0x80 with (2 ^ 7). rewrite land_bit, Z.testbit_eqb by done. f_equal. unfold is_u8 in Hv.
  change (2 ^ 7) with 128. destruct (Z.leb_spec 128 v).
  - by replace (v / 128) with 1 by (apply (Z.div_unique v 128 1 (v - 128)); lia).
  - by rewrite Z.div_small by lia.
Qed.

(** [lia] with the powers evaluated. *)
Ltac lia_words :=
  change (2 ^ 8) with 256 in *; change (2 ^ 16) with 65536 in *; change (2 ^ 32) with 4294967296 in *; lia.

Lemma trb_eq a b c a' b' c' : a = a' -> b = b' -> c = c' -> mk_trb a b c = mk_trb a' b' c'.
Proof. by intros -> -> ->. Qed.

(** The words the driver writes are these. *)
Lemma control_words_same req data len :
  wf_setup req -> is_u32 data -> is_u32 len -> Forall2 same_stage (control_stages req data len) (control_words req data len).
Proof.
  intros [Hb Hr Hv Hi Hl] Hd Hn. unfold control_stages, control_words.
  assert (dir_in req = (128 <=? s_bmRequestType req)) as Hdir.
  { unfold dir_in. rewrite land_128 by done. by rewrite negb_involutive. }
  set (has_data := negb (data =? 0) && negb (len =? 0)). set (inward := 128 <=? _) in *.
  assert (same_stage (setup_trb req data len) (setup_words req has_data inward)) as H1.
  { intros cb Hcb. unfold setup_trb, setup_words, generic_trb. fold has_data. rewrite Hdir.
    unfold is_u8, is_u16 in *.
    rewrite (lor_word _ _ 8), (lor_word (_ + _) _ 16), (lor_word _ _ 16) by lia_words.
    rewrite (u32_small (_ + _ + _)), (u32_small (s_wIndex req + _)) by (unfold is_u32; lia_words).
    apply trb_eq; [lia|done|]. destruct Hcb as [->| ->], has_data, inward; done. }
  assert (same_stage (status_trb req data len) (status_words has_data inward)) as H3.
  { intros cb Hcb. unfold status_trb, status_words, generic_trb. rewrite Hdir.
    assert ((data =? 0) || (len =? 0) || negb inward = negb (has_data && inward)) as ->
      by (unfold has_data; by destruct (data =? 0), (len =? 0), inward).
    apply trb_eq; [done|done|]. by destruct Hcb as [->| ->], (has_data && inward). }
  constructor; [done|]. destruct has_data; [|by repeat constructor]. constructor; [|by repeat constructor].
  intros cb Hcb. unfold data_trb, data_words, generic_trb. rewrite Hdir.
  rewrite (u32_small data), (u32_small len) by done.
  apply trb_eq; [rewrite (u32_small 0) by done; lia|done|]. by destruct Hcb as [->| ->], inward.
Qed.

Lemma bulk_words_same ep data len :
  is_u8 ep -> is_u32 data -> Forall2 same_stage [bulk_trb ep data len] [normal_words data (u32 len) (128 <=? ep)].
Proof.
  intros He Hd. repeat constructor. intros cb Hcb. unfold bulk_trb, normal_words, generic_trb, EP_DIR_IN.
  rewrite land_128, negb_involutive by done. rewrite (u32_small data), (u32_small 0) by done.
  apply trb_eq; [lia|done|]. by destruct Hcb as [->| ->], (128 <=? ep).
Qed.

Lemma reports_same s r c cc slot ep_index mks mks' P e k :
  Forall2 same_stage mks mks' -> r_cycle_bit r = 0 \/ r_cycle_bit r = 1 ->
  reports s r c cc slot ep_index mks' P e k -> reports s r c cc slot ep_index mks P e k.
Proof.
  intros Hs Hr Hrep m' Hm Hf. rewrite (Forall2_length _ _ _ Hs). apply Hrep; [done|].
  by rewrite <- (staged_same mks mks').
Qed.

(** C18: A control transfer puts exactly its setup, data (if there is any) and
    status TRBs on the ring of the endpoint before it rings the doorbell, each
    owned by the controller, with the words [control_words]: the eight bytes of the
    request and the direction of its data, the address and the length of the buffer,
    and a status in the other direction that interrupts on completion.  If the
    controller, finding exactly them, reports an event
    that is no stall, then the transfer returns what the event says: the bytes
    that were not transferred, 0 for success, or -1. *)
Theorem control_transfer slot ep req data len r P e c cc k (s : xworld H) :
  let ep_index := xhci_ep_2_index (u8 ep) EP_CONTROL_BIDIR in
  let stages := control_words req data len in
  wf_setup req -> is_u32 data -> is_u32 len ->
  transferable s (EpRing slot ep_index) r (length stages) c cc ->
  settles (x_hcd s) P -> is_answer e = true ->
  reports s r c cc slot ep_index stages P e (S k) ->
  GET_COMP_CODE (t_status e) <> COMP_STALL_ERROR -> (k + 1 < fuel)%nat ->
  exists m' hcd' h', P h' m' /\
    ring_of hcd' (EpRing slot ep_index) = Ret (enq_rings r (length stages)) /\
    xhci_xfer_control fuel slot ep req data len s = Ret (xfer_result e, mk_xworld m' hcd' h' 0 0).
Proof.
  intros ep_index stages Hreq Hd Hl Htr Hset He Hrep Hn Hf.
  pose proof (control_words_same req data len Hreq Hd Hl) as Hs. fold stages in Hs.
  pose proof (Forall2_length _ _ _ Hs) as Hlen. rewrite <- Hlen in Htr.
  pose proof (ro_cycle _ _ (tr_ring _ _ _ _ _ _ Htr)) as Hcy.
  destruct (transfer_answered slot ep_index r (control_stages req data len) P e c cc k s)
    as (m' & hcd' & h' & HP & Hr & E); [done|apply control_stages_ok|done|done|by eapply reports_same|done|].
  exists m', hcd', h'. split; [done|]. split; [by rewrite <- Hlen|].
  rewrite xfer_control_stages. run_by (exact E). by apply control_finish_result.
Qed.

(** C30: A bulk or interrupt transfer puts one TRB on the ring of the endpoint,
    with the words [normal_words]: the address and the length of the buffer, an
    interrupt on completion and, for an endpoint that sends to the host, on a
    short packet; if the controller, finding exactly it, reports an event, the
    transfer returns what the event says. *)
Theorem bulk_transfer slot ep data len r P e c cc k (s : xworld H) :
  let ep_index := xhci_ep_2_index (u8 ep) EP_BULK_IN in
  is_u8 ep -> is_u32 data ->
  transferable s (EpRing slot ep_index) r 1 c cc ->
  settles (x_hcd s) P -> is_answer e = true ->
  reports s r c cc slot ep_index [normal_words data (u32 len) (128 <=? ep)] P e (S k) -> (k + 1 < fuel)%nat ->
  exists m' hcd' h', P h' m' /\ ring_of hcd' (EpRing slot ep_index) = Ret (enq_ring r) /\
    xhci_xfer_bulk fuel slot ep data len s = Ret (xfer_result e, mk_xworld m' hcd' h' 0 0).
Proof.
  intros ep_index Hep Hd Htr Hset He Hrep Hf.
  pose proof (bulk_words_same ep data len Hep Hd) as Hs.
  pose proof (ro_cycle _ _ (tr_ring _ _ _ _ _ _ Htr)) as Hcy.
  destruct (transfer_answered slot ep_index r [bulk_trb ep data len] P e c cc k s)
    as (m' & hcd' & h' & HP & Hr & E);
    [done|apply Forall_singleton, bulk_stage|done|done|by eapply reports_same|done|].
  exists m', hcd', h'. split; [done|]. split; [done|].
  assert (xhci_xfer_bulk fuel slot ep data len s =
    (let! trb := (do! enqueue_stages (EpRing slot ep_index) [bulk_trb ep data len] in
                  ring_and_wait fuel slot ep_index) in ret (xfer_result trb)) s) as ->.
  { unfold xhci_xfer_bulk. run_by reflexivity. cbn [enqueue_stages].
    unfold bind, skip, ret, rbind. by destruct (enqueue_stage _ _ s) as [[[] s1]| |]. }
  by run_by (exact E).
Qed.

(** * Commands that go wrong *)

(** The reset command is stored with its type and cycle bit in the status word
    and a control word of zero: in every second lap of the ring, the first
    included, the controller does not find it, so a controller with nothing
    else to do never answers and [xhci_cmd_reset_device] never returns. *)
Theorem reset_device_unseen slot P c (s : xworld H) :
  let cr := h_cmd_ring (x_hcd s) in
  ring_ok (x_mem s) cr -> r_cycle_bit cr = 1 -> ahead (x_mem s) cr c 1 [] -> x_sync s = 0 ->
  settles (x_hcd s) P ->
  (forall m', only_words (r_trb cr) (4 * r_num_trb cr) (x_mem s) m' ->
    fetch_one 1 m' (trb_addr cr c) 1 = None -> P (rung s) m') ->
  xhci_cmd_reset_device fuel slot s = OutOfFuel.
Proof.
  intros cr Hok Hcy Ha Hsy Hset Hctl. unfold xhci_cmd_reset_device. run_by reflexivity.
  fold cr. set (t := mk_trb 0 _ 0). unfold bind. rewrite submit_exec by done. fold cr.
  pose proof (ro_index _ _ Hok) as Hw.
  assert (c = r_write_index cr) as ->.
  { destruct Ha as [H0 [(_ & Hl & _)|(Hc & _)]]; [cbn in Hl; lia|lia]. }
  rewrite (wait_forever fuel P); [done|done|by destruct Hset|].
  apply (Hctl (enq_mem (x_mem s) cr t)); [by apply enq_mem_frame|].
  assert (exists v, mload_trb (enq_mem (x_mem s) cr t) (trb_addr cr (r_write_index cr)) =
    Ret (mk_trb 0 v 0)) as [v E].
  { exists (u32 (t_status t)). apply enq_mem_entry; [done|done|]. apply mload_put_trb_u32. }
  cbn [fetch_one]. rewrite E. done.
Qed.

(** The controller has no slot for the device, or a number of slots beyond
    [XHCI_SLOT_MAX]: [xhci_alloc_device] does not look at the result of
    [xhci_cmd_enable_slot] and accesses its table out of bounds. *)
Theorem alloc_device_needs_slot slot (s s1 : xworld H) :
  xhci_cmd_enable_slot fuel s = Ret (slot, s1) ->
  slot < 0 \/ Z.of_nat (length (h_device (x_hcd s1))) <= slot ->
  (forall align size h, fst (k_aligned_alloc align size h) <> 0) ->
  xhci_alloc_device fuel s = UB.
Proof.
  intros E Hs Hal. unfold xhci_alloc_device. run_by (exact E).
  assert (forall align size (s : xworld H), exists p m h, p <> 0 /\
    xhci_mem_alloc align size s = Ret (p, x_set_mem m (x_set_hw h s))) as Halloc.
  { intros align size s0. unfold xhci_mem_alloc. pose proof (Hal align size (x_hw s0)) as Hp.
    destruct (k_aligned_alloc align size (x_hw s0)) as [p h]. cbn in Hp.
    rewrite (proj2 (Z.eqb_neq _ _) Hp). eauto. }
  destruct (Halloc XHCI_ALIGN 2048 s1) as (p1 & m1 & h1 & Hp1 & E1). run_by (exact E1).
  destruct (Halloc XHCI_ALIGN 2112 (x_set_mem m1 (x_set_hw h1 s1))) as (p2 & m2 & h2 & Hp2 & E2).
  run_by (exact E2).
  match goal with |- bind (xhci_mem_alloc ?a ?b) _ ?s0 = _ =>
    destruct (Halloc a b s0) as (p3 & m3 & h3 & Hp3 & E3) end. run_by (exact E3).
  rewrite !(proj2 (Z.eqb_neq _ _)) by done. cbn [orb]. run_by reflexivity.
  unfold readl at 1. unfold bind at 1. destruct (mmio_read _ _) as [v h4]. cbn [rbind].
  unfold get_device at 1. unfold bind at 1. cbn [x_set_mem x_set_hw x_hcd].
  by rewrite arr_get_UB.
Qed.
End Spec.

(** * String descriptors *)

(** The conversion in place keeps the low byte of each UTF-16 unit of the [n]
    valid bytes, in order, and ends the string with a zero; nothing is read
    after it was overwritten, and nothing is written outside. *)
Theorem string_desc_spec buf n :
  0 <= n <= Z.of_nat (length buf) ->
  let len := Z.to_nat ((n - 2) / 2) in
  if (2 <=? n) && bool_decide (buf !! 1%nat = Some 3) then
    exists buf', usb_string_desc_inplace buf n = Ret (Z.of_nat len, buf') /\
      length buf' = length buf /\ buf' !! len = Some 0 /\
      (forall i, (i < len)%nat -> buf' !! i = buf !! (2 + 2 * i)%nat) /\
      (forall i, (len < i)%nat -> buf' !! i = buf !! i)
  else usb_string_desc_inplace buf n = Ret (0, buf).
Proof.
  intros Hn len. unfold usb_string_desc_inplace.
  destruct (Z.leb_spec 2 n) as [H2|H2]; cbn [andb]; [|by rewrite (proj2 (Z.ltb_lt _ _))].
  rewrite (proj2 (Z.ltb_ge _ _)) by lia.
  destruct (arr_get_ok buf 1 ltac:(lia)) as (ty & E & Hty). change (Z.to_nat 1) with 1%nat in Hty.
  rewrite E. cbn [rbind]. case_bool_decide as H3.
  2: { rewrite (proj2 (Z.eqb_neq ty 3)) by congruence. done. }
  rewrite Hty in H3. simplify_eq. cbn [Z.eqb Pos.eqb negb].
  assert (Z.of_nat len = (n - 2) / 2) as El by (subst len; Z.div_mod_to_equations; lia).
  assert (2 + 2 * Z.of_nat len <= n) as Hlen by (rewrite El; Z.div_mod_to_equations; lia).
  rewrite <- El.
  assert (rwp (for_range 0 (Z.of_nat len) (fun i b => rlet! c := arr_get b (2 + i * 2) in arr_set b i c) buf)
    (fun b => length b = length buf /\ (forall i, (i < len)%nat -> b !! i = buf !! (2 + 2 * i)%nat) /\
      (forall i, (len <= i)%nat -> b !! i = buf !! i))) as Hloop.
  { apply (rwp_for_range (fun j b => length b = length buf /\
      (forall i, Z.of_nat i < j -> b !! i = buf !! (2 + 2 * i)%nat) /\
      (forall i, j <= Z.of_nat i -> b !! i = buf !! i))); [lia|by split_and!; [done|lia|done]| |].
    - intros j b Hj (Hl & H1 & H2'). apply rwp_bind, rwp_arr_get; [lia|]. intros c Hc.
      apply rwp_arr_set; [lia|]. split; [by rewrite length_insert|]. split; intros i Hi.
      + destruct (decide (i = Z.to_nat j)) as [->|].
        * rewrite list_lookup_insert_eq by lia. rewrite <- Hc, H2' by lia. f_equal. lia.
        * rewrite list_lookup_insert_ne by done. apply H1. lia.
      + rewrite list_lookup_insert_ne by lia. apply H2'. lia.
    - intros b (Hl & H1 & H2'). split_and!; [done| |]; intros i Hi; [apply H1|apply H2']; lia. }
  apply rwp_inv in Hloop as (b & -> & Hl & H1 & H2'). cbn [rbind].
  rewrite arr_set_ok by lia. cbn [rbind]. eexists. split; [reflexivity|]. rewrite Nat2Z.id.
  split_and!; [by rewrite length_insert|apply list_lookup_insert_eq; lia| |]; intros i Hi;
    rewrite list_lookup_insert_ne by lia; [apply H1|apply H2']; lia.
Qed.
