(* ===== verification/XhciSim.v ===== *)
(** A small xHCI controller for the witnesses: registers, a heap that grows,
    and after each doorbell, when its time is up, one fetch from the ring it
    looks at and one event.  The witnesses run the driver on it. *)

From S2P Require Import Prelude XhciDefs XhciMem XhciRing XhciRingSpec XhciEventSpec XhciCmd.
From S2P Require Import XhciInit XhciSpec.

(** [sim_timer]: the steps until the controller looks at its ring; [sim_pos]:
    where; [sim_delay]: the timer a doorbell sets; [sim_event], [sim_slot]: what
    it reports, and where. *)
Record sim : Type := mk_sim {
  sim_regs : gmap Z Z;
  sim_brk : Z;
  sim_timer : option nat;
  sim_pos : Z * Z;
  sim_delay : nat;
  sim_event : xhci_trb;
  sim_slot : Z;
}.

Definition sim_set_timer (t : option nat) (h : sim) : sim :=
  mk_sim (sim_regs h) (sim_brk h) t (sim_pos h) (sim_delay h) (sim_event h) (sim_slot h).
Definition sim_set_reg (a v : Z) (h : sim) : sim :=
  mk_sim (<[a := v]> (sim_regs h)) (sim_brk h) (sim_timer h) (sim_pos h) (sim_delay h) (sim_event h)
    (sim_slot h).
Definition sim_set_brk (b : Z) (h : sim) : sim :=
  mk_sim (sim_regs h) b (sim_timer h) (sim_pos h) (sim_delay h) (sim_event h) (sim_slot h).

Definition sim_db : Z := 0x40052000.

#[export] Instance sim_xhc : Xhc sim := {
  mmio_read a h := (default 0 (sim_regs h !! a), h);
  mmio_write a v h :=
    if (sim_db <=? a) && (a <? sim_db + 1024) then sim_set_timer (Some (sim_delay h)) h
    else sim_set_reg a v h;
  k_aligned_alloc align size h :=
    let p := Z.max 0x100000 (sim_brk h) in (p, sim_set_brk (p + (size + 63) / 64 * 64) h);
  k_initial a h := 0;
  k_free p h := h;
  sys_cache_data_flush_range p n h := h;
  sys_cache_data_invd_range p n h := h;
  xhc_step h m :=
    match sim_timer h with
    | None => (h, m, false)
    | Some (S k) => (sim_set_timer (Some k) h, m, false)
    | Some O =>
        let '(p, cc) := sim_pos h in
        match fetch_one 1 m p cc with
        | Some _ => (sim_set_timer None h, put_trb m (sim_slot h) (sim_event h), true)
        | None => (sim_set_timer None h, m, false)
        end
    end;
  erst_table := 0x20000000;
}.

(** Nothing will be reported: no timer, or nothing at its place in the ring. *)
Definition sim_idle (h : sim) (m : mem) : Prop :=
  sim_timer h = None \/ fetch_one 1 m (sim_pos h).1 (sim_pos h).2 = None.

Definition sim_hcd : xhci_hcd :=
  h_set_op_reg 0x40050020 (h_set_runtime_reg 0x40051000 (h_set_db_reg sim_db zero_hcd)).

Lemma sim_settles hcd :
  h_op_reg hcd = 0x40050020 -> h_runtime_reg hcd = 0x40051000 -> settles hcd sim_idle.
Proof.
  intros E1 E2. constructor; unfold sim_idle.
  - done.
  - intros a v h m Hh Ha. rewrite E1, E2 in Ha.
    destruct Ha as [<-|[<-|[<-|[<-|[]]]]]; exact Hh.
  - done.
  - intros h m Hh. cbn [xhc_step sim_xhc]. destruct (sim_timer h) as [[|k]|] eqn:Et; [| |by eauto].
    + destruct Hh as [|Hf]; [done|]. destruct (sim_pos h) as [p cc]. cbn [fst snd] in Hf. rewrite Hf. eauto.
    + destruct Hh as [|Hf]; [done|]. eauto.
Qed.

(** * Two rings in memory *)

Lemma add_words_is_some m a n f b : is_Some (m !! b) -> is_Some (add_words m a n f !! b).
Proof.
  revert m a. induction n as [|n IH]; intros m a Hb; [done|]. cbn. apply IH.
  apply lookup_insert_is_Some'. by right.
Qed.

Lemma add_words_mapped m a n f : mapped (add_words m a n f) a (Z.of_nat n).
Proof.
  revert m a. induction n as [|n IH]; intros m a i Hi; [lia|]. cbn [add_words].
  destruct (Z.eq_dec i 0) as [->|].
  - rewrite Z.mul_0_r, Z.add_0_r. apply add_words_is_some, lookup_insert_is_Some'. by left.
  - replace (a + 4 * i) with (a + 4 + 4 * (i - 1)) by lia. apply IH. lia.
Qed.

Definition sim_mem : mem :=
  add_words (add_words ∅ 0x2000 128 (fun _ => 0)) 0x1000 128 (fun _ => 0).

(** The controller at the start of a ring at 0x1000, which answers [delay]
    steps after a doorbell with [ev]. *)
Definition sim_hw (delay : nat) (ev : xhci_trb) : sim :=
  mk_sim ∅ 0x100000 None (0x1000, 1) delay ev 0x2000.

Definition run_state {A} (r : res (A * xworld sim)) (s : xworld sim) : xworld sim :=
  match r with Ret (_, s') => s' | _ => s end.

Definition sim_er : xhci_ring := mk_ring 0x2000 32 EVENT_RING 0 0 1.
Definition sim_ring (ty : ring_type_t) : xhci_ring := mk_ring 0x1000 32 ty 0 0 1.
Definition sim_hcd1 : xhci_hcd := h_set_event_ring sim_er sim_hcd.

(** An event ring, and then a ring [ref] for the driver. *)
Definition sim_s0 (d : nat) (ev : xhci_trb) : xworld sim :=
  mk_xworld sim_mem sim_hcd (sim_hw d ev) 0 0.
Definition sim_s1 (d : nat) (ev : xhci_trb) : xworld sim :=
  run_state (xhci_ring_init EventRing 0x2000 32 EVENT_RING (sim_s0 d ev)) (sim_s0 d ev).
Definition sim_start (ref : ring_ref) (ty : ring_type_t) (d : nat) (ev : xhci_trb) : xworld sim :=
  run_state (xhci_ring_init ref 0x1000 32 ty (sim_s1 d ev)) (sim_s1 d ev).

Lemma sim_s1_ok d ev :
  exists m, sim_s1 d ev = mk_xworld m sim_hcd1 (sim_hw d ev) 0 0 /\ mapped m 0x1000 128 /\
    entry m sim_er 1 (mk_trb 0 0 0).
Proof.
  destruct (mzero_ok sim_mem 0x2000 128) as (m & E & Hf & Hz).
  { intros i Hi. apply add_words_is_some. by apply (add_words_mapped ∅ 0x2000 128). }
  exists m. split; [|split].
  - unfold sim_s1, xhci_ring_init, memset0, mem_write.
    change (Z.to_nat (sizeof_trb * 32 / 4)) with 128%nat.
    change (x_mem (sim_s0 d ev)) with sim_mem. unfold bind at 1. cbn [x_mem sim_s0]. by rewrite E.
  - intros i Hi. rewrite Hf by lia. by apply (add_words_mapped _ 0x1000 128).
  - apply (zero_entry m 0x2000 128); [exact Hz|reflexivity|reflexivity|cbn; lia].
Qed.

Section Start.
Variables (ref : ring_ref) (ty : ring_type_t) (d : nat) (ev : xhci_trb).
Hypothesis Href : ring_of sim_hcd1 ref = Ret zero_ring.
Hypothesis Hty : ty <> EVENT_RING.

Let start := sim_start ref ty d ev.

Lemma sim_start_init : exists m1 m,
  xhci_ring_init ref 0x1000 32 ty (mk_xworld m1 sim_hcd1 (sim_hw d ev) 0 0) = Ret (tt, start) /\
  mapped m1 0x1000 128 /\
  start = mk_xworld m (upd_ring ref (sim_ring ty) sim_hcd1) (sim_hw d ev) 0 0 /\
  ring_ok m (sim_ring ty) /\ ahead m (sim_ring ty) 0 1 [] /\ entry m sim_er 1 (mk_trb 0 0 0).
Proof.
  destruct (sim_s1_ok d ev) as (m1 & E1 & Hm1 & He). subst start. unfold sim_start. rewrite E1. clear E1.
  set (w1 := mk_xworld m1 _ _ _ _).
  destruct (ring_init_run ref 0x1000 32 ltac:(lia) ltac:(unfold is_u32; lia) ty
    zero_ring w1) as (m & E & Hok & Ha & Hf); [exact Hty|exact Href|exact Hm1|].
  exists m1, m. rewrite E. cbn [run_state]. split; [done|]. split; [done|]. split; [reflexivity|].
  split; [exact Hok|]. split; [exact Ha|]. unfold entry.
  rewrite (mload_trb_ext m1 m); [exact He|]. intros i Hi. apply Hf. intros j Hj.
  unfold trb_addr, sizeof_trb. cbn. lia.
Qed.

Lemma sim_start_ok : exists m,
  start = mk_xworld m (upd_ring ref (sim_ring ty) sim_hcd1) (sim_hw d ev) 0 0 /\
  ring_ok m (sim_ring ty) /\ ahead m (sim_ring ty) 0 1 [] /\ entry m sim_er 1 (mk_trb 0 0 0).
Proof. destruct sim_start_init as (m1 & m & _ & _ & E). by exists m. Qed.

Lemma sim_reach : ring_reach ref 0x1000 32 start 0x1000 1 [].
Proof.
  destruct sim_start_init as (m1 & m & E & Hm & _).
  by apply (reach_init _ _ _ ty zero_ring _ _ Hty) in E.
Qed.

Lemma sim_start_settles : settles (x_hcd start) sim_idle.
Proof.
  destruct sim_start_ok as (m & -> & _). cbn [x_hcd].
  destruct (upd_ring_regs ref (sim_ring ty) sim_hcd1) as (_ & E2 & E3 & _). by apply sim_settles.
Qed.
End Start.

(** * Answers *)

(** The event of a test: pending when it is written, for a ring at 0x1000. *)
Record test_event (ev : xhci_trb) : Prop := {
  te_wf : wf_trb ev;
  te_cycle : cycle_of ev = 1;
  te_port : event_type ev <> TRB_TYPE TRB_PORT_STATUS;
  te_command : u32 (t_paramater ev) = 0x1000;
}.

(** The controller answers a doorbell after its delay. *)
Lemma sim_answers er d h m x :
  sim_timer h = Some d -> sim_pos h = (0x1000, 1) -> fetch_one 1 m 0x1000 1 = Some x ->
  pending (put_trb m (sim_slot h) (sim_event h)) er [sim_event h] ->
  other_event (sim_event h) ->
  readable (put_trb m (sim_slot h) (sim_event h)) (sim_event h) ->
  answers er sim_idle (sim_event h) d h m.
Proof.
  revert h. induction d as [|d IH]; intros h Ht Hp Hf Hpe Ho Hr.
  - apply (answers_now _ _ _ h m (sim_set_timer None h) (put_trb m (sim_slot h) (sim_event h)));
      [cbn [xhc_step sim_xhc]; by rewrite Ht, Hp, Hf|by left|done..].
  - eapply answers_later; [cbn [xhc_step sim_xhc]; by rewrite Ht|].
    by apply (IH (sim_set_timer (Some d) h)).
Qed.

(** The second entry of the event ring is not pending, and stays so when the
    first one and the ring at 0x1000 change. *)
Lemma sim_pending ev m m' :
  test_event ev -> entry m sim_er 1 (mk_trb 0 0 0) -> only_words 0x1000 128 m m' ->
  pending (put_trb m' 0x2000 ev) sim_er [ev].
Proof.
  intros [Hwf Hc _ _] He Hm. cbn [pending]. split; [by apply (mload_put_trb m' 0x2000)|].
  split; [done|]. exists (mk_trb 0 0 0). split; [|done]. unfold entry in *.
  change (trb_addr (advance sim_er) _) with 0x2010. change (trb_addr sim_er 1) with 0x2010 in He.
  rewrite mload_put_trb_ne by lia. rewrite (mload_trb_ext m m'); [exact He|].
  intros i Hi. apply Hm. intros j Hj. lia.
Qed.

Lemma sim_readable ev m x :
  test_event ev -> fetch_one 1 m 0x1000 1 = Some x -> readable (put_trb m 0x2000 ev) ev.
Proof.
  intros [_ _ _ Hc] Hf _. rewrite Hc. change (0x1000 + 12) with 0x100c.
  rewrite put_trb_frame by (intros i Hi; lia). cbn [fetch_one] in Hf.
  destruct (mload_trb m 0x1000) as [t| |] eqn:E; [|done..]. apply mload_trb_word in E. eauto.
Qed.

(** Whatever the controller finds in its ring, it answers the doorbell. *)
Lemma sim_rings ref ty d ev h m x :
  ring_of sim_hcd1 ref = Ret zero_ring -> ty <> EVENT_RING -> test_event ev ->
  only_words 0x1000 128 (x_mem (sim_start ref ty d ev)) m -> fetch_one 1 m 0x1000 1 = Some x ->
  h = sim_set_timer (Some d) (sim_hw d ev) ->
  answers sim_er sim_idle ev d h m.
Proof.
  intros Href Hty Hev Hm Hf ->. destruct (sim_start_ok ref ty d ev Href Hty) as (m0 & E & _ & _ & He).
  rewrite E in Hm. cbn [x_mem] in Hm.
  eapply (sim_answers _ d (sim_set_timer (Some d) (sim_hw d ev))); [done..|exact Hf| |apply Hev|].
  - by eapply sim_pending.
  - by eapply sim_readable.
Qed.

(** * Witnesses: commands *)

Definition sim_completion : xhci_trb :=
  mk_trb 0x1000 (Z.shiftl COMP_SUCCESS 24) (Z.lor (Z.lor (TRB_TYPE TRB_COMPLETION)
    (SLOT_ID_FOR_TRB 3)) 1).

Lemma sim_completion_ok : test_event sim_completion.
Proof. constructor; [by repeat split|done..]. Qed.

Definition sim_noop : xhci_trb := mk_trb 0 0 (Z.lor (TRB_TYPE TRB_CMD_NOOP) 1).

(** The driver with its command ring. *)
Definition sim_cmd (d : nat) : xworld sim := sim_start CmdRing COMMAND_RING d sim_completion.

Lemma sim_cmd_ok d : exists m,
  sim_cmd d = mk_xworld m (h_set_cmd_ring (sim_ring COMMAND_RING) sim_hcd1)
    (sim_hw d sim_completion) 0 0 /\
  ring_ok m (sim_ring COMMAND_RING) /\ ahead m (sim_ring COMMAND_RING) 0 1 [] /\
  entry m sim_er 1 (mk_trb 0 0 0).
Proof. by apply (sim_start_ok CmdRing COMMAND_RING d sim_completion). Qed.

Lemma sim_noop_submittable d : submittable (sim_cmd d) sim_noop 0 1.
Proof. destruct (sim_cmd_ok d) as (m & -> & Hok & Ha & _). by constructor. Qed.

Lemma sim_cmd_settles d : settles (x_hcd (sim_cmd d)) sim_idle.
Proof. destruct (sim_cmd_ok d) as (m & -> & _). by apply sim_settles. Qed.

Lemma sim_cmd_answers d t m c cc :
  let s := sim_cmd d in
  only_words (r_trb (h_cmd_ring (x_hcd s))) (4 * r_num_trb (h_cmd_ring (x_hcd s))) (x_mem s) m ->
  fetch_one 1 m (trb_addr (h_cmd_ring (x_hcd s)) 0) 1 = Some (t, c, cc) ->
  answers (h_event_ring (x_hcd s)) sim_idle sim_completion d (rung s) m.
Proof.
  cbn zeta. intros Hm Hf. pose proof sim_completion_ok.
  assert (only_words 0x1000 128 (x_mem (sim_start CmdRing COMMAND_RING d sim_completion)) m ->
    fetch_one 1 m 0x1000 1 = Some (t, c, cc) ->
    answers sim_er sim_idle sim_completion d (sim_set_timer (Some d) (sim_hw d sim_completion)) m) as Ha.
  { intros Hm' Hf'. by eapply (sim_rings CmdRing COMMAND_RING). }
  fold (sim_cmd d) in Ha. destruct (sim_cmd_ok d) as (m0 & E & _). rewrite E in *. by apply Ha.
Qed.

Lemma ring_fifo_witness : exists s,
  ring_reach CmdRing 0x1000 32 s 0x1000 1 [sim_noop] /\
  exists p' cc', fetch_one 1 (x_mem s) 0x1000 1 = Some (sim_noop, p', cc').
Proof.
  pose proof (sim_reach CmdRing COMMAND_RING 0 sim_completion eq_refl ltac:(done)) as Hstart.
  destruct (sim_cmd_ok 0) as (m & E0 & Hok & _). fold (sim_cmd 0) in Hstart. rewrite E0 in Hstart.
  match type of Hstart with ring_reach _ _ _ ?S _ _ _ => set (s0 := S) in Hstart end.
  assert (ready (sim_ring COMMAND_RING) sim_noop) as Hrd by (by repeat split).
  destruct (enqueue_run CmdRing _ sim_noop s0 eq_refl Hok Hrd) as (m' & E & _).
  match type of E with _ = Ret (tt, ?S) =>
    exists S; assert (ring_reach CmdRing 0x1000 32 S 0x1000 1 [sim_noop]) as Hre end.
  { by apply (reach_enqueue CmdRing 0x1000 32 s0 _ _ _ [] (sim_ring COMMAND_RING) sim_noop Hstart). }
  split; [exact Hre|].
  exact (proj1 (ring_fifo CmdRing 0x1000 32 ltac:(lia) ltac:(unfold is_u32; lia) _ _ _ _ Hre)).
Defined.

(** The handler takes the completion the controller wrote. *)
Definition sim_posted : xworld sim :=
  x_set_mem (put_trb (x_mem (sim_cmd 0)) 0x2000 sim_completion) (x_set_wait 1 (sim_cmd 0)).

Lemma isr_drains_witness : exists s', xhci_isr 2 sim_posted = Ret (tt, s') /\
  h_evt_trb (x_hcd s') = sim_completion /\ x_sync s' = 1 /\
  let '(erdp, h) := isr_enter (x_hcd sim_posted) (x_hw sim_posted) in
  x_hw s' = isr_leave (x_hcd sim_posted) 1 erdp h.
Proof.
  destruct (sim_cmd_ok 0) as (m & E & Hok & _ & He). unfold sim_posted. rewrite E. clear E.
  pose proof (isr_drains 2 [sim_completion] (mk_xworld (put_trb m 0x2000 sim_completion)
    (h_set_cmd_ring (sim_ring COMMAND_RING) sim_hcd1) (sim_hw 0 sim_completion) 0 1)) as Hd.
  change (x_hcd (x_set_mem _ _)) with (h_set_cmd_ring (sim_ring COMMAND_RING) sim_hcd1).
  change (x_hw (x_set_mem _ _)) with (sim_hw 0 sim_completion). cbn [x_hcd x_hw x_mem] in Hd.
  destruct (isr_enter _ _) as [erdp h].
  destruct Hd as [Hother Hd]; [done|done| | |repeat constructor|].
  - by apply (sim_pending _ m); [apply sim_completion_ok|done|].
  - constructor; [|done]. intros _.
    change (is_Some (put_trb m 0x2000 sim_completion !! (0x1000 + 4 * 3))).
    rewrite put_trb_frame by (intros i Hi; lia). apply (ro_mapped _ _ Hok). cbn. lia.
  - rewrite Hother in Hd by (by constructor). destruct Hd as (s' & E0 & _ & _ & _ & _ & E1 & E2 & E3).
    exists s'. split; [exact E0|]. split; [rewrite E1; reflexivity|]. split; [rewrite E2; reflexivity|exact E3].
Defined.

(** A command to a controller that answers after one step, and to one that
    answers at once. *)
Lemma command_answered_witness : exists s', xhci_command_submit 4 sim_noop (sim_cmd 1) =
  Ret (sim_completion, s') /\ x_sync s' = 0 /\ x_wait s' = 0.
Proof.
  destruct (command_answered 4 sim_idle sim_noop sim_completion 0 1 0 (sim_cmd 1)) as (m' & h' & E & _).
  - apply sim_noop_submittable.
  - apply sim_cmd_settles.
  - done.
  - intros m' c' cc'. apply sim_cmd_answers.
  - lia.
  - eexists. split; [exact E|]. split; reflexivity.
Defined.

Lemma wakeup_lost_witness : xhci_command_submit 1000 sim_noop (sim_cmd 0) = OutOfFuel.
Proof.
  apply (wakeup_lost 1000 sim_idle sim_noop sim_completion 0 1).
  - apply sim_noop_submittable.
  - apply sim_cmd_settles.
  - intros m' c' cc'. apply sim_cmd_answers.
  - lia.
Defined.

Lemma reset_device_unseen_witness : xhci_cmd_reset_device 100 1 (sim_cmd 1) = OutOfFuel.
Proof.
  destruct (sim_cmd_ok 1) as (m & E & Hok & Ha & _).
  rewrite E. apply (reset_device_unseen 100 1 sim_idle 0);
    [exact Hok|reflexivity|exact Ha|reflexivity|by apply sim_settles|].
  intros m' _ Hf. right. exact Hf.
Defined.

(** The controller has no slot left. *)
Definition sim_no_slot : xhci_trb :=
  mk_trb 0x1000 (Z.shiftl COMP_NO_SLOTS_AVAILABLE_ERROR 24) (Z.lor (TRB_TYPE TRB_COMPLETION) 1).

Lemma alloc_device_needs_slot_witness :
  xhci_alloc_device 4 (sim_start CmdRing COMMAND_RING 1 sim_no_slot) = UB.
Proof.
  eapply (alloc_device_needs_slot 4 (-1)).
  - vm_compute. reflexivity.
  - left. lia.
  - intros align size h. cbn. lia.
Defined.

(** * Witnesses: transfers *)

(** A transfer of 64 bytes of which 46 are missing. *)
Definition sim_short : xhci_trb :=
  mk_trb 0x1000 (Z.lor (Z.shiftl COMP_SHORT_PACKET 24) 46) (Z.lor (TRB_TYPE TRB_TRANSFER) 1).

Lemma sim_short_ok : test_event sim_short.
Proof. constructor; [by repeat split|done..]. Qed.

(** The driver with the ring of an endpoint of the device in slot 1. *)
Definition sim_xfer (ep : Z) : xworld sim := sim_start (EpRing 1 ep) CTRL_RING 1 sim_short.

Lemma sim_ep_zero ep : 0 <= ep < 31 -> ring_of sim_hcd1 (EpRing 1 ep) = Ret zero_ring.
Proof.
  intros He. cbn [ring_of]. change (arr_get _ 1) with (Ret (A:=xhci_device) zero_device). cbn [rbind].
  rewrite (arr_get_Ret _ _ zero_ep); [done|lia|]. cbn [d_ep zero_device].
  apply lookup_replicate_2. lia.
Qed.

Lemma sim_xfer_transferable ep n :
  0 <= ep < 31 -> (n < 31)%nat -> transferable (sim_xfer ep) (EpRing 1 ep) (sim_ring CTRL_RING) n 0 1.
Proof.
  intros He Hn. pose proof (sim_ep_zero ep He) as Href.
  destruct (sim_start_ok (EpRing 1 ep) CTRL_RING 1 sim_short Href) as (m & E & Hok & Ha & _); [done|].
  unfold sim_xfer. rewrite E. clear E. constructor; cbn [x_hcd x_mem x_wait x_sync].
  - by eapply ring_of_upd.
  - exact Hok.
  - exact Ha.
  - cbn. lia.
  - by rewrite upd_ep_ring_event.
  - done.
  - done.
Qed.


Lemma sim_flushes r n (h : sim) : flushes r n h = h.
Proof. induction n as [|n IH]; [done|]. exact IH. Qed.

Lemma sim_reports ep mk mks :
  0 <= ep < 31 ->
  reports (sim_xfer ep) (sim_ring CTRL_RING) 0 1 1 ep (mk :: mks) sim_idle sim_short 1.
Proof.
  intros He m Hm (p & cc & Hf & _).
  assert (only_words 0x1000 128 (x_mem (sim_start (EpRing 1 ep) CTRL_RING 1 sim_short)) m ->
    answers sim_er sim_idle sim_short 1 (sim_set_timer (Some 1%nat) (sim_hw 1 sim_short)) m) as Ha.
  { intros Hm'. eapply (sim_rings (EpRing 1 ep) CTRL_RING); [by apply sim_ep_zero|done|
      apply sim_short_ok|exact Hm'|exact Hf|done]. }
  fold (sim_xfer ep) in Ha. unfold rung_ep. rewrite sim_flushes.
  destruct (sim_start_ok (EpRing 1 ep) CTRL_RING 1 sim_short (sim_ep_zero ep He)) as (m0 & E & _); [done|].
  unfold sim_xfer in *. rewrite E in *. cbn [x_mem x_hcd x_hw] in *. rewrite upd_ep_ring_event.
  destruct (upd_ring_regs (EpRing 1 ep) (sim_ring CTRL_RING) sim_hcd1) as (-> & _).
  exact (Ha Hm).
Qed.

Lemma sim_xfer_settles ep : 0 <= ep < 31 -> settles (x_hcd (sim_xfer ep)) sim_idle.
Proof.
  intros He. unfold sim_xfer.
  by apply (sim_start_settles (EpRing 1 ep) CTRL_RING 1 sim_short (sim_ep_zero ep He)).
Qed.

(** The device descriptor of main.c, of which the device sends 18 bytes. *)
Lemma control_transfer_witness : exists s',
  xhci_xfer_control 4 1 0 (mk_setup 0x80 6 0x100 0 64) 0x4000 64 (sim_xfer 0) = Ret (46, s').
Proof.
  destruct (control_transfer 4 1 0 (mk_setup 0x80 6 0x100 0 64) 0x4000 64 (sim_ring CTRL_RING) sim_idle
    sim_short 0 1 0 (sim_xfer 0)) as (m' & hcd' & h' & _ & _ & E).
  - by repeat split.
  - done.
  - done.
  - by apply sim_xfer_transferable; [|repeat constructor].
  - by apply sim_xfer_settles.
  - done.
  - by apply sim_reports.
  - done.
  - repeat constructor.
  - eexists. exact E.
Defined.

Lemma bulk_transfer_witness : exists s',
  xhci_xfer_bulk 4 1 0x81 0x4000 64 (sim_xfer 2) = Ret (46, s').
Proof.
  destruct (bulk_transfer 4 1 0x81 0x4000 64 (sim_ring CTRL_RING) sim_idle sim_short 0 1 0 (sim_xfer 2))
    as (m' & hcd' & h' & _ & _ & E).
  - done.
  - done.
  - by apply sim_xfer_transferable; [|repeat constructor].
  - by apply sim_xfer_settles.
  - done.
  - by apply sim_reports.
  - repeat constructor.
  - eexists. exact E.
Defined.

(** The contexts of the endpoints 1 IN and 2 OUT of an input block. *)
Lemma ep_contexts_disjoint_witness :
  ep_ctx_off XHCI_CTX_TYPE_INPUT 4 (xhci_ep_2_index 0x81 EP_BULK_IN) + 32 <=
    ep_ctx_off XHCI_CTX_TYPE_INPUT 4 (xhci_ep_2_index 2 EP_BULK_OUT) \/
  ep_ctx_off XHCI_CTX_TYPE_INPUT 4 (xhci_ep_2_index 2 EP_BULK_OUT) + 32 <=
    ep_ctx_off XHCI_CTX_TYPE_INPUT 4 (xhci_ep_2_index 0x81 EP_BULK_IN).
Proof.
  apply (ep_contexts_disjoint XHCI_CTX_TYPE_INPUT 4 0x81 2 EP_BULK_IN EP_BULK_OUT);
    [by right; left|by vm_compute|by vm_compute|by vm_compute].
Defined.

(** The descriptor of the string "Hi", followed by bytes not received. *)
Lemma string_desc_spec_witness : exists buf',
  usb_string_desc_inplace [6; 3; 72; 0; 105; 0; 255; 255] 6 = Ret (2, buf') /\
  buf' !! 0%nat = Some 72 /\ buf' !! 1%nat = Some 105 /\ buf' !! 2%nat = Some 0.
Proof.
  destruct (string_desc_spec [6; 3; 72; 0; 105; 0; 255; 255] 6 ltac:(cbn; lia))
    as (buf' & E & _ & H0 & Hi & _).
  exists buf'. split; [exact E|]. split; [by apply (Hi 0%nat), Nat.ltb_lt|].
  split; [by apply (Hi 1%nat), Nat.ltb_lt|exact H0].
Defined.
