(* ===== verification/ZephyrSvc.v ===== *)
(** Services of Zephyr that several programs use, as interfaces with their
    documented behaviour: byte ring buffers ([struct ring_buf]) and poll signals
    ([struct k_poll_signal]).  The code of the programs is proved against the
    laws; [list_ring] and [flag_signal] show that they can hold.  Also the C
    string functions that the programs call. *)

From stdpp Require Import strings pretty.
From S2P Require Import Prelude.

(** Error numbers of C. *)
Definition EINVAL : Z := 22.
Definition ENOMEM : Z := 12.
Definition ENODEV : Z := 19.
Definition ENOTTY : Z := 25.
Definition EIO : Z := 5.

(** * C strings: the bytes without the terminator *)

Definition c_str (s : String.string) : list Z :=
  (fun c => Z.of_N (Ascii.N_of_ascii c)) <$> String.list_ascii_of_string s.
Arguments c_str s%_string.

(** [snprintf(dst, size, ...)] of a text. *)
Definition snprintf (size : Z) (text : list Z) : list Z := take (Z.to_nat (size - 1)) text.

(** ["%d"] *)
Definition fmt_d (i : Z) : list Z := c_str (pretty i).

(** [strcmp(a, b) == 0] *)
Definition strcmp_eq (a b : list Z) : bool := bool_decide (a = b).

(** [strncpy(dst, src, n)]: the text, filled up with zeros to [n] bytes. *)
Definition strncpy (dst : list Z) (src : list Z) (n : Z) : res (list Z) :=
  let k := Z.to_nat n in arr_blit dst 0 (take k (src ++ replicate k 0)).

Lemma c_str_inj s s' : c_str s = c_str s' -> s = s'.
Proof.
  intros E. rewrite <- (String.string_of_list_ascii_of_string s).
  rewrite <- (String.string_of_list_ascii_of_string s'). f_equal.
  unfold c_str in E. revert E. apply list_fmap_eq_inj. intros a b E.
  rewrite <- (Ascii.ascii_N_embedding a), <- (Ascii.ascii_N_embedding b). f_equal. lia.
Qed.

Lemma fmt_d_inj i j : fmt_d i = fmt_d j -> i = j.
Proof. intros E%c_str_inj. by apply (inj pretty). Qed.

(** * Ring buffers *)

(** [ring_buf_put] and [ring_buf_get] also return how many bytes they moved;
    that of [ring_buf_get] is the length of what it got. *)
Class RingBuf (R : Type) : Type := {
  ring_buf_init : Z -> R;
  ring_buf_put : list Z -> R -> Z * R;
  ring_buf_get : Z -> R -> list Z * R;
  ring_buf_size_get : R -> Z;
  ring_buf_space_get : R -> Z;
  ring_buf_reset : R -> R;
}.

(** A ring buffer is a bounded FIFO queue of bytes. *)
Class RingLaws (R : Type) `{!RingBuf R} : Type := {
  rb_bytes : R -> list Z;
  rb_size : R -> Z;
  rb_bounded r : Z.of_nat (length (rb_bytes r)) <= rb_size r;
  rb_init n : 0 <= n -> rb_bytes (ring_buf_init n) = [] /\ rb_size (ring_buf_init n) = n;
  rb_put l r : let n := Z.min (Z.of_nat (length l)) (rb_size r - Z.of_nat (length (rb_bytes r))) in
    fst (ring_buf_put l r) = n /\
    rb_bytes (snd (ring_buf_put l r)) = rb_bytes r ++ take (Z.to_nat n) l /\
    rb_size (snd (ring_buf_put l r)) = rb_size r;
  rb_get n r : 0 <= n ->
    fst (ring_buf_get n r) = take (Z.to_nat n) (rb_bytes r) /\
    rb_bytes (snd (ring_buf_get n r)) = drop (Z.to_nat n) (rb_bytes r) /\
    rb_size (snd (ring_buf_get n r)) = rb_size r;
  rb_size_get r : ring_buf_size_get r = Z.of_nat (length (rb_bytes r));
  rb_space_get r : ring_buf_space_get r = rb_size r - Z.of_nat (length (rb_bytes r));
  rb_reset r : rb_bytes (ring_buf_reset r) = [] /\ rb_size (ring_buf_reset r) = rb_size r;
}.

Section Ring.
Context {R : Type} `{!RingBuf R, !RingLaws R}.

(** What fits is stored whole. *)
Lemma rb_put_fits l r :
  Z.of_nat (length (rb_bytes r)) + Z.of_nat (length l) <= rb_size r ->
  fst (ring_buf_put l r) = Z.of_nat (length l) /\
  rb_bytes (snd (ring_buf_put l r)) = rb_bytes r ++ l.
Proof.
  intros Hl. destruct (rb_put l r) as (E & Eb & _). rewrite E, Eb.
  rewrite Z.min_l by lia. by rewrite Nat2Z.id, take_ge by lia.
Qed.

Lemma rb_put_full l r :
  Z.of_nat (length (rb_bytes r)) = rb_size r ->
  fst (ring_buf_put l r) = 0 /\ rb_bytes (snd (ring_buf_put l r)) = rb_bytes r.
Proof.
  intros Hl. destruct (rb_put l r) as (E & Eb & _). rewrite E, Eb, Hl.
  rewrite Z.sub_diag, Z.min_r by lia. by rewrite take_0, app_nil_r.
Qed.
End Ring.

(** A ring as the list of its bytes. *)
Record list_ring : Type := mk_list_ring { lr_bytes : list Z; lr_size : nat }.

#[export] Instance list_ring_ops : RingBuf list_ring := {
  ring_buf_init n := mk_list_ring [] (Z.to_nat n);
  ring_buf_put l r :=
    let n := Nat.min (length l) (lr_size r - length (take (lr_size r) (lr_bytes r))) in
    (Z.of_nat n, mk_list_ring (take (lr_size r) (lr_bytes r) ++ take n l) (lr_size r));
  ring_buf_get n r :=
    let b := take (lr_size r) (lr_bytes r) in
    (take (Z.to_nat n) b, mk_list_ring (drop (Z.to_nat n) b) (lr_size r));
  ring_buf_size_get r := Z.of_nat (length (take (lr_size r) (lr_bytes r)));
  ring_buf_space_get r :=
    Z.of_nat (lr_size r) - Z.of_nat (length (take (lr_size r) (lr_bytes r)));
  ring_buf_reset r := mk_list_ring [] (lr_size r);
}.

#[export] Instance list_ring_laws : RingLaws list_ring.
Proof.
  refine {| rb_bytes r := take (lr_size r) (lr_bytes r); rb_size r := Z.of_nat (lr_size r) |};
    cbn -[Z.min].
  - intros r. rewrite length_take. lia.
  - intros n Hn. split; [by destruct (Z.to_nat n)|lia].
  - intros l r. rewrite length_take.
    set (n := Nat.min (length l) _). replace (Z.to_nat _) with n by lia.
    split; [lia|]. split; [|done]. apply take_ge. rewrite length_app, !length_take. lia.
  - intros n r _. split; [done|]. split; [|done]. apply take_ge.
    rewrite length_drop, length_take. lia.
  - done.
  - done.
  - intros r. split; [by destruct (lr_size r)|done].
Defined.

(** * Poll signals *)

Class PollSignal (S : Type) : Type := {
  k_poll_signal_init : S;
  k_poll_signal_raise : Z -> S -> S;
  k_poll_signal_reset : S -> S;
}.

(** A thread that polls a signal goes on when it is [signaled]. *)
Class SignalLaws (S : Type) `{!PollSignal S} : Type := {
  signaled : S -> bool;
  signal_init : signaled k_poll_signal_init = false;
  signal_raise v s : signaled (k_poll_signal_raise v s) = true;
  signal_reset s : signaled (k_poll_signal_reset s) = false;
}.

#[export] Instance flag_signal : PollSignal bool := {
  k_poll_signal_init := false;
  k_poll_signal_raise _ _ := true;
  k_poll_signal_reset _ := false;
}.
#[export] Instance flag_signal_laws : SignalLaws bool.
Proof. by refine {| signaled b := b |}. Defined.
