(* ===== verification/GpioFsDefs.v ===== *)
(** gpio_fs.h and the data of gpio_fs.c (samples/gpio_fs): request flags, the
    codes of the ioctl calls, the structures users pass, the chips and the line
    and event objects with their tables.  Pointers to the objects of a table
    are their indices, NULL is [None]. *)

From S2P Require Import Prelude ZephyrSvc.

(** * gpio_fs.h and ioctl.h *)

Definition GPIO_MAX_NAME_SIZE : Z := 32.
Definition GPIOHANDLES_MAX : Z := 64.
Definition GPIOLINE_FLAG_KERNEL : Z := Z.shiftl 1 0.

Definition GPIOHANDLE_REQUEST_INPUT : Z := Z.shiftl 1 0.
Definition GPIOHANDLE_REQUEST_OUTPUT : Z := Z.shiftl 1 1.
Definition GPIOHANDLE_REQUEST_ACTIVE_LOW : Z := Z.shiftl 1 2.
Definition GPIOHANDLE_REQUEST_OPEN_DRAIN : Z := Z.shiftl 1 3.
Definition GPIOHANDLE_REQUEST_OPEN_SOURCE : Z := Z.shiftl 1 4.
Definition GPIOHANDLE_REQUEST_BIAS_PULL_UP : Z := Z.shiftl 1 5.
Definition GPIOHANDLE_REQUEST_BIAS_PULL_DOWN : Z := Z.shiftl 1 6.
Definition GPIOHANDLE_REQUEST_BIAS_DISABLE : Z := Z.shiftl 1 7.

Definition GPIOEVENT_REQUEST_RISING_EDGE : Z := Z.shiftl 1 0.
Definition GPIOEVENT_REQUEST_FALLING_EDGE : Z := Z.shiftl 1 1.
Definition GPIOEVENT_REQUEST_BOTH_EDGES : Z := Z.lor (Z.shiftl 1 0) (Z.shiftl 1 1).

Definition GPIOEVENT_EVENT_RISING_EDGE : Z := 1.
Definition GPIOEVENT_EVENT_FALLING_EDGE : Z := 2.

Definition _IOC_NRBITS : Z := 8.
Definition _IOC_TYPEBITS : Z := 8.
Definition _IOC_SIZEBITS : Z := 14.
Definition _IOC_NRSHIFT : Z := 0.
Definition _IOC_TYPESHIFT : Z := _IOC_NRSHIFT + _IOC_NRBITS.
Definition _IOC_SIZESHIFT : Z := _IOC_TYPESHIFT + _IOC_TYPEBITS.
Definition _IOC_DIRSHIFT : Z := _IOC_SIZESHIFT + _IOC_SIZEBITS.
Definition _IOC_WRITE : Z := 1.
Definition _IOC_READ : Z := 2.
Definition _IOC (dir type nr size : Z) : Z :=
  Z.lor (Z.lor (Z.lor (Z.shiftl dir _IOC_DIRSHIFT) (Z.shiftl type _IOC_TYPESHIFT))
    (Z.shiftl nr _IOC_NRSHIFT)) (Z.shiftl size _IOC_SIZESHIFT).
Definition _IOR (type nr size : Z) : Z := _IOC _IOC_READ type nr size.
Definition _IOWR (type nr size : Z) : Z := _IOC (Z.lor _IOC_READ _IOC_WRITE) type nr size.

(** The sizes of the structures. *)
Definition sizeof_gpiochip_info : Z := 2 * GPIO_MAX_NAME_SIZE + 4.
Definition sizeof_gpioline_info : Z := 8 + 2 * GPIO_MAX_NAME_SIZE.
Definition sizeof_gpiohandle_request : Z := 4 * GPIOHANDLES_MAX + 4 + GPIOHANDLES_MAX + GPIO_MAX_NAME_SIZE + 8.
Definition sizeof_gpiohandle_config : Z := 4 + GPIOHANDLES_MAX + 16.
Definition sizeof_gpiohandle_data : Z := GPIOHANDLES_MAX.
Definition sizeof_gpioevent_request : Z := 12 + GPIO_MAX_NAME_SIZE + 4.
(** With the padding behind [id]. *)
Definition sizeof_gpioevent_data : Z := 16.

Definition GPIO_GET_CHIPINFO_IOCTL : Z := _IOR 0xB4 0x01 sizeof_gpiochip_info.
Definition GPIO_GET_LINEINFO_IOCTL : Z := _IOWR 0xB4 0x02 sizeof_gpioline_info.
Definition GPIO_GET_LINEHANDLE_IOCTL : Z := _IOWR 0xB4 0x03 sizeof_gpiohandle_request.
Definition GPIO_GET_LINEEVENT_IOCTL : Z := _IOWR 0xB4 0x04 sizeof_gpioevent_request.
Definition GPIOHANDLE_GET_LINE_VALUES_IOCTL : Z := _IOWR 0xB4 0x08 sizeof_gpiohandle_data.
Definition GPIOHANDLE_SET_LINE_VALUES_IOCTL : Z := _IOWR 0xB4 0x09 sizeof_gpiohandle_data.
Definition GPIOHANDLE_SET_CONFIG_IOCTL : Z := _IOWR 0xB4 0x0A sizeof_gpiohandle_config.

Record gpiochip_info : Type := mk_gpiochip_info {
  ci_name : list Z;
  ci_label : list Z;
  ci_lines : Z;
}.

Record gpioline_info : Type := mk_gpioline_info {
  li_line_offset : Z;
  li_flags : Z;
  li_name : list Z;
  li_consumer : list Z;
}.

Record gpiohandle_request : Type := mk_gpiohandle_request {
  hr_lineoffsets : list Z;
  hr_flags : Z;
  hr_default_values : list Z;
  hr_consumer_label : list Z;
  hr_lines : Z;
  hr_fd : Z;
}.
Definition hr_set_fd (v : Z) (r : gpiohandle_request) : gpiohandle_request :=
  mk_gpiohandle_request (hr_lineoffsets r) (hr_flags r) (hr_default_values r)
    (hr_consumer_label r) (hr_lines r) v.

Record gpiohandle_config : Type := mk_gpiohandle_config {
  cf_flags : Z;
  cf_default_values : list Z;
}.

Record gpioevent_request : Type := mk_gpioevent_request {
  er_lineoffset : Z;
  er_handleflags : Z;
  er_eventflags : Z;
  er_consumer_label : list Z;
  er_fd : Z;
}.
Definition er_set_fd (v : Z) (r : gpioevent_request) : gpioevent_request :=
  mk_gpioevent_request (er_lineoffset r) (er_handleflags r) (er_eventflags r)
    (er_consumer_label r) v.

Record gpioevent_data : Type := mk_gpioevent_data {
  ed_timestamp : Z;
  ed_id : Z;
}.

(** * gpio_fs.c *)

Definition GPIO_LINE_HANDLE_MAX : Z := 64.
Definition GPIO_LINE_EVENT_MAX : Z := 64.
Definition GPIO_LINE_EVENT_DATA_MAX : Z := 16.

Definition GPIOHANDLE_REQUEST_VALID_FLAGS : Z :=
  Z.lor (Z.lor (Z.lor (Z.lor GPIOHANDLE_REQUEST_INPUT GPIOHANDLE_REQUEST_OUTPUT)
    GPIOHANDLE_REQUEST_ACTIVE_LOW) GPIOHANDLE_REQUEST_OPEN_DRAIN) GPIOHANDLE_REQUEST_OPEN_SOURCE.
Definition GPIOEVENT_REQUEST_VALID_FLAGS : Z :=
  Z.lor GPIOEVENT_REQUEST_RISING_EDGE GPIOEVENT_REQUEST_FALLING_EDGE.

Record gpio_chip : Type := mk_gpio_chip {
  gc_dev : Z;
  gc_label : list Z;
  gc_line_names : list (option (list Z));
  gc_pin_count : Z;
  gc_pin_mask : Z;
  gc_ref_cnt : Z;
}.
Definition gc_set_pin_mask (v : Z) (c : gpio_chip) : gpio_chip :=
  mk_gpio_chip (gc_dev c) (gc_label c) (gc_line_names c) (gc_pin_count c) v (gc_ref_cnt c).
Definition gc_set_ref_cnt (v : Z) (c : gpio_chip) : gpio_chip :=
  mk_gpio_chip (gc_dev c) (gc_label c) (gc_line_names c) (gc_pin_count c) (gc_pin_mask c) v.

Record gpio_line : Type := mk_gpio_line {
  gl_chip : option Z;
  gl_req : gpiohandle_request;
  gl_name : list Z;
}.
Definition gl_set_chip (v : option Z) (l : gpio_line) : gpio_line := mk_gpio_line v (gl_req l) (gl_name l).
Definition gl_set_req (v : gpiohandle_request) (l : gpio_line) : gpio_line :=
  mk_gpio_line (gl_chip l) v (gl_name l).
Definition gl_set_name (v : list Z) (l : gpio_line) : gpio_line := mk_gpio_line (gl_chip l) (gl_req l) v.

(** [ge_cb] is what [gpio_init_callback] stored: the pins of the callback,
    whose function is always [gpio_irq]. *)
Record gpio_event (R S : Type) : Type := mk_gpio_event {
  ge_chip : option Z;
  ge_req : gpioevent_request;
  ge_cb : Z;
  ge_signal : S;
  ge_rb : R;
  ge_name : list Z;
}.
Arguments mk_gpio_event {R S} _ _ _ _ _ _.
Arguments ge_chip {R S} _.
Arguments ge_req {R S} _.
Arguments ge_cb {R S} _.
Arguments ge_signal {R S} _.
Arguments ge_rb {R S} _.
Arguments ge_name {R S} _.

Section Event.
Context {R S : Type}.
Definition ge_set_chip (v : option Z) (e : gpio_event R S) : gpio_event R S :=
  mk_gpio_event v (ge_req e) (ge_cb e) (ge_signal e) (ge_rb e) (ge_name e).
Definition ge_set_req (v : gpioevent_request) (e : gpio_event R S) : gpio_event R S :=
  mk_gpio_event (ge_chip e) v (ge_cb e) (ge_signal e) (ge_rb e) (ge_name e).
Definition ge_set_cb (v : Z) (e : gpio_event R S) : gpio_event R S :=
  mk_gpio_event (ge_chip e) (ge_req e) v (ge_signal e) (ge_rb e) (ge_name e).
Definition ge_set_signal (v : S) (e : gpio_event R S) : gpio_event R S :=
  mk_gpio_event (ge_chip e) (ge_req e) (ge_cb e) v (ge_rb e) (ge_name e).
Definition ge_set_rb (v : R) (e : gpio_event R S) : gpio_event R S :=
  mk_gpio_event (ge_chip e) (ge_req e) (ge_cb e) (ge_signal e) v (ge_name e).
Definition ge_set_name (v : list Z) (e : gpio_event R S) : gpio_event R S :=
  mk_gpio_event (ge_chip e) (ge_req e) (ge_cb e) (ge_signal e) (ge_rb e) v.
End Event.

(** What [fs_file_t.filep] points to. *)
Inductive filep : Set :=
| NullFile
| ChipFile (chip : Z)
| LineFile (line : Z)
| EventFile (event : Z).

(** The three [fs_file_system_t] objects. *)
Inductive fs_system : Set := gpio_line_fs | gpio_event_fs | gpio_chip_fs.

#[export] Instance filep_eq_dec : EqDecision filep.
Proof. solve_decision. Defined.
#[export] Instance fs_system_eq_dec : EqDecision fs_system.
Proof. solve_decision. Defined.

(** [struct k_poll_event], its object being the signal of an event. *)
Record k_poll_event : Type := mk_poll_event {
  pe_obj : option Z;
  pe_type : Z;
  pe_mode : Z;
  pe_state : Z;
}.

(** What the arguments of an ioctl call point to.  [APollPrepare events pev pev_end l]:
    the requested events, the next and the end position in the poll events [l];
    [APollUpdate events revents pev l]. *)
Inductive ioctl_arg : Type :=
| ANone
| AData (values : list Z)
| AConfig (config : gpiohandle_config)
| AChipInfo (info : gpiochip_info)
| ALineInfo (info : gpioline_info)
| ALineRequest (req : gpiohandle_request)
| AEventRequest (req : gpioevent_request)
| APollPrepare (events pev pev_end : Z) (l : list k_poll_event)
| APollUpdate (events revents pev : Z) (l : list k_poll_event).
