(* ===== verification/GpioFs.v ===== *)
(** gpio_fs.c (samples/gpio_fs): GPIO chips as device files, whose ioctl
    calls give out line handles and edge events as files of their own.  The
    state is the three tables of the file and the depth of its mutex; drivers,
    device file system and file descriptors are the class [GpioSvc].  [open] calls
    back the open operation of the file system it finds ([posix_open]). *)

From stdpp Require Import strings.
From S2P Require Import Prelude ZephyrSvc GpioFsDefs.

(** * What gpio_fs.c calls *)

Class GpioSvc (E : Type) : Type := {
  GPIO_INPUT : Z; GPIO_OUTPUT : Z; GPIO_OUTPUT_INIT_LOW : Z; GPIO_OPEN_DRAIN : Z;
  GPIO_OPEN_SOURCE : Z; GPIO_PULL_UP : Z; GPIO_PULL_DOWN : Z; GPIO_DISCONNECTED : Z;
  GPIO_INT_EDGE_BOTH : Z; GPIO_INT_EDGE_RISING : Z; GPIO_INT_EDGE_FALLING : Z;
  GPIO_INT_DISABLE : Z;
  F_GETFL : Z; F_SETFL : Z; O_RDWR : Z;
  ZFD_IOCTL_POLL_PREPARE : Z; ZFD_IOCTL_POLL_UPDATE : Z; ZVFS_POLLIN : Z;
  K_POLL_TYPE_SIGNAL : Z; K_POLL_MODE_NOTIFY_ONLY : Z; K_POLL_STATE_NOT_READY : Z;
  device_name : Z -> list Z;
  device_is_ready : Z -> E -> bool;
  gpio_pin_configure : Z -> Z -> Z -> E -> Z * E;
  gpio_pin_set : Z -> Z -> Z -> E -> Z * E;
  gpio_pin_get : Z -> Z -> E -> Z * E;
  gpio_port_get : Z -> Z -> E -> (Z * Z) * E;
  gpio_pin_interrupt_configure : Z -> Z -> Z -> E -> Z * E;
  gpio_add_callback : Z -> Z -> E -> Z * E;
  gpio_remove_callback : Z -> Z -> E -> Z * E;
  k_uptime_get : E -> Z * E;
  stack_bytes : E -> list Z;
  devfs_register : list Z -> fs_system -> E -> Z * E;
  devfs_register_anon : list Z -> fs_system -> E -> Z * E;
  devfs_unregister_anon : list Z -> E -> Z * E;
  open_begin : list Z -> E -> option (fs_system * list Z) * E;
  open_end : option (Z * filep) -> E -> Z * E;
  errno : E -> Z;
  CONFIG_ASSERT : bool;
}.

(** Documented behaviour of [open]: it calls the file system registered
    under the path with the name behind the mount point, and reports an error
    exactly if that cannot be called or fails. *)
Class OpenLaws (E : Type) `{!GpioSvc E} : Prop := {
  open_finds name fs e e' :
    devfs_register_anon (c_str "/dev/" ++ name) fs e = (0, e') ->
    match fst (open_begin (c_str "/dev/" ++ name) e') with
    | Some p => p = (fs, name) | None => True end;
  open_fd f e : 0 <= fst (open_end (Some (0, f)) e);
  open_failed r f e : r < 0 -> fst (open_end (Some (r, f)) e) < 0;
  open_not_found e : fst (open_end None e) < 0;
  errno_pos e : 0 < errno e;
}.

(** * State *)

Record gworld (E R S : Type) : Type := mk_gworld {
  g_devices : list gpio_chip;
  g_lines : list gpio_line;
  g_events : list (gpio_event R S);
  g_lock : Z;
  g_ext : E;
}.
Arguments mk_gworld {E R S} _ _ _ _ _.
Arguments g_devices {E R S} _.
Arguments g_lines {E R S} _.
Arguments g_events {E R S} _.
Arguments g_lock {E R S} _.
Arguments g_ext {E R S} _.

Section Fs.
Context {E R S : Type} `{!GpioSvc E, !RingBuf R, !PollSignal S}.
Notation W := (gworld E R S).
Notation GM := (ST W).

Definition g_set_devices (v : list gpio_chip) (w : W) : W :=
  mk_gworld v (g_lines w) (g_events w) (g_lock w) (g_ext w).
Definition g_set_lines (v : list gpio_line) (w : W) : W :=
  mk_gworld (g_devices w) v (g_events w) (g_lock w) (g_ext w).
Definition g_set_events (v : list (gpio_event R S)) (w : W) : W :=
  mk_gworld (g_devices w) (g_lines w) v (g_lock w) (g_ext w).
Definition g_set_lock (v : Z) (w : W) : W :=
  mk_gworld (g_devices w) (g_lines w) (g_events w) v (g_ext w).
Definition g_set_ext (v : E) (w : W) : W :=
  mk_gworld (g_devices w) (g_lines w) (g_events w) (g_lock w) v.

Definition call_ext {A} (f : E -> A * E) : GM A :=
  fun w => let '(a, e) := f (g_ext w) in Ret (a, g_set_ext e w).

(** The elements of the tables. *)
Definition get_chip (i : Z) : GM gpio_chip := fun w => rbind (arr_get (g_devices w) i) (fun c => Ret (c, w)).
Definition set_chip (i : Z) (c : gpio_chip) : GM unit :=
  fun w => rbind (arr_set (g_devices w) i c) (fun l => Ret (tt, g_set_devices l w)).
Definition get_line (i : Z) : GM gpio_line := fun w => rbind (arr_get (g_lines w) i) (fun c => Ret (c, w)).
Definition set_line (i : Z) (c : gpio_line) : GM unit :=
  fun w => rbind (arr_set (g_lines w) i c) (fun l => Ret (tt, g_set_lines l w)).
Definition get_event (i : Z) : GM (gpio_event R S) :=
  fun w => rbind (arr_get (g_events w) i) (fun c => Ret (c, w)).
Definition set_event (i : Z) (c : gpio_event R S) : GM unit :=
  fun w => rbind (arr_set (g_events w) i c) (fun l => Ret (tt, g_set_events l w)).

Definition gpio_lock : GM unit := modify (fun w => g_set_lock (g_lock w + 1) w).
Definition gpio_unlock : GM unit :=
  modify (fun w => if 0 <? g_lock w then g_set_lock (g_lock w - 1) w else w).

(** [BIT(n)] of a 32-bit [unsigned long]. *)
Definition BIT32 (n : Z) : GM Z :=
  if (0 <=? n) && (n <? 32) then ret (Z.shiftl 1 n) else undefined.

(** [flags & bit] as a condition. *)
Definition has (flags bit : Z) : bool := negb (Z.land flags bit =? 0).

(** * The tables *)

Definition gpio_chip_find (name : list Z) : GM (option Z) :=
  gets (fun w => first_index (fun c => strcmp_eq name (gc_label c) = true) (g_devices w)).
Definition gpio_line_handle_find (name : list Z) : GM (option Z) :=
  gets (fun w => first_index (fun l => strcmp_eq name (gl_name l) = true) (g_lines w)).
Definition gpio_line_handle_alloc : GM (option Z) :=
  gets (fun w => first_index (fun l => gl_chip l = None) (g_lines w)).
Definition gpio_line_handle_free (i : Z) : GM unit :=
  let! l := get_line i in
  set_line i (gl_set_chip None l).
Definition gpio_line_event_find (name : list Z) : GM (option Z) :=
  gets (fun w => first_index (fun e => strcmp_eq name (ge_name e) = true) (g_events w)).
Definition gpio_line_event_alloc : GM (option Z) :=
  gets (fun w => first_index (fun e => ge_chip e = None) (g_events w)).
Definition gpio_line_event_free (i : Z) : GM unit :=
  let! e := get_event i in
  set_event i (ge_set_chip None e).

Definition gpio_line_handle_init : GM unit :=
  st_for 64 0 (fun i _ =>
    let! l := get_line i in
    set_line i (gl_set_name (snprintf 8 (c_str "line" ++ fmt_d i)) l)) tt.
Definition gpio_line_event_init : GM unit :=
  st_for 64 0 (fun i _ =>
    let! e := get_event i in
    set_event i (ge_set_name (snprintf 8 (c_str "event" ++ fmt_d i)) e)) tt.

(** [snprintf(path, sizeof(path) - 1, "/dev/%s", name)] *)
Definition dev_path (name : list Z) : list Z := snprintf 31 (c_str "/dev/" ++ name).

(** * Line handles *)

Definition req_flag_2_gpio_flag (flags : Z) : Z :=
  let add bit g acc := if has flags bit then Z.lor acc g else acc in
  let gpio_flag := add GPIOHANDLE_REQUEST_INPUT GPIO_INPUT 0 in
  let gpio_flag := add GPIOHANDLE_REQUEST_OUTPUT GPIO_OUTPUT gpio_flag in
  let gpio_flag := add GPIOHANDLE_REQUEST_ACTIVE_LOW GPIO_OUTPUT_INIT_LOW gpio_flag in
  let gpio_flag := add GPIOHANDLE_REQUEST_OPEN_DRAIN GPIO_OPEN_DRAIN gpio_flag in
  let gpio_flag := add GPIOHANDLE_REQUEST_OPEN_SOURCE GPIO_OPEN_SOURCE gpio_flag in
  let gpio_flag := add GPIOHANDLE_REQUEST_BIAS_PULL_UP GPIO_PULL_UP gpio_flag in
  let gpio_flag := add GPIOHANDLE_REQUEST_BIAS_PULL_DOWN GPIO_PULL_DOWN gpio_flag in
  if has flags GPIOHANDLE_REQUEST_BIAS_DISABLE then GPIO_DISCONNECTED else gpio_flag.

(** [chip->pin_mask |= BIT(pin)] and [chip->pin_mask &= ~BIT(pin)]. *)
Definition mask_add (c pin : Z) : GM unit :=
  let! b := BIT32 pin in
  let! chip := get_chip c in
  set_chip c (gc_set_pin_mask (Z.lor (gc_pin_mask chip) b) chip).
Definition mask_remove (c pin : Z) : GM unit :=
  let! b := BIT32 pin in
  let! chip := get_chip c in
  set_chip c (gc_set_pin_mask (Z.ldiff (gc_pin_mask chip) b) chip).

(** [gpio_pin_configure], then [gpio_pin_set] of an output. *)
Definition configure_pin (c pin flags : Z) (values : list Z) (i : Z) : GM unit :=
  let! chip := get_chip c in
  let! _ := call_ext (gpio_pin_configure (gc_dev chip) (u8 pin) flags) in
  if has flags GPIO_OUTPUT then
    let! v := lift (arr_get values i) in
    let! _ := call_ext (gpio_pin_set (gc_dev chip) (u8 pin) v) in
    skip
  else skip.

Definition gpio_line_open (file_name : list Z) : GM (Z * filep) :=
  let! found := gpio_line_handle_find file_name in
  match found with
  | None => ret (- EINVAL, NullFile)
  | Some i =>
      let! l := get_line i in
      match gl_chip l with
      | None => ret (- EINVAL, NullFile)
      | Some c =>
          let req := gl_req l in
          let flags := req_flag_2_gpio_flag (hr_flags req) in
          do! gpio_lock in
          do! st_for (Z.to_nat (hr_lines req)) 0 (fun k _ =>
            let! pin := lift (arr_get (hr_lineoffsets req) k) in
            do! mask_add c pin in
            configure_pin c pin flags (hr_default_values req) k) tt in
          do! gpio_unlock in
          ret (0, LineFile i)
      end
  end.

(** The object of a file, of its kind. *)
Definition line_of (f : filep) : GM Z := match f with LineFile i => ret i | _ => undefined end.
Definition event_of (f : filep) : GM Z := match f with EventFile i => ret i | _ => undefined end.
Definition chip_of (f : filep) : GM Z := match f with ChipFile i => ret i | _ => undefined end.
(** A chip pointer that is dereferenced. *)
Definition deref_chip (p : option Z) : GM Z := match p with Some c => ret c | None => undefined end.

Definition gpio_line_close (f : filep) : GM Z :=
  let! i := line_of f in
  let! l := get_line i in
  let req := gl_req l in
  do! gpio_lock in
  do! st_for (Z.to_nat (hr_lines req)) 0 (fun k _ =>
    let! c := deref_chip (gl_chip l) in
    let! pin := lift (arr_get (hr_lineoffsets req) k) in
    do! mask_remove c pin in
    let! chip := get_chip c in
    let! _ := call_ext (gpio_pin_configure (gc_dev chip) (u8 pin) GPIO_DISCONNECTED) in
    skip) tt in
  do! gpio_unlock in
  let! _ := call_ext (devfs_unregister_anon (dev_path (gl_name l))) in
  do! gpio_line_handle_free i in
  ret 0.

Definition gpio_line_ioctl (f : filep) (request : Z) (arg : ioctl_arg) : GM (Z * ioctl_arg) :=
  let! i := line_of f in
  let! l := get_line i in
  let req := gl_req l in
  let lines := Z.to_nat (hr_lines req) in
  if request =? GPIOHANDLE_SET_LINE_VALUES_IOCTL then
    match arg with
    | AData values =>
        do! gpio_lock in
        do! st_for lines 0 (fun k _ =>
          let! c := deref_chip (gl_chip l) in
          let! chip := get_chip c in
          let! pin := lift (arr_get (hr_lineoffsets req) k) in
          let! v := lift (arr_get values k) in
          let! _ := call_ext (gpio_pin_set (gc_dev chip) (u8 pin) v) in
          skip) tt in
        do! gpio_unlock in
        ret (0, arg)
    | _ => undefined
    end
  else if request =? GPIOHANDLE_GET_LINE_VALUES_IOCTL then
    match arg with
    | AData values =>
        do! gpio_lock in
        let! c := deref_chip (gl_chip l) in
        let! chip := get_chip c in
        let! (_, value) := call_ext (gpio_port_get (gc_dev chip) 0) in
        do! gpio_unlock in
        let! values := st_for lines 0 (fun k values =>
          let! pin := lift (arr_get (hr_lineoffsets req) k) in
          let! b := BIT32 pin in
          lift (arr_set values k (b2z (has value b)))) values in
        ret (0, AData values)
    | _ => undefined
    end
  else if request =? GPIOHANDLE_SET_CONFIG_IOCTL then
    match arg with
    | AConfig config =>
        let flags := req_flag_2_gpio_flag (cf_flags config) in
        do! gpio_lock in
        do! st_for lines 0 (fun k _ =>
          let! c := deref_chip (gl_chip l) in
          let! pin := lift (arr_get (hr_lineoffsets req) k) in
          configure_pin c pin flags (cf_default_values config) k) tt in
        do! gpio_unlock in
        ret (0, arg)
    | _ => undefined
    end
  else ret (- ENOTTY, arg).

(** * Events *)

(** The bytes of [struct gpioevent_data]: a field that is not assigned and the
    padding keep what the stack held. *)
Definition event_bytes (timestamp : Z) (id : option Z) (stack : list Z) : list Z :=
  le_split 8 timestamp ++
  (match id with Some v => le_split 4 v | None => take 4 (drop 8 stack) end) ++
  take 4 (drop 12 stack).

Definition NSEC_PER_MSEC : Z := 1000000.

(** [__ASSERT(0, ...)]: with CONFIG_ASSERT the kernel stops, nothing otherwise. *)
Definition __ASSERT_fails : GM unit := if CONFIG_ASSERT then undefined else skip.

Definition gpio_irq (i pins : Z) : GM unit :=
  let! event := get_event i in
  let eflags := er_eventflags (ge_req event) in
  let pin := er_lineoffset (ge_req event) in
  let! b := BIT32 pin in
  if has pins b then
    let! now := call_ext k_uptime_get in
    let! id :=
      (if has eflags GPIOEVENT_REQUEST_RISING_EDGE && has eflags GPIOEVENT_REQUEST_FALLING_EDGE then
         let! c := deref_chip (ge_chip event) in
         let! chip := get_chip c in
         let! pin_val := call_ext (gpio_pin_get (gc_dev chip) (u8 pin)) in
         ret (Some (if z2b pin_val then GPIOEVENT_EVENT_RISING_EDGE else GPIOEVENT_EVENT_FALLING_EDGE))
       else if has eflags GPIOEVENT_REQUEST_RISING_EDGE then ret (Some GPIOEVENT_EVENT_RISING_EDGE)
       else if has eflags GPIOEVENT_REQUEST_FALLING_EDGE then ret (Some GPIOEVENT_EVENT_FALLING_EDGE)
       else ret None) in
    let! stack := gets (fun w => stack_bytes (g_ext w)) in
    let bytes := event_bytes ((now * NSEC_PER_MSEC) mod 2 ^ 64) id stack in
    let '(w_size, rb) := ring_buf_put bytes (ge_rb event) in
    let event := ge_set_rb rb event in
    do! (if negb (w_size =? sizeof_gpioevent_data) then __ASSERT_fails else skip) in
    set_event i (ge_set_signal (k_poll_signal_raise 1 (ge_signal event)) event)
  else skip.

Definition gpio_event_open (file_name : list Z) : GM (Z * filep) :=
  let! found := gpio_line_event_find file_name in
  match found with
  | None => ret (- EINVAL, NullFile)
  | Some i =>
      let! event := get_event i in
      match ge_chip event with
      | None => ret (- EINVAL, NullFile)
      | Some c =>
          let pin := er_lineoffset (ge_req event) in
          let eflags := er_eventflags (ge_req event) in
          let int_flag :=
            if eflags =? GPIOEVENT_REQUEST_BOTH_EDGES then GPIO_INT_EDGE_BOTH
            else if has eflags GPIOEVENT_REQUEST_RISING_EDGE then GPIO_INT_EDGE_RISING
            else if has eflags GPIOEVENT_REQUEST_FALLING_EDGE then GPIO_INT_EDGE_FALLING else 0 in
          let! b := BIT32 pin in
          do! set_event i (ge_set_cb b (ge_set_signal k_poll_signal_init
            (ge_set_rb (ring_buf_init (GPIO_LINE_EVENT_DATA_MAX * sizeof_gpioevent_data)) event))) in
          do! gpio_lock in
          let! chip := get_chip c in
          let! r := call_ext (gpio_pin_configure (gc_dev chip) (u8 pin) GPIO_INPUT) in
          if negb (r =? 0) then do! gpio_unlock in ret (r, NullFile)
          else
            let! r := call_ext (gpio_pin_interrupt_configure (gc_dev chip) (u8 pin) int_flag) in
            if negb (r =? 0) then do! gpio_unlock in ret (r, NullFile)
            else
              let! _ := call_ext (gpio_add_callback (gc_dev chip) i) in
              do! mask_add c pin in
              do! gpio_unlock in
              ret (0, EventFile i)
      end
  end.

Definition gpio_event_close (f : filep) : GM Z :=
  let! i := event_of f in
  let! event := get_event i in
  let pin := er_lineoffset (ge_req event) in
  do! gpio_lock in
  let! c := deref_chip (ge_chip event) in
  do! mask_remove c pin in
  let! chip := get_chip c in
  let! _ := call_ext (gpio_pin_interrupt_configure (gc_dev chip) (u8 pin) GPIO_INT_DISABLE) in
  let! _ := call_ext (gpio_remove_callback (gc_dev chip) i) in
  do! gpio_unlock in
  let! event := get_event i in
  do! set_event i (ge_set_rb (ring_buf_reset (ge_rb event))
    (ge_set_signal (k_poll_signal_reset (ge_signal event)) event)) in
  do! gpio_line_event_free i in
  let! _ := call_ext (devfs_unregister_anon (dev_path (ge_name event))) in
  ret 0.

(** The bytes that are read; their number is returned. *)
Definition gpio_event_read (f : filep) (nbytes : Z) : GM (list Z) :=
  let! i := event_of f in
  let! event := get_event i in
  let '(bytes, rb) := ring_buf_get nbytes (ge_rb event) in
  do! set_event i (ge_set_rb rb event) in
  ret bytes.

Definition gpio_event_ioctl (f : filep) (request : Z) (arg : ioctl_arg) : GM (Z * ioctl_arg) :=
  if request =? GPIOHANDLE_GET_LINE_VALUES_IOCTL then
    match arg with
    | AData values =>
        let! i := event_of f in
        do! gpio_lock in
        let! event := get_event i in
        let! c := deref_chip (ge_chip event) in
        let! chip := get_chip c in
        let! v := call_ext (gpio_pin_get (gc_dev chip) (u8 (er_lineoffset (ge_req event)))) in
        let! values := lift (arr_set values 0 (u8 v)) in
        do! gpio_unlock in
        ret (0, AData values)
    | _ => undefined
    end
  else if request =? ZFD_IOCTL_POLL_PREPARE then
    match arg with
    | APollPrepare events pev pev_end l =>
        let! i := event_of f in
        if has events ZVFS_POLLIN then
          if pev =? pev_end then ret (- ENOMEM, arg)
          else
            let! l := lift (arr_set l pev
              (mk_poll_event (Some i) K_POLL_TYPE_SIGNAL K_POLL_MODE_NOTIFY_ONLY K_POLL_STATE_NOT_READY)) in
            ret (0, APollPrepare events (pev + 1) pev_end l)
        else ret (0, arg)
    | _ => undefined
    end
  else if request =? ZFD_IOCTL_POLL_UPDATE then
    match arg with
    | APollUpdate events revents pev l =>
        let! i := event_of f in
        if has events ZVFS_POLLIN then
          let! event := get_event i in
          if sizeof_gpioevent_data <=? ring_buf_size_get (ge_rb event) then
            do! set_event i (ge_set_signal (k_poll_signal_reset (ge_signal event)) event) in
            let! pe := lift (arr_get l pev) in
            let! l := lift (arr_set l pev
              (mk_poll_event (pe_obj pe) (pe_type pe) (pe_mode pe) K_POLL_STATE_NOT_READY)) in
            ret (0, APollUpdate events ZVFS_POLLIN (pev + 1) l)
          else ret (0, APollUpdate events revents (pev + 1) l)
        else ret (0, arg)
    | _ => undefined
    end
  else ret (- ENOTTY, arg).

(** * Chips *)

Definition gpio_chip_open (file_name : list Z) : GM (Z * filep) :=
  let! found := gpio_chip_find file_name in
  match found with
  | None => ret (- EINVAL, NullFile)
  | Some c =>
      let! chip := get_chip c in
      let! ready := gets (fun w => device_is_ready (gc_dev chip) (g_ext w)) in
      if negb ready then ret (- ENODEV, NullFile)
      else
        do! set_chip c (gc_set_ref_cnt (u32 (gc_ref_cnt chip + 1)) chip) in
        ret (0, ChipFile c)
  end.

(** The result and what [filep] is afterwards. *)
Definition gpio_chip_close (f : filep) : GM (Z * filep) :=
  let! c := chip_of f in
  let! chip := get_chip c in
  let n := u32 (gc_ref_cnt chip - 1) in
  do! set_chip c (gc_set_ref_cnt n chip) in
  ret (0, if n =? 0 then NullFile else f).

(** * Opening by path *)

Definition fs_open (fs : fs_system) (file_name : list Z) : GM (Z * filep) :=
  match fs with
  | gpio_line_fs => gpio_line_open file_name
  | gpio_event_fs => gpio_event_open file_name
  | gpio_chip_fs => gpio_chip_open file_name
  end.

(** [open(path, O_RDWR)] *)
Definition posix_open (path : list Z) : GM Z :=
  let! plan := call_ext (open_begin path) in
  match plan with
  | None => call_ext (open_end None)
  | Some (fs, name) => let! r := fs_open fs name in call_ext (open_end (Some r))
  end.

(** * Requests for lines and events *)

(** [for (...) if (bad(i)) return -EINVAL;] *)
Fixpoint all_ok (n : nat) (i : Z) (ok : Z -> GM bool) : GM bool :=
  match n with
  | O => ret true
  | Datatypes.S n' => let! b := ok i in if (b : bool) then all_ok n' (i + 1) ok else ret false
  end.

(** The flags of a line request that make sense together. *)
Definition line_flags_ok (lflags : Z) : bool :=
  negb (has lflags (Z.lnot GPIOHANDLE_REQUEST_VALID_FLAGS)) &&
  negb (has lflags GPIOHANDLE_REQUEST_INPUT && has lflags GPIOHANDLE_REQUEST_OUTPUT) &&
  negb (has lflags GPIOHANDLE_REQUEST_OPEN_DRAIN && has lflags GPIOHANDLE_REQUEST_OPEN_SOURCE) &&
  negb (negb (has lflags GPIOHANDLE_REQUEST_OUTPUT) &&
    (has lflags GPIOHANDLE_REQUEST_OPEN_DRAIN || has lflags GPIOHANDLE_REQUEST_OPEN_SOURCE)).

(** The tests at the start of [gpio_line_handle_create], without the lock. *)
Definition line_request_ok (req : gpiohandle_request) (c : Z) : GM bool :=
  let! chip := get_chip c in
  let lines := Z.to_nat (hr_lines req) in
  if (hr_lines req =? 0) || (gc_pin_count chip <? hr_lines req) then ret false
  else
    let! in_range := all_ok lines 0 (fun i =>
      let! offset := lift (arr_get (hr_lineoffsets req) i) in
      ret (offset <? gc_pin_count chip)) in
    if negb in_range then ret false
    else
      let! all_free := all_ok lines 0 (fun i =>
        let! pin := lift (arr_get (hr_lineoffsets req) i) in
        let! b := BIT32 pin in
        ret (negb (has b (gc_pin_mask chip)))) in
      ret (all_free && line_flags_ok (hr_flags req)).

(** Its rest, under the lock: the result and the request with its [fd]. *)
Definition line_request_commit (req : gpiohandle_request) (c : Z) : GM (Z * gpiohandle_request) :=
  do! gpio_lock in
  let! handle := gpio_line_handle_alloc in
  match handle with
  | None => do! gpio_unlock in ret (- ENOMEM, req)
  | Some i =>
      let! l := get_line i in
      let path := dev_path (gl_name l) in
      let! r := call_ext (devfs_register_anon path gpio_line_fs) in
      if r =? 0 then
        do! set_line i (gl_set_req req (gl_set_chip (Some c) l)) in
        let! fd := posix_open path in
        let! res :=
          (if fd <? 0 then
             let! _ := call_ext (devfs_unregister_anon path) in
             do! gpio_line_handle_free i in
             gets (fun w => - errno (g_ext w))
           else ret 1) in
        let! l := get_line i in
        do! set_line i (gl_set_req (hr_set_fd fd (gl_req l)) l) in
        do! gpio_unlock in
        ret (res, hr_set_fd fd req)
      else
        do! gpio_line_handle_free i in
        do! gpio_unlock in
        ret (0, req)
  end.

Definition gpio_line_handle_create (req : gpiohandle_request) (c : Z) : GM (Z * gpiohandle_request) :=
  let! ok := line_request_ok req c in
  if negb ok then ret (- EINVAL, req) else line_request_commit req c.

Definition event_flags_ok (lflags eflags : Z) : bool :=
  negb (has lflags (Z.lnot GPIOHANDLE_REQUEST_VALID_FLAGS) ||
    has eflags (Z.lnot GPIOEVENT_REQUEST_VALID_FLAGS)) &&
  negb (has lflags GPIOHANDLE_REQUEST_OUTPUT || has lflags GPIOHANDLE_REQUEST_OPEN_DRAIN ||
    has lflags GPIOHANDLE_REQUEST_OPEN_SOURCE) &&
  negb (has lflags GPIOHANDLE_REQUEST_BIAS_DISABLE &&
      has lflags (Z.lor GPIOHANDLE_REQUEST_BIAS_PULL_DOWN GPIOHANDLE_REQUEST_BIAS_PULL_UP) ||
    has lflags GPIOHANDLE_REQUEST_BIAS_PULL_DOWN && has lflags GPIOHANDLE_REQUEST_BIAS_PULL_UP).

Definition event_request_ok (req : gpioevent_request) (c : Z) : GM bool :=
  let! chip := get_chip c in
  let pin := er_lineoffset req in
  if gc_pin_count chip <=? pin then ret false
  else
    let! b := BIT32 pin in
    if has b (gc_pin_mask chip) then ret false
    else ret (event_flags_ok (er_handleflags req) (er_eventflags req)).

Definition event_request_commit (req : gpioevent_request) (c : Z) : GM (Z * gpioevent_request) :=
  do! gpio_lock in
  let! line_event := gpio_line_event_alloc in
  match line_event with
  | None => do! gpio_unlock in ret (- ENOMEM, req)
  | Some i =>
      let! e := get_event i in
      let path := dev_path (ge_name e) in
      let! r := call_ext (devfs_register_anon path gpio_event_fs) in
      if r =? 0 then
        do! set_event i (ge_set_req req (ge_set_chip (Some c) e)) in
        let! fd := posix_open path in
        let! res :=
          (if fd <? 0 then
             let! _ := call_ext (devfs_unregister_anon path) in
             do! gpio_line_event_free i in
             gets (fun w => - errno (g_ext w))
           else ret 1) in
        let! e := get_event i in
        do! set_event i (ge_set_req (er_set_fd fd (ge_req e)) e) in
        do! gpio_unlock in
        ret (res, er_set_fd fd req)
      else
        do! gpio_line_event_free i in
        do! gpio_unlock in
        ret (0, req)
  end.

Definition gpio_line_event_create (req : gpioevent_request) (c : Z) : GM (Z * gpioevent_request) :=
  let! ok := event_request_ok req c in
  if negb ok then ret (- EINVAL, req) else event_request_commit req c.

Definition gpio_chip_ioctl (f : filep) (request : Z) (arg : ioctl_arg) : GM (Z * ioctl_arg) :=
  if request =? GPIO_GET_CHIPINFO_IOCTL then
    match arg with
    | AChipInfo info =>
        let! c := chip_of f in
        let! chip := get_chip c in
        let! name := lift (strncpy (ci_name info) (device_name (gc_dev chip)) (GPIO_MAX_NAME_SIZE - 1)) in
        let! label := lift (strncpy (ci_label info) (gc_label chip) (GPIO_MAX_NAME_SIZE - 1)) in
        ret (0, AChipInfo (mk_gpiochip_info name label (gc_pin_count chip)))
    | _ => undefined
    end
  else if request =? GPIO_GET_LINEINFO_IOCTL then
    match arg with
    | ALineInfo info =>
        let! c := chip_of f in
        let! chip := get_chip c in
        let offset := li_line_offset info in
        if gc_pin_count chip <=? offset then ret (- EINVAL, arg)
        else
          let! line_name := lift (arr_get (gc_line_names chip) offset) in
          let! name := lift (match line_name with
            | Some n => strncpy (li_name info) n (GPIO_MAX_NAME_SIZE - 1)
            | None => arr_set (li_name info) 0 0 end) in
          let! consumer := lift (strncpy (li_consumer info) (c_str "zephyr-gpio") (GPIO_MAX_NAME_SIZE - 1)) in
          ret (0, ALineInfo (mk_gpioline_info offset GPIOLINE_FLAG_KERNEL name consumer))
    | _ => undefined
    end
  else if request =? GPIO_GET_LINEHANDLE_IOCTL then
    match arg with
    | ALineRequest req =>
        let! c := chip_of f in
        let! r := gpio_line_handle_create req c in
        ret (fst r, ALineRequest (snd r))
    | _ => undefined
    end
  else if request =? GPIO_GET_LINEEVENT_IOCTL then
    match arg with
    | AEventRequest req =>
        let! c := chip_of f in
        let! r := gpio_line_event_create req c in
        ret (fst r, AEventRequest (snd r))
    | _ => undefined
    end
  else if request =? F_GETFL then ret (O_RDWR, arg)
  else if request =? F_SETFL then ret (0, arg)
  else ret (- ENOTTY, arg).

(** * Start *)

Definition gpio_fs_init : GM Z :=
  let! n := gets (fun w => length (g_devices w)) in
  do! st_for n 0 (fun i _ =>
    let! chip := get_chip i in
    let! _ := call_ext (devfs_register (dev_path (gc_label chip)) gpio_chip_fs) in
    skip) tt in
  do! gpio_line_handle_init in
  do! gpio_line_event_init in
  ret 0.

(** The static data before [gpio_fs_init]. *)
Definition zero_line : gpio_line :=
  mk_gpio_line None (mk_gpiohandle_request (replicate 64 0) 0 (replicate 64 0) (replicate 32 0) 0 0) [].
Definition zero_event (rb : R) (signal : S) : gpio_event R S :=
  mk_gpio_event None (mk_gpioevent_request 0 0 0 (replicate 32 0) 0) 0 signal rb [].
Definition gpio_static (devices : list gpio_chip) (rb : R) (signal : S) (e : E) : W :=
  mk_gworld devices (replicate 64 zero_line) (replicate 64 (zero_event rb signal)) 0 e.

End Fs.
