(* ===== verification/GpioFsInv.v ===== *)
(** The state of gpio_fs.c between two calls: [fs_ok], above all that every
    line whose bit is set in the mask of its chip has exactly one owner, a line
    handle or an event, and no other line has any.  The changes the operations
    make keep it. *)

From stdpp Require Import strings.
From S2P Require Import Prelude ZephyrSvc GpioFsDefs GpioFs.

(** * Masks *)

Definition mask_or (ps : list Z) (m : Z) : Z := fold_left (fun m p => Z.lor m (Z.shiftl 1 p)) ps m.
Definition mask_diff (ps : list Z) (m : Z) : Z := fold_left (fun m p => Z.ldiff m (Z.shiftl 1 p)) ps m.

Definition is_pin (p : Z) : Prop := 0 <= p < 32.

Lemma testbit_bit p q : 0 <= p -> 0 <= q -> Z.testbit (Z.shiftl 1 p) q = bool_decide (q = p).
Proof.
  intros Hp Hq. rewrite Z.shiftl_spec by done. case_bool_decide as E.
  - subst. by rewrite Z.sub_diag.
  - destruct (Z.lt_ge_cases q p); [by apply Z.testbit_neg_r; lia|].
    rewrite Z.bits_above_log2; [done|lia|]. change (Z.log2 1) with 0. lia.
Qed.

Lemma bit_u32 p : is_pin p -> is_u32 (Z.shiftl 1 p).
Proof.
  intros [H0 H1]. unfold is_u32. rewrite Z.shiftl_mul_pow2, Z.mul_1_l by done.
  split; [apply Z.pow_nonneg; lia|]. apply Z.pow_lt_mono_r; lia.
Qed.

Lemma testbit_mask_or ps m q :
  Forall is_pin ps -> 0 <= q -> Z.testbit (mask_or ps m) q = Z.testbit m q || bool_decide (q ∈ ps).
Proof.
  intros Hps Hq. revert m. induction Hps as [|p ps [Hp _] Hps IH]; intros m; cbn [mask_or fold_left].
  - rewrite (bool_decide_eq_false_2 (q ∈ [])) by apply not_elem_of_nil. by rewrite orb_false_r.
  - fold (mask_or ps (Z.lor m (Z.shiftl 1 p))). rewrite IH, Z.lor_spec, testbit_bit by done.
    rewrite <- orb_assoc. f_equal. rewrite <- bool_decide_or. apply bool_decide_ext. by rewrite elem_of_cons.
Qed.

Lemma testbit_mask_diff ps m q :
  Forall is_pin ps -> 0 <= q ->
  Z.testbit (mask_diff ps m) q = Z.testbit m q && negb (bool_decide (q ∈ ps)).
Proof.
  intros Hps Hq. revert m. induction Hps as [|p ps [Hp _] Hps IH]; intros m; cbn [mask_diff fold_left].
  - rewrite (bool_decide_eq_false_2 (q ∈ [])) by apply not_elem_of_nil. by rewrite andb_true_r.
  - fold (mask_diff ps (Z.ldiff m (Z.shiftl 1 p))). rewrite IH, Z.ldiff_spec, testbit_bit by done.
    rewrite <- andb_assoc, <- negb_orb. do 2 f_equal. rewrite <- bool_decide_or.
    apply bool_decide_ext. by rewrite elem_of_cons.
Qed.

Lemma mask_or_u32 ps m : Forall is_pin ps -> is_u32 m -> is_u32 (mask_or ps m).
Proof.
  intros Hps. revert m. induction Hps as [|p ps Hp Hps IH]; intros m Hm; [done|].
  apply IH. by apply (lor_range 32), bit_u32.
Qed.

Lemma ldiff_range w a b : 0 <= w -> 0 <= a < 2 ^ w -> 0 <= Z.ldiff a b < 2 ^ w.
Proof.
  intros Hw Ha. apply bits_range; [done|apply Z.ldiff_nonneg; lia|].
  intros i Hi. by rewrite Z.ldiff_spec, (range_bits w a).
Qed.

Lemma mask_diff_u32 ps m : is_u32 m -> is_u32 (mask_diff ps m).
Proof.
  revert m. induction ps as [|p ps IH]; intros m Hm; [done|]. by apply IH, (ldiff_range 32).
Qed.

Lemma has_bit p m : is_pin p -> has (Z.shiftl 1 p) m = Z.testbit m p.
Proof.
  intros [Hp _]. unfold has. destruct (Z.testbit m p) eqn:Et.
  - apply negb_true_iff, Z.eqb_neq. intros E.
    assert (Z.testbit (Z.land (Z.shiftl 1 p) m) p = false) as H by (by rewrite E, Z.bits_0).
    rewrite Z.land_spec, testbit_bit, Et, bool_decide_eq_true_2 in H by done. done.
  - apply negb_false_iff, Z.eqb_eq, Z.bits_inj'. intros q Hq. rewrite Z.land_spec, testbit_bit, Z.bits_0 by done.
    case_bool_decide; [by subst|done].
Qed.

Section Inv.
Context {E R S : Type} `{!GpioSvc E, !RingBuf R, !RingLaws R, !PollSignal S}.
Notation W := (gworld E R S).

(** * Who owns a line *)

Definition req_pins (req : gpiohandle_request) : list Z :=
  take (Z.to_nat (hr_lines req)) (hr_lineoffsets req).

Definition line_owns (c p : Z) (l : gpio_line) : Prop := gl_chip l = Some c /\ p ∈ req_pins (gl_req l).
Definition event_owns (c p : Z) (e : gpio_event R S) : Prop :=
  ge_chip e = Some c /\ er_lineoffset (ge_req e) = p.
#[export] Instance line_owns_dec c p l : Decision (line_owns c p l).
Proof. unfold line_owns. apply _. Defined.
#[export] Instance event_owns_dec c p e : Decision (event_owns c p e).
Proof. unfold event_owns. apply _. Defined.

Definition owners (w : W) (c p : Z) : nat :=
  (count (line_owns c p) (g_lines w) + count (event_owns c p) (g_events w))%nat.
#[global] Arguments owners : simpl never.

(** * The invariant *)

Definition line_name (i : Z) : list Z := snprintf 8 (c_str "line" ++ fmt_d i).
Definition event_name (i : Z) : list Z := snprintf 8 (c_str "event" ++ fmt_d i).

Definition chip_ok (chip : gpio_chip) : Prop :=
  0 <= gc_pin_count chip <= 32 /\ is_u32 (gc_pin_mask chip) /\
  gc_pin_count chip <= Z.of_nat (length (gc_line_names chip)).

(** A request in the table of line handles. *)
Definition line_req_ok (req : gpiohandle_request) : Prop :=
  0 <= hr_lines req <= 64 /\ length (hr_lineoffsets req) = 64%nat /\
  length (hr_default_values req) = 64%nat /\ Forall is_pin (req_pins req).

(** The buffer of an event holds whole records. *)
Definition records_ok (rb : R) : Prop :=
  rb_size rb = GPIO_LINE_EVENT_DATA_MAX * sizeof_gpioevent_data /\
  (exists n, length (rb_bytes rb) = 16 * n)%nat.

Definition is_chip (w : W) (c : Z) : Prop := 0 <= c < Z.of_nat (length (g_devices w)).

Record fs_ok (w : W) : Prop := {
  ok_lock : g_lock w = 0;
  ok_lines : length (g_lines w) = 64%nat;
  ok_events : length (g_events w) = 64%nat;
  ok_line_name i l : g_lines w !! i = Some l -> gl_name l = line_name (Z.of_nat i);
  ok_event_name i e : g_events w !! i = Some e -> ge_name e = event_name (Z.of_nat i);
  ok_chip : Forall chip_ok (g_devices w);
  ok_line i l c : g_lines w !! i = Some l -> gl_chip l = Some c -> is_chip w c /\ line_req_ok (gl_req l);
  ok_event i e c : g_events w !! i = Some e -> ge_chip e = Some c ->
    is_chip w c /\ is_pin (er_lineoffset (ge_req e)) /\ records_ok (ge_rb e);
  ok_mask c chip p : g_devices w !! c = Some chip -> is_pin p ->
    owners w (Z.of_nat c) p = if Z.testbit (gc_pin_mask chip) p then 1%nat else 0%nat;
}.

(** * Changes of the state *)

Definition put_line (i : nat) (l : gpio_line) (w : W) : W := g_set_lines (<[i := l]> (g_lines w)) w.
Definition put_event (i : nat) (e : gpio_event R S) (w : W) : W := g_set_events (<[i := e]> (g_events w)) w.
Definition with_mask (c : Z) (f : Z -> Z) (w : W) : W :=
  g_set_devices (alter (fun ch => gc_set_pin_mask (f (gc_pin_mask ch)) ch) (Z.to_nat c) (g_devices w)) w.

Lemma fs_ok_ext w e : fs_ok w -> fs_ok (g_set_ext e w).
Proof. intros []. by split. Qed.

(** Updates of chips that keep what the invariant says of them. *)
Lemma fs_ok_devices w (f : gpio_chip -> gpio_chip) c :
  fs_ok w -> (forall ch, chip_ok ch -> chip_ok (f ch) /\ gc_pin_mask (f ch) = gc_pin_mask ch) ->
  fs_ok (g_set_devices (alter f c (g_devices w)) w).
Proof.
  intros Hw Hf. destruct Hw. split; cbn; try done.
  - apply Forall_alter; [done|]. intros ch _ Hch. by apply Hf.
  - intros i l c' Hi Hc. unfold is_chip. cbn. rewrite length_alter. eauto.
  - intros i e c' Hi Hc. unfold is_chip. cbn. rewrite length_alter. eauto.
  - intros c' ch p Hc Hp. destruct (decide (c' = c)) as [->|Hne].
    + rewrite list_lookup_alter_eq in Hc. apply fmap_Some in Hc as (ch0 & Hc0 & ->).
      rewrite (proj2 (Hf ch0 (Forall_lookup_1 _ _ _ _ ok_chip0 Hc0))). by apply ok_mask0.
    + rewrite list_lookup_alter_ne in Hc by done. by apply ok_mask0.
Qed.

(** What a handle owns is added to and removed from the counts. *)
Lemma owners_put_line w i l l' c p :
  g_lines w !! i = Some l ->
  (owners (put_line i l' w) c p + (if decide (line_owns c p l) then 1 else 0) =
   owners w c p + (if decide (line_owns c p l') then 1 else 0))%nat.
Proof. intros Hi. unfold owners, put_line, g_set_lines. cbn [g_lines g_events]. pose proof (count_insert (line_owns c p) _ i l l' Hi). lia. Qed.

Lemma owners_put_event w i e e' c p :
  g_events w !! i = Some e ->
  (owners (put_event i e' w) c p + (if decide (event_owns c p e) then 1 else 0) =
   owners w c p + (if decide (event_owns c p e') then 1 else 0))%nat.
Proof. intros Hi. unfold owners, put_event, g_set_events. cbn [g_lines g_events]. pose proof (count_insert (event_owns c p) _ i e e' Hi). lia. Qed.

Lemma with_mask_lookup w c f c' chip :
  0 <= c -> g_devices (with_mask c f w) !! c' = Some chip ->
  exists ch, g_devices w !! c' = Some ch /\
    gc_pin_mask chip = if decide (Z.of_nat c' = c) then f (gc_pin_mask ch) else gc_pin_mask ch.
Proof.
  intros Hc Hl. cbn in Hl. destruct (decide (Z.of_nat c' = c)) as [<-|Hne].
  - rewrite Nat2Z.id, list_lookup_alter_eq in Hl. apply fmap_Some in Hl as (ch & Hch & ->). by exists ch.
  - rewrite list_lookup_alter_ne in Hl by lia. by exists chip.
Qed.

Lemma chips_with_mask w c f :
  Forall chip_ok (g_devices w) -> (forall m, is_u32 m -> is_u32 (f m)) ->
  Forall chip_ok (g_devices (with_mask c f w)).
Proof.
  intros Hw Hf. apply Forall_alter; [done|]. intros ch _ (H1 & H2 & H3). split; [done|]. split; [by apply Hf|done].
Qed.

Lemma is_chip_with_mask w c f c' : is_chip w c' -> is_chip (with_mask c f w) c'.
Proof. unfold is_chip. cbn. by rewrite length_alter. Qed.

(** A line handle of the table gets another owner state: it keeps its name,
    what it owns then is well formed, and the mask of chip [c] follows. *)
Lemma fs_ok_put_line w i l l' c f :
  fs_ok w -> g_lines w !! i = Some l -> gl_name l' = gl_name l ->
  (forall c', gl_chip l' = Some c' -> is_chip w c' /\ line_req_ok (gl_req l')) ->
  0 <= c -> (forall m, is_u32 m -> is_u32 (f m)) ->
  (forall c' ch p, g_devices w !! c' = Some ch -> is_pin p ->
    (if Z.testbit (if decide (Z.of_nat c' = c) then f (gc_pin_mask ch) else gc_pin_mask ch) p then 1 else 0) +
      (if decide (line_owns (Z.of_nat c') p l) then 1 else 0) =
    (if Z.testbit (gc_pin_mask ch) p then 1 else 0) +
      (if decide (line_owns (Z.of_nat c') p l') then 1 else 0))%nat ->
  fs_ok (put_line i l' (with_mask c f w)).
Proof.
  intros Hw Hi Hn Hl' Hc Hf Hm. pose proof (lookup_lt_Some _ _ _ Hi). pose proof Hw as []. split; cbn; try done.
  - by rewrite length_insert.
  - intros j lj [(<- & <- & _)|[_ Hj]]%list_lookup_insert_Some; [rewrite Hn|]; eauto.
  - by apply chips_with_mask.
  - intros j lj c' [(<- & <- & _)|[_ Hj]]%list_lookup_insert_Some Hc'.
    + destruct (Hl' _ Hc'). split; [by apply is_chip_with_mask|done].
    + destruct (ok_line0 _ _ _ Hj Hc'). split; [by apply is_chip_with_mask|done].
  - intros j e c' Hj Hc'. destruct (ok_event0 _ _ _ Hj Hc'). split; [by apply is_chip_with_mask|done].
  - intros c' chip p Hch Hp. apply with_mask_lookup in Hch as (ch & Hch & ->); [|done].
    pose proof (owners_put_line w i l l' (Z.of_nat c') p Hi) as Ho. specialize (Hm c' ch p Hch Hp).
    rewrite (ok_mask0 _ _ _ Hch Hp) in Ho.
    change (owners (put_line i l' (with_mask c f w))) with (owners (put_line i l' w)). lia.
Qed.

Lemma fs_ok_put_event w i e e' c f :
  fs_ok w -> g_events w !! i = Some e -> ge_name e' = ge_name e ->
  (forall c', ge_chip e' = Some c' ->
    is_chip w c' /\ is_pin (er_lineoffset (ge_req e')) /\ records_ok (ge_rb e')) ->
  0 <= c -> (forall m, is_u32 m -> is_u32 (f m)) ->
  (forall c' ch p, g_devices w !! c' = Some ch -> is_pin p ->
    (if Z.testbit (if decide (Z.of_nat c' = c) then f (gc_pin_mask ch) else gc_pin_mask ch) p then 1 else 0) +
      (if decide (event_owns (Z.of_nat c') p e) then 1 else 0) =
    (if Z.testbit (gc_pin_mask ch) p then 1 else 0) +
      (if decide (event_owns (Z.of_nat c') p e') then 1 else 0))%nat ->
  fs_ok (put_event i e' (with_mask c f w)).
Proof.
  intros Hw Hi Hn He' Hc Hf Hm. pose proof (lookup_lt_Some _ _ _ Hi). pose proof Hw as []. split; cbn; try done.
  - by rewrite length_insert.
  - intros j ej [(<- & <- & _)|[_ Hj]]%list_lookup_insert_Some; [rewrite Hn|]; eauto.
  - by apply chips_with_mask.
  - intros j lj c' Hj Hc'. destruct (ok_line0 _ _ _ Hj Hc'). split; [by apply is_chip_with_mask|done].
  - intros j ej c' [(<- & <- & _)|[_ Hj]]%list_lookup_insert_Some Hc'.
    + destruct (He' _ Hc'). split; [by apply is_chip_with_mask|done].
    + destruct (ok_event0 _ _ _ Hj Hc'). split; [by apply is_chip_with_mask|done].
  - intros c' chip p Hch Hp. apply with_mask_lookup in Hch as (ch & Hch & ->); [|done].
    pose proof (owners_put_event w i e e' (Z.of_nat c') p Hi) as Ho. specialize (Hm c' ch p Hch Hp).
    rewrite (ok_mask0 _ _ _ Hch Hp) in Ho.
    change (owners (put_event i e' (with_mask c f w))) with (owners (put_event i e' w)). lia.
Qed.

End Inv.
