(* ===== verification/GpioFsRun.v ===== *)
(** What the statements of gpio_fs.c do, as rules of the weakest precondition:
    accesses to the tables, the loops over the lines of a request, the allocation of
    handles and events, and [open] on a path just registered. *)

From stdpp Require Import strings.
From S2P Require Import Prelude ZephyrSvc GpioFsDefs GpioFs GpioFsInv.

Section Run.
Context {E R S : Type} `{!GpioSvc E, !RingBuf R, !RingLaws R, !PollSignal S}.
Notation W := (gworld E R S).

(** * Statements *)

Lemma wp_call_ext {A} (f : E -> A * E) Q (w : W) :
  Q (fst (f (g_ext w))) (g_set_ext (snd (f (g_ext w))) w) -> wp (call_ext f) Q w.
Proof. unfold wp, call_ext. by destruct (f (g_ext w)). Qed.

Lemma wp_get_chip c ch Q (w : W) :
  0 <= c -> g_devices w !! Z.to_nat c = Some ch -> Q ch w -> wp (get_chip c) Q w.
Proof. intros Hc Hch HQ. unfold wp, get_chip. by rewrite (arr_get_Ret _ _ ch). Qed.
Lemma wp_get_line i l Q (w : W) : g_lines w !! i = Some l -> Q l w -> wp (get_line (Z.of_nat i)) Q w.
Proof. intros Hl HQ. unfold wp, get_line. rewrite (arr_get_Ret _ _ l); [done|lia|by rewrite Nat2Z.id]. Qed.
Lemma wp_get_event i e Q (w : W) : g_events w !! i = Some e -> Q e w -> wp (get_event (Z.of_nat i)) Q w.
Proof. intros Hl HQ. unfold wp, get_event. rewrite (arr_get_Ret _ _ e); [done|lia|by rewrite Nat2Z.id]. Qed.

Lemma wp_set_chip c ch Q (w : W) :
  is_chip w c -> Q tt (g_set_devices (<[Z.to_nat c := ch]> (g_devices w)) w) -> wp (set_chip c ch) Q w.
Proof. intros Hc HQ. unfold wp, set_chip. by rewrite arr_set_ok. Qed.
Lemma wp_set_line i l Q (w : W) :
  (i < length (g_lines w))%nat -> Q tt (put_line i l w) -> wp (set_line (Z.of_nat i) l) Q w.
Proof. intros Hi HQ. unfold wp, set_line. rewrite arr_set_ok by lia. by rewrite Nat2Z.id. Qed.
Lemma wp_set_event i e Q (w : W) :
  (i < length (g_events w))%nat -> Q tt (put_event i e w) -> wp (set_event (Z.of_nat i) e) Q w.
Proof. intros Hi HQ. unfold wp, set_event. rewrite arr_set_ok by lia. by rewrite Nat2Z.id. Qed.

Lemma wp_BIT32 p Q (w : W) : is_pin p -> Q (Z.shiftl 1 p) w -> wp (BIT32 p) Q w.
Proof.
  intros [H0 H1] HQ. unfold BIT32.
  by rewrite (proj2 (Z.leb_le 0 p)), (proj2 (Z.ltb_lt p 32)).
Qed.

Lemma wp_arr_get {A} (l : list A) (i : Z) x Q (w : W) :
  0 <= i -> l !! Z.to_nat i = Some x -> Q x w -> wp (lift (arr_get l i)) Q w.
Proof. intros Hi Hx HQ. apply wp_lift. by rewrite (arr_get_Ret l i x). Qed.

Lemma wp_gpio_lock Q (w : W) : Q tt (g_set_lock (g_lock w + 1) w) -> wp gpio_lock Q w.
Proof. done. Qed.
Lemma wp_gpio_unlock Q (w : W) : 0 < g_lock w -> Q tt (g_set_lock (g_lock w - 1) w) -> wp gpio_unlock Q w.
Proof. intros Hl HQ. unfold gpio_unlock. apply wp_modify. by rewrite (proj2 (Z.ltb_lt _ _)). Qed.

Lemma get_chip_run c ch (w : W) :
  0 <= c -> g_devices w !! Z.to_nat c = Some ch -> get_chip c w = Ret (ch, w).
Proof. intros Hc Hch. unfold get_chip. by rewrite (arr_get_Ret _ _ ch). Qed.
Lemma get_line_run i l (w : W) : g_lines w !! i = Some l -> get_line (Z.of_nat i) w = Ret (l, w).
Proof. intros Hl. unfold get_line. rewrite (arr_get_Ret _ _ l); [done|lia|by rewrite Nat2Z.id]. Qed.
Lemma get_event_run i e (w : W) : g_events w !! i = Some e -> get_event (Z.of_nat i) w = Ret (e, w).
Proof. intros Hl. unfold get_event. rewrite (arr_get_Ret _ _ e); [done|lia|by rewrite Nat2Z.id]. Qed.
Lemma set_line_run i l (w : W) :
  (i < length (g_lines w))%nat -> set_line (Z.of_nat i) l w = Ret (tt, put_line i l w).
Proof. intros Hi. unfold set_line. rewrite arr_set_ok by lia. by rewrite Nat2Z.id. Qed.
Lemma set_event_run i e (w : W) :
  (i < length (g_events w))%nat -> set_event (Z.of_nat i) e w = Ret (tt, put_event i e w).
Proof. intros Hi. unfold set_event. rewrite arr_set_ok by lia. by rewrite Nat2Z.id. Qed.
Lemma ext_run {A} (f : E -> A * E) (w : W) a e : f (g_ext w) = (a, e) -> call_ext f w = Ret (a, g_set_ext e w).
Proof. unfold call_ext. by intros ->. Qed.
Lemma arr_get_run {A} (l : list A) k x (w : W) : l !! k = Some x -> lift (arr_get l (Z.of_nat k)) w = Ret (x, w).
Proof. intros Hx. unfold lift. rewrite (arr_get_Ret _ _ x); [done|lia|by rewrite Nat2Z.id]. Qed.
Lemma BIT32_run p (w : W) : is_pin p -> BIT32 p w = Ret (Z.shiftl 1 p, w).
Proof.
  intros [H0 H1]. unfold BIT32. by rewrite (proj2 (Z.leb_le 0 p)), (proj2 (Z.ltb_lt p 32)).
Qed.
Lemma unlock_run (w : W) : 0 < g_lock w -> gpio_unlock w = Ret (tt, g_set_lock (g_lock w - 1) w).
Proof. intros Hl. unfold gpio_unlock, modify. by rewrite (proj2 (Z.ltb_lt _ _)). Qed.

Lemma unlock_last_run (w : W) : g_lock w = 1 -> gpio_unlock w = Ret (tt, g_set_lock 0 w).
Proof. intros Hl. rewrite unlock_run by lia. by rewrite Hl. Qed.
Lemma lock_first_run (w : W) : g_lock w = 0 -> gpio_lock w = Ret (tt, g_set_lock 1 w).
Proof. intros Hl. unfold gpio_lock, modify. by rewrite Hl. Qed.

(** Taking the lock and giving it back. *)
Lemma set_lock_back (w : W) n : g_set_lock (g_lock w + n - n) w = w.
Proof. rewrite Z.add_simpl_r. by destruct w. Qed.

(** * Chips in a loop *)

Lemma with_mask_id c (w : W) : with_mask c (fun m => m) w = w.
Proof.
  destruct w as [d ? ? ? ?]. unfold with_mask, g_set_devices. cbn. f_equal.
  apply list_alter_id. by intros [].
Qed.

Lemma with_mask_comp c f g (w : W) : with_mask c f (with_mask c g w) = with_mask c (fun m => f (g m)) w.
Proof.
  unfold with_mask, g_set_devices. cbn. f_equal. by rewrite list_alter_alter_eq.
Qed.

Lemma lookup_with_mask c f (w : W) ch :
  g_devices w !! Z.to_nat c = Some ch ->
  g_devices (with_mask c f w) !! Z.to_nat c = Some (gc_set_pin_mask (f (gc_pin_mask ch)) ch).
Proof. intros Hc. cbn. by rewrite list_lookup_alter_eq, Hc. Qed.

Lemma chip_at (w : W) c : is_chip w c -> exists ch, g_devices w !! Z.to_nat c = Some ch.
Proof. intros [H0 H1]. apply lookup_lt_is_Some_2. lia. Qed.

(** [chip->pin_mask |= BIT(pin)] *)
Lemma mask_add_run c p (w : W) :
  is_chip w c -> is_pin p -> mask_add c p w = Ret (tt, with_mask c (fun m => Z.lor m (Z.shiftl 1 p)) w).
Proof.
  intros Hc Hp. destruct (chip_at w c Hc) as [ch Hch]. destruct Hc as [H0 H1]. unfold mask_add.
  run_by (by apply BIT32_run). unfold bind, get_chip, set_chip. rewrite (arr_get_Ret _ _ ch) by done. cbn [rbind].
  rewrite arr_set_ok by done. cbn [rbind]. unfold with_mask. by rewrite (alter_as_insert _ _ _ ch).
Qed.

Lemma mask_remove_run c p (w : W) :
  is_chip w c -> is_pin p -> mask_remove c p w = Ret (tt, with_mask c (fun m => Z.ldiff m (Z.shiftl 1 p)) w).
Proof.
  intros Hc Hp. destruct (chip_at w c Hc) as [ch Hch]. destruct Hc as [H0 H1]. unfold mask_remove.
  run_by (by apply BIT32_run). unfold bind, get_chip, set_chip. rewrite (arr_get_Ret _ _ ch) by done. cbn [rbind].
  rewrite arr_set_ok by done. cbn [rbind]. unfold with_mask. by rewrite (alter_as_insert _ _ _ ch).
Qed.

(** One pin configured, and set if it is an output. *)
Definition conf_pin (dev flags : Z) (e : E) (pv : Z * Z) : E :=
  let e := snd (gpio_pin_configure dev (u8 (fst pv)) flags e) in
  if has flags GPIO_OUTPUT then snd (gpio_pin_set dev (u8 (fst pv)) (snd pv) e) else e.

Lemma configure_pin_run c ch p flags values k v (w : W) :
  0 <= c -> g_devices w !! Z.to_nat c = Some ch -> values !! k = Some v ->
  configure_pin c p flags values (Z.of_nat k) w = Ret (tt, g_set_ext (conf_pin (gc_dev ch) flags (g_ext w) (p, v)) w).
Proof.
  intros Hc Hch Hv. unfold configure_pin.
  run_by (by apply get_chip_run).
  unfold bind at 1, call_ext at 1, conf_pin. cbn [fst snd].
  destruct (gpio_pin_configure _ _ _ _) as [r e]. cbn [rbind snd]. destruct (has flags GPIO_OUTPUT); [|done].
  run_by (by apply arr_get_run).
  unfold bind, call_ext. cbn [g_ext g_set_ext].
  by destruct (gpio_pin_set _ _ _ _).
Qed.

(** The pins and values of the first [hr_lines] entries. *)
Lemma zip_req req (values : list Z) :
  line_req_ok req -> length values = 64%nat ->
  length (zip (req_pins req) values) = Z.to_nat (hr_lines req) /\
  (zip (req_pins req) values).*1 = req_pins req /\
  forall k p v, zip (req_pins req) values !! k = Some (p, v) ->
    hr_lineoffsets req !! k = Some p /\ values !! k = Some v /\ is_pin p.
Proof.
  intros (Hl & Ho & Hd & Hp) Hv.
  assert (length (req_pins req) = Z.to_nat (hr_lines req)) as Hlen.
  { unfold req_pins. rewrite length_take. lia. }
  split; [rewrite length_zip_with; lia|]. split; [apply fst_zip; lia|].
  intros k p v (p' & v' & [= <- <-] & Hkp & Hkv)%lookup_zip_with_Some. split.
  - unfold req_pins in Hkp. by apply lookup_take_Some in Hkp as [? _].
  - split; [done|]. by eapply Forall_lookup_1.
Qed.

Lemma fold_claim dev flags c pvs (w : W) :
  fold_left (fun s pv => g_set_ext (conf_pin dev flags (g_ext s) pv)
    (with_mask c (fun m => Z.lor m (Z.shiftl 1 (fst pv))) s)) pvs w =
  with_mask c (mask_or pvs.*1) (g_set_ext (fold_left (conf_pin dev flags) pvs (g_ext w)) w).
Proof.
  revert w. induction pvs as [|[p v] pvs IH]; intros w; cbn [fold_left fmap list_fmap].
  - change (mask_or []) with (fun m : Z => m). rewrite with_mask_id. by destruct w.
  - rewrite IH. cbn [fst g_ext g_set_ext].
    set (e := fold_left _ _ _). change (g_set_ext e (g_set_ext ?x (with_mask c ?f w)))
      with (with_mask c f (g_set_ext e w)). by rewrite with_mask_comp.
Qed.

(** The loop of [gpio_line_open]. *)
Lemma claim_loop_run c ch req flags (w : W) :
  is_chip w c -> g_devices w !! Z.to_nat c = Some ch -> line_req_ok req ->
  st_for (Z.to_nat (hr_lines req)) 0 (fun k _ =>
    let! pin := lift (arr_get (hr_lineoffsets req) k) in
    do! mask_add c pin in
    configure_pin c pin flags (hr_default_values req) k) tt w =
  Ret (tt, with_mask c (mask_or (req_pins req)) (g_set_ext
    (fold_left (conf_pin (gc_dev ch) flags) (zip (req_pins req) (hr_default_values req)) (g_ext w)) w)).
Proof.
  intros Hc Hch Hreq. pose proof Hreq as (_ & _ & Hdv & _).
  destruct (zip_req req (hr_default_values req) Hreq Hdv) as (Hlen & Hfst & Hlk).
  rewrite <- Hlen. set (pvs := zip _ _) in *. rewrite <- Hfst, <- fold_claim.
  eapply (st_for_fold (fun s => is_chip s c /\ exists ch', g_devices s !! Z.to_nat c = Some ch' /\ gc_dev ch' = gc_dev ch));
    [eauto|]. intros k [p v] s Hk (Hcs & ch' & Hch' & Hdev). apply Hlk in Hk as (Hp & Hv & Hpin).
  pose proof Hcs as [H0 _]. split.
  - run_by (by apply arr_get_run).
    run_by (by apply mask_add_run). rewrite (configure_pin_run c _ p flags _ k v) by
      (done || by apply lookup_with_mask). cbn. by rewrite Hdev.
  - split; [by apply (is_chip_with_mask s)|]. eexists. split; [by apply lookup_with_mask|done].
Qed.

(** One line taken back, and the loop of [gpio_line_close]. *)
Definition free_pin (dev : Z) (e : E) (p : Z) : E := snd (gpio_pin_configure dev (u8 p) GPIO_DISCONNECTED e).

Lemma fold_release dev c ps (w : W) :
  fold_left (fun s p => g_set_ext (free_pin dev (g_ext s) p)
    (with_mask c (fun m => Z.ldiff m (Z.shiftl 1 p)) s)) ps w =
  with_mask c (mask_diff ps) (g_set_ext (fold_left (free_pin dev) ps (g_ext w)) w).
Proof.
  revert w. induction ps as [|p ps IH]; intros w; cbn [fold_left].
  - change (mask_diff []) with (fun m : Z => m). rewrite with_mask_id. by destruct w.
  - rewrite IH. cbn [g_ext g_set_ext]. set (e := fold_left _ _ _).
    change (g_set_ext e (g_set_ext ?x (with_mask c ?f w))) with (with_mask c f (g_set_ext e w)).
    by rewrite with_mask_comp.
Qed.

Lemma release_loop_run c ch req (w : W) :
  is_chip w c -> g_devices w !! Z.to_nat c = Some ch -> line_req_ok req ->
  st_for (Z.to_nat (hr_lines req)) 0 (fun k _ =>
    let! c := deref_chip (Some c) in
    let! pin := lift (arr_get (hr_lineoffsets req) k) in
    do! mask_remove c pin in
    let! chip := get_chip c in
    let! _ := call_ext (gpio_pin_configure (gc_dev chip) (u8 pin) GPIO_DISCONNECTED) in
    skip) tt w =
  Ret (tt, with_mask c (mask_diff (req_pins req)) (g_set_ext
    (fold_left (free_pin (gc_dev ch)) (req_pins req) (g_ext w)) w)).
Proof.
  intros Hc Hch (Hl & Ho & _ & Hp). rewrite <- fold_release.
  replace (Z.to_nat (hr_lines req)) with (length (req_pins req)) by (unfold req_pins; rewrite length_take; lia).
  eapply (st_for_fold (fun s => is_chip s c /\ exists ch', g_devices s !! Z.to_nat c = Some ch' /\ gc_dev ch' = gc_dev ch));
    [eauto|]. intros k p s Hk (Hcs & ch' & Hch' & Hdev). pose proof Hcs as [H0 _].
  assert (is_pin p) as Hpin by (by eapply Forall_lookup_1).
  unfold req_pins in Hk. apply lookup_take_Some in Hk as [Hk _]. split.
  - cbn [deref_chip]. run_by reflexivity.
    run_by (by apply arr_get_run).
    run_by (by apply mask_remove_run).
    run_by (apply get_chip_run; [done|by apply lookup_with_mask]).
    unfold bind, call_ext, free_pin. cbn [g_ext g_set_ext with_mask g_set_devices gc_dev gc_set_pin_mask].
    rewrite Hdev. by destruct (gpio_pin_configure _ _ _ _).
  - split; [by apply (is_chip_with_mask s)|]. eexists. split; [by apply lookup_with_mask|done].
Qed.

End Run.

(** Equality of states after the lock is given back. *)
Ltac lock_eq w Hw := let Hl := fresh in pose proof (ok_lock w Hw) as Hl; destruct w; cbn in Hl; subst; reflexivity.
Ltac lock_eq2 w Hw :=
  let Hl := fresh in pose proof (ok_lock w Hw) as Hl; unfold put_line, put_event, with_mask;
  destruct w; cbn in Hl |- *; subst; unfold g_set_lock, g_set_lines, g_set_events, g_set_devices; cbn;
  rewrite ?list_insert_insert_eq; reflexivity.
