(* ===== verification/GpioFsSpec.v ===== *)
(** What the calls of gpio_fs.c do: requests for line handles and events against
    reference functions without loops and locks, and the invariant [fs_ok] over
    every sequence of calls. *)

From stdpp Require Import strings.
From S2P Require Import Prelude ZephyrSvc GpioFsDefs GpioFs GpioFsInv GpioFsRun.

(** * Names and paths *)

Lemma names_distinct (f : Z -> list Z) :
  NoDup (f <$> seqZ 0 64) -> forall i j, (i < 64)%nat -> (j < 64)%nat ->
  f (Z.of_nat i) = f (Z.of_nat j) -> i = j.
Proof.
  intros Hnd i j Hi Hj E.
  assert (forall k, (k < 64)%nat -> (f <$> seqZ 0 64) !! k = Some (f (Z.of_nat k))) as Hl.
  { intros k Hk. rewrite list_lookup_fmap, lookup_seqZ_lt by lia. cbn. by rewrite Z.add_0_l. }
  eapply NoDup_lookup; [exact Hnd|by apply Hl|]. by rewrite Hl, E.
Qed.

Lemma line_name_inj i j : (i < 64)%nat -> (j < 64)%nat ->
  line_name (Z.of_nat i) = line_name (Z.of_nat j) -> i = j.
Proof. apply names_distinct. apply (bool_decide_unpack _). by vm_compute. Qed.
Lemma event_name_inj i j : (i < 64)%nat -> (j < 64)%nat ->
  event_name (Z.of_nat i) = event_name (Z.of_nat j) -> i = j.
Proof. apply names_distinct. apply (bool_decide_unpack _). by vm_compute. Qed.

(** The names are short enough not to be cut off. *)
Lemma dev_path_line i : dev_path (line_name i) = c_str "/dev/" ++ line_name i.
Proof.
  unfold dev_path, snprintf. apply take_ge. rewrite length_app. unfold line_name, snprintf.
  rewrite length_take. change (length (c_str "/dev/")) with 5%nat. lia.
Qed.
Lemma dev_path_event i : dev_path (event_name i) = c_str "/dev/" ++ event_name i.
Proof.
  unfold dev_path, snprintf. apply take_ge. rewrite length_app. unfold event_name, snprintf.
  rewrite length_take. change (length (c_str "/dev/")) with 5%nat. lia.
Qed.

Section Spec.
Context {E R S : Type} `{!GpioSvc E, !OpenLaws E, !RingBuf R, !RingLaws R, !PollSignal S}.
Notation W := (gworld E R S).

(** * Line handles *)

(** The external state after a handle of [req] on the device is opened. *)
Definition claim_ext (dev : Z) (req : gpiohandle_request) (e : E) : E :=
  fold_left (conf_pin dev (req_flag_2_gpio_flag (hr_flags req)))
    (zip (req_pins req) (hr_default_values req)) e.

Definition claimed (c : Z) (ch : gpio_chip) (req : gpiohandle_request) (w : W) : W :=
  with_mask c (mask_or (req_pins req)) (g_set_ext (claim_ext (gc_dev ch) req (g_ext w)) w).

Lemma line_open_run i l c ch (w : W) :
  (forall j l', g_lines w !! j = Some l' -> gl_name l' = gl_name l -> j = i) ->
  g_lines w !! i = Some l -> gl_chip l = Some c -> is_chip w c ->
  g_devices w !! Z.to_nat c = Some ch -> line_req_ok (gl_req l) -> 0 <= g_lock w ->
  gpio_line_open (gl_name l) w = Ret ((0, LineFile (Z.of_nat i)), claimed c ch (gl_req l) w).
Proof.
  intros Hu Hi Hc Hcw Hch Hreq Hlock. unfold gpio_line_open.
  assert (EF : gpio_line_handle_find (gl_name l) w = Ret (Some (Z.of_nat i), w)).
  { unfold gpio_line_handle_find, gets. rewrite (first_index_unique _ _ i l Hi); [done| |].
    - by apply bool_decide_eq_true.
    - intros j l' Hj E'%bool_decide_eq_true. by eapply Hu. }
  run_by (exact EF). cbn [fst]. run_by (by apply get_line_run).
  rewrite Hc. run_by reflexivity.
  run_by (by apply (claim_loop_run c ch)).
  run_by (apply unlock_run; cbn; lia).
  unfold ret, claimed. do 2 f_equal. unfold with_mask, g_set_ext, g_set_devices, g_set_lock. cbn.
  f_equal. lia.
Qed.

(** [line_request_commit] without loops and lock: the first free handle is
    registered and opened; whatever fails leaves the handle free. *)
Definition commit_ref (req : gpiohandle_request) (c : Z) (w : W) : (Z * gpiohandle_request) * W :=
  match first_index (fun l => gl_chip l = None) (g_lines w), g_devices w !! Z.to_nat c with
  | Some i, Some ch =>
      match g_lines w !! Z.to_nat i with
      | Some l =>
          let path := dev_path (gl_name l) in
          let '(r, e) := devfs_register_anon path gpio_line_fs (g_ext w) in
          if negb (r =? 0) then ((0, req), g_set_ext e w)
          else
            let '(plan, e) := open_begin path e in
            match plan with
            | None =>
                let '(fd, e) := open_end None e in
                let e := snd (devfs_unregister_anon path e) in
                let req := hr_set_fd fd req in
                ((- errno e, req), put_line (Z.to_nat i) (mk_gpio_line None req (gl_name l)) (g_set_ext e w))
            | Some _ =>
                let '(fd, e) := open_end (Some (0, LineFile i)) (claim_ext (gc_dev ch) req e) in
                let req := hr_set_fd fd req in
                ((1, req), put_line (Z.to_nat i) (mk_gpio_line (Some c) req (gl_name l))
                  (with_mask c (mask_or (req_pins req)) (g_set_ext e w)))
            end
      | None => ((- ENOMEM, req), w)
      end
  | _, _ => ((- ENOMEM, req), w)
  end.

Lemma free_line_again i l (w : W) :
  g_lines w !! i = Some l -> gl_chip l = None -> put_line i (gl_set_chip None l) w = w.
Proof.
  intros Hi Hc. unfold put_line, g_set_lines. destruct l as [ch rq nm], w. cbn in *. subst.
  f_equal. by apply list_insert_id.
Qed.

Lemma put_line_twice i l l' (w : W) : put_line i l (put_line i l' w) = put_line i l w.
Proof. unfold put_line, g_set_lines. cbn. by rewrite list_insert_insert_eq. Qed.

Lemma line_free_run i l (w : W) :
  g_lines w !! i = Some l ->
  gpio_line_handle_free (Z.of_nat i) w = Ret (tt, put_line i (gl_set_chip None l) w).
Proof.
  intros Hi. unfold gpio_line_handle_free. run_by (by apply get_line_run).
  apply set_line_run. by eapply lookup_lt_Some.
Qed.

(** The end of a commit. *)
Lemma commit_tail i l fd res req (w : W) :
  g_lines w !! i = Some l -> g_lock w = 1 ->
  (let! l := get_line (Z.of_nat i) in
   do! set_line (Z.of_nat i) (gl_set_req (hr_set_fd fd (gl_req l)) l) in
   do! gpio_unlock in
   ret (res : Z, hr_set_fd fd req)) w =
  Ret ((res, hr_set_fd fd req), g_set_lock 0 (put_line i (gl_set_req (hr_set_fd fd (gl_req l)) l) w)).
Proof.
  intros Hi Hl. run_by (by apply get_line_run). run_by (apply set_line_run; by eapply lookup_lt_Some).
  by run_by (by apply unlock_last_run).
Qed.

(** [open] of a path that is found. *)
Lemma posix_open_found path fs name r e fd e' (w w' : W) :
  open_begin path (g_ext w) = (Some (fs, name), e) -> fs_open fs name (g_set_ext e w) = Ret (r, w') ->
  open_end (Some r) (g_ext w') = (fd, e') -> posix_open path w = Ret (fd, g_set_ext e' w').
Proof.
  intros Eb Eo Ee. unfold posix_open. run_by (by apply ext_run). cbn iota. run_by (exact Eo). by apply ext_run.
Qed.

Lemma posix_open_not_found path e fd e' (w : W) :
  open_begin path (g_ext w) = (None, e) -> open_end None e = (fd, e') ->
  posix_open path w = Ret (fd, g_set_ext e' w).
Proof. intros Eb Ee. unfold posix_open. run_by (by apply ext_run). exact (ext_run _ (g_set_ext e w) _ _ Ee). Qed.

Lemma names_unique (w : W) i l :
  fs_ok w -> g_lines w !! i = Some l ->
  forall j l', g_lines w !! j = Some l' -> gl_name l' = gl_name l -> j = i.
Proof.
  intros Hw Hi j l' Hj. rewrite (ok_line_name w Hw _ _ Hi), (ok_line_name w Hw _ _ Hj).
  apply lookup_lt_Some in Hi, Hj. rewrite (ok_lines w Hw) in Hi, Hj. by apply line_name_inj.
Qed.

Lemma commit_run req c (w : W) :
  fs_ok w -> is_chip w c -> line_req_ok req ->
  line_request_commit req c w = Ret (commit_ref req c w).
Proof.
  intros Hw Hc Hreq. destruct (chip_at w c Hc) as [ch Hch].
  unfold line_request_commit, commit_ref. rewrite Hch.
  run_by (apply lock_first_run, Hw). run_by reflexivity. cbn [g_lines g_set_lock].
  destruct (first_index _ (g_lines w)) as [i'|] eqn:Ei.
  2:{ run_by (by apply unlock_last_run). unfold ret. by lock_eq w Hw. }
  apply first_index_Some in Ei as (i & l & -> & Hi & Hl & _). rewrite Nat2Z.id, Hi.
  pose proof (lookup_lt_Some _ _ _ Hi) as Hlt.
  run_by (by apply get_line_run). rewrite (ok_line_name w Hw _ _ Hi), dev_path_line.
  destruct (devfs_register_anon _ _ _) as [r e1] eqn:Er.
  run_by (by apply ext_run). destruct (Z.eqb_spec r 0) as [->|Hr]; cbn [negb].
  2:{ run_by (apply (line_free_run i l), Hi).
      run_by (by apply unlock_last_run). unfold ret.
      rewrite (free_line_again i l) by done. by lock_eq w Hw. }
  run_by (by apply set_line_run). set (l1 := gl_set_req req (gl_set_chip (Some c) l)).
  set (w1 := put_line i l1 (g_set_ext e1 (g_set_lock 1 w))).
  assert (Hi1 : g_lines w1 !! i = Some l1) by (apply list_lookup_insert_eq; exact Hlt).
  pose proof (open_finds _ _ _ _ Er) as Hplan.
  destruct (open_begin _ e1) as [[plan|] e2] eqn:Eb; cbn [fst] in Hplan.
  - subst plan. assert (gl_name l1 = line_name (Z.of_nat i)) as Hn by exact (ok_line_name w Hw _ _ Hi).
    assert (Eo : gpio_line_open (line_name (Z.of_nat i)) (g_set_ext e2 w1) =
      Ret ((0, LineFile (Z.of_nat i)), claimed c ch req (g_set_ext e2 w1))).
    { rewrite <- Hn. apply (line_open_run i l1 c ch); try done.
      intros j l' Hj. apply list_lookup_insert_Some in Hj as [(<- & _)|[Hne Hj]]; [done|].
      rewrite Hn, <- (ok_line_name w Hw _ _ Hi). by eapply (names_unique w). }
    destruct (open_end (Some (0, LineFile (Z.of_nat i))) (claim_ext (gc_dev ch) req e2)) as [fd e3] eqn:Ee.
    pose proof (open_fd (LineFile (Z.of_nat i)) (claim_ext (gc_dev ch) req e2)) as Hfd. rewrite Ee in Hfd. cbn in Hfd.
    run_by (eapply posix_open_found; [exact Eb|exact Eo|exact Ee]).
    destruct (Z.ltb_spec fd 0); [lia|]. run_by reflexivity.
    rewrite (commit_tail i l1); [|exact Hi1|reflexivity]. do 2 f_equal. rewrite <- Hn. unfold claimed. by lock_eq2 w Hw.
  - destruct (open_end None e2) as [fd e3] eqn:Ee.
    pose proof (open_not_found e2) as Hfd. rewrite Ee in Hfd. cbn in Hfd.
    run_by (eapply posix_open_not_found; [exact Eb|exact Ee]).
    destruct (Z.ltb_spec fd 0); [|lia].
    destruct (devfs_unregister_anon (c_str "/dev/" ++ line_name (Z.of_nat i)) e3) as [r4 e4] eqn:Eu.
    run_by (run_by (apply ext_run, Eu); run_by (apply (line_free_run i l1), Hi1); reflexivity).
    rewrite (commit_tail i (gl_set_chip None l1)); [|by apply list_lookup_insert_eq; cbn; rewrite length_insert|reflexivity].
    cbn [snd g_ext put_line g_set_lines g_set_ext]. do 2 f_equal. rewrite <- (ok_line_name w Hw _ _ Hi). by lock_eq2 w Hw.
Qed.

(** * Validation *)

Definition wf_request (req : gpiohandle_request) : Prop :=
  length (hr_lineoffsets req) = 64%nat /\ length (hr_default_values req) = 64%nat /\
  Forall is_u32 (hr_lineoffsets req) /\ is_u32 (hr_lines req).

(** The lines exist, nobody owns them, and the flags make sense together. *)
Definition valid_line_request (ch : gpio_chip) (req : gpiohandle_request) : bool :=
  negb (hr_lines req =? 0) && (hr_lines req <=? gc_pin_count ch) &&
  forallb (fun p => p <? gc_pin_count ch) (req_pins req) &&
  (forallb (fun p => negb (Z.testbit (gc_pin_mask ch) p)) (req_pins req) &&
   line_flags_ok (hr_flags req)).

Lemma all_ok_run {A} (f : A -> bool) (l : list A) (ok : Z -> ST W bool) (w : W) :
  (forall k x, l !! k = Some x -> ok (Z.of_nat k) w = Ret (f x, w)) ->
  all_ok (length l) 0 ok w = Ret (forallb f l, w).
Proof.
  change 0 with (Z.of_nat 0). intros Hok.
  assert (forall k x, l !! k = Some x -> ok (Z.of_nat (0 + k)) w = Ret (f x, w)) as H by done.
  clear Hok. revert H. generalize 0%nat as i. induction l as [|x l IH]; intros i H; [done|].
  cbn [length all_ok forallb]. run_by (rewrite <- (Nat.add_0_r i); by apply (H 0%nat)).
  destruct (f x); [|done]. replace (Z.of_nat i + 1) with (Z.of_nat (Datatypes.S i)) by lia.
  apply IH. intros k y Hk. rewrite Nat.add_succ_comm. by apply (H (Datatypes.S k)).
Qed.

Lemma request_in_range ch req :
  chip_ok ch -> wf_request req -> negb (hr_lines req =? 0) && (hr_lines req <=? gc_pin_count ch) = true ->
  forallb (fun p => p <? gc_pin_count ch) (req_pins req) = true -> line_req_ok req.
Proof.
  intros (Hp & _) (Ho & Hd & Hu & Hl) Hlines Hall. unfold is_u32 in Hl. zify_bool. split; [lia|]. split; [done|]. split; [done|].
  apply Forall_forall. intros p Hpin.
  rewrite forallb_forall in Hall. assert ((p <? gc_pin_count ch) = true) as Hlt by (apply Hall; by apply list_elem_of_In).
  apply Z.ltb_lt in Hlt. split; [|lia]. eapply Forall_forall in Hu; [apply Hu|].
  unfold req_pins in Hpin. by apply elem_of_take in Hpin as (k & Hk%list_elem_of_lookup_2 & _).
Qed.

Lemma line_request_ok_run req c ch (w : W) :
  0 <= c -> g_devices w !! Z.to_nat c = Some ch -> chip_ok ch -> wf_request req ->
  line_request_ok req c w = Ret (valid_line_request ch req, w).
Proof.
  intros Hc Hch Hok Hwf. pose proof Hwf as (Ho & _ & _ & Hl). unfold line_request_ok, valid_line_request.
  run_by (by apply get_chip_run). rewrite (Z.ltb_antisym (hr_lines req)).
  destruct (negb (hr_lines req =? 0) && (hr_lines req <=? gc_pin_count ch)) eqn:Elines.
  2:{ apply andb_false_iff in Elines. destruct (hr_lines req =? 0), (hr_lines req <=? gc_pin_count ch); by destruct Elines. }
  pose proof Elines as (E1 & E2)%andb_true_iff. apply negb_true_iff in E1. rewrite E1, E2. cbn [negb orb andb].
  assert (length (req_pins req) = Z.to_nat (hr_lines req)) as Hlen.
  { unfold req_pins. rewrite length_take. destruct Hok as (Hp & _). zify_bool. lia. }
  assert (Hlk : forall k p, req_pins req !! k = Some p -> hr_lineoffsets req !! k = Some p).
  { intros k p Hk. unfold req_pins in Hk. by apply lookup_take_Some in Hk as [? _]. }
  rewrite <- Hlen. run_by (apply (all_ok_run (fun p => p <? gc_pin_count ch)); intros k p Hk;
    by run_by (by apply arr_get_run, Hlk)).
  destruct (forallb _ (req_pins req)) eqn:Eall; [|done]. cbn [negb andb].
  destruct (request_in_range ch req Hok Hwf Elines Eall) as (_ & _ & _ & Hpins).
  run_by (apply (all_ok_run (fun p => negb (Z.testbit (gc_pin_mask ch) p))); intros k p Hk;
    assert (is_pin p) by (by eapply Forall_lookup_1);
    run_by (by apply arr_get_run, Hlk); run_by (by apply BIT32_run); by rewrite has_bit).
  done.
Qed.

Lemma valid_req_ok ch req : chip_ok ch -> wf_request req -> valid_line_request ch req = true -> line_req_ok req.
Proof.
  intros Hok Hwf Hv. unfold valid_line_request in Hv. rewrite !andb_true_iff in Hv. destruct Hv as ((E1 & E2) & _).
  eapply request_in_range; [done..|by rewrite andb_true_iff|done].
Qed.

(** C6: A request for lines is refused without effect if a line does not exist,
    has an owner, or the flags contradict each other; otherwise the first free handle
    gets exactly the lines of the request, configured in order, or the request leaves
    no trace but its error. *)
Theorem line_request_spec req c ch (w : W) :
  fs_ok w -> 0 <= c -> g_devices w !! Z.to_nat c = Some ch -> wf_request req ->
  gpio_line_handle_create req c w =
  Ret (if valid_line_request ch req then commit_ref req c w else ((- EINVAL, req), w)).
Proof.
  intros Hw Hc Hch Hwf. assert (chip_ok ch) as Hok by (eapply Forall_lookup_1; [apply Hw|done]).
  unfold gpio_line_handle_create. run_by (by apply line_request_ok_run).
  destruct (valid_line_request ch req) eqn:Ev; [|done]. cbn [negb]. apply commit_run; [done| |].
  - split; [done|]. apply lookup_lt_Some in Hch. lia.
  - by eapply valid_req_ok.
Qed.

(** * The calls on lines keep the invariant *)

Lemma dev_at (w : W) c : is_chip w c -> fs_ok w -> exists ch, g_devices w !! Z.to_nat c = Some ch /\ chip_ok ch.
Proof.
  intros Hc Hw. destruct (chip_at w c Hc) as [ch Hch]. exists ch. split; [done|].
  eapply Forall_lookup_1; [apply Hw|done].
Qed.

Lemma free_line_owns l c p : gl_chip l = None -> ~ line_owns c p l.
Proof. unfold line_owns. intros -> [? _]. done. Qed.

Lemma valid_pins ch req p :
  valid_line_request ch req = true -> is_pin p -> p ∈ req_pins req -> Z.testbit (gc_pin_mask ch) p = false.
Proof.
  unfold valid_line_request. rewrite !andb_true_iff. intros (_ & Hall & _) Hp Hin.
  rewrite forallb_forall in Hall. apply negb_true_iff, Hall. by apply list_elem_of_In.
Qed.

Lemma commit_ok req c ch (w : W) :
  fs_ok w -> 0 <= c -> g_devices w !! Z.to_nat c = Some ch -> wf_request req ->
  valid_line_request ch req = true -> fs_ok (snd (commit_ref req c w)).
Proof.
  intros Hw Hc Hch Hwf Hv.
  assert (line_req_ok req) as Hreq by (eapply valid_req_ok; [eapply Forall_lookup_1; [apply Hw|]|..]; done).
  unfold commit_ref. rewrite Hch. destruct (first_index _ _) as [i'|] eqn:Ei; [|done].
  apply first_index_Some in Ei as (i & l & -> & Hi & Hl & _). rewrite Nat2Z.id, Hi.
  destruct (devfs_register_anon _ _ _) as [r e1]. destruct (negb (r =? 0)); [by apply fs_ok_ext|].
  destruct (open_begin _ _) as [[plan|] e2]; destruct (open_end _ _) as [fd e3]; cbn [snd].
  - apply (fs_ok_put_line _ i l); [by apply fs_ok_ext|done|done| |done| |].
    + intros c' [= <-]. split; [|done]. split; [done|]. apply lookup_lt_Some in Hch. cbn. lia.
    + intros m. by apply mask_or_u32, Hreq.
    + intros c' ch' p Hch' Hp. rewrite (decide_False (P := line_owns _ _ l)) by (by apply free_line_owns).
      cbn in Hch'. unfold line_owns. cbn. destruct (decide (Z.of_nat c' = c)) as [<-|Hne].
      * rewrite Nat2Z.id in Hch. simplify_eq. rewrite testbit_mask_or by (apply Hreq || apply Hp).
        destruct (decide (p ∈ req_pins req)) as [Hin|Hin].
        -- rewrite (valid_pins ch req), bool_decide_eq_true_2, decide_True by done. done.
        -- rewrite bool_decide_eq_false_2, decide_False, orb_false_r by (done || by intros [_ ?]). done.
      * rewrite decide_False by (intros [[= ?] _]; congruence). done.
  - rewrite <- (with_mask_id 0 (g_set_ext _ w)). apply (fs_ok_put_line _ i l); [by apply fs_ok_ext|done..| |done|done|].
    + done.
    + intros c' ch' p _ _. rewrite !(decide_False (P := line_owns _ _ _)) by (by apply free_line_owns). by case_decide.
Qed.

(** The chips stay. *)
Lemma commit_chip req c (w : W) :
  is_chip w c -> exists ch, g_devices (snd (commit_ref req c w)) !! Z.to_nat c = Some ch.
Proof.
  intros Hc. apply (chip_at _ c). unfold is_chip, commit_ref in *. destruct (chip_at w c Hc) as [ch ->].
  repeat case_match; cbn; by rewrite ?length_alter.
Qed.

Lemma owner_counted (w : W) i l c p :
  g_lines w !! i = Some l -> line_owns c p l -> (1 <= owners w c p)%nat.
Proof.
  intros Hi Ho. unfold owners. destruct (count (line_owns c p) (g_lines w)) eqn:Ec; [|lia].
  by destruct (count_zero _ _ _ _ Ec Hi).
Qed.

(** The external state after a handle on the device is closed. *)
Definition release_ext (dev : Z) (l : gpio_line) (e : E) : E :=
  snd (devfs_unregister_anon (dev_path (gl_name l)) (fold_left (free_pin dev) (req_pins (gl_req l)) e)).

Lemma line_close_run i l c ch (w : W) :
  fs_ok w -> g_lines w !! i = Some l -> gl_chip l = Some c -> g_devices w !! Z.to_nat c = Some ch ->
  gpio_line_close (LineFile (Z.of_nat i)) w =
    Ret (0, put_line i (gl_set_chip None l) (with_mask c (mask_diff (req_pins (gl_req l)))
      (g_set_ext (release_ext (gc_dev ch) l (g_ext w)) w))).
Proof.
  intros Hw Hi Hc Hch. destruct (ok_line w Hw _ _ _ Hi Hc) as [Hcw Hreq].
  unfold gpio_line_close. run_by reflexivity. run_by (by apply get_line_run).
  run_by (apply lock_first_run, Hw). rewrite Hc. run_by (by apply (release_loop_run c ch)).
  run_by (by apply unlock_last_run).
  run_by (apply ext_run, surjective_pairing). run_by (apply (line_free_run i l), Hi).
  unfold ret. do 2 f_equal. by lock_eq2 w Hw.
Qed.

Lemma close_ok i l c e (w : W) :
  fs_ok w -> g_lines w !! i = Some l -> gl_chip l = Some c ->
  fs_ok (put_line i (gl_set_chip None l) (with_mask c (mask_diff (req_pins (gl_req l))) (g_set_ext e w))).
Proof.
  intros Hw Hi Hc. destruct (ok_line w Hw _ _ _ Hi Hc) as [[H0 _] (Hreq & Ho & Hd & Hpins)].
  apply (fs_ok_put_line _ i l); [by apply fs_ok_ext|done|done|done|done|intros; by apply mask_diff_u32|].
  intros c' ch p Hch Hp. cbn in Hch. rewrite (decide_False (P := line_owns _ _ (gl_set_chip None l))) by (by apply free_line_owns).
  pose proof (ok_mask w Hw _ _ _ Hch Hp) as Hm.
  destruct (decide (line_owns (Z.of_nat c') p l)) as [Hown|Hown].
  - pose proof (owner_counted w i l _ _ Hi Hown). destruct Hown as [Ec Hin]. rewrite Hc in Ec. simplify_eq.
    rewrite decide_True by done. rewrite testbit_mask_diff by (done || apply Hp).
    rewrite bool_decide_eq_true_2, andb_false_r by done. destruct (Z.testbit _ _); lia.
  - destruct (decide (Z.of_nat c' = c)) as [<-|]; [|done]. rewrite testbit_mask_diff by (done || apply Hp).
    rewrite bool_decide_eq_false_2; [by rewrite andb_true_r|]. intros Hin. by apply Hown.
Qed.

End Spec.
