(* ===== verification/GpioFsEvent.v ===== *)
(** The edge events of gpio_fs.c: requests, the interrupt, reading and polling.
    The buffer of an event is a bounded queue of records of 16 bytes. *)

From stdpp Require Import strings.
From S2P Require Import Prelude ZephyrSvc GpioFsDefs GpioFs GpioFsInv GpioFsRun GpioFsSpec.

(** Documented results of the drivers, the size of a record on the stack, and
    that the codes of the poll calls differ. *)
Class DriverLaws (E : Type) `{!GpioSvc E} : Prop := {
  pin_configure_ret d p f e : fst (gpio_pin_configure d p f e) <= 0;
  interrupt_configure_ret d p f e : fst (gpio_pin_interrupt_configure d p f e) <= 0;
  stack_record e : length (stack_bytes e) = 16%nat;
  poll_codes : ZFD_IOCTL_POLL_PREPARE <> ZFD_IOCTL_POLL_UPDATE /\
    ZFD_IOCTL_POLL_PREPARE <> GPIOHANDLE_GET_LINE_VALUES_IOCTL /\
    ZFD_IOCTL_POLL_UPDATE <> GPIOHANDLE_GET_LINE_VALUES_IOCTL /\ ZVFS_POLLIN <> 0;
}.

Lemma length_event_bytes t id stack : length stack = 16%nat -> length (event_bytes t id stack) = 16%nat.
Proof.
  intros Hs. unfold event_bytes. rewrite !length_app, length_le_split, (length_take (drop 12 _)), length_drop.
  destruct id; [rewrite length_le_split|rewrite length_take, length_drop]; lia.
Qed.

Section Event.
Context {E R S : Type} `{!GpioSvc E, !OpenLaws E, !DriverLaws E, !RingBuf R, !RingLaws R,
  !PollSignal S, !SignalLaws S}.
Notation W := (gworld E R S).
Notation event := (gpio_event R S).

(** * Opening *)

(** An event as [gpio_event_open] leaves it. *)
Definition fresh_event (c : Z) (req : gpioevent_request) (name : list Z) : event :=
  mk_gpio_event (Some c) req (Z.shiftl 1 (er_lineoffset req)) k_poll_signal_init
    (ring_buf_init (GPIO_LINE_EVENT_DATA_MAX * sizeof_gpioevent_data)) name.

Lemma event_open_spec i (e : event) c (w : W) :
  (forall j e', g_events w !! j = Some e' -> ge_name e' = ge_name e -> j = i) ->
  g_events w !! i = Some e -> ge_chip e = Some c -> is_chip w c -> is_pin (er_lineoffset (ge_req e)) ->
  0 <= g_lock w ->
  exists r f x w', gpio_event_open (ge_name e) w = Ret ((r, f), w') /\
    let e' := fresh_event c (ge_req e) (ge_name e) in
    (r < 0 /\ w' = put_event i e' (g_set_ext x w) \/
     r = 0 /\ f = EventFile (Z.of_nat i) /\
       w' = put_event i e' (with_mask c (mask_or [er_lineoffset (ge_req e)]) (g_set_ext x w))).
Proof.
  intros Hu Hi Hc Hcw Hpin Hlock. destruct (chip_at w c Hcw) as [ch Hch]. pose proof (proj1 Hcw) as H0.
  unfold gpio_event_open.
  assert (EF : gpio_line_event_find (ge_name e) w = Ret (Some (Z.of_nat i), w)).
  { unfold gpio_line_event_find, gets. rewrite (first_index_unique _ _ i e Hi); [done| |].
    - by apply bool_decide_eq_true.
    - intros j l' Hj E'%bool_decide_eq_true. by eapply Hu. }
  run_by (exact EF). cbn iota. run_by (by apply get_event_run). rewrite Hc. run_by (by apply BIT32_run).
  run_by (apply set_event_run; by eapply lookup_lt_Some).
  set (e' := ge_set_cb _ _). assert (e' = fresh_event c (ge_req e) (ge_name e)) as ->.
  { unfold e', fresh_event. destruct e. cbn in *. by subst. }
  set (e' := fresh_event _ _ _). run_by reflexivity. run_by (by apply get_chip_run).
  set (w1 := g_set_lock _ _).
  pose proof (pin_configure_ret (gc_dev ch) (u8 (er_lineoffset (ge_req e))) GPIO_INPUT (g_ext w1)) as Hr1.
  destruct (gpio_pin_configure _ _ _ _) as [r1 x1] eqn:E1. cbn in Hr1. run_by (by apply ext_run).
  destruct (Z.eqb_spec r1 0) as [->|Hne1]; cbn [negb].
  2:{ exists r1, NullFile, x1. eexists. split; [run_by (apply unlock_run; cbn; lia); reflexivity|]. left.
      split; [lia|]. unfold put_event, g_set_events, g_set_ext, g_set_lock, w1. cbn. f_equal. lia. }
  match goal with |- context [gpio_pin_interrupt_configure _ _ ?f] => set (fl := f) end.
  pose proof (interrupt_configure_ret (gc_dev ch) (u8 (er_lineoffset (ge_req e))) fl x1) as Hr2.
  destruct (gpio_pin_interrupt_configure _ _ _ _) as [r2 x2] eqn:E2. cbn in Hr2. run_by (by apply ext_run).
  destruct (Z.eqb_spec r2 0) as [->|Hne2]; cbn [negb].
  2:{ exists r2, NullFile, x2. eexists. split; [run_by (apply unlock_run; cbn; lia); reflexivity|]. left.
      split; [lia|]. unfold put_event, g_set_events, g_set_ext, g_set_lock, w1. cbn. f_equal. lia. }
  destruct (gpio_add_callback (gc_dev ch) (Z.of_nat i) x2) as [r3 x3] eqn:E3. run_by (by apply ext_run).
  exists 0, (EventFile (Z.of_nat i)), x3. eexists. split.
  - run_by (by apply mask_add_run). run_by (apply unlock_run; cbn; lia). reflexivity.
  - right. split; [done|]. split; [done|]. unfold put_event, with_mask, g_set_events, g_set_devices, g_set_ext, g_set_lock, w1.
    cbn. f_equal. lia.
Qed.

(** * Requests for events *)

Definition wf_event_request (req : gpioevent_request) : Prop := is_u32 (er_lineoffset req).

Definition valid_event_request (ch : gpio_chip) (req : gpioevent_request) : bool :=
  (er_lineoffset req <? gc_pin_count ch) && negb (Z.testbit (gc_pin_mask ch) (er_lineoffset req)) &&
  event_flags_ok (er_handleflags req) (er_eventflags req).

Lemma event_pin ch req : chip_ok ch -> wf_event_request req -> er_lineoffset req < gc_pin_count ch ->
  is_pin (er_lineoffset req).
Proof. intros (Hp & _) Hr Hlt. unfold wf_event_request, is_u32, is_pin in *. lia. Qed.

Lemma event_request_ok_run req c ch (w : W) :
  0 <= c -> g_devices w !! Z.to_nat c = Some ch -> chip_ok ch -> wf_event_request req ->
  event_request_ok req c w = Ret (valid_event_request ch req, w).
Proof.
  intros Hc Hch Hok Hwf. unfold event_request_ok, valid_event_request.
  run_by (by apply get_chip_run). rewrite Z.leb_antisym. destruct (Z.ltb_spec (er_lineoffset req) (gc_pin_count ch)); [|done].
  assert (is_pin (er_lineoffset req)) by (by eapply event_pin). cbn [negb andb].
  run_by (by apply BIT32_run). rewrite has_bit by done. by destruct (Z.testbit _ _).
Qed.

Lemma event_names_unique (w : W) i e :
  fs_ok w -> g_events w !! i = Some e ->
  forall j e', g_events w !! j = Some e' -> ge_name e' = ge_name e -> j = i.
Proof.
  intros Hw Hi j e' Hj. rewrite (ok_event_name w Hw _ _ Hi), (ok_event_name w Hw _ _ Hj).
  apply lookup_lt_Some in Hi, Hj. rewrite (ok_events w Hw) in Hi, Hj. by apply event_name_inj.
Qed.

Lemma event_free_run i e (w : W) :
  g_events w !! i = Some e ->
  gpio_line_event_free (Z.of_nat i) w = Ret (tt, put_event i (ge_set_chip None e) w).
Proof.
  intros Hi. unfold gpio_line_event_free. run_by (by apply get_event_run).
  apply set_event_run. by eapply lookup_lt_Some.
Qed.

Lemma event_commit_tail i e fd res req (w : W) :
  g_events w !! i = Some e -> g_lock w = 1 ->
  (let! e := get_event (Z.of_nat i) in
   do! set_event (Z.of_nat i) (ge_set_req (er_set_fd fd (ge_req e)) e) in
   do! gpio_unlock in
   ret (res : Z, er_set_fd fd req)) w =
  Ret ((res, er_set_fd fd req), g_set_lock 0 (put_event i (ge_set_req (er_set_fd fd (ge_req e)) e) w)).
Proof.
  intros Hi Hl. run_by (by apply get_event_run). run_by (apply set_event_run; by eapply lookup_lt_Some).
  by run_by (by apply unlock_last_run).
Qed.

(** What a request that passed the tests leads to: no free event, a failure
    that leaves the event [i] free, or an empty, armed event that owns the
    line. *)
Definition event_outcome (req : gpioevent_request) (c : Z) (w : W) (res : Z) (req' : gpioevent_request) (w' : W) : Prop :=
  (exists x, (res = - ENOMEM \/ res = 0) /\ req' = req /\ w' = g_set_ext x w) \/
  (exists i e x, g_events w !! i = Some e /\ ge_chip e = None /\
    ((res < 0 /\ exists e', ge_chip e' = None /\ ge_name e' = ge_name e /\ w' = put_event i e' (g_set_ext x w)) \/
     (res = 1 /\ 0 <= er_fd req' /\ (exists fd, req' = er_set_fd fd req) /\
       w' = put_event i (fresh_event c req' (ge_name e))
         (with_mask c (mask_or [er_lineoffset req]) (g_set_ext x w))))).

(** After a failed [open] the event is free again. *)
Lemma event_commit_failed i e fd req x c name (w w1 : W) :
  fd < 0 -> g_events w1 !! i = Some e -> ge_name e = name ->
  w1 = put_event i e (g_set_ext x (g_set_lock 1 w)) -> (i < length (g_events w))%nat ->
  fs_ok w -> (exists e0, g_events w !! i = Some e0 /\ ge_chip e0 = None /\ ge_name e0 = name) ->
  exists res w', (let! res :=
      (if fd <? 0 then
         let! _ := call_ext (devfs_unregister_anon (dev_path name)) in
         do! gpio_line_event_free (Z.of_nat i) in
         gets (fun w => - errno (g_ext w))
       else ret 1) in
     let! e := get_event (Z.of_nat i) in
     do! set_event (Z.of_nat i) (ge_set_req (er_set_fd fd (ge_req e)) e) in
     do! gpio_unlock in
     ret (res, er_set_fd fd req)) w1 = Ret ((res, er_set_fd fd req), w') /\
    event_outcome req c w res (er_set_fd fd req) w'.
Proof.
  intros Hfd Hi <- E1 Hlt Hw (e0 & Hi0 & Hc0 & Hn0). rewrite (proj2 (Z.ltb_lt fd 0)) by done.
  destruct (devfs_unregister_anon (dev_path (ge_name e)) (g_ext w1)) as [r2 x2] eqn:Eu.
  do 2 eexists. split.
  - run_by (run_by (apply ext_run, Eu); run_by (apply (event_free_run i e), Hi); reflexivity).
    apply (event_commit_tail i (ge_set_chip None e)); [|by subst w1].
    apply list_lookup_insert_eq. subst w1. cbn. by rewrite length_insert.
  - right. exists i, e0, x2. split; [done|]. split; [done|]. left.
    split; [pose proof (errno_pos (g_ext (put_event i (ge_set_chip None e) (g_set_ext x2 w1)))); cbn in *; lia|].
    exists (ge_set_req (er_set_fd fd (ge_req e)) (ge_set_chip None e)).
    split; [done|]. split; [done|]. subst w1. by lock_eq2 w Hw.
Qed.

(** The rest of a commit after the path was registered: the event [e1] is in
    the table, [open] finds its file system or nothing. *)
Definition event_finish (i : nat) (path : list Z) (req : gpioevent_request) : ST W (Z * gpioevent_request) :=
  let! fd := posix_open path in
  let! res :=
    (if fd <? 0 then
       let! _ := call_ext (devfs_unregister_anon path) in
       do! gpio_line_event_free (Z.of_nat i) in
       gets (fun w => - errno (g_ext w))
     else ret 1) in
  let! e := get_event (Z.of_nat i) in
  do! set_event (Z.of_nat i) (ge_set_req (er_set_fd fd (ge_req e)) e) in
  do! gpio_unlock in
  ret (res, er_set_fd fd req).

Lemma event_finish_found i e req c x1 x2 (w : W) :
  fs_ok w -> is_chip w c -> is_pin (er_lineoffset req) -> g_events w !! i = Some e -> ge_chip e = None ->
  open_begin (dev_path (ge_name e)) x1 = (Some (gpio_event_fs, ge_name e), x2) ->
  exists res req' w', event_finish i (dev_path (ge_name e)) req
    (put_event i (ge_set_req req (ge_set_chip (Some c) e)) (g_set_ext x1 (g_set_lock 1 w))) = Ret ((res, req'), w') /\
    event_outcome req c w res req' w'.
Proof.
  intros Hw Hc Hpin Hi He Eb. pose proof (lookup_lt_Some _ _ _ Hi) as Hlt.
  set (e1 := ge_set_req req _). set (w1 := put_event i e1 _).
  assert (Hi1 : g_events w1 !! i = Some e1) by (apply list_lookup_insert_eq; exact Hlt).
  assert (Hex : exists e0, g_events w !! i = Some e0 /\ ge_chip e0 = None /\ ge_name e0 = ge_name e) by eauto.
  destruct (event_open_spec i e1 c (g_set_ext x2 w1)) as (r & f & x3 & w2 & Eo & Hcase); [|done..|].
  { intros j e' Hj. apply list_lookup_insert_Some in Hj as [(<- & _)|[Hne Hj]]; [done|].
    exact (event_names_unique w i e Hw Hi j e' Hj). }
  change (ge_name e1) with (ge_name e) in Eo. unfold event_finish.
  destruct Hcase as [[Hr ->]|(-> & -> & ->)].
  - destruct (open_end (Some (r, f)) x3) as [fd x4] eqn:Ee.
    pose proof (open_failed r f x3 Hr) as Hfd. rewrite Ee in Hfd. cbn in Hfd.
    run_by (eapply posix_open_found; [exact Eb|exact Eo|exact Ee]).
    edestruct (event_commit_failed i (fresh_event c req (ge_name e)) fd req x4 c (ge_name e) w)
      as (res & w' & Er' & Hout); cycle 7; [do 3 eexists; split; [exact Er'|exact Hout]|done| |done| |done..].
    + apply list_lookup_insert_eq. cbn. by rewrite length_insert.
    + unfold w1, put_event, g_set_events, g_set_ext. cbn. by rewrite list_insert_insert_eq.
  - destruct (open_end (Some (0, EventFile (Z.of_nat i))) x3) as [fd x4] eqn:Ee.
    pose proof (open_fd (EventFile (Z.of_nat i)) x3) as Hfd. rewrite Ee in Hfd. cbn in Hfd.
    run_by (eapply posix_open_found; [exact Eb|exact Eo|exact Ee]).
    destruct (Z.ltb_spec fd 0); [lia|]. do 3 eexists. split.
    + run_by reflexivity. apply (event_commit_tail i (fresh_event c req (ge_name e))); [|done].
      apply list_lookup_insert_eq. cbn. by rewrite length_insert.
    + right. exists i, e, x4. split; [done|]. split; [done|]. right. split; [done|]. split; [done|].
      split; [by eexists|]. by lock_eq2 w Hw.
Qed.

Lemma event_commit_spec req c (w : W) :
  fs_ok w -> is_chip w c -> is_pin (er_lineoffset req) ->
  exists res req' w', event_request_commit req c w = Ret ((res, req'), w') /\ event_outcome req c w res req' w'.
Proof.
  intros Hw Hc Hpin. unfold event_request_commit.
  run_by (apply lock_first_run, Hw). run_by reflexivity. cbn [g_events g_set_lock].
  destruct (first_index _ (g_events w)) as [i'|] eqn:Ei.
  2:{ do 3 eexists. split; [run_by (by apply unlock_last_run); reflexivity|]. left.
      exists (g_ext w). split; [by left|]. split; [done|]. by lock_eq w Hw. }
  apply first_index_Some in Ei as (i & e & -> & Hi & He & _).
  pose proof (lookup_lt_Some _ _ _ Hi) as Hlt. pose proof (ok_event_name w Hw _ _ Hi) as Hn.
  run_by (by apply get_event_run).
  destruct (devfs_register_anon (dev_path (ge_name e)) gpio_event_fs (g_ext w)) as [r x1] eqn:Er.
  run_by (by apply ext_run). destruct (Z.eqb_spec r 0) as [->|Hr].
  2:{ do 3 eexists. split; [run_by (apply (event_free_run i e), Hi); run_by (by apply unlock_last_run); reflexivity|].
      left. exists x1. split; [by right|]. split; [done|].
      assert (put_event i (ge_set_chip None e) w = w) as Ew.
      { unfold put_event, g_set_events. destruct e, w. cbn in *. subst. f_equal. by apply list_insert_id. }
      rewrite <- Ew at 2. by lock_eq w Hw. }
  run_by (by apply set_event_run). rewrite Hn, dev_path_event in Er.
  pose proof (open_finds _ _ _ _ Er) as Hplan. rewrite <- dev_path_event, <- Hn in Hplan.
  destruct (open_begin (dev_path (ge_name e)) x1) as [[plan|] x2] eqn:Eb; cbn [fst] in Hplan.
  - subst plan. by eapply event_finish_found.
  - destruct (open_end None x2) as [fd x3] eqn:Ee.
    pose proof (open_not_found x2) as Hfd. rewrite Ee in Hfd. cbn in Hfd.
    run_by (eapply posix_open_not_found; [exact Eb|exact Ee]).
    edestruct (event_commit_failed i (ge_set_req req (ge_set_chip (Some c) e)) fd req x3 c (ge_name e) w)
      as (res & w' & Er' & Hout); cycle 7; [do 3 eexists; split; [exact Er'|exact Hout]|done| |done|done|done| |].
    + by apply list_lookup_insert_eq.
    + done.
    + eauto.
Qed.

(** * The calls on events keep the invariant *)

Lemma free_event_owns (e : event) c p : ge_chip e = None -> ~ event_owns c p e.
Proof. unfold event_owns. intros -> [? _]. done. Qed.

Lemma ring_ok_init : records_ok (ring_buf_init (GPIO_LINE_EVENT_DATA_MAX * sizeof_gpioevent_data) : R).
Proof.
  destruct (rb_init (R := R) (GPIO_LINE_EVENT_DATA_MAX * sizeof_gpioevent_data)) as [Eb Es]; [done|].
  split; [done|]. exists O. by rewrite Eb.
Qed.

(** An event whose owner does not change. *)
Lemma fs_ok_same_event (w : W) i e e' x :
  fs_ok w -> g_events w !! i = Some e -> ge_name e' = ge_name e -> ge_chip e' = ge_chip e ->
  er_lineoffset (ge_req e') = er_lineoffset (ge_req e) -> (ge_chip e <> None -> records_ok (ge_rb e')) ->
  fs_ok (put_event i e' (g_set_ext x w)).
Proof.
  intros Hw Hi Hn Hc Hp Hr. rewrite <- (with_mask_id 0 (g_set_ext x w)).
  apply (fs_ok_put_event _ i e); [by apply fs_ok_ext|done..| |done|done|].
  - rewrite Hc, Hp. intros c Ec. destruct (ok_event w Hw _ _ _ Hi Ec) as (? & ? & _).
    split; [done|]. split; [done|]. apply Hr. by rewrite Ec.
  - intros c' ch p _ _. f_equal; [by case_decide|]. apply decide_ext. unfold event_owns. by rewrite Hc, Hp.
Qed.

Lemma event_outcome_ok req c ch (w : W) res req' w' :
  fs_ok w -> 0 <= c -> g_devices w !! Z.to_nat c = Some ch -> is_pin (er_lineoffset req) ->
  valid_event_request ch req = true -> event_outcome req c w res req' w' -> fs_ok w'.
Proof.
  intros Hw Hc Hch Hpin Hv [(x & _ & _ & ->)|(i & e & x & Hi & He & Hcase)]; [by apply fs_ok_ext|].
  destruct Hcase as [(_ & e' & He' & Hn & ->)|(_ & _ & [fd ->] & ->)].
  - rewrite <- (with_mask_id 0 (g_set_ext x w)).
    apply (fs_ok_put_event _ i e); [by apply fs_ok_ext|done..| |done|done|].
    + by rewrite He'.
    + intros c' ch' p _ _. rewrite !(decide_False (P := event_owns _ _ _)) by (by apply free_event_owns). by case_decide.
  - apply (fs_ok_put_event _ i e); [by apply fs_ok_ext|done..| |done| |].
    + intros c' [= <-]. split; [|split; [done|apply ring_ok_init]]. split; [done|].
      apply lookup_lt_Some in Hch. cbn. lia.
    + intros m. apply mask_or_u32. by apply Forall_singleton.
    + intros c' ch' p Hch' Hp. rewrite (decide_False (P := event_owns _ _ e)) by (by apply free_event_owns).
      cbn in Hch'. unfold event_owns. cbn. destruct (decide (Z.of_nat c' = c)) as [<-|Hne].
      * rewrite Nat2Z.id in Hch. simplify_eq.
        change (Z.lor ?m (Z.shiftl 1 (er_lineoffset req))) with (mask_or [er_lineoffset req] m).
        rewrite testbit_mask_or by ((by apply Forall_singleton) || apply Hp).
        unfold valid_event_request in Hv. rewrite !andb_true_iff, negb_true_iff in Hv. destruct Hv as ((_ & Hfree) & _).
        destruct (decide (p = er_lineoffset req)) as [->|Hne].
        -- rewrite Hfree, bool_decide_eq_true_2, decide_True by (done || by apply list_elem_of_here). done.
        -- rewrite bool_decide_eq_false_2, decide_False, orb_false_r by
             (by rewrite list_elem_of_singleton || by intros [_ ?]). done.
      * rewrite decide_False by (intros [[= ?] _]; congruence). done.
Qed.

Lemma event_owner_counted (w : W) i e c p :
  g_events w !! i = Some e -> event_owns c p e -> (1 <= owners w c p)%nat.
Proof.
  intros Hi Ho. unfold owners. destruct (count (event_owns c p) (g_events w)) eqn:Ec; [|lia].
  by destruct (count_zero _ _ _ _ Ec Hi).
Qed.

Lemma event_close_spec i e c (w : W) :
  fs_ok w -> g_events w !! i = Some e -> ge_chip e = Some c ->
  exists w', gpio_event_close (EventFile (Z.of_nat i)) w = Ret (0, w') /\ fs_ok w' /\
    exists e' x, ge_chip e' = None /\
      w' = put_event i e' (with_mask c (mask_diff [er_lineoffset (ge_req e)]) (g_set_ext x w)).
Proof.
  intros Hw Hi Hc. destruct (ok_event w Hw _ _ _ Hi Hc) as (Hcw & Hpin & Hrb).
  destruct (chip_at w c Hcw) as [ch Hch]. pose proof (proj1 Hcw) as H0.
  unfold gpio_event_close. eexists. split.
  { run_by reflexivity. run_by (by apply get_event_run). run_by (apply lock_first_run, Hw).
    rewrite Hc. run_by reflexivity. run_by (by apply mask_remove_run).
    run_by (apply get_chip_run; [done|by apply lookup_with_mask]).
    run_by (apply ext_run, surjective_pairing). run_by (apply ext_run, surjective_pairing).
    run_by (by apply unlock_last_run). run_by (by apply get_event_run).
    run_by (apply set_event_run; by eapply lookup_lt_Some).
    run_by (apply (event_free_run i); apply list_lookup_insert_eq; by eapply lookup_lt_Some).
    run_by (apply ext_run, surjective_pairing). reflexivity. }
  match goal with |- fs_ok ?s /\ _ => set (w' := s) end.
  assert (exists e' x, ge_chip e' = None /\ ge_name e' = ge_name e /\
    w' = put_event i e' (with_mask c (mask_diff [er_lineoffset (ge_req e)]) (g_set_ext x w))) as (e' & x & He' & Hn & ->).
  { exists (ge_set_chip None (ge_set_rb (ring_buf_reset (ge_rb e)) (ge_set_signal (k_poll_signal_reset (ge_signal e)) e))).
    exists (g_ext w'). split; [done|]. split; [done|]. unfold w'. by lock_eq2 w Hw. }
  split; [|by eauto].
  apply (fs_ok_put_event _ i e); [by apply fs_ok_ext|done..|by rewrite He'|done| |].
  { intros m. apply mask_diff_u32. }
  intros c' ch' p Hch' Hp. cbn in Hch'. rewrite (decide_False (P := event_owns _ _ e')) by (by apply free_event_owns).
  pose proof (ok_mask w Hw _ _ _ Hch' Hp) as Hm.
  change (fun m => Z.ldiff m _) with (mask_diff [er_lineoffset (ge_req e)]).
  assert (Hps : Forall is_pin [er_lineoffset (ge_req e)]) by (by apply Forall_singleton).
  destruct (decide (event_owns (Z.of_nat c') p e)) as [Hown|Hown].
  - pose proof (event_owner_counted w i e _ _ Hi Hown). destruct Hown as [Ec Hin]. rewrite Hc in Ec. simplify_eq.
    rewrite decide_True by done. rewrite testbit_mask_diff by (done || apply Hp).
    rewrite bool_decide_eq_true_2, andb_false_r by (by apply list_elem_of_here). destruct (Z.testbit _ _); lia.
  - destruct (decide (Z.of_nat c' = c)) as [<-|]; [|done]. rewrite testbit_mask_diff by (done || apply Hp).
    rewrite bool_decide_eq_false_2; [by rewrite andb_true_r|]. rewrite list_elem_of_singleton.
    intros ->. by apply Hown.
Qed.

(** * The queue of an event *)

(** The buffer holds the records [q], the oldest first. *)
Definition ev_queue (e : event) (q : list (list Z)) : Prop :=
  rb_size (ge_rb e) = GPIO_LINE_EVENT_DATA_MAX * sizeof_gpioevent_data /\
  rb_bytes (ge_rb e) = concat q /\ Forall (fun r => length r = 16%nat) q.

(** A full queue drops the new record. *)
Definition push (r : list Z) (q : list (list Z)) : list (list Z) :=
  if decide (length q < 16)%nat then q ++ [r] else q.

Lemma length_records (q : list (list Z)) :
  Forall (fun r => length r = 16%nat) q -> length (concat q) = (16 * length q)%nat.
Proof. induction 1 as [|r q Hr _ IH]; cbn [concat length]; [done|]. rewrite length_app, Hr, IH. lia. Qed.

Lemma take_records n (q : list (list Z)) :
  Forall (fun r => length r = 16%nat) q ->
  take (16 * n) (concat q) = concat (take n q) /\ drop (16 * n) (concat q) = concat (drop n q).
Proof.
  intros Hq. revert n. induction Hq as [|r q Hr _ IH]; intros n; cbn [concat].
  { by rewrite take_nil, drop_nil, firstn_nil, skipn_nil. }
  destruct n as [|n]; [done|]. replace (16 * Datatypes.S n)%nat with (length r + 16 * n)%nat by lia.
  rewrite take_app_add, drop_app_add. destruct (IH n) as [-> ->]. done.
Qed.

Lemma ring_ok_records (rb : R) :
  records_ok rb -> exists q, rb_bytes rb = concat q /\ Forall (fun r => length r = 16%nat) q.
Proof.
  intros [_ [n Hn]]. revert Hn. generalize (rb_bytes rb) as l. induction n as [|n IH]; intros l Hl.
  { exists []. split; [|constructor]. by destruct l. }
  destruct (IH (drop 16 l)) as (q & Eq & Hq); [rewrite length_drop; lia|].
  exists (take 16 l :: q). cbn [concat]. rewrite <- Eq. split; [by rewrite take_drop|].
  constructor; [|done]. rewrite length_take. lia.
Qed.

Lemma ev_queue_ring_ok e q : ev_queue e q -> records_ok (ge_rb e).
Proof. intros (Hs & Eb & Hq). split; [done|]. exists (length q). rewrite Eb. by apply length_records. Qed.

(** The ring buffer implements the queue. *)
Lemma ev_queue_put e q r sg :
  ev_queue e q -> length r = 16%nat ->
  ev_queue (ge_set_signal sg (ge_set_rb (snd (ring_buf_put r (ge_rb e))) e)) (push r q).
Proof.
  intros (Hs & Eb & Hq) Hr. pose proof (rb_put r (ge_rb e)) as (_ & _ & Es).
  pose proof (length_records q Hq) as Hl. pose proof (rb_bounded (ge_rb e)) as Hbound.
  rewrite Hs, Eb, Hl in Hbound. change (GPIO_LINE_EVENT_DATA_MAX * sizeof_gpioevent_data) with 256 in *.
  unfold ev_queue, push. cbn [ge_rb ge_set_signal ge_set_rb]. rewrite Es. split; [done|]. case_decide.
  - destruct (rb_put_fits r (ge_rb e)) as [_ ->]; [rewrite Hs, Eb, Hl; lia|].
    rewrite Eb, concat_app. cbn. rewrite app_nil_r. split; [done|]. by apply Forall_app_2, Forall_singleton.
  - destruct (rb_put_full r (ge_rb e)) as [_ ->]; [rewrite Hs, Eb, Hl; lia|done].
Qed.

(** The put is complete unless 16 records are waiting. *)
Lemma ev_queue_room e q r :
  ev_queue e q -> length r = 16%nat ->
  (fst (ring_buf_put r (ge_rb e)) =? sizeof_gpioevent_data) = bool_decide (length q < 16)%nat.
Proof.
  intros (Hs & Eb & Hq) Hr. pose proof (length_records q Hq) as Hl. pose proof (rb_bounded (ge_rb e)) as Hbound.
  rewrite Hs, Eb, Hl in Hbound. change (GPIO_LINE_EVENT_DATA_MAX * sizeof_gpioevent_data) with 256 in *.
  case_bool_decide.
  - destruct (rb_put_fits r (ge_rb e)) as [-> _]; [rewrite Hs, Eb, Hl; lia|]. by rewrite Hr.
  - destruct (rb_put_full r (ge_rb e)) as [-> _]; [rewrite Hs, Eb, Hl; lia|done].
Qed.

Lemma ev_queue_get e q n :
  ev_queue e q ->
  fst (ring_buf_get (16 * Z.of_nat n) (ge_rb e)) = concat (take n q) /\
  ev_queue (ge_set_rb (snd (ring_buf_get (16 * Z.of_nat n) (ge_rb e))) e) (drop n q).
Proof.
  intros (Hs & Eb & Hq). destruct (rb_get (16 * Z.of_nat n) (ge_rb e)) as (-> & Ed & Es); [lia|].
  replace (Z.to_nat (16 * Z.of_nat n)) with (16 * n)%nat in * by lia.
  destruct (take_records n q Hq) as [Et Ed']. rewrite Eb. split; [done|].
  split; [cbn; by rewrite Es|]. split; [cbn; by rewrite Ed, Eb|]. by apply Forall_drop.
Qed.

(** * The interrupt *)

(** The record of an edge and the state of the devices after it was made. *)
Definition edge_record (req : gpioevent_request) (dev : Z) (x : E) : list Z * E :=
  let eflags := er_eventflags req in
  let '(now, x) := k_uptime_get x in
  let '(id, x) :=
    if has eflags GPIOEVENT_REQUEST_RISING_EDGE && has eflags GPIOEVENT_REQUEST_FALLING_EDGE then
      let '(v, x) := gpio_pin_get dev (u8 (er_lineoffset req)) x in
      (Some (if z2b v then GPIOEVENT_EVENT_RISING_EDGE else GPIOEVENT_EVENT_FALLING_EDGE), x)
    else if has eflags GPIOEVENT_REQUEST_RISING_EDGE then (Some GPIOEVENT_EVENT_RISING_EDGE, x)
    else if has eflags GPIOEVENT_REQUEST_FALLING_EDGE then (Some GPIOEVENT_EVENT_FALLING_EDGE, x)
    else (None, x) in
  (event_bytes ((now * NSEC_PER_MSEC) mod 2 ^ 64) id (stack_bytes x), x).

Lemma length_edge_record req dev x : length (fst (edge_record req dev x)) = 16%nat.
Proof.
  unfold edge_record. destruct (k_uptime_get x) as [now x1].
  destruct (_ && _); [destruct (gpio_pin_get _ _ _)|repeat case_match]; apply length_event_bytes, stack_record.
Qed.

Lemma irq_run i e c ch pins (w : W) :
  g_events w !! i = Some e -> ge_chip e = Some c -> 0 <= c -> g_devices w !! Z.to_nat c = Some ch ->
  is_pin (er_lineoffset (ge_req e)) ->
  gpio_irq (Z.of_nat i) pins w =
    if Z.testbit pins (er_lineoffset (ge_req e)) then
      let '(r, x) := edge_record (ge_req e) (gc_dev ch) (g_ext w) in
      if CONFIG_ASSERT && negb (fst (ring_buf_put r (ge_rb e)) =? sizeof_gpioevent_data) then UB
      else Ret (tt, put_event i (ge_set_signal (k_poll_signal_raise 1 (ge_signal e))
        (ge_set_rb (snd (ring_buf_put r (ge_rb e))) e)) (g_set_ext x w))
    else Ret (tt, w).
Proof.
  intros Hi Hc H0 Hch Hpin. unfold gpio_irq. run_by (by apply get_event_run). run_by (by apply BIT32_run).
  assert (has pins (Z.shiftl 1 (er_lineoffset (ge_req e))) = Z.testbit pins (er_lineoffset (ge_req e))) as ->.
  { unfold has. rewrite Z.land_comm. by apply has_bit. }
  destruct (Z.testbit pins _); [|done].
  unfold edge_record. destruct (k_uptime_get (g_ext w)) as [now x1] eqn:Et. run_by (by apply ext_run).
  pose proof (lookup_lt_Some _ _ _ Hi) as Hlt. set (ef := er_eventflags _).
  assert (Hend : forall r x, (let '(w_size, rb) := ring_buf_put r (ge_rb e) in
      do! (if negb (w_size =? sizeof_gpioevent_data) then __ASSERT_fails else skip) in
      set_event (Z.of_nat i) (ge_set_signal (k_poll_signal_raise 1 (ge_signal (ge_set_rb rb e))) (ge_set_rb rb e)))
    (g_set_ext x w) =
    if CONFIG_ASSERT && negb (fst (ring_buf_put r (ge_rb e)) =? sizeof_gpioevent_data) then UB
    else Ret (tt, put_event i (ge_set_signal (k_poll_signal_raise 1 (ge_signal e))
        (ge_set_rb (snd (ring_buf_put r (ge_rb e))) e)) (g_set_ext x w))).
  { intros r x. destruct (ring_buf_put r (ge_rb e)) as [n rb]. unfold __ASSERT_fails. cbn [fst snd].
    destruct CONFIG_ASSERT, (negb (n =? _)); cbn [andb]; [done|by apply set_event_run..]. }
  destruct (has ef GPIOEVENT_REQUEST_RISING_EDGE && has ef GPIOEVENT_REQUEST_FALLING_EDGE).
  { destruct (gpio_pin_get _ _ x1) as [v x2] eqn:Ev.
    run_by (rewrite Hc; run_by reflexivity; run_by (by apply get_chip_run); run_by (by apply ext_run); reflexivity).
    run_by reflexivity. apply Hend. }
  destruct (has ef GPIOEVENT_REQUEST_RISING_EDGE); [|destruct (has ef GPIOEVENT_REQUEST_FALLING_EDGE)];
    (run_by reflexivity); (run_by reflexivity); apply Hend.
Qed.

Lemma read_run i e n (w : W) :
  g_events w !! i = Some e ->
  gpio_event_read (EventFile (Z.of_nat i)) n w =
    Ret (fst (ring_buf_get n (ge_rb e)), put_event i (ge_set_rb (snd (ring_buf_get n (ge_rb e))) e) w).
Proof.
  intros Hi. unfold gpio_event_read. run_by reflexivity. run_by (by apply get_event_run).
  destruct (ring_buf_get n (ge_rb e)) as [b rb]. cbn [fst snd].
  by run_by (apply set_event_run; by eapply lookup_lt_Some).
Qed.

End Event.
