(* ===== verification/GpioFsCalls.v ===== *)
(** The calls users make on the files of gpio_fs.c, one at a time, with the
    interrupts between them: each keeps the invariant and none is undefined. *)

From stdpp Require Import strings.
From S2P Require Import Prelude ZephyrSvc GpioFsDefs GpioFs GpioFsInv GpioFsRun GpioFsSpec GpioFsEvent.

Section Calls.
Context {E R S : Type} `{!GpioSvc E, !OpenLaws E, !DriverLaws E, !RingBuf R, !RingLaws R,
  !PollSignal S, !SignalLaws S}.
Notation W := (gworld E R S).
Notation event := (gpio_event R S).

(** * Calls *)

Inductive fs_call : Type :=
| ChipOpen (name : list Z)
| ChipClose (c : Z)
| ChipIoctl (c request : Z) (arg : ioctl_arg)
| LineOpen (name : list Z)
| LineIoctl (i : nat) (request : Z) (arg : ioctl_arg)
| LineClose (i : nat)
| EventOpen (name : list Z)
| EventIoctl (i : nat) (request : Z) (arg : ioctl_arg)
| EventRead (i n : nat)
| EventClose (i : nat)
| EventIrq (i : nat) (pins : Z).

Definition run_call (call : fs_call) : ST W unit :=
  match call with
  | ChipOpen name => let! _ := gpio_chip_open name in skip
  | ChipClose c => let! _ := gpio_chip_close (ChipFile c) in skip
  | ChipIoctl c request arg => let! _ := gpio_chip_ioctl (ChipFile c) request arg in skip
  | LineOpen name => let! _ := gpio_line_open name in skip
  | LineIoctl i request arg => let! _ := gpio_line_ioctl (LineFile (Z.of_nat i)) request arg in skip
  | LineClose i => let! _ := gpio_line_close (LineFile (Z.of_nat i)) in skip
  | EventOpen name => let! _ := gpio_event_open name in skip
  | EventIoctl i request arg => let! _ := gpio_event_ioctl (EventFile (Z.of_nat i)) request arg in skip
  | EventRead i n => let! _ := gpio_event_read (EventFile (Z.of_nat i)) (16 * Z.of_nat n) in skip
  | EventClose i => let! _ := gpio_event_close (EventFile (Z.of_nat i)) in skip
  | EventIrq i pins => gpio_irq (Z.of_nat i) pins
  end.

(** The object of the table that the file refers to is in use. *)
Definition line_open (w : W) (i : nat) : Prop :=
  exists l c, g_lines w !! i = Some l /\ gl_chip l = Some c.
Definition event_open (w : W) (i : nat) : Prop :=
  exists e c, g_events w !! i = Some e /\ ge_chip e = Some c.

(** The argument points to an object of the type the request is for, filled by C. *)
Definition chip_arg_ok (request : Z) (arg : ioctl_arg) : Prop :=
  (request = GPIO_GET_CHIPINFO_IOCTL -> exists info, arg = AChipInfo info /\
    length (ci_name info) = 32%nat /\ length (ci_label info) = 32%nat) /\
  (request = GPIO_GET_LINEINFO_IOCTL -> exists info, arg = ALineInfo info /\
    length (li_name info) = 32%nat /\ length (li_consumer info) = 32%nat /\ is_u32 (li_line_offset info)) /\
  (request = GPIO_GET_LINEHANDLE_IOCTL -> exists req, arg = ALineRequest req /\ wf_request req) /\
  (request = GPIO_GET_LINEEVENT_IOCTL -> exists req, arg = AEventRequest req /\ wf_event_request req).

Definition line_arg_ok (request : Z) (arg : ioctl_arg) : Prop :=
  (request = GPIOHANDLE_SET_LINE_VALUES_IOCTL \/ request = GPIOHANDLE_GET_LINE_VALUES_IOCTL ->
    exists values, arg = AData values /\ length values = 64%nat) /\
  (request = GPIOHANDLE_SET_CONFIG_IOCTL ->
    exists config, arg = AConfig config /\ length (cf_default_values config) = 64%nat).

Definition event_arg_ok (request : Z) (arg : ioctl_arg) : Prop :=
  (request = GPIOHANDLE_GET_LINE_VALUES_IOCTL -> exists values, arg = AData values /\ length values = 64%nat) /\
  (request = ZFD_IOCTL_POLL_PREPARE -> exists events pev pev_end l, arg = APollPrepare events pev pev_end l /\
    0 <= pev <= pev_end /\ pev_end = Z.of_nat (length l)) /\
  (request = ZFD_IOCTL_POLL_UPDATE -> exists events revents pev l, arg = APollUpdate events revents pev l /\
    0 <= pev < Z.of_nat (length l)).

(** Where a full buffer fails an assertion, there is room for a record. *)
Definition irq_room (w : W) (i : nat) : Prop :=
  CONFIG_ASSERT = true -> forall e q, g_events w !! i = Some e -> ev_queue e q -> (length q < 16)%nat.

(** The calls of which the invariant is proved.  A line or event file is used
    while its object is in use, which the second close of a path that was opened
    twice is not ([second_close_undefined]); arguments have the type of
    the request; an event is read in whole records. *)
Definition enabled (w : W) (call : fs_call) : Prop :=
  match call with
  | ChipOpen _ | LineOpen _ | EventOpen _ => True
  | ChipClose c => is_chip w c
  | ChipIoctl c request arg => is_chip w c /\ chip_arg_ok request arg
  | LineIoctl i request arg => line_open w i /\ line_arg_ok request arg
  | LineClose i => line_open w i
  | EventIoctl i request arg => event_open w i /\ event_arg_ok request arg
  | EventRead i _ | EventClose i => event_open w i
  | EventIrq i _ => event_open w i /\ irq_room w i
  end.

(** * Each call keeps the invariant *)

(** A call that ends in a state the invariant holds of. *)
Notation safe c w := (wp c (fun _ w' => fs_ok w') w).

Lemma safe_call {A} (c : ST W A) (w : W) :
  safe c w -> exists w', (let! _ := c in skip) w = Ret (tt, w') /\ fs_ok w'.
Proof. intros (a & w' & Hr & Hok)%wp_inv. exists w'. by run_by (exact Hr). Qed.

Lemma set_ref_cnt_ok c ch v (w : W) :
  fs_ok w -> is_chip w c -> g_devices w !! Z.to_nat c = Some ch -> safe (set_chip c (gc_set_ref_cnt v ch)) w.
Proof.
  intros Hw Hc Hch. apply wp_set_chip; [done|]. rewrite <- (alter_as_insert (gc_set_ref_cnt v)) by done.
  by apply fs_ok_devices.
Qed.

Lemma chip_open_ok name (w : W) : fs_ok w -> safe (gpio_chip_open name) w.
Proof.
  intros Hw. unfold gpio_chip_open. apply wp_bind, wp_gets.
  destruct (first_index _ (g_devices w)) as [c|] eqn:Ec; [|by apply wp_ret].
  apply first_index_Some in Ec as (i & ch & -> & Hi & _).
  apply wp_bind. apply (wp_get_chip _ ch); [lia|by rewrite Nat2Z.id|]. apply wp_bind, wp_gets.
  destruct (negb _); [by apply wp_ret|]. apply wp_bind. eapply wp_mono; [apply set_ref_cnt_ok|]; try done.
  - split; [lia|]. apply lookup_lt_Some in Hi. lia.
  - by rewrite Nat2Z.id.
Qed.

Lemma chip_close_ok c (w : W) : fs_ok w -> is_chip w c -> safe (gpio_chip_close (ChipFile c)) w.
Proof.
  intros Hw Hc. destruct (chip_at w c Hc) as [ch Hch]. unfold gpio_chip_close.
  apply wp_bind, wp_ret, wp_bind. apply (wp_get_chip _ ch); [apply Hc|done|].
  apply wp_bind. eapply wp_mono; [by apply set_ref_cnt_ok|]. done.
Qed.

Lemma wp_strncpy dst src n Q (w : W) :
  0 <= n <= Z.of_nat (length dst) -> (forall l, Q l w) -> wp (lift (strncpy dst src n)) Q w.
Proof.
  intros Hn HQ. apply wp_lift. unfold strncpy. rewrite arr_blit_ok; [apply rwp_Ret, HQ|done|].
  rewrite length_take. lia.
Qed.

Lemma chip_info_ok c info (w : W) :
  fs_ok w -> is_chip w c -> length (ci_name info) = 32%nat -> length (ci_label info) = 32%nat ->
  safe (gpio_chip_ioctl (ChipFile c) GPIO_GET_CHIPINFO_IOCTL (AChipInfo info)) w.
Proof.
  intros Hw Hc Hn Hl. destruct (chip_at w c Hc) as [ch Hch]. unfold gpio_chip_ioctl. rewrite Z.eqb_refl.
  apply wp_bind, wp_ret, wp_bind. apply (wp_get_chip _ ch); [apply Hc|done|].
  apply wp_bind, wp_strncpy; [rewrite Hn; unfold GPIO_MAX_NAME_SIZE; lia|]. intros name.
  apply wp_bind, wp_strncpy; [rewrite Hl; unfold GPIO_MAX_NAME_SIZE; lia|]. intros label. by apply wp_ret.
Qed.

Lemma line_info_ok c info (w : W) :
  fs_ok w -> is_chip w c -> length (li_name info) = 32%nat -> length (li_consumer info) = 32%nat ->
  is_u32 (li_line_offset info) ->
  safe (gpio_chip_ioctl (ChipFile c) GPIO_GET_LINEINFO_IOCTL (ALineInfo info)) w.
Proof.
  intros Hw Hc Hn Hl Ho. destruct (dev_at w c Hc Hw) as (ch & Hch & Hok). unfold gpio_chip_ioctl. cbn [Z.eqb].
  change (GPIO_GET_LINEINFO_IOCTL =? GPIO_GET_CHIPINFO_IOCTL) with false. rewrite Z.eqb_refl. cbn iota.
  apply wp_bind, wp_ret, wp_bind. apply (wp_get_chip _ ch); [apply Hc|done|].
  destruct (Z.leb_spec (gc_pin_count ch) (li_line_offset info)); [by apply wp_ret|].
  destruct Hok as (_ & _ & Hnames). unfold is_u32 in Ho.
  apply wp_bind, wp_lift, rwp_arr_get; [lia|]. intros name _. apply wp_bind.
  assert (forall Q, (forall l, Q l w) -> wp (lift (match name with
    | Some n => strncpy (li_name info) n (GPIO_MAX_NAME_SIZE - 1)
    | None => arr_set (li_name info) 0 0 end)) Q w) as Hname.
  { intros Q HQ. destruct name; [apply wp_strncpy; [rewrite Hn; unfold GPIO_MAX_NAME_SIZE; lia|done]|].
    apply wp_lift, rwp_arr_set; [lia|done]. }
  apply Hname. intros l. apply wp_bind, wp_strncpy; [rewrite Hl; unfold GPIO_MAX_NAME_SIZE; lia|].
  intros l'. by apply wp_ret.
Qed.

Lemma line_create_ok req c (w : W) :
  fs_ok w -> is_chip w c -> wf_request req -> safe (gpio_line_handle_create req c) w.
Proof.
  intros Hw Hc Hwf. destruct (chip_at w c Hc) as [ch Hch]. unfold wp.
  pose proof (proj1 Hc) as H0. assert (chip_ok ch) as Hok by (eapply Forall_lookup_1; [apply Hw|done]).
  unfold gpio_line_handle_create. unfold bind. rewrite (line_request_ok_run req c ch) by done. cbn [rbind].
  destruct (valid_line_request ch req) eqn:Ev; cbn [negb]; [|done].
  rewrite commit_run; [|done..|].
  - pose proof (commit_ok req c ch w Hw H0 Hch Hwf Ev) as Hok'. destruct (commit_ref req c w) as [[res req'] w'].
    exact Hok'.
  - by eapply valid_req_ok.
Qed.

Lemma event_create_ok req c (w : W) :
  fs_ok w -> is_chip w c -> wf_event_request req -> safe (gpio_line_event_create req c) w.
Proof.
  intros Hw Hc Hwf. destruct (dev_at w c Hc Hw) as (ch & Hch & Hok). pose proof (proj1 Hc) as H0.
  unfold gpio_line_event_create, wp, bind. rewrite (event_request_ok_run req c ch) by done. cbn [rbind].
  destruct (valid_event_request ch req) eqn:Ev; cbn [negb]; [|done].
  assert (is_pin (er_lineoffset req)) as Hpin.
  { pose proof Ev as Ev'. unfold valid_event_request in Ev'. rewrite !andb_true_iff in Ev'.
    destruct Ev' as ((E1 & _) & _). apply Z.ltb_lt in E1. by eapply event_pin. }
  destruct (event_commit_spec req c w Hw Hc Hpin) as (res & req' & w' & -> & Hout).
  exact (event_outcome_ok _ _ _ _ _ _ _ Hw H0 Hch Hpin Ev Hout).
Qed.

Lemma chip_ioctl_ok c request arg (w : W) :
  fs_ok w -> is_chip w c -> chip_arg_ok request arg -> safe (gpio_chip_ioctl (ChipFile c) request arg) w.
Proof.
  intros Hw Hc (H1 & H2 & H3 & H4).
  destruct (Z.eq_dec request GPIO_GET_CHIPINFO_IOCTL) as [->|N1].
  { destruct (H1 eq_refl) as (info & -> & ? & ?). by apply chip_info_ok. }
  destruct (Z.eq_dec request GPIO_GET_LINEINFO_IOCTL) as [->|N2].
  { destruct (H2 eq_refl) as (info & -> & ? & ? & ?). by apply line_info_ok. }
  unfold gpio_chip_ioctl. rewrite (proj2 (Z.eqb_neq _ _) N1), (proj2 (Z.eqb_neq _ _) N2).
  destruct (Z.eqb_spec request GPIO_GET_LINEHANDLE_IOCTL) as [E3|].
  { destruct (H3 E3) as (req & -> & ?). apply wp_bind, wp_ret, wp_bind.
    eapply wp_mono; [by apply line_create_ok|]. done. }
  destruct (Z.eqb_spec request GPIO_GET_LINEEVENT_IOCTL) as [E4|].
  { destruct (H4 E4) as (req & -> & ?). apply wp_bind, wp_ret, wp_bind.
    eapply wp_mono; [by apply event_create_ok|]. done. }
  by repeat case_match; apply wp_ret.
Qed.

(** ** Line handles *)

(** A loop over the lines of an open handle that only talks to the device. *)
Lemma device_loop_ok n (body : Z -> unit -> ST W unit) Q (w : W) :
  (forall j x, 0 <= j < Z.of_nat n -> wp (body j tt) (fun _ s => exists x, s = g_set_ext x w) (g_set_ext x w)) ->
  (forall x, Q tt (g_set_ext x w)) -> wp (st_for n 0 body tt) Q w.
Proof.
  intros Hb HQ. apply (wp_st_for (fun _ _ s => exists x, s = g_set_ext x w)).
  - exists (g_ext w). by destruct w.
  - intros j [] s Hj [x ->]. apply Hb. lia.
  - intros [] s [x ->]. apply HQ.
Qed.

(** The offsets a loop over an open handle gets. *)
Lemma open_pin (w : W) i l c j :
  fs_ok w -> g_lines w !! i = Some l -> gl_chip l = Some c -> 0 <= j < Z.of_nat (Z.to_nat (hr_lines (gl_req l))) ->
  exists p, hr_lineoffsets (gl_req l) !! Z.to_nat j = Some p /\ is_pin p.
Proof.
  intros Hw Hi Hc Hj. destruct (ok_line w Hw _ _ _ Hi Hc) as (_ & Hl & Ho & _ & Hp).
  destruct (lookup_lt_is_Some_2 (hr_lineoffsets (gl_req l)) (Z.to_nat j)) as [p Hk]; [lia|].
  exists p. split; [done|]. eapply (Forall_lookup_1 _ _ (Z.to_nat j)); [exact Hp|].
  unfold req_pins. rewrite lookup_take_lt by lia. done.
Qed.

Lemma lookup_z_ok {A} (l : list A) j : 0 <= j < Z.of_nat (length l) -> exists x, l !! Z.to_nat j = Some x.
Proof. intros Hj. apply lookup_lt_is_Some_2. lia. Qed.

Lemma fs_ok_unlock (w : W) x n : fs_ok w -> n = 0 -> fs_ok (g_set_lock n (g_set_ext x w)).
Proof. intros [] ->. by split. Qed.

Lemma set_values_ok i values (w : W) :
  fs_ok w -> line_open w i -> length values = 64%nat ->
  safe (gpio_line_ioctl (LineFile (Z.of_nat i)) GPIOHANDLE_SET_LINE_VALUES_IOCTL (AData values)) w.
Proof.
  intros Hw (l & c & Hi & Hc) Hv. destruct (ok_line w Hw _ _ _ Hi Hc) as (Hcw & Hreq).
  destruct (chip_at w c Hcw) as [ch Hch]. pose proof (ok_lock w Hw) as Hlock.
  unfold gpio_line_ioctl. rewrite Z.eqb_refl. apply wp_bind, wp_ret, wp_bind, (wp_get_line i l); [done|].
  apply wp_bind, wp_gpio_lock, wp_bind, device_loop_ok.
  - intros j x Hj. destruct (open_pin w i l c j Hw Hi Hc Hj) as (p & Hp & _).
    destruct (lookup_z_ok values j) as [v Hvj]; [destruct Hreq; lia|].
    rewrite Hc. apply wp_bind, wp_ret, wp_bind, (wp_get_chip c ch); [apply Hcw|done|].
    apply wp_bind, (wp_arr_get _ j p); [lia|done|]. apply wp_bind, (wp_arr_get _ j v); [lia|done|].
    apply wp_bind, wp_call_ext, wp_ret. by eexists.
  - intros x. apply wp_bind, wp_gpio_unlock, wp_ret; [cbn; lia|]. apply (fs_ok_unlock w); [done|cbn; lia].
Qed.

Lemma get_values_ok i values (w : W) :
  fs_ok w -> line_open w i -> length values = 64%nat ->
  safe (gpio_line_ioctl (LineFile (Z.of_nat i)) GPIOHANDLE_GET_LINE_VALUES_IOCTL (AData values)) w.
Proof.
  intros Hw (l & c & Hi & Hc) Hv. destruct (ok_line w Hw _ _ _ Hi Hc) as (Hcw & Hreq).
  destruct (chip_at w c Hcw) as [ch Hch]. pose proof (ok_lock w Hw) as Hlock.
  unfold gpio_line_ioctl. change (_ =? GPIOHANDLE_SET_LINE_VALUES_IOCTL) with false. rewrite Z.eqb_refl. cbn iota.
  apply wp_bind, wp_ret, wp_bind, (wp_get_line i l); [done|]. apply wp_bind, wp_gpio_lock, wp_bind. rewrite Hc.
  apply wp_ret, wp_bind, (wp_get_chip c ch); [apply Hcw|done|]. apply wp_bind, wp_call_ext.
  destruct (gpio_port_get _ _ _) as [[r value] x]. cbn [fst snd]. apply wp_bind, wp_gpio_unlock; [cbn; lia|].
  apply wp_bind. match goal with |- wp _ _ ?s => set (w1 := s) end.
  apply (wp_st_for (fun _ vs s => length vs = 64%nat /\ s = w1)); [done| |].
  - intros j vs s Hj [Hvs ->]. destruct (open_pin w i l c j Hw Hi Hc) as (p & Hp & Hpin); [lia|].
    apply wp_bind, (wp_arr_get _ j p); [lia|done|]. apply wp_bind, wp_BIT32; [done|]. apply wp_lift.
    apply rwp_arr_set; [destruct Hreq; lia|]. by rewrite length_insert.
  - intros vs s [_ ->]. apply wp_ret. apply (fs_ok_unlock w); [done|cbn; lia].
Qed.

Lemma set_config_ok i config (w : W) :
  fs_ok w -> line_open w i -> length (cf_default_values config) = 64%nat ->
  safe (gpio_line_ioctl (LineFile (Z.of_nat i)) GPIOHANDLE_SET_CONFIG_IOCTL (AConfig config)) w.
Proof.
  intros Hw (l & c & Hi & Hc) Hv. destruct (ok_line w Hw _ _ _ Hi Hc) as (Hcw & Hreq).
  destruct (chip_at w c Hcw) as [ch Hch]. pose proof (ok_lock w Hw) as Hlock.
  unfold gpio_line_ioctl. change (_ =? GPIOHANDLE_SET_LINE_VALUES_IOCTL) with false.
  change (_ =? GPIOHANDLE_GET_LINE_VALUES_IOCTL) with false. rewrite Z.eqb_refl. cbn iota.
  apply wp_bind, wp_ret, wp_bind, (wp_get_line i l); [done|]. apply wp_bind, wp_gpio_lock, wp_bind, device_loop_ok.
  - intros j x Hj. destruct (open_pin w i l c j Hw Hi Hc Hj) as (p & Hp & _).
    destruct (lookup_z_ok (cf_default_values config) j) as [v Hvj]; [destruct Hreq; lia|].
    rewrite Hc. apply wp_bind, wp_ret, wp_bind, (wp_arr_get _ j p); [lia|done|].
    unfold wp. rewrite <- (Z2Nat.id j) by lia. rewrite (configure_pin_run c ch p _ _ _ v); [by eexists|apply Hcw|done|done].
  - intros x. apply wp_bind, wp_gpio_unlock, wp_ret; [cbn; lia|]. apply (fs_ok_unlock w); [done|cbn; lia].
Qed.

Lemma line_ioctl_ok i request arg (w : W) :
  fs_ok w -> line_open w i -> line_arg_ok request arg -> safe (gpio_line_ioctl (LineFile (Z.of_nat i)) request arg) w.
Proof.
  intros Hw Ho (H1 & H2).
  destruct (Z.eq_dec request GPIOHANDLE_SET_LINE_VALUES_IOCTL) as [->|N1].
  { destruct H1 as (values & -> & Hv); [by left|]. by apply set_values_ok. }
  destruct (Z.eq_dec request GPIOHANDLE_GET_LINE_VALUES_IOCTL) as [->|N2].
  { destruct H1 as (values & -> & Hv); [by right|]. by apply get_values_ok. }
  destruct (Z.eq_dec request GPIOHANDLE_SET_CONFIG_IOCTL) as [->|N3].
  { destruct H2 as (config & -> & Hv); [done|]. by apply set_config_ok. }
  destruct Ho as (l & c & Hi & _). unfold gpio_line_ioctl. apply wp_bind, wp_ret, wp_bind, (wp_get_line i l); [done|].
  rewrite (proj2 (Z.eqb_neq _ _) N1), (proj2 (Z.eqb_neq _ _) N2), (proj2 (Z.eqb_neq _ _) N3). by apply wp_ret.
Qed.

Lemma line_close_ok i (w : W) : fs_ok w -> line_open w i -> safe (gpio_line_close (LineFile (Z.of_nat i))) w.
Proof.
  intros Hw (l & c & Hi & Hc). destruct (ok_line w Hw _ _ _ Hi Hc) as (Hcw & _).
  destruct (chip_at w c Hcw) as [ch Hch]. unfold wp. rewrite (line_close_run i l c ch) by done. cbn. by apply close_ok.
Qed.

(** ** Events *)

Lemma wset_ext_same (w : W) : g_set_ext (g_ext w) w = w.
Proof. by destruct w. Qed.

Lemma get_event_value_ok i values (w : W) :
  fs_ok w -> event_open w i -> length values = 64%nat ->
  safe (gpio_event_ioctl (EventFile (Z.of_nat i)) GPIOHANDLE_GET_LINE_VALUES_IOCTL (AData values)) w.
Proof.
  intros Hw (e & c & Hi & Hc) Hv. destruct (ok_event w Hw _ _ _ Hi Hc) as (Hcw & _).
  destruct (chip_at w c Hcw) as [ch Hch]. pose proof (ok_lock w Hw) as Hlock.
  unfold gpio_event_ioctl. rewrite Z.eqb_refl. apply wp_bind, wp_ret, wp_bind, wp_gpio_lock.
  apply wp_bind, (wp_get_event i e); [done|]. rewrite Hc. apply wp_bind, wp_ret.
  apply wp_bind, (wp_get_chip c ch); [apply Hcw|done|]. apply wp_bind, wp_call_ext, wp_bind, wp_lift, rwp_arr_set; [lia|].
  apply wp_bind, wp_gpio_unlock, wp_ret; [cbn; lia|]. apply (fs_ok_unlock w); [done|cbn; lia].
Qed.

Lemma wp_same_event i e e' Q (w : W) :
  fs_ok w -> g_events w !! i = Some e -> ge_name e' = ge_name e -> ge_chip e' = ge_chip e ->
  ge_req e' = ge_req e -> (ge_chip e <> None -> records_ok (ge_rb e')) ->
  (forall w', fs_ok w' -> Q tt w') -> wp (set_event (Z.of_nat i) e') Q w.
Proof.
  intros Hw Hi Hn Hc Hp Hr HQ. apply wp_set_event; [by eapply lookup_lt_Some|]. apply HQ.
  rewrite <- (wset_ext_same w). apply (fs_ok_same_event w i e); try done. by rewrite Hp.
Qed.

Lemma event_ioctl_ok i request arg (w : W) :
  fs_ok w -> event_open w i -> event_arg_ok request arg -> safe (gpio_event_ioctl (EventFile (Z.of_nat i)) request arg) w.
Proof.
  intros Hw Ho (H1 & H2 & H3). destruct poll_codes as (D1 & D2 & D3 & _).
  destruct (Z.eq_dec request GPIOHANDLE_GET_LINE_VALUES_IOCTL) as [->|N1].
  { destruct H1 as (values & -> & Hv); [done|]. by apply get_event_value_ok. }
  unfold gpio_event_ioctl. rewrite (proj2 (Z.eqb_neq _ _) N1).
  destruct (Z.eqb_spec request ZFD_IOCTL_POLL_PREPARE) as [E2|N2].
  { destruct (H2 E2) as (events & pev & pev_end & l & -> & Hp & ->). apply wp_bind, wp_ret.
    destruct (has events _); [|by apply wp_ret]. destruct (Z.eqb_spec pev (Z.of_nat (length l))); [by apply wp_ret|].
    apply wp_bind, wp_lift, rwp_arr_set; [lia|by apply wp_ret]. }
  destruct (Z.eqb_spec request ZFD_IOCTL_POLL_UPDATE) as [E3|N3]; [|by apply wp_ret].
  destruct (H3 E3) as (events & revents & pev & l & -> & Hp). apply wp_bind, wp_ret.
  destruct (has events _); [|by apply wp_ret]. destruct Ho as (e & c & Hi & Hc).
  apply wp_bind, (wp_get_event i e); [done|]. destruct (sizeof_gpioevent_data <=? _); [|by apply wp_ret].
  apply wp_bind, (wp_same_event i e); [done..| |].
  { intros _. by destruct (ok_event w Hw _ _ _ Hi Hc) as (_ & _ & ?). }
  intros w' Hw'. apply wp_bind, wp_lift, rwp_arr_get; [lia|]. intros pe _.
  apply wp_bind, wp_lift, rwp_arr_set; [lia|by apply wp_ret].
Qed.

(** An open event has a queue. *)
Lemma event_queue_at i e c (w : W) : fs_ok w -> g_events w !! i = Some e -> ge_chip e = Some c -> exists q, ev_queue e q.
Proof.
  intros Hw Hi Hc. destruct (ok_event w Hw _ _ _ Hi Hc) as (_ & _ & Hr).
  destruct (ring_ok_records (ge_rb e) Hr) as (q & Eq & Hq). exists q. split; [apply Hr|done].
Qed.

Lemma event_read_ok i n (w : W) :
  fs_ok w -> event_open w i -> safe (gpio_event_read (EventFile (Z.of_nat i)) (16 * Z.of_nat n)) w.
Proof.
  intros Hw (e & c & Hi & Hc). destruct (event_queue_at i e c w Hw Hi Hc) as [q Hq].
  unfold wp. rewrite (read_run i e) by done. cbn. rewrite <- (wset_ext_same w).
  apply (fs_ok_same_event w i e); [done..|]. intros _. eapply ev_queue_ring_ok. by apply (ev_queue_get e q n).
Qed.

Lemma event_irq_ok i pins (w : W) :
  fs_ok w -> event_open w i -> irq_room w i -> safe (gpio_irq (Z.of_nat i) pins) w.
Proof.
  intros Hw (e & c & Hi & Hc) Hroom. destruct (event_queue_at i e c w Hw Hi Hc) as [q Hq].
  destruct (ok_event w Hw _ _ _ Hi Hc) as (Hcw & Hpin & _). destruct (chip_at w c Hcw) as [ch Hch].
  unfold wp. rewrite (irq_run i e c ch) by (done || apply Hcw). cbn. destruct (Z.testbit _ _); [|done].
  pose proof (length_edge_record (ge_req e) (gc_dev ch) (g_ext w)) as Hl.
  destruct (edge_record _ _ _) as [r x]. rewrite (ev_queue_room e q r Hq Hl).
  assert (CONFIG_ASSERT && negb (bool_decide (length q < 16)%nat) = false) as ->.
  { unfold irq_room in Hroom. destruct CONFIG_ASSERT; [|done]. cbn [andb]. apply negb_false_iff, bool_decide_eq_true.
    by eapply Hroom. }
  apply (fs_ok_same_event w i e); [done..|]. intros _.
  exact (ev_queue_ring_ok _ _ (ev_queue_put e q r _ Hq Hl)).
Qed.

Lemma event_close_ok i (w : W) : fs_ok w -> event_open w i -> safe (gpio_event_close (EventFile (Z.of_nat i))) w.
Proof.
  intros Hw (e & c & Hi & Hc). destruct (event_close_spec i e c w Hw Hi Hc) as (w' & Hr & Hok & _).
  unfold wp. by rewrite Hr.
Qed.

(** ** Opening a path again *)

(** Claiming again what a handle owns changes no mask. *)
Lemma claimed_again_ok i l c ch (w : W) :
  fs_ok w -> g_lines w !! i = Some l -> gl_chip l = Some c -> fs_ok (claimed c ch (gl_req l) w).
Proof.
  intros Hw Hi Hc. destruct (ok_line w Hw _ _ _ Hi Hc) as [[H0 _] Hreq]. unfold claimed. set (x := claim_ext _ _ _).
  assert (put_line i l (with_mask c (mask_or (req_pins (gl_req l))) (g_set_ext x w)) =
    with_mask c (mask_or (req_pins (gl_req l))) (g_set_ext x w)) as <-.
  { unfold put_line, with_mask, g_set_lines, g_set_devices, g_set_ext. cbn. by rewrite list_insert_id. }
  apply (fs_ok_put_line _ i l); [by apply fs_ok_ext|done|done| |done|intros m; by apply mask_or_u32, Hreq|].
  { intros c' Hc'. exact (ok_line w Hw _ _ _ Hi Hc'). }
  intros c' ch' p Hch' Hp. do 2 f_equal. destruct (decide (Z.of_nat c' = c)) as [<-|]; [|done].
  rewrite testbit_mask_or by (apply Hreq || apply Hp). case_bool_decide as Hin; [|by rewrite orb_false_r].
  pose proof (owner_counted w i l (Z.of_nat c') p Hi (conj Hc Hin)) as Ho. cbn in Hch'.
  rewrite (ok_mask w Hw _ _ _ Hch' Hp) in Ho. destruct (Z.testbit _ _); [done|lia].
Qed.

Lemma line_open_ok name (w : W) : fs_ok w -> safe (gpio_line_open name) w.
Proof.
  intros Hw. destruct (first_index (fun l => strcmp_eq name (gl_name l) = true) (g_lines w)) as [i'|] eqn:Ei.
  2:{ unfold wp, gpio_line_open, gpio_line_handle_find, bind, gets. by rewrite Ei. }
  pose proof Ei as (i & l & -> & Hi & Hn%bool_decide_eq_true & _)%first_index_Some. subst name.
  destruct (gl_chip l) as [c|] eqn:Hc.
  - destruct (ok_line w Hw _ _ _ Hi Hc) as [Hcw Hreq]. destruct (chip_at w c Hcw) as [ch Hch]. unfold wp.
    rewrite (line_open_run i l c ch); [by apply (claimed_again_ok i l)|by apply names_unique|try done..].
    by rewrite (ok_lock w Hw).
  - unfold gpio_line_open, gpio_line_handle_find. apply wp_bind, wp_gets. rewrite Ei.
    apply wp_bind, (wp_get_line _ l); [done|]. rewrite Hc. by apply wp_ret.
Qed.

(** An event that is opened again starts with an empty buffer. *)
Lemma event_open_ok name (w : W) : fs_ok w -> safe (gpio_event_open name) w.
Proof.
  intros Hw. destruct (first_index (fun e => strcmp_eq name (ge_name e) = true) (g_events w)) as [i'|] eqn:Ei.
  2:{ unfold wp, gpio_event_open, gpio_line_event_find, bind, gets. by rewrite Ei. }
  pose proof Ei as (i & e & -> & Hi & Hn%bool_decide_eq_true & _)%first_index_Some. subst name.
  destruct (ge_chip e) as [c|] eqn:Hc.
  - destruct (ok_event w Hw _ _ _ Hi Hc) as (Hcw & Hpin & _).
    destruct (event_open_spec i e c w) as (r & f & x & w' & Ho & Hcase); try done.
    { by apply event_names_unique. } { by rewrite (ok_lock w Hw). }
    unfold wp. rewrite Ho. cbn. destruct Hcase as [(_ & ->)|(_ & _ & ->)].
    + apply (fs_ok_same_event w i e); try done. intros _. apply ring_ok_init.
    + apply (fs_ok_put_event _ i e); [by apply fs_ok_ext|done|done| |apply Hcw| |].
      * intros c' [= <-]. split; [done|]. split; [done|]. apply ring_ok_init.
      * intros m. apply mask_or_u32. by apply Forall_singleton.
      * intros c' ch' p Hch' Hp. f_equal; [|apply decide_ext; unfold event_owns; by rewrite Hc].
        destruct (decide (Z.of_nat c' = c)) as [<-|]; [|done].
        rewrite testbit_mask_or by ((by apply Forall_singleton) || apply Hp).
        case_bool_decide as Hin; [|by rewrite orb_false_r]. apply list_elem_of_singleton in Hin. subst p.
        pose proof (event_owner_counted w i e (Z.of_nat c') _ Hi (conj Hc eq_refl)) as Hown. cbn in Hch'.
        rewrite (ok_mask w Hw _ _ _ Hch' Hp) in Hown. destruct (Z.testbit _ _); [done|lia].
  - unfold gpio_event_open, gpio_line_event_find. apply wp_bind, wp_gets. rewrite Ei.
    apply wp_bind, (wp_get_event _ e); [done|]. rewrite Hc. by apply wp_ret.
Qed.

(** ** Any call *)

Lemma call_safe call (w : W) :
  fs_ok w -> enabled w call -> exists w', run_call call w = Ret (tt, w') /\ fs_ok w'.
Proof.
  intros Hw Hen. destruct call; cbn in Hen |- *.
  - by apply safe_call, chip_open_ok.
  - by apply safe_call, chip_close_ok.
  - destruct Hen. by apply safe_call, chip_ioctl_ok.
  - by apply safe_call, line_open_ok.
  - destruct Hen. by apply safe_call, line_ioctl_ok.
  - by apply safe_call, line_close_ok.
  - by apply safe_call, event_open_ok.
  - destruct Hen. by apply safe_call, event_ioctl_ok.
  - by apply safe_call, event_read_ok.
  - by apply safe_call, event_close_ok.
  - destruct Hen as [Ho Hroom]. destruct (wp_inv _ _ _ (event_irq_ok i pins w Hw Ho Hroom)) as ([] & w' & Hr & Hok). by exists w'.
Qed.

End Calls.
