(* ===== verification/GpioFsProps.v ===== *)
(** Theorems about gpio_fs.c as a whole: what holds after its start and any
    sequence of whole calls and interrupts, the queue of an event, and the values
    of lines; then where the promises end: two threads that request the same
    line, a handle that is opened twice, and polling. *)

From stdpp Require Import strings.
From S2P Require Import Prelude ZephyrSvc GpioFsDefs GpioFs GpioFsInv GpioFsRun GpioFsSpec GpioFsEvent GpioFsCalls.

Section Props.
Context {E R S : Type} `{!GpioSvc E, !OpenLaws E, !DriverLaws E, !RingBuf R, !RingLaws R,
  !PollSignal S, !SignalLaws S}.
Notation W := (gworld E R S).
Notation event := (gpio_event R S).

(** * Start *)

(** The chips as the device tree describes them, none of their lines in use. *)
Definition chips_static (devices : list gpio_chip) : Prop :=
  Forall (fun ch => chip_ok ch /\ gc_pin_mask ch = 0) devices.

Lemma register_loop_run (w : W) :
  exists x, st_for (length (g_devices w)) 0 (fun i _ =>
    let! chip := get_chip i in
    let! _ := call_ext (devfs_register (dev_path (gc_label chip)) gpio_chip_fs) in
    skip) tt w = Ret (tt, g_set_ext x w).
Proof.
  match goal with |- exists x, ?c w = _ =>
    assert (wp c (fun _ s => exists x, s = g_set_ext x w) w) as ([] & s & Hr & x & ->)%wp_inv end; [|by exists x].
  apply device_loop_ok; [|by eexists]. intros j x Hj.
  destruct (lookup_z_ok (g_devices w) j) as [ch Hch]; [lia|].
  apply wp_bind, (wp_get_chip j ch); [lia|done|]. apply wp_bind, wp_call_ext, wp_ret. by eexists.
Qed.

(** The loops that give the objects their names. *)
Lemma line_init_run (w : W) :
  length (g_lines w) = 64%nat -> Forall (fun l => gl_chip l = None) (g_lines w) ->
  exists ls, gpio_line_handle_init w = Ret (tt, g_set_lines ls w) /\ length ls = 64%nat /\
    forall k l, ls !! k = Some l -> gl_chip l = None /\ gl_name l = line_name (Z.of_nat k).
Proof.
  intros Hlen Hfree. set (named j ls := length ls = 64%nat /\ forall k l, ls !! k = Some l ->
    gl_chip l = None /\ (Z.of_nat k < j -> gl_name l = line_name (Z.of_nat k))).
  assert (wp gpio_line_handle_init (fun _ s => exists ls, s = g_set_lines ls w /\ named 64 ls) w)
    as ([] & s & Hr & ls & -> & Hls & Hn)%wp_inv.
  { apply (wp_st_for (fun j _ s => exists ls, s = g_set_lines ls w /\ named j ls)).
    - exists (g_lines w). split; [by destruct w|]. split; [done|]. intros k l Hk. split; [|lia].
      by eapply (Forall_lookup_1 _ _ _ _ Hfree).
    - intros j [] s Hj (ls & -> & Hls & Hn). destruct (lookup_z_ok ls j) as [l Hl]; [lia|].
      rewrite <- (Z2Nat.id j) by lia. apply wp_bind, (wp_get_line _ l); [done|]. apply wp_set_line; [cbn; lia|].
      eexists. split; [done|]. split; [by rewrite length_insert|].
      intros k l' [(<- & <- & _)|[Hne Hk]]%list_lookup_insert_Some.
      + split; [exact (proj1 (Hn _ _ Hl))|done].
      + destruct (Hn k l' Hk) as [? Hname]. split; [done|]. intros Hlt. apply Hname. lia.
    - intros [] s Hs. exact Hs. }
  exists ls. split; [done|]. split; [done|]. intros k l Hk. destruct (Hn k l Hk) as [? Hname].
  split; [done|]. apply Hname. apply lookup_lt_Some in Hk. lia.
Qed.

Lemma event_init_run (w : W) :
  length (g_events w) = 64%nat -> Forall (fun e => ge_chip e = None) (g_events w) ->
  exists es, gpio_line_event_init w = Ret (tt, g_set_events es w) /\ length es = 64%nat /\
    forall k e, es !! k = Some e -> ge_chip e = None /\ ge_name e = event_name (Z.of_nat k).
Proof.
  intros Hlen Hfree. set (named j es := length es = 64%nat /\ forall k (e : event), es !! k = Some e ->
    ge_chip e = None /\ (Z.of_nat k < j -> ge_name e = event_name (Z.of_nat k))).
  assert (wp gpio_line_event_init (fun _ s => exists es, s = g_set_events es w /\ named 64 es) w)
    as ([] & s & Hr & es & -> & Hes & Hn)%wp_inv.
  { apply (wp_st_for (fun j _ s => exists es, s = g_set_events es w /\ named j es)).
    - exists (g_events w). split; [by destruct w|]. split; [done|]. intros k e Hk. split; [|lia].
      by eapply (Forall_lookup_1 _ _ _ _ Hfree).
    - intros j [] s Hj (es & -> & Hes & Hn). destruct (lookup_z_ok es j) as [e He]; [lia|].
      rewrite <- (Z2Nat.id j) by lia. apply wp_bind, (wp_get_event _ e); [done|]. apply wp_set_event; [cbn; lia|].
      eexists. split; [done|]. split; [by rewrite length_insert|].
      intros k e' [(<- & <- & _)|[Hne Hk]]%list_lookup_insert_Some.
      + split; [exact (proj1 (Hn _ _ He))|done].
      + destruct (Hn k e' Hk) as [? Hname]. split; [done|]. intros Hlt. apply Hname. lia.
    - intros [] s Hs. exact Hs. }
  exists es. split; [done|]. split; [done|]. intros k e Hk. destruct (Hn k e Hk) as [? Hname].
  split; [done|]. apply Hname. apply lookup_lt_Some in Hk. lia.
Qed.

Lemma count_none {A} (P : A -> Prop) `{!forall x, Decision (P x)} (l : list A) :
  (forall k x, l !! k = Some x -> ~ P x) -> count P l = O.
Proof.
  intros Hl. unfold count. destruct (filter P l) as [|x f] eqn:Ef; [done|]. exfalso.
  assert (x ∈ filter P l) as [HP Hx]%list_elem_of_filter by (rewrite Ef; by apply list_elem_of_here).
  apply list_elem_of_lookup_1 in Hx as [k Hk]. by eapply Hl.
Qed.

Lemma init_ok devices rb sg x :
  chips_static devices ->
  exists w : W, gpio_fs_init (gpio_static devices rb sg x) = Ret (0, w) /\ fs_ok w.
Proof.
  intros Hd. unfold gpio_fs_init. set (w0 := gpio_static devices rb sg x).
  destruct (register_loop_run w0) as [x1 E1].
  destruct (line_init_run (g_set_ext x1 w0)) as (ls & E2 & Hls & Hl).
  { exact (length_replicate 64 zero_line). } { by apply (Forall_replicate _ 64 zero_line). }
  destruct (event_init_run (g_set_lines ls (g_set_ext x1 w0))) as (es & E3 & Hes & He).
  { exact (length_replicate 64 (zero_event rb sg)). } { by apply (Forall_replicate _ 64 (zero_event rb sg)). }
  eexists. split; [run_by reflexivity; run_by (exact E1); run_by (exact E2); run_by (exact E3); reflexivity|].
  split; cbn [g_lock g_lines g_events g_devices g_set_lines g_set_events g_set_ext].
  - done.
  - exact Hls.
  - exact Hes.
  - intros i l Hi. by apply Hl.
  - intros i e Hi. by apply He.
  - eapply Forall_impl; [exact Hd|]. by intros ch [? _].
  - intros i l c Hi Hc. destruct (Hl i l Hi). congruence.
  - intros i e c Hi Hc. destruct (He i e Hi). congruence.
  - intros c chip p Hc _. destruct (Forall_lookup_1 _ _ _ _ Hd Hc) as [_ ->]. rewrite Z.bits_0.
    unfold owners. cbn [g_lines g_events g_set_lines g_set_events]. rewrite !count_none; [done| |].
    + intros k e Hk. apply free_event_owns. by destruct (He k e Hk).
    + intros k l Hk. apply free_line_owns. by destruct (Hl k l Hk).
Qed.

(** * Every sequence of calls *)

(** The states between calls: after the start, [enabled] calls - opening any
    path among them - and interrupts of events in any order, one at a time, while
    everything outside gpio_fs.c changes freely. *)
Inductive fs_reachable (devices : list gpio_chip) : W -> Prop :=
| reach_start rb sg x w :
    gpio_fs_init (gpio_static devices rb sg x) = Ret (0, w) -> fs_reachable devices w
| reach_call w call w' :
    fs_reachable devices w -> enabled w call -> run_call call w = Ret (tt, w') -> fs_reachable devices w'
| reach_outside w x : fs_reachable devices w -> fs_reachable devices (g_set_ext x w).

Lemma reachable_ok devices (w : W) : chips_static devices -> fs_reachable devices w -> fs_ok w.
Proof.
  intros Hd. induction 1 as [rb sg x w Hi|w call w' _ IH Hen Hr|w x _ IH].
  - destruct (init_ok devices rb sg x Hd) as (w' & Hi' & Hok). rewrite Hi in Hi'. by injection Hi' as ->.
  - destruct (call_safe call w IH Hen) as (w2 & Hr' & Hok). rewrite Hr in Hr'. by injection Hr' as ->.
  - by apply fs_ok_ext.
Qed.

(** C2: After its start and any sequence of calls and interrupts that run one at
    a time, where a line or event file is only used while its object is in use,
    an event is read in whole records and, if assertions are enabled, no
    interrupt finds a full buffer: the mutex is free, every line
    whose bit is set in the mask of its chip belongs to exactly one handle or event
    in use and no other line to any, and none of these calls is undefined.
    Opening any path, again or for the first time, is one of the calls.  Calls
    that overlap and the second close of a path that was opened twice are not:
    C25 and [second_close_undefined] show what they break. *)
Theorem gpio_fs_invariant devices (w : W) :
  chips_static devices -> fs_reachable devices w ->
  g_lock w = 0 /\
  (forall c chip p, g_devices w !! c = Some chip -> is_pin p ->
    owners w (Z.of_nat c) p = if Z.testbit (gc_pin_mask chip) p then 1%nat else 0%nat) /\
  (forall call, enabled w call -> exists w', run_call call w = Ret (tt, w') /\ fs_reachable devices w').
Proof.
  intros Hd Hr. pose proof (reachable_ok devices w Hd Hr) as Hok. split; [apply Hok|]. split; [apply Hok|].
  intros call Hen. destruct (call_safe call w Hok Hen) as (w' & Hrun & _). exists w'. split; [done|].
  by eapply reach_call.
Qed.

(** * An event is a queue of records *)

(** What interrupts and users do with an open event: an interrupt of [pins],
    [read] of [n] records, and the second half of [poll]. *)
Inductive ev_op : Set :=
| OpEdge (pins : Z)
| OpRead (n : nat)
| OpPoll (pe : k_poll_event).

(** The bytes read, or what [poll] reports. *)
Definition ev_call (i : nat) (op : ev_op) : ST W (list Z) :=
  match op with
  | OpEdge pins => do! gpio_irq (Z.of_nat i) pins in ret []
  | OpRead n => gpio_event_read (EventFile (Z.of_nat i)) (16 * Z.of_nat n)
  | OpPoll pe =>
      let! r := gpio_event_ioctl (EventFile (Z.of_nat i)) ZFD_IOCTL_POLL_UPDATE (APollUpdate ZVFS_POLLIN 0 0 [pe]) in
      ret (match snd r with APollUpdate _ revents _ _ => [revents] | _ => [] end)
  end.

Fixpoint ev_calls (i : nat) (ops : list ev_op) : ST W (list (list Z)) :=
  match ops with
  | [] => ret []
  | op :: ops => let! out := ev_call i op in let! outs := ev_calls i ops in ret (out :: outs)
  end.

(** The same on a queue of records; [None] is a failed assertion. *)
Definition queue_call (req : gpioevent_request) (dev : Z) (op : ev_op) (s : list (list Z) * E) :
    option (list Z * (list (list Z) * E)) :=
  let '(q, x) := s in
  match op with
  | OpEdge pins =>
      if Z.testbit pins (er_lineoffset req) then
        if CONFIG_ASSERT && negb (bool_decide (length q < 16)%nat) then None
        else let '(r, x) := edge_record req dev x in Some ([], (push r q, x))
      else Some ([], s)
  | OpRead n => Some (concat (take n q), (drop n q, x))
  | OpPoll _ => Some ([match q with [] => 0 | _ => ZVFS_POLLIN end], s)
  end.

Fixpoint queue_calls (req : gpioevent_request) (dev : Z) (ops : list ev_op) (s : list (list Z) * E) :
    option (list (list Z) * (list (list Z) * E)) :=
  match ops with
  | [] => Some ([], s)
  | op :: ops =>
      '(out, s) ← queue_call req dev op s;
      '(outs, s) ← queue_calls req dev ops s;
      Some (out :: outs, s)
  end.

(** Event [i] is open for [req] on chip [ch] and holds the records [q]. *)
Definition event_holds (i : nat) (c : Z) (ch : gpio_chip) (req : gpioevent_request) (q : list (list Z)) (w : W) : Prop :=
  0 <= c /\ g_devices w !! Z.to_nat c = Some ch /\
  exists e, g_events w !! i = Some e /\ ge_chip e = Some c /\ ge_req e = req /\ ev_queue e q.

Lemma holds_put i c ch req q e q' x (w : W) :
  event_holds i c ch req q w -> ge_chip e = Some c -> ge_req e = req -> ev_queue e q' ->
  event_holds i c ch req q' (put_event i e (g_set_ext x w)).
Proof.
  intros (H0 & Hch & e0 & Hi & _) Hc Hr Hq. split; [done|]. split; [done|]. exists e. split; [|done].
  apply list_lookup_insert_eq. by eapply lookup_lt_Some.
Qed.

(** The test of [poll] for a whole record. *)
Lemma record_pending (e : event) q :
  ev_queue e q -> (sizeof_gpioevent_data <=? ring_buf_size_get (ge_rb e)) = match q with [] => false | _ => true end.
Proof.
  intros (_ & Eb & Hq). rewrite rb_size_get, Eb, (length_records q Hq).
  destruct q; [done|]. apply Z.leb_le. unfold sizeof_gpioevent_data. cbn [length]. lia.
Qed.

Lemma poll_update_run i e q events revents pev l (w : W) :
  g_events w !! i = Some e -> ev_queue e q -> has events ZVFS_POLLIN = true -> 0 <= pev < Z.of_nat (length l) ->
  gpio_event_ioctl (EventFile (Z.of_nat i)) ZFD_IOCTL_POLL_UPDATE (APollUpdate events revents pev l) w =
  match q with
  | [] => Ret ((0, APollUpdate events revents (pev + 1) l), w)
  | _ => Ret ((0, APollUpdate events ZVFS_POLLIN (pev + 1)
             (alter (fun pe => mk_poll_event (pe_obj pe) (pe_type pe) (pe_mode pe) K_POLL_STATE_NOT_READY) (Z.to_nat pev) l)),
           put_event i (ge_set_signal (k_poll_signal_reset (ge_signal e)) e) w)
  end.
Proof.
  intros Hi Hq He Hp. destruct poll_codes as (D1 & D2 & D3 & _). unfold gpio_event_ioctl.
  rewrite (proj2 (Z.eqb_neq _ _) D3), (proj2 (Z.eqb_neq ZFD_IOCTL_POLL_UPDATE _) (not_eq_sym D1)), Z.eqb_refl, He.
  run_by reflexivity. run_by (by apply get_event_run). rewrite (record_pending e q Hq).
  destruct q; [done|]. run_by (apply set_event_run; by eapply lookup_lt_Some).
  destruct (lookup_z_ok l pev Hp) as [pe Hpe]. rewrite <- (Z2Nat.id pev) at 1 2 by lia. run_by (by apply arr_get_run).
  rewrite Z2Nat.id by lia. run_by (unfold lift; rewrite arr_set_ok by lia; reflexivity).
  by rewrite (alter_as_insert _ _ _ pe).
Qed.

Lemma has_pollin : has ZVFS_POLLIN ZVFS_POLLIN = true.
Proof. destruct poll_codes as (_ & _ & _ & H). unfold has. rewrite Z.land_diag. by apply negb_true_iff, Z.eqb_neq. Qed.

Lemma ev_call_run i c ch op q (w : W) req :
  is_pin (er_lineoffset req) -> event_holds i c ch req q w ->
  match queue_call req (gc_dev ch) op (q, g_ext w) with
  | Some (out, (q', x')) => exists w', ev_call i op w = Ret (out, w') /\ event_holds i c ch req q' w' /\ g_ext w' = x'
  | None => ev_call i op w = UB
  end.
Proof.
  intros Hpin Hh. pose proof Hh as (H0 & Hch & e & Hi & Hc & Hr & Hq). destruct op as [pins|n|pe]; cbn [ev_call queue_call].
  - pose proof (irq_run i e c ch pins w) as Hirq. rewrite Hr in Hirq. specialize (Hirq Hi Hc H0 Hch Hpin).
    destruct (Z.testbit _ _); [|exists w; by run_by (exact Hirq)].
    pose proof (length_edge_record req (gc_dev ch) (g_ext w)) as Hl. destruct (edge_record _ _ _) as [r x].
    rewrite (ev_queue_room e q r Hq Hl) in Hirq. destruct (CONFIG_ASSERT && _).
    { unfold bind. by rewrite Hirq. }
    eexists. split; [by run_by (exact Hirq)|]. split; [|done]. eapply holds_put; [done..|by apply ev_queue_put].
  - rewrite (read_run i e) by done. destruct (ev_queue_get e q n Hq) as [-> Hq']. eexists. split; [done|].
    split; [|done]. rewrite <- (wset_ext_same w). by eapply holds_put.
  - assert (0 <= 0 < Z.of_nat (length [pe])) as Hp by (cbn; lia).
    pose proof (poll_update_run i e q _ 0 0 [pe] w Hi Hq has_pollin Hp) as Er.
    destruct q; eexists; (split; [run_by (exact Er); reflexivity|]); (split; [|done]); [done|].
    rewrite <- (wset_ext_same w). by eapply holds_put.
Qed.

(** C11: An open event refines a queue of records: in any sequence of
    interrupts, reads and polls, an interrupt of its line appends its record
    while fewer than 16 are waiting, a read returns and removes the oldest records,
    and [poll] reports input exactly if a record is waiting.  The code asserts that
    the buffer is never full: an interrupt that finds 16 records waiting loses its
    record if assertions are disabled and fails the assertion if they are
    enabled, and nothing else fails. *)
Theorem event_queue_refines i c ch req q ops (w : W) :
  is_pin (er_lineoffset req) -> event_holds i c ch req q w ->
  match queue_calls req (gc_dev ch) ops (q, g_ext w) with
  | Some (outs, (q', x')) => exists w', ev_calls i ops w = Ret (outs, w') /\ event_holds i c ch req q' w' /\ g_ext w' = x'
  | None => ev_calls i ops w = UB
  end.
Proof.
  intros Hpin. revert q w. induction ops as [|op ops IH]; intros q w Hh; cbn [queue_calls ev_calls].
  { by exists w. }
  pose proof (ev_call_run i c ch op q w req Hpin Hh) as Hrun.
  destruct (queue_call req (gc_dev ch) op (q, g_ext w)) as [[out [q1 x1]]|]; cbn [mbind option_bind].
  2: { unfold bind. by rewrite Hrun. }
  destruct Hrun as (w1 & Hr & Hh1 & Ex). specialize (IH q1 w1 Hh1). rewrite Ex in IH.
  destruct (queue_calls _ _ _ _) as [[outs [q2 x2]]|]; cbn.
  - destruct IH as (w2 & Hr2 & Hh2 & Ex2). exists w2. split; [|done]. run_by (exact Hr). by run_by (exact Hr2).
  - run_by (exact Hr). unfold bind. by rewrite IH.
Qed.

(** * Values of lines *)

(** One pin set. *)
Definition set_pin (dev : Z) (x : E) (pv : Z * Z) : E := snd (gpio_pin_set dev (u8 (fst pv)) (snd pv) x).

Lemma u8_pin p : is_pin p -> u8 p = p.
Proof. intros [H0 H1]. apply Z.mod_small. lia. Qed.

Lemma set_pins_plain dev pvs x :
  Forall is_pin pvs.*1 ->
  fold_left (set_pin dev) pvs x = fold_left (fun x '(p, v) => snd (gpio_pin_set dev p v x)) pvs x.
Proof.
  revert x. induction pvs as [|[p v] pvs IH]; intros x Hps; [done|]. cbn [fold_left fmap list_fmap] in *.
  apply Forall_cons in Hps as [Hp Hps]. unfold set_pin at 2. cbn in Hp |- *. rewrite u8_pin by done. by apply IH.
Qed.

Lemma fold_ext {X} (f : E -> X -> E) (l : list X) (w : W) :
  fold_left (fun s x => g_set_ext (f (g_ext s) x) s) l w = g_set_ext (fold_left f l (g_ext w)) w.
Proof. revert w. induction l as [|x l IH]; intros w; cbn [fold_left]; [by destruct w|]. by rewrite IH. Qed.

(** What the two calls do to an open handle. *)
Lemma set_values_run i l c ch values (w : W) :
  fs_ok w -> g_lines w !! i = Some l -> gl_chip l = Some c -> g_devices w !! Z.to_nat c = Some ch ->
  length values = 64%nat ->
  gpio_line_ioctl (LineFile (Z.of_nat i)) GPIOHANDLE_SET_LINE_VALUES_IOCTL (AData values) w =
  Ret ((0, AData values), g_set_ext (fold_left (set_pin (gc_dev ch)) (zip (req_pins (gl_req l)) values) (g_ext w)) w).
Proof.
  intros Hw Hi Hc Hch Hv. destruct (ok_line w Hw _ _ _ Hi Hc) as [[H0 _] Hreq].
  destruct (zip_req (gl_req l) values Hreq Hv) as (Hlen & _ & Hlk).
  unfold gpio_line_ioctl. rewrite Z.eqb_refl. run_by reflexivity. run_by (by apply get_line_run).
  run_by (apply lock_first_run, Hw). rewrite <- Hlen. set (pvs := zip _ _) in *.
  pose proof (st_for_fold (fun s => exists x, s = g_set_ext x (g_set_lock 1 w))
    (fun s pv => g_set_ext (set_pin (gc_dev ch) (g_ext s) pv) s)) as Hloop.
  edestruct Hloop as [El _]; cycle 2; [run_by (exact El)|by exists (g_ext w); destruct w|].
  - rewrite fold_ext. run_by (by apply unlock_last_run). unfold ret. by lock_eq w Hw.
  - intros k [p v] s Hk [x ->]. apply Hlk in Hk as (Hp & Hvk & Hpin). split; [|by eexists].
    rewrite Hc. run_by reflexivity. run_by (by apply get_chip_run). run_by (by apply arr_get_run).
    run_by (by apply arr_get_run). run_by (apply ext_run, surjective_pairing). reflexivity.
Qed.

Lemma get_values_run i l c ch values (w : W) :
  fs_ok w -> g_lines w !! i = Some l -> gl_chip l = Some c -> g_devices w !! Z.to_nat c = Some ch ->
  length values = 64%nat ->
  gpio_line_ioctl (LineFile (Z.of_nat i)) GPIOHANDLE_GET_LINE_VALUES_IOCTL (AData values) w =
  let '(_, v, x) := gpio_port_get (gc_dev ch) 0 (g_ext w) in
  Ret ((0, AData (((fun p => b2z (Z.testbit v p)) <$> req_pins (gl_req l)) ++
    drop (Z.to_nat (hr_lines (gl_req l))) values)), g_set_ext x w).
Proof.
  intros Hw Hi Hc Hch Hv. destruct (ok_line w Hw _ _ _ Hi Hc) as [[H0 _] Hreq]. pose proof Hreq as (Hl & Ho & _).
  set (pins := req_pins (gl_req l)). destruct (gpio_port_get (gc_dev ch) 0 (g_ext w)) as [[r v] x] eqn:Eg.
  assert (Hpl : length pins = Z.to_nat (hr_lines (gl_req l))) by (unfold pins, req_pins; rewrite length_take; lia).
  unfold gpio_line_ioctl. change (_ =? GPIOHANDLE_SET_LINE_VALUES_IOCTL) with false. rewrite Z.eqb_refl. cbn iota.
  run_by reflexivity. run_by (by apply get_line_run). run_by (apply lock_first_run, Hw). rewrite Hc.
  run_by reflexivity. run_by (by apply get_chip_run). run_by (by apply ext_run). cbn iota beta.
  run_by (by apply unlock_last_run). set (w1 := g_set_lock 0 _). rewrite <- Hpl.
  assert (wp (st_for (length pins) 0 (fun k values =>
      let! pin := lift (arr_get (hr_lineoffsets (gl_req l)) k) in
      let! b := BIT32 pin in lift (arr_set values k (b2z (has v b)))) values)
    (fun vs s => vs = ((fun p => b2z (Z.testbit v p)) <$> pins) ++ drop (length pins) values /\ s = w1) w1)
    as (vs & s & Hr & -> & ->)%wp_inv; [|by run_by (exact Hr); unfold ret, w1; lock_eq w Hw].
  apply (wp_st_for (fun j vs s => vs = ((fun p => b2z (Z.testbit v p)) <$> take (Z.to_nat j) pins) ++
    drop (Z.to_nat j) values /\ s = w1)); [done| |].
  - intros j vs s Hj [-> ->]. destruct (open_pin w i l c j Hw Hi Hc) as (p & Hp & Hpin); [lia|].
    assert (Hpk : pins !! Z.to_nat j = Some p) by (unfold pins, req_pins; rewrite lookup_take_lt by lia; done).
    destruct (lookup_z_ok values j) as [old Hold]; [lia|].
    assert (Hlt : length ((fun p => b2z (Z.testbit v p)) <$> take (Z.to_nat j) pins) = Z.to_nat j)
      by (rewrite length_fmap, length_take; lia).
    apply wp_bind, (wp_arr_get _ j p); [lia|done|]. apply wp_bind, wp_BIT32; [done|]. apply wp_lift.
    apply rwp_arr_set; [rewrite length_app, length_drop; lia|]. split; [|done].
    replace (Z.to_nat (j + 1)) with (Datatypes.S (Z.to_nat j)) by lia.
    rewrite (take_S_r _ _ p), fmap_app by done. rewrite (drop_S values old) by done.
    rewrite <- app_assoc. rewrite <- Hlt at 1. rewrite insert_app_r_alt, Nat.sub_diag by lia. cbn. do 2 f_equal.
    unfold has. rewrite Z.land_comm. by rewrite <- (has_bit p v).
  - intros vs s [-> ->]. split; [|done]. rewrite Z.add_0_l, Nat2Z.id. by rewrite firstn_all.
Qed.

(** C24: The calls on the values of an open handle.  SET_LINE_VALUES passes to
    the driver the values of exactly the lines of the handle, in their
    order, and returns 0; GET_LINE_VALUES reads the port once and writes for each
    line of the handle, in the same order, the bit of that line in the value the
    port read gave, behind which the buffer is not touched.  Both return 0 whatever
    the driver answers: the result of a failed read is not passed on. *)
Theorem line_values_spec i l c ch values (w : W) :
  fs_ok w -> g_lines w !! i = Some l -> gl_chip l = Some c -> g_devices w !! Z.to_nat c = Some ch ->
  length values = 64%nat ->
  let pins := take (Z.to_nat (hr_lines (gl_req l))) (hr_lineoffsets (gl_req l)) in
  gpio_line_ioctl (LineFile (Z.of_nat i)) GPIOHANDLE_SET_LINE_VALUES_IOCTL (AData values) w =
    Ret ((0, AData values),
      g_set_ext (fold_left (fun x '(p, v) => snd (gpio_pin_set (gc_dev ch) p v x)) (zip pins values) (g_ext w)) w) /\
  gpio_line_ioctl (LineFile (Z.of_nat i)) GPIOHANDLE_GET_LINE_VALUES_IOCTL (AData values) w =
    let '(_, v, x) := gpio_port_get (gc_dev ch) 0 (g_ext w) in
    Ret ((0, AData (((fun p => b2z (Z.testbit v p)) <$> pins) ++ drop (Z.to_nat (hr_lines (gl_req l))) values)),
      g_set_ext x w).
Proof.
  intros Hw Hi Hc Hch Hv pins. destruct (ok_line w Hw _ _ _ Hi Hc) as [_ Hreq]. split; [|by eapply get_values_run].
  destruct (zip_req (gl_req l) values Hreq Hv) as (_ & Hfst & _). pose proof Hreq as (_ & _ & _ & Hpins).
  rewrite (set_values_run i l c ch values w), set_pins_plain by (done || by rewrite Hfst). done.
Qed.

(** * Where the promises end *)

Lemma poll_prepare_run i events pev pev_end l (w : W) :
  has events ZVFS_POLLIN = true -> 0 <= pev < Z.of_nat (length l) -> pev <> pev_end ->
  gpio_event_ioctl (EventFile (Z.of_nat i)) ZFD_IOCTL_POLL_PREPARE (APollPrepare events pev pev_end l) w =
  Ret ((0, APollPrepare events (pev + 1) pev_end (<[Z.to_nat pev :=
    mk_poll_event (Some (Z.of_nat i)) K_POLL_TYPE_SIGNAL K_POLL_MODE_NOTIFY_ONLY K_POLL_STATE_NOT_READY]> l)), w).
Proof.
  intros He Hp Hne. destruct poll_codes as (D1 & D2 & D3 & _). unfold gpio_event_ioctl.
  rewrite (proj2 (Z.eqb_neq _ _) D2), Z.eqb_refl, He. run_by reflexivity. rewrite (proj2 (Z.eqb_neq _ _) Hne).
  by run_by (unfold lift; rewrite arr_set_ok by lia; reflexivity).
Qed.

(** [poll] clears the signal although records remain: after a [poll] that
    reports two records and a read of one, the next [poll] waits on a signal
    that is not raised while a record is there to be read. *)
Theorem poll_misses_record i c ch req r1 r2 q pe pe' (w : W) :
  is_pin (er_lineoffset req) -> event_holds i c ch req (r1 :: r2 :: q) w ->
  exists w1 w2 e, 
    ev_call i (OpPoll pe) w = Ret ([ZVFS_POLLIN], w1) /\
    ev_call i (OpRead 1) w1 = Ret (r1, w2) /\
    gpio_event_ioctl (EventFile (Z.of_nat i)) ZFD_IOCTL_POLL_PREPARE (APollPrepare ZVFS_POLLIN 0 1 [pe']) w2 =
      Ret ((0, APollPrepare ZVFS_POLLIN 1 1
        [mk_poll_event (Some (Z.of_nat i)) K_POLL_TYPE_SIGNAL K_POLL_MODE_NOTIFY_ONLY K_POLL_STATE_NOT_READY]), w2) /\
    g_events w2 !! i = Some e /\ ev_queue e (r2 :: q) /\ signaled (ge_signal e) = false.
Proof.
  intros Hpin (H0 & Hch & e & Hi & Hc & Hr & Hq).
  pose proof (lookup_lt_Some _ _ _ Hi) as Hlt. cbn [ev_call].
  assert (0 <= 0 < Z.of_nat (length [pe])) as Hp by (cbn; lia).
  pose proof (poll_update_run i e _ _ 0 0 [pe] w Hi Hq has_pollin Hp) as Er. cbn iota in Er.
  set (e1 := ge_set_signal _ e) in Er. set (w1 := put_event _ _ _) in Er.
  assert (g_events w1 !! i = Some e1) as Hi1 by by apply list_lookup_insert_eq.
  assert (ev_queue e1 (r1 :: r2 :: q)) as Hq1 by exact Hq.
  destruct (ev_queue_get e1 _ 1 Hq1) as [Eb Hq2].
  do 3 eexists. split; [by run_by (exact Er)|]. split; [rewrite (read_run i e1) by done; rewrite Eb; cbn [concat take]; by rewrite app_nil_r|].
  split; [apply (poll_prepare_run i _ 0 1 [pe']); [apply has_pollin|cbn; lia|done]|].
  split; [apply list_lookup_insert_eq; cbn; by rewrite length_insert|]. split; [exact Hq2|]. apply signal_reset.
Qed.

(** A successful commit adds an owner to each line of the request. *)
Lemma commit_owners req req' c ch p (w w' : W) :
  fs_ok w -> 0 <= c -> g_devices w !! Z.to_nat c = Some ch -> line_req_ok req -> p ∈ req_pins req ->
  line_request_commit req c w = Ret ((1, req'), w') ->
  owners w' c p = Datatypes.S (owners w c p).
Proof.
  intros Hw Hc Hch Hreq Hp. assert (is_chip w c) as Hcw by (split; [done|]; apply lookup_lt_Some in Hch; lia).
  rewrite commit_run by done. unfold commit_ref. rewrite Hch. intros [= Er]. revert Er.
  destruct (first_index _ _) as [i'|] eqn:Ei; [|by intros [= ?]].
  apply first_index_Some in Ei as (i & l & -> & Hi & Hl & _). rewrite Nat2Z.id, Hi.
  destruct (devfs_register_anon _ _ _) as [r e1]. destruct (negb (r =? 0)) eqn:Er; [by intros [= ?]|].
  destruct (open_begin _ _) as [[plan|] e2]; destruct (open_end _ _) as [fd e3].
  - intros [= _ <-].
    change (owners (put_line i ?l' (with_mask c ?f (g_set_ext e3 w)))) with (owners (put_line i l' w)).
    pose proof (owners_put_line w i l (mk_gpio_line (Some c) (hr_set_fd fd req) (gl_name l)) c p Hi) as Ho.
    rewrite (decide_False (P := line_owns _ _ l)), decide_True in Ho by (done || by apply free_line_owns). lia.
  - match goal with |- (- errno ?x, _, _) = _ -> _ => pose proof (errno_pos x) end. intros [= ?]. lia.
Qed.

(** What a request needs to get its handle: a free one, a path that the device
    file system registers, and an [open] that finds it. *)
Definition grantable (w : W) : Prop :=
  exists i l e1 plan e2, first_index (fun l => gl_chip l = None) (g_lines w) = Some (Z.of_nat i) /\
    g_lines w !! i = Some l /\
    devfs_register_anon (dev_path (gl_name l)) gpio_line_fs (g_ext w) = (0, e1) /\
    open_begin (dev_path (gl_name l)) e1 = (Some plan, e2).

Lemma granted_run req c ch (w : W) :
  fs_ok w -> 0 <= c -> g_devices w !! Z.to_nat c = Some ch -> line_req_ok req -> grantable w ->
  exists req' w', line_request_commit req c w = Ret ((1, req'), w').
Proof.
  intros Hw Hc Hch Hreq (i & l & e1 & plan & e2 & Ei & Hi & Er & Eb).
  assert (is_chip w c) as Hcw by (split; [done|]; apply lookup_lt_Some in Hch; lia).
  rewrite commit_run by done. unfold commit_ref. rewrite Ei, Hch, Nat2Z.id, Hi, Er. cbn [negb Z.eqb]. rewrite Eb.
  destruct (open_end _ _) as [fd e3]. by do 2 eexists.
Qed.

(** C25: The lines of a request are tested before the lock is taken.  When two
    threads request the same line and both tests come first, the first request is
    granted if a handle, a path and a descriptor are left for it, and so is then
    the second: the line has two owners. *)
Theorem create_race req1 req2 c ch p (w : W) :
  fs_ok w -> 0 <= c -> g_devices w !! Z.to_nat c = Some ch -> wf_request req1 -> wf_request req2 ->
  p ∈ req_pins req1 -> p ∈ req_pins req2 ->
  line_request_ok req1 c w = Ret (true, w) -> line_request_ok req2 c w = Ret (true, w) ->
  grantable w ->
  exists req1' w1, line_request_commit req1 c w = Ret ((1, req1'), w1) /\
    (grantable w1 -> exists req2' w2, line_request_commit req2 c w1 = Ret ((1, req2'), w2) /\
       owners w2 c p = 2%nat).
Proof.
  intros Hw Hc Hch Hwf1 Hwf2 Hp1 Hp2 Ht1 Ht2 Hg1.
  assert (chip_ok ch) as Hok by (eapply Forall_lookup_1; [apply Hw|done]).
  rewrite (line_request_ok_run req1 c ch) in Ht1 by done. rewrite (line_request_ok_run req2 c ch) in Ht2 by done.
  injection Ht1 as Hv1. injection Ht2 as Hv2.
  assert (is_chip w c) as Hcw by (split; [done|]; apply lookup_lt_Some in Hch; lia).
  pose proof (valid_req_ok ch req1 Hok Hwf1 Hv1) as Hq1. pose proof (valid_req_ok ch req2 Hok Hwf2 Hv2) as Hq2.
  destruct (granted_run req1 c ch w Hw Hc Hch Hq1 Hg1) as (req1' & w1 & Hr1). exists req1', w1. split; [done|].
  pose proof (commit_ok req1 c ch w Hw Hc Hch Hwf1 Hv1) as Hw1.
  destruct (commit_chip req1 c w) as [ch1 Hch1]; [done..|].
  pose proof Hr1 as E1. rewrite commit_run in E1 by done. injection E1 as E1. rewrite E1 in Hw1, Hch1. cbn in Hw1, Hch1.
  intros Hg2. destruct (granted_run req2 c ch1 w1 Hw1 Hc Hch1 Hq2 Hg2) as (req2' & w2 & Hr2). exists req2', w2. split; [done|].
  assert (is_pin p) as Hpin by (eapply Forall_forall; [apply Hq1|done]).
  assert (owners w c p = O) as Ho.
  { pose proof (ok_mask w Hw (Z.to_nat c) ch p Hch Hpin) as Ho. rewrite Z2Nat.id in Ho by done.
    by rewrite (valid_pins ch req1 p Hv1 Hpin Hp1) in Ho. }
  rewrite (commit_owners req2 req2' c ch1 p w1 w2) by done.
  rewrite (commit_owners req1 req1' c ch p w w1) by done. by rewrite Ho.
Qed.

(** The path of a line handle can be opened a second time.  The first close
    frees the handle that both files share, and the second close
    dereferences its chip, which is NULL by then. *)
Theorem second_close_undefined i l c (w : W) :
  fs_ok w -> g_lines w !! i = Some l -> gl_chip l = Some c -> 0 < hr_lines (gl_req l) ->
  exists w1 w2, gpio_line_open (gl_name l) w = Ret ((0, LineFile (Z.of_nat i)), w1) /\
    gpio_line_close (LineFile (Z.of_nat i)) w1 = Ret (0, w2) /\ gpio_line_close (LineFile (Z.of_nat i)) w2 = UB.
Proof.
  intros Hw Hi Hc Hl. destruct (ok_line w Hw _ _ _ Hi Hc) as [Hcw Hreq]. destruct (chip_at w c Hcw) as [ch Hch].
  pose proof (claimed_again_ok i l c ch w Hw Hi Hc) as Hw1.
  do 2 eexists. split; [apply (line_open_run i l c ch); try done|].
  { by apply names_unique. } { by rewrite (ok_lock w Hw). }
  split; [apply (line_close_run i l c (gc_set_pin_mask (mask_or (req_pins (gl_req l)) (gc_pin_mask ch)) ch)); [done..|by apply lookup_with_mask]|].
  set (w2 := put_line _ _ _). unfold gpio_line_close. run_by reflexivity.
  run_by (apply get_line_run, list_lookup_insert_eq; by eapply lookup_lt_Some). run_by reflexivity.
  cbn [gl_req gl_chip gl_set_chip]. by destruct (Z.to_nat (hr_lines (gl_req l))) eqn:En; [lia|].
Qed.

End Props.
