(* ===== verification/GpioFsSim.v ===== *)
(** A small GPIO driver and device file system for the witnesses about
    gpio_fs.c: levels of pins, the registered paths, and an [open] that finds
    the newest file system of a path.  The classes of gpio_fs.c hold of it. *)

From stdpp Require Import strings gmap.
From S2P Require Import Prelude ZephyrSvc GpioFsDefs GpioFs GpioFsInv GpioFsRun GpioFsSpec GpioFsEvent.
From S2P Require Import GpioFsCalls GpioFsProps.

Record gsim : Type := mk_gsim {
  gs_levels : gmap (Z * Z) bool;
  gs_outputs : list (Z * Z);
  gs_files : list (list Z * fs_system);
  gs_time : Z;
}.

Definition gs_level (d p : Z) (e : gsim) : bool := default false (gs_levels e !! (d, p)).

Definition gs_find (path : list Z) (e : gsim) : option (fs_system * list Z) :=
  match list_find (fun f => f.1 = path) (gs_files e) with
  | Some (_, f) => Some (f.2, drop 5 path)
  | None => None
  end.

#[export] Instance gsim_svc : GpioSvc gsim := {
  GPIO_INPUT := Z.shiftl 1 16; GPIO_OUTPUT := Z.shiftl 1 17; GPIO_OUTPUT_INIT_LOW := Z.shiftl 1 18;
  GPIO_OPEN_DRAIN := 6; GPIO_OPEN_SOURCE := 2; GPIO_PULL_UP := 16; GPIO_PULL_DOWN := 32; GPIO_DISCONNECTED := 0;
  GPIO_INT_EDGE_BOTH := 7; GPIO_INT_EDGE_RISING := 5; GPIO_INT_EDGE_FALLING := 6; GPIO_INT_DISABLE := 8;
  F_GETFL := 3; F_SETFL := 4; O_RDWR := 2;
  ZFD_IOCTL_POLL_PREPARE := 0x102; ZFD_IOCTL_POLL_UPDATE := 0x103; ZVFS_POLLIN := 1;
  K_POLL_TYPE_SIGNAL := 1; K_POLL_MODE_NOTIFY_ONLY := 0; K_POLL_STATE_NOT_READY := 0;
  device_name _ := c_str "gpio";
  device_is_ready _ _ := true;
  gpio_pin_configure d p f e :=
    (0, if has f (Z.shiftl 1 17) then mk_gsim (gs_levels e) ((d, p) :: gs_outputs e) (gs_files e) (gs_time e) else e);
  gpio_pin_set d p v e := (0, mk_gsim (<[(d, p) := z2b v]> (gs_levels e)) (gs_outputs e) (gs_files e) (gs_time e));
  gpio_pin_get d p e := (b2z (gs_level d p e), e);
  gpio_port_get d v e := ((0, mask_or (filter (fun p => gs_level d p e = true) (seqZ 0 32)) 0), e);
  gpio_pin_interrupt_configure _ _ _ e := (0, e);
  gpio_add_callback _ _ e := (0, e);
  gpio_remove_callback _ _ e := (0, e);
  k_uptime_get e := (gs_time e, mk_gsim (gs_levels e) (gs_outputs e) (gs_files e) (gs_time e + 1));
  stack_bytes _ := replicate 16 0;
  devfs_register path fs e := (0, mk_gsim (gs_levels e) (gs_outputs e) ((path, fs) :: gs_files e) (gs_time e));
  devfs_register_anon path fs e := (0, mk_gsim (gs_levels e) (gs_outputs e) ((path, fs) :: gs_files e) (gs_time e));
  devfs_unregister_anon path e :=
    (0, mk_gsim (gs_levels e) (gs_outputs e) (filter (fun f => f.1 <> path) (gs_files e)) (gs_time e));
  open_begin path e := (gs_find path e, e);
  open_end r e := (match r with Some (r, _) => if r <? 0 then -1 else 3 | None => -1 end, e);
  errno _ := 5;
  CONFIG_ASSERT := true;
}.

#[export] Instance gsim_open : OpenLaws gsim.
Proof.
  split.
  - intros name fs e e' [= <-]. unfold open_begin, gsim_svc, gs_find. cbn [gs_files list_find fst].
    rewrite decide_True by done. cbn [fst snd]. by rewrite drop_app_length'.
  - done.
  - intros r f e Hr. cbn. by rewrite (proj2 (Z.ltb_lt r 0)).
  - done.
  - done.
Defined.

#[export] Instance gsim_driver : DriverLaws gsim.
Proof. by split. Defined.

(** One chip of 8 lines, with requests for its lines 1 and 3, and for the edges of line 5. *)
Definition sim_chips : list gpio_chip := [mk_gpio_chip 0 (c_str "gpio0") (replicate 8 None) 8 0 0].
Definition sim_request : gpiohandle_request :=
  mk_gpiohandle_request ([1; 3] ++ replicate 62 0) GPIOHANDLE_REQUEST_OUTPUT (replicate 64 0) (replicate 32 0) 2 0.
Definition sim_event_request : gpioevent_request :=
  mk_gpioevent_request 5 0 GPIOEVENT_REQUEST_BOTH_EDGES (replicate 32 0) 0.

Definition sim_static : gworld gsim list_ring bool :=
  gpio_static sim_chips (ring_buf_init 0) false (mk_gsim ∅ [] [] 0).

Notation sim_world := (gworld gsim list_ring bool).

Definition after (c : ST sim_world unit) (w : sim_world) : sim_world :=
  match c w with Ret (_, w') => w' | _ => w end.

(** After the start, the request for lines, the request for edges, and two edges. *)
Definition sim_w0 : sim_world := match gpio_fs_init sim_static with Ret (_, w) => w | _ => sim_static end.
Definition sim_line_call : fs_call := ChipIoctl 0 GPIO_GET_LINEHANDLE_IOCTL (ALineRequest sim_request).
Definition sim_event_call : fs_call := ChipIoctl 0 GPIO_GET_LINEEVENT_IOCTL (AEventRequest sim_event_request).
Definition sim_irq : fs_call := EventIrq 0 (Z.shiftl 1 5).
Definition sim_w1 : sim_world := after (run_call sim_line_call) sim_w0.
Definition sim_w2 : sim_world := after (run_call sim_event_call) sim_w1.
Definition sim_w3 : sim_world := after (run_call sim_irq) (after (run_call sim_irq) sim_w2).

Lemma sim_chips_static : chips_static sim_chips.
Proof. apply Forall_singleton. repeat split; vm_compute; by try lia. Qed.

Lemma wf_sim_request : wf_request sim_request.
Proof. split; [done|]. split; [done|]. split; [|done]. by repeat constructor. Qed.

Lemma sim_reach_w0 : fs_reachable sim_chips sim_w0.
Proof. eapply (reach_start _ (ring_buf_init 0) false (mk_gsim ∅ [] [] 0)). by vm_compute. Qed.

Lemma sim_reached (c : fs_call) (w : sim_world) :
  fs_reachable sim_chips w -> enabled w c -> fs_reachable sim_chips (after (run_call c) w).
Proof.
  intros Hr Hen. destruct (call_safe c w (reachable_ok _ _ sim_chips_static Hr) Hen) as (w' & Hc & _).
  unfold after. rewrite Hc. by eapply reach_call.
Qed.

(** The argument of the request in question; no other request has its code. *)
Ltac sim_arg tac := split; [by vm_compute|]; repeat split; intros Hreq; (by vm_compute in Hreq) || tac.

Lemma sim_reach_w1 : fs_reachable sim_chips sim_w1.
Proof.
  apply sim_reached; [apply sim_reach_w0|]. sim_arg ltac:(eexists; split; [reflexivity|apply wf_sim_request]).
Qed.

Lemma sim_reach_w2 : fs_reachable sim_chips sim_w2.
Proof.
  apply sim_reached; [apply sim_reach_w1|]. sim_arg ltac:(eexists; split; [reflexivity|by vm_compute]).
Qed.

Lemma sim_event_open (w : sim_world) :
  match g_events w !! 0%nat with Some e => ge_chip e | None => None end = Some 0 -> event_open w 0.
Proof. destruct (g_events w !! 0%nat) as [e|] eqn:Ee; [|done]. intros Hc. by exists e, 0. Qed.

Lemma sim_irq_room (w : sim_world) :
  match g_events w !! 0%nat with Some e => (length (rb_bytes (ge_rb e)) <? 256)%nat | None => true end = true ->
  irq_room w 0.
Proof.
  intros Hl _ e q He (_ & Eb & Hq). rewrite He in Hl. apply Nat.ltb_lt in Hl.
  rewrite Eb, (length_records q Hq) in Hl. lia.
Qed.

Lemma sim_reach_w3 : fs_reachable sim_chips sim_w3.
Proof.
  apply sim_reached; [apply sim_reached; [apply sim_reach_w2|]|];
    (split; [by apply sim_event_open; vm_compute|by apply sim_irq_room; vm_compute]).
Qed.

Lemma gpio_fs_invariant_witness : exists w', run_call (LineClose 0) sim_w3 = Ret (tt, w') /\ fs_reachable sim_chips w'.
Proof.
  destruct (gpio_fs_invariant sim_chips sim_w3) as (_ & _ & Hcalls).
  - apply sim_chips_static.
  - apply sim_reach_w3.
  - apply (Hcalls (LineClose 0)). destruct (g_lines sim_w3 !! 0%nat) as [l|] eqn:El; [|by vm_compute in El].
    exists l, 0. split; [done|]. apply (f_equal (fmap gl_chip)) in El. vm_compute in El. by injection El.
Defined.

Lemma sim_ok (w : sim_world) : fs_reachable sim_chips w -> fs_ok w.
Proof. apply reachable_ok, sim_chips_static. Qed.

Lemma line_request_spec_witness :
  gpio_line_handle_create sim_request 0 sim_w0 = Ret (commit_ref sim_request 0 sim_w0) /\
  fst (fst (commit_ref sim_request 0 sim_w0)) = 1.
Proof.
  split; [|by vm_compute].
  rewrite (line_request_spec sim_request 0 (mk_gpio_chip 0 (c_str "gpio0") (replicate 8 None) 8 0 0) sim_w0);
    [done|apply sim_ok, sim_reach_w0|done|by vm_compute|apply wf_sim_request].
Defined.

(** The chip and the event in the states above. *)
Definition sim_chip (w : sim_world) : gpio_chip :=
  match g_devices w with ch :: _ => ch | [] => mk_gpio_chip 0 [] [] 0 0 0 end.
Definition sim_records (w : sim_world) : list (list Z) :=
  match g_events w !! 0%nat with
  | Some e => let b := rb_bytes (ge_rb e) in
      (fun k => take 16 (drop (16 * k) b)) <$> seq 0 (length b / 16)
  | None => []
  end.
Definition sim_req (w : sim_world) : gpioevent_request :=
  match g_events w !! 0%nat with Some e => ge_req e | None => sim_event_request end.

Lemma sim_holds (w : sim_world) (b : list (list Z)) :
  g_devices w <> [] -> length (g_events w) = 64%nat -> sim_records w = b ->
  match g_events w !! 0%nat with
  | Some e => ge_chip e = Some 0 /\ lr_size (ge_rb e) = 256%nat /\ rb_bytes (ge_rb e) = concat b
  | None => True end ->
  Forall (fun r => length r = 16%nat) b -> event_holds 0 0 (sim_chip w) (sim_req w) b w.
Proof.
  intros Hd Hl _ He Hb. split; [done|]. split; [by destruct w as [[|ch d] ? ? ? ?]|].
  destruct (lookup_lt_is_Some_2 (g_events w) 0) as [e Hi]; [lia|]. exists e. split; [done|].
  rewrite Hi in He. destruct He as (Hc & Hs & Eb). split; [done|]. split; [by unfold sim_req; rewrite Hi|].
  split; [cbn; by rewrite Hs|done].
Qed.

Ltac sim_holds_at := apply sim_holds; [by vm_compute|by vm_compute|by vm_compute|by vm_compute|vm_compute; by repeat constructor].

Definition sim_ops : list ev_op :=
  [OpPoll (mk_poll_event None 0 0 0); OpEdge 32; OpEdge 8; OpEdge 32; OpPoll (mk_poll_event None 0 0 0); OpRead 3; OpRead 1].

(** What the queue answers, and 17 edges. *)
Definition sim_outs : list (list Z) :=
  match queue_calls (sim_req sim_w2) (gc_dev (sim_chip sim_w2)) sim_ops ([], g_ext sim_w2) with
  | Some (outs, _) => outs | None => [] end.

Lemma event_queue_refines_witness :
  nth 4 sim_outs [] = [1] /\ length (nth 5 sim_outs []) = 32%nat /\
  (exists w', ev_calls 0 sim_ops sim_w2 = Ret (sim_outs, w')) /\
  ev_calls 0 (replicate 17 (OpEdge 32)) sim_w2 = UB.
Proof.
  assert (is_pin (er_lineoffset (sim_req sim_w2))) as Hp by by vm_compute.
  assert (event_holds 0 0 (sim_chip sim_w2) (sim_req sim_w2) [] sim_w2) as Hh by sim_holds_at.
  split; [by vm_compute|]. split; [by vm_compute|]. split.
  - pose proof (event_queue_refines 0 0 (sim_chip sim_w2) (sim_req sim_w2) [] sim_ops sim_w2 Hp Hh) as H.
    assert (match sim_outs with [] => false | _ => true end = true) as Hne by (vm_compute; reflexivity). unfold sim_outs in *.
    destruct (queue_calls _ _ _ _) as [[outs [q x]]|]; [|discriminate Hne].
    destruct H as (w' & Hr & _). exists w'. exact Hr.
  - pose proof (event_queue_refines 0 0 (sim_chip sim_w2) (sim_req sim_w2) [] (replicate 17 (OpEdge 32)) sim_w2 Hp Hh) as H.
    assert (queue_calls (sim_req sim_w2) (gc_dev (sim_chip sim_w2)) (replicate 17 (OpEdge 32)) ([], g_ext sim_w2) = None)
      as Hn by by vm_compute. rewrite Hn in H. exact H.
Defined.

Lemma sim_pin_w3 : is_pin (er_lineoffset (sim_req sim_w3)).
Proof. by vm_compute. Qed.
Lemma sim_holds_w3 : event_holds 0 0 (sim_chip sim_w3) (sim_req sim_w3) (sim_records sim_w3) sim_w3.
Proof. sim_holds_at. Qed.
Lemma sim_queue_w3 : length (sim_records sim_w3) = 2%nat.
Proof. by vm_compute. Qed.

Lemma poll_misses_record_witness :
  match sim_records sim_w3 with
  | r1 :: r2 :: _ => exists w1 w2, ev_call 0 (OpPoll (mk_poll_event None 0 0 0)) sim_w3 = Ret ([ZVFS_POLLIN], w1) /\
      ev_call 0 (OpRead 1) w1 = Ret (r1, w2)
  | _ => False end.
Proof.
  pose proof sim_holds_w3 as Hh. revert Hh. pose proof sim_queue_w3 as Hlen. revert Hlen.
  destruct (sim_records sim_w3) as [|r1 [|r2 q]]; [discriminate..|]. intros _ Hh.
  destruct (poll_misses_record 0 0 (sim_chip sim_w3) (sim_req sim_w3) r1 r2 q (mk_poll_event None 0 0 0)
    (mk_poll_event None 0 0 0) sim_w3 sim_pin_w3 Hh) as (w1 & w2 & e & H1 & H2 & _). exists w1, w2. exact (conj H1 H2).
Defined.

(** A registered path that is found. *)
Lemma sim_grantable (w : sim_world) i l :
  first_index (fun l => gl_chip l = None) (g_lines w) = Some (Z.of_nat i) -> g_lines w !! i = Some l -> grantable w.
Proof.
  intros Ei Hi. exists i, l. do 3 eexists. split; [done|]. split; [done|]. split; [reflexivity|].
  unfold open_begin, gsim_svc, gs_find. cbn [gs_files list_find fst]. by rewrite decide_True.
Qed.

Definition sim_line_left (w : sim_world) : bool :=
  match first_index (fun l => gl_chip l = None) (g_lines w) with Some _ => true | None => false end.

Lemma sim_next_line (w : sim_world) : sim_line_left w = true -> grantable w.
Proof.
  unfold sim_line_left. destruct (first_index _ (g_lines w)) as [z|] eqn:Ez; [|done]. intros _.
  pose proof Ez as (i & l & -> & Hi & _)%first_index_Some. by eapply sim_grantable.
Qed.

(** Two threads with the same request: both pass the tests in [sim_w0]. *)
Lemma create_race_witness : exists q1 q2 (w1 w2 : sim_world),
  line_request_commit sim_request 0 sim_w0 = Ret ((1, q1), w1) /\
  line_request_commit sim_request 0 w1 = Ret ((1, q2), w2) /\ owners w2 0 1 = 2%nat.
Proof.
  destruct (create_race sim_request sim_request 0 (sim_chip sim_w0) 1 sim_w0) as (q1 & w1 & Hr1 & Hsecond).
  - apply sim_ok, sim_reach_w0.
  - lia.
  - by vm_compute.
  - apply wf_sim_request.
  - apply wf_sim_request.
  - by apply (bool_decide_unpack _); vm_compute.
  - by apply (bool_decide_unpack _); vm_compute.
  - by vm_compute.
  - by vm_compute.
  - apply sim_next_line. vm_compute. reflexivity.
  - destruct Hsecond as (q2 & w2 & Hr2 & Ho).
    { apply sim_next_line.
      assert (match line_request_commit sim_request 0 sim_w0 with
        | Ret (_, w) => sim_line_left w | _ => true end = true) as Hf
        by (vm_compute; reflexivity). rewrite Hr1 in Hf. exact Hf. }
    exists q1, q2, w1, w2. split; [exact Hr1|]. split; [exact Hr2|exact Ho].
Defined.

(** The handle of [sim_request]. *)
Definition sim_handle : gpio_line := match g_lines sim_w1 !! 0%nat with Some l => l | None => zero_line end.

Lemma sim_handle_at : g_lines sim_w1 !! 0%nat = Some sim_handle.
Proof. by vm_compute. Qed.
Lemma sim_handle_chip : gl_chip sim_handle = Some 0.
Proof. by vm_compute. Qed.

Lemma second_close_undefined_witness : exists w1 w2 : sim_world,
  gpio_line_close (LineFile 0) w1 = Ret (0, w2) /\ gpio_line_close (LineFile 0) w2 = UB.
Proof.
  destruct (second_close_undefined 0 sim_handle 0 sim_w1 (sim_ok _ sim_reach_w1) sim_handle_at sim_handle_chip)
    as (w1 & w2 & _ & H1 & H2); [by vm_compute|]. exists w1, w2. exact (conj H1 H2).
Defined.

Lemma line_values_spec_witness : exists w1 values',
  gpio_line_ioctl (LineFile 0) GPIOHANDLE_SET_LINE_VALUES_IOCTL (AData ([0; 7] ++ replicate 62 9)) sim_w1 =
    Ret ((0, AData ([0; 7] ++ replicate 62 9)), w1) /\
  gs_level 0 3 (g_ext w1) = true /\
  gpio_line_ioctl (LineFile 0) GPIOHANDLE_GET_LINE_VALUES_IOCTL (AData ([0; 7] ++ replicate 62 9)) sim_w1 =
    Ret ((0, AData values'), sim_w1) /\ take 3 values' = [0; 0; 9].
Proof.
  destruct (line_values_spec 0 sim_handle 0 (sim_chip sim_w1) ([0; 7] ++ replicate 62 9) sim_w1
    (sim_ok _ sim_reach_w1) sim_handle_at sim_handle_chip) as [H1 H2].
  - by vm_compute.
  - done.
  - do 2 eexists. split; [exact H1|]. split; [by vm_compute|].
    change (GpioFs.gpio_port_get ?d 0 (g_ext sim_w1)) with
      ((0, mask_or (filter (fun p => gs_level d p (g_ext sim_w1) = true) (seqZ 0 32)) 0), g_ext sim_w1) in H2.
    cbn iota in H2. rewrite wset_ext_same in H2. split; [exact H2|]. by vm_compute.
Defined.
