(* ===== verification/SpdmDefs.v ===== *)
(** What the SPDM programs (samples/spdm) take from libspdm, libmctp and the
    USB stack: constants, calls, and the free monad [lib] in which a call
    of libspdm is a program that calls the program's functions back.
    Enumerations of which only the identity matters are types; values that end
    up in bytes or registers are fields of the class [SpdmConst]. *)

From S2P Require Import Prelude ZephyrSvc.

(** * Constants of libspdm and DSP0274 *)

Class SpdmConst : Type := {
  LIBSPDM_STATUS_SUCCESS : Z;
  LIBSPDM_STATUS_SEND_FAIL : Z;
  LIBSPDM_STATUS_RECEIVE_FAIL : Z;
  LIBSPDM_STATUS_ACQUIRE_FAIL : Z;
  LIBSPDM_STATUS_INVALID_PARAMETER : Z;
  LIBSPDM_STATUS_BUFFER_TOO_SMALL : Z;
  LIBSPDM_STATUS_IS_ERROR : Z -> bool;
  LIBSPDM_MCTP_TRANSPORT_HEADER_SIZE : Z;
  LIBSPDM_MCTP_TRANSPORT_TAIL_SIZE : Z;
  LIBSPDM_MAX_CERT_CHAIN_SIZE : Z;
  MCTP_MESSAGE_TYPE_SPDM : Z;
  MCTP_MESSAGE_TYPE_SECURED_MCTP : Z;
  SPDM_MESSAGE_VERSION_13 : Z;
  SPDM_VERSION_NUMBER_SHIFT_BIT : Z;
  RESPONSE_CERT_CAP : Z; RESPONSE_CHAL_CAP : Z; RESPONSE_KEY_EX_CAP : Z; RESPONSE_ENCRYPT_CAP : Z;
  RESPONSE_MAC_CAP : Z; RESPONSE_HANDSHAKE_IN_THE_CLEAR_CAP : Z; RESPONSE_EVENT_CAP : Z;
  RESPONSE_MULTI_KEY_CAP_NEG : Z; RESPONSE_GET_KEY_PAIR_INFO_CAP : Z; RESPONSE_SET_KEY_PAIR_INFO_CAP : Z;
  REQUEST_CERT_CAP : Z; REQUEST_ENCRYPT_CAP : Z; REQUEST_MAC_CAP : Z; REQUEST_KEY_EX_CAP : Z;
  REQUEST_HANDSHAKE_IN_THE_CLEAR_CAP : Z; REQUEST_MULTI_KEY_CAP_NEG : Z;
  BASE_HASH_ALGO_TPM_ALG_SHA_256 : Z;
  BASE_ASYM_ALGO_TPM_ALG_ECDSA_ECC_NIST_P256 : Z;
  DHE_NAMED_GROUP_SECP_256_R1 : Z;
  AEAD_CIPHER_SUITE_AES_128_GCM : Z;
  KEY_SCHEDULE_HMAC_HASH : Z;
  SPDM_ALGORITHMS_OPAQUE_DATA_FORMAT_1 : Z;
  SPDM_ALGORITHMS_MULTI_KEY_CONN : Z;
  SPDM_CERTIFICATE_INFO_CERT_MODEL_DEVICE_CERT : Z;
  SPDM_KEY_USAGE_BIT_MASK_KEY_EX_USE : Z;
  SPDM_KEY_USAGE_BIT_MASK_CHALLENGE_USE : Z;
  SPDM_REGISTRY_ID_DMTF : Z;
  SPDM_DMTF_EVENT_TYPE_EVENT_LOST : Z;
  SPDM_DMTF_EVENT_TYPE_CERTIFICATE_CHANGED : Z;
  LIBSPDM_EVENT_SUBSCRIBE_ALL : Z; LIBSPDM_EVENT_SUBSCRIBE_NONE : Z; LIBSPDM_EVENT_SUBSCRIBE_LIST : Z;
  SPDM_KEY_PAIR_ASYM_ALGO_CAP_ECC256 : Z;
  SPDM_KEY_PAIR_CAP_CERT_ASSOC_CAP : Z; SPDM_KEY_PAIR_CAP_KEY_USAGE_CAP : Z;
  SPDM_KEY_PAIR_CAP_ASYM_ALGO_CAP : Z;
  SPDM_SET_KEY_PAIR_INFO_CHANGE_OPERATION : Z; SPDM_SET_KEY_PAIR_INFO_ERASE_OPERATION : Z;
  SPDM_SET_KEY_PAIR_INFO_GENERATE_OPERATION : Z;
  SPDM_CHALLENGE_REQUEST_NO_MEASUREMENT_SUMMARY_HASH : Z;
  SPDM_KEY_EXCHANGE_REQUEST_NO_MEASUREMENT_SUMMARY_HASH : Z;
  SPDM_KEY_EXCHANGE_REQUEST_SESSION_POLICY_EVENT_ALL_POLICY : Z;
}.

(** Documented facts about them: which codes are errors, and that the codes of
    one set differ. *)
Class SpdmLaws `{!SpdmConst} : Prop := {
  success_no_error : LIBSPDM_STATUS_IS_ERROR LIBSPDM_STATUS_SUCCESS = false;
  receive_fail_error : LIBSPDM_STATUS_IS_ERROR LIBSPDM_STATUS_RECEIVE_FAIL = true;
  send_fail_error : LIBSPDM_STATUS_IS_ERROR LIBSPDM_STATUS_SEND_FAIL = true;
  acquire_fail_error : LIBSPDM_STATUS_IS_ERROR LIBSPDM_STATUS_ACQUIRE_FAIL = true;
  subscribe_distinct : NoDup [LIBSPDM_EVENT_SUBSCRIBE_ALL; LIBSPDM_EVENT_SUBSCRIBE_NONE;
    LIBSPDM_EVENT_SUBSCRIBE_LIST];
  operations_distinct : NoDup [SPDM_SET_KEY_PAIR_INFO_CHANGE_OPERATION;
    SPDM_SET_KEY_PAIR_INFO_ERASE_OPERATION; SPDM_SET_KEY_PAIR_INFO_GENERATE_OPERATION];
  event_ids_u16 : is_u16 SPDM_DMTF_EVENT_TYPE_EVENT_LOST /\
    is_u16 SPDM_DMTF_EVENT_TYPE_CERTIFICATE_CHANGED /\ is_u8 SPDM_REGISTRY_ID_DMTF;
}.

(** [libspdm_data_type_t], what [libspdm_set_data] sets. *)
Inductive libspdm_data_type : Type :=
| DATA_SPDM_VERSION | DATA_CAPABILITY_CT_EXPONENT | DATA_CAPABILITY_RTT_US
| DATA_CAPABILITY_DATA_TRANSFER_SIZE | DATA_CAPABILITY_MAX_SPDM_MSG_SIZE | DATA_CAPABILITY_FLAGS
| DATA_BASE_HASH_ALGO | DATA_BASE_ASYM_ALGO | DATA_MEASUREMENT_SPEC | DATA_MEASUREMENT_HASH_ALGO
| DATA_DHE_NAME_GROUP | DATA_AEAD_CIPHER_SUITE | DATA_REQ_BASE_ASYM_ALG | DATA_KEY_SCHEDULE
| DATA_OTHER_PARAMS_SUPPORT | DATA_LOCAL_PUBLIC_CERT_CHAIN | DATA_LOCAL_SUPPORTED_SLOT_MASK
| DATA_TOTAL_KEY_PAIRS | DATA_LOCAL_KEY_PAIR_ID | DATA_LOCAL_CERT_INFO
| DATA_LOCAL_KEY_USAGE_BIT_MASK | DATA_PEER_PUBLIC_ROOT_CERT.

#[export] Instance libspdm_data_type_eq_dec : EqDecision libspdm_data_type.
Proof. solve_decision. Defined.

(** [libspdm_data_parameter_t]. *)
Inductive data_location : Type := LOCATION_ZERO | LOCATION_LOCAL.
Record data_parameter : Type := mk_parameter { location : data_location; additional_data : list Z }.

(** [memset(&parameter, 0, sizeof(parameter))] *)
Definition zero_parameter : data_parameter := mk_parameter LOCATION_ZERO [0; 0; 0; 0].

(** * The functions libspdm calls back *)

(** The static buffers libspdm gets from the acquire calls, and pointers into them. *)
Inductive buf : Type := SenderBuf | ReceiverBuf.
Record ptr : Type := mk_ptr { p_buf : buf; p_off : Z }.

(** The functions of spdm_secret.c; pointers that may be NULL are options of
    what they point to, or booleans where only NULL or not matters. *)
Inductive hal_call : Type :=
| ChallengeOpaque (size : option Z)
| EncapChallengeOpaque (size : option Z)
| DataSign (version op_code asym hash : Z) (is_data_hash : bool) (message : list Z) (sig_size : Z)
| EventGetTypes (list : option (list Z)) (len : option Z) (count : bool)
| EventSubscribe (session type count len : Z) (list : bool)
| ReadKeyPair (id : Z) (info_len : option Z) (info : option (list Z))
| WriteKeyPair (id operation usage asym slot_mask : Z) (need_reset : bool).

Record key_pair_info : Type := mk_key_pair_info {
  capabilities : Z; key_usage_capabilities : Z; current_key_usage : Z;
  asym_algo_capabilities : Z; current_asym_algo : Z; assoc_cert_slot_mask : Z }.

Definition hal_ret (h : hal_call) : Type :=
  match h with
  | ChallengeOpaque _ | EncapChallengeOpaque _ => bool * option Z
  | DataSign _ _ _ _ _ _ _ => bool * (list Z * Z)
  | EventGetTypes _ _ _ => bool * (option (list Z) * option Z * option Z)
  | EventSubscribe _ _ _ _ _ => bool
  | ReadKeyPair _ _ _ => bool * (option key_pair_info * option Z * option (list Z))
  | WriteKeyPair _ _ _ _ _ _ => bool * option bool
  end.

(** The callbacks registered in main.c.  The library also reads and
    writes the buffers it holds. *)
Inductive lib_call : Type :=
| AcquireSender (out : bool)
| ReleaseSender (p : option buf)
| AcquireReceiver (out : bool)
| ReleaseReceiver (p : option buf)
| ReadBuf (b : buf)
| WriteBuf (b : buf) (l : list Z)
| DeviceSend (size : Z) (message : option ptr) (timeout : Z)
| DeviceReceive (size : option Z) (message : option (option ptr)) (timeout : Z)
| VendorGetId (standard_id vendor_id_len : bool)
| VendorResponse (req_size : Z) (req_data : option (list Z)) (resp_size : option Z)
    (resp_data : option (list Z))
| Hal (h : hal_call).

Definition call_ret (c : lib_call) : Type :=
  match c with
  | AcquireSender _ | AcquireReceiver _ => Z * option buf
  | ReleaseSender _ | ReleaseReceiver _ | WriteBuf _ _ => unit
  | ReadBuf _ => list Z
  | DeviceSend _ _ _ => Z
  | DeviceReceive _ _ _ => Z * option Z
  | VendorGetId _ _ => Z * option (Z * Z)
  | VendorResponse _ _ _ _ => Z * (option Z * option (list Z))
  | Hal h => hal_ret h
  end.

(** A call of libspdm: it reads and changes the state [E] outside the program
    and calls back.  It ends, because the type is inductive. *)
Inductive lib (E A : Type) : Type :=
| LRet (a : A)
| LGet (k : E -> lib E A)
| LPut (e : E) (p : lib E A)
| LCall (c : lib_call) (k : call_ret c -> lib E A).
Arguments LRet {E A} _.
Arguments LGet {E A} _.
Arguments LPut {E A} _ _.
Arguments LCall {E A} _ _.

(** * The functions libspdm and the others provide *)

(** The calls of the requester library. *)
Inductive api_call : Type :=
| InitConnection (ctx : option Z) (get_version_only : bool)
| GetDigest (ctx session : option Z)
| GetCertificate (ctx session : option Z) (slot size : Z)
| Challenge (ctx : option Z) (slot measurement_hash_type : Z)
| GetKeyPairInfo (ctx session : option Z) (id info_len : Z)
| SetKeyPairInfo (ctx session : option Z) (id operation usage asym slot_mask : Z)
| StartSession (ctx : option Z) (use_psk : bool) (measurement_hash_type slot policy : Z)
| GetEventTypes (ctx : option Z) (session len : Z)
| SubscribeEventTypes (ctx : option Z) (session count len : Z) (list : option (list Z))
| VendorSendReceive (ctx : option Z) (session standard_id vendor_id_len : Z) (request : list Z)
    (rsp_vendor_id_len rsp_size : Z)
| StopSession (ctx : option Z) (session attributes : Z).

(** What the calls return: a status, and the results stored through pointers. *)
Definition api_ret (c : api_call) : Type :=
  match c with
  | InitConnection _ _ | SetKeyPairInfo _ _ _ _ _ _ _ | SubscribeEventTypes _ _ _ _ _
  | StopSession _ _ _ => Z
  | GetDigest _ _ | GetCertificate _ _ _ _ | Challenge _ _ _ => Z
  | GetKeyPairInfo _ _ _ _ => Z * key_pair_info
  | StartSession _ _ _ _ _ => Z * Z
  | GetEventTypes _ _ _ => Z * (Z * Z * list Z)
  | VendorSendReceive _ _ _ _ _ _ _ => Z * (Z * list Z)
  end.

(** libspdm, libmctp, the USB device stack and the kernel on an opaque state.
    A context is a pointer; NULL is [None]. *)
Class SpdmSvc (E : Type) : Type := {
  libspdm_get_context_size : Z;
  k_malloc : Z -> E -> option Z * E;
  k_free : option Z -> E -> E;
  memset_block : Z -> Z -> Z -> E -> E;
  sys_rand_get : Z -> E -> list Z * E;
  libspdm_init_context : Z -> E -> Z * E;
  libspdm_register_device_io_func : Z -> E -> E;
  libspdm_register_transport_layer_func : Z -> Z -> Z -> Z -> E -> E;
  libspdm_register_device_buffer_func : Z -> Z -> Z -> E -> E;
  libspdm_get_sizeof_required_scratch_buffer : Z -> E -> Z;
  libspdm_set_scratch_buffer : Z -> Z -> Z -> E -> E;
  libspdm_set_data : Z -> libspdm_data_type -> data_parameter -> list Z -> E -> Z * E;
  libspdm_register_vendor_get_id_callback_func : Z -> E -> Z * E;
  libspdm_register_vendor_callback_func : Z -> E -> Z * E;
  libspdm_check_context : Z -> E -> bool * E;
  libspdm_responder_dispatch_message : option Z -> lib E Z;
  libspdm_api : forall c : api_call, lib E (api_ret c);
  libspdm_asym_get_private_key_from_pem : Z -> list Z -> E -> option Z * E;
  libspdm_asym_sign_hash : Z -> Z -> Z -> Z -> Z -> list Z -> Z -> E -> bool * (list Z * Z) * E;
  libspdm_asym_sign : Z -> Z -> Z -> Z -> Z -> list Z -> Z -> E -> bool * (list Z * Z) * E;
  libspdm_asym_free : Z -> Z -> E -> E;
  mctp_init : E -> option Z * E;
  mctp_register_bus : option Z -> Z -> Z -> E -> E;
  mctp_set_rx_all : option Z -> E -> E;
  mctp_message_tx : Z -> Z -> bool -> Z -> list Z -> E -> Z * E;
  MCTP_USB_MAX_PACKET_LENGTH : Z;
  MCTP_USB_HEADER_SIZE : Z;
  USBD_MSG_CONFIGURATION : Z;
  sample_usbd_init_device : E -> option Z * E;
  usbd_can_detect_vbus : Z -> E -> bool;
  usbd_enable : Z -> E -> Z * E;
}.
