(* ===== verification/SpdmSecret.v ===== *)
(** spdm_secret.c (samples/spdm): what libspdm asks the device for, i.e. events,
    the key pair and signatures.  The state is the file's static variables;
    signing uses functions of libspdm on the state outside. *)

From stdpp Require Import strings.
From S2P Require Import Prelude ZephyrSvc SpdmDefs SpdmCerts.

Section Secret.
Context `{!SpdmConst}.

Record hal_state : Type := mk_hal {
  g_event_subscribed : bool; g_event_session_id : Z;
  g_key_usage : Z; g_key_asym : Z; g_key_slot_mask : Z }.

(** The static initialisers. *)
Definition hal_static : hal_state :=
  mk_hal false 0 (Z.lor SPDM_KEY_USAGE_BIT_MASK_KEY_EX_USE SPDM_KEY_USAGE_BIT_MASK_CHALLENGE_USE)
    SPDM_KEY_PAIR_ASYM_ALGO_CAP_ECC256 1.

(** * Challenges and signatures *)

Definition libspdm_challenge_opaque_data (size : option Z) : bool * option Z :=
  match size with None => (false, None) | Some _ => (true, Some 0) end.
Definition libspdm_encap_challenge_opaque_data (size : option Z) : bool * option Z :=
  libspdm_challenge_opaque_data size.

Definition libspdm_responder_data_sign {E} `{!SpdmSvc E} (spdm_version op_code base_asym_algo base_hash_algo : Z)
    (is_data_hash : bool) (message : list Z) (sig_size : Z) (e : E) : bool * (list Z * Z) * E :=
  match libspdm_asym_get_private_key_from_pem base_asym_algo g_spdm_device_key_pem e with
  | (None, e) => (false, ([], sig_size), e)
  | (Some context, e) =>
    let '(result, signature, e) :=
      if is_data_hash
      then libspdm_asym_sign_hash spdm_version op_code base_asym_algo base_hash_algo context message sig_size e
      else libspdm_asym_sign spdm_version op_code base_asym_algo base_hash_algo context message sig_size e in
    let e := libspdm_asym_free base_asym_algo context e in
    (result, signature, e)
  end.

(** * Events *)

Record spdm_event_group_dmtf : Type := mk_event_group {
  registry_id : Z; vendor_id_len : Z; event_type_count : Z; event_group_ver : Z; attributes : Z;
  type0_id : Z; type0_rsvd : Z; type1_id : Z; type1_rsvd : Z }.

(** The packed structure in memory. *)
Definition event_group_bytes (g : spdm_event_group_dmtf) : list Z :=
  le_split 1 (registry_id g) ++ le_split 1 (vendor_id_len g) ++ le_split 2 (event_type_count g) ++
  le_split 2 (event_group_ver g) ++ le_split 4 (attributes g) ++
  le_split 2 (type0_id g) ++ le_split 2 (type0_rsvd g) ++
  le_split 2 (type1_id g) ++ le_split 2 (type1_rsvd g).
Definition sizeof_event_group : Z := 18.

Definition libspdm_event_get_types (list : option (list Z)) (len : option Z) (count : bool) :
    res (bool * (option (Datatypes.list Z) * option Z * option Z)) :=
  match list, len, count with
  | Some l, Some n, true =>
    if n <? sizeof_event_group then Ret (false, (list, len, None)) else
    let group := mk_event_group SPDM_REGISTRY_ID_DMTF 0 2 1 0
      SPDM_DMTF_EVENT_TYPE_EVENT_LOST 0 SPDM_DMTF_EVENT_TYPE_CERTIFICATE_CHANGED 0 in
    rlet! l' := memcpy l 0 (event_group_bytes group) 0 sizeof_event_group in
    Ret (true, (Some l', Some sizeof_event_group, Some 1))
  | _, _, _ => Ret (false, (list, len, None))
  end.

Definition libspdm_event_subscribe (session_id subscribe_type group_count list_len : Z) (list : bool)
    (h : hal_state) : bool * hal_state :=
  let set sub sid := mk_hal sub sid (g_key_usage h) (g_key_asym h) (g_key_slot_mask h) in
  if subscribe_type =? LIBSPDM_EVENT_SUBSCRIBE_ALL then
    if negb (list_len =? 0) || list then (false, h) else (true, set true session_id)
  else if subscribe_type =? LIBSPDM_EVENT_SUBSCRIBE_NONE then
    if negb (list_len =? 0) || list then (false, h) else (true, set false 0)
  else if subscribe_type =? LIBSPDM_EVENT_SUBSCRIBE_LIST then
    if (group_count =? 0) || (list_len =? 0) || negb list then (false, h)
    else (true, set true session_id)
  else (false, h).

(** * The key pair *)

Definition SPDM_SAMPLE_KEY_PAIR_ID : Z := 1.
Definition SPDM_SAMPLE_KEY_PAIR_COUNT : Z := 1.

Definition g_ecp256_spki_algid : list Z :=
  [0x30; 0x13; 0x06; 0x07; 0x2A; 0x86; 0x48; 0xCE; 0x3D; 0x02; 0x01; 0x06; 0x08; 0x2A; 0x86; 0x48;
   0xCE; 0x3D; 0x03; 0x01; 0x07].

Definition libspdm_read_key_pair_info (key_pair_id : Z) (info_len : option Z) (info : option (list Z))
    (h : hal_state) : res (bool * (option key_pair_info * option Z * option (list Z))) :=
  if (key_pair_id =? 0) || (key_pair_id >? SPDM_SAMPLE_KEY_PAIR_COUNT)
  then Ret (false, (None, info_len, info)) else
  let size := Z.of_nat (length g_ecp256_spki_algid) in
  if match info_len with Some n => n <? size | None => false end
  then Ret (false, (None, info_len, info)) else
  let info_len' := match info_len with Some _ => Some size | None => None end in
  rlet! info' := match info with
    | Some l => rlet! l' := memcpy l 0 g_ecp256_spki_algid 0 size in Ret (Some l')
    | None => Ret None end in
  Ret (true, (Some (mk_key_pair_info
    (Z.lor (Z.lor SPDM_KEY_PAIR_CAP_CERT_ASSOC_CAP SPDM_KEY_PAIR_CAP_KEY_USAGE_CAP)
       SPDM_KEY_PAIR_CAP_ASYM_ALGO_CAP)
    (Z.lor SPDM_KEY_USAGE_BIT_MASK_KEY_EX_USE SPDM_KEY_USAGE_BIT_MASK_CHALLENGE_USE)
    (g_key_usage h) SPDM_KEY_PAIR_ASYM_ALGO_CAP_ECC256 (g_key_asym h) (g_key_slot_mask h)),
    info_len', info')).

Definition libspdm_write_key_pair_info (key_pair_id operation desired_key_usage desired_asym_algo
    desired_slot_mask : Z) (need_reset : bool) (h : hal_state) : bool * option bool * hal_state :=
  if (key_pair_id =? 0) || (key_pair_id >? SPDM_SAMPLE_KEY_PAIR_COUNT) || negb need_reset
  then (false, None, h) else
  let set u a m := mk_hal (g_event_subscribed h) (g_event_session_id h) u a m in
  if operation =? SPDM_SET_KEY_PAIR_INFO_ERASE_OPERATION then (true, Some false, set 0 0 0)
  else if operation =? SPDM_SET_KEY_PAIR_INFO_CHANGE_OPERATION then
    (true, Some false,
     set (if negb (desired_key_usage =? 0) then desired_key_usage else g_key_usage h)
         (if negb (desired_asym_algo =? 0) then desired_asym_algo else g_key_asym h)
         desired_slot_mask)
  else if operation =? SPDM_SET_KEY_PAIR_INFO_GENERATE_OPERATION then
    (true, Some false, set desired_key_usage desired_asym_algo desired_slot_mask)
  else (false, None, h).

(** * All of them, as libspdm calls them *)

Definition hal_handle {E} `{!SpdmSvc E} (c : hal_call) : hal_state * E -> res (hal_ret c * (hal_state * E)) :=
  match c return hal_state * E -> res (hal_ret c * (hal_state * E)) with
  | ChallengeOpaque size => fun s => Ret (libspdm_challenge_opaque_data size, s)
  | EncapChallengeOpaque size => fun s => Ret (libspdm_encap_challenge_opaque_data size, s)
  | DataSign v op asym hash is_hash message sig_size => fun '(h, e) =>
    let '(r, e) := libspdm_responder_data_sign v op asym hash is_hash message sig_size e in Ret (r, (h, e))
  | EventGetTypes list len count => fun s =>
    rlet! r := libspdm_event_get_types list len count in Ret (r, s)
  | EventSubscribe session type count len list => fun '(h, e) =>
    let '(r, h) := libspdm_event_subscribe session type count len list h in Ret (r, (h, e))
  | ReadKeyPair id info_len info => fun '(h, e) =>
    rlet! r := libspdm_read_key_pair_info id info_len info h in Ret (r, (h, e))
  | WriteKeyPair id operation usage asym mask need_reset => fun '(h, e) =>
    let '(r, h) := libspdm_write_key_pair_info id operation usage asym mask need_reset h in Ret (r, (h, e))
  end.
End Secret.
