(* ===== verification/SpdmApp.v ===== *)
(** The part of main.c that the two SPDM programs (samples/spdm, responder and
    requester) share: static variables, the buffers libspdm acquires, the USB
    device, waiting.  Messages arrive from the USB thread, which
    runs between any two calls of libspdm and while the main thread waits; which
    messages arrive when is the list [future].  Also os_stub.c. *)

From S2P Require Import Prelude ZephyrSvc SpdmDefs SpdmSecret.

Definition SELF_ID : Z := 10.
Definition BUS_OWNER_ID : Z := 20.
Definition SPDM_SENDER_BUFFER_SIZE : Z := 2048.
Definition SPDM_RECEIVER_BUFFER_SIZE : Z := 2048.
Definition SPDM_MAX_MSG_SIZE : Z := 2048.

(** * State *)

(** A message libmctp passes to [rx_message]: [f_msg] are the [f_len] bytes. *)
Record frame : Type := mk_frame {
  f_eid : Z; f_tag_owner : bool; f_msg_tag : Z; f_msg : option (list Z); f_len : Z }.

(** What the USB thread does: a message of libmctp or of the device stack. *)
Inductive arrival : Type := Rx (f : frame) | UsbMsg (type : Z).

(** A call of the requester library and what it returned. *)
Definition event : Type := sigT api_ret.

(** The static variables of both programs ([pending_eid] and [pending_msg_tag] are
    only in the responder, [tx_msg_tag] only in the requester), the device state of
    spdm_secret.c, whether libmctp has its receive function ([rx_set]), and what
    is outside.  [future] holds what arrives at the next moments; [calls] records
    the calls of the requester library with their results and is never read. *)
Record app (E : Type) : Type := mk_app {
  mctp_ctx : option Z;
  usb_configured : bool;
  spdm_context : option Z;
  spdm_scratch : option Z;
  sender_buf : list Z;
  receiver_buf : list Z;
  sender_in_use : bool;
  receiver_in_use : bool;
  pending_rx : list Z;
  pending_rx_len : Z;
  pending_eid : Z;
  pending_msg_tag : Z;
  pending_valid : bool;
  tx_msg_tag : Z;
  spdm_rx_sem : Z;
  mctp0_pkt_size : Z;
  rx_set : bool;
  hal : hal_state;
  future : list (list arrival);
  calls : list event;
  ext : E }.
Arguments mk_app {E} _ _ _ _ _ _ _ _ _ _ _ _ _ _ _ _ _ _ _ _ _.
Arguments mctp_ctx {E} _.
Arguments usb_configured {E} _.
Arguments spdm_context {E} _.
Arguments spdm_scratch {E} _.
Arguments sender_buf {E} _.
Arguments receiver_buf {E} _.
Arguments sender_in_use {E} _.
Arguments receiver_in_use {E} _.
Arguments pending_rx {E} _.
Arguments pending_rx_len {E} _.
Arguments pending_eid {E} _.
Arguments pending_msg_tag {E} _.
Arguments pending_valid {E} _.
Arguments tx_msg_tag {E} _.
Arguments spdm_rx_sem {E} _.
Arguments mctp0_pkt_size {E} _.
Arguments rx_set {E} _.
Arguments hal {E} _.
Arguments future {E} _.
Arguments calls {E} _.
Arguments ext {E} _.

Section Setters.
Context {E : Type}.
Definition set_mctp_ctx (v : option Z) (w : app E) : app E :=
  mk_app v (usb_configured w) (spdm_context w) (spdm_scratch w) (sender_buf w) (receiver_buf w)
    (sender_in_use w) (receiver_in_use w) (pending_rx w) (pending_rx_len w) (pending_eid w)
    (pending_msg_tag w) (pending_valid w) (tx_msg_tag w) (spdm_rx_sem w) (mctp0_pkt_size w) (rx_set
    w) (hal w) (future w) (calls w) (ext w).
Definition set_usb_configured (v : bool) (w : app E) : app E :=
  mk_app (mctp_ctx w) v (spdm_context w) (spdm_scratch w) (sender_buf w) (receiver_buf w)
    (sender_in_use w) (receiver_in_use w) (pending_rx w) (pending_rx_len w) (pending_eid w)
    (pending_msg_tag w) (pending_valid w) (tx_msg_tag w) (spdm_rx_sem w) (mctp0_pkt_size w) (rx_set
    w) (hal w) (future w) (calls w) (ext w).
Definition set_spdm_context (v : option Z) (w : app E) : app E :=
  mk_app (mctp_ctx w) (usb_configured w) v (spdm_scratch w) (sender_buf w) (receiver_buf w)
    (sender_in_use w) (receiver_in_use w) (pending_rx w) (pending_rx_len w) (pending_eid w)
    (pending_msg_tag w) (pending_valid w) (tx_msg_tag w) (spdm_rx_sem w) (mctp0_pkt_size w) (rx_set
    w) (hal w) (future w) (calls w) (ext w).
Definition set_spdm_scratch (v : option Z) (w : app E) : app E :=
  mk_app (mctp_ctx w) (usb_configured w) (spdm_context w) v (sender_buf w) (receiver_buf w)
    (sender_in_use w) (receiver_in_use w) (pending_rx w) (pending_rx_len w) (pending_eid w)
    (pending_msg_tag w) (pending_valid w) (tx_msg_tag w) (spdm_rx_sem w) (mctp0_pkt_size w) (rx_set
    w) (hal w) (future w) (calls w) (ext w).
Definition set_sender_buf (v : list Z) (w : app E) : app E :=
  mk_app (mctp_ctx w) (usb_configured w) (spdm_context w) (spdm_scratch w) v (receiver_buf w)
    (sender_in_use w) (receiver_in_use w) (pending_rx w) (pending_rx_len w) (pending_eid w)
    (pending_msg_tag w) (pending_valid w) (tx_msg_tag w) (spdm_rx_sem w) (mctp0_pkt_size w) (rx_set
    w) (hal w) (future w) (calls w) (ext w).
Definition set_receiver_buf (v : list Z) (w : app E) : app E :=
  mk_app (mctp_ctx w) (usb_configured w) (spdm_context w) (spdm_scratch w) (sender_buf w) v
    (sender_in_use w) (receiver_in_use w) (pending_rx w) (pending_rx_len w) (pending_eid w)
    (pending_msg_tag w) (pending_valid w) (tx_msg_tag w) (spdm_rx_sem w) (mctp0_pkt_size w) (rx_set
    w) (hal w) (future w) (calls w) (ext w).
Definition set_sender_in_use (v : bool) (w : app E) : app E :=
  mk_app (mctp_ctx w) (usb_configured w) (spdm_context w) (spdm_scratch w) (sender_buf w)
    (receiver_buf w) v (receiver_in_use w) (pending_rx w) (pending_rx_len w) (pending_eid w)
    (pending_msg_tag w) (pending_valid w) (tx_msg_tag w) (spdm_rx_sem w) (mctp0_pkt_size w) (rx_set
    w) (hal w) (future w) (calls w) (ext w).
Definition set_receiver_in_use (v : bool) (w : app E) : app E :=
  mk_app (mctp_ctx w) (usb_configured w) (spdm_context w) (spdm_scratch w) (sender_buf w)
    (receiver_buf w) (sender_in_use w) v (pending_rx w) (pending_rx_len w) (pending_eid w)
    (pending_msg_tag w) (pending_valid w) (tx_msg_tag w) (spdm_rx_sem w) (mctp0_pkt_size w) (rx_set
    w) (hal w) (future w) (calls w) (ext w).
Definition set_pending_rx (v : list Z) (w : app E) : app E :=
  mk_app (mctp_ctx w) (usb_configured w) (spdm_context w) (spdm_scratch w) (sender_buf w)
    (receiver_buf w) (sender_in_use w) (receiver_in_use w) v (pending_rx_len w) (pending_eid w)
    (pending_msg_tag w) (pending_valid w) (tx_msg_tag w) (spdm_rx_sem w) (mctp0_pkt_size w) (rx_set
    w) (hal w) (future w) (calls w) (ext w).
Definition set_pending_rx_len (v : Z) (w : app E) : app E :=
  mk_app (mctp_ctx w) (usb_configured w) (spdm_context w) (spdm_scratch w) (sender_buf w)
    (receiver_buf w) (sender_in_use w) (receiver_in_use w) (pending_rx w) v (pending_eid w)
    (pending_msg_tag w) (pending_valid w) (tx_msg_tag w) (spdm_rx_sem w) (mctp0_pkt_size w) (rx_set
    w) (hal w) (future w) (calls w) (ext w).
Definition set_pending_eid (v : Z) (w : app E) : app E :=
  mk_app (mctp_ctx w) (usb_configured w) (spdm_context w) (spdm_scratch w) (sender_buf w)
    (receiver_buf w) (sender_in_use w) (receiver_in_use w) (pending_rx w) (pending_rx_len w) v
    (pending_msg_tag w) (pending_valid w) (tx_msg_tag w) (spdm_rx_sem w) (mctp0_pkt_size w) (rx_set
    w) (hal w) (future w) (calls w) (ext w).
Definition set_pending_msg_tag (v : Z) (w : app E) : app E :=
  mk_app (mctp_ctx w) (usb_configured w) (spdm_context w) (spdm_scratch w) (sender_buf w)
    (receiver_buf w) (sender_in_use w) (receiver_in_use w) (pending_rx w) (pending_rx_len w)
    (pending_eid w) v (pending_valid w) (tx_msg_tag w) (spdm_rx_sem w) (mctp0_pkt_size w) (rx_set w)
    (hal w) (future w) (calls w) (ext w).
Definition set_pending_valid (v : bool) (w : app E) : app E :=
  mk_app (mctp_ctx w) (usb_configured w) (spdm_context w) (spdm_scratch w) (sender_buf w)
    (receiver_buf w) (sender_in_use w) (receiver_in_use w) (pending_rx w) (pending_rx_len w)
    (pending_eid w) (pending_msg_tag w) v (tx_msg_tag w) (spdm_rx_sem w) (mctp0_pkt_size w) (rx_set
    w) (hal w) (future w) (calls w) (ext w).
Definition set_tx_msg_tag (v : Z) (w : app E) : app E :=
  mk_app (mctp_ctx w) (usb_configured w) (spdm_context w) (spdm_scratch w) (sender_buf w)
    (receiver_buf w) (sender_in_use w) (receiver_in_use w) (pending_rx w) (pending_rx_len w)
    (pending_eid w) (pending_msg_tag w) (pending_valid w) v (spdm_rx_sem w) (mctp0_pkt_size w)
    (rx_set w) (hal w) (future w) (calls w) (ext w).
Definition set_spdm_rx_sem (v : Z) (w : app E) : app E :=
  mk_app (mctp_ctx w) (usb_configured w) (spdm_context w) (spdm_scratch w) (sender_buf w)
    (receiver_buf w) (sender_in_use w) (receiver_in_use w) (pending_rx w) (pending_rx_len w)
    (pending_eid w) (pending_msg_tag w) (pending_valid w) (tx_msg_tag w) v (mctp0_pkt_size w)
    (rx_set w) (hal w) (future w) (calls w) (ext w).
Definition set_mctp0_pkt_size (v : Z) (w : app E) : app E :=
  mk_app (mctp_ctx w) (usb_configured w) (spdm_context w) (spdm_scratch w) (sender_buf w)
    (receiver_buf w) (sender_in_use w) (receiver_in_use w) (pending_rx w) (pending_rx_len w)
    (pending_eid w) (pending_msg_tag w) (pending_valid w) (tx_msg_tag w) (spdm_rx_sem w) v (rx_set
    w) (hal w) (future w) (calls w) (ext w).
Definition set_rx_set (v : bool) (w : app E) : app E :=
  mk_app (mctp_ctx w) (usb_configured w) (spdm_context w) (spdm_scratch w) (sender_buf w)
    (receiver_buf w) (sender_in_use w) (receiver_in_use w) (pending_rx w) (pending_rx_len w)
    (pending_eid w) (pending_msg_tag w) (pending_valid w) (tx_msg_tag w) (spdm_rx_sem w)
    (mctp0_pkt_size w) v (hal w) (future w) (calls w) (ext w).
Definition set_hal (v : hal_state) (w : app E) : app E :=
  mk_app (mctp_ctx w) (usb_configured w) (spdm_context w) (spdm_scratch w) (sender_buf w)
    (receiver_buf w) (sender_in_use w) (receiver_in_use w) (pending_rx w) (pending_rx_len w)
    (pending_eid w) (pending_msg_tag w) (pending_valid w) (tx_msg_tag w) (spdm_rx_sem w)
    (mctp0_pkt_size w) (rx_set w) v (future w) (calls w) (ext w).
Definition set_future (v : list (list arrival)) (w : app E) : app E :=
  mk_app (mctp_ctx w) (usb_configured w) (spdm_context w) (spdm_scratch w) (sender_buf w)
    (receiver_buf w) (sender_in_use w) (receiver_in_use w) (pending_rx w) (pending_rx_len w)
    (pending_eid w) (pending_msg_tag w) (pending_valid w) (tx_msg_tag w) (spdm_rx_sem w)
    (mctp0_pkt_size w) (rx_set w) (hal w) v (calls w) (ext w).
Definition set_calls (v : list event) (w : app E) : app E :=
  mk_app (mctp_ctx w) (usb_configured w) (spdm_context w) (spdm_scratch w) (sender_buf w)
    (receiver_buf w) (sender_in_use w) (receiver_in_use w) (pending_rx w) (pending_rx_len w)
    (pending_eid w) (pending_msg_tag w) (pending_valid w) (tx_msg_tag w) (spdm_rx_sem w)
    (mctp0_pkt_size w) (rx_set w) (hal w) (future w) v (ext w).
Definition set_ext (v : E) (w : app E) : app E :=
  mk_app (mctp_ctx w) (usb_configured w) (spdm_context w) (spdm_scratch w) (sender_buf w)
    (receiver_buf w) (sender_in_use w) (receiver_in_use w) (pending_rx w) (pending_rx_len w)
    (pending_eid w) (pending_msg_tag w) (pending_valid w) (tx_msg_tag w) (spdm_rx_sem w)
    (mctp0_pkt_size w) (rx_set w) (hal w) (future w) (calls w) v.
End Setters.

Section App.
Context {E : Type} `{!SpdmConst, !SpdmSvc E}.
Notation W := (app E).
Notation AM := (ST W).

(** The statics at power-up: zero, the semaphore without a count. *)
Definition app_static (pkt_size : Z) (fut : list (list arrival)) (e : E) : W :=
  mk_app None false None None (replicate 2048 0) (replicate 2048 0) false false
    (replicate 2048 0) 0 0 0 false 0 0 pkt_size false hal_static fut [] e.

Definition call_out {A} (f : E -> A * E) : AM A :=
  fun w => let '(a, e) := f (ext w) in Ret (a, set_ext e w).
Definition do_out (f : E -> E) : AM unit := modify (fun w => set_ext (f (ext w)) w).

Definition get_buf (b : buf) (w : W) : list Z :=
  match b with SenderBuf => sender_buf w | ReceiverBuf => receiver_buf w end.
Definition set_buf (b : buf) (l : list Z) (w : W) : W :=
  match b with SenderBuf => set_sender_buf l w | ReceiverBuf => set_receiver_buf l w end.

(** * The USB device *)

Definition sample_msg_cb (type : Z) : AM unit :=
  if type =? USBD_MSG_CONFIGURATION then modify (set_usb_configured true) else skip.

Definition enable_usb_device_next : AM Z :=
  let! mctp_poc_usbd := call_out sample_usbd_init_device in
  match mctp_poc_usbd with
  | None => ret (- ENODEV)
  | Some d =>
    let! can := gets (fun w => usbd_can_detect_vbus d (ext w)) in
    if negb can then
      let! err := call_out (usbd_enable d) in
      if negb (err =? 0) then ret err else ret 0
    else ret 0
  end.

(** * The buffers of libspdm *)

Definition spdm_acquire_sender_buffer (out : bool) : AM (Z * option buf) :=
  let! in_use := gets sender_in_use in
  if in_use || negb out then ret (LIBSPDM_STATUS_ACQUIRE_FAIL, None) else
  do! modify (set_sender_in_use true) in
  ret (LIBSPDM_STATUS_SUCCESS, Some SenderBuf).

Definition spdm_release_sender_buffer (p : option buf) : AM unit := modify (set_sender_in_use false).

Definition spdm_acquire_receiver_buffer (out : bool) : AM (Z * option buf) :=
  let! in_use := gets receiver_in_use in
  if in_use || negb out then ret (LIBSPDM_STATUS_ACQUIRE_FAIL, None) else
  do! modify (set_receiver_in_use true) in
  ret (LIBSPDM_STATUS_SUCCESS, Some ReceiverBuf).

Definition spdm_release_receiver_buffer (p : option buf) : AM unit := modify (set_receiver_in_use false).

(** [memcpy] into a buffer of libspdm. *)
Definition copy_to (p : ptr) (src : list Z) (n : Z) : AM unit :=
  fun w => rlet! l := memcpy (get_buf (p_buf p) w) (p_off p) src 0 n in
    Ret (tt, set_buf (p_buf p) l w).

Definition hal_run (c : hal_call) : AM (hal_ret c) :=
  fun w => rlet! p := hal_handle c (hal w, ext w) in
    let '(r, (h, e)) := p in Ret (r, set_ext e (set_hal h w)).

(** * The semaphore and the USB thread *)

(** [K_SEM_DEFINE(spdm_rx_sem, 0, 1)] *)
Definition k_sem_give : AM unit := modify (fun w => set_spdm_rx_sem (Z.min (spdm_rx_sem w + 1) 1) w).

(** The tests of [rx_message], which are the same in both programs: the type byte
    is that of SPDM or secured SPDM and the message fits. *)
Definition rx_type_ok (type : Z) : bool :=
  (type =? MCTP_MESSAGE_TYPE_SPDM) || (type =? MCTP_MESSAGE_TYPE_SECURED_MCTP).

Section Thread.
Context (rx_message : frame -> AM unit).

Definition deliver (a : arrival) : AM unit :=
  match a with
  | Rx f => let! s := gets rx_set in if (s : bool) then rx_message f else skip
  | UsbMsg type => sample_msg_cb type
  end.

Fixpoint deliver_all (l : list arrival) : AM unit :=
  match l with
  | [] => skip
  | a :: l => do! deliver a in deliver_all l
  end.

(** The next moment of [future]; when there is none left, nothing arrives. *)
Definition usb_turn : AM unit :=
  fun w => match future w with
  | [] => Ret (tt, w)
  | l :: f => deliver_all l (set_future f w)
  end.

(** [while (!usb_configured) k_msleep(5)]: [false] means it waits for ever. *)
Fixpoint wait_configured (moments : list (list arrival)) (w : W) : res (bool * W) :=
  if usb_configured w then Ret (true, w) else
  match moments with
  | [] => Ret (false, w)
  | _ :: m => rlet! p := usb_turn w in wait_configured m (snd p)
  end.

(** [k_sem_take(&spdm_rx_sem, K_FOREVER)] with [ms = None], and with
    [K_MSEC(ms)], where a moment of [future] is a millisecond.  [false]: the
    call timed out, or waits for ever. *)
Fixpoint wait_sem (moments : list (list arrival)) (ms : option Z) (w : W) : res (bool * W) :=
  if 0 <? spdm_rx_sem w then Ret (true, set_spdm_rx_sem (spdm_rx_sem w - 1) w) else
  match moments, ms with
  | [], _ => Ret (false, w)
  | _ :: m, Some n => if n <=? 0 then Ret (false, w) else
    rlet! p := usb_turn w in wait_sem m (Some (n - 1)) (snd p)
  | _ :: m, None => rlet! p := usb_turn w in wait_sem m None (snd p)
  end.

Definition k_sem_take (ms : option Z) : AM bool := fun w => wait_sem (future w) ms w.

(** [k_sleep(K_MSEC(ms))] *)
Fixpoint sleep (moments : list (list arrival)) (ms : Z) : AM unit :=
  match moments with
  | [] => skip
  | _ :: m => if ms <=? 0 then skip else do! usb_turn in sleep m (ms - 1)
  end.
Definition k_sleep (ms : Z) : AM unit := fun w => sleep (future w) ms w.

(** * Running a call of libspdm *)

Context (handle : forall c : lib_call, AM (call_ret c)).

Fixpoint run_lib {A} (p : lib E A) : AM A :=
  match p with
  | LRet a => ret a
  | LGet k => fun w => run_lib (k (ext w)) w
  | LPut e p => do! modify (set_ext e) in run_lib p
  | LCall c k => do! usb_turn in let! r := handle c in run_lib (k r)
  end.
End Thread.

(** The callbacks that both programs register, and the library's own accesses;
    [send], [receive] and the vendor functions are those of the program. *)
Definition handle_with (send : Z -> option ptr -> Z -> AM Z)
    (receive : option Z -> option (option ptr) -> Z -> AM (Z * option Z))
    (vendor_id : bool -> bool -> AM (Z * option (Z * Z)))
    (vendor : Z -> option (list Z) -> option Z -> option (list Z) -> AM (Z * (option Z * option (list Z))))
    (c : lib_call) : AM (call_ret c) :=
  match c return AM (call_ret c) with
  | AcquireSender out => spdm_acquire_sender_buffer out
  | ReleaseSender p => spdm_release_sender_buffer p
  | AcquireReceiver out => spdm_acquire_receiver_buffer out
  | ReleaseReceiver p => spdm_release_receiver_buffer p
  | ReadBuf b => gets (get_buf b)
  | WriteBuf b l => modify (set_buf b l)
  | DeviceSend size message timeout => send size message timeout
  | DeviceReceive size message timeout => receive size message timeout
  | VendorGetId sid vid => vendor_id sid vid
  | VendorResponse rn rd sn sd => vendor rn rd sn sd
  | Hal h => hal_run h
  end.

(** * os_stub.c *)

Definition allocate_pool (allocation_size : Z) : AM (option Z) := call_out (k_malloc allocation_size).
Definition allocate_zero_pool (allocation_size : Z) : AM (option Z) :=
  let! buf := call_out (k_malloc allocation_size) in
  match buf with
  | Some b => do! do_out (memset_block b 0 allocation_size) in ret buf
  | None => ret buf
  end.
Definition free_pool (buffer : option Z) : AM unit := do_out (k_free buffer).
Definition libspdm_get_random_number_64 (rand_data : bool) : AM (bool * option Z) :=
  if negb rand_data then ret (false, None) else
  let! l := call_out (sys_rand_get 8) in ret (true, Some (le_value l)).
End App.
