(* ===== verification/SpdmSpec.v ===== *)
(** The contract of libspdm towards the SPDM programs, [lib_ok], and that under
    it every call of libspdm is defined, whenever messages arrive, and finds the
    buffers free: the invariant [app_ok] with the buffers that are held. *)

From S2P Require Import Prelude ZephyrSvc SpdmDefs SpdmCerts SpdmSecret SpdmApp.

Section Spec.
Context {E : Type} `{!SpdmConst, !SpdmSvc E}.
Notation W := (app E).
Notation AM := (ST W).

(** * What libspdm does with the functions it calls back *)

Definition holds (hs hr : bool) (b : buf) : bool :=
  match b with SenderBuf => hs | ReceiverBuf => hr end.
Definition in_buf (p : ptr) (n : Z) : Prop := 0 <= p_off p /\ 0 <= n /\ p_off p + n <= 2048.
Definition fits {A} (n : Z) (l : list A) : Prop := n <= Z.of_nat (length l).

Definition hal_ok (h : hal_call) : Prop :=
  match h with
  | EventGetTypes (Some l) (Some n) true => fits n l
  | ReadKeyPair _ (Some n) (Some l) => fits n l
  | ReadKeyPair _ None (Some l) => fits (Z.of_nat (length g_ecp256_spki_algid)) l
  | _ => True
  end.

(** A call is allowed while the buffers [hs] and [hr] are held: a buffer is
    acquired before it is used and at most once, and lengths are those of the
    objects.  [vendor]: the program registers vendor functions. *)
Definition call_ok (vendor hs hr : bool) (c : lib_call) : Prop :=
  match c with
  | AcquireSender out => hs = false /\ out = true
  | ReleaseSender _ => hs = true
  | AcquireReceiver out => hr = false /\ out = true
  | ReleaseReceiver _ => hr = true
  | ReadBuf b => holds hs hr b = true
  | WriteBuf b l => holds hs hr b = true /\ length l = 2048%nat
  | DeviceSend size (Some p) _ => holds hs hr (p_buf p) = true /\ in_buf p size
  | DeviceReceive (Some n) (Some (Some p)) _ => holds hs hr (p_buf p) = true /\ in_buf p n
  | VendorGetId _ _ => vendor = true
  | VendorResponse rn (Some rd) (Some sn) (Some sd) => vendor = true /\ fits rn rd /\ fits sn sd
  | VendorResponse _ _ _ _ => vendor = true
  | Hal h => hal_ok h
  | _ => True
  end.

(** What the functions promise: acquiring succeeds, and no more is received
    than there is room. *)
Definition call_post (c : lib_call) : call_ret c -> Prop :=
  match c return call_ret c -> Prop with
  | AcquireSender _ => fun r => r = (LIBSPDM_STATUS_SUCCESS, Some SenderBuf)
  | AcquireReceiver _ => fun r => r = (LIBSPDM_STATUS_SUCCESS, Some ReceiverBuf)
  | ReadBuf _ => fun r => length r = 2048%nat
  | DeviceReceive (Some n) _ _ => fun r => match snd r with Some k => k <= n | None => False end
  | _ => fun _ => True
  end.

Definition held_after (hs hr : bool) (c : lib_call) : bool * bool :=
  match c with
  | AcquireSender _ => (true, hr)
  | ReleaseSender _ => (false, hr)
  | AcquireReceiver _ => (hs, true)
  | ReleaseReceiver _ => (hs, false)
  | _ => (hs, hr)
  end.

(** A program of libspdm keeps to [call_ok] for all results the functions
    may return, and ends without a buffer. *)
Fixpoint lib_ok {A} (vendor hs hr : bool) (p : lib E A) : Prop :=
  match p with
  | LRet _ => hs = false /\ hr = false
  | LGet k => forall e, lib_ok vendor hs hr (k e)
  | LPut _ p => lib_ok vendor hs hr p
  | LCall c k => call_ok vendor hs hr c /\
      forall r, call_post c r -> lib_ok vendor (fst (held_after hs hr c)) (snd (held_after hs hr c)) (k r)
  end.

(** * The invariant *)

Definition frame_ok (f : frame) : Prop :=
  match f_msg f with Some m => f_len f = Z.of_nat (length m) | None => True end.
Definition arrival_ok (a : arrival) : Prop := match a with Rx f => frame_ok f | UsbMsg _ => True end.

(** The messages [rx_message] takes in both programs: SPDM, at most 2048 bytes. *)
Definition accepts (f : frame) : option (list Z) :=
  match f_msg f with
  | Some (b :: m) =>
    if rx_type_ok (Z.land b 0x7f) && (f_len f <=? 2048) then Some (b :: m) else None
  | _ => None
  end.

Lemma accepts_length f m :
  frame_ok f -> accepts f = Some m -> f_len f = Z.of_nat (length m) /\ 0 < f_len f <= 2048.
Proof.
  unfold accepts, frame_ok. destruct (f_msg f) as [[|b m']|]; try done. intros Hf.
  destruct (_ && _) eqn:Hb; [|done]. intros [= <-]. zify_bool. rewrite Hf in *. cbn [length] in *. lia.
Qed.

Record app_ok (hs hr : bool) (w : W) : Prop := {
  ok_sender_buf : length (sender_buf w) = 2048%nat;
  ok_receiver_buf : length (receiver_buf w) = 2048%nat;
  ok_pending_rx : length (pending_rx w) = 2048%nat;
  ok_pending_len : 0 <= pending_rx_len w <= 2048;
  ok_sender : sender_in_use w = hs;
  ok_receiver : receiver_in_use w = hr;
  ok_sem : 0 <= spdm_rx_sem w <= 1;
  ok_future : Forall (Forall arrival_ok) (future w);
}.

(** A property of the whole state that calls keep. *)
Definition keeps {A} (c : AM A) : Prop :=
  forall hs hr w, app_ok hs hr w -> wp c (fun _ => app_ok hs hr) w.

(** ** Statements *)

Lemma wp_call_out {A} (f : E -> A * E) Q (w : W) :
  Q (fst (f (ext w))) (set_ext (snd (f (ext w))) w) -> wp (call_out f) Q w.
Proof. unfold wp, call_out. by destruct (f (ext w)). Qed.

Lemma keeps_ret {A} (a : A) : keeps (ret a).
Proof. by intros hs hr w Hw. Qed.

Lemma keeps_bind {A B} (c : AM A) (k : A -> AM B) : keeps c -> (forall a, keeps (k a)) -> keeps (bind c k).
Proof.
  intros Hc Hk hs hr w Hw. apply wp_bind. eapply wp_mono; [by apply (Hc hs hr)|]. intros a w'. apply Hk.
Qed.

Lemma keeps_bind_lift {A B} (r : res A) (a : A) (k : A -> AM B) :
  r = Ret a -> keeps (k a) -> keeps (bind (lift r) k).
Proof. by intros ->. Qed.

Lemma keeps_gets {A} (f : W -> A) : keeps (gets f).
Proof. by intros hs hr w Hw. Qed.

(** Changes of anything that [app_ok] does not mention. *)
Lemma keeps_modify f :
  (forall w : W, sender_buf (f w) = sender_buf w /\ receiver_buf (f w) = receiver_buf w /\
    pending_rx (f w) = pending_rx w /\ pending_rx_len (f w) = pending_rx_len w /\
    sender_in_use (f w) = sender_in_use w /\ receiver_in_use (f w) = receiver_in_use w /\
    spdm_rx_sem (f w) = spdm_rx_sem w /\ future (f w) = future w) ->
  keeps (modify f).
Proof.
  intros Hf hs hr w []. apply wp_modify. destruct (Hf w) as (E1 & E2 & E3 & E4 & E5 & E6 & E7 & E8).
  by split; rewrite ?E1, ?E2, ?E3, ?E4, ?E5, ?E6, ?E7, ?E8.
Qed.

Lemma keeps_call_out {A} (f : E -> A * E) : keeps (call_out f).
Proof. intros hs hr w []. unfold wp, call_out. destruct (f (ext w)). by split. Qed.

Lemma keeps_call_some {A B} (f : E -> option A * E) (k : option A -> AM B) :
  (forall e, fst (f e) <> None) -> (forall a, keeps (k (Some a))) -> keeps (bind (call_out f) k).
Proof.
  intros Hf Hk hs hr w Hw. apply wp_bind, wp_call_out. specialize (Hf (ext w)).
  destruct (fst (f (ext w))) as [a|]; [|done]. apply Hk. by destruct Hw; split.
Qed.

Lemma keeps_do_out (f : E -> E) : keeps (do_out f).
Proof. by apply keeps_modify. Qed.

Lemma wp_usb_idle rx_message Q (w : W) : future w = [] -> Q tt w -> wp (usb_turn rx_message) Q w.
Proof. intros Hf HQ. unfold wp, usb_turn. by rewrite Hf. Qed.

Lemma set_sem_ok hs hr n (w : W) : 0 <= n <= 1 -> app_ok hs hr w -> app_ok hs hr (set_spdm_rx_sem n w).
Proof. intros ? []. by split. Qed.

Lemma get_buf_length hs hr w b : app_ok hs hr w -> length (get_buf b w) = 2048%nat.
Proof. intros Hw. destruct b; [apply Hw|apply Hw]. Qed.

Lemma copy_in {A} (dst src : list A) off n :
  0 <= off -> 0 <= n -> n <= Z.of_nat (length src) -> off + n <= Z.of_nat (length dst) ->
  memcpy dst off src 0 n =
    Ret (take (Z.to_nat off) dst ++ take (Z.to_nat n) src ++ drop (Z.to_nat off + Z.to_nat n) dst).
Proof.
  intros Ho Hn Hs Hd. unfold memcpy. rewrite arr_slice_ok by lia. rewrite drop_0. cbn [rbind].
  assert (Hl : length (take (Z.to_nat n) src) = Z.to_nat n) by (rewrite length_take; lia).
  rewrite arr_blit_ok by (rewrite ?Hl; lia). by rewrite Hl.
Qed.

Lemma copy_in_length {A} (dst src : list A) off n :
  0 <= off -> 0 <= n -> n <= Z.of_nat (length src) -> off + n <= Z.of_nat (length dst) ->
  length (take (Z.to_nat off) dst ++ take (Z.to_nat n) src ++ drop (Z.to_nat off + Z.to_nat n) dst) =
  length dst.
Proof. intros. rewrite !length_app, !length_take, length_drop. lia. Qed.

Lemma set_buf_ok hs hr w b l : app_ok hs hr w -> length l = 2048%nat -> app_ok hs hr (set_buf b l w).
Proof. intros [] Hl. by destruct b; split. Qed.

Lemma wp_copy_to hs hr p src n Q (w : W) :
  app_ok hs hr w -> in_buf p n -> n <= Z.of_nat (length src) ->
  Q tt (set_buf (p_buf p) (take (Z.to_nat (p_off p)) (get_buf (p_buf p) w) ++ take (Z.to_nat n) src ++
    drop (Z.to_nat (p_off p) + Z.to_nat n) (get_buf (p_buf p) w)) w) ->
  wp (copy_to p src n) Q w.
Proof.
  intros Hw (Ho & Hn & Hi) Hs HQ. unfold wp, copy_to.
  rewrite copy_in by (rewrite ?(get_buf_length hs hr); done || lia). done.
Qed.

Lemma copy_to_ok hs hr p src n (w : W) :
  app_ok hs hr w -> in_buf p n -> n <= Z.of_nat (length src) ->
  wp (copy_to p src n) (fun _ => app_ok hs hr) w.
Proof.
  intros Hw Hp Hs. eapply wp_copy_to; [done..|]. apply set_buf_ok; [done|]. destruct Hp as (? & ? & ?).
  rewrite copy_in_length by (rewrite ?(get_buf_length hs hr); done || lia). by eapply get_buf_length.
Qed.

Lemma k_sem_give_ok : keeps k_sem_give.
Proof. intros hs hr w Hw. apply wp_modify. destruct Hw. split; try done. cbn. lia. Qed.

Lemma sample_msg_cb_ok type : keeps (sample_msg_cb type).
Proof.
  intros hs hr w Hw. unfold sample_msg_cb. repeat wp_step; [|done]. by destruct Hw; split.
Qed.

Lemma rwp_event_get_types list len count :
  hal_ok (EventGetTypes list len count) -> rwp (libspdm_event_get_types list len count) (fun _ => True).
Proof.
  unfold libspdm_event_get_types. destruct list as [l|], len as [n|], count; try done. cbn. unfold fits.
  intros Hf. destruct (Z.ltb_spec n sizeof_event_group); [done|]. unfold sizeof_event_group in *.
  rewrite copy_in by (cbn; lia). done.
Qed.

Lemma rwp_read_key_pair id len info h :
  hal_ok (ReadKeyPair id len info) -> rwp (libspdm_read_key_pair_info id len info h) (fun _ => True).
Proof.
  unfold libspdm_read_key_pair_info. intros Hf. destruct (_ || _); [done|].
  destruct (match len with Some n => _ | None => _ end) eqn:Hn; [done|].
  destruct info as [l|]; [|done]. rewrite copy_in; [done|lia|lia|done|].
  destruct len as [n|]; cbn in Hf; unfold fits in Hf; [|done]. apply Z.ltb_ge in Hn. lia.
Qed.

Lemma hal_run_ok h hs hr w :
  hal_ok h -> app_ok hs hr w -> wp (hal_run h) (fun _ => app_ok hs hr) w.
Proof.
  intros Hh Hw. unfold wp, hal_run. apply rwp_bind.
  assert (Hk : forall h' e', app_ok hs hr (set_ext e' (set_hal h' w))) by (intros; by destruct Hw; split).
  destruct h; cbn [hal_handle rbind rwp]; try apply Hk.
  - destruct (libspdm_responder_data_sign _ _ _ _ _ _ _ _) as [[? ?] ?]. apply Hk.
  - apply rwp_bind. eapply rwp_mono; [by apply rwp_event_get_types|]. intros r _. apply Hk.
  - destruct (libspdm_event_subscribe _ _ _ _ _ _). apply Hk.
  - apply rwp_bind. eapply rwp_mono; [by apply rwp_read_key_pair|]. intros r _. apply Hk.
  - destruct (libspdm_write_key_pair_info _ _ _ _ _ _ _). apply Hk.
Qed.

(** * Running libspdm *)

Section Run.
Context (rx_message : frame -> AM unit).
Context (rx_ok : forall f, frame_ok f -> keeps (rx_message f)).

Lemma deliver_all_ok l : Forall arrival_ok l -> keeps (deliver_all rx_message l).
Proof.
  induction 1 as [|a l Ha _ IH]; intros hs hr w Hw; [done|]. cbn [deliver_all]. apply wp_bind.
  apply (wp_mono _ (fun _ => app_ok hs hr)); [|intros [] w'; apply IH].
  destruct a as [f|t]; cbn [deliver]; [|exact (sample_msg_cb_ok t hs hr w Hw)]. do 2 wp_step. wp_step; [exact (rx_ok f Ha hs hr w Hw)|done].
Qed.

Lemma usb_turn_ok : keeps (usb_turn rx_message).
Proof.
  intros hs hr w Hw. unfold usb_turn, wp. pose proof (ok_future _ _ _ Hw) as Hf.
  destruct (future w) as [|l f]; [done|]. inversion Hf; subst.
  apply (deliver_all_ok l ltac:(done) hs hr). by destruct Hw; split.
Qed.

Lemma wait_sem_ok ms : keeps (k_sem_take rx_message ms).
Proof.
  intros hs hr w Hw. unfold k_sem_take, wp. generalize (future w) as m. intros m.
  revert ms w Hw. induction m as [|l m IH]; intros ms w Hw; cbn [wait_sem].
  - destruct (Z.ltb_spec 0 (spdm_rx_sem w)) as [Hs|Hs]; [|done]. destruct Hw; split; try done. cbn. lia.
  - destruct (Z.ltb_spec 0 (spdm_rx_sem w)) as [Hs|Hs]; [destruct Hw; split; try done; cbn; lia|].
    assert (Hgo : forall ms', rwp (rlet! p := usb_turn rx_message w in wait_sem rx_message m ms' (snd p))
      (fun '(_, w') => app_ok hs hr w')).
    { intros ms'. apply rwp_bind. eapply rwp_mono; [by apply (usb_turn_ok hs hr)|].
      intros [[] w'] Hw'. by apply (IH _ w'). }
    destruct ms as [n|]; [destruct (n <=? 0); [done|]|]; apply Hgo.
Qed.

Lemma wait_configured_ok m : keeps (wait_configured rx_message m).
Proof.
  induction m as [|l m IH]; intros hs hr w Hw; unfold wp; cbn [wait_configured]; destruct (usb_configured w); try done.
  apply rwp_bind. eapply rwp_mono; [by apply (usb_turn_ok hs hr)|]. intros [[] w'] Hw'. by apply (IH hs hr w').
Qed.

Lemma k_sleep_ok ms : keeps (k_sleep rx_message ms).
Proof.
  intros hs hr w Hw. unfold k_sleep, wp. generalize (future w) as m. intros m.
  revert ms w Hw. induction m as [|l m IH]; intros ms w Hw; cbn [sleep]; [done|].
  destruct (ms <=? 0); [done|]. apply (wp_bind _ _ (fun _ => app_ok hs hr) w).
  apply (wp_mono _ (fun _ => app_ok hs hr)); [by apply usb_turn_ok|]. intros [] w'. apply IH.
Qed.

(** The program's functions meet the contract of the calls. *)
Definition handler_ok (vendor : bool) (handle : forall c, AM (call_ret c)) : Prop :=
  forall hs hr c w, call_ok vendor hs hr c -> app_ok hs hr w ->
  wp (handle c) (fun r w' => call_post c r /\ app_ok (fst (held_after hs hr c)) (snd (held_after hs hr c)) w') w.

Lemma run_lib_ok {A} vendor handle (p : lib E A) hs hr w :
  handler_ok vendor handle -> lib_ok vendor hs hr p -> app_ok hs hr w ->
  wp (run_lib rx_message handle p) (fun _ => app_ok false false) w.
Proof.
  intros Hh. revert hs hr w. induction p as [a|k IH|e p IH|c k IH]; intros hs hr w Hp Hw.
  - by destruct Hp; subst.
  - exact (IH (ext w) hs hr w (Hp (ext w)) Hw).
  - cbn [run_lib]. wp_step. wp_step. apply (IH hs hr); [done|]. by destruct Hw; split.
  - destruct Hp as [Hc Hk]. cbn [run_lib]. apply wp_bind. eapply wp_mono; [by apply (usb_turn_ok hs hr)|].
    intros [] w1 Hw1. apply wp_bind. eapply wp_mono; [by apply (Hh hs hr c)|].
    intros r w2 [Hr Hw2]. cbn beta. eapply IH; [by apply Hk|done].
Qed.

(** The callbacks both programs share meet it if their own do. *)
Lemma handle_with_ok vendor send receive vendor_id vendor_rsp :
  (forall hs hr n p t w, call_ok vendor hs hr (DeviceSend n p t) -> app_ok hs hr w ->
     wp (send n p t) (fun _ => app_ok hs hr) w) ->
  (forall hs hr n p t w, call_ok vendor hs hr (DeviceReceive n p t) -> app_ok hs hr w ->
     wp (receive n p t) (fun r w' => call_post (DeviceReceive n p t) r /\ app_ok hs hr w') w) ->
  (forall s v hs hr w, vendor = true -> app_ok hs hr w -> wp (vendor_id s v) (fun _ => app_ok hs hr) w) ->
  (forall rn rd sn sd hs hr w, call_ok vendor hs hr (VendorResponse rn rd sn sd) -> app_ok hs hr w ->
     wp (vendor_rsp rn rd sn sd) (fun _ => app_ok hs hr) w) ->
  handler_ok vendor (handle_with send receive vendor_id vendor_rsp).
Proof.
  intros Hsend Hrecv Hid Hvr hs hr c w Hc Hw.
  pose proof (ok_sender _ _ _ Hw) as Hs. pose proof (ok_receiver _ _ _ Hw) as Hr.
  destruct c; cbn [handle_with held_after fst snd].
  - destruct Hc as [-> ->]. unfold spdm_acquire_sender_buffer. wp_step. wp_step. rewrite Hs. cbn.
    repeat wp_step. split; [done|]. by destruct Hw; split.
  - apply wp_modify. split; [done|]. by destruct Hw; split.
  - destruct Hc as [-> ->]. unfold spdm_acquire_receiver_buffer. wp_step. wp_step. rewrite Hr. cbn.
    repeat wp_step. split; [done|]. by destruct Hw; split.
  - apply wp_modify. split; [done|]. by destruct Hw; split.
  - apply wp_gets. split; [by eapply get_buf_length|done].
  - apply wp_modify. split; [done|]. destruct Hc. by apply set_buf_ok.
  - eapply wp_mono; [by apply (Hsend hs hr)|]. by split.
  - by apply (Hrecv hs hr).
  - eapply wp_mono; [by apply (Hid _ _ hs hr)|]. by split.
  - eapply wp_mono; [by apply (Hvr _ _ _ _ hs hr)|]. by split.
  - eapply wp_mono; [by apply (hal_run_ok h hs hr)|]. by split.
Qed.
End Run.

(** What the programs rely on: libspdm keeps its contract, and there is memory
    for the state of libmctp. *)
Class SpdmSvcLaws : Prop := {
  dispatch_ok : forall ctx, lib_ok true false false (libspdm_responder_dispatch_message ctx);
  api_ok : forall c, lib_ok false false false (libspdm_api c);
  mctp_init_ok : forall e, fst (mctp_init e) <> None;
}.
End Spec.
Arguments SpdmSvcLaws E {_ _}.

(** [keep_step] is one step of a proof that a statement keeps [app_ok]. *)
Ltac keep_step :=
  lazymatch goal with
  | |- keeps (bind _ _) => apply keeps_bind; [|intros ?]
  | |- keeps (ret _) => apply keeps_ret
  | |- keeps skip => apply keeps_ret
  | |- keeps (gets _) => apply keeps_gets
  | |- keeps (call_out _) => apply keeps_call_out
  | |- keeps (do_out _) => apply keeps_do_out
  | |- keeps (modify _) => by apply keeps_modify
  | |- keeps (if ?b then _ else _) => destruct b
  | |- keeps (match ?o with Some _ => _ | None => _ end) => destruct o
  end.
