(* ===== verification/SpdmResponder.v ===== *)
(** main.c of samples/spdm/spdm_response: the responder.  [rx_message] keeps the
    latest request and gives the semaphore; the main thread takes it and
    lets libspdm answer with the callbacks of this file. *)

From S2P Require Import Prelude ZephyrSvc SpdmDefs SpdmCerts SpdmSecret SpdmApp.

Section Responder.
Context {E : Type} `{!SpdmConst, !SpdmSvc E}.
Notation W := (app E).
Notation AM := (ST W).

(** * From libmctp *)

Definition rx_message (f : frame) : AM unit :=
  match f_msg f with
  | None => skip
  | Some msg =>
    if f_len f =? 0 then skip else
    let! b := lift (arr_get msg 0) in
    let type := Z.land b 0x7f in
    if negb (rx_type_ok type) then skip else
    if f_len f >? 2048 then skip else
    let! old := gets pending_rx in
    let! new := lift (memcpy old 0 msg 0 (f_len f)) in
    do! modify (set_pending_rx new) in
    do! modify (set_pending_rx_len (f_len f)) in
    do! modify (set_pending_eid (f_eid f)) in
    do! modify (set_pending_msg_tag (f_msg_tag f)) in
    do! modify (set_pending_valid true) in
    k_sem_give
  end.

(** * Callbacks of libspdm *)

Definition spdm_device_send_message (message_size : Z) (message : option ptr) (timeout : Z) : AM Z :=
  let! ctx := gets mctp_ctx in
  match ctx, message with
  | Some c, Some p =>
    if message_size =? 0 then ret LIBSPDM_STATUS_SEND_FAIL else
    let! eid := gets pending_eid in
    let! tag := gets pending_msg_tag in
    let! l := gets (get_buf (p_buf p)) in
    let! bytes := lift (arr_slice l (p_off p) message_size) in
    let! rc := call_out (mctp_message_tx c eid false tag bytes) in
    if negb (rc =? 0) then ret LIBSPDM_STATUS_SEND_FAIL else ret LIBSPDM_STATUS_SUCCESS
  | _, _ => ret LIBSPDM_STATUS_SEND_FAIL
  end.

(** The USB thread may also run before [pending_valid] is cleared. *)
Definition spdm_device_receive_message (message_size : option Z) (message : option (option ptr))
    (timeout : Z) : AM (Z * option Z) :=
  let! valid := gets pending_valid in
  match message_size, message with
  | Some size, Some (Some buf) =>
    if negb valid then ret (LIBSPDM_STATUS_RECEIVE_FAIL, message_size) else
    let! len := gets pending_rx_len in
    if len >? size then ret (LIBSPDM_STATUS_RECEIVE_FAIL, message_size) else
    let! rx := gets pending_rx in
    let! copied := gets pending_rx_len in
    do! copy_to buf rx copied in
    let! received := gets pending_rx_len in
    do! usb_turn rx_message in
    do! modify (set_pending_valid false) in
    ret (LIBSPDM_STATUS_SUCCESS, Some received)
  | _, _ => ret (LIBSPDM_STATUS_RECEIVE_FAIL, message_size)
  end.

Definition spdm_vendor_get_id (resp_standard_id resp_vendor_id_len : bool) : AM (Z * option (Z * Z)) :=
  if negb resp_standard_id || negb resp_vendor_id_len
  then ret (LIBSPDM_STATUS_INVALID_PARAMETER, None)
  else ret (LIBSPDM_STATUS_SUCCESS, Some (0, 0)).

Definition ping : list Z := [0x31; 0x31; 0x31; 0x31].
Definition pong : list Z := [0x32; 0x32; 0x32; 0x32].

Definition vendor_response (req_size : Z) (req_data : option (list Z)) (resp_size : option Z)
    (resp_data : option (list Z)) : res (Z * (option Z * option (list Z))) :=
  match req_data, resp_size, resp_data with
  | Some req, Some size, Some resp =>
    rlet! is_ping := if req_size =? 4 then rlet! l := arr_slice req 0 4 in Ret (bool_decide (l = ping))
                     else Ret false in
    if (is_ping : bool) then
      if size <? 4 then Ret (LIBSPDM_STATUS_BUFFER_TOO_SMALL, (resp_size, resp_data)) else
      rlet! resp' := memcpy resp 0 pong 0 4 in
      Ret (LIBSPDM_STATUS_SUCCESS, (Some 4, Some resp'))
    else Ret (LIBSPDM_STATUS_SUCCESS, (Some 0, resp_data))
  | _, _, _ => Ret (LIBSPDM_STATUS_INVALID_PARAMETER, (resp_size, resp_data))
  end.
Definition spdm_vendor_response (req_size : Z) (req_data : option (list Z)) (resp_size : option Z)
    (resp_data : option (list Z)) : AM (Z * (option Z * option (list Z))) :=
  lift (vendor_response req_size req_data resp_size resp_data).

Definition handle (c : lib_call) : AM (call_ret c) :=
  handle_with spdm_device_send_message spdm_device_receive_message spdm_vendor_get_id
    spdm_vendor_response c.

(** * Initialisation *)

(** [libspdm_set_data], whose result the program does not look at. *)
Definition set_data (ctx : Z) (type : libspdm_data_type) (parameter : data_parameter)
    (data : list Z) : AM unit :=
  do! call_out (libspdm_set_data ctx type parameter data) in skip.

Definition capability_flags : Z :=
  fold_left Z.lor [RESPONSE_CHAL_CAP; RESPONSE_KEY_EX_CAP; RESPONSE_ENCRYPT_CAP; RESPONSE_MAC_CAP;
    RESPONSE_HANDSHAKE_IN_THE_CLEAR_CAP; RESPONSE_EVENT_CAP; RESPONSE_MULTI_KEY_CAP_NEG;
    RESPONSE_GET_KEY_PAIR_INFO_CAP; RESPONSE_SET_KEY_PAIR_INFO_CAP] RESPONSE_CERT_CAP.

Definition set_local_data (ctx : Z) : AM unit :=
  let parameter := mk_parameter LOCATION_LOCAL (additional_data zero_parameter) in
  let data8 v := le_split 1 v in
  let data16 v := le_split 2 v in
  let data32 v := le_split 4 v in
  do! set_data ctx DATA_SPDM_VERSION parameter
    (data16 (Z.shiftl SPDM_MESSAGE_VERSION_13 SPDM_VERSION_NUMBER_SHIFT_BIT)) in
  do! set_data ctx DATA_CAPABILITY_CT_EXPONENT parameter (data8 0) in
  do! set_data ctx DATA_CAPABILITY_FLAGS parameter (data32 capability_flags) in
  do! set_data ctx DATA_BASE_HASH_ALGO parameter (data32 BASE_HASH_ALGO_TPM_ALG_SHA_256) in
  do! set_data ctx DATA_BASE_ASYM_ALGO parameter (data32 BASE_ASYM_ALGO_TPM_ALG_ECDSA_ECC_NIST_P256) in
  do! set_data ctx DATA_MEASUREMENT_SPEC parameter (data8 0) in
  do! set_data ctx DATA_MEASUREMENT_HASH_ALGO parameter (data32 0) in
  do! set_data ctx DATA_DHE_NAME_GROUP parameter (data16 DHE_NAMED_GROUP_SECP_256_R1) in
  do! set_data ctx DATA_AEAD_CIPHER_SUITE parameter (data16 AEAD_CIPHER_SUITE_AES_128_GCM) in
  do! set_data ctx DATA_REQ_BASE_ASYM_ALG parameter (data16 0) in
  do! set_data ctx DATA_KEY_SCHEDULE parameter (data16 KEY_SCHEDULE_HMAC_HASH) in
  do! set_data ctx DATA_OTHER_PARAMS_SUPPORT parameter
    (data8 (Z.lor SPDM_ALGORITHMS_OPAQUE_DATA_FORMAT_1 SPDM_ALGORITHMS_MULTI_KEY_CONN)) in
  let! ad := lift (arr_set (additional_data parameter) 0 0) in
  let parameter := mk_parameter LOCATION_LOCAL ad in
  do! set_data ctx DATA_LOCAL_PUBLIC_CERT_CHAIN parameter g_spdm_cert_chain in
  do! set_data ctx DATA_LOCAL_SUPPORTED_SLOT_MASK parameter (data8 0x01) in
  do! set_data ctx DATA_TOTAL_KEY_PAIRS parameter (data8 1) in
  let! ad := lift (arr_set (additional_data parameter) 0 0) in
  let parameter := mk_parameter LOCATION_LOCAL ad in
  do! set_data ctx DATA_LOCAL_KEY_PAIR_ID parameter (data8 1) in
  do! set_data ctx DATA_LOCAL_CERT_INFO parameter (data8 SPDM_CERTIFICATE_INFO_CERT_MODEL_DEVICE_CERT) in
  set_data ctx DATA_LOCAL_KEY_USAGE_BIT_MASK parameter
    (data16 (Z.lor SPDM_KEY_USAGE_BIT_MASK_KEY_EX_USE SPDM_KEY_USAGE_BIT_MASK_CHALLENGE_USE)).

(** The callbacks are registered without arguments: they are [handle]. *)
Definition spdm_responder_init : AM Z :=
  let ctx_size := libspdm_get_context_size in
  let! c := call_out (k_malloc ctx_size) in
  do! modify (set_spdm_context c) in
  match c with
  | None => ret (- ENOMEM)
  | Some ctx =>
    do! do_out (memset_block ctx 0 ctx_size) in
    let! status := call_out (libspdm_init_context ctx) in
    if LIBSPDM_STATUS_IS_ERROR status then ret (- EIO) else
    do! do_out (libspdm_register_device_io_func ctx) in
    do! do_out (libspdm_register_transport_layer_func ctx SPDM_MAX_MSG_SIZE
      LIBSPDM_MCTP_TRANSPORT_HEADER_SIZE LIBSPDM_MCTP_TRANSPORT_TAIL_SIZE) in
    do! do_out (libspdm_register_device_buffer_func ctx SPDM_SENDER_BUFFER_SIZE SPDM_RECEIVER_BUFFER_SIZE) in
    let! scratch_size := gets (fun w => libspdm_get_sizeof_required_scratch_buffer ctx (ext w)) in
    let! s := call_out (k_malloc scratch_size) in
    do! modify (set_spdm_scratch s) in
    match s with
    | None => ret (- ENOMEM)
    | Some scratch =>
      do! do_out (memset_block scratch 0 scratch_size) in
      do! do_out (libspdm_set_scratch_buffer ctx scratch scratch_size) in
      do! set_local_data ctx in
      let! status := call_out (libspdm_register_vendor_get_id_callback_func ctx) in
      if LIBSPDM_STATUS_IS_ERROR status then ret (- EIO) else
      let! status := call_out (libspdm_register_vendor_callback_func ctx) in
      if LIBSPDM_STATUS_IS_ERROR status then ret (- EIO) else
      let! ok := call_out (libspdm_check_context ctx) in
      if negb ok then ret (- EINVAL) else ret 0
    end
  end.

(** * main *)

(** One round of [while (1)]: [None] means that the thread waits for ever. *)
Definition serve : AM (option Z) :=
  let! taken := k_sem_take rx_message None in
  if (taken : bool) then
    let! ctx := gets spdm_context in
    let! status := run_lib rx_message handle (libspdm_responder_dispatch_message ctx) in
    ret (Some status)
  else ret None.

Inductive started : Type := Failed | Waiting | Serving.

(** [main] up to its endless loop.  [__ASSERT_NO_MSG(mctp_ctx != NULL)] stops the
    program, which is no defined behaviour of it. *)
Definition main_start : AM started :=
  let! r := enable_usb_device_next in
  if negb (r =? 0) then ret Failed else
  let! ok := (fun w => wait_configured rx_message (future w) w) in
  if negb ok then ret Waiting else
  let! r := spdm_responder_init in
  if negb (r =? 0) then ret Failed else
  let! c := call_out mctp_init in
  do! modify (set_mctp_ctx c) in
  match c with
  | None => undefined
  | Some _ =>
    do! modify (set_mctp0_pkt_size (MCTP_USB_MAX_PACKET_LENGTH - MCTP_USB_HEADER_SIZE)) in
    let! size := gets mctp0_pkt_size in
    do! do_out (mctp_register_bus c size SELF_ID) in
    do! do_out (mctp_set_rx_all c) in
    do! modify (set_rx_set true) in
    ret Serving
  end.

(** The loop, for as long as messages of [future] arrive. *)
Fixpoint main_loop (rounds : nat) : AM unit :=
  match rounds with
  | O => skip
  | S rounds => let! r := serve in
    match r with Some _ => main_loop rounds | None => skip end
  end.

(** [main], whose loop runs for at most [rounds] requests. *)
Definition main (rounds : nat) : AM unit :=
  let! s := main_start in
  match s with Serving => main_loop rounds | _ => skip end.
End Responder.
