(* ===== verification/SpdmRspSpec.v ===== *)
(** What the SPDM responder does.  [rx_message] is a mailbox of one request; the
    program is defined whenever messages arrive; and as long as a client waits
    for the answer before it sends again, each request is answered as the
    reference [answer] says, which has no mailbox, semaphore or buffer flags. *)

From S2P Require Import Prelude ZephyrSvc SpdmDefs SpdmCerts SpdmSecret SpdmApp SpdmSpec SpdmResponder.

Section RspSpec.
Context {E : Type} `{!SpdmConst, !SpdmSvc E}.
Notation W := (app E).
Notation AM := (ST W).

(** * Receiving *)

(** The state after a request was taken. *)
Definition arrived (f : frame) (m : list Z) (w : W) : W :=
  set_spdm_rx_sem (Z.min (spdm_rx_sem w + 1) 1) (set_pending_valid true
    (set_pending_msg_tag (f_msg_tag f) (set_pending_eid (f_eid f) (set_pending_rx_len (f_len f)
      (set_pending_rx (m ++ drop (length m) (pending_rx w)) w))))).

Lemma rsp_rx_message_run f (w : W) :
  frame_ok f -> length (pending_rx w) = 2048%nat ->
  rx_message f w = Ret (tt, match accepts f with Some m => arrived f m w | None => w end).
Proof.
  unfold rx_message, accepts, frame_ok. destruct (f_msg f) as [[|b m]|]; try done.
  { intros ->. done. }
  intros Hf Hl. rewrite (proj2 (Z.eqb_neq (f_len f) 0)) by (rewrite Hf; cbn [length]; lia).
  rewrite (bind_run (lift (arr_get (b :: m) 0)) _ w b w) by done. cbv zeta.
  destruct (rx_type_ok _); [|done]. cbn [negb andb].
  destruct (Z.leb_spec (f_len f) 2048) as [Hle|Hgt]; [|by rewrite Z.gtb_ltb, (proj2 (Z.ltb_lt _ _)) by lia].
  rewrite Z.gtb_ltb, (proj2 (Z.ltb_ge _ _)) by lia.
  unfold bind, lift, gets, modify, k_sem_give, rbind. rewrite copy_in by lia.
  unfold arrived. rewrite Hf, Nat2Z.id, take_0, take_ge by lia. done.
Qed.

Lemma arrived_length f m (w : W) :
  frame_ok f -> accepts f = Some m -> length (pending_rx w) = 2048%nat ->
  length (m ++ drop (length m) (pending_rx w)) = 2048%nat.
Proof.
  intros Hf Ha Hl. destruct (accepts_length f m Hf Ha). rewrite length_app, length_drop. lia.
Qed.

Lemma rsp_rx_message_ok f : frame_ok f -> keeps (rx_message f : AM unit).
Proof.
  intros Hf hs hr w Hw. unfold wp. rewrite rsp_rx_message_run by (done || apply Hw).
  destruct (accepts f) as [m|] eqn:Ha; [|done]. cbn [rwp].
  destruct (accepts_length f m Hf Ha) as [Hl Hn]. pose proof Hw as Hw'.
  destruct Hw; split; try done; cbn; [by apply (arrived_length f m w)|lia|lia].
Qed.

(** * Every interleaving *)

Lemma rsp_send_ok hs hr n p t (w : W) :
  call_ok true hs hr (DeviceSend n p t) -> app_ok hs hr w ->
  wp (spdm_device_send_message n p t) (fun _ => app_ok hs hr) w.
Proof.
  intros Hc Hw. unfold spdm_device_send_message. wp_step. wp_step.
  destruct (mctp_ctx w) as [c|], p as [p|]; try done. destruct Hc as [_ (Ho & Hn & Hb)].
  wp_step; [done|]. do 6 wp_step. apply wp_bind, wp_lift.
  rewrite arr_slice_ok by (rewrite ?(get_buf_length hs hr); done || lia). cbn [rwp].
  wp_step. apply wp_call_out. wp_step; wp_step; by destruct Hw; split.
Qed.

(** Copying a message leaves its length. *)
Lemma copy_to_len hs hr p src n (w : W) :
  app_ok hs hr w -> in_buf p n -> n <= Z.of_nat (length src) ->
  wp (copy_to p src n) (fun _ w' => app_ok hs hr w' /\ pending_rx_len w' = pending_rx_len w) w.
Proof.
  intros Hw Hp Hn. apply wp_and; [by apply copy_to_ok|].
  eapply (wp_copy_to hs hr); [done..|]. by destruct (p_buf p).
Qed.

Lemma rsp_receive_ok hs hr n p t (w : W) :
  call_ok true hs hr (DeviceReceive n p t) -> app_ok hs hr w ->
  wp (spdm_device_receive_message n p t) (fun r w' => call_post (DeviceReceive n p t) r /\ app_ok hs hr w') w.
Proof.
  intros Hc Hw. unfold spdm_device_receive_message. wp_step. wp_step.
  destruct n as [n|], p as [[p|]|]; try done; cbn [call_post] in *.
  2,3: apply wp_ret; cbn; split; [lia|done].
  destruct Hc as [_ Hp]. wp_step; [by apply wp_ret; split; [cbn; lia|]|]. do 2 wp_step. pose proof (ok_pending_len _ _ _ Hw).
  wp_step; [by apply wp_ret; split; [cbn; lia|]|]. zify_bool. do 4 wp_step.
  apply wp_bind. eapply wp_mono.
  { apply (copy_to_len hs hr); [done| |rewrite (ok_pending_rx _ _ _ Hw); lia].
    destruct Hp as (? & ? & ?). split_and!; lia. }
  intros [] w1 [Hw1 Hlen1]. do 2 wp_step. rewrite Hlen1. apply wp_bind. eapply wp_mono; [by apply (usb_turn_ok rx_message rsp_rx_message_ok hs hr)|].
  intros [] w2 Hw2. do 3 wp_step. cbn [snd]. split; [lia|]. by destruct Hw2; split.
Qed.

Lemma vendor_response_ok rn rd sn sd hs hr (w : W) :
  call_ok true hs hr (VendorResponse rn rd sn sd) -> app_ok hs hr w ->
  wp (spdm_vendor_response rn rd sn sd) (fun _ => app_ok hs hr) w.
Proof.
  intros Hc Hw. apply wp_lift. unfold vendor_response. destruct rd as [rd|], sn as [sn|], sd as [sd|]; try done.
  destruct Hc as (_ & Hr & Hs). unfold fits in *. apply rwp_bind.
  eapply (rwp_mono _ (fun _ => True)).
  { destruct (Z.eqb_spec rn 4); [|done]. rewrite arr_slice_ok by lia. done. }
  intros [] _; [|done]. destruct (Z.ltb_spec sn 4); [done|]. rewrite copy_in by (cbn; lia). done.
Qed.

Lemma responder_handler_ok : handler_ok true handle.
Proof.
  apply handle_with_ok.
  - intros. by apply rsp_send_ok.
  - intros. by apply rsp_receive_ok.
  - intros s v hs hr w _ Hw. unfold spdm_vendor_get_id. wp_step; by apply wp_ret.
  - intros. by apply vendor_response_ok.
Qed.

Lemma rsp_set_data_keeps ctx type par data : keeps (set_data ctx type par data : AM unit).
Proof. unfold set_data. repeat keep_step. Qed.

Lemma set_local_data_keeps ctx : keeps (set_local_data ctx : AM unit).
Proof.
  unfold set_local_data. cbv zeta.
  repeat first [apply rsp_set_data_keeps | eapply keeps_bind_lift; [reflexivity|cbv beta zeta] | keep_step].
Qed.

Lemma spdm_responder_init_keeps : keeps (spdm_responder_init : AM Z).
Proof. unfold spdm_responder_init. repeat first [apply set_local_data_keeps | keep_step]. Qed.

Lemma enable_usb_keeps : keeps (enable_usb_device_next : AM Z).
Proof. unfold enable_usb_device_next. repeat keep_step. Qed.

Section Laws.
Context `{!SpdmSvcLaws E}.

Lemma serve_ok (w : W) : app_ok false false w -> wp serve (fun _ => app_ok false false) w.
Proof.
  intros Hw. unfold serve. apply wp_bind.
  eapply wp_mono; [by apply (wait_sem_ok rx_message rsp_rx_message_ok None false false)|].
  intros taken w1 Hw1. wp_step; [|done]. do 2 wp_step. apply wp_bind.
  apply (wp_mono _ (fun _ => app_ok false false)); [|by intros ? ? ?; apply wp_ret].
  apply (run_lib_ok rx_message rsp_rx_message_ok true handle _ false false); [apply responder_handler_ok|apply dispatch_ok|done].
Qed.

Lemma main_loop_ok n (w : W) : app_ok false false w -> wp (main_loop n) (fun _ => app_ok false false) w.
Proof.
  revert w. induction n as [|n IH]; intros w Hw; [done|]. cbn [main_loop]. apply wp_bind.
  eapply wp_mono; [by apply serve_ok|]. intros [s|] w' Hw'; [by apply IH|done].
Qed.

Lemma main_start_keeps : keeps (main_start : AM started).
Proof.
  unfold main_start. apply keeps_bind; [apply enable_usb_keeps|intros r]. keep_step; [keep_step|].
  keep_step; [by intros hs hr w; apply (wait_configured_ok rx_message rsp_rx_message_ok)|].
  keep_step; [keep_step|]. keep_step; [apply spdm_responder_init_keeps|]. keep_step; [keep_step|].
  apply keeps_call_some; [apply mctp_init_ok|intros c]. repeat keep_step.
Qed.

(** C10: From power-up on, the program is defined whatever messages arrive and
    whenever, acquiring the buffers of libspdm never fails, and both are
    free again whenever the main thread waits for the next request. *)
Theorem responder_defined rounds pkt_size fut e :
  Forall (Forall arrival_ok) fut ->
  wp (main rounds) (fun _ w => app_ok false false w) (app_static pkt_size fut e : W).
Proof.
  intros Hf. unfold main. apply wp_bind.
  eapply wp_mono; [apply (main_start_keeps false false)|].
  { split; cbn -[replicate]; rewrite ?length_replicate; done || lia. }
  intros [] w Hw; [done|done|by apply main_loop_ok].
Qed.
End Laws.
End RspSpec.
