(* ===== verification/SpdmServe.v ===== *)
(** The responder as a service: what the answer to one request is, without
    threads.  [answer] runs libspdm on a request with callbacks that always succeed
    in acquiring and send to the sender of the request; [serve_all] is the loop of
    main.c when each client waits for its answer. *)

From S2P Require Import Prelude ZephyrSvc SpdmDefs SpdmCerts SpdmSecret SpdmApp SpdmSpec SpdmResponder SpdmRspSpec.

Section Serve.
Context {E : Type} `{!SpdmConst, !SpdmSvc E}.
Notation W := (app E).
Notation AM := (ST W).

(** * The reference *)

(** The request that is not yet read, the buffers, the device, the outside. *)
Record service : Type := mk_service {
  s_request : option (list Z); s_sbuf : list Z; s_rbuf : list Z; s_hal : hal_state; s_ext : E }.

Definition s_set_request (r : option (list Z)) (s : service) : service :=
  mk_service r (s_sbuf s) (s_rbuf s) (s_hal s) (s_ext s).
Definition s_set_ext (e : E) (s : service) : service :=
  mk_service (s_request s) (s_sbuf s) (s_rbuf s) (s_hal s) e.
Definition s_buf (b : buf) (s : service) : list Z :=
  match b with SenderBuf => s_sbuf s | ReceiverBuf => s_rbuf s end.
Definition s_set_buf (b : buf) (l : list Z) (s : service) : service :=
  match b with
  | SenderBuf => mk_service (s_request s) l (s_rbuf s) (s_hal s) (s_ext s)
  | ReceiverBuf => mk_service (s_request s) (s_sbuf s) l (s_hal s) (s_ext s)
  end.

Section Answer.
Context (mctp eid tag : Z).

Definition answer_send (size : Z) (message : option ptr) : ST service Z :=
  fun s => match message with
  | Some p =>
    if size =? 0 then Ret (LIBSPDM_STATUS_SEND_FAIL, s) else
    let bytes := take (Z.to_nat size) (drop (Z.to_nat (p_off p)) (s_buf (p_buf p) s)) in
    let '(rc, e) := mctp_message_tx mctp eid false tag bytes (s_ext s) in
    Ret (if rc =? 0 then LIBSPDM_STATUS_SUCCESS else LIBSPDM_STATUS_SEND_FAIL, s_set_ext e s)
  | None => Ret (LIBSPDM_STATUS_SEND_FAIL, s)
  end.

Definition answer_receive (size : option Z) (message : option (option ptr)) : ST service (Z * option Z) :=
  fun s => match s_request s, size, message with
  | Some m, Some n, Some (Some p) =>
    let len := Z.of_nat (length m) in
    if n <? len then Ret ((LIBSPDM_STATUS_RECEIVE_FAIL, size), s) else
    let l := s_buf (p_buf p) s in
    let l' := take (Z.to_nat (p_off p)) l ++ m ++ drop (Z.to_nat (p_off p) + length m) l in
    Ret ((LIBSPDM_STATUS_SUCCESS, Some len), s_set_request None (s_set_buf (p_buf p) l' s))
  | _, _, _ => Ret ((LIBSPDM_STATUS_RECEIVE_FAIL, size), s)
  end.

Definition answer_call (c : lib_call) : ST service (call_ret c) :=
  match c return ST service (call_ret c) with
  | AcquireSender _ => ret (LIBSPDM_STATUS_SUCCESS, Some SenderBuf)
  | AcquireReceiver _ => ret (LIBSPDM_STATUS_SUCCESS, Some ReceiverBuf)
  | ReleaseSender _ | ReleaseReceiver _ => skip
  | ReadBuf b => gets (s_buf b)
  | WriteBuf b l => modify (s_set_buf b l)
  | DeviceSend size message _ => answer_send size message
  | DeviceReceive size message _ => answer_receive size message
  | VendorGetId sid vid => ret (if sid && vid then (LIBSPDM_STATUS_SUCCESS, Some (0, 0))
                                else (LIBSPDM_STATUS_INVALID_PARAMETER, None))
  | VendorResponse rn rd sn sd => lift (vendor_response rn rd sn sd)
  | Hal h => fun s => rlet! p := hal_handle h (s_hal s, s_ext s) in
      let '(r, (h', e)) := p in Ret (r, mk_service (s_request s) (s_sbuf s) (s_rbuf s) h' e)
  end.

Fixpoint answer {A} (p : lib E A) : ST service A :=
  match p with
  | LRet a => ret a
  | LGet k => fun s => answer (k (s_ext s)) s
  | LPut e p => do! modify (s_set_ext e) in answer p
  | LCall c k => let! r := answer_call c in answer (k r)
  end.
End Answer.

(** The answers to a sequence of messages; those that are no requests get none. *)
Fixpoint answer_all (mctp : Z) (ctx : option Z) (fs : list frame) : ST service (list (option Z)) :=
  match fs with
  | [] => ret []
  | f :: fs =>
    let! r := match accepts f with
      | Some m =>
        do! modify (s_set_request (Some m)) in
        let! status := answer mctp (f_eid f) (f_msg_tag f) (libspdm_responder_dispatch_message ctx) in
        ret (Some status)
      | None => ret None end in
    let! rs := answer_all mctp ctx fs in
    ret (r :: rs)
  end.

(** The main thread waits, one message arrives, and the next only when it waits
    again. *)
Fixpoint serve_all (fs : list frame) : AM (list (option Z)) :=
  match fs with
  | [] => ret []
  | f :: fs =>
    do! modify (set_future [[Rx f]]) in
    let! r := serve in
    let! rs := serve_all fs in
    ret (r :: rs)
  end.

(** * Simulation *)

Record sim (mctp : Z) (ctx : option Z) (eid tag : Z) (w : W) (s : service) : Prop := {
  sim_mctp : mctp_ctx w = Some mctp;
  sim_ctx : spdm_context w = ctx;
  sim_set : rx_set w = true;
  sim_future : future w = [];
  sim_sem : spdm_rx_sem w = 0;
  sim_sbuf : sender_buf w = s_sbuf s;
  sim_rbuf : receiver_buf w = s_rbuf s;
  sim_hal : hal w = s_hal s;
  sim_ext : ext w = s_ext s;
  sim_eid : pending_eid w = eid;
  sim_tag : pending_msg_tag w = tag;
  sim_request : match s_request s with
    | Some m => pending_valid w = true /\ pending_rx_len w = Z.of_nat (length m) /\
        take (length m) (pending_rx w) = m
    | None => pending_valid w = false end;
}.

Lemma sim_buf mctp ctx eid tag b (w : W) s : sim mctp ctx eid tag w s -> get_buf b w = s_buf b s.
Proof. intros []. by destruct b. Qed.

Lemma sim_set_buf mctp ctx eid tag b l (w : W) s :
  sim mctp ctx eid tag w s -> sim mctp ctx eid tag (set_buf b l w) (s_set_buf b l s).
Proof. intros []. by destruct b; split. Qed.

Lemma sim_set_ext mctp ctx eid tag e (w : W) s :
  sim mctp ctx eid tag w s -> sim mctp ctx eid tag (set_ext e w) (s_set_ext e s).
Proof. intros []. by split. Qed.

(** One callback, and what the reference does for it. *)
Notation simulates mctp ctx eid tag c s :=
  (fun r w' => exists s', answer_call mctp eid tag c s = Ret (r, s') /\ sim mctp ctx eid tag w' s').

Lemma send_simulates mctp ctx eid tag hs hr size message timeout (w : W) s :
  call_ok true hs hr (DeviceSend size message timeout) -> app_ok hs hr w -> sim mctp ctx eid tag w s ->
  wp (spdm_device_send_message size message timeout)
     (simulates mctp ctx eid tag (DeviceSend size message timeout) s) w.
Proof.
  intros Hc Hw Hs. unfold spdm_device_send_message. wp_step. wp_step. rewrite (sim_mctp _ _ _ _ _ _ Hs).
  cbn [answer_call]. unfold answer_send. destruct message as [p|]; [|by apply wp_ret; exists s].
  destruct Hc as [_ (Ho & Hn & Hb)]. wp_step; [by apply wp_ret; exists s|]. do 6 wp_step.
  apply wp_bind, wp_lift. rewrite arr_slice_ok by (rewrite ?(get_buf_length hs hr); done || lia). cbn [rwp].
  rewrite (sim_eid _ _ _ _ _ _ Hs), (sim_tag _ _ _ _ _ _ Hs), (sim_buf _ _ _ _ _ _ _ Hs).
  apply wp_bind, wp_call_out. rewrite (sim_ext _ _ _ _ _ _ Hs).
  destruct (mctp_message_tx _ _ _ _ _ _) as [rc e]. cbn [fst snd].
  wp_step; apply wp_ret; (eexists; split; [by (destruct (rc =? 0))|by apply sim_set_ext]).
Qed.

Lemma receive_simulates mctp ctx eid tag hs hr size message timeout (w : W) s :
  call_ok true hs hr (DeviceReceive size message timeout) -> app_ok hs hr w -> sim mctp ctx eid tag w s ->
  wp (spdm_device_receive_message size message timeout)
     (simulates mctp ctx eid tag (DeviceReceive size message timeout) s) w.
Proof.
  intros Hc Hw Hs. unfold spdm_device_receive_message. wp_step. wp_step. cbn [answer_call]. unfold answer_receive.
  pose proof (sim_request _ _ _ _ _ _ Hs) as Hr.
  destruct size as [n|], message as [[p|]|]; cycle 1;
    [apply wp_ret; exists s; split; [by destruct (s_request s)|done]..|].
  destruct (s_request s) as [m|]; [|rewrite Hr; by apply wp_ret; exists s].
  destruct Hr as (-> & Hl & Hm). cbn [negb]. do 2 wp_step. rewrite Hl, Z.gtb_ltb.
  destruct (Z.ltb_spec n (Z.of_nat (length m))) as [|Hn]; [by apply wp_ret; exists s|].
  do 4 wp_step. rewrite Hl. destruct Hc as [_ (Ho & Hi & Hb)]. pose proof (ok_pending_rx _ _ _ Hw).
  pose proof (ok_pending_len _ _ _ Hw). apply wp_bind.
  eapply (wp_copy_to hs hr); [done|split_and!; lia|lia|]. rewrite Nat2Z.id, Hm.
  rewrite (sim_buf _ _ _ _ _ _ _ Hs). set (l := take _ _ ++ _).
  pose proof (sim_set_buf _ _ _ _ (p_buf p) l _ _ Hs) as Hs'.
  assert (Hl' : pending_rx_len (set_buf (p_buf p) l w) = Z.of_nat (length m)) by (by destruct (p_buf p)).
  do 2 wp_step. rewrite Hl'. apply wp_bind, wp_usb_idle; [apply Hs'|]. wp_step. apply wp_modify, wp_ret.
  eexists. split; [done|]. by destruct Hs'; split.
Qed.

Lemma handle_simulates mctp ctx eid tag hs hr c (w : W) s :
  call_ok true hs hr c -> app_ok hs hr w -> sim mctp ctx eid tag w s ->
  wp (handle c) (simulates mctp ctx eid tag c s) w.
Proof.
  intros Hc Hw Hs. pose proof (ok_sender _ _ _ Hw) as Hi. pose proof (ok_receiver _ _ _ Hw) as Hj.
  destruct c; cbn [handle handle_with answer_call].
  - destruct Hc as [-> ->]. unfold spdm_acquire_sender_buffer. wp_step. wp_step. rewrite Hi. cbn [orb negb].
    repeat wp_step. exists s. split; [done|]. by destruct Hs; split.
  - apply wp_modify. exists s. split; [done|]. by destruct Hs; split.
  - destruct Hc as [-> ->]. unfold spdm_acquire_receiver_buffer. wp_step. wp_step. rewrite Hj. cbn [orb negb].
    repeat wp_step. exists s. split; [done|]. by destruct Hs; split.
  - apply wp_modify. exists s. split; [done|]. by destruct Hs; split.
  - apply wp_gets. exists s. by rewrite (sim_buf _ _ _ _ _ _ _ Hs).
  - apply wp_modify. eexists. split; [done|]. by apply sim_set_buf.
  - by apply (send_simulates _ _ _ _ hs hr _ _ timeout).
  - by apply (receive_simulates _ _ _ _ hs hr).
  - unfold spdm_vendor_get_id. destruct standard_id, vendor_id_len; cbn [negb orb]; by apply wp_ret; exists s.
  - pose proof (vendor_response_ok _ _ _ _ _ _ _ Hc Hw) as Hv. unfold spdm_vendor_response, wp, lift in *.
    destruct (vendor_response _ _ _ _) as [r| |]; try done. cbn. by exists s.
  - pose proof (hal_run_ok _ _ _ _ Hc Hw) as Hv. unfold wp, hal_run in *.
    rewrite (sim_hal _ _ _ _ _ _ Hs), (sim_ext _ _ _ _ _ _ Hs) in *.
    destruct (hal_handle h (s_hal s, s_ext s)) as [[r [h' e]]| |]; try done. cbn [rbind rwp].
    eexists. split; [done|]. by destruct Hs; split.
Qed.

(** The semaphore is taken exactly if the message is a request. *)
Lemma take_request f (w : W) :
  frame_ok f -> length (pending_rx w) = 2048%nat -> rx_set w = true -> spdm_rx_sem w = 0 ->
  k_sem_take rx_message None (set_future [[Rx f]] w) =
    Ret (match accepts f with
         | Some m => (true, set_spdm_rx_sem 0 (arrived f m (set_future [] w)))
         | None => (false, set_future [] w) end).
Proof.
  intros Hf Hl Hset Hsem. unfold k_sem_take. cbn [future set_future wait_sem spdm_rx_sem]. rewrite Hsem.
  unfold usb_turn. cbn [future set_future deliver_all deliver Z.ltb Z.compare].
  unfold bind, gets. cbn [rbind rx_set set_future]. rewrite Hset.
  rewrite rsp_rx_message_run by done. destruct (accepts f) as [m|]; cbn; by rewrite ?Hsem.
Qed.

(** A whole call of libspdm. *)
Lemma run_simulates {A} mctp ctx eid tag (p : lib E A) hs hr (w : W) s :
  lib_ok true hs hr p -> app_ok hs hr w -> sim mctp ctx eid tag w s ->
  wp (run_lib rx_message handle p)
     (fun a w' => app_ok false false w' /\
        exists s', answer mctp eid tag p s = Ret (a, s') /\ sim mctp ctx eid tag w' s') w.
Proof.
  revert hs hr w s. induction p as [a|k IH|e p IH|c k IH]; intros hs hr w s Hp Hw Hs; cbn [run_lib answer].
  - destruct Hp; subst. apply wp_ret. split; [done|]. by exists s.
  - unfold wp. rewrite <- (sim_ext _ _ _ _ _ _ Hs). exact (IH (ext w) hs hr w s (Hp (ext w)) Hw Hs).
  - wp_step. wp_step. eapply wp_mono; [apply (IH hs hr _ (s_set_ext e s)); [done| |by apply sim_set_ext]|done].
    by destruct Hw; split.
  - destruct Hp as [Hc Hk]. apply wp_bind, wp_usb_idle; [apply Hs|]. apply wp_bind. eapply wp_mono.
    { apply wp_and; [by apply (responder_handler_ok hs hr c)|by apply (handle_simulates mctp ctx eid tag hs hr)]. }
    intros r w1 [[Hr Hw1] (s1 & E1 & Hs1)]. cbn beta. eapply wp_mono; [by eapply IH; [apply Hk| |]|].
    intros a w2 [Hw2 (s2 & E2 & Hs2)]. split; [done|]. exists s2. split; [|done].
    unfold bind. by rewrite E1.
Qed.

(** The program waits for a request. *)
Definition idle (mctp : Z) (ctx : option Z) (w : W) (s : service) : Prop :=
  app_ok false false w /\ exists eid tag, sim mctp ctx eid tag w s.

Lemma arrived_sim mctp ctx f m (w : W) s eid tag :
  frame_ok f -> accepts f = Some m -> app_ok false false w -> sim mctp ctx eid tag w s ->
  sim mctp ctx (f_eid f) (f_msg_tag f) (set_spdm_rx_sem 0 (arrived f m w)) (s_set_request (Some m) s).
Proof.
  intros Hf Ha Hw Hs. destruct (accepts_length f m Hf Ha) as [Hl _]. destruct Hs; split; try done.
  cbn. split_and!; [done..|]. by rewrite take_app_length.
Qed.

Section Laws.
Context `{!SpdmSvcLaws E}.

Lemma serve_one mctp ctx f (w : W) s :
  frame_ok f -> idle mctp ctx w s ->
  wp serve
     (fun r w' => exists s', idle mctp ctx w' s' /\
        match accepts f with
        | Some m => exists st, r = Some st /\
            answer mctp (f_eid f) (f_msg_tag f) (libspdm_responder_dispatch_message ctx)
              (s_set_request (Some m) s) = Ret (st, s')
        | None => r = None /\ s' = s
        end) (set_future [[Rx f]] w).
Proof.
  intros Hf [Hw (eid & tag & Hs)]. unfold serve. apply wp_bind.
  pose proof (take_request f w Hf (ok_pending_rx _ _ _ Hw) (sim_set _ _ _ _ _ _ Hs) (sim_sem _ _ _ _ _ _ Hs)) as Et.
  set (w0 := set_future [] w) in Et. assert (Hw0 : app_ok false false w0) by (by destruct Hw; split).
  assert (Hs0 : sim mctp ctx eid tag w0 s) by (by destruct Hs; split).
  destruct (accepts f) as [m|] eqn:Ha; apply (wp_of_eq _ _ _ _ _ Et); [|by exists s; split; [split; [|by exists eid, tag]|]].
  pose proof (arrived_sim mctp ctx f m w0 s eid tag Hf Ha Hw0 Hs0) as Hs1.
  assert (Hw1 : app_ok false false (set_spdm_rx_sem 0 (arrived f m w0))).
  { pose proof (rsp_rx_message_ok f Hf false false w0 Hw0) as H1. unfold wp in H1.
    rewrite rsp_rx_message_run, Ha in H1 by (done || apply Hw0). by apply set_sem_ok. }
  do 2 wp_step. rewrite (sim_ctx _ _ _ _ _ _ Hs1). apply wp_bind. eapply wp_mono.
  { eapply (run_simulates mctp ctx (f_eid f) (f_msg_tag f)); [apply dispatch_ok|exact Hw1|exact Hs1]. }
  intros st w2 [Hw2 (s2 & E2 & Hs2)]. apply wp_ret. exists s2. split; [split; [done|by eexists _, _]|by exists st].
Qed.

(** C4: While every client waits for its answer, the responder is the service
    [answer_all]: each request is answered by one run of libspdm that receives
    exactly its bytes and whose messages go to its sender under its tag; other
    messages change nothing. *)
Theorem serve_refines mctp ctx fs (w : W) s :
  Forall frame_ok fs -> idle mctp ctx w s ->
  wp (serve_all fs) (fun rs w' => exists s', answer_all mctp ctx fs s = Ret (rs, s') /\ idle mctp ctx w' s') w.
Proof.
  intros Hf. revert w s. induction Hf as [|f fs Hf _ IH]; intros w s Hi; cbn [serve_all answer_all].
  { apply wp_ret. by exists s. }
  wp_step. wp_step. apply wp_bind. eapply wp_mono; [by apply serve_one|].
  intros r w1 (s1 & Hi1 & Hr). apply wp_bind. eapply wp_mono; [by apply IH|].
  intros rs w2 (s2 & E2 & Hi2). apply wp_ret. exists s2. split; [|done]. destruct (accepts f) as [m|].
  - destruct Hr as (st & -> & Ea). unfold bind, modify, ret. cbn [rbind]. by rewrite Ea; cbn [rbind]; rewrite E2.
  - destruct Hr as [-> ->]. unfold bind, ret. cbn [rbind]. by rewrite E2.
Qed.
End Laws.
End Serve.
