(* ===== verification/SpdmRace.v ===== *)
(** What goes wrong in the SPDM responder when a second client does not wait: its
    request replaces the address to which the answer to the first goes, or
    is lost. *)

From S2P Require Import Prelude ZephyrSvc SpdmDefs SpdmCerts SpdmSecret SpdmApp SpdmSpec SpdmResponder SpdmRspSpec.
From S2P Require Import SpdmServe.

Section Race.
Context {E : Type} `{!SpdmConst, !SpdmSvc E}.
Notation W := (app E).
Notation AM := (ST W).

(** One message arrives, then nothing. *)
Lemma usb_turn_one f (w : W) :
  frame_ok f -> length (pending_rx w) = 2048%nat -> rx_set w = true -> future w = [[Rx f]] ->
  usb_turn rx_message w =
    Ret (tt, match accepts f with Some m => arrived f m (set_future [] w) | None => set_future [] w end).
Proof.
  intros Hf Hl Hset Hfut. unfold usb_turn. rewrite Hfut. cbn [deliver_all deliver].
  unfold bind, gets. cbn [rbind rx_set set_future]. rewrite Hset. by rewrite rsp_rx_message_run.
Qed.

(** What a request that arrives leaves alone. *)
Lemma arrived_fields f m (w : W) :
  mctp_ctx (arrived f m w) = mctp_ctx w /\ sender_buf (arrived f m w) = sender_buf w /\
  ext (arrived f m w) = ext w /\ pending_eid (arrived f m w) = f_eid f /\
  pending_msg_tag (arrived f m w) = f_msg_tag f.
Proof. done. Qed.

(** C26: An answer that libspdm is about to send when another request arrives
    goes to the sender of that request, under its tag. *)
Theorem response_misrouted mctp ctx eid tag f m size p timeout (w : W) s :
  frame_ok f -> accepts f = Some m -> app_ok true false w -> sim mctp ctx eid tag w s ->
  p_buf p = SenderBuf -> in_buf p size -> size <> 0 ->
  wp (do! usb_turn rx_message in handle (DeviceSend size (Some p) timeout))
     (fun r w' => exists rc e,
        mctp_message_tx mctp (f_eid f) false (f_msg_tag f)
          (take (Z.to_nat size) (drop (Z.to_nat (p_off p)) (s_sbuf s))) (s_ext s) = (rc, e) /\
        ext w' = e /\ r = if rc =? 0 then LIBSPDM_STATUS_SUCCESS else LIBSPDM_STATUS_SEND_FAIL)
     (set_future [[Rx f]] w).
Proof.
  intros Hf Ha Hw Hs Hp (Ho & Hz & Hb) Hn. apply wp_bind. eapply wp_of_eq.
  { rewrite (usb_turn_one f) by (done || apply Hw || apply Hs). by rewrite Ha. }
  destruct (arrived_fields f m (set_future [] (set_future [[Rx f]] w))) as (E1 & E2 & E3 & E4 & E5).
  revert E1 E2 E3 E4 E5. generalize (arrived f m (set_future [] (set_future [[Rx f]] w))) as w1.
  intros w1 E1 E2 E3 E4 E5. cbn [mctp_ctx sender_buf ext set_future] in E1, E2, E3.
  rewrite (sim_mctp _ _ _ _ _ _ Hs) in E1. pose proof (ok_sender_buf _ _ _ Hw) as Hl.
  rewrite (sim_sbuf _ _ _ _ _ _ Hs) in E2, Hl. rewrite (sim_ext _ _ _ _ _ _ Hs) in E3.
  cbn [handle handle_with]. unfold spdm_device_send_message.
  do 2 wp_step. rewrite E1, (proj2 (Z.eqb_neq size 0)) by done.
  do 6 wp_step. rewrite E4, E5, Hp. apply wp_bind, wp_lift. cbn [get_buf]. rewrite E2.
  rewrite arr_slice_ok by (rewrite ?Hl; lia). apply wp_bind, wp_call_out. rewrite E3.
  destruct (mctp_message_tx _ _ _ _ _ _) as [rc e]. cbn [fst snd].
  wp_step; apply wp_ret; exists rc, e; by destruct (rc =? 0).
Qed.

(** The state after a request arrived while another was copied. *)
Lemma overtaken_sim mctp ctx eid tag f m (w : W) s :
  sim mctp ctx eid tag w s ->
  sim mctp ctx (f_eid f) (f_msg_tag f)
    (set_spdm_rx_sem 0 (set_pending_valid false (arrived f m w))) (s_set_request None s).
Proof. intros []. by split. Qed.

Lemma overtaken_sem f m (w : W) :
  spdm_rx_sem w = 0 ->
  k_sem_take rx_message None (set_pending_valid false (arrived f m w)) =
    Ret (true, set_spdm_rx_sem 0 (set_pending_valid false (arrived f m w))).
Proof.
  intros Hs. assert (E1 : spdm_rx_sem (set_pending_valid false (arrived f m w)) = 1).
  { change (Z.min (spdm_rx_sem w + 1) 1 = 1). by rewrite Hs. }
  revert E1. generalize (set_pending_valid false (arrived f m w)) as w1. intros w1 E1.
  unfold k_sem_take. destruct (future w1); cbn [wait_sem]; by rewrite E1.
Qed.

(** A request that arrives while libspdm copies the one before is lost: the
    main thread is woken for it, but then there is no request for libspdm. *)
Theorem request_lost mctp ctx eid tag f m m1 n p timeout (w : W) s :
  frame_ok f -> accepts f = Some m -> app_ok false true w -> sim mctp ctx eid tag w s ->
  s_request s = Some m1 -> in_buf p n -> Z.of_nat (length m1) <= n ->
  wp (let! r := spdm_device_receive_message (Some n) (Some (Some p)) timeout in
      let! woken := k_sem_take rx_message None in ret (r, woken))
     (fun '(r, woken) w' => r = (LIBSPDM_STATUS_SUCCESS, Some (Z.of_nat (length m1))) /\ woken = true /\
        exists s', sim mctp ctx (f_eid f) (f_msg_tag f) w' s' /\ s_request s' = None)
     (set_future [[Rx f]] w).
Proof.
  intros Hf Ha Hw Hs Hr (Ho & Hi & Hb) Hn. pose proof (sim_request _ _ _ _ _ _ Hs) as Hq. rewrite Hr in Hq.
  destruct Hq as (Hv & Hl & Hm). unfold spdm_device_receive_message. apply wp_bind. do 2 wp_step.
  cbn [pending_valid set_future]. rewrite Hv. cbn [negb]. do 2 wp_step. cbn [pending_rx_len set_future].
  rewrite Hl, Z.gtb_ltb, (proj2 (Z.ltb_ge _ _)) by lia. do 4 wp_step.
  cbn [pending_rx_len set_future]. rewrite Hl.
  assert (Hw1 : app_ok false true (set_future [[Rx f]] w)) by (destruct Hw; split; try done; by repeat constructor).
  pose proof (ok_pending_rx _ _ _ Hw). pose proof (ok_pending_len _ _ _ Hw).
  apply wp_bind. eapply (wp_copy_to false true); [done|split_and!; lia|cbn [pending_rx set_future]; lia|].
  set (l := take _ _ ++ _). assert (Hs1 := sim_set_buf _ _ _ _ (p_buf p) l _ _ Hs).
  do 2 wp_step. apply wp_bind. eapply wp_of_eq.
  { rewrite (usb_turn_one f); [rewrite Ha; reflexivity|done|by destruct (p_buf p)|..];
      destruct Hs; by destruct (p_buf p). }
  replace (set_future [] (set_buf (p_buf p) l (set_future [[Rx f]] w))) with (set_buf (p_buf p) l w)
    by (pose proof (sim_future _ _ _ _ _ _ Hs); destruct w, p as [[] ?]; cbn in *; by subst).
  wp_step. apply wp_modify, wp_ret. apply wp_bind. eapply wp_of_eq; [apply overtaken_sem, Hs1|].
  apply wp_ret. split_and!; [|done|].
  - do 2 f_equal. by destruct (p_buf p).
  - eexists. split; [by eapply overtaken_sim|done].
Qed.
End Race.
