(* ===== verification/SpdmRequester.v ===== *)
(** main.c of samples/spdm/spdm_requester: the requester.  It runs the calls of
    libspdm in a fixed order; the callback that receives waits for
    [rx_message] to give the semaphore. *)

From S2P Require Import Prelude ZephyrSvc SpdmDefs SpdmCerts SpdmSecret SpdmApp.

Section Requester.
Context {E : Type} `{!SpdmConst, !SpdmSvc E}.
Notation W := (app E).
Notation AM := (ST W).

(** * From libmctp *)

Definition rx_message (f : frame) : AM unit :=
  match f_msg f with
  | None => skip
  | Some msg =>
    if f_len f =? 0 then skip else
    let! b := lift (arr_get msg 0) in
    let type := Z.land b 0x7f in
    if negb (rx_type_ok type) then skip else
    if f_len f >? 2048 then skip else
    let! old := gets pending_rx in
    let! new := lift (memcpy old 0 msg 0 (f_len f)) in
    do! modify (set_pending_rx new) in
    do! modify (set_pending_rx_len (f_len f)) in
    do! modify (set_pending_valid true) in
    k_sem_give
  end.

(** * Callbacks of libspdm *)

Definition spdm_device_send_message (message_size : Z) (message : option ptr) (timeout : Z) : AM Z :=
  let! ctx := gets mctp_ctx in
  match ctx, message with
  | Some c, Some p =>
    if message_size =? 0 then ret LIBSPDM_STATUS_SEND_FAIL else
    let! tag := gets tx_msg_tag in
    do! modify (fun w => set_tx_msg_tag (Z.land (tx_msg_tag w + 1) 0x07) w) in
    let! l := gets (get_buf (p_buf p)) in
    let! bytes := lift (arr_slice l (p_off p) message_size) in
    let! rc := call_out (mctp_message_tx c BUS_OWNER_ID true tag bytes) in
    if negb (rc =? 0) then ret LIBSPDM_STATUS_SEND_FAIL else ret LIBSPDM_STATUS_SUCCESS
  | _, _ => ret LIBSPDM_STATUS_SEND_FAIL
  end.

(** The milliseconds to wait for a timeout in microseconds, as the [int64_t]
    the code computes. *)
Definition receive_wait_ms (timeout : Z) : Z :=
  if negb (timeout =? 0) then
    let wait_ms := timeout / 1000 in
    let wait_ms := if wait_ms <? 8000 then 8000 else wait_ms in
    if wait_ms >? 15000 then 15000 else wait_ms
  else 8000.

(** The USB thread may also run before [pending_valid] is cleared. *)
Definition spdm_device_receive_message (message_size : option Z) (message : option (option ptr))
    (timeout : Z) : AM (Z * option Z) :=
  match message_size, message with
  | Some size, Some (Some buf) =>
    let wait_ms := receive_wait_ms timeout in
    let! valid := gets pending_valid in
    let! taken := if negb valid then k_sem_take rx_message (Some wait_ms) else ret true in
    if negb taken then ret (LIBSPDM_STATUS_RECEIVE_FAIL, message_size) else
    let! valid := gets pending_valid in
    let! len := gets pending_rx_len in
    if negb valid || (len >? size) then ret (LIBSPDM_STATUS_RECEIVE_FAIL, message_size) else
    let! rx := gets pending_rx in
    do! copy_to buf rx len in
    do! usb_turn rx_message in
    do! modify (set_pending_valid false) in
    ret (LIBSPDM_STATUS_SUCCESS, Some len)
  | _, _ => ret (LIBSPDM_STATUS_RECEIVE_FAIL, message_size)
  end.

(** The requester registers no vendor functions. *)
Definition handle (c : lib_call) : AM (call_ret c) :=
  handle_with spdm_device_send_message spdm_device_receive_message
    (fun _ _ => undefined) (fun _ _ _ _ => undefined) c.

(** * Certificates *)

(** The first certificate of [blob], as its length in the blob. *)
Definition parse_first_der (blob : option (list Z)) (blob_len : Z) : res (option Z) :=
  match blob with
  | None => Ret None
  | Some blob =>
    if blob_len <? 2 then Ret None else
    rlet! b0 := arr_get blob 0 in
    if negb (b0 =? 0x30) then Ret None else
    rlet! b1 := arr_get blob 1 in
    rlet! form :=
      if b1 <? 0x80 then Ret (Some (b1, 2))
      else if (b1 =? 0x81) && (blob_len >=? 3) then rlet! b2 := arr_get blob 2 in Ret (Some (b2, 3))
      else if (b1 =? 0x82) && (blob_len >=? 4) then
        rlet! b2 := arr_get blob 2 in
        rlet! b3 := arr_get blob 3 in
        Ret (Some (Z.lor (Z.shiftl b2 8) b3, 4))
      else Ret None in
    match form with
    | None => Ret None
    | Some (length, hdr) => if hdr + length >? blob_len then Ret None else Ret (Some (hdr + length))
    end
  end.

(** * Initialisation *)

Definition set_data (ctx : Z) (type : libspdm_data_type) (parameter : data_parameter)
    (data : list Z) : AM unit :=
  do! call_out (libspdm_set_data ctx type parameter data) in skip.

Definition capability_flags : Z :=
  fold_left Z.lor [REQUEST_ENCRYPT_CAP; REQUEST_MAC_CAP; REQUEST_KEY_EX_CAP;
    REQUEST_HANDSHAKE_IN_THE_CLEAR_CAP; REQUEST_MULTI_KEY_CAP_NEG] REQUEST_CERT_CAP.

Definition local_parameter : data_parameter :=
  mk_parameter LOCATION_LOCAL (additional_data zero_parameter).

(** The settings before and after that of the round-trip time. *)
Definition set_version_data (ctx : Z) : AM unit :=
  do! set_data ctx DATA_SPDM_VERSION local_parameter
    (le_split 2 (Z.shiftl SPDM_MESSAGE_VERSION_13 SPDM_VERSION_NUMBER_SHIFT_BIT)) in
  set_data ctx DATA_CAPABILITY_CT_EXPONENT local_parameter (le_split 1 0).

Definition set_local_data (ctx : Z) : AM unit :=
  let parameter := local_parameter in
  let data8 v := le_split 1 v in
  let data16 v := le_split 2 v in
  let data32 v := le_split 4 v in
  do! set_data ctx DATA_CAPABILITY_DATA_TRANSFER_SIZE parameter (data32 SPDM_MAX_MSG_SIZE) in
  do! set_data ctx DATA_CAPABILITY_MAX_SPDM_MSG_SIZE parameter (data32 SPDM_MAX_MSG_SIZE) in
  do! set_data ctx DATA_CAPABILITY_FLAGS parameter (data32 capability_flags) in
  do! set_data ctx DATA_BASE_HASH_ALGO parameter (data32 BASE_HASH_ALGO_TPM_ALG_SHA_256) in
  do! set_data ctx DATA_BASE_ASYM_ALGO parameter (data32 BASE_ASYM_ALGO_TPM_ALG_ECDSA_ECC_NIST_P256) in
  do! set_data ctx DATA_MEASUREMENT_SPEC parameter (data8 0) in
  do! set_data ctx DATA_MEASUREMENT_HASH_ALGO parameter (data32 0) in
  do! set_data ctx DATA_DHE_NAME_GROUP parameter (data16 DHE_NAMED_GROUP_SECP_256_R1) in
  do! set_data ctx DATA_AEAD_CIPHER_SUITE parameter (data16 AEAD_CIPHER_SUITE_AES_128_GCM) in
  do! set_data ctx DATA_REQ_BASE_ASYM_ALG parameter (data16 0) in
  do! set_data ctx DATA_KEY_SCHEDULE parameter (data16 KEY_SCHEDULE_HMAC_HASH) in
  set_data ctx DATA_OTHER_PARAMS_SUPPORT parameter
    (data8 (Z.lor SPDM_ALGORITHMS_OPAQUE_DATA_FORMAT_1 SPDM_ALGORITHMS_MULTI_KEY_CONN)).

(** The bytes after length, reserved field and root hash. *)
Definition der_offset : Z := 2 + 2 + 32.

Definition spdm_requester_init : AM Z :=
  let ctx_size := libspdm_get_context_size in
  let! c := call_out (k_malloc ctx_size) in
  do! modify (set_spdm_context c) in
  match c with
  | None => ret (- ENOMEM)
  | Some ctx =>
    do! do_out (memset_block ctx 0 ctx_size) in
    let! status := call_out (libspdm_init_context ctx) in
    if LIBSPDM_STATUS_IS_ERROR status then ret (- EIO) else
    do! do_out (libspdm_register_device_io_func ctx) in
    do! do_out (libspdm_register_transport_layer_func ctx SPDM_MAX_MSG_SIZE
      LIBSPDM_MCTP_TRANSPORT_HEADER_SIZE LIBSPDM_MCTP_TRANSPORT_TAIL_SIZE) in
    do! do_out (libspdm_register_device_buffer_func ctx SPDM_SENDER_BUFFER_SIZE SPDM_RECEIVER_BUFFER_SIZE) in
    let! scratch_size := gets (fun w => libspdm_get_sizeof_required_scratch_buffer ctx (ext w)) in
    let! s := call_out (k_malloc scratch_size) in
    do! modify (set_spdm_scratch s) in
    match s with
    | None => ret (- ENOMEM)
    | Some scratch =>
      do! do_out (memset_block scratch 0 scratch_size) in
      do! do_out (libspdm_set_scratch_buffer ctx scratch scratch_size) in
      do! set_version_data ctx in
      let! status := call_out (libspdm_set_data ctx DATA_CAPABILITY_RTT_US local_parameter
        (le_split 8 5000000)) in
      if LIBSPDM_STATUS_IS_ERROR status then ret (- EINVAL) else
      do! set_local_data ctx in
      let der := drop (Z.to_nat der_offset) g_spdm_cert_chain in
      let! ca_len := lift (parse_first_der (Some der) (g_spdm_cert_chain_len - der_offset)) in
      match ca_len with
      | None => ret (- EINVAL)
      | Some n =>
        let! ca := lift (arr_slice der 0 n) in
        do! set_data ctx DATA_PEER_PUBLIC_ROOT_CERT local_parameter ca in
        let! ok := call_out (libspdm_check_context ctx) in
        if negb ok then ret (- EINVAL) else ret 0
      end
    end
  end.

(** * The flow *)

(** One call of the requester library. *)
Definition api (c : api_call) : AM (api_ret c) :=
  let! r := run_lib rx_message handle (libspdm_api c) in
  do! modify (fun w => set_calls (calls w ++ [existT c r]) w) in
  ret r.

Definition failed (status : Z) : bool := LIBSPDM_STATUS_IS_ERROR status.

Definition ping : list Z := [0x31; 0x31; 0x31; 0x31].
Definition pong : list Z := [0x32; 0x32; 0x32; 0x32].

(** The three pings of the session; [false] when one fails. *)
Fixpoint ping_loop (n : nat) (ctx : option Z) (session_id : Z) : AM bool :=
  match n with
  | O => ret true
  | S n =>
    let! (status, (pong_size, answer)) := api (VendorSendReceive ctx session_id 0 0 ping 8 16) in
    if failed status || negb (pong_size =? 4) || negb (bool_decide (take 4 answer = pong))
    then ret false else
    do! k_sleep rx_message 1000 in
    ping_loop n ctx session_id
  end.

(** What runs inside the session. *)
Definition run_session (ctx : option Z) (session_id : Z) : AM Z :=
  let! (status, (count, len, list)) := api (GetEventTypes ctx session_id 64) in
  if failed status then ret (- EIO) else
  let! status := api (SubscribeEventTypes ctx session_id count len (Some list)) in
  if failed status then ret (- EIO) else
  let! ok := ping_loop 3 ctx session_id in
  if negb ok then ret (- EIO) else
  let! status := api (SubscribeEventTypes ctx session_id 0 0 None) in
  if failed status then ret (- EIO) else
  let! status := api (StopSession ctx session_id 0) in
  if failed status then ret (- EIO) else ret 0.

Definition spdm_requester_run : AM Z :=
  let! ctx := gets spdm_context in
  let! status := api (InitConnection ctx false) in
  if failed status then ret (- EIO) else
  let! status := api (GetDigest ctx None) in
  if failed status then ret (- EIO) else
  let! status := api (GetCertificate ctx None 0 LIBSPDM_MAX_CERT_CHAIN_SIZE) in
  if failed status then ret (- EIO) else
  let! status := api (Challenge ctx 0 SPDM_CHALLENGE_REQUEST_NO_MEASUREMENT_SUMMARY_HASH) in
  if failed status then ret (- EIO) else
  let! (status, info) := api (GetKeyPairInfo ctx None 1 32) in
  if failed status then ret (- EIO) else
  let! status := api (SetKeyPairInfo ctx None 1 SPDM_SET_KEY_PAIR_INFO_CHANGE_OPERATION
    (current_key_usage info) (current_asym_algo info) (assoc_cert_slot_mask info)) in
  if failed status then ret (- EIO) else
  let! (status, _) := api (GetKeyPairInfo ctx None 1 32) in
  if failed status then ret (- EIO) else
  let! (status, session_id) := api (StartSession ctx false
    SPDM_KEY_EXCHANGE_REQUEST_NO_MEASUREMENT_SUMMARY_HASH 0
    SPDM_KEY_EXCHANGE_REQUEST_SESSION_POLICY_EVENT_ALL_POLICY) in
  if failed status then ret (- EIO) else
  run_session ctx session_id.

(** * main *)

Inductive finished : Type := InitFailed | Waiting | Ran (result : Z).

(** [main] up to its endless sleep. *)
Definition main : AM finished :=
  let! r := enable_usb_device_next in
  if negb (r =? 0) then ret InitFailed else
  let! ok := (fun w => wait_configured rx_message (future w) w) in
  if negb ok then ret Waiting else
  let! r := spdm_requester_init in
  if negb (r =? 0) then ret InitFailed else
  let! c := call_out mctp_init in
  do! modify (set_mctp_ctx c) in
  match c with
  | None => undefined
  | Some _ =>
    do! modify (set_mctp0_pkt_size (MCTP_USB_MAX_PACKET_LENGTH - MCTP_USB_HEADER_SIZE)) in
    let! size := gets mctp0_pkt_size in
    do! do_out (mctp_register_bus c size SELF_ID) in
    do! do_out (mctp_set_rx_all c) in
    do! modify (set_rx_set true) in
    do! k_sleep rx_message 5000 in
    let! r := spdm_requester_run in
    ret (Ran r)
  end.
End Requester.
