(* ===== verification/SpdmReqSpec.v ===== *)
(** What the SPDM requester does: it is defined whenever messages arrive, and it
    makes the calls of the documented flow, each with the results of those before, and
    stops at the first that fails. *)

From S2P Require Import Prelude ZephyrSvc SpdmDefs SpdmCerts SpdmSecret SpdmApp SpdmSpec SpdmRequester.

Section ReqSpec.
Context {E : Type} `{!SpdmConst, !SpdmSvc E}.
Notation W := (app E).
Notation AM := (ST W).

(** * Receiving *)

Definition arrived (f : frame) (m : list Z) (w : W) : W :=
  set_spdm_rx_sem (Z.min (spdm_rx_sem w + 1) 1) (set_pending_valid true
    (set_pending_rx_len (f_len f) (set_pending_rx (m ++ drop (length m) (pending_rx w)) w))).

Lemma req_rx_message_run f (w : W) :
  frame_ok f -> length (pending_rx w) = 2048%nat ->
  rx_message f w = Ret (tt, match accepts f with Some m => arrived f m w | None => w end).
Proof.
  unfold rx_message, accepts, frame_ok. destruct (f_msg f) as [[|b m]|]; try done.
  { intros ->. done. }
  intros Hf Hl. rewrite (proj2 (Z.eqb_neq (f_len f) 0)) by (rewrite Hf; cbn [length]; lia).
  rewrite (bind_run (lift (arr_get (b :: m) 0)) _ w b w) by done. cbv zeta.
  destruct (rx_type_ok _); [|done]. cbn [negb andb].
  destruct (Z.leb_spec (f_len f) 2048) as [Hle|Hgt]; [|by rewrite Z.gtb_ltb, (proj2 (Z.ltb_lt _ _)) by lia].
  rewrite Z.gtb_ltb, (proj2 (Z.ltb_ge _ _)) by lia.
  unfold bind, lift, gets, modify, k_sem_give, rbind. rewrite copy_in by lia.
  unfold arrived. rewrite Hf, Nat2Z.id, take_0, take_ge by lia. done.
Qed.

Lemma req_rx_message_ok f : frame_ok f -> keeps (rx_message f : AM unit).
Proof.
  intros Hf hs hr w Hw. unfold wp. rewrite req_rx_message_run by (done || apply Hw).
  destruct (accepts f) as [m|] eqn:Ha; [|done]. cbn [rwp].
  destruct (accepts_length f m Hf Ha) as [Hl Hn].
  assert (H1 : length (m ++ drop (length m) (pending_rx w)) = 2048%nat).
  { pose proof (ok_pending_rx _ _ _ Hw). rewrite length_app, length_drop. lia. }
  destruct Hw; split; try done; cbn; lia.
Qed.

(** * Every interleaving *)

Lemma req_send_ok hs hr n p t (w : W) :
  call_ok false hs hr (DeviceSend n p t) -> app_ok hs hr w ->
  wp (spdm_device_send_message n p t) (fun _ => app_ok hs hr) w.
Proof.
  intros Hc Hw. unfold spdm_device_send_message. wp_step. wp_step.
  destruct (mctp_ctx w) as [c|], p as [p|]; try done. destruct Hc as [_ (Ho & Hn & Hb)].
  wp_step; [done|]. do 4 wp_step.
  assert (Hw1 : app_ok hs hr (set_tx_msg_tag (Z.land (tx_msg_tag w + 1) 7) w)) by (by destruct Hw; split).
  do 2 wp_step. apply wp_bind, wp_lift.
  rewrite arr_slice_ok by (rewrite ?(get_buf_length hs hr); done || lia). cbn [rwp].
  wp_step. apply wp_call_out. wp_step; wp_step; by destruct Hw1; split.
Qed.

Lemma req_receive_ok hs hr n p t (w : W) :
  call_ok false hs hr (DeviceReceive n p t) -> app_ok hs hr w ->
  wp (spdm_device_receive_message n p t) (fun r w' => call_post (DeviceReceive n p t) r /\ app_ok hs hr w') w.
Proof.
  intros Hc Hw. unfold spdm_device_receive_message.
  destruct n as [n|], p as [[p|]|]; try done; cbn [call_post] in *.
  2,3: apply wp_ret; cbn; split; [lia|done].
  destruct Hc as [_ Hp]. do 2 wp_step. apply wp_bind. apply (wp_mono _ (fun _ => app_ok hs hr)).
  { destruct (negb _); [by apply (wait_sem_ok rx_message req_rx_message_ok)|done]. }
  intros taken w1 Hw1. wp_step; [by apply wp_ret; split; [cbn; lia|]|]. do 4 wp_step.
  pose proof (ok_pending_len _ _ _ Hw1). wp_step; [by apply wp_ret; split; [cbn; lia|]|]. zify_bool.
  do 2 wp_step. apply wp_bind. eapply wp_mono.
  { apply (copy_to_ok hs hr); [done| |rewrite (ok_pending_rx _ _ _ Hw1); lia].
    destruct Hp as (? & ? & ?). split_and!; lia. }
  intros [] w2 Hw2. apply wp_bind. eapply wp_mono; [by apply (usb_turn_ok rx_message req_rx_message_ok hs hr)|].
  intros [] w3 Hw3. do 3 wp_step. cbn [snd]. split; [lia|]. by destruct Hw3; split.
Qed.

Lemma requester_handler_ok : handler_ok false handle.
Proof.
  apply handle_with_ok.
  - intros. by apply req_send_ok.
  - intros. by apply req_receive_ok.
  - done.
  - intros rn rd sn sd hs hr w Hc. exfalso. cbn in Hc. destruct rd, sn, sd; by intuition congruence.
Qed.

(** * Calls that leave the record of calls alone *)

Definition silent {A} (c : AM A) : Prop :=
  forall w, match c w with Ret (_, w') => calls w' = calls w | _ => True end.

Lemma silent_bind {A B} (c : AM A) (k : A -> AM B) : silent c -> (forall a, silent (k a)) -> silent (bind c k).
Proof.
  intros Hc Hk w. unfold bind. specialize (Hc w). destruct (c w) as [[a w1]| |]; try done. cbn [rbind].
  specialize (Hk a w1). destruct (k a w1) as [[b w2]| |]; try done. by rewrite Hk.
Qed.

Lemma silent_modify f : (forall w : W, calls (f w) = calls w) -> silent (modify f).
Proof. intros Hf w. apply Hf. Qed.

Lemma silent_lift {A} (r : res A) : silent (lift r : AM A).
Proof. intros w. unfold lift. by destruct r. Qed.

Lemma silent_call_out {A} (f : E -> A * E) : silent (call_out f).
Proof. intros w. unfold call_out. by destruct (f (ext w)). Qed.

Lemma silent_copy_to p src n : silent (copy_to p src n : AM unit).
Proof. intros w. unfold copy_to. destruct (memcpy _ _ _ _ _); [|done..]. by destruct p as [[] ?]. Qed.

Lemma silent_hal h : silent (hal_run h : AM _).
Proof. intros w. unfold hal_run. by destruct (hal_handle h (hal w, ext w)) as [[r [h' e]]| |]. Qed.

End ReqSpec.

(** One step of a proof that a statement leaves the record of calls alone. *)
Ltac silent_step :=
  lazymatch goal with
  | |- silent (bind _ _) => apply silent_bind; [|intros ?]
  | |- silent (ret _) => by intros ?
  | |- silent skip => by intros ?
  | |- silent undefined => by intros ?
  | |- silent (gets _) => by intros ?
  | |- silent (modify _) => by apply silent_modify
  | |- silent (lift _) => apply silent_lift
  | |- silent (call_out _) => apply silent_call_out
  | |- silent (do_out _) => by apply silent_modify
  | |- silent (copy_to _ _ _) => apply silent_copy_to
  | |- silent (hal_run _) => apply silent_hal
  | |- silent (if ?b then _ else _) => destruct b
  | |- silent (match ?o with Some _ => _ | None => _ end) => destruct o
  | |- silent (let _ := _ in _) => cbv zeta
  end.

Section ReqRun.
Context {E : Type} `{!SpdmConst, !SpdmSvc E}.
Notation W := (app E).
Notation AM := (ST W).

Lemma silent_rx f : silent (rx_message f : AM unit).
Proof. unfold rx_message, k_sem_give. repeat silent_step. Qed.

Lemma silent_usb_turn : silent (usb_turn rx_message : AM unit).
Proof.
  intros w. unfold usb_turn. destruct (future w) as [|l f]; [done|].
  assert (Hl : silent (deliver_all rx_message l)).
  { induction l as [|a l IH]; cbn [deliver_all]; [by intros ?|]. apply silent_bind; [|done].
    destruct a; cbn [deliver]; unfold sample_msg_cb; repeat first [apply silent_rx | silent_step]. }
  exact (Hl (set_future f w)).
Qed.

(** A moment passes before the rest of a loop. *)
Lemma silent_moment {A} (w : W) (k : W -> res (A * W)) :
  (forall w', match k w' with Ret (_, w2) => calls w2 = calls w' | _ => True end) ->
  match (rlet! p := usb_turn rx_message w in k (snd p)) with Ret (_, w') => calls w' = calls w | _ => True end.
Proof.
  intros Hk. pose proof (silent_usb_turn w) as Hs.
  destruct (usb_turn rx_message w) as [[[] w1]| |]; try done. cbn [rbind snd]. specialize (Hk w1).
  destruct (k w1) as [[b w2]| |]; try done. by rewrite Hk.
Qed.

Lemma silent_sem ms : silent (k_sem_take rx_message ms : AM bool).
Proof.
  intros w. unfold k_sem_take. generalize (future w) as m. intros m. revert ms w.
  induction m as [|l m IH]; intros ms w; cbn [wait_sem]; (destruct (0 <? spdm_rx_sem w); [done|]); [done|].
  destruct ms as [n|]; [destruct (n <=? 0); [done|]|]; apply silent_moment; intros w'; apply IH.
Qed.

Lemma silent_wait m : silent (wait_configured rx_message m : AM bool).
Proof.
  induction m as [|l m IH]; intros w; cbn [wait_configured]; (destruct (usb_configured w); [done|]); [done|].
  apply silent_moment. intros w'. apply IH.
Qed.

Lemma silent_sleep ms : silent (k_sleep rx_message ms : AM unit).
Proof.
  intros w. unfold k_sleep. generalize (future w) as m. intros m.
  revert ms w. induction m as [|l m IH]; intros ms; cbn [sleep]; [by intros w|].
  change (silent (if ms <=? 0 then skip else do! usb_turn rx_message in sleep rx_message m (ms - 1) : AM unit)).
  destruct (ms <=? 0); [by intros w|]. apply silent_bind; [apply silent_usb_turn|intros _; exact (IH (ms - 1))].
Qed.

Lemma silent_handle c : silent (handle c : AM _).
Proof.
  destruct c; cbn [handle handle_with]; unfold spdm_acquire_sender_buffer, spdm_acquire_receiver_buffer,
    spdm_release_sender_buffer, spdm_release_receiver_buffer, spdm_device_send_message, spdm_device_receive_message;
    repeat first [apply silent_sem | apply silent_usb_turn | silent_step].
  by destruct b.
Qed.

Lemma silent_run {A} (p : lib E A) : silent (run_lib rx_message handle p).
Proof.
  induction p as [a|k IH|e p IH|c k IH]; cbn [run_lib].
  - by intros w.
  - intros w. apply IH.
  - apply silent_bind; [by apply silent_modify|done].
  - apply silent_bind; [apply silent_usb_turn|intros _]. apply silent_bind; [apply silent_handle|apply IH].
Qed.

Lemma wp_silent {A} (c : AM A) Q w : silent c -> wp c Q w -> wp c (fun a w' => Q a w' /\ calls w' = calls w) w.
Proof. intros Hc HQ. unfold wp in *. specialize (Hc w). by destruct (c w) as [[a w']| |]. Qed.

(** * Initialisation *)

Lemma set_data_silent ctx type par data : silent (set_data ctx type par data : AM unit).
Proof. unfold set_data. repeat silent_step. Qed.

Lemma req_set_data_keeps ctx type par data : keeps (set_data ctx type par data : AM unit).
Proof. unfold set_data. repeat keep_step. Qed.

Lemma requester_init_silent : silent (spdm_requester_init : AM Z).
Proof.
  unfold spdm_requester_init, set_version_data, set_local_data. cbv zeta.
  repeat first [apply set_data_silent | silent_step].
Qed.

(** The certificate of the CA is the first of the chain. *)
Lemma parse_baked_chain :
  parse_first_der (Some (drop (Z.to_nat der_offset) g_spdm_cert_chain)) (g_spdm_cert_chain_len - der_offset) =
  Ret (Some 437).
Proof. by vm_compute. Qed.

Lemma requester_init_keeps : keeps (spdm_requester_init : AM Z).
Proof.
  unfold spdm_requester_init, set_version_data, set_local_data. cbv zeta.
  repeat first [ apply req_set_data_keeps
               | eapply keeps_bind_lift; [first [apply parse_baked_chain | by vm_compute]|cbv beta iota]
               | keep_step ].
Qed.
End ReqRun.
