(* ===== verification/SpdmReqFlow.v ===== *)
(** The flow of the SPDM requester: [spdm_requester_run] makes the calls of
    [script], each with the results of those before, and stops at the first that
    fails. *)

From S2P Require Import Prelude ZephyrSvc SpdmDefs SpdmCerts SpdmSecret SpdmApp SpdmSpec SpdmRequester SpdmReqSpec.

Section Flow.
Context {E : Type} `{!SpdmConst, !SpdmSvc E}.
Notation W := (app E).
Notation AM := (ST W).

(** * The documented flow *)

Definition call_of (ev : event) : api_call := projT1 ev.

(** Success of a call: its status, and for a ping the answer. *)
Definition result_ok (c : api_call) : api_ret c -> bool :=
  match c return api_ret c -> bool with
  | InitConnection _ _ | GetDigest _ _ | GetCertificate _ _ _ _ | Challenge _ _ _
  | SetKeyPairInfo _ _ _ _ _ _ _ | SubscribeEventTypes _ _ _ _ _ | StopSession _ _ _ =>
      fun status => negb (failed status)
  | GetKeyPairInfo _ _ _ _ => fun r => negb (failed (fst r))
  | StartSession _ _ _ _ _ => fun r => negb (failed (fst r))
  | GetEventTypes _ _ _ => fun r => negb (failed (fst r))
  | VendorSendReceive _ _ _ _ _ _ _ => fun r =>
      negb (failed (fst r)) && (fst (snd r) =? 4) && bool_decide (take 4 (snd (snd r)) = pong)
  end.
Definition event_ok (ev : event) : bool := result_ok (projT1 ev) (projT2 ev).

(** The results that later calls use. *)
Definition info_of (ev : option event) : key_pair_info :=
  match ev with
  | Some (existT (GetKeyPairInfo _ _ _ _) r) => snd r
  | _ => mk_key_pair_info 0 0 0 0 0 0
  end.
Definition session_of (ev : option event) : Z :=
  match ev with Some (existT (StartSession _ _ _ _ _) r) => snd r | _ => 0 end.
Definition events_of (ev : option event) : Z * Z * list Z :=
  match ev with Some (existT (GetEventTypes _ _ _) r) => snd r | _ => (0, 0, []) end.

(** The calls, from the calls made before. *)
Definition script (ctx : option Z) : list (list event -> api_call) :=
  let ping_call h := VendorSendReceive ctx (session_of (h !! 7%nat)) 0 0 ping 8 16 in
  [ (fun _ => InitConnection ctx false);
    (fun _ => GetDigest ctx None);
    (fun _ => GetCertificate ctx None 0 LIBSPDM_MAX_CERT_CHAIN_SIZE);
    (fun _ => Challenge ctx 0 SPDM_CHALLENGE_REQUEST_NO_MEASUREMENT_SUMMARY_HASH);
    (fun _ => GetKeyPairInfo ctx None 1 32);
    (fun h => let i := info_of (h !! 4%nat) in
       SetKeyPairInfo ctx None 1 SPDM_SET_KEY_PAIR_INFO_CHANGE_OPERATION
         (current_key_usage i) (current_asym_algo i) (assoc_cert_slot_mask i));
    (fun _ => GetKeyPairInfo ctx None 1 32);
    (fun _ => StartSession ctx false SPDM_KEY_EXCHANGE_REQUEST_NO_MEASUREMENT_SUMMARY_HASH 0
       SPDM_KEY_EXCHANGE_REQUEST_SESSION_POLICY_EVENT_ALL_POLICY);
    (fun h => GetEventTypes ctx (session_of (h !! 7%nat)) 64);
    (fun h => let '(count, len, l) := events_of (h !! 8%nat) in
       SubscribeEventTypes ctx (session_of (h !! 7%nat)) count len (Some l));
    ping_call; ping_call; ping_call;
    (fun h => SubscribeEventTypes ctx (session_of (h !! 7%nat)) 0 0 None);
    (fun h => StopSession ctx (session_of (h !! 7%nat)) 0) ].

(** The calls [evs] after [hist] are those of the script up to the first that
    fails, and the result says whether all succeeded. *)
Fixpoint conforms (script : list (list event -> api_call)) (hist evs : list event) (r : Z) : Prop :=
  match script with
  | [] => evs = [] /\ r = 0
  | c :: script => exists e evs', evs = e :: evs' /\ call_of e = c hist /\
      if event_ok e then conforms script (hist ++ [e]) evs' r else evs' = [] /\ r = - EIO
  end.

(** * Proof *)

Section Laws.
Context `{!SpdmSvcLaws E}.

Definition flow_ok (scr : list (list event -> api_call)) (hist : list event) (m : AM Z) : Prop :=
  forall w, app_ok false false w ->
  wp m (fun r w' => app_ok false false w' /\
    exists evs, calls w' = calls w ++ evs /\ conforms scr hist evs r) w.

Lemma wp_api c Q (w : W) :
  app_ok false false w ->
  (forall r w', app_ok false false w' -> calls w' = calls w ++ [existT c r] -> Q r w') ->
  wp (api c) Q w.
Proof.
  intros Hw HQ. unfold api. apply wp_bind. eapply wp_mono.
  { apply wp_silent; [apply silent_run|].
    by apply (run_lib_ok rx_message req_rx_message_ok false handle _ false false);
      [apply requester_handler_ok|apply api_ok|]. }
  intros r w1 [Hw1 Hc]. do 2 wp_step. apply wp_ret, HQ; [by destruct Hw1; split|].
  cbn [calls set_calls]. by rewrite Hc.
Qed.

(** One call and the test of its result. *)
Lemma flow_step c scr hist f (k : api_ret c -> AM Z) :
  f hist = c ->
  (forall r, result_ok c r = true -> flow_ok scr (hist ++ [existT c r]) (k r)) ->
  (forall r, result_ok c r = false -> k r = ret (- EIO)) ->
  flow_ok (f :: scr) hist (bind (api c) k).
Proof.
  intros Hf Hk Hfail w Hw. apply wp_bind, wp_api; [done|]. intros r w1 Hw1 E1.
  destruct (result_ok c r) eqn:Hr.
  - eapply wp_mono; [by apply (Hk r Hr)|]. intros z w2 [Hw2 (evs & E2 & Hc)]. split; [done|].
    exists (existT c r :: evs). split; [by rewrite E2, E1, <- app_assoc|]. cbn [conforms].
    exists (existT c r), evs. split_and!; [done..|]. unfold event_ok. cbn [projT1 projT2]. by rewrite Hr.
  - rewrite (Hfail r Hr). apply wp_ret. split; [done|]. exists [existT c r]. split; [done|]. cbn [conforms].
    exists (existT c r), []. split_and!; [done..|]. unfold event_ok. cbn [projT1 projT2]. by rewrite Hr.
Qed.

Lemma flow_ext scr hist (m m' : AM Z) : (forall w, m w = m' w) -> flow_ok scr hist m' -> flow_ok scr hist m.
Proof. intros Hm Hok w Hw. unfold wp. rewrite Hm. by apply Hok. Qed.

Lemma flow_sleep scr hist ms (k : unit -> AM Z) :
  flow_ok scr hist (k tt) -> flow_ok scr hist (bind (k_sleep rx_message ms) k).
Proof.
  intros Hk w Hw. apply wp_bind. eapply wp_mono.
  { apply wp_silent; [apply silent_sleep|]. by apply (k_sleep_ok rx_message req_rx_message_ok ms false false). }
  intros [] w1 [Hw1 Hc]. eapply wp_mono; [by apply Hk|]. by rewrite Hc.
Qed.

Lemma bind_bind {A B C} (c : AM A) (k : A -> AM B) (k' : B -> AM C) w :
  bind (bind c k) k' w = bind c (fun a => bind (k a) k') w.
Proof. unfold bind. by destruct (c w) as [[a w1]| |]. Qed.

Lemma flow_ping scr hist ctx sid (k : bool -> AM Z) n :
  session_of (hist !! 7%nat) = sid -> (8 <= length hist)%nat ->
  k false = ret (- EIO) ->
  (forall hist', session_of (hist' !! 7%nat) = sid -> (8 <= length hist')%nat -> flow_ok scr hist' (k true)) ->
  flow_ok (replicate n (fun h => VendorSendReceive ctx (session_of (h !! 7%nat)) 0 0 ping 8 16) ++ scr) hist
    (bind (ping_loop n ctx sid) k).
Proof.
  intros Hsid Hlen Hf Hk. revert hist Hsid Hlen. induction n as [|n IH]; intros hist Hsid Hlen.
  { cbn [replicate Datatypes.app ping_loop]. eapply flow_ext; [|by apply (Hk hist)]. done. }
  cbn [replicate Datatypes.app ping_loop]. eapply flow_ext; [intros w; apply bind_bind|].
  apply flow_step; [by rewrite Hsid|intros (st & size & ans) Hr|intros (st & size & ans) Hr]; cbn in Hr.
  - apply andb_true_iff in Hr as [[Hst Hsize]%andb_true_iff Hans]. apply negb_true_iff in Hst.
    rewrite Hst, Hsize, Hans. cbn [negb orb].
    eapply flow_ext; [intros w; apply bind_bind|]. apply flow_sleep, IH.
    + by rewrite lookup_app_l by lia.
    + rewrite length_app. unfold event in *. cbn [length]. lia.
  - destruct (failed st); [done|]. destruct (size =? 4); [|done]. cbn [negb andb orb] in *. by rewrite Hr.
Qed.

(** A call of which the code tests the status only. *)
Ltac status_case r Hr tac :=
  intros r; cbn [api_ret] in r; intros Hr; cbn [result_ok] in Hr; tac;
  repeat match goal with x : prod _ _ |- _ => destruct x as [? ?] end; cbn [fst snd] in Hr;
  cbv beta iota; rewrite Hr; clear Hr.
Ltac status_step :=
  apply flow_step;
  [ reflexivity
  | let r := fresh "r" in let Hr := fresh "Hr" in status_case r Hr ltac:(apply negb_true_iff in Hr)
  | let r := fresh "r" in let Hr := fresh "Hr" in status_case r Hr ltac:(apply negb_false_iff in Hr); done ].

Lemma run_session_flow ctx sid e0 e1 e2 e3 e4 e5 e6 e7 :
  session_of (Some e7) = sid ->
  flow_ok (drop 8 (script ctx)) [e0; e1; e2; e3; e4; e5; e6; e7] (run_session ctx sid).
Proof.
  intros <-. unfold run_session. cbn [script drop]. do 2 status_step.
  apply (flow_ping [_; _] _ ctx _ _ 3); [done|cbn; lia|done|].
  intros h Hh Hlen. cbn [negb]. rewrite <- Hh. status_step.
  apply flow_step; [by rewrite lookup_app_l by (unfold event in *; lia)| |]; intros status Hst; cbn [result_ok] in Hst.
  - apply negb_true_iff in Hst. rewrite Hst. intros w Hw. apply wp_ret. split; [done|]. exists [].
    by rewrite app_nil_r.
  - apply negb_false_iff in Hst. by rewrite Hst.
Qed.

Lemma requester_run_flow (w : W) : app_ok false false w ->
  wp spdm_requester_run (fun r w' => app_ok false false w' /\
    exists evs, calls w' = calls w ++ evs /\ conforms (script (spdm_context w)) [] evs r) w.
Proof.
  intros Hw. unfold spdm_requester_run. do 2 wp_step. generalize (spdm_context w) as ctx. intros ctx.
  match goal with |- wp ?m _ _ => assert (Hm : flow_ok (script ctx) [] m) end; [|by apply Hm].
  clear w Hw. unfold script. cbv zeta. do 8 status_step. by apply run_session_flow.
Qed.

(** Before the flow, no call is made. *)
Definition before (c : AM finished) : Prop :=
  forall w : W, app_ok false false w -> calls w = [] ->
  wp c (fun r w' => app_ok false false w' /\
    match r with
    | Ran z => exists ctx, conforms (script ctx) [] (calls w') z
    | _ => calls w' = [] end) w.

Lemma before_bind {A} (c : AM A) k : keeps c -> silent c -> (forall a, before (k a)) -> before (bind c k).
Proof.
  intros Hk Hs Hn w Hw Hc. apply wp_bind. eapply wp_mono; [apply wp_silent; [done|by apply Hk]|].
  intros a w1 [Hw1 E1]. apply Hn; [done|]. by rewrite E1.
Qed.

Lemma before_ret r : (forall z, r <> Ran z) -> before (ret r).
Proof. intros Hr w Hw Hc. apply wp_ret. split; [done|]. destruct r; try done. by destruct (Hr result). Qed.

Lemma before_some {A} (f : E -> option A * E) k :
  (forall e, fst (f e) <> None) -> (forall a, before (k (Some a))) -> before (bind (call_out f) k).
Proof.
  intros Hf Hn w Hw Hc. apply wp_bind, wp_call_out. specialize (Hf (ext w)).
  destruct (fst (f (ext w))) as [a|]; [|done]. apply Hn; [by destruct Hw; split|done].
Qed.

Ltac before_step :=
  lazymatch goal with
  | |- before (bind _ _) => apply before_bind; [by repeat keep_step|by repeat silent_step|intros ?]
  | |- before (if ?b then _ else _) => destruct b
  | |- before (ret _) => by apply before_ret
  end.

(** C7: From power-up on, whatever messages arrive and whatever libspdm returns,
    the requester is defined and makes the calls of the documented flow in
    order, each with the results of those before; it returns 0 if all
    succeed, and -EIO with no further call after the first that fails. *)
Theorem requester_follows pkt_size fut e :
  Forall (Forall arrival_ok) fut ->
  wp main (fun r w => app_ok false false w /\
      match r with
      | Ran z => exists ctx, conforms (script ctx) [] (calls w) z
      | _ => calls w = [] end) (app_static pkt_size fut e : W).
Proof.
  intros Hf. enough (Hb : before main).
  { apply Hb; [|done]. split; cbn -[replicate]; rewrite ?length_replicate; done || lia. }
  unfold main, enable_usb_device_next. before_step. before_step; [before_step|].
  apply before_bind; [intros hs hr w; by apply (wait_configured_ok rx_message req_rx_message_ok)| |intros ok].
  { intros w. apply silent_wait. }
  before_step; [before_step|].
  apply before_bind; [apply requester_init_keeps|apply requester_init_silent|intros r1].
  before_step; [before_step|]. apply before_some; [apply mctp_init_ok|intros c]. do 6 before_step.
  apply before_bind; [intros hs hr w; by apply (k_sleep_ok rx_message req_rx_message_ok)|apply silent_sleep|intros _].
  intros w Hw Hc. apply wp_bind. eapply wp_mono; [by apply requester_run_flow|].
  intros z w1 [Hw1 (evs & E1 & Hc1)]. apply wp_ret. split; [done|]. eexists. by rewrite E1, Hc.
Qed.
End Laws.
End Flow.
