(* ===== verification/SpdmReqRecv.v ===== *)
(** How the SPDM requester waits for a response: [spdm_device_receive_message]
    against [awaited], the first response within the waiting time; and how a
    response that comes early makes the next wait fail. *)

From S2P Require Import Prelude ZephyrSvc SpdmDefs SpdmCerts SpdmSecret SpdmApp SpdmSpec SpdmRequester SpdmReqSpec.

Section Recv.
Context {E : Type} `{!SpdmConst, !SpdmSvc E}.
Notation W := (app E).
Notation AM := (ST W).

(** * The reference *)

(** The message that waits to be received. *)
Definition mailbox (w : W) : option (list Z) :=
  if pending_valid w then Some (take (Z.to_nat (pending_rx_len w)) (pending_rx w)) else None.

(** The last SPDM message of one moment. *)
Fixpoint last_message (l : list arrival) : option (list Z) :=
  match l with
  | [] => None
  | Rx f :: l => match last_message l with Some m => Some m | None => accepts f end
  | UsbMsg _ :: l => last_message l
  end.

(** The message of the first of the next [ms] milliseconds that has one, and the
    time after it. *)
Fixpoint awaited (moments : list (list arrival)) (ms : Z) : option (list Z) * list (list arrival) :=
  match moments with
  | [] => (None, [])
  | l :: rest =>
    if ms <=? 0 then (None, moments) else
    match last_message l with
    | Some m => (Some m, rest)
    | None => awaited rest (ms - 1)
    end
  end.

(** * Arrivals *)

Record same (w w' : W) : Prop := {
  same_set : rx_set w' = rx_set w;
  same_future : future w' = future w;
  same_receiver : receiver_buf w' = receiver_buf w;
  same_sender : sender_buf w' = sender_buf w;
}.

Lemma same_refl w : same w w.
Proof. by split. Qed.

Lemma same_trans w1 w2 w3 : same w1 w2 -> same w2 w3 -> same w1 w3.
Proof. intros [] []. split; congruence. Qed.

Lemma arrived_mail f m (w : W) :
  frame_ok f -> accepts f = Some m -> mailbox (arrived f m w) = Some m /\ same w (arrived f m w).
Proof.
  intros Hf Ha. destruct (accepts_length f m Hf Ha) as [Hl _]. split; [|done].
  unfold mailbox, arrived. cbn [pending_valid set_spdm_rx_sem set_pending_valid].
  change (Some (take (Z.to_nat (f_len f)) (m ++ drop (length m) (pending_rx w))) = Some m).
  by rewrite Hl, Nat2Z.id, take_app_length.
Qed.

Lemma arrived_sem hs hr f m (w : W) : app_ok hs hr w -> spdm_rx_sem (arrived f m w) = 1.
Proof. intros Hw. pose proof (ok_sem _ _ _ Hw). change (Z.min (spdm_rx_sem w + 1) 1 = 1). lia. Qed.

(** What a moment leaves: the last message, if any, and the semaphore. *)
Definition after_moment (l : list arrival) (w w' : W) : Prop :=
  same w w' /\
  match last_message l with
  | Some m => mailbox w' = Some m /\ spdm_rx_sem w' = 1
  | None => mailbox w' = mailbox w /\ spdm_rx_sem w' = spdm_rx_sem w
  end.

Lemma deliver_all_mail hs hr l (w : W) :
  Forall arrival_ok l -> app_ok hs hr w -> rx_set w = true ->
  wp (deliver_all rx_message l) (fun _ w' => app_ok hs hr w' /\ after_moment l w w') w.
Proof.
  intros Hl. revert w. induction Hl as [|a l Ha _ IH]; intros w Hw Hset; cbn [deliver_all].
  { apply wp_skip. split; [done|]. by split. }
  apply wp_bind. destruct a as [f|t]; cbn [deliver].
  - do 2 wp_step. rewrite Hset. pose proof (req_rx_message_ok f Ha hs hr w Hw) as Hok. unfold wp in *.
    rewrite req_rx_message_run in * by (done || apply Hw). cbn [rwp] in *.
    assert (Hset' : rx_set (match accepts f with Some m => arrived f m w | None => w end) = true)
      by (by destruct (accepts f)).
    eapply rwp_mono; [by apply (IH _ Hok)|]. intros [[] w'] [Hw' [Hsame Hm]]. split; [done|].
    unfold after_moment. cbn [last_message].
    destruct (accepts f) as [m|] eqn:Hacc.
    + destruct (arrived_mail f m w Ha Hacc) as [Hmail Hs1]. split; [by eapply same_trans|].
      destruct (last_message l); [done|]. destruct Hm as [-> ->]. split; [done|]. by eapply arrived_sem.
    + split; [done|]. by destruct (last_message l).
  - unfold sample_msg_cb. assert (Hu : app_ok hs hr (set_usb_configured true w)) by (by destruct Hw; split).
    wp_step.
    + apply wp_modify. eapply wp_mono; [by apply (IH _ Hu)|]. intros [] w' [Hw' [[] Hm]].
      split; [done|]. by split; [split|].
    + apply wp_skip. by apply IH.
Qed.

Lemma usb_turn_mail hs hr l rest (w : W) :
  future w = l :: rest -> app_ok hs hr w -> rx_set w = true ->
  wp (usb_turn rx_message) (fun _ w' => app_ok hs hr w' /\ after_moment l (set_future rest w) w') w.
Proof.
  intros Hf Hw Hset. unfold usb_turn, wp. rewrite Hf. pose proof (ok_future _ _ _ Hw) as Hok.
  rewrite Hf in Hok. inversion Hok; subst. apply deliver_all_mail; [done| |done]. by destruct Hw; split.
Qed.

(** Waiting with nothing received yet. *)
Lemma wait_sem_mail hs hr moments ms (w : W) :
  future w = moments -> app_ok hs hr w -> rx_set w = true -> mailbox w = None -> spdm_rx_sem w = 0 ->
  wp (wait_sem rx_message moments (Some ms))
     (fun taken w' => app_ok hs hr w' /\ same (set_future (snd (awaited moments ms)) w) w' /\
        taken = bool_decide (is_Some (fst (awaited moments ms))) /\
        mailbox w' = fst (awaited moments ms) /\ spdm_rx_sem w' = 0) w.
Proof.
  revert ms w. induction moments as [|l rest IH]; intros ms w Hf Hw Hset Hmail Hsem;
    unfold wp; cbn [wait_sem awaited]; rewrite Hsem; cbn [Z.ltb Z.compare].
  { cbn [rwp fst snd]. by split_and!. }
  destruct (Z.leb_spec ms 0) as [Hms|Hms].
  { cbn [rwp fst snd]. by split_and!. }
  apply rwp_bind. eapply rwp_mono; [by apply (usb_turn_mail hs hr l rest w)|].
  intros [[] w1] [Hw1 [Hs1 Hm]]. cbn [snd]. destruct (last_message l) as [m|].
  - destruct Hm as [Hm Hone]. cbn [fst snd].
    assert (Hr : wait_sem rx_message rest (Some (ms - 1)) w1 = Ret (true, set_spdm_rx_sem 0 w1))
      by (destruct rest; cbn [wait_sem]; by rewrite Hone).
    rewrite Hr. cbn [rwp]. split_and!; [by apply set_sem_ok|by destruct Hs1; split|done|done|done].
  - destruct Hm as [Hm Hz]. eapply rwp_mono.
    { apply (IH (ms - 1) w1); [by rewrite (same_future _ _ Hs1)|done|by rewrite (same_set _ _ Hs1)| |].
      - by rewrite Hm. - by rewrite Hz. }
    intros [taken w2] (Hw2 & Hs2 & Ht & Hmb & Hz2). split_and!; try done.
    destruct Hs1 as [A1 A2 A3 A4], Hs2 as [B1 B2 B3 B4]. split; cbn in *; congruence.
Qed.

(** * Receiving *)

(** The waiting time stays between 8 and 15 seconds. *)
Lemma receive_wait_range timeout : 8000 <= receive_wait_ms timeout <= 15000.
Proof.
  unfold receive_wait_ms. destruct (negb _); [|lia]. cbv zeta. rewrite Z.gtb_ltb.
  destruct (Z.ltb_spec (timeout / 1000) 8000);
    [destruct (Z.ltb_spec 15000 8000)|destruct (Z.ltb_spec 15000 (timeout / 1000))]; lia.
Qed.

(** The second half of the function, after the wait. *)
Definition take_message (n : Z) (p : ptr) : AM (Z * option Z) :=
  let! valid := gets pending_valid in
  let! len := gets pending_rx_len in
  if negb valid || (len >? n) then ret (LIBSPDM_STATUS_RECEIVE_FAIL, Some n) else
  let! rx := gets pending_rx in
  do! copy_to p rx len in
  do! usb_turn rx_message in
  do! modify (set_pending_valid false) in
  ret (LIBSPDM_STATUS_SUCCESS, Some len).

(** What a successful receive leaves. *)
Definition received (n : Z) (p : ptr) (m : list Z) (r : Z * option Z) (w' : W) : Prop :=
  if Z.of_nat (length m) <=? n then
    r = (LIBSPDM_STATUS_SUCCESS, Some (Z.of_nat (length m))) /\
    take (length m) (drop (Z.to_nat (p_off p)) (receiver_buf w')) = m /\ mailbox w' = None
  else r = (LIBSPDM_STATUS_RECEIVE_FAIL, Some n) /\ mailbox w' = Some m.

Lemma same_turn hs hr (w : W) :
  app_ok hs hr w -> rx_set w = true ->
  wp (usb_turn rx_message) (fun _ w' => app_ok hs hr w' /\ same (set_future (tail (future w)) w) w' /\
    (hd [] (future w) = [] -> spdm_rx_sem w' = spdm_rx_sem w)) w.
Proof.
  intros Hw Hset. destruct (future w) as [|l rest] eqn:Hf.
  { apply wp_usb_idle; [done|]. split_and!; [done| |done]. by split. }
  eapply wp_mono; [by apply (usb_turn_mail hs hr l rest)|]. intros [] w' [Hw' [Hs Hm]]. split_and!; [done|done|].
  cbn [hd]. intros ->. by destruct Hm.
Qed.

Lemma mailbox_length hs hr (w : W) m :
  app_ok hs hr w -> mailbox w = Some m -> pending_valid w = true /\ pending_rx_len w = Z.of_nat (length m) /\
  take (Z.to_nat (pending_rx_len w)) (pending_rx w) = m.
Proof.
  intros Hw. unfold mailbox. destruct (pending_valid w); [|done]. intros [= <-].
  pose proof (ok_pending_rx _ _ _ Hw). pose proof (ok_pending_len _ _ _ Hw).
  split_and!; [done|rewrite length_take; lia|done].
Qed.

Lemma take_message_spec n p m (w : W) :
  app_ok false true w -> rx_set w = true -> p_buf p = ReceiverBuf -> in_buf p n -> mailbox w = Some m ->
  wp (take_message n p) (fun r w' => app_ok false true w' /\ rx_set w' = true /\ received n p m r w' /\
    (Z.of_nat (length m) <= n -> future w' = tail (future w) /\
       (hd [] (future w) = [] -> spdm_rx_sem w' = spdm_rx_sem w))) w.
Proof.
  intros Hw Hset Hp (Ho & Hi & Hb) Hm. destruct (mailbox_length _ _ _ _ Hw Hm) as (Hv & Hl & Ht).
  unfold take_message, received. do 4 wp_step. rewrite Hv, Hl, Z.gtb_ltb. cbn [negb orb].
  destruct (Z.ltb_spec n (Z.of_nat (length m))) as [Hn|Hn].
  { apply wp_ret. rewrite (proj2 (Z.leb_gt _ _)) by lia. split_and!; [done..|intros; lia]. }
  rewrite (proj2 (Z.leb_le _ _)) by lia. do 2 wp_step. pose proof (ok_pending_rx _ _ _ Hw).
  pose proof (ok_pending_len _ _ _ Hw). pose proof (ok_receiver_buf _ _ _ Hw) as Hrb. apply wp_bind.
  eapply (wp_copy_to false true); [done|split_and!; lia|lia|].
  rewrite Hp. cbn [get_buf set_buf]. rewrite Hl in Ht. rewrite Ht, Nat2Z.id.
  set (l := take _ (receiver_buf w) ++ _).
  assert (Hl1 : length l = 2048%nat) by (unfold l; rewrite !length_app, length_take, length_drop; lia).
  assert (Hsl : take (length m) (drop (Z.to_nat (p_off p)) l) = m).
  { unfold l. rewrite drop_app_length' by (rewrite length_take; lia). by rewrite take_app_length. }
  clearbody l. assert (Hw1 : app_ok false true (set_receiver_buf l w)) by (by destruct Hw; split).
  apply wp_bind. eapply wp_mono; [by apply (same_turn false true)|]. intros [] w2 (Hw2 & Hs2 & Hz).
  wp_step. apply wp_modify, wp_ret. destruct Hs2 as [A1 A2 A3 A4]. cbn in *.
  split_and!; [by destruct Hw2; split|by rewrite A1|done|by rewrite A3|done|done].
Qed.

(** C17: A receive with nothing pending waits, between 8 and 15 seconds, for
    the first moment with an SPDM message and returns it; if it does not fit it
    fails and leaves it pending, and if none comes in that time it fails. *)
Theorem receive_awaits n p timeout (w : W) :
  app_ok false true w -> rx_set w = true -> mailbox w = None -> spdm_rx_sem w = 0 ->
  p_buf p = ReceiverBuf -> in_buf p n ->
  8000 <= receive_wait_ms timeout <= 15000 /\
  wp (spdm_device_receive_message (Some n) (Some (Some p)) timeout)
     (fun r w' => app_ok false true w' /\
        match awaited (future w) (receive_wait_ms timeout) with
        | (Some m, _) => received n p m r w'
        | (None, rest) => r = (LIBSPDM_STATUS_RECEIVE_FAIL, Some n) /\ mailbox w' = None /\ future w' = rest
        end) w.
Proof.
  intros Hw Hset Hm Hz Hp Hi. split; [apply receive_wait_range|].
  unfold spdm_device_receive_message. do 2 wp_step.
  assert (Hv : pending_valid w = false) by (by unfold mailbox in Hm; destruct (pending_valid w)).
  rewrite Hv. cbn [negb]. apply wp_bind. unfold k_sem_take.
  eapply wp_mono; [by apply (wait_sem_mail false true (future w))|].
  intros taken w1 (Hw1 & Hs1 & -> & Hm1 & Hz1).
  destruct (awaited (future w) (receive_wait_ms timeout)) as [[m|] rest]; cbn [fst snd negb] in *.
  - apply (wp_mono (take_message n p) (fun r w' => app_ok false true w' /\ rx_set w' = true /\ received n p m r w' /\
      (Z.of_nat (length m) <= n -> future w' = tail (future w1) /\
       (hd [] (future w1) = [] -> spdm_rx_sem w' = spdm_rx_sem w1)))); [|naive_solver].
    apply take_message_spec; try done. by rewrite (same_set _ _ Hs1).
  - apply wp_ret. split_and!; [done..|]. by rewrite (same_future _ _ Hs1).
Qed.

(** C22: A response that is there before the receive leaves the semaphore with a
    count, so the next receive fails at once, without waiting a moment for its
    own response, whatever its timeout. *)
Theorem stale_semaphore n1 p1 t1 n2 p2 t2 m rest (w : W) :
  app_ok false true w -> rx_set w = true -> mailbox w = Some m -> spdm_rx_sem w = 1 -> future w = [] :: rest ->
  p_buf p1 = ReceiverBuf -> in_buf p1 n1 -> Z.of_nat (length m) <= n1 ->
  wp (let! r1 := spdm_device_receive_message (Some n1) (Some (Some p1)) t1 in
      let! r2 := spdm_device_receive_message (Some n2) (Some (Some p2)) t2 in
      ret (r1, r2))
     (fun '(r1, r2) w' => r1 = (LIBSPDM_STATUS_SUCCESS, Some (Z.of_nat (length m))) /\
        r2 = (LIBSPDM_STATUS_RECEIVE_FAIL, Some n2) /\ future w' = rest) w.
Proof.
  intros Hw Hset Hm Hone Hf Hp Hi Hn. apply wp_bind.
  destruct (mailbox_length _ _ _ _ Hw Hm) as (Hv & _). unfold spdm_device_receive_message at 1.
  do 2 wp_step. rewrite Hv. cbn [negb]. apply wp_bind, wp_ret. cbn [negb].
  apply (wp_mono (take_message n1 p1) (fun r w' => app_ok false true w' /\ rx_set w' = true /\ received n1 p1 m r w' /\
    (Z.of_nat (length m) <= n1 -> future w' = tail (future w) /\
     (hd [] (future w) = [] -> spdm_rx_sem w' = spdm_rx_sem w)))); [by apply take_message_spec|].
  intros r1 w1 (Hw1 & _ & Hr & Hfut). destruct (Hfut Hn) as [Hf1 Hz]. rewrite Hf in *. specialize (Hz eq_refl).
  unfold received in Hr. rewrite (proj2 (Z.leb_le _ _)) in Hr by lia. destruct Hr as (-> & _ & Hm1).
  assert (Hv1 : pending_valid w1 = false) by (by unfold mailbox in Hm1; destruct (pending_valid w1)).
  apply wp_bind. unfold spdm_device_receive_message. do 2 wp_step. rewrite Hv1. cbn [negb].
  apply wp_bind. eapply (wp_of_eq _ _ _ true (set_spdm_rx_sem 0 w1)).
  { unfold k_sem_take. rewrite Hf1. cbn [tail]. destruct rest; cbn [wait_sem]; by rewrite Hz, Hone. }
  cbn [negb]. do 4 wp_step. cbn [pending_valid set_spdm_rx_sem]. rewrite Hv1. cbn [negb orb].
  by do 2 apply wp_ret.
Qed.
End Recv.
