(* ===== verification/SpdmConfig.v ===== *)
(** The data the SPDM programs are set up with: the certificate that
    [parse_first_der] cuts out, the settings the two programs give libspdm, and the
    key pair and events of the device. *)

From S2P Require Import Prelude ZephyrSvc SpdmDefs SpdmCerts SpdmSecret SpdmApp SpdmSpec.
From S2P Require Import SpdmResponder SpdmRequester.

(** * Certificates *)

(** DER of a SEQUENCE: the shortest length that can hold it. *)
Definition der_length (n : Z) : list Z :=
  if n <? 128 then [n]
  else if n <? 256 then [0x81; n]
  else [0x82; n / 256; n mod 256].
Definition der_sequence (content : list Z) : list Z :=
  0x30 :: der_length (Z.of_nat (length content)) ++ content.

Notation parse_first_der := SpdmRequester.parse_first_der.

(** The tests of the code on a blob of at least two bytes. *)
Lemma parse_cons b1 t n :
  n = Z.of_nat (length (0x30 :: b1 :: t)) ->
  parse_first_der (Some (0x30 :: b1 :: t)) n =
    match
      (if b1 <? 0x80 then Some (b1, 2)
       else if b1 =? 0x81 then match t with b2 :: _ => Some (b2, 3) | _ => None end
       else if b1 =? 0x82 then match t with b2 :: b3 :: _ => Some (Z.lor (Z.shiftl b2 8) b3, 4) | _ => None end
       else None)
    with
    | Some (len, hdr) => Ret (if hdr + len <=? n then Some (hdr + len) else None)
    | None => Ret None
    end.
Proof.
  intros ->. unfold SpdmRequester.parse_first_der. cbn [length].
  rewrite (proj2 (Z.ltb_ge _ 2)) by lia. rewrite (arr_get_Ret _ 0 0x30), (arr_get_Ret _ 1 b1) by done.
  assert (Hend : forall len hdr m, (if hdr + len >? m then Ret None else Ret (Some (hdr + len))) =
    Ret (if hdr + len <=? m then Some (hdr + len) else None)).
  { intros len hdr m. rewrite Z.gtb_ltb, Z.ltb_antisym. by destruct (_ <=? m). }
  cbn [rbind Z.eqb Pos.eqb negb]. destruct (b1 <? 128); [apply Hend|].
  destruct (b1 =? 0x81) eqn:E1; cbn [andb].
  - destruct t as [|b2 t]; [apply Z.eqb_eq in E1; by rewrite E1|].
    rewrite Z.geb_leb, (proj2 (Z.leb_le 3 _)) by (cbn [length]; lia).
    rewrite (arr_get_Ret _ 2 b2) by done. apply Hend.
  - destruct (b1 =? 0x82); cbn [andb]; [|done].
    destruct t as [|b2 [|b3 t]]; [done|done|].
    rewrite Z.geb_leb, (proj2 (Z.leb_le 4 _)) by (cbn [length]; lia).
    rewrite (arr_get_Ret _ 2 b2), (arr_get_Ret _ 3 b3) by done. apply Hend.
Qed.

(** C31: [parse_first_der] finds exactly the first certificate of any blob that
    starts with one of less than 64 KiB; and on every blob it stays inside and
    returns no more than there is. *)
Theorem parse_first_der_spec :
  (forall content rest, Z.of_nat (length content) < 65536 ->
     let blob := der_sequence content ++ rest in
     parse_first_der (Some blob) (Z.of_nat (length blob)) = Ret (Some (Z.of_nat (length (der_sequence content))))) /\
  (forall blob, bytes blob -> rwp (parse_first_der (Some blob) (Z.of_nat (length blob)))
     (fun r => match r with Some n => 2 <= n <= Z.of_nat (length blob) | None => True end)).
Proof.
  split.
  - intros content rest Hn. unfold der_sequence, der_length. set (n := Z.of_nat (length content)) in *.
    assert (0 <= n) by lia. cbn zeta.
    destruct (Z.ltb_spec n 128) as [H1|H1]; [|destruct (Z.ltb_spec n 256) as [H2|H2]];
      cbn [Datatypes.app]; rewrite (parse_cons _ _ _ eq_refl).
    + rewrite (proj2 (Z.ltb_lt n 0x80)) by lia. rewrite (proj2 (Z.leb_le _ _)); [f_equal; f_equal|];
        cbn [length]; rewrite ?length_app; lia.
    + cbn [Z.ltb Z.eqb Z.compare Pos.compare Pos.compare_cont Pos.eqb].
      rewrite (proj2 (Z.leb_le _ _)); [f_equal; f_equal|]; cbn [length]; rewrite ?length_app; lia.
    + cbn [Z.ltb Z.eqb Z.compare Pos.compare Pos.compare_cont Pos.eqb].
      rewrite lor_shiftl_add by (Z.div_mod_to_equations; lia).
      rewrite (proj2 (Z.leb_le _ _)); [f_equal; f_equal|]; cbn [length]; rewrite ?length_app;
        Z.div_mod_to_equations; lia.
  - intros blob Hb. destruct (decide (hd 0 blob = 0x30)) as [Hh|Hh].
    + destruct blob as [|b0 [|b1 t]]; [done|done|]. cbn in Hh. subst b0. rewrite (parse_cons _ _ _ eq_refl).
      apply Forall_cons in Hb as [_ Hb]. apply Forall_cons in Hb as [H1 Ht].
      assert (Hend : forall len hdr, 2 <= hdr -> 0 <= len ->
        rwp (Ret (if hdr + len <=? Z.of_nat (length (0x30 :: b1 :: t)) then Some (hdr + len) else None))
          (fun r => match r with Some n => 2 <= n <= Z.of_nat (length (0x30 :: b1 :: t)) | None => True end)).
      { intros len hdr H2 H3. destruct (Z.leb_spec (hdr + len) (Z.of_nat (length (0x30 :: b1 :: t)))); cbn [rwp]; lia. }
      unfold is_u8 in *. destruct (b1 <? 0x80); [apply Hend; lia|].
      destruct (b1 =? 0x81).
      { destruct t as [|b2 t]; [done|]. apply Forall_cons in Ht as [? _]. apply Hend; lia. }
      destruct (b1 =? 0x82); [|done]. destruct t as [|b2 [|b3 t]]; [done|done|].
      apply Forall_cons in Ht as [? Ht]. apply Forall_cons in Ht as [? _]. apply Hend; [lia|].
      apply Z.lor_nonneg. split; [apply Z.shiftl_nonneg|]; lia.
    + unfold SpdmRequester.parse_first_der. destruct blob as [|b0 [|b1 t]]; [done|done|].
      rewrite (proj2 (Z.ltb_ge _ 2)) by (cbn [length]; lia). rewrite (arr_get_Ret _ 0 b0) by done.
      cbn [rbind hd] in *. by rewrite (proj2 (Z.eqb_neq b0 0x30)).
Qed.

(** * Settings *)

Section Settings.
Context {E : Type} `{!SpdmConst, !SpdmSvc E}.
Notation W := (app E).
Notation AM := (ST W).
Notation settings := (list (libspdm_data_type * list Z)).

(** Settings given to libspdm as local data of slot 0, in order. *)
Fixpoint apply_settings (ctx : Z) (l : settings) : AM unit :=
  match l with
  | [] => skip
  | (t, v) :: l =>
    do! call_out (libspdm_set_data ctx t (mk_parameter LOCATION_LOCAL [0; 0; 0; 0]) v) in apply_settings ctx l
  end.

(** What both programs offer in NEGOTIATE_ALGORITHMS and GET_VERSION. *)
Definition negotiated : settings :=
  [ (DATA_SPDM_VERSION, le_split 2 (Z.shiftl SPDM_MESSAGE_VERSION_13 SPDM_VERSION_NUMBER_SHIFT_BIT));
    (DATA_CAPABILITY_CT_EXPONENT, [0]);
    (DATA_BASE_HASH_ALGO, le_split 4 BASE_HASH_ALGO_TPM_ALG_SHA_256);
    (DATA_BASE_ASYM_ALGO, le_split 4 BASE_ASYM_ALGO_TPM_ALG_ECDSA_ECC_NIST_P256);
    (DATA_MEASUREMENT_SPEC, [0]);
    (DATA_MEASUREMENT_HASH_ALGO, [0; 0; 0; 0]);
    (DATA_DHE_NAME_GROUP, le_split 2 DHE_NAMED_GROUP_SECP_256_R1);
    (DATA_AEAD_CIPHER_SUITE, le_split 2 AEAD_CIPHER_SUITE_AES_128_GCM);
    (DATA_REQ_BASE_ASYM_ALG, [0; 0]);
    (DATA_KEY_SCHEDULE, le_split 2 KEY_SCHEDULE_HMAC_HASH);
    (DATA_OTHER_PARAMS_SUPPORT,
      le_split 1 (Z.lor SPDM_ALGORITHMS_OPAQUE_DATA_FORMAT_1 SPDM_ALGORITHMS_MULTI_KEY_CONN)) ].

(** The settings of the responder after those, from its device [h] and its chain. *)
Definition device_settings (h : hal_state) : settings :=
  [ (DATA_LOCAL_PUBLIC_CERT_CHAIN, g_spdm_cert_chain);
    (DATA_LOCAL_SUPPORTED_SLOT_MASK, [g_key_slot_mask h]);
    (DATA_TOTAL_KEY_PAIRS, [SPDM_SAMPLE_KEY_PAIR_COUNT]);
    (DATA_LOCAL_KEY_PAIR_ID, [SPDM_SAMPLE_KEY_PAIR_ID]);
    (DATA_LOCAL_CERT_INFO, le_split 1 SPDM_CERTIFICATE_INFO_CERT_MODEL_DEVICE_CERT);
    (DATA_LOCAL_KEY_USAGE_BIT_MASK, le_split 2 (g_key_usage h)) ].

Definition responder_settings : settings :=
  take 2 negotiated ++ [(DATA_CAPABILITY_FLAGS, le_split 4 SpdmResponder.capability_flags)] ++
  drop 2 negotiated ++ device_settings hal_static.
Definition requester_settings : settings :=
  [ (DATA_CAPABILITY_DATA_TRANSFER_SIZE, le_split 4 SPDM_MAX_MSG_SIZE);
    (DATA_CAPABILITY_MAX_SPDM_MSG_SIZE, le_split 4 SPDM_MAX_MSG_SIZE);
    (DATA_CAPABILITY_FLAGS, le_split 4 SpdmRequester.capability_flags) ] ++ drop 2 negotiated.

(** The rest of the settings after one of them. *)
Lemma settings_step ctx t v l (k : AM unit) w :
  (forall w, k w = apply_settings ctx l w) ->
  bind (do! call_out (libspdm_set_data ctx t (mk_parameter LOCATION_LOCAL [0; 0; 0; 0]) v) in skip)
    (fun _ => k) w = apply_settings ctx ((t, v) :: l) w.
Proof.
  intros Hk. cbn [apply_settings]. unfold bind, call_out, skip, ret.
  destruct (libspdm_set_data _ _ _ _ _) as [r e]. cbn [rbind]. apply Hk.
Qed.

Lemma settings_last ctx t v (w : W) :
  (do! call_out (libspdm_set_data ctx t (mk_parameter LOCATION_LOCAL [0; 0; 0; 0]) v) in skip) w =
  apply_settings ctx [(t, v)] w.
Proof. done. Qed.

Ltac settings_run := repeat (refine (settings_step _ _ _ _ _ _ _); intros ?); apply settings_last.

(** C33: Both programs give libspdm the same version and algorithms, so a
    negotiation between them can succeed; the key pair the responder announces is
    that of its device; and the requester's root certificate is the first
    of the two in the responder's chain, whose header has the chain's length. *)
Theorem settings_agree :
  (forall ctx (w : W), SpdmResponder.set_local_data ctx w = apply_settings ctx responder_settings w) /\
  (forall ctx (w : W), SpdmRequester.set_version_data ctx w = apply_settings ctx (take 2 negotiated) w) /\
  (forall ctx (w : W), SpdmRequester.set_local_data ctx w = apply_settings ctx requester_settings w) /\
  exists header ca device n,
    parse_first_der (Some (drop (Z.to_nat SpdmRequester.der_offset) g_spdm_cert_chain))
      (g_spdm_cert_chain_len - SpdmRequester.der_offset) = Ret (Some n) /\
    g_spdm_cert_chain = header ++ der_sequence ca ++ der_sequence device /\
    Z.of_nat (length header) = SpdmRequester.der_offset /\ Z.of_nat (length (der_sequence ca)) = n /\
    le_value (take 2 header) = g_spdm_cert_chain_len.
Proof.
  split; [|split; [|split]].
  - intros ctx w. unfold SpdmResponder.set_local_data. cbv zeta. settings_run.
  - intros ctx w. settings_run.
  - intros ctx w. unfold SpdmRequester.set_local_data. cbv zeta. settings_run.
  - exists (take 36 g_spdm_cert_chain), (take 433 (drop 40 g_spdm_cert_chain)),
      (drop 477 g_spdm_cert_chain), 437. by vm_compute.
Qed.
End Settings.

(** * The device *)

Section Device.
Context `{!SpdmConst, !SpdmLaws}.

Lemma change_operation h id usage asym mask :
  0 <= id ->
  libspdm_write_key_pair_info id SPDM_SET_KEY_PAIR_INFO_CHANGE_OPERATION usage asym mask true h =
    if id =? 1 then
      (true, Some false, mk_hal (g_event_subscribed h) (g_event_session_id h)
        (if usage =? 0 then g_key_usage h else usage) (if asym =? 0 then g_key_asym h else asym) mask)
    else (false, None, h).
Proof.
  intros Hid. unfold libspdm_write_key_pair_info, SPDM_SAMPLE_KEY_PAIR_COUNT. rewrite Z.gtb_ltb.
  pose proof operations_distinct as Hd. apply NoDup_cons in Hd as [Hd _].
  rewrite not_elem_of_cons in Hd. destruct Hd as [Hne _].
  destruct (Z.eqb_spec id 1) as [->|Hn1].
  - cbn [Z.eqb Z.ltb Z.compare Pos.compare Pos.compare_cont orb negb].
    rewrite (proj2 (Z.eqb_neq _ _)) by done. rewrite Z.eqb_refl. by destruct (usage =? 0), (asym =? 0).
  - destruct (Z.eqb_spec id 0); [done|]. by rewrite (proj2 (Z.ltb_lt 1 id)) by lia.
Qed.

(** What SET_KEY_PAIR_INFO CHANGE sets, GET_KEY_PAIR_INFO returns, where zero
    keeps a value; writing back what was read changes nothing; and a key pair
    other than 1 is refused without effect. *)
Theorem key_pair_set_get (h : hal_state) id usage asym mask :
  0 <= id ->
  let r := libspdm_write_key_pair_info id SPDM_SET_KEY_PAIR_INFO_CHANGE_OPERATION usage asym mask true h in
  (if id =? 1 then
     fst r = (true, Some false) /\
     exists info, libspdm_read_key_pair_info id None None (snd r) = Ret (true, (Some info, None, None)) /\
       current_key_usage info = (if usage =? 0 then g_key_usage h else usage) /\
       current_asym_algo info = (if asym =? 0 then g_key_asym h else asym) /\
       assoc_cert_slot_mask info = mask /\
       libspdm_write_key_pair_info id SPDM_SET_KEY_PAIR_INFO_CHANGE_OPERATION (current_key_usage info)
         (current_asym_algo info) (assoc_cert_slot_mask info) true (snd r) = r
   else r = ((false, None), h) /\ libspdm_read_key_pair_info id None None h = Ret (false, (None, None, None))).
Proof.
  intros Hid. cbv zeta. rewrite change_operation by done. destruct (Z.eqb_spec id 1) as [->|Hn1].
  - split; [done|]. eexists. split; [done|]. split_and!; [done..|]. rewrite change_operation by lia.
    cbn [Z.eqb Pos.eqb current_key_usage current_asym_algo assoc_cert_slot_mask fst snd g_key_usage g_key_asym].
    do 2 f_equal; by (destruct (usage =? 0), (asym =? 0); case_match).
  - split; [done|]. unfold libspdm_read_key_pair_info, SPDM_SAMPLE_KEY_PAIR_COUNT. rewrite Z.gtb_ltb.
    destruct (Z.eqb_spec id 0); [done|]. by rewrite (proj2 (Z.ltb_lt 1 id)) by lia.
Qed.

(** The fields of an event group in a response: registry, length of the vendor id,
    version, attributes and the types of the events. *)
Definition decode_group (l : list Z) : Z * Z * Z * Z * list Z :=
  let field off n := le_value (take n (drop off l)) in
  (field 0%nat 1%nat, field 1%nat 1%nat, field 4%nat 2%nat, field 6%nat 4%nat,
   (fun i => field (10 + 4 * i)%nat 2%nat) <$> seq 0 (Z.to_nat (field 2%nat 2%nat))).

Lemma decode_dmtf_group :
  decode_group (event_group_bytes (mk_event_group SPDM_REGISTRY_ID_DMTF 0 2 1 0
    SPDM_DMTF_EVENT_TYPE_EVENT_LOST 0 SPDM_DMTF_EVENT_TYPE_CERTIFICATE_CHANGED 0)) =
  (SPDM_REGISTRY_ID_DMTF, 0, 1, 0, [SPDM_DMTF_EVENT_TYPE_EVENT_LOST; SPDM_DMTF_EVENT_TYPE_CERTIFICATE_CHANGED]).
Proof.
  destruct event_ids_u16 as (H1 & H2 & H3). revert H1 H2 H3.
  generalize SPDM_REGISTRY_ID_DMTF SPDM_DMTF_EVENT_TYPE_EVENT_LOST SPDM_DMTF_EVENT_TYPE_CERTIFICATE_CHANGED.
  intros r a b Ha Hb Hr.
  change (decode_group _) with (le_value (le_split 1 r), 0, 1, 0, [le_value (le_split 2 a); le_value (le_split 2 b)]).
  by rewrite !le_value_split.
Qed.

(** GET_SUPPORTED_EVENT_TYPES fills 18 bytes that decode to the DMTF group
    with the events that it must and may have, and leaves the bytes behind them alone; it
    refuses a buffer that is too small and NULL pointers. *)
Theorem event_types_spec (l : list Z) n :
  n <= Z.of_nat (length l) ->
  (forall list len count, list = None \/ len = None \/ count = false ->
     libspdm_event_get_types list len count = Ret (false, (list, len, None))) /\
  if n <? 18 then libspdm_event_get_types (Some l) (Some n) true = Ret (false, (Some l, Some n, None))
  else exists l', libspdm_event_get_types (Some l) (Some n) true = Ret (true, (Some l', Some 18, Some 1)) /\
    drop 18 l' = drop 18 l /\ length l' = length l /\
    decode_group (take 18 l') = (SPDM_REGISTRY_ID_DMTF, 0, 1, 0,
      [SPDM_DMTF_EVENT_TYPE_EVENT_LOST; SPDM_DMTF_EVENT_TYPE_CERTIFICATE_CHANGED]).
Proof.
  intros Hn. split.
  { intros list len count Hnull. unfold libspdm_event_get_types. destruct list, len, count; naive_solver. }
  unfold libspdm_event_get_types, sizeof_event_group. destruct (Z.ltb_spec n 18) as [|Hge]; [done|].
  set (g := event_group_bytes _). assert (Hg : length g = 18%nat) by done.
  rewrite copy_in by lia. cbn [rbind]. change (Z.to_nat 0) with O. rewrite take_0, take_ge by (rewrite Hg; lia).
  eexists. split; [done|]. cbn [Datatypes.app Nat.add]. change (Z.to_nat 18) with 18%nat.
  split_and!.
  - by rewrite drop_app_length' by (rewrite Hg; lia).
  - rewrite length_app, length_drop, Hg. lia.
  - rewrite take_app_length' by (rewrite Hg; lia).
    by apply decode_dmtf_group.
Qed.
End Device.
