(* ===== verification/SpdmSim.v ===== *)
(** A small libspdm, libmctp and USB stack for the witnesses about the SPDM
    programs: the responder library echoes the request it receives, the requester
    library succeeds, and messages that are sent are recorded. *)

From S2P Require Import Prelude ZephyrSvc SpdmDefs SpdmCerts SpdmSecret SpdmApp SpdmSpec SpdmResponder SpdmRspSpec.
From S2P Require Import SpdmServe SpdmRace SpdmRequester SpdmReqSpec SpdmReqFlow SpdmReqRecv SpdmConfig.

(** * Constants, with the values of DSP0274 and libspdm *)

#[export] Instance sim_const : SpdmConst := {|
  LIBSPDM_STATUS_SUCCESS := 0; LIBSPDM_STATUS_SEND_FAIL := 0x80040001;
  LIBSPDM_STATUS_RECEIVE_FAIL := 0x80040002; LIBSPDM_STATUS_ACQUIRE_FAIL := 0x80040003;
  LIBSPDM_STATUS_INVALID_PARAMETER := 0x80010001; LIBSPDM_STATUS_BUFFER_TOO_SMALL := 0x80010004;
  LIBSPDM_STATUS_IS_ERROR := fun s => Z.testbit s 31;
  LIBSPDM_MCTP_TRANSPORT_HEADER_SIZE := 1; LIBSPDM_MCTP_TRANSPORT_TAIL_SIZE := 32;
  LIBSPDM_MAX_CERT_CHAIN_SIZE := 0x1000; MCTP_MESSAGE_TYPE_SPDM := 5; MCTP_MESSAGE_TYPE_SECURED_MCTP := 6;
  SPDM_MESSAGE_VERSION_13 := 0x13; SPDM_VERSION_NUMBER_SHIFT_BIT := 8;
  RESPONSE_CERT_CAP := 0x2; RESPONSE_CHAL_CAP := 0x4; RESPONSE_KEY_EX_CAP := 0x200; RESPONSE_ENCRYPT_CAP := 0x40;
  RESPONSE_MAC_CAP := 0x80; RESPONSE_HANDSHAKE_IN_THE_CLEAR_CAP := 0x8000; RESPONSE_EVENT_CAP := 0x1000000;
  RESPONSE_MULTI_KEY_CAP_NEG := 0x8000000; RESPONSE_GET_KEY_PAIR_INFO_CAP := 0x10000000;
  RESPONSE_SET_KEY_PAIR_INFO_CAP := 0x20000000;
  REQUEST_CERT_CAP := 0x2; REQUEST_ENCRYPT_CAP := 0x40; REQUEST_MAC_CAP := 0x80; REQUEST_KEY_EX_CAP := 0x200;
  REQUEST_HANDSHAKE_IN_THE_CLEAR_CAP := 0x8000; REQUEST_MULTI_KEY_CAP_NEG := 0x8000000;
  BASE_HASH_ALGO_TPM_ALG_SHA_256 := 1; BASE_ASYM_ALGO_TPM_ALG_ECDSA_ECC_NIST_P256 := 0x10;
  DHE_NAMED_GROUP_SECP_256_R1 := 8; AEAD_CIPHER_SUITE_AES_128_GCM := 1; KEY_SCHEDULE_HMAC_HASH := 1;
  SPDM_ALGORITHMS_OPAQUE_DATA_FORMAT_1 := 2; SPDM_ALGORITHMS_MULTI_KEY_CONN := 0x10;
  SPDM_CERTIFICATE_INFO_CERT_MODEL_DEVICE_CERT := 1;
  SPDM_KEY_USAGE_BIT_MASK_KEY_EX_USE := 1; SPDM_KEY_USAGE_BIT_MASK_CHALLENGE_USE := 2;
  SPDM_REGISTRY_ID_DMTF := 0; SPDM_DMTF_EVENT_TYPE_EVENT_LOST := 1;
  SPDM_DMTF_EVENT_TYPE_CERTIFICATE_CHANGED := 4;
  LIBSPDM_EVENT_SUBSCRIBE_ALL := 0; LIBSPDM_EVENT_SUBSCRIBE_NONE := 1; LIBSPDM_EVENT_SUBSCRIBE_LIST := 2;
  SPDM_KEY_PAIR_ASYM_ALGO_CAP_ECC256 := 8; SPDM_KEY_PAIR_CAP_CERT_ASSOC_CAP := 4;
  SPDM_KEY_PAIR_CAP_KEY_USAGE_CAP := 8; SPDM_KEY_PAIR_CAP_ASYM_ALGO_CAP := 0x20;
  SPDM_SET_KEY_PAIR_INFO_CHANGE_OPERATION := 0; SPDM_SET_KEY_PAIR_INFO_ERASE_OPERATION := 1;
  SPDM_SET_KEY_PAIR_INFO_GENERATE_OPERATION := 2;
  SPDM_CHALLENGE_REQUEST_NO_MEASUREMENT_SUMMARY_HASH := 0;
  SPDM_KEY_EXCHANGE_REQUEST_NO_MEASUREMENT_SUMMARY_HASH := 0;
  SPDM_KEY_EXCHANGE_REQUEST_SESSION_POLICY_EVENT_ALL_POLICY := 2 |}.

#[export] Instance sim_const_laws : SpdmLaws.
Proof.
  split; try done.
  - by apply (bool_decide_unpack _).
  - by apply (bool_decide_unpack _).
Qed.

(** * A library *)

(** The messages sent, latest first: endpoint, owner of the tag, tag, bytes. *)
Record lsim : Type := mk_lsim { l_sent : list (Z * bool * Z * list Z); l_heap : Z }.

(** Sends [n] bytes of a buffer that is held. *)
Definition sim_send (b : buf) (n : Z) (k : Z -> lib lsim Z) : lib lsim Z :=
  LCall (DeviceSend (Z.min (Z.max 0 n) 2048) (Some (mk_ptr b 0)) 0) k.

Definition sim_dispatch : lib lsim Z :=
  LCall (AcquireReceiver true) (fun r : Z * option buf =>
  LCall (DeviceReceive (Some 2048) (Some (Some (mk_ptr ReceiverBuf 0))) 0) (fun r : Z * option Z =>
  LCall (ReadBuf ReceiverBuf) (fun l : list Z =>
  LCall (ReleaseReceiver (Some ReceiverBuf)) (fun _ =>
  if LIBSPDM_STATUS_IS_ERROR (fst r) then LRet (fst r) else
  LCall (AcquireSender true) (fun _ =>
  LCall (WriteBuf SenderBuf (take 2048 (l ++ replicate 2048 0))) (fun _ =>
  sim_send SenderBuf (default 0 (snd r)) (fun st =>
  LCall (ReleaseSender (Some SenderBuf)) (fun _ => LRet st)))))))).

Definition sim_api (c : api_call) : lib lsim (api_ret c) :=
  match c return lib lsim (api_ret c) with
  | InitConnection _ _ | SetKeyPairInfo _ _ _ _ _ _ _ | SubscribeEventTypes _ _ _ _ _
  | StopSession _ _ _ => LRet 0
  | GetDigest _ _ =>
    LCall (AcquireSender true) (fun _ =>
    sim_send SenderBuf 4 (fun st => LCall (ReleaseSender (Some SenderBuf)) (fun _ => LRet st)))
  | GetCertificate _ _ _ _ | Challenge _ _ _ => LRet 0
  | GetKeyPairInfo _ _ _ _ => LRet (0, mk_key_pair_info 0x2c 3 3 8 8 1)
  | StartSession _ _ _ _ _ => LRet (0, 0xfffefffe)
  | GetEventTypes _ _ _ => LRet (0, (1, 18, replicate 18 0))
  | VendorSendReceive _ _ _ _ _ _ _ => LRet (0, (4, [0x32; 0x32; 0x32; 0x32]))
  end.

#[export] Instance sim_spdm : SpdmSvc lsim := {|
  libspdm_get_context_size := 4096;
  k_malloc n e := (Some (l_heap e), mk_lsim (l_sent e) (l_heap e + n));
  k_free _ e := e;
  memset_block _ _ _ e := e;
  sys_rand_get n e := (replicate (Z.to_nat n) 7, e);
  libspdm_init_context _ e := (0, e);
  libspdm_register_device_io_func _ e := e;
  libspdm_register_transport_layer_func _ _ _ _ e := e;
  libspdm_register_device_buffer_func _ _ _ e := e;
  libspdm_get_sizeof_required_scratch_buffer _ _ := 2048;
  libspdm_set_scratch_buffer _ _ _ e := e;
  libspdm_set_data _ _ _ _ e := (0, e);
  libspdm_register_vendor_get_id_callback_func _ e := (0, e);
  libspdm_register_vendor_callback_func _ e := (0, e);
  libspdm_check_context _ e := (true, e);
  libspdm_responder_dispatch_message _ := sim_dispatch;
  libspdm_api := sim_api;
  libspdm_asym_get_private_key_from_pem _ _ e := (Some 1, e);
  libspdm_asym_sign_hash _ _ _ _ _ m n e := (true, (m, n), e);
  libspdm_asym_sign _ _ _ _ _ m n e := (true, (m, n), e);
  libspdm_asym_free _ _ e := e;
  mctp_init e := (Some 1, e);
  mctp_register_bus _ _ _ e := e;
  mctp_set_rx_all _ e := e;
  mctp_message_tx _ eid owner tag m e := (0, mk_lsim ((eid, owner, tag, m) :: l_sent e) (l_heap e));
  MCTP_USB_MAX_PACKET_LENGTH := 255;
  MCTP_USB_HEADER_SIZE := 4;
  USBD_MSG_CONFIGURATION := 3;
  sample_usbd_init_device e := (Some 1, e);
  usbd_can_detect_vbus _ _ := false;
  usbd_enable _ e := (0, e) |}.

Lemma sim_send_ok vendor hs hr b n k :
  holds hs hr b = true -> (forall r, lib_ok vendor hs hr (k r)) -> lib_ok vendor hs hr (sim_send b n k).
Proof.
  intros Hb Hk. cbn [sim_send lib_ok call_ok held_after fst snd]. split; [|intros r _; apply Hk].
  split; [done|]. unfold in_buf. cbn [p_off]. lia.
Qed.

Lemma sim_dispatch_ok : lib_ok true false false sim_dispatch.
Proof.
  unfold sim_dispatch. cbn [lib_ok call_ok held_after fst snd]. split; [done|]. intros ra _. split; [by split|].
  intros rr _. split; [done|]. intros l Hl. split; [done|]. intros ? _.
  destruct (LIBSPDM_STATUS_IS_ERROR (fst rr)); [done|]. cbn [lib_ok call_ok held_after fst snd].
  split; [done|]. intros ? _. split.
  { split; [done|]. cbn [call_post] in Hl. by rewrite length_take, length_app, Hl. }
  intros ? _. apply sim_send_ok; [done|]. intros st. cbn [lib_ok call_ok held_after fst snd]. done.
Qed.

#[export] Instance sim_svc_laws : SpdmSvcLaws lsim.
Proof.
  split; [intros ctx; apply sim_dispatch_ok| |done].
  by intros [].
Qed.

(** * Messages and states *)

Definition get_version (eid tag : Z) : frame :=
  mk_frame eid true tag (Some [5; 0x10; 0x84; 0; 0]) 5.
Definition other_type : frame := mk_frame 20 true 0 (Some [0x7e; 0]) 2.

Definition outside : lsim := mk_lsim [] 0x1000.

(** The responder waits, the requester waits for a response. *)
Definition waiting : app lsim :=
  mk_app (Some 1) true (Some 0x1000) (Some 0x2000) (replicate 2048 0) (replicate 2048 0) false false
    (replicate 2048 0) 0 0 0 false 0 0 251 true hal_static [] [] outside.
Definition waiting_service : service :=
  mk_service None (replicate 2048 0) (replicate 2048 0) hal_static outside.

Lemma waiting_app_ok hs hr : app_ok hs hr (set_receiver_in_use hr (set_sender_in_use hs waiting)).
Proof. split; done. Qed.

Lemma waiting_sim hs hr :
  sim 1 (Some 0x1000) 0 0 (set_receiver_in_use hr (set_sender_in_use hs waiting)) waiting_service.
Proof. by split. Qed.

Lemma get_version_ok eid tag : frame_ok (get_version eid tag).
Proof. done. Qed.

Lemma get_version_accepted eid tag : accepts (get_version eid tag) = Some [5; 0x10; 0x84; 0; 0].
Proof. done. Qed.

(** * Witnesses *)

(** The request of endpoint 20 arrives in time. *)
Lemma responder_defined_witness :
  wp (SpdmResponder.main 2) (fun _ w => app_ok false false w)
    (app_static 0 [[UsbMsg 3]; []; [Rx (get_version 20 1)]; [Rx other_type]] outside).
Proof. apply responder_defined. repeat constructor. Defined.

(** Two clients, and a message that is none. *)
Lemma serve_refines_witness :
  wp (serve_all [get_version 20 1; other_type; get_version 21 2])
    (fun rs w' => exists s', answer_all 1 (Some 0x1000) [get_version 20 1; other_type; get_version 21 2]
      waiting_service = Ret (rs, s') /\ idle 1 (Some 0x1000) w' s') waiting.
Proof.
  apply serve_refines; [repeat constructor|]. split; [apply (waiting_app_ok false false)|].
  exists 0, 0. apply (waiting_sim false false).
Defined.

(** What the reference answers there: each request goes back to its sender. *)
Example answers_go_back :
  match answer_all 1 (Some 0x1000) [get_version 20 1; other_type; get_version 21 2] waiting_service with
  | Ret (rs, s) => rs = [Some 0; None; Some 0] /\
      l_sent (s_ext s) = [(21, false, 2, [5; 0x10; 0x84; 0; 0]); (20, false, 1, [5; 0x10; 0x84; 0; 0])]
  | _ => False
  end.
Proof. by vm_compute. Qed.

Lemma response_misrouted_witness :
  exists w s, wp (do! usb_turn SpdmResponder.rx_message in
      SpdmResponder.handle (DeviceSend 5 (Some (mk_ptr SenderBuf 0)) 0))
     (fun r w' => exists rc e,
        mctp_message_tx 1 21 false 2 (take 5 (drop 0 (s_sbuf s))) (s_ext s) = (rc, e) /\
        ext w' = e /\ r = if rc =? 0 then LIBSPDM_STATUS_SUCCESS else LIBSPDM_STATUS_SEND_FAIL)
     (set_future [[Rx (get_version 21 2)]] w).
Proof.
  exists (set_receiver_in_use false (set_sender_in_use true waiting)), waiting_service.
  apply (response_misrouted 1 (Some 0x1000) 0 0 (get_version 21 2) [5; 0x10; 0x84; 0; 0] 5 (mk_ptr SenderBuf 0) 0);
    [done|done|apply waiting_app_ok|apply waiting_sim|done|by split_and!|done].
Defined.

Lemma requester_follows_witness :
  wp SpdmRequester.main (fun r w => app_ok false false w /\
      match r with
      | Ran z => exists ctx, conforms (script ctx) [] (calls w) z
      | _ => calls w = [] end)
    (app_static 0 [[UsbMsg 3]; []; [Rx (get_version 20 1)]] outside).
Proof. apply requester_follows. repeat constructor. Defined.

(** With this library the whole flow runs. *)
Example requester_runs :
  match SpdmRequester.main (app_static 0 [[UsbMsg 3]] outside) with
  | Ret (r, w) => r = Ran 0 /\ length (calls w) = 15%nat
  | _ => False
  end.
Proof. by vm_compute. Qed.

Lemma receive_awaits_witness :
  exists w, 8000 <= receive_wait_ms 100000 <= 15000 /\
  wp (SpdmRequester.spdm_device_receive_message (Some 2048) (Some (Some (mk_ptr ReceiverBuf 0))) 100000)
     (fun r w' => app_ok false true w' /\
        match awaited (future w) (receive_wait_ms 100000) with
        | (Some m, _) => received 2048 (mk_ptr ReceiverBuf 0) m r w'
        | (None, rest) => r = (LIBSPDM_STATUS_RECEIVE_FAIL, Some 2048) /\ mailbox w' = None /\ future w' = rest
        end) w.
Proof.
  exists (set_future [[]; [Rx (get_version 20 1)]] (set_receiver_in_use true (set_sender_in_use false waiting))).
  apply receive_awaits; [|done|done|done|done|by split_and!].
  split; try done. repeat constructor.
Defined.

Lemma stale_semaphore_witness :
  exists w rest, wp (
      let! r1 := SpdmRequester.spdm_device_receive_message (Some 2048) (Some (Some (mk_ptr ReceiverBuf 0))) 0 in
      let! r2 := SpdmRequester.spdm_device_receive_message (Some 2048) (Some (Some (mk_ptr ReceiverBuf 0))) 0 in
      ret (r1, r2))
     (fun '(r1, r2) w' => r1 = (LIBSPDM_STATUS_SUCCESS, Some 5) /\
        r2 = (LIBSPDM_STATUS_RECEIVE_FAIL, Some 2048) /\ future w' = rest) w.
Proof.
  exists (set_future [[]; [Rx (get_version 20 2)]] (set_spdm_rx_sem 1 (set_pending_valid true
    (set_pending_rx_len 5 (set_pending_rx ([5; 0x10; 0x04; 0; 0] ++ replicate 2043 0)
      (set_receiver_in_use true waiting)))))), [[Rx (get_version 20 2)]].
  apply (stale_semaphore 2048 (mk_ptr ReceiverBuf 0) 0 2048 (mk_ptr ReceiverBuf 0) 0 [5; 0x10; 0x04; 0; 0]);
    [|done|done|done|done|done|by split_and!|done].
  split; try done. repeat constructor.
Defined.

Lemma parse_first_der_spec_witness :
  parse_first_der (Some (der_sequence [1; 2; 3] ++ [9; 9])) 7 = Ret (Some 5) /\
  rwp (parse_first_der (Some [0x30; 0x82; 1]) 3)
    (fun r => match r with Some n => 2 <= n <= 3 | None => True end).
Proof.
  split; [by apply (proj1 parse_first_der_spec [1; 2; 3] [9; 9])|].
  apply (proj2 parse_first_der_spec [0x30; 0x82; 1]). repeat constructor; done.
Defined.
